(* ===== verification/_CoqProject ===== *)
-Q . S2P
Prelude.v
Lib.v
Alloc.v
Pmm.v
Vmm.v
VmmSpec.v
Blocks.v
Kmalloc.v
Umalloc.v
Ring.v
Net.v
Io.v
Input.v
Time.v
Vfs.v
VfsSpec.v
Sched.v
SchedSpec.v
SchedProc.v
Elf.v
ElfSpec.v
Devfs.v
Tarfs.v
Console.v
ConsoleSpec.v
Irq.v
Smp.v
Pci.v
Virtio.v
VirtioSpec.v
Syscall.v
SyscallSpec.v
SyscallIo.v
Dispatch.v
UserLib.v
UserMem.v
UserText.v
Log.v
Gdb.v
GdbSpec.v
Desc.v
SmpInit.v
Stubs.v
Boot.v
Run.v
Shell.v
ShellMain.v
ShellSpec.v
ShellRun.v
