(* ===== verification/Prelude.v ===== *)
(** * myos1: a verification library for the kernel and its user programs

    The repository is a small 64-bit operating system: a kernel in C
    (src/src, src/include) that boots with multiboot2 on one or more x86-64
    processors, and user programs (src/user) that call it by interrupt 0x80.
    This library translates the C code into executable definitions and proves
    what each part promises to the parts above it.

    ** The parts and the files that model them

    - Machine integers, counted loops, counting (this file).  A C integer is
      a [Z] with its wrap-around written out ([u64], [i32], [+%]); a [for]
      loop is [for_range], or [for_range_exit] when it has an early exit.
    - Lib: memory as bytes at physical addresses (the kernel runs identity
      mapped) and src/lib.c.
    - Alloc, Pmm: the page allocator.  Alloc is its interface ([PageOps],
      [PageLaws]); Pmm is src/pmm.c and discharges the laws.  Everything above
      that takes pages is proved against the interface.
    - Vmm, VmmSpec: src/vmm.c, four-level page tables kept in physical
      memory, seen as a partial map from user pages to entries ([xlate]);
      address spaces with reference counts; the user heap (brk).
    - Blocks, Kmalloc, Umalloc: the two heaps (src/kmalloc.c, user/malloc.c)
      over one view of a linked list of blocks in memory.
    - Ring, Net: bounded queues, and src/net.c (sockets, routes, interfaces).
    - Io, Input, Time: port I/O as a history answered by a device that is a
      parameter; src/input.c, src/rtc.c, src/time.c, src/hpet.c, src/serial.c
      and src/arch/x86_64/pit.c over it.
    - Vfs, VfsSpec: src/vfs.c and src/memfs.c, a tree of nodes in an object
      store in which the links alias as in the code.
    - Sched, SchedSpec, SchedProc: src/scheduler.c, the thread table, context
      switches, fork, exit and wait on several processors.
    - Elf, ElfSpec: src/elf.c.   Tarfs: src/tarfs.c.   Devfs: src/devfs.c over
      the sector interface [BlockOps]/[BlockLaws].
    - Console, ConsoleSpec: src/console.c, the text screen and the
      framebuffer with their escape sequences.   Log: src/log.c over it.
    - Irq, Smp: the interrupt controllers (pic.c, irq.c, apic.c), the tables
      of processors (cpu.c, mp.c) and the tick broadcast of smp.c.   Desc:
      gdt.c and idt.c.   SmpInit: the start of the other processors (smp.c
      with ap_trampoline.S), both sides as steps of an interleaving (all under
      src/arch/x86_64).
    - Pci, Virtio, VirtioSpec: src/pci.c and src/virtio_blk.c against a
      device that answers the queue; the driver discharges [BlockLaws].
    - Syscall, SyscallSpec, SyscallIo: src/syscall.c on the composed state of
      the kernel: every call of the table, user memory through the page
      tables of the active space.   Dispatch: the interrupt dispatcher
      (src/arch/x86_64/interrupt_dispatch.c) over system calls, scheduler,
      controllers and input.
    - Gdb, GdbSpec: src/gdb.c, the remote debugger's packets, registers,
      memory and breakpoints on a stream of received bytes.
    - Stubs: user/syscall.h down to the registers, and the entry and return of
      interrupts.S between a program and the dispatcher.
    - Boot: src/kernel.c, the initialisation functions in their order on the
      composed state, with what the machine and the linker fix in a record.
      Run: the kernel after it, entered again and again.
    - UserLib, UserMem: user/lib.c.   UserText: the text helpers of user/init.c.
      Shell, ShellMain: its commands and its loop over the interface [SysOps]
      of the system calls they make.   ShellSpec: routes, mount table and a
      kernel that answers [SysOps] with tables.   ShellRun: the shell at a
      terminal.

    ** What the theorems show

    The whole: when start-up reaches its idle loop it leaves the first
    processor on its idle thread, and from there no sequence of interrupts,
    traps, system calls and sleeps of kernel threads takes the threads out of
    order, with the debugger attached or not.  Memory: page allocation is
    first fit, the counter of free pages is exact in every reachable state and
    the free pages at the start are those the firmware's map gives; mapping and unmapping act on one page of
    one space and on no memory of others; brk and mmap own exactly the pages
    they should, with the rights asked for, and a failed mmap changes no
    translation; the heaps return blocks that do not overlap, and memory is
    refused only when there is none.  Execution: in every state the scheduler's
    calls, the system calls and the interrupt dispatcher reach, threads,
    processors and ids agree; a tick runs the best thread and a preempted
    thread resumes with its own frame; fork and waitpid on each branch; a
    loaded program sees its segments; every interrupt gate leads to its stub
    and user programs may use one, and a stub's call reaches its handler with
    its arguments and comes back with the result; a fault of a program costs
    that program only; the start of the other processors ends, but with the
    trampoline as it is linked none of them joins (how the protocol would go
    with a trampoline that finds its record is proved beside it); start-up
    leaves a state the rest of the kernel can go on from.  Data: files, disk (through the virtio
    driver), archive, sockets and console input deliver the bytes that were
    put in, through system calls and user memory where programs see them;
    what is printed is what the format asks for.  Debugger: packets, memory
    and breakpoints round trip, and a session leaves the program as it was.
    Programs: addresses, routes and mounts of the shell against reference
    definitions, and a whole round of the shell at its terminal.  Theorems
    about what the code does wrong (a merge of heap blocks that do not touch,
    a kill across processors, adjacent breakpoints and others) are stated
    next to the component and referred to by the findings.

    ** Bounds and fuel

    Loops over linked structures take fuel and return [None] without it; the
    theorems give an amount that suffices (more than the number of blocks, of
    nodes, of 512-byte units of the archive, of pages of a segment) and prove
    that the result is then [Some].  Polling loops on devices are bounded
    where the code bounds them and have fuel where it does not.

    ** What is not modelled

    The switch to long mode in boot.S and the entry of programs in start.S;
    caches of translations; preemption inside the kernel, which the code
    excludes by locks and by running with interrupts off; what a processor
    does that has left the trampoline with the wrong record (SmpInit takes it
    to touch nothing).  Memory has a byte at every address: reads and writes
    of the kernel through addresses a real machine does not map give a result
    here where they fault there, so that the ELF loader is only claimed to be
    right for images whose segments lie in the file and the status pointers
    of wait only where they resolve.  Start-up leaves out the messages of
    parts whose models do not print, and its steps of several processors end
    when the list of events does; that it reaches its idle loop is a
    hypothesis of what is proved about the running kernel. *)

From stdpp Require Import prelude list gmap.
From Stdlib Require Import ZArith Lia Bool.
#[local] Open Scope Z_scope.

(** ** Machine integers

    A [w]-bit integer of the C code is a [Z]; the wrap-around of each
    width is the modulus below.  Signed values are the two's complement
    reading of the same bits. *)

Declare Scope cint_scope.
Delimit Scope cint_scope with C.

Definition W8 : Z := 256.
Definition W16 : Z := 65536.
Definition W32 : Z := 4294967296.
Definition W64 : Z := 18446744073709551616.

Definition u8 (z : Z) : Z := z mod 256.
Definition u16 (z : Z) : Z := z mod 65536.
Definition u32 (z : Z) : Z := z mod 4294967296.
Definition u64 (z : Z) : Z := z mod 18446744073709551616.

(** Two's complement reading of the low bits. *)
Definition i8 (z : Z) : Z := (z + 128) mod 256 - 128.
Definition i32 (z : Z) : Z := (z + 2147483648) mod 4294967296 - 2147483648.
Definition i64 (z : Z) : Z :=
  (z + 9223372036854775808) mod 18446744073709551616 - 9223372036854775808.

(** Unsigned 64-bit arithmetic. *)
Notation "a +% b" := (u64 (a + b)) (at level 50, left associativity) : cint_scope.
Notation "a -% b" := (u64 (a - b)) (at level 50, left associativity) : cint_scope.
Notation "a *% b" := (u64 (a * b)) (at level 40, left associativity) : cint_scope.

(** [~x] on 64 bits. *)
Definition not64 (x : Z) : Z := 18446744073709551615 - x.
(** [~x] on 8 bits. *)
Definition not8 (x : Z) : Z := 255 - x.

Definition is_u8 (z : Z) : Prop := 0 <= z < 256.
Definition is_u16 (z : Z) : Prop := 0 <= z < 65536.
Definition is_u32 (z : Z) : Prop := 0 <= z < 4294967296.
Definition is_u64 (z : Z) : Prop := 0 <= z < 18446744073709551616.

Create HintDb cint.

Ltac unfold_cint :=
  unfold is_u8, is_u16, is_u32, is_u64, u8, u16, u32, u64, i8, i32, i64,
    not64, not8, W8, W16, W32, W64 in *.

(** Linear arithmetic with the wrap-around unfolded. *)
Ltac cint := unfold_cint; Z.div_mod_to_equations; lia.

(** Split the first boolean test of the goal, with the arithmetic fact. *)
Ltac case_b :=
  match goal with
  | |- context [if ?b then _ else _] =>
      let E := fresh "E" in destruct b eqn:E
  end.
Ltac case_b_in H :=
  match type of H with
  | context [if ?b then _ else _] =>
      let E := fresh "E" in destruct b eqn:E
  end.

Lemma u64_small (z : Z) : is_u64 z -> u64 z = z.
Proof. unfold is_u64, u64. apply Z.mod_small. Qed.

Lemma u64_range (z : Z) : is_u64 (u64 z).
Proof. cint. Qed.

Lemma u32_small (z : Z) : is_u32 z -> u32 z = z.
Proof. unfold is_u32, u32. apply Z.mod_small. Qed.

Lemma u8_range (z : Z) : is_u8 (u8 z).
Proof. cint. Qed.

Lemma u8_small (z : Z) : is_u8 z -> u8 z = z.
Proof. unfold is_u8, u8. apply Z.mod_small. Qed.

Lemma u16_small (z : Z) : is_u16 z -> u16 z = z.
Proof. apply Z.mod_small. Qed.

Lemma i32_small (z : Z) : -2147483648 <= z < 2147483648 -> i32 z = z.
Proof. cint. Qed.

Lemma i64_small (z : Z) :
  -9223372036854775808 <= z < 9223372036854775808 -> i64 z = z.
Proof. cint. Qed.

(** Fields packed side by side add up. *)
Lemma lor_add (hi lo k : Z) :
  0 <= k -> 0 <= lo < 2 ^ k -> Z.lor (Z.shiftl hi k) lo = hi * 2 ^ k + lo.
Proof.
  intros Hk Hlo. rewrite <- Z.shiftl_mul_pow2 by done.
  assert (Hd : Z.land (Z.shiftl hi k) lo = 0).
  { apply Z.bits_inj'. intros i Hi. rewrite Z.land_spec, Z.bits_0.
    destruct (Z.lt_ge_cases i k); [by rewrite Z.shiftl_spec_low|].
    rewrite <- (Z.mod_small lo (2 ^ k)), Z.mod_pow2_bits_high, andb_false_r by lia. done. }
  rewrite <- Z.lxor_lor, Z.add_nocarry_lxor by done. done.
Qed.

Lemma land_ones_mod (x k : Z) : 0 <= k -> Z.land x (2 ^ k - 1) = x mod 2 ^ k.
Proof. intros. rewrite <- Z.land_ones by done. f_equal. rewrite Z.ones_equiv. lia. Qed.

#[export] Hint Resolve u64_range u8_range : cint.

(** ** Counted loops

    [for (i = lo; i < hi; i++) body] is [for_up (hi - lo) lo body]; the
    number of iterations is the structural argument, so every such loop
    terminates.  [for_exit] is the form with an early exit: [inl] carries
    on with the loop state, [inr] leaves the loop with a result. *)

Fixpoint for_up {S : Type} (n : nat) (i : Z) (body : Z -> S -> S) (s : S) : S :=
  match n with
  | O => s
  | Datatypes.S n' => for_up n' (i + 1) body (body i s)
  end.

Definition for_range {S : Type} (lo hi : Z) (body : Z -> S -> S) (s : S) : S :=
  for_up (Z.to_nat (hi - lo)) lo body s.

Fixpoint for_exit {S R : Type} (n : nat) (i : Z) (body : Z -> S -> S + R) (s : S) : S + R :=
  match n with
  | O => inl s
  | Datatypes.S n' =>
      match body i s with
      | inl s' => for_exit n' (i + 1) body s'
      | inr r => inr r
      end
  end.

Definition for_range_exit {S R : Type} (lo hi : Z) (body : Z -> S -> S + R) (s : S) : S + R :=
  for_exit (Z.to_nat (hi - lo)) lo body s.

(** First index [i] of [lo, lo + n) with [p i], the idiom of the table
    scans [for (...) if (...) return i;]. *)
Fixpoint find_up (n : nat) (i : Z) (p : Z -> bool) : option Z :=
  match n with
  | O => None
  | Datatypes.S n' => if p i then Some i else find_up n' (i + 1) p
  end.

Lemma for_up_ind {S : Type} (P : Z -> S -> Prop) (body : Z -> S -> S) :
  forall n lo s,
    P lo s ->
    (forall i s, lo <= i < lo + Z.of_nat n -> P i s -> P (i + 1) (body i s)) ->
    P (lo + Z.of_nat n) (for_up n lo body s).
Proof.
  induction n as [|n IH]; intros lo s H0 Hstep; cbn [for_up].
  - by replace (lo + Z.of_nat 0) with lo by lia.
  - replace (lo + Z.of_nat (Datatypes.S n)) with ((lo + 1) + Z.of_nat n) by lia.
    apply IH; [apply Hstep; [lia|done]|].
    intros i s' Hi; apply Hstep; lia.
Qed.

Lemma for_range_ind {S : Type} (P : Z -> S -> Prop) (body : Z -> S -> S) lo hi s :
  lo <= hi ->
  P lo s ->
  (forall i s, lo <= i < hi -> P i s -> P (i + 1) (body i s)) ->
  P hi (for_range lo hi body s).
Proof.
  intros Hle H0 Hstep. unfold for_range.
  replace hi with (lo + Z.of_nat (Z.to_nat (hi - lo))) at 1 by lia.
  apply for_up_ind; [done|]. intros i s' Hi; apply Hstep; lia.
Qed.

Lemma for_range_empty {S : Type} (body : Z -> S -> S) lo hi s :
  hi <= lo -> for_range lo hi body s = s.
Proof. intros. unfold for_range. by replace (Z.to_nat (hi - lo)) with O by lia. Qed.

Lemma for_exit_ind {S R : Type} (P : Z -> S -> Prop) (Q : R -> Prop)
    (body : Z -> S -> S + R) :
  forall n lo s,
    P lo s ->
    (forall i s, lo <= i < lo + Z.of_nat n -> P i s ->
       match body i s with inl s' => P (i + 1) s' | inr r => Q r end) ->
    match for_exit n lo body s with
    | inl s' => P (lo + Z.of_nat n) s'
    | inr r => Q r
    end.
Proof.
  induction n as [|n IH]; intros lo s H0 Hstep; cbn [for_exit].
  - by replace (lo + Z.of_nat 0) with lo by lia.
  - pose proof (Hstep lo s ltac:(lia) H0) as H1.
    destruct (body lo s) as [s'|r]; [|done].
    replace (lo + Z.of_nat (Datatypes.S n)) with ((lo + 1) + Z.of_nat n) by lia.
    apply IH; [done|]. intros i s'' Hi; apply Hstep; lia.
Qed.

Lemma find_up_Some n lo p i :
  find_up n lo p = Some i ->
  lo <= i < lo + Z.of_nat n /\ p i = true /\ forall j, lo <= j < i -> p j = false.
Proof.
  revert lo. induction n as [|n IH]; intros lo; cbn [find_up]; [done|].
  destruct (p lo) eqn:E.
  - intros [= <-]. split; [lia|]. split; [done|]. intros; lia.
  - intros (? & ? & H3)%IH. split; [lia|]. split; [done|].
    intros j Hj. destruct (decide (j = lo)) as [->|]; [done|]. apply H3; lia.
Qed.

Lemma find_up_None n lo p :
  find_up n lo p = None <-> forall j, lo <= j < lo + Z.of_nat n -> p j = false.
Proof.
  revert lo. induction n as [|n IH]; intros lo; cbn [find_up].
  - split; [intros _ j ?; lia|done].
  - destruct (p lo) eqn:E.
    + split; [done|]. intros H. rewrite H in E by lia. done.
    + rewrite IH. split; intros H j Hj; [|apply H; lia].
      destruct (decide (j = lo)) as [->|]; [done|]. apply H; lia.
Qed.

(** Counting the indices of a range that satisfy a test. *)
Fixpoint count_up (n : nat) (i : Z) (p : Z -> bool) : Z :=
  match n with
  | O => 0
  | Datatypes.S n' => Z.b2z (p i) + count_up n' (i + 1) p
  end.

Lemma count_up_bounds n lo p : 0 <= count_up n lo p <= Z.of_nat n.
Proof.
  revert lo. induction n as [|n IH]; intros lo; cbn [count_up]; [lia|].
  pose proof (IH (lo + 1)). destruct (p lo); cbn [Z.b2z]; lia.
Qed.

Lemma count_up_ext n lo p q :
  (forall i, lo <= i < lo + Z.of_nat n -> p i = q i) ->
  count_up n lo p = count_up n lo q.
Proof.
  revert lo. induction n as [|n IH]; intros lo H; cbn [count_up]; [done|].
  rewrite (H lo) by lia. rewrite (IH (lo + 1)); [done|]. intros; apply H; lia.
Qed.

(** Changing the test at one index changes the count by that index. *)
Lemma count_up_upd n lo p q k :
  lo <= k < lo + Z.of_nat n ->
  (forall i, i <> k -> p i = q i) ->
  count_up n lo q = count_up n lo p - Z.b2z (p k) + Z.b2z (q k).
Proof.
  revert lo. induction n as [|n IH]; intros lo Hk H; cbn [count_up]; [lia|].
  destruct (decide (k = lo)) as [->|].
  - rewrite (count_up_ext n (lo + 1) q p); [lia|].
    intros i Hi; symmetry; apply H; lia.
  - rewrite (IH (lo + 1)) by (done || lia). rewrite (H lo) by lia. lia.
Qed.

Lemma count_up_pos n lo p k :
  lo <= k < lo + Z.of_nat n -> p k = true -> 0 < count_up n lo p.
Proof.
  intros Hk Hp.
  rewrite (count_up_upd n lo (fun i => if i =? k then false else p i) p k).
  - rewrite Z.eqb_refl, Hp; cbn [Z.b2z].
    pose proof (count_up_bounds n lo (fun i => if i =? k then false else p i)). lia.
  - done.
  - intros i Hi. rewrite (proj2 (Z.eqb_neq i k)) by done. done.
Qed.

Lemma count_up_split n m lo p :
  count_up (n + m) lo p = count_up n lo p + count_up m (lo + Z.of_nat n) p.
Proof.
  revert lo. induction n as [|n IH]; intros lo; cbn [count_up Nat.add].
  - by replace (lo + Z.of_nat 0) with lo by lia.
  - rewrite IH. replace (lo + 1 + Z.of_nat n) with (lo + Z.of_nat (Datatypes.S n)) by lia. lia.
Qed.

(** A loop left by [break] and one that ran to its end meet in the same
    state. *)
Definition brk {S : Type} (r : S + S) : S := match r with inl s => s | inr s => s end.

Lemma brk_ind {S : Type} (P : Z -> S -> Prop) (Q : S -> Prop) (body : Z -> S -> S + S) lo hi s :
  lo <= hi ->
  P lo s ->
  (forall i s, lo <= i < hi -> P i s ->
     match body i s with inl s' => P (i + 1) s' | inr s' => Q s' end) ->
  (forall s, P hi s -> Q s) ->
  Q (brk (for_range_exit lo hi body s)).
Proof.
  intros Hle H0 Hstep HQ. unfold for_range_exit.
  pose proof (for_exit_ind P Q body (Z.to_nat (hi - lo)) lo s H0) as H.
  replace (lo + Z.of_nat (Z.to_nat (hi - lo))) with hi in H by lia.
  specialize (H Hstep).
  destruct (for_exit _ _ _ _); cbn [brk]; [by apply HQ|done].
Qed.
