(* ===== verification/Lib.v ===== *)
(** * Physical memory and the C support library (src/lib.c)

    The kernel runs identity mapped, so a pointer is a physical address.
    Memory is a total map from addresses to byte cells; loads take the
    low 8 bits of a cell, so two memories are equal for the program when
    they agree on every loaded byte ([mem_eq]).  The routines of
    src/lib.c are the loops of the source; [mem_fill] and [mem_copy] are
    their closed forms, which the other components use. *)

From stdpp Require Import prelude list.
From Stdlib Require Import ZArith Lia.
From S2P Require Import Prelude.
#[local] Open Scope Z_scope.
#[local] Open Scope cint_scope.

(** ** Memory *)

Definition mem : Type := Z -> Z.

Definition ld8 (m : mem) (a : Z) : Z := u8 (m a).

(** Little-endian load of [n] bytes. *)
Fixpoint ldn (n : nat) (m : mem) (a : Z) : Z :=
  match n with
  | O => 0
  | S n' => ld8 m a + 256 * ldn n' m (a + 1)
  end.

Definition in_range (a n x : Z) : bool := (a <=? x) && (x <? a + n).

(** Little-endian store of [n] bytes. *)
Definition stn (n : nat) (m : mem) (a v : Z) : mem :=
  fun x => if in_range a (Z.of_nat n) x then v / 256 ^ (x - a) else m x.

Definition st8 (m : mem) (a v : Z) : mem := fun x => if x =? a then u8 v else m x.

Abbreviation ld16 := (ldn 2).
Abbreviation ld32 := (ldn 4).
Abbreviation ld64 := (ldn 8).
Abbreviation st32 := (stn 4).
Abbreviation st64 := (stn 8).

Definition mem_fill (m : mem) (dst v n : Z) : mem :=
  fun x => if in_range dst n x then v else m x.

Definition mem_copy (m : mem) (dst src n : Z) : mem :=
  fun x => if in_range dst n x then ld8 m (src + (x - dst)) else m x.

(** Store a list of bytes at [a]. *)
Definition mem_put (m : mem) (a : Z) (bs : list Z) : mem :=
  fun x => if in_range a (Z.of_nat (length bs)) x
           then nth (Z.to_nat (x - a)) bs 0 else m x.

Definition mem_eq (m1 m2 : mem) : Prop := forall a, ld8 m1 a = ld8 m2 a.

#[export] Instance mem_eq_equiv : Equivalence mem_eq.
Proof. split; intros ?; [done|..]; unfold mem_eq; intros; congruence. Qed.

Lemma in_range_true a n x : in_range a n x = true <-> a <= x < a + n.
Proof. unfold in_range. rewrite andb_true_iff, Z.leb_le, Z.ltb_lt. lia. Qed.

Lemma in_range_false a n x : in_range a n x = false <-> x < a \/ a + n <= x.
Proof. unfold in_range. rewrite andb_false_iff, Z.leb_gt, Z.ltb_ge. lia. Qed.

Ltac in_range_cases :=
  repeat match goal with
  | |- context [in_range ?a ?n ?x] =>
      let E := fresh "E" in
      destruct (in_range a n x) eqn:E;
      [apply in_range_true in E | apply in_range_false in E]
  end.

Lemma ld8_range m a : is_u8 (ld8 m a).
Proof. apply u8_range. Qed.

Lemma ldn_range n m a : 0 <= ldn n m a < 256 ^ Z.of_nat n.
Proof.
  revert a. induction n as [|n IH]; intros a; cbn [ldn].
  - change (256 ^ Z.of_nat 0) with 1. lia.
  - replace (Z.of_nat (S n)) with (Z.of_nat n + 1) by lia.
    rewrite Z.pow_add_r by lia.
    pose proof (IH (a + 1)). pose proof (ld8_range m a). unfold is_u8 in *. lia.
Qed.

Lemma ld64_range m a : is_u64 (ld64 m a).
Proof. pose proof (ldn_range 8 m a). unfold is_u64. lia. Qed.

Lemma ldn_ext n m1 m2 a :
  (forall x, a <= x < a + Z.of_nat n -> ld8 m1 x = ld8 m2 x) ->
  ldn n m1 a = ldn n m2 a.
Proof.
  revert a. induction n as [|n IH]; intros a H; cbn [ldn]; [done|].
  rewrite (H a) by lia. rewrite (IH (a + 1)); [done|]. intros; apply H; lia.
Qed.

#[export] Instance ldn_proper n : Proper (mem_eq ==> eq ==> eq) (ldn n).
Proof. intros m1 m2 H a ? <-. apply ldn_ext. intros; apply H. Qed.

#[export] Instance stn_proper n : Proper (mem_eq ==> eq ==> eq ==> mem_eq) (stn n).
Proof.
  intros m1 m2 H a ? <- v ? <- x. specialize (H x). unfold stn, ld8 in *.
  by destruct (in_range a (Z.of_nat n) x).
Qed.

#[export] Instance mem_fill_proper : Proper (mem_eq ==> eq ==> eq ==> eq ==> mem_eq) mem_fill.
Proof.
  intros m1 m2 H a ? <- v ? <- n ? <- x. specialize (H x).
  unfold mem_fill, ld8 in *. by destruct (in_range a n x).
Qed.

Lemma ld8_stn n m a v x :
  ld8 (stn n m a v) x =
  if in_range a (Z.of_nat n) x then u8 (v / 256 ^ (x - a)) else ld8 m x.
Proof. unfold ld8, stn. by destruct (in_range a (Z.of_nat n) x). Qed.

Lemma ld8_fill m d v n x :
  ld8 (mem_fill m d v n) x = if in_range d n x then u8 v else ld8 m x.
Proof. unfold ld8, mem_fill. by destruct (in_range d n x). Qed.

Lemma ld8_copy m d s n x :
  ld8 (mem_copy m d s n) x = if in_range d n x then ld8 m (s + (x - d)) else ld8 m x.
Proof.
  unfold mem_copy. unfold ld8 at 1. destruct (in_range d n x); [|done].
  apply u8_small, ld8_range.
Qed.

(** A store leaves disjoint loads alone. *)
Lemma ldn_stn_other n k m a b v :
  b + Z.of_nat k <= a \/ a + Z.of_nat n <= b ->
  ldn k (stn n m a v) b = ldn k m b.
Proof.
  intros H. apply ldn_ext. intros x Hx. rewrite ld8_stn. in_range_cases; [lia|done].
Qed.

Lemma ldn_fill_other k m d v n b :
  b + Z.of_nat k <= d \/ d + n <= b ->
  ldn k (mem_fill m d v n) b = ldn k m b.
Proof.
  intros H. apply ldn_ext. intros x Hx. rewrite ld8_fill. in_range_cases; [lia|done].
Qed.

Lemma ldn_fill_zero k m d n b :
  d <= b -> b + Z.of_nat k <= d + n -> ldn k (mem_fill m d 0 n) b = 0.
Proof.
  revert b. induction k as [|k IH]; intros b H1 H2; cbn [ldn]; [done|].
  rewrite IH by lia. rewrite ld8_fill. in_range_cases; [done|lia].
Qed.

Lemma ldn_bytes k m a v :
  (forall i, 0 <= i < Z.of_nat k -> ld8 m (a + i) = u8 (v / 256 ^ i)) ->
  ldn k m a = v mod 256 ^ Z.of_nat k.
Proof.
  revert a v. induction k as [|k IH]; intros a v H; cbn [ldn].
  - change (256 ^ Z.of_nat 0) with 1. by rewrite Z.mod_1_r.
  - rewrite (IH (a + 1) (v / 256)).
    + pose proof (H 0 ltac:(lia)) as H0. rewrite Z.add_0_r in H0. rewrite H0.
      change (256 ^ 0) with 1. rewrite Z.div_1_r. unfold u8.
      replace (Z.of_nat (S k)) with (1 + Z.of_nat k) by lia.
      rewrite Z.pow_add_r by lia. change (256 ^ 1) with 256.
      rewrite Z.rem_mul_r by lia. done.
    + intros i Hi. replace (a + 1 + i) with (a + (i + 1)) by lia.
      rewrite H by lia. f_equal.
      rewrite Z.pow_add_r by lia. change (256 ^ 1) with 256.
      rewrite Z.mul_comm, Z.div_div by lia. done.
Qed.

(** Reading back what was stored. *)
Lemma ldn_stn_same n m a v : ldn n (stn n m a v) a = v mod 256 ^ Z.of_nat n.
Proof.
  apply ldn_bytes. intros i Hi. rewrite ld8_stn. in_range_cases; [|lia].
  by replace (a + i - a) with i by lia.
Qed.

Lemma ld64_st64_same m a v : is_u64 v -> ld64 (st64 m a v) a = v.
Proof. intros Hv. rewrite ldn_stn_same. by apply u64_small. Qed.

Lemma ld64_st64 m a v b :
  is_u64 v -> (b = a \/ b + 8 <= a \/ a + 8 <= b) ->
  ld64 (st64 m a v) b = if b =? a then v else ld64 m b.
Proof.
  intros Hv H. case_b; [apply Z.eqb_eq in E as ->; by apply ld64_st64_same|].
  apply Z.eqb_neq in E. apply ldn_stn_other. lia.
Qed.

(** ** src/lib.c *)

Definition memcpy (m : mem) (dst src n : Z) : mem :=
  for_range 0 n (fun i m => st8 m (dst + i) (ld8 m (src + i))) m.

Definition memset (m : mem) (dst v n : Z) : mem :=
  for_range 0 n (fun i m => st8 m (dst + i) (u8 v)) m.

(** The difference of the first two unequal bytes, 0 when none differs. *)
Definition memcmp (m : mem) (a b n : Z) : Z :=
  match for_range_exit 0 n (fun i (_ : unit) =>
          let x := ld8 m (a + i) in let y := ld8 m (b + i) in
          if negb (x =? y) then inr (x - y) else inl tt) tt with
  | inl _ => 0
  | inr d => d
  end.

(** The unbounded scans of a C string take fuel; [None] is "ran past the
    fuel". *)
Fixpoint strlen_from (fuel : nat) (m : mem) (s n : Z) : option Z :=
  match fuel with
  | O => None
  | S f => if ld8 m (s + n) =? 0 then Some n else strlen_from f m s (n + 1)
  end.

Definition strlen (fuel : nat) (m : mem) (s : Z) : option Z := strlen_from fuel m s 0.

Fixpoint strcmp (fuel : nat) (m : mem) (a b : Z) : option Z :=
  match fuel with
  | O => None
  | S f =>
      if negb (ld8 m a =? 0) && (ld8 m a =? ld8 m b)
      then strcmp f m (a + 1) (b + 1)
      else Some (ld8 m a - ld8 m b)
  end.

Definition strncmp (m : mem) (a b n : Z) : Z :=
  match for_range_exit 0 n (fun i (_ : unit) =>
          let ac := ld8 m (a + i) in let bc := ld8 m (b + i) in
          if negb (ac =? bc) then inr (ac - bc)
          else if ac =? 0 then inr 0 else inl tt) tt with
  | inl _ => 0
  | inr d => d
  end.

Definition align_up_u64 (v a : Z) : Z :=
  Z.land (v +% (a -% 1)) (not64 (a -% 1)).

Definition align_down_u64 (v a : Z) : Z := Z.land v (not64 (a -% 1)).

(** [i < n && src[i]] copies, then the rest of [dst] is zeroed. *)
Definition strncpy (m : mem) (dst src n : Z) : mem :=
  let copy :=
    for_range_exit 0 n (fun i m =>
      if ld8 m (src + i) =? 0 then inr (i, m)
      else inl (st8 m (dst + i) (ld8 m (src + i)))) m in
  match copy with
  | inl m' => m'
  | inr (i, m') => for_range i n (fun j m => st8 m (dst + j) 0) m'
  end.

(** ** The closed forms *)

Lemma ld8_st8 m a v x : ld8 (st8 m a v) x = if x =? a then u8 v else ld8 m x.
Proof.
  unfold ld8, st8. destruct (x =? a); [|done].
  apply u8_small, u8_range.
Qed.

Lemma memset_eq_fill m d v n : mem_eq (memset m d v n) (mem_fill m d v n).
Proof.
  unfold memset. destruct (decide (0 <= n)) as [Hn|Hn].
  - apply (for_range_ind (fun i m' => mem_eq m' (mem_fill m d v i))); [lia|..].
    + intros x. rewrite ld8_fill. in_range_cases; [lia|done].
    + intros i m' Hi IH x. rewrite ld8_st8, (IH x), !ld8_fill.
      destruct (Z.eqb_spec x (d + i)) as [->|]; in_range_cases; try lia; try done.
      apply u8_small, u8_range.
  - rewrite for_range_empty by lia. intros x. rewrite ld8_fill.
    in_range_cases; [lia|done].
Qed.

(** A forward copy is the closed form when the ranges do not overlap. *)
Lemma memcpy_eq_copy m d s n :
  d + n <= s \/ s + n <= d ->
  mem_eq (memcpy m d s n) (mem_copy m d s n).
Proof.
  intros Hdis. unfold memcpy. destruct (decide (0 <= n)) as [Hn|Hn].
  - apply (for_range_ind (fun i m' => mem_eq m' (mem_copy m d s i))); [lia|..].
    + intros x. rewrite ld8_copy. in_range_cases; [lia|done].
    + intros i m' Hi IH x. rewrite ld8_st8, (IH x), (IH (s + i)), !ld8_copy.
      destruct (Z.eqb_spec x (d + i)) as [->|]; in_range_cases; try lia; try done.
      replace (s + (d + i - d)) with (s + i) by lia.
      apply u8_small, ld8_range.
  - rewrite for_range_empty by lia. intros x. rewrite ld8_copy.
    in_range_cases; [lia|done].
Qed.

(** C strings: the bytes [s] at [a], none of them 0, then a 0. *)
Fixpoint cstr (m : mem) (a : Z) (s : list Z) : Prop :=
  match s with
  | [] => ld8 m a = 0
  | c :: s' => ld8 m a = c /\ c <> 0 /\ cstr m (a + 1) s'
  end.

Lemma strlen_from_ok m a s n fuel :
  cstr m (a + n) s -> (length s < fuel)%nat ->
  strlen_from fuel m a n = Some (n + Z.of_nat (length s)).
Proof.
  revert n fuel. induction s as [|c s IH]; intros n fuel H Hf;
    (destruct fuel as [|fuel]; cbn in Hf; [lia|]); cbn [strlen_from cstr] in *.
  - rewrite H, Z.eqb_refl. f_equal. cbn; lia.
  - destruct H as (Hc & Hne & H). rewrite Hc.
    rewrite (proj2 (Z.eqb_neq c 0)) by done.
    rewrite (IH (n + 1)); [f_equal; cbn [length]; lia| |lia].
    by replace (a + (n + 1)) with (a + n + 1) by lia.
Qed.

Lemma strlen_ok m a s fuel :
  cstr m a s -> (length s < fuel)%nat -> strlen fuel m a = Some (Z.of_nat (length s)).
Proof.
  intros H Hf. unfold strlen. rewrite (strlen_from_ok m a s); [done| |done].
  by rewrite Z.add_0_r.
Qed.

Lemma strcmp_total m a b s t fuel :
  cstr m a s -> cstr m b t -> (length s < fuel)%nat ->
  exists d, strcmp fuel m a b = Some d /\ (d = 0 <-> s = t).
Proof.
  revert a b t fuel. induction s as [|c s IH]; intros a b t fuel Hs Ht Hf;
    (destruct fuel as [|fuel]; cbn in Hf; [lia|]); cbn [strcmp cstr] in *.
  - rewrite Hs. cbn. eexists; split; [done|].
    destruct t as [|y t]; cbn [cstr] in Ht.
    + rewrite Ht. done.
    + destruct Ht as (-> & ? & _). split; [lia|done].
  - destruct Hs as (Ha & Hne & Hs). rewrite Ha.
    rewrite (proj2 (Z.eqb_neq c 0)) by done. cbn [negb andb].
    destruct t as [|y t]; cbn [cstr] in Ht.
    + rewrite Ht. rewrite (proj2 (Z.eqb_neq c 0)) by done.
      eexists; split; [done|]. split; [lia|done].
    + destruct Ht as (Hb & ? & Ht). rewrite Hb.
      destruct (Z.eqb_spec c y) as [->|Hcy].
      * destruct (IH (a + 1) (b + 1) t fuel Hs Ht ltac:(lia)) as (d & -> & Hd).
        exists d. split; [done|]. rewrite Hd. split; [by intros ->|by intros [= ->]].
      * eexists; split; [done|]. split; [lia|by intros [= ->]].
Qed.

(** ** Alignment *)

Lemma land_not64 v x : is_u64 v -> is_u64 x -> Z.land v (not64 x) = Z.ldiff v x.
Proof.
  intros Hv Hx. apply Z.bits_inj'. intros i Hi.
  rewrite Z.land_spec, Z.ldiff_spec.
  assert (not64 x = Z.lnot x mod 2 ^ 64) as ->.
  { unfold not64, Z.lnot. change (2 ^ 64) with 18446744073709551616. cint. }
  destruct (decide (i < 64)).
  - rewrite Z.mod_pow2_bits_low by lia. by rewrite Z.lnot_spec.
  - rewrite Z.mod_pow2_bits_high by lia.
    rewrite <- (Z.mod_small v (2 ^ 64)) by done.
    rewrite Z.mod_pow2_bits_high by lia. done.
Qed.

Lemma align_down_pow2 v k :
  is_u64 v -> 0 <= k < 64 -> align_down_u64 v (2 ^ k) = v / 2 ^ k * 2 ^ k.
Proof.
  intros Hv Hk. unfold align_down_u64.
  assert (0 < 2 ^ k) by (apply Z.pow_pos_nonneg; lia).
  assert (2 ^ k < 2 ^ 64) by (apply Z.pow_lt_mono_r; lia).
  change (2 ^ 64) with 18446744073709551616 in *.
  rewrite u64_small by (unfold is_u64; lia).
  rewrite land_not64 by (done || unfold is_u64; lia).
  replace (2 ^ k - 1) with (Z.ones k) by (rewrite Z.ones_equiv; lia).
  rewrite Z.ldiff_ones_r by lia.
  rewrite Z.shiftr_div_pow2, Z.shiftl_mul_pow2 by lia. done.
Qed.

Lemma align_up_pow2 v k :
  0 <= v -> v + 2 ^ k <= 18446744073709551616 -> 0 <= k < 64 ->
  align_up_u64 v (2 ^ k) = (v + 2 ^ k - 1) / 2 ^ k * 2 ^ k.
Proof.
  intros Hv Hov Hk. unfold align_up_u64.
  assert (0 < 2 ^ k) by (apply Z.pow_pos_nonneg; lia).
  rewrite (u64_small (2 ^ k - 1)) by (unfold is_u64; lia).
  rewrite u64_small by (unfold is_u64; lia).
  replace (v + (2 ^ k - 1)) with (v + 2 ^ k - 1) by lia.
  rewrite <- align_down_pow2 by (unfold is_u64; lia).
  unfold align_down_u64. by rewrite (u64_small (2 ^ k - 1)) by (unfold is_u64; lia).
Qed.

(** Rounding up past the top of the address space wraps to 0. *)
Lemma align_up_wraps v k :
  18446744073709551616 - 2 ^ k < v < 18446744073709551616 -> 0 < k < 64 ->
  align_up_u64 v (2 ^ k) = 0.
Proof.
  intros Hv Hk. unfold align_up_u64.
  assert (0 < 2 ^ k) by (apply Z.pow_pos_nonneg; lia).
  assert (2 ^ k < 2 ^ 64) by (apply Z.pow_lt_mono_r; lia).
  change (2 ^ 64) with 18446744073709551616 in *.
  rewrite (u64_small (2 ^ k - 1)) by (unfold is_u64; lia).
  assert (u64 (v + (2 ^ k - 1)) = v + 2 ^ k - 1 - 18446744073709551616) as ->.
  { unfold u64. symmetry. apply (Z.mod_unique_pos _ _ 1); lia. }
  rewrite land_not64 by (unfold is_u64; lia).
  replace (2 ^ k - 1) with (Z.ones k) by (rewrite Z.ones_equiv; lia).
  rewrite Z.ldiff_ones_r, Z.shiftr_div_pow2 by lia.
  rewrite Z.div_small by lia. by rewrite Z.shiftl_0_l.
Qed.

#[global] Arguments ldn : simpl never.
#[global] Arguments stn : simpl never.
#[global] Arguments mem_fill : simpl never.
