(* ===== verification/Alloc.v ===== *)
(** * Interface of the physical page allocator

    What src/pmm.c promises to the components that take pages from it
    (the kernel heap, the page tables, thread stacks, the ELF loader).
    Those components are defined over [PageOps] and proved against
    [PageLaws]; src/pmm.c discharges the laws in Pmm.v. *)

From stdpp Require Import prelude.
From Stdlib Require Import ZArith Lia.
From S2P Require Import Prelude.
#[local] Open Scope Z_scope.

Definition PAGE_SIZE : Z := 4096.

Class PageOps (A : Type) := {
  pa_alloc : A -> Z -> Z * A;      (* pmm_alloc_pages(pages) *)
  pa_free : A -> Z -> Z -> A;      (* pmm_free_pages(addr, pages) *)
  pa_isfree : A -> Z -> bool;      (* is page number i free *)
  pa_total : A -> Z;               (* tracked pages *)
  pa_wf : A -> Prop                (* the allocator's own invariant *)
}.

Class PageLaws (A : Type) `{PageOps A} := {
  pa_total_bound s : pa_wf s -> 0 <= pa_total s <= 1048576;
  pa_alloc_ok s n pa s' :
    pa_wf s -> 0 <= n -> pa_alloc s n = (pa, s') -> pa <> 0 ->
    pa_wf s' /\ pa_total s' = pa_total s /\ 0 < n /\
    exists pg, pa = pg * PAGE_SIZE /\ 0 < pg /\ pg + n <= pa_total s /\
      (forall i, pg <= i < pg + n -> pa_isfree s i = true) /\
      (forall i, 0 <= i ->
         pa_isfree s' i = pa_isfree s i && negb ((pg <=? i) && (i <? pg + n)));
  pa_alloc_fail s n s' :
    pa_wf s -> 0 <= n -> pa_alloc s n = (0, s') -> s' = s;
  pa_free_ok s addr n :
    pa_wf s -> PAGE_SIZE <= addr -> 0 <= n ->
    pa_wf (pa_free s addr n) /\ pa_total (pa_free s addr n) = pa_total s /\
    (forall i, 0 <= i ->
       pa_isfree (pa_free s addr n) i =
       pa_isfree s i || ((addr / PAGE_SIZE <=? i) && (i <? addr / PAGE_SIZE + n) && (i <? pa_total s)))
}.
