(* ===== verification/Pmm.v ===== *)
(** * Physical memory manager (src/pmm.c)

    One bit per 4 KiB page of the first 4 GiB, set when the page is in
    use, with a counter of free pages.  The state is the four static
    variables of src/pmm.c; the multiboot2 structures are read from
    memory at the offsets of include/multiboot2.h. *)

From stdpp Require Import prelude list.
From Stdlib Require Import ZArith Lia.
From S2P Require Import Prelude Lib Alloc.
#[local] Open Scope Z_scope.
#[local] Open Scope cint_scope.

Definition MAX_PHYS_BYTES : Z := 4294967296.
Definition MAX_PAGES : Z := 1048576.
Definition BITMAP_BYTES : Z := 131072.

Record pmm := mk_pmm {
  pmm_bitmap : Z -> Z;
  pmm_free_pages_cnt : Z;
  pmm_total_pages_cnt : Z;
  pmm_ready : bool
}.

Definition set_bitmap (p : pmm) (bm : Z -> Z) : pmm :=
  mk_pmm bm (pmm_free_pages_cnt p) (pmm_total_pages_cnt p) (pmm_ready p).
Definition set_free_cnt (p : pmm) (c : Z) : pmm :=
  mk_pmm (pmm_bitmap p) c (pmm_total_pages_cnt p) (pmm_ready p).

Definition bitmap_upd (bm : Z -> Z) (b v : Z) : Z -> Z :=
  fun x => if x =? b then v else bm x.

Definition bit_set (p : pmm) (idx : Z) : pmm :=
  let b := Z.shiftr idx 3 in
  set_bitmap p (bitmap_upd (pmm_bitmap p) b
    (Z.lor (pmm_bitmap p b) (u8 (Z.shiftl 1 (Z.land idx 7))))).

Definition bit_clear (p : pmm) (idx : Z) : pmm :=
  let b := Z.shiftr idx 3 in
  set_bitmap p (bitmap_upd (pmm_bitmap p) b
    (Z.land (pmm_bitmap p b) (not8 (u8 (Z.shiftl 1 (Z.land idx 7)))))).

Definition bit_test (p : pmm) (idx : Z) : Z :=
  Z.land (Z.shiftr (pmm_bitmap p (Z.shiftr idx 3)) (Z.land idx 7)) 1.

Definition pmm_recount_free (p : pmm) : pmm :=
  set_free_cnt p
    (for_range 0 (pmm_total_pages_cnt p)
       (fun i free_pages => if bit_test p i =? 0 then free_pages + 1 else free_pages) 0).

(** Iterations of [for (a = start; a < end; a += PAGE_SIZE)]. *)
Definition page_steps (start end_ : Z) : Z := (end_ - start + PAGE_SIZE - 1) / PAGE_SIZE.

Definition pmm_free_range (p : pmm) (addr size : Z) : pmm :=
  let start := align_up_u64 addr PAGE_SIZE in
  let end_ := align_down_u64 (addr +% size) PAGE_SIZE in
  if end_ <=? start then p
  else if MAX_PHYS_BYTES <=? start then p
  else
    let end_ := if MAX_PHYS_BYTES <? end_ then MAX_PHYS_BYTES else end_ in
    brk (for_range_exit 0 (page_steps start end_) (fun i p =>
      let a := start + i * PAGE_SIZE in
      let page := a / PAGE_SIZE in
      if pmm_total_pages_cnt p <=? page then inr p
      else inl (
        if bit_test p page =? 0 then p
        else
          let p := bit_clear p page in
          if pmm_ready p then set_free_cnt p (pmm_free_pages_cnt p +% 1) else p)) p).

Definition pmm_reserve_range (p : pmm) (addr size : Z) : pmm :=
  let start := align_down_u64 addr PAGE_SIZE in
  let end_ := align_up_u64 (addr +% size) PAGE_SIZE in
  if end_ <=? start then p
  else if MAX_PHYS_BYTES <=? start then p
  else
    let end_ := if MAX_PHYS_BYTES <? end_ then MAX_PHYS_BYTES else end_ in
    brk (for_range_exit 0 (page_steps start end_) (fun i p =>
      let a := start + i * PAGE_SIZE in
      let page := a / PAGE_SIZE in
      if pmm_total_pages_cnt p <=? page then inr p
      else inl (
        if bit_test p page =? 0 then
          let p := bit_set p page in
          if pmm_ready p && negb (pmm_free_pages_cnt p =? 0)
          then set_free_cnt p (pmm_free_pages_cnt p -% 1) else p
        else p)) p).

(** ** Boot: the multiboot2 memory map *)

Definition MB2_TAG_END : Z := 0.
Definition MB2_TAG_MMAP : Z := 6.

Definition mb2_align8 (x : Z) : Z := Z.land (u32 (x + 7)) 4294967288.

(** [while (tag->type != MB2_TAG_END)]: [None] when the fuel runs out,
    [Some None] when the list ends without a memory map. *)
Fixpoint mb2_find_tag (fuel : nat) (m : mem) (want tag : Z) : option (option Z) :=
  match fuel with
  | O => None
  | S f =>
      let type := ld32 m tag in
      if type =? MB2_TAG_END then Some None
      else if type =? want then Some (Some tag)
      else mb2_find_tag f m want (tag + mb2_align8 (ld32 m (tag + 4)))
  end.

(** The loop over the memory-map entries: addr (8), len (8), type (4). *)
Fixpoint mb2_free_entries (fuel : nat) (m : mem) (end_ entry_size pos : Z) (p : pmm) : option pmm :=
  if end_ <=? pos then Some p
  else match fuel with
  | O => None
  | S f =>
      let p := if ld32 m (pos + 16) =? 1
               then pmm_free_range p (ld64 m pos) (ld64 m (pos + 8)) else p in
      mb2_free_entries f m end_ entry_size (pos + entry_size) p
  end.

Definition pmm_init (fuel : nat) (m : mem) (kstart kend mb2 : Z) (p : pmm) : option pmm :=
  let p := mk_pmm (fun _ => 255) (pmm_free_pages_cnt p) MAX_PAGES (pmm_ready p) in
  match mb2_find_tag fuel m MB2_TAG_MMAP (mb2 + 8) with
  | None => None
  | Some None => Some (pmm_recount_free p)
  | Some (Some mmap) =>
      match mb2_free_entries fuel m (mmap + ld32 m (mmap + 4)) (ld32 m (mmap + 8))
              (mmap + 16) p with
      | None => None
      | Some p =>
          let p := pmm_reserve_range p 0 1048576 in
          let p := pmm_reserve_range p kstart (kend -% kstart) in
          let p := pmm_reserve_range p mb2 (ld32 m mb2) in
          let p := pmm_recount_free p in
          Some (mk_pmm (pmm_bitmap p) (pmm_free_pages_cnt p) (pmm_total_pages_cnt p) true)
      end
  end.

Definition pmm_total_memory_bytes (p : pmm) : Z := pmm_total_pages_cnt p *% PAGE_SIZE.
Definition pmm_free_memory_bytes (p : pmm) : Z := pmm_free_pages_cnt p *% PAGE_SIZE.

(** ** Allocation *)

Definition pmm_alloc_pages (p : pmm) (pages : Z) : Z * pmm :=
  if pages =? 0 then (0, p)
  else if pmm_free_pages_cnt p <? pages then (0, p)
  else
    match for_range_exit 0 (pmm_total_pages_cnt p) (fun i '(run, start) =>
            if bit_test p i =? 0 then
              let start := if run =? 0 then i else start in
              let run := run + 1 in
              if run =? pages then inr start else inl (run, start)
            else inl (0, start)) (0, 0) with
    | inl _ => (0, p)
    | inr start =>
        let p := for_range 0 pages (fun j p => bit_set p (start + j)) p in
        (start *% PAGE_SIZE, set_free_cnt p (pmm_free_pages_cnt p -% pages))
    end.

Definition pmm_free_pages (p : pmm) (addr pages : Z) : pmm :=
  if pages =? 0 then p
  else if addr =? 0 then p
  else
    let start := addr / PAGE_SIZE in
    brk (for_range_exit 0 pages (fun j p =>
      let idx := start + j in
      if pmm_total_pages_cnt p <=? idx then inr p
      else inl (
        if bit_test p idx =? 0 then p
        else
          let p := bit_clear p idx in
          set_free_cnt p (pmm_free_pages_cnt p +% 1))) p).

(** ** Bits *)

Definition page_used (p : pmm) (i : Z) : bool := Z.testbit (pmm_bitmap p (i / 8)) (i mod 8).
Definition page_free (p : pmm) (i : Z) : bool := negb (page_used p i).

Lemma idx_split i : 0 <= i ->
  Z.shiftr i 3 = i / 8 /\ Z.land i 7 = i mod 8 /\ 0 <= i mod 8 < 8 /\ 0 <= i / 8.
Proof.
  intros Hi. rewrite Z.shiftr_div_pow2 by lia. change (2 ^ 3) with 8.
  change 7 with (Z.ones 3). rewrite Z.land_ones by lia. change (2 ^ 3) with 8.
  pose proof (Z.mod_pos_bound i 8 eq_refl). pose proof (Z.div_pos i 8 Hi eq_refl). lia.
Qed.

Lemma bit_test_used p i : 0 <= i -> bit_test p i = Z.b2z (page_used p i).
Proof.
  intros Hi. unfold bit_test, page_used.
  destruct (idx_split i Hi) as (-> & -> & Hb & _).
  rewrite Z.testbit_spec' by lia. rewrite Z.shiftr_div_pow2 by lia.
  exact (Z.land_ones _ 1 ltac:(lia)).
Qed.

Lemma bit_test_free p i : 0 <= i -> (bit_test p i =? 0) = page_free p i.
Proof. intros. rewrite bit_test_used by done. unfold page_free. by destruct (page_used p i). Qed.

Lemma range8_cases k : 0 <= k < 8 ->
  k = 0 \/ k = 1 \/ k = 2 \/ k = 3 \/ k = 4 \/ k = 5 \/ k = 6 \/ k = 7.
Proof. lia. Qed.

Lemma testbit_mask8 k j :
  0 <= k < 8 -> 0 <= j < 8 ->
  Z.testbit (u8 (Z.shiftl 1 k)) j = (j =? k) /\
  Z.testbit (not8 (u8 (Z.shiftl 1 k))) j = negb (j =? k).
Proof.
  intros Hk%range8_cases Hj%range8_cases.
  repeat match goal with H : _ \/ _ |- _ => destruct H end; subst; done.
Qed.

Lemma used_bit_set p k i : 0 <= k -> 0 <= i ->
  page_used (bit_set p k) i = (i =? k) || page_used p i.
Proof.
  intros Hk Hi. destruct (idx_split k Hk) as (E1 & E2 & Hkb & _).
  destruct (idx_split i Hi) as (_ & _ & Hib & _).
  unfold page_used, bit_set, bitmap_upd. cbn. rewrite E1, E2.
  destruct (Z.eqb_spec (i / 8) (k / 8)) as [E|E].
  - rewrite Z.lor_spec, (proj1 (testbit_mask8 _ _ Hkb Hib)), E, orb_comm. f_equal.
    destruct (Z.eqb_spec (i mod 8) (k mod 8)), (Z.eqb_spec i k); try done; subst; try done.
    exfalso; cint.
  - destruct (Z.eqb_spec i k) as [->|]; done.
Qed.

Lemma used_bit_clear p k i : 0 <= k -> 0 <= i ->
  page_used (bit_clear p k) i = negb (i =? k) && page_used p i.
Proof.
  intros Hk Hi. destruct (idx_split k Hk) as (E1 & E2 & Hkb & _).
  destruct (idx_split i Hi) as (_ & _ & Hib & _).
  unfold page_used, bit_clear, bitmap_upd. cbn. rewrite E1, E2.
  destruct (Z.eqb_spec (i / 8) (k / 8)) as [E|E].
  - rewrite Z.land_spec, (proj2 (testbit_mask8 _ _ Hkb Hib)), E, andb_comm. f_equal.
    destruct (Z.eqb_spec (i mod 8) (k mod 8)), (Z.eqb_spec i k); try done; subst; try done.
    exfalso; cint.
  - destruct (Z.eqb_spec i k) as [->|]; done.
Qed.

(** ** The invariant *)

Definition free_count (p : pmm) : Z :=
  count_up (Z.to_nat (pmm_total_pages_cnt p)) 0 (page_free p).

(** The tracked pages fit the bitmap and, once [pmm_init] is done, the
    counter is the number of clear bits. *)
Definition pmm_inv (p : pmm) : Prop :=
  0 <= pmm_total_pages_cnt p <= MAX_PAGES /\
  (pmm_ready p = true -> pmm_free_pages_cnt p = free_count p).

(** [p'] is [p] with the bits of the tracked pages of [sel] set to [b]. *)
Definition pages_become (b : bool) (sel : Z -> bool) (p p' : pmm) : Prop :=
  pmm_inv p' /\
  pmm_total_pages_cnt p' = pmm_total_pages_cnt p /\
  pmm_ready p' = pmm_ready p /\
  forall i, 0 <= i ->
    page_used p' i = if sel i && (i <? pmm_total_pages_cnt p) then b else page_used p i.

Definition free_one (upd : bool) (p : pmm) (k : Z) : pmm :=
  if bit_test p k =? 0 then p
  else let p := bit_clear p k in
       if upd then set_free_cnt p (pmm_free_pages_cnt p +% 1) else p.

Definition reserve_one (p : pmm) (k : Z) : pmm :=
  if bit_test p k =? 0 then
    let p := bit_set p k in
    if pmm_ready p && negb (pmm_free_pages_cnt p =? 0)
    then set_free_cnt p (pmm_free_pages_cnt p -% 1) else p
  else p.

Lemma free_count_bounds p : 0 <= pmm_total_pages_cnt p ->
  0 <= free_count p <= pmm_total_pages_cnt p.
Proof.
  intros. unfold free_count.
  pose proof (count_up_bounds (Z.to_nat (pmm_total_pages_cnt p)) 0 (page_free p)). lia.
Qed.

(** Changing the bit of page [k] moves the count by one. *)
Lemma free_count_upd p q k :
  0 <= k < pmm_total_pages_cnt p ->
  pmm_total_pages_cnt q = pmm_total_pages_cnt p ->
  (forall i, 0 <= i -> page_used q i = if i =? k then page_used q k else page_used p i) ->
  free_count q = free_count p - Z.b2z (page_free p k) + Z.b2z (page_free q k).
Proof.
  intros Hk Ht H. unfold free_count. rewrite Ht.
  set (f := fun i => if i =? k then page_free q k else page_free p i).
  rewrite (count_up_ext _ _ (page_free q) f).
  - rewrite (count_up_upd _ 0 (page_free p) f k); [|lia|].
    + unfold f. by rewrite Z.eqb_refl.
    + intros i Hi. unfold f. by rewrite (proj2 (Z.eqb_neq i k)).
  - intros i Hi. unfold f, page_free. rewrite H by lia. by destruct (i =? k).
Qed.

Lemma sel_one_split k t i : 0 <= k < t -> (i =? k) && (i <? t) = (i =? k).
Proof. intros. destruct (Z.eqb_spec i k) as [->|]; [|done]. cbn. apply Z.ltb_lt. lia. Qed.

Lemma free_one_ok upd p k :
  (pmm_ready p = true -> upd = true) ->
  pmm_inv p -> 0 <= k < pmm_total_pages_cnt p ->
  pages_become false (fun i => i =? k) p (free_one upd p k).
Proof.
  intros Hupd [Hb Hc] Hk. unfold free_one. rewrite bit_test_free by lia.
  unfold page_free. destruct (page_used p k) eqn:Eu; cbn [negb].
  - assert (Hu : forall i, 0 <= i ->
      page_used (bit_clear p k) i = if i =? k then false else page_used p i).
    { intros i Hi. rewrite used_bit_clear by lia. by destruct (i =? k). }
    pose proof (free_count_upd p (bit_clear p k) k Hk eq_refl) as Hf.
    unfold page_free in Hf. rewrite Eu, (Hu k), Z.eqb_refl in Hf by lia.
    specialize (Hf Hu). cbn in Hf.
    pose proof (free_count_bounds (bit_clear p k) ltac:(cbn; lia)) as Hbnd.
    cbn [pmm_total_pages_cnt bit_clear set_bitmap] in Hbnd.
    unfold MAX_PAGES in *.
    split; [|destruct upd; (split; [done|]); (split; [done|]); intros i Hi;
      rewrite sel_one_split by done; exact (Hu i Hi)].
    destruct upd; (split; [done|]); intros Hr.
    + change (pmm_free_pages_cnt p +% 1 = free_count (bit_clear p k)).
      rewrite Hc by done. rewrite u64_small by (unfold is_u64; lia). lia.
    + by apply Hupd in Hr.
  - split; [done|]. split; [done|]. split; [done|]. intros i Hi.
    rewrite sel_one_split by done. by destruct (Z.eqb_spec i k) as [->|].
Qed.

Lemma reserve_one_ok p k :
  pmm_inv p -> 0 <= k < pmm_total_pages_cnt p ->
  pages_become true (fun i => i =? k) p (reserve_one p k).
Proof.
  intros [Hb Hc] Hk. unfold reserve_one. rewrite bit_test_free by lia.
  unfold page_free. destruct (page_used p k) eqn:Eu; cbn [negb].
  - split; [done|]. split; [done|]. split; [done|]. intros i Hi.
    rewrite sel_one_split by done. by destruct (Z.eqb_spec i k) as [->|].
  - assert (Hu : forall i, 0 <= i ->
      page_used (bit_set p k) i = if i =? k then true else page_used p i).
    { intros i Hi. rewrite used_bit_set by lia. by destruct (i =? k). }
    pose proof (free_count_upd p (bit_set p k) k Hk eq_refl) as Hf.
    unfold page_free in Hf. rewrite Eu, (Hu k), Z.eqb_refl in Hf by lia.
    specialize (Hf Hu). cbn in Hf.
    pose proof (free_count_bounds (bit_set p k) ltac:(cbn; lia)) as Hbnd.
    pose proof (free_count_bounds p ltac:(lia)) as Hbp. unfold MAX_PAGES in *.
    split; [|destruct (_ && _); (split; [done|]); (split; [done|]); intros i Hi;
      rewrite sel_one_split by done; exact (Hu i Hi)].
    change (pmm_ready (bit_set p k)) with (pmm_ready p).
    change (pmm_free_pages_cnt (bit_set p k)) with (pmm_free_pages_cnt p).
    destruct (pmm_ready p) eqn:Er; cbn [andb].
    + rewrite Hc in * by done.
      destruct (Z.eqb_spec (free_count p) 0) as [E0|E0]; cbn [negb]; [exfalso; lia|].
      split; [done|]. intros _.
      change (free_count p -% 1 = free_count (bit_set p k)).
      rewrite u64_small by (unfold is_u64; lia). lia.
    + split; [done|]. change (pmm_ready (bit_set p k)) with (pmm_ready p). by rewrite Er.
Qed.

(** A loop over consecutive pages that stops at the tracked limit. *)
Section range_loop.
Context (b : bool) (step : pmm -> Z -> pmm).
Hypothesis step_ok : forall p k, pmm_inv p -> 0 <= k < pmm_total_pages_cnt p ->
  pages_become b (fun i => i =? k) p (step p k).

Lemma range_loop_ok (body : Z -> pmm -> pmm + pmm) s n p :
  0 <= s -> 0 <= n -> pmm_inv p ->
  (forall i p, 0 <= i < n ->
     body i p = if pmm_total_pages_cnt p <=? s + i then inr p else inl (step p (s + i))) ->
  pages_become b (in_range s n) p (brk (for_range_exit 0 n body p)).
Proof.
  intros Hs Hn Hinv Hbody.
  apply (brk_ind (fun i q => pages_become b (in_range s i) p q)); [lia|..].
  - repeat (split; [done|]). intros i Hi. in_range_cases; [lia|done].
  - intros i q Hi (Iq & Tq & Rq & Uq). rewrite Hbody by lia. rewrite Tq.
    destruct (Z.leb_spec (pmm_total_pages_cnt p) (s + i)) as [Hle|Hlt].
    + split; [done|]. split; [done|]. split; [done|].
      intros j Hj. rewrite Uq by done.
      in_range_cases; try done; try lia; cbn [andb];
        rewrite ?(proj2 (Z.ltb_ge j _)) by lia; done.
    + destruct (step_ok q (s + i) Iq ltac:(lia)) as (Ir & Tr & Rr & Ur).
      split; [done|]. split; [congruence|]. split; [congruence|].
      intros j Hj. rewrite Ur, Uq by done. rewrite Tq.
      destruct (Z.eqb_spec j (s + i)); in_range_cases; try lia;
        destruct (Z.ltb_spec j (pmm_total_pages_cnt p)); try lia; done.
  - auto.
Qed.
End range_loop.

Lemma pages_become_ext b sel sel' p p' :
  (forall i, 0 <= i < pmm_total_pages_cnt p -> sel i = sel' i) ->
  pages_become b sel p p' -> pages_become b sel' p p'.
Proof.
  intros H (? & ? & ? & Hu). repeat (split; [done|]). intros i Hi. rewrite Hu by done.
  destruct (Z.ltb_spec i (pmm_total_pages_cnt p)); [|by rewrite !andb_false_r].
  by rewrite H by lia.
Qed.

Lemma pages_become_refl b sel p :
  pmm_inv p -> (forall i, 0 <= i < pmm_total_pages_cnt p -> sel i = false) ->
  pages_become b sel p p.
Proof.
  intros H Hs. repeat (split; [done|]). intros i Hi.
  destruct (Z.ltb_spec i (pmm_total_pages_cnt p)); [|by rewrite andb_false_r].
  by rewrite Hs by lia.
Qed.

Lemma align_down_page v : is_u64 v -> align_down_u64 v PAGE_SIZE = v / 4096 * 4096.
Proof. intros. exact (align_down_pow2 v 12 H ltac:(lia)). Qed.

Lemma align_up_page v : 0 <= v -> v + 4096 <= 18446744073709551616 ->
  align_up_u64 v PAGE_SIZE = (v + 4095) / 4096 * 4096.
Proof.
  intros. change PAGE_SIZE with (2 ^ 12). rewrite align_up_pow2 by lia.
  change (2 ^ 12) with 4096. do 2 f_equal. lia.
Qed.

(** ** Ranges *)

Lemma page_steps_mult a b : page_steps (a * 4096) (b * 4096) = b - a.
Proof. unfold page_steps, PAGE_SIZE. cint. Qed.

Lemma page_of_step s i : (s * 4096 + i * PAGE_SIZE) / PAGE_SIZE = s + i.
Proof. unfold PAGE_SIZE. rewrite <- Z.mul_add_distr_r. apply Z.div_mul. lia. Qed.

(** The end of the range, capped at 4 GiB, is still a page boundary. *)
Lemma cap_mult e :
  (if MAX_PHYS_BYTES <? e * 4096 then MAX_PHYS_BYTES else e * 4096) =
  Z.min e MAX_PAGES * 4096.
Proof. unfold MAX_PHYS_BYTES, MAX_PAGES. case_b; lia. Qed.

Lemma free_range_core p addr size s e :
  pmm_inv p -> 0 <= s ->
  align_up_u64 addr PAGE_SIZE = s * 4096 ->
  align_down_u64 (addr +% size) PAGE_SIZE = e * 4096 ->
  pages_become false (in_range s (e - s)) p (pmm_free_range p addr size).
Proof.
  intros Hinv Hs Eu Ed. unfold pmm_free_range. rewrite Eu, Ed.
  pose proof Hinv as [Hb _]. unfold MAX_PAGES, MAX_PHYS_BYTES in *.
  assert (Hskip : e * 4096 <= s * 4096 \/ 4294967296 <= s * 4096 ->
    pages_become false (in_range s (e - s)) p p).
  { intros. apply pages_become_refl; [done|]. intros. apply in_range_false. lia. }
  destruct (Z.leb_spec (e * 4096) (s * 4096)); [auto|].
  destruct (Z.leb_spec 4294967296 (s * 4096)); [auto|].
  pose proof (cap_mult e) as Hcap. unfold MAX_PAGES, MAX_PHYS_BYTES in Hcap. rewrite Hcap.
  rewrite page_steps_mult.
  apply (pages_become_ext _ (in_range s (Z.min e 1048576 - s))).
  { intros i Hi. unfold in_range. apply eq_true_iff_eq.
    rewrite !andb_true_iff, !Z.leb_le, !Z.ltb_lt. lia. }
  apply (range_loop_ok false (fun p k => free_one (pmm_ready p) p k)); [|lia|lia|done|].
  - intros q k Hq Hk. by apply free_one_ok.
  - intros i q Hi. by rewrite page_of_step.
Qed.

Lemma reserve_range_core p addr size s e :
  pmm_inv p -> 0 <= s ->
  align_down_u64 addr PAGE_SIZE = s * 4096 ->
  align_up_u64 (addr +% size) PAGE_SIZE = e * 4096 ->
  pages_become true (in_range s (e - s)) p (pmm_reserve_range p addr size).
Proof.
  intros Hinv Hs Ed Eu. unfold pmm_reserve_range. rewrite Eu, Ed.
  pose proof Hinv as [Hb _]. unfold MAX_PAGES, MAX_PHYS_BYTES in *.
  assert (Hskip : e * 4096 <= s * 4096 \/ 4294967296 <= s * 4096 ->
    pages_become true (in_range s (e - s)) p p).
  { intros. apply pages_become_refl; [done|]. intros. apply in_range_false. lia. }
  destruct (Z.leb_spec (e * 4096) (s * 4096)); [auto|].
  destruct (Z.leb_spec 4294967296 (s * 4096)); [auto|].
  pose proof (cap_mult e) as Hcap. unfold MAX_PAGES, MAX_PHYS_BYTES in Hcap. rewrite Hcap.
  rewrite page_steps_mult.
  apply (pages_become_ext _ (in_range s (Z.min e 1048576 - s))).
  { intros i Hi. unfold in_range. apply eq_true_iff_eq.
    rewrite !andb_true_iff, !Z.leb_le, !Z.ltb_lt. lia. }
  apply (range_loop_ok true reserve_one); [|lia|lia|done|].
  - intros q k Hq Hk. by apply reserve_one_ok.
  - intros i q Hi. by rewrite page_of_step.
Qed.

Definition sel_inside (addr size : Z) (i : Z) : bool :=
  (addr <=? i * 4096) && (i * 4096 + 4096 <=? addr + size).
Definition sel_touched (addr size : Z) (i : Z) : bool :=
  (i * 4096 <? addr + size) && (addr <? i * 4096 + 4096).

Lemma free_range_spec p addr size :
  pmm_inv p -> 0 <= addr -> 0 <= size -> addr + size + 4096 <= 18446744073709551616 ->
  pages_become false (sel_inside addr size) p (pmm_free_range p addr size).
Proof.
  intros Hinv Ha Hs Hov.
  apply (pages_become_ext _ (in_range ((addr + 4095) / 4096)
    ((addr + size) / 4096 - (addr + 4095) / 4096))).
  { intros i Hi. unfold in_range, sel_inside. apply eq_true_iff_eq.
    rewrite !andb_true_iff, !Z.leb_le, !Z.ltb_lt. cint. }
  apply free_range_core; [done|cint|by apply align_up_page; lia|].
  rewrite (u64_small (addr + size)) by (unfold is_u64; lia).
  apply align_down_page. unfold is_u64; lia.
Qed.

Lemma reserve_range_spec p addr size :
  pmm_inv p -> 0 <= addr -> 0 <= size -> addr + size + 4096 <= 18446744073709551616 ->
  pages_become true (sel_touched addr size) p (pmm_reserve_range p addr size).
Proof.
  intros Hinv Ha Hs Hov.
  apply (pages_become_ext _ (in_range (addr / 4096)
    ((addr + size + 4095) / 4096 - addr / 4096))).
  { intros i Hi. unfold in_range, sel_touched. apply eq_true_iff_eq.
    rewrite !andb_true_iff, !Z.leb_le, !Z.ltb_lt. cint. }
  apply reserve_range_core; [done|cint|apply align_down_page; unfold is_u64; lia|].
  rewrite (u64_small (addr + size)) by (unfold is_u64; lia).
  apply align_up_page; lia.
Qed.

(** Whatever the arguments, including the ones that wrap, a range
    operation only moves bits in one direction. *)
Lemma align_mult v : exists s, 0 <= s /\ align_up_u64 v PAGE_SIZE = s * 4096.
Proof.
  exists (u64 (v + 4095) / 4096). split; [cint|].
  exact (align_down_page (u64 (v + 4095)) (u64_range _)).
Qed.

Lemma free_range_any p addr size :
  pmm_inv p -> exists sel, pages_become false sel p (pmm_free_range p addr size).
Proof.
  intros Hinv. destruct (align_mult addr) as (s & Hs & Es). eexists.
  eapply (free_range_core _ _ _ s); [done|done|done|].
  exact (align_down_page _ (u64_range _)).
Qed.

Lemma free_pages_spec p addr n :
  pmm_inv p -> 0 < addr -> 0 <= n ->
  pages_become false (in_range (addr / 4096) n) p (pmm_free_pages p addr n).
Proof.
  intros Hinv Ha Hn. unfold pmm_free_pages.
  destruct (Z.eqb_spec n 0) as [->|].
  { apply pages_become_refl; [done|]. intros. apply in_range_false. lia. }
  rewrite (proj2 (Z.eqb_neq addr 0)) by lia.
  apply (range_loop_ok false (free_one true)); [|unfold PAGE_SIZE; cint|lia|done|].
  - intros q k Hq Hk. by apply free_one_ok.
  - intros i q Hi. reflexivity.
Qed.

(** ** First-fit allocation *)

Definition run_free (p : pmm) (s n : Z) : Prop :=
  forall i, s <= i < s + n -> page_free p i = true.

(** [s] is the lowest page at which [n] free pages follow each other. *)
Definition first_fit (p : pmm) (n s : Z) : Prop :=
  0 <= s /\ s + n <= pmm_total_pages_cnt p /\ run_free p s n /\
  forall s', 0 <= s' < s -> ~ run_free p s' n.

Definition no_fit (p : pmm) (n : Z) : Prop :=
  forall s, 0 <= s -> s + n <= pmm_total_pages_cnt p -> ~ run_free p s n.

(** State of the scan before page [i]: the current run ends at [i], is
    maximal to the left and shorter than [n]; nothing fits below [i]. *)
Definition scan_inv (p : pmm) (n i : Z) (st : Z * Z) : Prop :=
  let '(run, start) := st in
  0 <= run < n /\ run <= i /\ (run <> 0 -> start = i - run) /\
  run_free p (i - run) run /\
  (run < i -> page_free p (i - run - 1) = false) /\
  (forall s, 0 <= s -> s + n <= i -> ~ run_free p s n).

Lemma scan_ok p n :
  0 < n -> 0 <= pmm_total_pages_cnt p ->
  match for_range_exit 0 (pmm_total_pages_cnt p) (fun i '(run, start) =>
          if bit_test p i =? 0 then
            let start := if run =? 0 then i else start in
            let run := run + 1 in
            if run =? n then inr start else inl (run, start)
          else inl (0, start)) (0, 0) with
  | inl _ => no_fit p n
  | inr s => first_fit p n s
  end.
Proof.
  intros Hn Ht. unfold for_range_exit.
  set (body := fun (i : Z) (st : Z * Z) => _).
  pose proof (for_exit_ind (scan_inv p n) (first_fit p n) body
    (Z.to_nat (pmm_total_pages_cnt p - 0)) 0 (0, 0)) as H.
  replace (0 + Z.of_nat (Z.to_nat (pmm_total_pages_cnt p - 0)))
    with (pmm_total_pages_cnt p) in H by lia.
  lapply H; [clear H; intros H|].
  2: { repeat split; try lia; intros ?; lia. }
  lapply H; [clear H; intros H|].
  { destruct (for_exit _ _ _ _) as [[run start]|s]; [|done].
    destruct H as (_ & _ & _ & _ & _ & H). exact H. }
  intros i [run start] Hi (H1 & H2 & H3 & H4 & H5 & H6). unfold body.
  rewrite bit_test_free by lia. destruct (page_free p i) eqn:Ef.
  - assert (Hst : (if run =? 0 then i else start) = i - run).
    { destruct (Z.eqb_spec run 0) as [->|]; [lia|auto]. }
    assert (Hrun : run_free p (i - run) (run + 1)).
    { intros j Hj. destruct (decide (j = i)) as [->|]; [done|]. apply H4. lia. }
    cbv zeta. rewrite Hst. destruct (Z.eqb_spec (run + 1) n) as [<-|Hne].
    + repeat split; [lia|lia|done|]. intros s' Hs'. apply H6; lia.
    + repeat split; [lia|lia|lia|lia| | |].
      * by replace (i + 1 - (run + 1)) with (i - run) by lia.
      * intros. replace (i + 1 - (run + 1) - 1) with (i - run - 1) by lia. apply H5. lia.
      * intros s Hs Hle Hr. destruct (decide (s + n <= i)); [by apply (H6 s)|].
        rewrite (Hr (i - run - 1)) in H5 by lia. discriminate H5. lia.
  - repeat split; [lia|lia|lia|lia| | |].
    + intros j Hj. lia.
    + intros _. by replace (i + 1 - 0 - 1) with i by lia.
    + intros s Hs Hle Hr. destruct (decide (s + n <= i)); [by apply (H6 s)|].
      rewrite (Hr i) in Ef by lia. done.
Qed.

Lemma mark_loop_ok p s n :
  0 <= s -> 0 <= n ->
  let p' := for_range 0 n (fun j p => bit_set p (s + j)) p in
  pmm_total_pages_cnt p' = pmm_total_pages_cnt p /\ pmm_ready p' = pmm_ready p /\
  pmm_free_pages_cnt p' = pmm_free_pages_cnt p /\
  forall i, 0 <= i -> page_used p' i = in_range s n i || page_used p i.
Proof.
  intros Hs Hn. cbv zeta.
  apply (for_range_ind (fun j q =>
    pmm_total_pages_cnt q = pmm_total_pages_cnt p /\ pmm_ready q = pmm_ready p /\
    pmm_free_pages_cnt q = pmm_free_pages_cnt p /\
    forall i, 0 <= i -> page_used q i = in_range s j i || page_used p i)); [lia|..].
  - repeat (split; [done|]). intros i Hi. in_range_cases; [lia|done].
  - intros j q Hj (? & ? & ? & Hu). repeat (split; [done|]). intros i Hi.
    rewrite used_bit_set, Hu by lia.
    destruct (Z.eqb_spec i (s + j)); in_range_cases; try lia; done.
Qed.

(** [n] pages of a free run leave the count [n] lower. *)
Lemma free_count_mark p q s n :
  0 <= s -> 0 <= n -> s + n <= pmm_total_pages_cnt p -> run_free p s n ->
  pmm_total_pages_cnt q = pmm_total_pages_cnt p ->
  (forall i, 0 <= i -> page_used q i = in_range s n i || page_used p i) ->
  free_count q = free_count p - n.
Proof.
  intros Hs Hn Hsn Hr Ht Hu. unfold free_count. rewrite Ht.
  replace (Z.to_nat (pmm_total_pages_cnt p)) with
    (Z.to_nat s + (Z.to_nat n + Z.to_nat (pmm_total_pages_cnt p - s - n)))%nat by lia.
  rewrite !count_up_split.
  rewrite (count_up_ext (Z.to_nat s) 0 (page_free q) (page_free p)).
  2: { intros i Hi. unfold page_free. rewrite Hu by lia. in_range_cases; [lia|done]. }
  rewrite (count_up_ext (Z.to_nat (pmm_total_pages_cnt p - s - n)) _ (page_free q) (page_free p)).
  2: { intros i Hi. unfold page_free. rewrite Hu by lia. in_range_cases; [lia|done]. }
  rewrite (count_up_ext (Z.to_nat n) _ (page_free q) (fun _ => false)).
  2: { intros i Hi. unfold page_free. rewrite Hu by lia. in_range_cases; [done|lia]. }
  rewrite (count_up_ext (Z.to_nat n) _ (page_free p) (fun _ => true)).
  2: { intros i Hi. apply Hr. lia. }
  assert (forall k lo, count_up k lo (fun _ => false) = 0) as ->.
  { induction k as [|k IH]; intros lo; cbn; [done|apply IH]. }
  assert (forall k lo, count_up k lo (fun _ => true) = Z.of_nat k) as ->.
  { induction k as [|k IH]; intros lo; cbn [count_up Z.b2z]; [done|]. rewrite IH. lia. }
  lia.
Qed.

Lemma fit_le_count p n s :
  0 <= n -> 0 <= s -> s + n <= pmm_total_pages_cnt p -> run_free p s n -> n <= free_count p.
Proof.
  intros Hn Hs Hsn Hr. pose proof (mark_loop_ok p s n Hs Hn) as Hm. cbv zeta in Hm.
  set (q := for_range 0 n _ p) in *. destruct Hm as (Ht & _ & _ & Hu).
  pose proof (free_count_mark p q s n Hs Hn Hsn Hr Ht Hu) as Hc.
  pose proof (free_count_bounds q ltac:(lia)). lia.
Qed.

(** The whole behaviour of [pmm_alloc_pages]. *)
Lemma alloc_cases p n :
  pmm_inv p -> pmm_ready p = true -> 0 < n ->
  (no_fit p n /\ pmm_alloc_pages p n = (0, p)) \/
  exists s p', first_fit p n s /\ pmm_alloc_pages p n = (s * 4096, p') /\
    pages_become true (in_range s n) p p' /\
    pmm_free_pages_cnt p' = pmm_free_pages_cnt p - n.
Proof.
  intros Hinv Hr Hn. pose proof Hinv as [Hb Hc]. specialize (Hc Hr).
  pose proof (scan_ok p n Hn ltac:(lia)) as Hscan. unfold pmm_alloc_pages.
  rewrite (proj2 (Z.eqb_neq n 0)) by lia.
  destruct (Z.ltb_spec (pmm_free_pages_cnt p) n) as [Hlt|Hge].
  { left. split; [|done]. intros s Hs Hsn Hrun.
    pose proof (fit_le_count p n s ltac:(lia) Hs Hsn Hrun). lia. }
  destruct (for_range_exit _ _ _ _) as [?|s]; [by left|]. right.
  destruct Hscan as (Hs & Hsn & Hrun & Hmin).
  pose proof (mark_loop_ok p s n Hs ltac:(lia)) as Hm. cbv zeta in Hm.
  set (q := for_range 0 n _ p) in *. destruct Hm as (Ht & Hrq & Hcq & Hu).
  pose proof (free_count_mark p q s n Hs ltac:(lia) Hsn Hrun Ht Hu) as Hfc.
  pose proof (free_count_bounds q ltac:(lia)). pose proof (free_count_bounds p ltac:(lia)).
  unfold MAX_PAGES in *.
  assert (Ecnt : pmm_free_pages_cnt q -% n = free_count q).
  { rewrite Hcq, u64_small by (unfold is_u64; lia). lia. }
  exists s, (set_free_cnt q (pmm_free_pages_cnt q -% n)).
  rewrite Ecnt. split; [done|]. split.
  { unfold PAGE_SIZE. rewrite u64_small by (unfold is_u64; lia). done. }
  split; [|cbn; lia]. split.
  { split; [cbn; unfold MAX_PAGES; lia|done]. }
  split; [done|]. split; [done|]. intros i Hi. 
  change (page_used (set_free_cnt q (free_count q)) i) with (page_used q i).
  rewrite Hu by done. in_range_cases; [|done].
  rewrite (proj2 (Z.ltb_lt i _)) by lia. done.
Qed.

(** ** The interface *)

#[export] Instance pmm_page_ops : PageOps pmm := {
  pa_alloc := pmm_alloc_pages;
  pa_free := pmm_free_pages;
  pa_isfree := page_free;
  pa_total := pmm_total_pages_cnt;
  pa_wf p := pmm_inv p /\ pmm_ready p = true /\ page_used p 0 = true
}.

#[export] Instance pmm_page_laws : PageLaws pmm.
Proof.
  split.
  - intros s ([Hb _] & _ & _). exact Hb.
  - intros p n pa p' (Hinv & Hr & H0) Hn Ha Hpa.
    destruct (decide (n = 0)) as [->|].
    { unfold pa_alloc, pmm_page_ops, pmm_alloc_pages in Ha. cbn in Ha. congruence. }
    destruct (alloc_cases p n Hinv Hr ltac:(lia)) as [[_ E]|(s & q & Hff & E & Hpb & _)];
      unfold pa_alloc, pmm_page_ops in Ha; rewrite E in Ha; injection Ha as <- <-; [done|].
    destruct Hff as (Hs & Hsn & Hrun & _). destruct Hpb as (Iq & Tq & Rq & Uq).
    assert (H0' : page_free p 0 = false) by (unfold page_free; by rewrite H0).
    assert (0 < s).
    { destruct (decide (s = 0)) as [->|]; [|lia]. rewrite Hrun in H0' by lia. done. }
    split; [|split; [done|split; [lia|]]].
    { split; [done|]. split; [congruence|]. rewrite Uq by lia.
      in_range_cases; [lia|done]. }
    exists s.
    split; [done|]. split; [done|]. split; [done|]. split; [done|].
    intros i Hi. cbn [pa_isfree pmm_page_ops]. unfold page_free. rewrite Uq by done.
    fold (in_range s n i). in_range_cases; cbn [andb negb].
    + rewrite (proj2 (Z.ltb_lt i _)) by (cbn in Hsn; lia). by rewrite andb_false_r.
    + by rewrite andb_true_r.
  - intros p n p' (Hinv & Hr & H0) Hn Ha.
    unfold pa_alloc, pmm_page_ops in Ha. destruct (decide (n = 0)) as [->|].
    { unfold pmm_alloc_pages in Ha. cbn in Ha. congruence. }
    destruct (alloc_cases p n Hinv Hr ltac:(lia)) as [[_ E]|(s & q & Hff & E & _)];
      rewrite E in Ha; [congruence|]. injection Ha as E1 _.
    destruct Hff as (Hs & Hsn & Hrun & _). exfalso.
    assert (s = 0) as -> by lia.
    specialize (Hrun 0 ltac:(lia)). unfold page_free in Hrun. by rewrite H0 in Hrun.
  - intros p addr n (Hinv & Hr & H0) Ha Hn. unfold PAGE_SIZE in *.
    destruct (free_pages_spec p addr n Hinv ltac:(lia) Hn) as (Iq & Tq & Rq & Uq).
    cbn. split; [|split; [done|]].
    + split; [done|]. split; [congruence|]. rewrite Uq by lia.
      in_range_cases; [cint|done].
    + intros i Hi. unfold page_free. rewrite Uq by done. unfold in_range.
      destruct (_ && _); [by rewrite orb_true_r|by rewrite orb_false_r].
Qed.

(** ** Boot *)

Lemma recount_ok p : 0 <= pmm_total_pages_cnt p ->
  pmm_free_pages_cnt (pmm_recount_free p) = free_count p.
Proof.
  intros Ht. unfold pmm_recount_free. cbn. unfold free_count, for_range.
  rewrite Z.sub_0_r.
  assert (H : forall n lo c, 0 <= lo ->
    for_up n lo (fun i free_pages => if bit_test p i =? 0 then free_pages + 1 else free_pages) c =
    c + count_up n lo (page_free p)).
  { induction n as [|n IH]; intros lo c Hlo; cbn [for_up count_up]; [lia|].
    rewrite IH by lia. rewrite bit_test_free by done. destruct (page_free p lo); cbn; lia. }
  by rewrite H.
Qed.

Lemma free_count_recount p : free_count (pmm_recount_free p) = free_count p.
Proof. reflexivity. Qed.

Lemma page_free_recount p i : page_free (pmm_recount_free p) i = page_free p i.
Proof. reflexivity. Qed.

Lemma recount_inv p : 0 <= pmm_total_pages_cnt p <= MAX_PAGES -> pmm_inv (pmm_recount_free p).
Proof.
  intros H. split; [done|]. intros _.
  rewrite free_count_recount. apply recount_ok. lia.
Qed.

Lemma free_entries_inv fuel m end_ es pos p p' :
  mb2_free_entries fuel m end_ es pos p = Some p' -> pmm_inv p ->
  pmm_inv p' /\ pmm_total_pages_cnt p' = pmm_total_pages_cnt p /\ pmm_ready p' = pmm_ready p.
Proof.
  revert pos p. induction fuel as [|fuel IH]; intros pos p; cbn [mb2_free_entries];
    destruct (end_ <=? pos); try done; try (intros [= <-]; done).
  intros E Hinv. destruct (ld32 m (pos + 16) =? 1).
  - destruct (free_range_any p (ld64 m pos) (ld64 m (pos + 8)) Hinv) as (sel & I & T & R & _).
    destruct (IH _ _ E I) as (? & ? & ?). split; [done|]. split; congruence.
  - by apply IH in E.
Qed.

(** The list of multiboot2 tags, type and address of each, up to the end
    tag; a tag starts where the one before ends, rounded up to 8 bytes. *)
Inductive mb2_tags (m : mem) : Z -> list (Z * Z) -> Prop :=
| tags_end tag : ld32 m tag = 0 -> mb2_tags m tag []
| tags_next tag l : ld32 m tag <> 0 -> ld32 m (tag + 4) + 7 < 4294967296 ->
    mb2_tags m (tag + 8 * ((ld32 m (tag + 4) + 7) / 8)) l -> mb2_tags m tag ((ld32 m tag, tag) :: l).

(** The first tag of a type. *)
Fixpoint first_tag (want : Z) (l : list (Z * Z)) : option Z :=
  match l with
  | [] => None
  | (ty, tag) :: l' => if decide (ty = want) then Some tag else first_tag want l'
  end.

Lemma align8_round x : 0 <= x -> x + 7 < 4294967296 -> mb2_align8 x = 8 * ((x + 7) / 8).
Proof.
  intros H0 Hx. unfold mb2_align8. rewrite u32_small by (unfold is_u32; lia).
  change 4294967288 with (Z.shiftl (Z.ones 29) 3). apply Z.bits_inj_iff'. intros k Hk.
  rewrite Z.land_spec, Z.mul_comm. change 8 with (2 ^ 3). rewrite <- Z.shiftl_mul_pow2, <- Z.shiftr_div_pow2 by lia.
  destruct (decide (k < 3)) as [Hlt|Hge].
  - rewrite !Z.shiftl_spec_low by lia. by rewrite andb_false_r.
  - rewrite !Z.shiftl_spec by lia. rewrite Z.shiftr_spec by lia. replace (k - 3 + 3) with k by lia.
    destruct (decide (k - 3 < 29)) as [Hs|Hs].
    + rewrite Z.ones_spec_low by lia. by rewrite andb_true_r.
    + rewrite Z.ones_spec_high by lia. rewrite andb_false_r. symmetry. destruct (decide (x + 7 = 0)); [lia|].
      apply Z.bits_above_log2; [lia|]. apply Z.log2_lt_pow2; [lia|]. apply Z.lt_le_trans with (2 ^ 32); [lia|].
      apply Z.pow_le_mono_r; lia.
Qed.

Lemma find_tag_first m want tag l : mb2_tags m tag l -> forall fuel, (length l < fuel)%nat ->
  mb2_find_tag fuel m want tag = Some (first_tag want l).
Proof.
  induction 1 as [tag Ht|tag l Ht Hs _ IH]; intros fuel Hf; (destruct fuel as [|fuel]; cbn [length] in Hf; [lia|]);
    cbn [mb2_find_tag first_tag]; unfold MB2_TAG_END.
  - by rewrite Ht.
  - rewrite (proj2 (Z.eqb_neq _ _)) by done. destruct (Z.eqb_spec (ld32 m tag) want) as [->|Hne].
    + by rewrite decide_True.
    + rewrite decide_False, align8_round by (done || apply ldn_range). apply IH. lia.
Qed.

(** Entry [k] of the memory map at [t], which has [ld32 m (t + 8)] bytes an
    entry, and the pages that lie in its usable entries (type 1). *)
Definition map_entry (m : mem) (t k : Z) : Z := t + 16 + k * ld32 m (t + 8).
Definition in_map (m : mem) (t k : Z) : Prop := 0 <= k /\ map_entry m t k < t + ld32 m (t + 4).
Definition usable (m : mem) (t i : Z) : Prop :=
  exists k, in_map m t k /\ ld32 m (map_entry m t k + 16) = 1 /\
    sel_inside (ld64 m (map_entry m t k)) (ld64 m (map_entry m t k + 8)) i = true.

Lemma free_entries_exact fuel m end_ es pos p p' :
  0 < es -> mb2_free_entries fuel m end_ es pos p = Some p' -> pmm_inv p ->
  (forall k, 0 <= k -> pos + k * es < end_ -> ld32 m (pos + k * es + 16) = 1 ->
     ld64 m (pos + k * es) + ld64 m (pos + k * es + 8) + 4096 <= 18446744073709551616) ->
  forall i, 0 <= i < pmm_total_pages_cnt p ->
    page_free p' i = true <-> page_free p i = true \/
      exists k, 0 <= k /\ pos + k * es < end_ /\ ld32 m (pos + k * es + 16) = 1 /\
        sel_inside (ld64 m (pos + k * es)) (ld64 m (pos + k * es + 8)) i = true.
Proof.
  intros Hes. revert pos p. induction fuel as [|fuel IH]; intros pos p E Hinv Hfit i Hi; cbn [mb2_free_entries] in E;
    destruct (Z.leb_spec end_ pos) as [Hend|Hend]; try done.
  1,2: injection E as <-; split; [by left|]; intros [?|(k & Hk & Hlt & _)]; [done|nia].
  set (q := if ld32 m (pos + 16) =? 1 then _ else _) in E.
  assert (Hq : pmm_inv q /\ pmm_total_pages_cnt q = pmm_total_pages_cnt p /\
    (page_free q i = true <-> page_free p i = true \/ (ld32 m (pos + 16) = 1 /\ sel_inside (ld64 m pos) (ld64 m (pos + 8)) i = true))).
  { subst q. destruct (Z.eqb_spec (ld32 m (pos + 16)) 1) as [H1|H1]; [|split_and!; try done; tauto].
    specialize (Hfit 0 ltac:(lia) ltac:(lia)). replace (pos + 0 * es) with pos in Hfit by lia.
    destruct (free_range_spec p (ld64 m pos) (ld64 m (pos + 8)) Hinv) as (I & T & _ & Hu);
      [apply (ldn_range 8)|apply (ldn_range 8)|by apply Hfit|]. split_and!; try done. unfold page_free. rewrite Hu by lia.
    rewrite (proj2 (Z.ltb_lt i _)), andb_true_r by lia. destruct (sel_inside _ _ i), (page_used p i); simpl; intuition done. }
  clearbody q. destruct Hq as (Iq & Tq & Hqi). rewrite (IH (pos + es) q E Iq) by
    (try lia; intros k Hk; replace (pos + es + k * es) with (pos + (k + 1) * es) by lia; apply Hfit; lia).
  rewrite Hqi. split.
  - intros [[?|[H1 H2]]|(k & Hk & Hlt & H1 & H2)]; [by left|right; exists 0|right; exists (k + 1)].
    + replace (pos + 0 * es) with pos by lia. split_and!; try done; lia.
    + replace (pos + (k + 1) * es) with (pos + es + k * es) by lia. split_and!; try done; lia.
  - intros [?|(k & Hk & Hlt & H1 & H2)]; [by left; left|]. destruct (decide (k = 0)) as [->|Hk0].
    + replace (pos + 0 * es) with pos in H1, H2 by lia. left. by right.
    + right. exists (k - 1). replace (pos + es + (k - 1) * es) with (pos + k * es) by lia. split_and!; try done; lia.
Qed.

Lemma free_entries_total fuel m end_ es pos p :
  0 < es -> end_ - pos <= Z.of_nat fuel * es ->
  exists p', mb2_free_entries fuel m end_ es pos p = Some p'.
Proof.
  intros Hes. revert pos p. induction fuel as [|fuel IH]; intros pos p Hf; cbn [mb2_free_entries];
    destruct (Z.leb_spec end_ pos); eauto; [lia|].
  apply IH. lia.
Qed.

Definition pmm_reset (p : pmm) : pmm := mk_pmm (fun _ => 255) (pmm_free_pages_cnt p) MAX_PAGES (pmm_ready p).

Lemma reset_used p i : 0 <= i -> page_used (pmm_reset p) i = true.
Proof.
  intros Hi. unfold page_used. cbn.
  destruct (idx_split i Hi) as (_ & _ & [-> | [-> | [-> | [-> | [-> | [-> | [-> | ->]]]]]]]%range8_cases & _); done.
Qed.

(** ** Sequences of operations *)

Inductive pmm_op :=
| OpAlloc (n : Z)
| OpFree (addr n : Z)
| OpFreeRange (addr size : Z)
| OpReserveRange (addr size : Z).

Definition pmm_apply (op : pmm_op) (p : pmm) : pmm :=
  match op with
  | OpAlloc n => snd (pmm_alloc_pages p n)
  | OpFree a n => pmm_free_pages p a n
  | OpFreeRange a s => pmm_free_range p a s
  | OpReserveRange a s => pmm_reserve_range p a s
  end.

(** The argument types of the C functions. *)
Definition pmm_op_args (op : pmm_op) : Prop :=
  match op with
  | OpAlloc n => is_u64 n
  | OpFree a n | OpFreeRange a n | OpReserveRange a n => is_u64 a /\ is_u64 n
  end.

Inductive pmm_step (p : pmm) : pmm -> Prop :=
| step_op op : pmm_op_args op -> pmm_step p (pmm_apply op p).

Lemma pmm_step_inv p p' : pmm_step p p' -> pmm_inv p -> pmm_ready p = true ->
  pmm_inv p' /\ pmm_ready p' = true /\ pmm_total_pages_cnt p' = pmm_total_pages_cnt p.
Proof.
  intros [op Hop] Hinv Hr. destruct op as [n|a n|a n|a n]; cbn in *; unfold is_u64 in *.
  - destruct (decide (n = 0)) as [->|]; [done|].
    destruct (alloc_cases p n Hinv Hr ltac:(lia)) as [[_ E]|(s & q & _ & E & (?&?&?&_) & _)];
      rewrite E; cbn; [done|]. split; [done|]. split; congruence.
  - destruct (decide (a = 0)) as [->|].
    { unfold pmm_free_pages. by destruct (n =? 0). }
    destruct (free_pages_spec p a n Hinv) as (?&?&?&_); [lia|lia|].
    split; [done|]. split; congruence.
  - destruct (free_range_any p a n Hinv) as (sel & ?&?&?&_).
    split; [done|]. split; congruence.
  - destruct (align_mult (a +% n)) as (e & He & Ee).
    destruct (reserve_range_core p a n (a / 4096) e Hinv) as (?&?&?&_);
      [cint|apply align_down_page; unfold is_u64; lia|done|]. split; [done|]. split; congruence.
Qed.

Lemma reserve_exact p addr size i :
  pmm_inv p -> 0 <= addr -> 0 <= size -> addr + size + 4096 <= 18446744073709551616 ->
  0 <= i < pmm_total_pages_cnt p ->
  page_free (pmm_reserve_range p addr size) i = true <-> page_free p i = true /\ sel_touched addr size i = false.
Proof.
  intros Hinv H1 H2 H3 Hi. destruct (reserve_range_spec p addr size Hinv H1 H2 H3) as (_ & _ & _ & Hu).
  unfold page_free. rewrite Hu by lia. rewrite (proj2 (Z.ltb_lt i _)), andb_true_r by lia.
  destruct (sel_touched addr size i); simpl; intuition done.
Qed.

(** * Properties *)

(** C1: [pmm_alloc_pages] is first fit.  When [s] is the lowest page with
    [n] consecutive free tracked pages behind it, the call returns the
    address of page [s], marks exactly these [n] pages used and lowers the
    free counter by [n]; when no such run exists it returns 0 and changes
    nothing. *)
Theorem pmm_alloc_pages_first_fit p n :
  pmm_inv p -> pmm_ready p = true -> 0 < n ->
  (forall s, first_fit p n s ->
     exists p', pmm_alloc_pages p n = (s * PAGE_SIZE, p') /\
       pages_become true (in_range s n) p p' /\
       pmm_free_pages_cnt p' = pmm_free_pages_cnt p - n) /\
  (no_fit p n -> pmm_alloc_pages p n = (0, p)).
Proof.
  intros Hinv Hr Hn.
  destruct (alloc_cases p n Hinv Hr Hn) as [[Hno E]|(s & p' & Hff & E & Hpb & Hc)].
  - split; [|done]. intros s (Hs & Hsn & Hrun & _). by destruct (Hno s).
  - split.
    + intros s' Hff'. assert (s' = s) as ->.
      { destruct Hff as (? & ? & Hr1 & Hm1), Hff' as (? & ? & Hr2 & Hm2).
        destruct (Z.lt_trichotomy s s') as [|[|]]; [|done|].
        - by destruct (Hm2 s ltac:(lia)).
        - by destruct (Hm1 s' ltac:(lia)). }
      exists p'. done.
    + intros Hno. destruct Hff as (Hs & Hsn & Hrun & _). by destruct (Hno s).
Qed.

(** A machine of 12 pages of which 0..3 and 6 are in use. *)
Definition demo_pmm : pmm :=
  mk_pmm (fun b => if b =? 0 then 79 else 0) 7 12 true.

Lemma demo_pmm_inv : pmm_inv demo_pmm.
Proof. split; [unfold MAX_PAGES; cbn; lia|]; reflexivity. Qed.

Lemma demo_pmm_used i : 0 <= i < 12 ->
  page_used demo_pmm i = (i <? 4) || (i =? 6).
Proof.
  intros Hi. assert (i = 0 \/ i = 1 \/ i = 2 \/ i = 3 \/ i = 4 \/ i = 5 \/ i = 6 \/ i = 7
    \/ i = 8 \/ i = 9 \/ i = 10 \/ i = 11) as Hc by lia.
  repeat destruct Hc as [->|Hc]; try reflexivity. subst i. reflexivity.
Qed.

Lemma demo_first_fit : first_fit demo_pmm 3 7.
Proof.
  split; [lia|]. split; [cbn; lia|]. split.
  - intros i Hi. unfold page_free. rewrite demo_pmm_used by lia. lia.
  - intros s Hs Hr. specialize (Hr (if s <? 4 then s else 6)). unfold page_free in Hr.
    rewrite demo_pmm_used in Hr by (case_b; lia). case_b_in Hr; lia.
Qed.

Lemma pmm_alloc_pages_first_fit_witness :
  0 < 3 /\ fst (pmm_alloc_pages demo_pmm 3) = 7 * 4096.
Proof.
  split; [lia|].
  destruct (pmm_alloc_pages_first_fit demo_pmm 3 demo_pmm_inv eq_refl ltac:(lia)) as [H _].
  destruct (H 7 demo_first_fit) as (p' & E & _). rewrite E. reflexivity.
Defined.

(** C15: Every page operation keeps the allocator's invariant: from a state
    in which the counter equals the number of clear bits, any sequence of
    allocations, frees (also of pages already free), range frees and
    range reservations, with any 64-bit arguments, reaches only states in
    which the counter equals the number of clear bits and the tracked
    pages fit the bitmap. *)
Theorem pmm_reachable_inv p p' :
  pmm_inv p -> pmm_ready p = true -> rtc pmm_step p p' ->
  pmm_inv p' /\ pmm_ready p' = true /\ pmm_total_pages_cnt p' = pmm_total_pages_cnt p.
Proof.
  intros Hinv Hr Hs. induction Hs as [p|p q p' Hpq Hs IH]; [done|].
  destruct (pmm_step_inv p q Hpq Hinv Hr) as (Iq & Rq & Tq).
  destruct (IH Iq Rq) as (? & ? & ?). split; [done|]. split; congruence.
Qed.

Lemma pmm_reachable_inv_witness :
  pmm_inv (pmm_apply (OpFree 4096 2) (pmm_apply (OpAlloc 3) demo_pmm)).
Proof.
  apply (pmm_reachable_inv demo_pmm _ demo_pmm_inv eq_refl).
  eapply rtc_l; [apply (step_op _ (OpAlloc 3)); cbn; unfold is_u64; lia|].
  eapply rtc_l; [apply (step_op _ (OpFree 4096 2)); cbn; unfold is_u64; lia|].
  apply rtc_refl.
Defined.

(** Freeing what was allocated restores the allocator: after a
    successful [pmm_alloc_pages] of [n] pages, [pmm_free_pages] of the
    returned address gives back the same set of free pages and the same
    counter. *)
Theorem pmm_alloc_free_roundtrip p n a p1 :
  pmm_inv p -> pmm_ready p = true -> 0 < n ->
  pmm_alloc_pages p n = (a, p1) -> a <> 0 ->
  let p2 := pmm_free_pages p1 a n in
  pmm_free_pages_cnt p2 = pmm_free_pages_cnt p /\
  pmm_total_pages_cnt p2 = pmm_total_pages_cnt p /\
  forall i, 0 <= i -> page_used p2 i = page_used p i.
Proof.
  intros Hinv Hr Hn E Ha. cbv zeta.
  destruct (alloc_cases p n Hinv Hr Hn) as [[_ E']|(s & q & Hff & E' & (Iq & Tq & Rq & Uq) & _)];
    rewrite E' in E; injection E as <- <-; [done|].
  destruct Hff as (Hs & Hsn & Hrun & _).
  destruct (free_pages_spec q (s * 4096) n Iq ltac:(lia) ltac:(lia)) as (I2 & T2 & R2 & U2).
  rewrite Z.div_mul in U2 by lia.
  assert (U : forall i, 0 <= i -> page_used (pmm_free_pages q (s * 4096) n) i = page_used p i).
  { intros i Hi. rewrite U2, Uq by done. rewrite Tq. in_range_cases; [|done].
    specialize (Hrun i ltac:(lia)). unfold page_free in Hrun.
    destruct (i <? pmm_total_pages_cnt p); [|done]. cbn. by destruct (page_used p i). }
  split; [|split; [congruence|done]].
  destruct I2 as [_ ->]; [|congruence]. destruct Hinv as [_ ->]; [|done].
  unfold free_count. rewrite T2, Tq. apply count_up_ext. intros i Hi.
  unfold page_free. by rewrite U by lia.
Qed.

Lemma pmm_alloc_free_roundtrip_witness :
  pmm_free_pages_cnt (pmm_free_pages (snd (pmm_alloc_pages demo_pmm 3)) (7 * 4096) 3) = 7.
Proof.
  apply (pmm_alloc_free_roundtrip demo_pmm 3 (7 * 4096) (snd (pmm_alloc_pages demo_pmm 3)));
    [apply demo_pmm_inv|reflexivity|lia|reflexivity|lia].
Defined.

(** Range operations act on whole pages in the safe direction, when
    the range does not run past the end of the address space:
    [pmm_free_range] frees exactly the tracked pages that lie inside the
    range, [pmm_reserve_range] reserves exactly the tracked pages that the
    range touches, and all other pages keep their state. *)
Theorem pmm_range_exact p addr size :
  pmm_inv p -> 0 <= addr -> 0 <= size -> addr + size + PAGE_SIZE <= 18446744073709551616 ->
  pages_become false (sel_inside addr size) p (pmm_free_range p addr size) /\
  pages_become true (sel_touched addr size) p (pmm_reserve_range p addr size).
Proof. intros. split; [by apply free_range_spec|by apply reserve_range_spec]. Qed.

Lemma pmm_range_exact_witness :
  pmm_inv (pmm_free_range demo_pmm 100 9000) /\
  page_used (pmm_free_range demo_pmm 100 9000) 1 = false.
Proof.
  destruct (pmm_range_exact demo_pmm 100 9000 demo_pmm_inv) as [(H1 & _ & _ & H2) _];
    [lia|lia|unfold PAGE_SIZE; lia|].
  split; [done|]. rewrite H2 by lia. reflexivity.
Defined.

(** What the boot loader has to provide: the list [l] of tags, ended, and in
    it a memory map with non-empty entries that do not wrap around, all within
    the fuel. *)
Definition mb2_ok (fuel : nat) (m : mem) (mb2 : Z) (l : list (Z * Z)) : Prop :=
  0 <= mb2 /\ mb2 + ld32 m mb2 + 4096 <= 18446744073709551616 /\
  mb2_tags m (mb2 + 8) l /\ (length l < fuel)%nat /\
  forall t, first_tag 6 l = Some t ->
    0 < ld32 m (t + 8) /\ ld32 m (t + 4) - 16 <= Z.of_nat fuel * ld32 m (t + 8) /\
    forall k, in_map m t k -> ld32 m (map_entry m t k + 16) = 1 ->
      ld64 m (map_entry m t k) + ld64 m (map_entry m t k + 8) + 4096 <= 18446744073709551616.

(** C37: [pmm_init] terminates on a well-formed multiboot2 structure, the
    invariant of the allocator holds, and the free pages are exactly those
    that lie in a usable entry of the memory map and touch neither the low
    1 MiB nor the kernel image nor the multiboot2 structure; without a memory
    map no page is free.  So page 0 is never handed out and the return value
    0 is unambiguous. *)
Theorem pmm_init_safe fuel m kstart kend mb2 l p0 :
  mb2_ok fuel m mb2 l -> pmm_ready p0 = false ->
  0 <= kstart <= kend -> kend + 4096 <= 18446744073709551616 ->
  exists p, pmm_init fuel m kstart kend mb2 p0 = Some p /\
    pmm_inv p /\ pmm_free_pages_cnt p = free_count p /\ pmm_total_pages_cnt p = MAX_PAGES /\
    forall i, 0 <= i < MAX_PAGES -> page_free p i = true <->
      (exists t, first_tag 6 l = Some t /\ usable m t i) /\
      256 <= i /\ sel_touched kstart (kend - kstart) i = false /\ sel_touched mb2 (ld32 m mb2) i = false.
Proof.
  intros (Hm1 & Hm2 & Htags & Hk & Hent) Hr0 Hks Hke. unfold pmm_init. fold (pmm_reset p0).
  assert (I0 : pmm_inv (pmm_reset p0)).
  { split; [cbn; unfold MAX_PAGES; lia|]. intros H. cbn in H. congruence. }
  unfold MB2_TAG_MMAP. rewrite (find_tag_first m 6 _ l Htags fuel Hk). destruct (first_tag 6 l) as [t|].
  2: { eexists. split; [done|].
       split; [apply recount_inv; cbn; unfold MAX_PAGES; lia|].
       split; [rewrite free_count_recount; apply recount_ok; cbn; unfold MAX_PAGES; lia|].
       split; [done|]. intros i Hi. rewrite page_free_recount. unfold page_free. rewrite reset_used by lia.
       split; [done|]. by intros [(t & [=] & _) _]. }
  destruct (Hent t eq_refl) as (He1 & He2 & Hfit).
  destruct (free_entries_total fuel m (t + ld32 m (t + 4)) (ld32 m (t + 8)) (t + 16) (pmm_reset p0)
    He1 ltac:(lia)) as (p1 & E1). rewrite E1.
  destruct (free_entries_inv _ _ _ _ _ _ _ E1 I0) as (I1 & T1 & R1). cbn in T1, R1.
  pose proof (free_entries_exact _ _ _ _ _ _ _ He1 E1 I0 (fun k H0 H1 => Hfit k (conj H0 H1))) as Hp1.
  rewrite (u64_small (kend - kstart)) by (unfold is_u64; lia). pose proof (ldn_range 4 m mb2) as Hsz.
  destruct (reserve_range_spec p1 0 1048576 I1 ltac:(lia) ltac:(lia) ltac:(lia)) as (I2 & T2 & R2 & _).
  pose proof (fun i => reserve_exact p1 0 1048576 i I1 ltac:(lia) ltac:(lia) ltac:(lia)) as Hp2.
  set (p2 := pmm_reserve_range p1 0 1048576) in *. clearbody p2.
  destruct (reserve_range_spec p2 kstart (kend - kstart) I2 ltac:(lia) ltac:(lia) ltac:(lia)) as (I3 & T3 & R3 & _).
  pose proof (fun i => reserve_exact p2 kstart (kend - kstart) i I2 ltac:(lia) ltac:(lia) ltac:(lia)) as Hp3.
  set (p3 := pmm_reserve_range p2 kstart (kend - kstart)) in *. clearbody p3.
  destruct (reserve_range_spec p3 mb2 (ld32 m mb2) I3 ltac:(lia) ltac:(lia) ltac:(lia)) as (I4 & T4 & R4 & _).
  pose proof (fun i => reserve_exact p3 mb2 (ld32 m mb2) i I3 ltac:(lia) ltac:(lia) ltac:(lia)) as Hp4.
  set (p4 := pmm_reserve_range p3 mb2 (ld32 m mb2)) in *. clearbody p4. unfold MAX_PAGES in *.
  pose proof (recount_ok p4 ltac:(lia)) as Hrc.
  eexists. split; [done|]. split; [split; [cbn; unfold MAX_PAGES; lia|]; intros _; exact Hrc|].
  split; [exact Hrc|]. split; [cbn; congruence|].
  intros i Hi. change (page_free p4 i = true <-> (exists t0, Some t = Some t0 /\ usable m t0 i) /\ 256 <= i /\
    sel_touched kstart (kend - kstart) i = false /\ sel_touched mb2 (ld32 m mb2) i = false).
  rewrite Hp4, Hp3, Hp2, Hp1 by (cbn; unfold MAX_PAGES; lia). unfold page_free at 1. rewrite reset_used by lia.
  assert (Hlow : sel_touched 0 1048576 i = false <-> 256 <= i).
  { unfold sel_touched. rewrite andb_false_iff, !Z.ltb_ge. lia. }
  rewrite Hlow. split.
  - intros [[[[?|(k & H0 & H1 & H2 & H3)] ?] ?] ?]; [done|]. split_and!; try done. exists t. split; [done|].
    exists k. by split_and!; [split|..].
  - intros ((t' & [= <-] & k & [H0 H1] & H2 & H3) & ? & ? & ?). split_and!; try done. right. by exists k.
Qed.

(** Boot information at 0x9000 with a memory map of two entries: 8 MiB of
    memory, and above it 1 MiB that is reserved (type 2). *)
Definition demo_mb2 : mem :=
  st32 (st64 (st64 (st32 (st64 (st64 (st32 (st32 (st32 (st32 (fun _ => 0) 36864 80) 36872 6) 36876 64) 36880 24)
    36888 0) 36896 8388608) 36904 1) 36912 8388608) 36920 1048576) 36928 2.

(** Page 1024 is free; page 2050, which is reserved, and page 300 of the
    kernel are not. *)
Lemma pmm_init_safe_witness :
  exists p, pmm_init 4 demo_mb2 1048576 1232896 36864 (mk_pmm (fun _ => 0) 0 0 false) = Some p /\ pmm_inv p /\
    page_free p 1024 = true /\ page_free p 2050 = false /\ page_free p 300 = false.
Proof.
  destruct (pmm_init_safe 4 demo_mb2 1048576 1232896 36864 [(6, 36872)] (mk_pmm (fun _ => 0) 0 0 false))
    as (p & E & I & _ & _ & Hf); [|reflexivity|lia|lia|].
  - split; [lia|]. split; [vm_compute; discriminate|]. split; [|split; [simpl; lia|]].
    + change (mb2_tags demo_mb2 36872 [(ld32 demo_mb2 36872, 36872)]).
      apply tags_next; [vm_compute; discriminate|vm_compute; reflexivity|]. apply tags_end. vm_compute. reflexivity.
    + intros t Ht. injection Ht as <-. split; [vm_compute; reflexivity|]. split; [vm_compute; discriminate|].
      assert (Hes : ld32 demo_mb2 (36872 + 8) = 24 /\ ld32 demo_mb2 (36872 + 4) = 64) by (split; vm_compute; reflexivity).
      unfold in_map, map_entry. destruct Hes as [-> ->]. intros k [Hk0 Hk]. assert (k = 0 \/ k = 1) as [-> | ->] by lia; vm_compute; discriminate.
  - exists p. split; [exact E|]. split; [exact I|].
    assert (Hes : ld32 demo_mb2 (36872 + 8) = 24 /\ ld32 demo_mb2 (36872 + 4) = 64) by (split; vm_compute; reflexivity).
    split; [|split].
    + apply Hf; [unfold MAX_PAGES; lia|]. split; [|split; [lia|split; reflexivity]].
      exists 36872. split; [reflexivity|]. exists 0. split; [|split; vm_compute; reflexivity].
      split; [lia|]. vm_compute. reflexivity.
    + apply not_true_is_false. intros H. apply Hf in H; [|unfold MAX_PAGES; lia]. destruct H as [(t & Ht & k & [Hk0 Hk] & H1 & H2) _].
      injection Ht as <-. unfold map_entry in *. destruct Hes as [Ee Es]. rewrite Ee in *. rewrite Es in Hk.
      assert (k = 0 \/ k = 1) as [-> | ->] by lia; vm_compute in H1, H2; discriminate.
    + apply not_true_is_false. intros H. apply Hf in H; [|unfold MAX_PAGES; lia]. destruct H as (_ & _ & H & _).
      vm_compute in H. discriminate.
Defined.
