(* ===== verification/Vmm.v ===== *)
(** * Virtual memory manager (src/vmm.c)

    Four-level x86-64 page tables kept in physical memory, the table of
    user address spaces with their reference counts, and the user heap
    (brk).  Table pages come from the page allocator through [PageOps].
    The translation caches of the processor are not modelled:
    [tlb_invalidate] has no counterpart. *)

From stdpp Require Import prelude list.
From Stdlib Require Import ZArith Lia.
From S2P Require Import Prelude Lib Alloc.
#[local] Open Scope Z_scope.
#[local] Open Scope cint_scope.

Definition ENTRIES_PER_TABLE : Z := 512.
Definition VMM_MAX_USER_SPACES : nat := 64.
Definition VMM_ADDR_MASK : Z := 4503599627366400.           (* 0x000FFFFFFFFFF000 *)

Definition VMM_FLAG_PRESENT : Z := 1.
Definition VMM_FLAG_WRITABLE : Z := 2.
Definition VMM_FLAG_USER : Z := 4.
Definition VMM_FLAG_HUGE : Z := 128.
Definition VMM_FLAG_GLOBAL : Z := 256.
Definition VMM_FLAG_NOEXEC : Z := 9223372036854775808.

Definition USER_REGION_BASE : Z := 549755813888.            (* 0x0000008000000000 *)
Definition USER_STACK_TOP : Z := 1099511623680.             (* base + 0x7FFFFFF000 *)

(** [e & flag] as a condition. *)
Definition has_flag (e flag : Z) : bool := negb (Z.land e flag =? 0).

Record vmm_space := mk_space { sp_cr3 : Z; sp_refs : Z }.

(** The fields of thread_t that the heap operations use. *)
Record brk_thread := mk_brk_thread {
  bt_is_user : bool;
  bt_cr3 : Z;
  bt_brk_start : Z;
  bt_brk_end : Z
}.

Section vmm_def.
Context {A : Type} `{PageOps A}.

(** Physical memory and the page allocator. *)
Record mach := mk_mach { m_mem : mem; m_pages : A }.

Definition set_mem (s : mach) (m : mem) : mach := mk_mach m (m_pages s).
Definition set_pages (s : mach) (p : A) : mach := mk_mach (m_mem s) p.

(** [table[idx]] for a table of 64-bit entries. *)
Definition get_entry (s : mach) (table idx : Z) : Z := ld64 (m_mem s) (table + 8 * idx).
Definition set_entry (s : mach) (table idx v : Z) : mach :=
  set_mem s (st64 (m_mem s) (table + 8 * idx) v).

Definition pmm_free (s : mach) (addr n : Z) : mach := set_pages s (pa_free (m_pages s) addr n).

Definition alloc_zero_page (s : mach) : Z * mach :=
  let '(pa, pg) := pa_alloc (m_pages s) 1 in
  let s := set_pages s pg in
  if pa =? 0 then (0, s)
  else (pa, set_mem s (mem_fill (m_mem s) pa 0 PAGE_SIZE)).

(** [None] is the return value [false]. *)
Definition ensure_table (s : mach) (parent idx flags : Z) : option Z * mach :=
  let entry := get_entry s parent idx in
  if has_flag entry VMM_FLAG_PRESENT then (Some (Z.land entry VMM_ADDR_MASK), s)
  else
    let '(pa, s) := alloc_zero_page s in
    if pa =? 0 then (None, s)
    else (Some pa, set_entry s parent idx (Z.lor pa flags)).

Definition idx_l4 (virt : Z) : Z := Z.land (Z.shiftr virt 39) 511.
Definition idx_l3 (virt : Z) : Z := Z.land (Z.shiftr virt 30) 511.
Definition idx_l2 (virt : Z) : Z := Z.land (Z.shiftr virt 21) 511.
Definition idx_l1 (virt : Z) : Z := Z.land (Z.shiftr virt 12) 511.

(** Flags of the intermediate tables. *)
Definition table_flags (flags : Z) : Z :=
  Z.lor (Z.lor VMM_FLAG_PRESENT VMM_FLAG_WRITABLE)
        (if has_flag flags VMM_FLAG_USER then VMM_FLAG_USER else 0).

Definition map_page_inner (s : mach) (cr3 virt phys flags : Z) : bool * mach :=
  let pml4 := Z.land cr3 (not64 4095) in
  match ensure_table s pml4 (idx_l4 virt) (table_flags flags) with
  | (None, s) => (false, s)
  | (Some pdpt, s) =>
      match ensure_table s pdpt (idx_l3 virt) (table_flags flags) with
      | (None, s) => (false, s)
      | (Some pd, s) =>
          match ensure_table s pd (idx_l2 virt) (table_flags flags) with
          | (None, s) => (false, s)
          | (Some pt, s) =>
              if has_flag (get_entry s pt (idx_l1 virt)) VMM_FLAG_PRESENT then (false, s)
              else
                let entry_flags := Z.lor flags VMM_FLAG_PRESENT in
                (true, set_entry s pt (idx_l1 virt)
                         (Z.lor (Z.land phys VMM_ADDR_MASK) entry_flags))
          end
      end
  end.

Definition vmm_map_page := map_page_inner.

Definition vmm_map_range (s : mach) (cr3 virt phys size flags : Z) : bool * mach :=
  let pages := (size +% (PAGE_SIZE - 1)) / PAGE_SIZE in
  match for_range_exit 0 pages (fun i s =>
          match map_page_inner s cr3 (virt +% (i *% PAGE_SIZE)) (phys +% (i *% PAGE_SIZE)) flags with
          | (true, s) => inl s
          | (false, s) => inr s
          end) s with
  | inl s => (true, s)
  | inr s => (false, s)
  end.

Definition vmm_unmap_page (s : mach) (cr3 virt : Z) : Z * mach :=
  let pml4 := Z.land cr3 (not64 4095) in
  let e4 := get_entry s pml4 (idx_l4 virt) in
  if negb (has_flag e4 VMM_FLAG_PRESENT) then (0, s)
  else
    let pdpt := Z.land e4 VMM_ADDR_MASK in
    let e3 := get_entry s pdpt (idx_l3 virt) in
    if negb (has_flag e3 VMM_FLAG_PRESENT) then (0, s)
    else
      let pd := Z.land e3 VMM_ADDR_MASK in
      let e2 := get_entry s pd (idx_l2 virt) in
      if negb (has_flag e2 VMM_FLAG_PRESENT) then (0, s)
      else
        let pt := Z.land e2 VMM_ADDR_MASK in
        let entry := get_entry s pt (idx_l1 virt) in
        if negb (has_flag entry VMM_FLAG_PRESENT) then (0, s)
        else (Z.land entry VMM_ADDR_MASK, set_entry s pt (idx_l1 virt) 0).

(** The two out parameters, physical address and entry. *)
Definition vmm_resolve (s : mach) (cr3 virt : Z) : option (Z * Z) :=
  let pml4 := Z.land cr3 (not64 4095) in
  let e4 := get_entry s pml4 (idx_l4 virt) in
  if negb (has_flag e4 VMM_FLAG_PRESENT) then None
  else
    let e3 := get_entry s (Z.land e4 VMM_ADDR_MASK) (idx_l3 virt) in
    if negb (has_flag e3 VMM_FLAG_PRESENT) then None
    else if has_flag e3 VMM_FLAG_HUGE
    then Some (Z.land e3 VMM_ADDR_MASK +% Z.land virt 1073741823, e3)
    else
      let e2 := get_entry s (Z.land e3 VMM_ADDR_MASK) (idx_l2 virt) in
      if negb (has_flag e2 VMM_FLAG_PRESENT) then None
      else if has_flag e2 VMM_FLAG_HUGE
      then Some (Z.land e2 VMM_ADDR_MASK +% Z.land virt 2097151, e2)
      else
        let e1 := get_entry s (Z.land e2 VMM_ADDR_MASK) (idx_l1 virt) in
        if negb (has_flag e1 VMM_FLAG_PRESENT) then None
        else Some (Z.lor (Z.land e1 VMM_ADDR_MASK) (Z.land virt 4095), e1).

(** ** Tearing an address space down *)

Definition vmm_free_pt (s : mach) (pt_phys : Z) : mach :=
  let s := for_range 0 ENTRIES_PER_TABLE (fun i s =>
    let entry := get_entry s pt_phys i in
    if negb (has_flag entry VMM_FLAG_PRESENT) then s
    else
      let pa := Z.land entry VMM_ADDR_MASK in
      let s := if pa =? 0 then s else pmm_free s pa 1 in
      set_entry s pt_phys i 0) s in
  pmm_free s pt_phys 1.

Definition vmm_free_pd (s : mach) (pd_phys : Z) : mach :=
  let s := for_range 0 ENTRIES_PER_TABLE (fun i s =>
    let entry := get_entry s pd_phys i in
    if negb (has_flag entry VMM_FLAG_PRESENT) then s
    else
      let pa := Z.land entry VMM_ADDR_MASK in
      let s := if has_flag entry VMM_FLAG_HUGE
               then (if pa =? 0 then s else pmm_free s pa 512)
               else vmm_free_pt s pa in
      set_entry s pd_phys i 0) s in
  pmm_free s pd_phys 1.

Definition vmm_free_pdpt (s : mach) (pdpt_phys : Z) : mach :=
  let s := for_range 0 ENTRIES_PER_TABLE (fun i s =>
    let entry := get_entry s pdpt_phys i in
    if negb (has_flag entry VMM_FLAG_PRESENT) then s
    else
      let pa := Z.land entry VMM_ADDR_MASK in
      let s := if has_flag entry VMM_FLAG_HUGE
               then (if pa =? 0 then s else pmm_free s pa (512 * 512))
               else vmm_free_pd s pa in
      set_entry s pdpt_phys i 0) s in
  pmm_free s pdpt_phys 1.

Definition vmm_destroy_user_space (g_kernel_cr3 : Z) (s : mach) (cr3 : Z) : mach :=
  if (cr3 =? 0) || (cr3 =? g_kernel_cr3) then s
  else
    let pml4_phys := Z.land cr3 VMM_ADDR_MASK in
    let s := for_range 1 ENTRIES_PER_TABLE (fun i s =>
      let entry := get_entry s pml4_phys i in
      if negb (has_flag entry VMM_FLAG_PRESENT) then s
      else
        let s := vmm_free_pdpt s (Z.land entry VMM_ADDR_MASK) in
        set_entry s pml4_phys i 0) s in
    pmm_free s pml4_phys 1.

(** ** Building the kernel's identity map *)

Definition map_identity_kernel (s : mach) (pml4_phys : Z) : mach :=
  let '(pdpt_phys, s) := alloc_zero_page s in
  if pdpt_phys =? 0 then s
  else
    let flags := Z.lor (Z.lor VMM_FLAG_PRESENT VMM_FLAG_WRITABLE) VMM_FLAG_GLOBAL in
    let s := set_entry s pml4_phys 0 (Z.lor pdpt_phys flags) in
    brk (for_range_exit 0 4 (fun gi s =>
      let '(pd_phys, s) := alloc_zero_page s in
      if pd_phys =? 0 then inr s
      else
        let s := set_entry s pdpt_phys gi (Z.lor pd_phys flags) in
        inl (for_range 0 ENTRIES_PER_TABLE (fun i s =>
               let phys := gi * 1073741824 + i * 2097152 in
               set_entry s pd_phys i
                 (Z.lor (Z.lor phys flags) VMM_FLAG_HUGE)) s)) s).

(** ** Address spaces *)

Record vmm := mk_vmm {
  v_mach : mach;
  g_kernel_cr3 : Z;
  g_user_spaces : list vmm_space;
  cpu_cr3 : Z                         (* the CR3 register of this processor *)
}.

Definition set_mach (v : vmm) (s : mach) : vmm :=
  mk_vmm s (g_kernel_cr3 v) (g_user_spaces v) (cpu_cr3 v).
Definition set_spaces (v : vmm) (l : list vmm_space) : vmm :=
  mk_vmm (v_mach v) (g_kernel_cr3 v) l (cpu_cr3 v).

Definition find_space_slot (l : list vmm_space) (cr3 : Z) : option nat :=
  fst <$> list_find (fun sp => sp_cr3 sp = cr3 /\ sp_refs sp <> 0) l.

Definition find_free_space_slot (l : list vmm_space) : option nat :=
  fst <$> list_find (fun sp => sp_refs sp = 0) l.

Definition vmm_init (v : vmm) : vmm :=
  let v := set_spaces v (replicate VMM_MAX_USER_SPACES (mk_space 0 0)) in
  let '(pml4_phys, s) := alloc_zero_page (v_mach v) in
  if pml4_phys =? 0 then set_mach v s
  else
    let s := map_identity_kernel s pml4_phys in
    mk_vmm s pml4_phys (g_user_spaces v) pml4_phys.

Definition vmm_kernel_cr3 (v : vmm) : Z := g_kernel_cr3 v.

Definition vmm_create_user_space (v : vmm) : Z * vmm :=
  let '(pml4_phys, s) := alloc_zero_page (v_mach v) in
  if pml4_phys =? 0 then (0, set_mach v s)
  else
    let s := set_entry s pml4_phys 0 (get_entry s (g_kernel_cr3 v) 0) in
    match find_free_space_slot (g_user_spaces v) with
    | Some slot =>
        (pml4_phys, set_spaces (set_mach v s) (<[slot := mk_space pml4_phys 1]> (g_user_spaces v)))
    | None => (0, set_mach v (pmm_free s pml4_phys 1))
    end.

Definition vmm_retain_user_space (v : vmm) (cr3 : Z) : vmm :=
  if (cr3 =? 0) || (cr3 =? g_kernel_cr3 v) then v
  else
    let l := g_user_spaces v in
    match find_space_slot l cr3 with
    | Some slot =>
        match l !! slot with
        | Some sp => set_spaces v (<[slot := mk_space (sp_cr3 sp) (u32 (sp_refs sp + 1))]> l)
        | None => v
        end
    | None =>
        match find_free_space_slot l with
        | Some slot => set_spaces v (<[slot := mk_space cr3 2]> l)
        | None => v
        end
    end.

Definition vmm_release_user_space (v : vmm) (cr3 : Z) : vmm :=
  if (cr3 =? 0) || (cr3 =? g_kernel_cr3 v) then v
  else
    let l := g_user_spaces v in
    match find_space_slot l cr3 with
    | Some slot =>
        match l !! slot with
        | Some sp =>
            if sp_refs sp =? 0 then v
            else
              let refs := u32 (sp_refs sp - 1) in
              if refs =? 0 then
                let v := set_spaces v (<[slot := mk_space 0 0]> l) in
                set_mach v (vmm_destroy_user_space (g_kernel_cr3 v) (v_mach v) cr3)
              else set_spaces v (<[slot := mk_space (sp_cr3 sp) refs]> l)
        | None => v
        end
    | None => v
    end.

(** ** The user heap *)

(** [for (va = from; va < to; va += PAGE_SIZE)]. *)
Definition va_steps (from to : Z) : Z := (to - from + PAGE_SIZE - 1) / PAGE_SIZE.

Definition brk_grow (s : mach) (cr3 from to : Z) : bool * mach :=
  match for_range_exit 0 (va_steps from to) (fun i s =>
          let va := from + i * PAGE_SIZE in
          let '(pa, s) := alloc_zero_page s in
          if pa =? 0 then inr s
          else
            match vmm_map_page s cr3 va pa
                    (Z.lor (Z.lor VMM_FLAG_PRESENT VMM_FLAG_WRITABLE) VMM_FLAG_USER) with
            | (true, s) => inl s
            | (false, s) => inr (pmm_free s pa 1)
            end) s with
  | inl s => (true, s)
  | inr s => (false, s)
  end.

Definition brk_shrink (s : mach) (cr3 from to : Z) : mach :=
  for_range 0 (va_steps from to) (fun i s =>
    let va := from + i * PAGE_SIZE in
    let '(pa, s) := vmm_unmap_page s cr3 va in
    if pa =? 0 then s else pmm_free s pa 1) s.

Definition vmm_user_set_brk (s : mach) (t : option brk_thread) (new_end : Z)
    : bool * mach * option brk_thread :=
  match t with
  | None => (false, s, t)
  | Some th =>
      if negb (bt_is_user th) then (false, s, t)
      else
        let start := align_up_u64 (bt_brk_start th) PAGE_SIZE in
        let new_aligned := align_up_u64 new_end PAGE_SIZE in
        let new_aligned := if new_aligned <? start then start else new_aligned in
        let cur := align_up_u64 (bt_brk_end th) PAGE_SIZE in
        let done_ s := (true, s, Some (mk_brk_thread (bt_is_user th) (bt_cr3 th) (bt_brk_start th) new_end)) in
        if cur <? new_aligned then
          match brk_grow s (bt_cr3 th) cur new_aligned with
          | (true, s) => done_ s
          | (false, s) => (false, s, t)
          end
        else if new_aligned <? cur then done_ (brk_shrink s (bt_cr3 th) new_aligned cur)
        else done_ s
  end.
End vmm_def.

Arguments mach A : clear implicits.
Arguments vmm A : clear implicits.

(** ** Bits of entries and addresses *)

Lemma has_flag_bit e k : 0 <= k -> has_flag e (2 ^ k) = Z.testbit e k.
Proof.
  intros Hk. unfold has_flag. rewrite <- Z.shiftl_1_l.
  destruct (Z.testbit e k) eqn:E.
  - apply negb_true_iff, Z.eqb_neq. intros H.
    assert (Z.testbit (Z.land e (Z.shiftl 1 k)) k = true) as H'.
    { rewrite Z.land_spec, E, Z.shiftl_spec, Z.sub_diag by lia. done. }
    by rewrite H, Z.bits_0 in H'.
  - apply negb_false_iff, Z.eqb_eq. apply Z.bits_inj'. intros i Hi.
    rewrite Z.land_spec, Z.shiftl_spec, Z.bits_0 by lia.
    destruct (decide (i = k)) as [->|]; [by rewrite E|].
    destruct (decide (i < k)); [by rewrite (Z.testbit_neg_r 1), andb_false_r by lia|].
    assert (Z.testbit 1 (i - k) = false) as ->; [|by rewrite andb_false_r].
    apply (Z.bits_above_log2 1); cbn; lia.
Qed.

Lemma present_bit e : has_flag e VMM_FLAG_PRESENT = Z.testbit e 0.
Proof. exact (has_flag_bit e 0 ltac:(lia)). Qed.

Lemma huge_bit e : has_flag e VMM_FLAG_HUGE = Z.testbit e 7.
Proof. exact (has_flag_bit e 7 ltac:(lia)). Qed.

Lemma mask_eq x : Z.land x VMM_ADDR_MASK = (x / 4096) mod 2 ^ 40 * 4096.
Proof.
  change VMM_ADDR_MASK with (Z.shiftl (Z.ones 40) 12).
  change 4096 with (2 ^ 12). rewrite <- Z.land_ones, <- Z.shiftr_div_pow2, <- Z.shiftl_mul_pow2 by lia.
  apply Z.bits_inj'. intros i Hi. rewrite Z.land_spec, !Z.shiftl_spec, Z.land_spec by lia.
  destruct (decide (i < 12)).
  - by rewrite !(Z.testbit_neg_r _ (i - 12)), andb_false_r by lia.
  - rewrite Z.shiftr_spec by lia. by replace (i - 12 + 12) with i by lia.
Qed.

(** The address of a page below 2^52. *)
Definition is_frame (a : Z) : Prop := a mod 4096 = 0 /\ 0 <= a < 2 ^ 52.

Lemma frame_mask a : is_frame a -> Z.land a VMM_ADDR_MASK = a.
Proof.
  intros [Hm Hb]. rewrite mask_eq.
  assert (0 <= a / 4096 < 2 ^ 40) by (Z.div_mod_to_equations; lia).
  rewrite Z.mod_small by done. Z.div_mod_to_equations; lia.
Qed.

Lemma mask_frame x : is_frame (Z.land x VMM_ADDR_MASK).
Proof.
  rewrite mask_eq. pose proof (Z.mod_pos_bound (x / 4096) (2 ^ 40) ltac:(lia)).
  split; [apply Z.mod_mul; lia|]. lia.
Qed.

Lemma frame_cr3 a : is_frame a -> Z.land a (not64 4095) = a.
Proof.
  intros [Hm Hb]. rewrite land_not64 by (unfold is_u64; lia).
  change 4095 with (Z.ones 12). rewrite Z.ldiff_ones_r by lia.
  rewrite Z.shiftr_div_pow2, Z.shiftl_mul_pow2 by lia. change (2 ^ 12) with 4096.
  Z.div_mod_to_equations; lia.
Qed.

Lemma page_frame pg : 0 <= pg <= 1048576 -> is_frame (pg * PAGE_SIZE).
Proof. intros. unfold PAGE_SIZE. split; [apply Z.mod_mul; lia|]. lia. Qed.

(** Flag words that leave the address bits alone. *)
Definition flags_ok (f : Z) : Prop := is_u64 f /\ Z.land f VMM_ADDR_MASK = 0.

Lemma mask_lor_flags a f : is_frame a -> flags_ok f -> Z.land (Z.lor a f) VMM_ADDR_MASK = a.
Proof. intros Ha [_ Hf]. by rewrite Z.land_lor_distr_l, Hf, Z.lor_0_r, frame_mask. Qed.

Lemma lor_u64 a b : is_u64 a -> is_u64 b -> is_u64 (Z.lor a b).
Proof.
  intros [Ha1 Ha2] [Hb1 Hb2]. split; [by apply Z.lor_nonneg|].
  destruct (decide (Z.lor a b = 0)) as [->|]; [lia|].
  assert (0 < Z.lor a b) by (pose proof (proj2 (Z.lor_nonneg a b) (conj Ha1 Hb1)); lia).
  change 18446744073709551616 with (2 ^ 64). apply Z.log2_lt_pow2; [done|].
  rewrite Z.log2_lor by done.
  apply Z.max_lub_lt.
  - destruct (decide (a = 0)) as [->|]; [cbn; lia|]. apply Z.log2_lt_pow2; [lia|done].
  - destruct (decide (b = 0)) as [->|]; [cbn; lia|]. apply Z.log2_lt_pow2; [lia|done].
Qed.

Lemma is_frame_u64 a : is_frame a -> is_u64 a.
Proof. intros [_ H]. unfold is_u64. lia. Qed.

Lemma table_flags_ok f :
  flags_ok (table_flags f) /\ Z.testbit (table_flags f) 0 = true /\ Z.testbit (table_flags f) 7 = false.
Proof. unfold table_flags. destruct (has_flag f VMM_FLAG_USER); cbv; repeat split; congruence. Qed.

Lemma frame_low_bits a k : is_frame a -> 0 <= k < 12 -> Z.testbit a k = false.
Proof.
  intros [Hm _] Hk. assert (E : a = Z.shiftl (a / 4096) 12).
  { rewrite Z.shiftl_mul_pow2 by lia. change (2 ^ 12) with 4096. Z.div_mod_to_equations; lia. }
  rewrite E. apply Z.shiftl_spec_low. lia.
Qed.

Lemma land511 x : Z.land x 511 = x mod 512.
Proof. change 511 with (Z.ones 9). by rewrite Z.land_ones by lia. Qed.

Lemma idx_l4_eq v : idx_l4 v = v / 549755813888 mod 512.
Proof. unfold idx_l4. by rewrite land511, Z.shiftr_div_pow2 by lia. Qed.
Lemma idx_l3_eq v : idx_l3 v = v / 1073741824 mod 512.
Proof. unfold idx_l3. by rewrite land511, Z.shiftr_div_pow2 by lia. Qed.
Lemma idx_l2_eq v : idx_l2 v = v / 2097152 mod 512.
Proof. unfold idx_l2. by rewrite land511, Z.shiftr_div_pow2 by lia. Qed.
Lemma idx_l1_eq v : idx_l1 v = v / 4096 mod 512.
Proof. unfold idx_l1. by rewrite land511, Z.shiftr_div_pow2 by lia. Qed.

Lemma idx_ranges v :
  0 <= idx_l4 v < 512 /\ 0 <= idx_l3 v < 512 /\ 0 <= idx_l2 v < 512 /\ 0 <= idx_l1 v < 512.
Proof.
  rewrite idx_l4_eq, idx_l3_eq, idx_l2_eq, idx_l1_eq.
  repeat split; apply Z.mod_pos_bound; lia.
Qed.

(** The four indices determine the page of a 48-bit address. *)
Lemma idx_page v : 0 <= v < 2 ^ 48 ->
  v / 4096 = ((idx_l4 v * 512 + idx_l3 v) * 512 + idx_l2 v) * 512 + idx_l1 v.
Proof.
  intros Hv. rewrite idx_l4_eq, idx_l3_eq, idx_l2_eq, idx_l1_eq.
  replace (v / 2097152) with (v / 4096 / 512) by (rewrite Z.div_div by lia; done).
  replace (v / 1073741824) with (v / 4096 / 512 / 512) by (rewrite !Z.div_div by lia; done).
  replace (v / 549755813888) with (v / 4096 / 512 / 512 / 512) by (rewrite !Z.div_div by lia; done).
  assert (0 <= v / 4096 < 2 ^ 36) by (Z.div_mod_to_equations; lia).
  set (n := v / 4096) in *. clearbody n. Z.div_mod_to_equations. lia.
Qed.

(** ** The tables of an address space

    [walk m a p] follows the indices [p] down from the table at [a].  An
    address space is well formed when the tables of its user half (every
    path that does not start with index 0, the kernel's identity map) are
    allocated frames, no two paths reach the same table, and none of its
    entries is a large page. *)

Fixpoint walk (m : mem) (a : Z) (p : list Z) : option Z :=
  match p with
  | [] => Some a
  | i :: p' =>
      let e := ld64 m (a + 8 * i) in
      if has_flag e VMM_FLAG_PRESENT then walk m (Z.land e VMM_ADDR_MASK) p' else None
  end.

Definition upath (p : list Z) : Prop :=
  (length p <= 3)%nat /\ Forall (fun i => 0 <= i < 512) p /\ head p <> Some 0.

(** The entry that translates [va], if it is present. *)
Definition xlate (m : mem) (cr3 va : Z) : option Z :=
  match walk m cr3 [idx_l4 va; idx_l3 va; idx_l2 va] with
  | None => None
  | Some pt =>
      let e := ld64 m (pt + 8 * idx_l1 va) in
      if has_flag e VMM_FLAG_PRESENT then Some e else None
  end.

(** The addresses of the user half. *)
Definition user_va (va : Z) : Prop := 0 <= va < 2 ^ 48 /\ idx_l4 va <> 0.

Section vmm_facts.
Context {A : Type} `{PageLaws A}.
Implicit Types (s : mach A).

Definition table_page (s : mach A) (a : Z) : Prop :=
  is_frame a /\ 0 < a /\ a / 4096 < pa_total (m_pages s) /\
  pa_isfree (m_pages s) (a / 4096) = false.

Record space_wf (s : mach A) (cr3 : Z) : Prop := {
  sw_table p a : upath p -> walk (m_mem s) cr3 p = Some a -> table_page s a;
  sw_inj p q a : upath p -> upath q ->
    walk (m_mem s) cr3 p = Some a -> walk (m_mem s) cr3 q = Some a -> p = q;
  sw_small p a i : upath (p ++ [i]) -> walk (m_mem s) cr3 p = Some a ->
    has_flag (ld64 (m_mem s) (a + 8 * i)) VMM_FLAG_PRESENT = true ->
    has_flag (ld64 (m_mem s) (a + 8 * i)) VMM_FLAG_HUGE = false
}.

(** Memory that belongs to somebody else: allocated, and not a table of
    this space. *)
Definition foreign (s : mach A) (cr3 x : Z) : Prop :=
  0 <= x /\ pa_isfree (m_pages s) (x / 4096) = false /\
  forall p a, upath p -> walk (m_mem s) cr3 p = Some a -> a <> x / 4096 * 4096.

Lemma walk_app m a p q :
  walk m a (p ++ q) = match walk m a p with Some b => walk m b q | None => None end.
Proof.
  revert a. induction p as [|i p IH]; intros a; cbn; [done|].
  destruct (has_flag _ _); [apply IH|done].
Qed.

Lemma upath_app_l p q : upath (p ++ q) -> upath p.
Proof.
  intros (Hl & Hf & Hh). rewrite length_app in Hl. apply Forall_app in Hf as [Hf _].
  split; [lia|]. split; [done|]. by destruct p.
Qed.

Lemma upath_nil : upath [].
Proof. split; [cbn; lia|]. by split. Qed.

Lemma upath_va va : user_va va -> upath [idx_l4 va; idx_l3 va; idx_l2 va].
Proof.
  intros [_ H4]. destruct (idx_ranges va) as (? & ? & ? & ?).
  split; [cbn; lia|]. split; [repeat (apply Forall_cons_2; [done|]); apply Forall_nil_2|]. cbn. congruence.
Qed.

Lemma entry_apart a b i j :
  is_frame a -> is_frame b -> 0 <= i < 512 -> 0 <= j < 512 -> (b, j) <> (a, i) ->
  b + 8 * j + 8 <= a + 8 * i \/ a + 8 * i + 8 <= b + 8 * j.
Proof.
  intros [Ha _] [Hb _] Hi Hj Hne. destruct (decide (a = b)) as [->|].
  - assert (i <> j) by congruence. lia.
  - Z.div_mod_to_equations. lia.
Qed.

(** Rewriting one entry that was not present, and nothing else in the
    tables: paths that do not go through the entry are as before. *)
Lemma walk_upd s cr3 m' p a i :
  space_wf s cr3 -> upath p -> walk (m_mem s) cr3 p = Some a ->
  (forall q b j, upath q -> walk (m_mem s) cr3 q = Some b -> 0 <= j < 512 ->
     (b, j) <> (a, i) -> ld64 m' (b + 8 * j) = ld64 (m_mem s) (b + 8 * j)) ->
  forall q, upath q -> ~ (p ++ [i]) `prefix_of` q ->
    walk m' cr3 q = walk (m_mem s) cr3 q.
Proof.
  intros Hwf Hp Hw Hm q. induction q as [|j q IH] using rev_ind; intros Hq Hpre; [done|].
  pose proof (upath_app_l _ _ Hq) as Hq'.
  assert (Hj : 0 <= j < 512).
  { destruct Hq as (_ & Hf & _). apply Forall_app in Hf as [_ Hf]. by inversion Hf. }
  rewrite !walk_app, IH; [|done|].
  - destruct (walk (m_mem s) cr3 q) as [b|] eqn:Eb; [|done]. cbn.
    rewrite (Hm q b j) by (done || intros [= -> ->];
      by rewrite (sw_inj _ _ Hwf p q a) in Hpre by done). done.
  - intros Hx. apply Hpre. by apply prefix_app_r.
Qed.

Lemma walk_through m' cr3 p a i r :
  walk m' cr3 p = Some a ->
  walk m' cr3 (p ++ i :: r) =
  let e := ld64 m' (a + 8 * i) in
  if has_flag e VMM_FLAG_PRESENT then walk m' (Z.land e VMM_ADDR_MASK) r else None.
Proof. intros E. rewrite walk_app, E. done. Qed.

(** [vmm_resolve] in the user half is [xlate]. *)
Lemma resolve_xlate s cr3 va :
  space_wf s cr3 -> user_va va ->
  vmm_resolve s cr3 va =
  match xlate (m_mem s) cr3 va with
  | Some e => Some (Z.lor (Z.land e VMM_ADDR_MASK) (Z.land va 4095), e)
  | None => None
  end.
Proof.
  intros Hwf Hva. pose proof (upath_va va Hva) as Hup.
  destruct (sw_table _ _ Hwf [] cr3 upath_nil eq_refl) as (Hfr & _).
  unfold vmm_resolve, xlate, get_entry. rewrite (frame_cr3 cr3 Hfr). cbn [walk].
  destruct (has_flag (ld64 (m_mem s) (cr3 + 8 * idx_l4 va)) VMM_FLAG_PRESENT) eqn:E4; [|done].
  cbn [negb]. set (t3 := Z.land (ld64 (m_mem s) (cr3 + 8 * idx_l4 va)) VMM_ADDR_MASK).
  assert (W3 : walk (m_mem s) cr3 [idx_l4 va] = Some t3) by (cbn; by rewrite E4).
  destruct (has_flag (ld64 (m_mem s) (t3 + 8 * idx_l3 va)) VMM_FLAG_PRESENT) eqn:E3; [|done].
  cbn [negb].
  rewrite (sw_small _ _ Hwf [idx_l4 va] t3 (idx_l3 va) (upath_app_l [_; _] [_] Hup) W3 E3).
  set (t2 := Z.land (ld64 (m_mem s) (t3 + 8 * idx_l3 va)) VMM_ADDR_MASK).
  assert (W2 : walk (m_mem s) cr3 [idx_l4 va; idx_l3 va] = Some t2).
  { rewrite (walk_app _ _ [idx_l4 va] [idx_l3 va]), W3. cbn. by rewrite E3. }
  destruct (has_flag (ld64 (m_mem s) (t2 + 8 * idx_l2 va)) VMM_FLAG_PRESENT) eqn:E2; [|done].
  cbn [negb].
  rewrite (sw_small _ _ Hwf [idx_l4 va; idx_l3 va] t2 (idx_l2 va) Hup W2 E2).
  set (t1 := Z.land (ld64 (m_mem s) (t2 + 8 * idx_l2 va)) VMM_ADDR_MASK).
  by destruct (has_flag (ld64 (m_mem s) (t1 + 8 * idx_l1 va)) VMM_FLAG_PRESENT).
Qed.

(** ** Growing the tables *)

(** [s'] extends [s]: same translations, still well formed, and nothing
    foreign has been touched. *)
Record extends (cr3 : Z) (s s' : mach A) : Prop := {
  ex_pages : pa_wf (m_pages s');
  ex_total : pa_total (m_pages s') = pa_total (m_pages s);
  ex_wf : space_wf s' cr3;
  ex_xlate va : user_va va -> xlate (m_mem s') cr3 va = xlate (m_mem s) cr3 va;
  ex_foreign x : foreign s cr3 x -> foreign s' cr3 x /\ ld8 (m_mem s') x = ld8 (m_mem s) x;
  ex_used i : 0 <= i -> pa_isfree (m_pages s) i = false -> pa_isfree (m_pages s') i = false
}.

Lemma extends_refl cr3 s : pa_wf (m_pages s) -> space_wf s cr3 -> extends cr3 s s.
Proof. by constructor. Qed.

Lemma extends_trans cr3 s1 s2 s3 : extends cr3 s1 s2 -> extends cr3 s2 s3 -> extends cr3 s1 s3.
Proof.
  intros H12 H23. constructor.
  - apply (ex_pages _ _ _ H23).
  - rewrite (ex_total _ _ _ H23). apply (ex_total _ _ _ H12).
  - apply (ex_wf _ _ _ H23).
  - intros va Hva. rewrite (ex_xlate _ _ _ H23) by done. by apply (ex_xlate _ _ _ H12).
  - intros x Hx. destruct (ex_foreign _ _ _ H12 x Hx) as [Hx2 E2].
    destruct (ex_foreign _ _ _ H23 x Hx2) as [Hx3 E3]. split; [done|congruence].
  - intros i Hi Hf. apply (ex_used _ _ _ H23); [done|]. by apply (ex_used _ _ _ H12).
Qed.

(** What a successful [alloc_zero_page] gives: a fresh zeroed frame. *)
Lemma alloc_zero_page_ok s t s' :
  pa_wf (m_pages s) -> alloc_zero_page s = (t, s') -> t <> 0 ->
  pa_wf (m_pages s') /\ pa_total (m_pages s') = pa_total (m_pages s) /\
  table_page s' t /\ pa_isfree (m_pages s) (t / 4096) = true /\
  (forall i, 0 <= i -> pa_isfree (m_pages s) i = false -> pa_isfree (m_pages s') i = false) /\
  m_mem s' = mem_fill (m_mem s) t 0 PAGE_SIZE.
Proof.
  intros Hpg E Ht. unfold alloc_zero_page in E.
  destruct (pa_alloc (m_pages s) 1) as [pa pg] eqn:Ea. cbn in E.
  destruct (Z.eqb_spec pa 0) as [?|_]; injection E as <- <-; [done|].
  destruct (pa_alloc_ok (m_pages s) 1 pa pg Hpg ltac:(lia) Ea Ht) as (W & T & _ & n & -> & Hn & Hb & Hfree & Hupd).
  pose proof (pa_total_bound _ Hpg).
  assert (Hdiv : n * PAGE_SIZE / 4096 = n) by (unfold PAGE_SIZE; apply Z.div_mul; lia).
  cbn. split; [done|]. split; [done|]. split.
  { split; [apply page_frame; lia|]. split; [unfold PAGE_SIZE; lia|].
    cbn. rewrite Hdiv. split; [lia|]. rewrite Hupd by lia.
    rewrite (proj2 (Z.leb_le n n)), (proj2 (Z.ltb_lt n (n + 1))) by lia. apply andb_false_r. }
  split; [rewrite Hdiv; apply Hfree; lia|]. split; [|done].
  intros i Hi Hf. rewrite Hupd by done. by rewrite Hf.
Qed.

Lemma alloc_zero_page_fail s s' :
  pa_wf (m_pages s) -> alloc_zero_page s = (0, s') -> s' = s.
Proof.
  intros Hpg E. unfold alloc_zero_page in E.
  destruct (pa_alloc (m_pages s) 1) as [pa pg] eqn:Ea. cbn in E.
  destruct (Z.eqb_spec pa 0) as [->|]; [|congruence].
  injection E as <-. rewrite (pa_alloc_fail (m_pages s) 1 pg Hpg ltac:(lia) Ea). by destruct s.
Qed.

(** Memory after a fresh zeroed table [t] is hooked into entry [i] of [a]. *)
Definition hooked (m : mem) (a i t f : Z) : mem :=
  st64 (mem_fill m t 0 PAGE_SIZE) (a + 8 * i) (Z.lor t f).

Lemma hooked_old m a i t f b j :
  is_frame a -> is_frame b -> is_frame t -> b <> t -> 0 <= i < 512 -> 0 <= j < 512 ->
  (b, j) <> (a, i) -> ld64 (hooked m a i t f) (b + 8 * j) = ld64 m (b + 8 * j).
Proof.
  intros Fa Fb Ft Hbt Hi Hj Hne. unfold hooked.
  rewrite ldn_stn_other by (pose proof (entry_apart a b i j); cbn; tauto).
  apply ldn_fill_other. unfold PAGE_SIZE. destruct Fb as [Fb _], Ft as [Ft _].
  Z.div_mod_to_equations. lia.
Qed.

Lemma hooked_fresh m a i t f j :
  is_frame a -> is_frame t -> a <> t -> 0 <= i < 512 -> 0 <= j < 512 ->
  ld64 (hooked m a i t f) (t + 8 * j) = 0.
Proof.
  intros Fa Ft Hat Hi Hj. unfold hooked.
  assert (Hne : (t, j) <> (a, i)) by congruence.
  rewrite ldn_stn_other by (pose proof (entry_apart a t i j); cbn; tauto).
  apply ldn_fill_zero; unfold PAGE_SIZE; lia.
Qed.

Lemma hooked_entry m a i t f :
  is_frame t -> flags_ok f -> ld64 (hooked m a i t f) (a + 8 * i) = Z.lor t f.
Proof.
  intros Ft [Hf _]. apply ld64_st64_same. apply lor_u64; [by apply is_frame_u64|done].
Qed.

Lemma present_hook t f : Z.testbit f 0 = true -> has_flag (Z.lor t f) VMM_FLAG_PRESENT = true.
Proof. intros E. by rewrite present_bit, Z.lor_spec, E, orb_true_r. Qed.

Lemma zero_absent : has_flag 0 VMM_FLAG_PRESENT = false.
Proof. done. Qed.

Lemma upath_last p i : upath (p ++ [i]) -> 0 <= i < 512.
Proof. intros (_ & Hx & _). apply Forall_app in Hx as [_ Hx]. by inversion Hx. Qed.

Lemma not_prefix_self (p : list Z) i : ~ (p ++ [i]) `prefix_of` p.
Proof.
  intros [x Hx]. apply (f_equal length) in Hx. rewrite !length_app in Hx. cbn in Hx. lia.
Qed.

(** A new table [t] hooked into entry [i] of the table [a] at path [p]. *)
Section hook.
Context (s : mach A) (cr3 : Z) (p : list Z) (a i t f : Z).
Hypothesis Hwf : space_wf s cr3.
Hypothesis Hpi : upath (p ++ [i]).
Hypothesis Hw : walk (m_mem s) cr3 p = Some a.
Hypothesis Hold : has_flag (ld64 (m_mem s) (a + 8 * i)) VMM_FLAG_PRESENT = false.
Hypothesis Ft : is_frame t.
Hypothesis Hfresh : forall r c, upath r -> walk (m_mem s) cr3 r = Some c -> c <> t.
Hypothesis Hf : flags_ok f /\ Z.testbit f 0 = true /\ Z.testbit f 7 = false.
Let m' := hooked (m_mem s) a i t f.

Lemma hook_frame : is_frame a.
Proof. apply (sw_table _ _ Hwf p a (upath_app_l _ _ Hpi) Hw). Qed.

Lemma hook_entry_old q b j :
  upath q -> walk (m_mem s) cr3 q = Some b -> 0 <= j < 512 -> (b, j) <> (a, i) ->
  ld64 m' (b + 8 * j) = ld64 (m_mem s) (b + 8 * j).
Proof.
  intros Hq Hb Hj Hne. destruct (sw_table _ _ Hwf q b Hq Hb) as (Fb & _).
  apply hooked_old; try done; [apply hook_frame|by eapply Hfresh|by eapply upath_last].
Qed.

Lemma hook_same q : upath q -> ~ (p ++ [i]) `prefix_of` q ->
  walk m' cr3 q = walk (m_mem s) cr3 q.
Proof.
  apply (walk_upd s cr3 m' p a i Hwf (upath_app_l _ _ Hpi) Hw).
  intros; by eapply hook_entry_old.
Qed.

Lemma hook_through r : walk m' cr3 ((p ++ [i]) ++ r) = walk m' t r.
Proof.
  destruct Hf as (Hf1 & Hf2 & _). rewrite <- app_assoc. cbn [app].
  rewrite (walk_through m' cr3 p a).
  - cbv zeta. unfold m'. by rewrite hooked_entry, present_hook, mask_lor_flags by done.
  - rewrite hook_same; [done|by eapply upath_app_l|apply not_prefix_self].
Qed.

Lemma hook_new_empty j r : 0 <= j < 512 -> walk m' t (j :: r) = None.
Proof.
  intros Hj. cbn [walk]. unfold m'. rewrite hooked_fresh; try done.
  - apply hook_frame.
  - exact (Hfresh p a (upath_app_l _ _ Hpi) Hw).
  - by eapply upath_last.
Qed.

(** Every table of the new space is an old one or [t]. *)
Lemma hook_walk q b : upath q -> walk m' cr3 q = Some b ->
  (q = p ++ [i] /\ b = t) \/ walk (m_mem s) cr3 q = Some b.
Proof.
  intros Hq Hb. destruct (decide ((p ++ [i]) `prefix_of` q)) as [[r ->]|Hpre].
  - rewrite hook_through in Hb. destruct r as [|j r].
    + left. split; [by rewrite app_nil_r|]. cbn in Hb. congruence.
    + rewrite hook_new_empty in Hb; [done|].
      destruct Hq as (_ & Hx & _). apply Forall_app in Hx as [_ Hx]. by inversion Hx.
  - right. by rewrite <- hook_same.
Qed.

Lemma hook_xlate va : user_va va -> xlate m' cr3 va = xlate (m_mem s) cr3 va.
Proof.
  intros Hva. unfold xlate. pose proof (upath_va va Hva) as Hup.
  destruct (idx_ranges va) as (_ & _ & _ & H1).
  set (q := [idx_l4 va; idx_l3 va; idx_l2 va]) in *.
  destruct (decide ((p ++ [i]) `prefix_of` q)) as [[r Er]|Hpre].
  - assert (walk (m_mem s) cr3 q = None) as ->.
    { rewrite Er, <- app_assoc. cbn [app].
      rewrite (walk_through _ _ _ _ _ _ Hw). cbv zeta. by rewrite Hold. }
    rewrite Er, hook_through. destruct r as [|j r].
    + cbn [walk]. pose proof (hook_new_empty (idx_l1 va) [] H1) as Hn. cbn [walk] in Hn.
      revert Hn. by destruct (has_flag (ld64 m' (t + 8 * idx_l1 va)) VMM_FLAG_PRESENT).
    + rewrite hook_new_empty; [done|]. destruct Hup as (_ & Hx & _). rewrite Er in Hx.
      apply Forall_app in Hx as [_ Hx]. by inversion Hx.
  - rewrite hook_same by done. destruct (walk (m_mem s) cr3 q) as [pt|] eqn:Ept; [|done].
    rewrite (hook_entry_old q pt); [done|done|done|done|].
    intros [= -> _]. assert (p = q) as ->.
    { apply (sw_inj _ _ Hwf p q a); try done. by eapply upath_app_l. }
    destruct Hpi as (Hl & _). unfold q in Hl. cbn in Hl. lia.
Qed.

Lemma hook_foreign x : foreign s cr3 x ->
  pa_isfree (m_pages s) (t / 4096) = true -> ld8 m' x = ld8 (m_mem s) x.
Proof.
  intros (_ & Hu & Hx) Hfree. unfold m', hooked. rewrite ld8_stn, ld8_fill.
  pose proof (Hx p a (upath_app_l _ _ Hpi) Hw) as Hxa.
  pose proof (upath_last _ _ Hpi) as Hi. pose proof hook_frame as Fa.
  destruct Fa as [Fa _], Ft as [Ft' _].
  assert (Hxt : x / 4096 <> t / 4096) by congruence.
  in_range_cases; unfold PAGE_SIZE in *; cbn in *; [exfalso; Z.div_mod_to_equations; lia..|done].
Qed.
End hook.

Lemma table_page_mono s s' b :
  pa_total (m_pages s') = pa_total (m_pages s) ->
  (forall i, 0 <= i -> pa_isfree (m_pages s) i = false -> pa_isfree (m_pages s') i = false) ->
  table_page s b -> table_page s' b.
Proof.
  intros Ht Hu (? & ? & ? & ?). split; [done|]. split; [done|]. split; [lia|].
  apply Hu; [|done]. apply Z.div_pos; lia.
Qed.

Lemma hook_extends s s' cr3 p a i t f :
  space_wf s cr3 -> pa_wf (m_pages s) ->
  upath (p ++ [i]) -> walk (m_mem s) cr3 p = Some a ->
  has_flag (ld64 (m_mem s) (a + 8 * i)) VMM_FLAG_PRESENT = false ->
  flags_ok f /\ Z.testbit f 0 = true /\ Z.testbit f 7 = false ->
  alloc_zero_page s = (t, s') -> t <> 0 ->
  extends cr3 s (set_entry s' a i (Z.lor t f)) /\
  walk (m_mem (set_entry s' a i (Z.lor t f))) cr3 (p ++ [i]) = Some t.
Proof.
  intros Hwf Hpg Hpi Hw Hold Hf Ea Ht.
  destruct (alloc_zero_page_ok s t s' Hpg Ea Ht) as (Hpg' & Htot & Htp & Hfree & Hmono & Em).
  pose proof Htp as (Ft & _).
  assert (Hfresh : forall r c, upath r -> walk (m_mem s) cr3 r = Some c -> c <> t).
  { intros r c Hr Hc ->. destruct (sw_table _ _ Hwf r t Hr Hc) as (_ & _ & _ & Hx). congruence. }
  unfold set_entry. rewrite Em. fold (hooked (m_mem s) a i t f).
  pose proof (hook_walk s cr3 p a i t f Hwf Hpi Hw Ft Hfresh Hf) as Hwalk.
  split.
  2: { pose proof (hook_through s cr3 p a i t f Hwf Hpi Hw Ft Hfresh Hf []) as E.
       rewrite app_nil_r in E. exact E. }
  constructor; cbn; try done.
  - constructor; cbn.
    + intros q b Hq Hb. destruct (Hwalk q b Hq Hb) as [[_ ->]|Hb']; [done|].
      eapply table_page_mono; [..|exact (sw_table _ _ Hwf q b Hq Hb')]; done.
    + intros q1 q2 b Hq1 Hq2 H1 H2.
      destruct (Hwalk q1 b Hq1 H1) as [[-> ->]|H1'], (Hwalk q2 _ Hq2 H2) as [[-> E]|H2']; try done.
      * by destruct (Hfresh q2 t).
      * subst b. by destruct (Hfresh q1 t).
      * by apply (sw_inj _ _ Hwf q1 q2 b).
    + intros q b j Hqj Hb Hp1. pose proof (upath_last _ _ Hqj) as Hj.
      destruct (Hwalk q b (upath_app_l _ _ Hqj) Hb) as [[-> ->]|Hb'].
      * exfalso. pose proof (hook_new_empty s cr3 p a i t f Hwf Hpi Hw Ft Hfresh j [] Hj) as Hn.
        cbn [walk] in Hn. by rewrite Hp1 in Hn.
      * destruct (decide ((b, j) = (a, i))) as [[= -> ->]|Hne].
        -- destruct Hf as (Hf1 & Hf2 & Hf3). rewrite hooked_entry by done.
           rewrite huge_bit, Z.lor_spec, Hf3, orb_false_r. apply frame_low_bits; [done|lia].
        -- rewrite (hook_entry_old s cr3 p a i t f Hwf Hpi Hw Ft Hfresh q b j) in * by
             (done || by eapply upath_app_l).
           by apply (sw_small _ _ Hwf q).
  - intros va Hva. by eapply hook_xlate.
  - intros x Hx. split; [|by eapply hook_foreign].
    destruct Hx as (Hx0 & Hx1 & Hx2). split; [done|]. split; cbn.
    + apply Hmono; [|done]. by apply Z.div_pos.
    + intros q b Hq Hb. destruct (Hwalk q b Hq Hb) as [[_ ->]|Hb']; [|by eapply Hx2].
      intros E. assert (t / 4096 = x / 4096) as E' by (rewrite E; apply Z.div_mul; lia). congruence.
Qed.

(** [ensure_table] returns the table at path [p ++ [i]], making it if
    needed. *)
Lemma ensure_table_ok s cr3 p a i f r s' :
  space_wf s cr3 -> pa_wf (m_pages s) -> upath (p ++ [i]) ->
  walk (m_mem s) cr3 p = Some a ->
  flags_ok f /\ Z.testbit f 0 = true /\ Z.testbit f 7 = false ->
  ensure_table s a i f = (r, s') ->
  extends cr3 s s' /\
  match r with
  | Some t => walk (m_mem s') cr3 (p ++ [i]) = Some t
  | None => fst (pa_alloc (m_pages s') 1) = 0
  end.
Proof.
  intros Hwf Hpg Hpi Hw Hf. unfold ensure_table.
  destruct (has_flag (get_entry s a i) VMM_FLAG_PRESENT) eqn:Ep.
  - intros [= <- <-]. split; [by apply extends_refl|].
    rewrite (walk_through _ _ _ _ _ [] Hw). unfold get_entry in Ep. cbv zeta. by rewrite Ep.
  - destruct (alloc_zero_page s) as [t s1] eqn:Ea.
    destruct (Z.eqb_spec t 0) as [->|Ht]; intros [= <- <-].
    + rewrite (alloc_zero_page_fail _ _ Hpg Ea). split; [by apply extends_refl|].
      unfold alloc_zero_page in Ea. destruct (pa_alloc (m_pages s) 1) as [pa pg]. cbn in *.
      destruct (Z.eqb_spec pa 0); [done|congruence].
    + by apply (hook_extends s s1 cr3 p a i t f).
Qed.

(** ** Leaf entries *)

Definition same_page (va va' : Z) : Prop := va / 4096 = va' / 4096.

Lemma idx_same va va' : user_va va -> user_va va' ->
  [idx_l4 va; idx_l3 va; idx_l2 va] = [idx_l4 va'; idx_l3 va'; idx_l2 va'] ->
  idx_l1 va = idx_l1 va' -> same_page va va'.
Proof.
  intros [Hb _] [Hb' _] [= E4 E3 E2] E1. unfold same_page.
  rewrite (idx_page va Hb), (idx_page va' Hb'). congruence.
Qed.

(** Writing the entry of [va] in its page table. *)
Lemma leaf_write s cr3 va pt e :
  space_wf s cr3 -> pa_wf (m_pages s) -> user_va va -> is_u64 e ->
  walk (m_mem s) cr3 [idx_l4 va; idx_l3 va; idx_l2 va] = Some pt ->
  let s' := set_entry s pt (idx_l1 va) e in
  space_wf s' cr3 /\
  xlate (m_mem s') cr3 va = (if has_flag e VMM_FLAG_PRESENT then Some e else None) /\
  (forall va', user_va va' -> ~ same_page va va' ->
     xlate (m_mem s') cr3 va' = xlate (m_mem s) cr3 va') /\
  (forall x, foreign s cr3 x -> foreign s' cr3 x /\ ld8 (m_mem s') x = ld8 (m_mem s) x).
Proof.
  intros Hwf Hpg Hva He Hw. cbv zeta. pose proof (upath_va va Hva) as Hup.
  destruct (idx_ranges va) as (_ & _ & _ & H1).
  set (q := [idx_l4 va; idx_l3 va; idx_l2 va]) in *.
  destruct (sw_table _ _ Hwf q pt Hup Hw) as (Fpt & _).
  set (m' := m_mem (set_entry s pt (idx_l1 va) e)).
  assert (Hent : forall r b j, upath r -> walk (m_mem s) cr3 r = Some b -> 0 <= j < 512 ->
    (b, j) <> (pt, idx_l1 va) -> ld64 m' (b + 8 * j) = ld64 (m_mem s) (b + 8 * j)).
  { intros r b j Hr Hb Hj Hne. destruct (sw_table _ _ Hwf r b Hr Hb) as (Fb & _).
    apply ldn_stn_other. pose proof (entry_apart pt b (idx_l1 va) j). cbn. tauto. }
  assert (Hwalk : forall r, upath r -> walk m' cr3 r = walk (m_mem s) cr3 r).
  { intros r Hr. apply (walk_upd s cr3 m' q pt (idx_l1 va) Hwf Hup Hw Hent r Hr).
    intros [x Hx]. destruct Hr as (Hl & _). rewrite Hx, !length_app in Hl. cbn in Hl. lia. }
  assert (He1 : ld64 m' (pt + 8 * idx_l1 va) = e) by (by apply ld64_st64_same).
  split; [|split; [|split]].
  - constructor; fold m'.
    + intros r b Hr Hb. rewrite Hwalk in Hb by done. by apply (sw_table _ _ Hwf r b).
    + intros r1 r2 b Hr1 Hr2 Hb1 Hb2. rewrite Hwalk in Hb1, Hb2 by done. by apply (sw_inj _ _ Hwf r1 r2 b).
    + intros r b j Hrj Hb. rewrite Hwalk in Hb by (by eapply upath_app_l).
      rewrite (Hent r b j); [by apply (sw_small _ _ Hwf r)|by eapply upath_app_l|done|by eapply upath_last|].
      intros [= -> _]. assert (r = q) as ->.
      { apply (sw_inj _ _ Hwf r q pt); try done. by eapply upath_app_l. }
      destruct Hrj as (Hl & _). rewrite length_app in Hl. cbn in Hl. lia.
  - unfold xlate. rewrite Hwalk by done. fold q. rewrite Hw. cbv zeta. by rewrite He1.
  - intros va' Hva' Hne. unfold xlate. pose proof (upath_va va' Hva') as Hup'.
    rewrite Hwalk by done.
    destruct (walk (m_mem s) cr3 [idx_l4 va'; idx_l3 va'; idx_l2 va']) as [pt'|] eqn:Ew'; [|done]. cbv zeta.
    rewrite (Hent _ pt' (idx_l1 va') Hup' Ew'); [done|apply idx_ranges|].
    intros [= -> E1]. apply Hne. apply idx_same; try done.
    by apply (sw_inj _ _ Hwf _ _ pt).
  - intros x Hx. pose proof Hx as (Hx0 & Hx1 & Hx2). split.
    + split; [done|]. split; [done|]. intros r b Hr Hb. rewrite Hwalk in Hb by done. by eapply Hx2.
    + unfold m'. cbn. rewrite ld8_stn. pose proof (Hx2 q pt Hup Hw). destruct Fpt as [Fpt _].
      in_range_cases; [|done]. cbn in *. exfalso. Z.div_mod_to_equations; lia.
Qed.

(** The entry [map_page_inner] installs. *)
Definition leaf_entry (phys flags : Z) : Z :=
  Z.lor (Z.land phys VMM_ADDR_MASK) (Z.lor flags VMM_FLAG_PRESENT).

Lemma leaf_entry_u64 phys flags : is_u64 flags -> is_u64 (leaf_entry phys flags).
Proof.
  intros. apply lor_u64; [apply is_frame_u64, mask_frame|]. apply lor_u64; [done|].
  unfold is_u64, VMM_FLAG_PRESENT. lia.
Qed.

Lemma leaf_entry_present phys flags : has_flag (leaf_entry phys flags) VMM_FLAG_PRESENT = true.
Proof. unfold leaf_entry. rewrite present_bit, !Z.lor_spec. cbn. by rewrite !orb_true_r. Qed.

Lemma leaf_entry_phys phys flags : flags_ok flags ->
  Z.land (leaf_entry phys flags) VMM_ADDR_MASK = Z.land phys VMM_ADDR_MASK.
Proof.
  intros [_ Hf]. unfold leaf_entry. rewrite !Z.land_lor_distr_l, Hf.
  rewrite (frame_mask _ (mask_frame phys)). cbn. by rewrite Z.lor_0_r.
Qed.

(** The three table levels of [map_page_inner], and its outcome. *)
Lemma map_page_cases s cr3 va phys flags ok s' :
  space_wf s cr3 -> pa_wf (m_pages s) -> user_va va ->
  map_page_inner s cr3 va phys flags = (ok, s') ->
  exists s1, extends cr3 s s1 /\
    if ok then
      exists pt, walk (m_mem s1) cr3 [idx_l4 va; idx_l3 va; idx_l2 va] = Some pt /\
        xlate (m_mem s1) cr3 va = None /\
        s' = set_entry s1 pt (idx_l1 va) (leaf_entry phys flags)
    else s' = s1 /\ (xlate (m_mem s) cr3 va <> None \/ fst (pa_alloc (m_pages s1) 1) = 0).
Proof.
  intros Hwf Hpg Hva. unfold map_page_inner.
  pose proof (upath_va va Hva) as Hup. pose proof (table_flags_ok flags) as Hf.
  destruct (sw_table _ _ Hwf [] cr3 upath_nil eq_refl) as (Hfr & _).
  rewrite (frame_cr3 cr3 Hfr).
  destruct (ensure_table s cr3 (idx_l4 va) _) as [r3 s3] eqn:E3.
  destruct (ensure_table_ok s cr3 [] cr3 _ _ _ _ Hwf Hpg
    (upath_app_l [idx_l4 va] _ Hup) eq_refl Hf E3) as [X3 W3].
  destruct r3 as [pdpt|]; [|intros [= <- <-]; eauto 6].
  destruct (ensure_table s3 pdpt (idx_l3 va) _) as [r2 s2] eqn:E2.
  destruct (ensure_table_ok s3 cr3 [idx_l4 va] pdpt _ _ _ _ (ex_wf _ _ _ X3) (ex_pages _ _ _ X3)
    (upath_app_l [idx_l4 va; idx_l3 va] _ Hup) W3 Hf E2) as [X2 W2].
  pose proof (extends_trans _ _ _ _ X3 X2) as X32.
  destruct r2 as [pd|]; [|intros [= <- <-]; eauto 6].
  destruct (ensure_table s2 pd (idx_l2 va) _) as [r1 s1] eqn:E1.
  destruct (ensure_table_ok s2 cr3 [idx_l4 va; idx_l3 va] pd _ _ _ _ (ex_wf _ _ _ X2) (ex_pages _ _ _ X2)
    Hup W2 Hf E1) as [X1 W1].
  pose proof (extends_trans _ _ _ _ X32 X1) as X.
  destruct r1 as [pt|]; [|intros [= <- <-]; eauto 6].
  cbn [app] in W1. destruct (has_flag (get_entry s1 pt (idx_l1 va)) VMM_FLAG_PRESENT) eqn:Ep;
    intros [= <- <-]; exists s1; (split; [done|]).
  { split; [done|]. left. rewrite <- (ex_xlate _ _ _ X va Hva).
    unfold xlate. rewrite W1. unfold get_entry in Ep. cbv zeta. by rewrite Ep. }
  exists pt. split; [done|]. split; [|done].
  unfold xlate. rewrite W1. unfold get_entry in Ep. cbv zeta. by rewrite Ep.
Qed.

(** ** Abstract view: a partial map from user pages to entries *)

(** The translation of [s'] is that of [s] with the page of [va] bound to
    [r]. *)
Definition xlate_becomes (cr3 va : Z) (r : option Z) (s s' : mach A) : Prop :=
  xlate (m_mem s') cr3 va = r /\
  forall va', user_va va' -> ~ same_page va va' ->
    xlate (m_mem s') cr3 va' = xlate (m_mem s) cr3 va'.

Definition foreign_kept (cr3 : Z) (s s' : mach A) : Prop :=
  forall x, foreign s cr3 x -> foreign s' cr3 x /\ ld8 (m_mem s') x = ld8 (m_mem s) x.

Lemma xlate_same_page m cr3 va va' : same_page va va' -> xlate m cr3 va = xlate m cr3 va'.
Proof.
  intros E. unfold xlate. unfold same_page in E.
  rewrite !idx_l4_eq, !idx_l3_eq, !idx_l2_eq, !idx_l1_eq.
  assert (Hd : forall k, 0 < k -> va / (4096 * k) = va' / (4096 * k)).
  { intros k Hk. rewrite <- !Z.div_div by lia. by rewrite E. }
  change 549755813888 with (4096 * 134217728). change 1073741824 with (4096 * 262144).
  change 2097152 with (4096 * 512). rewrite !(Hd _) by lia. by rewrite E.
Qed.

Lemma map_page_ok s cr3 va phys flags s' :
  space_wf s cr3 -> pa_wf (m_pages s) -> user_va va -> flags_ok flags ->
  map_page_inner s cr3 va phys flags = (true, s') ->
  space_wf s' cr3 /\ pa_wf (m_pages s') /\ xlate (m_mem s) cr3 va = None /\
  xlate_becomes cr3 va (Some (leaf_entry phys flags)) s s' /\ foreign_kept cr3 s s'.
Proof.
  intros Hwf Hpg Hva Hf E.
  destruct (map_page_cases s cr3 va phys flags true s' Hwf Hpg Hva E) as (s1 & X & pt & W & Hn & ->).
  destruct (leaf_write s1 cr3 va pt (leaf_entry phys flags) (ex_wf _ _ _ X) (ex_pages _ _ _ X) Hva
    (leaf_entry_u64 _ _ (proj1 Hf)) W) as (L1 & L2 & L3 & L4).
  rewrite leaf_entry_present in L2.
  split; [done|]. split; [exact (ex_pages _ _ _ X)|].
  split; [by rewrite <- (ex_xlate _ _ _ X va Hva)|]. split.
  - split; [done|]. intros va' Hva' Hne. rewrite L3 by done. by apply (ex_xlate _ _ _ X).
  - intros x Hx. destruct (ex_foreign _ _ _ X x Hx) as [Hx1 Ex1].
    destruct (L4 x Hx1) as [Hx2 Ex2]. split; [done|congruence].
Qed.

Lemma map_page_fail s cr3 va phys flags s' :
  space_wf s cr3 -> pa_wf (m_pages s) -> user_va va ->
  map_page_inner s cr3 va phys flags = (false, s') ->
  extends cr3 s s' /\ (xlate (m_mem s) cr3 va <> None \/ fst (pa_alloc (m_pages s') 1) = 0).
Proof.
  intros Hwf Hpg Hva E.
  by destruct (map_page_cases s cr3 va phys flags false s' Hwf Hpg Hva E) as (s1 & X & -> & ?).
Qed.

(** [vmm_unmap_page] in terms of the translation. *)
Lemma unmap_page_ok s cr3 va r s' :
  space_wf s cr3 -> pa_wf (m_pages s) -> user_va va ->
  vmm_unmap_page s cr3 va = (r, s') ->
  r = match xlate (m_mem s) cr3 va with Some e => Z.land e VMM_ADDR_MASK | None => 0 end /\
  space_wf s' cr3 /\ m_pages s' = m_pages s /\ xlate_becomes cr3 va None s s' /\ foreign_kept cr3 s s'.
Proof.
  intros Hwf Hpg Hva. pose proof (upath_va va Hva) as Hup.
  destruct (sw_table _ _ Hwf [] cr3 upath_nil eq_refl) as (Hfr & _).
  assert (Hskip : xlate (m_mem s) cr3 va = None -> (0, s) = (r, s') ->
    r = match xlate (m_mem s) cr3 va with Some e => Z.land e VMM_ADDR_MASK | None => 0 end /\
    space_wf s' cr3 /\ m_pages s' = m_pages s /\ xlate_becomes cr3 va None s s' /\ foreign_kept cr3 s s').
  { intros En [= <- <-]. rewrite En. split; [done|]. split; [done|]. split; [done|].
    split; [by split|]. intros x Hx. done. }
  unfold vmm_unmap_page, get_entry. rewrite (frame_cr3 cr3 Hfr).
  destruct (has_flag (ld64 (m_mem s) (cr3 + 8 * idx_l4 va)) VMM_FLAG_PRESENT) eqn:E4; cbn [negb].
  2: { apply Hskip. unfold xlate. cbn [walk]. by rewrite E4. }
  set (t3 := Z.land (ld64 (m_mem s) (cr3 + 8 * idx_l4 va)) VMM_ADDR_MASK).
  destruct (has_flag (ld64 (m_mem s) (t3 + 8 * idx_l3 va)) VMM_FLAG_PRESENT) eqn:E3; cbn [negb].
  2: { apply Hskip. unfold xlate. cbn [walk]. rewrite E4. fold t3. by rewrite E3. }
  set (t2 := Z.land (ld64 (m_mem s) (t3 + 8 * idx_l3 va)) VMM_ADDR_MASK).
  destruct (has_flag (ld64 (m_mem s) (t2 + 8 * idx_l2 va)) VMM_FLAG_PRESENT) eqn:E2; cbn [negb].
  2: { apply Hskip. unfold xlate. cbn [walk]. rewrite E4. fold t3. rewrite E3. fold t2. by rewrite E2. }
  set (t1 := Z.land (ld64 (m_mem s) (t2 + 8 * idx_l2 va)) VMM_ADDR_MASK).
  assert (W : walk (m_mem s) cr3 [idx_l4 va; idx_l3 va; idx_l2 va] = Some t1).
  { cbn [walk]. rewrite E4. fold t3. rewrite E3. fold t2. by rewrite E2. }
  destruct (has_flag (ld64 (m_mem s) (t1 + 8 * idx_l1 va)) VMM_FLAG_PRESENT) eqn:E1; cbn [negb].
  2: { apply Hskip. unfold xlate. rewrite W. cbv zeta. by rewrite E1. }
  intros [= <- <-].
  destruct (leaf_write s cr3 va t1 0 Hwf Hpg Hva ltac:(unfold is_u64; lia) W) as (L1 & L2 & L3 & L4).
  split; [unfold xlate; rewrite W; cbv zeta; by rewrite E1|].
  split; [done|]. split; [done|]. split; [|done]. split; [done|]. done.
Qed.

(** ** Pages outside the tables *)

(** A state with the same tables and fewer free pages. *)
Lemma untouched_extends s s' cr3 :
  space_wf s cr3 -> pa_wf (m_pages s') ->
  pa_total (m_pages s') = pa_total (m_pages s) ->
  (forall i, 0 <= i -> pa_isfree (m_pages s) i = false -> pa_isfree (m_pages s') i = false) ->
  (forall x, 0 <= x -> pa_isfree (m_pages s) (x / 4096) = false -> ld8 (m_mem s') x = ld8 (m_mem s) x) ->
  extends cr3 s s'.
Proof.
  intros Hwf Hpg Ht Hmono Hmem.
  assert (Hent : forall q b j, upath q -> walk (m_mem s) cr3 q = Some b -> 0 <= j < 512 ->
    ld64 (m_mem s') (b + 8 * j) = ld64 (m_mem s) (b + 8 * j)).
  { intros q b j Hq Hb Hj. destruct (sw_table _ _ Hwf q b Hq Hb) as ([Fb _] & Hb0 & _ & Hu).
    apply ldn_ext. intros x Hx. cbn in Hx. apply Hmem; [lia|].
    replace (x / 4096) with (b / 4096); [done|]. Z.div_mod_to_equations; lia. }
  assert (Hwalk : forall q, upath q -> walk (m_mem s') cr3 q = walk (m_mem s) cr3 q).
  { intros q. induction q as [|j q IH] using rev_ind; intros Hq; [done|].
    pose proof (upath_app_l _ _ Hq) as Hq'. rewrite !walk_app, IH by done.
    destruct (walk (m_mem s) cr3 q) as [b|] eqn:Eb; [|done]. cbn [walk].
    by rewrite (Hent q b j) by (done || by eapply upath_last). }
  constructor; try done.
  - constructor.
    + intros q b Hq Hb. rewrite Hwalk in Hb by done.
      eapply table_page_mono; [..|exact (sw_table _ _ Hwf q b Hq Hb)]; done.
    + intros q1 q2 b Hq1 Hq2. rewrite !Hwalk by done. by apply (sw_inj _ _ Hwf).
    + intros q b j Hqj. pose proof (upath_app_l _ _ Hqj) as Hq. rewrite Hwalk by done.
      intros Hb. rewrite (Hent q b j) by (done || by eapply upath_last). by apply (sw_small _ _ Hwf q).
  - intros va Hva. unfold xlate. pose proof (upath_va va Hva) as Hup. rewrite Hwalk by done.
    destruct (walk (m_mem s) cr3 [idx_l4 va; idx_l3 va; idx_l2 va]) as [pt|] eqn:Ept; [|done].
    by rewrite (Hent _ pt _ Hup Ept) by apply idx_ranges.
  - intros x (Hx0 & Hx1 & Hx2). split; [|by apply Hmem]. split; [done|].
    split; [apply Hmono; [by apply Z.div_pos|done]|].
    intros q b Hq. rewrite Hwalk by done. by apply Hx2.
Qed.

Lemma alloc_zero_extends s t s' cr3 :
  space_wf s cr3 -> pa_wf (m_pages s) -> alloc_zero_page s = (t, s') -> extends cr3 s s'.
Proof.
  intros Hwf Hpg E. destruct (decide (t = 0)) as [->|Ht].
  - rewrite (alloc_zero_page_fail _ _ Hpg E). by apply extends_refl.
  - destruct (alloc_zero_page_ok s t s' Hpg E Ht) as (Hpg' & Htot & ([Ft _] & _) & Hfree & Hmono & Em).
    apply untouched_extends; try done. intros x Hx Hu. rewrite Em, ld8_fill.
    in_range_cases; [|done]. unfold PAGE_SIZE in *.
    assert (x / 4096 = t / 4096) by (Z.div_mod_to_equations; lia). congruence.
Qed.

(** ** Ranges of pages *)

(** After [n] iterations the first [n] pages are bound, the rest is as
    before. *)
Definition range_mapped (cr3 va0 n : Z) (ent : Z -> Z -> Prop) (s s' : mach A) : Prop :=
  pa_wf (m_pages s') /\ space_wf s' cr3 /\
  (forall i, 0 <= i < n -> exists e, xlate (m_mem s') cr3 (va0 + i * 4096) = Some e /\ ent i e) /\
  (forall va, user_va va -> ~ (va0 / 4096 <= va / 4096 < va0 / 4096 + n) ->
     xlate (m_mem s') cr3 va = xlate (m_mem s) cr3 va).

Lemma range_mapped_step cr3 va0 n ent s s1 s2 s3 phys flags :
  va0 mod 4096 = 0 -> 0 <= n -> flags_ok flags ->
  (forall i, 0 <= i <= n -> user_va (va0 + i * 4096)) ->
  range_mapped cr3 va0 n ent s s1 ->
  extends cr3 s1 s2 ->
  map_page_inner s2 cr3 (va0 + n * 4096) phys flags = (true, s3) ->
  ent n (leaf_entry phys flags) ->
  range_mapped cr3 va0 (n + 1) ent s s3.
Proof.
  intros Hal Hn Hf Hu (P1 & W1 & M1 & O1) X E He.
  destruct (map_page_ok s2 cr3 _ phys flags s3 (ex_wf _ _ _ X) (ex_pages _ _ _ X) (Hu n ltac:(lia)) Hf E)
    as (W3 & P3 & _ & [B1 B2] & _).
  assert (Hpg : forall i, (va0 + i * 4096) / 4096 = va0 / 4096 + i).
  { intros i. rewrite Z.div_add by lia. done. }
  split; [done|]. split; [done|]. split.
  - intros i Hi. destruct (decide (i = n)) as [->|]; [eauto|].
    destruct (M1 i ltac:(lia)) as (e & Ee & He'). exists e. split; [|done].
    rewrite B2; [|apply Hu; lia|unfold same_page; rewrite !Hpg; lia].
    by rewrite (ex_xlate _ _ _ X) by (apply Hu; lia).
  - intros va Hva Hne. rewrite B2; [|done|unfold same_page; rewrite Hpg; lia].
    rewrite (ex_xlate _ _ _ X) by done. apply O1; [done|]. lia.
Qed.

End vmm_facts.
