(* ===== verification/VmmSpec.v ===== *)
(** * Theorems about the virtual memory manager

    An address space seen as a partial map from user pages to entries
    ([xlate] of Vmm.v, [vmm_resolve] of the code): mapping, unmapping,
    creation of spaces, their reference counts and the user heap. *)

From stdpp Require Import prelude list.
From Stdlib Require Import ZArith Lia.
From S2P Require Import Prelude Lib Alloc Pmm Vmm.
#[local] Open Scope Z_scope.
#[local] Open Scope cint_scope.

(** Flags of a heap page. *)
Definition heap_flags : Z := Z.lor (Z.lor VMM_FLAG_PRESENT VMM_FLAG_WRITABLE) VMM_FLAG_USER.

Lemma heap_flags_ok : flags_ok heap_flags.
Proof. by split. Qed.

(** ** Reference counts of the address spaces *)

(** The count of a root table; 0 when it is not tracked. *)
Definition space_refs (l : list vmm_space) (c : Z) : Z :=
  match find_space_slot l c with
  | Some i => match l !! i with Some sp => sp_refs sp | None => 0 end
  | None => 0
  end.

Record spaces_wf (l : list vmm_space) : Prop := {
  ss_range i sp : l !! i = Some sp -> is_u32 (sp_refs sp);
  ss_uniq i j si sj : l !! i = Some si -> l !! j = Some sj ->
    sp_refs si <> 0 -> sp_refs sj <> 0 -> sp_cr3 si = sp_cr3 sj -> i = j
}.

Lemma find_space_cases l c :
  match find_space_slot l c with
  | Some i => exists sp, l !! i = Some sp /\ sp_cr3 sp = c /\ sp_refs sp <> 0 /\ space_refs l c = sp_refs sp
  | None => space_refs l c = 0 /\ forall i sp, l !! i = Some sp -> sp_cr3 sp = c -> sp_refs sp = 0
  end.
Proof.
  unfold space_refs, find_space_slot.
  destruct (list_find _ l) as [[i sp]|] eqn:E; cbn.
  - apply list_find_Some in E as (Hl & [Hc Hr] & _). exists sp. by rewrite Hl.
  - split; [done|]. intros i sp Hl Hc. apply list_find_None in E. rewrite Forall_lookup in E.
    specialize (E i sp Hl). cbn in E. destruct (decide (sp_refs sp = 0)); [done|tauto].
Qed.

Lemma space_refs_at l i sp : spaces_wf l -> l !! i = Some sp -> sp_refs sp <> 0 ->
  space_refs l (sp_cr3 sp) = sp_refs sp.
Proof.
  intros W Hl Hr. pose proof (find_space_cases l (sp_cr3 sp)) as F.
  destruct (find_space_slot l (sp_cr3 sp)) as [j|].
  - destruct F as (sj & Hj & Hc & Hrj & ->). rewrite (ss_uniq l W i j sp sj) in Hl by done. congruence.
  - destruct F as [_ F]. by specialize (F i sp Hl eq_refl).
Qed.

(** Rewriting slot [i] where no other slot holds the new root. *)
Lemma space_refs_insert l i old new :
  spaces_wf l -> l !! i = Some old -> is_u32 (sp_refs new) ->
  (sp_refs new = 0 \/ (sp_cr3 new = sp_cr3 old /\ sp_refs old <> 0) \/ space_refs l (sp_cr3 new) = 0) ->
  spaces_wf (<[i := new]> l) /\
  forall c, space_refs (<[i := new]> l) c =
    if bool_decide (sp_refs new <> 0 /\ c = sp_cr3 new) then sp_refs new
    else if bool_decide (sp_refs old <> 0 /\ c = sp_cr3 old) then 0 else space_refs l c.
Proof.
  intros W Hi Hn Hfresh.
  assert (Hnew : <[i := new]> l !! i = Some new)
    by (apply list_lookup_insert_eq; by eapply lookup_lt_Some).
  assert (Hx : forall j sj, j <> i -> l !! j = Some sj -> sp_refs sj <> 0 -> sp_refs new <> 0 ->
    sp_cr3 sj = sp_cr3 new -> False).
  { intros j sj Hj Hsj Hr Hnr Hc. destruct Hfresh as [E|[[E Ho]|E]]; [done| |].
    - apply Hj. apply (ss_uniq l W j i sj old); congruence.
    - rewrite <- Hc, (space_refs_at l j sj) in E by done. done. }
  assert (W' : spaces_wf (<[i := new]> l)).
  { constructor.
    - intros j sp Hj. apply list_lookup_insert_Some in Hj as [(_ & <- & _)|[_ Hj]]; [done|].
      by apply (ss_range l W j).
    - intros j k sj sk Hj Hk. apply list_lookup_insert_Some in Hj as [(<- & <- & _)|[Hji Hj]];
        apply list_lookup_insert_Some in Hk as [(<- & <- & _)|[Hki Hk]]; intros Hr1 Hr2 Hc; try done.
      + by destruct (Hx k sk).
      + by destruct (Hx j sj).
      + by apply (ss_uniq l W j k sj sk). }
  split; [done|]. intros c.
  case_bool_decide as Hb; [destruct Hb as [Hb ->]; by apply (space_refs_at _ i)|].
  pose proof (find_space_cases (<[i := new]> l) c) as F.
  destruct (find_space_slot (<[i := new]> l) c) as [j|].
  - destruct F as (sp & Hj & <- & Hr & ->).
    apply list_lookup_insert_Some in Hj as [(<- & <- & _)|[Hji Hj]]; [tauto|].
    rewrite (space_refs_at l j sp) by done. case_bool_decide as Ho; [|done].
    destruct Ho. by destruct Hji; apply (ss_uniq l W i j old sp).
  - destruct F as [-> F]. case_bool_decide as Ho; [done|].
    pose proof (find_space_cases l c) as G. destruct (find_space_slot l c) as [j|]; [|by destruct G].
    destruct G as (sp & Hj & Hc & Hr & _). destruct (decide (j = i)) as [->|Hne].
    + destruct Ho. by assert (old = sp) as -> by congruence.
    + destruct Hr. apply (F j); [|done]. by rewrite list_lookup_insert_ne.
Qed.

(** ** Rights of a page *)

(** What a page entry allows a program: the page is present and open to
    programs, writable (bit 1) if [w], and closed to execution (bit 63)
    unless [x]. *)
Record page_rights (e : Z) (w x : bool) : Prop := {
  pr_present : Z.testbit e 0 = true;
  pr_user : Z.testbit e 2 = true;
  pr_write : Z.testbit e 1 = w;
  pr_noexec : Z.testbit e 63 = negb x
}.

Lemma leaf_rights f (w x : bool) :
  let flags := Z.lor VMM_FLAG_PRESENT VMM_FLAG_USER in
  let flags := if w then Z.lor flags VMM_FLAG_WRITABLE else flags in
  page_rights (leaf_entry f (if x then flags else Z.lor flags VMM_FLAG_NOEXEC)) w x.
Proof.
  unfold leaf_entry. destruct w, x; constructor; rewrite Z.lor_spec, Z.land_spec;
    match goal with |- _ && Z.testbit ?m ?k || _ = _ => change (Z.testbit m k) with false end;
    rewrite andb_false_r; reflexivity.
Qed.

(** A single bit of a word, the way the code tests it. *)
Lemma bit_unset v k : 0 <= k -> (Z.land v (2 ^ k) =? 0) = negb (Z.testbit v k).
Proof. intros Hk. rewrite <- has_flag_bit by done. unfold has_flag. by rewrite negb_involutive. Qed.

Section spec.
Context {A : Type} `{PageLaws A}.
Implicit Types (s : mach A).

(** ** Fresh spaces *)

(** A table without present user entries is a space without user pages. *)
Lemma empty_space_wf s cr3 :
  table_page s cr3 ->
  (forall i, 0 < i < 512 -> has_flag (ld64 (m_mem s) (cr3 + 8 * i)) VMM_FLAG_PRESENT = false) ->
  space_wf s cr3 /\ forall va, user_va va -> xlate (m_mem s) cr3 va = None.
Proof.
  intros Ht He.
  assert (Hw : forall p a, upath p -> walk (m_mem s) cr3 p = Some a -> p = [] /\ a = cr3).
  { intros [|i p] a (_ & Hf & Hh); cbn [walk]; [by intros [= <-]|].
    inversion_clear Hf. rewrite He; [done|]. cbn in Hh. assert (i <> 0) by congruence. lia. }
  split; [constructor|].
  - intros p a Hp Ha. by destruct (Hw p a Hp Ha) as [_ ->].
  - intros p q a Hp Hq Ha Ha'. destruct (Hw p a Hp Ha), (Hw q a Hq Ha'). congruence.
  - intros p a i Hpi Ha Hpr. pose proof (upath_last _ _ Hpi) as Hi.
    destruct (Hw p a (upath_app_l _ _ Hpi) Ha) as [-> ->].
    destruct Hpi as (_ & _ & Hh). cbn in Hh. assert (i <> 0) by congruence.
    rewrite He in Hpr by lia. done.
  - intros va Hva. unfold xlate. destruct (walk _ _ _) eqn:E; [|done].
    by destruct (Hw _ _ (upath_va va Hva) E).
Qed.

(** ** Sets of owned pages *)

(** Every page of [D] is backed by a frame of its own, which is no page
    table; [fl] gives the flags of each page. *)
Record owned (fl : Z -> Z) (s : mach A) (cr3 : Z) (D : Z -> Prop) (fr : Z -> Z) : Prop := {
  hw_pages : pa_wf (m_pages s);
  hw_space : space_wf s cr3;
  hw_page va : D va ->
    user_va va /\ va mod 4096 = 0 /\ is_frame (fr va) /\ 0 < fr va /\
    fr va / 4096 < pa_total (m_pages s) /\
    xlate (m_mem s) cr3 va = Some (leaf_entry (fr va) (fl va)) /\ foreign s cr3 (fr va);
  hw_inj va va' : D va -> D va' -> fr va = fr va' -> va = va'
}.

(** The pages of a user heap. *)
Abbreviation heap_wf := (owned (fun _ => heap_flags)).

Lemma frame_page f : is_frame f -> f / 4096 * 4096 = f.
Proof. intros [Hm _]. Z.div_mod_to_equations; lia. Qed.

Lemma pages_apart va va' : va mod 4096 = 0 -> va' mod 4096 = 0 -> va <> va' -> ~ same_page va va'.
Proof. unfold same_page. intros. Z.div_mod_to_equations; lia. Qed.

Lemma alloc_foreign s t s' cr3 :
  space_wf s cr3 -> pa_wf (m_pages s) -> alloc_zero_page s = (t, s') -> t <> 0 ->
  foreign s' cr3 t /\ forall x, foreign s cr3 x -> x / 4096 <> t / 4096.
Proof.
  intros Hwf Hpg E Ht. pose proof (alloc_zero_extends s t s' cr3 Hwf Hpg E) as X.
  destruct (alloc_zero_page_ok s t s' Hpg E Ht) as (_ & _ & (Ft & Ht0 & _ & Hu) & Hfree & Hmono & Em).
  split; [|intros x (_ & Hx & _) Hc; congruence].
  split; [lia|]. split; [done|]. intros p a Hp Hw. rewrite (frame_page t Ft). intros ->.
  assert (Hsame : forall q, upath q -> walk (m_mem s') cr3 q = walk (m_mem s) cr3 q).
  { clear p Hp Hw. intros q. induction q as [|j q IH] using rev_ind; intros Hq; [done|].
    pose proof (upath_app_l _ _ Hq) as Hq'. rewrite !walk_app, IH by done.
    destruct (walk (m_mem s) cr3 q) as [b|] eqn:Eb; [|done]. cbn [walk].
    destruct (sw_table _ _ Hwf q b Hq' Eb) as ([Fb _] & Hb0 & _ & Hub).
    assert (b / 4096 <> t / 4096) by congruence.
    rewrite Em. rewrite ldn_fill_other; [done|]. pose proof (upath_last _ _ Hq).
    unfold PAGE_SIZE. destruct Ft as [Ft _]. cbn. Z.div_mod_to_equations; lia. }
  rewrite Hsame in Hw by done. destruct (sw_table _ _ Hwf p t Hp Hw) as (_ & _ & _ & Hx). congruence.
Qed.

(** One round of the growing loop. *)
Lemma owned_grow_step fl s s1 s2 cr3 D fr va pa :
  owned fl s cr3 D fr -> flags_ok (fl va) -> user_va va -> va mod 4096 = 0 ->
  alloc_zero_page s = (pa, s1) -> pa <> 0 ->
  map_page_inner s1 cr3 va pa (fl va) = (true, s2) ->
  owned fl s2 cr3 (fun v => v = va \/ D v) (fun v => if v =? va then pa else fr v) /\
  ~ D va /\ pa_total (m_pages s2) = pa_total (m_pages s) /\
  xlate_becomes cr3 va (Some (leaf_entry pa (fl va))) s s2 /\
  foreign_kept cr3 s s2 /\ (forall x, x / 4096 = pa / 4096 -> foreign s2 cr3 x /\ ld8 (m_mem s2) x = 0).
Proof.
  intros [Hpg Hwf Hd Hinj] Hfl Hva Hal Ea Hpa Em.
  pose proof (alloc_zero_extends s pa s1 cr3 Hwf Hpg Ea) as X.
  destruct (alloc_foreign s pa s1 cr3 Hwf Hpg Ea Hpa) as [Hfor Hne].
  destruct (alloc_zero_page_ok s pa s1 Hpg Ea Hpa) as (_ & _ & (Ft & Ht0 & Htot & _) & _ & _ & Em1).
  destruct (map_page_ok s1 cr3 va pa (fl va) s2 (ex_wf _ _ _ X) (ex_pages _ _ _ X) Hva Hfl Em)
    as (W2 & P2 & Hn & [B1 B2] & K2).
  destruct (map_page_cases s1 cr3 va pa (fl va) true s2 (ex_wf _ _ _ X) (ex_pages _ _ _ X) Hva Em)
    as (s1' & X' & pt & _ & _ & Es2).
  assert (Tot : pa_total (m_pages s2) = pa_total (m_pages s)).
  { rewrite Es2. cbn. rewrite (ex_total _ _ _ X'). apply (ex_total _ _ _ X). }
  rewrite (ex_xlate _ _ _ X va Hva) in Hn.
  assert (HnD : ~ D va).
  { intros (_ & _ & _ & _ & _ & Hx & _)%Hd. congruence. }
  assert (HB : xlate_becomes cr3 va (Some (leaf_entry pa (fl va))) s s2).
  { split; [done|]. intros v Hv Hns. rewrite B2 by done. by apply (ex_xlate _ _ _ X). }
  assert (HK : foreign_kept cr3 s s2).
  { intros x Hx. destruct (ex_foreign _ _ _ X x Hx) as [Hx1 E1]. destruct (K2 x Hx1) as [Hx2 E2]. split; [done|congruence]. }
  assert (HZ : forall x, x / 4096 = pa / 4096 -> foreign s2 cr3 x /\ ld8 (m_mem s2) x = 0).
  { intros x Ex. assert (Hx : foreign s1 cr3 x).
    { destruct Hfor as (F1 & F2 & F3). split; [Z.div_mod_to_equations; lia|]. by rewrite Ex. }
    destruct (K2 x Hx) as [? ->]. split; [done|]. rewrite Em1, ld8_fill. destruct Ft as [Ft _].
    unfold PAGE_SIZE. in_range_cases; [done|]. exfalso. Z.div_mod_to_equations; lia. }
  split; [|done]. constructor; [done|done| |].
  - intros v Hv. destruct (Z.eqb_spec v va) as [->|Hvne].
    + split; [done|]. split; [done|]. split; [done|]. split; [done|].
      rewrite Tot, <- (ex_total _ _ _ X). split; [done|]. split; [done|]. by apply K2.
    + destruct Hv as [|Hv]; [done|]. destruct (Hd v Hv) as (U & M & F & F0 & FT & Hx & HF).
      rewrite Tot. repeat (split; [done|]). destruct HB as [_ HB].
      split; [rewrite HB; [done|done|by apply pages_apart]|].
      apply K2, (ex_foreign _ _ _ X), HF.
  - intros v v' Hv Hv'.
    assert (Hcl : forall w, D w -> fr w <> pa).
    { intros w (_ & _ & _ & _ & _ & _ & HF)%Hd Hc. apply (Hne _ HF). by rewrite Hc. }
    destruct (Z.eqb_spec v va) as [->|], (Z.eqb_spec v' va) as [->|]; try done.
    + intros Hc. destruct Hv' as [|Hv']; [done|]. by destruct (Hcl v' Hv').
    + intros Hc. destruct Hv as [|Hv]; [done|]. by destruct (Hcl v Hv).
    + destruct Hv as [|Hv]; [done|]. destruct Hv' as [|Hv']; [done|]. by apply Hinj.
Qed.

(** Giving back a frame that is no table. *)
Lemma free_foreign s cr3 f :
  space_wf s cr3 -> pa_wf (m_pages s) -> is_frame f -> 0 < f -> foreign s cr3 f ->
  let s' := pmm_free s f 1 in
  pa_wf (m_pages s') /\ pa_total (m_pages s') = pa_total (m_pages s) /\ space_wf s' cr3 /\
  (forall g, foreign s cr3 g -> g / 4096 <> f / 4096 -> foreign s' cr3 g) /\
  (f / 4096 < pa_total (m_pages s) -> pa_isfree (m_pages s') (f / 4096) = true) /\
  (forall i, 0 <= i -> pa_isfree (m_pages s) i = true -> pa_isfree (m_pages s') i = true).
Proof.
  intros Hwf Hpg Ff Hf0 (_ & Hu & Hnt). cbv zeta. unfold pmm_free.
  assert (4096 <= f) by (destruct Ff; Z.div_mod_to_equations; lia).
  assert (0 <= f / 4096) by (apply Z.div_pos; lia).
  destruct (pa_free_ok (m_pages s) f 1 Hpg ltac:(unfold PAGE_SIZE; lia) ltac:(lia)) as (P & T & U).
  unfold PAGE_SIZE in U. cbn.
  assert (Hkeep : forall i, 0 <= i -> i <> f / 4096 ->
    pa_isfree (pa_free (m_pages s) f 1) i = pa_isfree (m_pages s) i).
  { intros i Hi Hne. rewrite U by done.
    replace ((f / 4096 <=? i) && (i <? f / 4096 + 1)) with false by lia. apply orb_false_r. }
  split; [done|]. split; [done|]. split; [|split; [|split]].
  - constructor; cbn.
    + intros p a Hp Hw. destruct (sw_table _ _ Hwf p a Hp Hw) as (Fa & Ha0 & Hat & Hau).
      split; [done|]. split; [done|]. cbn. rewrite T. split; [done|].
      rewrite Hkeep; [done|apply Z.div_pos; lia|].
      intros E. apply (Hnt p a Hp Hw). rewrite <- E. symmetry. by apply frame_page.
    + apply (sw_inj _ _ Hwf).
    + apply (sw_small _ _ Hwf).
  - intros g (Hg0 & Hg1 & Hg2) Hne. split; [done|]. cbn. split; [|done].
    rewrite Hkeep; [done|by apply Z.div_pos|done].
  - intros Hlt. rewrite U by done.
    replace ((f / 4096 <=? f / 4096) && (f / 4096 <? f / 4096 + 1) &&
             (f / 4096 <? pa_total (m_pages s))) with true by lia. apply orb_true_r.
  - intros i Hi Hif. by rewrite U, Hif.
Qed.

(** One round of the shrinking loop. *)
Lemma owned_shrink_step fl s cr3 D fr va :
  owned fl s cr3 D fr -> flags_ok (fl va) -> D va ->
  exists s1, vmm_unmap_page s cr3 va = (fr va, s1) /\ fr va <> 0 /\
  let s2 := pmm_free s1 (fr va) 1 in
  owned fl s2 cr3 (fun v => v <> va /\ D v) fr /\
  (forall x, foreign s cr3 x -> x / 4096 <> fr va / 4096 ->
     foreign s2 cr3 x /\ ld8 (m_mem s2) x = ld8 (m_mem s) x) /\
  pa_isfree (m_pages s2) (fr va / 4096) = true /\
  (forall i, 0 <= i -> pa_isfree (m_pages s) i = true -> pa_isfree (m_pages s2) i = true) /\
  xlate_becomes cr3 va None s s2.
Proof.
  intros [Hpg Hwf Hd Hinj] Hfl Hva.
  destruct (Hd va Hva) as (U & M & F & F0 & FT & Hx & HF).
  destruct (vmm_unmap_page s cr3 va) as [r s1] eqn:E.
  destruct (unmap_page_ok s cr3 va r s1 Hwf Hpg U E) as (-> & W1 & P1 & [B1 B2] & K).
  rewrite Hx, leaf_entry_phys, frame_mask by done.
  exists s1. split; [done|]. split; [lia|]. cbv zeta.
  assert (Hpg1 : pa_wf (m_pages s1)) by congruence.
  destruct (free_foreign s1 cr3 (fr va) W1 Hpg1 F F0 (proj1 (K _ HF))) as (P2 & T2 & W2 & K2 & Fr & Mf).
  rewrite P1 in *. split; [|split; [|split; [by apply Fr|split; [exact Mf|split; done]]]];
    [|intros x Hx' Hne; destruct (K x Hx') as [? Ex]; split; [by apply K2|exact Ex]].
  constructor; [done|done| |].
  - intros v [Hne Hv]. destruct (Hd v Hv) as (U' & M' & F' & F0' & FT' & Hx' & HF').
    rewrite T2. repeat (split; [done|]). cbn.
    split; [rewrite B2; [done|done|by apply pages_apart; [..|congruence]]|].
    apply K2; [by apply K|]. intros Ec. apply Hne. apply Hinj; [done|done|].
    rewrite <- (frame_page (fr v)), <- (frame_page (fr va)) by done. by rewrite Ec.
  - intros v v' [_ Hv] [_ Hv']. by apply Hinj.
Qed.

(** The pages of the half-open range [lo, hi). *)
Definition pages_in (lo hi v : Z) : Prop := v mod 4096 = 0 /\ lo <= v < hi.

Lemma heap_wf_proper fl s cr3 D D' fr :
  (forall v, D v <-> D' v) -> owned fl s cr3 D fr -> owned fl s cr3 D' fr.
Proof.
  intros HD [P W Hd Hi]. constructor; [done|done| |].
  - intros v Hv. apply Hd, HD, Hv.
  - intros v v' Hv Hv'. apply Hi; by apply HD.
Qed.

Definition outside_kept (cr3 lo hi : Z) (s s' : mach A) : Prop :=
  forall va, user_va va -> ~ (lo / 4096 <= va / 4096 < hi / 4096) ->
    xlate (m_mem s') cr3 va = xlate (m_mem s) cr3 va.

Lemma outside_step cr3 lo hi s s1 s2 va r :
  outside_kept cr3 lo hi s s1 -> xlate_becomes cr3 va r s1 s2 ->
  lo / 4096 <= va / 4096 < hi / 4096 -> outside_kept cr3 lo hi s s2.
Proof.
  intros O [_ B] Hin va' Hu Hout. rewrite B; [by apply O|done|]. unfold same_page. lia.
Qed.

Lemma va_steps_mul from to : from mod 4096 = 0 -> to mod 4096 = 0 -> from <= to ->
  to = from + va_steps from to * 4096 /\ 0 <= va_steps from to.
Proof. intros. unfold va_steps, PAGE_SIZE. Z.div_mod_to_equations; lia. Qed.

(** No page is left, or none but the one just given back. *)
Definition out_of_pages (s : mach A) : Prop :=
  fst (pa_alloc (m_pages s) 1) = 0 \/
  exists a pa, fst (pa_alloc a 1) = 0 /\ m_pages s = pa_free a pa 1.

Lemma alloc_zero_none s s' : pa_wf (m_pages s) -> alloc_zero_page s = (0, s') -> fst (pa_alloc (m_pages s') 1) = 0.
Proof.
  intros Hpg E. rewrite (alloc_zero_page_fail _ _ Hpg E). unfold alloc_zero_page in E.
  destruct (pa_alloc (m_pages s) 1) as [pa pg]. cbn in *. destruct (Z.eqb_spec pa 0) as [->|]; [done|congruence].
Qed.

Lemma brk_grow_spec s cr3 start from to fr :
  heap_wf s cr3 (pages_in start from) fr ->
  from mod 4096 = 0 -> to mod 4096 = 0 -> start <= from <= to ->
  (forall va, from <= va < to -> user_va va) ->
  let '(ok, s') := brk_grow s cr3 from to in
  if ok then
    exists fr', heap_wf s' cr3 (pages_in start to) fr' /\
      (forall v, pages_in start from v -> fr' v = fr v) /\ outside_kept cr3 from to s s'
  else (exists va, pages_in from to va /\ xlate (m_mem s) cr3 va <> None) \/ out_of_pages s'.
Proof.
  intros Hh Hf Ht Hle Hu. unfold brk_grow, for_range_exit.
  destruct (va_steps_mul from to Hf Ht ltac:(lia)) as [Eto Hst].
  set (n := va_steps from to) in *. rewrite Z.sub_0_r.
  match goal with |- context [for_exit _ _ ?b _] => set (body := b) end.
  pose proof (for_exit_ind (fun i s1 => exists fr', heap_wf s1 cr3 (pages_in start (from + i * 4096)) fr' /\
      (forall v, pages_in start from v -> fr' v = fr v) /\ outside_kept cr3 from (from + i * 4096) s s1)
    (fun s1 => (exists va, pages_in from to va /\ xlate (m_mem s) cr3 va <> None) \/ out_of_pages s1)
    body (Z.to_nat n) 0 s) as Hind.
  replace (0 + Z.of_nat (Z.to_nat n)) with n in Hind by lia. cbv beta in Hind. rewrite <- Eto in Hind.
  lapply Hind; [clear Hind; intros Hind|exists fr; split; [by rewrite Z.add_0_r|done]].
  lapply Hind; [by destruct (for_exit _ _ _ _)|clear Hind].
  intros i s2 Hi (fr' & Hh2 & Hsame & Hout). unfold body.
  destruct (alloc_zero_page s2) as [pa s3] eqn:Ea.
  destruct (Z.eqb_spec pa 0) as [->|Hpa]; [right; left; exact (alloc_zero_none _ _ (hw_pages _ _ _ _ _ Hh2) Ea)|].
  fold heap_flags. unfold PAGE_SIZE, vmm_map_page. set (va := from + i * 4096) in *.
  assert (Hm : va mod 4096 = 0) by (unfold va; rewrite Z.mod_add by lia; done).
  pose proof (Hu va ltac:(lia)) as Hva.
  destruct (map_page_inner s3 cr3 va pa heap_flags) as [[] s4] eqn:Em.
  - destruct (owned_grow_step _ s2 s3 s4 cr3 _ fr' va pa Hh2 heap_flags_ok Hva Hm Ea Hpa Em)
      as (Hh4 & HnD & _ & HB & _). eexists. split; [eapply heap_wf_proper; [|exact Hh4]|split].
    + intros v. unfold pages_in in *. cbn. subst va. split; [intros [->|]; Z.div_mod_to_equations; lia|].
      intros [? ?]. Z.div_mod_to_equations. lia.
    + intros v Hv. cbn. destruct (Z.eqb_spec v va) as [->|]; [|by apply Hsame]. unfold pages_in in Hv. lia.
    + apply (outside_step cr3 from (from + (i + 1) * 4096) s s2 s4 va (Some (leaf_entry pa heap_flags)));
        [|done|subst va; Z.div_mod_to_equations; lia].
      intros v Hv Hn. apply Hout; [done|]. subst va. Z.div_mod_to_equations; lia.
  - pose proof (alloc_zero_extends s2 pa s3 cr3 (hw_space _ _ _ _ _ Hh2) (hw_pages _ _ _ _ _ Hh2) Ea) as X.
    destruct (map_page_fail s3 cr3 va pa heap_flags s4 (ex_wf _ _ _ X) (ex_pages _ _ _ X) Hva Em) as [_ [Hx|Hx]].
    + left. exists va. split; [split; [done|lia]|]. rewrite (ex_xlate _ _ _ X va Hva) in Hx.
      rewrite <- Hout; [done|done|]. subst va. Z.div_mod_to_equations; lia.
    + right. right. exists (m_pages s4), pa. by split.
Qed.

Lemma brk_shrink_ok s cr3 start from to fr :
  heap_wf s cr3 (pages_in start to) fr ->
  from mod 4096 = 0 -> to mod 4096 = 0 -> start <= from <= to ->
  let s' := brk_shrink s cr3 from to in
  heap_wf s' cr3 (pages_in start from) fr /\ outside_kept cr3 from to s s' /\
  (forall v, pages_in from to v ->
     xlate (m_mem s') cr3 v = None /\ pa_isfree (m_pages s') (fr v / 4096) = true).
Proof.
  intros Hh Hf Ht Hle. cbv zeta. unfold brk_shrink.
  destruct (va_steps_mul from to Hf Ht ltac:(lia)) as [Eto Hst].
  set (n := va_steps from to) in *.
  match goal with |- context [for_range _ _ ?b _] => set (body := b) end.
  pose proof (for_range_ind (fun i s1 =>
      heap_wf s1 cr3 (fun v => pages_in start to v /\ ~ pages_in from (from + i * 4096) v) fr /\
      outside_kept cr3 from to s s1 /\
      (forall v, pages_in from (from + i * 4096) v ->
         xlate (m_mem s1) cr3 v = None /\ pa_isfree (m_pages s1) (fr v / 4096) = true))
    body 0 n s Hst) as Hind.
  cbv beta in Hind. rewrite <- Eto in Hind. destruct Hind as (H1 & H2 & H3).
  - split; [eapply heap_wf_proper; [|exact Hh]|split; [done|]].
    + intros v. unfold pages_in. lia.
    + intros v. unfold pages_in. lia.
  - intros i s1 Hi (Hh1 & Ho & Hn). set (va := from + i * 4096) in *. unfold body, PAGE_SIZE. fold va.
    assert (Hva : pages_in start to va /\ ~ pages_in from va va).
    { unfold pages_in. unfold va. rewrite Z.mod_add by lia. lia. }
    destruct (owned_shrink_step _ s1 cr3 _ fr va Hh1 heap_flags_ok Hva) as (s2 & -> & Hne & Hh2 & _ & Hfr & Hmf & HB).
    destruct (Z.eqb_spec (fr va) 0); [done|].
    split; [eapply heap_wf_proper; [|exact Hh2]|split].
    + intros v. cbn. unfold pages_in. subst va. Z.div_mod_to_equations. lia.
    + eapply outside_step; [done|done|]. subst va. Z.div_mod_to_equations; lia.
    + destruct HB as [B1 B2]. intros v Hv. destruct (decide (v = va)) as [->|Hvne]; [done|].
      assert (Hp : pages_in from va v).
      { unfold pages_in in *. subst va. Z.div_mod_to_equations. lia. }
      destruct (hw_page _ _ _ _ _ Hh v) as (Hu & _ & _ & Hfv & _); [unfold pages_in in *; subst va; lia|].
      destruct (Hn v Hp) as [Hn1 Hn2].
      rewrite B2; [|done|apply pages_apart; [apply Hva|apply Hp|congruence]].
      split; [done|]. apply Hmf; [apply Z.div_pos; lia|done].
  - split; [|split; [done|done]]. eapply heap_wf_proper; [|exact H1].
    intros v. cbn. unfold pages_in. lia.
Qed.

Definition page_up (v : Z) : Z := (v + 4095) / 4096 * 4096.

Lemma page_up_align v : 0 <= v < 2 ^ 47 -> align_up_u64 v PAGE_SIZE = page_up v.
Proof.
  intros Hv. change PAGE_SIZE with (2 ^ 12). rewrite align_up_pow2; [|cint..].
  unfold page_up. change (2 ^ 12) with 4096. do 2 f_equal. lia.
Qed.

Lemma page_up_props v : page_up v mod 4096 = 0 /\ v <= page_up v < v + 4096.
Proof. unfold page_up. rewrite Z.mod_mul by lia. split; [done|]. Z.div_mod_to_equations; lia. Qed.

Lemma page_up_mono v w : v <= w -> page_up v <= page_up w.
Proof. intros. unfold page_up. Z.div_mod_to_equations; lia. Qed.

Lemma user_va_range va : USER_REGION_BASE <= va < 2 ^ 48 -> user_va va.
Proof.
  intros [H1 H2]. unfold USER_REGION_BASE in H1. split; [lia|].
  rewrite idx_l4_eq. Z.div_mod_to_equations; lia.
Qed.

(** A heap inside the user region; the new end is any address below its
    upper bound. *)
Definition brk_bounds (th : brk_thread) (new_end : Z) : Prop :=
  USER_REGION_BASE <= bt_brk_start th /\
  bt_brk_start th <= bt_brk_end th < 2 ^ 47 /\ 0 <= new_end < 2 ^ 47.

(** * Properties *)

(** C2: [vmm_map_page] on an address of the user half.  On success the
    address was unmapped; it now resolves to the given frame at the same
    page offset, with the given flags plus the present bit; every other
    user page resolves as before; allocated memory outside this space's
    tables keeps its contents; the space and the allocator stay well
    formed.  On failure no user address resolves differently, and either
    the address was mapped already or the page allocator is exhausted. *)
Theorem vmm_map_page_correct s cr3 va phys flags ok s' :
  space_wf s cr3 -> pa_wf (m_pages s) -> user_va va -> flags_ok flags ->
  vmm_map_page s cr3 va phys flags = (ok, s') ->
  space_wf s' cr3 /\ pa_wf (m_pages s') /\ foreign_kept cr3 s s' /\
  if ok then
    vmm_resolve s cr3 va = None /\
    vmm_resolve s' cr3 va =
      Some (Z.lor (Z.land phys VMM_ADDR_MASK) (Z.land va 4095), leaf_entry phys flags) /\
    (forall va', user_va va' -> ~ same_page va va' -> vmm_resolve s' cr3 va' = vmm_resolve s cr3 va')
  else
    (forall va', user_va va' -> vmm_resolve s' cr3 va' = vmm_resolve s cr3 va') /\
    (vmm_resolve s cr3 va <> None \/ fst (pa_alloc (m_pages s') 1) = 0).
Proof.
  intros Hwf Hpg Hva Hf E. destruct ok.
  - destruct (map_page_ok s cr3 va phys flags s' Hwf Hpg Hva Hf E) as (W & P & N & [B1 B2] & K).
    split; [done|]. split; [done|]. split; [done|].
    rewrite !(resolve_xlate _ _ va), N, B1, (leaf_entry_phys _ _ Hf) by done.
    split; [done|]. split; [done|]. intros va' Hva' Hne. by rewrite !resolve_xlate, B2.
  - destruct (map_page_fail s cr3 va phys flags s' Hwf Hpg Hva E) as (X & Hr).
    split; [apply (ex_wf _ _ _ X)|]. split; [apply (ex_pages _ _ _ X)|].
    split; [exact (ex_foreign _ _ _ X)|]. split.
    + intros va' Hva'. rewrite !resolve_xlate by (done || apply (ex_wf _ _ _ X)).
      by rewrite (ex_xlate _ _ _ X va' Hva').
    + destruct Hr as [Hr|]; [left|by right]. rewrite resolve_xlate by done.
      by destruct (xlate (m_mem s) cr3 va).
Qed.

(** [vmm_unmap_page] on an address of the user half returns the frame
    the address was mapped to, or 0 when it was not mapped; afterwards the
    page does not resolve, every other user page resolves as before, and
    no page has been taken or given back. *)
Theorem vmm_unmap_page_correct s cr3 va r s' :
  space_wf s cr3 -> pa_wf (m_pages s) -> user_va va ->
  vmm_unmap_page s cr3 va = (r, s') ->
  space_wf s' cr3 /\ m_pages s' = m_pages s /\ foreign_kept cr3 s s' /\
  r = match vmm_resolve s cr3 va with Some (_, e) => Z.land e VMM_ADDR_MASK | None => 0 end /\
  vmm_resolve s' cr3 va = None /\
  (forall va', user_va va' -> ~ same_page va va' -> vmm_resolve s' cr3 va' = vmm_resolve s cr3 va').
Proof.
  intros Hwf Hpg Hva E.
  destruct (unmap_page_ok s cr3 va r s' Hwf Hpg Hva E) as (Hr & W & P & [B1 B2] & K).
  split; [done|]. split; [done|]. split; [done|]. rewrite !(resolve_xlate _ _ va), B1 by done.
  split; [by destruct (xlate (m_mem s) cr3 va)|]. split; [done|].
  intros va' Hva' Hne. by rewrite !resolve_xlate, B2.
Qed.

(** Mapping then unmapping a page is the identity on the whole user
    half, and the unmap returns the frame that was mapped. *)
Theorem vmm_map_unmap_roundtrip s cr3 va phys flags s1 r s2 :
  space_wf s cr3 -> pa_wf (m_pages s) -> user_va va -> flags_ok flags ->
  vmm_map_page s cr3 va phys flags = (true, s1) ->
  vmm_unmap_page s1 cr3 va = (r, s2) ->
  r = Z.land phys VMM_ADDR_MASK /\
  forall va', user_va va' -> vmm_resolve s2 cr3 va' = vmm_resolve s cr3 va'.
Proof.
  intros Hwf Hpg Hva Hf E1 E2.
  destruct (map_page_ok s cr3 va phys flags s1 Hwf Hpg Hva Hf E1) as (W1 & P1 & N & [B1 B2] & _).
  destruct (unmap_page_ok s1 cr3 va r s2 W1 P1 Hva E2) as (-> & W2 & _ & [C1 C2] & _).
  rewrite B1, (leaf_entry_phys _ _ Hf). split; [done|].
  intros va' Hva'. rewrite !resolve_xlate by done.
  destruct (decide (va / 4096 = va' / 4096)) as [Hs|Hs].
  - by rewrite <- !(xlate_same_page _ _ va va' Hs), C1, N.
  - by rewrite C2, B2.
Qed.

(** A successful [vmm_create_user_space] gives a well-formed space in
    which no user address resolves, whose kernel half is the kernel's own
    (entry 0 is shared), registered with one reference in a slot that was
    free; a failing one returns 0 with the space table unchanged. *)
Theorem vmm_create_user_space_correct (v v' : vmm A) r :
  pa_wf (m_pages (v_mach v)) ->
  table_page (v_mach v) (g_kernel_cr3 v) ->
  vmm_create_user_space v = (r, v') ->
  if r =? 0 then g_user_spaces v' = g_user_spaces v
  else
    space_wf (v_mach v') r /\ pa_wf (m_pages (v_mach v')) /\
    (forall va, user_va va -> vmm_resolve (v_mach v') r va = None) /\
    get_entry (v_mach v') r 0 = get_entry (v_mach v) (g_kernel_cr3 v) 0 /\
    exists slot, g_user_spaces v' = <[slot := mk_space r 1]> (g_user_spaces v) /\
      exists sp, g_user_spaces v !! slot = Some sp /\ sp_refs sp = 0.
Proof.
  intros Hpg (Fk & Hk0 & _ & Hku). unfold vmm_create_user_space.
  destruct (alloc_zero_page (v_mach v)) as [t s1] eqn:Ea.
  destruct (Z.eqb_spec t 0) as [->|Ht]; [by intros [= <- <-]|].
  destruct (alloc_zero_page_ok _ t s1 Hpg Ea Ht) as (Pg1 & _ & Htp & Hfree & _ & Em).
  pose proof Htp as (Ft & Ht0 & _).
  unfold find_free_space_slot.
  destruct (list_find _ _) as [[slot sp]|] eqn:Ef; cbn [fmap option_fmap option_map fst];
    intros [= <- <-]; [|by rewrite Z.eqb_refl].
  rewrite (proj2 (Z.eqb_neq t 0)) by done.
  apply list_find_Some in Ef as (Hl & Hz & _). cbn [v_mach set_spaces set_mach g_user_spaces].
  assert (Hne : g_kernel_cr3 v <> t) by (intros Hc; congruence).
  assert (He : get_entry s1 (g_kernel_cr3 v) 0 = get_entry (v_mach v) (g_kernel_cr3 v) 0).
  { unfold get_entry. rewrite Em. apply ldn_fill_other. unfold PAGE_SIZE. cbn.
    destruct Fk as [Fk _], Ft as [Ft _]. Z.div_mod_to_equations; lia. }
  destruct (empty_space_wf (set_entry s1 t 0 (get_entry s1 (g_kernel_cr3 v) 0)) t) as [W Hx].
  { by destruct Htp. }
  { intros i Hi. cbn. rewrite ldn_stn_other by (cbn; lia). rewrite Em.
    rewrite (ldn_fill_zero 8) by (unfold PAGE_SIZE; lia). done. }
  split; [done|]. split; [done|]. split; [|split].
  - intros va Hva. by rewrite resolve_xlate, Hx.
  - rewrite <- He. unfold get_entry at 1. apply ld64_st64_same. apply ld64_range.
  - exists slot. split; [done|]. by exists sp.
Qed.

(** C16: [vmm_user_set_brk] moves the end of the heap to any address below
    2^47, for a thread whose heap starts in the user region and whose
    recorded break is not below the heap's start.  The heap's pages then
    reach up to the new break, but never end before the heap's start: a new
    break below it gives up all pages and none that is not the heap's.  With
    the heap owning one private frame per page between its start and the
    current break, success leaves it owning exactly the pages up to there
    (the kept pages on the same frames, the given-up ones unmapped and their
    frames back in the allocator), with every address outside the moved part
    translated as before, and records the new break as given; a failure
    leaves the recorded break alone and is only possible when growing, and
    then because a page of the new part was mapped already or because the
    page allocator ran out. *)
Theorem vmm_user_set_brk_correct s th new_end fr ok s' t' :
  bt_is_user th = true -> brk_bounds th new_end ->
  let start := page_up (bt_brk_start th) in
  let cur := page_up (bt_brk_end th) in
  let new := Z.max start (page_up new_end) in
  heap_wf s (bt_cr3 th) (pages_in start cur) fr ->
  vmm_user_set_brk s (Some th) new_end = (ok, s', t') ->
  if ok then
    t' = Some (mk_brk_thread true (bt_cr3 th) (bt_brk_start th) new_end) /\
    (exists fr', heap_wf s' (bt_cr3 th) (pages_in start new) fr' /\
       forall v, pages_in start (Z.min cur new) v -> fr' v = fr v) /\
    outside_kept (bt_cr3 th) (Z.min cur new) (Z.max cur new) s s' /\
    (forall v, pages_in new cur v ->
       xlate (m_mem s') (bt_cr3 th) v = None /\ pa_isfree (m_pages s') (fr v / 4096) = true)
  else
    t' = Some th /\ cur < new /\
    ((exists va, pages_in cur new va /\ vmm_resolve s (bt_cr3 th) va <> None) \/ out_of_pages s').
Proof.
  intros Hu (Hb1 & Hb2 & Hb3). cbv zeta. intros Hh.
  unfold USER_REGION_BASE in Hb1. unfold vmm_user_set_brk. rewrite Hu. cbn [negb].
  rewrite !page_up_align by lia.
  pose proof (page_up_mono (bt_brk_start th) (bt_brk_end th) ltac:(lia)) as Hsc.
  destruct (page_up_props (bt_brk_start th)) as [Ms Bs].
  destruct (page_up_props (bt_brk_end th)) as [Mc Bc].
  destruct (page_up_props new_end) as [Mn Bn].
  set (start := page_up (bt_brk_start th)) in *. set (cur := page_up (bt_brk_end th)) in *.
  replace (if page_up new_end <? start then start else page_up new_end) with (Z.max start (page_up new_end))
    by (case_b; lia).
  set (new := Z.max start (page_up new_end)) in *.
  assert (Hnew : new mod 4096 = 0 /\ start <= new < 2 ^ 47 + 4096) by (unfold new; destruct (Z.max_spec start (page_up new_end)) as [[? ->]|[? ->]]; lia).
  destruct Hnew as [Mnew Bnew]. clearbody new.
  destruct (Z.ltb_spec cur new) as [Hg|Hg].
  - pose proof (brk_grow_spec s (bt_cr3 th) start cur new fr Hh Mc Mnew ltac:(lia)) as G.
    destruct (brk_grow s (bt_cr3 th) cur new) as [[] s1]; intros [= <- <- <-].
    + destruct G as (fr' & G1 & G2 & G3);
        [intros va Hva; apply user_va_range; unfold USER_REGION_BASE; lia|].
      rewrite Z.min_l, Z.max_r by lia.
      split; [done|]. split; [by exists fr'|]. split; [done|]. intros v [_ ?]. lia.
    + split; [done|]. split; [done|].
      destruct G as [(va & Hva & Hx)|G]; [|left|by right].
      { intros va Hva. apply user_va_range. unfold USER_REGION_BASE. lia. }
      exists va. split; [done|]. rewrite resolve_xlate;
        [|exact (hw_space _ _ _ _ _ Hh)|apply user_va_range; unfold USER_REGION_BASE; destruct Hva; lia].
      by destruct (xlate (m_mem s) (bt_cr3 th) va).
  - destruct (Z.ltb_spec new cur) as [Hs|Hs]; intros [= <- <- <-].
    + destruct (brk_shrink_ok s (bt_cr3 th) start new cur fr Hh Mnew Mc ltac:(lia)) as (G1 & G2 & G3).
      rewrite Z.min_r, Z.max_l by lia. split; [done|]. split; [by exists fr|]. by split.
    + assert (new = cur) as -> by lia. split; [done|]. split; [exists fr; by split|].
      split; [done|]. intros v [_ ?]. lia.
Qed.

(** A successful [vmm_map_range] maps every page of the range, page
    [i] to the [i]-th frame with the given flags, and leaves the rest of
    the user half as it was. *)
Theorem vmm_map_range_correct s cr3 virt phys size flags s' :
  space_wf s cr3 -> pa_wf (m_pages s) -> flags_ok flags -> virt mod 4096 = 0 ->
  USER_REGION_BASE <= virt -> 0 <= size -> virt + size < 2 ^ 47 ->
  0 <= phys -> phys + size + 4096 < 2 ^ 64 ->
  vmm_map_range s cr3 virt phys size flags = (true, s') ->
  range_mapped cr3 virt ((size + 4095) / 4096)
    (fun i e => e = leaf_entry (phys + i * 4096) flags) s s'.
Proof.
  intros Hwf Hpg Hf Hal Hv Hs Hvs Hp Hps. unfold USER_REGION_BASE in Hv.
  unfold vmm_map_range, for_range_exit, PAGE_SIZE.
  rewrite u64_small by (unfold is_u64; lia). replace (size + (4096 - 1)) with (size + 4095) by lia.
  set (n := (size + 4095) / 4096). rewrite Z.sub_0_r.
  assert (Hn : 0 <= n /\ n * 4096 < size + 4096) by (unfold n; Z.div_mod_to_equations; lia).
  match goal with |- context [for_exit _ _ ?b _] => set (body := b) end.
  pose proof (for_exit_ind (fun i s1 => range_mapped cr3 virt i
      (fun i e => e = leaf_entry (phys + i * 4096) flags) s s1)
    (fun _ => True) body (Z.to_nat n) 0 s) as Hind.
  destruct (for_exit _ _ _ _) as [s1|s1] eqn:E; [|done]. intros [= <-].
  replace (0 + Z.of_nat (Z.to_nat n)) with n in Hind by lia. apply Hind.
  { split; [done|]. split; [done|]. split; [lia|done]. }
  clear Hind E. intros i s2 Hi Hr. unfold body.
  rewrite (u64_small (i * 4096)) by (unfold is_u64; lia).
  rewrite !u64_small by (unfold is_u64; lia).
  destruct (map_page_inner s2 _ _ _ _) as [[] s3] eqn:Em; [|done].
  eapply range_mapped_step; [done|lia|done| |done| |exact Em|done].
  - intros k Hk. apply user_va_range. unfold USER_REGION_BASE. lia.
  - destruct Hr as (P & W & _). by apply extends_refl.
Qed.

(** Reference counts of address spaces.  Retaining a tracked space adds
    one to its count; releasing it takes one off, and exactly the release
    of the last reference tears the space down and drops it from the
    table.  Neither touches the count of any other space, and a release of
    a space that is not tracked does nothing. *)
Theorem vmm_space_refcounts (v : vmm A) cr3 :
  spaces_wf (g_user_spaces v) -> cr3 <> 0 -> cr3 <> g_kernel_cr3 v ->
  let n := space_refs (g_user_spaces v) cr3 in
  (0 < n < 4294967295 ->
     let v' := vmm_retain_user_space v cr3 in
     spaces_wf (g_user_spaces v') /\ v_mach v' = v_mach v /\
     forall c, space_refs (g_user_spaces v') c =
               if c =? cr3 then n + 1 else space_refs (g_user_spaces v) c) /\
  (let v' := vmm_release_user_space v cr3 in
     spaces_wf (g_user_spaces v') /\
     v_mach v' = (if n =? 1 then vmm_destroy_user_space (g_kernel_cr3 v) (v_mach v) cr3 else v_mach v) /\
     forall c, space_refs (g_user_spaces v') c =
               if c =? cr3 then Z.max 0 (n - 1) else space_refs (g_user_spaces v) c).
Proof.
  intros W Hc0 Hck. cbv zeta. pose proof (find_space_cases (g_user_spaces v) cr3) as F.
  unfold vmm_retain_user_space, vmm_release_user_space.
  rewrite (proj2 (Z.eqb_neq cr3 0)), (proj2 (Z.eqb_neq cr3 (g_kernel_cr3 v))) by done. cbn [orb].
  destruct (find_space_slot (g_user_spaces v) cr3) as [i|].
  2: { destruct F as [F0 F]. rewrite F0. split; [lia|]. split; [done|]. split; [done|].
       intros c. destruct (Z.eqb_spec c cr3) as [->|]; [done|done]. }
  destruct F as (sp & Hl & Hc & Hr & En). rewrite Hl, En.
  pose proof (ss_range _ W i sp Hl) as Hu. unfold is_u32 in Hu.
  assert (Hupd : forall n, is_u32 n -> n <> 0 ->
    let l' := <[i := mk_space (sp_cr3 sp) n]> (g_user_spaces v) in
    spaces_wf l' /\ forall c, space_refs l' c = if c =? cr3 then n else space_refs (g_user_spaces v) c).
  { intros n Hn Hn0. destruct (space_refs_insert _ i sp (mk_space (sp_cr3 sp) n) W Hl Hn) as [W' Hs]; [tauto|].
    split; [done|]. intros c. rewrite Hs. cbn. rewrite Hc.
    destruct (Z.eqb_spec c cr3) as [->|]; [by rewrite bool_decide_true|].
    by rewrite !bool_decide_false by tauto. }
  split.
  - intros Hn. rewrite u32_small by (unfold is_u32; lia). cbn.
    destruct (Hupd (sp_refs sp + 1)) as [W' Hs]; [unfold is_u32; lia|lia|]. done.
  - rewrite (proj2 (Z.eqb_neq (sp_refs sp) 0)) by done.
    rewrite u32_small by (unfold is_u32; lia).
    destruct (Z.eqb_spec (sp_refs sp - 1) 0) as [E|E].
    + assert (sp_refs sp = 1) as E1 by lia. rewrite E1. cbn.
      destruct (space_refs_insert _ i sp (mk_space 0 0) W Hl) as [W' Hs]; [unfold is_u32; cbn; lia|by left|].
      split; [done|]. split; [done|]. intros c. rewrite Hs. cbn.
      rewrite bool_decide_false by tauto. destruct (Z.eqb_spec c cr3) as [->|].
      * by rewrite bool_decide_true.
      * rewrite bool_decide_false; [done|]. intros [_ ->]. done.
    + destruct (Z.eqb_spec (sp_refs sp) 1); [lia|]. rewrite Z.max_r by lia. cbn.
      destruct (Hupd (sp_refs sp - 1)) as [W' Hs]; [unfold is_u32; lia|lia|]. done.
Qed.
End spec.

(** ** A concrete machine

    Zeroed memory over the 12-page allocator of Pmm.v, with the root table
    in page 1. *)
Abbreviation heap_wf := (owned (fun _ => heap_flags)).

Definition demo_mach : mach pmm := mk_mach (fun _ => 0) demo_pmm.
Definition demo_cr3 : Z := 4096.
Definition demo_va : Z := USER_REGION_BASE + 8192.

Lemma demo_table : table_page demo_mach demo_cr3.
Proof. split; [by apply (page_frame 1)|]. by vm_compute. Qed.

Lemma demo_space : space_wf demo_mach demo_cr3.
Proof.
  apply empty_space_wf; [apply demo_table|]. intros i _. cbn.
  unfold ldn. reflexivity.
Qed.

Lemma demo_pages : pa_wf (m_pages demo_mach).
Proof. exact (conj demo_pmm_inv (conj eq_refl eq_refl)). Qed.

Lemma demo_user_va : user_va demo_va.
Proof. apply user_va_range. unfold demo_va, USER_REGION_BASE. lia. Qed.

Lemma demo_map_ok :
  vmm_map_page demo_mach demo_cr3 demo_va 24576 heap_flags =
  (true, snd (vmm_map_page demo_mach demo_cr3 demo_va 24576 heap_flags)).
Proof.
  assert (E : fst (vmm_map_page demo_mach demo_cr3 demo_va 24576 heap_flags) = true) by (vm_compute; reflexivity).
  destruct (vmm_map_page _ _ _ _ _). cbn in E. by rewrite E.
Qed.

Lemma vmm_map_page_correct_witness :
  vmm_resolve (snd (vmm_map_page demo_mach demo_cr3 demo_va 24576 heap_flags)) demo_cr3 demo_va
  = Some (24576, leaf_entry 24576 heap_flags).
Proof.
  destruct (vmm_map_page_correct demo_mach demo_cr3 demo_va 24576 heap_flags true _
    demo_space demo_pages demo_user_va heap_flags_ok demo_map_ok) as (_ & _ & _ & _ & E & _).
  exact E.
Defined.

Lemma vmm_unmap_page_correct_witness :
  vmm_resolve (snd (vmm_unmap_page demo_mach demo_cr3 demo_va)) demo_cr3 demo_va = None.
Proof.
  destruct (vmm_unmap_page_correct demo_mach demo_cr3 demo_va _ _
    demo_space demo_pages demo_user_va (surjective_pairing _)) as (_ & _ & _ & _ & E & _).
  exact E.
Defined.

Lemma vmm_map_unmap_roundtrip_witness :
  fst (vmm_unmap_page (snd (vmm_map_page demo_mach demo_cr3 demo_va 24576 heap_flags)) demo_cr3 demo_va)
  = 24576.
Proof.
  destruct (vmm_map_unmap_roundtrip demo_mach demo_cr3 demo_va 24576 heap_flags _ _ _
    demo_space demo_pages demo_user_va heap_flags_ok demo_map_ok (surjective_pairing _)) as [E _].
  exact E.
Defined.

Definition demo_vmm : vmm pmm :=
  mk_vmm demo_mach demo_cr3 [mk_space 8192 2; mk_space 0 0; mk_space 12288 1] demo_cr3.

Lemma vmm_create_user_space_correct_witness :
  g_user_spaces (snd (vmm_create_user_space demo_vmm)) =
  [mk_space 8192 2; mk_space 16384 1; mk_space 12288 1] /\
  space_wf (v_mach (snd (vmm_create_user_space demo_vmm))) 16384.
Proof.
  split; [vm_compute; reflexivity|].
  assert (E : vmm_create_user_space demo_vmm = (16384, snd (vmm_create_user_space demo_vmm))).
  { assert (E : fst (vmm_create_user_space demo_vmm) = 16384) by (vm_compute; reflexivity).
    destruct (vmm_create_user_space demo_vmm). cbn in E. by rewrite E. }
  exact (proj1 (vmm_create_user_space_correct demo_vmm _ _ demo_pages demo_table E)).
Defined.

(** A thread whose heap is still empty. *)
Definition demo_thread : brk_thread := mk_brk_thread true demo_cr3 demo_va demo_va.

Lemma demo_brk_ok :
  vmm_user_set_brk demo_mach (Some demo_thread) (demo_va + 100) =
  (true, snd (fst (vmm_user_set_brk demo_mach (Some demo_thread) (demo_va + 100))),
   Some (mk_brk_thread true demo_cr3 demo_va (demo_va + 100))).
Proof.
  assert (E1 : fst (fst (vmm_user_set_brk demo_mach (Some demo_thread) (demo_va + 100))) = true)
    by (vm_compute; reflexivity).
  assert (E2 : snd (vmm_user_set_brk demo_mach (Some demo_thread) (demo_va + 100)) =
    Some (mk_brk_thread true demo_cr3 demo_va (demo_va + 100))) by (vm_compute; reflexivity).
  destruct (vmm_user_set_brk _ _ _) as [[]]. cbn in *. by rewrite E1, E2.
Qed.

Lemma demo_heap : heap_wf demo_mach demo_cr3 (pages_in (page_up demo_va) (page_up demo_va)) (fun _ => 0).
Proof. constructor; [apply demo_pages|apply demo_space|..]; unfold pages_in; intros; lia. Qed.

(** Growing by a page, and then a break far below the heap, which gives the
    page up and no other. *)
Lemma vmm_user_set_brk_correct_witness :
  let s1 := snd (fst (vmm_user_set_brk demo_mach (Some demo_thread) (demo_va + 100))) in
  (exists fr, heap_wf s1 demo_cr3 (pages_in demo_va (demo_va + 4096)) fr) /\
  exists s2, vmm_user_set_brk s1 (Some (mk_brk_thread true demo_cr3 demo_va (demo_va + 100))) 5 =
    (true, s2, Some (mk_brk_thread true demo_cr3 demo_va 5)) /\
    xlate (m_mem s2) demo_cr3 demo_va = None /\ outside_kept demo_cr3 demo_va (demo_va + 4096) s1 s2.
Proof.
  cbv zeta. set (s1 := snd (fst _)).
  destruct (vmm_user_set_brk_correct demo_mach demo_thread (demo_va + 100) (fun _ => 0) true _ _
    eq_refl ltac:(unfold brk_bounds, demo_thread, demo_va, USER_REGION_BASE; cbn; lia)
    demo_heap demo_brk_ok) as (_ & (fr & W & _) & _).
  split; [exists fr; exact W|].
  assert (E : exists s2, vmm_user_set_brk s1 (Some (mk_brk_thread true demo_cr3 demo_va (demo_va + 100))) 5 =
    (true, s2, Some (mk_brk_thread true demo_cr3 demo_va 5))).
  { eexists. unfold vmm_user_set_brk. cbn [bt_is_user negb bt_brk_start bt_brk_end bt_cr3].
    change (align_up_u64 demo_va PAGE_SIZE) with demo_va. change (align_up_u64 5 PAGE_SIZE) with 4096.
    change (align_up_u64 (demo_va + 100) PAGE_SIZE) with (demo_va + 4096).
    change (4096 <? demo_va) with true. cbv iota. change (demo_va + 4096 <? demo_va) with false.
    change (demo_va <? demo_va + 4096) with true. cbv iota. reflexivity. }
  destruct E as (s2 & E). exists s2. split; [exact E|].
  destruct (vmm_user_set_brk_correct s1 (mk_brk_thread true demo_cr3 demo_va (demo_va + 100)) 5 fr true s2 _
    eq_refl ltac:(unfold brk_bounds, demo_va, USER_REGION_BASE; cbn; lia) W E) as (_ & _ & Ho & Hf).
  split; [|exact Ho]. apply (Hf demo_va). split; [reflexivity|]. vm_compute. split; congruence.
Defined.

Lemma demo_spaces_wf : spaces_wf (g_user_spaces demo_vmm).
Proof.
  constructor.
  - intros [|[|[|]]] sp; cbn; intros E; simplify_eq; unfold is_u32; cbn; lia.
  - intros [|[|[|]]] [|[|[|]]] si sj; cbn; intros; by simplify_eq.
Qed.

Lemma vmm_space_refcounts_witness :
  space_refs (g_user_spaces (vmm_retain_user_space demo_vmm 8192)) 8192 = 3.
Proof.
  destruct (vmm_space_refcounts demo_vmm 8192 demo_spaces_wf) as [Hr _];
    [unfold demo_vmm, demo_cr3; cbn; lia..|].
  destruct Hr as (_ & _ & Hs); [vm_compute; auto|]. exact (Hs 8192).
Defined.

Lemma vmm_map_range_correct_witness :
  range_mapped demo_cr3 demo_va 1 (fun i e => e = leaf_entry (24576 + i * 4096) heap_flags)
    demo_mach (snd (vmm_map_range demo_mach demo_cr3 demo_va 24576 100 heap_flags)).
Proof.
  assert (E : vmm_map_range demo_mach demo_cr3 demo_va 24576 100 heap_flags =
    (true, snd (vmm_map_range demo_mach demo_cr3 demo_va 24576 100 heap_flags))).
  { assert (E : fst (vmm_map_range demo_mach demo_cr3 demo_va 24576 100 heap_flags) = true)
      by (vm_compute; reflexivity).
    destruct (vmm_map_range _ _ _ _ _ _). cbn in E. by rewrite E. }
  exact (vmm_map_range_correct demo_mach demo_cr3 demo_va 24576 100 heap_flags _
    demo_space demo_pages heap_flags_ok eq_refl ltac:(done) ltac:(done) ltac:(done) ltac:(done) ltac:(done) E).
Defined.
