(* ===== verification/Blocks.v ===== *)
(** * Lists of heap blocks in memory

    The kernel heap (src/kmalloc.c) and the user heap (user/malloc.c) keep
    the same structure: a singly linked list of blocks, each a 24-byte
    header (next, size, free) followed by its data, searched first fit and
    merged on free.  This file has the header layout, the list as an
    abstract sequence of blocks, and the facts both allocators use. *)

From stdpp Require Import prelude list.
From Stdlib Require Import ZArith Lia.
From S2P Require Import Prelude Lib.
#[local] Open Scope Z_scope.
#[local] Open Scope cint_scope.

(** sizeof(km_block_t) and sizeof(ublock_t). *)
Definition BLOCK_HDR : Z := 24.

Definition blk_next (m : mem) (b : Z) : Z := ld64 m b.
Definition blk_size (m : mem) (b : Z) : Z := ld64 m (b + 8).
Definition blk_free (m : mem) (b : Z) : bool := negb (ld32 m (b + 16) =? 0).
Definition set_blk_next (m : mem) (b v : Z) : mem := st64 m b v.
Definition set_blk_size (m : mem) (b v : Z) : mem := st64 m (b + 8) v.
Definition set_blk_free (m : mem) (b v : Z) : mem := st32 m (b + 16) v.

(** The first free block of at least [size] bytes; 0 when there is none. *)
Fixpoint find_from (fuel : nat) (m : mem) (cur size : Z) : option Z :=
  match fuel with
  | O => None
  | S f =>
      if cur =? 0 then Some 0
      else if blk_free m cur && (size <=? blk_size m cur) then Some cur
      else find_from f m (blk_next m cur) size
  end.

(** ** The abstract list *)

Record blk := mk_blk { b_addr : Z; b_size : Z; b_free : bool }.

Inductive blocks_at (m : mem) : Z -> list blk -> Prop :=
| blocks_nil : blocks_at m 0 []
| blocks_cons a l :
    0 < a -> blocks_at m (blk_next m a) l ->
    blocks_at m a (mk_blk a (blk_size m a) (blk_free m a) :: l).

Definition in_hdr (b : blk) (x : Z) : Prop := b_addr b <= x < b_addr b + BLOCK_HDR.

Definition hdr_apart (b c : blk) : Prop :=
  b_addr b + BLOCK_HDR <= b_addr c \/ b_addr c + BLOCK_HDR <= b_addr b.

(** Headers do not overlap. *)
Fixpoint hdrs_apart (l : list blk) : Prop :=
  match l with
  | [] => True
  | b :: l' => Forall (hdr_apart b) l' /\ hdrs_apart l'
  end.

Definition last_addr (l : list blk) : Z := match last l with Some b => b_addr b | None => 0 end.

(** [m] and [m'] agree except inside the headers of [l]. *)
Definition same_outside (l : list blk) (m m' : mem) : Prop :=
  forall x, Forall (fun b => ~ in_hdr b x) l -> ld8 m' x = ld8 m x.

Lemma hdr_fields m m' a :
  (forall x, a <= x < a + BLOCK_HDR -> ld8 m' x = ld8 m x) ->
  blk_next m' a = blk_next m a /\ blk_size m' a = blk_size m a /\ blk_free m' a = blk_free m a.
Proof.
  unfold BLOCK_HDR. intros Hx. unfold blk_next, blk_size, blk_free.
  rewrite (ldn_ext 8 m' m a) by (intros; apply Hx; cbn in *; lia).
  rewrite (ldn_ext 8 m' m (a + 8)) by (intros; apply Hx; cbn in *; lia).
  rewrite (ldn_ext 4 m' m (a + 16)) by (intros; apply Hx; cbn in *; lia). done.
Qed.

(** Changes away from the headers leave the list alone. *)
Lemma blocks_frame m m' a l :
  blocks_at m a l ->
  (forall b x, In b l -> in_hdr b x -> ld8 m' x = ld8 m x) ->
  blocks_at m' a l.
Proof.
  intros Hb. induction Hb as [|a l Ha Hb IH]; intros Hx; [constructor|].
  destruct (hdr_fields m m' a) as (E1 & E2 & E3).
  { intros x Hin. by apply (Hx (mk_blk a (blk_size m a) (blk_free m a)) x); [left|]. }
  rewrite <- E2, <- E3. constructor; [done|]. rewrite E1. apply IH.
  intros b x Hin. apply Hx. by right.
Qed.

Lemma blocks_zero m l : blocks_at m 0 l -> l = [].
Proof. inversion 1; [done|lia]. Qed.

Lemma blocks_cons_inv m a b l : blocks_at m a (b :: l) ->
  0 < a /\ b = mk_blk a (blk_size m a) (blk_free m a) /\ blocks_at m (blk_next m a) l.
Proof. by inversion 1. Qed.

Lemma blocks_pos m a l : blocks_at m a l -> Forall (fun b => 0 < b_addr b) l.
Proof. induction 1; constructor; done. Qed.

Lemma hdr_apart_out b c x : hdr_apart b c -> in_hdr b x -> ~ in_hdr c x.
Proof. unfold hdr_apart, in_hdr. lia. Qed.

Lemma frame_apart m m' a l hs :
  blocks_at m a l -> same_outside hs m m' ->
  (forall b c, In b l -> In c hs -> hdr_apart b c) ->
  blocks_at m' a l.
Proof.
  intros Hb Hs Hap. eapply blocks_frame; [done|]. intros b x Hin Hx. apply Hs.
  apply List.Forall_forall. intros c Hc. eapply hdr_apart_out; [|done]. by apply Hap.
Qed.

Lemma same_outside_refl l m : same_outside l m m.
Proof. done. Qed.

Lemma same_outside_trans l m1 m2 m3 :
  same_outside l m1 m2 -> same_outside l m2 m3 -> same_outside l m1 m3.
Proof. intros H12 H23 x Hx. rewrite H23 by done. by apply H12. Qed.

Lemma same_outside_mono l l' m m' :
  (forall b, In b l -> exists b', In b' l' /\ b_addr b' = b_addr b) ->
  same_outside l m m' -> same_outside l' m m'.
Proof.
  intros Hl H x Hx. apply H. apply List.Forall_forall. intros b Hb.
  destruct (Hl b Hb) as (b' & Hb' & E). rewrite List.Forall_forall in Hx.
  unfold in_hdr in *. rewrite <- E. by apply Hx.
Qed.

(** ** Field updates *)

Ltac in_hdr_store :=
  let x := fresh "x" in let Hx := fresh "Hx" in
  intros x Hx; unfold set_blk_next, set_blk_size, set_blk_free; rewrite ld8_stn;
  apply List.Forall_cons_iff in Hx as [Hx _]; unfold in_hdr, BLOCK_HDR in Hx; cbn in Hx;
  in_range_cases; [cbn in *; lia | done].

Lemma set_next_outside m b v : same_outside [b] m (set_blk_next m (b_addr b) v).
Proof. in_hdr_store. Qed.
Lemma set_size_outside m b v : same_outside [b] m (set_blk_size m (b_addr b) v).
Proof. in_hdr_store. Qed.
Lemma set_free_outside m b v : same_outside [b] m (set_blk_free m (b_addr b) v).
Proof. in_hdr_store. Qed.

Lemma set_next_fields m a v : is_u64 v ->
  blk_next (set_blk_next m a v) a = v /\ blk_size (set_blk_next m a v) a = blk_size m a /\
  blk_free (set_blk_next m a v) a = blk_free m a.
Proof.
  intros Hv. unfold blk_next, blk_size, blk_free, set_blk_next.
  rewrite ld64_st64_same, !ldn_stn_other by (done || cbn; lia). done.
Qed.

Lemma set_size_fields m a v : is_u64 v ->
  blk_next (set_blk_size m a v) a = blk_next m a /\ blk_size (set_blk_size m a v) a = v /\
  blk_free (set_blk_size m a v) a = blk_free m a.
Proof.
  intros Hv. unfold blk_next, blk_size, blk_free, set_blk_size.
  rewrite ld64_st64_same, !ldn_stn_other by (done || cbn; lia). done.
Qed.

Lemma set_free_fields m a v : is_u32 v ->
  blk_next (set_blk_free m a v) a = blk_next m a /\ blk_size (set_blk_free m a v) a = blk_size m a /\
  blk_free (set_blk_free m a v) a = negb (v =? 0).
Proof.
  intros Hv. unfold blk_next, blk_size, blk_free, set_blk_free.
  rewrite ldn_stn_same, !ldn_stn_other by (cbn; lia).
  change (256 ^ Z.of_nat 4) with 4294967296. rewrite Z.mod_small by done. done.
Qed.

(** ** Searching and splicing *)

Definition fits (size : Z) (b : blk) : Prop := b_free b = true /\ size <= b_size b.

#[export] Instance fits_dec size b : Decision (fits size b).
Proof. unfold fits. apply _. Defined.

Lemma find_from_ok fuel m a l size :
  blocks_at m a l -> (length l < fuel)%nat ->
  find_from fuel m a size =
  Some (match list_find (fits size) l with Some (_, b) => b_addr b | None => 0 end).
Proof.
  intros Hb. revert fuel. induction Hb as [|a l Ha Hb IH]; intros [|fuel] Hf; cbn in Hf; try lia; [done|].
  cbn [find_from list_find]. destruct (Z.eqb_spec a 0); [lia|].
  destruct (decide _) as [[F1 F2]|Hn]; cbn in *.
  - rewrite F1, (proj2 (Z.leb_le size _)) by done. done.
  - rewrite (IH fuel) by lia.
    destruct (blk_free m a && (size <=? blk_size m a)) eqn:E.
    + apply andb_prop in E as [E1 E2%Z.leb_le]. destruct Hn. by split.
    + by destruct (list_find (fits size) l) as [[]|].
Qed.

(** Replacing the tail of the list from block [b] on. *)
Lemma blocks_splice m m' a l1 b l2 l2' :
  blocks_at m a (l1 ++ b :: l2) -> same_outside [b] m m' ->
  Forall (fun c => hdr_apart c b) l1 ->
  blocks_at m' (b_addr b) l2' -> blocks_at m' a (l1 ++ l2').
Proof.
  intros Hb Hs Hap Ht. revert a Hb. induction l1 as [|c l1 IH]; intros a Hb; cbn in *.
  - apply blocks_cons_inv in Hb as (_ & -> & _). done.
  - apply blocks_cons_inv in Hb as (Ha & -> & Hb). apply List.Forall_cons_iff in Hap as [Hc Hap].
    destruct (hdr_fields m m' a) as (E1 & E2 & E3).
    { intros x Hx. apply Hs. constructor; [|constructor]. eapply hdr_apart_out; [exact Hc|done]. }
    rewrite <- E2, <- E3. constructor; [done|]. rewrite E1. by apply IH.
Qed.

Lemma blocks_drop m a l1 b l2 :
  blocks_at m a (l1 ++ b :: l2) -> blocks_at m (b_addr b) (b :: l2).
Proof.
  revert a. induction l1 as [|c l1 IH]; intros a Hb; cbn in *.
  - apply blocks_cons_inv in Hb as (? & -> & ?). by constructor.
  - apply blocks_cons_inv in Hb as (_ & _ & Hb). by eapply IH.
Qed.

Lemma hdr_apart_sym b c : hdr_apart b c -> hdr_apart c b.
Proof. unfold hdr_apart. tauto. Qed.

Lemma hdrs_apart_app l1 l2 :
  hdrs_apart (l1 ++ l2) <->
  hdrs_apart l1 /\ hdrs_apart l2 /\ forall b c, In b l1 -> In c l2 -> hdr_apart b c.
Proof.
  induction l1 as [|b l1 IH]; cbn; [split; [intros ?; by split_and!|tauto]|].
  rewrite IH, Forall_app, !List.Forall_forall. split.
  - intros ((H1 & H2) & H3 & H4 & H5). repeat split; try done. intros ? ? [<-|]; auto.
  - intros ((H1 & H2) & H3 & H4). split; [split; [done|intros; apply H4; [by left|done]]|].
    split; [done|]. split; [done|]. intros. apply H4; [by right|done].
Qed.

Definition set_free_blk (fr : bool) (b : blk) : blk := mk_blk (b_addr b) (b_size b) fr.

(** Writing the free field of one block. *)
Lemma blocks_set_free m a l1 b l2 v :
  blocks_at m a (l1 ++ b :: l2) -> hdrs_apart (l1 ++ b :: l2) -> is_u32 v ->
  blocks_at (set_blk_free m (b_addr b) v) a (l1 ++ set_free_blk (negb (v =? 0)) b :: l2).
Proof.
  intros Hb Hap Hv. apply hdrs_apart_app in Hap as (_ & [Hb2 _] & Hap).
  pose proof (set_free_outside m b v) as Hs.
  eapply (blocks_splice m _ a l1 b l2); [done|done|..].
  - apply List.Forall_forall. intros c Hc. apply Hap; [done|by left].
  - apply blocks_drop in Hb as (Hpos & Eb & Hb)%blocks_cons_inv.
    destruct (set_free_fields m (b_addr b) v Hv) as (E1 & E2 & E3).
    destruct b as [ba bs bf]. cbn in *. injection Eb as -> ->. unfold set_free_blk. cbn.
    rewrite <- E2, <- E3. constructor; [done|]. rewrite E1.
    eapply frame_apart; [done|exact Hs|]. intros c d Hc [<-|[]].
    rewrite List.Forall_forall in Hb2. by apply hdr_apart_sym, Hb2.
Qed.

(** Appending a block behind the last one. *)
Lemma blocks_append m a l1 b nb :
  blocks_at m a (l1 ++ [b]) -> hdrs_apart (l1 ++ [b]) ->
  blocks_at m (b_addr nb) [nb] -> hdr_apart nb b -> is_u64 (b_addr nb) ->
  blocks_at (set_blk_next m (b_addr b) (b_addr nb)) a (l1 ++ [b; nb]).
Proof.
  intros Hb Hap Hnb Hapn Hu. apply hdrs_apart_app in Hap as (_ & _ & Hap).
  pose proof (set_next_outside m b (b_addr nb)) as Hs.
  eapply (blocks_splice m _ a l1 b []); [done|done|..].
  - apply List.Forall_forall. intros c Hc. apply Hap; [done|by left].
  - apply blocks_drop in Hb as (Hpos & Eb & _)%blocks_cons_inv.
    destruct (set_next_fields m (b_addr b) (b_addr nb) Hu) as (E1 & E2 & E3).
    rewrite Eb at 3. rewrite <- E2, <- E3. constructor; [done|]. rewrite E1.
    eapply frame_apart; [done|exact Hs|]. by intros c d [<-|[]] [<-|[]].
Qed.

(** ** Merging *)

(** What merging does to the abstract list: a free block absorbs the free
    blocks behind it. *)
Fixpoint merge_from (b : blk) (l : list blk) : list blk :=
  match l with
  | [] => [b]
  | c :: l' =>
      if b_free b && b_free c
      then merge_from (mk_blk (b_addr b) (b_size b +% (BLOCK_HDR +% b_size c)) true) l'
      else b :: merge_from c l'
  end.

Definition merge_list (l : list blk) : list blk :=
  match l with [] => [] | b :: l' => merge_from b l' end.

Lemma merge_from_head b l : exists b' l', merge_from b l = b' :: l' /\ b_addr b' = b_addr b.
Proof.
  revert b. induction l as [|c l IH]; intros b; cbn; [by exists b, []|].
  destruct (b_free b && b_free c); [|by exists b, (merge_from c l)].
  destruct (IH (mk_blk (b_addr b) (b_size b +% (BLOCK_HDR +% b_size c)) true)) as (b' & l' & E & Ea).
  by exists b', l'.
Qed.

(** The addresses of a merged list are among the old ones. *)
Lemma merge_from_addrs b l c : In c (merge_from b l) ->
  exists d, In d (b :: l) /\ b_addr d = b_addr c.
Proof.
  revert b. induction l as [|e l IH]; intros b; cbn [merge_from].
  - intros [<-|[]]. exists b. by split; [left|].
  - destruct (b_free b && b_free e).
    + intros Hin. destruct (IH _ Hin) as (d & [<-|Hd] & E); cbn in E.
      * exists b. by split; [left|].
      * exists d. by split; [right; right|].
    + intros [<-|Hin]; [exists b; by split; [left|]|].
      destruct (IH _ Hin) as (d & Hd & E). exists d. by split; [right|].
Qed.

Lemma hdrs_apart_addrs b l b' :
  b_addr b' = b_addr b -> Forall (hdr_apart b) l -> Forall (hdr_apart b') l.
Proof. intros E. apply List.Forall_impl. unfold hdr_apart. by rewrite E. Qed.

Lemma merge_from_apart b l : hdrs_apart (b :: l) -> hdrs_apart (merge_from b l).
Proof.
  revert b. induction l as [|c l IH]; intros b Hap; cbn [merge_from]; [done|].
  destruct Hap as [Hb [Hc Hl]]. apply List.Forall_cons_iff in Hb as [Hbc Hb].
  destruct (b_free b && b_free c).
  - apply IH. split; [by eapply hdrs_apart_addrs; [|exact Hb]|done].
  - split; [|by apply IH]. apply List.Forall_forall. intros d Hd.
    destruct (merge_from_addrs c l d Hd) as (e & He & E).
    unfold hdr_apart. rewrite <- E.
    destruct He as [<-|He]; [done|]. rewrite List.Forall_forall in Hb. by apply Hb.
Qed.

(** No two neighbours of a merged list are both free. *)
Fixpoint no_free_pair (l : list blk) : Prop :=
  match l with
  | b :: ((c :: _) as l') => ~ (b_free b = true /\ b_free c = true) /\ no_free_pair l'
  | _ => True
  end.

Lemma merge_from_normal b l : no_free_pair (merge_from b l).
Proof.
  revert b. induction l as [|c l IH]; intros b; cbn [merge_from]; [done|].
  destruct (b_free b && b_free c) eqn:E; [apply IH|].
  destruct (merge_from_head c l) as (c' & l' & Ec & Ea).
  assert (Hf : b_free b = true -> b_free c' = false).
  { intros Hb. rewrite Hb in E. cbn in E. clear -Ec E. destruct l as [|d l]; cbn in Ec.
    - by injection Ec as <- <-.
    - rewrite E in Ec. cbn in Ec. by injection Ec as <- <-. }
  pose proof (IH c) as Hn. rewrite Ec in *. cbn. split; [|done]. intros [H1 H2]. by rewrite Hf in H2.
Qed.

(** Blocks in use come through a merge unchanged. *)
Lemma merge_from_used b l c : b_free c = false -> (In c (merge_from b l) <-> In c (b :: l)).
Proof.
  intros Hc. revert b. induction l as [|d l IH]; intros b; cbn [merge_from]; [done|].
  destruct (b_free b && b_free d) eqn:E.
  - apply andb_prop in E as [E1 E2]. rewrite IH. cbn. split.
    + intros [<-|]; [done|tauto].
    + intros [<-|[<-|]]; [congruence..|tauto].
  - cbn. rewrite IH. cbn. tauto.
Qed.

(** ** Extents *)

(** The bytes a block stands for, header included. *)
Definition b_end (b : blk) : Z := b_addr b + BLOCK_HDR + b_size b.
Definition in_ext (b : blk) (x : Z) : Prop := b_addr b <= x < b_end b.

Definition size_ok (b : blk) : Prop := 0 <= b_size b /\ b_end b < 2 ^ 63.

(** Two neighbours that a merge would join touch each other. *)
Fixpoint joinable (l : list blk) : Prop :=
  match l with
  | b :: ((c :: _) as l') =>
      (b_free b = true -> b_free c = true -> b_end b = b_addr c) /\ joinable l'
  | _ => True
  end.

(** When the joined neighbours touch, merging keeps the covered bytes. *)
Lemma merge_from_ext b l : joinable (b :: l) -> Forall size_ok (b :: l) -> Forall (fun c => 0 <= b_addr c) (b :: l) ->
  (forall x, Exists (fun c => in_ext c x) (merge_from b l) <-> Exists (fun c => in_ext c x) (b :: l)) /\
  Forall size_ok (merge_from b l).
Proof.
  revert b. induction l as [|c l IH]; intros b Hj Hs Hp; cbn [merge_from]; [done|].
  destruct Hj as [Hbc Hj].
  apply List.Forall_cons_iff in Hs as [Sb Hs]. apply List.Forall_cons_iff in Hs as [Sc Hs].
  apply List.Forall_cons_iff in Hp as [Pb Hp]. apply List.Forall_cons_iff in Hp as [Pc Hp].
  destruct (b_free b && b_free c) eqn:E.
  - apply andb_prop in E as [E1 E2]. specialize (Hbc E1 E2).
    assert (Hsz : b_size b +% (BLOCK_HDR +% b_size c) = b_size b + BLOCK_HDR + b_size c).
    { unfold size_ok, b_end, BLOCK_HDR in *. rewrite !u64_small; unfold is_u64; try lia.
      rewrite u64_small; unfold is_u64; lia. }
    rewrite Hsz. set (bc := mk_blk _ _ _).
    assert (Ebc : b_end bc = b_end c) by (unfold b_end, bc, BLOCK_HDR in *; cbn in *; lia).
    destruct (IH bc) as [IH1 IH2].
    + destruct l as [|d l]; [done|]. destruct Hj as [Hcd Hj]. split; [|done].
      intros _ Hd. rewrite Ebc. by apply Hcd.
    + constructor; [|done]. unfold size_ok in *. rewrite Ebc. subst bc. unfold BLOCK_HDR in *. cbn. lia.
    + by constructor.
    + split; [|done]. intros x. rewrite IH1, !List.Exists_cons. unfold in_ext. rewrite Ebc.
      subst bc. cbn. unfold size_ok, b_end, BLOCK_HDR in *.
      split; [|tauto || (intros [?|[?|?]]; [left; lia|left; lia|by right])].
      intros [?|?]; [|tauto]. destruct (decide (x < b_addr c)); [left; lia|right; left; lia].
  - destruct (IH c Hj ltac:(by constructor) ltac:(by constructor)) as [IH1 IH2].
    split; [|by constructor]. intros x. rewrite !List.Exists_cons, IH1, List.Exists_cons. done.
Qed.

(** Blocks whose extents do not overlap. *)
Fixpoint exts_apart (l : list blk) : Prop :=
  match l with
  | [] => True
  | b :: l' => Forall (fun c => b_end b <= b_addr c \/ b_end c <= b_addr b) l' /\ exts_apart l'
  end.

Lemma merge_from_exts_apart b l :
  joinable (b :: l) -> Forall size_ok (b :: l) -> Forall (fun c => 0 <= b_addr c) (b :: l) ->
  exts_apart (b :: l) -> exts_apart (merge_from b l).
Proof.
  revert b. induction l as [|c l IH]; intros b Hj Hs Hp Ha; cbn [merge_from]; [done|].
  pose proof Hs as Hs0. pose proof Hp as Hp0. pose proof Hj as Hj0.
  destruct Hj as [Hbc Hj].
  apply List.Forall_cons_iff in Hs as [Sb Hs]. apply List.Forall_cons_iff in Hp as [Pb Hp].
  destruct Ha as [Hb [Hc Ha]]. apply List.Forall_cons_iff in Hb as [Hbc' Hb].
  destruct (b_free b && b_free c) eqn:E.
  - apply andb_prop in E as [E1 E2]. specialize (Hbc E1 E2).
    apply List.Forall_cons_iff in Hs as [Sc Hs]. apply List.Forall_cons_iff in Hp as [Pc Hp].
    assert (Hsz : b_size b +% (BLOCK_HDR +% b_size c) = b_size b + BLOCK_HDR + b_size c).
    { unfold size_ok, b_end, BLOCK_HDR in *. rewrite !u64_small; unfold is_u64; try lia.
      rewrite u64_small; unfold is_u64; lia. }
    rewrite Hsz. set (bc := mk_blk _ _ _).
    assert (Ebc : b_end bc = b_end c) by (unfold b_end, bc, BLOCK_HDR in *; cbn in *; lia).
    apply IH.
    + destruct l as [|d l]; [done|]. destruct Hj as [Hcd Hj]. split; [|done].
      intros _ Hd. rewrite Ebc. by apply Hcd.
    + constructor; [|done]. unfold size_ok in *. rewrite Ebc. subst bc. unfold BLOCK_HDR in *. cbn. lia.
    + by constructor.
    + split; [|done]. rewrite Ebc. apply List.Forall_forall. intros d Hd.
      rewrite List.Forall_forall in Hb, Hc, Hs. specialize (Hb d Hd). specialize (Hc d Hd). specialize (Hs d Hd).
      subst bc. cbn. unfold size_ok, b_end, BLOCK_HDR in *. lia.
  - split; [|by apply IH]. apply List.Forall_forall. intros d Hd.
    destruct (merge_from_ext c l Hj Hs Hp) as [Hx Hsz].
    rewrite List.Forall_forall in Hsz. pose proof (Hsz d Hd) as Sd.
    destruct (decide (b_end b <= b_addr d)); [by left|]. destruct (decide (b_end d <= b_addr b)); [by right|].
    exfalso. set (x := Z.max (b_addr b) (b_addr d)).
    assert (Hin : Exists (fun e => in_ext e x) (merge_from c l)).
    { apply List.Exists_exists. exists d. split; [done|]. unfold in_ext, x, size_ok, b_end, BLOCK_HDR in *. lia. }
    apply Hx in Hin. apply List.Exists_exists in Hin as (e & He & Hxe).
    assert (Hbe : b_end b <= b_addr e \/ b_end e <= b_addr b).
    { destruct He as [<-|He]; [done|]. rewrite List.Forall_forall in Hb. by apply Hb. }
    unfold in_ext, x, size_ok, b_end, BLOCK_HDR in *. lia.
Qed.

Lemma blocks_nil_next m a : blocks_at m a [] -> a = 0.
Proof. by inversion 1. Qed.
