(* ===== verification/Kmalloc.v ===== *)
(** * Kernel heap (src/kmalloc.c)

    The block headers live in physical memory ([mach] of Vmm.v: bytes and
    page allocator); [g_heap] and [g_last] are the two static variables.
    Loops over the block list take fuel; more fuel than blocks is enough. *)

From stdpp Require Import prelude list.
From Stdlib Require Import ZArith Lia.
From S2P Require Import Prelude Lib Alloc Blocks Pmm Vmm.
#[local] Open Scope Z_scope.
#[local] Open Scope cint_scope.

Section kmalloc_def.
Context {A : Type} `{PageOps A}.

Record kheap := mk_kheap { k_mach : mach A; g_heap : Z; g_last : Z }.

Definition km_mem (h : kheap) : mem := m_mem (k_mach h).
Definition km_set_mem (h : kheap) (m : mem) : kheap :=
  mk_kheap (set_mem (k_mach h) m) (g_heap h) (g_last h).

Definition kmalloc_init (h : kheap) : kheap := mk_kheap (k_mach h) 0 0.

Definition request_space (h : kheap) (size : Z) : Z * kheap :=
  let total := BLOCK_HDR +% size in
  let pages := (total +% PAGE_SIZE -% 1) / PAGE_SIZE in
  let '(pa, pg) := pa_alloc (m_pages (k_mach h)) pages in
  let h := mk_kheap (set_pages (k_mach h) pg) (g_heap h) (g_last h) in
  if pa =? 0 then (0, h)
  else
    let m := mem_fill (km_mem h) pa 0 (pages *% PAGE_SIZE) in
    let block := pa in
    let m := set_blk_size m block ((pages *% PAGE_SIZE) -% BLOCK_HDR) in
    let m := set_blk_free m block 0 in
    let m := set_blk_next m block 0 in
    let m := if negb (g_last h =? 0) then set_blk_next m (g_last h) block else m in
    (block, mk_kheap (set_mem (k_mach h) m) (if g_heap h =? 0 then block else g_heap h) block).

Definition find_block (fuel : nat) (h : kheap) (size : Z) : option Z :=
  find_from fuel (km_mem h) (g_heap h) size.

Definition kmalloc (fuel : nat) (h : kheap) (size : Z) : option (Z * kheap) :=
  if size =? 0 then Some (0, h)
  else
    let size := align_up_u64 size 16 in
    match find_block fuel h size with
    | None => None
    | Some block =>
        if block =? 0 then
          let '(block, h) := request_space h size in
          if block =? 0 then Some (0, h) else Some (block +% BLOCK_HDR, h)
        else
          let h := km_set_mem h (set_blk_free (km_mem h) block 0) in
          Some (block +% BLOCK_HDR, h)
    end.

Fixpoint merge_loop (fuel : nat) (m : mem) (last_ cur : Z) : option (mem * Z) :=
  match fuel with
  | O => None
  | S f =>
      if (cur =? 0) || (blk_next m cur =? 0) then Some (m, last_)
      else
        let next := blk_next m cur in
        if blk_free m cur && blk_free m next then
          let m := set_blk_size m cur (blk_size m cur +% (BLOCK_HDR +% blk_size m next)) in
          let m := set_blk_next m cur (blk_next m (blk_next m cur)) in
          merge_loop f m (if blk_next m cur =? 0 then cur else last_) cur
        else merge_loop f m last_ next
  end.

Definition merge_free_blocks (fuel : nat) (h : kheap) : option kheap :=
  match merge_loop fuel (km_mem h) (g_last h) (g_heap h) with
  | None => None
  | Some (m, last_) => Some (mk_kheap (set_mem (k_mach h) m) (g_heap h) last_)
  end.

Definition kfree (fuel : nat) (h : kheap) (ptr : Z) : option kheap :=
  if ptr =? 0 then Some h
  else
    let block := ptr -% BLOCK_HDR in
    let h := km_set_mem h (set_blk_free (km_mem h) block 1) in
    merge_free_blocks fuel h.
End kmalloc_def.

Arguments kheap A : clear implicits.

(** ** The merge loop *)

Lemma last_addr_cons b c l : last_addr (b :: c :: l) = last_addr (c :: l).
Proof. done. Qed.

Lemma last_addr_eq b b' l : b_addr b = b_addr b' -> last_addr (b :: l) = last_addr (b' :: l).
Proof. intros E. destruct l; [|done]. cbn. done. Qed.

(** One absorption step on memory. *)
Lemma absorb_step m b c l :
  blocks_at m (b_addr b) (b :: c :: l) -> hdrs_apart (b :: c :: l) ->
  b_free b = true -> b_free c = true ->
  let m1 := set_blk_size m (b_addr b) (b_size b +% (BLOCK_HDR +% b_size c)) in
  let m2 := set_blk_next m1 (b_addr b) (blk_next m1 (blk_next m1 (b_addr b))) in
  let bc := mk_blk (b_addr b) (b_size b +% (BLOCK_HDR +% b_size c)) true in
  blocks_at m2 (b_addr b) (bc :: l) /\ same_outside [b] m m2 /\
  blk_next m2 (b_addr b) = blk_next m (b_addr c).
Proof.
  intros Hb Hap Fb Fc. cbv zeta.
  apply blocks_cons_inv in Hb as (Pb & Eb & Hb).
  pose proof Hb as (Pc & Ec & Hl)%blocks_cons_inv.
  set (a := b_addr b) in *. set (v := b_size b +% _).
  assert (Hv : is_u64 v) by apply u64_range.
  destruct (set_size_fields m a v Hv) as (E1 & E2 & E3).
  set (m1 := set_blk_size m a v) in *.
  pose proof (set_size_outside m b v) as S1. fold a in S1. fold m1 in S1.
  assert (Ecn : blk_next m a = b_addr c) by (by rewrite Ec).
  destruct Hap as [Hb1 [Hc Hap]]. apply List.Forall_cons_iff in Hb1 as [Hbc Hbl].
  assert (En : blk_next m1 (blk_next m1 a) = blk_next m (b_addr c)).
  { rewrite E1, Ecn. apply hdr_fields. intros x Hx. apply S1. constructor; [|constructor].
    eapply hdr_apart_out; [apply hdr_apart_sym; exact Hbc|exact Hx]. }
  rewrite En. set (nn := blk_next m (b_addr c)) in *.
  assert (Hnn : is_u64 nn) by apply ld64_range.
  destruct (set_next_fields m1 a nn Hnn) as (G1 & G2 & G3).
  pose proof (set_next_outside m1 b nn) as S2. fold a in S2.
  pose proof (same_outside_trans _ _ _ _ S1 S2) as S12.
  split; [|split; [done|done]].
  assert (Fa : blk_free m a = true) by (by rewrite Eb in Fb).
  assert (Ebk : mk_blk a v true = mk_blk a (blk_size (set_blk_next m1 a nn) a) (blk_free (set_blk_next m1 a nn) a))
    by (by rewrite G2, G3, E2, E3, Fa).
  rewrite Ebk. constructor; [done|]. rewrite G1.
  eapply frame_apart; [|exact S12|].
  - unfold nn. rewrite <- Ecn. exact Hl.
  - intros d e Hd [<-|[]]. rewrite List.Forall_forall in Hbl. by apply hdr_apart_sym, Hbl.
Qed.

Lemma merge_loop_ok l : forall fuel m b,
  blocks_at m (b_addr b) (b :: l) -> hdrs_apart (b :: l) -> (length l < fuel)%nat ->
  exists m', merge_loop fuel m (last_addr (b :: l)) (b_addr b) = Some (m', last_addr (merge_from b l)) /\
    blocks_at m' (b_addr b) (merge_from b l) /\ same_outside (b :: l) m m'.
Proof.
  induction l as [|c l IH]; intros [|fuel] m b Hb Hap Hf; cbn [length] in Hf; try lia.
  - pose proof Hb as (Pb & _ & Hz)%blocks_cons_inv. cbn [merge_loop merge_from].
    assert (Hn : blk_next m (b_addr b) = 0) by (by inversion Hz).
    rewrite Hn, orb_true_r. exists m. done.
  - pose proof Hb as (Pb & Eb & Hc)%blocks_cons_inv.
    pose proof Hc as (Pc & Ec & _)%blocks_cons_inv.
    assert (Ecn : blk_next m (b_addr b) = b_addr c) by (by rewrite Ec).
    rewrite Ecn in Ec, Hc. cbn [merge_loop merge_from]. rewrite Ecn.
    destruct (Z.eqb_spec (b_addr b) 0); [lia|]. destruct (Z.eqb_spec (b_addr c) 0); [lia|].
    cbn [orb].
    assert (blk_free m (b_addr b) = b_free b) as -> by (by rewrite Eb).
    assert (blk_free m (b_addr c) = b_free c) as -> by (by rewrite Ec).
    assert (blk_size m (b_addr b) = b_size b) as -> by (by rewrite Eb).
    assert (blk_size m (b_addr c) = b_size c) as -> by (by rewrite Ec).
    pose proof Hap as [Hbl [Hcl Hapl]]. apply List.Forall_cons_iff in Hbl as [Hbc Hbl].
    destruct (b_free b && b_free c) eqn:E.
    + apply andb_prop in E as [E1 E2].
      destruct (absorb_step m b c l Hb Hap E1 E2) as (Hb2 & S2 & En2). cbv zeta in *.
      set (m1 := set_blk_size m _ _) in *. set (m2 := set_blk_next m1 _ _) in *.
      set (bc := mk_blk (b_addr b) (b_size b +% (BLOCK_HDR +% b_size c)) true) in *. rewrite En2.
      assert (Hlast : (if blk_next m (b_addr c) =? 0 then b_addr b else last_addr (b :: c :: l)) = last_addr (bc :: l)).
      { rewrite <- En2. pose proof Hb2 as (_ & _ & Hl)%blocks_cons_inv. destruct l as [|d l].
        - apply blocks_nil_next in Hl. by rewrite Hl.
        - pose proof Hl as (Pd & Ed & _)%blocks_cons_inv.
          destruct (Z.eqb_spec (blk_next m2 (b_addr b)) 0); [cbn in *; lia|done]. }
      rewrite Hlast. change (b_addr b) with (b_addr bc) at 2.
      destruct (IH fuel m2 bc Hb2) as (m' & Em & Hm & Sm); [|lia|].
      { split; [by eapply hdrs_apart_addrs; [|exact Hbl]|done]. }
      exists m'. split; [exact Em|]. split; [exact Hm|].
      eapply same_outside_trans; (eapply same_outside_mono; [|done]).
      * intros d [<-|[]]. exists b. by split; [left|].
      * intros d [<-|Hd]; [exists b; by split; [left|]|exists d; by split; [right; right|]].
    + rewrite last_addr_cons.
      destruct (IH fuel m c) as (m' & Em & Hm & Sm); [done|done|lia|].
      destruct (merge_from_head c l) as (c' & l' & Eh & _).
      exists m'. split; [rewrite Em, Eh; done|]. split.
      * destruct (hdr_fields m m' (b_addr b)) as (F1 & F2 & F3).
        { intros x Hx. apply Sm. apply List.Forall_forall. intros d Hd. eapply hdr_apart_out; [|exact Hx].
          destruct Hd as [<-|Hd]; [done|]. rewrite List.Forall_forall in Hbl. by apply Hbl. }
        rewrite Eb at 2. rewrite <- F2, <- F3. constructor; [done|]. by rewrite F1, Ecn.
      * eapply same_outside_mono; [|done]. intros d Hd. exists d. by split; [right|].
Qed.

(** ** The heap invariant *)

Section kmalloc_facts.
Context {A : Type} `{PageLaws A}.
Implicit Types (h : kheap A).

(** The list in memory is [l]; every header is at the start of an
    allocated page and no block is listed twice. *)
Record kheap_ok (h : kheap A) (l : list blk) : Prop := {
  kk_pages : pa_wf (m_pages (k_mach h));
  kk_blocks : blocks_at (km_mem h) (g_heap h) l;
  kk_last : g_last h = last_addr l;
  kk_page b : In b l -> b_addr b mod 4096 = 0 /\ 0 < b_addr b /\
    b_addr b / 4096 < pa_total (m_pages (k_mach h)) /\
    pa_isfree (m_pages (k_mach h)) (b_addr b / 4096) = false;
  kk_nodup : NoDup (b_addr <$> l)
}.

Lemma pages_hdr_apart b c :
  b_addr b mod 4096 = 0 -> b_addr c mod 4096 = 0 -> b_addr b <> b_addr c -> hdr_apart b c.
Proof. unfold hdr_apart, BLOCK_HDR. intros. Z.div_mod_to_equations; lia. Qed.

Lemma aligned_hdrs_apart l :
  (forall b, In b l -> b_addr b mod 4096 = 0) -> NoDup (b_addr <$> l) -> hdrs_apart l.
Proof.
  induction l as [|b l IH]; intros Hal Hnd; [done|]. cbn in Hnd. apply NoDup_cons in Hnd as [Hb Hnd].
  split; [|apply IH; [intros; apply Hal; by right|done]].
  apply List.Forall_forall. intros c Hc. apply pages_hdr_apart; [apply Hal; by left|apply Hal; by right|].
  intros E. apply Hb. rewrite E. apply list_elem_of_fmap. exists c. split; [done|].
  by apply list_elem_of_In.
Qed.

Lemma kheap_apart h l : kheap_ok h l -> hdrs_apart l.
Proof.
  intros K. apply aligned_hdrs_apart; [|apply (kk_nodup _ _ K)].
  intros b Hb. apply (kk_page _ _ K b Hb).
Qed.

(** Changing only the free mark of a block. *)
Lemma kheap_set_free h l i b v :
  kheap_ok h l -> l !! i = Some b -> is_u32 v ->
  let l' := <[i := set_free_blk (negb (v =? 0)) b]> l in
  kheap_ok (km_set_mem h (set_blk_free (km_mem h) (b_addr b) v)) l' /\
  same_outside [b] (km_mem h) (set_blk_free (km_mem h) (b_addr b) v) /\
  last_addr l' = last_addr l.
Proof.
  intros K Hi Hv. cbv zeta. pose proof (kheap_apart h l K) as Hap.
  assert (Hlen : (i < length l)%nat) by (by eapply lookup_lt_Some).
  pose proof (take_drop_middle l i b Hi) as El.
  assert (Hb := kk_blocks _ _ K).
  assert (Eaddr : b_addr <$> <[i := set_free_blk (negb (v =? 0)) b]> l = b_addr <$> l).
  { rewrite list_fmap_insert. apply list_insert_id. rewrite list_lookup_fmap, Hi. done. }
  assert (Elast : last_addr (<[i := set_free_blk (negb (v =? 0)) b]> l) = last_addr l).
  { unfold last_addr. revert Eaddr. generalize (<[i := set_free_blk (negb (v =? 0)) b]> l). intros l' E'.
    apply (f_equal last) in E'. rewrite !fmap_last in E'. destruct (last l'), (last l); cbn in *; congruence. }
  split; [|split; [apply set_free_outside|done]].
  constructor; cbn.
  - apply (kk_pages _ _ K).
  - rewrite (insert_take_drop l i _ Hlen). apply blocks_set_free; [by rewrite El|by rewrite El|done].
  - rewrite Elast. apply (kk_last _ _ K).
  - intros c Hc. apply list_elem_of_In in Hc. apply (list_elem_of_fmap_2 b_addr) in Hc.
    rewrite Eaddr in Hc. apply list_elem_of_fmap in Hc as (d & -> & Hd). apply (kk_page _ _ K).
    by apply list_elem_of_In.
  - rewrite Eaddr. apply (kk_nodup _ _ K).
Qed.

(** [kfree] on the [i]-th block. *)
Lemma kfree_ok fuel h l i b :
  kheap_ok h l -> l !! i = Some b -> (length l <= fuel)%nat ->
  exists h', kfree fuel h (b_addr b + 24) = Some h' /\
    kheap_ok h' (merge_list (<[i := set_free_blk true b]> l)) /\
    m_pages (k_mach h') = m_pages (k_mach h) /\
    same_outside l (km_mem h) (km_mem h').
Proof.
  intros K Hi Hf.
  pose proof (pa_total_bound _ (kk_pages _ _ K)) as Ht.
  assert (Hin : In b l) by (apply list_elem_of_In; by eapply list_elem_of_lookup_2).
  destruct (kk_page _ _ K b Hin) as (Hm & H0' & Hbt & _).
  assert (b_addr b < 2 ^ 33) by (Z.div_mod_to_equations; lia).
  unfold kfree. destruct (Z.eqb_spec (b_addr b + 24) 0); [lia|].
  replace ((b_addr b + 24) -% BLOCK_HDR) with (b_addr b)
    by (unfold BLOCK_HDR; rewrite u64_small; [lia|unfold is_u64; lia]).
  destruct (kheap_set_free h l i b 1 K Hi ltac:(done)) as (K1 & S1 & El). cbn [Z.eqb negb] in *.
  set (h1 := km_set_mem h _) in *. set (l1 := <[i := _]> l) in *.
  assert (Hl1 : length l1 = length l) by apply length_insert.
  pose proof (kheap_apart h1 l1 K1) as Hap.
  destruct l1 as [|b1 l1'] eqn:El1; [apply lookup_lt_Some in Hi; cbn in Hl1; lia|].
  unfold merge_free_blocks.
  pose proof (kk_blocks _ _ K1) as Hb1.
  assert (Eh : g_heap h1 = b_addr b1) by (apply blocks_cons_inv in Hb1 as (_ & -> & _); done).
  rewrite Eh in Hb1 |- *. rewrite (kk_last _ _ K1).
  destruct (merge_loop_ok l1' fuel (km_mem h1) b1 Hb1 Hap) as (m' & Em & Hm' & Sm); [cbn in Hl1; lia|].
  rewrite Em. eexists. split; [done|]. cbn [merge_list]. split; [|split].
  - constructor; cbn.
    + apply (kk_pages _ _ K1).
    + exact Hm'.
    + done.
    + intros c Hc. destruct (merge_from_addrs b1 l1' c Hc) as (d & Hd & <-).
      apply (kk_page _ _ K1 d Hd).
    + assert (Hsub : b_addr <$> merge_from b1 l1' `sublist_of` b_addr <$> (b1 :: l1')).
      { clear. revert b1. induction l1' as [|c l IH]; intros b; cbn [merge_from]; [done|].
        destruct (b_free b && b_free c).
        - etrans; [apply IH|]. cbn. apply sublist_skip. by apply sublist_cons.
        - cbn. apply sublist_skip. apply IH. }
      eapply sublist_NoDup; [|exact Hsub]. apply (kk_nodup _ _ K1).
  - done.
  - cbn. eapply same_outside_trans.
    + eapply same_outside_mono; [|exact S1]. intros d [<-|[]]. exists b. done.
    + eapply same_outside_mono; [|exact Sm]. intros d Hd.
      assert (Hx : b_addr d ∈ b_addr <$> (<[i := set_free_blk true b]> l)).
      { fold l1. rewrite El1. apply (list_elem_of_fmap_2 b_addr). by apply list_elem_of_In. }
      rewrite list_fmap_insert, list_insert_id in Hx by (rewrite list_lookup_fmap, Hi; done).
      apply list_elem_of_fmap in Hx as (e & He & Hel). exists e. split; [by apply list_elem_of_In|done].
Qed.

Lemma k_outside h l b x :
  kheap_ok h l -> In b l -> pa_isfree (m_pages (k_mach h)) (x / 4096) = true -> ~ in_hdr b x.
Proof.
  intros K Hb Hx Hin. destruct (kk_page _ _ K b Hb) as (Hm & _ & _ & Hu).
  unfold in_hdr, BLOCK_HDR in Hin.
  assert (x / 4096 = b_addr b / 4096) by (Z.div_mod_to_equations; lia). congruence.
Qed.

(** The memory after the header of a fresh block has been written. *)
Definition fresh_block (m : mem) (pa n : Z) : mem :=
  set_blk_next (set_blk_free (set_blk_size (mem_fill m pa 0 (n * 4096)) pa (n * 4096 - 24)) pa 0) pa 0.

Lemma fresh_block_ok m pa n : 0 < pa -> 0 < n < 2 ^ 32 ->
  blocks_at (fresh_block m pa n) pa [mk_blk pa (n * 4096 - 24) false] /\
  (forall x, ~ pa <= x < pa + n * 4096 -> ld8 (fresh_block m pa n) x = ld8 m x) /\
  (forall x, pa + 24 <= x < pa + n * 4096 -> ld8 (fresh_block m pa n) x = 0).
Proof.
  intros Hpa Hn. unfold fresh_block. set (m0 := mem_fill m pa 0 (n * 4096)).
  destruct (set_size_fields m0 pa (n * 4096 - 24)) as (A1 & A2 & A3); [unfold is_u64; lia|].
  set (m1 := set_blk_size m0 pa (n * 4096 - 24)) in *.
  destruct (set_free_fields m1 pa 0) as (B1 & B2 & B3); [done|]. set (m2 := set_blk_free m1 pa 0) in *.
  destruct (set_next_fields m2 pa 0) as (C1 & C2 & C3); [done|]. set (m3 := set_blk_next m2 pa 0) in *.
  assert (S : same_outside [mk_blk pa 0 true] m0 m3).
  { eapply same_outside_trans; [exact (set_size_outside m0 (mk_blk pa 0 true) (n * 4096 - 24))|].
    eapply same_outside_trans; [exact (set_free_outside m1 (mk_blk pa 0 true) 0)|].
    exact (set_next_outside m2 (mk_blk pa 0 true) 0). }
  assert (Sx : forall x, ~ pa <= x < pa + 24 -> ld8 m3 x = ld8 m0 x).
  { intros x Hx. apply S. constructor; [|constructor]. unfold in_hdr, BLOCK_HDR. cbn. lia. }
  split; [|split].
  - rewrite <- A2, <- B2, <- C2. change false with (negb (0 =? 0)). rewrite <- B3, <- C3.
    constructor; [done|]. rewrite C1. constructor.
  - intros x Hx. rewrite Sx by lia. unfold m0. rewrite ld8_fill. in_range_cases; [lia|done].
  - intros x Hx. rewrite Sx by lia. unfold m0. rewrite ld8_fill. in_range_cases; [done|lia].
Qed.

(** Outcome of [request_space]: nothing, or a fresh block behind the list. *)
Definition fresh_result (h : kheap A) (l : list blk) (n r : Z) (h' : kheap A) : Prop :=
  kheap_ok h' (l ++ [mk_blk r (n * 4096 - 24) false]) /\
  (forall i, r / 4096 <= i < r / 4096 + n -> pa_isfree (m_pages (k_mach h)) i = true) /\
  (forall i, 0 <= i -> pa_isfree (m_pages (k_mach h')) i =
     pa_isfree (m_pages (k_mach h)) i && negb ((r / 4096 <=? i) && (i <? r / 4096 + n))) /\
  (forall x, r + 24 <= x < r + n * 4096 -> ld8 (km_mem h') x = 0) /\
  (forall x, 0 <= x -> pa_isfree (m_pages (k_mach h)) (x / 4096) = false ->
     Forall (fun b => ~ in_hdr b x) l -> ld8 (km_mem h') x = ld8 (km_mem h) x) /\
  r mod 4096 = 0 /\ r / 4096 + n <= pa_total (m_pages (k_mach h)) /\
  pa_total (m_pages (k_mach h')) = pa_total (m_pages (k_mach h)).

Lemma last_addr_app l b : last_addr (l ++ [b]) = b_addr b.
Proof. unfold last_addr. by rewrite last_snoc. Qed.

Lemma request_space_ok h l size r h' :
  kheap_ok h l -> 0 <= size <= 2 ^ 62 ->
  request_space h size = (r, h') ->
  let n := (24 + size + 4095) / 4096 in
  (r = 0 /\ h' = h /\ fst (pa_alloc (m_pages (k_mach h)) n) = 0) \/
  (r <> 0 /\ size <= n * 4096 - 24 /\ fresh_result h l n r h').
Proof.
  intros K Hs. cbv zeta. unfold request_space, PAGE_SIZE.
  rewrite (u64_small (BLOCK_HDR + size)) by (unfold is_u64, BLOCK_HDR; lia).
  rewrite (u64_small (BLOCK_HDR + size + 4096)) by (unfold is_u64, BLOCK_HDR; lia).
  rewrite (u64_small (BLOCK_HDR + size + 4096 - 1)) by (unfold is_u64, BLOCK_HDR; lia).
  replace (BLOCK_HDR + size + 4096 - 1) with (24 + size + 4095) by (unfold BLOCK_HDR; lia).
  set (n := (24 + size + 4095) / 4096).
  assert (Hn : 0 < n < 2 ^ 51 /\ size + 24 <= n * 4096) by (unfold n; Z.div_mod_to_equations; lia).
  destruct (pa_alloc (m_pages (k_mach h)) n) as [pa pg] eqn:Ea.
  pose proof (kk_pages _ _ K) as Hpg.
  destruct (Z.eqb_spec pa 0) as [->|Hpa]; intros [= <- <-].
  { left. split; [done|]. split; [|done].
    rewrite (pa_alloc_fail _ n pg Hpg ltac:(lia) Ea). by destruct h as [[] ? ?]. }
  right. split; [done|]. split; [lia|].
  destruct (pa_alloc_ok _ n pa pg Hpg ltac:(lia) Ea Hpa) as (W & T & _ & p & Epa & Hp & Hpt & Hfree & Hupd).
  pose proof (pa_total_bound _ Hpg) as Htb. unfold PAGE_SIZE in Epa.
  assert (Hd : pa / 4096 = p) by (rewrite Epa; apply Z.div_mul; lia).
  assert (Hmod : pa mod 4096 = 0) by (rewrite Epa; apply Z.mod_mul; lia).
  cbn [k_mach set_pages km_mem m_mem g_heap g_last].
  rewrite (u64_small (n * 4096)) by (unfold is_u64; lia).
  rewrite (u64_small (n * 4096 - BLOCK_HDR)) by (unfold is_u64, BLOCK_HDR; lia).
  change (n * 4096 - BLOCK_HDR) with (n * 4096 - 24).
  fold (km_mem h). fold (fresh_block (km_mem h) pa n).
  destruct (fresh_block_ok (km_mem h) pa n ltac:(lia) ltac:(lia)) as (Hnb & Hout & Hzero).
  set (m3 := fresh_block (km_mem h) pa n) in *. set (nb := mk_blk pa (n * 4096 - 24) false) in *.
  assert (Huse : forall x, 0 <= x -> pa_isfree (m_pages (k_mach h)) (x / 4096) = false -> ld8 m3 x = ld8 (km_mem h) x).
  { intros x Hx Hu. apply Hout. intros Hin. rewrite Hfree in Hu; [done|]. Z.div_mod_to_equations; lia. }
  assert (Hl3 : blocks_at m3 (g_heap h) l).
  { eapply blocks_frame; [apply (kk_blocks _ _ K)|]. intros b x Hb Hx.
    destruct (kk_page _ _ K b Hb) as (Hm & H0' & _ & Hu). unfold in_hdr, BLOCK_HDR in Hx.
    apply Huse; [lia|]. replace (x / 4096) with (b_addr b / 4096); [done|]. Z.div_mod_to_equations; lia. }
  assert (Hnew : forall b, In b l -> b_addr b <> pa).
  { intros b Hb E. destruct (kk_page _ _ K b Hb) as (_ & _ & _ & Hu). rewrite E, Hfree in Hu; [done|lia]. }
  set (m4 := if negb (g_last h =? 0) then set_blk_next m3 (g_last h) pa else m3).
  assert (H4 : blocks_at m4 (if g_heap h =? 0 then pa else g_heap h) (l ++ [nb]) /\ same_outside l m3 m4).
  { unfold m4. rewrite (kk_last _ _ K). destruct l as [|b0 l0 _] using rev_ind.
    - apply blocks_nil_next in Hl3 as ->. cbn. split; [exact Hnb|done].
    - rewrite last_addr_app.
      assert (Hb0 : In b0 (l0 ++ [b0])) by (apply List.in_or_app; right; by left).
      destruct (kk_page _ _ K b0 Hb0) as (Hm0 & Hp0 & _ & _).
      destruct (Z.eqb_spec (b_addr b0) 0); [lia|]. cbn [negb].
      assert (g_heap h <> 0).
      { intros E. rewrite E in Hl3. apply blocks_zero in Hl3. by destruct l0. }
      destruct (Z.eqb_spec (g_heap h) 0); [done|]. rewrite <- app_assoc. cbn [app]. split.
      + apply (blocks_append m3 (g_heap h) l0 b0 nb); [done|by eapply kheap_apart|done| |unfold is_u64; cbn; lia].
        apply pages_hdr_apart; [done|done|]. cbn. intros E. by destruct (Hnew b0 Hb0).
      + eapply same_outside_mono; [|apply set_next_outside]. intros d [<-|[]]. by exists b0. }
  destruct H4 as [Hb4 S4].
  split; [|split; [|split; [|split; [|split; [|split; [|split]]]]]].
  - constructor; cbn.
    + done.
    + exact Hb4.
    + by rewrite last_addr_app.
    + intros b Hb. apply List.in_app_or in Hb as [Hb|[<-|[]]].
      * destruct (kk_page _ _ K b Hb) as (? & ? & ? & Hu). rewrite T. repeat (split; [done|]).
        rewrite Hupd, Hu by (apply Z.div_pos; lia). done.
      * cbn. rewrite T, Hd. repeat (split; [lia|]). rewrite Hupd by lia.
        replace ((p <=? p) && (p <? p + n)) with true by lia. apply andb_false_r.
    + rewrite fmap_app. apply NoDup_app. split; [apply (kk_nodup _ _ K)|].
      split; [|apply NoDup_singleton]. intros x Hx Hx'. cbn in Hx'.
      apply list_elem_of_singleton in Hx' as ->. apply list_elem_of_fmap in Hx as (b & Eb & Hb).
      apply list_elem_of_In in Hb. by destruct (Hnew b Hb).
  - rewrite Hd. done.
  - intros i Hi. cbn. rewrite Hd. by apply Hupd.
  - intros x Hx. cbn. rewrite S4; [by apply Hzero|]. apply List.Forall_forall. intros b Hb.
    apply (k_outside h l b x K Hb). apply Hfree. Z.div_mod_to_equations; lia.
  - intros x Hx Hu Hh. cbn. rewrite S4 by done. by apply Huse.
  - done.
  - rewrite Hd. done.
  - done.
Qed.

Definition up16 (n : Z) : Z := (n + 15) / 16 * 16.

Lemma up16_align n : 0 <= n <= 2 ^ 61 -> align_up_u64 n 16 = up16 n.
Proof.
  intros Hn. change 16 with (2 ^ 4) at 1. rewrite align_up_pow2; [|cint..].
  unfold up16. change (2 ^ 4) with 16. do 2 f_equal. lia.
Qed.

Lemma up16_ge n : n <= up16 n < n + 16.
Proof. unfold up16. Z.div_mod_to_equations; lia. Qed.

(** What [kmalloc] does to the list, for a request of [n > 0] bytes. *)
Definition kmalloc_result (h : kheap A) (l : list blk) (n r : Z) (h' : kheap A) : Prop :=
  match list_find (fits (up16 n)) l with
  | Some (i, b) =>
      r = b_addr b + 24 /\ kheap_ok h' (<[i := set_free_blk false b]> l) /\
      m_pages (k_mach h') = m_pages (k_mach h) /\ same_outside [b] (km_mem h) (km_mem h')
  | None =>
      let pages := (24 + up16 n + 4095) / 4096 in
      (r = 0 /\ h' = h /\ fst (pa_alloc (m_pages (k_mach h)) pages) = 0) \/
      (up16 n <= pages * 4096 - 24 /\ r - 24 <> 0 /\ fresh_result h l pages (r - 24) h')
  end.

Lemma kmalloc_ok fuel h l n :
  kheap_ok h l -> (length l < fuel)%nat -> 0 < n <= 2 ^ 61 ->
  exists r h', kmalloc fuel h n = Some (r, h') /\ kmalloc_result h l n r h'.
Proof.
  intros K Hf Hn. unfold kmalloc, kmalloc_result. destruct (Z.eqb_spec n 0); [lia|].
  rewrite up16_align by lia. pose proof (up16_ge n) as Hup. unfold find_block.
  rewrite (find_from_ok fuel _ _ l) by (done || apply (kk_blocks _ _ K)).
  pose proof (pa_total_bound _ (kk_pages _ _ K)) as Ht.
  assert (Hadd : forall b, In b l -> b_addr b +% BLOCK_HDR = b_addr b + 24 /\ 0 < b_addr b).
  { intros b Hb. destruct (kk_page _ _ K b Hb) as (? & ? & ? & _). unfold BLOCK_HDR.
    rewrite u64_small; [done|]. unfold is_u64. Z.div_mod_to_equations; lia. }
  destruct (list_find (fits (up16 n)) l) as [[i b]|] eqn:Ef.
  - apply list_find_Some in Ef as (Hi & _ & _).
    destruct (Hadd b) as [E1 E2]; [apply list_elem_of_In; by eapply list_elem_of_lookup_2|].
    destruct (Z.eqb_spec (b_addr b) 0); [lia|]. rewrite E1.
    destruct (kheap_set_free h l i b 0 K Hi ltac:(done)) as (K1 & S1 & _).
    eexists _, _. split; [done|]. done.
  - cbn [Z.eqb]. destruct (request_space h (up16 n)) as [r h'] eqn:Er.
    destruct (request_space_ok h l (up16 n) r h' K ltac:(lia) Er) as [(-> & -> & Ho)|(Hr & Hsz & R)].
    + cbn. eexists _, _. split; [done|]. left. done.
    + destruct (Z.eqb_spec r 0); [done|].
      assert (Er24 : r +% BLOCK_HDR = r + 24).
      { destruct R as (K' & _ & _ & _ & _ & _ & Rt & _). unfold BLOCK_HDR. apply u64_small.
        destruct (kk_page _ _ K' (mk_blk r ((24 + up16 n + 4095) / 4096 * 4096 - 24) false)) as (_ & Hp & _).
        { apply List.in_or_app. right. by left. }
        cbn in Hp. unfold is_u64. Z.div_mod_to_equations; lia. }
      rewrite Er24. eexists _, _. split; [done|]. right.
      replace (r + 24 - 24) with r by lia. done.
Qed.

(** ** Ownership *)

(** Beyond the list structure: the extents of the blocks are disjoint and
    lie in allocated pages. *)
Record kheap_owned (h : kheap A) (l : list blk) : Prop := {
  ko_ok : kheap_ok h l;
  ko_size : Forall size_ok l;
  ko_apart : exts_apart l;
  ko_pages x : 0 <= x -> Exists (fun b => in_ext b x) l ->
    pa_isfree (m_pages (k_mach h)) (x / 4096) = false
}.

(** The extents do not depend on the free marks. *)
Lemma exts_set_free l i b fr : l !! i = Some b -> Forall size_ok l -> exts_apart l ->
  let l' := <[i := set_free_blk fr b]> l in
  Forall size_ok l' /\ exts_apart l' /\
  forall x, Exists (fun c => in_ext c x) l' <-> Exists (fun c => in_ext c x) l.
Proof.
  revert i. induction l as [|c l IH]; intros [|i] Hi Hs Ha; cbn in *; try done.
  - injection Hi as ->. apply List.Forall_cons_iff in Hs as [Sb Hs]. split; [by constructor|].
    split; [done|]. intros x. by rewrite !List.Exists_cons.
  - apply List.Forall_cons_iff in Hs as [Sc Hs]. destruct Ha as [Hc Ha].
    destruct (IH i Hi Hs Ha) as (I1 & I2 & I3). split; [by constructor|]. split.
    + split; [|done]. apply List.Forall_forall. intros d Hd.
      apply list_elem_of_In, list_elem_of_lookup in Hd as (j & Hj).
      rewrite List.Forall_forall in Hc.
      apply list_lookup_insert_Some in Hj as [(<- & <- & _)|[_ Hj]].
      * apply (Hc b). apply list_elem_of_In. by eapply list_elem_of_lookup_2.
      * apply Hc. apply list_elem_of_In. by eapply list_elem_of_lookup_2.
    + intros x. by rewrite !List.Exists_cons, I3.
Qed.

Lemma exts_apart_snoc l b : exts_apart l -> Forall (fun c => b_end c <= b_addr b \/ b_end b <= b_addr c) l ->
  exts_apart (l ++ [b]).
Proof.
  induction l as [|c l IH]; intros Ha Hb; cbn; [done|]. destruct Ha as [Hc Ha].
  apply List.Forall_cons_iff in Hb as [Hcb Hb]. split; [|by apply IH].
  apply Forall_app. split; [done|]. by constructor; [|constructor].
Qed.

Lemma kmalloc_result_owned h l n r h' :
  kheap_owned h l -> 0 < n <= 2 ^ 61 -> kmalloc_result h l n r h' -> r <> 0 ->
  exists l' b, kheap_owned h' l' /\ In b l' /\ b_free b = false /\ r = b_addr b + 24 /\ n <= b_size b.
Proof.
  intros [K Hs Ha Hp] Hn R Hr. unfold kmalloc_result in R. pose proof (up16_ge n).
  destruct (list_find (fits (up16 n)) l) as [[i b]|] eqn:Ef.
  - destruct R as (-> & K' & Ep & _). apply list_find_Some in Ef as (Hi & [_ Hf] & _).
    destruct (exts_set_free l i b false Hi Hs Ha) as (I1 & I2 & I3).
    exists (<[i := set_free_blk false b]> l), (set_free_blk false b). split; [|split; [|split; [done|split; [done|cbn; lia]]]].
    + constructor; [done|done|done|]. intros x Hx Hex. rewrite Ep. apply Hp; [done|]. by apply I3.
    + apply list_elem_of_In, (list_elem_of_lookup_2 _ i). apply list_lookup_insert_eq. by eapply lookup_lt_Some.
  - destruct R as [(-> & _)|(Hsz & Hr' & K' & R1 & R2 & _ & _ & Rm & Rt & Rt')]; [done|].
    set (pg := (24 + up16 n + 4095) / 4096) in *. set (a := r - 24) in *. set (nb := mk_blk a (pg * 4096 - 24) false) in *.
    pose proof (pa_total_bound _ (kk_pages _ _ K)) as Htb.
    assert (Hin : In nb (l ++ [nb])) by (apply List.in_or_app; right; by left).
    destruct (kk_page _ _ K' nb Hin) as (_ & Hpos & _). cbn in Hpos.
    assert (Hend : b_end nb = a + pg * 4096) by (unfold b_end, nb, BLOCK_HDR; cbn; lia).
    assert (Hfr : forall x, in_ext nb x -> pa_isfree (m_pages (k_mach h)) (x / 4096) = true).
    { intros x Hx. apply R1. unfold in_ext in Hx. rewrite Hend in Hx. cbn in Hx. Z.div_mod_to_equations; lia. }
    exists (l ++ [nb]), nb. split; [|split; [done|split; [done|split; [unfold nb, a; cbn; lia|cbn; lia]]]].
    constructor; [done| | |].
    + apply Forall_app. split; [done|]. constructor; [|constructor]. unfold size_ok. rewrite Hend. cbn.
      Z.div_mod_to_equations; lia.
    + apply exts_apart_snoc; [done|]. apply List.Forall_forall. intros c Hc.
      destruct (decide (b_end c <= b_addr nb)); [by left|]. destruct (decide (b_end nb <= b_addr c)); [by right|].
      exfalso. rewrite List.Forall_forall in Hs. pose proof (Hs c Hc) as Sc.
      destruct (kk_page _ _ K c Hc) as (_ & Hc0 & _).
      set (x := Z.max (b_addr c) (b_addr nb)).
      assert (Hx1 : in_ext c x) by (unfold in_ext, x, size_ok, b_end, BLOCK_HDR in *; lia).
      assert (Hx2 : in_ext nb x) by (unfold in_ext, x in *; rewrite Hend in *; cbn in *; lia).
      pose proof (Hfr x Hx2) as Hf. rewrite Hp in Hf; [done|unfold x; cbn; lia|].
      apply List.Exists_exists. by exists c.
    + intros x Hx Hex. rewrite R2 by (by apply Z.div_pos). apply List.Exists_app in Hex as [Hex|Hex].
      * by rewrite Hp.
      * apply List.Exists_cons in Hex as [Hex|Hex]; [|by inversion Hex].
        unfold in_ext in Hex. rewrite Hend in Hex. cbn in Hex.
        replace ((a / 4096 <=? x / 4096) && (x / 4096 <? a / 4096 + pg)) with true; [apply andb_false_r|].
        symmetry. apply andb_true_intro. rewrite Z.leb_le, Z.ltb_lt. Z.div_mod_to_equations; lia.
Qed.

(** * Properties *)

(** C17: [kmalloc] always returns, and does what a first-fit allocator
    does.  A zero request gives the null pointer and no effect.  Otherwise
    the first free block that fits the request rounded up to 16 is marked
    used and its data address returned, with no other byte of memory
    changed; when none fits, a zeroed block of whole pages is put at the
    end of the list; only when the page allocator has no such run is the
    result null, and then nothing has changed. *)
Theorem kmalloc_correct fuel h l n :
  kheap_ok h l -> (length l < fuel)%nat -> 0 <= n <= 2 ^ 61 ->
  exists r h', kmalloc fuel h n = Some (r, h') /\
    if n =? 0 then r = 0 /\ h' = h else kmalloc_result h l n r h'.
Proof.
  intros K Hf Hn. destruct (Z.eqb_spec n 0) as [->|].
  - by exists 0, h.
  - by apply kmalloc_ok; [..|lia].
Qed.

(** [kfree] of a block of the heap always returns.  The block becomes
    free and the list is the old one with every run of neighbouring free
    blocks joined into its first block: no two neighbours are free
    afterwards, the blocks in use are exactly those in use before (less
    the freed one), and no byte outside the headers has changed. *)
Theorem kfree_correct fuel h l i b :
  kheap_ok h l -> l !! i = Some b -> (length l <= fuel)%nat ->
  exists h', kfree fuel h (b_addr b + 24) = Some h' /\
    let l0 := <[i := set_free_blk true b]> l in
    let l' := merge_list l0 in
    kheap_ok h' l' /\ no_free_pair l' /\
    (forall c, b_free c = false -> (In c l' <-> In c l0)) /\
    m_pages (k_mach h') = m_pages (k_mach h) /\ same_outside l (km_mem h) (km_mem h').
Proof.
  intros K Hi Hf. destruct (kfree_ok fuel h l i b K Hi Hf) as (h' & E & K' & Ep & S).
  exists h'. split; [done|]. cbv zeta. split; [done|].
  destruct (<[i := set_free_blk true b]> l) as [|b0 l0]; cbn [merge_list]; [by split; [|split]|].
  split; [apply merge_from_normal|]. split; [intros c Hc; by apply merge_from_used|]. by split.
Qed.

(** The heap owns what it hands out.  While the extents of the blocks
    are disjoint and allocated, a successful [kmalloc] returns a block of
    the list, large enough and no longer free, and keeps the ownership
    invariant, so live allocations never overlap each other or other
    pages; a [kfree] keeps it too, provided that neighbours in the list
    that are joined also touch in memory. *)
Theorem kmalloc_kfree_owned fuel h l :
  kheap_owned h l -> (length l < fuel)%nat ->
  (forall n r h', 0 < n <= 2 ^ 61 -> kmalloc fuel h n = Some (r, h') -> r <> 0 ->
     exists l' b, kheap_owned h' l' /\ In b l' /\ b_free b = false /\
       r = b_addr b + 24 /\ n <= b_size b) /\
  (forall i b h', l !! i = Some b -> kfree fuel h (b_addr b + 24) = Some h' ->
     joinable (<[i := set_free_blk true b]> l) ->
     kheap_owned h' (merge_list (<[i := set_free_blk true b]> l))).
Proof.
  intros Ho Hf. pose proof Ho as [K Hs Ha Hp]. split.
  - intros n r h' Hn E Hr. destruct (kmalloc_ok fuel h l n K Hf Hn) as (r0 & h0 & E0 & R).
    rewrite E in E0. injection E0 as <- <-. by eapply kmalloc_result_owned.
  - intros i b h' Hi E Hj.
    destruct (kfree_ok fuel h l i b K Hi ltac:(lia)) as (h0 & E0 & K' & Ep & _).
    rewrite E in E0. injection E0 as <-.
    destruct (exts_set_free l i b true Hi Hs Ha) as (I1 & I2 & I3).
    assert (Hpos : Forall (fun c => 0 <= b_addr c) (<[i := set_free_blk true b]> l)).
    { apply List.Forall_forall. intros c Hc. apply list_elem_of_In, list_elem_of_lookup in Hc as (j & Hj').
      assert (Hin : forall d k, l !! k = Some d -> 0 <= b_addr d).
      { intros d k Hk. destruct (kk_page _ _ K d) as (_ & ? & _); [|lia].
        apply list_elem_of_In. by eapply list_elem_of_lookup_2. }
      apply list_lookup_insert_Some in Hj' as [(<- & <- & _)|[_ Hj']]; [exact (Hin b i Hi)|exact (Hin c j Hj')]. }
    destruct (<[i := set_free_blk true b]> l) as [|b0 l0]; cbn [merge_list] in *; [constructor; [done|constructor|done|intros x _ Hx; by inversion Hx]|].
    destruct (merge_from_ext b0 l0 Hj I1 Hpos) as [M1 M2].
    constructor; [done|done|by apply merge_from_exts_apart|].
    intros x Hx Hex. rewrite Ep. apply Hp; [done|]. by apply I3, M1.
Qed.
End kmalloc_facts.

(** ** A concrete heap *)

Definition demo_heap_mach : mach pmm := mk_mach (fun _ => 0) demo_pmm.
Definition demo_kheap : kheap pmm := kmalloc_init (mk_kheap demo_heap_mach 7 7).

Lemma demo_heap_pages : pa_wf (m_pages demo_heap_mach).
Proof. exact (conj demo_pmm_inv (conj eq_refl eq_refl)). Qed.

Lemma demo_kheap_ok : kheap_ok demo_kheap [].
Proof. constructor; [apply demo_heap_pages|constructor|done|by intros b []|constructor]. Qed.

Lemma demo_kheap_owned : kheap_owned demo_kheap [].
Proof. constructor; [apply demo_kheap_ok|constructor|done|]. intros x _ Hx. by inversion Hx. Qed.

Lemma kmalloc_correct_witness :
  exists r h', kmalloc 1 demo_kheap 5000 = Some (r, h') /\ kmalloc_result demo_kheap [] 5000 r h'.
Proof. exact (kmalloc_correct 1 demo_kheap [] 5000 demo_kheap_ok ltac:(cbn; lia) ltac:(lia)). Defined.

(** The heap after the first allocation: one block over pages 4 and 5. *)
Definition demo_kheap1 : kheap pmm :=
  match kmalloc 1 demo_kheap 5000 with Some (_, h) => h | None => demo_kheap end.

Lemma demo_kheap1_ok : kheap_owned demo_kheap1 [mk_blk 16384 8168 false].
Proof.
  destruct (kmalloc_ok 1 demo_kheap [] 5000 demo_kheap_ok ltac:(cbn; lia) ltac:(lia)) as (r & h & E & R).
  assert (Er : r = 16408).
  { assert (Hx : fst <$> kmalloc 1 demo_kheap 5000 = Some 16408) by (vm_compute; reflexivity).
    rewrite E in Hx. by injection Hx. }
  subst r. unfold demo_kheap1. rewrite E.
  unfold kmalloc_result in R. cbn [list_find] in R. destruct R as [(? & _)|(_ & _ & K & R1 & R2 & _)]; [done|].
  change (16408 - 24) with 16384 in *. change ((24 + up16 5000 + 4095) / 4096) with 2 in *.
  constructor; [exact K| | |].
  - constructor; [|constructor]. split; unfold b_end, BLOCK_HDR; cbn; lia.
  - by split.
  - intros x Hx Hex. apply List.Exists_cons in Hex as [Hex|Hex]; [|by inversion Hex].
    unfold in_ext, b_end, BLOCK_HDR in Hex. cbn [b_addr b_size] in Hex.
    rewrite R2 by (by apply Z.div_pos).
    replace ((16384 / 4096 <=? x / 4096) && (x / 4096 <? 16384 / 4096 + 2)) with true; [apply andb_false_r|].
    symmetry. apply andb_true_intro. rewrite Z.leb_le, Z.ltb_lt. Z.div_mod_to_equations; lia.
Qed.

Lemma kfree_correct_witness :
  exists h', kfree 1 demo_kheap1 (16384 + 24) = Some h' /\ kheap_ok h' [mk_blk 16384 8168 true].
Proof.
  destruct (kfree_correct 1 demo_kheap1 _ 0 _ (ko_ok _ _ demo_kheap1_ok) eq_refl ltac:(cbn; lia))
    as (h' & E & K & _).
  exists h'. by split.
Defined.

Lemma kmalloc_kfree_owned_witness :
  exists h', kfree 2 demo_kheap1 (16384 + 24) = Some h' /\ kheap_owned h' [mk_blk 16384 8168 true].
Proof.
  destruct (kfree_ok 2 demo_kheap1 _ 0 _ (ko_ok _ _ demo_kheap1_ok) eq_refl ltac:(cbn; lia)) as (h' & E & _).
  exists h'. split; [exact E|].
  exact (proj2 (kmalloc_kfree_owned 2 demo_kheap1 _ demo_kheap1_ok ltac:(cbn; lia)) 0%nat _ h' eq_refl E I).
Defined.

(** Two allocations of 5000 bytes, both freed, then one of 12000. *)
Definition overlap_run : option (Z * kheap pmm) :=
  '(p, h) ← kmalloc 9 demo_kheap 5000;
  '(q, h) ← kmalloc 9 h 5000;
  h ← kfree 9 h p;
  h ← kfree 9 h q;
  kmalloc 9 h 12000.

(** Without that proviso ownership is lost: blocks that are neighbours
    in the list are joined even when another page lies between them.  On a
    machine where page 6 belongs to somebody else, two allocations around
    it, both freed, make a joined block, and the next [kmalloc] of 12000
    bytes returns memory that runs across page 6. *)
Theorem kmalloc_merge_overlap :
  page_used demo_pmm 6 = true /\
  exists r, fst <$> overlap_run = Some r /\ r <= 6 * 4096 < r + 12000.
Proof. split; [reflexivity|]. exists 16408. split; [vm_compute; reflexivity|lia]. Qed.
