(* ===== verification/Umalloc.v ===== *)
(** * User heap (user/malloc.c)

    The allocator of the user programs.  [u_mem] is the program's own
    address space, [u_brk] the kernel side of the break; [sys_brk] is the
    system call, of which the code only uses whether it returned -1, and
    [_end] is the linker's end of the program image. *)

From stdpp Require Import prelude list.
From Stdlib Require Import ZArith Lia.
From S2P Require Import Prelude Lib Blocks Kmalloc.
#[local] Open Scope Z_scope.
#[local] Open Scope cint_scope.

Section umalloc.
Context {K : Type} (sys_brk : Z -> K -> Z * K) (_end : Z).

Record uheap := mk_uheap {
  u_mem : mem;
  u_brk : K;
  g_head : Z;
  g_program_break : Z
}.

Definition u_set_mem (u : uheap) (m : mem) : uheap :=
  mk_uheap m (u_brk u) (g_head u) (g_program_break u).

(** [None] is the error result -1. *)
Definition sbrk (u : uheap) (inc : Z) : option Z * uheap :=
  let u :=
    if g_program_break u =? 0 then
      mk_uheap (u_mem u) (snd (sys_brk _end (u_brk u))) (g_head u) _end
    else u in
  let old := g_program_break u in
  let new_brk := g_program_break u +% inc in
  let '(r, k) := sys_brk new_brk (u_brk u) in
  if r =? -1 then (None, mk_uheap (u_mem u) k (g_head u) (g_program_break u))
  else (Some old, mk_uheap (u_mem u) k (g_head u) new_brk).

(** [while (cur->next) cur = cur->next]. *)
Fixpoint last_from (fuel : nat) (m : mem) (cur : Z) : option Z :=
  match fuel with
  | O => None
  | S f => if blk_next m cur =? 0 then Some cur else last_from f m (blk_next m cur)
  end.

Definition urequest_space (fuel : nat) (u : uheap) (size : Z) : option (Z * uheap) :=
  let total := BLOCK_HDR +% size in
  let total := Z.land (total +% 15) (not64 15) in
  match sbrk u total with
  | (None, u) => Some (0, u)
  | (Some block, u) =>
      let m := set_blk_next (u_mem u) block 0 in
      let m := set_blk_free m block 0 in
      let m := set_blk_size m block (total -% BLOCK_HDR) in
      let u := u_set_mem u m in
      if negb (g_head u =? 0) then
        match last_from fuel m (g_head u) with
        | None => None
        | Some cur => Some (block, u_set_mem u (set_blk_next m cur block))
        end
      else Some (block, mk_uheap (u_mem u) (u_brk u) block (g_program_break u))
  end.

Definition ufind_block (fuel : nat) (u : uheap) (size : Z) : option Z :=
  find_from fuel (u_mem u) (g_head u) size.

Definition malloc (fuel : nat) (u : uheap) (size : Z) : option (Z * uheap) :=
  if size =? 0 then Some (0, u)
  else
    let size := Z.land (size +% 15) (not64 15) in
    match ufind_block fuel u size with
    | None => None
    | Some block =>
        if block =? 0 then
          match urequest_space fuel u size with
          | None => None
          | Some (block, u) => if block =? 0 then Some (0, u) else Some (block +% BLOCK_HDR, u)
          end
        else Some (block +% BLOCK_HDR, u_set_mem u (set_blk_free (u_mem u) block 0))
    end.

Fixpoint merge (fuel : nat) (m : mem) (cur : Z) : option mem :=
  match fuel with
  | O => None
  | S f =>
      if (cur =? 0) || (blk_next m cur =? 0) then Some m
      else
        let next := blk_next m cur in
        if blk_free m cur && blk_free m next then
          let m := set_blk_size m cur (blk_size m cur +% (BLOCK_HDR +% blk_size m next)) in
          merge f (set_blk_next m cur (blk_next m (blk_next m cur))) cur
        else merge f m next
  end.

Definition free (fuel : nat) (u : uheap) (ptr : Z) : option uheap :=
  if ptr =? 0 then Some u
  else
    let block := ptr -% BLOCK_HDR in
    let m := set_blk_free (u_mem u) block 1 in
    match merge fuel m (g_head u) with
    | None => None
    | Some m => Some (u_set_mem u m)
    end.

(** The user merge is the kernel merge without the tail pointer. *)
Lemma merge_kernel fuel m gl cur : merge fuel m cur = fst <$> merge_loop fuel m gl cur.
Proof.
  revert m gl cur. induction fuel as [|f IH]; intros m gl cur; cbn [merge merge_loop]; [done|].
  destruct ((cur =? 0) || (blk_next m cur =? 0)); [done|].
  destruct (blk_free m cur && blk_free m (blk_next m cur)); apply IH.
Qed.

(** ** Contiguous lists *)

(** Every block starts where the one before it ends, the last one ends at
    [e]. *)
Fixpoint contig (l : list blk) (e : Z) : Prop :=
  match l with
  | [] => True
  | [b] => b_end b = e
  | b :: ((c :: _) as l') => b_end b = b_addr c /\ contig l' e
  end.

Lemma contig_joinable l e : contig l e -> joinable l.
Proof.
  induction l as [|b [|c l] IH]; [done|done|]. intros [E Hc]. split; [done|]. by apply IH.
Qed.

Lemma contig_bounds b l e : contig (b :: l) e -> Forall size_ok (b :: l) ->
  Forall (fun c => b_end b <= b_addr c) l /\ b_end b <= e.
Proof.
  revert b. induction l as [|c l IH]; intros b Hc Hs; [cbn in Hc; split; [constructor|lia]|].
  apply List.Forall_cons_iff in Hs as [Sb Hs]. destruct Hc as [E Hc].
  pose proof Hs as [Sc _]%List.Forall_cons_iff.
  destruct (IH c Hc Hs) as [H1 H2]. unfold size_ok, b_end, BLOCK_HDR in *.
  split; [|lia]. constructor; [lia|]. eapply List.Forall_impl; [|exact H1]. cbn. intros. lia.
Qed.

Lemma contig_apart l e : contig l e -> Forall size_ok l -> hdrs_apart l /\ exts_apart l.
Proof.
  induction l as [|b l IH]; intros Hc Hs; [done|].
  destruct (contig_bounds b l e Hc Hs) as [Hb _].
  pose proof Hs as [Sb Hs']%List.Forall_cons_iff.
  assert (Hc' : contig l e) by (destruct l; [done|]; by destruct Hc).
  destruct (IH Hc' Hs') as [H1 H2].
  split; (split; [|done]); (eapply List.Forall_impl; [|exact Hb]); cbn; intros c Hcc; left;
    unfold size_ok, b_end, BLOCK_HDR in *; lia.
Qed.

Lemma contig_set_free l e i b fr : contig l e -> l !! i = Some b -> contig (<[i := set_free_blk fr b]> l) e.
Proof.
  revert i. induction l as [|c [|d l] IH]; intros [|i] Hc Hi; cbn in *; try done.
  - injection Hi as ->. done.
  - injection Hi as ->. done.
  - destruct Hc as [E Hc]. specialize (IH i Hc Hi).
    destruct i; cbn in *; [injection Hi as ->|]; by split.
Qed.

Lemma contig_merge b l e : contig (b :: l) e -> Forall size_ok (b :: l) -> 0 <= b_addr b ->
  contig (merge_from b l) e.
Proof.
  revert b. induction l as [|c l IH]; intros b Hc Hs Hp; cbn [merge_from]; [done|].
  pose proof Hs as [Sb Hs']%List.Forall_cons_iff. pose proof Hs' as [Sc Hs'']%List.Forall_cons_iff.
  destruct Hc as [E Hc]. destruct (b_free b && b_free c).
  - assert (Hsz : b_size b +% (BLOCK_HDR +% b_size c) = b_size b + BLOCK_HDR + b_size c).
    { unfold size_ok, b_end, BLOCK_HDR in *. rewrite !u64_small; unfold is_u64; try lia.
      rewrite u64_small; unfold is_u64; lia. }
    rewrite Hsz. set (bc := mk_blk _ _ _).
    assert (Ebc : b_end bc = b_end c) by (unfold b_end, bc, BLOCK_HDR in *; cbn in *; lia).
    apply IH; [| |done].
    + destruct l as [|d l]; cbn in Hc |- *; [by rewrite Ebc|]. by rewrite Ebc.
    + constructor; [|done]. unfold size_ok in *. rewrite Ebc. subst bc. unfold BLOCK_HDR in *. cbn. lia.
  - destruct (merge_from_head c l) as (c' & l' & Eh & Ea).
    pose proof (IH c Hc Hs') as Hm. rewrite Eh in Hm |- *.
    split; [by rewrite Ea|]. apply Hm. unfold size_ok, b_end, BLOCK_HDR in *. lia.
Qed.

Lemma contig_below l e : contig l e -> Forall size_ok l -> Forall (fun b => b_end b <= e) l.
Proof.
  induction l as [|b l IH]; intros Hc Hs; [constructor|].
  destruct (contig_bounds b l e Hc Hs) as [_ He]. constructor; [done|].
  apply List.Forall_cons_iff in Hs as [_ Hs]. apply IH; [|done]. destruct l; [done|]. by destruct Hc.
Qed.

Lemma contig_snoc l e sz fr : contig l e -> contig (l ++ [mk_blk e sz fr]) (e + BLOCK_HDR + sz).
Proof.
  induction l as [|b [|c l] IH]; intros Hc; cbn in *; [done|by split|].
  destruct Hc as [E Hc]. split; [done|]. by apply IH.
Qed.

Lemma last_from_ok fuel m a b l : blocks_at m a (b :: l) -> (length l < fuel)%nat ->
  last_from fuel m a = Some (last_addr (b :: l)).
Proof.
  revert fuel a b. induction l as [|c l IH]; intros [|fuel] a b Hb Hf; cbn [length] in Hf; try lia.
  - apply blocks_cons_inv in Hb as (_ & -> & Hz%blocks_nil_next). cbn. by rewrite Hz.
  - apply blocks_cons_inv in Hb as (_ & -> & Hb). pose proof Hb as (Hp & Ec & _)%blocks_cons_inv.
    cbn [last_from]. destruct (Z.eqb_spec (blk_next m a) 0); [lia|].
    rewrite (IH fuel _ c Hb) by lia. done.
Qed.

(** ** The heap invariant *)

Record uheap_ok (u : uheap) (l : list blk) : Prop := {
  uo_blocks : blocks_at (u_mem u) (g_head u) l;
  uo_contig : contig l (g_program_break u);
  uo_size : Forall size_ok l;
  uo_empty : g_program_break u = 0 -> l = [];
  uo_break : 0 <= g_program_break u
}.

Lemma uheap_apart u l : uheap_ok u l -> hdrs_apart l /\ exts_apart l.
Proof. intros K'. eapply contig_apart; [apply (uo_contig _ _ K')|apply (uo_size _ _ K')]. Qed.

Lemma uheap_addr u l b : uheap_ok u l -> In b l -> g_program_break u < 2 ^ 62 ->
  0 < b_addr b /\ b_addr b + 24 < 2 ^ 62.
Proof.
  intros K' Hb Hbrk. pose proof (blocks_pos _ _ _ (uo_blocks _ _ K')) as Hp.
  pose proof (contig_below _ _ (uo_contig _ _ K') (uo_size _ _ K')) as He.
  pose proof (uo_size _ _ K') as Hs. rewrite List.Forall_forall in Hp, He, Hs.
  specialize (Hp b Hb). specialize (He b Hb). specialize (Hs b Hb).
  unfold size_ok, b_end, BLOCK_HDR in *. lia.
Qed.

Lemma uheap_set_free u l i b v :
  uheap_ok u l -> l !! i = Some b -> is_u32 v ->
  uheap_ok (u_set_mem u (set_blk_free (u_mem u) (b_addr b) v)) (<[i := set_free_blk (negb (v =? 0)) b]> l).
Proof.
  intros K' Hi Hv. destruct (uheap_apart u l K') as [Hap Hex].
  assert (Hlen : (i < length l)%nat) by (by eapply lookup_lt_Some).
  pose proof (take_drop_middle l i b Hi) as El.
  destruct (exts_set_free l i b (negb (v =? 0)) Hi (uo_size _ _ K') Hex) as (Hs & _ & _).
  constructor; cbn.
  - rewrite (insert_take_drop l i _ Hlen). apply blocks_set_free; [|by rewrite El|done].
    rewrite El. apply (uo_blocks _ _ K').
  - apply contig_set_free; [apply (uo_contig _ _ K')|done].
  - done.
  - intros E. rewrite (uo_empty _ _ K' E) in Hi. done.
  - apply (uo_break _ _ K').
Qed.

(** The header of a new block at [b0]. *)
Definition ufresh (m : mem) (b0 sz : Z) : mem :=
  set_blk_size (set_blk_free (set_blk_next m b0 0) b0 0) b0 sz.

Lemma ufresh_ok m b0 sz : 0 < b0 -> is_u64 sz ->
  blocks_at (ufresh m b0 sz) b0 [mk_blk b0 sz false] /\
  same_outside [mk_blk b0 sz false] m (ufresh m b0 sz).
Proof.
  intros Hb Hsz. unfold ufresh. set (nb := mk_blk b0 sz false).
  destruct (set_next_fields m b0 0) as (A1 & A2 & A3); [done|]. set (m1 := set_blk_next m b0 0) in *.
  destruct (set_free_fields m1 b0 0) as (B1 & B2 & B3); [done|]. set (m2 := set_blk_free m1 b0 0) in *.
  destruct (set_size_fields m2 b0 sz Hsz) as (C1 & C2 & C3). set (m3 := set_blk_size m2 b0 sz) in *.
  split.
  - unfold nb. rewrite <- C2. change false with (negb (0 =? 0)). rewrite <- B3, <- C3.
    constructor; [done|]. rewrite C1, B1, A1. constructor.
  - eapply same_outside_trans; [exact (set_next_outside m nb 0)|].
    eapply same_outside_trans; [exact (set_free_outside m1 nb 0)|exact (set_size_outside m2 nb sz)].
Qed.

(** Where the next block goes. *)
Definition next_break (u : uheap) : Z := if g_program_break u =? 0 then _end else g_program_break u.

(** The break a new block for [n] bytes asks the kernel for, the state the
    kernel is in when it is asked (the very first request announces the end
    of the program before), and its answer. *)
Definition wanted_break (u : uheap) (n : Z) : Z := next_break u + up16 (24 + n).

Definition asked_state (u : uheap) : K :=
  if g_program_break u =? 0 then snd (sys_brk _end (u_brk u)) else u_brk u.

Definition break_answer (u : uheap) (n : Z) : Z * K := sys_brk (wanted_break u n) (asked_state u).

Definition umalloc_fresh (u : uheap) (l : list blk) (n r : Z) (u' : uheap) : Prop :=
  exists sz, n <= sz /\ r = next_break u + 24 /\
    let nb := mk_blk (next_break u) sz false in
    uheap_ok u' (l ++ [nb]) /\ g_program_break u' = b_end nb /\ b_end nb = wanted_break u n /\
    same_outside (l ++ [nb]) (u_mem u) (u_mem u').

Lemma urequest_ok fuel u l size :
  0 < _end < 2 ^ 61 -> uheap_ok u l -> g_program_break u < 2 ^ 61 -> (length l <= fuel)%nat ->
  0 <= size <= 2 ^ 60 ->
  exists r u', urequest_space fuel u size = Some (r, u') /\ u_brk u' = snd (break_answer u size) /\
    if decide (fst (break_answer u size) = -1)
    then r = 0 /\ uheap_ok u' l /\ u_mem u' = u_mem u
    else 0 < r < 2 ^ 62 /\ umalloc_fresh u l size (r + 24) u'.
Proof.
  intros He K' Hbrk Hf Hs. pose proof (uo_break _ _ K') as Hb0.
  unfold urequest_space. rewrite (u64_small (BLOCK_HDR + size)) by (unfold is_u64, BLOCK_HDR; lia).
  change (Z.land ((BLOCK_HDR + size) +% 15) (not64 15)) with (align_up_u64 (BLOCK_HDR + size) 16).
  rewrite up16_align by (unfold BLOCK_HDR; lia).
  pose proof (up16_ge (BLOCK_HDR + size)) as Hup. set (total := up16 (BLOCK_HDR + size)) in *.
  unfold sbrk.
  set (u1 := if g_program_break u =? 0 then _ else u).
  assert (E1 : g_program_break u1 = next_break u) by (unfold u1, next_break; by destruct (g_program_break u =? 0)).
  assert (E2 : u_mem u1 = u_mem u /\ g_head u1 = g_head u) by (unfold u1; by destruct (g_program_break u =? 0)).
  destruct E2 as [E2 E3]. rewrite E1.
  assert (Hnb : 0 < next_break u < 2 ^ 61) by (unfold next_break; destruct (Z.eqb_spec (g_program_break u) 0); lia).
  assert (Hcon : contig l (next_break u)).
  { unfold next_break. destruct (Z.eqb_spec (g_program_break u) 0) as [E0|]; [|apply (uo_contig _ _ K')].
    by rewrite (uo_empty _ _ K' E0). }
  rewrite (u64_small (next_break u + total)) by (unfold is_u64, BLOCK_HDR in *; lia).
  assert (Eb : u_brk u1 = asked_state u) by (unfold u1, asked_state; by destruct (g_program_break u =? 0)).
  rewrite Eb. change (next_break u + total) with (wanted_break u size).
  fold (break_answer u size). destruct (break_answer u size) as [rc k]. cbn [fst snd].
  change (wanted_break u size) with (next_break u + total) in |- *.
  destruct (Z.eqb_spec rc (-1)) as [->|Hrc]; (destruct decide; [|]); try done.
  { eexists _, _. split; [done|]. split; [done|]. split; [done|]. rewrite E2, E3. split; [|done].
    constructor; cbn; [apply (uo_blocks _ _ K')|done|apply (uo_size _ _ K')|lia|lia]. }
  cbn [u_mem u_set_mem g_head]. rewrite E2, E3.
  rewrite (u64_small (total - BLOCK_HDR)) by (unfold is_u64, BLOCK_HDR in *; lia).
  set (b0 := next_break u) in *. fold (ufresh (u_mem u) b0 (total - BLOCK_HDR)).
  destruct (ufresh_ok (u_mem u) b0 (total - BLOCK_HDR)) as [Hnew Hout];
    [lia|unfold is_u64, BLOCK_HDR in *; lia|].
  set (sz := total - BLOCK_HDR) in *. set (nb := mk_blk b0 sz false) in *. set (m3 := ufresh (u_mem u) b0 sz) in *.
  pose proof (contig_below _ _ Hcon (uo_size _ _ K')) as Hbel. pose proof (uo_size _ _ K') as Hsz.
  assert (Hnbap : forall b, In b l -> hdr_apart b nb).
  { intros b Hb. rewrite List.Forall_forall in Hbel, Hsz. specialize (Hbel b Hb). specialize (Hsz b Hb).
    left. unfold size_ok, b_end, BLOCK_HDR in *. cbn. lia. }
  assert (Hl3 : blocks_at m3 (g_head u) l).
  { eapply frame_apart; [apply (uo_blocks _ _ K')|exact Hout|]. intros b c Hb [<-|[]]. by apply Hnbap. }
  assert (Hend : b_end nb = b0 + total) by (unfold b_end, nb, sz; cbn; lia).
  assert (Hcon' : contig (l ++ [nb]) (b0 + total)) by (rewrite <- Hend; by apply contig_snoc).
  assert (Hsz' : Forall size_ok (l ++ [nb])).
  { apply Forall_app. split; [done|]. constructor; [|constructor]. unfold size_ok. rewrite Hend.
    unfold nb, sz, BLOCK_HDR in *. cbn. lia. }
  destruct l as [|bl l0 _] using rev_ind.
  - assert (g_head u = 0) as -> by (by apply blocks_nil_next in Hl3). cbn [Z.eqb negb].
    eexists _, _. split; [done|]. split; [done|]. split; [lia|]. exists sz. split; [unfold sz, BLOCK_HDR in *; lia|].
    split; [done|]. cbv zeta. split; [|split; [exact (eq_sym Hend)|split; [exact Hend|done]]].
    constructor; cbn; [exact Hnew|done|done|intros ?; exfalso|]; unfold BLOCK_HDR in *; lia.
  - assert (Hg : g_head u <> 0) by (intros E; rewrite E in Hl3; apply blocks_zero in Hl3; by destruct l0).
    destruct (Z.eqb_spec (g_head u) 0); [done|]. cbn [negb].
    assert (Hlast : last_from fuel m3 (g_head u) = Some (b_addr bl)).
    { destruct (l0 ++ [bl]) as [|c l1] eqn:El; [by destruct l0|].
      rewrite (last_from_ok fuel m3 (g_head u) c l1 Hl3) by (cbn in Hf; lia).
      rewrite <- El. by rewrite last_addr_app. }
    rewrite Hlast. eexists _, _. split; [done|]. split; [done|]. split; [lia|].
    exists sz. split; [unfold sz, BLOCK_HDR in *; lia|]. split; [done|]. cbv zeta.
    assert (Hbl : In bl (l0 ++ [bl])) by (apply List.in_or_app; right; by left).
    split; [|split; [exact (eq_sym Hend)|split; [exact Hend|]]].
    + constructor; cbn; [|done|done|intros ?; exfalso; unfold BLOCK_HDR in *; lia|unfold BLOCK_HDR in *; lia].
      rewrite <- app_assoc. cbn [app].
      apply (blocks_append m3 (g_head u) l0 bl nb); [done|apply (uheap_apart u _ K')|done| |].
      * by apply hdr_apart_sym, Hnbap.
      * unfold is_u64, nb. cbn. lia.
    + cbn. eapply same_outside_trans.
      * eapply same_outside_mono; [|exact Hout]. intros d [<-|[]]. exists nb. split; [|done].
        apply List.in_or_app. right. by left.
      * eapply same_outside_mono; [|exact (set_next_outside m3 bl b0)].
        intros d [<-|[]]. exists bl. split; [|done]. apply List.in_or_app. by left.
Qed.

(** * Properties *)

(** C38: [malloc] of the user library always returns, and keeps the heap a
    gap-free sequence of disjoint blocks that ends at the program break.  It
    reuses the first free block that fits the request rounded up to 16, and
    then asks the kernel for nothing.  Otherwise it asks the kernel for the
    old break plus a header and the request, rounded up to 16: exactly when
    the answer is -1 it returns null and the heap is as before, and on any
    other answer it returns the bytes after a new header at the old break,
    at least as many as were requested, and the break is the one asked for.
    No byte outside the block headers changes.  The request is at most 2^59
    bytes and the break below 2^61, so that no sum wraps. *)
Theorem malloc_correct fuel u l n :
  0 < _end < 2 ^ 61 -> uheap_ok u l -> g_program_break u < 2 ^ 61 ->
  (length l < fuel)%nat -> 0 < n <= 2 ^ 59 ->
  exists r u', malloc fuel u n = Some (r, u') /\
    match list_find (fits (up16 n)) l with
    | Some (i, b) =>
        r = b_addr b + 24 /\ uheap_ok u' (<[i := set_free_blk false b]> l) /\
        same_outside [b] (u_mem u) (u_mem u') /\ u_brk u' = u_brk u
    | None =>
        u_brk u' = snd (break_answer u (up16 n)) /\
        if decide (fst (break_answer u (up16 n)) = -1)
        then r = 0 /\ uheap_ok u' l /\ u_mem u' = u_mem u
        else umalloc_fresh u l (up16 n) r u'
    end.
Proof.
  intros He K' Hbrk Hf Hn. unfold malloc. destruct (Z.eqb_spec n 0); [lia|].
  change (Z.land (n +% 15) (not64 15)) with (align_up_u64 n 16).
  rewrite up16_align by lia. pose proof (up16_ge n) as Hup. unfold ufind_block.
  rewrite (find_from_ok fuel _ _ l) by (done || apply (uo_blocks _ _ K')).
  destruct (list_find (fits (up16 n)) l) as [[i b]|] eqn:Ef.
  - apply list_find_Some in Ef as (Hi & _ & _).
    assert (Hin : In b l) by (apply list_elem_of_In; by eapply list_elem_of_lookup_2).
    destruct (uheap_addr u l b K' Hin ltac:(lia)) as [B1 B2].
    destruct (Z.eqb_spec (b_addr b) 0); [lia|].
    rewrite (u64_small (b_addr b + BLOCK_HDR)) by (unfold is_u64, BLOCK_HDR; lia).
    eexists _, _. split; [done|]. split; [done|]. split; [|split; [apply set_free_outside|done]].
    exact (uheap_set_free u l i b 0 K' Hi ltac:(done)).
  - cbn [Z.eqb]. destruct (urequest_ok fuel u l (up16 n) He K' Hbrk ltac:(lia) ltac:(lia))
      as (r & u' & -> & Hk & R).
    destruct (decide (fst (break_answer u (up16 n)) = -1)).
    + destruct R as [-> R]. cbn. eexists _, _. split; [done|]. split; [done|]. by split.
    + destruct R as [Hr R]. destruct (Z.eqb_spec r 0); [lia|].
      rewrite (u64_small (r + BLOCK_HDR)) by (unfold is_u64, BLOCK_HDR; lia).
      eexists _, _. split; [done|]. by split.
Qed.

(** [free] of the user library always returns; the heap stays a
    gap-free sequence of disjoint blocks, in which the freed block has been
    joined with its free neighbours (no two neighbours stay free) and the
    blocks in use are the ones in use before, less the freed one. *)
Theorem free_correct fuel u l i b :
  uheap_ok u l -> g_program_break u < 2 ^ 61 -> l !! i = Some b -> (length l <= fuel)%nat ->
  exists u', free fuel u (b_addr b + 24) = Some u' /\
    let l0 := <[i := set_free_blk true b]> l in
    let l' := merge_list l0 in
    uheap_ok u' l' /\ exts_apart l' /\ no_free_pair l' /\
    (forall c, b_free c = false -> (In c l' <-> In c l0)).
Proof.
  intros K' Hbrk Hi Hf.
  assert (Hin : In b l) by (apply list_elem_of_In; by eapply list_elem_of_lookup_2).
  destruct (uheap_addr u l b K' Hin ltac:(lia)) as [B1 B2].
  unfold free. destruct (Z.eqb_spec (b_addr b + 24) 0); [lia|].
  replace ((b_addr b + 24) -% BLOCK_HDR) with (b_addr b)
    by (unfold BLOCK_HDR; rewrite u64_small; [lia|unfold is_u64; lia]).
  pose proof (uheap_set_free u l i b 1 K' Hi ltac:(done)) as K1. cbn [Z.eqb negb] in K1.
  set (m1 := set_blk_free (u_mem u) (b_addr b) 1) in *. cbv zeta.
  assert (Hlen : length (<[i := set_free_blk true b]> l) = length l) by apply length_insert.
  destruct (<[i := set_free_blk true b]> l) as [|b0 l0]; [apply lookup_lt_Some in Hi; cbn in Hlen; lia|].
  destruct (uheap_apart _ _ K1) as [Hap _].
  pose proof (uo_blocks _ _ K1) as Hb. cbn [u_mem g_head u_set_mem] in Hb.
  pose proof Hb as (Hp0 & Eb0 & _)%blocks_cons_inv.
  assert (Eh : g_head u = b_addr b0) by (by rewrite Eb0). rewrite Eh in Hb.
  destruct (merge_loop_ok l0 fuel m1 b0 Hb Hap ltac:(cbn in Hlen; lia)) as (m' & Em & Hm & _).
  rewrite (merge_kernel fuel m1 (last_addr (b0 :: l0)) (g_head u)), Eh, Em. cbn [fmap option_fmap option_map fst].
  eexists. split; [done|]. cbn [merge_list].
  assert (Hpos : Forall (fun c => 0 <= b_addr c) (b0 :: l0)).
  { eapply List.Forall_impl; [|exact (blocks_pos _ _ _ Hb)]. cbn. intros. lia. }
  destruct (merge_from_ext b0 l0 (contig_joinable _ _ (uo_contig _ _ K1)) (uo_size _ _ K1) Hpos) as [_ Hs].
  assert (K2 : uheap_ok (u_set_mem u m') (merge_from b0 l0)).
  { constructor; cbn.
    - by rewrite Eh.
    - apply contig_merge; [apply (uo_contig _ _ K1)|apply (uo_size _ _ K1)|].
      by apply List.Forall_cons_iff in Hpos as [? _].
    - done.
    - intros E. discriminate (uo_empty _ _ K1 E).
    - apply (uo_break _ _ K1). }
  split; [done|]. split; [apply (uheap_apart _ _ K2)|]. split; [apply merge_from_normal|].
  intros c Hc. by apply merge_from_used.
Qed.
End umalloc.

(** ** A concrete heap: a kernel that grants every break up to 65800 *)

Definition grant (a : Z) (k : unit) : Z * unit := (if a <=? 65800 then a else -1, k).
Definition demo_uheap : @uheap unit := mk_uheap (fun _ => 0) tt 0 0.

Lemma demo_uheap_ok : uheap_ok demo_uheap [].
Proof. by constructor; [constructor|..]. Qed.

(** 100 bytes are granted, 300 are refused. *)
Lemma malloc_correct_witness :
  (exists r u', malloc grant 65536 1 demo_uheap 100 = Some (r, u') /\
     umalloc_fresh 65536 demo_uheap [] 112 r u') /\
  (exists u', malloc grant 65536 1 demo_uheap 300 = Some (0, u') /\ uheap_ok u' []).
Proof.
  split.
  - destruct (malloc_correct grant 65536 1 demo_uheap [] 100 ltac:(lia) demo_uheap_ok
      ltac:(cbn; lia) ltac:(cbn; lia) ltac:(lia)) as (r & u' & E & _ & H).
    exists r, u'. split; [exact E|exact H].
  - destruct (malloc_correct grant 65536 1 demo_uheap [] 300 ltac:(lia) demo_uheap_ok
      ltac:(cbn; lia) ltac:(cbn; lia) ltac:(lia)) as (r & u' & E & _ & H1 & H2 & _).
    exists u'. rewrite <- H1 at 1. split; [exact E|exact H2].
Defined.

(** One block of 120 bytes at 65536, in use. *)
Definition demo_uheap1 : @uheap unit := mk_uheap (ufresh (fun _ => 0) 65536 120) tt 65536 65680.

Lemma demo_uheap1_ok : uheap_ok demo_uheap1 [mk_blk 65536 120 false].
Proof.
  constructor; [|done| |done|done].
  - apply (ufresh_ok (fun _ => 0) 65536 120); [lia|done].
  - constructor; [|constructor]. split; unfold b_end, BLOCK_HDR; cbn; lia.
Qed.

Lemma free_correct_witness :
  exists u', free 1 demo_uheap1 65560 = Some u' /\ uheap_ok u' [mk_blk 65536 120 true].
Proof.
  destruct (free_correct 1 demo_uheap1 _ 0 _ demo_uheap1_ok ltac:(cbn; lia) eq_refl ltac:(cbn; lia))
    as (u' & E & K & _).
  exists u'. split; [exact E|exact K].
Defined.
