(* ===== verification/Ring.v ===== *)
(** * Ring buffers

    The bounded queues of the system (socket messages and pending
    connections in src/net.c, key and mouse events in src/input.c) share
    one shape: an array of [cap] slots with a head and a tail index, one
    slot always unused; an insertion into a full queue is dropped.  This
    file has that shape and proves it a bounded first-in first-out queue,
    the view the users of the queues reason with. *)

From stdpp Require Import prelude list.
From Stdlib Require Import ZArith Lia.
From S2P Require Import Prelude.
#[local] Open Scope Z_scope.

Record ring (E : Type) := mk_ring { r_slots : list E; r_head : Z; r_tail : Z }.
Arguments mk_ring {E}.
Arguments r_slots {E}.
Arguments r_head {E}.
Arguments r_tail {E}.

Section ring.
Context {E : Type} (cap : Z).
Implicit Types (r : ring E) (x : E).

(** [next = (head + 1) % cap; if (next == tail) return; q[head] = x;
    head = next;] *)
Definition ring_push (r : ring E) (x : E) : ring E :=
  let next := (r_head r + 1) mod cap in
  if next =? r_tail r then r
  else mk_ring (<[Z.to_nat (r_head r) := x]> (r_slots r)) next (r_tail r).

(** [if (tail == head) return none; x = q[tail]; tail = (tail + 1) % cap;] *)
Definition ring_pop (r : ring E) : option (E * ring E) :=
  if r_tail r =? r_head r then None
  else
    match r_slots r !! Z.to_nat (r_tail r) with
    | None => None
    | Some x => Some (x, mk_ring (r_slots r) (r_head r) ((r_tail r + 1) mod cap))
    end.

Record ring_wf (r : ring E) : Prop := {
  rw_cap : 2 <= cap;
  rw_len : Z.of_nat (length (r_slots r)) = cap;
  rw_head : 0 <= r_head r < cap;
  rw_tail : 0 <= r_tail r < cap
}.

(** The queued elements, oldest first. *)
Fixpoint take_ring (n : nat) (l : list E) (pos : Z) : list E :=
  match n with
  | O => []
  | S n' =>
      match l !! Z.to_nat pos with
      | Some x => x :: take_ring n' l ((pos + 1) mod cap)
      | None => []
      end
  end.

Definition ring_count (r : ring E) : Z := (r_head r - r_tail r) mod cap.
Definition ring_list (r : ring E) : list E := take_ring (Z.to_nat (ring_count r)) (r_slots r) (r_tail r).

Lemma slot_lookup (l : list E) pos :
  Z.of_nat (length l) = cap -> 0 <= pos < cap -> exists x, l !! Z.to_nat pos = Some x.
Proof. intros Hl Hp. apply lookup_lt_is_Some_2. lia. Qed.

Lemma mod_succ pos i : 0 < cap -> ((pos + 1) mod cap + i) mod cap = (pos + (i + 1)) mod cap.
Proof. intros. rewrite Zplus_mod_idemp_l. f_equal. lia. Qed.

Lemma take_ring_length n l pos : 0 < cap -> Z.of_nat (length l) = cap -> 0 <= pos < cap ->
  length (take_ring n l pos) = n.
Proof.
  intros Hc Hl. revert pos. induction n as [|n IH]; intros pos Hp; cbn; [done|].
  destruct (slot_lookup l pos Hl Hp) as [x ->]. cbn. f_equal. apply IH. by apply Z.mod_pos_bound.
Qed.

Lemma take_ring_snoc n l pos : 0 < cap -> Z.of_nat (length l) = cap -> 0 <= pos < cap ->
  exists x, l !! Z.to_nat ((pos + Z.of_nat n) mod cap) = Some x /\
    take_ring (S n) l pos = take_ring n l pos ++ [x].
Proof.
  intros Hc Hl. revert pos. induction n as [|n IH]; intros pos Hp.
  - destruct (slot_lookup l pos Hl Hp) as [x Ex]. exists x.
    rewrite Z.add_0_r, Z.mod_small by lia. split; [done|]. cbn. by rewrite Ex.
  - destruct (IH ((pos + 1) mod cap)) as (x & Ex & Et); [by apply Z.mod_pos_bound|].
    rewrite mod_succ in Ex by done. exists x.
    replace (pos + Z.of_nat (S n)) with (pos + (Z.of_nat n + 1)) by lia. split; [done|].
    destruct (slot_lookup l pos Hl Hp) as [y Ey].
    change (take_ring (S (S n)) l pos) with
      (match l !! Z.to_nat pos with Some x => x :: take_ring (S n) l ((pos + 1) mod cap) | None => [] end).
    rewrite Ey, Et. cbn [take_ring]. by rewrite Ey.
Qed.

Lemma take_ring_insert n l pos h x : 0 < cap -> 0 <= pos < cap -> 0 <= h ->
  (forall i, 0 <= i < Z.of_nat n -> (pos + i) mod cap <> h) ->
  take_ring n (<[Z.to_nat h := x]> l) pos = take_ring n l pos.
Proof.
  intros Hc. revert pos. induction n as [|n IH]; intros pos Hp Hh Hne; cbn; [done|].
  assert (Hp0 : pos <> h).
  { intros ->. apply (Hne 0); [lia|]. rewrite Z.add_0_r. by apply Z.mod_small. }
  rewrite list_lookup_insert_ne by lia. rewrite IH; [done|by apply Z.mod_pos_bound|done|].
  intros i Hi. rewrite mod_succ by done. apply Hne. lia.
Qed.

Lemma ring_count_bounds r : ring_wf r -> 0 <= ring_count r < cap.
Proof. intros W. apply Z.mod_pos_bound. pose proof (rw_cap _ W). lia. Qed.

Lemma ring_list_length r : ring_wf r -> Z.of_nat (length (ring_list r)) = ring_count r.
Proof.
  intros W. pose proof (ring_count_bounds r W). pose proof (rw_cap _ W). unfold ring_list.
  rewrite take_ring_length; [lia|lia|apply (rw_len _ W)|apply (rw_tail _ W)].
Qed.

(** A push appends, unless the queue already holds [cap - 1] elements. *)
Lemma ring_push_spec r x : ring_wf r ->
  ring_wf (ring_push r x) /\
  ring_list (ring_push r x) =
    if Z.of_nat (length (ring_list r)) <? cap - 1 then ring_list r ++ [x] else ring_list r.
Proof.
  intros W. pose proof (rw_cap _ W) as Hc. pose proof (rw_head _ W) as Hh. pose proof (rw_tail _ W) as Ht.
  pose proof (rw_len _ W) as Hl. pose proof (ring_count_bounds r W) as Hb.
  rewrite ring_list_length by done. unfold ring_push. set (next := (r_head r + 1) mod cap).
  assert (Hnext : 0 <= next < cap) by (apply Z.mod_pos_bound; lia).
  assert (Hcount : (next - r_tail r) mod cap = (ring_count r + 1) mod cap).
  { unfold next, ring_count. rewrite Zminus_mod_idemp_l, Zplus_mod_idemp_l. f_equal. lia. }
  destruct (Z.eqb_spec next (r_tail r)) as [E0|E0].
  - split; [done|]. rewrite E0, Z.sub_diag, Z.mod_0_l in Hcount by lia.
    destruct (Z.ltb_spec (ring_count r) (cap - 1)); [|done].
    rewrite Z.mod_small in Hcount by lia. lia.
  - assert (Hlt : ring_count r < cap - 1).
    { destruct (decide (ring_count r = cap - 1)) as [Ec|]; [|lia]. exfalso. apply E0.
      replace (ring_count r + 1) with cap in Hcount by lia. rewrite Z.mod_same in Hcount by lia.
      apply Z.mod_divide in Hcount as [q Hq]; [|lia].
      assert (- cap < next - r_tail r < cap) by lia. assert (q = 0) by nia. lia. }
    destruct (Z.ltb_spec (ring_count r) (cap - 1)); [|lia].
    split; [constructor; cbn; rewrite ?length_insert; done|].
    unfold ring_list, ring_count at 1. cbn. rewrite Hcount, Z.mod_small by lia.
    replace (Z.to_nat (ring_count r + 1)) with (S (Z.to_nat (ring_count r))) by lia.
    destruct (take_ring_snoc (Z.to_nat (ring_count r)) (<[Z.to_nat (r_head r) := x]> (r_slots r)) (r_tail r))
      as (y & Ey & ->); [lia|by rewrite length_insert|done|].
    assert (Eh : (r_tail r + ring_count r) mod cap = r_head r).
    { unfold ring_count. rewrite Zplus_mod_idemp_r. replace (r_tail r + (r_head r - r_tail r)) with (r_head r) by lia.
      by apply Z.mod_small. }
    rewrite Z2Nat.id, Eh, list_lookup_insert_eq in Ey by lia. injection Ey as <-. f_equal.
    apply take_ring_insert; [lia|done|lia|]. intros i Hi Hc'.
    assert (Hm : (r_tail r + i - r_head r) mod cap = 0).
    { rewrite Zminus_mod, Hc', (Z.mod_small (r_head r)), Z.sub_diag by lia. by apply Z.mod_0_l; lia. }
    rewrite <- Eh in Hm. rewrite Zminus_mod_idemp_r in Hm.
    replace (r_tail r + i - (r_tail r + ring_count r)) with (- (ring_count r - i)) in Hm by lia.
    apply Z.mod_divide in Hm as [q Hq]; [|lia]. assert (0 < ring_count r - i < cap) by lia.
    assert (- 1 < q < 0) by nia. lia.
Qed.

(** A pop takes the oldest element, and fails only on the empty queue. *)
Lemma ring_pop_spec r : ring_wf r ->
  match ring_list r with
  | [] => ring_pop r = None
  | x :: l => exists r', ring_pop r = Some (x, r') /\ ring_wf r' /\ ring_list r' = l
  end.
Proof.
  intros W. pose proof (rw_cap _ W) as Hc. pose proof (rw_head _ W) as Hh. pose proof (rw_tail _ W) as Ht.
  pose proof (ring_count_bounds r W) as Hb. unfold ring_pop.
  destruct (Z.eqb_spec (r_tail r) (r_head r)) as [E0|E0].
  - unfold ring_list, ring_count. rewrite E0, Z.sub_diag, Z.mod_0_l by lia. done.
  - assert (Hpos : 0 < ring_count r).
    { destruct (decide (ring_count r = 0)) as [Hz|]; [|lia]. exfalso. apply E0.
      apply Z.mod_divide in Hz as [q Hq]; [|lia]. assert (- cap < r_head r - r_tail r < cap) by lia.
      assert (q = 0) by nia. lia. }
    destruct (slot_lookup (r_slots r) (r_tail r) (rw_len _ W) Ht) as [x Ex].
    unfold ring_list at 1. replace (Z.to_nat (ring_count r)) with (S (Z.to_nat (ring_count r - 1))) by lia.
    cbn. rewrite Ex. eexists. split; [done|]. split.
    + constructor; cbn; [done|apply (rw_len _ W)|done|apply Z.mod_pos_bound; lia].
    + unfold ring_list, ring_count at 1. cbn. f_equal. f_equal.
      rewrite Zminus_mod_idemp_r. replace (r_head r - (r_tail r + 1)) with (r_head r - r_tail r - 1) by lia.
      rewrite Zminus_mod. fold (ring_count r). rewrite (Z.mod_small 1), Z.mod_small by lia. done.
Qed.
End ring.

Lemma ring_empty_wf {E} cap (l : list E) : 2 <= cap -> Z.of_nat (length l) = cap ->
  ring_wf cap (mk_ring l 0 0) /\ ring_list cap (mk_ring l 0 0) = [].
Proof. intros. split; [constructor; cbn; lia|]. unfold ring_list, ring_count. cbn. by rewrite Z.mod_0_l by lia. Qed.
