(* ===== verification/Net.v ===== *)
(** * Loopback network stack (src/net.c)

    The socket table with its message and pending-connection rings, the
    interface table and the routing table.  A pointer argument that may be
    null is an [option]; user buffers are addresses in memory. *)

From stdpp Require Import prelude list.
From Stdlib Require Import ZArith Lia.
From S2P Require Import Prelude Lib Ring.
#[local] Open Scope Z_scope.

Definition NET_AF_INET : Z := 2.
Definition NET_SOCK_STREAM : Z := 1.
Definition NET_SOCK_DGRAM : Z := 2.
Definition NET_MAX_SOCKETS : Z := 32.
Definition NET_MAX_QUEUE : Z := 16.
Definition NET_MAX_PAYLOAD : Z := 1500.
Definition NET_MAX_IFS : nat := 2.
Definition NET_MAX_ROUTES : Z := 8.
Definition NET_IF_NAME_MAX : Z := 8.
Definition NET_IF_SET_ADDR : Z := 1.
Definition NET_IF_SET_NETMASK : Z := 2.
Definition NET_IF_SET_MAC : Z := 4.
Definition NET_IF_SET_UP : Z := 8.

Inductive net_state := NET_STATE_FREE | NET_STATE_BOUND | NET_STATE_LISTEN | NET_STATE_CONNECTED.

#[export] Instance net_state_eq_dec : EqDecision net_state.
Proof. solve_decision. Defined.

Record sockaddr_in := mk_addr { sa_addr : Z; sa_port : Z }.

(** [data] holds the [len] bytes that were copied in. *)
Record net_msg := mk_msg { msg_data : list Z; msg_src : sockaddr_in }.

Record net_socket_t := mk_sock {
  so_in_use : bool;
  so_type : Z;
  so_state : net_state;
  so_local : sockaddr_in;
  so_remote : sockaddr_in;
  so_peer : Z;
  so_owner_pid : Z;
  so_queue : ring net_msg;
  so_pending : ring Z
}.

Record net_ifinfo := mk_if {
  if_name : list Z; if_mac : list Z; if_addr : Z; if_netmask : Z; if_up : Z; if_present : bool
}.
Record net_ifreq := mk_ifreq {
  rq_name : list Z; rq_addr : Z; rq_netmask : Z; rq_mac : list Z; rq_up : Z; rq_flags : Z
}.
Record net_route := mk_route { rt_dest : Z; rt_netmask : Z; rt_gateway : Z }.

Record net := mk_net {
  g_sockets : list net_socket_t;
  g_netifs : list net_ifinfo;
  g_routes : list net_route;          (* the first g_route_count entries *)
}.

Definition set_sockets (g : net) (l : list net_socket_t) : net := mk_net l (g_netifs g) (g_routes g).

Definition zero_addr : sockaddr_in := mk_addr 0 0.
Definition zero_queue : ring net_msg := mk_ring (replicate 16 (mk_msg [] zero_addr)) 0 0.
Definition zero_pending : ring Z := mk_ring (replicate 16 0) 0 0.
(** A socket as memset leaves it. *)
Definition zero_socket : net_socket_t :=
  mk_sock false 0 NET_STATE_FREE zero_addr zero_addr 0 0 zero_queue zero_pending.

(** Field updates. *)
Definition so_set_queue (s : net_socket_t) (q : ring net_msg) : net_socket_t :=
  mk_sock (so_in_use s) (so_type s) (so_state s) (so_local s) (so_remote s) (so_peer s) (so_owner_pid s) q (so_pending s).
Definition so_set_pending (s : net_socket_t) (q : ring Z) : net_socket_t :=
  mk_sock (so_in_use s) (so_type s) (so_state s) (so_local s) (so_remote s) (so_peer s) (so_owner_pid s) (so_queue s) q.
Definition so_set_peer (s : net_socket_t) (p : Z) : net_socket_t :=
  mk_sock (so_in_use s) (so_type s) (so_state s) (so_local s) (so_remote s) p (so_owner_pid s) (so_queue s) (so_pending s).
Definition so_set_state (s : net_socket_t) (st : net_state) : net_socket_t :=
  mk_sock (so_in_use s) (so_type s) st (so_local s) (so_remote s) (so_peer s) (so_owner_pid s) (so_queue s) (so_pending s).

(** ** Sockets *)

Definition index_from_fd (fd : Z) : Z := fd - 1.
Definition fd_from_index (idx : Z) : Z := idx + 1.

(** The slot number and the socket behind a descriptor. *)
Definition get_socket (g : net) (fd : Z) : option (nat * net_socket_t) :=
  let idx := index_from_fd fd in
  if (idx <? 0) || (NET_MAX_SOCKETS <=? idx) then None
  else
    match g_sockets g !! Z.to_nat idx with
    | Some s => if so_in_use s then Some (Z.to_nat idx, s) else None
    | None => None
    end.

Definition put_socket (g : net) (i : nat) (s : net_socket_t) : net :=
  set_sockets g (<[i := s]> (g_sockets g)).

Definition alloc_socket (g : net) : Z * net :=
  match list_find (fun s => so_in_use s = false) (g_sockets g) with
  | Some (i, _) =>
      (fd_from_index (Z.of_nat i),
       put_socket g i (mk_sock true 0 NET_STATE_FREE zero_addr zero_addr (-1) 0 zero_queue zero_pending))
  | None => (-1, g)
  end.

Definition enqueue_msg (s : net_socket_t) (msg : net_msg) : net_socket_t :=
  so_set_queue s (ring_push NET_MAX_QUEUE (so_queue s) msg).
Definition dequeue_msg (s : net_socket_t) : option (net_msg * net_socket_t) :=
  match ring_pop NET_MAX_QUEUE (so_queue s) with
  | None => None
  | Some (msg, q) => Some (msg, so_set_queue s q)
  end.
Definition enqueue_pending (s : net_socket_t) (fd : Z) : net_socket_t :=
  so_set_pending s (ring_push NET_MAX_QUEUE (so_pending s) fd).
Definition dequeue_pending (s : net_socket_t) : Z * net_socket_t :=
  match ring_pop NET_MAX_QUEUE (so_pending s) with
  | None => (-1, s)
  | Some (fd, q) => (fd, so_set_pending s q)
  end.

Definition bytes_of_name (n : list Z) : list Z := n ++ replicate (8 - length n) 0.

Definition net_init : net :=
  mk_net (replicate 32 zero_socket)
    [mk_if (bytes_of_name [108; 111]) (replicate 6 0) 2130706433 4278190080 1 true;
     mk_if (bytes_of_name [101; 116; 104; 48]) [82; 84; 0; 18; 52; 86] 3232235522 4294967040 1 true]
    [mk_route 0 0 3232235521].

Definition net_socket (g : net) (domain type owner_pid : Z) : Z * net :=
  if negb (domain =? NET_AF_INET) then (-1, g)
  else if negb (type =? NET_SOCK_STREAM) && negb (type =? NET_SOCK_DGRAM) then (-1, g)
  else
    let '(fd, g) := alloc_socket g in
    if fd <? 0 then (-1, g)
    else
      match get_socket g fd with
      | Some (i, s) =>
          (fd, put_socket g i (mk_sock (so_in_use s) type NET_STATE_BOUND
                 (mk_addr 2130706433 (sa_port (so_local s))) (so_remote s) (so_peer s) owner_pid
                 (so_queue s) (so_pending s)))
      | None => (fd, g)
      end.

Definition net_bind (g : net) (fd : Z) (addr : option sockaddr_in) : Z * net :=
  match get_socket g fd, addr with
  | Some (i, s), Some a =>
      (0, put_socket g i (mk_sock (so_in_use s) (so_type s) NET_STATE_BOUND a (so_remote s)
             (so_peer s) (so_owner_pid s) (so_queue s) (so_pending s)))
  | _, _ => (-1, g)
  end.

Definition net_listen (g : net) (fd : Z) : Z * net :=
  match get_socket g fd with
  | Some (i, s) =>
      if negb (so_type s =? NET_SOCK_STREAM) then (-1, g)
      else (0, put_socket g i (so_set_state s NET_STATE_LISTEN))
  | None => (-1, g)
  end.

(** The second component is what is stored through [addr], when it is not
    null. *)
Definition net_accept (g : net) (fd : Z) : Z * option sockaddr_in * net :=
  match get_socket g fd with
  | Some (i, s) =>
      if negb (bool_decide (so_state s = NET_STATE_LISTEN)) then (-1, None, g)
      else
        let '(child_fd, s) := dequeue_pending s in
        let g := put_socket g i s in
        if child_fd <? 0 then (-1, None, g)
        else
          match get_socket g child_fd with
          | Some (_, child) => (child_fd, Some (so_remote child), g)
          | None => (child_fd, None, g)
          end
  | None => (-1, None, g)
  end.

Definition is_listener (port : Z) (s : net_socket_t) : Prop :=
  so_in_use s = true /\ so_state s = NET_STATE_LISTEN /\ sa_port (so_local s) = port.

Definition net_connect (g : net) (fd : Z) (addr : option sockaddr_in) : Z * net :=
  match get_socket g fd, addr with
  | Some (ci, client), Some a =>
      if negb (so_type client =? NET_SOCK_STREAM) then (-1, g)
      else
        match list_find (is_listener (sa_port a)) (g_sockets g) with
        | None => (-1, g)
        | Some (li, listener) =>
            let '(server_fd, g) := alloc_socket g in
            if server_fd <? 0 then (-1, g)
            else
              let si := Z.to_nat (index_from_fd server_fd) in
              let g := put_socket g si
                (mk_sock true NET_SOCK_STREAM NET_STATE_CONNECTED (so_local listener) (so_local client)
                   (index_from_fd fd) (so_owner_pid listener) zero_queue zero_pending) in
              let g := put_socket g ci
                (mk_sock (so_in_use client) (so_type client) NET_STATE_CONNECTED (so_local client) a
                   (index_from_fd server_fd) (so_owner_pid client) (so_queue client) (so_pending client)) in
              match g_sockets g !! li with
              | Some listener => (0, put_socket g li (enqueue_pending listener server_fd))
              | None => (0, g)
              end
        end
  | _, _ => (-1, g)
  end.

(** [memcpy] out of and into the user's buffer. *)
Definition read_bytes (m : mem) (a n : Z) : list Z :=
  (fun i => ld8 m (a + Z.of_nat i)) <$> seq 0 (Z.to_nat n).

Definition is_dgram_on (port : Z) (s : net_socket_t) : Prop :=
  so_in_use s = true /\ so_type s = NET_SOCK_DGRAM /\ sa_port (so_local s) = port.

Definition net_sendto (g : net) (m : mem) (fd buf len : Z) (addr : option sockaddr_in) : Z * net :=
  match get_socket g fd with
  | None => (-1, g)
  | Some (_, s) =>
      if buf =? 0 then (-1, g)
      else
        let len := if NET_MAX_PAYLOAD <? len then NET_MAX_PAYLOAD else len in
        let msg := mk_msg (read_bytes m buf len) (so_local s) in
        if so_type s =? NET_SOCK_DGRAM then
          match addr with
          | None => (-1, g)
          | Some a =>
              match list_find (is_dgram_on (sa_port a)) (g_sockets g) with
              | Some (i, d) => (len, put_socket g i (enqueue_msg d msg))
              | None => (len, g)
              end
          end
        else if (so_type s =? NET_SOCK_STREAM) && bool_decide (so_state s = NET_STATE_CONNECTED)
                && (0 <=? so_peer s) then
          match g_sockets g !! Z.to_nat (so_peer s) with
          | None => (-1, g)              (* index out of the table *)
          | Some peer =>
              if negb (so_in_use peer) then (-1, g)
              else (len, put_socket g (Z.to_nat (so_peer s)) (enqueue_msg peer msg))
          end
        else (-1, g)
  end.

(** Return value, memory after the copy, sender address stored through a
    non-null [addr], and the new state. *)
Definition net_recvfrom (g : net) (m : mem) (fd buf len : Z)
    : Z * mem * option sockaddr_in * net :=
  match get_socket g fd with
  | None => (-1, m, None, g)
  | Some (i, s) =>
      if buf =? 0 then (-1, m, None, g)
      else
        match dequeue_msg s with
        | None => (0, m, None, g)
        | Some (msg, s) =>
            let mlen := Z.of_nat (length (msg_data msg)) in
            let len := if mlen <? len then mlen else len in
            (len, mem_put m buf (take (Z.to_nat len) (msg_data msg)), Some (msg_src msg), put_socket g i s)
        end
  end.

Definition net_close (g : net) (fd : Z) : Z * net :=
  match get_socket g fd with
  | None => (-1, g)
  | Some (i, s) =>
      let g :=
        if (0 <=? so_peer s) && (so_peer s <? NET_MAX_SOCKETS) then
          match g_sockets g !! Z.to_nat (so_peer s) with
          | Some p => put_socket g (Z.to_nat (so_peer s)) (so_set_peer p (-1))
          | None => g
          end
        else g in
      (0, put_socket g i zero_socket)
  end.

Record net_socket_info := mk_info {
  in_in_use : bool; in_type : Z; in_state : net_state;
  in_local : sockaddr_in; in_remote : sockaddr_in; in_owner : Z
}.

(** The result through [out]; [None] is the return value -1. *)
Definition net_socket_get (g : net) (index : Z) : option net_socket_info :=
  if NET_MAX_SOCKETS <=? index then None
  else
    match g_sockets g !! Z.to_nat index with
    | Some s => Some (mk_info (so_in_use s) (so_type s) (so_state s) (so_local s) (so_remote s) (so_owner_pid s))
    | None => None
    end.

(** ** Interfaces and routes *)

Definition net_if_get (g : net) (index : Z) : option net_ifinfo :=
  match g_netifs g !! Z.to_nat index with
  | Some i => if if_present i then Some i else None
  | None => None
  end.

(** [strncmp] of two name fields laid side by side. *)
Definition name_cmp (a b : list Z) : Z :=
  strncmp (fun x => if x <? 8 then nth (Z.to_nat x) a 0 else nth (Z.to_nat (x - 8)) b 0) 0 8 NET_IF_NAME_MAX.

Definition if_matches (name : list Z) (i : net_ifinfo) : Prop :=
  if_present i = true /\ name_cmp (if_name i) name = 0.

Definition net_if_set (g : net) (req : option net_ifreq) : Z * net :=
  match req with
  | None => (-1, g)
  | Some rq =>
      match list_find (if_matches (rq_name rq)) (g_netifs g) with
      | None => (-1, g)
      | Some (k, i) =>
          let on f := negb (Z.land (rq_flags rq) f =? 0) in
          let i' := mk_if (if_name i)
            (if on NET_IF_SET_MAC then rq_mac rq else if_mac i)
            (if on NET_IF_SET_ADDR then rq_addr rq else if_addr i)
            (if on NET_IF_SET_NETMASK then rq_netmask rq else if_netmask i)
            (if on NET_IF_SET_UP then (if rq_up rq =? 0 then 0 else 1) else if_up i)
            (if_present i) in
          (0, mk_net (g_sockets g) (<[k := i']> (g_netifs g)) (g_routes g))
      end
  end.

Definition net_route_get (g : net) (index : Z) : option net_route := g_routes g !! Z.to_nat index.

Definition same_dest (r r' : net_route) : Prop :=
  rt_dest r' = rt_dest r /\ rt_netmask r' = rt_netmask r.

Definition net_route_add (g : net) (route : option net_route) : Z * net :=
  match route with
  | None => (-1, g)
  | Some r =>
      match list_find (same_dest r) (g_routes g) with
      | Some (i, old) =>
          (0, mk_net (g_sockets g) (g_netifs g)
                (<[i := mk_route (rt_dest old) (rt_netmask old) (rt_gateway r)]> (g_routes g)))
      | None =>
          if NET_MAX_ROUTES <=? Z.of_nat (length (g_routes g)) then (-1, g)
          else (0, mk_net (g_sockets g) (g_netifs g) (g_routes g ++ [r]))
      end
  end.

(** ** Well-formed tables *)

Record sock_wf (s : net_socket_t) : Prop := {
  sk_queue : ring_wf NET_MAX_QUEUE (so_queue s);
  sk_pending : ring_wf NET_MAX_QUEUE (so_pending s);
  sk_peer : -1 <= so_peer s < NET_MAX_SOCKETS;
  sk_payload : Forall (fun msg => Z.of_nat (length (msg_data msg)) <= NET_MAX_PAYLOAD)
                 (ring_list NET_MAX_QUEUE (so_queue s))
}.

Record net_wf (g : net) : Prop := {
  nw_len : Z.of_nat (length (g_sockets g)) = NET_MAX_SOCKETS;
  nw_socks : Forall sock_wf (g_sockets g);
  nw_routes : Z.of_nat (length (g_routes g)) <= NET_MAX_ROUTES;
  nw_ifs : length (g_netifs g) = NET_MAX_IFS
}.

Lemma zero_queue_wf : ring_wf NET_MAX_QUEUE zero_queue /\ ring_list NET_MAX_QUEUE zero_queue = [].
Proof. by apply ring_empty_wf. Qed.
Lemma zero_pending_wf : ring_wf NET_MAX_QUEUE zero_pending /\ ring_list NET_MAX_QUEUE zero_pending = [].
Proof. by apply ring_empty_wf. Qed.

(** A socket with empty rings. *)
Lemma sock_wf_fresh u ty st lo re pe ow : -1 <= pe < NET_MAX_SOCKETS ->
  sock_wf (mk_sock u ty st lo re pe ow zero_queue zero_pending).
Proof.
  intros. constructor; cbn; [apply zero_queue_wf|apply zero_pending_wf|done|].
  rewrite (proj2 zero_queue_wf). constructor.
Qed.

(** The fields the invariant does not look at may change. *)
Lemma sock_wf_fields s u ty st lo re ow : sock_wf s ->
  sock_wf (mk_sock u ty st lo re (so_peer s) ow (so_queue s) (so_pending s)).
Proof. intros [? ? ? ?]. by constructor. Qed.

Lemma sock_wf_peer s u ty st lo re p ow : sock_wf s -> -1 <= p < NET_MAX_SOCKETS ->
  sock_wf (mk_sock u ty st lo re p ow (so_queue s) (so_pending s)).
Proof. intros [? ? ? ?] ?. by constructor. Qed.

Lemma enqueue_msg_wf s msg : sock_wf s -> Z.of_nat (length (msg_data msg)) <= NET_MAX_PAYLOAD ->
  sock_wf (enqueue_msg s msg).
Proof.
  intros [Q P Pe Pl] Hm. destruct (ring_push_spec _ (so_queue s) msg Q) as [Q' E].
  constructor; cbn; [done|done|done|]. rewrite E. destruct (_ <? _); [|done].
  apply Forall_app. split; [done|]. by constructor; [|constructor].
Qed.

Lemma enqueue_pending_wf s fd : sock_wf s -> sock_wf (enqueue_pending s fd).
Proof.
  intros [Q P Pe Pl]. destruct (ring_push_spec _ (so_pending s) fd P) as [P' _]. by constructor.
Qed.

Lemma dequeue_msg_cases s : sock_wf s ->
  match ring_list NET_MAX_QUEUE (so_queue s) with
  | [] => dequeue_msg s = None
  | msg :: l => exists s', dequeue_msg s = Some (msg, s') /\ sock_wf s' /\
      ring_list NET_MAX_QUEUE (so_queue s') = l
  end.
Proof.
  intros [Q P Pe Pl]. unfold dequeue_msg. pose proof (ring_pop_spec _ (so_queue s) Q) as H.
  destruct (ring_list NET_MAX_QUEUE (so_queue s)) as [|msg l]; [by rewrite H|].
  destruct H as (q & -> & Q' & E). eexists. split; [done|]. split; [|done].
  constructor; cbn; [done|done|done|]. rewrite E. by apply List.Forall_cons_iff in Pl as [_ ?].
Qed.

Lemma dequeue_pending_cases s : sock_wf s ->
  match ring_list NET_MAX_QUEUE (so_pending s) with
  | [] => dequeue_pending s = (-1, s)
  | fd :: l => exists s', dequeue_pending s = (fd, s') /\ sock_wf s' /\
      ring_list NET_MAX_QUEUE (so_pending s') = l /\ so_queue s' = so_queue s
  end.
Proof.
  intros [Q P Pe Pl]. unfold dequeue_pending. pose proof (ring_pop_spec _ (so_pending s) P) as H.
  destruct (ring_list NET_MAX_QUEUE (so_pending s)) as [|fd l]; [by rewrite H|].
  destruct H as (q & -> & Q' & E). eexists. split; [done|]. by split.
Qed.

Lemma get_socket_Some g fd i s : get_socket g fd = Some (i, s) <->
  0 < fd <= NET_MAX_SOCKETS /\ i = Z.to_nat (fd - 1) /\ g_sockets g !! i = Some s /\ so_in_use s = true.
Proof.
  unfold get_socket, index_from_fd, NET_MAX_SOCKETS.
  destruct (Z.ltb_spec (fd - 1) 0); [cbn; split; [done|lia]|].
  destruct (Z.leb_spec 32 (fd - 1)); [cbn; split; [done|lia]|]. cbn.
  destruct (g_sockets g !! Z.to_nat (fd - 1)) as [s'|] eqn:E.
  - destruct (so_in_use s') eqn:Eu.
    + split; [intros [= <- <-]; repeat split; try done; lia|]. intros (_ & -> & E' & _). congruence.
    + split; [done|]. intros (_ & -> & E' & Eu'). congruence.
  - split; [done|]. intros (_ & -> & E' & _). congruence.
Qed.

Lemma net_wf_sock g i s : net_wf g -> g_sockets g !! i = Some s -> sock_wf s.
Proof. intros W Hi. pose proof (nw_socks _ W) as F. rewrite Forall_lookup in F. by eapply F. Qed.

Lemma put_socket_wf g i s : net_wf g -> sock_wf s -> net_wf (put_socket g i s).
Proof.
  intros W Hs. constructor; cbn; try apply W.
  - rewrite length_insert. apply (nw_len _ W).
  - by apply Forall_insert; [apply (nw_socks _ W)|].
Qed.

Lemma alloc_socket_cases g : net_wf g ->
  (alloc_socket g = (-1, g) /\ Forall (fun s => so_in_use s = true) (g_sockets g)) \/
  (exists i old, (i < 32)%nat /\ g_sockets g !! i = Some old /\ so_in_use old = false /\
     alloc_socket g = (Z.of_nat i + 1, put_socket g i
       (mk_sock true 0 NET_STATE_FREE zero_addr zero_addr (-1) 0 zero_queue zero_pending))).
Proof.
  intros W. unfold alloc_socket. destruct (list_find _ (g_sockets g)) as [[i s]|] eqn:E.
  - right. apply list_find_Some in E as (Hi & Hf & _). exists i, s.
    pose proof (nw_len _ W). pose proof (lookup_lt_Some _ _ _ Hi). unfold NET_MAX_SOCKETS in *.
    split; [lia|]. done.
  - left. split; [done|]. apply list_find_None in E. eapply Forall_impl; [exact E|].
    cbn. intros s Hs. by destruct (so_in_use s).
Qed.

Lemma read_bytes_length m a n : 0 <= n -> Z.of_nat (length (read_bytes m a n)) = n.
Proof. intros. unfold read_bytes. rewrite length_fmap, length_seq. lia. Qed.

(** ** Operations preserve the tables *)

Ltac net_sock W :=
  match goal with
  | H : get_socket _ _ = Some (_, _) |- _ =>
      let Hs := fresh "Hs" in
      pose proof (proj1 (get_socket_Some _ _ _ _) H) as (_ & _ & Hs & _);
      apply (net_wf_sock _ _ _ W) in Hs
  end.

Lemma net_socket_wf g d t p : net_wf g -> net_wf (snd (net_socket g d t p)).
Proof.
  intros W. unfold net_socket. repeat (destruct (negb _); [done|]).
  destruct (negb (t =? NET_SOCK_STREAM) && _); [done|].
  destruct (alloc_socket_cases g W) as [[-> _]|(i & old & Hi & Hl & Hu & ->)]; [done|].
  destruct (Z.ltb_spec (Z.of_nat i + 1) 0); [lia|].
  assert (W' : net_wf (put_socket g i
    (mk_sock true 0 NET_STATE_FREE zero_addr zero_addr (-1) 0 zero_queue zero_pending)))
    by (apply put_socket_wf; [done|by apply sock_wf_fresh]).
  destruct (get_socket _ _) as [[j s]|] eqn:E; [|done]. net_sock W'.
  apply put_socket_wf; [done|]. by apply sock_wf_fields.
Qed.

Lemma net_bind_wf g fd a : net_wf g -> net_wf (snd (net_bind g fd a)).
Proof.
  intros W. unfold net_bind. destruct (get_socket g fd) as [[i s]|] eqn:E; [|done].
  destruct a; [|done]. net_sock W. apply put_socket_wf; [done|]. by apply sock_wf_fields.
Qed.

Lemma net_listen_wf g fd : net_wf g -> net_wf (snd (net_listen g fd)).
Proof.
  intros W. unfold net_listen. destruct (get_socket g fd) as [[i s]|] eqn:E; [|done].
  destruct (negb _); [done|]. net_sock W. apply put_socket_wf; [done|]. by apply sock_wf_fields.
Qed.

Lemma net_accept_wf g fd : net_wf g -> net_wf (snd (net_accept g fd)).
Proof.
  intros W. unfold net_accept. destruct (get_socket g fd) as [[i s]|] eqn:E; [|done].
  destruct (negb _); [done|]. net_sock W. pose proof (dequeue_pending_cases s Hs) as D.
  assert (D' : sock_wf (snd (dequeue_pending s))).
  { destruct (ring_list _ _); [by rewrite D|]. by destruct D as (s' & -> & ? & _). }
  destruct (dequeue_pending s) as [c s']. cbn in D'.
  assert (net_wf (put_socket g i s')) by (by apply put_socket_wf).
  destruct (c <? 0); [done|]. by destruct (get_socket _ c) as [[]|].
Qed.

Lemma net_connect_wf g fd a : net_wf g -> net_wf (snd (net_connect g fd a)).
Proof.
  intros W. unfold net_connect. destruct (get_socket g fd) as [[ci c]|] eqn:E; [|done].
  destruct a as [a|]; [|done]. destruct (negb _); [done|].
  destruct (list_find _ _) as [[li l]|] eqn:El; [|done].
  pose proof (proj1 (get_socket_Some _ _ _ _) E) as (Hfd & _ & _ & _). net_sock W.
  destruct (alloc_socket_cases g W) as [[-> _]|(i & old & Hi & Hl & Hu & ->)]; [done|].
  destruct (Z.ltb_spec (Z.of_nat i + 1) 0); [lia|].
  set (g1 := put_socket (put_socket (put_socket g i _) _ _) ci _).
  assert (W1 : net_wf g1).
  { unfold index_from_fd, NET_MAX_SOCKETS in *.
    apply put_socket_wf; [apply put_socket_wf; [apply put_socket_wf|]|]; [done|by apply sock_wf_fresh|..].
    - apply sock_wf_fresh. unfold NET_MAX_SOCKETS. lia.
    - apply sock_wf_peer; [done|]. unfold NET_MAX_SOCKETS. lia. }
  destruct (g_sockets g1 !! li) as [l1|] eqn:El1; [|done].
  apply put_socket_wf; [done|]. apply enqueue_pending_wf. by eapply net_wf_sock.
Qed.

Lemma sent_len len : 0 <= len -> 0 <= (if NET_MAX_PAYLOAD <? len then NET_MAX_PAYLOAD else len) <= NET_MAX_PAYLOAD.
Proof. intros. unfold NET_MAX_PAYLOAD. destruct (Z.ltb_spec 1500 len); lia. Qed.

Lemma net_sendto_wf g m fd buf len a : net_wf g -> 0 <= len -> net_wf (snd (net_sendto g m fd buf len a)).
Proof.
  intros W Hlen. unfold net_sendto. destruct (get_socket g fd) as [[i s]|] eqn:E; [|done].
  destruct (buf =? 0); [done|]. pose proof (sent_len len Hlen) as Hl.
  set (n := if NET_MAX_PAYLOAD <? len then _ else len) in *.
  assert (Hmsg : forall d, sock_wf d -> sock_wf (enqueue_msg d (mk_msg (read_bytes m buf n) (so_local s)))).
  { intros d Hd. apply enqueue_msg_wf; [done|]. cbn. rewrite read_bytes_length by lia. lia. }
  destruct (so_type s =? NET_SOCK_DGRAM).
  - destruct a as [a|]; [|done]. destruct (list_find _ _) as [[j d]|] eqn:Ef; [|done].
    apply list_find_Some in Ef as (Hj & _). apply put_socket_wf; [done|]. apply Hmsg. by eapply net_wf_sock.
  - destruct (_ && _); [|done]. destruct (g_sockets g !! _) as [p|] eqn:Ep; [|done].
    destruct (negb _); [done|]. apply put_socket_wf; [done|]. apply Hmsg. by eapply net_wf_sock.
Qed.

Lemma net_recvfrom_wf g m fd buf len : net_wf g -> net_wf (snd (net_recvfrom g m fd buf len)).
Proof.
  intros W. unfold net_recvfrom. destruct (get_socket g fd) as [[i s]|] eqn:E; [|done].
  destruct (buf =? 0); [done|]. net_sock W. pose proof (dequeue_msg_cases s Hs) as D.
  destruct (ring_list _ _); [by rewrite D|]. destruct D as (s' & -> & Hs' & _). cbn.
  by apply put_socket_wf.
Qed.

Lemma net_close_wf g fd : net_wf g -> net_wf (snd (net_close g fd)).
Proof.
  intros W. unfold net_close. destruct (get_socket g fd) as [[i s]|] eqn:E; [|done]. cbn.
  apply put_socket_wf; [|by apply sock_wf_fresh]. destruct (_ && _); [|done].
  destruct (g_sockets g !! _) as [p|] eqn:Ep; [|done]. apply put_socket_wf; [done|].
  apply sock_wf_peer; [by eapply net_wf_sock|]. unfold NET_MAX_SOCKETS. lia.
Qed.

Lemma net_if_set_wf g rq : net_wf g -> net_wf (snd (net_if_set g rq)).
Proof.
  intros W. destruct rq as [rq|]; [|done]. cbn. destruct (list_find _ _) as [[k i]|]; [|done].
  constructor; cbn; try apply W. rewrite length_insert. apply W.
Qed.

Lemma net_route_add_wf g r : net_wf g -> net_wf (snd (net_route_add g r)).
Proof.
  intros W. destruct r as [r|]; [|done]. cbn. destruct (list_find _ _) as [[k i]|].
  - constructor; cbn; try apply W. rewrite length_insert. apply W.
  - destruct (Z.leb_spec NET_MAX_ROUTES (Z.of_nat (length (g_routes g)))); [done|].
    constructor; cbn; try apply W. rewrite length_app. cbn. lia.
Qed.

(** ** Sequences of calls *)

Inductive net_step (g : net) : net -> Prop :=
| ns_socket d t p : net_step g (snd (net_socket g d t p))
| ns_bind fd a : net_step g (snd (net_bind g fd a))
| ns_listen fd : net_step g (snd (net_listen g fd))
| ns_accept fd : net_step g (snd (net_accept g fd))
| ns_connect fd a : net_step g (snd (net_connect g fd a))
| ns_sendto m fd buf len a : 0 <= len -> net_step g (snd (net_sendto g m fd buf len a))
| ns_recvfrom m fd buf len : net_step g (snd (net_recvfrom g m fd buf len))
| ns_close fd : net_step g (snd (net_close g fd))
| ns_if_set rq : net_step g (snd (net_if_set g rq))
| ns_route_add r : net_step g (snd (net_route_add g r)).

Create HintDb net.
#[export] Hint Resolve net_socket_wf net_bind_wf net_listen_wf net_accept_wf net_connect_wf
  net_sendto_wf net_recvfrom_wf net_close_wf net_if_set_wf net_route_add_wf : net.

Lemma net_step_wf g g' : net_step g g' -> net_wf g -> net_wf g'.
Proof. destruct 1; auto with net. Qed.

Lemma net_init_wf : net_wf net_init.
Proof.
  constructor; [reflexivity| |cbn; unfold NET_MAX_ROUTES; lia|reflexivity].
  apply Forall_replicate. apply sock_wf_fresh. unfold NET_MAX_SOCKETS. lia.
Qed.

(** A message put at the end of the queue, or dropped when it is full. *)
Definition delivered (p : net_socket_t) (msg : net_msg) : list net_msg :=
  let q := ring_list NET_MAX_QUEUE (so_queue p) in
  if Z.of_nat (length q) <? NET_MAX_QUEUE - 1 then q ++ [msg] else q.

Lemma enqueue_msg_list p msg : sock_wf p ->
  ring_list NET_MAX_QUEUE (so_queue (enqueue_msg p msg)) = delivered p msg.
Proof. intros [Q _ _ _]. by destruct (ring_push_spec _ (so_queue p) msg Q). Qed.

Lemma get_put_eq g i s fd : net_wf g -> 0 < fd <= NET_MAX_SOCKETS -> i = Z.to_nat (fd - 1) ->
  so_in_use s = true -> get_socket (put_socket g i s) fd = Some (i, s).
Proof.
  intros W Hfd Hi Hu. apply get_socket_Some. split; [done|]. split; [done|]. split; [|done].
  apply list_lookup_insert_eq. pose proof (nw_len _ W). unfold NET_MAX_SOCKETS in *. lia.
Qed.

Lemma get_put_ne g i s fd : Z.to_nat (fd - 1) <> i -> 0 < fd -> get_socket (put_socket g i s) fd = get_socket g fd.
Proof.
  intros Hne Hfd. unfold get_socket, index_from_fd. destruct (_ || _); [done|].
  cbn. by rewrite list_lookup_insert_ne by congruence.
Qed.

Lemma mem_put_read m a bs : (forall b, In b bs -> is_u8 b) ->
  read_bytes (mem_put m a bs) a (Z.of_nat (length bs)) = bs.
Proof.
  intros Hb. unfold read_bytes, mem_put. apply list_eq. intros i.
  rewrite list_lookup_fmap, Nat2Z.id. destruct (decide (i < length bs)%nat) as [Hi|Hi].
  - rewrite lookup_seq_lt by done. cbn. destruct (lookup_lt_is_Some_2 bs i Hi) as [b Eb]. rewrite Eb. f_equal.
    unfold ld8. in_range_cases; [|lia]. replace (Z.to_nat (a + Z.of_nat i - a)) with i by lia.
    rewrite (nth_lookup_Some bs i 0 b Eb). apply u8_small, Hb, list_elem_of_In. by eapply list_elem_of_lookup_2.
  - rewrite lookup_seq_ge by lia. cbn. symmetry. apply lookup_ge_None. lia.
Qed.

Lemma read_bytes_u8 m a n b : In b (read_bytes m a n) -> is_u8 b.
Proof.
  intros Hb. apply list_elem_of_In, list_elem_of_fmap in Hb as (i & -> & _). apply ld8_range.
Qed.

(** * Properties *)

(** C35: starting from [net_init], after any sequence of calls with any
    arguments, the tables are well formed: 32 sockets, every ring index in
    range, every queued message within the payload limit, at most 8
    routes, and every peer index of a socket designates a slot of the
    table, so the unchecked access to the peer in [net_sendto] is in
    bounds. *)
Theorem net_reachable_wf g :
  rtc net_step net_init g ->
  net_wf g /\
  forall i s, g_sockets g !! i = Some s -> 0 <= so_peer s -> is_Some (g_sockets g !! Z.to_nat (so_peer s)).
Proof.
  intros H. assert (W : net_wf g).
  { remember net_init as g0 eqn:E0. assert (W0 : net_wf g0) by (rewrite E0; apply net_init_wf). clear E0.
    induction H as [|g0 g1 g2 H01 _ IH]; [done|]. apply IH. by eapply net_step_wf. }
  split; [done|]. intros i s Hi Hp. apply lookup_lt_is_Some_2.
  pose proof (sk_peer _ (net_wf_sock g i s W Hi)). pose proof (nw_len _ W). unfold NET_MAX_SOCKETS in *. lia.
Qed.

Lemma net_reachable_wf_witness : net_wf (snd (net_socket net_init NET_AF_INET NET_SOCK_DGRAM 1)).
Proof.
  apply (net_reachable_wf (snd (net_socket net_init NET_AF_INET NET_SOCK_DGRAM 1))).
  eapply rtc_l; [apply ns_socket|apply rtc_refl].
Defined.

(** [net_sendto] delivers: a connected stream socket puts the message
    (the first 1500 bytes of the buffer, stamped with the sender's local
    address) at the end of its peer's queue, a datagram socket puts it at
    the end of the queue of the first datagram socket bound to the target
    port; a full queue drops it.  The call reports the clipped length in
    all these cases, and no other socket changes. *)
Theorem net_sendto_delivers g m fd buf len i s :
  net_wf g -> get_socket g fd = Some (i, s) -> buf <> 0 -> 0 <= len ->
  let n := Z.min len NET_MAX_PAYLOAD in
  let msg := mk_msg (read_bytes m buf n) (so_local s) in
  (forall p addr, so_type s = NET_SOCK_STREAM -> so_state s = NET_STATE_CONNECTED -> 0 <= so_peer s ->
     g_sockets g !! Z.to_nat (so_peer s) = Some p -> so_in_use p = true ->
     exists p', net_sendto g m fd buf len addr = (n, put_socket g (Z.to_nat (so_peer s)) p') /\
       p' = so_set_queue p (so_queue p') /\ ring_list NET_MAX_QUEUE (so_queue p') = delivered p msg) /\
  (forall a, so_type s = NET_SOCK_DGRAM ->
     match list_find (is_dgram_on (sa_port a)) (g_sockets g) with
     | Some (j, p) =>
         exists p', net_sendto g m fd buf len (Some a) = (n, put_socket g j p') /\
           p' = so_set_queue p (so_queue p') /\ ring_list NET_MAX_QUEUE (so_queue p') = delivered p msg
     | None => net_sendto g m fd buf len (Some a) = (n, g)
     end).
Proof.
  intros W Hg Hbuf Hlen. cbv zeta. unfold net_sendto. rewrite Hg.
  destruct (Z.eqb_spec buf 0); [done|].
  replace (if NET_MAX_PAYLOAD <? len then NET_MAX_PAYLOAD else len) with (Z.min len NET_MAX_PAYLOAD)
    by (destruct (Z.ltb_spec NET_MAX_PAYLOAD len); lia).
  split.
  - intros p addr -> Hst Hpe Hp Hu. cbn [Z.eqb NET_SOCK_STREAM NET_SOCK_DGRAM Pos.eqb].
    rewrite bool_decide_true, (proj2 (Z.leb_le 0 _)) by done. cbn [andb]. rewrite Hp, Hu. cbn [negb].
    eexists. split; [done|]. split; [done|]. apply enqueue_msg_list. by eapply net_wf_sock.
  - intros a ->. cbn [Z.eqb NET_SOCK_DGRAM Pos.eqb]. destruct (list_find _ _) as [[j p]|] eqn:Ef; [|done].
    apply list_find_Some in Ef as (Hj & _). eexists. split; [done|]. split; [done|].
    apply enqueue_msg_list. by eapply net_wf_sock.
Qed.

(** C18: What is sent over a connection is what is received.  When the
    peer's queue is empty, a [net_sendto] of [len] bytes followed by a
    [net_recvfrom] on the peer with room for them returns the clipped
    length, the same bytes and the sender's address, and leaves the queue
    empty. *)
Theorem net_send_recv_roundtrip g m fd buf len i s pfd p m' buf' len' :
  net_wf g -> get_socket g fd = Some (i, s) -> buf <> 0 -> 0 <= len ->
  so_type s = NET_SOCK_STREAM -> so_state s = NET_STATE_CONNECTED -> so_peer s = pfd - 1 ->
  get_socket g pfd = Some (Z.to_nat (pfd - 1), p) ->
  ring_list NET_MAX_QUEUE (so_queue p) = [] ->
  buf' <> 0 -> Z.min len NET_MAX_PAYLOAD <= len' ->
  let n := Z.min len NET_MAX_PAYLOAD in
  exists g1 m2 g2 p2,
    net_sendto g m fd buf len None = (n, g1) /\
    net_recvfrom g1 m' pfd buf' len' = (n, m2, Some (so_local s), g2) /\
    read_bytes m2 buf' n = read_bytes m buf n /\
    get_socket g2 pfd = Some (Z.to_nat (pfd - 1), p2) /\
    ring_list NET_MAX_QUEUE (so_queue p2) = [].
Proof.
  intros W Hg Hbuf Hlen Hty Hst Hpe Hp Hq Hbuf' Hlen'. cbv zeta.
  pose proof (proj1 (get_socket_Some _ _ _ _) Hp) as (Hpfd & _ & Hpl & Hpu).
  assert (Hwp : sock_wf p) by (by eapply net_wf_sock).
  set (n := Z.min len NET_MAX_PAYLOAD) in *.
  assert (Hn : 0 <= n) by (unfold n, NET_MAX_PAYLOAD; lia).
  set (msg := mk_msg (read_bytes m buf n) (so_local s)).
  assert (Esend : net_sendto g m fd buf len None = (n, put_socket g (Z.to_nat (pfd - 1)) (enqueue_msg p msg))).
  { unfold net_sendto. rewrite Hg. destruct (Z.eqb_spec buf 0); [done|].
    replace (if NET_MAX_PAYLOAD <? len then NET_MAX_PAYLOAD else len) with n
      by (unfold n; destruct (Z.ltb_spec NET_MAX_PAYLOAD len); lia).
    rewrite Hty, Hpe, bool_decide_true, (proj2 (Z.leb_le 0 _)) by (done || lia). cbn. by rewrite Hpl, Hpu. }
  assert (Hwm : sock_wf (enqueue_msg p msg)).
  { apply enqueue_msg_wf; [done|]. cbn. rewrite read_bytes_length by done. unfold n. lia. }
  pose proof (dequeue_msg_cases _ Hwm) as D. rewrite enqueue_msg_list in D by done.
  unfold delivered in D. rewrite Hq in D. cbn in D. destruct D as (p2 & Ed & Hw2 & Hq2).
  set (g1 := put_socket g _ _) in Esend.
  assert (W1 : net_wf g1) by (by apply put_socket_wf).
  assert (Hg1 : get_socket g1 pfd = Some (Z.to_nat (pfd - 1), enqueue_msg p msg)) by (by apply get_put_eq).
  assert (Hu2 : so_in_use p2 = true).
  { unfold dequeue_msg in Ed. destruct (ring_pop _ _) as [[? ?]|]; [|done]. by injection Ed as _ <-. }
  exists g1. unfold net_recvfrom. rewrite Hg1. destruct (Z.eqb_spec buf' 0); [done|]. rewrite Ed. cbn [msg_data msg_src msg].
  assert (El : Z.of_nat (length (read_bytes m buf n)) = n) by (by apply read_bytes_length).
  rewrite El. replace (if n <? len' then n else len') with n by (destruct (Z.ltb_spec n len'); lia).
  rewrite take_ge by lia.
  eexists _, _, p2. split; [done|]. split; [done|]. split; [|split; [|done]].
  - pose proof (mem_put_read m' buf' (read_bytes m buf n) (read_bytes_u8 m buf n)) as R. by rewrite El in R.
  - by apply get_put_eq.
Qed.

(** The connection handshake.  When a listener has the port and a slot
    is free, [net_connect] succeeds: client and new server socket are
    connected and are each other's peer.  If no connection was waiting, the
    next [net_accept] on the listener returns that server socket and the
    client's address. *)
Theorem net_connect_accept g fd ci c a li l free_i free_s :
  net_wf g -> get_socket g fd = Some (ci, c) -> so_type c = NET_SOCK_STREAM ->
  list_find (is_listener (sa_port a)) (g_sockets g) = Some (li, l) -> li <> ci ->
  g_sockets g !! free_i = Some free_s -> so_in_use free_s = false ->
  ring_list NET_MAX_QUEUE (so_pending l) = [] ->
  exists g1 sfd c1 s1 g2,
    net_connect g fd (Some a) = (0, g1) /\
    get_socket g1 fd = Some (ci, c1) /\ so_state c1 = NET_STATE_CONNECTED /\ so_peer c1 = sfd - 1 /\
    so_remote c1 = a /\
    get_socket g1 sfd = Some (Z.to_nat (sfd - 1), s1) /\ so_state s1 = NET_STATE_CONNECTED /\
    so_peer s1 = fd - 1 /\ ring_list NET_MAX_QUEUE (so_queue s1) = [] /\
    net_accept g1 (Z.of_nat li + 1) = (sfd, Some (so_local c), g2).
Proof.
  intros W Hc Hty Hl Hlc Hfree Hfu Hpend.
  pose proof (proj1 (get_socket_Some _ _ _ _) Hc) as (Hfd & Hci & Hcl & Hcu).
  apply list_find_Some in Hl as Hl'. destruct Hl' as (Hll & (Hlu & Hls & Hlp) & _).
  destruct (alloc_socket_cases g W) as [[_ Hall]|(si & old & Hsi & Hol & Hou & Ealloc)].
  { rewrite Forall_lookup in Hall. rewrite (Hall _ _ Hfree) in Hfu. done. }
  assert (Hsc : si <> ci) by (intros ->; congruence).
  assert (Hsl : si <> li) by (intros ->; congruence).
  unfold net_connect. rewrite Hc, Hty. cbn [negb Z.eqb NET_SOCK_STREAM Pos.eqb]. rewrite Hl, Ealloc.
  destruct (Z.ltb_spec (Z.of_nat si + 1) 0); [lia|]. unfold index_from_fd.
  replace (Z.to_nat (Z.of_nat si + 1 - 1)) with si by lia.
  set (sfd := Z.of_nat si + 1). set (s1 := mk_sock true NET_SOCK_STREAM NET_STATE_CONNECTED _ _ _ _ _ _).
  set (c1 := mk_sock (so_in_use c) _ _ _ _ _ _ _ _).
  set (g0 := put_socket (put_socket (put_socket g si _) si s1) ci c1).
  assert (W0 : net_wf g0).
  { assert (Wc : sock_wf c) by (by eapply net_wf_sock). unfold NET_MAX_SOCKETS in *.
    apply put_socket_wf; [apply put_socket_wf; [apply put_socket_wf|]|];
      [done|by apply sock_wf_fresh|..].
    - apply sock_wf_fresh. unfold NET_MAX_SOCKETS. lia.
    - apply sock_wf_peer; [done|]. unfold NET_MAX_SOCKETS. lia. }
  assert (Hl0 : g_sockets g0 !! li = Some l).
  { cbn. rewrite !list_lookup_insert_ne by done. done. }
  rewrite Hl0. set (g1 := put_socket g0 li _).
  assert (Wl : sock_wf l) by (by eapply net_wf_sock).
  assert (W1 : net_wf g1) by (apply put_socket_wf; [done|by apply enqueue_pending_wf]).
  assert (Hlen : length (g_sockets g) = 32%nat) by (pose proof (nw_len _ W); unfold NET_MAX_SOCKETS in *; lia).
  assert (Hli : (li < 32)%nat) by (rewrite <- Hlen; by eapply lookup_lt_Some).
  assert (Hsfd : Z.to_nat (sfd - 1) = si) by (unfold sfd; lia).
  assert (Hg1s : get_socket g1 sfd = Some (si, s1)).
  { apply get_socket_Some. unfold sfd at 1 2, NET_MAX_SOCKETS. split; [lia|]. split; [done|]. split; [|done].
    cbn. rewrite !list_lookup_insert_ne by done. apply list_lookup_insert_eq. rewrite length_insert. lia. }
  pose proof (dequeue_pending_cases _ (enqueue_pending_wf l sfd Wl)) as D.
  assert (Hpl : ring_list NET_MAX_QUEUE (so_pending (enqueue_pending l sfd)) = [sfd]).
  { destruct Wl as [_ P _ _]. destruct (ring_push_spec _ (so_pending l) sfd P) as [_ E].
    cbn. rewrite E, Hpend. done. }
  rewrite Hpl in D. destruct D as (l2 & Ed & Wl2 & _).
  exists g1, sfd, c1, s1, (put_socket g1 li l2).
  split; [done|]. split.
  { apply get_socket_Some. split; [done|]. split; [done|]. split; [|done]. cbn.
    rewrite list_lookup_insert_ne by done. apply list_lookup_insert_eq. rewrite !length_insert. by eapply lookup_lt_Some. }
  split; [done|]. split; [done|]. split; [done|]. rewrite Hsfd. split; [done|].
  split; [done|]. split; [done|]. split; [apply zero_queue_wf|].
  assert (Hg1l : get_socket g1 (Z.of_nat li + 1) = Some (li, enqueue_pending l sfd)).
  { apply get_put_eq; [done|unfold NET_MAX_SOCKETS; lia|lia|done]. }
  unfold net_accept. rewrite Hg1l. cbn [so_state enqueue_pending so_set_pending].
  rewrite bool_decide_true by done. cbn [negb]. rewrite Ed.
  destruct (Z.ltb_spec sfd 0); [unfold sfd in *; lia|].
  rewrite get_put_ne, Hg1s by (unfold sfd; lia). done.
Qed.

(** The gateway bound to a destination. *)
Definition route_lookup (l : list net_route) (d nm : Z) : option Z :=
  match list_find (fun r => rt_dest r = d /\ rt_netmask r = nm) l with
  | Some (_, r) => Some (rt_gateway r)
  | None => None
  end.

Lemma route_lookup_cons r l d nm : route_lookup (r :: l) d nm =
  if bool_decide (rt_dest r = d /\ rt_netmask r = nm) then Some (rt_gateway r) else route_lookup l d nm.
Proof.
  unfold route_lookup. cbn. destruct (decide (rt_dest r = d /\ rt_netmask r = nm)) as [Hd|Hd].
  - by rewrite bool_decide_true.
  - rewrite bool_decide_false by done. by destruct (list_find _ l) as [[]|].
Qed.

Lemma route_lookup_snoc l r d nm : route_lookup (l ++ [r]) d nm =
  match route_lookup l d nm with
  | Some x => Some x
  | None => if bool_decide (rt_dest r = d /\ rt_netmask r = nm) then Some (rt_gateway r) else None
  end.
Proof.
  induction l as [|r' l IH]; cbn [app]; rewrite !route_lookup_cons; [done|].
  rewrite IH. by destruct (bool_decide (rt_dest r' = d /\ rt_netmask r' = nm)).
Qed.

Lemma route_lookup_update l i old gw d nm :
  list_find (same_dest (mk_route (rt_dest old) (rt_netmask old) gw)) l = Some (i, old) ->
  route_lookup (<[i := mk_route (rt_dest old) (rt_netmask old) gw]> l) d nm =
  if bool_decide (rt_dest old = d /\ rt_netmask old = nm) then Some gw else route_lookup l d nm.
Proof.
  revert i. induction l as [|r l IH]; intros i; cbn [list_find]; [done|].
  destruct (decide (same_dest _ r)) as [Hs|Hs].
  - intros [= <- <-]. cbn [insert list_insert]. rewrite !route_lookup_cons. cbn. by destruct (bool_decide _).
  - destruct (list_find _ l) as [[j r']|] eqn:El; cbn; [|done]. intros [= <- ->].
    cbn [insert list_insert]. rewrite !route_lookup_cons, IH by done.
    destruct (bool_decide (rt_dest r = d /\ rt_netmask r = nm)) eqn:E1; [|done].
    apply bool_decide_eq_true in E1 as [E1 E1']. case_bool_decide as E2; [|done].
    destruct E2. destruct Hs. split; cbn; congruence.
Qed.

(** The routing table is a map from destinations to gateways of at most
    8 entries.  [net_route_add] binds the destination (address and mask) to
    the gateway and keeps every other binding; it fails, without effect,
    exactly when the table is full and the destination is new. *)
Theorem net_route_add_correct g r :
  let l := g_routes g in
  let '(rc, g') := net_route_add g (Some r) in
  if rc =? 0 then
    forall d nm, route_lookup (g_routes g') d nm =
      if bool_decide (rt_dest r = d /\ rt_netmask r = nm) then Some (rt_gateway r) else route_lookup l d nm
  else g' = g /\ NET_MAX_ROUTES <= Z.of_nat (length l) /\
    route_lookup l (rt_dest r) (rt_netmask r) = None.
Proof.
  cbv zeta. unfold net_route_add. destruct (list_find (same_dest r) (g_routes g)) as [[i old]|] eqn:Ef.
  - cbn [Z.eqb]. intros d nm. cbn [g_routes].
    pose proof (list_find_Some (same_dest r) (g_routes g) i old) as [Hf _]. destruct (Hf Ef) as (_ & [E1 E2] & _).
    rewrite <- E1, <- E2. apply route_lookup_update.
    rewrite <- Ef. unfold same_dest. cbn. by rewrite E1, E2.
  - assert (Hn : route_lookup (g_routes g) (rt_dest r) (rt_netmask r) = None).
    { unfold route_lookup. unfold same_dest in Ef. by rewrite Ef. }
    destruct (Z.leb_spec NET_MAX_ROUTES (Z.of_nat (length (g_routes g)))); cbn [Z.eqb]; [done|].
    intros d nm. cbn [g_routes]. rewrite route_lookup_snoc.
    case_bool_decide as E; [destruct E as [<- <-]; by rewrite Hn|]. by destruct (route_lookup _ d nm).
Qed.

(** ** Concrete runs *)

(** A listener on port 80 (descriptor 1, process 1) and a stream socket
    (descriptor 2, process 2). *)
Definition demo_net : net :=
  let g := snd (net_socket net_init NET_AF_INET NET_SOCK_STREAM 1) in
  let g := snd (net_bind g 1 (Some (mk_addr 2130706433 80))) in
  let g := snd (net_listen g 1) in
  snd (net_socket g NET_AF_INET NET_SOCK_STREAM 2).

Lemma demo_net_wf : net_wf demo_net.
Proof. unfold demo_net. auto 6 using net_init_wf with net. Qed.

Definition sock_at (g : net) (i : nat) : net_socket_t := default zero_socket (g_sockets g !! i).

Lemma net_connect_accept_witness :
  exists g1 sfd g2, net_connect demo_net 2 (Some (mk_addr 0 80)) = (0, g1) /\
    net_accept g1 1 = (sfd, Some (mk_addr 2130706433 0), g2).
Proof.
  destruct (net_connect_accept demo_net 2 1 (sock_at demo_net 1) (mk_addr 0 80) 0 (sock_at demo_net 0)
      5 zero_socket demo_net_wf eq_refl eq_refl eq_refl ltac:(lia) eq_refl eq_refl eq_refl)
    as (g1 & sfd & c1 & s1 & g2 & E1 & _ & _ & _ & _ & _ & _ & _ & _ & E2).
  exists g1, sfd, g2. split; [exact E1|exact E2].
Defined.

Definition demo_net1 : net := snd (net_connect demo_net 2 (Some (mk_addr 0 80))).

Lemma demo_net1_wf : net_wf demo_net1.
Proof. unfold demo_net1. auto using demo_net_wf with net. Qed.

Lemma net_sendto_delivers_witness :
  exists p, net_sendto demo_net1 (fun a => a) 2 100 4 None = (4, put_socket demo_net1 2 p) /\
    ring_list NET_MAX_QUEUE (so_queue p) = [mk_msg [100; 101; 102; 103] (mk_addr 2130706433 0)].
Proof.
  destruct (net_sendto_delivers demo_net1 (fun a => a) 2 100 4 1 (sock_at demo_net1 1)
    demo_net1_wf eq_refl ltac:(lia) ltac:(lia)) as [Hs _].
  destruct (Hs (sock_at demo_net1 2) None eq_refl eq_refl ltac:(by vm_compute) eq_refl eq_refl)
    as (p & E & _ & L).
  exists p. split; [exact E|exact L].
Defined.

Lemma net_send_recv_roundtrip_witness :
  exists g1 m2 g2, net_sendto demo_net1 (fun a => a) 2 100 4 None = (4, g1) /\
    net_recvfrom g1 (fun _ => 0) 3 500 16 = (4, m2, Some (mk_addr 2130706433 0), g2) /\
    read_bytes m2 500 4 = [100; 101; 102; 103].
Proof.
  destruct (net_send_recv_roundtrip demo_net1 (fun a => a) 2 100 4 1 (sock_at demo_net1 1) 3
      (sock_at demo_net1 2) (fun _ => 0) 500 16 demo_net1_wf eq_refl ltac:(lia) ltac:(lia) eq_refl eq_refl
      eq_refl eq_refl eq_refl ltac:(lia) ltac:(unfold NET_MAX_PAYLOAD; lia))
    as (g1 & m2 & g2 & p2 & E1 & E2 & E3 & _).
  exists g1, m2, g2. split; [exact E1|]. split; [exact E2|]. exact E3.
Defined.

(** A client connects twice and closes; its slot goes to a datagram socket
    of process 9, and the first server socket then sends 4 bytes. *)
Definition stale_peer_run : net :=
  let g := snd (net_connect demo_net1 2 (Some (mk_addr 0 80))) in
  let g := snd (net_close g 2) in
  let g := snd (net_socket g NET_AF_INET NET_SOCK_DGRAM 9) in
  snd (net_sendto g (fun a => a) 3 100 4 None).

(** A second [net_connect] on a connected socket leaves the first
    server socket pointing at the client, and [net_close] only unlinks the
    second one: once the slot has been given to another process, bytes
    sent over the abandoned connection arrive at that process's datagram
    socket, which was never connected to anything. *)
Theorem net_stale_peer_misdelivers :
  so_owner_pid (sock_at stale_peer_run 1) = 9 /\
  so_state (sock_at stale_peer_run 1) = NET_STATE_BOUND /\
  so_type (sock_at stale_peer_run 1) = NET_SOCK_DGRAM /\
  ring_list NET_MAX_QUEUE (so_queue (sock_at stale_peer_run 1)) =
    [mk_msg [100; 101; 102; 103] (mk_addr 2130706433 80)].
Proof. repeat split. Qed.
