(* ===== verification/Io.v ===== *)
(** * Port I/O (include/io.h)

    A driver talks to its device by reads and writes of ports.  The history
    of these accesses, newest first, is the state; what a read returns is
    decided by the device, a parameter [dev] of the drivers' models that
    sees the whole history.  [IO] is the state monad over the history, with
    stdpp's bind notation. *)

From stdpp Require Import prelude.
From Stdlib Require Import ZArith Lia.
From S2P Require Import Prelude.
#[local] Open Scope Z_scope.

Inductive io_event :=
| EvIn (port val : Z)
| EvOut (port val : Z)
| EvWait.

Definition io_hist : Type := list io_event.
Definition device : Type := io_hist -> Z -> Z.

Definition IO (A : Type) : Type := io_hist -> A * io_hist.

#[export] Instance io_ret : MRet IO := fun A x h => (x, h).
#[export] Instance io_bind : MBind IO := fun A B k m h => let '(x, h) := m h in k x h.

Definition outb (port v : Z) : IO unit := fun h => (tt, EvOut port (u8 v) :: h).
Definition outw (port v : Z) : IO unit := fun h => (tt, EvOut port (u16 v) :: h).
Definition outl (port v : Z) : IO unit := fun h => (tt, EvOut port (u32 v) :: h).
Definition io_wait : IO unit := fun h => (tt, EvWait :: h).

Section io.
Context (dev : device).

Definition inb (port : Z) : IO Z := fun h => let v := u8 (dev h port) in (v, EvIn port v :: h).
Definition inw (port : Z) : IO Z := fun h => let v := u16 (dev h port) in (v, EvIn port v :: h).
Definition inl_ (port : Z) : IO Z := fun h => let v := u32 (dev h port) in (v, EvIn port v :: h).

(** [for (i = 0; i < n; i++) if (test) return 1; return 0;] *)
Fixpoint io_poll (n : nat) (test : IO bool) : IO bool :=
  match n with
  | O => mret false
  | S n' => b ← test; if (b : bool) then mret true else io_poll n' test
  end.

(** [while (test) { }] with fuel; [None] is out of fuel. *)
Fixpoint io_while (fuel : nat) (test : IO bool) : IO (option unit) :=
  match fuel with
  | O => mret None
  | S f => b ← test; if (b : bool) then io_while f test else mret (Some tt)
  end.
End io.

(** The values written, oldest first. *)
Fixpoint io_writes (h : io_hist) : list (Z * Z) :=
  match h with
  | [] => []
  | EvOut p v :: h' => io_writes h' ++ [(p, v)]
  | _ :: h' => io_writes h'
  end.

(** The last value written to a port. *)
Fixpoint last_out (h : io_hist) (port : Z) : option Z :=
  match h with
  | [] => None
  | EvOut p v :: h' => if p =? port then Some v else last_out h' port
  | _ :: h' => last_out h' port
  end.

Lemma io_bind_run {A B} (m : IO A) (k : A -> IO B) h :
  (m ≫= k) h = k (fst (m h)) (snd (m h)).
Proof. unfold mbind, io_bind. by destruct (m h). Qed.
