(* ===== verification/Input.v ===== *)
(** * Keyboard and mouse (src/input.c)

    The PS/2 controller is the device behind ports 0x60 and 0x64; the two
    event queues are rings; [ist_packet] and [ist_idx] are the static
    variables of the mouse handler.  The call to console_scroll_view is
    returned as the optional amount to scroll. *)

From stdpp Require Import prelude list.
From Stdlib Require Import ZArith Lia.
From S2P Require Import Prelude Ring Io.
#[local] Open Scope Z_scope.

Definition PS2_DATA : Z := 96.
Definition PS2_STATUS : Z := 100.
Definition PS2_CMD : Z := 100.
Definition KEY_QUEUE_SIZE : Z := 64.
Definition MOUSE_QUEUE_SIZE : Z := 64.

Record key_event := mk_key { ke_scancode : Z; ke_pressed : Z }.
Record mouse_event := mk_mouse { me_dx : Z; me_dy : Z; me_wheel : Z; me_buttons : Z }.

Record input_state := mk_input {
  key_queue : ring key_event;
  mouse_queue : ring mouse_event;
  mouse_packet_size : Z;
  ist_packet : list Z;
  ist_idx : Z
}.

Definition input_zero : input_state :=
  mk_input (mk_ring (replicate 64 (mk_key 0 0)) 0 0) (mk_ring (replicate 64 (mk_mouse 0 0 0 0)) 0 0)
    3 [0; 0; 0; 0] 0.

Definition set_keys (s : input_state) (q : ring key_event) : input_state :=
  mk_input q (mouse_queue s) (mouse_packet_size s) (ist_packet s) (ist_idx s).
Definition set_mice (s : input_state) (q : ring mouse_event) : input_state :=
  mk_input (key_queue s) q (mouse_packet_size s) (ist_packet s) (ist_idx s).
Definition set_packet (s : input_state) (p : list Z) (i : Z) : input_state :=
  mk_input (key_queue s) (mouse_queue s) (mouse_packet_size s) p i.
Definition set_packet_size (s : input_state) (n : Z) : input_state :=
  mk_input (key_queue s) (mouse_queue s) n (ist_packet s) (ist_idx s).

Section input.
Context (dev : device).

Definition ps2_wait_read : IO bool :=
  io_poll (Z.to_nat 100000) (st ← inb dev PS2_STATUS; mret (negb (Z.land st 1 =? 0))).

Definition ps2_wait_write : IO bool :=
  io_poll (Z.to_nat 100000) (st ← inb dev PS2_STATUS; mret (Z.land st 2 =? 0)).

Definition ps2_write_cmd (cmd : Z) : IO unit :=
  ok ← ps2_wait_write; if (ok : bool) then outb PS2_CMD cmd else mret tt.

Definition ps2_write_data (data : Z) : IO unit :=
  ok ← ps2_wait_write; if (ok : bool) then outb PS2_DATA data else mret tt.

Definition ps2_read_data : IO Z :=
  ok ← ps2_wait_read; if (ok : bool) then inb dev PS2_DATA else mret 0.

Definition queue_key (s : input_state) (scancode : Z) : input_state :=
  set_keys s (ring_push KEY_QUEUE_SIZE (key_queue s)
    (mk_key (Z.land scancode 127) (if negb (Z.land scancode 128 =? 0) then 0 else 1))).

Definition queue_mouse (s : input_state) (dx dy wheel buttons : Z) : input_state :=
  set_mice s (ring_push MOUSE_QUEUE_SIZE (mouse_queue s) (mk_mouse dx dy wheel buttons)).

Definition ps2_mouse_cmd (cmd : Z) : IO unit :=
  ps2_write_cmd 212;; ps2_write_data cmd;; ps2_read_data;; mret tt.

Definition ps2_mouse_set_sample_rate (rate : Z) : IO unit :=
  ps2_mouse_cmd 243;; ps2_mouse_cmd rate.

Definition ps2_mouse_enable_wheel (s : input_state) : IO input_state :=
  ps2_mouse_set_sample_rate 200;;
  ps2_mouse_set_sample_rate 100;;
  ps2_mouse_set_sample_rate 80;;
  ps2_mouse_cmd 242;;
  id ← ps2_read_data;
  mret (set_packet_size s (if id =? 3 then 4 else 3)).

(** Registration of the two handlers with the IRQ layer is not an effect on
    this state. *)
Definition input_init (s : input_state) : IO input_state :=
  ps2_write_cmd 173;;
  ps2_write_cmd 167;;
  inb dev PS2_DATA;;
  ps2_write_cmd 32;;
  config ← ps2_read_data;
  let config := Z.land (Z.lor config 3) (not8 16) in
  ps2_write_cmd 96;;
  ps2_write_data config;;
  ps2_write_cmd 174;;
  ps2_write_cmd 168;;
  ps2_mouse_cmd 246;;
  s ← ps2_mouse_enable_wheel s;
  ps2_mouse_cmd 244;;
  mret s.

Definition input_handle_irq1 (s : input_state) : IO input_state :=
  scancode ← inb dev PS2_DATA;
  mret (queue_key s scancode).

(** What the handler does with one byte from the mouse. *)
Definition mouse_byte (s : input_state) (data : Z) : option Z * input_state :=
  if (ist_idx s =? 0) && (Z.land data 8 =? 0) then (None, s)
  else
    let packet := <[Z.to_nat (ist_idx s) := data]> (ist_packet s) in
    let idx := u8 (ist_idx s + 1) in
    if idx <? mouse_packet_size s then (None, set_packet s packet idx)
    else
      let s := set_packet s packet 0 in
      let at_ i := nth i packet 0 in
      let buttons := Z.land (at_ 0%nat) 7 in
      let dx := i8 (at_ 1%nat) in
      let dy := i8 (at_ 2%nat) in
      let wheel := if mouse_packet_size s =? 4 then i8 (at_ 3%nat) else 0 in
      let scroll :=
        if negb (wheel =? 0) then
          let lines := if 0 <? wheel then wheel else - wheel in
          let lines := if lines <? 1 then 1 else lines in
          let lines := lines * 3 in
          Some (if 0 <? wheel then lines else - lines)
        else None in
      (scroll, queue_mouse s dx dy wheel buttons).

Definition input_handle_irq12 (s : input_state) : IO (option Z * input_state) :=
  status ← inb dev PS2_STATUS;
  if Z.land status 1 =? 0 then mret (None, s)
  else
    data ← inb dev PS2_DATA;
    mret (mouse_byte s data).

(** [None] is the return value 0 (no event). *)
Definition input_read_key (s : input_state) : option (key_event * input_state) :=
  match ring_pop KEY_QUEUE_SIZE (key_queue s) with
  | None => None
  | Some (e, q) => Some (e, set_keys s q)
  end.

Definition input_read_mouse (s : input_state) : option (mouse_event * input_state) :=
  match ring_pop MOUSE_QUEUE_SIZE (mouse_queue s) with
  | None => None
  | Some (e, q) => Some (e, set_mice s q)
  end.
End input.

(** ** Invariant *)

Record input_wf (s : input_state) : Prop := {
  iw_keys : ring_wf KEY_QUEUE_SIZE (key_queue s);
  iw_mice : ring_wf MOUSE_QUEUE_SIZE (mouse_queue s);
  iw_size : mouse_packet_size s = 3 \/ mouse_packet_size s = 4;
  iw_packet : length (ist_packet s) = 4%nat;
  iw_idx : 0 <= ist_idx s < mouse_packet_size s
}.

Definition keys (s : input_state) : list key_event := ring_list KEY_QUEUE_SIZE (key_queue s).
Definition mice (s : input_state) : list mouse_event := ring_list MOUSE_QUEUE_SIZE (mouse_queue s).

Lemma mouse_byte_wf s data : input_wf s -> input_wf (snd (mouse_byte s data)).
Proof.
  intros [K M Sz P I]. unfold mouse_byte. destruct (_ && _); [by constructor|].
  assert (Hu : u8 (ist_idx s + 1) = ist_idx s + 1) by (apply u8_small; unfold is_u8; lia). rewrite Hu.
  destruct (Z.ltb_spec (ist_idx s + 1) (mouse_packet_size s)).
  - constructor; cbn; try done; [by rewrite length_insert|lia].
  - constructor; cbn; [done| |done|by rewrite length_insert|lia].
    by apply ring_push_spec.
Qed.

Inductive input_op := OpIrq1 (scancode : Z) | OpMouse (data : Z) | OpReadKey | OpReadMouse.

Definition input_apply (s : input_state) (op : input_op) : input_state :=
  match op with
  | OpIrq1 c => queue_key s c
  | OpMouse d => snd (mouse_byte s d)
  | OpReadKey => match input_read_key s with Some (_, s) => s | None => s end
  | OpReadMouse => match input_read_mouse s with Some (_, s) => s | None => s end
  end.

Lemma input_apply_wf s op : input_wf s -> input_wf (input_apply s op).
Proof.
  intros W. pose proof W as [K M Sz P I]. destruct op as [c|d| |]; cbn.
  - constructor; cbn; try done. by apply ring_push_spec.
  - by apply mouse_byte_wf.
  - unfold input_read_key. pose proof (ring_pop_spec _ (key_queue s) K) as H.
    destruct (ring_list _ _); [by rewrite H|]. destruct H as (q & -> & Q & _). by constructor.
  - unfold input_read_mouse. pose proof (ring_pop_spec _ (mouse_queue s) M) as H.
    destruct (ring_list _ _); [by rewrite H|]. destruct H as (q & -> & Q & _). by constructor.
Qed.

(** The event a scancode stands for. *)
Definition decode_key (c : Z) : key_event :=
  mk_key (Z.land c 127) (if negb (Z.land c 128 =? 0) then 0 else 1).

Lemma queue_key_keys s c : input_wf s ->
  keys (queue_key s c) = if Z.of_nat (length (keys s)) <? 63 then keys s ++ [decode_key c] else keys s.
Proof. intros [K _ _ _ _]. by destruct (ring_push_spec _ (key_queue s) (decode_key c) K). Qed.

Lemma read_key_cases s : input_wf s ->
  match keys s with
  | [] => input_read_key s = None
  | e :: l => exists s', input_read_key s = Some (e, s') /\ input_wf s' /\ keys s' = l
  end.
Proof.
  intros W. pose proof W as [K M Sz P I]. unfold keys, input_read_key.
  pose proof (ring_pop_spec _ (key_queue s) K) as H.
  destruct (ring_list _ _) as [|e l]; [by rewrite H|]. destruct H as (q & -> & Q & E).
  eexists. split; [done|]. split; [by constructor|done].
Qed.

(** Reading [n] keys. *)
Fixpoint read_keys (n : nat) (s : input_state) : list key_event * input_state :=
  match n with
  | O => ([], s)
  | S n' =>
      match input_read_key s with
      | None => ([], s)
      | Some (e, s) => let '(l, s) := read_keys n' s in (e :: l, s)
      end
  end.

Lemma read_keys_all s : forall l, input_wf s -> keys s = l -> forall n, (length l <= n)%nat ->
  fst (read_keys n s) = l.
Proof.
  intros l. revert s. induction l as [|e l IH]; intros s W E n Hn.
  - pose proof (read_key_cases s W) as H. rewrite E in H. destruct n; cbn; [done|]. by rewrite H.
  - destruct n as [|n]; cbn in Hn; [lia|]. pose proof (read_key_cases s W) as H. rewrite E in H.
    destruct H as (s' & Er & W' & E'). cbn. rewrite Er.
    pose proof (IH s' W' E' n ltac:(lia)) as Hl. destruct (read_keys n s'). cbn in *. by rewrite Hl.
Qed.

Lemma queue_keys_fold s cs : input_wf s -> Z.of_nat (length (keys s) + length cs) <= 63 ->
  input_wf (foldl queue_key s cs) /\ keys (foldl queue_key s cs) = keys s ++ (decode_key <$> cs).
Proof.
  revert s. induction cs as [|c cs IH]; intros s W Hn; cbn; [by rewrite app_nil_r|].
  cbn in Hn. pose proof (queue_key_keys s c W) as E.
  destruct (Z.ltb_spec (Z.of_nat (length (keys s))) 63); [|lia].
  destruct (IH (queue_key s c)) as [W' E'].
  - exact (input_apply_wf s (OpIrq1 c) W).
  - rewrite E, length_app. cbn. lia.
  - split; [done|]. rewrite E', E, <- app_assoc. done.
Qed.

(** * Properties *)

(** No sequence of keyboard and mouse interrupts and reads, with any
    bytes from the devices, takes the drivers out of bounds: the queue
    indices stay inside the 64-slot arrays and the packet index stays
    below the packet size, so a packet byte is always stored inside the
    4-byte buffer. *)
Theorem input_reachable_wf ops s :
  input_wf s -> input_wf (foldl input_apply s ops).
Proof.
  revert s. induction ops as [|op ops IH]; intros s W; cbn; [done|]. by apply IH, input_apply_wf.
Qed.

Lemma input_zero_wf : input_wf input_zero.
Proof. constructor; cbn; [by apply ring_empty_wf|by apply ring_empty_wf|lia|done|lia]. Qed.

Lemma input_reachable_wf_witness :
  input_wf (foldl input_apply input_zero [OpIrq1 30; OpMouse 8; OpMouse 200; OpReadKey]).
Proof. exact (input_reachable_wf _ input_zero input_zero_wf). Defined.

(** The keyboard queue is a bounded first-in first-out queue: reading
    after a burst of scancodes that fits gives the decoded keys, press or
    release, in the order they were struck, after those still unread. *)
Theorem input_key_fifo s cs n :
  input_wf s -> Z.of_nat (length (keys s) + length cs) <= 63 -> (length (keys s) + length cs <= n)%nat ->
  fst (read_keys n (foldl queue_key s cs)) = keys s ++ (decode_key <$> cs).
Proof.
  intros W Hn Hl. destruct (queue_keys_fold s cs W Hn) as [W' E].
  apply (read_keys_all _ _ W' E). rewrite length_app, length_fmap. done.
Qed.

Lemma input_key_fifo_witness :
  fst (read_keys 5 (foldl queue_key input_zero [30; 158])) = [mk_key 30 1; mk_key 30 0].
Proof. exact (input_key_fifo input_zero [30; 158] 5 input_zero_wf ltac:(vm_compute; congruence) ltac:(vm_compute; lia)). Defined.

(** Mouse packets are framed.  Between packets a byte without the sync
    bit is skipped; a byte with it starts a packet, and after two (three
    with a wheel) more bytes exactly one event has been queued, its
    movement the signed reading of the bytes and its buttons the low three
    bits of the first one, and the driver is between packets again. *)
Theorem input_mouse_framing s b0 b1 b2 b3 :
  input_wf s -> ist_idx s = 0 -> is_u8 b0 ->
  (Z.land b0 8 = 0 -> mouse_byte s b0 = (None, s)) /\
  (Z.land b0 8 <> 0 -> Z.of_nat (length (mice s)) < 63 ->
     let bytes := if mouse_packet_size s =? 4 then [b0; b1; b2; b3] else [b0; b1; b2] in
     let s' := foldl (fun s b => snd (mouse_byte s b)) s bytes in
     let wheel := if mouse_packet_size s =? 4 then i8 b3 else 0 in
     ist_idx s' = 0 /\ mice s' = mice s ++ [mk_mouse (i8 b1) (i8 b2) wheel (Z.land b0 7)]).
Proof.
  intros W Hi Hb0. pose proof W as [K M Sz P _]. split.
  { intros Hs. unfold mouse_byte. by rewrite Hi, Hs. }
  intros Hs Hlen. cbv zeta. destruct s as [kq mq sz pk ix]. cbn in *. subst ix.
  destruct pk as [|p0 [|p1 [|p2 [|p3 [|]]]]]; cbn in P; try lia.
  assert (Hsync : (Z.land b0 8 =? 0) = false) by (by apply Z.eqb_neq).
  assert (Hpush : forall e, ring_list MOUSE_QUEUE_SIZE (ring_push MOUSE_QUEUE_SIZE mq e) =
    ring_list MOUSE_QUEUE_SIZE mq ++ [e]).
  { intros e. destruct (ring_push_spec MOUSE_QUEUE_SIZE mq e M) as [_ ->].
    unfold mice in Hlen. cbn in Hlen. by rewrite (proj2 (Z.ltb_lt _ _)). }
  assert (E0 : forall sz, sz = 3 \/ sz = 4 -> mouse_byte (mk_input kq mq sz [p0; p1; p2; p3] 0) b0 =
    (None, mk_input kq mq sz [b0; p1; p2; p3] 1)).
  { intros z Hz. unfold mouse_byte. cbn [ist_idx Z.eqb andb]. rewrite Hsync. by destruct Hz as [-> | ->]. }
  destruct Sz as [-> | ->]; cbn [Z.eqb Pos.eqb foldl]; rewrite E0 by lia; (split; [reflexivity|]).
  - exact (Hpush (mk_mouse (i8 b1) (i8 b2) 0 (Z.land b0 7))).
  - exact (Hpush (mk_mouse (i8 b1) (i8 b2) (i8 b3) (Z.land b0 7))).
Qed.

Lemma input_mouse_framing_witness :
  mice (foldl (fun s b => snd (mouse_byte s b)) input_zero [9; 5; 255]) = [mk_mouse 5 (-1) 0 1].
Proof.
  destruct (input_mouse_framing input_zero 9 5 255 0 input_zero_wf eq_refl ltac:(unfold is_u8; lia)) as [_ H].
  destruct (H ltac:(by vm_compute) ltac:(by vm_compute)) as [_ E]. exact E.
Defined.
