(* ===== verification/Time.v ===== *)
(** * Clocks (src/rtc.c, src/time.c, src/hpet.c, src/arch/x86_64/pit.c)
      and the serial port (src/serial.c)

    The CMOS clock and the serial line are devices behind ports; the
    interval timer keeps a tick counter; wall time is the clock at boot
    plus the ticks since. *)

From stdpp Require Import prelude list.
From Stdlib Require Import ZArith Lia.
From S2P Require Import Prelude Io.
#[local] Open Scope Z_scope.
#[local] Open Scope cint_scope.

(** ** Real-time clock *)

Definition CMOS_ADDR : Z := 112.
Definition CMOS_DATA : Z := 113.

Record rtc_time := mk_rtc {
  rt_year : Z; rt_month : Z; rt_day : Z; rt_hour : Z; rt_minute : Z; rt_second : Z
}.

Definition bcd_to_bin (v : Z) : Z := u8 (Z.land v 15 + Z.shiftr v 4 * 10).

(** The conversion of the seven registers. *)
Definition rtc_decode (sec min hour day month year reg_b : Z) : rtc_time :=
  let bcd := Z.land reg_b 4 =? 0 in
  let sec := if bcd then bcd_to_bin sec else sec in
  let min := if bcd then bcd_to_bin min else min in
  let hour := if bcd then bcd_to_bin (Z.land hour 127) else hour in
  let day := if bcd then bcd_to_bin day else day in
  let month := if bcd then bcd_to_bin month else month in
  let year := if bcd then bcd_to_bin year else year in
  let hour :=
    if (Z.land reg_b 2 =? 0) && negb (Z.land hour 128 =? 0)
    then u8 ((Z.land hour 127 + 12) mod 24) else hour in
  let full_year := if year <? 70 then u16 (2000 + year) else u16 (1900 + year) in
  mk_rtc full_year month day hour min sec.

Section rtc.
Context (dev : device).

Definition cmos_read (reg : Z) : IO Z :=
  outb CMOS_ADDR reg;; io_wait;; inb dev CMOS_DATA.

Definition rtc_is_updating : IO bool :=
  outb CMOS_ADDR 10;; io_wait;; v ← inb dev CMOS_DATA; mret (negb (Z.land v 128 =? 0)).

(** [None] when the clock has not finished updating within the fuel. *)
Definition rtc_read_time (fuel : nat) : IO (option rtc_time) :=
  r ← io_while fuel rtc_is_updating;
  match r with
  | None => mret None
  | Some _ =>
      sec ← cmos_read 0;
      min ← cmos_read 2;
      hour ← cmos_read 4;
      day ← cmos_read 7;
      month ← cmos_read 8;
      year ← cmos_read 9;
      reg_b ← cmos_read 11;
      mret (Some (rtc_decode sec min hour day month year reg_b))
  end.
End rtc.

(** ** Dates *)

Definition is_leap (y : Z) : bool :=
  ((y mod 4 =? 0) && negb (y mod 100 =? 0)) || (y mod 400 =? 0).

Definition month_days : list Z := [31; 28; 31; 30; 31; 30; 31; 31; 30; 31; 30; 31].

Definition days_before_month (y m : Z) : Z :=
  for_range 1 m (fun i total =>
    let total := total + nth (Z.to_nat (i - 1)) month_days 0 in
    if (i =? 2) && is_leap y then total + 1 else total) 0.

Definition rtc_to_epoch (t : rtc_time) : Z :=
  let y := rt_year t in
  let days := for_range 1970 y (fun year days => days + (if is_leap year then 366 else 365)) 0 in
  let days := days + days_before_month y (rt_month t) in
  let days := u64 (days + (rt_day t - 1)) in
  let seconds := days *% 86400 in
  let seconds := seconds +% (rt_hour t * 3600) in
  let seconds := seconds +% (rt_minute t * 60) in
  seconds +% rt_second t.

(** ** Interval timer *)

Definition PIT_CH0 : Z := 64.
Definition PIT_CMD : Z := 67.
Definition PIT_BASE_HZ : Z := 1193182.

Record pit := mk_pit { g_ticks : Z; g_hz : Z }.

Definition pit_divisor (hz : Z) : Z :=
  let divisor := PIT_BASE_HZ / hz in
  let divisor := if divisor =? 0 then 1 else divisor in
  if 65535 <? divisor then 65535 else divisor.

Definition pit_init (hz : Z) : IO pit :=
  let hz := if hz =? 0 then 100 else hz in
  let divisor := pit_divisor hz in
  outb PIT_CMD 54;;
  outb PIT_CH0 (Z.land divisor 255);;
  outb PIT_CH0 (Z.land (Z.shiftr divisor 8) 255);;
  mret (mk_pit 0 hz).

Definition pit_handle_irq0 (p : pit) : pit := mk_pit (g_ticks p +% 1) (g_hz p).
Definition pit_ticks (p : pit) : Z := g_ticks p.
Definition pit_frequency_hz (p : pit) : Z := g_hz p.

Definition hpet_now_ns (p : pit) : Z :=
  if pit_frequency_hz p =? 0 then 0 else (pit_ticks p *% 1000000000) / pit_frequency_hz p.

(** ** Time of day *)

Record clock := mk_clock { g_epoch_base : Z; g_time_ready : bool }.
Record time_val := mk_tv { tv_sec : Z; tv_usec : Z }.

Definition time_init (dev : device) (fuel : nat) : IO (option clock) :=
  now ← rtc_read_time dev fuel;
  match now with
  | None => mret None
  | Some t => mret (Some (mk_clock (rtc_to_epoch t) true))
  end.

Definition time_gettimeofday (c : clock) (p : pit) : time_val :=
  let ticks := pit_ticks p in
  let hz := pit_frequency_hz p in
  if (hz =? 0) || negb (g_time_ready c) then mk_tv 0 0
  else
    let sec := ticks / hz in
    let usec := ((ticks mod hz) *% 1000000) / hz in
    mk_tv (g_epoch_base c +% sec) usec.

Definition time_now_ms (p : pit) : Z :=
  if pit_frequency_hz p =? 0 then 0 else (pit_ticks p *% 1000) / pit_frequency_hz p.

Definition time_now_ns (p : pit) : Z := hpet_now_ns p.

(** ** Serial port *)

Definition SERIAL_PORT : Z := 1016.

Section serial.
Context (dev : device).

Definition serial_init : IO bool :=
  outb (SERIAL_PORT + 1) 0;;
  outb (SERIAL_PORT + 3) 128;;
  outb (SERIAL_PORT + 0) 3;;
  outb (SERIAL_PORT + 1) 0;;
  outb (SERIAL_PORT + 3) 3;;
  outb (SERIAL_PORT + 2) 199;;
  outb (SERIAL_PORT + 4) 11;;
  mret true.

Definition serial_can_tx : IO bool := v ← inb dev (SERIAL_PORT + 5); mret (negb (Z.land v 32 =? 0)).
Definition serial_can_rx : IO bool := v ← inb dev (SERIAL_PORT + 5); mret (negb (Z.land v 1 =? 0)).

Definition serial_putc (fuel : nat) (inited : bool) (c : Z) : IO (option unit) :=
  if negb inited then mret (Some tt)
  else
    r ← io_while fuel (b ← serial_can_tx; mret (negb b));
    match r with
    | None => mret None
    | Some _ => outb SERIAL_PORT c;; mret (Some tt)
    end.

Definition serial_getc (fuel : nat) (inited : bool) : IO (option Z) :=
  if negb inited then mret (Some 0)
  else
    r ← io_while fuel (b ← serial_can_rx; mret (negb b));
    match r with
    | None => mret None
    | Some _ => v ← inb dev SERIAL_PORT; mret (Some (i8 v))
    end.

(** [serial_write_n] over the bytes of the buffer. *)
Fixpoint serial_write_n (fuel : nat) (inited : bool) (s : list Z) : IO (option unit) :=
  match s with
  | [] => mret (Some tt)
  | c :: s' =>
      r ← serial_putc fuel inited c;
      match r with None => mret None | Some _ => serial_write_n fuel inited s' end
  end.
End serial.

(** ** Calendar facts *)

(** The Gregorian calendar, on its own terms: every fourth year is a leap
    year, the century years only when 400 divides them; April, June,
    September and November have thirty days, February has what is left. *)
Definition leap_year (y : Z) : Prop := (4 | y) /\ (~ (100 | y) \/ (400 | y)).

#[export] Instance divides_dec (d y : Z) : Decision (d | y).
Proof.
  refine (match decide (d = 0 /\ y = 0 \/ d <> 0 /\ y mod d = 0) with
          | left Hdy => left _ | right Hdy => right _ end).
  - by destruct Hdy as [[-> ->]|[Hd E]]; [|apply Z.mod_divide].
  - intros H. destruct (decide (d = 0)) as [->|Hd]; [apply Z.divide_0_l in H; lia|].
    apply Hdy. right. split; [done|]. by apply Z.mod_divide.
Defined.

#[export] Instance leap_year_dec y : Decision (leap_year y).
Proof. unfold leap_year. apply _. Defined.

Definition month_length (y m : Z) : Z :=
  if decide (m = 2) then if decide (leap_year y) then 29 else 28
  else if decide (m = 4 \/ m = 6 \/ m = 9 \/ m = 11) then 30 else 31.

Record valid_date (t : rtc_time) : Prop := {
  vd_year : 1970 <= rt_year t < 65535;
  vd_month : 1 <= rt_month t <= 12;
  vd_day : 1 <= rt_day t <= month_length (rt_year t) (rt_month t);
  vd_hour : 0 <= rt_hour t < 24;
  vd_minute : 0 <= rt_minute t < 60;
  vd_second : 0 <= rt_second t < 60
}.

(** The same time on the next day of the calendar. *)
Definition next_day (t : rtc_time) : rtc_time :=
  let y := rt_year t in let m := rt_month t in let d := rt_day t in
  if d <? month_length y m then mk_rtc y m (d + 1) (rt_hour t) (rt_minute t) (rt_second t)
  else if m <? 12 then mk_rtc y (m + 1) 1 (rt_hour t) (rt_minute t) (rt_second t)
  else mk_rtc (y + 1) 1 1 (rt_hour t) (rt_minute t) (rt_second t).

(** The code's calendar. *)
Definition days_in_month (y m : Z) : Z :=
  nth (Z.to_nat (m - 1)) month_days 0 + (if (m =? 2) && is_leap y then 1 else 0).

Lemma mod_divides d y : 0 < d -> (y mod d =? 0) = bool_decide (d | y).
Proof.
  intros Hd. destruct (Z.eqb_spec (y mod d) 0) as [E|E]; symmetry.
  - apply bool_decide_eq_true. by apply Z.mod_divide; [lia|].
  - apply bool_decide_eq_false. intros H. apply E. by apply Z.mod_divide; [lia|].
Qed.

(** The code's rule is the Gregorian one. *)
Lemma is_leap_year y : is_leap y = bool_decide (leap_year y).
Proof.
  unfold is_leap. rewrite !mod_divides by lia. unfold leap_year.
  assert (H : (400 | y) -> (4 | y)) by (intros [k ->]; exists (k * 100); lia).
  destruct (decide (4 | y)), (decide (100 | y)), (decide (400 | y));
    repeat first [rewrite bool_decide_eq_true_2 by tauto | rewrite bool_decide_eq_false_2 by tauto]; cbn; tauto.
Qed.

Lemma month_cases m : 1 <= m <= 12 ->
  m = 1 \/ m = 2 \/ m = 3 \/ m = 4 \/ m = 5 \/ m = 6 \/ m = 7 \/ m = 8 \/ m = 9 \/ m = 10 \/ m = 11 \/ m = 12.
Proof. lia. Qed.

Lemma month_length_code y m : 1 <= m <= 12 -> month_length y m = days_in_month y m.
Proof.
  intros Hm%month_cases. unfold days_in_month, month_length. rewrite is_leap_year.
  destruct (decide (leap_year y));
    [rewrite bool_decide_eq_true_2 by done|rewrite bool_decide_eq_false_2 by done];
    destruct_or! Hm; subst m; reflexivity.
Qed.

Lemma for_range_snoc {S} (body : Z -> S -> S) lo hi s : lo <= hi ->
  for_range lo (hi + 1) body s = body hi (for_range lo hi body s).
Proof.
  intros Hle. unfold for_range. replace (Z.to_nat (hi + 1 - lo)) with (Datatypes.S (Z.to_nat (hi - lo))) by lia.
  remember (Z.to_nat (hi - lo)) as n eqn:En. assert (hi = lo + Z.of_nat n) as -> by lia. clear.
  revert lo s. induction n as [|n IH]; intros lo s.
  - cbn. by replace (lo + Z.of_nat 0) with lo by lia.
  - change (for_up (Datatypes.S (Datatypes.S n)) lo body s) with
      (for_up (Datatypes.S n) (lo + 1) body (body lo s)).
    rewrite IH. cbn [for_up]. f_equal. lia.
Qed.

Definition year_start (y : Z) : Z :=
  for_range 1970 y (fun year days => days + (if is_leap year then 366 else 365)) 0.

Lemma year_start_succ y : 1970 <= y ->
  year_start (y + 1) = year_start y + (if is_leap y then 366 else 365).
Proof. intros. unfold year_start. by rewrite for_range_snoc. Qed.

Lemma year_start_bounds y : 1970 <= y -> 0 <= year_start y <= 366 * (y - 1970).
Proof.
  intros Hy. apply (for_range_ind (fun i d => 0 <= d <= 366 * (i - 1970))); [done|lia|].
  intros i d Hi Hd. destruct (is_leap i); lia.
Qed.

Lemma days_before_succ y m : 1 <= m ->
  days_before_month y (m + 1) = days_before_month y m + days_in_month y m.
Proof.
  intros Hm. unfold days_before_month at 1. rewrite for_range_snoc by done.
  fold (days_before_month y m). unfold days_in_month. destruct ((m =? 2) && is_leap y); lia.
Qed.

Lemma days_before_bounds y m : 1 <= m <= 12 -> 0 <= days_before_month y m <= 400.
Proof.
  intros Hm%month_cases. unfold days_before_month, for_range. destruct (is_leap y);
    destruct_or! Hm; subst m; vm_compute; split; congruence.
Qed.

Lemma days_december y : days_before_month y 12 + days_in_month y 12 = if is_leap y then 366 else 365.
Proof. unfold days_before_month, for_range, days_in_month. by destruct (is_leap y). Qed.

Lemma days_in_month_bounds y m : 1 <= m <= 12 -> 28 <= days_in_month y m <= 31.
Proof.
  intros Hm%month_cases. unfold days_in_month. destruct (is_leap y);
    destruct_or! Hm; subst m; vm_compute; split; congruence.
Qed.

(** Without wrap-around, the conversion is the day number times 86400 plus
    the time of day. *)
Definition day_number (t : rtc_time) : Z :=
  year_start (rt_year t) + days_before_month (rt_year t) (rt_month t) + (rt_day t - 1).

Lemma rtc_to_epoch_eq t :
  1970 <= rt_year t <= 65535 -> 1 <= rt_month t <= 12 -> 1 <= rt_day t <= 31 ->
  0 <= rt_hour t < 24 -> 0 <= rt_minute t < 60 -> 0 <= rt_second t < 60 ->
  rtc_to_epoch t = day_number t * 86400 + rt_hour t * 3600 + rt_minute t * 60 + rt_second t /\
  0 <= day_number t <= 40000000.
Proof.
  intros Hy Hm Hd Hh Hmi Hs.
  pose proof (year_start_bounds (rt_year t) ltac:(lia)). pose proof (days_before_bounds (rt_year t) _ Hm).
  assert (Hn : 0 <= day_number t <= 40000000) by (unfold day_number; lia).
  split; [|done]. unfold rtc_to_epoch. cbv zeta. fold (year_start (rt_year t)).
  replace (year_start (rt_year t) + days_before_month (rt_year t) (rt_month t) + (rt_day t - 1))
    with (day_number t) by done.
  repeat rewrite u64_small by (unfold is_u64; lia).
  rewrite (u64_small (day_number t)) by (unfold is_u64; lia).
  rewrite (u64_small (day_number t * 86400)) by (unfold is_u64; lia).
  rewrite (u64_small (day_number t * 86400 + _)) by (unfold is_u64; lia).
  rewrite (u64_small (day_number t * 86400 + _ + _)) by (unfold is_u64; lia).
  rewrite u64_small by (unfold is_u64; lia). done.
Qed.

Lemma next_day_number t : valid_date t -> day_number (next_day t) = day_number t + 1.
Proof.
  intros [Hy Hm Hd _ _ _]. unfold next_day, day_number. rewrite month_length_code in * by done.
  destruct (Z.ltb_spec (rt_day t) (days_in_month (rt_year t) (rt_month t))); [cbn; lia|].
  destruct (Z.ltb_spec (rt_month t) 12); cbn.
  - rewrite days_before_succ by lia. lia.
  - assert (E : rt_month t = 12) by lia. rewrite E in *. rewrite year_start_succ by lia.
    pose proof (days_december (rt_year t)).
    change (days_before_month (rt_year t + 1) 1) with 0. lia.
Qed.

(** * Properties *)

(** C39: [rtc_to_epoch] counts the seconds of the Gregorian calendar, whose
    leap rule and month lengths are stated apart from the code's
    ([leap_year], [month_length]): midnight of the first of January 1970 is
    0, and for every valid date from 1970 to the year 65534, the same time
    on the next calendar day (over month ends, leap days and year ends) is
    exactly 86400 seconds later, while within a day the value is the day's
    start plus the seconds since midnight. *)
Theorem rtc_to_epoch_calendar t :
  valid_date t ->
  rtc_to_epoch (mk_rtc 1970 1 1 0 0 0) = 0 /\
  rtc_to_epoch (next_day t) = rtc_to_epoch t + 86400 /\
  rtc_to_epoch t = rtc_to_epoch (mk_rtc (rt_year t) (rt_month t) (rt_day t) 0 0 0) +
    rt_hour t * 3600 + rt_minute t * 60 + rt_second t.
Proof.
  intros V. pose proof V as [Hy Hm Hd Hh Hmi Hs]. pose proof (next_day_number t V) as Hn.
  pose proof (days_in_month_bounds (rt_year t) (rt_month t) Hm) as Hb.
  rewrite <- month_length_code in Hb by done.
  split; [reflexivity|].
  destruct (rtc_to_epoch_eq t) as [Et _]; [lia..|].
  destruct (rtc_to_epoch_eq (mk_rtc (rt_year t) (rt_month t) (rt_day t) 0 0 0)) as [E0 _]; [cbn; lia..|].
  cbn [rt_hour rt_minute rt_second] in E0.
  change (day_number (mk_rtc (rt_year t) (rt_month t) (rt_day t) 0 0 0)) with (day_number t) in E0.
  split; [|lia].
  assert (Hnd : rt_hour (next_day t) = rt_hour t /\ rt_minute (next_day t) = rt_minute t /\
    rt_second (next_day t) = rt_second t /\ 1970 <= rt_year (next_day t) <= 65535 /\
    1 <= rt_month (next_day t) <= 12 /\ 1 <= rt_day (next_day t) <= 31).
  { unfold next_day. destruct (Z.ltb_spec (rt_day t) (month_length (rt_year t) (rt_month t)));
      [|destruct (Z.ltb_spec (rt_month t) 12)]; cbn; lia. }
  destruct Hnd as (E1 & E2 & E3 & ? & ? & ?).
  destruct (rtc_to_epoch_eq (next_day t)) as [En _]; [lia..|]. rewrite En, Et, E1, E2, E3, Hn. lia.
Qed.

(** The ends of February of a leap year and of a century year. *)
Definition leap_day : rtc_time := mk_rtc 2024 2 29 23 59 59.
Definition century_day : rtc_time := mk_rtc 2100 2 28 0 0 0.

Lemma leap_day_valid : valid_date leap_day.
Proof. constructor; cbn; try lia. vm_compute. split; congruence. Qed.

Lemma century_day_valid : valid_date century_day.
Proof. constructor; cbn; try lia. vm_compute. split; congruence. Qed.

Lemma rtc_to_epoch_calendar_witness :
  rtc_to_epoch (mk_rtc 2024 3 1 23 59 59) = rtc_to_epoch leap_day + 86400 /\
  rtc_to_epoch (mk_rtc 2100 3 1 0 0 0) = rtc_to_epoch century_day + 86400.
Proof.
  split; [exact (proj1 (proj2 (rtc_to_epoch_calendar leap_day leap_day_valid)))|].
  exact (proj1 (proj2 (rtc_to_epoch_calendar century_day century_day_valid))).
Defined.

(** [time_gettimeofday] is well formed and monotone: microseconds stay
    below a million, and a later tick of the same timer never gives an
    earlier time. *)
Theorem time_gettimeofday_monotone c hz t1 t2 :
  0 < hz < 2 ^ 32 -> 0 <= t1 <= t2 -> t2 < 2 ^ 63 -> 0 <= g_epoch_base c < 2 ^ 62 ->
  g_time_ready c = true ->
  let v1 := time_gettimeofday c (mk_pit t1 hz) in
  let v2 := time_gettimeofday c (mk_pit t2 hz) in
  0 <= tv_usec v1 < 1000000 /\
  tv_sec v1 * 1000000 + tv_usec v1 <= tv_sec v2 * 1000000 + tv_usec v2.
Proof.
  intros Hhz Ht Ht2 Hb Hr. cbv zeta.
  assert (E : forall t, 0 <= t < 2 ^ 63 -> time_gettimeofday c (mk_pit t hz) =
    mk_tv (g_epoch_base c + t / hz) ((t mod hz) * 1000000 / hz) /\ 0 <= (t mod hz) * 1000000 / hz < 1000000).
  { intros t Htt. unfold time_gettimeofday. cbn [pit_ticks pit_frequency_hz g_ticks g_hz].
    rewrite (proj2 (Z.eqb_neq hz 0)), Hr by lia. cbn [negb orb].
    pose proof (Z.mod_pos_bound t hz ltac:(lia)).
    assert (0 <= t / hz <= t) by (split; [apply Z.div_pos; lia|apply Z.div_le_upper_bound; nia]).
    rewrite !u64_small by (unfold is_u64; lia). split; [done|].
    split; [apply Z.div_pos; lia|]. apply Z.div_lt_upper_bound; nia. }
  destruct (E t1 ltac:(lia)) as [-> B1]. destruct (E t2 ltac:(lia)) as [-> B2]. cbn [tv_sec tv_usec].
  split; [done|]. pose proof (Z.div_le_mono t1 t2 hz ltac:(lia) ltac:(lia)) as Hq.
  destruct (decide (t1 / hz = t2 / hz)) as [Eq|]; [|lia].
  assert (Hm : t1 mod hz <= t2 mod hz) by (rewrite !Z.mod_eq by lia; rewrite Eq; lia).
  pose proof (Z.div_le_mono (t1 mod hz * 1000000) (t2 mod hz * 1000000) hz ltac:(lia) ltac:(lia)). lia.
Qed.

Lemma time_gettimeofday_monotone_witness :
  let v1 := time_gettimeofday (mk_clock 1000 true) (mk_pit 250 100) in
  0 <= tv_usec v1 < 1000000.
Proof.
  exact (proj1 (time_gettimeofday_monotone (mk_clock 1000 true) 100 250 251 ltac:(lia) ltac:(lia) ltac:(lia)
    ltac:(cbn; lia) eq_refl)).
Defined.

(** In 12-hour BCD mode the PM bit of the hour register is lost: it is
    masked off before it is tested, so an afternoon hour reads as the
    morning one. *)
Theorem rtc_pm_lost_in_bcd sec min hour day month year reg_b :
  0 <= hour < 128 -> Z.land reg_b 4 = 0 -> Z.land reg_b 2 = 0 ->
  rt_hour (rtc_decode sec min (Z.lor hour 128) day month year reg_b) =
  rt_hour (rtc_decode sec min hour day month year reg_b).
Proof.
  intros Hh E4 E2. unfold rtc_decode. rewrite E4, E2. cbn [Z.eqb andb negb rt_hour].
  rewrite Z.land_lor_distr_l. cbn [Z.land Pos.land]. change (Z.land 128 127) with 0. by rewrite Z.lor_0_r.
Qed.

Lemma rtc_pm_lost_in_bcd_witness :
  rt_hour (rtc_decode 0 0 129 1 1 24 0) = rt_hour (rtc_decode 0 0 1 1 1 24 0).
Proof. exact (rtc_pm_lost_in_bcd 0 0 1 1 1 24 0 ltac:(lia) eq_refl eq_refl). Defined.
