(* ===== verification/Vfs.v ===== *)
(** * Virtual file system and memory file system (src/vfs.c, src/memfs.c)

    Nodes, open files and file bodies are heap objects: a store maps
    pointers to records, so that the links between nodes (parent, first
    child, next sibling) alias as in the code.  Object allocation follows
    the contract of kmalloc: null, or a fresh object ([oom] decides which
    allocations fail).  A C string is the list of its bytes before the
    terminating zero.  The outer [option] of an operation is [None] when
    it follows a pointer to no object or a loop runs out of fuel. *)

From stdpp Require Import prelude list gmap.
From Stdlib Require Import ZArith Lia.
From S2P Require Import Prelude.
#[local] Open Scope Z_scope.
#[local] Open Scope cint_scope.

Definition VFS_O_RDONLY : Z := 1.
Definition VFS_O_WRONLY : Z := 2.
Definition VFS_O_RDWR : Z := 3.
Definition VFS_O_CREAT : Z := 4.
Definition VFS_NAME_MAX : Z := 255.
Definition VFS_PATH_MAX : Z := 512.

Definition SLASH : Z := 47.
Definition DOT : Z := 46.

Inductive node_type := VFS_NODE_DIR | VFS_NODE_FILE | VFS_NODE_DEV.

#[export] Instance node_type_eq_dec : EqDecision node_type.
Proof. solve_decision. Defined.

(** The operation tables of the file systems; [OpsNone] is a null pointer. *)
Inductive node_ops :=
| OpsNone | OpsMemDir | OpsMemFile | OpsTarDir | OpsTarFile | OpsDisk | OpsKbd | OpsMouse.

#[export] Instance node_ops_eq_dec : EqDecision node_ops.
Proof. solve_decision. Defined.

Record vfs_node := mk_node {
  vn_name : list Z;
  vn_type : node_type;
  vn_size : Z;
  vn_data : Z;
  vn_ops : node_ops;
  vn_parent : Z;
  vn_children : Z;
  vn_next : Z
}.

(** memfs_file_t: [mf_bytes] are the [cap] bytes of the buffer. *)
Record memfs_file := mk_mf { mf_bytes : list Z; mf_size : Z; mf_cap : Z }.

Record vfs_file := mk_file { vf_node : Z; vf_offset : Z; vf_flags : Z }.

Record fs := mk_fs {
  fs_nodes : gmap Z vfs_node;
  fs_bodies : gmap Z memfs_file;
  fs_files : gmap Z vfs_file;
  fs_next : Z;                       (* pointer of the next object *)
  g_root : Z;
  g_cwd : Z
}.

Definition set_nodes (f : fs) (m : gmap Z vfs_node) : fs :=
  mk_fs m (fs_bodies f) (fs_files f) (fs_next f) (g_root f) (g_cwd f).
Definition set_bodies (f : fs) (m : gmap Z memfs_file) : fs :=
  mk_fs (fs_nodes f) m (fs_files f) (fs_next f) (g_root f) (g_cwd f).
Definition set_files (f : fs) (m : gmap Z vfs_file) : fs :=
  mk_fs (fs_nodes f) (fs_bodies f) m (fs_next f) (g_root f) (g_cwd f).

Definition put_node (f : fs) (p : Z) (n : vfs_node) : fs := set_nodes f (<[p := n]> (fs_nodes f)).

Definition nd_set_next (n : vfs_node) (v : Z) : vfs_node :=
  mk_node (vn_name n) (vn_type n) (vn_size n) (vn_data n) (vn_ops n) (vn_parent n) (vn_children n) v.
Definition nd_set_children (n : vfs_node) (v : Z) : vfs_node :=
  mk_node (vn_name n) (vn_type n) (vn_size n) (vn_data n) (vn_ops n) (vn_parent n) v (vn_next n).
Definition nd_set_links (n : vfs_node) (parent next : Z) : vfs_node :=
  mk_node (vn_name n) (vn_type n) (vn_size n) (vn_data n) (vn_ops n) parent (vn_children n) next.
Definition nd_set_size (n : vfs_node) (v : Z) : vfs_node :=
  mk_node (vn_name n) (vn_type n) v (vn_data n) (vn_ops n) (vn_parent n) (vn_children n) (vn_next n).

Section vfs.
Context (oom : Z -> bool).

(** A kmalloc of one object: the pointer (0 on failure) and the state in
    which it has been taken. *)
Definition obj_alloc (f : fs) : Z * fs :=
  let f' := mk_fs (fs_nodes f) (fs_bodies f) (fs_files f) (fs_next f + 1) (g_root f) (g_cwd f) in
  if oom (fs_next f) then (0, f') else (fs_next f, f').

Definition vfs_init (f : fs) (root : Z) : fs :=
  mk_fs (fs_nodes f) (fs_bodies f) (fs_files f) (fs_next f) root root.
Definition vfs_root (f : fs) : Z := g_root f.
Definition vfs_cwd (f : fs) : Z := g_cwd f.
Definition vfs_set_cwd (f : fs) (node : Z) : fs :=
  if node =? 0 then f
  else mk_fs (fs_nodes f) (fs_bodies f) (fs_files f) (fs_next f) (g_root f) node.

(** Two allocations: the node and the copy of its name. *)
Definition vfs_create_node (f : fs) (name : list Z) (ty : node_type) (ops : node_ops) (data : Z) : Z * fs :=
  let '(node, f) := obj_alloc f in
  if node =? 0 then (0, f)
  else
    let '(nm, f) := obj_alloc f in
    if nm =? 0 then (0, f)
    else (node, put_node f node (mk_node name ty 0 data ops 0 0 0)).

(** Enough for a sibling list without repetition. *)
Definition chain_fuel (f : fs) : nat := S (size (fs_nodes f)).

Fixpoint find_sibling (fuel : nat) (f : fs) (cur : Z) (name : list Z) : option Z :=
  match fuel with
  | O => None
  | S k =>
      if cur =? 0 then Some 0
      else
        n ← fs_nodes f !! cur;
        if bool_decide (vn_name n = name) then Some cur else find_sibling k f (vn_next n) name
  end.

Definition vfs_find_child (f : fs) (parent : Z) (name : list Z) : option Z :=
  if parent =? 0 then Some 0
  else
    p ← fs_nodes f !! parent;
    if negb (bool_decide (vn_type p = VFS_NODE_DIR)) then Some 0
    else find_sibling (chain_fuel f) f (vn_children p) name.

Definition vfs_add_child (f : fs) (parent child : Z) : option (Z * fs) :=
  if (parent =? 0) || (child =? 0) then Some (-1, f)
  else
    p ← fs_nodes f !! parent;
    if negb (bool_decide (vn_type p = VFS_NODE_DIR)) then Some (-1, f)
    else
      c ← fs_nodes f !! child;
      r ← vfs_find_child f parent (vn_name c);
      if negb (r =? 0) then Some (-1, f)
      else
        let f := put_node f child (nd_set_links c parent (vn_children p)) in
        p ← fs_nodes f !! parent;
        Some (0, put_node f parent (nd_set_children p child)).

(** The walk with a pointer to the link: [prev] is the node whose next
    field is the link, 0 while it is the parent's children field. *)
Fixpoint remove_from (fuel : nat) (f : fs) (parent prev cur child : Z) : option (Z * fs) :=
  match fuel with
  | O => None
  | S k =>
      if cur =? 0 then Some (-1, f)
      else if cur =? child then
        c ← fs_nodes f !! child;
        f ← (if prev =? 0
             then p ← fs_nodes f !! parent; Some (put_node f parent (nd_set_children p (vn_next c)))
             else q ← fs_nodes f !! prev; Some (put_node f prev (nd_set_next q (vn_next c))));
        c ← fs_nodes f !! child;
        Some (0, put_node f child (nd_set_links c 0 0))
      else
        n ← fs_nodes f !! cur;
        remove_from k f parent cur (vn_next n) child
  end.

Definition vfs_remove_child (f : fs) (parent child : Z) : option (Z * fs) :=
  if (parent =? 0) || (child =? 0) then Some (-1, f)
  else
    p ← fs_nodes f !! parent;
    if negb (bool_decide (vn_type p = VFS_NODE_DIR)) then Some (-1, f)
    else remove_from (chain_fuel f) f parent 0 (vn_children p) child.

(** ** Paths *)

Fixpoint vfs_skip_slashes (p : list Z) : list Z :=
  match p with
  | c :: p' => if c =? SLASH then vfs_skip_slashes p' else p
  | [] => []
  end.

(** [while (p[len] && p[len] != '/') len++]. *)
Fixpoint seg_len (p : list Z) : nat :=
  match p with
  | [] => O
  | c :: p' => if c =? SLASH then O else S (seg_len p')
  end.

Fixpoint resolve_loop (fuel : nat) (f : fs) (cur : Z) (p : list Z) : option Z :=
  match fuel with
  | O => None
  | S k =>
      if bool_decide (p = []) then Some cur
      else
        let len := seg_len p in
        let seg := take len p in
        r ← (if bool_decide (seg = [DOT]) then Some (inl cur)
             else if bool_decide (seg = [DOT; DOT]) then
               n ← fs_nodes f !! cur;
               Some (inl (if vn_parent n =? 0 then cur else vn_parent n))
             else if (0 <? len)%nat then
               if VFS_NAME_MAX <? Z.of_nat len then Some (inr 0)
               else
                 c ← vfs_find_child f cur seg;
                 Some (if c =? 0 then inr 0 else inl c)
             else Some (inl cur));
        match r with
        | inr res => Some res
        | inl cur => resolve_loop k f cur (vfs_skip_slashes (drop len p))
        end
  end.

Definition vfs_resolve (f : fs) (path : list Z) (cwd : Z) : option Z :=
  if g_root f =? 0 then Some 0
  else
    match path with
    | c :: _ =>
        if c =? SLASH then resolve_loop (S (length path)) f (g_root f) (vfs_skip_slashes path)
        else resolve_loop (S (length path)) f (if cwd =? 0 then g_root f else cwd) path
    | [] => Some (if cwd =? 0 then g_root f else cwd)
    end.

Definition vfs_resolve_path (f : fs) (path : list Z) : option Z := vfs_resolve f path (g_cwd f).

(** [while (len > 1 && tmp[len - 1] == '/')] drop the last character. *)
Fixpoint strip_slashes (fuel : nat) (p : list Z) : list Z :=
  match fuel with
  | O => p
  | S k =>
      if (1 <? length p)%nat && bool_decide (last p = Some SLASH)
      then strip_slashes k (take (length p - 1) p) else p
  end.

(** Index of the last slash. *)
Fixpoint last_slash (p : list Z) (i : nat) (acc : option nat) : option nat :=
  match p with
  | [] => acc
  | c :: p' => last_slash p' (S i) (if c =? SLASH then Some i else acc)
  end.

(** [inr (parent, name)], or [inl tt] for the return value -1. *)
Definition vfs_resolve_parent (f : fs) (path : list Z) (cwd : Z) : option (unit + Z * list Z) :=
  let len := Z.of_nat (length path) in
  if (len =? 0) || (VFS_PATH_MAX <=? len) then Some (inl tt)
  else
    let tmp := strip_slashes (length path) path in
    let clip s := take (Z.to_nat VFS_NAME_MAX) s in
    match last_slash tmp 0 None with
    | None => Some (inr (if cwd =? 0 then g_root f else cwd, clip tmp))
    | Some O => Some (inr (g_root f, clip (drop 1 tmp)))
    | Some i =>
        parent ← vfs_resolve f (take i tmp) cwd;
        if parent =? 0 then Some (inl tt)
        else Some (inr (parent, clip (drop (S i) tmp)))
    end.

(** ** Memory file system *)

(** [buf] is the caller's buffer pointer; the bytes copied to it are the
    second result. *)
Definition memfs_read (f : fs) (node offset buf len : Z) : option (Z * list Z) :=
  if node =? 0 then Some (-1, [])
  else
    n ← fs_nodes f !! node;
    if negb (bool_decide (vn_type n = VFS_NODE_FILE)) then Some (-1, [])
    else if (vn_data n =? 0) || (buf =? 0) then Some (-1, [])
    else
      file ← fs_bodies f !! vn_data n;
      if mf_size file <=? offset then Some (0, [])
      else
        let avail := mf_size file - offset in
        let len := if avail <? len then avail else len in
        Some (len, take (Z.to_nat len) (drop (Z.to_nat offset) (mf_bytes file))).

(** [while (new_cap < need) new_cap *= 2] on 64 bits. *)
Fixpoint grow_cap (fuel : nat) (new_cap need : Z) : option Z :=
  match fuel with
  | O => None
  | S k => if new_cap <? need then grow_cap k (new_cap *% 2) need else Some new_cap
  end.

(** What a fresh buffer holds: the [i]-th byte of the [p]-th object. *)
Context (junk : Z -> Z -> Z).

Definition fresh_bytes (p n : Z) : list Z := (fun i => junk p (Z.of_nat i)) <$> seq 0 (Z.to_nat n).

(** Overwrite [bytes] with [b] from position [off] on. *)
Definition splice (bytes : list Z) (off : nat) (b : list Z) : list Z :=
  take off bytes ++ b ++ drop (off + length b) bytes.

(** [bytes] are the [len] bytes behind the buffer pointer [buf]. *)
Definition memfs_write (f : fs) (node offset buf : Z) (bytes : list Z) : option (Z * fs) :=
  let len := Z.of_nat (length bytes) in
  if node =? 0 then Some (-1, f)
  else
    n ← fs_nodes f !! node;
    if negb (bool_decide (vn_type n = VFS_NODE_FILE)) then Some (-1, f)
    else if (vn_data n =? 0) || (buf =? 0) then Some (-1, f)
    else
      file ← fs_bodies f !! vn_data n;
      let need := offset +% len in
      r ← (if mf_cap file <? need then
             new_cap ← grow_cap 65 (if mf_cap file =? 0 then 64 else mf_cap file) need;
             let '(p, f) := obj_alloc f in
             if p =? 0 then Some (inl f)
             else
               let new_data := splice (fresh_bytes p new_cap) 0 (take (Z.to_nat (mf_size file)) (mf_bytes file)) in
               Some (inr (mk_mf new_data (mf_size file) new_cap, f))
           else Some (inr (file, f)));
      match r with
      | inl f => Some (-1, f)
      | inr (file, f) =>
          let bytes := splice (mf_bytes file) (Z.to_nat offset) bytes in
          let size := if mf_size file <? need then need else mf_size file in
          let f := set_bodies f (<[vn_data n := mk_mf bytes size (mf_cap file)]> (fs_bodies f)) in
          Some (len, put_node f node (nd_set_size n size))
      end.

Definition memfs_free_node (f : fs) (node : Z) : option fs :=
  if node =? 0 then Some f
  else
    n ← fs_nodes f !! node;
    let f :=
      if bool_decide (vn_type n = VFS_NODE_FILE) && negb (vn_data n =? 0)
      then set_bodies f (delete (vn_data n) (fs_bodies f)) else f in
    Some (set_nodes f (delete node (fs_nodes f))).

Definition memfs_create (f : fs) (dir : Z) (name : list Z) (ty : node_type) : option (Z * Z * fs) :=
  if dir =? 0 then Some (-1, 0, f)
  else
    d ← fs_nodes f !! dir;
    if negb (bool_decide (vn_type d = VFS_NODE_DIR)) then Some (-1, 0, f)
    else
      c ← vfs_find_child f dir name;
      if negb (c =? 0) then Some (-1, 0, f)
      else
        let '(data, ops, fail, f) :=
          if bool_decide (ty = VFS_NODE_DIR) then (0, OpsMemDir, false, f)
          else
            let '(p, f) := obj_alloc f in
            if p =? 0 then (0, OpsMemFile, true, f)
            else (p, OpsMemFile, false, set_bodies f (<[p := mk_mf [] 0 0]> (fs_bodies f))) in
        if fail : bool then Some (-1, 0, f)
        else
          let '(node, f) := vfs_create_node f name ty ops data in
          if node =? 0 then
            Some (-1, 0, if data =? 0 then f else set_bodies f (delete data (fs_bodies f)))
          else
            '(rc, f) ← vfs_add_child f dir node;
            if negb (rc =? 0) then f ← memfs_free_node f node; Some (-1, 0, f)
            else Some (0, node, f).

Definition memfs_unlink (f : fs) (dir : Z) (name : list Z) : option (Z * fs) :=
  if dir =? 0 then Some (-1, f)
  else
    d ← fs_nodes f !! dir;
    if negb (bool_decide (vn_type d = VFS_NODE_DIR)) then Some (-1, f)
    else
      child ← vfs_find_child f dir name;
      if child =? 0 then Some (-1, f)
      else
        c ← fs_nodes f !! child;
        if bool_decide (vn_type c = VFS_NODE_DIR) && negb (vn_children c =? 0) then Some (-1, f)
        else
          '(rc, f) ← vfs_remove_child f dir child;
          if negb (rc =? 0) then Some (-1, f)
          else f ← memfs_free_node f child; Some (0, f).

Definition memfs_create_root (f : fs) : Z * fs := vfs_create_node f [] VFS_NODE_DIR OpsMemDir 0.

(** ** Operations on paths *)

Definition bad_name (name : list Z) : bool :=
  bool_decide (name = []) || bool_decide (name = [DOT]) || bool_decide (name = [DOT; DOT]).

(** The common body of vfs_mkdir and vfs_create. *)
Definition create_at (f : fs) (path : list Z) (ty : node_type) : option (Z * fs) :=
  r ← vfs_resolve_parent f path (g_cwd f);
  match r with
  | inl _ => Some (-1, f)
  | inr (parent, name) =>
      if parent =? 0 then Some (-1, f)
      else
        p ← fs_nodes f !! parent;
        if negb (bool_decide (vn_type p = VFS_NODE_DIR)) then Some (-1, f)
        else if bad_name name then Some (-1, f)
        else if negb (bool_decide (vn_ops p = OpsMemDir)) then Some (-1, f)
        else
          '(rc, _, f) ← memfs_create f parent name ty;
          Some (if negb (rc =? 0) then -1 else 0, f)
  end.

Definition vfs_mkdir (f : fs) (path : list Z) : option (Z * fs) := create_at f path VFS_NODE_DIR.
Definition vfs_create (f : fs) (path : list Z) : option (Z * fs) := create_at f path VFS_NODE_FILE.

Definition vfs_unlink (f : fs) (path : list Z) : option (Z * fs) :=
  r ← vfs_resolve_parent f path (g_cwd f);
  match r with
  | inl _ => Some (-1, f)
  | inr (parent, name) =>
      if parent =? 0 then Some (-1, f)
      else
        p ← fs_nodes f !! parent;
        if negb (bool_decide (vn_type p = VFS_NODE_DIR)) then Some (-1, f)
        else if negb (bool_decide (vn_ops p = OpsMemDir)) then Some (-1, f)
        else memfs_unlink f parent name
  end.

Definition vfs_open (f : fs) (path : list Z) (flags : Z) : option (Z * fs) :=
  node ← vfs_resolve_path f path;
  r ← (if (node =? 0) && negb (Z.land flags VFS_O_CREAT =? 0) then
         '(rc, f) ← vfs_create f path;
         if negb (rc =? 0) then Some (inl f)
         else node ← vfs_resolve_path f path; Some (inr (node, f))
       else Some (inr (node, f)));
  match r with
  | inl f => Some (0, f)
  | inr (node, f) =>
      if node =? 0 then Some (0, f)
      else
        n ← fs_nodes f !! node;
        if bool_decide (vn_type n = VFS_NODE_DIR) && negb (Z.land flags VFS_O_WRONLY =? 0)
        then Some (0, f)
        else
          let '(file, f) := obj_alloc f in
          if file =? 0 then Some (0, f)
          else Some (file, set_files f (<[file := mk_file node 0 flags]> (fs_files f)))
  end.

(** Reads and writes of the other file systems and of the devices. *)
Context (other_read : node_ops -> fs -> Z -> Z -> Z -> Z -> option (Z * list Z)).
Context (other_write : node_ops -> fs -> Z -> Z -> Z -> list Z -> option (Z * fs)).

(** The functions behind [ops->read] and [ops->write]; [None] is a null
    pointer. *)
Definition ops_read (o : node_ops) : option (fs -> Z -> Z -> Z -> Z -> option (Z * list Z)) :=
  match o with
  | OpsNone | OpsMemDir | OpsTarDir => None
  | OpsMemFile => Some memfs_read
  | OpsTarFile | OpsDisk | OpsKbd | OpsMouse => Some (other_read o)
  end.

Definition ops_write (o : node_ops) : option (fs -> Z -> Z -> Z -> list Z -> option (Z * fs)) :=
  match o with
  | OpsNone | OpsMemDir | OpsTarDir | OpsKbd | OpsMouse => None
  | OpsMemFile => Some memfs_write
  | OpsTarFile | OpsDisk => Some (other_write o)
  end.

Definition advance (f : fs) (file : Z) (fl : vfs_file) (n : Z) : fs :=
  if 0 <? n
  then set_files f (<[file := mk_file (vf_node fl) (vf_offset fl +% n) (vf_flags fl)]> (fs_files f))
  else f.

Definition vfs_read (f : fs) (file buf len : Z) : option (Z * list Z * fs) :=
  if file =? 0 then Some (-1, [], f)
  else
    fl ← fs_files f !! file;
    if vf_node fl =? 0 then Some (-1, [], f)
    else
      nd ← fs_nodes f !! vf_node fl;
      match ops_read (vn_ops nd) with
      | None => Some (-1, [], f)
      | Some rd =>
          '(n, bytes) ← rd f (vf_node fl) (vf_offset fl) buf len;
          Some (n, bytes, advance f file fl n)
      end.

Definition vfs_write (f : fs) (file buf : Z) (bytes : list Z) : option (Z * fs) :=
  if file =? 0 then Some (-1, f)
  else
    fl ← fs_files f !! file;
    if vf_node fl =? 0 then Some (-1, f)
    else
      nd ← fs_nodes f !! vf_node fl;
      match ops_write (vn_ops nd) with
      | None => Some (-1, f)
      | Some wr =>
          '(n, f) ← wr f (vf_node fl) (vf_offset fl) buf bytes;
          Some (n, advance f file fl n)
      end.

Definition vfs_close (f : fs) (file : Z) : fs :=
  if file =? 0 then f else set_files f (delete file (fs_files f)).
End vfs.

(** ** Paths as lists of components *)

Fixpoint split_on (p : list Z) : list (list Z) :=
  match p with
  | [] => [[]]
  | c :: p' =>
      if c =? SLASH then [] :: split_on p'
      else match split_on p' with s :: ss => (c :: s) :: ss | [] => [[c]] end
  end.

Definition components (p : list Z) : list (list Z) := filter (fun s => s <> []) (split_on p).

(** The reference: follow the components one by one. *)
Fixpoint walk (f : fs) (cur : Z) (comps : list (list Z)) : option Z :=
  match comps with
  | [] => Some cur
  | s :: ss =>
      if bool_decide (s = [DOT]) then walk f cur ss
      else if bool_decide (s = [DOT; DOT]) then
        n ← fs_nodes f !! cur;
        walk f (if vn_parent n =? 0 then cur else vn_parent n) ss
      else if VFS_NAME_MAX <? Z.of_nat (length s) then Some 0
      else
        c ← vfs_find_child f cur s;
        if c =? 0 then Some 0 else walk f c ss
  end.

Lemma components_slash p : components (SLASH :: p) = components p.
Proof. reflexivity. Qed.

Lemma components_skip p : components (vfs_skip_slashes p) = components p.
Proof.
  induction p as [|c p IH]; [done|]. cbn [vfs_skip_slashes].
  destruct (Z.eqb_spec c SLASH) as [->|]; [|done]. by rewrite IH.
Qed.

Lemma skip_slashes_head p : match vfs_skip_slashes p with c :: _ => c <> SLASH | [] => True end.
Proof.
  induction p as [|c p IH]; [done|]. cbn. by destruct (Z.eqb_spec c SLASH).
Qed.

Lemma skip_slashes_length p : (length (vfs_skip_slashes p) <= length p)%nat.
Proof. induction p as [|c p IH]; [done|]. cbn. destruct (c =? SLASH); cbn; lia. Qed.

Lemma split_seg p : split_on p =
  take (seg_len p) p :: match drop (seg_len p) p with [] => [] | _ :: q => split_on q end.
Proof.
  induction p as [|c p IH]; [done|]. cbn [split_on seg_len]. destruct (Z.eqb_spec c SLASH); [done|].
  rewrite IH. done.
Qed.

Lemma components_seg c p : c <> SLASH ->
  components (c :: p) = take (seg_len (c :: p)) (c :: p) :: components (vfs_skip_slashes (drop (seg_len (c :: p)) (c :: p))).
Proof.
  intros Hc. rewrite components_skip. unfold components. rewrite split_seg.
  assert (E : exists k, seg_len (c :: p) = S k) by (cbn; rewrite (proj2 (Z.eqb_neq c SLASH)) by done; eauto).
  rewrite filter_cons_True by (destruct E as [k ->]; cbn; discriminate). f_equal.
  destruct (drop (seg_len (c :: p)) (c :: p)) as [|d q] eqn:Ed; [done|].
  assert (d = SLASH) as ->; [|done].
  clear E Hc. revert Ed. generalize (c :: p). intros l. induction l as [|x l IH]; cbn; [done|].
  destruct (Z.eqb_spec x SLASH) as [->|]; [by intros [= ->]|]. cbn. apply IH.
Qed.

Lemma resolve_loop_walk f fuel : forall cur p,
  (length p < fuel)%nat -> match p with c :: _ => c <> SLASH | [] => True end ->
  resolve_loop fuel f cur p = walk f cur (components p).
Proof.
  induction fuel as [|k IH]; intros cur p Hf Hp; [lia|]. cbn [resolve_loop].
  destruct p as [|c p]; [done|]. rewrite bool_decide_false by done.
  rewrite (components_seg c p Hp). set (q := c :: p) in *. cbn [walk].
  assert (Hlen : exists n, seg_len q = S n) by (unfold q; cbn; rewrite (proj2 (Z.eqb_neq c SLASH)) by done; eauto).
  assert (Hle : (seg_len q <= length q)%nat).
  { clear. clearbody q. induction q as [|x q IH]; cbn; [lia|]. destruct (x =? SLASH); cbn; lia. }
  clearbody q.
  assert (Hrest : forall cur', resolve_loop k f cur' (vfs_skip_slashes (drop (seg_len q) q)) =
    walk f cur' (components (vfs_skip_slashes (drop (seg_len q) q)))).
  { intros cur'. apply IH; [|apply skip_slashes_head].
    pose proof (skip_slashes_length (drop (seg_len q) q)). rewrite length_drop in *.
    destruct Hlen as [n Hn]. lia. }
  rewrite (proj2 (Nat.ltb_lt 0 (seg_len q))) by (destruct Hlen; lia).
  case_bool_decide; cbn; [apply Hrest|]. case_bool_decide; cbn.
  - destruct (fs_nodes f !! cur) as [n|]; cbn; [apply Hrest|done].
  - rewrite length_take_le by done. destruct (VFS_NAME_MAX <? Z.of_nat (seg_len q)); cbn; [done|].
    destruct (vfs_find_child f cur (take (seg_len q) q)) as [ch|]; cbn; [|done].
    destruct (ch =? 0); [done|]. apply Hrest.
Qed.
