(* ===== verification/VfsSpec.v ===== *)
(** * Theorems about the file system

    Path resolution against its reference, directories as finite maps from
    names to nodes, and file contents of the memory file system. *)

From stdpp Require Import prelude list gmap.
From Stdlib Require Import ZArith Lia.
From S2P Require Import Prelude Vfs.
#[local] Open Scope Z_scope.
#[local] Open Scope cint_scope.

(** Step through the binds of an operation. *)
Ltac ob := cbn [mbind option_bind negb].

(** ** Sibling lists *)

Inductive child_chain (f : fs) : Z -> list Z -> Prop :=
| cc_nil : child_chain f 0 []
| cc_cons a n l : 0 < a -> fs_nodes f !! a = Some n ->
    child_chain f (vn_next n) l -> child_chain f a (a :: l).

Definition name_of (f : fs) (p : Z) : option (list Z) := vn_name <$> fs_nodes f !! p.

(** [d] is a directory whose entries are [l]: a finite list of distinct
    nodes with distinct names, which does not contain [d] itself. *)
Record dir_ok (f : fs) (d : Z) (l : list Z) : Prop := {
  do_pos : 0 < d;
  do_node : exists n, fs_nodes f !! d = Some n /\ vn_type n = VFS_NODE_DIR /\ child_chain f (vn_children n) l;
  do_nodup : NoDup l;
  do_self : d ∉ l;
  do_names a b x : a ∈ l -> b ∈ l -> name_of f a = Some x -> name_of f b = Some x -> a = b
}.

(** Objects are at positive addresses below the next one. *)
Record fresh_ok (f : fs) : Prop := {
  fo_next : 0 < fs_next f;
  fo_nodes p n : fs_nodes f !! p = Some n -> 0 < p < fs_next f;
  fo_bodies p b : fs_bodies f !! p = Some b -> 0 < p < fs_next f
}.

Lemma chain_nodes f a l x : child_chain f a l -> x ∈ l -> 0 < x /\ is_Some (fs_nodes f !! x).
Proof.
  induction 1 as [|a n l Ha Hn Hc IH]; intros Hx; [by apply not_elem_of_nil in Hx|].
  apply elem_of_cons in Hx as [->|Hx]; [eauto|by apply IH].
Qed.

Lemma chain_length f a l : child_chain f a l -> NoDup l -> (length l <= size (fs_nodes f))%nat.
Proof.
  intros Hc Hnd. rewrite <- (size_list_to_set (C := gset Z) l) by done.
  rewrite <- (size_dom (D := gset Z) (fs_nodes f)). apply subseteq_size.
  intros x Hx. apply elem_of_list_to_set in Hx. apply elem_of_dom. by eapply chain_nodes.
Qed.

(** Nodes off the list may change. *)
Lemma chain_frame f f' a l :
  child_chain f a l -> (forall x, x ∈ l -> fs_nodes f' !! x = fs_nodes f !! x) -> child_chain f' a l.
Proof.
  induction 1 as [|a n l Ha Hn Hc IH]; intros Hx; [constructor|].
  econstructor; [done|rewrite Hx; [done|by left]|]. apply IH. intros x Hin. apply Hx. by right.
Qed.

(** The entry with a given name, 0 when there is none. *)
Definition entry (f : fs) (l : list Z) (name : list Z) : Z :=
  match list_find (fun p => name_of f p = Some name) l with Some (_, p) => p | None => 0 end.

Lemma find_sibling_ok f a l name fuel :
  child_chain f a l -> (length l < fuel)%nat -> find_sibling fuel f a name = Some (entry f l name).
Proof.
  intros Hc. revert fuel. induction Hc as [|a n l Ha Hn Hc IH]; intros [|fuel] Hf; cbn in Hf; try lia; [done|].
  cbn [find_sibling]. destruct (Z.eqb_spec a 0); [lia|]. rewrite Hn. cbn.
  assert (Hna : name_of f a = Some (vn_name n)) by (unfold name_of; by rewrite Hn).
  unfold entry. cbn [list_find].
  destruct (decide (name_of f a = Some name)) as [E|E].
  - rewrite bool_decide_true by congruence. done.
  - rewrite bool_decide_false by congruence. rewrite IH by lia. unfold entry.
    by destruct (list_find _ l) as [[]|].
Qed.

Lemma find_child_ok f d l name : dir_ok f d l -> vfs_find_child f d name = Some (entry f l name).
Proof.
  intros D. destruct (do_node _ _ _ D) as (n & Hn & Ht & Hc). pose proof (do_pos _ _ _ D).
  unfold vfs_find_child. destruct (Z.eqb_spec d 0); [lia|]. rewrite Hn. ob.
  rewrite bool_decide_true by done. ob. apply find_sibling_ok; [done|].
  pose proof (chain_length f _ l Hc (do_nodup _ _ _ D)). unfold chain_fuel. lia.
Qed.

Lemma entry_Some f l name p : (forall x, x ∈ l -> 0 < x) -> entry f l name = p -> p <> 0 ->
  p ∈ l /\ name_of f p = Some name.
Proof.
  intros Hpos. unfold entry. destruct (list_find _ l) as [[i q]|] eqn:E; [|congruence].
  intros <- _. apply list_find_Some in E as (Hi & Hn & _). split; [by eapply list_elem_of_lookup_2|done].
Qed.

Lemma entry_zero f l name : (forall x, x ∈ l -> 0 < x) -> entry f l name = 0 ->
  forall x, x ∈ l -> name_of f x <> Some name.
Proof.
  intros Hpos. unfold entry. destruct (list_find _ l) as [[i q]|] eqn:E.
  - intros ->. apply list_find_Some in E as (Hi & _). apply list_elem_of_lookup_2 in Hi. apply Hpos in Hi. lia.
  - intros _ x Hx. apply list_find_None in E. rewrite Forall_forall in E. by apply E.
Qed.

Lemma dir_entries_pos f d l x : dir_ok f d l -> x ∈ l -> 0 < x.
Proof. intros D Hx. destruct (do_node _ _ _ D) as (n & _ & _ & Hc). by eapply chain_nodes. Qed.

Lemma entry_ext f f' l name : (forall x, x ∈ l -> name_of f' x = name_of f x) -> entry f' l name = entry f l name.
Proof.
  induction l as [|a l IH]; intros Hx; [done|]. unfold entry in *. cbn [list_find].
  pose proof (Hx a ltac:(by left)) as Ha.
  destruct (decide (name_of f' a = Some name)), (decide (name_of f a = Some name)); [done|congruence..|].
  specialize (IH (fun x H => Hx x (proj2 (elem_of_cons l x a) (or_intror H)))).
  destruct (list_find (fun p => name_of f' p = Some name) l) as [[]|],
    (list_find (fun p => name_of f p = Some name) l) as [[]|]; cbn in *; congruence.
Qed.

(** ** Adding and removing entries *)

Lemma add_child_ok f d l c n :
  dir_ok f d l -> fs_nodes f !! c = Some n -> 0 < c -> c <> d -> c ∉ l -> entry f l (vn_name n) = 0 ->
  exists f' pd, vfs_add_child f d c = Some (0, f') /\ dir_ok f' d (c :: l) /\
    fs_nodes f !! d = Some pd /\
    fs_nodes f' = <[d := nd_set_children pd c]> (<[c := nd_set_links n d (vn_children pd)]> (fs_nodes f)) /\
    fs_bodies f' = fs_bodies f /\ fs_next f' = fs_next f /\ fs_files f' = fs_files f /\
    g_root f' = g_root f /\ g_cwd f' = g_cwd f.
Proof.
  intros D Hc Hc0 Hcd Hcl He. pose proof (do_pos _ _ _ D) as Hd0.
  destruct (do_node _ _ _ D) as (pd & Hd & Ht & Hch).
  unfold vfs_add_child. rewrite (proj2 (Z.eqb_neq d 0)), (proj2 (Z.eqb_neq c 0)) by lia. cbn [orb].
  rewrite Hd. ob. rewrite bool_decide_true by done. ob. rewrite Hc. ob.
  rewrite (find_child_ok f d l) by done. ob. rewrite He. cbn [Z.eqb negb].
  cbn [fs_nodes put_node set_nodes]. rewrite lookup_insert_ne, Hd by done. ob.
  eexists _, pd. split; [done|]. split; [|done].
  set (f' := put_node _ _ _).
  assert (Hother : forall x, x <> c -> x <> d -> fs_nodes f' !! x = fs_nodes f !! x).
  { intros x H1 H2. cbn. by rewrite !lookup_insert_ne by done. }
  assert (Hnc : fs_nodes f' !! c = Some (nd_set_links n d (vn_children pd))).
  { cbn. rewrite lookup_insert_ne by done. apply lookup_insert_eq. }
  assert (Hname : forall x, x ∈ l -> name_of f' x = name_of f x).
  { intros x Hx. unfold name_of. rewrite Hother; [done|by intros ->|].
    intros ->. by apply (do_self _ _ _ D). }
  constructor; [done| | | |].
  - exists (nd_set_children pd c). split; [cbn; apply lookup_insert_eq|]. split; [done|]. cbn.
    econstructor; [done|exact Hnc|]. cbn. eapply chain_frame; [exact Hch|].
    intros x Hx. apply Hother; [by intros ->|]. intros ->. by apply (do_self _ _ _ D).
  - constructor; [done|apply (do_nodup _ _ _ D)].
  - intros [->|Hx]%elem_of_cons; [done|]. by apply (do_self _ _ _ D).
  - assert (Hcn : name_of f' c = Some (vn_name n)) by (unfold name_of; rewrite Hnc; done).
    assert (Hnone : forall x, x ∈ l -> name_of f' x <> Some (vn_name n)).
    { intros x Hx. rewrite Hname by done. eapply entry_zero; [|done|done]. intros y Hy. by eapply dir_entries_pos. }
    intros a b x [->|Ha]%elem_of_cons [->|Hb]%elem_of_cons Ea Eb; [done| | |].
    + destruct (Hnone b Hb). congruence.
    + destruct (Hnone a Ha). congruence.
    + rewrite Hname in Ea, Eb by done. by eapply (do_names _ _ _ D).
Qed.

(** Entries after an insertion. *)
Lemma entry_add f' c l name x : name_of f' c = Some name ->
  entry f' (c :: l) x = if bool_decide (x = name) then c else entry f' l x.
Proof.
  intros Hn. unfold entry. cbn [list_find]. destruct (decide (name_of f' c = Some x)) as [E|E].
  - by rewrite bool_decide_true by congruence.
  - rewrite bool_decide_false by congruence. by destruct (list_find _ l) as [[]|].
Qed.

(** A fresh object pointer. *)
Lemma obj_alloc_cases oom f p f' : obj_alloc oom f = (p, f') ->
  fs_nodes f' = fs_nodes f /\ fs_bodies f' = fs_bodies f /\ fs_files f' = fs_files f /\
  fs_next f' = fs_next f + 1 /\ g_root f' = g_root f /\ g_cwd f' = g_cwd f /\ (p = 0 \/ p = fs_next f).
Proof.
  unfold obj_alloc. destruct (oom (fs_next f)); intros [= <- <-]; cbn; tauto.
Qed.

Lemma fresh_step oom f p f' : fresh_ok f -> obj_alloc oom f = (p, f') ->
  fresh_ok f' /\ (p = 0 \/ (fs_nodes f' !! p = None /\ fs_bodies f' !! p = None /\ 0 < p < fs_next f')).
Proof.
  intros [N1 N2 N3] E. destruct (obj_alloc_cases oom f p f' E) as (En & Eb & _ & Ex & _ & _ & Hp).
  split.
  - constructor; rewrite ?En, ?Eb, ?Ex; [lia| |].
    + intros q n Hq. specialize (N2 q n Hq). lia.
    + intros q b Hq. specialize (N3 q b Hq). lia.
  - destruct Hp as [->| ->]; [by left|]. right. rewrite En, Eb, Ex. split; [|split; [|lia]].
    + destruct (fs_nodes f !! fs_next f) eqn:Hq; [|done]. apply N2 in Hq. lia.
    + destruct (fs_bodies f !! fs_next f) eqn:Hq; [|done]. apply N3 in Hq. lia.
Qed.

Lemma create_node_cases oom f name ty ops data p f' :
  fresh_ok f -> vfs_create_node oom f name ty ops data = (p, f') ->
  fresh_ok f' /\ fs_bodies f' = fs_bodies f /\
  ((p = 0 /\ fs_nodes f' = fs_nodes f) \/
   (p <> 0 /\ fs_nodes f !! p = None /\ 0 < p /\
    fs_nodes f' = <[p := mk_node name ty 0 data ops 0 0 0]> (fs_nodes f))).
Proof.
  intros F. unfold vfs_create_node.
  destruct (obj_alloc oom f) as [p1 f1] eqn:E1.
  destruct (fresh_step oom f p1 f1 F E1) as [F1 Hp1].
  destruct (obj_alloc_cases oom f p1 f1 E1) as (N1 & B1 & _).
  destruct (Z.eqb_spec p1 0) as [->|H1]; [intros [= <- <-]; split; [done|]; split; [done|]; by left|].
  destruct (obj_alloc oom f1) as [p2 f2] eqn:E2.
  destruct (fresh_step oom f1 p2 f2 F1 E2) as [F2 _].
  destruct (obj_alloc_cases oom f1 p2 f2 E2) as (N2 & B2 & _ & X2 & _).
  destruct (Z.eqb_spec p2 0) as [->|H2]; intros [= <- <-].
  - split; [done|]. split; [congruence|]. left. split; [done|congruence].
  - destruct Hp1 as [|(Hf1 & Hb1 & Hlt)]; [done|].
    split; [|split; [cbn; congruence|right; split; [done|split; [congruence|split; [lia|cbn; congruence]]]]].
    destruct F2 as [G1 G2 G3]. constructor; cbn; [done| |done].
    intros q n Hq. apply lookup_insert_Some in Hq as [[<- _]|[_ Hq]]; [lia|by apply (G2 q n)].
Qed.

(** The node whose link is rewritten when the entry behind [l1] goes. *)
Definition link_owner (parent prev : Z) (l1 : list Z) : Z :=
  match last l1 with Some x => x | None => if prev =? 0 then parent else prev end.

Definition relink (first : bool) (n : vfs_node) (v : Z) : vfs_node :=
  if first then nd_set_children n v else nd_set_next n v.

Lemma remove_from_ok parent c nc l2 : forall l1 fuel f prev cur,
  child_chain f cur (l1 ++ c :: l2) -> NoDup (l1 ++ c :: l2) -> parent ∉ l1 ++ c :: l2 ->
  (length l1 < fuel)%nat -> fs_nodes f !! c = Some nc -> is_Some (fs_nodes f !! parent) ->
  (prev = 0 \/ (0 < prev /\ (prev ∉ l1 ++ c :: l2) /\ is_Some (fs_nodes f !! prev))) ->
  exists o no, o = link_owner parent prev l1 /\ fs_nodes f !! o = Some no /\ o <> c /\
    let first := bool_decide (l1 = []) && (prev =? 0) in
    remove_from fuel f parent prev cur c = Some (0,
      put_node (put_node f o (relink first no (vn_next nc))) c (nd_set_links nc 0 0)).
Proof.
  induction l1 as [|x l1 IH]; intros [|fuel] f prev cur Hc Hnd Hpar Hf Hnc Hp Hprev; cbn [length] in Hf; try lia.
  - cbn [app] in *. inversion Hc as [|? n ? Hpos Hn Hc']; subst cur. subst.
    assert (n = nc) as -> by congruence.
    cbn [remove_from]. destruct (Z.eqb_spec c 0); [lia|]. rewrite Z.eqb_refl, Hnc. ob.
    unfold link_owner. cbn [last]. apply not_elem_of_cons in Hpar as [Hpc _].
    destruct (Z.eqb_spec prev 0) as [->|Hpr].
    + destruct Hp as [np Hp]. exists parent, np. split; [done|]. split; [done|]. split; [done|].
      rewrite Hp. ob. cbn [fs_nodes put_node set_nodes]. rewrite lookup_insert_ne, Hnc by done. ob.
      rewrite bool_decide_true by done. done.
    + destruct Hprev as [|(Hpr0 & Hpl & [nq Hq])]; [done|]. apply not_elem_of_cons in Hpl as [Hpl _].
      exists prev, nq. split; [done|]. split; [done|]. split; [done|].
      rewrite Hq. ob. cbn [fs_nodes put_node set_nodes]. rewrite lookup_insert_ne, Hnc by done. ob.
      rewrite bool_decide_true by done. done.
  - cbn [app] in *. inversion Hc as [|? n ? Hpos Hn Hc']; subst cur. subst.
    apply NoDup_cons in Hnd as [Hx Hnd]. apply not_elem_of_cons in Hpar as [Hpx Hpar].
    cbn [remove_from]. destruct (Z.eqb_spec x 0); [lia|].
    destruct (Z.eqb_spec x c) as [->|Hxc]; [destruct Hx; apply elem_of_app; right; by left|].
    rewrite Hn. ob.
    destruct (IH fuel f x (vn_next n) Hc' Hnd Hpar ltac:(lia) Hnc Hp) as (o & no & Eo & Ho & Hoc & E).
    { right. split; [done|]. split; [done|]. by rewrite Hn. }
    exists o, no. split; [|split; [done|split; [done|]]].
    + rewrite Eo. unfold link_owner. rewrite last_cons. destruct (last l1); [done|].
      destruct (Z.eqb_spec x 0); [lia|done].
    + cbv zeta in *. rewrite E. destruct (Z.eqb_spec x 0); [lia|]. rewrite andb_false_r.
      rewrite (bool_decide_false (x :: l1 = [])) by done. done.
Qed.

(** The chain after the entry [c] has been unlinked. *)
Lemma chain_unlink f f' c nc l2 : forall l1 cur,
  child_chain f cur (l1 ++ c :: l2) -> NoDup (l1 ++ c :: l2) -> fs_nodes f !! c = Some nc ->
  (forall x, x ∈ l1 ++ l2 -> last l1 <> Some x -> fs_nodes f' !! x = fs_nodes f !! x) ->
  (forall x n, last l1 = Some x -> fs_nodes f !! x = Some n -> fs_nodes f' !! x = Some (nd_set_next n (vn_next nc))) ->
  child_chain f' (match l1 with [] => vn_next nc | _ => cur end) (l1 ++ l2).
Proof.
  induction l1 as [|x l1 IH]; intros cur Hc Hnd Hnc Hsame Hlast; cbn [app] in *.
  - inversion Hc as [|? n ? Hpos Hn Hc']; subst. assert (n = nc) as -> by congruence.
    eapply chain_frame; [done|]. intros y Hy. by apply Hsame.
  - inversion Hc as [|? n ? Hpos Hn Hc']; subst. apply NoDup_cons in Hnd as [Hx Hnd].
    assert (Hl1 : forall y, y ∈ l1 ++ l2 -> y <> x).
    { intros y Hy ->. apply Hx. apply elem_of_app in Hy as [?|?]; apply elem_of_app; [by left|]. right. by right. }
    destruct l1 as [|y l1].
    + econstructor; [done|by apply Hlast|]. cbn.
      apply (IH (vn_next n) Hc' Hnd Hnc); [|done].
      intros z Hz _. apply Hsame; [by right|]. cbn. intros [= ->]. by apply (Hl1 z).
    + econstructor; [done| |].
      * rewrite Hsame; [done|by left|]. rewrite last_cons_cons. intros Hl.
        apply (Hl1 x); [|done]. apply elem_of_app. left. apply last_Some in Hl as [l' ->]. apply elem_of_app. right. by left.
      * apply (IH (vn_next n) Hc' Hnd Hnc).
        -- intros z Hz Hl. apply Hsame; [by right|]. by rewrite last_cons_cons.
        -- intros z nz Hl. apply Hlast. by rewrite last_cons_cons.
Qed.

Lemma remove_child_ok f d l1 c l2 nc :
  dir_ok f d (l1 ++ c :: l2) -> fs_nodes f !! c = Some nc ->
  exists f', vfs_remove_child f d c = Some (0, f') /\ dir_ok f' d (l1 ++ l2) /\
    fs_nodes f' !! c = Some (nd_set_links nc 0 0) /\
    fs_bodies f' = fs_bodies f /\ fs_next f' = fs_next f /\
    (forall x, name_of f' x = name_of f x) /\
    (forall x, x <> d -> x ∉ l1 ++ c :: l2 -> fs_nodes f' !! x = fs_nodes f !! x).
Proof.
  intros D Hnc. pose proof (do_pos _ _ _ D) as Hd0. destruct (do_node _ _ _ D) as (pd & Hd & Ht & Hch).
  pose proof (do_nodup _ _ _ D) as Hnd. pose proof (do_self _ _ _ D) as Hself.
  assert (Hcin : c ∈ l1 ++ c :: l2) by (apply elem_of_app; right; by left).
  assert (Hc0 : 0 < c) by (by eapply chain_nodes).
  unfold vfs_remove_child. rewrite (proj2 (Z.eqb_neq d 0)), (proj2 (Z.eqb_neq c 0)) by lia. cbn [orb].
  rewrite Hd. ob. rewrite bool_decide_true by done. ob.
  pose proof (chain_length f _ _ Hch Hnd) as Hlen. rewrite length_app in Hlen. cbn in Hlen.
  destruct (remove_from_ok d c nc l2 l1 (chain_fuel f) f 0 (vn_children pd) Hch Hnd Hself) as (o & no & Eo & Ho & Hoc & E);
    [unfold chain_fuel; lia|done|by rewrite Hd|by left|]. cbv zeta in E. rewrite Z.eqb_refl, andb_true_r in E. rewrite E.
  set (f' := put_node (put_node f o _) c _).
  assert (Hcd : c <> d) by (intros ->; done).
  assert (Hfo : fs_nodes f' !! o = Some (relink (bool_decide (l1 = [])) no (vn_next nc))).
  { cbn. rewrite lookup_insert_ne by done. apply lookup_insert_eq. }
  assert (Hother : forall x, x <> c -> x <> o -> fs_nodes f' !! x = fs_nodes f !! x).
  { intros x ? ?. cbn. by rewrite !lookup_insert_ne. }
  assert (Hown : match last l1 with Some x => o = x | None => o = d /\ l1 = [] end).
  { unfold link_owner in Eo. destruct (last l1) eqn:El; [done|]. by apply last_None in El. }
  assert (Hc12 : c ∉ l1 ++ l2).
  { apply NoDup_app in Hnd as (_ & Hdis & Hnd2). apply NoDup_cons in Hnd2 as [Hc2 _].
    intros [H1|H2]%elem_of_app; [|done]. apply (Hdis c H1). by left. }
  assert (Hsub : forall x, x ∈ l1 ++ l2 -> x ∈ l1 ++ c :: l2).
  { intros x [?|?]%elem_of_app; apply elem_of_app; [by left|]. right. by right. }
  assert (Hname : forall x, name_of f' x = name_of f x).
  { intros x. unfold name_of. destruct (decide (x = c)) as [->|]; [cbn; rewrite lookup_insert_eq, Hnc; done|].
    destruct (decide (x = o)) as [->|]; [|by rewrite Hother]. rewrite Hfo, Ho. cbn. by destruct (bool_decide _). }
  assert (Hlastin : forall x, last l1 = Some x -> x ∈ l1).
  { intros x Hl. apply last_Some in Hl as [l' ->]. apply elem_of_app. right. by left. }
  exists f'. split; [done|]. split; [|split; [cbn; apply lookup_insert_eq|split; [done|split; [done|split; [done|]]]]].
  - constructor; [done| | | |].
    + assert (Hchain : child_chain f' (match l1 with [] => vn_next nc | _ => vn_children pd end) (l1 ++ l2)).
      { eapply (chain_unlink f f' c nc l2 l1); [done|done|done| |].
        - intros x Hx Hl. apply Hother; [by intros ->|]. intros ->. destruct (last l1) eqn:El; [congruence|].
          destruct Hown as [-> ->]. by apply Hself, Hsub.
        - intros x n Hl Hx. rewrite Hl in Hown. subst x. rewrite Hfo. f_equal.
          rewrite bool_decide_false by (intros ->; done). unfold relink. congruence. }
      destruct (last l1) eqn:El.
      * subst o. exists pd. split; [|split; [done|]].
        -- rewrite Hother; [done|done|]. intros E1. apply Hself, elem_of_app. left. apply Hlastin. congruence.
        -- destruct l1; [done|exact Hchain].
      * destruct Hown as [-> ->]. rewrite Hd in Ho. injection Ho as <-.
        exists (nd_set_children pd (vn_next nc)). split; [exact Hfo|]. split; [done|]. exact Hchain.
    + apply NoDup_app in Hnd as (H1 & Hdis & H2). apply NoDup_cons in H2 as [_ H2].
      apply NoDup_app. split; [done|]. split; [|done]. intros x Hx Hx2. apply (Hdis x Hx). by right.
    + intros Hx. by apply Hself, Hsub.
    + intros a b x Ha Hb. rewrite !Hname. apply (do_names _ _ _ D); by apply Hsub.
  - intros x Hxd Hxl. apply Hother; [by intros ->|]. intros ->. destruct (last l1) eqn:El.
    + subst z. apply Hxl, elem_of_app. left. by apply Hlastin.
    + by destruct Hown.
Qed.

(** ** File contents *)

(** [node] is a regular file of the memory file system with body [b]. *)
Record file_ok (f : fs) (node : Z) (n : vfs_node) (b : memfs_file) : Prop := {
  fk_pos : 0 < node;
  fk_node : fs_nodes f !! node = Some n;
  fk_type : vn_type n = VFS_NODE_FILE;
  fk_data : vn_data n <> 0;
  fk_body : fs_bodies f !! vn_data n = Some b;
  fk_len : Z.of_nat (length (mf_bytes b)) = mf_cap b;
  fk_size : 0 <= mf_size b <= mf_cap b
}.

Definition content (b : memfs_file) : list Z := take (Z.to_nat (mf_size b)) (mf_bytes b).

Lemma grow_cap_ok fuel cap need :
  0 < cap -> need <= 2 ^ 62 -> cap * 2 ^ Z.of_nat fuel > need -> cap <= 2 ^ 62 ->
  exists c, grow_cap (S fuel) cap need = Some c /\ need <= c /\ cap <= c <= 2 ^ 63.
Proof.
  assert (Hstep : forall k c, grow_cap (S k) c need = if c <? need then grow_cap k (c *% 2) need else Some c) by done.
  assert (Hdone : forall k c, need <= c -> grow_cap (S k) c need = Some c).
  { intros k c Hc. rewrite Hstep. destruct (Z.ltb_spec c need); [lia|done]. }
  revert cap. induction fuel as [|k IH]; intros cap Hc Hn Hb Hm.
  - rewrite Z.pow_0_r in Hb. exists cap. rewrite Hdone by lia. split; [done|lia].
  - destruct (decide (need <= cap)); [exists cap; rewrite Hdone by done; split; [done|lia]|].
    rewrite Hstep. destruct (Z.ltb_spec cap need); [|lia].
    rewrite u64_small by (unfold is_u64; lia).
    destruct (decide (cap * 2 <= 2 ^ 62)).
    + destruct (IH (cap * 2)) as (c & Ec & ? & ?); [lia|done| |done|].
      * rewrite Nat2Z.inj_succ, Z.pow_succ_r in Hb by lia. lia.
      * exists c. split; [exact Ec|lia].
    + exists (cap * 2). rewrite Hdone by lia. split; [done|lia].
Qed.

Lemma splice_length bytes off b : (off + length b <= length bytes)%nat -> length (splice bytes off b) = length bytes.
Proof. intros. unfold splice. rewrite !length_app, length_take, length_drop. lia. Qed.

(** Overwriting inside the buffer, seen through the size. *)
Lemma splice_content bytes off b sz :
  (off <= sz)%nat -> (sz <= length bytes)%nat -> (off + length b <= length bytes)%nat ->
  take (Nat.max sz (off + length b)) (splice bytes off b) = splice (take sz bytes) off b.
Proof.
  intros H1 H2 H3. unfold splice.
  rewrite take_app, length_take, Nat.min_l by lia.
  rewrite (take_ge (take off bytes)) by (rewrite length_take; lia).
  rewrite take_take, Nat.min_l by lia. f_equal.
  rewrite take_app, (take_ge b) by lia. f_equal.
  rewrite take_drop_commute.
  destruct (decide (sz <= off + length b)%nat).
  - rewrite !drop_ge; [done|rewrite length_take; lia..].
  - f_equal. f_equal. lia.
Qed.

(** The buffer a write works on: the old one, or a larger copy. *)
Lemma write_buffer b off len junk p :
  Z.of_nat (length (mf_bytes b)) = mf_cap b -> 0 <= mf_size b <= mf_cap b -> mf_cap b <= 2 ^ 62 ->
  0 <= off -> 0 <= len -> off + len <= 2 ^ 62 ->
  exists c, grow_cap 65 (if mf_cap b =? 0 then 64 else mf_cap b) (off + len) = Some c /\
    off + len <= c /\ mf_cap b <= c /\
    let data := splice (fresh_bytes junk p c) 0 (take (Z.to_nat (mf_size b)) (mf_bytes b)) in
    Z.of_nat (length data) = c /\ take (Z.to_nat (mf_size b)) data = content b.
Proof.
  intros Hl Hs Hcap Ho Hln Hn.
  destruct (grow_cap_ok 64 (if mf_cap b =? 0 then 64 else mf_cap b) (off + len)) as (c & Ec & H1 & H2);
    [destruct (Z.eqb_spec (mf_cap b) 0); lia|lia|destruct (Z.eqb_spec (mf_cap b) 0); lia|destruct (Z.eqb_spec (mf_cap b) 0); lia|].
  assert (Hc : mf_cap b <= c) by (destruct (Z.eqb_spec (mf_cap b) 0); lia).
  exists c. split; [done|]. split; [done|]. split; [done|]. cbv zeta.
  assert (Hfl : length (fresh_bytes junk p c) = Z.to_nat c).
  { unfold fresh_bytes. by rewrite length_fmap, length_seq. }
  assert (Ht : length (take (Z.to_nat (mf_size b)) (mf_bytes b)) = Z.to_nat (mf_size b)) by (rewrite length_take; lia).
  split; [rewrite splice_length; lia|]. unfold splice. rewrite take_0. cbn [app].
  rewrite take_app_length' by (by rewrite Ht). done.
Qed.

Lemma drop_splice bytes off b : (off <= length bytes)%nat ->
  take (length b) (drop off (splice bytes off b)) = b.
Proof.
  intros Ho. unfold splice. rewrite drop_app_length' by (rewrite length_take; lia). by rewrite take_app_length.
Qed.

(** * Properties *)

(** C32: Path resolution is a walk along the components of the path.  For
    every path and working directory, the character loop of [vfs_resolve]
    terminates and gives what following the slash-separated components
    does, one by one, from the root (a leading slash) or the working
    directory: repeated and trailing slashes do not matter, [.] stays,
    [..] goes to the parent or stays at the root, a component longer than
    255 characters or without entry gives null. *)
Theorem vfs_resolve_walk f path cwd :
  g_root f <> 0 ->
  vfs_resolve f path cwd =
  walk f (if bool_decide (head path = Some SLASH) then g_root f
          else if cwd =? 0 then g_root f else cwd) (components path).
Proof.
  intros Hr. unfold vfs_resolve. destruct (Z.eqb_spec (g_root f) 0); [done|].
  destruct path as [|c p]; [done|]. cbn [head]. destruct (Z.eqb_spec c SLASH) as [->|Hc].
  - rewrite bool_decide_true by done. rewrite resolve_loop_walk.
    + by rewrite components_skip.
    + pose proof (skip_slashes_length (SLASH :: p)). cbn [length] in *. lia.
    + apply skip_slashes_head.
  - rewrite bool_decide_false by congruence. apply resolve_loop_walk; [cbn; lia|done].
Qed.

(** [memfs_create] in a directory: the call always returns; a name that
    exists is refused without effect; otherwise, unless an allocation
    fails (then no entry changes), the directory maps the name to a new
    empty node of the requested type and every other name as before, and
    only the directory node itself was modified. *)
Theorem memfs_create_correct oom f d l name ty :
  fresh_ok f -> dir_ok f d l ->
  exists rc c f', memfs_create oom f d name ty = Some (rc, c, f') /\
    if bool_decide (entry f l name = 0) then
      fresh_ok f' /\
      ((rc = -1 /\ fs_nodes f' = fs_nodes f) \/
       (rc = 0 /\ dir_ok f' d (c :: l) /\
        (forall x, vfs_find_child f' d x = if bool_decide (x = name) then Some c else vfs_find_child f d x) /\
        (exists n, fs_nodes f' !! c = Some n /\ vn_type n = ty /\ vn_parent n = d /\ vn_children n = 0 /\ vn_size n = 0) /\
        forall p, p <> d -> p <> c -> fs_nodes f' !! p = fs_nodes f !! p))
    else rc = -1 /\ f' = f.
Proof.
  intros F D. pose proof (do_pos _ _ _ D) as Hd0. destruct (do_node _ _ _ D) as (pd & Hd & Ht & Hch).
  unfold memfs_create. destruct (Z.eqb_spec d 0); [lia|]. rewrite Hd. ob.
  rewrite bool_decide_true by done. ob. rewrite (find_child_ok f d l name D). ob.
  destruct (Z.eqb_spec (entry f l name) 0) as [He|He]; ob.
  2: { eexists _, _, _. split; [done|]. by rewrite bool_decide_false. }
  rewrite (bool_decide_true (entry f l name = 0)) by done.
  set (step := if bool_decide (ty = VFS_NODE_DIR) then _ else _).
  assert (Hstep : exists data ops fail f1, step = (data, ops, fail, f1) /\ fresh_ok f1 /\ fs_nodes f1 = fs_nodes f).
  { unfold step. destruct (bool_decide _); [by eexists _, _, _, _|].
    destruct (obj_alloc oom f) as [p f1] eqn:E1. destruct (fresh_step oom f p f1 F E1) as [F1 Hp].
    destruct (obj_alloc_cases oom f p f1 E1) as (N1 & _).
    destruct (Z.eqb_spec p 0) as [->|Hp0]; [by eexists _, _, _, _|].
    eexists _, _, _, _. split; [done|]. split; [|done]. destruct F1 as [G1 G2 G3]. constructor; cbn; [done|done|].
    intros q b Hq. apply lookup_insert_Some in Hq as [[<- _]|[_ Hq]]; [|by apply (G3 q b)].
    destruct Hp as [|(_ & _ & ?)]; [done|lia]. }
  destruct Hstep as (data & ops & fail & f1 & -> & F1 & N1).
  destruct fail; [eexists _, _, _; split; [done|]; split; [done|]; by left|].
  destruct (vfs_create_node oom f1 name ty ops data) as [c f2] eqn:E2.
  destruct (create_node_cases oom f1 name ty ops data c f2 F1 E2) as (F2 & B2 & [[-> N2]|(Hc & Hfree & Hc0 & N2)]).
  { cbn [Z.eqb]. eexists _, _, _. split; [done|]. split; [|left; split; [done|]].
    - destruct (data =? 0); [done|]. destruct F2 as [G1 G2 G3]. constructor; cbn; [done|done|].
      intros q b Hq. apply lookup_delete_Some in Hq as [_ Hq]. by apply (G3 q b).
    - destruct (data =? 0); cbn; congruence. }
  destruct (Z.eqb_spec c 0); [done|]. rewrite N1 in Hfree.
  assert (Hsame : forall x, x <> c -> fs_nodes f2 !! x = fs_nodes f !! x).
  { intros x Hx. rewrite N2, N1. by apply lookup_insert_ne. }
  assert (Hcd : c <> d) by (intros ->; congruence).
  assert (Hcl : c ∉ l).
  { intros Hin. destruct (chain_nodes f _ l c Hch Hin) as [_ [x Hx]]. congruence. }
  assert (D2 : dir_ok f2 d l).
  { constructor; [done| |apply (do_nodup _ _ _ D)|apply (do_self _ _ _ D)|].
    - exists pd. split; [by rewrite Hsame|]. split; [done|]. eapply chain_frame; [exact Hch|].
      intros x Hx. apply Hsame. by intros ->.
    - intros a b x Ha Hb. unfold name_of. rewrite !Hsame by (by intros ->). by apply (do_names _ _ _ D). }
  assert (Hname : forall x, x ∈ l -> name_of f2 x = name_of f x).
  { intros x Hx. unfold name_of. rewrite Hsame; [done|]. by intros ->. }
  set (nc := mk_node name ty 0 data ops 0 0 0) in *.
  assert (Hnc : fs_nodes f2 !! c = Some nc) by (rewrite N2; apply lookup_insert_eq).
  destruct (add_child_ok f2 d l c nc D2 Hnc Hc0 Hcd Hcl) as (f3 & pd2 & E3 & D3 & Hd2 & N3 & B3 & X3 & _).
  { by rewrite (entry_ext f f2). }
  rewrite E3. cbn [mbind option_bind negb Z.eqb]. eexists _, _, _. split; [done|].
  assert (Hnd : forall p, p <> d -> p <> c -> fs_nodes f3 !! p = fs_nodes f2 !! p).
  { intros p H1 H2. rewrite N3, !lookup_insert_ne by done. done. }
  assert (Hn3 : fs_nodes f3 !! c = Some (nd_set_links nc d (vn_children pd2))).
  { rewrite N3, lookup_insert_ne by done. apply lookup_insert_eq. }
  split.
  { destruct F2 as [G1 G2 G3]. constructor; rewrite ?X3, ?B3; [done| |done].
    intros p np Hp. rewrite N3 in Hp. apply lookup_insert_Some in Hp as [[<- _]|[_ Hp]]; [by apply (G2 d pd2)|].
    apply lookup_insert_Some in Hp as [[<- _]|[_ Hp]]; [by apply (G2 c nc)|by apply (G2 p np)]. }
  right. split; [done|]. split; [done|]. split; [|split].
  - intros x. rewrite (find_child_ok f3 d (c :: l)), (find_child_ok f d l) by done.
    rewrite (entry_add f3 c l name) by (unfold name_of; rewrite Hn3; done).
    case_bool_decide; [done|]. f_equal. apply entry_ext. intros y Hy. rewrite <- (Hname y Hy). unfold name_of.
    rewrite Hnd; [done| |by intros ->]. intros ->. by apply (do_self _ _ _ D).
  - by eexists.
  - intros p H1 H2. rewrite Hnd, Hsame by done. done.
Qed.

Lemma entry_remove f l1 c l2 name x :
  name_of f c = Some name -> x <> name ->
  entry f (l1 ++ l2) x = entry f (l1 ++ c :: l2) x.
Proof.
  intros Hc Hx. unfold entry. induction l1 as [|a l1 IH]; cbn [app list_find].
  - destruct (decide (name_of f c = Some x)); [congruence|]. by destruct (list_find _ l2) as [[]|].
  - destruct (decide (name_of f a = Some x)); [done|].
    destruct (list_find _ (l1 ++ l2)) as [[]|], (list_find _ (l1 ++ c :: l2)) as [[]|]; cbn in *; congruence.
Qed.

Lemma entry_absent f l name : (forall y, y ∈ l -> name_of f y <> Some name) -> entry f l name = 0.
Proof.
  intros Hn. unfold entry. destruct (list_find _ l) as [[i y]|] eqn:E; [|done].
  apply list_find_Some in E as (Hi & Hy & _). destruct (Hn y); [by eapply list_elem_of_lookup_2|done].
Qed.

(** [memfs_unlink]: a name without entry and a directory that is not
    empty are refused without effect; otherwise the entry is gone (looking
    the name up gives null), every other name keeps its node, and the
    node and its body have been freed. *)
Theorem memfs_unlink_correct f d l name :
  dir_ok f d l ->
  exists rc f', memfs_unlink f d name = Some (rc, f') /\
    (rc = 0 \/ rc = -1 /\ f' = f) /\
    (rc = 0 <-> exists c nc, entry f l name = c /\ c <> 0 /\ fs_nodes f !! c = Some nc /\
       ~ (vn_type nc = VFS_NODE_DIR /\ vn_children nc <> 0)) /\
    (rc = 0 -> fs_nodes f' !! entry f l name = None /\
       forall x, vfs_find_child f' d x = if bool_decide (x = name) then Some 0 else vfs_find_child f d x).
Proof.
  intros D. pose proof (do_pos _ _ _ D) as Hd0. destruct (do_node _ _ _ D) as (pd & Hd & Ht & Hch).
  assert (Hpos : forall x, x ∈ l -> 0 < x) by (intros x Hx; by eapply dir_entries_pos).
  unfold memfs_unlink. destruct (Z.eqb_spec d 0); [lia|]. rewrite Hd. ob.
  rewrite bool_decide_true by done. ob. rewrite (find_child_ok f d l name D). ob.
  destruct (Z.eqb_spec (entry f l name) 0) as [He|He].
  { eexists _, _. split; [done|]. split; [by right|]. split; [|done]. split; [done|].
    intros (c & nc & <- & ? & _). done. }
  destruct (entry_Some f l name _ Hpos eq_refl He) as [Hin Hnm]. remember (entry f l name) as c eqn:Ec in *.
  destruct (fs_nodes f !! c) as [nc|] eqn:Hnc; [|unfold name_of in Hnm; by rewrite Hnc in Hnm]. ob.
  destruct (bool_decide (vn_type nc = VFS_NODE_DIR) && negb (vn_children nc =? 0)) eqn:Eb.
  { eexists _, _. split; [done|]. split; [by right|]. split; [|done]. split; [done|].
    intros (c' & nc' & <- & _ & Hnc' & Hne). rewrite Hnc in Hnc'. injection Hnc' as <-. destruct Hne.
    apply andb_prop in Eb as [E1%bool_decide_eq_true E2%negb_true_iff%Z.eqb_neq]. done. }
  apply list_elem_of_split in Hin as (l1 & l2 & ->).
  destruct (remove_child_ok f d l1 c l2 nc D Hnc) as (f1 & -> & D1 & Hc1 & B1 & X1 & Nm1 & Oth1).
  cbn [mbind option_bind negb Z.eqb]. unfold memfs_free_node.
  destruct (Z.eqb_spec c 0); [done|]. rewrite Hc1. ob. set (f2 := set_nodes _ _).
  assert (N2 : fs_nodes f2 = delete c (fs_nodes f1)) by (unfold f2; cbn; repeat case_match; done).
  eexists _, _. split; [done|]. split; [by left|]. split.
  { split; [|done]. intros _. exists c, nc. split; [done|]. split; [done|]. split; [done|].
    intros [E1 E2]. rewrite bool_decide_true, (proj2 (Z.eqb_neq _ 0)) in Eb by done. done. }
  intros _. split; [rewrite N2; apply lookup_delete_eq|].
  assert (Hcd : c <> d) by (intros ->; apply (do_self _ _ _ D); apply elem_of_app; right; by left).
  assert (Hcl : c ∉ l1 ++ l2).
  { pose proof (do_nodup _ _ _ D) as Hnd. apply NoDup_app in Hnd as (_ & Hdis & Hnd2).
    apply NoDup_cons in Hnd2 as [Hc2 _]. intros [H1|H2]%elem_of_app; [|done]. apply (Hdis c H1). by left. }
  assert (Hs2 : forall x, x <> c -> fs_nodes f2 !! x = fs_nodes f1 !! x) by (intros x Hx; rewrite N2; by apply lookup_delete_ne).
  assert (D2 : dir_ok f2 d (l1 ++ l2)).
  { destruct (do_node _ _ _ D1) as (n1 & Hn1 & Ht1 & Hch1).
    constructor; [done| |apply (do_nodup _ _ _ D1)|apply (do_self _ _ _ D1)|].
    - exists n1. split; [by rewrite Hs2|]. split; [done|]. eapply chain_frame; [exact Hch1|].
      intros x Hx. apply Hs2. by intros ->.
    - intros a b x Ha Hb. unfold name_of. rewrite !Hs2 by (by intros ->). by apply (do_names _ _ _ D1). }
  assert (Hn2 : forall y, y ∈ l1 ++ l2 -> name_of f2 y = name_of f y).
  { intros y Hy. rewrite <- Nm1. unfold name_of. rewrite Hs2; [done|]. by intros ->. }
  assert (Hother : forall y, y ∈ l1 ++ l2 -> name_of f y <> Some name).
  { intros y Hy Hyn. assert (y = c) as ->; [|done]. apply (do_names _ _ _ D y c name); [| |done|done].
    - apply elem_of_app in Hy as [?|?]; apply elem_of_app; [by left|]. right. by right.
    - apply elem_of_app. right. by left. }
  intros x. rewrite (find_child_ok f2 d (l1 ++ l2)), (find_child_ok f d (l1 ++ c :: l2)) by done.
  destruct (decide (x = name)) as [Hx|Hx];
    [rewrite (bool_decide_true (x = name)) by done|rewrite (bool_decide_false (x = name)) by done]; f_equal.
  - subst x. apply entry_absent. intros y Hy. rewrite Hn2 by done. by apply Hother.
  - rewrite (entry_ext f f2) by done. by apply (entry_remove f l1 c l2 name).
Qed.

(** A write up to [need] runs out of memory: the file has to grow, and the
    allocation of the larger buffer is refused. *)
Definition refused_growth (oom : Z -> bool) (f : fs) (b : memfs_file) (need : Z) : Prop :=
  mf_cap b < need /\ oom (fs_next f) = true.

#[export] Instance refused_growth_dec oom f b need : Decision (refused_growth oom f b need).
Proof. unfold refused_growth. apply _. Defined.

(** What a write does, with the parts of the store it leaves alone. *)
Lemma memfs_write_ok oom junk f node n b off buf bytes :
  file_ok f node n b -> fresh_ok f -> 0 <= off <= mf_size b -> buf <> 0 ->
  off + Z.of_nat (length bytes) <= 2 ^ 62 -> mf_cap b <= 2 ^ 62 ->
  exists rc f', memfs_write oom junk f node off buf bytes = Some (rc, f') /\ fs_files f' = fs_files f /\
  if decide (refused_growth oom f b (off + Z.of_nat (length bytes)))
  then rc = -1 /\ fs_nodes f' = fs_nodes f /\ fs_bodies f' = fs_bodies f
  else rc = Z.of_nat (length bytes) /\
    exists n' b', file_ok f' node n' b' /\ n' = nd_set_size n (vn_size n') /\
      content b' = splice (content b) (Z.to_nat off) bytes /\
      vn_size n' = Z.of_nat (length (content b')) /\
      (forall buf2, buf2 <> 0 ->
         memfs_read f' node off buf2 (Z.of_nat (length bytes)) = Some (Z.of_nat (length bytes), bytes)) /\
      forall node2 n2 b2, file_ok f node2 n2 b2 -> node2 <> node -> vn_data n2 <> vn_data n ->
        file_ok f' node2 n2 b2.
Proof.
  intros [Hp Hn Ht Hda Hb Hl Hs] F Ho Hbuf Hneed Hcap. unfold memfs_write.
  set (len := Z.of_nat (length bytes)) in *.
  destruct (Z.eqb_spec node 0); [lia|]. rewrite Hn. ob. rewrite bool_decide_true by done. ob.
  rewrite (proj2 (Z.eqb_neq (vn_data n) 0)), (proj2 (Z.eqb_neq buf 0)) by done. cbn [orb].
  rewrite Hb. ob. rewrite (u64_small (off + len)) by (unfold is_u64; lia).
  set (step := if mf_cap b <? off + len then _ else _).
  assert (Hstep : exists r, step = Some r /\
    match r with
    | inl f1 => refused_growth oom f b (off + len) /\
        fs_nodes f1 = fs_nodes f /\ fs_bodies f1 = fs_bodies f /\ fs_files f1 = fs_files f
    | inr (b1, f1) => ~ refused_growth oom f b (off + len) /\ fs_nodes f1 = fs_nodes f /\ fs_bodies f1 = fs_bodies f /\ fs_files f1 = fs_files f /\
        Z.of_nat (length (mf_bytes b1)) = mf_cap b1 /\ off + len <= mf_cap b1 /\
        mf_size b1 = mf_size b /\ mf_size b <= mf_cap b1 /\ content b1 = content b
    end).
  { unfold step. destruct (Z.ltb_spec (mf_cap b) (off + len)) as [Hg|Hg].
    - destruct (obj_alloc oom f) as [p f1] eqn:E1. destruct (obj_alloc_cases oom f p f1 E1) as (N1 & B1 & F1 & _).
      assert (Hoom : p = 0 <-> oom (fs_next f) = true).
      { destruct F. unfold obj_alloc in E1. destruct (oom (fs_next f)); injection E1 as <- _; split; done || lia. }
      destruct (write_buffer b off len junk p Hl Hs Hcap ltac:(lia) ltac:(lia) ltac:(lia)) as (c & Ec & H1 & H2 & H3 & H4).
      rewrite Ec. ob. destruct (Z.eqb_spec p 0) as [Hp0|Hp0]; eexists; (split; [done|]);
        [split; [split; [lia|by apply Hoom]|done]|].
      cbn. split; [intros [_ Hx]; by apply Hp0, Hoom|]. split; [done|]. split; [done|]. split; [done|]. split; [done|]. split; [done|]. split; [done|]. split; [lia|]. exact H4.
    - eexists. split; [done|]. cbn. split; [intros [Hx _]; lia|]. repeat (split; [done || lia|]). done. }
  destruct Hstep as (r & -> & Hr). ob. destruct r as [f1|[b1 f1]].
  { destruct Hr as (Hno & N1 & B1 & F1). eexists _, _. split; [done|]. split; [done|]. by rewrite decide_True. }
  destruct Hr as (Hno & N1 & B1 & F1 & Hl1 & Hc1 & Hs1 & Hs1' & Hct). eexists _, _. split; [done|]. split; [exact F1|].
  rewrite decide_False by done. split; [done|].
  set (size := if mf_size b1 <? off + len then off + len else mf_size b1).
  assert (Hsz : size = Z.max (mf_size b) (off + len)) by (unfold size; rewrite Hs1; destruct (Z.ltb_spec (mf_size b) (off + len)); lia).
  set (bytes' := splice (mf_bytes b1) (Z.to_nat off) bytes). set (b' := mk_mf bytes' size (mf_cap b1)).
  assert (Hlb : length bytes' = length (mf_bytes b1)) by (apply splice_length; unfold len in *; lia).
  assert (Hcb : content b' = splice (content b) (Z.to_nat off) bytes).
  { rewrite <- Hct. unfold content. cbn. rewrite Hsz, Hs1.
    replace (Z.to_nat (Z.max (mf_size b) (off + len)))
      with (Nat.max (Z.to_nat (mf_size b)) (Z.to_nat off + length bytes)) by (unfold len; lia).
    apply splice_content; unfold len in *; lia. }
  assert (Hlc : Z.of_nat (length (content b')) = size) by (unfold content; cbn; rewrite length_take; lia).
  exists (nd_set_size n size), b'.
  assert (Hn' : fs_nodes (put_node (set_bodies f1 (<[vn_data n:=b']> (fs_bodies f1))) node (nd_set_size n size)) !! node
    = Some (nd_set_size n size)) by (cbn; apply lookup_insert_eq).
  split; [|split; [done|split; [done|split; [by rewrite Hlc|split]]]].
  - constructor; cbn; [done|apply lookup_insert_eq|done|done|apply lookup_insert_eq|lia|lia].
  - intros buf2 Hbuf2. unfold memfs_read. destruct (Z.eqb_spec node 0); [lia|]. rewrite Hn'. ob. cbn [vn_type nd_set_size vn_data].
    rewrite bool_decide_true by done. ob.
    rewrite (proj2 (Z.eqb_neq (vn_data n) 0)), (proj2 (Z.eqb_neq buf2 0)) by done. cbn [orb].
    cbn [fs_bodies put_node set_nodes set_bodies]. rewrite lookup_insert_eq. ob. cbn [mf_size mf_bytes b'].
    destruct (Z.leb_spec size off).
    + assert (len = 0) by lia. unfold len in *. destruct bytes; [done|cbn in *; lia].
    + replace (if size - off <? len then size - off else len) with len
        by (destruct (Z.ltb_spec (size - off) len); lia).
      unfold len at 2. rewrite Nat2Z.id. unfold bytes'. by rewrite drop_splice by lia.
  - intros node2 n2 b2 [? Hn2 ? ? Hb2 ? ?] Hne Hned. constructor; cbn; try done.
    + by rewrite lookup_insert_ne, N1.
    + by rewrite lookup_insert_ne, B1.
Qed.

(** C19: A file of the memory file system is a byte array.  A write at an
    offset within the file fails, changing nothing, exactly when the file's
    buffer has to grow for it and the allocation of the larger buffer is
    refused; otherwise it overwrites the array from that offset on,
    extending it as needed, a read of the same range then returns exactly
    the bytes written, and the files with another body are untouched.  Sizes
    are at most 2^62, so that no sum wraps. *)
Theorem memfs_write_read oom junk f node n b off buf bytes :
  file_ok f node n b -> fresh_ok f -> 0 <= off <= mf_size b -> buf <> 0 ->
  off + Z.of_nat (length bytes) <= 2 ^ 62 -> mf_cap b <= 2 ^ 62 ->
  exists rc f', memfs_write oom junk f node off buf bytes = Some (rc, f') /\
  if decide (refused_growth oom f b (off + Z.of_nat (length bytes)))
  then rc = -1 /\ fs_nodes f' = fs_nodes f /\ fs_bodies f' = fs_bodies f
  else rc = Z.of_nat (length bytes) /\
    exists n' b', file_ok f' node n' b' /\
      content b' = splice (content b) (Z.to_nat off) bytes /\
      vn_size n' = Z.of_nat (length (content b')) /\
      memfs_read f' node off buf (Z.of_nat (length bytes)) = Some (Z.of_nat (length bytes), bytes) /\
      forall node2 n2 b2, file_ok f node2 n2 b2 -> node2 <> node -> vn_data n2 <> vn_data n ->
        file_ok f' node2 n2 b2.
Proof.
  intros Hk Hfr Ho Hbuf Hneed Hcap.
  destruct (memfs_write_ok oom junk f node n b off buf bytes Hk Hfr Ho Hbuf Hneed Hcap) as (rc & f' & E & _ & R).
  exists rc, f'. split; [exact E|]. destruct (decide _); [exact R|]. destruct R as (Erc & n' & b' & R).
  split; [exact Erc|]. exists n', b'. destruct R as (R1 & _ & R2 & R3 & R4 & R5). split_and!; auto.
Qed.

(** ** A concrete file system

    The root directory (1) with one file "a" (2), of body 3, holding two
    bytes. *)
Definition demo_fs : fs :=
  mk_fs (<[1 := mk_node [] VFS_NODE_DIR 0 0 OpsMemDir 0 2 0]>
          (<[2 := mk_node [97] VFS_NODE_FILE 2 3 OpsMemFile 1 0 0]> ∅))
    (<[3 := mk_mf [10; 20] 2 2]> ∅) ∅ 4 1 1.

Definition never (_ : Z) : bool := false.
Definition zeros (_ _ : Z) : Z := 0.

Lemma demo_fresh : fresh_ok demo_fs.
Proof.
  constructor; cbn; [lia| |]; intros p x Hp;
    repeat (apply lookup_insert_Some in Hp as [[<- _]|[_ Hp]]; [lia|]); by rewrite lookup_empty in Hp.
Qed.

Lemma demo_dir : dir_ok demo_fs 1 [2].
Proof.
  constructor; [lia| | | |].
  - eexists. split; [reflexivity|]. split; [reflexivity|]. econstructor; [cbn; lia|reflexivity|constructor].
  - apply NoDup_singleton.
  - intros ?%list_elem_of_singleton. lia.
  - intros a b x Ha Hb. apply list_elem_of_singleton in Ha, Hb. congruence.
Qed.

Lemma demo_file : file_ok demo_fs 2 (mk_node [97] VFS_NODE_FILE 2 3 OpsMemFile 1 0 0) (mk_mf [10; 20] 2 2).
Proof. constructor; cbn; (reflexivity || lia). Qed.

Lemma vfs_resolve_walk_witness : vfs_resolve demo_fs [SLASH; SLASH; 97] 0 = Some 2.
Proof.
  rewrite (vfs_resolve_walk demo_fs [SLASH; SLASH; 97] 0) by (cbn; lia). vm_compute. reflexivity.
Defined.

Lemma memfs_create_correct_witness :
  exists rc c f', memfs_create never demo_fs 1 [98] VFS_NODE_DIR = Some (rc, c, f') /\ fresh_ok f'.
Proof.
  destruct (memfs_create_correct never demo_fs 1 [2] [98] VFS_NODE_DIR demo_fresh demo_dir) as (rc & c & f' & E & H).
  exists rc, c, f'. split; [exact E|].
  rewrite (bool_decide_true (entry demo_fs [2] [98] = 0)) in H by (vm_compute; reflexivity). apply H.
Defined.

Lemma memfs_unlink_correct_witness :
  exists f', memfs_unlink demo_fs 1 [97] = Some (0, f') /\ vfs_find_child f' 1 [97] = Some 0.
Proof.
  destruct (memfs_unlink_correct demo_fs 1 [2] [97] demo_dir) as (rc & f' & E & _ & [_ Hr] & H).
  assert (rc = 0) as ->.
  { apply Hr. exists 2. eexists. split; [vm_compute; reflexivity|]. split; [lia|]. split; [reflexivity|].
    intros [? _]. done. }
  exists f'. split; [exact E|]. destruct (H eq_refl) as [_ Hf]. rewrite Hf. by rewrite bool_decide_true.
Defined.

(** Three bytes at offset 1 of a file of two: the file grows, and with no
    memory left it does not. *)
Lemma memfs_write_read_witness :
  (exists f', memfs_write never zeros demo_fs 2 1 100 [7; 8; 9] = Some (3, f') /\
     memfs_read f' 2 1 100 3 = Some (3, [7; 8; 9])) /\
  (exists f', memfs_write (fun _ => true) zeros demo_fs 2 1 100 [7; 8; 9] = Some (-1, f')).
Proof.
  split.
  - destruct (memfs_write_read never zeros demo_fs 2 _ _ 1 100 [7; 8; 9] demo_file demo_fresh
      ltac:(cbn; lia) ltac:(lia) ltac:(cbn; lia) ltac:(cbn; lia)) as (rc & f' & E & R).
    rewrite decide_False in R by (intros [_ Hx]; discriminate Hx).
    destruct R as (Erc & n' & b' & _ & _ & _ & R & _). rewrite Erc in E. exists f'. split; [exact E|exact R].
  - destruct (memfs_write_read (fun _ => true) zeros demo_fs 2 _ _ 1 100 [7; 8; 9] demo_file demo_fresh
      ltac:(cbn; lia) ltac:(lia) ltac:(cbn; lia) ltac:(cbn; lia)) as (rc & f' & E & R).
    rewrite decide_True in R by (split; [cbn; lia|reflexivity]). destruct R as [Erc _]. rewrite Erc in E. by exists f'.
Defined.

(** Open "/a", unlink it, then read through the open file. *)
Definition dangling_run : option (Z * list Z * fs) :=
  '(file, f) ← vfs_open never demo_fs [SLASH; 97] VFS_O_RDONLY;
  '(_, f) ← vfs_unlink f [SLASH; 97];
  vfs_read (fun _ _ _ _ _ _ => None) f file 100 2.

(** Unlinking a file frees its node although it is open: a read through
    the file opened before follows a pointer to no object. *)
Theorem vfs_unlink_open_dangles :
  (exists file f, vfs_open never demo_fs [SLASH; 97] VFS_O_RDONLY = Some (file, f) /\ file <> 0 /\
     exists f', vfs_unlink f [SLASH; 97] = Some (0, f')) /\ dangling_run = None.
Proof.
  split; [|vm_compute; reflexivity]. eexists _, _. split; [vm_compute; reflexivity|]. split; [lia|].
  eexists. vm_compute. reflexivity.
Qed.
