(* ===== verification/Sched.v ===== *)
(** * Threads and the scheduler (src/scheduler.c)

    The thread table, the current thread of each processor, and the
    operations the interrupt and system call handlers invoke.  A thread
    pointer is an index into the table.  Saved register frames live on the
    kernel stacks in physical memory; [frame] arguments and results are
    their addresses.  An operation runs on processor [cpu] at timer tick
    [now] under the scheduler lock, so it is one atomic step; waitpid, which
    drops the lock between blocking the caller and yielding, is one step as
    well.  The outer [option] is [None] when an operation dereferences a null
    thread pointer or halts the processor for good.  [tss_rsp0] is the stack
    pointer of each processor's task state segment; the address space
    register of [s_vmm] is that of the processor that executes, so its value
    has no meaning across operations of different processors.  The fields
    kentry and karg of the struct are never used and left out, as is
    scheduler_dump, which only prints. *)

From stdpp Require Import prelude list gmap.
From Stdlib Require Import ZArith Lia.
From S2P Require Import Prelude Lib Alloc Pmm Vmm Vfs.
#[local] Open Scope Z_scope.
#[local] Open Scope cint_scope.

Definition MAX_THREADS : Z := 64.
Definition MAX_CPUS : Z := 8.
Definition KSTACK_PAGES : Z := 4.
Definition USTACK_PAGES : Z := 4.
Definition THREAD_MAX_OPEN_FILES : Z := 8.

Definition GDT_SEL_KCODE : Z := 8.
Definition GDT_SEL_UCODE : Z := 27.
Definition GDT_SEL_UDATA : Z := 35.

Inductive thread_state :=
| THREAD_UNUSED | THREAD_READY | THREAD_RUNNING | THREAD_SLEEPING | THREAD_BLOCKED | THREAD_ZOMBIE.

#[export] Instance thread_state_eq_dec : EqDecision thread_state.
Proof. solve_decision. Defined.

Record thread := mk_thread {
  t_id : Z;
  t_name : list Z;
  t_state : thread_state;
  t_is_user : bool;
  t_priority : Z;
  t_parent : option nat;
  t_children : Z;
  t_exit_code : Z;
  t_wait_target : Z;
  t_wait_status_ptr : Z;
  t_rsp : Z;
  t_cr3 : Z;
  t_kstack : Z;
  t_kstack_size : Z;
  t_kstack_canary : Z;
  t_ustack : Z;
  t_ustack_size : Z;
  t_ustack_top : Z;
  t_brk_start : Z;
  t_brk_end : Z;
  t_open_files : list Z;
  t_open_file_count : Z;
  t_mmap_base : Z;
  t_wakeup_tick : Z;
  t_cpu_id : Z
}.

(** Field updates. *)
Definition t_set_name (v : list Z) (t : thread) : thread :=
  mk_thread (t_id t) v (t_state t) (t_is_user t) (t_priority t) (t_parent t) (t_children t)
  (t_exit_code t) (t_wait_target t) (t_wait_status_ptr t) (t_rsp t) (t_cr3 t) (t_kstack t)
  (t_kstack_size t) (t_kstack_canary t) (t_ustack t) (t_ustack_size t) (t_ustack_top t)
  (t_brk_start t) (t_brk_end t) (t_open_files t) (t_open_file_count t) (t_mmap_base t)
  (t_wakeup_tick t) (t_cpu_id t).
Definition t_set_state (v : thread_state) (t : thread) : thread :=
  mk_thread (t_id t) (t_name t) v (t_is_user t) (t_priority t) (t_parent t) (t_children t)
  (t_exit_code t) (t_wait_target t) (t_wait_status_ptr t) (t_rsp t) (t_cr3 t) (t_kstack t)
  (t_kstack_size t) (t_kstack_canary t) (t_ustack t) (t_ustack_size t) (t_ustack_top t)
  (t_brk_start t) (t_brk_end t) (t_open_files t) (t_open_file_count t) (t_mmap_base t)
  (t_wakeup_tick t) (t_cpu_id t).
Definition t_set_is_user (v : bool) (t : thread) : thread :=
  mk_thread (t_id t) (t_name t) (t_state t) v (t_priority t) (t_parent t) (t_children t)
  (t_exit_code t) (t_wait_target t) (t_wait_status_ptr t) (t_rsp t) (t_cr3 t) (t_kstack t)
  (t_kstack_size t) (t_kstack_canary t) (t_ustack t) (t_ustack_size t) (t_ustack_top t)
  (t_brk_start t) (t_brk_end t) (t_open_files t) (t_open_file_count t) (t_mmap_base t)
  (t_wakeup_tick t) (t_cpu_id t).
Definition t_set_priority (v : Z) (t : thread) : thread :=
  mk_thread (t_id t) (t_name t) (t_state t) (t_is_user t) v (t_parent t) (t_children t)
  (t_exit_code t) (t_wait_target t) (t_wait_status_ptr t) (t_rsp t) (t_cr3 t) (t_kstack t)
  (t_kstack_size t) (t_kstack_canary t) (t_ustack t) (t_ustack_size t) (t_ustack_top t)
  (t_brk_start t) (t_brk_end t) (t_open_files t) (t_open_file_count t) (t_mmap_base t)
  (t_wakeup_tick t) (t_cpu_id t).
Definition t_set_parent (v : option nat) (t : thread) : thread :=
  mk_thread (t_id t) (t_name t) (t_state t) (t_is_user t) (t_priority t) v (t_children t)
  (t_exit_code t) (t_wait_target t) (t_wait_status_ptr t) (t_rsp t) (t_cr3 t) (t_kstack t)
  (t_kstack_size t) (t_kstack_canary t) (t_ustack t) (t_ustack_size t) (t_ustack_top t)
  (t_brk_start t) (t_brk_end t) (t_open_files t) (t_open_file_count t) (t_mmap_base t)
  (t_wakeup_tick t) (t_cpu_id t).
Definition t_set_children (v : Z) (t : thread) : thread :=
  mk_thread (t_id t) (t_name t) (t_state t) (t_is_user t) (t_priority t) (t_parent t) v
  (t_exit_code t) (t_wait_target t) (t_wait_status_ptr t) (t_rsp t) (t_cr3 t) (t_kstack t)
  (t_kstack_size t) (t_kstack_canary t) (t_ustack t) (t_ustack_size t) (t_ustack_top t)
  (t_brk_start t) (t_brk_end t) (t_open_files t) (t_open_file_count t) (t_mmap_base t)
  (t_wakeup_tick t) (t_cpu_id t).
Definition t_set_exit_code (v : Z) (t : thread) : thread :=
  mk_thread (t_id t) (t_name t) (t_state t) (t_is_user t) (t_priority t) (t_parent t)
  (t_children t) v (t_wait_target t) (t_wait_status_ptr t) (t_rsp t) (t_cr3 t) (t_kstack t)
  (t_kstack_size t) (t_kstack_canary t) (t_ustack t) (t_ustack_size t) (t_ustack_top t)
  (t_brk_start t) (t_brk_end t) (t_open_files t) (t_open_file_count t) (t_mmap_base t)
  (t_wakeup_tick t) (t_cpu_id t).
Definition t_set_wait_target (v : Z) (t : thread) : thread :=
  mk_thread (t_id t) (t_name t) (t_state t) (t_is_user t) (t_priority t) (t_parent t)
  (t_children t) (t_exit_code t) v (t_wait_status_ptr t) (t_rsp t) (t_cr3 t) (t_kstack t)
  (t_kstack_size t) (t_kstack_canary t) (t_ustack t) (t_ustack_size t) (t_ustack_top t)
  (t_brk_start t) (t_brk_end t) (t_open_files t) (t_open_file_count t) (t_mmap_base t)
  (t_wakeup_tick t) (t_cpu_id t).
Definition t_set_wait_status_ptr (v : Z) (t : thread) : thread :=
  mk_thread (t_id t) (t_name t) (t_state t) (t_is_user t) (t_priority t) (t_parent t)
  (t_children t) (t_exit_code t) (t_wait_target t) v (t_rsp t) (t_cr3 t) (t_kstack t)
  (t_kstack_size t) (t_kstack_canary t) (t_ustack t) (t_ustack_size t) (t_ustack_top t)
  (t_brk_start t) (t_brk_end t) (t_open_files t) (t_open_file_count t) (t_mmap_base t)
  (t_wakeup_tick t) (t_cpu_id t).
Definition t_set_rsp (v : Z) (t : thread) : thread :=
  mk_thread (t_id t) (t_name t) (t_state t) (t_is_user t) (t_priority t) (t_parent t)
  (t_children t) (t_exit_code t) (t_wait_target t) (t_wait_status_ptr t) v (t_cr3 t)
  (t_kstack t) (t_kstack_size t) (t_kstack_canary t) (t_ustack t) (t_ustack_size t)
  (t_ustack_top t) (t_brk_start t) (t_brk_end t) (t_open_files t) (t_open_file_count t)
  (t_mmap_base t) (t_wakeup_tick t) (t_cpu_id t).
Definition t_set_cr3 (v : Z) (t : thread) : thread :=
  mk_thread (t_id t) (t_name t) (t_state t) (t_is_user t) (t_priority t) (t_parent t)
  (t_children t) (t_exit_code t) (t_wait_target t) (t_wait_status_ptr t) (t_rsp t) v
  (t_kstack t) (t_kstack_size t) (t_kstack_canary t) (t_ustack t) (t_ustack_size t)
  (t_ustack_top t) (t_brk_start t) (t_brk_end t) (t_open_files t) (t_open_file_count t)
  (t_mmap_base t) (t_wakeup_tick t) (t_cpu_id t).
Definition t_set_kstack (v : Z) (t : thread) : thread :=
  mk_thread (t_id t) (t_name t) (t_state t) (t_is_user t) (t_priority t) (t_parent t)
  (t_children t) (t_exit_code t) (t_wait_target t) (t_wait_status_ptr t) (t_rsp t) (t_cr3 t) v
  (t_kstack_size t) (t_kstack_canary t) (t_ustack t) (t_ustack_size t) (t_ustack_top t)
  (t_brk_start t) (t_brk_end t) (t_open_files t) (t_open_file_count t) (t_mmap_base t)
  (t_wakeup_tick t) (t_cpu_id t).
Definition t_set_kstack_size (v : Z) (t : thread) : thread :=
  mk_thread (t_id t) (t_name t) (t_state t) (t_is_user t) (t_priority t) (t_parent t)
  (t_children t) (t_exit_code t) (t_wait_target t) (t_wait_status_ptr t) (t_rsp t) (t_cr3 t)
  (t_kstack t) v (t_kstack_canary t) (t_ustack t) (t_ustack_size t) (t_ustack_top t)
  (t_brk_start t) (t_brk_end t) (t_open_files t) (t_open_file_count t) (t_mmap_base t)
  (t_wakeup_tick t) (t_cpu_id t).
Definition t_set_kstack_canary (v : Z) (t : thread) : thread :=
  mk_thread (t_id t) (t_name t) (t_state t) (t_is_user t) (t_priority t) (t_parent t)
  (t_children t) (t_exit_code t) (t_wait_target t) (t_wait_status_ptr t) (t_rsp t) (t_cr3 t)
  (t_kstack t) (t_kstack_size t) v (t_ustack t) (t_ustack_size t) (t_ustack_top t)
  (t_brk_start t) (t_brk_end t) (t_open_files t) (t_open_file_count t) (t_mmap_base t)
  (t_wakeup_tick t) (t_cpu_id t).
Definition t_set_ustack (v : Z) (t : thread) : thread :=
  mk_thread (t_id t) (t_name t) (t_state t) (t_is_user t) (t_priority t) (t_parent t)
  (t_children t) (t_exit_code t) (t_wait_target t) (t_wait_status_ptr t) (t_rsp t) (t_cr3 t)
  (t_kstack t) (t_kstack_size t) (t_kstack_canary t) v (t_ustack_size t) (t_ustack_top t)
  (t_brk_start t) (t_brk_end t) (t_open_files t) (t_open_file_count t) (t_mmap_base t)
  (t_wakeup_tick t) (t_cpu_id t).
Definition t_set_ustack_size (v : Z) (t : thread) : thread :=
  mk_thread (t_id t) (t_name t) (t_state t) (t_is_user t) (t_priority t) (t_parent t)
  (t_children t) (t_exit_code t) (t_wait_target t) (t_wait_status_ptr t) (t_rsp t) (t_cr3 t)
  (t_kstack t) (t_kstack_size t) (t_kstack_canary t) (t_ustack t) v (t_ustack_top t)
  (t_brk_start t) (t_brk_end t) (t_open_files t) (t_open_file_count t) (t_mmap_base t)
  (t_wakeup_tick t) (t_cpu_id t).
Definition t_set_ustack_top (v : Z) (t : thread) : thread :=
  mk_thread (t_id t) (t_name t) (t_state t) (t_is_user t) (t_priority t) (t_parent t)
  (t_children t) (t_exit_code t) (t_wait_target t) (t_wait_status_ptr t) (t_rsp t) (t_cr3 t)
  (t_kstack t) (t_kstack_size t) (t_kstack_canary t) (t_ustack t) (t_ustack_size t) v
  (t_brk_start t) (t_brk_end t) (t_open_files t) (t_open_file_count t) (t_mmap_base t)
  (t_wakeup_tick t) (t_cpu_id t).
Definition t_set_brk_start (v : Z) (t : thread) : thread :=
  mk_thread (t_id t) (t_name t) (t_state t) (t_is_user t) (t_priority t) (t_parent t)
  (t_children t) (t_exit_code t) (t_wait_target t) (t_wait_status_ptr t) (t_rsp t) (t_cr3 t)
  (t_kstack t) (t_kstack_size t) (t_kstack_canary t) (t_ustack t) (t_ustack_size t)
  (t_ustack_top t) v (t_brk_end t) (t_open_files t) (t_open_file_count t) (t_mmap_base t)
  (t_wakeup_tick t) (t_cpu_id t).
Definition t_set_brk_end (v : Z) (t : thread) : thread :=
  mk_thread (t_id t) (t_name t) (t_state t) (t_is_user t) (t_priority t) (t_parent t)
  (t_children t) (t_exit_code t) (t_wait_target t) (t_wait_status_ptr t) (t_rsp t) (t_cr3 t)
  (t_kstack t) (t_kstack_size t) (t_kstack_canary t) (t_ustack t) (t_ustack_size t)
  (t_ustack_top t) (t_brk_start t) v (t_open_files t) (t_open_file_count t) (t_mmap_base t)
  (t_wakeup_tick t) (t_cpu_id t).
Definition t_set_open_files (v : list Z) (t : thread) : thread :=
  mk_thread (t_id t) (t_name t) (t_state t) (t_is_user t) (t_priority t) (t_parent t)
  (t_children t) (t_exit_code t) (t_wait_target t) (t_wait_status_ptr t) (t_rsp t) (t_cr3 t)
  (t_kstack t) (t_kstack_size t) (t_kstack_canary t) (t_ustack t) (t_ustack_size t)
  (t_ustack_top t) (t_brk_start t) (t_brk_end t) v (t_open_file_count t) (t_mmap_base t)
  (t_wakeup_tick t) (t_cpu_id t).
Definition t_set_open_file_count (v : Z) (t : thread) : thread :=
  mk_thread (t_id t) (t_name t) (t_state t) (t_is_user t) (t_priority t) (t_parent t)
  (t_children t) (t_exit_code t) (t_wait_target t) (t_wait_status_ptr t) (t_rsp t) (t_cr3 t)
  (t_kstack t) (t_kstack_size t) (t_kstack_canary t) (t_ustack t) (t_ustack_size t)
  (t_ustack_top t) (t_brk_start t) (t_brk_end t) (t_open_files t) v (t_mmap_base t)
  (t_wakeup_tick t) (t_cpu_id t).
Definition t_set_mmap_base (v : Z) (t : thread) : thread :=
  mk_thread (t_id t) (t_name t) (t_state t) (t_is_user t) (t_priority t) (t_parent t)
  (t_children t) (t_exit_code t) (t_wait_target t) (t_wait_status_ptr t) (t_rsp t) (t_cr3 t)
  (t_kstack t) (t_kstack_size t) (t_kstack_canary t) (t_ustack t) (t_ustack_size t)
  (t_ustack_top t) (t_brk_start t) (t_brk_end t) (t_open_files t) (t_open_file_count t) v
  (t_wakeup_tick t) (t_cpu_id t).
Definition t_set_wakeup_tick (v : Z) (t : thread) : thread :=
  mk_thread (t_id t) (t_name t) (t_state t) (t_is_user t) (t_priority t) (t_parent t)
  (t_children t) (t_exit_code t) (t_wait_target t) (t_wait_status_ptr t) (t_rsp t) (t_cr3 t)
  (t_kstack t) (t_kstack_size t) (t_kstack_canary t) (t_ustack t) (t_ustack_size t)
  (t_ustack_top t) (t_brk_start t) (t_brk_end t) (t_open_files t) (t_open_file_count t)
  (t_mmap_base t) v (t_cpu_id t).
Definition t_set_cpu_id (v : Z) (t : thread) : thread :=
  mk_thread (t_id t) (t_name t) (t_state t) (t_is_user t) (t_priority t) (t_parent t)
  (t_children t) (t_exit_code t) (t_wait_target t) (t_wait_status_ptr t) (t_rsp t) (t_cr3 t)
  (t_kstack t) (t_kstack_size t) (t_kstack_canary t) (t_ustack t) (t_ustack_size t)
  (t_ustack_top t) (t_brk_start t) (t_brk_end t) (t_open_files t) (t_open_file_count t)
  (t_mmap_base t) (t_wakeup_tick t) v.

Definition thread_zero : thread :=
  mk_thread 0 (replicate 16 0) THREAD_UNUSED false 0 None 0 0 0 0 0 0 0 0 0 0 0 0 0 0 (replicate 8 0) 0 0 0 0.

(** Interrupt frame: 15 registers, vector, error code and the iret frame. *)
Definition FRAME_SIZE : Z := 176.
Definition frame_rax (frame : Z) : Z := frame + 112.

Section sched_def.
Context {A : Type} `{PageOps A}.
Implicit Types (i : nat).

Record sched := mk_sched {
  g_threads : list thread;
  g_current : list (option nat);
  g_next_id : Z;
  g_cpu_rr : Z;
  kspace_cr3 : Z;
  s_vmm : vmm A;
  s_fs : fs;
  tss_rsp0 : list Z
}.

Definition s_set_g_threads (v : list thread) (s : sched) : sched :=
  mk_sched v (g_current s) (g_next_id s) (g_cpu_rr s) (kspace_cr3 s) (s_vmm s) (s_fs s)
  (tss_rsp0 s).
Definition s_set_g_current (v : list (option nat)) (s : sched) : sched :=
  mk_sched (g_threads s) v (g_next_id s) (g_cpu_rr s) (kspace_cr3 s) (s_vmm s) (s_fs s)
  (tss_rsp0 s).
Definition s_set_g_next_id (v : Z) (s : sched) : sched :=
  mk_sched (g_threads s) (g_current s) v (g_cpu_rr s) (kspace_cr3 s) (s_vmm s) (s_fs s)
  (tss_rsp0 s).
Definition s_set_g_cpu_rr (v : Z) (s : sched) : sched :=
  mk_sched (g_threads s) (g_current s) (g_next_id s) v (kspace_cr3 s) (s_vmm s) (s_fs s)
  (tss_rsp0 s).
Definition s_set_kspace_cr3 (v : Z) (s : sched) : sched :=
  mk_sched (g_threads s) (g_current s) (g_next_id s) (g_cpu_rr s) v (s_vmm s) (s_fs s)
  (tss_rsp0 s).
Definition s_set_s_vmm (v : vmm A) (s : sched) : sched :=
  mk_sched (g_threads s) (g_current s) (g_next_id s) (g_cpu_rr s) (kspace_cr3 s) v (s_fs s)
  (tss_rsp0 s).
Definition s_set_s_fs (v : fs) (s : sched) : sched :=
  mk_sched (g_threads s) (g_current s) (g_next_id s) (g_cpu_rr s) (kspace_cr3 s) (s_vmm s) v
  (tss_rsp0 s).
Definition s_set_tss_rsp0 (v : list Z) (s : sched) : sched :=
  mk_sched (g_threads s) (g_current s) (g_next_id s) (g_cpu_rr s) (kspace_cr3 s) (s_vmm s)
  (s_fs s) v.

Definition s_mem (s : sched) : mem := m_mem (v_mach (s_vmm s)).
Definition s_set_mem (m : mem) (s : sched) : sched :=
  s_set_s_vmm (set_mach (s_vmm s) (set_mem (v_mach (s_vmm s)) m)) s.

Definition upd (i : nat) (f : thread -> thread) (s : sched) : sched :=
  s_set_g_threads (alter f i (g_threads s)) s.

Definition set_rax (frame v : Z) (s : sched) : sched :=
  s_set_mem (st64 (s_mem s) (frame_rax frame) (u64 v)) s.

(** A store of an int through a user pointer: byte by byte in the active
    address space.  A byte whose address does not resolve would fault; it
    is left out. *)
Definition user_st32 (va v : Z) (s : sched) : sched :=
  for_range 0 4 (fun k s =>
    match vmm_resolve (v_mach (s_vmm s)) (cpu_cr3 (s_vmm s)) (va + k) with
    | Some (pa, _) => s_set_mem (st8 (s_mem s) pa (v / 256 ^ k)) s
    | None => s
    end) s.

(** The address of a slot of the table, of the C entry of kernel threads,
    and which allocations of open files fail. *)
Context (thread_addr : nat -> Z) (trampoline_addr : Z) (oom : Z -> bool).

(** ** Stacks *)

Definition make_kstack_canary (cpu : nat) (now : Z) (i : nat) (t : thread) : Z :=
  let v := 14098256806096515367 in               (* 0xC3A5C85C97CB3127 *)
  let v := Z.lxor v (thread_addr i) in
  let v := Z.lxor v (t_kstack t) in
  let v := Z.lxor v (t_kstack_size t) in
  let v := Z.lxor v now in
  let v := Z.lxor v (Z.shiftl (Z.of_nat cpu) 32) in
  if v =? 0 then 11936128518282651045 else v.    (* 0xA5A5A5A5A5A5A5A5 *)

Definition thread_current (cpu : nat) (s : sched) : option nat :=
  let cpu := if MAX_CPUS <=? Z.of_nat cpu then O else cpu in
  match g_current s !! cpu with Some c => c | None => None end.

Definition thread_kstack_canary_init (cpu : nat) (now : Z) (i : nat) (s : sched) : sched :=
  match g_threads s !! i with
  | None => s
  | Some t =>
      if (t_kstack t =? 0) || (t_kstack_size t <? 8) then s
      else
        let c := make_kstack_canary cpu now i t in
        let s := upd i (t_set_kstack_canary c) s in
        s_set_mem (st64 (s_mem s) (t_kstack t) c) s
  end.

Definition thread_kstack_canary_ok (s : sched) (t : thread) : bool :=
  if (t_kstack t =? 0) || (t_kstack_size t <? 8) then true
  else ld64 (s_mem s) (t_kstack t) =? t_kstack_canary t.

(** [*(--sp) = v] for each [v] in turn. *)
Fixpoint push_all (m : mem) (sp : Z) (vs : list Z) : mem * Z :=
  match vs with
  | [] => (m, sp)
  | v :: vs' => push_all (st64 m (sp - 8) v) (sp - 8) vs'
  end.

Definition build_kernel_thread_frame (i : nat) (fn arg : Z) (s : sched) : sched :=
  match g_threads s !! i with
  | None => s
  | Some t =>
      let top := t_kstack t + t_kstack_size t in
      let '(m, sp) := push_all (s_mem s) (top - 8)
        [514; GDT_SEL_KCODE; trampoline_addr; 0; 0;
         0; 0; 0; 0; 0; fn; arg; 0; 0; 0; 0; 0; 0; 0; 0] in
      upd i (t_set_rsp sp) (s_set_mem m s)
  end.

Definition build_user_thread_frame (i : nat) (user_rip : Z) (s : sched) : sched :=
  match g_threads s !! i with
  | None => s
  | Some t =>
      let ktop := t_kstack t + t_kstack_size t in
      let u_top := Z.land (t_ustack_top t) (not64 15) in
      let '(m, sp) := push_all (s_mem s) ktop
        [GDT_SEL_UDATA; u_top; 514; GDT_SEL_UCODE; user_rip; 0; 0;
         0; 0; 0; 0; 0; 0; 0; 0; 0; 0; 0; 0; 0; 0; 0] in
      upd i (t_set_rsp sp) (s_set_mem m s)
  end.

(** ** The table *)

Definition thread_alloc_slot (s : sched) : option nat * sched :=
  match list_find (fun t => t_state t = THREAD_UNUSED) (g_threads s) with
  | None => (None, s)
  | Some (i, _) =>
      let t := mk_thread (g_next_id s) (t_name thread_zero) THREAD_READY false 1 None 0 0 0 0 0 0 0 0 0 0 0 0 0 0
                 (t_open_files thread_zero) 0 0 0 0 in
      (Some i, s_set_g_next_id (g_next_id s +% 1) (s_set_g_threads (<[i := t]> (g_threads s)) s))
  end.

Definition scheduler_pick_cpu (online : Z) (s : sched) : Z * sched :=
  if online =? 0 then (0, s)
  else (g_cpu_rr s mod online, s_set_g_cpu_rr (u32 (g_cpu_rr s + 1) mod online) s).

(** [stack_bottom] and [stack_top] are the boot stack. *)
Definition scheduler_init (stack_bottom stack_top : Z) (now : Z) (s : sched) : sched :=
  let t0 := mk_thread 0 [98; 111; 111; 116; 115; 116; 114; 97; 112; 0; 0; 0; 0; 0; 0; 0]
              THREAD_RUNNING false 1 None 0 0 0 0 0 (vmm_kernel_cr3 (s_vmm s)) stack_bottom
              (stack_top - stack_bottom) 0 0 0 0 0 0 (replicate 8 0) 0 0 0 0 in
  let s := mk_sched (t0 :: replicate 63 thread_zero) (Some O :: replicate 7 None) (g_next_id s) 0
             (vmm_kernel_cr3 (s_vmm s)) (s_vmm s) (s_fs s) (tss_rsp0 s) in
  let s := thread_kstack_canary_init O now O s in
  s_set_tss_rsp0 (<[O := stack_top]> (tss_rsp0 s)) s.

(** The scan of pick_next: best candidate so far and its priority. *)
Fixpoint pick_best (cpu : Z) (ts : list thread) (i : nat) (best : option nat) (best_prio : Z) : option nat :=
  match ts with
  | [] => best
  | t :: ts' =>
      if bool_decide (t_state t = THREAD_READY) && (t_cpu_id t =? cpu)
         && (negb (bool_decide (is_Some best)) || (best_prio <? t_priority t))
      then pick_best cpu ts' (S i) (Some i) (t_priority t)
      else pick_best cpu ts' (S i) best best_prio
  end.

Definition runnable (st : thread_state) : bool :=
  bool_decide (st = THREAD_RUNNING) || bool_decide (st = THREAD_READY).

Definition pick_next (cpu : nat) (s : sched) : nat :=
  match pick_best (Z.of_nat cpu) (g_threads s) 0 None (-1) with
  | Some i => i
  | None =>
      match g_current s !! cpu with
      | Some (Some c) =>
          match g_threads s !! c with
          | Some t => if runnable (t_state t) then c else O
          | None => O
          end
      | _ => O
      end
  end.

Definition wake_sleepers (now : Z) (s : sched) : sched :=
  s_set_g_threads ((fun t =>
    if bool_decide (t_state t = THREAD_SLEEPING) && (t_wakeup_tick t <=? now)
    then t_set_state THREAD_READY t else t) <$> g_threads s) s.

Definition thread_release_resources (i : nat) (s : sched) : sched :=
  match g_threads s !! i with
  | None => s
  | Some t =>
      let s :=
        if negb (t_kstack t =? 0) then
          let v := s_vmm s in
          let s := s_set_s_vmm (set_mach v (pmm_free (v_mach v) (t_kstack t) (t_kstack_size t / PAGE_SIZE))) s in
          upd i (t_set_kstack 0) s
        else s in
      let s :=
        if t_is_user t && negb (t_cr3 t =? 0) && negb (t_cr3 t =? kspace_cr3 s) then
          upd i (t_set_cr3 0) (s_set_s_vmm (vmm_release_user_space (s_vmm s) (t_cr3 t)) s)
        else s in
      upd i (fun t => t_set_ustack_top 0 (t_set_ustack_size 0 (t_set_ustack 0 t))) s
  end.

Definition thread_mark_zombie (i : nat) (exit_code : Z) (s : sched) : sched :=
  match g_threads s !! i with
  | None => s
  | Some t =>
      let s := upd i (fun t => t_set_state THREAD_ZOMBIE (t_set_exit_code exit_code t)) s in
      match t_parent t with
      | None => s
      | Some p =>
          match g_threads s !! p with
          | None => s
          | Some pt =>
              let s := if 0 <? t_children pt then upd p (t_set_children (t_children pt - 1)) s else s in
              if bool_decide (t_state pt = THREAD_BLOCKED) &&
                 ((t_wait_target pt <=? 0) || (t_wait_target pt =? i32 (t_id t))) then
                let s := if negb (t_wait_status_ptr pt =? 0) then user_st32 (t_wait_status_ptr pt) exit_code s else s in
                upd p (fun pt => t_set_state THREAD_READY (t_set_wait_status_ptr 0 (t_set_wait_target 0 pt))) s
              else s
          end
      end
  end.

Definition find_thread_by_id (pid : Z) (s : sched) : option nat :=
  fst <$> list_find (fun t => t_state t <> THREAD_UNUSED /\ i32 (t_id t) = pid) (g_threads s).

(** ** Context switches *)

Definition do_switch (cpu : nat) (frame : Z) (next : nat) (s : sched) : option (Z * sched) :=
  cur ← g_current s !! cpu;
  if bool_decide (cur = Some next) then Some (frame, s)
  else
    prev ← cur;
    pt ← g_threads s !! prev;
    let s := upd prev (t_set_rsp frame) s in
    let s := if bool_decide (t_state pt = THREAD_RUNNING) then upd prev (t_set_state THREAD_READY) s else s in
    let s := upd next (t_set_state THREAD_RUNNING) s in
    let s := s_set_g_current (<[cpu := Some next]> (g_current s)) s in
    nt ← g_threads s !! next;
    let s := if negb (t_kstack nt =? 0)
             then s_set_tss_rsp0 (<[cpu := t_kstack nt + t_kstack_size nt]> (tss_rsp0 s)) s else s in
    let s := if negb (t_cr3 nt =? 0) && negb (t_cr3 nt =? t_cr3 pt)
             then let v := s_vmm s in
                  s_set_s_vmm (mk_vmm (v_mach v) (g_kernel_cr3 v) (g_user_spaces v) (t_cr3 nt)) s
             else s in
    Some (t_rsp nt, s).

Definition scheduler_on_tick (cpu : nat) (now frame : Z) (s : sched) : option (Z * sched) :=
  let s := wake_sleepers now s in
  do_switch cpu frame (pick_next cpu s) s.

Definition scheduler_yield (cpu : nat) (now frame : Z) (s : sched) : option (Z * sched) :=
  let s := wake_sleepers now s in
  do_switch cpu frame (pick_next cpu s) s.

(** [None] when no thread is left to run: the processor halts. *)
Definition scheduler_on_exit (cpu : nat) (frame exit_code : Z) (s : sched) : option (Z * sched) :=
  cur ← mjoin (g_current s !! cpu);
  let s := upd cur (t_set_rsp frame) s in
  let s := thread_mark_zombie cur exit_code s in
  let next := pick_next cpu s in
  if bool_decide (next = cur) then
    t0 ← g_threads s !! O;
    if bool_decide (t_state t0 = THREAD_ZOMBIE) then None else do_switch cpu frame O s
  else do_switch cpu frame next s.

(** The state change of scheduler_sleep; the yield that follows is the
    system call it issues. *)
Definition scheduler_sleep (cpu : nat) (now ticks : Z) (s : sched) : option sched :=
  cur ← thread_current cpu s;
  Some (upd cur (fun t => t_set_state THREAD_SLEEPING (t_set_wakeup_tick (now +% ticks) t)) s).

Definition scheduler_kill (cpu : nat) (pid sig : Z) (s : sched) : Z * sched :=
  match find_thread_by_id pid s with
  | None => (-1, s)
  | Some i =>
      match g_threads s !! i with
      | None => (-1, s)
      | Some t =>
          if negb (t_is_user t) then (-1, s)
          else if bool_decide (thread_current cpu s = Some i) then (0, s)
          else if bool_decide (t_state t = THREAD_ZOMBIE) then (0, s)
          else (0, thread_mark_zombie i (i32 (- sig)) s)
      end
  end.

Definition scheduler_thread_count (s : sched) : Z :=
  Z.of_nat (length (filter (fun t => t_state t <> THREAD_UNUSED) (g_threads s))).

(** ** Fork and wait *)

Definition close_files (i : nat) (s : sched) : sched :=
  let s := for_range 0 THREAD_MAX_OPEN_FILES (fun k s =>
    match g_threads s !! i with
    | Some t =>
        let p := nth (Z.to_nat k) (t_open_files t) 0 in
        if p =? 0 then s
        else upd i (fun t => t_set_open_files (<[Z.to_nat k := 0]> (t_open_files t)) t)
               (s_set_s_fs (vfs_close (s_fs s) p) s)
    | None => s
    end) s in
  upd i (t_set_open_file_count 0) s.

(** [inr] is the failure path taken when a copy cannot be allocated.  A table
    entry whose open file does not exist any more is skipped, where the code
    would copy from freed memory. *)
Definition dup_files (parent child : nat) (s : sched) : sched + sched :=
  for_range_exit 0 THREAD_MAX_OPEN_FILES (fun k s =>
    match g_threads s !! parent with
    | None => inl s
    | Some pt =>
        let p := nth (Z.to_nat k) (t_open_files pt) 0 in
        if p =? 0 then inl s
        else
          let '(dup, f) := obj_alloc oom (s_fs s) in
          let s := s_set_s_fs f s in
          if dup =? 0 then inr s
          else
            match fs_files f !! p with
            | None => inl s                       (* dangling open file *)
            | Some fl =>
                let s := s_set_s_fs (set_files f (<[dup := fl]> (fs_files f))) s in
                inl (upd child (fun t => t_set_open_file_count (t_open_file_count t + 1)
                       (t_set_open_files (<[Z.to_nat k := dup]> (t_open_files t)) t)) s)
            end
    end) s.

Definition scheduler_fork (cpu : nat) (now frame : Z) (s : sched) : sched :=
  match thread_current cpu s with
  | None => set_rax frame (-1) s
  | Some parent =>
      match g_threads s !! parent with
      | None => s
      | Some pt =>
          if negb (t_is_user pt) then set_rax frame (-1) s
          else
            match thread_alloc_slot s with
            | (None, s) => set_rax frame (-1) s
            | (Some child, s) =>
                let s := upd child (fun t => t_set_cr3 (t_cr3 pt) (t_set_is_user true t)) s in
                let s := s_set_s_vmm (vmm_retain_user_space (s_vmm s) (t_cr3 pt)) s in
                let s := upd child (fun t => t_set_parent (Some parent)
                           (t_set_cpu_id (t_cpu_id pt) (t_set_priority (t_priority pt) t))) s in
                let s := upd parent (fun t => t_set_children (u32 (t_children t + 1)) t) s in
                let s := upd child (fun t => t_set_mmap_base (t_mmap_base pt)
                           (t_set_brk_end (t_brk_end pt) (t_set_brk_start (t_brk_start pt)
                           (t_set_ustack_top (t_ustack_top pt) (t_set_ustack_size (t_ustack_size pt)
                           (t_set_ustack (t_ustack pt) t)))))) s in
                match dup_files parent child s with
                | inr s =>
                    let s := close_files child s in
                    let s := s_set_s_vmm (vmm_release_user_space (s_vmm s) (t_cr3 pt)) s in
                    set_rax frame (-1) (upd child (t_set_state THREAD_UNUSED) s)
                | inl s =>
                    let s := upd child (t_set_kstack_size (t_kstack_size pt)) s in
                    let v := s_vmm s in
                    let '(pa, pg) := pa_alloc (m_pages (v_mach v)) (t_kstack_size pt / PAGE_SIZE) in
                    let s := s_set_s_vmm (set_mach v (set_pages (v_mach v) pg)) s in
                    let s := upd child (t_set_kstack pa) s in
                    if pa =? 0 then
                      let s := s_set_s_vmm (vmm_release_user_space (s_vmm s) (t_cr3 pt)) s in
                      set_rax frame (-1) (upd child (t_set_state THREAD_UNUSED) s)
                    else
                      let s := thread_kstack_canary_init cpu now child s in
                      let top := pa + t_kstack_size pt in
                      let child_frame := top - FRAME_SIZE in
                      let s := s_set_mem (mem_copy (s_mem s) child_frame frame FRAME_SIZE) s in
                      let s := set_rax child_frame 0 s in
                      let s := upd child (fun t => t_set_state THREAD_READY (t_set_rsp child_frame t)) s in
                      match g_threads s !! child with
                      | Some t => set_rax frame (t_id t) s
                      | None => s
                      end
                end
            end
      end
  end.

Definition is_child (parent : nat) (pid : Z) (require_zombie : bool) (t : thread) : Prop :=
  t_state t <> THREAD_UNUSED /\ t_parent t = Some parent /\ (0 < pid -> i32 (t_id t) = pid) /\
  (require_zombie = true -> t_state t = THREAD_ZOMBIE).

#[global] Instance is_child_dec p pid z t : Decision (is_child p pid z t).
Proof. unfold is_child. apply _. Defined.

Definition find_child (parent : nat) (pid : Z) (require_zombie : bool) (s : sched) : option nat :=
  fst <$> list_find (is_child parent pid require_zombie) (g_threads s).

(** The part of scheduler_waitpid that takes a zombie off the table. *)
Definition reap (z : nat) (frame status_ptr : Z) (s : sched) : sched :=
  match g_threads s !! z with
  | None => s
  | Some t =>
      let s := if negb (status_ptr =? 0) then user_st32 status_ptr (t_exit_code t) s else s in
      let s := thread_release_resources z s in
      let s := close_files z s in
      let s := upd z (t_set_state THREAD_UNUSED) s in
      set_rax frame (t_id t) s
  end.

Definition scheduler_waitpid (cpu : nat) (now frame pid status_ptr : Z) (s : sched) : option (Z * sched) :=
  match thread_current cpu s with
  | None => Some (frame, s)
  | Some cur =>
      match find_child cur pid true s with
      | Some z => Some (frame, reap z frame status_ptr s)
      | None =>
          match find_child cur pid false s with
          | None => Some (frame, set_rax frame (-1) s)
          | Some _ =>
              let s := upd cur (fun t => t_set_state THREAD_BLOCKED
                         (t_set_wait_status_ptr status_ptr (t_set_wait_target pid t))) s in
              scheduler_yield cpu now frame s
          end
      end
  end.

(** ** Creating threads *)

Definition clip_name (name : list Z) : list Z :=
  let n := take 15 name in n ++ replicate (16 - length n) 0.

Definition scheduler_register_cpu_bootstrap (cpu : nat) (now : Z) (cpu_id : nat) (stack_base stack_size : Z)
    (s : sched) : sched :=
  let cpu_id := if MAX_CPUS <=? Z.of_nat cpu_id then O else cpu_id in
  match thread_alloc_slot s with
  | (None, s) => s
  | (Some i, s) =>
      let s := upd i (fun t => t_set_kstack_size stack_size (t_set_kstack stack_base
                 (t_set_state THREAD_RUNNING (t_set_cpu_id (Z.of_nat cpu_id)
                 (t_set_priority 1 (t_set_cr3 (kspace_cr3 s) (t_set_is_user false t))))))) s in
      let s := thread_kstack_canary_init cpu now i s in
      let s := upd i (t_set_name (clip_name [99; 112; 117; 48 + Z.of_nat cpu_id mod 10; 95; 98; 115; 112])) s in
      let s := s_set_g_current (<[cpu_id := Some i]> (g_current s)) s in
      s_set_tss_rsp0 (<[cpu := stack_base + stack_size]> (tss_rsp0 s)) s
  end.

(** The parent link of a new thread. *)
Definition link_parent (cpu i : nat) (s : sched) : sched :=
  let s := upd i (t_set_parent (thread_current cpu s)) s in
  match thread_current cpu s with
  | Some p => upd p (fun t => t_set_children (u32 (t_children t + 1)) t) s
  | None => s
  end.

Definition alloc_pages (pages : Z) (s : sched) : Z * sched :=
  let v := s_vmm s in
  let '(pa, pg) := pa_alloc (m_pages (v_mach v)) pages in
  (pa, s_set_s_vmm (set_mach v (set_pages (v_mach v) pg)) s).

Definition thread_create_kernel (cpu : nat) (now online : Z) (name : list Z) (fn arg : Z) (s : sched)
    : option nat * sched :=
  match thread_alloc_slot s with
  | (None, s) => (None, s)
  | (Some i, s) =>
      let s := upd i (fun t => t_set_cr3 (kspace_cr3 s) (t_set_is_user false t)) s in
      let s := link_parent cpu i s in
      let '(c, s) := scheduler_pick_cpu online s in
      let s := upd i (fun t => t_set_kstack_size (KSTACK_PAGES * PAGE_SIZE) (t_set_cpu_id c t)) s in
      let '(ks, s) := alloc_pages KSTACK_PAGES s in
      let s := upd i (t_set_kstack ks) s in
      if ks =? 0 then (None, upd i (t_set_state THREAD_UNUSED) s)
      else
        let s := thread_kstack_canary_init cpu now i s in
        let s := upd i (t_set_name (clip_name name)) s in
        let s := build_kernel_thread_frame i fn arg s in
        (Some i, upd i (t_set_state THREAD_READY) s)
  end.

Definition thread_create_user (cpu : nat) (now online : Z) (name : list Z) (user_rip brk_start cr3 : Z) (s : sched)
    : option nat * sched :=
  let fail i s := (None, upd i (t_set_state THREAD_UNUSED) s) in
  match thread_alloc_slot s with
  | (None, s) => (None, s)
  | (Some i, s) =>
      let s := upd i (fun t => t_set_cr3 cr3 (t_set_is_user true t)) s in
      let s := link_parent cpu i s in
      let '(c, s) := scheduler_pick_cpu online s in
      let s := upd i (t_set_cpu_id c) s in
      if cr3 =? 0 then fail i s
      else
        let s := upd i (t_set_kstack_size (KSTACK_PAGES * PAGE_SIZE)) s in
        let '(ks, s) := alloc_pages KSTACK_PAGES s in
        let s := upd i (t_set_kstack ks) s in
        if ks =? 0 then fail i s
        else
          let s := thread_kstack_canary_init cpu now i s in
          let ustack_size := USTACK_PAGES * PAGE_SIZE in
          let s := upd i (t_set_ustack_size ustack_size) s in
          let '(stack_phys, s) := alloc_pages USTACK_PAGES s in
          if stack_phys =? 0 then fail i s
          else
            let s := s_set_mem (mem_fill (s_mem s) stack_phys 0 ustack_size) s in
            let '(ok, mc) := vmm_map_range (v_mach (s_vmm s)) cr3 (USER_STACK_TOP - ustack_size) stack_phys
                               ustack_size (Z.lor (Z.lor VMM_FLAG_PRESENT VMM_FLAG_WRITABLE) VMM_FLAG_USER) in
            let s := s_set_s_vmm (set_mach (s_vmm s) mc) s in
            if negb ok then
              fail i (s_set_s_vmm (set_mach (s_vmm s) (pmm_free (v_mach (s_vmm s)) stack_phys USTACK_PAGES)) s)
            else
              let s := upd i (fun t => t_set_ustack_top USER_STACK_TOP (t_set_ustack stack_phys t)) s in
              let s := upd i (t_set_name (clip_name name)) s in
              let s := upd i (fun t => t_set_mmap_base (align_up_u64 brk_start PAGE_SIZE +% 16777216)
                         (t_set_brk_end brk_start (t_set_brk_start brk_start t))) s in
              let s := build_user_thread_frame i user_rip s in
              (Some i, upd i (t_set_state THREAD_READY) s)
  end.
End sched_def.

Arguments sched A : clear implicits.
