(* ===== verification/SchedSpec.v ===== *)
(** * What the scheduler promises (src/scheduler.c)

    [pick_best] against its specification, the invariant of the thread
    table over every sequence of scheduler calls, the context switch made by
    a timer tick and a starvation result.

    The invariant is stated on an abstract view of the table: of a thread
    only its id, state, processor and whether it is a user thread. *)

From stdpp Require Import prelude list gmap.
From Stdlib Require Import ZArith Lia.
From S2P Require Import Prelude Lib Alloc Pmm Vmm Vfs Sched.
#[local] Open Scope Z_scope.
#[local] Open Scope cint_scope.

(** ** The choice of the next thread *)

Definition candidate (cpu : Z) (t : thread) : Prop :=
  t_state t = THREAD_READY /\ t_cpu_id t = cpu.

(** [n] is the candidate of highest priority, the first of those. *)
Definition is_best (cpu : Z) (ts : list thread) (n : nat) : Prop :=
  exists t, ts !! n = Some t /\ candidate cpu t /\
    forall m t', ts !! m = Some t' -> candidate cpu t' ->
      t_priority t' <= t_priority t /\ ((m < n)%nat -> t_priority t' < t_priority t).

Definition no_candidate (cpu : Z) (ts : list thread) : Prop :=
  forall m t', ts !! m = Some t' -> ~ candidate cpu t'.

(** What the scan has found after the prefix [pre]. *)
Definition scanned (cpu : Z) (pre : list thread) (best : option nat) (prio : Z) : Prop :=
  match best with
  | None => no_candidate cpu pre
  | Some n => is_best cpu pre n /\ exists t, pre !! n = Some t /\ t_priority t = prio
  end.

Lemma candidate_test cpu t :
  bool_decide (t_state t = THREAD_READY) && (t_cpu_id t =? cpu) = true <-> candidate cpu t.
Proof. unfold candidate. rewrite andb_true_iff, bool_decide_eq_true, Z.eqb_eq. done. Qed.

Lemma lookup_snoc_cases {T} (l : list T) x m y :
  (l ++ [x]) !! m = Some y -> l !! m = Some y \/ (m = length l /\ y = x).
Proof.
  intros E. apply lookup_app_Some in E as [E|[Hle E]]; [by left|right].
  apply list_lookup_singleton_Some in E as [E <-]. split; [lia|done].
Qed.

Lemma scanned_skip cpu pre best prio t :
  scanned cpu pre best prio ->
  (candidate cpu t -> is_Some best /\ t_priority t <= prio) ->
  scanned cpu (pre ++ [t]) best prio.
Proof.
  destruct best as [n|]; cbn.
  - intros [(tb & Hb & Hc & Hmax) (tp & Hp & <-)] Ht. simplify_eq.
    assert (Hn : (n < length pre)%nat) by (by eapply lookup_lt_Some).
    split; [|exists tb; split; [by apply lookup_app_l_Some|done]].
    exists tb. split; [by apply lookup_app_l_Some|]. split; [done|].
    intros m t' [E|[-> ->]]%lookup_snoc_cases Hc'; [by apply Hmax|].
    destruct (Ht Hc') as [_ ?]. split; [done|lia].
  - intros Hno Ht m t' [E|[-> ->]]%lookup_snoc_cases; [by apply (Hno m)|].
    intros [[? ?] _]%Ht; done.
Qed.

Lemma scanned_take cpu pre best prio t :
  scanned cpu pre best prio -> candidate cpu t ->
  (is_Some best -> prio < t_priority t) ->
  scanned cpu (pre ++ [t]) (Some (length pre)) (t_priority t).
Proof.
  intros Hs Hc Hlt. cbn.
  assert (El : (pre ++ [t]) !! length pre = Some t) by (by apply list_lookup_middle).
  split; [|by exists t]. exists t. split; [done|]. split; [done|].
  intros m t' [E|[-> ->]]%lookup_snoc_cases Hc'; [|lia].
  destruct best as [n|]; cbn in Hs; [|by destruct (Hs m t' E)].
  destruct Hs as [(tb & Hb & _ & Hmax) (tp & Hp & <-)]. simplify_eq.
  destruct (Hmax m t' E Hc') as [? _]. specialize (Hlt ltac:(done)). lia.
Qed.

Lemma pick_best_scanned cpu ts pre best prio :
  scanned cpu pre best prio ->
  exists prio', scanned cpu (pre ++ ts) (pick_best cpu ts (length pre) best prio) prio'.
Proof.
  revert pre best prio. induction ts as [|t ts IH]; intros pre best prio Hs; cbn [pick_best].
  - exists prio. by rewrite app_nil_r.
  - replace (S (length pre)) with (length (pre ++ [t])) by (rewrite length_app; cbn; lia).
    rewrite (cons_middle t pre ts), (assoc_L (++) pre [t] ts).
    case_b.
    + apply andb_true_iff in E as [Hc%candidate_test Hp%orb_true_iff]. apply IH.
      eapply scanned_take; [done|done|]. intros Hb.
      destruct Hp as [Hp|Hp%Z.ltb_lt]; [|done].
      rewrite bool_decide_true in Hp by done. done.
    + apply IH, scanned_skip; [done|]. intros Hc. apply candidate_test in Hc. rewrite Hc in E. cbn in E.
      apply orb_false_iff in E as [E1%negb_false_iff E2%Z.ltb_ge].
      split; [by apply bool_decide_eq_true in E1|lia].
Qed.

Lemma pick_best_spec cpu ts :
  match pick_best cpu ts 0 None (-1) with
  | Some n => is_best cpu ts n
  | None => no_candidate cpu ts
  end.
Proof.
  destruct (pick_best_scanned cpu ts [] None (-1)) as [prio Hs]; [by intros m t'; rewrite lookup_nil|].
  cbn in Hs. destruct (pick_best _ _ _ _ _); cbn in Hs; [apply Hs|done].
Qed.

Lemma is_best_unique cpu ts n n' : is_best cpu ts n -> is_best cpu ts n' -> n = n'.
Proof.
  intros (t & Ht & Hc & Hm) (t' & Ht' & Hc' & Hm').
  destruct (Hm n' t' Ht' Hc') as [H1 H2]. destruct (Hm' n t Ht Hc) as [H3 H4].
  destruct (Nat.lt_trichotomy n n') as [?|[?|?]]; [|done|]; lia.
Qed.

(** ** The abstract view and the invariant *)

Record tview := mk_view { v_id : Z; v_st : thread_state; v_cpu : Z; v_user : bool }.

Definition view (t : thread) : tview := mk_view (t_id t) (t_state t) (t_cpu_id t) (t_is_user t).

Record aview := mk_aview { a_ts : list tview; a_cur : list (option nat); a_nid : Z }.

Definition dead (st : thread_state) : Prop := st = THREAD_UNUSED \/ st = THREAD_ZOMBIE.

(** Thread [i] is the one a processor executes. *)
Definition current_on (a : aview) (c i : nat) : Prop := a_cur a !! c = Some (Some i).

(** [idle] gives the bootstrap thread of each processor that was brought
    up.  [dying] is the processor, if any, whose current thread has just
    become a zombie and not been switched away from. *)
Record awf (dying : option nat) (idle : gmap nat nat) (a : aview) : Prop := {
  awf_len : length (a_ts a) = 64%nat;
  awf_ncpu : length (a_cur a) = 8%nat;
  awf_current c i : current_on a c i ->
    exists v, a_ts a !! i = Some v /\ v_cpu v = Z.of_nat c /\ v_st v <> THREAD_UNUSED /\
      (v_st v = THREAD_ZOMBIE -> dying = Some c);
  awf_running i v : a_ts a !! i = Some v -> v_st v = THREAD_RUNNING ->
    exists c, v_cpu v = Z.of_nat c /\ current_on a c i;
  awf_idle c b : idle !! c = Some b ->
    (exists v, a_ts a !! b = Some v /\ v_cpu v = Z.of_nat c /\ v_user v = false /\
      (v_st v = THREAD_READY \/ v_st v = THREAD_RUNNING)) /\
    exists i, current_on a c i;
  awf_nid i v : a_ts a !! i = Some v -> v_st v <> THREAD_UNUSED -> 0 <= v_id v < a_nid a;
  awf_ids i j v w : a_ts a !! i = Some v -> a_ts a !! j = Some w ->
    v_st v <> THREAD_UNUSED -> v_st w <> THREAD_UNUSED -> v_id v = v_id w -> i = j;
  awf_on c i : current_on a c i -> is_Some (idle !! c)
}.

(** A slot no processor runs and that is no bootstrap thread. *)
Definition idle_slot (idle : gmap nat nat) (a : aview) (i : nat) : Prop :=
  (forall c, ~ current_on a c i) /\ (forall c, idle !! c <> Some i).

Definition a_alter (g : tview -> tview) (i : nat) (a : aview) : aview :=
  mk_aview (alter g i (a_ts a)) (a_cur a) (a_nid a).

Lemma awf_weaken idle a c : awf None idle a -> awf (Some c) idle a.
Proof.
  intros Ha. constructor; try apply Ha.
  intros c' i Hc. destruct (awf_current _ _ _ Ha c' i Hc) as (v & ? & ? & ? & Hz).
  exists v. repeat split; try done. intros Hv. by specialize (Hz Hv).
Qed.

(** A change of one view: what it may do to a slot. *)
Record view_step (dying : option nat) (idle : gmap nat nat) (a : aview) (i : nat) (v w : tview) : Prop := {
  vs_id : v_id w = v_id v;
  vs_used : v_st w <> THREAD_UNUSED -> v_st v <> THREAD_UNUSED;
  vs_running : v_st w = THREAD_RUNNING -> v_st v = THREAD_RUNNING /\ v_cpu w = v_cpu v;
  vs_current c : current_on a c i ->
    v_cpu w = v_cpu v /\ v_st w <> THREAD_UNUSED /\ (v_st w = THREAD_ZOMBIE -> dying = Some c);
  vs_idle c : idle !! c = Some i ->
    v_cpu w = v_cpu v /\ v_user w = v_user v /\ (v_st w = THREAD_READY \/ v_st w = v_st v)
}.

Lemma alter_lookup_cases (g : tview -> tview) (i : nat) (ts : list tview) (j : nat) w :
  alter g i ts !! j = Some w ->
  exists v, ts !! j = Some v /\ ((j = i /\ w = g v) \/ (j <> i /\ w = v)).
Proof.
  destruct (decide (j = i)) as [->|Hn].
  - rewrite list_lookup_alter_eq. intros (v & E & ->)%fmap_Some. eauto.
  - rewrite list_lookup_alter_ne by done. eauto.
Qed.

Lemma alter_lookup_fwd (g : tview -> tview) (i : nat) (ts : list tview) (j : nat) v :
  ts !! j = Some v -> alter g i ts !! j = Some (if decide (j = i) then g v else v).
Proof.
  intros E. destruct (decide (j = i)) as [->|Hn].
  - by rewrite list_lookup_alter_eq, E.
  - by rewrite list_lookup_alter_ne.
Qed.

Lemma awf_pointwise dying dying' idle a ts' :
  awf dying idle a ->
  (forall c, dying = Some c -> dying' = Some c) ->
  length ts' = length (a_ts a) ->
  (forall j v w, a_ts a !! j = Some v -> ts' !! j = Some w -> w = v \/ view_step dying' idle a j v w) ->
  awf dying' idle (mk_aview ts' (a_cur a) (a_nid a)).
Proof.
  intros Ha Hd Hlen Hg.
  assert (Hback : forall j w, ts' !! j = Some w -> exists v,
    a_ts a !! j = Some v /\ v_id w = v_id v /\ (v_st w <> THREAD_UNUSED -> v_st v <> THREAD_UNUSED) /\
    (v_st w = THREAD_RUNNING -> v_st v = THREAD_RUNNING /\ v_cpu w = v_cpu v)).
  { intros j w Ew. destruct (lookup_lt_is_Some_2 (a_ts a) j) as [v Ev].
    { rewrite <-Hlen. by eapply lookup_lt_Some. }
    exists v. split; [done|]. destruct (Hg j v w Ev Ew) as [->|[]]; done. }
  assert (Hfwd : forall j v, a_ts a !! j = Some v -> exists w, ts' !! j = Some w).
  { intros j v Ev. apply lookup_lt_is_Some_2. rewrite Hlen. by eapply lookup_lt_Some. }
  constructor; cbn.
  - rewrite Hlen. apply Ha.
  - apply Ha.
  - intros c j Hc. destruct (awf_current _ _ _ Ha c j Hc) as (v & Ev & Hv & Hu & Hz).
    destruct (Hfwd j v Ev) as [w Ew]. exists w. split; [done|].
    destruct (Hg j v w Ev Ew) as [->|[_ _ _ Hcur _]].
    + repeat split; try done. intros Hv'. apply Hd, Hz, Hv'.
    + destruct (Hcur c Hc) as (-> & ? & ?). done.
  - intros j w (v & Ev & _ & _ & Hr)%Hback Hw. destruct (Hr Hw) as [Hv ->]. by apply (awf_running _ _ _ Ha).
  - intros c b Hb. destruct (awf_idle _ _ _ Ha c b Hb) as [(v & Ev & Hv & Hu & Hs) Hex]. split; [|done].
    destruct (Hfwd b v Ev) as [w Ew]. exists w. split; [done|].
    destruct (Hg b v w Ev Ew) as [->|[_ _ _ _ Hi]]; [done|].
    destruct (Hi c Hb) as (-> & -> & [->| ->]); auto.
  - intros j w (v & Ev & -> & Hu & _)%Hback Hw. by eapply (awf_nid _ _ _ Ha); eauto.
  - intros j k w w' (v & Ev & -> & Hu & _)%Hback (v' & Ev' & -> & Hu' & _)%Hback Hw Hw'.
    by eapply (awf_ids _ _ _ Ha); eauto.
  - apply Ha.
Qed.

Lemma awf_alter dying dying' idle a i g :
  awf dying idle a ->
  (forall c, dying = Some c -> dying' = Some c) ->
  (forall v, a_ts a !! i = Some v -> view_step dying' idle a i v (g v)) ->
  awf dying' idle (a_alter g i a).
Proof.
  intros Ha Hd Hg. apply (awf_pointwise dying); [done|done|apply length_alter|].
  intros j v w Ev (v' & Ev' & [[-> ->]|[_ ->]])%alter_lookup_cases; simplify_eq; [right; by apply Hg|by left].
Qed.

Lemma idle_slot_alter idle a i j g : idle_slot idle a j -> idle_slot idle (a_alter g i a) j.
Proof. done. Qed.

(** A slot nobody runs may change state freely, except to running. *)
Lemma view_step_free dying idle a i v w :
  idle_slot idle a i -> v_id w = v_id v ->
  (v_st w <> THREAD_UNUSED -> v_st v <> THREAD_UNUSED) -> v_st w <> THREAD_RUNNING ->
  view_step dying idle a i v w.
Proof. intros [H1 H2] ???. constructor; [done|done|done| |]; intros c Hc; exfalso; [by eapply H1|by eapply H2]. Qed.

(** A thread of any kind may become ready, or, if it is not the bootstrap
    thread, sleep or block. *)
Lemma view_step_state dying idle a i v st :
  v_st v <> THREAD_UNUSED ->
  st = THREAD_READY \/ ((st = THREAD_SLEEPING \/ st = THREAD_BLOCKED) /\ forall c, idle !! c <> Some i) ->
  view_step dying idle a i v (mk_view (v_id v) st (v_cpu v) (v_user v)).
Proof.
  intros Hv Hst. constructor; cbn; try done.
  - intros ->. by destruct Hst as [?|[[?|?] _]].
  - intros c Hc. by destruct Hst as [->|[[->| ->] _]].
  - intros c Hc. destruct Hst as [->|[_ Hi]]; [by auto|by destruct (Hi c)].
Qed.

Definition v_set (st : thread_state) (v : tview) : tview := mk_view (v_id v) st (v_cpu v) (v_user v).
Definition v_demote (v : tview) : tview :=
  if bool_decide (v_st v = THREAD_RUNNING) then v_set THREAD_READY v else v.

(** Processor [c] leaves thread [p] for thread [n]. *)
Definition a_switch (c p n : nat) (a : aview) : aview :=
  mk_aview (alter (v_set THREAD_RUNNING) n (alter v_demote p (a_ts a))) (<[c := Some n]> (a_cur a)) (a_nid a).

Lemma current_unique dying idle a c c' i :
  awf dying idle a -> current_on a c i -> current_on a c' i -> c = c'.
Proof.
  intros Ha (v & E & H1 & _)%(awf_current _ _ _ Ha) (v' & E' & H2 & _)%(awf_current _ _ _ Ha).
  simplify_eq. lia.
Qed.

Lemma switch_lookup c p n a j w :
  a_ts (a_switch c p n a) !! j = Some w -> n <> p ->
  exists v, a_ts a !! j = Some v /\
    ((j = n /\ w = v_set THREAD_RUNNING v) \/ (j = p /\ w = v_demote v) \/ (j <> n /\ j <> p /\ w = v)).
Proof.
  cbn. intros (v1 & (v & E & H)%alter_lookup_cases & H1)%alter_lookup_cases Hn.
  exists v. split; [done|]. destruct H1 as [[-> ->]|[? ->]], H as [[-> ->]|[? ->]]; try done; auto.
Qed.

Lemma switch_fwd c p n a j v :
  a_ts a !! j = Some v -> n <> p ->
  a_ts (a_switch c p n a) !! j =
  Some (if decide (j = n) then v_set THREAD_RUNNING v else if decide (j = p) then v_demote v else v).
Proof.
  intros E Hn. cbn. erewrite alter_lookup_fwd by (by apply alter_lookup_fwd).
  repeat case_decide; subst; done.
Qed.

Lemma v_demote_same v : v_id (v_demote v) = v_id v /\ v_cpu (v_demote v) = v_cpu v /\ v_user (v_demote v) = v_user v /\
  v_st (v_demote v) <> THREAD_RUNNING /\
  (v_st v = THREAD_READY \/ v_st v = THREAD_RUNNING -> v_st (v_demote v) = THREAD_READY) /\
  (v_st (v_demote v) = THREAD_UNUSED -> v_st v = THREAD_UNUSED).
Proof. unfold v_demote. case_bool_decide; cbn; [naive_solver|]. repeat split; try done; naive_solver. Qed.

Lemma switch_view c p n a j w :
  a_ts (a_switch c p n a) !! j = Some w -> n <> p ->
  (forall v, a_ts a !! n = Some v -> v_st v <> THREAD_UNUSED) ->
  exists v, a_ts a !! j = Some v /\ v_id w = v_id v /\ (v_st w <> THREAD_UNUSED -> v_st v <> THREAD_UNUSED).
Proof.
  intros Hl Hn Hu. destruct (switch_lookup _ _ _ _ _ _ Hl Hn) as (v & E & H). exists v. split; [done|].
  destruct H as [[-> ->]|[[-> ->]|(_ & _ & ->)]]; [| |done].
  - split; [done|]. intros _. by apply Hu.
  - destruct (v_demote_same v) as (-> & _ & _ & _ & _ & Hd). split; [done|].
    unfold v_demote. case_bool_decide as Hr; [by rewrite Hr|done].
Qed.

Lemma awf_switch c p n idle a v :
  awf (Some c) idle a -> current_on a c p -> n <> p ->
  a_ts a !! n = Some v -> v_st v = THREAD_READY -> v_cpu v = Z.of_nat c ->
  awf None idle (a_switch c p n a).
Proof.
  intros Ha Hp Hnp En Hr Hc.
  assert (Hlt : (c < length (a_cur a))%nat) by (by eapply lookup_lt_Some).
  assert (Hcn : current_on (a_switch c p n a) c n) by (unfold current_on; cbn; by apply list_lookup_insert_eq).
  assert (Hother : forall c' j, c' <> c -> current_on (a_switch c p n a) c' j <-> current_on a c' j).
  { intros c' j Hc'. unfold current_on; cbn. by rewrite list_lookup_insert_ne. }
  assert (Hu : forall v, a_ts a !! n = Some v -> v_st v <> THREAD_UNUSED) by (intros; simplify_eq; congruence).
  constructor.
  - cbn. rewrite !length_alter. apply Ha.
  - cbn. rewrite length_insert. apply Ha.
  - intros c' j Hcur. destruct (decide (c' = c)) as [->|Hne].
    { assert (j = n) as -> by (unfold current_on in *; congruence).
      eexists. split; [by apply switch_fwd|]. rewrite decide_True by done. done. }
    apply Hother in Hcur; [|done]. destruct (awf_current _ _ _ Ha _ _ Hcur) as (w & Ew & Hw & Hwu & Hwz).
    exists w. rewrite (switch_fwd _ _ _ _ _ w) by done.
    rewrite (decide_False (P := j = n)) by (intros ->; simplify_eq; lia).
    rewrite decide_False by (intros ->; by apply Hne; eapply current_unique).
    repeat split; try done. intros Hz. specialize (Hwz Hz). naive_solver.
  - intros j w (v0 & Ev & Hcases)%switch_lookup Hw; [|done].
    destruct Hcases as [[-> ->]|[[-> ->]|(Hjn & Hjp & ->)]].
    + simplify_eq. by exists c.
    + by destruct (v_demote_same v0) as (_ & _ & _ & ? & _).
    + destruct (awf_running _ _ _ Ha _ _ Ev Hw) as (c' & Hc' & Hcur'). exists c'. split; [done|].
      apply Hother; [|done]. intros ->. unfold current_on in *. congruence.
  - intros c' b Hb. destruct (awf_idle _ _ _ Ha _ _ Hb) as [(w & Ew & H1 & H2 & H3) [i Hi]]. split.
    + eexists. split; [by apply switch_fwd|]. destruct (v_demote_same w) as (? & Hd1 & Hd2 & ? & Hd3 & ?).
      repeat case_decide; cbn; [by auto| |done]. rewrite Hd1, Hd2. auto.
    + destruct (decide (c' = c)) as [->|Hne]; [by exists n|]. exists i. by apply Hother.
  - intros j w (v0 & Ev & -> & Huv)%switch_view Hw; [|done|done]. by eapply (awf_nid _ _ _ Ha); eauto.
  - intros i j w w' (v0 & Ev & -> & Huv)%switch_view (v1 & Ev' & -> & Huv')%switch_view Hw Hw'; [|done..].
    intros Hid. eapply (awf_ids _ _ _ Ha); eauto.
  - intros c' j Hcur. destruct (decide (c' = c)) as [->|Hne]; [by apply (awf_on _ _ _ Ha _ _ Hp)|].
    apply Hother in Hcur; [|done]. by eapply (awf_on _ _ _ Ha).
Qed.

(** Processor [k] comes up on thread [i]. *)
Definition v_boot (k : nat) (v : tview) : tview := mk_view (v_id v) THREAD_RUNNING (Z.of_nat k) false.
Definition a_boot (k i : nat) (a : aview) : aview :=
  mk_aview (alter (v_boot k) i (a_ts a)) (<[k := Some i]> (a_cur a)) (a_nid a).

Lemma awf_boot idle a k i v :
  awf None idle a -> idle_slot idle a i -> a_ts a !! i = Some v -> v_st v = THREAD_READY ->
  a_cur a !! k = Some None -> awf None (<[k := i]> idle) (a_boot k i a).
Proof.
  intros Ha [Hf1 Hf2] Ei Hst Hk.
  assert (Hlt : (k < length (a_cur a))%nat) by (by eapply lookup_lt_Some).
  assert (Hck : current_on (a_boot k i a) k i) by (unfold current_on; cbn; by apply list_lookup_insert_eq).
  assert (Hother : forall c j, c <> k -> current_on (a_boot k i a) c j <-> current_on a c j).
  { intros c j Hc. unfold current_on; cbn. by rewrite list_lookup_insert_ne. }
  assert (Hsame : forall c j, current_on a c j -> c <> k /\ j <> i).
  { intros c j Hc. split; [|by intros ->; eapply Hf1]. intros ->. unfold current_on in Hc. congruence. }
  assert (Hback : forall j w, alter (v_boot k) i (a_ts a) !! j = Some w -> exists v,
    a_ts a !! j = Some v /\ v_id w = v_id v /\ (v_st w <> THREAD_UNUSED -> v_st v <> THREAD_UNUSED)).
  { intros j w (v' & E & [[-> ->]|[_ ->]])%alter_lookup_cases; exists v'; [|done].
    simplify_eq. by rewrite Hst. }
  constructor.
  - cbn. rewrite length_alter. apply Ha.
  - cbn. rewrite length_insert. apply Ha.
  - intros c j Hc. destruct (decide (c = k)) as [->|Hn].
    + assert (j = i) as -> by (unfold current_on in *; congruence).
      exists (v_boot k v). cbn. by rewrite list_lookup_alter_eq, Ei.
    + apply Hother in Hc; [|done]. destruct (awf_current _ _ _ Ha c j Hc) as (w & Ew & ?).
      exists w. cbn. rewrite list_lookup_alter_ne; [done|]. intros ->. by eapply Hf1.
  - intros j w (v' & Ev & [[-> ->]|[Hj ->]])%alter_lookup_cases Hw; [by exists k|].
    destruct (awf_running _ _ _ Ha j v' Ev Hw) as (c & Hc & Hcur). exists c. split; [done|].
    apply Hother; [|done]. by apply Hsame in Hcur as [? _].
  - intros c b [[<- <-]|[Hn Hb]]%lookup_insert_Some.
    + split; [|by exists i]. exists (v_boot k v). cbn. rewrite list_lookup_alter_eq, Ei. auto.
    + destruct (awf_idle _ _ _ Ha c b Hb) as [(w & Ew & ?) [j Hj]]. split.
      * exists w. cbn. rewrite list_lookup_alter_ne; [done|]. intros ->. by eapply Hf2.
      * exists j. by apply Hother.
  - intros j w (v' & Ev & -> & Hu)%Hback Hw. by eapply (awf_nid _ _ _ Ha); eauto.
  - intros j j' w w' (v1 & Ev & -> & Hu)%Hback (v2 & Ev' & -> & Hu')%Hback Hw Hw'.
    intros. by eapply (awf_ids _ _ _ Ha); eauto.
  - intros c j Hc. destruct (decide (c = k)) as [->|Hn]; [rewrite lookup_insert_eq; by eexists|].
    rewrite lookup_insert_ne by done. apply Hother in Hc; [|done]. by eapply (awf_on _ _ _ Ha).
Qed.

(** A free slot is given the next id. *)
Definition a_alloc (i : nat) (w : tview) (a : aview) : aview :=
  mk_aview (<[i := w]> (a_ts a)) (a_cur a) (a_nid a + 1).

Lemma awf_alloc idle a i v w :
  awf None idle a -> a_ts a !! i = Some v -> v_st v = THREAD_UNUSED ->
  v_id w = a_nid a -> v_st w = THREAD_READY -> 0 <= a_nid a ->
  awf None idle (a_alloc i w a) /\ idle_slot idle (a_alloc i w a) i.
Proof.
  intros Ha Ei Hv Hw Hst Hn.
  assert (Hlt : (i < length (a_ts a))%nat) by (by eapply lookup_lt_Some).
  assert (Hcases : forall j x, <[i:=w]> (a_ts a) !! j = Some x ->
    (j = i /\ x = w) \/ (j <> i /\ a_ts a !! j = Some x)).
  { intros j x [(-> & -> & _)|[? ?]]%list_lookup_insert_Some; [by left|right]. split; [congruence|done]. }
  assert (Hfree : idle_slot idle a i).
  { split; intros c Hc.
    - destruct (awf_current _ _ _ Ha _ _ Hc) as (? & ? & _ & ? & _). congruence.
    - destruct (awf_idle _ _ _ Ha _ _ Hc) as [(x & ? & _ & _ & Hx) _]. simplify_eq. rewrite Hv in Hx. by destruct Hx. }
  destruct Hfree as [Hf1 Hf2]. split; [|done].
  constructor; cbn.
  - rewrite length_insert. apply Ha.
  - apply Ha.
  - intros c j Hc. destruct (awf_current _ _ _ Ha c j Hc) as (x & Ex & ?). exists x. split; [|done].
    rewrite list_lookup_insert_ne; [done|]. intros ->. by eapply Hf1.
  - intros j x [[-> ->]|[? Ex]]%Hcases Hx; [congruence|]. by apply (awf_running _ _ _ Ha).
  - intros c b Hb. destruct (awf_idle _ _ _ Ha c b Hb) as [(x & Ex & ?) ?]. split; [|done]. exists x. split; [|done].
    rewrite list_lookup_insert_ne; [done|]. intros ->. by eapply Hf2.
  - intros j x [[-> ->]|[? Ex]]%Hcases Hx; [lia|]. pose proof (awf_nid _ _ _ Ha _ _ Ex Hx). lia.
  - intros j k x y [[-> ->]|[? Ex]]%Hcases [[-> ->]|[? Ey]]%Hcases Hx Hy He; [done| | |].
    + pose proof (awf_nid _ _ _ Ha _ _ Ey Hy). lia.
    + pose proof (awf_nid _ _ _ Ha _ _ Ex Hx). lia.
    + by eapply (awf_ids _ _ _ Ha).
  - apply Ha.
Qed.

(** ** The operations on the view *)

Lemma view_alter (f : thread -> thread) (g : tview -> tview) (i : nat) (l : list thread) :
  (forall t, view (f t) = g (view t)) -> view <$> alter f i l = alter g i (view <$> l).
Proof.
  intros Hf. apply list_eq; intros j. rewrite list_lookup_fmap. destruct (decide (i = j)) as [->|].
  - rewrite !list_lookup_alter_eq, list_lookup_fmap. by destruct (l !! j); cbn; rewrite ?Hf.
  - by rewrite !list_lookup_alter_ne, list_lookup_fmap.
Qed.

Section ops.
Context {A : Type} `{PageOps A}.
Context (thread_addr : nat -> Z) (trampoline_addr : Z) (oom : Z -> bool).
Implicit Types (s : sched A) (t : thread) (i c : nat).

Definition core s : aview := mk_aview (view <$> g_threads s) (g_current s) (g_next_id s).

(** States with the same table and the same current threads. *)
Definition core_eq s s' : Prop := core s = core s'.

Lemma core_upd i (f : thread -> thread) (g : tview -> tview) s :
  (forall t, view (f t) = g (view t)) -> core (upd i f s) = a_alter g i (core s).
Proof.
  intros Hf. unfold core, a_alter, upd; cbn. f_equal. by apply view_alter.
Qed.

Lemma core_upd_same i (f : thread -> thread) s :
  (forall t, view (f t) = view t) -> core (upd i f s) = core s.
Proof.
  intros Hf. rewrite (core_upd i f id s Hf). unfold a_alter. destruct (core s) as [ts cur nid]; cbn. f_equal.
  apply list_eq; intros j. destruct (decide (i = j)) as [->|].
  - rewrite list_lookup_alter_eq. by destruct (ts !! j).
  - by rewrite list_lookup_alter_ne.
Qed.

Lemma core_set_mem m s : core (s_set_mem m s) = core s.
Proof. done. Qed.
Lemma core_set_vmm v s : core (s_set_s_vmm v s) = core s.
Proof. done. Qed.
Lemma core_set_fs f s : core (s_set_s_fs f s) = core s.
Proof. done. Qed.
Lemma core_set_tss l s : core (s_set_tss_rsp0 l s) = core s.
Proof. done. Qed.
Lemma core_set_rr l s : core (s_set_g_cpu_rr l s) = core s.
Proof. done. Qed.
Lemma core_set_rax f v s : core (set_rax f v s) = core s.
Proof. done. Qed.

Lemma core_lookup s i v :
  a_ts (core s) !! i = Some v <-> exists t, g_threads s !! i = Some t /\ v = view t.
Proof.
  cbn. rewrite list_lookup_fmap_Some. split; intros (t & H1 & H2); exists t; done.
Qed.

Lemma core_user_st32 va v s : core (user_st32 va v s) = core s.
Proof.
  unfold user_st32. apply (for_range_ind (fun _ s' => core s' = core s)); [done|done|].
  intros k s' _ IH. by repeat case_match.
Qed.

Lemma core_alloc_pages n s : core (snd (alloc_pages n s)) = core s.
Proof. unfold alloc_pages. by destruct (pa_alloc _ _). Qed.

Lemma core_release i s : core (thread_release_resources i s) = core s.
Proof.
  unfold thread_release_resources. destruct (g_threads s !! i) as [t|]; [|done].
  rewrite core_upd_same by done. cbv zeta.
  repeat case_b; repeat (rewrite core_set_vmm || rewrite core_upd_same by done); done.
Qed.

Lemma core_close_files i s : core (close_files i s) = core s.
Proof.
  unfold close_files. rewrite core_upd_same by done.
  apply (for_range_ind (fun _ s' => core s' = core s)); [done|done|].
  intros k s' _ IH. destruct (g_threads s' !! i); [|done]. case_b; [done|]. by rewrite core_upd_same.
Qed.

Lemma core_dup_files p i s :
  match dup_files oom p i s with inl s' => core s' = core s | inr s' => core s' = core s end.
Proof.
  unfold dup_files, for_range_exit.
  apply (for_exit_ind (fun _ s' => core s' = core s) (fun s' => core s' = core s)); [done|].
  intros k s' _ IH. destruct (g_threads s' !! p); [|done]. case_b; [done|].
  destruct (obj_alloc oom (s_fs s')) as [dup f]. case_b; [done|].
  destruct (fs_files f !! _); [|done]. by rewrite core_upd_same.
Qed.

Lemma core_canary_init cpu now i s : core (thread_kstack_canary_init thread_addr cpu now i s) = core s.
Proof.
  unfold thread_kstack_canary_init. case_match; [|done]. case_b; [done|].
  rewrite core_set_mem. by rewrite core_upd_same.
Qed.

Lemma core_kernel_frame i fn arg s : core (build_kernel_thread_frame trampoline_addr i fn arg s) = core s.
Proof.
  unfold build_kernel_thread_frame. case_match; [|done]. destruct (push_all _ _ _).
  by rewrite core_upd_same.
Qed.

Lemma core_user_frame i rip s : core (build_user_thread_frame i rip s) = core s.
Proof.
  unfold build_user_thread_frame. case_match; [|done]. destruct (push_all _ _ _).
  by rewrite core_upd_same.
Qed.

Lemma core_link_parent cpu i s : core (link_parent cpu i s) = core s.
Proof.
  unfold link_parent. cbv zeta. case_match; rewrite ?core_upd_same by done; done.
Qed.

Lemma core_pick_cpu online s : core (snd (scheduler_pick_cpu online s)) = core s.
Proof. unfold scheduler_pick_cpu. by case_b. Qed.
End ops.

Create Rewrite HintDb sched_core.
#[export] Hint Rewrite @core_set_mem @core_set_vmm @core_set_fs @core_set_tss @core_set_rr @core_set_rax
  @core_user_st32 @core_alloc_pages @core_release @core_close_files @core_canary_init
  @core_kernel_frame @core_user_frame @core_link_parent @core_pick_cpu : sched_core.

Section steps.
Context {A : Type} `{PageOps A}.
Implicit Types (s : sched A) (t : thread) (i c b : nat) (idle : gmap nat nat).

Definition sok idle s : Prop := awf None idle (core s).

Lemma core_ready_candidate s i c :
  is_best (Z.of_nat c) (g_threads s) i ->
  exists v, a_ts (core s) !! i = Some v /\ v_st v = THREAD_READY /\ v_cpu v = Z.of_nat c.
Proof. intros (t & Et & [H1 H2] & _). exists (view t). split; [apply core_lookup; eauto|done]. Qed.

(** With a bootstrap thread the last fallback of pick_next is never used. *)
Lemma pick_next_ok d idle s c b :
  awf d idle (core s) -> idle !! c = Some b ->
  is_best (Z.of_nat c) (g_threads s) (pick_next c s) \/
  (no_candidate (Z.of_nat c) (g_threads s) /\ pick_next c s = b /\ current_on (core s) c b /\
   exists t, g_threads s !! b = Some t /\ t_state t = THREAD_RUNNING).
Proof.
  intros Ha Hb. unfold pick_next.
  pose proof (pick_best_spec (Z.of_nat c) (g_threads s)) as Hp.
  destruct (pick_best _ _ _ _ _) as [n|]; [by left|right]. split; [done|].
  destruct (awf_idle _ _ _ Ha c b Hb) as [(v & Ev & Hc & _ & Hst) _].
  destruct (proj1 (core_lookup s b v) Ev) as (t & Et & ->). cbn in Hc, Hst.
  destruct Hst as [Hst|Hst]; [by destruct (Hp b t Et)|].
  destruct (awf_running _ _ _ Ha b (view t) Ev Hst) as (c' & Hc' & Hcur). cbn in Hc'.
  assert (c' = c) as -> by lia.
  assert (Eg : g_current s !! c = Some (Some b)) by apply Hcur.
  rewrite Eg, Et. unfold runnable. rewrite Hst. cbn. eauto.
Qed.

(** The effect of a context switch on the table. *)
Definition save_context (frame : Z) (t : thread) : thread :=
  let t := t_set_rsp frame t in
  if bool_decide (t_state t = THREAD_RUNNING) then t_set_state THREAD_READY t else t.

Lemma do_switch_ok c frame p n pt nt s :
  g_current s !! c = Some (Some p) -> p <> n ->
  g_threads s !! p = Some pt -> g_threads s !! n = Some nt ->
  exists s', do_switch c frame n s = Some (t_rsp nt, s') /\
    g_threads s' = alter (t_set_state THREAD_RUNNING) n (alter (save_context frame) p (g_threads s)) /\
    g_current s' = <[c := Some n]> (g_current s) /\ g_next_id s' = g_next_id s /\
    s_mem s' = s_mem s /\ s_fs s' = s_fs s /\
    tss_rsp0 s' = (if t_kstack nt =? 0 then tss_rsp0 s else <[c := t_kstack nt + t_kstack_size nt]> (tss_rsp0 s)) /\
    cpu_cr3 (s_vmm s') =
      (if negb (t_cr3 nt =? 0) && negb (t_cr3 nt =? t_cr3 pt) then t_cr3 nt else cpu_cr3 (s_vmm s)).
Proof.
  intros Ec Hpn Ep En. unfold do_switch. rewrite Ec; cbn [mbind option_bind].
  rewrite bool_decide_false by congruence. rewrite Ep; cbn [mbind option_bind].
  set (s1 := if bool_decide (t_state pt = THREAD_RUNNING) then _ else _).
  assert (E1 : g_threads s1 = alter (save_context frame) p (g_threads s) /\ g_current s1 = g_current s /\
    g_next_id s1 = g_next_id s /\ s_vmm s1 = s_vmm s /\ s_fs s1 = s_fs s /\ tss_rsp0 s1 = tss_rsp0 s).
  { split; [|by subst s1; case_b].
    apply list_eq; intros j. subst s1. unfold upd, save_context. cbn.
    destruct (decide (j = p)) as [->|]; case_bool_decide; cbn;
      rewrite ?list_lookup_alter_ne by done; rewrite ?list_lookup_alter_eq, ?Ep; cbn; try done.
    - by rewrite bool_decide_true.
    - by rewrite bool_decide_false. }
  destruct E1 as (E1 & E2 & E3 & E4 & E5 & E6). clearbody s1.
  assert (E7 : g_threads (s_set_g_current (<[c:=Some n]> (g_current (upd n (t_set_state THREAD_RUNNING) s1)))
            (upd n (t_set_state THREAD_RUNNING) s1)) !! n = Some (t_set_state THREAD_RUNNING nt)).
  { cbn. rewrite list_lookup_alter_eq, E1, list_lookup_alter_ne by done. by rewrite En. }
  rewrite E7. cbn [mbind option_bind]. eexists. split; [reflexivity|].
  cbn. destruct (negb (t_cr3 nt =? 0) && negb (t_cr3 nt =? t_cr3 pt)), (t_kstack nt =? 0);
    unfold s_mem; cbn; rewrite ?E1, ?E2, ?E3, ?E4, ?E5, ?E6; done.
Qed.

Lemma core_switch c frame p n pt nt s r :
  g_current s !! c = Some (Some p) -> p <> n ->
  g_threads s !! p = Some pt -> g_threads s !! n = Some nt ->
  do_switch c frame n s = Some r -> core (snd r) = a_switch c p n (core s).
Proof.
  intros Ec Hpn Ep En Ed. destruct (do_switch_ok c frame p n pt nt s Ec Hpn Ep En) as (s' & Es & E1 & E2 & E3 & _).
  rewrite Es in Ed. injection Ed as <-. cbn. unfold core, a_switch. rewrite E1, E2, E3; cbn. f_equal.
  rewrite (view_alter _ (v_set THREAD_RUNNING)) by done. rewrite (view_alter _ v_demote); [done|].
  intros t. unfold save_context, v_demote. cbn. by case_b.
Qed.

Lemma do_switch_same c frame n s : g_current s !! c = Some (Some n) -> do_switch c frame n s = Some (frame, s).
Proof. intros Ec. unfold do_switch. rewrite Ec. cbn. by rewrite bool_decide_true. Qed.

(** Switching to the thread pick_next chose, after which no current thread
    is a zombie any more. *)
Lemma switch_to_next idle s c b p frame :
  awf (Some c) idle (core s) -> idle !! c = Some b -> current_on (core s) c p ->
  (forall t, g_threads s !! p = Some t -> t_state t = THREAD_ZOMBIE -> pick_next c s <> p) ->
  exists f s', do_switch c frame (pick_next c s) s = Some (f, s') /\ sok idle s'.
Proof.
  intros Ha Hb Hp Hz. set (n := pick_next c s) in *.
  destruct (awf_current _ _ _ Ha c p Hp) as (v & Ev & Hvc & Hvu & Hvz).
  destruct (proj1 (core_lookup s p v) Ev) as (pt & Ep & ->).
  destruct (decide (p = n)) as [E|Hpn].
  - rewrite <-E. rewrite do_switch_same by done. do 2 eexists. split; [done|].
    constructor; try apply Ha. intros c' i Hc. destruct (awf_current _ _ _ Ha c' i Hc) as (w & Ew & Hw1 & Hw2 & Hw3).
    exists w. repeat split; try done. intros Hw4. specialize (Hw3 Hw4). injection Hw3 as Ecc; subst c'.
    assert (Eip : i = p) by (unfold current_on in *; congruence).
    rewrite Eip, Ev in Ew. injection Ew as <-. exfalso. by apply (Hz pt Ep).
  - assert (Hn : exists nt, g_threads s !! n = Some nt /\ t_state nt = THREAD_READY /\ t_cpu_id nt = Z.of_nat c).
    { destruct (pick_next_ok _ _ _ _ _ Ha Hb) as [(t & Et & [? ?] & _)|(_ & En & Hcb & _)]; [by exists t|].
      exfalso. apply Hpn. unfold n. rewrite En. unfold current_on in *. congruence. }
    destruct Hn as (nt & En & Hn1 & Hn2).
    destruct (do_switch_ok c frame p n pt nt s Hp Hpn Ep En) as (s' & Es & _).
    exists (t_rsp nt), s'. split; [done|]. unfold sok.
    rewrite (core_switch c frame p n pt nt s _ Hp Hpn Ep En Es : core s' = _).
    apply (awf_switch c p n idle (core s) (view nt)); try done.
    apply core_lookup; eauto.
Qed.

Lemma wake_ok d idle s now : awf d idle (core s) -> awf d idle (core (wake_sleepers now s)).
Proof.
  intros Ha. unfold wake_sleepers, core at 1; cbn.
  apply (awf_pointwise d d idle (core s)); [done|done|by cbn; rewrite !length_fmap|].
  intros j v w Ev Ew. apply core_lookup in Ev as (t & Et & ->).
  rewrite !list_lookup_fmap, Et in Ew. cbn in Ew. case_b_in Ew; injection Ew as <-; [right|by left].
  apply andb_true_iff in E as [E%bool_decide_eq_true _].
  apply (view_step_state d idle (core s) j (view t) THREAD_READY); [by cbn; rewrite E|by left].
Qed.

Lemma yield_ok idle s c b now frame :
  sok idle s -> idle !! c = Some b ->
  exists f s', scheduler_yield c now frame s = Some (f, s') /\ sok idle s'.
Proof.
  intros Ha Hb. unfold scheduler_yield.
  pose proof (wake_ok None idle s now Ha) as Hw.
  destruct (awf_idle _ _ _ Hw c b Hb) as [_ [p Hp]].
  apply (switch_to_next idle _ c b p); [by apply awf_weaken|done|done|].
  intros t Et Hz. destruct (awf_current _ _ _ Hw c p Hp) as (v & Ev & _ & _ & Hn).
  apply core_lookup in Ev as (t' & Et' & ->). simplify_eq. by specialize (Hn Hz).
Qed.

Definition live_at s i : Prop := exists t, g_threads s !! i = Some t /\ t_state t <> THREAD_UNUSED.

Lemma mark_zombie_ok d idle s i code :
  sok idle s -> (forall c, idle !! c <> Some i) -> (forall c, current_on (core s) c i -> d = Some c) ->
  live_at s i ->
  awf d idle (core (thread_mark_zombie i code s)) /\ g_current (thread_mark_zombie i code s) = g_current s /\
  exists t, g_threads (thread_mark_zombie i code s) !! i = Some t /\ t_state t = THREAD_ZOMBIE.
Proof.
  intros Ha Hi Hd (t & Et & Hu). unfold thread_mark_zombie. rewrite Et.
  set (s1 := upd i _ s).
  assert (H1 : awf d idle (core s1)).
  { subst s1. rewrite (core_upd i _ (v_set THREAD_ZOMBIE)) by done.
    apply (awf_alter None); [done|done|]. intros v (t' & Et' & ->)%core_lookup. simplify_eq.
    constructor; cbn; try done; intros c Hc; [|by destruct (Hi c)]. split_and!; try done. intros _. by apply Hd. }
  assert (E1 : exists t, g_threads s1 !! i = Some t /\ t_state t = THREAD_ZOMBIE).
  { subst s1. cbn. rewrite list_lookup_alter_eq, Et. cbn. eauto. }
  assert (Ec : g_current s1 = g_current s) by done. clearbody s1.
  destruct (t_parent t) as [p|]; [|done]. destruct (g_threads s1 !! p) as [pt|] eqn:Ep; [|done].
  set (s2 := if 0 <? t_children pt then _ else _).
  assert (E2 : core s2 = core s1) by (subst s2; case_b; [by apply core_upd_same|done]).
  clearbody s2. assert (E2' : g_current s2 = g_current s1) by (exact (f_equal a_cur E2)).
  case_b.
  - apply andb_true_iff in E as [E%bool_decide_eq_true _].
    set (s3 := if negb _ then user_st32 _ _ _ else _).
    assert (E3 : core s3 = core s2) by (subst s3; case_b; [by apply core_user_st32|done]).
    clearbody s3. assert (E3' : g_current s3 = g_current s2) by (exact (f_equal a_cur E3)).
    split; [|split].
    + rewrite (core_upd p _ (v_set THREAD_READY)) by done. rewrite E3, E2.
      apply (awf_alter d); [done|done|]. intros v (t' & Et' & ->)%core_lookup. simplify_eq.
      apply view_step_state; [by cbn; rewrite E|by left].
    + cbn. congruence.
    + destruct E1 as (ti & Eti & Hti). assert (Hip : i <> p) by (intros ->; congruence).
      assert (Ev : a_ts (core s3) !! i = Some (view ti)) by (rewrite E3, E2; apply core_lookup; eauto).
      apply core_lookup in Ev as (t3 & Et3 & Hv). exists t3. cbn. rewrite list_lookup_alter_ne by done.
      split; [done|]. by injection Hv as _ <-.
  - split; [by rewrite E2|]. split; [congruence|].
    destruct E1 as (ti & Eti & Hti).
    assert (Ev : a_ts (core s2) !! i = Some (view ti)) by (rewrite E2; apply core_lookup; eauto).
    apply core_lookup in Ev as (t3 & Et3 & Hv). exists t3. split; [done|]. by injection Hv as _ <-.
Qed.

Lemma current_live idle s c i : sok idle s -> current_on (core s) c i -> live_at s i.
Proof.
  intros Ha (v & Ev & _ & Hu & _)%(awf_current _ _ _ Ha).
  apply core_lookup in Ev as (t & Et & ->). by exists t.
Qed.

Lemma on_exit_ok idle s c b frame code :
  sok idle s -> idle !! c = Some b ->
  (forall c' i, current_on (core s) c i -> idle !! c' <> Some i) ->
  exists f s', scheduler_on_exit c frame code s = Some (f, s') /\ sok idle s'.
Proof.
  intros Ha Hb Hi. destruct (awf_idle _ _ _ Ha c b Hb) as [_ [p Hp]].
  unfold scheduler_on_exit. rewrite (Hp : g_current s !! c = _). cbn [mjoin option_join mbind option_bind].
  set (s0 := upd p (t_set_rsp frame) s).
  assert (E0 : core s0 = core s) by (by apply core_upd_same).
  assert (Ha0 : sok idle s0) by (unfold sok; by rewrite E0).
  destruct (mark_zombie_ok (Some c) idle s0 p code) as (Hz & Hg & t & Et & Hst); [done| | | |].
  - intros c'. by apply Hi.
  - rewrite E0. intros c' Hc'. f_equal. by eapply current_unique.
  - apply (current_live idle _ c); [done|]. by rewrite E0.
  - set (s2 := thread_mark_zombie p code s0) in *.
    assert (Hp2 : current_on (core s2) c p) by (unfold current_on; cbn; by rewrite Hg).
    assert (Hne : pick_next c s2 <> p).
    { destruct (pick_next_ok _ _ _ _ _ Hz Hb) as [(t' & Et' & [Hr _] & _)|(_ & En & _)].
      - intros En. rewrite En in Et'. congruence.
      - rewrite En. intros ->. by apply (Hi c p). }
    rewrite bool_decide_false by done.
    by apply (switch_to_next idle s2 c b p).
Qed.

Lemma thread_current_eq s c : (c < 8)%nat -> thread_current c s = mjoin (g_current s !! c).
Proof.
  intros Hc. unfold thread_current. rewrite (proj2 (Z.leb_gt _ _)) by (unfold MAX_CPUS; lia).
  by destruct (g_current s !! c) as [[|]|].
Qed.

Lemma idle_cpu_lt idle s c b : sok idle s -> idle !! c = Some b -> (c < 8)%nat.
Proof.
  intros Ha Hb. destruct (awf_idle _ _ _ Ha c b Hb) as [_ [p Hp]].
  rewrite <-(awf_ncpu _ _ _ Ha). by eapply lookup_lt_Some.
Qed.

(** A current thread that is no bootstrap thread goes to sleep or blocks. *)
Lemma pause_ok idle s p (f : thread -> thread) st :
  sok idle s -> live_at s p -> (forall c, idle !! c <> Some p) ->
  st = THREAD_SLEEPING \/ st = THREAD_BLOCKED ->
  (forall t, view (f t) = v_set st (view t)) -> sok idle (upd p f s).
Proof.
  intros Ha (t & Et & Hu) Hi Hst Hf. unfold sok. rewrite (core_upd p f (v_set st)) by done.
  apply (awf_alter None); [done|done|]. intros v (t' & Et' & ->)%core_lookup. simplify_eq.
  apply view_step_state; [done|by right].
Qed.

Lemma sleep_ok idle s c p now ticks :
  sok idle s -> (c < 8)%nat -> current_on (core s) c p -> (forall c', idle !! c' <> Some p) ->
  exists s', scheduler_sleep c now ticks s = Some s' /\ sok idle s'.
Proof.
  intros Ha Hc Hp Hi. unfold scheduler_sleep. rewrite thread_current_eq by done.
  rewrite (Hp : g_current s !! c = _). cbn. eexists. split; [done|].
  apply (pause_ok idle s p _ THREAD_SLEEPING); auto. by eapply current_live.
Qed.

Lemma user_not_idle idle s i t : sok idle s -> g_threads s !! i = Some t -> t_is_user t = true ->
  forall c, idle !! c <> Some i.
Proof.
  intros Ha Et Hu c Hc. destruct (awf_idle _ _ _ Ha c i Hc) as [(v & Ev & _ & Hv & _) _].
  apply core_lookup in Ev as (t' & Et' & ->). simplify_eq. cbn in Hv. congruence.
Qed.

Lemma find_by_id_live pid s i : find_thread_by_id pid s = Some i ->
  exists t, g_threads s !! i = Some t /\ t_state t <> THREAD_UNUSED /\ i32 (t_id t) = pid.
Proof.
  unfold find_thread_by_id. intros ([j t] & E & ->)%fmap_Some.
  apply list_find_Some in E as (Et & [? ?] & _). by exists t.
Qed.

Lemma kill_ok idle s c pid sig :
  sok idle s -> (c < 8)%nat ->
  (forall i c', find_thread_by_id pid s = Some i -> current_on (core s) c' i -> c' = c) ->
  sok idle (snd (scheduler_kill c pid sig s)).
Proof.
  intros Ha Hc Hg. unfold scheduler_kill. destruct (find_thread_by_id pid s) as [i|] eqn:Ef; [|done].
  destruct (find_by_id_live _ _ _ Ef) as (t & Et & Hu & _). rewrite Et.
  case_b; [done|]. apply negb_false_iff in E. case_bool_decide as Hcur; [done|]. case_b; [done|]. cbn.
  rewrite thread_current_eq in Hcur by done.
  apply (mark_zombie_ok None idle s i (i32 (- sig))); [done|by eapply user_not_idle| |by exists t].
  intros c' Hc'. pose proof (Hg i c' eq_refl Hc') as ->. exfalso. apply Hcur.
  by rewrite (Hc' : g_current s !! c = _).
Qed.

(** ** New threads *)

(** Slot [i] has been handed out and nobody runs it yet. *)
Definition afresh idle (a : aview) i : Prop :=
  awf None idle a /\ idle_slot idle a i /\ exists v, a_ts a !! i = Some v /\ v_st v = THREAD_READY.

Lemma alloc_slot_ok idle s i s' :
  sok idle s -> 0 <= g_next_id s < 18446744073709551615 -> thread_alloc_slot s = (Some i, s') ->
  afresh idle (core s') i /\ g_next_id s' = g_next_id s + 1.
Proof.
  intros Ha Hn. unfold thread_alloc_slot.
  destruct (list_find _ (g_threads s)) as [[j t]|] eqn:Ef; [|done]. intros [= <- <-].
  apply list_find_Some in Ef as (Et & Hst & _).
  destruct (awf_alloc idle (core s) j (view t) (mk_view (g_next_id s) THREAD_READY 0 false)) as [H1 H2]; try done;
    [apply core_lookup; eauto|cbn; lia|].
  split; [|cbn; cint].
  match goal with |- afresh _ (core ?x) _ =>
    assert (E : core x = a_alloc j (mk_view (g_next_id s) THREAD_READY 0 false) (core s)) end.
  { unfold core, a_alloc; cbn. rewrite list_fmap_insert. f_equal. cint. }
  rewrite E. split; [done|]. split; [done|].
  eexists. cbn. rewrite list_lookup_insert_eq; [done|]. rewrite length_fmap. by eapply lookup_lt_Some.
Qed.

Lemma fresh_upd idle s i (f : thread -> thread) :
  afresh idle (core s) i -> (forall t, t_id (f t) = t_id t /\ (t_state t = THREAD_READY -> t_state (f t) = THREAD_READY)) ->
  afresh idle (core (upd i f s)) i.
Proof.
  intros (Ha & Hf & v & Ev & Hv) Hid. apply core_lookup in Ev as (t & Et & ->). cbn in Hv.
  assert (E : core (upd i f s) = a_alter (fun _ => view (f t)) i (core s)).
  { unfold core, a_alter, upd; cbn. f_equal. apply list_eq; intros j. rewrite list_lookup_fmap.
    destruct (decide (i = j)) as [<-|]; [by rewrite !list_lookup_alter_eq, list_lookup_fmap, Et|].
    by rewrite !list_lookup_alter_ne, list_lookup_fmap. }
  destruct (Hid t) as [H1 H2]. specialize (H2 Hv). rewrite E. split; [|split; [done|]].
  - apply (awf_alter None); [done|done|]. intros v (t' & Et' & ->)%core_lookup. simplify_eq.
    apply view_step_free; [done|done| |]; cbn; [by rewrite Hv|by rewrite H2].
  - exists (view (f t)). cbn. rewrite list_lookup_alter_eq, list_lookup_fmap, Et. cbn. by rewrite H2.
Qed.

Lemma fresh_ready idle s i : afresh idle (core s) i -> sok idle (upd i (t_set_state THREAD_READY) s).
Proof.
  intros (Ha & Hf & v & Ev & Hv). unfold sok. rewrite (core_upd i _ (v_set THREAD_READY)) by done.
  apply (awf_alter None); [done|done|]. intros w Ew. simplify_eq.
  apply view_step_free; [done|done| |done]. by rewrite Hv.
Qed.

(** A slot nobody runs is given back. *)
Lemma unused_ok idle s i : sok idle s -> idle_slot idle (core s) i -> sok idle (upd i (t_set_state THREAD_UNUSED) s).
Proof.
  intros Ha Hf. unfold sok. rewrite (core_upd i _ (v_set THREAD_UNUSED)) by done.
  apply (awf_alter None); [done|done|]. intros w Ew. by apply view_step_free.
Qed.

Lemma fresh_unused idle s i : afresh idle (core s) i -> sok idle (upd i (t_set_state THREAD_UNUSED) s).
Proof. intros (Ha & Hf & _). by apply unused_ok. Qed.

Lemma fresh_ok idle s i : afresh idle (core s) i -> sok idle s.
Proof. by intros (Ha & _). Qed.

Lemma alloc_pages_core n s r s' : alloc_pages n s = (r, s') -> core s' = core s.
Proof. intros E. by rewrite <-(core_alloc_pages n s), E. Qed.

Lemma pick_cpu_core n s r s' : scheduler_pick_cpu n s = (r, s') -> core s' = core s.
Proof. intros E. by rewrite <-(core_pick_cpu n s), E. Qed.

End steps.

(** Reduce [afresh] or [sok] of a state built by updates of the slot to the
    state before them. *)
Ltac fresh_simp :=
  cbv zeta; autorewrite with sched_core;
  repeat (first [assumption | apply fresh_upd; [|done]]; autorewrite with sched_core).

Section reach.
Context {A : Type} `{PageOps A}.
Context (thread_addr : nat -> Z) (trampoline_addr : Z) (oom : Z -> bool).
Implicit Types (s : sched A) (t : thread) (i c b : nat) (idle : gmap nat nat).

Abbreviation create_kernel := (thread_create_kernel thread_addr trampoline_addr).
Abbreviation create_user := (thread_create_user thread_addr).

Definition ids_left s : Prop := 0 <= g_next_id s < 18446744073709551615.

Lemma alloc_slot_none s s' : thread_alloc_slot s = (None, s') -> s' = s.
Proof. unfold thread_alloc_slot. destruct (list_find _ _) as [[? ?]|]; congruence. Qed.

Lemma create_kernel_ok idle s c now online name fn arg :
  sok idle s -> ids_left s -> sok idle (snd (create_kernel c now online name fn arg s)).
Proof.
  intros Ha Hn. unfold thread_create_kernel.
  destruct (thread_alloc_slot s) as [[i|] s1] eqn:E1; [|by rewrite (alloc_slot_none _ _ E1)].
  destruct (alloc_slot_ok idle s i s1 Ha Hn E1) as [Hf _]. cbv zeta.
  destruct (scheduler_pick_cpu _ _) as [cp s2] eqn:E2. apply pick_cpu_core in E2 as E2'.
  destruct (alloc_pages _ _) as [ks s3] eqn:E3. apply alloc_pages_core in E3 as E3'.
  assert (Hf2 : afresh idle (core s2) i) by (rewrite E2'; fresh_simp).
  assert (Hf3 : afresh idle (core s3) i) by (rewrite E3'; fresh_simp).
  case_b; cbn [snd]; [apply fresh_unused|apply fresh_ready]; fresh_simp.
Qed.

Lemma create_user_ok idle s c now online name rip brk cr3 :
  sok idle s -> ids_left s -> sok idle (snd (create_user c now online name rip brk cr3 s)).
Proof.
  intros Ha Hn. unfold thread_create_user.
  destruct (thread_alloc_slot s) as [[i|] s1] eqn:E1; [|by rewrite (alloc_slot_none _ _ E1)].
  destruct (alloc_slot_ok idle s i s1 Ha Hn E1) as [Hf _]. cbv zeta.
  destruct (scheduler_pick_cpu _ _) as [cp s2] eqn:E2. apply pick_cpu_core in E2 as E2'.
  assert (Hf2 : afresh idle (core s2) i) by (rewrite E2'; fresh_simp).
  case_b; cbn [snd]; [apply fresh_unused; fresh_simp|].
  destruct (alloc_pages KSTACK_PAGES _) as [ks s3] eqn:E3. apply alloc_pages_core in E3 as E3'.
  assert (Hf3 : afresh idle (core s3) i) by (rewrite E3'; fresh_simp).
  case_b; cbn [snd]; [apply fresh_unused; fresh_simp|].
  destruct (alloc_pages USTACK_PAGES _) as [us s4] eqn:E4. apply alloc_pages_core in E4 as E4'.
  assert (Hf4 : afresh idle (core s4) i) by (rewrite E4'; fresh_simp).
  case_b; cbn [snd]; [apply fresh_unused; fresh_simp|].
  destruct (vmm_map_range _ _ _ _ _ _) as [ok mc]. cbv zeta.
  case_b; cbn [snd]; [apply fresh_unused|apply fresh_ready]; fresh_simp.
Qed.

Lemma fork_ok idle s c now frame :
  sok idle s -> ids_left s -> sok idle (scheduler_fork thread_addr oom c now frame s).
Proof.
  intros Ha Hn. unfold scheduler_fork. unfold sok.
  destruct (thread_current c s) as [p|]; [|by autorewrite with sched_core].
  destruct (g_threads s !! p) as [pt|]; [|done].
  case_b; [by autorewrite with sched_core|].
  destruct (thread_alloc_slot s) as [[i|] s1] eqn:E1;
    [|rewrite (alloc_slot_none _ _ E1); by autorewrite with sched_core].
  destruct (alloc_slot_ok idle s i s1 Ha Hn E1) as [Hf _]. cbv zeta.
  match goal with |- context [dup_files oom p i ?x] => set (s2 := x) end.
  assert (Hf2 : afresh idle (core s2) i).
  { subst s2. apply fresh_upd; [|done]. rewrite core_upd_same by done. fresh_simp. }
  clearbody s2. pose proof (core_dup_files oom p i s2) as Hd.
  destruct (dup_files oom p i s2) as [s3|s3]; rewrite <-Hd in Hf2.
  - destruct (pa_alloc _ _) as [pa pg]. case_b.
    + rewrite core_set_rax. apply (fresh_unused idle). fresh_simp.
    + match goal with |- context [g_threads ?x !! i] => set (s4 := x) end.
      assert (Hs4 : sok idle s4).
      { subst s4. apply (fresh_ok idle _ i). fresh_simp. }
      destruct (g_threads s4 !! i); [by rewrite core_set_rax|done].
  - rewrite core_set_rax. apply (fresh_unused idle). fresh_simp.
Qed.

Lemma find_child_Some p pid z s i : find_child p pid z s = Some i ->
  exists t, g_threads s !! i = Some t /\ is_child p pid z t.
Proof.
  unfold find_child. intros ([j t] & E & ->)%fmap_Some.
  apply list_find_Some in E as (Et & ? & _). by exists t.
Qed.

Lemma reap_core z frame ptr s t : g_threads s !! z = Some t ->
  core (reap z frame ptr s) = a_alter (v_set THREAD_UNUSED) z (core s).
Proof.
  intros Et. unfold reap. rewrite Et. cbv zeta. rewrite core_set_rax, (core_upd z _ (v_set THREAD_UNUSED)) by done.
  autorewrite with sched_core. by case_b; autorewrite with sched_core.
Qed.

Lemma zombie_slot idle s i t : sok idle s -> g_threads s !! i = Some t -> t_state t = THREAD_ZOMBIE ->
  idle_slot idle (core s) i.
Proof.
  intros Ha Et Hz. assert (Ev : a_ts (core s) !! i = Some (view t)) by (apply core_lookup; eauto).
  split; intros c Hc.
  - destruct (awf_current _ _ _ Ha c i Hc) as (v & Ev' & _ & _ & Hd). simplify_eq. by specialize (Hd Hz).
  - destruct (awf_idle _ _ _ Ha c i Hc) as [(v & Ev' & _ & _ & Hd) _]. simplify_eq. cbn in Hd. rewrite Hz in Hd. by destruct Hd.
Qed.

Lemma waitpid_ok idle s c b now frame pid ptr :
  sok idle s -> idle !! c = Some b ->
  (forall c' i, current_on (core s) c i -> idle !! c' <> Some i) ->
  exists f s', scheduler_waitpid c now frame pid ptr s = Some (f, s') /\ sok idle s'.
Proof.
  intros Ha Hb Hi. pose proof (idle_cpu_lt _ _ _ _ Ha Hb) as Hlt.
  destruct (awf_idle _ _ _ Ha c b Hb) as [_ [p Hp]].
  unfold scheduler_waitpid. rewrite thread_current_eq by done. rewrite (Hp : g_current s !! c = _). cbn [mjoin option_join].
  destruct (find_child p pid true s) as [z|] eqn:Ez.
  - do 2 eexists. split; [done|]. destruct (find_child_Some _ _ _ _ _ Ez) as (t & Et & Hc).
    unfold sok. rewrite (reap_core _ _ _ _ _ Et). rewrite <-(core_upd z (t_set_state THREAD_UNUSED)) by done.
    apply unused_ok; [done|]. eapply zombie_slot; [done|done|]. by apply Hc.
  - destruct (find_child p pid false s) as [z|]; [|by do 2 eexists].
    apply (yield_ok idle _ c b); [|done].
    apply (pause_ok idle s p _ THREAD_BLOCKED); auto. by eapply current_live.
Qed.

Lemma init_core bottom top now s0 :
  core (scheduler_init thread_addr bottom top now s0) =
  mk_aview (mk_view 0 THREAD_RUNNING 0 false :: replicate 63 (mk_view 0 THREAD_UNUSED 0 false))
    (Some O :: replicate 7 None) (g_next_id s0).
Proof. unfold scheduler_init. cbv zeta. by rewrite core_set_tss, core_canary_init. Qed.

Lemma init_ok bottom top now s0 :
  1 <= g_next_id s0 -> sok {[ O := O ]} (scheduler_init thread_addr bottom top now s0).
Proof.
  intros Hn. unfold sok. rewrite init_core.
  assert (Hts : forall i v, (mk_view 0 THREAD_RUNNING 0 false :: replicate 63 (mk_view 0 THREAD_UNUSED 0 false)) !! i = Some v ->
    (i = O /\ v = mk_view 0 THREAD_RUNNING 0 false) \/ v_st v = THREAD_UNUSED).
  { intros [|i] v; [cbn; intros [= <-]; by left|]. cbn [lookup list_lookup].
    intros [-> _]%lookup_replicate. by right. }
  constructor; cbn [a_ts a_cur a_nid]; try done.
  - intros c i Hc. destruct c as [|c].
    + injection Hc as <-. exists (mk_view 0 THREAD_RUNNING 0 false). done.
    + unfold current_on in Hc. cbn [a_cur lookup list_lookup] in Hc. by apply lookup_replicate in Hc as [? _].
  - intros i v [[-> ->]|Hv]%Hts Hr; [by exists O|congruence].
  - intros c b [<- <-]%lookup_singleton_Some. split; [|by exists O].
    exists (mk_view 0 THREAD_RUNNING 0 false). cbn. auto.
  - intros i v [[-> ->]|Hv]%Hts Hr; [cbn; lia|done].
  - intros i j v w [[-> ->]|Hv]%Hts [[-> ->]|Hw]%Hts; done.
  - intros [|c] i Hc; [by exists O|]. unfold current_on in Hc. cbn [a_cur lookup list_lookup] in Hc.
    by apply lookup_replicate in Hc as [? _].
Qed.

(** The processor the thread of [register_cpu_bootstrap cpu_id] is for. *)
Definition boot_cpu (cpu_id : nat) : nat := if MAX_CPUS <=? Z.of_nat cpu_id then O else cpu_id.

Lemma register_ok idle s c now k base size :
  sok idle s -> ids_left s -> g_current s !! boot_cpu k = Some None ->
  let s' := scheduler_register_cpu_bootstrap thread_addr c now k base size s in
  match fst (thread_alloc_slot s) with
  | Some i => sok (<[boot_cpu k := i]> idle) s'
  | None => sok idle s'
  end.
Proof.
  intros Ha Hn Hk. unfold scheduler_register_cpu_bootstrap. fold (boot_cpu k). cbv zeta.
  destruct (thread_alloc_slot s) as [[i|] s1] eqn:E1; cbn [fst]; [|by rewrite (alloc_slot_none _ _ E1)].
  destruct (alloc_slot_ok idle s i s1 Ha Hn E1) as [(Hf1 & Hf2 & v & Ev & Hv) _].
  assert (Hc1 : g_current s1 = g_current s).
  { unfold thread_alloc_slot in E1. destruct (list_find _ _) as [[? ?]|]; [|done]. by injection E1 as _ <-. }
  pose proof (awf_boot idle (core s1) (boot_cpu k) i v Hf1 Hf2 Ev Hv) as Hb.
  cbn [a_cur core] in Hb. rewrite Hc1 in Hb. specialize (Hb Hk).
  unfold sok. rewrite core_set_tss.
  match goal with |- awf _ _ (core (s_set_g_current _ ?x)) => set (s2 := x) end.
  assert (E2 : core s2 = a_alter (v_boot (boot_cpu k)) i (core s1)).
  { subst s2. rewrite core_upd_same by done. rewrite core_canary_init. by apply core_upd. }
  clearbody s2. replace (core _) with (a_boot (boot_cpu k) i (core s1)); [done|].
  unfold core, a_boot, a_alter in *. cbn in *. by injection E2 as -> -> ->.
Qed.

(** ** All sequences of scheduler calls *)

(** The current thread of processor [c] is no bootstrap thread: only such a
    thread may exit, sleep or wait. *)
Definition may_pause idle s c : Prop :=
  is_Some (idle !! c) /\ forall c' i, g_current s !! c = Some (Some i) -> idle !! c' <> Some i.

(** A kill from processor [c] does not hit a thread another processor is
    running. *)
Definition kill_safe s c pid : Prop :=
  forall i c', find_thread_by_id pid s = Some i -> g_current s !! c' = Some (Some i) -> c' = c.

Inductive reach : gmap nat nat -> sched A -> Prop :=
| reach_init bottom top now s0 :
    1 <= g_next_id s0 -> reach {[ O := O ]} (scheduler_init thread_addr bottom top now s0)
| reach_boot idle s c now k base size i s1 :
    reach idle s -> ids_left s -> g_current s !! boot_cpu k = Some None -> thread_alloc_slot s = (Some i, s1) ->
    reach (<[boot_cpu k := i]> idle) (scheduler_register_cpu_bootstrap thread_addr c now k base size s)
| reach_tick idle s c now frame r :
    reach idle s -> is_Some (idle !! c) -> scheduler_on_tick c now frame s = Some r -> reach idle (snd r)
| reach_yield idle s c now frame r :
    reach idle s -> is_Some (idle !! c) -> scheduler_yield c now frame s = Some r -> reach idle (snd r)
| reach_exit idle s c frame code r :
    reach idle s -> may_pause idle s c -> scheduler_on_exit c frame code s = Some r -> reach idle (snd r)
| reach_sleep idle s c now ticks s' :
    reach idle s -> may_pause idle s c -> scheduler_sleep c now ticks s = Some s' -> reach idle s'
| reach_waitpid idle s c now frame pid ptr r :
    reach idle s -> may_pause idle s c -> scheduler_waitpid c now frame pid ptr s = Some r -> reach idle (snd r)
| reach_kill idle s c pid sig :
    reach idle s -> is_Some (idle !! c) -> kill_safe s c pid -> reach idle (snd (scheduler_kill c pid sig s))
| reach_fork idle s c now frame :
    reach idle s -> ids_left s -> reach idle (scheduler_fork thread_addr oom c now frame s)
| reach_kernel idle s c now online name fn arg :
    reach idle s -> ids_left s -> reach idle (snd (create_kernel c now online name fn arg s))
| reach_user idle s c now online name rip brk cr3 :
    reach idle s -> ids_left s -> reach idle (snd (create_user c now online name rip brk cr3 s)).

Lemma reach_ok idle s : reach idle s -> sok idle s.
Proof.
  induction 1 as [|idle s c now k base size i s1 _ IH Hn Hk E|idle s c now frame r _ IH [b Hb] E|idle s c now frame r _ IH [b Hb] E
    |idle s c frame code r _ IH [[b Hb] Hp] E|idle s c now ticks s' _ IH [[b Hb] Hp] E
    |idle s c now frame pid ptr r _ IH [[b Hb] Hp] E|idle s c pid sig _ IH [b Hb] Hk| | |].
  - by apply init_ok.
  - pose proof (register_ok idle s c now k base size IH Hn Hk) as Hr. by rewrite E in Hr.
  - destruct (yield_ok idle s c b now frame IH Hb) as (f & s' & E' & ?). unfold scheduler_on_tick in E.
    unfold scheduler_yield in E'. rewrite E' in E. by injection E as <-.
  - destruct (yield_ok idle s c b now frame IH Hb) as (f & s' & E' & ?). rewrite E' in E. by injection E as <-.
  - destruct (on_exit_ok idle s c b frame code IH Hb) as (f & s' & E' & ?); [intros c' i; apply Hp|].
    rewrite E' in E. by injection E as <-.
  - destruct (awf_idle _ _ _ IH c b Hb) as [_ [p Hc]].
    destruct (sleep_ok idle s c p now ticks IH) as (s2 & E' & ?); [by eapply idle_cpu_lt|done| |].
    { intros c'. by apply Hp. }
    rewrite E' in E. by injection E as <-.
  - destruct (waitpid_ok idle s c b now frame pid ptr IH Hb) as (f & s' & E' & ?); [intros c' i; apply Hp|].
    rewrite E' in E. by injection E as <-.
  - apply kill_ok; [done|by eapply idle_cpu_lt|done].
  - by apply fork_ok.
  - by apply create_kernel_ok.
  - by apply create_user_ok.
Qed.

(** C3: in every state reached from boot by scheduler calls on any of the
    processors, no thread is current on two processors; the current thread of
    a processor belongs to it and is neither free nor a zombie; a running
    thread is the current one of its processor; thread ids are unique; and a
    tick never dereferences a null thread or dies.  The calls are those of
    [reach]: any ticks, yields, forks and creations while identifiers are
    left; exits, sleeps and waits of threads other than the bootstrap threads
    ([may_pause]); and kills of threads that no other processor is running
    ([kill_safe]) - the code checks neither, and the second is needed:
    sched_kill_running_shares_slot of SchedProc.v breaks the property with a
    kill of a thread that runs elsewhere. *)
Theorem sched_reachable_safe idle s :
  reach idle s ->
  (forall c c' i, g_current s !! c = Some (Some i) -> g_current s !! c' = Some (Some i) -> c = c') /\
  (forall c i, g_current s !! c = Some (Some i) -> exists t, g_threads s !! i = Some t /\
     t_cpu_id t = Z.of_nat c /\ t_state t <> THREAD_UNUSED /\ t_state t <> THREAD_ZOMBIE) /\
  (forall i t, g_threads s !! i = Some t -> t_state t = THREAD_RUNNING ->
     exists c, t_cpu_id t = Z.of_nat c /\ g_current s !! c = Some (Some i)) /\
  (forall i j t u, g_threads s !! i = Some t -> g_threads s !! j = Some u ->
     t_state t <> THREAD_UNUSED -> t_state u <> THREAD_UNUSED -> t_id t = t_id u -> i = j) /\
  (forall c now frame, is_Some (idle !! c) -> is_Some (scheduler_on_tick c now frame s)).
Proof.
  intros Ha%reach_ok. split_and!.
  - intros c c' i. by apply (current_unique None idle (core s)).
  - intros c i (v & Ev & Hc & Hu & Hz)%(awf_current _ _ _ Ha c i). apply core_lookup in Ev as (t & Et & ->).
    exists t. split_and!; try done. intros E. by specialize (Hz E).
  - intros i t Et Hr. apply (awf_running _ _ _ Ha i (view t)); [apply core_lookup; eauto|done].
  - intros i j t u Et Eu. apply (awf_ids _ _ _ Ha i j (view t) (view u)); apply core_lookup; eauto.
  - intros c now frame [b Hb]. destruct (yield_ok idle s c b now frame Ha Hb) as (f & s' & E & _). by exists (f, s').
Qed.

(** ** Ticks *)

Lemma wake_current s now : g_current (wake_sleepers now s) = g_current s.
Proof. done. Qed.

Lemma tick_ok idle s c b p now frame :
  sok idle s -> idle !! c = Some b -> g_current s !! c = Some (Some p) ->
  let w := g_threads (wake_sleepers now s) in
  exists n f s', scheduler_on_tick c now frame s = Some (f, s') /\
    (is_best (Z.of_nat c) w n \/ (no_candidate (Z.of_nat c) w /\ n = p /\ n = b)) /\
    g_current s' = <[c := Some n]> (g_current s) /\ s_mem s' = s_mem s /\
    (n = p -> f = frame /\ g_threads s' = w) /\
    (n <> p -> exists pt nt, w !! p = Some pt /\ w !! n = Some nt /\ f = t_rsp nt /\
       g_threads s' = alter (t_set_state THREAD_RUNNING) n (alter (save_context frame) p w) /\
       tss_rsp0 s' = (if t_kstack nt =? 0 then tss_rsp0 s else <[c := t_kstack nt + t_kstack_size nt]> (tss_rsp0 s)) /\
       cpu_cr3 (s_vmm s') =
         (if negb (t_cr3 nt =? 0) && negb (t_cr3 nt =? t_cr3 pt) then t_cr3 nt else cpu_cr3 (s_vmm s))).
Proof.
  intros Ha Hb Hp w. pose proof (wake_ok None idle s now Ha) as Hw.
  set (sw := wake_sleepers now s) in *. exists (pick_next c sw).
  assert (Hpick : is_best (Z.of_nat c) w (pick_next c sw) \/ (no_candidate (Z.of_nat c) w /\ pick_next c sw = p /\ pick_next c sw = b)).
  { destruct (pick_next_ok _ _ _ _ _ Hw Hb) as [?|(? & E & Hcb & _)]; [by left|right]. split; [done|].
    rewrite E. unfold current_on in Hcb. cbn in Hcb. split; congruence. }
  unfold scheduler_on_tick. fold sw. set (n := pick_next c sw) in *. clearbody n.
  destruct (decide (n = p)) as [->|Hn].
  - exists frame, sw. rewrite do_switch_same by done. split_and!; try done.
    by rewrite list_insert_id.
  - destruct Hpick as [Hbest|(_ & ? & _)]; [|done].
    destruct (awf_current _ _ _ Hw c p Hp) as (v & Ev & _). apply core_lookup in Ev as (pt & Ep & ->).
    pose proof Hbest as (nt & En & _).
    destruct (do_switch_ok c frame p n pt nt sw Hp (not_eq_sym Hn) Ep En) as (s' & Es & H1 & H2 & _ & H4 & _ & H6 & H7).
    exists (t_rsp nt), s'. split_and!; try done; [by left|]. intros _. by exists pt, nt.
Qed.

(** The table in which every sleeper whose time has come is ready, and
    nothing else has changed. *)
Definition awake (now : Z) (ts w : list thread) : Prop :=
  length w = length ts /\
  (forall i t, ts !! i = Some t -> t_state t = THREAD_SLEEPING -> t_wakeup_tick t <= now ->
     w !! i = Some (t_set_state THREAD_READY t)) /\
  (forall i t, ts !! i = Some t -> t_state t <> THREAD_SLEEPING \/ now < t_wakeup_tick t -> w !! i = Some t).

Lemma wake_sleepers_awake now s : awake now (g_threads s) (g_threads (wake_sleepers now s)).
Proof.
  unfold wake_sleepers. cbn [g_threads s_set_g_threads]. split; [apply length_fmap|]. split.
  - intros i t Et Hs Hn. rewrite list_lookup_fmap, Et. simpl. by rewrite bool_decide_true, (proj2 (Z.leb_le _ _)).
  - intros i t Et Hs. rewrite list_lookup_fmap, Et. simpl. destruct Hs as [Hs|Hn].
    + by rewrite bool_decide_false.
    + by rewrite (proj2 (Z.leb_gt _ _)), andb_false_r.
Qed.

(** C4: a timer tick makes exactly the sleepers ready whose time has come and
    gives the processor to the ready thread of highest priority assigned to
    it, the first in the table among equals; without one it goes on with its
    bootstrap thread.  On a switch the interrupted frame becomes the saved
    context of the old thread, which is ready again if it was running, the
    frame returned is the saved context of the new one, and its kernel stack
    and address space are made active.  States are those of [reach]. *)
Theorem scheduler_on_tick_correct idle s c b p now frame :
  reach idle s -> idle !! c = Some b -> g_current s !! c = Some (Some p) ->
  exists w n f s', awake now (g_threads s) w /\ scheduler_on_tick c now frame s = Some (f, s') /\
    (is_best (Z.of_nat c) w n \/ (no_candidate (Z.of_nat c) w /\ n = p /\ n = b)) /\
    g_current s' = <[c := Some n]> (g_current s) /\ s_mem s' = s_mem s /\
    (n = p -> f = frame /\ g_threads s' = w) /\
    (n <> p -> exists pt nt, w !! p = Some pt /\ w !! n = Some nt /\ f = t_rsp nt /\
       g_threads s' = alter (t_set_state THREAD_RUNNING) n (alter (save_context frame) p w) /\
       tss_rsp0 s' = (if t_kstack nt =? 0 then tss_rsp0 s else <[c := t_kstack nt + t_kstack_size nt]> (tss_rsp0 s)) /\
       cpu_cr3 (s_vmm s') =
         (if negb (t_cr3 nt =? 0) && negb (t_cr3 nt =? t_cr3 pt) then t_cr3 nt else cpu_cr3 (s_vmm s))).
Proof.
  intros Hr Hb Hp. exists (g_threads (wake_sleepers now s)).
  destruct (tick_ok idle s c b p now frame (reach_ok _ _ Hr) Hb Hp) as (n & f & s' & Ht). exists n, f, s'.
  split; [apply wake_sleepers_awake|exact Ht].
Qed.

Definition saved_rsp s i : option Z := t_rsp <$> g_threads s !! i.

(** A tick on any processor: what it returns and does to saved contexts. *)
Lemma tick_saved idle s c b p now frame f s' j :
  sok idle s -> idle !! c = Some b -> g_current s !! c = Some (Some p) ->
  scheduler_on_tick c now frame s = Some (f, s') ->
  exists n, g_current s' = <[c := Some n]> (g_current s) /\ (n = p \/ saved_rsp s n = Some f) /\
    (n <> p -> saved_rsp s' p = Some frame) /\ (j <> p -> saved_rsp s' j = saved_rsp s j).
Proof.
  intros Ha Hb Hp E. destruct (tick_ok idle s c b p now frame Ha Hb Hp) as (n & f' & s'' & E' & _ & Hc & _ & Hsame & Hsw).
  rewrite E in E'. injection E' as <- <-. exists n. split; [done|].
  assert (Hwk : forall i, t_rsp <$> g_threads (wake_sleepers now s) !! i = saved_rsp s i).
  { intros i. unfold saved_rsp. cbn. rewrite list_lookup_fmap. destruct (g_threads s !! i); cbn; [|done]. by case_b. }
  assert (Hst : forall (i : nat) st (l : list thread), t_rsp <$> alter (t_set_state st) i l !! j = t_rsp <$> l !! j).
  { intros i st l. destruct (decide (i = j)) as [->|]; [|by rewrite list_lookup_alter_ne].
    rewrite list_lookup_alter_eq. by destruct (l !! j). }
  destruct (decide (n = p)) as [->|Hn].
  - destruct (Hsame eq_refl) as [-> Ht]. split; [by left|]. split; [done|]. intros _.
    unfold saved_rsp at 1. rewrite Ht. apply Hwk.
  - destruct (Hsw Hn) as (pt & nt & Ep & En & -> & Ht & _). split; [right; by rewrite <-Hwk, En|].
    unfold saved_rsp. rewrite Ht. split.
    + intros _. rewrite list_lookup_alter_ne, list_lookup_alter_eq, Ep by done. cbn.
      unfold save_context. by case_b.
    + intros Hj. rewrite Hst, list_lookup_alter_ne by done. apply Hwk.
Qed.

(** Ticks of any processors during which thread [p] is never resumed. *)
Inductive away (idle : gmap nat nat) (p : nat) : sched A -> sched A -> Prop :=
| away_refl s : away idle p s s
| away_tick s s1 s2 c now frame f :
    is_Some (idle !! c) -> scheduler_on_tick c now frame s = Some (f, s1) ->
    (forall c', g_current s1 !! c' <> Some (Some p)) -> away idle p s1 s2 -> away idle p s s2.

Lemma away_saved idle p s s' :
  away idle p s s' -> reach idle s -> (forall c', g_current s !! c' <> Some (Some p)) ->
  saved_rsp s' p = saved_rsp s p /\ reach idle s' /\ (forall c', g_current s' !! c' <> Some (Some p)).
Proof.
  induction 1 as [s|s s1 s2 c now frame f [b Hb] E Hn _ IH]; intros Hr Hp; [done|].
  pose proof (reach_tick idle s c now frame (f, s1) Hr ltac:(by exists b) E) as Hr1.
  destruct (IH Hr1 Hn) as (Hs & ? & ?). split; [|done].
  pose proof (reach_ok _ _ Hr) as Ha. destruct (awf_idle _ _ _ Ha c b Hb) as [_ [q Hq]].
  destruct (tick_saved idle s c b q now frame f s1 p Ha Hb Hq E) as (n & _ & _ & _ & Hj).
  rewrite Hs. apply Hj. by intros ->; destruct (Hp c).
Qed.

(** C36: a preempted thread resumes exactly where it was interrupted: if a
    tick takes the processor from thread [p] with register frame [frame],
    and after any ticks of any processors another tick gives a processor
    back to [p], that tick returns [frame]. *)
Theorem sched_resume_frame idle s c p now frame f s1 s2 c' now' frame' f' s3 :
  reach idle s -> is_Some (idle !! c) -> g_current s !! c = Some (Some p) ->
  scheduler_on_tick c now frame s = Some (f, s1) -> g_current s1 !! c <> Some (Some p) ->
  away idle p s1 s2 ->
  is_Some (idle !! c') -> scheduler_on_tick c' now' frame' s2 = Some (f', s3) -> g_current s3 !! c' = Some (Some p) ->
  f' = frame.
Proof.
  intros Hr [b Hb] Hp E Hnp Haw [b' Hb'] E' Hp'.
  pose proof (reach_ok _ _ Hr) as Ha.
  pose proof (reach_tick idle s c now frame (f, s1) Hr ltac:(by exists b) E) as Hr1.
  destruct (tick_saved idle s c b p now frame f s1 p Ha Hb Hp E) as (n & Hc & _ & Hsave & _).
  assert (Hlt : (c < length (g_current s))%nat) by (by eapply lookup_lt_Some).
  assert (Hn : n <> p) by (intros ->; apply Hnp; rewrite Hc; by apply list_lookup_insert_eq).
  destruct (away_saved idle p s1 s2 Haw Hr1) as (Hs2 & Hr2 & Hno).
  { intros c2 Hc2. rewrite Hc in Hc2. destruct (decide (c2 = c)) as [->|Hne].
    - rewrite list_lookup_insert_eq in Hc2 by done. congruence.
    - rewrite list_lookup_insert_ne in Hc2 by done. by apply Hne, (current_unique None idle (core s) c2 c p). }
  pose proof (reach_ok _ _ Hr2) as Ha2. destruct (awf_idle _ _ _ Ha2 c' b' Hb') as [_ [q Hq]].
  destruct (tick_saved idle s2 c' b' q now' frame' f' s3 p Ha2 Hb' Hq E') as (n' & Hc' & Hret & _ & _).
  assert (Hlt' : (c' < length (g_current s2))%nat) by (by eapply lookup_lt_Some).
  assert (n' = p) as -> by (rewrite Hc', list_lookup_insert_eq in Hp' by done; congruence).
  destruct Hret as [->|Hret]; [by destruct (Hno c')|].
  rewrite Hs2, Hsave in Hret by done. congruence.
Qed.

(** ** Starvation *)

(** Threads 0 and 1 are both runnable on processor 0, one of them runs, and
    no thread of that processor has a higher priority. *)
Record duel (p q : nat) s : Prop := {
  duel_ends : (p = O /\ q = 1%nat) \/ (p = 1%nat /\ q = O);
  duel_current : g_current s !! O = Some (Some p);
  duel_running : exists tp tq, g_threads s !! p = Some tp /\ g_threads s !! q = Some tq /\
    t_state tp = THREAD_RUNNING /\ candidate 0 tq /\ t_cpu_id tp = 0 /\ t_priority tp = t_priority tq /\
    forall i t, g_threads s !! i = Some t -> t_cpu_id t = 0 -> t_priority t <= t_priority tq
}.

(** Timer ticks of processor 0 at given times with given frames. *)
Fixpoint run_ticks (evs : list (Z * Z)) s : option (sched A) :=
  match evs with
  | [] => Some s
  | (now, frame) :: evs' => r ← scheduler_on_tick O now frame s; run_ticks evs' (snd r)
  end.

Definition woken (now : Z) (t : thread) : thread :=
  if bool_decide (t_state t = THREAD_SLEEPING) && (t_wakeup_tick t <=? now) then t_set_state THREAD_READY t else t.

Lemma woken_fields now t : t_priority (woken now t) = t_priority t /\ t_cpu_id (woken now t) = t_cpu_id t /\
  (t_state t <> THREAD_SLEEPING -> woken now t = t).
Proof. unfold woken. case_bool_decide; cbn; [|done]. by case_b. Qed.

Lemma duel_tick p q s now frame :
  duel p q s -> exists f s', scheduler_on_tick O now frame s = Some (f, s') /\ duel q p s' /\
    forall i, (2 <= i)%nat -> g_threads s' !! i = woken now <$> g_threads s !! i.
Proof.
  intros [Hpq Hc (tp & tq & Ep & Eq & Hr & Hq & Hcp & Hprio & Hmax)].
  set (sw := wake_sleepers now s).
  assert (Hw : forall i, g_threads sw !! i = woken now <$> g_threads s !! i) by (intros i; apply list_lookup_fmap).
  assert (Ep' : g_threads sw !! p = Some tp).
  { rewrite Hw, Ep. cbn. f_equal. apply woken_fields. congruence. }
  assert (Eq' : g_threads sw !! q = Some tq).
  { rewrite Hw, Eq. cbn. f_equal. apply woken_fields. destruct Hq. congruence. }
  assert (Hmax' : forall i t, g_threads sw !! i = Some t -> t_cpu_id t = 0 -> t_priority t <= t_priority tq).
  { intros i t. rewrite Hw. intros (t' & Et & ->)%fmap_Some. destruct (woken_fields now t') as (-> & -> & _). by apply (Hmax i). }
  assert (Hne : p <> q) by lia.
  assert (En : pick_next O sw = q).
  { unfold pick_next. pose proof (pick_best_spec 0 (g_threads sw)) as Hs.
    change (Z.of_nat 0) with 0. destruct (pick_best 0 (g_threads sw) 0 None (-1)) as [n|]; [|by destruct (Hs q tq)].
    apply (is_best_unique 0 (g_threads sw)); [done|]. exists tq. split; [done|]. split; [done|].
    intros m t Et Hct. split; [apply (Hmax' m t Et), Hct|]. intros Hm.
    destruct Hpq as [[-> ->]|[-> ->]]; [|lia]. assert (m = O) as -> by lia.
    assert (t = tp) as -> by congruence. destruct Hct. congruence. }
  unfold scheduler_on_tick. fold sw. rewrite En.
  destruct (do_switch_ok O frame p q tp tq sw Hc Hne Ep' Eq') as (s' & Es & H1 & H2 & _).
  exists (t_rsp tq), s'. split; [done|].
  assert (Esp : save_context frame tp = t_set_state THREAD_READY (t_set_rsp frame tp)).
  { unfold save_context. cbn. by rewrite bool_decide_true. }
  assert (Lp : g_threads s' !! p = Some (t_set_state THREAD_READY (t_set_rsp frame tp))).
  { rewrite H1, list_lookup_alter_ne, list_lookup_alter_eq, Ep' by done. cbn. by rewrite Esp. }
  assert (Lq : g_threads s' !! q = Some (t_set_state THREAD_RUNNING tq)).
  { by rewrite H1, list_lookup_alter_eq, list_lookup_alter_ne, Eq'. }
  split; [|intros i Hi; rewrite H1, !list_lookup_alter_ne by lia; apply Hw].
  constructor.
  - destruct Hpq as [[-> ->]|[-> ->]]; [by right|by left].
  - rewrite H2. apply list_lookup_insert_eq. by eapply lookup_lt_Some.
  - do 2 eexists. split; [exact Lq|]. split; [exact Lp|]. destruct Hq as [_ Hcq]. split_and!; try done.
    intros i t Et Hct. cbn. rewrite Hprio. destruct (decide (i = q)) as [->|]; [|destruct (decide (i = p)) as [->|]].
    + rewrite Lq in Et. by injection Et as <-.
    + rewrite Lp in Et. injection Et as <-. cbn. lia.
    + apply (Hmax' i); [|done]. by rewrite H1, !list_lookup_alter_ne in Et.
Qed.

(** Equal priorities are not served in turn.  When the threads in slots
    0 and 1 of the table stay runnable on processor 0 and no thread there has
    a higher priority, timer ticks only alternate between the two: a thread
    of any later slot that is ready stays ready, and never runs, however many
    ticks there are. *)
Theorem sched_ticks_starve p q s evs i t :
  duel p q s -> (2 <= i)%nat -> g_threads s !! i = Some t -> t_state t = THREAD_READY ->
  exists s', run_ticks evs s = Some s' /\
    (g_current s' !! O = Some (Some O) \/ g_current s' !! O = Some (Some 1%nat)) /\ g_threads s' !! i = Some t.
Proof.
  intros Hd Hi Et Hst. revert p q s Hd Et. induction evs as [|[now frame] evs IH]; intros p q s Hd Et; cbn [run_ticks].
  - exists s. split; [done|]. split; [|done]. destruct Hd as [[[-> _]|[-> _]] ? _]; auto.
  - destruct (duel_tick p q s now frame Hd) as (f & s' & E & Hd' & Hrest). rewrite E. cbn.
    apply (IH q p s' Hd'). rewrite Hrest, Et by done. cbn. f_equal. apply woken_fields. congruence.
Qed.

End reach.

(** ** A concrete machine

    64 pages, the first four in use; two kernel threads started by the
    bootstrap thread. *)
Definition lab_pmm : pmm := mk_pmm (fun b => if b =? 0 then 15 else 0) 60 64 true.
Definition lab_addr (i : nat) : Z := 65536 + 256 * Z.of_nat i.
Definition lab_oom (_ : Z) : bool := false.
Definition lab_fs : fs := mk_fs ∅ ∅ ∅ 4 1 1.
Definition lab0 : sched pmm :=
  mk_sched [] [] 1 0 0 (mk_vmm (mk_mach (fun _ => 0) lab_pmm) 4096 [] 4096) lab_fs (replicate 8 0).
Definition lab_boot : sched pmm := scheduler_init lab_addr 262144 278528 0 lab0.
Definition lab1 : sched pmm := snd (thread_create_kernel lab_addr 32768 O 0 1 [97] 40000 7 lab_boot).
Definition lab2 : sched pmm := snd (thread_create_kernel lab_addr 32768 O 0 1 [98] 40004 8 lab1).

Abbreviation lab_reach := (reach lab_addr 32768 lab_oom).

Lemma lab_reach_boot : lab_reach {[ O := O ]} lab_boot.
Proof. apply reach_init. cbn. lia. Qed.
Lemma lab_reach1 : lab_reach {[ O := O ]} lab1.
Proof.
  unfold lab1. apply reach_kernel; [apply lab_reach_boot|]. unfold ids_left.
  replace (g_next_id lab_boot) with 1 by (vm_compute; reflexivity). lia.
Qed.
Lemma lab_reach2 : lab_reach {[ O := O ]} lab2.
Proof.
  unfold lab2. apply reach_kernel; [apply lab_reach1|]. unfold ids_left.
  replace (g_next_id lab1) with 2 by (vm_compute; reflexivity). lia.
Qed.

Lemma sched_reachable_safe_witness :
  is_Some (scheduler_on_tick O 5 1000 lab2) /\ g_current lab2 !! O = Some (Some O).
Proof.
  split; [|vm_compute; reflexivity].
  destruct (sched_reachable_safe lab_addr 32768 lab_oom {[ O := O ]} lab2 lab_reach2) as (_ & _ & _ & _ & Ht).
  apply Ht. by exists O.
Defined.

(** The first thread runs and sleeps for three ticks; the bootstrap thread
    takes over. *)
Definition lab_run : sched pmm := snd (default (0, lab2) (scheduler_on_tick O 5 1000 lab2)).
Definition lab_doze : sched pmm := default lab_run (scheduler_sleep O 5 3 lab_run).
Definition lab_asleep : sched pmm := snd (default (0, lab_doze) (scheduler_yield O 5 2000 lab_doze)).

Lemma lab_reach_asleep : lab_reach {[ O := O ]} lab_asleep.
Proof.
  assert (Hi : is_Some (({[ O := O ]} : gmap nat nat) !! O)) by (by exists O).
  assert (Hrun : lab_reach {[ O := O ]} lab_run).
  { unfold lab_run. destruct (scheduler_on_tick O 5 1000 lab2) as [r|] eqn:E; [|exact lab_reach2].
    exact (reach_tick _ _ _ _ _ _ _ _ _ lab_reach2 Hi E). }
  assert (Hdoze : lab_reach {[ O := O ]} lab_doze).
  { unfold lab_doze. destruct (scheduler_sleep O 5 3 lab_run) as [s'|] eqn:E; [|exact Hrun].
    refine (reach_sleep _ _ _ _ _ _ _ _ _ Hrun (conj Hi _) E). intros c' i Hc.
    replace (g_current lab_run !! O) with (Some (Some 1%nat)) in Hc by (vm_compute; reflexivity). injection Hc as <-.
    intros [_ [=]]%lookup_singleton_Some. }
  unfold lab_asleep. destruct (scheduler_yield O 5 2000 lab_doze) as [r|] eqn:E; [|exact Hdoze].
  exact (reach_yield _ _ _ _ _ _ _ _ _ Hdoze Hi E).
Qed.

(** At tick 8 the sleeper is woken and, first in the table, runs again where
    it stopped. *)
Lemma scheduler_on_tick_correct_witness :
  exists s', scheduler_on_tick O 8 3000 lab_asleep = Some (2000, s') /\ g_current s' = <[ O := Some 1%nat ]> (g_current lab_asleep).
Proof.
  destruct (scheduler_on_tick_correct lab_addr 32768 lab_oom {[ O := O ]} lab_asleep O O O 8 3000 lab_reach_asleep)
    as (w & n & f & s' & _ & E & _ & Hc & _); [reflexivity|vm_compute; reflexivity|].
  assert (Hn : (fun r => (fst r, g_current (snd r) !! O)) <$> scheduler_on_tick O 8 3000 lab_asleep = Some (2000, Some (Some 1%nat)))
    by (vm_compute; reflexivity).
  rewrite E in Hn. cbn [fmap option_fmap option_map fst snd] in Hn. injection Hn as -> Hn. exists s'. split; [exact E|].
  rewrite Hc in Hn |- *. rewrite list_lookup_insert_eq in Hn by (vm_compute; lia). injection Hn as ->. reflexivity.
Defined.

Lemma tick_is_yield (s : sched pmm) c now frame : scheduler_on_tick c now frame s = scheduler_yield c now frame s.
Proof. reflexivity. Qed.

Lemma sched_resume_frame_witness :
  exists f s1 s2, scheduler_on_tick O 5 1000 lab2 = Some (f, s1) /\ scheduler_on_tick O 6 2000 s1 = Some (1000, s2).
Proof.
  destruct (yield_ok {[ O := O ]} lab2 O O 5 1000) as (f & s1 & E1 & Hs1); [apply (reach_ok _ _ _ _ _ lab_reach2)|reflexivity|].
  destruct (yield_ok {[ O := O ]} s1 O O 6 2000) as (f' & s2 & E2 & _); [done|reflexivity|].
  assert (H1 : (fun r => g_current (snd r) !! O) <$> scheduler_yield O 5 1000 lab2 = Some (Some (Some 1%nat)))
    by (vm_compute; reflexivity).
  assert (H2 : (fun r => g_current (snd r) !! O) <$> (r ← scheduler_yield O 5 1000 lab2; scheduler_yield O 6 2000 (snd r))
    = Some (Some (Some O))) by (vm_compute; reflexivity).
  rewrite E1 in H1, H2. cbn [mbind option_bind snd] in H2. rewrite E2 in H2. cbn in H1, H2.
  injection H1 as H1. injection H2 as H2. rewrite <-tick_is_yield in E1, E2.
  assert (Hf : f' = 1000).
  { apply (sched_resume_frame lab_addr 32768 lab_oom {[ O := O ]} lab2 O O 5 1000 f s1 s1 O 6 2000 f' s2 lab_reach2);
      [by exists O|vm_compute; reflexivity|exact E1|congruence|apply away_refl|by exists O|exact E2|exact H2]. }
  exists f, s1, s2. split; [exact E1|]. rewrite <-Hf. exact E2.
Defined.

Lemma sched_ticks_starve_witness :
  exists s', run_ticks [(1, 1000); (2, 2000); (3, 3000)] lab2 = Some s' /\ g_current s' !! O <> Some (Some 2%nat).
Proof.
  assert (Hp : forallb (fun t => (t_priority t <=? 1)) (g_threads lab2) = true) by (vm_compute; reflexivity).
  assert (Hd : duel O 1 lab2).
  { constructor; [by left|vm_compute; reflexivity|]. do 2 eexists.
    split; [vm_compute; reflexivity|]. split; [vm_compute; reflexivity|]. split_and!; try done.
    intros i t Et _. cbn. rewrite forallb_forall in Hp.
    apply Z.leb_le, Hp. apply list_elem_of_In. by eapply list_elem_of_lookup_2. }
  assert (Ht : exists t, g_threads lab2 !! 2%nat = Some t /\ t_state t = THREAD_READY).
  { eexists. split; [vm_compute; reflexivity|reflexivity]. }
  destruct Ht as (t & Et & Hst).
  destruct (sched_ticks_starve O 1 lab2 [(1, 1000); (2, 2000); (3, 3000)] 2 t Hd ltac:(lia) Et Hst) as (s' & E & Hc & _).
  exists s'. split; [done|]. destruct Hc as [->| ->]; congruence.
Defined.
