(* ===== verification/SchedProc.v ===== *)
(** * Fork, exit and wait (src/scheduler.c)

    The life of a process: waitpid on each of its branches, what an exiting
    child does to a waiting parent, and fork. *)

From stdpp Require Import prelude list gmap.
From Stdlib Require Import ZArith Lia.
From S2P Require Import Prelude Lib Alloc Pmm Vmm VmmSpec Vfs VfsSpec Sched SchedSpec.
#[local] Open Scope Z_scope.
#[local] Open Scope cint_scope.

Section proc.
Context {A : Type} `{PageOps A}.
Context (thread_addr : nat -> Z) (trampoline_addr : Z) (oom : Z -> bool).
Implicit Types (s : sched A) (t : thread) (i c b z : nat) (idle : gmap nat nat).

(** Every slot but [z] is left alone. *)
Definition only_slot z s s' : Prop := forall j, j <> z -> g_threads s' !! j = g_threads s !! j.

Lemma only_slot_refl z s : only_slot z s s.
Proof. done. Qed.

Lemma only_slot_trans z s1 s2 s3 : only_slot z s1 s2 -> only_slot z s2 s3 -> only_slot z s1 s3.
Proof. intros H1 H2 j Hj. by rewrite H2, H1. Qed.

Lemma only_slot_upd z (f : thread -> thread) s : only_slot z s (upd z f s).
Proof. intros j Hj. cbn. by rewrite list_lookup_alter_ne. Qed.

Lemma user_st32_threads va v s : g_threads (user_st32 va v s) = g_threads s.
Proof.
  unfold user_st32. apply (for_range_ind (fun _ s' => g_threads s' = g_threads s)); [done|done|].
  intros k s' _ IH. by repeat case_match.
Qed.

Lemma user_st32_files va v s : s_fs (user_st32 va v s) = s_fs s.
Proof.
  unfold user_st32. apply (for_range_ind (fun _ s' => s_fs s' = s_fs s)); [done|done|].
  intros k s' _ IH. by repeat case_match.
Qed.

Lemma upd_lookup z (f : thread -> thread) s t : g_threads s !! z = Some t -> g_threads (upd z f s) !! z = Some (f t).
Proof. intros E. cbn. by rewrite list_lookup_alter_eq, E. Qed.

Lemma release_slot z s t :
  g_threads s !! z = Some t ->
  only_slot z s (thread_release_resources z s) /\
  exists t', g_threads (thread_release_resources z s) !! z = Some t' /\
    t_kstack t' = 0 /\ t_ustack t' = 0 /\ t_open_files t' = t_open_files t /\ t_id t' = t_id t /\ t_parent t' = t_parent t.
Proof.
  intros Et. unfold thread_release_resources. rewrite Et. cbv zeta.
  set (s1 := if negb (t_kstack t =? 0) then _ else s).
  assert (H1 : only_slot z s s1 /\ exists t1, g_threads s1 !! z = Some t1 /\ t_kstack t1 = 0 /\
    t_open_files t1 = t_open_files t /\ t_id t1 = t_id t /\ t_parent t1 = t_parent t).
  { subst s1. case_b.
    - split; [apply (only_slot_upd z _ (s_set_s_vmm _ s))|]. eexists. split; [by apply upd_lookup|]. done.
    - apply negb_false_iff, Z.eqb_eq in E. split; [done|]. by exists t. }
  clearbody s1. destruct H1 as (H1 & t1 & E1 & H2 & H3 & H4 & H5).
  set (s2 := if t_is_user t && _ && _ then _ else s1).
  assert (H6 : only_slot z s1 s2 /\ exists t2, g_threads s2 !! z = Some t2 /\ t_kstack t2 = 0 /\
    t_open_files t2 = t_open_files t /\ t_id t2 = t_id t /\ t_parent t2 = t_parent t).
  { subst s2. case_b; [|by split; [|exists t1]].
    split; [apply (only_slot_upd z _ (s_set_s_vmm _ s1))|]. eexists. split; [by apply upd_lookup|]. done. }
  clearbody s2. destruct H6 as (H6 & t2 & E2 & H7 & H8 & H9 & H10).
  split; [|eexists; split; [by apply upd_lookup|done]].
  eapply only_slot_trans; [done|]. eapply only_slot_trans; [done|]. apply only_slot_upd.
Qed.

(** After [k] steps of the closing loop the first [k] files are closed. *)
Lemma close_files_slot z s t :
  g_threads s !! z = Some t ->
  only_slot z s (close_files z s) /\
  exists t', g_threads (close_files z s) !! z = Some t' /\ t_kstack t' = t_kstack t /\ t_ustack t' = t_ustack t /\
    t_id t' = t_id t /\ t_parent t' = t_parent t /\ t_open_file_count t' = 0 /\
    forall k, 0 <= k < THREAD_MAX_OPEN_FILES -> nth (Z.to_nat k) (t_open_files t') 0 = 0.
Proof.
  intros Et. unfold close_files. cbv zeta. set (s1 := for_range _ _ _ _).
  assert (H1 : only_slot z s s1 /\ exists t', g_threads s1 !! z = Some t' /\ t_kstack t' = t_kstack t /\
    t_ustack t' = t_ustack t /\ t_id t' = t_id t /\ t_parent t' = t_parent t /\
    forall k, 0 <= k < THREAD_MAX_OPEN_FILES -> nth (Z.to_nat k) (t_open_files t') 0 = 0).
  { subst s1. apply (for_range_ind (fun n s1 => only_slot z s s1 /\ exists t', g_threads s1 !! z = Some t' /\
      t_kstack t' = t_kstack t /\ t_ustack t' = t_ustack t /\ t_id t' = t_id t /\ t_parent t' = t_parent t /\
      forall k, 0 <= k < n -> nth (Z.to_nat k) (t_open_files t') 0 = 0)); [done| |].
    - split; [done|]. exists t. split_and!; try done. lia.
    - intros n s1 Hn (Ho & t1 & E1 & H1 & H2 & H3 & H4 & Hz). rewrite E1. case_b.
      + apply Z.eqb_eq in E. split; [done|]. exists t1. split_and!; try done.
        intros k Hk. destruct (decide (k = n)) as [->|]; [done|]. apply Hz; lia.
      + split; [eapply only_slot_trans; [done|]; apply (only_slot_upd z _ (s_set_s_fs _ s1))|].
        eexists. split; [by apply upd_lookup|]. split_and!; try done. cbn. intros k Hk.
        destruct (decide (k = n)) as [->|].
        * apply Z.eqb_neq in E. destruct (decide (Z.to_nat n < length (t_open_files t1))%nat) as [Hl|Hl].
          -- rewrite nth_lookup, list_lookup_insert_eq by done. done.
          -- rewrite nth_overflow; [done|]. rewrite length_insert. lia.
        * rewrite nth_lookup, list_lookup_insert_ne, <-nth_lookup by lia. apply Hz; lia. }
  clearbody s1. destruct H1 as (Ho & t1 & E1 & ? & ? & ? & ? & ?).
  split; [eapply only_slot_trans; [done|]; apply only_slot_upd|].
  eexists. split; [by apply upd_lookup|]. done.
Qed.
(** ** Wait *)

Lemma set_rax_threads frame v s : g_threads (set_rax frame v s) = g_threads s.
Proof. done. Qed.

Lemma set_rax_get frame v s : ld64 (s_mem (set_rax frame v s)) (frame_rax frame) = u64 v.
Proof. unfold set_rax. cbn. apply ld64_st64_same, u64_range. Qed.

Lemma find_child_first p pid zb s z t :
  g_threads s !! z = Some t -> is_child p pid zb t ->
  (forall j u, (j < z)%nat -> g_threads s !! j = Some u -> ~ is_child p pid zb u) ->
  find_child p pid zb s = Some z.
Proof.
  intros Et Hc Hf. unfold find_child.
  rewrite (proj2 (list_find_Some (is_child p pid zb) (g_threads s) z t)); [done|].
  split_and!; [done|done|]. intros j u Eu Hj. by eapply Hf.
Qed.

Lemma find_child_None p pid zb s :
  (forall z t, g_threads s !! z = Some t -> ~ is_child p pid zb t) -> find_child p pid zb s = None.
Proof.
  intros Hn. unfold find_child. rewrite (proj2 (list_find_None (is_child p pid zb) (g_threads s))); [done|].
  apply Forall_lookup. intros z t Et. by apply (Hn z).
Qed.

Lemma reap_ok z frame ptr s t :
  g_threads s !! z = Some t ->
  only_slot z s (reap z frame ptr s) /\
  ld64 (s_mem (reap z frame ptr s)) (frame_rax frame) = u64 (t_id t) /\
  exists t', g_threads (reap z frame ptr s) !! z = Some t' /\ t_state t' = THREAD_UNUSED /\ t_kstack t' = 0 /\
    forall k, 0 <= k < THREAD_MAX_OPEN_FILES -> nth (Z.to_nat k) (t_open_files t') 0 = 0.
Proof.
  intros Et. unfold reap. rewrite Et. cbv zeta.
  set (s1 := if negb (ptr =? 0) then _ else s).
  assert (E1 : g_threads s1 = g_threads s) by (subst s1; case_b; [apply user_st32_threads|done]).
  clearbody s1. rewrite <-E1 in Et.
  destruct (release_slot z s1 t Et) as (H1 & t2 & E2 & H2 & _).
  destruct (close_files_slot z _ t2 E2) as (H3 & t3 & E3 & H4 & _ & _ & _ & _ & H5).
  generalize dependent (close_files z (thread_release_resources z s1)). intros s3 H3 E3.
  split; [|split; [apply set_rax_get|]].
  - intros j Hj. rewrite set_rax_threads, (only_slot_upd z _ s3 j Hj), H3, H1, E1 by done. done.
  - rewrite set_rax_threads, (upd_lookup z _ s3 t3 E3). eexists. split; [done|].
    cbn. split_and!; [done|congruence|done].
Qed.

(** The branches of waitpid. *)
Lemma waitpid_branches idle s c p now frame pid ptr :
  reach thread_addr trampoline_addr oom idle s -> may_pause idle s c -> g_current s !! c = Some (Some p) ->
  (forall z t, g_threads s !! z = Some t -> is_child p pid true t ->
     (forall j u, (j < z)%nat -> g_threads s !! j = Some u -> ~ is_child p pid true u) ->
     exists s' t', scheduler_waitpid c now frame pid ptr s = Some (frame, s') /\ s' = reap z frame ptr s /\
       ld64 (s_mem s') (frame_rax frame) = u64 (t_id t) /\ only_slot z s s' /\
       g_threads s' !! z = Some t' /\ t_state t' = THREAD_UNUSED /\ t_kstack t' = 0 /\
       forall k, 0 <= k < THREAD_MAX_OPEN_FILES -> nth (Z.to_nat k) (t_open_files t') 0 = 0) /\
  ((forall z t, g_threads s !! z = Some t -> ~ is_child p pid false t) ->
     exists s', scheduler_waitpid c now frame pid ptr s = Some (frame, s') /\
       ld64 (s_mem s') (frame_rax frame) = u64 (-1) /\ g_threads s' = g_threads s) /\
  ((forall z t, g_threads s !! z = Some t -> ~ is_child p pid true t) ->
   (exists z t, g_threads s !! z = Some t /\ is_child p pid false t) ->
     exists f s' t', scheduler_waitpid c now frame pid ptr s = Some (f, s') /\
       g_threads s' !! p = Some t' /\ t_state t' = THREAD_BLOCKED /\ t_wait_target t' = pid /\
       t_wait_status_ptr t' = ptr /\ t_rsp t' = frame /\
       g_current s' !! c <> Some (Some p) /\ s_mem s' = s_mem s).
Proof.
  intros Hr [[b Hb] Hp] Hc. pose proof (reach_ok _ _ _ _ _ Hr) as Ha.
  pose proof (idle_cpu_lt _ _ _ _ Ha Hb) as Hlt.
  unfold scheduler_waitpid. rewrite thread_current_eq, Hc by done. cbn [mjoin option_join].
  split_and!.
  - intros z t Et Hz Hf. rewrite (find_child_first p pid true s z t Et Hz Hf).
    destruct (reap_ok z frame ptr s t Et) as (H1 & H2 & t' & H3 & H4 & H5 & H6). by exists (reap z frame ptr s), t'.
  - intros Hn. rewrite !find_child_None; [|done|].
    + eexists. split; [done|]. split; [apply set_rax_get|done].
    + intros z t Et (? & ? & ? & _). by apply (Hn z t Et).
  - intros Hn (z & t & Et & Hz). rewrite (find_child_None p pid true) by done.
    destruct (find_child p pid false s) as [z'|] eqn:Ez.
    2:{ exfalso. unfold find_child in Ez. apply fmap_None, list_find_None in Ez.
        rewrite Forall_lookup in Ez. by apply (Ez z t). }
    set (s1 := upd p _ s).
    destruct (current_live idle s c p Ha Hc) as (tp & Ep & Hu).
    assert (Ha1 : sok idle s1).
    { apply (pause_ok idle s p _ THREAD_BLOCKED); [done|by exists tp|intros c'; by apply Hp|by right|done]. }
    assert (Ep1 : g_threads s1 !! p = Some (t_set_state THREAD_BLOCKED (t_set_wait_status_ptr ptr (t_set_wait_target pid tp)))).
    { subst s1. cbn. by rewrite list_lookup_alter_eq, Ep. }
    destruct (tick_ok idle s1 c b p now frame Ha1 Hb Hc) as (n & f & s' & E & Hpick & Hcur & Hm & _ & Hsw).
    assert (Ew : g_threads (wake_sleepers now s1) !! p = Some (t_set_state THREAD_BLOCKED (t_set_wait_status_ptr ptr (t_set_wait_target pid tp)))).
    { cbn [wake_sleepers s_set_g_threads g_threads]. by rewrite list_lookup_fmap, Ep1. }
    assert (Hnp : n <> p).
    { intros ->. destruct Hpick as [(t' & Et' & [Hst _] & _)|(_ & _ & ->)]; [|by apply (Hp c b)].
      rewrite Ew in Et'. injection Et' as <-. done. }
    destruct (Hsw Hnp) as (pt & nt & Ept & Ent & _ & Ht & _). rewrite Ew in Ept. injection Ept as <-.
    exists f, s', (t_set_rsp frame (t_set_state THREAD_BLOCKED (t_set_wait_status_ptr ptr (t_set_wait_target pid tp)))).
    split_and!; try done.
    + rewrite Ht, list_lookup_alter_ne, list_lookup_alter_eq, Ew by done. done.
    + rewrite Hcur, list_lookup_insert_eq; [congruence|]. by eapply lookup_lt_Some.
Qed.

(** *** What reaping does to memory and pages *)

Lemma user_st32_pages va v s : m_pages (v_mach (s_vmm (user_st32 va v s))) = m_pages (v_mach (s_vmm s)).
Proof.
  unfold user_st32. apply (for_range_ind (fun _ s' => m_pages (v_mach (s_vmm s')) = m_pages (v_mach (s_vmm s)))); [done|done|].
  intros k s' _ IH. by repeat case_match.
Qed.
Lemma user_st32_spaces va v s :
  g_user_spaces (s_vmm (user_st32 va v s)) = g_user_spaces (s_vmm s) /\ kspace_cr3 (user_st32 va v s) = kspace_cr3 s.
Proof.
  unfold user_st32. apply (for_range_ind (fun _ s' => g_user_spaces (s_vmm s') = g_user_spaces (s_vmm s) /\ kspace_cr3 s' = kspace_cr3 s)); [done|done|].
  intros k s' _ IH. by repeat case_match.
Qed.

Lemma close_files_vmm z s : s_vmm (close_files z s) = s_vmm s.
Proof.
  unfold close_files. cbv zeta. cbn [s_vmm upd s_set_g_threads].
  apply (for_range_ind (fun _ s' => s_vmm s' = s_vmm s)); [done|done|]. intros k s' _ IH. by repeat case_match.
Qed.

(** The child's status is stored where the caller asked. *)
Definition status_put ptr t s : sched A := if ptr =? 0 then s else user_st32 ptr (t_exit_code t) s.

(** Somebody else uses the address space of [t] too, so that it is not torn
    down with [t]. *)
Definition space_survives s t : Prop :=
  t_is_user t = true -> forall slot sp, find_space_slot (g_user_spaces (s_vmm s)) (t_cr3 t) = Some slot ->
    g_user_spaces (s_vmm s) !! slot = Some sp -> 2 <= sp_refs sp < 4294967296.

Lemma release_mem (v : vmm A) cr3 :
  (forall slot sp, find_space_slot (g_user_spaces v) cr3 = Some slot -> g_user_spaces v !! slot = Some sp -> 2 <= sp_refs sp < 4294967296) ->
  v_mach (vmm_release_user_space v cr3) = v_mach v.
Proof.
  intros Hs. unfold vmm_release_user_space. case_b; [done|]. destruct (find_space_slot _ _) as [slot|] eqn:Ef; [|done].
  destruct (g_user_spaces v !! slot) as [sp|] eqn:Es; [|done]. specialize (Hs slot sp eq_refl Es). case_b; [done|].
  rewrite u32_small by (unfold is_u32; lia). by rewrite (proj2 (Z.eqb_neq _ _)) by lia.
Qed.

Lemma reap_vmm z frame ptr s t : g_threads s !! z = Some t ->
  let s1 := status_put ptr t s in
  let v1 := if t_kstack t =? 0 then s_vmm s1
            else set_mach (s_vmm s1) (pmm_free (v_mach (s_vmm s1)) (t_kstack t) (t_kstack_size t / PAGE_SIZE)) in
  exists v2, (v2 = v1 \/ (t_is_user t = true /\ v2 = vmm_release_user_space v1 (t_cr3 t))) /\
    s_vmm (reap z frame ptr s) = set_mach v2 (set_mem (v_mach v2) (st64 (m_mem (v_mach v2)) (frame_rax frame) (u64 (t_id t)))).
Proof.
  intros Et s1 v1. unfold reap. rewrite Et. cbv zeta.
  assert (E1 : (if negb (ptr =? 0) then user_st32 ptr (t_exit_code t) s else s) = s1) by (subst s1; unfold status_put; by destruct (ptr =? 0)).
  rewrite E1.
  assert (Et1 : g_threads s1 !! z = Some t) by (subst s1; unfold status_put; case_b; [done|by rewrite user_st32_threads]).
  clearbody s1. clear E1. set (sr := thread_release_resources z s1).
  assert (Hr : s_vmm sr = v1 \/ (t_is_user t = true /\ s_vmm sr = vmm_release_user_space v1 (t_cr3 t))).
  { subst sr v1. unfold thread_release_resources. rewrite Et1. cbv zeta. destruct (t_kstack t =? 0); cbn [negb]; case_b; cbn; auto;
      apply andb_true_iff in E as [[Hu _]%andb_true_iff _]; auto. }
  exists (s_vmm sr). split; [done|]. unfold set_rax, s_set_mem. cbn [s_vmm s_set_s_vmm].
  assert (Hc : s_vmm (upd z (t_set_state THREAD_UNUSED) (close_files z sr)) = s_vmm sr) by (cbn; apply close_files_vmm).
  unfold s_mem. by rewrite Hc.
Qed.

Lemma reap_mem z frame ptr s t : g_threads s !! z = Some t -> space_survives s t ->
  s_mem (reap z frame ptr s) = st64 (s_mem (status_put ptr t s)) (frame_rax frame) (u64 (t_id t)).
Proof.
  intros Et Hsv. destruct (reap_vmm z frame ptr s t Et) as (v2 & Hv2 & Hr). unfold s_mem at 1. rewrite Hr. cbn [v_mach set_mach m_mem set_mem].
  f_equal. set (s1 := status_put ptr t s) in *.
  assert (Hsp : g_user_spaces (s_vmm s1) = g_user_spaces (s_vmm s)).
  { subst s1. unfold status_put. case_b; [done|]. apply user_st32_spaces. }
  set (v1 := if t_kstack t =? 0 then _ else _) in Hv2.
  assert (H1 : m_mem (v_mach v1) = m_mem (v_mach (s_vmm s1)) /\ g_user_spaces v1 = g_user_spaces (s_vmm s)) by (subst v1; by case_b).
  destruct H1 as [Hm Hs1]. unfold s_mem. destruct Hv2 as [-> |[Hu ->]]; [done|]. rewrite release_mem; [done|].
  rewrite Hs1. by apply Hsv.
Qed.

(** ** Fork *)

(** The open files of [cf] are copies of those of [pf]. *)
Definition files_copied (f f' : fs) (pf cf : list Z) (n : Z) : Prop :=
  forall k, 0 <= k < n ->
    let a := nth (Z.to_nat k) pf 0 in let b := nth (Z.to_nat k) cf 0 in
    (a = 0 -> b = 0) /\ (a <> 0 -> fs_next f <= b /\ fs_files f' !! b = fs_files f !! a).

(** Every file the thread has open is an object of the store. *)
Definition files_live (f : fs) (pf : list Z) : Prop :=
  0 < fs_next f /\ (forall q x, fs_files f !! q = Some x -> q < fs_next f) /\
  forall k, 0 <= k < THREAD_MAX_OPEN_FILES -> nth (Z.to_nat k) pf 0 <> 0 ->
    is_Some (fs_files f !! nth (Z.to_nat k) pf 0).

(** The loop invariant of the copy: slot [k] of the table is next. *)
Record dup_inv i s (pf : list Z) (ti : thread) (k : Z) s1 : Prop := {
  di_vmm : s_vmm s1 = s_vmm s;
  di_only : only_slot i s s1;
  di_cur : g_current s1 = g_current s;
  di_child : exists cf n, g_threads s1 !! i = Some (t_set_open_file_count n (t_set_open_files cf ti)) /\
    length cf = 8%nat /\ (forall j, k <= j < 8 -> nth (Z.to_nat j) cf 0 = 0) /\
    files_copied (s_fs s) (s_fs s1) pf cf k;
  di_keep q x : fs_files (s_fs s) !! q = Some x -> fs_files (s_fs s1) !! q = Some x;
  di_next : fs_next (s_fs s) <= fs_next (s_fs s1);
  di_fresh q x : fs_files (s_fs s1) !! q = Some x -> q < fs_next (s_fs s1)
}.

(** The state after slot [k] has been given the copy [fl] of a file. *)
Definition dup_store i k (fl : vfs_file) s : sched A :=
  let d := fs_next (s_fs s) in
  let f := mk_fs (fs_nodes (s_fs s)) (fs_bodies (s_fs s)) (<[d := fl]> (fs_files (s_fs s))) (d + 1)
             (g_root (s_fs s)) (g_cwd (s_fs s)) in
  upd i (fun t => t_set_open_file_count (t_open_file_count t + 1)
    (t_set_open_files (<[Z.to_nat k := d]> (t_open_files t)) t)) (s_set_s_fs f s).

Lemma dup_inv_skip i s pf ti k s1 :
  0 <= k < 8 -> nth (Z.to_nat k) pf 0 = 0 -> dup_inv i s pf ti k s1 -> dup_inv i s pf ti (k + 1) s1.
Proof.
  intros Hk Ha [Hv Ho Hc (cf & n & E1 & Hl & Hzs & Hcp) Hm Hnx Hfr]. constructor; try done.
  exists cf, n. split_and!; try done; [intros j Hj; apply Hzs; lia|].
  intros j Hj. cbv zeta. destruct (decide (j = k)) as [->|]; [|apply Hcp; lia].
  split; [intros _; apply Hzs; lia|done].
Qed.

Lemma dup_inv_store i s pf ti k s1 fl :
  0 <= k < 8 -> files_live (s_fs s) pf -> nth (Z.to_nat k) pf 0 <> 0 ->
  fs_files (s_fs s) !! nth (Z.to_nat k) pf 0 = Some fl ->
  dup_inv i s pf ti k s1 -> dup_inv i s pf ti (k + 1) (dup_store i k fl s1).
Proof.
  intros Hk (_ & _ & Hlive) Ha Efl [Hv Ho Hc (cf & n & E1 & Hl & Hzs & Hcp) Hm Hnx Hfr].
  set (d := fs_next (s_fs s1)) in *.
  assert (Hd : fs_files (s_fs s1) !! d = None).
  { destruct (fs_files (s_fs s1) !! d) eqn:Ed; [|done]. apply Hfr in Ed. lia. }
  constructor; try done; cbn [s_fs dup_store upd s_set_g_threads s_set_s_fs fs_files fs_next]; fold d.
  - intros j Hj. cbn. rewrite list_lookup_alter_ne by done. by apply Ho.
  - exists (<[Z.to_nat k := d]> cf), (n + 1). split_and!.
    + cbn. rewrite list_lookup_alter_eq, E1. done.
    + by rewrite length_insert.
    + intros j Hj. rewrite nth_lookup, list_lookup_insert_ne, <-nth_lookup by lia. apply Hzs. lia.
    + intros j Hj. cbv zeta. cbn. destruct (decide (j = k)) as [->|].
      * split; [done|]. intros _. rewrite nth_lookup, list_lookup_insert_eq by lia. cbn.
        split; [done|]. by rewrite lookup_insert_eq.
      * rewrite (nth_lookup (<[_:=_]> _)), list_lookup_insert_ne, <-nth_lookup by lia.
        destruct (Hcp j) as [Hj1 Hj2]; [lia|]. split; [done|]. intros Hja.
        destruct (Hj2 Hja) as [? Hq]. split; [done|].
        destruct (Hlive j) as [fj Efj]; [unfold THREAD_MAX_OPEN_FILES; lia|done|].
        rewrite lookup_insert_ne; [done|]. intros Hdq. rewrite <-Hdq, Hd, Efj in Hq. done.
  - intros q x Eq. rewrite lookup_insert_ne; [by apply Hm|]. intros <-. apply Hm in Eq. congruence.
  - lia.
  - intros q x [[<- _]|[_ Eq]]%lookup_insert_Some; [lia|]. apply Hfr in Eq. lia.
Qed.

Lemma dup_files_ok p i s pt ti :
  (forall x, oom x = false) -> i <> p ->
  g_threads s !! p = Some pt -> g_threads s !! i = Some ti ->
  t_open_files ti = replicate 8 0 -> files_live (s_fs s) (t_open_files pt) ->
  exists s' cf n, dup_files oom p i s = inl s' /\ s_vmm s' = s_vmm s /\ only_slot i s s' /\
    g_current s' = g_current s /\
    g_threads s' !! i = Some (t_set_open_file_count n (t_set_open_files cf ti)) /\
    files_copied (s_fs s) (s_fs s') (t_open_files pt) cf THREAD_MAX_OPEN_FILES.
Proof.
  intros Hoom Hip Ep Ei Hz Hlive. pose proof Hlive as (Hn0 & Hfr & Hl). unfold dup_files, for_range_exit.
  set (body := fun k s => _).
  assert (H0 : dup_inv i s (t_open_files pt) ti 0 s).
  { constructor; try done. exists (replicate 8 0), (t_open_file_count ti).
    split_and!; try done; [rewrite Ei; f_equal; by destruct ti; cbn in Hz; subst| |intros k Hk; lia].
    intros j Hj. rewrite nth_lookup. destruct (replicate 8 0 !! Z.to_nat j) as [x|] eqn:E; [|done].
    by apply lookup_replicate in E as [-> _]. }
  assert (Hall : forall m k s1, 0 <= k -> k + Z.of_nat m = 8 -> dup_inv i s (t_open_files pt) ti k s1 ->
    exists s2, for_exit m k body s1 = inl s2 /\ dup_inv i s (t_open_files pt) ti 8 s2).
  { induction m as [|m IH]; intros k s1 Hk Hm HP; cbn [for_exit].
    { exists s1. by replace 8 with k by lia. }
    assert (Hb : exists s2, body k s1 = inl s2 /\ dup_inv i s (t_open_files pt) ti (k + 1) s2).
    { subst body. cbn beta. rewrite (di_only _ _ _ _ _ _ HP p) by done. rewrite Ep. case_b.
      { apply Z.eqb_eq in E. exists s1. split; [done|]. apply dup_inv_skip; [lia|done|done]. }
      apply Z.eqb_neq in E. destruct (Hl k) as [fl Efl]; [unfold THREAD_MAX_OPEN_FILES; lia|done|].
      unfold obj_alloc. rewrite Hoom. pose proof (di_next _ _ _ _ _ _ HP). rewrite (proj2 (Z.eqb_neq _ _)) by lia.
      cbn [fs_files set_files]. rewrite (di_keep _ _ _ _ _ _ HP _ _ Efl).
      exists (dup_store i k fl s1). split; [done|]. apply dup_inv_store; [lia|done..]. }
    destruct Hb as (s2 & -> & HP2). apply (IH (k + 1)); [lia|lia|done]. }
  destruct (Hall 8%nat 0 s) as (s2 & E & [Hv Ho Hc (cf & n & E1 & _ & _ & Hcp) _ _ _]); [lia|lia|done|].
  by exists s2, cf, n.
Qed.

Lemma retain_mach (v : vmm A) cr3 : v_mach (vmm_retain_user_space v cr3) = v_mach v.
Proof. unfold vmm_retain_user_space. by repeat case_match. Qed.

(** The state of the fork before the open files are copied. *)
Definition fork_prepare p pt i s : sched A :=
  let s := upd i (fun t => t_set_cr3 (t_cr3 pt) (t_set_is_user true t)) s in
  let s := s_set_s_vmm (vmm_retain_user_space (s_vmm s) (t_cr3 pt)) s in
  let s := upd i (fun t => t_set_parent (Some p) (t_set_cpu_id (t_cpu_id pt) (t_set_priority (t_priority pt) t))) s in
  let s := upd p (fun t => t_set_children (u32 (t_children t + 1)) t) s in
  upd i (fun t => t_set_mmap_base (t_mmap_base pt) (t_set_brk_end (t_brk_end pt) (t_set_brk_start (t_brk_start pt)
    (t_set_ustack_top (t_ustack_top pt) (t_set_ustack_size (t_ustack_size pt) (t_set_ustack (t_ustack pt) t)))))) s.

(** What the child takes over from its parent. *)
Definition inherits p pt t : Prop :=
  t_is_user t = true /\ t_cr3 t = t_cr3 pt /\ t_parent t = Some p /\ t_cpu_id t = t_cpu_id pt /\
  t_priority t = t_priority pt /\ t_ustack_top t = t_ustack_top pt /\ t_brk_start t = t_brk_start pt /\
  t_brk_end t = t_brk_end pt /\ t_mmap_base t = t_mmap_base pt.

Lemma fork_prepare_ok p pt i s s1 :
  g_threads s !! p = Some pt -> t_state pt <> THREAD_UNUSED -> thread_alloc_slot s = (Some i, s1) ->
  i <> p /\ exists t2, g_threads (fork_prepare p pt i s1) !! i = Some t2 /\ inherits p pt t2 /\
    t_id t2 = g_next_id s /\ t_open_files t2 = replicate 8 0 /\
    g_threads (fork_prepare p pt i s1) !! p = Some (t_set_children (u32 (t_children pt + 1)) pt) /\
    (forall j, j <> i -> j <> p -> g_threads (fork_prepare p pt i s1) !! j = g_threads s !! j) /\
    v_mach (s_vmm (fork_prepare p pt i s1)) = v_mach (s_vmm s) /\ s_fs (fork_prepare p pt i s1) = s_fs s.
Proof.
  intros Ep Hu. unfold thread_alloc_slot.
  destruct (list_find _ (g_threads s)) as [[i' t0]|] eqn:Ef; [|done]. intros [= <- <-].
  apply list_find_Some in Ef as (E0 & Hst & _).
  assert (Hip : i' <> p) by (intros ->; congruence). split; [done|].
  eexists. split_and!.
  - cbn. rewrite list_lookup_alter_eq, list_lookup_alter_ne, !list_lookup_alter_eq by done.
    rewrite list_lookup_insert_eq by (by eapply lookup_lt_Some). reflexivity.
  - by split_and!.
  - done.
  - done.
  - cbn. rewrite list_lookup_alter_ne, list_lookup_alter_eq, !list_lookup_alter_ne, list_lookup_insert_ne, Ep by done. done.
  - intros j Hj Hj'. cbn. rewrite !list_lookup_alter_ne, list_lookup_insert_ne by done. done.
  - cbn. apply retain_mach.
  - done.
Qed.

(** The rest of the fork once the files are copied. *)
Definition fork_finish (c : nat) (now frame ks ksize : Z) (pg : A) i s : sched A :=
  let s := upd i (t_set_kstack_size ksize) s in
  let s := s_set_s_vmm (set_mach (s_vmm s) (set_pages (v_mach (s_vmm s)) pg)) s in
  let s := upd i (t_set_kstack ks) s in
  let s := thread_kstack_canary_init thread_addr c now i s in
  let child_frame := ks + ksize - FRAME_SIZE in
  let s := s_set_mem (mem_copy (s_mem s) child_frame frame FRAME_SIZE) s in
  let s := set_rax child_frame 0 s in
  upd i (fun t => t_set_state THREAD_READY (t_set_rsp child_frame t)) s.

Lemma fork_finish_ok c now frame ks ksize pg i s t :
  g_threads s !! i = Some t -> ks <> 0 -> FRAME_SIZE + 8 <= ksize ->
  only_slot i s (fork_finish c now frame ks ksize pg i s) /\
  (exists t', g_threads (fork_finish c now frame ks ksize pg i s) !! i = Some t' /\
     (forall p pt, inherits p pt t -> inherits p pt t') /\ t_id t' = t_id t /\ t_open_files t' = t_open_files t /\
     t_state t' = THREAD_READY /\ t_rsp t' = ks + ksize - FRAME_SIZE /\ t_kstack t' = ks) /\
  m_pages (v_mach (s_vmm (fork_finish c now frame ks ksize pg i s))) = pg /\
  s_fs (fork_finish c now frame ks ksize pg i s) = s_fs s /\
  exists canary, s_mem (fork_finish c now frame ks ksize pg i s) =
    st64 (mem_copy (st64 (s_mem s) ks canary) (ks + ksize - FRAME_SIZE) frame FRAME_SIZE)
      (frame_rax (ks + ksize - FRAME_SIZE)) (u64 0).
Proof.
  intros Et Hks Hsz. unfold fork_finish. cbv zeta.
  set (s1 := upd i (t_set_kstack ks) _).
  assert (E1 : g_threads s1 !! i = Some (t_set_kstack ks (t_set_kstack_size ksize t))).
  { subst s1. cbn. by rewrite !list_lookup_alter_eq, Et. }
  assert (Ho : only_slot i s s1) by (intros j Hj; cbn; by rewrite !list_lookup_alter_ne).
  assert (Hf : s_fs s1 = s_fs s) by done. assert (Hp : m_pages (v_mach (s_vmm s1)) = pg) by done.
  assert (Hm : s_mem s1 = s_mem s) by done. clearbody s1.
  unfold thread_kstack_canary_init. rewrite E1. cbn [t_kstack t_kstack_size t_set_kstack t_set_kstack_size].
  rewrite (proj2 (Z.eqb_neq ks 0)) by done. rewrite (proj2 (Z.ltb_ge ksize 8)) by (unfold FRAME_SIZE in Hsz; lia).
  cbn [orb]. set (canary := make_kstack_canary _ _ _ _ _).
  split; [|split; [|split; [|split]]].
  - intros j Hj. cbn. rewrite !list_lookup_alter_ne by done. by apply Ho.
  - eexists. split; [cbn; rewrite !list_lookup_alter_eq, E1; reflexivity|]. by split_and!.
  - done.
  - done.
  - exists canary. by rewrite <-Hm.
Qed.

Lemma fork_unfold c now frame p pt i s s1 s3 ks pg :
  thread_current c s = Some p -> g_threads s !! p = Some pt -> t_is_user pt = true ->
  thread_alloc_slot s = (Some i, s1) -> dup_files oom p i (fork_prepare p pt i s1) = inl s3 ->
  pa_alloc (m_pages (v_mach (s_vmm s3))) (t_kstack_size pt / PAGE_SIZE) = (ks, pg) -> ks <> 0 ->
  scheduler_fork thread_addr oom c now frame s =
  let s4 := fork_finish c now frame ks (t_kstack_size pt) pg i s3 in
  match g_threads s4 !! i with Some t => set_rax frame (t_id t) s4 | None => s4 end.
Proof.
  intros Hc Ep Hu Ea Ed Epa Hks. unfold scheduler_fork. rewrite Hc, Ep, Hu, Ea. cbn [negb].
  change (upd i _ (upd p _ _)) with (fork_prepare p pt i s1). rewrite Ed.
  cbn [s_vmm upd s_set_g_threads s_set_s_vmm]. rewrite Epa.
  rewrite (proj2 (Z.eqb_neq ks 0)) by done. done.
Qed.

(** Two frames agree except in rax. *)
Definition frame_but_rax (m : mem) (a : Z) (m' : mem) (a' : Z) : Prop :=
  forall k, 0 <= k < FRAME_SIZE -> k < 112 \/ 120 <= k -> ld8 m' (a' + k) = ld8 m (a + k).

Lemma fork_frames m ks ksize frame canary id :
  is_u64 id -> FRAME_SIZE + 8 <= ksize -> frame + FRAME_SIZE <= ks \/ ks + ksize <= frame ->
  let cf := ks + ksize - FRAME_SIZE in
  let m' := st64 (st64 (mem_copy (st64 m ks canary) cf frame FRAME_SIZE) (frame_rax cf) (u64 0)) (frame_rax frame) (u64 id) in
  frame_but_rax m frame m' cf /\ frame_but_rax m frame m' frame /\
  ld64 m' (frame_rax cf) = 0 /\ ld64 m' (frame_rax frame) = id.
Proof.
  intros Hid Hsz Hd cf m'. unfold frame_rax, FRAME_SIZE in *. split_and!.
  - intros k Hk Hr. subst m' cf. unfold FRAME_SIZE in *.
    rewrite !ld8_stn, ld8_copy, !ld8_stn. in_range_cases; try lia. f_equal. lia.
  - intros k Hk Hr. subst m' cf. unfold FRAME_SIZE in *.
    rewrite !ld8_stn, ld8_copy, !ld8_stn. in_range_cases; lia.
  - subst m' cf. rewrite ldn_stn_other by lia. by apply ld64_st64_same.
  - subst m'. rewrite ld64_st64_same by apply u64_range. by apply u64_small.
Qed.

(** C31: fork in a user thread with a free slot, room for the copies of the
    open files and for a kernel stack: the child is a ready thread with a new
    id that shares the address space, heap and processor of the parent, owns
    a copy of each open file, and resumes from a copy of the parent's frame in
    which rax is 0; in the parent's own frame rax is the child's id and
    nothing else has changed, and no third thread has. *)
Theorem scheduler_fork_correct idle s c now frame p pt i s1 ks pg :
  reach thread_addr trampoline_addr oom idle s -> is_Some (idle !! c) -> g_current s !! c = Some (Some p) ->
  g_threads s !! p = Some pt -> t_is_user pt = true -> is_u64 (g_next_id s) ->
  thread_alloc_slot s = (Some i, s1) -> (forall x, oom x = false) -> files_live (s_fs s) (t_open_files pt) ->
  pa_alloc (m_pages (v_mach (s_vmm s))) (t_kstack_size pt / PAGE_SIZE) = (ks, pg) -> ks <> 0 ->
  FRAME_SIZE + 8 <= t_kstack_size pt -> frame + FRAME_SIZE <= ks \/ ks + t_kstack_size pt <= frame ->
  let s' := scheduler_fork thread_addr oom c now frame s in
  exists t', g_threads s' !! i = Some t' /\ inherits p pt t' /\ t_state t' = THREAD_READY /\ t_id t' = g_next_id s /\
    t_kstack t' = ks /\ m_pages (v_mach (s_vmm s')) = pg /\
    files_copied (s_fs s) (s_fs s') (t_open_files pt) (t_open_files t') THREAD_MAX_OPEN_FILES /\
    frame_but_rax (s_mem s) frame (s_mem s') (t_rsp t') /\ frame_but_rax (s_mem s) frame (s_mem s') frame /\
    ld64 (s_mem s') (frame_rax (t_rsp t')) = 0 /\ ld64 (s_mem s') (frame_rax frame) = t_id t' /\
    g_threads s' !! p = Some (t_set_children (u32 (t_children pt + 1)) pt) /\
    (forall j, j <> i -> j <> p -> g_threads s' !! j = g_threads s !! j).
Proof.
  intros Hr [b Hb] Hc Ep Hu Hid Ea Hoom Hlive Epa Hks Hsz Hdisj s'.
  pose proof (reach_ok _ _ _ _ _ Hr) as Ha.
  assert (Hst : t_state pt <> THREAD_UNUSED).
  { destruct (current_live idle s c p Ha Hc) as (t & Et & ?). congruence. }
  destruct (fork_prepare_ok p pt i s s1 Ep Hst Ea) as (Hip & t2 & E2 & Hin & Hid2 & Hof & Ep2 & Hrest & Hmach & Hfs).
  destruct (dup_files_ok p i (fork_prepare p pt i s1) _ t2 Hoom Hip Ep2 E2 Hof) as (s3 & cf & n & Ed & Hv & Ho3 & _ & E3 & Hcp).
  { by rewrite Hfs. }
  rewrite Hfs in Hcp. cbn [t_open_files t_set_children] in Hcp.
  assert (Hm3 : v_mach (s_vmm s3) = v_mach (s_vmm s)) by (by rewrite Hv).
  assert (Epa3 : pa_alloc (m_pages (v_mach (s_vmm s3))) (t_kstack_size pt / PAGE_SIZE) = (ks, pg)) by (by rewrite Hm3).
  assert (Hcur : thread_current c s = Some p).
  { rewrite thread_current_eq by (by eapply idle_cpu_lt). by rewrite Hc. }
  pose proof (fork_unfold c now frame p pt i s s1 s3 ks pg Hcur Ep Hu Ea Ed Epa3 Hks) as E'. cbv zeta in E'.
  destruct (fork_finish_ok c now frame ks (t_kstack_size pt) pg i s3 _ E3 Hks Hsz)
    as (Ho4 & (t' & E4 & Hinh & Hid4 & Hof4 & Hst4 & Hrsp4 & Hks4) & Hpg & Hfs4 & canary & Hm4).
  rewrite E4 in E'. subst s'. rewrite E'. clear E'.
  set (s4 := fork_finish c now frame ks (t_kstack_size pt) pg i s3) in *. clearbody s4.
  assert (Em : s_mem (set_rax frame (t_id t') s4) = st64 (s_mem s4) (frame_rax frame) (u64 (t_id t'))) by done.
  assert (Hm3' : s_mem s3 = s_mem s) by (unfold s_mem; by rewrite Hm3).
  rewrite Hm4, Hm3' in Em.
  assert (Hid' : is_u64 (t_id t')) by (rewrite Hid4; cbn; by rewrite Hid2).
  destruct (fork_frames (s_mem s) ks (t_kstack_size pt) frame canary (t_id t') Hid' Hsz Hdisj) as (F1 & F2 & F3 & F4).
  exists t'. rewrite set_rax_threads, Em, Hrsp4. split_and!; try done.
  - apply Hinh. by destruct Hin as (? & ? & ? & ? & ? & ? & ? & ? & ?).
  - rewrite Hid4. exact Hid2.
  - rewrite Hof4. cbn [s_fs set_rax s_set_mem s_set_s_vmm]. by rewrite Hfs4.
  - rewrite Ho4, Ho3 by done. exact Ep2.
  - intros j Hj Hj'. rewrite Ho4, Ho3 by done. by apply Hrest.
Qed.
End proc.

(** *** A page once free stays free *)

Lemma pmm_free_keeps p addr n i : 0 <= addr -> 0 <= i -> page_free p i = true -> page_free (pmm_free_pages p addr n) i = true.
Proof.
  intros Ha Hi Hf. unfold pmm_free_pages. case_b; [done|]. case_b; [done|].
  destruct (decide (0 <= n)) as [Hn|Hn].
  - apply (brk_ind (fun _ q => page_free q i = true)); [done|done| |done]. intros j q Hj Hq. case_b; [done|]. case_b; [done|].
    change (page_free (bit_clear q (addr / PAGE_SIZE + j)) i = true). unfold page_free in *.
    rewrite used_bit_clear by (try done; unfold PAGE_SIZE; Z.div_mod_to_equations; lia).
    apply negb_true_iff in Hq. by rewrite Hq, andb_false_r.
  - unfold for_range_exit. by replace (Z.to_nat (n - 0)) with O by lia.
Qed.

Definition free_in (i : Z) (m : mach pmm) : Prop := page_free (m_pages m) i = true.

Section keeps.
Context (i : Z) (Hi : 0 <= i).

Lemma free_in_free m addr n : 0 <= addr -> free_in i m -> free_in i (pmm_free m addr n).
Proof. intros Ha Hf. by apply pmm_free_keeps. Qed.
Lemma free_in_entry m t k v : free_in i m -> free_in i (set_entry m t k v).
Proof. done. Qed.

Lemma mask_nonneg x : 0 <= Z.land x VMM_ADDR_MASK.
Proof. apply Z.land_nonneg. by right. Qed.

Lemma free_in_table lo (body : Z -> mach pmm -> mach pmm) m : lo <= ENTRIES_PER_TABLE ->
  (forall k m, free_in i m -> free_in i (body k m)) -> free_in i m -> free_in i (for_range lo ENTRIES_PER_TABLE body m).
Proof. intros Hlo Hb Hf. apply (for_range_ind (fun _ m => free_in i m)); [done|done|]. intros k m' _. apply Hb. Qed.

Lemma free_in_pt m pt : 0 <= pt -> free_in i m -> free_in i (vmm_free_pt m pt).
Proof.
  intros Hp Hf. apply free_in_free; [done|]. apply free_in_table; [done| |done]. intros k m' Hm. cbv beta zeta. case_b; [done|].
  apply free_in_entry. case_b; [done|]. apply free_in_free; [apply mask_nonneg|done].
Qed.
Lemma free_in_pd m pd : 0 <= pd -> free_in i m -> free_in i (vmm_free_pd m pd).
Proof.
  intros Hp Hf. apply free_in_free; [done|]. apply free_in_table; [done| |done]. intros k m' Hm. cbv beta zeta. case_b; [done|].
  apply free_in_entry. case_b; [case_b; [done|apply free_in_free; [apply mask_nonneg|done]]|apply free_in_pt; [apply mask_nonneg|done]].
Qed.
Lemma free_in_pdpt m pd : 0 <= pd -> free_in i m -> free_in i (vmm_free_pdpt m pd).
Proof.
  intros Hp Hf. apply free_in_free; [done|]. apply free_in_table; [done| |done]. intros k m' Hm. cbv beta zeta. case_b; [done|].
  apply free_in_entry. case_b; [case_b; [done|apply free_in_free; [apply mask_nonneg|done]]|apply free_in_pd; [apply mask_nonneg|done]].
Qed.
Lemma free_in_release (v : vmm pmm) cr3 : free_in i (v_mach v) -> free_in i (v_mach (vmm_release_user_space v cr3)).
Proof.
  intros Hf. unfold vmm_release_user_space. case_b; [done|]. destruct (find_space_slot _ _) as [slot|]; [|done].
  destruct (g_user_spaces v !! slot) as [sp|]; [|done]. case_b; [done|]. case_b; [|done]. cbn [v_mach set_mach set_spaces].
  unfold vmm_destroy_user_space. case_b; [done|]. apply free_in_free; [apply mask_nonneg|].
  apply free_in_table; [done| |done]. intros k m' Hm. cbv beta zeta. case_b; [done|]. apply free_in_entry, free_in_pdpt; [apply mask_nonneg|done].
Qed.
End keeps.

Lemma reap_stack_free z frame ptr (s : sched pmm) t :
  g_threads s !! z = Some t -> pmm_inv (m_pages (v_mach (s_vmm s))) -> 0 < t_kstack t -> 0 <= t_kstack_size t ->
  forall i, t_kstack t / 4096 <= i < t_kstack t / 4096 + t_kstack_size t / 4096 ->
    i < pmm_total_pages_cnt (m_pages (v_mach (s_vmm s))) ->
    page_free (m_pages (v_mach (s_vmm (reap z frame ptr s)))) i = true.
Proof.
  intros Et Hinv Hk Hsz i Hi Ht. destruct (reap_vmm z frame ptr s t Et) as (v2 & Hv2 & Hr). rewrite Hr. cbn [v_mach set_mach m_pages set_mem].
  rewrite (proj2 (Z.eqb_neq (t_kstack t) 0)) in Hv2 by lia.
  assert (Hp : m_pages (v_mach (s_vmm (status_put ptr t s))) = m_pages (v_mach (s_vmm s)))
    by (unfold status_put; case_b; [done|apply user_st32_pages]).
  assert (Hi0 : 0 <= i) by (Z.div_mod_to_equations; lia).
  set (v1 := set_mach _ _) in Hv2. assert (H1 : free_in i (v_mach v1)).
  { subst v1. unfold free_in, page_free. cbn [v_mach set_mach pmm_free m_pages set_pages]. rewrite Hp.
    destruct (free_pages_spec (m_pages (v_mach (s_vmm s))) (t_kstack t) (t_kstack_size t / PAGE_SIZE) Hinv Hk) as (_ & _ & _ & Hu);
      [unfold PAGE_SIZE; Z.div_mod_to_equations; lia|].
    change (negb (page_used (pmm_free_pages (m_pages (v_mach (s_vmm s))) (t_kstack t) (t_kstack_size t / PAGE_SIZE)) i) = true).
    rewrite Hu by done. rewrite (proj2 (in_range_true _ _ _)), (proj2 (Z.ltb_lt _ _)) by (unfold PAGE_SIZE; lia). done. }
  clearbody v1. destruct Hv2 as [-> |[_ ->]]; [done|]. by apply free_in_release.
Qed.

(** C33: waitpid takes the first matching zombie child off the table: its id
    is returned, its exit status is stored through the pointer (memory
    changes in nothing else but rax when the address space of the child is
    still in use), its slot is free with its files closed, every page of
    its kernel stack is free, and no other thread changes.  With no matching
    child it returns -1 and changes no thread.  With children but no zombie
    the caller is blocked, its registers saved unchanged, and another thread
    gets the processor.  The caller is no bootstrap thread, and states are
    those of [reach]. *)
Theorem scheduler_waitpid_correct thread_addr trampoline_addr oom idle (s : sched pmm) c p now frame pid ptr :
  reach thread_addr trampoline_addr oom idle s -> may_pause idle s c -> g_current s !! c = Some (Some p) ->
  (forall z t, g_threads s !! z = Some t -> is_child p pid true t ->
     (forall j u, (j < z)%nat -> g_threads s !! j = Some u -> ~ is_child p pid true u) ->
     exists s' t', scheduler_waitpid c now frame pid ptr s = Some (frame, s') /\
       ld64 (s_mem s') (frame_rax frame) = u64 (t_id t) /\ only_slot z s s' /\
       (space_survives s t -> s_mem s' = st64 (s_mem (status_put ptr t s)) (frame_rax frame) (u64 (t_id t))) /\
       (pmm_inv (m_pages (v_mach (s_vmm s))) -> 0 < t_kstack t -> 0 <= t_kstack_size t ->
        forall i, t_kstack t / 4096 <= i < t_kstack t / 4096 + t_kstack_size t / 4096 ->
          i < pmm_total_pages_cnt (m_pages (v_mach (s_vmm s))) -> page_free (m_pages (v_mach (s_vmm s'))) i = true) /\
       g_threads s' !! z = Some t' /\ t_state t' = THREAD_UNUSED /\ t_kstack t' = 0 /\
       forall k, 0 <= k < THREAD_MAX_OPEN_FILES -> nth (Z.to_nat k) (t_open_files t') 0 = 0) /\
  ((forall z t, g_threads s !! z = Some t -> ~ is_child p pid false t) ->
     exists s', scheduler_waitpid c now frame pid ptr s = Some (frame, s') /\
       ld64 (s_mem s') (frame_rax frame) = u64 (-1) /\ g_threads s' = g_threads s) /\
  ((forall z t, g_threads s !! z = Some t -> ~ is_child p pid true t) ->
   (exists z t, g_threads s !! z = Some t /\ is_child p pid false t) ->
     exists f s' t', scheduler_waitpid c now frame pid ptr s = Some (f, s') /\
       g_threads s' !! p = Some t' /\ t_state t' = THREAD_BLOCKED /\ t_wait_target t' = pid /\
       t_wait_status_ptr t' = ptr /\ t_rsp t' = frame /\
       g_current s' !! c <> Some (Some p) /\ s_mem s' = s_mem s).
Proof.
  intros Hr Hp Hc. destruct (waitpid_branches thread_addr trampoline_addr oom idle s c p now frame pid ptr Hr Hp Hc) as (H1 & H2 & H3).
  split; [|done]. intros z t Et Hz Hf. destruct (H1 z t Et Hz Hf) as (s' & t' & E & -> & Hrax & Ho & Ht' & Hrest).
  exists (reap z frame ptr s), t'. do 3 (split; [done|]). split; [intros Hsv; by apply reap_mem|].
  split; [intros; by eapply reap_stack_free|done].
Qed.

(** ** Concrete runs *)

(** The first of the two kernel threads runs and starts a third. *)
Definition after_tick (now frame : Z) (s : sched pmm) : sched pmm :=
  match scheduler_on_tick O now frame s with Some r => snd r | None => s end.

Lemma after_tick_reach s now frame :
  lab_reach {[ O := O ]} s -> lab_reach {[ O := O ]} (after_tick now frame s).
Proof.
  intros Hr. destruct (yield_ok {[ O := O ]} s O O now frame) as (f & s' & E & _);
    [by apply (reach_ok lab_addr 32768 lab_oom)|reflexivity|].
  rewrite <-tick_is_yield in E. unfold after_tick. rewrite E.
  apply (reach_tick lab_addr 32768 lab_oom {[ O := O ]} s O now frame (f, s') Hr); [by exists O|done].
Qed.

Definition lab_t : sched pmm := after_tick 5 1000 lab2.
Definition lab3 : sched pmm := snd (thread_create_kernel lab_addr 32768 O 0 1 [99] 40008 9 lab_t).

Lemma lab_reach3 : lab_reach {[ O := O ]} lab3.
Proof.
  unfold lab3. apply reach_kernel; [apply after_tick_reach, lab_reach2|]. unfold ids_left.
  replace (g_next_id lab_t) with 3 by (vm_compute; reflexivity). lia.
Qed.

(** A user thread that runs and forks. *)
Definition lab_u : sched pmm :=
  after_tick 5 1000 (snd (thread_create_user lab_addr O 0 1 [117] 4194304 5242880 8192 lab_boot)).

Lemma lab_reach_u : lab_reach {[ O := O ]} lab_u.
Proof.
  unfold lab_u. apply after_tick_reach. apply reach_user; [apply lab_reach_boot|]. unfold ids_left.
  replace (g_next_id lab_boot) with 1 by (vm_compute; reflexivity). lia.
Qed.

(** The child that [lab_u] forks, killed by its parent. *)
Definition lab_z : sched pmm := snd (scheduler_kill O 2 9 (scheduler_fork lab_addr lab_oom O 6 2000 lab_u)).
Definition lab_ptr : Z := USER_STACK_TOP - 64.

Lemma lab_reach_z : lab_reach {[ O := O ]} lab_z.
Proof.
  unfold lab_z. apply reach_kill; [|by exists O|].
  - apply reach_fork; [exact lab_reach_u|]. unfold ids_left.
    replace (g_next_id lab_u) with 2 by (vm_compute; reflexivity). lia.
  - intros i c' Hi Hc.
    assert (E : find_thread_by_id 2 (scheduler_fork lab_addr lab_oom O 6 2000 lab_u) = Some 2%nat) by (vm_compute; reflexivity).
    rewrite E in Hi. injection Hi as <-.
    assert (Ec : g_current (scheduler_fork lab_addr lab_oom O 6 2000 lab_u) = Some 1%nat :: replicate 7 None)
      by (vm_compute; reflexivity).
    rewrite Ec in Hc. clear E Ec. do 8 (destruct c' as [|c']; [discriminate Hc|]). discriminate Hc.
Qed.

Lemma lab_z_pages : pmm_inv (m_pages (v_mach (s_vmm lab_z))).
Proof.
  assert (E1 : pmm_total_pages_cnt (m_pages (v_mach (s_vmm lab_z))) = 64) by (vm_compute; reflexivity).
  assert (E2 : pmm_free_pages_cnt (m_pages (v_mach (s_vmm lab_z))) = free_count (m_pages (v_mach (s_vmm lab_z))))
    by (vm_compute; reflexivity).
  split; [rewrite E1; unfold MAX_PAGES; lia|]. intros _. exact E2.
Qed.

(** The parent waits for the killed child: it gets the id 2, and at its
    pointer, which is on physical page 11, the status -9; the pages of the
    child's stack are free.  A thread whose child runs is blocked. *)
Lemma scheduler_waitpid_correct_witness :
  (exists s' t', scheduler_waitpid O 7 2000 2 lab_ptr lab_z = Some (2000, s') /\
     ld64 (s_mem s') (frame_rax 2000) = 2 /\ g_threads s' !! 2%nat = Some t' /\ t_state t' = THREAD_UNUSED /\
     i32 (ldn 4 (s_mem s') 49088) = -9 /\
     forall i, 15 <= i < 19 -> page_free (m_pages (v_mach (s_vmm s'))) i = true) /\
  exists f s' t', scheduler_waitpid O 6 2000 0 0 lab3 = Some (f, s') /\
    g_threads s' !! 1%nat = Some t' /\ t_state t' = THREAD_BLOCKED.
Proof.
  split.
  - assert (Hc : g_current lab_z !! O = Some (Some 1%nat)) by (vm_compute; reflexivity).
    assert (Hm : may_pause {[ O := O ]} lab_z O).
    { split; [by exists O|]. intros c' i. rewrite Hc. intros [= <-] [_ ?]%lookup_singleton_Some. done. }
    destruct (scheduler_waitpid_correct lab_addr 32768 lab_oom {[ O := O ]} lab_z O 1 7 2000 2 lab_ptr lab_reach_z Hm Hc) as (Hz & _).
    assert (Ef : (fun t => (t_state t, t_parent t, t_id t, t_exit_code t, t_kstack t, t_kstack_size t, t_cr3 t)) <$>
      g_threads lab_z !! 2%nat = Some (THREAD_ZOMBIE, Some 1%nat, 2, -9, 61440, 16384, 8192)) by (vm_compute; reflexivity).
    destruct (g_threads lab_z !! 2%nat) as [t|] eqn:Et; [|discriminate Ef].
    apply (inj Some) in Ef. injection Ef as Hsta Hpar Hid Hex Hks Hsz Hcr.
    assert (Hch : is_child 1 2 true t).
    { unfold is_child. rewrite Hsta, Hpar, Hid. split_and!; [discriminate|reflexivity|by intros _|by intros _]. }
    destruct (Hz 2%nat t Et Hch) as (s' & t' & E & Hrax & _ & Hmem & Hpg & Et' & Hst & _).
    { intros j u Hj Hu Hcu. destruct j as [|[|]]; [| |lia].
      - assert (Hs : t_state <$> g_threads lab_z !! O = Some THREAD_READY) by (vm_compute; reflexivity).
        rewrite Hu in Hs. apply (inj Some) in Hs. destruct Hcu as (_ & _ & _ & Hx). rewrite (Hx eq_refl) in Hs. discriminate Hs.
      - assert (Hs : t_state <$> g_threads lab_z !! 1%nat = Some THREAD_RUNNING) by (vm_compute; reflexivity).
        rewrite Hu in Hs. apply (inj Some) in Hs. destruct Hcu as (_ & _ & _ & Hx). rewrite (Hx eq_refl) in Hs. discriminate Hs. }
    exists s', t'. split; [exact E|]. split; [by rewrite Hrax, Hid|]. split; [exact Et'|]. split; [exact Hst|]. split.
    + rewrite Hmem, Hid.
      * unfold status_put. rewrite Hex. vm_compute. reflexivity.
      * intros _ slot sp Hf. rewrite Hcr in Hf. vm_compute in Hf. discriminate Hf.
    + rewrite Hks, Hsz in Hpg. change (61440 / 4096) with 15 in Hpg. change (16384 / 4096) with 4 in Hpg.
      intros i Hi. apply (Hpg lab_z_pages); [lia|lia|lia|].
      replace (pmm_total_pages_cnt _) with 64 by (vm_compute; reflexivity). lia.
  - assert (Hc : g_current lab3 !! O = Some (Some 1%nat)) by (vm_compute; reflexivity).
    assert (Hm : may_pause {[ O := O ]} lab3 O).
    { split; [by exists O|]. intros c' i. rewrite Hc. intros [= <-] [_ ?]%lookup_singleton_Some. done. }
    destruct (scheduler_waitpid_correct lab_addr 32768 lab_oom {[ O := O ]} lab3 O 1 6 2000 0 0 lab_reach3 Hm Hc) as (_ & _ & Hb).
    destruct Hb as (f & s' & t' & E & Et & Hst & _); [| |exact (ex_intro _ f (ex_intro _ s' (ex_intro _ t' (conj E (conj Et Hst)))))].
    + assert (Hz : forallb (fun t => negb (bool_decide (t_state t = THREAD_ZOMBIE))) (g_threads lab3) = true) by (vm_compute; reflexivity).
      rewrite forallb_forall in Hz. intros z t Et (_ & _ & _ & Hs).
      specialize (Hz t (proj1 (list_elem_of_In _ _) (list_elem_of_lookup_2 _ _ _ Et))).
      rewrite (Hs eq_refl) in Hz. discriminate Hz.
    + exists 3%nat. eexists. split; [vm_compute; reflexivity|]. split_and!; [discriminate|reflexivity|discriminate|discriminate].
Defined.

Lemma lab_files_live : files_live lab_fs (replicate 8 0).
Proof.
  split; [done|]. split; [intros q x E; cbn in E; by rewrite lookup_empty in E|]. intros k Hk' Hnz. exfalso. apply Hnz.
  rewrite nth_lookup. destruct (replicate 8 0 !! Z.to_nat k) as [x|] eqn:E; [|done].
  by apply lookup_replicate in E as [-> _].
Qed.

Lemma scheduler_fork_correct_witness :
  exists t', g_threads (scheduler_fork lab_addr lab_oom O 6 2000 lab_u) !! 2%nat = Some t' /\
    t_state t' = THREAD_READY /\
    ld64 (s_mem (scheduler_fork lab_addr lab_oom O 6 2000 lab_u)) (frame_rax (t_rsp t')) = 0 /\
    ld64 (s_mem (scheduler_fork lab_addr lab_oom O 6 2000 lab_u)) (frame_rax 2000) = 2.
Proof.
  assert (Ht : exists pt, g_threads lab_u !! 1%nat = Some pt /\ t_is_user pt = true /\ t_kstack_size pt = 16384 /\
    t_open_files pt = replicate 8 0) by (eexists; split; [vm_compute; reflexivity|]; split_and!; reflexivity).
  destruct Ht as (pt & Ep & Hu & Hks & Hof).
  assert (Hi : fst (thread_alloc_slot lab_u) = Some 2%nat) by (vm_compute; reflexivity).
  destruct (thread_alloc_slot lab_u) as [o s1] eqn:Ea. cbn [fst] in Hi. subst o.
  destruct (pa_alloc (m_pages (v_mach (s_vmm lab_u))) 4) as [ks pg] eqn:Epa.
  assert (Hk : 4096 <= fst (pa_alloc (m_pages (v_mach (s_vmm lab_u))) 4)) by (vm_compute; discriminate).
  rewrite Epa in Hk. cbn [fst] in Hk.
  assert (Hn : g_next_id lab_u = 2) by (vm_compute; reflexivity).
  destruct (scheduler_fork_correct lab_addr 32768 lab_oom {[ O := O ]} lab_u O 6 2000 1 pt 2 s1 ks pg lab_reach_u)
    as (t' & Et & _ & Hst & Hid & _ & _ & _ & _ & _ & F3 & F4 & _).
  - exists O. reflexivity.
  - vm_compute. reflexivity.
  - exact Ep.
  - exact Hu.
  - rewrite Hn. unfold is_u64. lia.
  - exact Ea.
  - intros x. reflexivity.
  - rewrite Hof. assert (Hf : s_fs lab_u = lab_fs) by (vm_compute; reflexivity). rewrite Hf.
    exact lab_files_live.
  - rewrite Hks. exact Epa.
  - lia.
  - rewrite Hks. unfold FRAME_SIZE. lia.
  - rewrite Hks. unfold FRAME_SIZE. lia.
  - exists t'. rewrite Hid, Hn in F4. split; [exact Et|]. split; [exact Hst|]. split; [exact F3|exact F4].
Defined.

(** ** A kill across processors

    Two processors.  The user thread on processor 0 starts a second one,
    which processor 1 runs; it kills it, waits for it, starts a kernel
    thread, which gets the freed slot, and waits for that one, so that
    processor 0 runs it. *)
Definition lab_smp : sched pmm :=
  snd (thread_create_user lab_addr O 0 2 [117] 4194304 5242880 8192
    (scheduler_register_cpu_bootstrap lab_addr 1 0 1 294912 16384 lab_boot)).

Definition kill_race : option (sched pmm) :=
  r ← scheduler_on_tick O 1 1000 lab_smp;
  let s := snd (thread_create_user lab_addr O 2 2 [118] 4194304 5242880 12288 (snd r)) in
  r ← scheduler_on_tick 1 3 3000 s;
  let s := snd (scheduler_kill O 3 9 (snd r)) in
  r ← scheduler_waitpid O 4 4000 3 0 s;
  let s := snd (thread_create_kernel lab_addr 32768 O 5 2 [119] 40000 0 (snd r)) in
  r ← scheduler_waitpid O 6 6000 0 0 s;
  r ← scheduler_on_tick O 7 7000 (snd r);
  Some (snd r).

(** The condition [kill_safe] of [reach] is needed: killing a thread that
    another processor is running frees its stack and its slot under it, and
    the next thread put into the slot is current on both processors. *)
Theorem sched_kill_running_shares_slot :
  g_current <$> kill_race = Some [Some 3%nat; Some 3%nat; None; None; None; None; None; None].
Proof. vm_compute. reflexivity. Qed.
