(* ===== verification/Elf.v ===== *)
(** * The ELF loader (src/elf.c)

    An image is a range of physical memory; its headers are read in place,
    from the memory as it is at that moment.  Segments are mapped into the
    target address space page by page and copied through its translation.
    Results are [bool] or [option] values with the machine they leave behind;
    the outer [option] of the functions that copy is [None] when the fuel of
    the copy loop does not suffice, which never happens (ElfSpec.v).  The
    number of program headers is read once per loop.  Console output is left
    out.  Memory is total: a read at an offset the code does not check (the
    dynamic section, elf.c:304) or checks by a wrapping sum (elf.c:248) gives
    some byte here where the machine could fault. *)

From stdpp Require Import prelude list.
From Stdlib Require Import ZArith Lia.
From S2P Require Import Prelude Lib Alloc Pmm Vmm.
#[local] Open Scope Z_scope.
#[local] Open Scope cint_scope.

Definition ELFCLASS64 : Z := 2.
Definition ELFDATA2LSB : Z := 1.
Definition ET_EXEC : Z := 2.
Definition ET_DYN : Z := 3.
Definition EM_X86_64 : Z := 62.
Definition PT_LOAD : Z := 1.
Definition PT_DYNAMIC : Z := 2.
Definition DT_NULL : Z := 0.
Definition DT_STRTAB : Z := 5.
Definition DT_SYMTAB : Z := 6.
Definition DT_RELA : Z := 7.
Definition DT_RELASZ : Z := 8.
Definition DT_RELAENT : Z := 9.
Definition DT_SYMENT : Z := 11.
Definition DT_REL : Z := 17.
Definition DT_RELSZ : Z := 18.
Definition DT_RELENT : Z := 19.
Definition SHN_UNDEF : Z := 0.
Definition R_X86_64_64 : Z := 1.
Definition R_X86_64_RELATIVE : Z := 8.
Definition R_X86_64_GLOB_DAT : Z := 6.
Definition R_X86_64_JUMP_SLOT : Z := 7.

Definition ELF64_R_SYM (i : Z) : Z := Z.shiftr i 32.
Definition ELF64_R_TYPE (i : Z) : Z := u32 i.

Definition EHDR_SIZE : Z := 64.
Definition PHDR_SIZE : Z := 56.
Definition DYN_SIZE : Z := 16.
Definition RELA_SIZE : Z := 24.
Definition REL_SIZE : Z := 16.
Definition SYM_SIZE : Z := 24.

(** Fields of the packed structs, by offset. *)
Definition e_ident (m : mem) (eh i : Z) : Z := ld8 m (eh + i).
Definition e_type (m : mem) (eh : Z) : Z := ld16 m (eh + 16).
Definition e_machine (m : mem) (eh : Z) : Z := ld16 m (eh + 18).
Definition e_entry (m : mem) (eh : Z) : Z := ld64 m (eh + 24).
Definition e_phoff (m : mem) (eh : Z) : Z := ld64 m (eh + 32).
Definition e_phentsize (m : mem) (eh : Z) : Z := ld16 m (eh + 54).
Definition e_phnum (m : mem) (eh : Z) : Z := ld16 m (eh + 56).

Definition p_type (m : mem) (ph : Z) : Z := ld32 m ph.
Definition p_flags (m : mem) (ph : Z) : Z := ld32 m (ph + 4).
Definition p_offset (m : mem) (ph : Z) : Z := ld64 m (ph + 8).
Definition p_vaddr (m : mem) (ph : Z) : Z := ld64 m (ph + 16).
Definition p_filesz (m : mem) (ph : Z) : Z := ld64 m (ph + 32).
Definition p_memsz (m : mem) (ph : Z) : Z := ld64 m (ph + 40).

Definition d_tag (m : mem) (d : Z) : Z := i64 (ld64 m d).
Definition d_val (m : mem) (d : Z) : Z := ld64 m (d + 8).

Definition r_offset (m : mem) (r : Z) : Z := ld64 m r.
Definition r_info (m : mem) (r : Z) : Z := ld64 m (r + 8).
Definition r_addend (m : mem) (r : Z) : Z := i64 (ld64 m (r + 16)).

Definition st_shndx (m : mem) (sym : Z) : Z := ld16 m (sym + 6).
Definition st_value (m : mem) (sym : Z) : Z := ld64 m (sym + 8).

(** [&ph[i]]. *)
Definition phdr (ph i : Z) : Z := ph + i * PHDR_SIZE.

Definition elf_validate (m : mem) (eh size : Z) : bool :=
  negb (size <? EHDR_SIZE)
  && ((e_ident m eh 0 =? 127) && (e_ident m eh 1 =? 69) && (e_ident m eh 2 =? 76) && (e_ident m eh 3 =? 70))
  && (e_ident m eh 4 =? ELFCLASS64)
  && (e_ident m eh 5 =? ELFDATA2LSB)
  && ((e_type m eh =? ET_EXEC) || (e_type m eh =? ET_DYN))
  && (e_machine m eh =? EM_X86_64)
  && (e_phentsize m eh =? PHDR_SIZE)
  && negb (size <? (e_phoff m eh +% (e_phnum m eh *% PHDR_SIZE))).

(** The segment whose file part holds [vaddr]. *)
Definition elf_find_phdr_for_vaddr (m : mem) (ph phnum vaddr : Z) : option Z :=
  i ← find_up (Z.to_nat phnum) 0 (fun i =>
    let p := phdr ph i in
    (p_type m p =? PT_LOAD) && (p_vaddr m p <=? vaddr) && (vaddr <? (p_vaddr m p +% p_filesz m p)));
  Some (phdr ph i).

Definition elf_vaddr_to_ptr (m : mem) (image size ph phnum vaddr : Z) : option Z :=
  seg ← elf_find_phdr_for_vaddr m ph phnum vaddr;
  let off := p_offset m seg +% (vaddr -% p_vaddr m seg) in
  if size <=? off then None else Some (image + off).

Section elf_def.
Context {A : Type} `{PageOps A}.
Implicit Types (s : mach A).

Definition elf_write_u64 s (target_cr3 va value : Z) : bool * mach A :=
  match vmm_resolve s target_cr3 va with
  | None => (false, s)
  | Some (pa, _) => (true, set_mem s (st64 (m_mem s) pa value))
  end.

Definition elf_read_u64 s (target_cr3 va : Z) : option Z :=
  match vmm_resolve s target_cr3 va with
  | None => None
  | Some (pa, _) => Some (ld64 (m_mem s) pa)
  end.

Definition reloc_by_symbol (ty : Z) : bool :=
  (ty =? R_X86_64_64) || (ty =? R_X86_64_GLOB_DAT) || (ty =? R_X86_64_JUMP_SLOT).

(** The value of a relocation of type [ty] against symbol [sym_idx]; [None]
    for an unsupported type, no symbol table or an undefined symbol. *)
Definition reloc_value (m : mem) (load_bias : Z) (symtab : option Z) (syment ty sym_idx addend : Z) : option Z :=
  if ty =? R_X86_64_RELATIVE then Some (load_bias +% addend)
  else if reloc_by_symbol ty then
    st ← symtab;
    let sym := st + sym_idx *% syment in
    if st_shndx m sym =? SHN_UNDEF then None else Some (load_bias +% st_value m sym +% addend)
  else None.

Definition apply_rela s (target_cr3 load_bias reloc_base : Z) (symtab : option Z) (syment r : Z) : bool * mach A :=
  let m := m_mem s in
  let place := reloc_base +% r_offset m r in
  match reloc_value m load_bias symtab syment (ELF64_R_TYPE (r_info m r)) (ELF64_R_SYM (r_info m r)) (r_addend m r) with
  | None => (false, s)
  | Some value => elf_write_u64 s target_cr3 place value
  end.

Definition apply_rel s (target_cr3 load_bias reloc_base : Z) (symtab : option Z) (syment r : Z) : bool * mach A :=
  let m := m_mem s in
  let place := reloc_base +% r_offset m r in
  match elf_read_u64 s target_cr3 place with
  | None => (false, s)
  | Some addend =>
      match reloc_value m load_bias symtab syment (ELF64_R_TYPE (r_info m r)) (ELF64_R_SYM (r_info m r)) addend with
      | None => (false, s)
      | Some value => elf_write_u64 s target_cr3 place value
      end
  end.

(** Apply [step] to the [count] records of [ent] bytes from [base] on. *)
Definition reloc_loop (step : mach A -> Z -> bool * mach A) (base count ent : Z) s : bool * mach A :=
  match for_range_exit 0 count (fun i s =>
          match step s (base + i *% ent) with
          | (true, s) => inl s
          | (false, s) => inr s
          end) s with
  | inl s => (true, s)
  | inr s => (false, s)
  end.

Definition elf_apply_relocations s (image size eh ph target_cr3 load_bias rel_addr rel_sz rel_ent
    rela_addr rela_sz rela_ent symtab_addr syment : Z) : bool * mach A :=
  let m := m_mem s in
  let rel_ent := if (negb (rel_addr =? 0) || negb (rel_sz =? 0)) && (rel_ent =? 0) then REL_SIZE else rel_ent in
  let rela_ent := if (negb (rela_addr =? 0) || negb (rela_sz =? 0)) && (rela_ent =? 0) then RELA_SIZE else rela_ent in
  let syment := if syment =? 0 then SYM_SIZE else syment in
  let symtab := if symtab_addr =? 0 then None
                else elf_vaddr_to_ptr m image size ph (e_phnum m eh) symtab_addr in
  let reloc_base := if e_type m eh =? ET_DYN then load_bias else 0 in
  let '(ok, s) :=
    if negb (rela_addr =? 0) && negb (rela_sz =? 0) then
      match elf_vaddr_to_ptr m image size ph (e_phnum m eh) rela_addr with
      | None => (false, s)
      | Some rela => reloc_loop (fun s r => apply_rela s target_cr3 load_bias reloc_base symtab syment r)
                       rela (rela_sz / rela_ent) rela_ent s
      end
    else (true, s) in
  if negb ok then (false, s)
  else if negb (rel_addr =? 0) && negb (rel_sz =? 0) then
    let m := m_mem s in
    match elf_vaddr_to_ptr m image size ph (e_phnum m eh) rel_addr with
    | None => (false, s)
    | Some rel => reloc_loop (fun s r => apply_rel s target_cr3 load_bias reloc_base symtab syment r)
                    rel (rel_sz / rel_ent) rel_ent s
    end
  else (true, s).

(** ** Segments *)

(** The page flags of a segment. *)
Definition seg_flags (pflags : Z) : Z :=
  let flags := Z.lor VMM_FLAG_PRESENT VMM_FLAG_USER in
  let flags := if negb (Z.land pflags 2 =? 0) then Z.lor flags VMM_FLAG_WRITABLE else flags in
  if Z.land pflags 1 =? 0 then Z.lor flags VMM_FLAG_NOEXEC else flags.

(** Map fresh zeroed pages over [seg_start, seg_end). *)
Definition map_segment s (target_cr3 seg_start seg_end flags : Z) : bool * mach A :=
  match for_range_exit 0 (va_steps seg_start seg_end) (fun i s =>
          let va := seg_start + i * PAGE_SIZE in
          let '(pa, s) := alloc_zero_page s in
          if pa =? 0 then inr s
          else
            match vmm_map_page s target_cr3 va pa flags with
            | (true, s) => inl s
            | (false, s) => inr (pmm_free s pa 1)
            end) s with
  | inl s => (true, s)
  | inr s => (false, s)
  end.

(** [while (copied < filesz)]. *)
Fixpoint copy_segment (fuel : nat) s (target_cr3 vaddr src filesz copied : Z) : option (bool * mach A) :=
  if copied <? filesz then
    match fuel with
    | O => None
    | S fuel' =>
        let cur_va := vaddr +% copied in
        match vmm_resolve s target_cr3 cur_va with
        | None => Some (false, s)
        | Some (pa, _) =>
            let page_off := Z.land cur_va (PAGE_SIZE - 1) in
            let to_copy := PAGE_SIZE - page_off in
            let to_copy := if filesz - copied <? to_copy then filesz - copied else to_copy in
            let s := set_mem s (memcpy (m_mem s) (pa + page_off) (src + copied) to_copy) in
            copy_segment fuel' s target_cr3 vaddr src filesz (copied + to_copy)
        end
    end
  else Some (true, s).

(** One iteration copies up to the end of a page. *)
Definition copy_fuel (filesz : Z) : nat := Z.to_nat (filesz / PAGE_SIZE + 2).

(** One PT_LOAD header: the machine and the new end of the image. *)
Definition load_segment s (image size target_cr3 load_bias p max_end : Z) : option (bool * mach A * Z) :=
  let m := m_mem s in
  let vaddr := p_vaddr m p +% load_bias in
  let filesz := p_filesz m p in
  let memsz := p_memsz m p in
  let off := p_offset m p in
  if size <? (off +% filesz) then Some (false, s, max_end)
  else
    let seg_start := align_down_u64 vaddr PAGE_SIZE in
    let seg_end := align_up_u64 (vaddr +% memsz) PAGE_SIZE in
    match map_segment s target_cr3 seg_start seg_end (seg_flags (p_flags m p)) with
    | (false, s) => Some (false, s, max_end)
    | (true, s) =>
        '(ok, s) ← copy_segment (copy_fuel filesz) s target_cr3 vaddr (image + off) filesz 0;
        if negb ok then Some (false, s, max_end)
        else
          Some (true, s, if max_end <? (vaddr +% memsz) then align_up_u64 (vaddr +% memsz) PAGE_SIZE else max_end)
    end.

Fixpoint load_segments (n : nat) (i : Z) s (image size eh ph target_cr3 load_bias max_end : Z)
    : option (bool * mach A * Z) :=
  match n with
  | O => Some (true, s, max_end)
  | S n' =>
      if negb (p_type (m_mem s) (phdr ph i) =? PT_LOAD) then
        load_segments n' (i + 1) s image size eh ph target_cr3 load_bias max_end
      else
        '(ok, s, max_end) ← load_segment s image size target_cr3 load_bias (phdr ph i) max_end;
        if negb ok then Some (false, s, max_end)
        else load_segments n' (i + 1) s image size eh ph target_cr3 load_bias max_end
  end.

(** ** The dynamic section *)

Record dyn_info := mk_dyn {
  dyn_rela : Z; dyn_relasz : Z; dyn_relaent : Z;
  dyn_rel : Z; dyn_relsz : Z; dyn_relent : Z;
  dyn_symtab : Z; dyn_syment : Z; dyn_strtab : Z
}.

Definition dyn_none : dyn_info := mk_dyn 0 0 0 0 0 0 0 0 0.

(** The switch over the tag of one entry. *)
Definition dyn_step (tag val : Z) (d : dyn_info) : dyn_info :=
  let '(mk_dyn ra rasz raent re resz reent st se str) := d in
  if tag =? DT_RELA then mk_dyn val rasz raent re resz reent st se str
  else if tag =? DT_RELASZ then mk_dyn ra val raent re resz reent st se str
  else if tag =? DT_RELAENT then mk_dyn ra rasz val re resz reent st se str
  else if tag =? DT_REL then mk_dyn ra rasz raent val resz reent st se str
  else if tag =? DT_RELSZ then mk_dyn ra rasz raent re val reent st se str
  else if tag =? DT_RELENT then mk_dyn ra rasz raent re resz val st se str
  else if tag =? DT_SYMTAB then mk_dyn ra rasz raent re resz reent val se str
  else if tag =? DT_SYMENT then mk_dyn ra rasz raent re resz reent st val str
  else if tag =? DT_STRTAB then mk_dyn ra rasz raent re resz reent st se val
  else d.

Definition dyn_scan (m : mem) (dyn count : Z) (d : dyn_info) : dyn_info :=
  brk (for_range_exit 0 count (fun j d =>
    let e := dyn + j * DYN_SIZE in
    if d_tag m e =? DT_NULL then inr d else inl (dyn_step (d_tag m e) (d_val m e) d)) d).

Definition dyn_collect (m : mem) (image ph phnum : Z) : dyn_info :=
  for_range 0 phnum (fun i d =>
    let p := phdr ph i in
    if negb (p_type m p =? PT_DYNAMIC) then d
    else dyn_scan m (image + p_offset m p) (p_filesz m p / DYN_SIZE) d) dyn_none.

(** Entry point and end of the image on success. *)
Definition elf64_load_image s (image size target_cr3 : Z) : option (option (Z * Z) * mach A) :=
  let eh := image in
  if negb (elf_validate (m_mem s) eh size) then Some (None, s)
  else
    let ph := image + e_phoff (m_mem s) eh in
    let load_bias := if e_type (m_mem s) eh =? ET_DYN
                     then align_up_u64 (USER_REGION_BASE +% 16777216) PAGE_SIZE else 0 in
    '(ok, s, max_end) ← load_segments (Z.to_nat (e_phnum (m_mem s) eh)) 0 s image size eh ph target_cr3 load_bias 0;
    if negb ok then Some (None, s)
    else
      let d := dyn_collect (m_mem s) image ph (e_phnum (m_mem s) eh) in
      let '(ok, s) :=
        if negb (dyn_rela d =? 0) || negb (dyn_rel d =? 0) then
          elf_apply_relocations s image size eh ph target_cr3 load_bias (dyn_rel d) (dyn_relsz d) (dyn_relent d)
            (dyn_rela d) (dyn_relasz d) (dyn_relaent d) (dyn_symtab d) (dyn_syment d)
        else (true, s) in
      if negb ok then Some (None, s)
      else Some (Some (e_entry (m_mem s) eh +% load_bias, max_end), s).
End elf_def.
