(* ===== verification/ElfSpec.v ===== *)
(** * What the ELF loader promises (src/elf.c)

    A loaded segment: each byte of the file part and each zero after it is
    found through the translation of the target address space.  The proof
    follows the three loops: mapping fresh pages, copying page by page, and
    the program headers. *)

From stdpp Require Import prelude list.
From Stdlib Require Import ZArith Lia.
From S2P Require Import Prelude Lib Alloc Pmm Vmm VmmSpec Elf.
#[local] Open Scope Z_scope.
#[local] Open Scope cint_scope.

Section elf.
Context {A : Type} `{PageLaws A}.
Implicit Types (s : mach A) (D : Z -> Prop) (fr fl : Z -> Z).

(** ** Writing outside the page tables *)

(** [m'] differs from the memory of [s] only where no table is. *)
Definition writes_foreign s (cr3 : Z) (m' : mem) : Prop :=
  forall x, 0 <= x -> foreign s cr3 x \/ ld8 m' x = ld8 (m_mem s) x.

Lemma foreign_write s cr3 m' :
  space_wf s cr3 -> writes_foreign s cr3 m' ->
  space_wf (set_mem s m') cr3 /\
  (forall va, user_va va -> xlate m' cr3 va = xlate (m_mem s) cr3 va) /\
  (forall x, foreign s cr3 x -> foreign (set_mem s m') cr3 x).
Proof.
  intros Hwf Hm.
  assert (Hent : forall q b j, upath q -> walk (m_mem s) cr3 q = Some b -> 0 <= j < 512 ->
    ld64 m' (b + 8 * j) = ld64 (m_mem s) (b + 8 * j)).
  { intros q b j Hq Hb Hj. destruct (sw_table _ _ Hwf q b Hq Hb) as ([Fb _] & Hb0 & _ & Hu).
    apply ldn_ext. intros x Hx. cbn in Hx. destruct (Hm x ltac:(lia)) as [(_ & _ & Hf)|]; [|done].
    exfalso. apply (Hf q b Hq Hb). Z.div_mod_to_equations; lia. }
  assert (Hwalk : forall q, upath q -> walk m' cr3 q = walk (m_mem s) cr3 q).
  { intros q. induction q as [|j q IH] using rev_ind; intros Hq; [done|].
    pose proof (upath_app_l _ _ Hq) as Hq'. rewrite !walk_app, IH by done.
    destruct (walk (m_mem s) cr3 q) as [b|] eqn:Eb; [|done]. cbn [walk].
    by rewrite (Hent q b j) by (done || by eapply upath_last). }
  split; [|split].
  - constructor; cbn.
    + intros q b Hq. rewrite Hwalk by done. by apply (sw_table _ _ Hwf).
    + intros q1 q2 b Hq1 Hq2. rewrite !Hwalk by done. by apply (sw_inj _ _ Hwf).
    + intros q b j Hqj. pose proof (upath_app_l _ _ Hqj) as Hq. rewrite Hwalk by done.
      intros Hb. rewrite (Hent q b j) by (done || by eapply upath_last). by apply (sw_small _ _ Hwf q).
  - intros va Hva. unfold xlate. pose proof (upath_va va Hva) as Hup. rewrite Hwalk by done.
    destruct (walk (m_mem s) cr3 [idx_l4 va; idx_l3 va; idx_l2 va]) as [pt|] eqn:Ept; [|done].
    by rewrite (Hent _ pt _ Hup Ept) by apply idx_ranges.
  - intros x (Hx0 & Hx1 & Hx2). split; [done|]. split; [done|]. intros q b Hq. cbn. rewrite Hwalk by done. by apply Hx2.
Qed.

Lemma owned_write fl s cr3 D fr m' :
  owned fl s cr3 D fr -> writes_foreign s cr3 m' -> owned fl (set_mem s m') cr3 D fr.
Proof.
  intros [Hp Hw Hd Hi] Hm. destruct (foreign_write s cr3 m' Hw Hm) as (W & X & F).
  constructor; [done|done| |done].
  intros va Hva. destruct (Hd va Hva) as (U & M & Fr & F0 & FT & Hx & HF). cbn. rewrite X by done.
  split_and!; try done; by (apply Fr || apply F).
Qed.

(** ** Mapping *)

Lemma owned_flags fl fl' s cr3 D fr :
  owned fl s cr3 D fr -> (forall v, D v -> fl' v = fl v) -> owned fl' s cr3 D fr.
Proof.
  intros [Hp Hw Hd Hi] Hf. constructor; [done|done| |done].
  intros va Hva. rewrite Hf by done. by apply Hd.
Qed.

(** Frames that belong to nobody in [s]. *)
Definition new_frames s (cr3 : Z) (P : Z -> Prop) fr : Prop :=
  forall v x, P v -> foreign s cr3 x -> x / 4096 <> fr v / 4096.

Definition zero_frames s (P : Z -> Prop) fr : Prop :=
  forall v x, P v -> x / 4096 = fr v / 4096 -> ld8 (m_mem s) x = 0.

(** The outcome of mapping the pages of [P] with [flags]. *)
Record mapped s s' (cr3 flags : Z) D P fl fr fl' fr' : Prop := {
  mp_owned : owned fl' s' cr3 (fun v => P v \/ D v) fr';
  mp_old v : D v -> fl' v = fl v /\ fr' v = fr v;
  mp_flags v : P v -> fl' v = flags;
  mp_apart v : P v -> ~ D v;
  mp_kept : foreign_kept cr3 s s';
  mp_new : new_frames s cr3 P fr';
  mp_zero : zero_frames s' P fr'
}.

Lemma mapped_step s s1 s2 s3 cr3 flags D P fl fr fl1 fr1 va pa :
  mapped s s1 cr3 flags D P fl fr fl1 fr1 -> flags_ok flags -> user_va va -> va mod 4096 = 0 ->
  alloc_zero_page s1 = (pa, s2) -> pa <> 0 -> map_page_inner s2 cr3 va pa flags = (true, s3) ->
  mapped s s3 cr3 flags D (fun v => v = va \/ P v) fl fr
    (fun v => if v =? va then flags else fl1 v) (fun v => if v =? va then pa else fr1 v).
Proof.
  intros [Ho Hold Hfl Hap Hk Hn Hz] Hf Hu Hal Ea Hpa Em.
  pose proof (hw_pages _ _ _ _ _ Ho) as Hpg. pose proof (hw_space _ _ _ _ _ Ho) as Hwf.
  pose proof (alloc_zero_extends s1 pa s2 cr3 Hwf Hpg Ea) as X.
  destruct (alloc_foreign s1 pa s2 cr3 Hwf Hpg Ea Hpa) as [_ Hne].
  assert (HnD : ~ (P va \/ D va)).
  { intros (_ & _ & _ & _ & _ & Hx & _)%(hw_page _ _ _ _ _ Ho).
    destruct (map_page_ok s2 cr3 va pa flags s3 (ex_wf _ _ _ X) (ex_pages _ _ _ X) Hu Hf Em) as (_ & _ & Hx' & _).
    rewrite (ex_xlate _ _ _ X va Hu) in Hx'. congruence. }
  assert (Hne' : forall v, P v \/ D v -> (v =? va) = false) by (intros v Hv; apply Z.eqb_neq; intros ->; done).
  set (fl2 := fun v => if v =? va then flags else fl1 v).
  assert (Ho2 : owned fl2 s1 cr3 (fun v => P v \/ D v) fr1).
  { apply (owned_flags fl1); [done|]. intros v Hv. subst fl2; cbn. by rewrite Hne'. }
  assert (Efl : fl2 va = flags) by (subst fl2; cbn; by rewrite Z.eqb_refl).
  destruct (owned_grow_step fl2 s1 s2 s3 cr3 _ fr1 va pa Ho2) as (Ho3 & _ & _ & _ & Hk3 & Hz3);
    [by rewrite Efl|done|done|done|done|by rewrite Efl|].
  assert (Hpage : forall v, P v -> (v =? va) = false) by (intros v Hv; apply Hne'; by left).
  constructor.
  - eapply heap_wf_proper; [|exact Ho3]. intros v. cbn. tauto.
  - intros v Hv. subst fl2; cbn. rewrite Hne' by (by right). by apply Hold.
  - intros v [->|Hv]; [exact Efl|]. subst fl2; cbn. rewrite Hpage by done. by apply Hfl.
  - intros v [->|Hv]; [tauto|by apply Hap].
  - intros x Hx. destruct (Hk x Hx) as [Hx1 E1]. destruct (Hk3 x Hx1) as [Hx2 E2]. split; [done|congruence].
  - intros v x [->|Hv] Hx; cbn.
    + rewrite Z.eqb_refl. apply Hne. by apply Hk.
    + rewrite Hpage by done. by apply (Hn v).
  - intros v x [->|Hv] Ex; cbn in Ex.
    + rewrite Z.eqb_refl in Ex. by apply Hz3.
    + rewrite Hpage in Ex by done.
      destruct (hw_page _ _ _ _ _ Ho v (or_introl Hv)) as (_ & _ & Fv & F0 & _ & _ & (G1 & G2 & G3)).
      destruct (Hk3 x) as [_ ->]; [|by apply (Hz v)].
      split; [Z.div_mod_to_equations; lia|]. by rewrite Ex.
Qed.

(** The start of a mapping loop over a page range, and one round of it. *)
Lemma mapped_none s cr3 flags D fl fr lo :
  owned fl s cr3 D fr -> mapped s s cr3 flags D (pages_in lo lo) fl fr fl fr.
Proof.
  intros Ho. assert (Hno : forall v, ~ pages_in lo lo v) by (intros v [? ?]; lia).
  constructor; try done; try (intros v Hv; by destruct (Hno v)); try (intros v x Hv; by destruct (Hno v)).
  eapply heap_wf_proper; [|exact Ho]. intros v. specialize (Hno v). tauto.
Qed.

Lemma mapped_round s s1 s2 s3 cr3 flags D fl fr fl1 fr1 lo va pa :
  mapped s s1 cr3 flags D (pages_in lo va) fl fr fl1 fr1 -> flags_ok flags -> user_va va ->
  lo mod 4096 = 0 -> va mod 4096 = 0 -> lo <= va ->
  alloc_zero_page s1 = (pa, s2) -> pa <> 0 -> map_page_inner s2 cr3 va pa flags = (true, s3) ->
  exists fl' fr', mapped s s3 cr3 flags D (pages_in lo (va + 4096)) fl fr fl' fr'.
Proof.
  intros Hm Hf Hu Hlo Hmod Hle Ea Hpa Em.
  pose proof (mapped_step s s1 s2 s3 cr3 flags D _ fl fr fl1 fr1 _ pa Hm Hf Hu Hmod Ea Hpa Em) as Hm'.
  do 2 eexists. destruct Hm' as [M1 M2 M3 M4 M5 M6 M7].
  assert (Heq : forall v, (v = va \/ pages_in lo va v) <-> pages_in lo (va + 4096) v).
  { intros v. unfold pages_in. split; [intros [->|]; Z.div_mod_to_equations; lia|]. intros [? ?]. Z.div_mod_to_equations; lia. }
  constructor.
  - eapply heap_wf_proper; [|exact M1]. intros v. cbn. rewrite <-Heq. tauto.
  - done.
  - intros v Hv. by apply M3, Heq.
  - intros v Hv. by apply M4, Heq.
  - done.
  - intros v x Hv. by apply M6, Heq.
  - intros v x Hv. by apply M7, Heq.
Qed.

Lemma map_segment_ok s cr3 lo hi flags D fl fr s' :
  owned fl s cr3 D fr -> flags_ok flags -> lo mod 4096 = 0 -> hi mod 4096 = 0 -> lo <= hi ->
  (forall va, lo <= va < hi -> user_va va) ->
  map_segment s cr3 lo hi flags = (true, s') ->
  exists fl' fr', mapped s s' cr3 flags D (pages_in lo hi) fl fr fl' fr'.
Proof.
  intros Ho Hf Hl Hh Hle Hu. unfold map_segment, for_range_exit.
  destruct (va_steps_mul lo hi Hl Hh Hle) as [Ehi Hst].
  set (n := va_steps lo hi) in *. rewrite Z.sub_0_r.
  match goal with |- context [for_exit _ _ ?b _] => set (body := b) end.
  pose proof (for_exit_ind (fun i s1 => exists fl' fr',
      mapped s s1 cr3 flags D (pages_in lo (lo + i * 4096)) fl fr fl' fr')
    (fun _ => True) body (Z.to_nat n) 0 s) as Hind.
  destruct (for_exit _ _ _ _) as [s1|s1] eqn:E; [|done]. intros [= <-].
  replace (0 + Z.of_nat (Z.to_nat n)) with n in Hind by lia. cbv beta in Hind. rewrite <- Ehi in Hind.
  apply Hind.
  { exists fl, fr. rewrite Z.add_0_r. by apply mapped_none. }
  clear Hind E. intros i s2 Hi (fl1 & fr1 & Hm). unfold body.
  destruct (alloc_zero_page s2) as [pa s3] eqn:Ea. destruct (Z.eqb_spec pa 0) as [|Hpa]; [done|].
  unfold PAGE_SIZE, vmm_map_page.
  destruct (map_page_inner s3 cr3 (lo + i * 4096) pa flags) as [[] s4] eqn:Em; [|done].
  assert (Hmod : (lo + i * 4096) mod 4096 = 0) by (rewrite Z.mod_add by lia; done).
  replace (lo + (i + 1) * 4096) with (lo + i * 4096 + 4096) by lia.
  eapply mapped_round; [exact Hm|done|apply Hu; lia|done|done|lia|exact Ea|done|exact Em].
Qed.
(** ** Copying *)

(** Where byte [k] of a segment that starts at the page boundary [lo] is. *)
Definition loc fr (lo k : Z) : Z := fr (lo + k / 4096 * 4096) + k mod 4096.

Lemma frame_offset_page f k : f mod 4096 = 0 -> (f + k mod 4096) / 4096 = f / 4096.
Proof. intros. Z.div_mod_to_equations; lia. Qed.

Lemma frame_offset_inj f g a b :
  f mod 4096 = 0 -> g mod 4096 = 0 -> f + a mod 4096 = g + b mod 4096 -> f = g /\ a mod 4096 = b mod 4096.
Proof. intros. Z.div_mod_to_equations; lia. Qed.

Lemma frame_lor f k : is_frame f -> 0 <= k < 4096 -> Z.lor f k = f + k.
Proof.
  intros Ff Hk. pose proof (Z.add_lor_land f k) as E.
  assert (Hz : Z.land f k = 0); [|lia]. apply Z.bits_inj'. intros j Hj. rewrite Z.land_spec, Z.bits_0.
  destruct (decide (j < 12)).
  - by rewrite frame_low_bits.
  - replace k with (k mod 2 ^ 12) by (change (2 ^ 12) with 4096; apply Z.mod_small; lia).
    rewrite Z.mod_pow2_bits_high by lia. apply andb_false_r.
Qed.

Lemma page_off_eq v k : v mod 4096 = 0 -> 0 <= k < 4096 -> Z.land (v + k) 4095 = k.
Proof.
  intros Hv Hk. change 4095 with (Z.ones 12). rewrite Z.land_ones by lia. change (2 ^ 12) with 4096.
  Z.div_mod_to_equations; lia.
Qed.

Lemma resolve_owned fl s cr3 D fr v k :
  owned fl s cr3 D fr -> flags_ok (fl v) -> D v -> 0 <= k < 4096 -> user_va (v + k) ->
  vmm_resolve s cr3 (v + k) = Some (fr v + k, leaf_entry (fr v) (fl v)).
Proof.
  intros Ho Hf Hv Hk Huk. destruct (hw_page _ _ _ _ _ Ho v Hv) as (U & M & Fv & F0 & _ & Hx & _).
  rewrite resolve_xlate; [|apply Ho|done].
  rewrite (xlate_same_page _ _ (v + k) v) by (unfold same_page; Z.div_mod_to_equations; lia).
  rewrite Hx, leaf_entry_phys, frame_mask, page_off_eq, frame_lor by done. done.
Qed.

(** The hypotheses of the copy loop. *)
Record copy_ready fl s (cr3 lo filesz src : Z) D fr : Prop := {
  cr_owned : owned fl s cr3 D fr;
  cr_flags v : D v -> flags_ok (fl v);
  cr_pages v : pages_in lo (lo + filesz) v -> D v;
  cr_lo : lo mod 4096 = 0;
  cr_user va : lo <= va < lo + filesz -> user_va va;
  cr_apart k v : 0 <= k < filesz -> pages_in lo (lo + filesz) v -> (src + k) / 4096 <> fr v / 4096
}.

(** One round copies [n] bytes to the page at [lo + c]. *)
Definition copy_round s fr (lo src c n : Z) : mach A :=
  set_mem s (memcpy (m_mem s) (fr (lo + c)) (src + c) n).

Lemma copy_round_ok fl s cr3 lo filesz src D fr c n :
  copy_ready fl s cr3 lo filesz src D fr -> 0 <= c -> c mod 4096 = 0 -> 0 < n <= 4096 -> c + n <= filesz ->
  copy_ready fl (copy_round s fr lo src c n) cr3 lo filesz src D fr /\
  (forall x, foreign s cr3 x -> foreign (copy_round s fr lo src c n) cr3 x) /\
  (forall x, ld8 (m_mem (copy_round s fr lo src c n)) x =
     if in_range (fr (lo + c)) n x then ld8 (m_mem s) (src + c + (x - fr (lo + c))) else ld8 (m_mem s) x).
Proof.
  intros [Ho Hf Hp Hl Hu Ha] Hc Hcm Hn Hle.
  assert (Hv : pages_in lo (lo + filesz) (lo + c)) by (split; [Z.div_mod_to_equations; lia|lia]).
  destruct (hw_page _ _ _ _ _ Ho _ (Hp _ Hv)) as (_ & _ & [Fm F] & F0 & _ & _ & HF).
  assert (Hdis : fr (lo + c) + n <= src + c \/ src + c + n <= fr (lo + c)).
  { set (f := fr (lo + c)) in *. destruct (decide (f + n <= src + c)); [by left|right].
    destruct (decide (src + c + n <= f)); [done|exfalso].
    pose (x := Z.max f (src + c)).
    apply (Ha (x - src) (lo + c)); [unfold x; lia|done|]. replace (src + (x - src)) with x by lia.
    fold f. unfold x. Z.div_mod_to_equations; lia. }
  assert (Hm : forall x, ld8 (m_mem (copy_round s fr lo src c n)) x =
     if in_range (fr (lo + c)) n x then ld8 (m_mem s) (src + c + (x - fr (lo + c))) else ld8 (m_mem s) x).
  { intros x. cbn. rewrite (memcpy_eq_copy _ _ _ _ Hdis x). apply ld8_copy. }
  assert (Hwf : writes_foreign s cr3 (m_mem (copy_round s fr lo src c n))).
  { intros x Hx. rewrite Hm. in_range_cases; [left|by right].
    destruct HF as (G1 & G2 & G3). split; [done|].
    replace (x / 4096) with (fr (lo + c) / 4096) by (Z.div_mod_to_equations; lia). done. }
  split; [|split; [|done]].
  - constructor; try done. exact (owned_write fl s cr3 D fr _ Ho Hwf).
  - exact (proj2 (proj2 (foreign_write s cr3 _ (hw_space _ _ _ _ _ Ho) Hwf))).
Qed.

Lemma loc_page fl s cr3 lo filesz src D fr c n k :
  copy_ready fl s cr3 lo filesz src D fr -> 0 <= c -> c mod 4096 = 0 -> 0 < n <= 4096 -> c + n <= filesz ->
  0 <= k < filesz ->
  (c <= k < c + n -> loc fr lo k = fr (lo + c) + (k - c)) /\
  (in_range (fr (lo + c)) n (loc fr lo k) = true -> c <= k < c + n).
Proof.
  intros [Ho Hf Hp Hl Hu Ha] Hc Hcm Hn Hle Hk.
  split.
  - intros Hck. unfold loc. replace (k / 4096 * 4096) with c by (Z.div_mod_to_equations; lia).
    f_equal. Z.div_mod_to_equations; lia.
  - intros Hr%in_range_true. unfold loc in Hr.
    assert (Hv : pages_in lo (lo + filesz) (lo + c)) by (split; [Z.div_mod_to_equations; lia|lia]).
    assert (Hv' : pages_in lo (lo + filesz) (lo + k / 4096 * 4096)) by (split; Z.div_mod_to_equations; lia).
    destruct (hw_page _ _ _ _ _ Ho _ (Hp _ Hv)) as (_ & _ & [F1 _] & _).
    destruct (hw_page _ _ _ _ _ Ho _ (Hp _ Hv')) as (_ & _ & [F2 _] & _).
    assert (E : fr (lo + k / 4096 * 4096) = fr (lo + c)).
    { revert Hr F1 F2. generalize (fr (lo + c)) (fr (lo + k / 4096 * 4096)). intros. Z.div_mod_to_equations; lia. }
    apply (hw_inj _ _ _ _ _ Ho) in E; [|by apply Hp..].
    replace (k / 4096 * 4096) with c in Hr by lia. Z.div_mod_to_equations; lia.
Qed.

(** The bytes [c, filesz) of the source have been copied. *)
Definition copied_from s s' fr (lo src c filesz : Z) : Prop :=
  (forall k, c <= k < filesz -> ld8 (m_mem s') (loc fr lo k) = ld8 (m_mem s) (src + k)) /\
  (forall x, (forall k, c <= k < filesz -> x <> loc fr lo k) -> ld8 (m_mem s') x = ld8 (m_mem s) x).

Lemma loc_apart fl s cr3 lo filesz src D fr k k' :
  copy_ready fl s cr3 lo filesz src D fr -> 0 <= k < filesz -> 0 <= k' < filesz -> src + k <> loc fr lo k'.
Proof.
  intros [Ho Hf Hp Hl Hu Ha] Hk Hk' E.
  assert (Hv' : pages_in lo (lo + filesz) (lo + k' / 4096 * 4096)) by (split; Z.div_mod_to_equations; lia).
  apply (Ha k _ Hk Hv'). rewrite E. unfold loc.
  destruct (hw_page _ _ _ _ _ Ho _ (Hp _ Hv')) as (_ & _ & [F2 _] & _).
  by apply frame_offset_page.
Qed.

Lemma copied_step fl s cr3 lo filesz src D fr c n s2 :
  copy_ready fl s cr3 lo filesz src D fr -> 0 <= c -> c mod 4096 = 0 -> 0 < n <= 4096 -> c + n <= filesz ->
  (n = 4096 \/ c + n = filesz) ->
  copied_from (copy_round s fr lo src c n) s2 fr lo src (c + n) filesz -> copied_from s s2 fr lo src c filesz.
Proof.
  intros Hr Hc Hcm Hn Hle Hend [C1 C2].
  destruct (copy_round_ok _ _ _ _ _ _ _ _ c n Hr Hc Hcm Hn Hle) as (_ & _ & Hm).
  assert (Hlp := fun k Hk => loc_page _ _ _ _ _ _ _ _ c n k Hr Hc Hcm Hn Hle Hk).
  assert (Hout : forall k, 0 <= k < filesz -> in_range (fr (lo + c)) n (src + k) = false).
  { intros k Hk. destruct (in_range _ _ _) eqn:E; [exfalso|done]. apply in_range_true in E.
    apply (loc_apart _ _ _ _ _ _ _ _ k (c + (src + k - fr (lo + c))) Hr Hk); [lia|].
    destruct (Hlp (c + (src + k - fr (lo + c))) ltac:(lia)) as [L _]. rewrite L by lia. lia. }
  split.
  - intros k Hk. destruct (decide (c + n <= k)) as [Hge|Hlt].
    + rewrite C1 by lia. rewrite Hm, Hout by lia. done.
    + destruct (Hlp k ltac:(lia)) as [L _]. rewrite C2.
      * rewrite Hm, L by lia. rewrite (proj2 (in_range_true _ _ _)) by lia. f_equal. lia.
      * intros k' Hk' E. destruct (Hlp k' ltac:(lia)) as [_ L']. rewrite <-E, L in L' by lia.
        assert (c <= k' < c + n) by (apply L', in_range_true; lia). lia.
  - intros x Hx. rewrite C2 by (intros k Hk; apply Hx; lia). rewrite Hm.
    destruct (in_range (fr (lo + c)) n x) eqn:E; [|done]. apply in_range_true in E. exfalso.
    apply (Hx (c + (x - fr (lo + c)))); [lia|].
    destruct (Hlp (c + (x - fr (lo + c))) ltac:(lia)) as [L _]. rewrite L by lia. lia.
Qed.

Lemma copy_segment_ok fl cr3 lo filesz src D fr : 0 <= lo -> lo + filesz <= 2 ^ 48 ->
  forall fuel s c, copy_ready fl s cr3 lo filesz src D fr -> 0 <= c -> (c mod 4096 = 0 \/ filesz <= c) ->
  filesz - c <= 4096 * Z.of_nat fuel ->
  exists s', copy_segment fuel s cr3 lo src filesz c = Some (true, s') /\ m_pages s' = m_pages s /\
    copy_ready fl s' cr3 lo filesz src D fr /\ (forall x, foreign s cr3 x -> foreign s' cr3 x) /\
    copied_from s s' fr lo src c filesz.
Proof.
  intros Hlo Hhi. induction fuel as [|fuel IH]; intros s c Hr Hc Hcm Hfuel; cbn [copy_segment].
  - rewrite (proj2 (Z.ltb_ge _ _)) by lia. exists s. split_and!; try done. split; [intros k Hk; lia|done].
  - destruct (Z.ltb_spec c filesz) as [Hlt|Hge].
    2:{ exists s. split_and!; try done. split; [intros k Hk; lia|done]. }
    destruct Hcm as [Hcm|]; [|lia].
    assert (Hv : pages_in lo (lo + filesz) (lo + c)) by (destruct Hr; split; [Z.div_mod_to_equations; lia|lia]).
    assert (Ecur : u64 (lo + c) = lo + c + 0) by (rewrite u64_small by (unfold is_u64; lia); lia).
    rewrite Ecur.
    assert (Hmod : (lo + c) mod 4096 = 0) by apply Hv.
    rewrite (resolve_owned fl s cr3 D fr (lo + c) 0);
      [|apply Hr|apply (cr_flags _ _ _ _ _ _ _ _ Hr), (cr_pages _ _ _ _ _ _ _ _ Hr), Hv
       |apply (cr_pages _ _ _ _ _ _ _ _ Hr), Hv|lia|rewrite Z.add_0_r; apply (cr_user _ _ _ _ _ _ _ _ Hr); lia].
    change (PAGE_SIZE - 1) with 4095. rewrite page_off_eq by (done || lia). unfold PAGE_SIZE.
    rewrite Z.sub_0_r, !Z.add_0_r.
    set (n := if filesz - c <? 4096 then filesz - c else 4096).
    assert (Hn : 0 < n <= 4096 /\ c + n <= filesz /\ (n = 4096 \/ c + n = filesz)) by (unfold n; case_b; lia).
    destruct Hn as (Hn1 & Hn2 & Hn3). clearbody n.
    destruct (copy_round_ok _ _ _ _ _ _ _ _ c n Hr Hc Hcm Hn1 Hn2) as (Hr1 & Hf1 & _).
    destruct (IH (copy_round s fr lo src c n) (c + n) Hr1) as (s2 & E & Hp2 & Hr2 & Hf2 & Hcp);
      [lia|destruct Hn3 as [->|]; [left; Z.div_mod_to_equations; lia|right; lia]|lia|].
    exists s2. split; [exact E|]. split; [done|]. split; [done|]. split; [auto|].
    by eapply copied_step.
Qed.

(** The copy loop ends within its fuel, whatever the image. *)
Lemma copy_segment_total cr3 vaddr src filesz fuel : forall s c,
  0 <= c -> filesz <= c \/ filesz - c + (vaddr + c) mod 4096 <= 4096 * Z.of_nat fuel ->
  is_Some (copy_segment fuel s cr3 vaddr src filesz c).
Proof.
  induction fuel as [|fuel IH]; intros s c Hc Hf; cbn [copy_segment].
  - rewrite (proj2 (Z.ltb_ge _ _)); [by eexists|]. pose proof (Z.mod_pos_bound (vaddr + c) 4096). lia.
  - destruct (Z.ltb_spec c filesz) as [Hlt|]; [|by eexists].
    destruct (vmm_resolve s cr3 (vaddr +% c)) as [[pa e]|]; [|by eexists].
    change (PAGE_SIZE - 1) with (Z.ones 12). rewrite Z.land_ones by lia. change (2 ^ 12) with 4096.
    assert (Eo : u64 (vaddr + c) mod 4096 = (vaddr + c) mod 4096) by cint.
    rewrite Eo. unfold PAGE_SIZE. pose proof (Z.mod_pos_bound (vaddr + c) 4096).
    case_b; (apply IH; [lia|]).
    + left. lia.
    + right. replace (vaddr + (c + (4096 - (vaddr + c) mod 4096))) with (((vaddr + c) / 4096 + 1) * 4096)
        by (pose proof (Z.div_mod (vaddr + c) 4096); lia).
      rewrite Z.mod_mul by lia. lia.
Qed.

Lemma copy_fuel_enough vaddr filesz : 0 <= filesz ->
  filesz - 0 + (vaddr + 0) mod 4096 <= 4096 * Z.of_nat (copy_fuel filesz).
Proof.
  intros Hf. unfold copy_fuel, PAGE_SIZE. pose proof (Z.mod_pos_bound (vaddr + 0) 4096).
  rewrite Z2Nat.id by (Z.div_mod_to_equations; lia). Z.div_mod_to_equations; lia.
Qed.

Lemma p_filesz_u64 m p : is_u64 (p_filesz m p).
Proof. apply ld64_range. Qed.

Lemma load_segment_total s image size cr3 bias p max_end :
  is_Some (load_segment s image size cr3 bias p max_end).
Proof.
  unfold load_segment. case_b; [by eexists|]. destruct (map_segment _ _ _ _ _) as [[] s1]; [|by eexists].
  destruct (copy_segment_total cr3 (p_vaddr (m_mem s) p +% bias) (image + p_offset (m_mem s) p) (p_filesz (m_mem s) p)
    (copy_fuel (p_filesz (m_mem s) p)) s1 0) as [[ok s2] ->]; [lia|right|].
  - apply copy_fuel_enough. pose proof (p_filesz_u64 (m_mem s) p) as U. unfold is_u64 in U. lia.
  - cbn. case_b; by eexists.
Qed.

Lemma load_segments_total n image size eh ph cr3 bias : forall i s max_end,
  is_Some (load_segments n i s image size eh ph cr3 bias max_end).
Proof.
  induction n as [|n IH]; intros i s me; cbn [load_segments]; [by eexists|].
  case_b; [apply IH|]. destruct (load_segment_total s image size cr3 bias (phdr ph i) me) as [[[ok s1] me1] ->].
  cbn. case_b; [by eexists|apply IH].
Qed.

(** ** One segment *)

Lemma seg_flags_ok f : flags_ok (seg_flags f).
Proof.
  unfold seg_flags. destruct (negb (Z.land f 2 =? 0)), (Z.land f 1 =? 0); split; vm_compute; try done; split; done.
Qed.

(** A segment the loader places right: it starts at a page boundary of the
    user half, its file part is in the file and not longer than the rest. *)
Record seg_sane (m : mem) (size bias p : Z) : Prop := {
  sg_align : (p_vaddr m p + bias) mod 4096 = 0;
  sg_low : USER_REGION_BASE <= p_vaddr m p + bias;
  sg_high : p_vaddr m p + bias + p_memsz m p < 2 ^ 47;
  sg_sizes : 0 <= p_filesz m p <= p_memsz m p;
  sg_file : 0 <= p_offset m p /\ p_offset m p + p_filesz m p < 2 ^ 64
}.

(** The byte of the segment at offset [k]. *)
Definition seg_byte (m : mem) (image p k : Z) : Z :=
  if k <? p_filesz m p then ld8 m (image + p_offset m p + k) else 0.

Definition pages_of (m : mem) (bias p : Z) : Z -> Prop :=
  pages_in (p_vaddr m p + bias) (page_up (p_vaddr m p + bias + p_memsz m p)).

(** What loading one segment does: its pages are added to those of [D]. *)
Record seg_loaded (s s' : mach A) (image cr3 bias p : Z) D fl fr fl' fr' : Prop := {
  sl_owned : owned fl' s' cr3 (fun v => pages_of (m_mem s) bias p v \/ D v) fr';
  sl_flags v : pages_of (m_mem s) bias p v \/ D v -> flags_ok (fl' v);
  sl_old v : D v -> fl' v = fl v /\ fr' v = fr v;
  sl_new v : pages_of (m_mem s) bias p v -> fl' v = seg_flags (p_flags (m_mem s) p);
  sl_kept : foreign_kept cr3 s s';
  sl_bytes k : 0 <= k < p_memsz (m_mem s) p ->
    ld8 (m_mem s') (loc fr' (p_vaddr (m_mem s) p + bias) k) = seg_byte (m_mem s) image p k
}.

Lemma seg_range m size bias p : is_u64 bias -> seg_sane m size bias p ->
  let v := p_vaddr m p + bias in
  u64 v = v /\ u64 (v + p_memsz m p) = v + p_memsz m p /\
  align_down_u64 v PAGE_SIZE = v /\ align_up_u64 (v + p_memsz m p) PAGE_SIZE = page_up (v + p_memsz m p) /\
  (forall va, v <= va < page_up (v + p_memsz m p) -> user_va va) /\ v <= page_up (v + p_memsz m p).
Proof.
  intros Hb [Ha Hl Hh Hs Hf]. cbv zeta. set (v := p_vaddr m p + bias) in *. unfold USER_REGION_BASE in Hl.
  assert (0 <= v < 2 ^ 47) by lia. destruct (page_up_props (v + p_memsz m p)) as [_ Hp].
  split_and!; [apply u64_small; unfold is_u64; lia|apply u64_small; unfold is_u64; lia| | | |lia].
  - change PAGE_SIZE with (2 ^ 12). rewrite align_down_pow2 by (unfold is_u64; lia). change (2 ^ 12) with 4096.
    Z.div_mod_to_equations; lia.
  - apply page_up_align. lia.
  - intros va Hva. apply user_va_range. unfold USER_REGION_BASE. lia.
Qed.

Lemma foreign_page s cr3 x y : foreign s cr3 x -> 0 <= y -> y / 4096 = x / 4096 -> foreign s cr3 y.
Proof. intros (H1 & H2 & H3) Hy E. split; [done|]. by rewrite E. Qed.

Lemma load_segment_ok s image size cr3 bias p me D fl fr s' me' :
  owned fl s cr3 D fr -> (forall v, D v -> flags_ok (fl v)) -> is_u64 bias -> seg_sane (m_mem s) size bias p ->
  (forall x, image <= x < image + size -> foreign s cr3 x) -> me mod 4096 = 0 ->
  load_segment s image size cr3 bias p me = Some (true, s', me') ->
  me' = Z.max me (page_up (p_vaddr (m_mem s) p + bias + p_memsz (m_mem s) p)) /\
  exists fl' fr', seg_loaded s s' image cr3 bias p D fl fr fl' fr'.
Proof.
  intros Ho Hfl Hb Hs Himg Hme. destruct (seg_range _ _ _ _ Hb Hs) as (E1 & E2 & E3 & E4 & Hu & Hle).
  unfold load_segment. rewrite E1, E2, E3, E4.
  set (m := m_mem s) in *. set (lo := p_vaddr m p + bias) in *. set (hi := page_up (lo + p_memsz m p)) in *.
  destruct Hs as [Ha Hl Hh Hsz [Hoff Hfile]]. fold lo in Ha, Hl, Hh.
  case_b; [done|]. apply Z.ltb_ge in E. rewrite u64_small in E by (unfold is_u64; lia).
  destruct (map_segment s cr3 lo hi (seg_flags (p_flags m p))) as [[] s1] eqn:Em; [|done].
  destruct (page_up_props (lo + p_memsz m p)) as [Hhi1 Hhi2]. fold hi in Hhi1, Hhi2.
  destruct (map_segment_ok s cr3 lo hi _ D fl fr s1 Ho (seg_flags_ok _) Ha Hhi1 Hle Hu Em) as (fl' & fr' & M).
  set (src := image + p_offset m p) in *. set (fs := p_filesz m p) in *.
  assert (Hsub : forall v, pages_in lo (lo + fs) v -> pages_in lo hi v) by (intros v [? ?]; split; [done|lia]).
  assert (Hr : copy_ready fl' s1 cr3 lo fs src (fun v => pages_in lo hi v \/ D v) fr').
  { constructor.
    - apply M.
    - intros v [Hv|Hv]; [rewrite (mp_flags _ _ _ _ _ _ _ _ _ _ M v Hv); apply seg_flags_ok|].
      rewrite (proj1 (mp_old _ _ _ _ _ _ _ _ _ _ M v Hv)). by apply Hfl.
    - intros v Hv. left. by apply Hsub.
    - done.
    - intros va Hva. apply Hu. lia.
    - intros k v Hk Hv. apply (mp_new _ _ _ _ _ _ _ _ _ _ M v); [by apply Hsub|]. apply Himg. unfold src. lia. }
  unfold USER_REGION_BASE in Hl.
  destruct (copy_segment_ok fl' cr3 lo fs src _ fr' ltac:(lia) ltac:(lia) (copy_fuel fs) s1 0 Hr) as (s2 & -> & _ & Hr2 & Hf2 & Hc1 & Hc2);
    [lia|by left| |].
  { pose proof (copy_fuel_enough 0 fs ltac:(lia)) as Hx. change ((0 + 0) mod 4096) with 0 in Hx. lia. }
  cbn. intros [= <- <-]. split; [clearbody hi; clear -Hme Hhi1 Hhi2; case_b; Z.div_mod_to_equations; lia|].
  assert (Hold : forall x, (forall v, pages_in lo hi v -> x / 4096 <> fr' v / 4096) -> ld8 (m_mem s2) x = ld8 (m_mem s1) x).
  { intros x Hx. apply Hc2. intros k Hk ->.
    assert (Hv : pages_in lo hi (lo + k / 4096 * 4096)) by (apply Hsub; split; Z.div_mod_to_equations; lia).
    apply (Hx _ Hv). destruct (hw_page _ _ _ _ _ (mp_owned _ _ _ _ _ _ _ _ _ _ M) _ (or_introl Hv)) as (_ & _ & [F _] & _).
    by apply frame_offset_page. }
  exists fl', fr'. constructor; [apply Hr2|apply Hr|apply M|apply M| |].
  - intros x Hx. destruct (mp_kept _ _ _ _ _ _ _ _ _ _ M x Hx) as [Hx1 Ex]. split; [by apply Hf2|].
    rewrite Hold; [done|]. intros v Hv. by apply (mp_new _ _ _ _ _ _ _ _ _ _ M v).
  - intros k Hk. fold m in Hk. unfold seg_byte. fold m. fold fs. destruct (Z.ltb_spec k fs) as [Hlt|Hge].
    + rewrite Hc1 by lia. destruct (mp_kept _ _ _ _ _ _ _ _ _ _ M (src + k)) as [_ ->]; [|done].
      apply Himg. unfold src. lia.
    + assert (Hv : pages_in lo hi (lo + k / 4096 * 4096)) by (split; Z.div_mod_to_equations; lia).
      destruct (hw_page _ _ _ _ _ (mp_owned _ _ _ _ _ _ _ _ _ _ M) _ (or_introl Hv)) as (_ & _ & [F _] & _).
      rewrite Hc2.
      * apply (mp_zero _ _ _ _ _ _ _ _ _ _ M _ _ Hv). by apply frame_offset_page.
      * intros k' Hk' Eloc. unfold loc in Eloc.
        assert (Hv' : pages_in lo hi (lo + k' / 4096 * 4096)) by (apply Hsub; split; Z.div_mod_to_equations; lia).
        destruct (hw_page _ _ _ _ _ (mp_owned _ _ _ _ _ _ _ _ _ _ M) _ (or_introl Hv')) as (_ & _ & [F' _] & _).
        destruct (frame_offset_inj _ _ k k' F F' Eloc) as [Ef Emod].
        apply (hw_inj _ _ _ _ _ (mp_owned _ _ _ _ _ _ _ _ _ _ M)) in Ef; [|by left..].
        pose proof (Z.div_mod k 4096). pose proof (Z.div_mod k' 4096). lia.
Qed.

(** ** The whole image *)

(** Program header [p] reads the same in both memories. *)
Record same_phdr (m m' : mem) (p : Z) : Prop := {
  sp_type : p_type m' p = p_type m p;
  sp_flags : p_flags m' p = p_flags m p;
  sp_offset : p_offset m' p = p_offset m p;
  sp_vaddr : p_vaddr m' p = p_vaddr m p;
  sp_filesz : p_filesz m' p = p_filesz m p;
  sp_memsz : p_memsz m' p = p_memsz m p
}.

Lemma phdr_stable m m' p : (forall x, p <= x < p + PHDR_SIZE -> ld8 m' x = ld8 m x) -> same_phdr m m' p.
Proof.
  unfold PHDR_SIZE. intros Hx.
  constructor; unfold p_type, p_flags, p_offset, p_vaddr, p_filesz, p_memsz; apply ldn_ext; intros x Hr; apply Hx; cbn in Hr; lia.
Qed.

(** What the loop has achieved after the headers below [i], in terms of the
    memory [m] before it. *)
Record segs_done (s0 : mach A) (image cr3 bias ph i me : Z) D fl fr (s1 : mach A) : Prop := {
  sd_owned : owned fl s1 cr3 D fr;
  sd_flags v : D v -> flags_ok (fl v);
  sd_kept : foreign_kept cr3 s0 s1;
  sd_me : me mod 4096 = 0 /\ 0 <= me;
  sd_brk j : 0 <= j < i -> p_type (m_mem s0) (phdr ph j) = PT_LOAD ->
    page_up (p_vaddr (m_mem s0) (phdr ph j) + bias + p_memsz (m_mem s0) (phdr ph j)) <= me;
  sd_bytes j k : 0 <= j < i -> p_type (m_mem s0) (phdr ph j) = PT_LOAD -> 0 <= k < p_memsz (m_mem s0) (phdr ph j) ->
    let lo := p_vaddr (m_mem s0) (phdr ph j) + bias in
    D (lo + k / 4096 * 4096) /\ fl (lo + k / 4096 * 4096) = seg_flags (p_flags (m_mem s0) (phdr ph j)) /\
    ld8 (m_mem s1) (loc fr lo k) = seg_byte (m_mem s0) image (phdr ph j) k
}.

Lemma segs_done_skip s0 image cr3 bias ph i me D fl fr s1 :
  segs_done s0 image cr3 bias ph i me D fl fr s1 -> p_type (m_mem s0) (phdr ph i) <> PT_LOAD ->
  segs_done s0 image cr3 bias ph (i + 1) me D fl fr s1.
Proof.
  intros [H1 H2 H3 H4 H5 H6] Hn.
  assert (Hj : forall j, 0 <= j < i + 1 -> p_type (m_mem s0) (phdr ph j) = PT_LOAD -> 0 <= j < i).
  { intros j Hj Ht. destruct (decide (j = i)) as [->|]; [done|lia]. }
  constructor; try done.
  - intros j Hj' Ht. apply H5; [by apply Hj|done].
  - intros j k Hj' Ht. apply H6; [by apply Hj|done].
Qed.

Lemma foreign_kept_trans cr3 (s1 s2 s3 : mach A) : foreign_kept cr3 s1 s2 -> foreign_kept cr3 s2 s3 -> foreign_kept cr3 s1 s3.
Proof. intros H1 H2 x Hx. destruct (H1 x Hx) as [Hx1 E1]. destruct (H2 x Hx1) as [Hx2 E2]. split; [done|congruence]. Qed.

Lemma segs_done_load s0 image size cr3 bias ph i me D fl fr s1 s2 me2 :
  segs_done s0 image cr3 bias ph i me D fl fr s1 -> 0 <= i -> is_u64 bias ->
  (forall x, image <= x < image + size -> foreign s0 cr3 x) ->
  image <= phdr ph i -> phdr ph i + PHDR_SIZE <= image + size ->
  seg_sane (m_mem s0) size bias (phdr ph i) ->
  load_segment s1 image size cr3 bias (phdr ph i) me = Some (true, s2, me2) ->
  exists D' fl' fr', segs_done s0 image cr3 bias ph (i + 1) me2 D' fl' fr' s2.
Proof.
  intros [H1 H2 H3 [H4 H4'] H5 H6] Hi Hb Himg Hp1 Hp2 Hs E. set (p := phdr ph i) in *.
  assert (Himg1 : forall x, image <= x < image + size -> foreign s1 cr3 x) by (intros x Hx; by apply H3, Himg).
  destruct (phdr_stable (m_mem s0) (m_mem s1) p) as [T F O V Fz Mz].
  { intros x Hx. apply H3, Himg. lia. }
  assert (Hs1 : seg_sane (m_mem s1) size bias p).
  { destruct Hs as [A1 A2 A3 A4 A5]. constructor; rewrite ?V, ?Mz, ?Fz, ?O; done. }
  destruct (load_segment_ok s1 image size cr3 bias p me D fl fr s2 me2 H1 H2 Hb Hs1 Himg1 H4 E) as (Eme & fl' & fr' & L).
  rewrite V, Mz in Eme.
  exists (fun v => pages_of (m_mem s1) bias p v \/ D v), fl', fr'.
  destruct L as [L1 L2 L3 L4 L5 L6].
  destruct (page_up_props (p_vaddr (m_mem s0) p + bias + p_memsz (m_mem s0) p)) as [PU1 PU2].
  constructor; [done|done|by eapply foreign_kept_trans| | |].
  - rewrite Eme. split; [|lia]. destruct (Z.max_spec me (page_up (p_vaddr (m_mem s0) p + bias + p_memsz (m_mem s0) p))) as [[_ ->]|[_ ->]]; done.
  - intros j Hj Ht. rewrite Eme. destruct (decide (j = i)) as [->|]; [fold p; lia|]. specialize (H5 j ltac:(lia) Ht). lia.
  - intros j k Hj Ht Hk. destruct (decide (j = i)) as [->|Hji].
    + fold p in Hk, Ht |- *. cbv zeta. set (lo := p_vaddr (m_mem s0) p + bias) in *.
      assert (Hv : pages_of (m_mem s1) bias p (lo + k / 4096 * 4096)).
      { unfold pages_of. rewrite V, Mz. fold lo. destruct Hs as [A1 _ _ _ _]. fold lo in A1. split; Z.div_mod_to_equations; lia. }
      split; [by left|]. rewrite L4 by done. rewrite F. split; [done|].
      specialize (L6 k). rewrite V, Mz in L6. fold lo in L6. rewrite L6 by done.
      unfold seg_byte. rewrite Fz, O. destruct (Z.ltb_spec k (p_filesz (m_mem s0) p)); [|done].
      apply H3, Himg. destruct Hs1 as [_ _ _ _ [? ?]]. rewrite O, Fz in *.
      unfold load_segment in E. rewrite O, Fz in E. case_b_in E; [done|]. apply Z.ltb_ge in E0.
      rewrite u64_small in E0 by (unfold is_u64; lia). lia.
    + destruct (H6 j k ltac:(lia) Ht Hk) as (HD & Hfl & Hby). cbv zeta in *.
      set (lo := p_vaddr (m_mem s0) (phdr ph j) + bias) in *. destruct (L3 _ HD) as [Ef Er].
      split; [by right|]. split; [by rewrite Ef|]. rewrite <-Hby. unfold loc. rewrite Er.
      destruct (hw_page _ _ _ _ _ H1 _ HD) as (_ & _ & [Fm _] & F0 & _ & _ & HF).
      apply L5. eapply foreign_page; [exact HF| |by apply frame_offset_page].
      pose proof (Z.mod_pos_bound k 4096). lia.
Qed.

(** The program headers lie in the file, and every loadable segment is one
    the loader places right. *)
Record image_sane (m : mem) (image size bias : Z) : Prop := {
  im_phdrs : 0 <= e_phoff m image /\ e_phoff m image + e_phnum m image * PHDR_SIZE <= size;
  im_segs j : 0 <= j < e_phnum m image -> p_type m (phdr (image + e_phoff m image) j) = PT_LOAD ->
    seg_sane m size bias (phdr (image + e_phoff m image) j)
}.

Lemma load_segments_ok s0 image size cr3 bias : is_u64 bias ->
  (forall x, image <= x < image + size -> foreign s0 cr3 x) -> image_sane (m_mem s0) image size bias ->
  let ph := image + e_phoff (m_mem s0) image in
  forall n i s1 me D fl fr s2 me2,
  0 <= i -> i + Z.of_nat n = e_phnum (m_mem s0) image ->
  segs_done s0 image cr3 bias ph i me D fl fr s1 ->
  load_segments n i s1 image size image ph cr3 bias me = Some (true, s2, me2) ->
  exists D' fl' fr', segs_done s0 image cr3 bias ph (e_phnum (m_mem s0) image) me2 D' fl' fr' s2.
Proof.
  intros Hb Himg [[Hp1 Hp2] Hseg] ph. induction n as [|n IH]; intros i s1 me D fl fr s2 me2 Hi Hn Hd; cbn [load_segments].
  - intros [= <- <-]. exists D, fl, fr. by replace (e_phnum (m_mem s0) image) with i by lia.
  - assert (Hin : image <= phdr ph i /\ phdr ph i + PHDR_SIZE <= image + size).
    { unfold phdr, ph. unfold PHDR_SIZE in *. nia. }
    destruct (phdr_stable (m_mem s0) (m_mem s1) (phdr ph i)) as [T _ _ _ _ _].
    { intros x Hx. apply (sd_kept _ _ _ _ _ _ _ _ _ _ _ Hd), Himg. lia. }
    rewrite T. destruct (Z.eqb_spec (p_type (m_mem s0) (phdr ph i)) PT_LOAD) as [Ht|Ht]; cbn [negb].
    + destruct (load_segment s1 image size cr3 bias (phdr ph i) me) as [[[[] s3] me3]|] eqn:E; [|done|done]. cbn.
      destruct (segs_done_load s0 image size cr3 bias ph i me D fl fr s1 s3 me3 Hd Hi Hb Himg) as (D' & fl' & fr' & Hd');
        [lia|lia|apply Hseg; [lia|done]|done|].
      apply (IH (i + 1) s3 me3 D' fl' fr'); [lia|lia|done].
    + apply (IH (i + 1) s1 me D fl fr); [lia|lia|]. by apply segs_done_skip.
Qed.

Lemma dyn_collect_none m image ph phnum : 0 <= phnum ->
  (forall j, 0 <= j < phnum -> p_type m (phdr ph j) <> PT_DYNAMIC) -> dyn_collect m image ph phnum = dyn_none.
Proof.
  intros Hn Hd. unfold dyn_collect.
  apply (for_range_ind (fun _ d => d = dyn_none)); [done|done|].
  intros i d Hi ->. rewrite (proj2 (Z.eqb_neq _ _)) by (by apply Hd). done.
Qed.

(** The flags of a segment in the file: bit 0 is execute, bit 1 write. *)
Lemma seg_rights f pflags :
  page_rights (leaf_entry f (seg_flags pflags)) (Z.testbit pflags 1) (Z.testbit pflags 0).
Proof.
  unfold seg_flags. pose proof (bit_unset pflags 1 ltac:(lia)) as E1. pose proof (bit_unset pflags 0 ltac:(lia)) as E0.
  change (2 ^ 1) with 2 in E1. change (2 ^ 0) with 1 in E0. rewrite E0, E1, negb_involutive.
  pose proof (leaf_rights f (Z.testbit pflags 1) (Z.testbit pflags 0)) as R. by destruct (Z.testbit pflags 0).
Qed.

(** The byte a program of address space [cr3] reads at [va], and its rights
    to the page. *)
Definition user_byte s (cr3 va b pflags : Z) : Prop :=
  exists pa e, vmm_resolve s cr3 va = Some (pa, e) /\ ld8 (m_mem s) pa = b /\
    page_rights e (Z.testbit pflags 1) (Z.testbit pflags 0).

Definition load_bias (m : mem) (image : Z) : Z :=
  if e_type m image =? ET_DYN then align_up_u64 (USER_REGION_BASE +% 16777216) PAGE_SIZE else 0.

Lemma load_bias_u64 m image : is_u64 (load_bias m image).
Proof. unfold load_bias. case_b; vm_compute; split; done. Qed.

(** C14: loading an ELF image that has no dynamic section and whose loadable
    segments start at page boundaries of the user half: if the loader
    succeeds, a program of the new address space reads at every address of
    every segment the byte of the file, or zero past the file part, and the
    entry of its page is present, open to programs, writable exactly when
    the segment is and closed to execution exactly when the segment is not
    executable; the entry point is the header's, shifted by the load bias;
    the break is at or above the end of every segment; and allocated memory
    outside the page tables, the image included, is unchanged. *)
Theorem elf64_load_image_correct s image size cr3 entry brk s' :
  pa_wf (m_pages s) -> space_wf s cr3 -> (forall x, image <= x < image + size -> foreign s cr3 x) ->
  EHDR_SIZE <= size -> image_sane (m_mem s) image size (load_bias (m_mem s) image) ->
  (forall j, 0 <= j < e_phnum (m_mem s) image -> p_type (m_mem s) (phdr (image + e_phoff (m_mem s) image) j) <> PT_DYNAMIC) ->
  elf64_load_image s image size cr3 = Some (Some (entry, brk), s') ->
  let bias := load_bias (m_mem s) image in
  entry = e_entry (m_mem s) image +% bias /\ pa_wf (m_pages s') /\ space_wf s' cr3 /\ foreign_kept cr3 s s' /\
  forall j, 0 <= j < e_phnum (m_mem s) image ->
    let p := phdr (image + e_phoff (m_mem s) image) j in
    p_type (m_mem s) p = PT_LOAD ->
    p_vaddr (m_mem s) p + bias + p_memsz (m_mem s) p <= brk /\
    forall k, 0 <= k < p_memsz (m_mem s) p ->
      user_byte s' cr3 (p_vaddr (m_mem s) p + bias + k) (seg_byte (m_mem s) image p k) (p_flags (m_mem s) p).
Proof.
  intros Hpg Hwf Himg Hsz Hsane Hdyn. unfold elf64_load_image.
  destruct (elf_validate (m_mem s) image size); cbn [negb]; [|done]. fold (load_bias (m_mem s) image).
  set (bias := load_bias (m_mem s) image) in *. set (ph := image + e_phoff (m_mem s) image) in *.
  destruct (load_segments _ 0 s image size image ph cr3 bias 0) as [[[[] s1] me]|] eqn:E; [|done|done]. cbn [mbind option_bind negb].
  assert (Hn : 0 <= e_phnum (m_mem s) image) by apply ldn_range.
  assert (Hinit : segs_done s image cr3 bias ph 0 0 (fun _ => False) (fun _ => 0) (fun _ => 0) s).
  { constructor; try done; try (intros; lia). }
  destruct (load_segments_ok s image size cr3 bias (load_bias_u64 _ _) Himg Hsane
    (Z.to_nat (e_phnum (m_mem s) image)) 0 s 0 _ _ _ s1 me ltac:(lia) ltac:(lia) Hinit E) as (D & fl & fr & [S1 S2 S3 S4 S5 S6]).
  assert (Hkeep : forall x, image <= x < image + size -> ld8 (m_mem s1) x = ld8 (m_mem s) x) by (intros x Hx; by apply S3, Himg).
  assert (En : e_phnum (m_mem s1) image = e_phnum (m_mem s) image).
  { apply ldn_ext. intros x Hx. apply Hkeep. unfold EHDR_SIZE in Hsz. cbn in Hx. lia. }
  assert (Ee : e_entry (m_mem s1) image = e_entry (m_mem s) image).
  { apply ldn_ext. intros x Hx. apply Hkeep. unfold EHDR_SIZE in Hsz. cbn in Hx. lia. }
  rewrite En, dyn_collect_none.
  2: done.
  2:{ intros j Hj. destruct (phdr_stable (m_mem s) (m_mem s1) (phdr ph j)) as [T _ _ _ _ _]; [|rewrite T; by apply Hdyn].
      intros x Hx. apply Hkeep. destruct Hsane as [[P1 P2] _]. unfold phdr, ph in Hx. unfold PHDR_SIZE in *. nia. }
  cbn. rewrite Ee. intros [= <- <- <-]. split; [done|]. split; [apply S1|]. split; [apply S1|]. split; [done|].
  fold ph in S5, S6. cbv zeta. intros j Hj Ht. split.
  { specialize (S5 j Hj Ht). destruct (page_up_props (p_vaddr (m_mem s) (phdr ph j) + bias + p_memsz (m_mem s) (phdr ph j))). lia. }
  intros k Hk. destruct (S6 j k Hj Ht Hk) as (HD & Hfl & Hby). cbv zeta in *. set (p := phdr ph j) in *.
  set (lo := p_vaddr (m_mem s) p + bias) in *.
  exists (loc fr lo k), (leaf_entry (fr (lo + k / 4096 * 4096)) (seg_flags (p_flags (m_mem s) p))).
  split; [|split; [done|apply seg_rights]].
  rewrite <-Hfl. replace (lo + k) with (lo + k / 4096 * 4096 + k mod 4096) by (pose proof (Z.div_mod k 4096); lia).
  pose proof (Z.mod_pos_bound k 4096).
  apply (resolve_owned fl s1 cr3 D fr); [done|by apply S2|done|lia|].
  destruct (im_segs _ _ _ _ Hsane j Hj Ht) as [A1 A2 A3 A4 A5]. fold ph p lo in A1, A2, A3.
  apply user_va_range. pose proof (Z.div_mod k 4096). unfold USER_REGION_BASE in *. lia.
Qed.

(** The fuel of the copy loop is enough for every image.  Reads of the model
    never fault: the code reads dynamic entries at an unchecked offset
    (elf.c:304) and checks a segment's file range by a sum that can wrap
    (elf.c:248), and would then read outside the image. *)
Theorem elf64_load_image_total s image size cr3 : is_Some (elf64_load_image s image size cr3).
Proof.
  unfold elf64_load_image. case_b; [by eexists|]. cbv zeta.
  match goal with |- is_Some (mbind _ (load_segments ?n ?i ?s ?im ?sz ?eh ?ph ?c ?b ?me)) =>
    destruct (load_segments_total n im sz eh ph c b i s me) as [[[ok s1] me1] ->] end.
  cbn. case_b; [by eexists|]. destruct (if _ : bool then _ else _) as [ok2 s2]. case_b; by eexists.
Qed.
End elf.

(** ** A concrete image

    One loadable segment of three bytes and seven zeros, at physical address
    8192, on the machine of VmmSpec.v. *)
Definition elf_bytes (vaddr_low : Z) : list Z :=
  [127; 69; 76; 70; 2; 1; 1; 0; 0; 0; 0; 0; 0; 0; 0; 0] ++      (* e_ident *)
  [2; 0; 62; 0; 1; 0; 0; 0] ++                                  (* e_type, e_machine, e_version *)
  [0; 0; 0; 0; 128; 0; 0; 0] ++                                 (* e_entry *)
  [64; 0; 0; 0; 0; 0; 0; 0] ++                                  (* e_phoff *)
  [0; 0; 0; 0; 0; 0; 0; 0] ++                                   (* e_shoff *)
  [0; 0; 0; 0; 64; 0; 56; 0; 1; 0; 0; 0; 0; 0; 0; 0] ++         (* e_flags .. e_shstrndx *)
  [1; 0; 0; 0; 5; 0; 0; 0] ++                                   (* p_type, p_flags *)
  [120; 0; 0; 0; 0; 0; 0; 0] ++                                 (* p_offset *)
  [vaddr_low; 0; 0; 0; 128; 0; 0; 0] ++                         (* p_vaddr *)
  [0; 0; 0; 0; 0; 0; 0; 0] ++                                   (* p_paddr *)
  [3; 0; 0; 0; 0; 0; 0; 0] ++                                   (* p_filesz *)
  [10; 0; 0; 0; 0; 0; 0; 0] ++                                  (* p_memsz *)
  [0; 16; 0; 0; 0; 0; 0; 0] ++                                  (* p_align *)
  [11; 22; 33].

Definition elf_mach (vaddr_low : Z) : mach pmm := mk_mach (mem_put (fun _ => 0) 8192 (elf_bytes vaddr_low)) demo_pmm.

Lemma elf_low_zero v a : a + 8 <= 8192 -> ld64 (m_mem (elf_mach v)) a = 0.
Proof.
  intros Ha. rewrite (ldn_ext 8 _ (fun _ => 0)); [reflexivity|]. intros x Hx. cbn in Hx. unfold ld8, elf_mach. cbn [m_mem].
  unfold mem_put. rewrite (proj2 (in_range_false _ _ _)) by lia. reflexivity.
Qed.

Lemma elf_space v : space_wf (elf_mach v) 4096.
Proof.
  apply empty_space_wf; [split; [by apply (page_frame 1)|]; vm_compute; done|].
  intros i Hi. rewrite elf_low_zero by lia. reflexivity.
Qed.

Lemma elf_image_foreign v x : 8192 <= x < 8192 + 123 -> foreign (elf_mach v) 4096 x.
Proof.
  intros Hx. split; [lia|]. replace (x / 4096) with 2 by (Z.div_mod_to_equations; lia). split; [reflexivity|].
  intros [|i p] a (_ & Hf & Hh); cbn [walk]; [intros [= <-]; lia|].
  inversion_clear Hf. rewrite elf_low_zero by lia. done.
Qed.

Lemma elf_sane : image_sane (m_mem (elf_mach 0)) 8192 123 0.
Proof.
  assert (En : e_phnum (m_mem (elf_mach 0)) 8192 = 1) by (vm_compute; reflexivity).
  assert (Eo : e_phoff (m_mem (elf_mach 0)) 8192 = 64) by (vm_compute; reflexivity).
  constructor; rewrite En, Eo; [unfold PHDR_SIZE; lia|].
  intros j Hj _. assert (j = 0) as -> by lia. constructor; vm_compute; try done; split; done.
Qed.

Lemma elf64_load_image_correct_witness :
  exists s', elf64_load_image (elf_mach 0) 8192 123 4096 = Some (Some (USER_REGION_BASE, USER_REGION_BASE + 4096), s') /\
    user_byte s' 4096 (USER_REGION_BASE + 1) 22 5 /\ user_byte s' 4096 (USER_REGION_BASE + 9) 0 5.
Proof.
  assert (E : fst <$> elf64_load_image (elf_mach 0) 8192 123 4096 = Some (Some (USER_REGION_BASE, USER_REGION_BASE + 4096)))
    by (vm_compute; reflexivity).
  destruct (elf64_load_image (elf_mach 0) 8192 123 4096) as [[r s']|] eqn:El; [|discriminate E]. cbn in E. injection E as ->.
  exists s'. split; [reflexivity|].
  assert (Eb : load_bias (m_mem (elf_mach 0)) 8192 = 0) by (vm_compute; reflexivity).
  assert (En : e_phnum (m_mem (elf_mach 0)) 8192 = 1) by (vm_compute; reflexivity).
  assert (Hm : p_memsz (m_mem (elf_mach 0)) 8256 = 10) by (vm_compute; reflexivity).
  destruct (elf64_load_image_correct (elf_mach 0) 8192 123 4096 USER_REGION_BASE (USER_REGION_BASE + 4096) s' demo_pages (elf_space 0) (elf_image_foreign 0))
    as (_ & _ & _ & _ & Hb); [unfold EHDR_SIZE; lia|rewrite Eb; apply elf_sane| |exact El|].
  - rewrite En. intros j Hj. assert (j = 0) as -> by lia. vm_compute. discriminate.
  - rewrite En, Eb in Hb. destruct (Hb 0 ltac:(lia)) as [_ Hk]; [vm_compute; reflexivity|].
    change (phdr (8192 + e_phoff (m_mem (elf_mach 0)) 8192) 0) with 8256 in Hk. rewrite Hm in Hk.
    assert (Hf : p_flags (m_mem (elf_mach 0)) 8256 = 5) by (vm_compute; reflexivity). rewrite Hf in Hk.
    split; [exact (Hk 1 ltac:(lia))|exact (Hk 9 ltac:(lia))].
Defined.

(** A segment that does not start at a page boundary is put at the wrong
    place: vmm_resolve already returns the address with its offset in the
    page, and the loader adds the offset again.  The program finds a zero
    where the file has its first byte, which ends up one offset further. *)
Theorem elf_unaligned_segment_misplaced :
  let r := elf64_load_image (elf_mach 16) 8192 123 4096 in
  fst <$> r = Some (Some (USER_REGION_BASE, USER_REGION_BASE + 4096)) /\
  p_vaddr (m_mem (elf_mach 16)) 8256 = USER_REGION_BASE + 16 /\ seg_byte (m_mem (elf_mach 16)) 8192 8256 0 = 11 /\
  (fun r => ld8 (m_mem (snd r)) <$> (fst <$> vmm_resolve (snd r) 4096 (USER_REGION_BASE + 16))) <$> r = Some (Some 0) /\
  (fun r => ld8 (m_mem (snd r)) <$> (fst <$> vmm_resolve (snd r) 4096 (USER_REGION_BASE + 32))) <$> r = Some (Some 11).
Proof. split_and!; vm_compute; reflexivity. Qed.
