(* ===== verification/Devfs.v ===== *)
(** * Device files (src/devfs.c)

    The disk node as a byte array over 512-byte sectors, the keyboard and
    mouse nodes as event streams, and the set-up of the /dev directory.

    The sector device is an interface: [BlockOps] are the operations of
    src/virtio_blk.c the code calls, [BlockLaws] what a disk promises.  The
    memory a read fills is returned as the list of bytes written to it, also
    when the read fails part-way. *)

From stdpp Require Import prelude list gmap.
From Stdlib Require Import ZArith Lia.
From S2P Require Import Prelude Lib Ring Input Vfs.
#[local] Open Scope Z_scope.
#[local] Open Scope cint_scope.

Definition DEV_SECTOR_SIZE : Z := 512.

Class BlockOps (B : Type) := {
  blk_ready : B -> bool;                            (* virtio_blk_is_ready *)
  blk_read : B -> Z -> option (list Z) * B;         (* virtio_blk_read_sector *)
  blk_write : B -> Z -> list Z -> bool * B          (* virtio_blk_write_sector *)
}.

(** A disk of [blk_count] sectors: reads return what is stored, writes
    store, and neither fails inside the disk. *)
Class BlockLaws (B : Type) `{BlockOps B} := {
  blk_count : B -> Z;
  blk_data : B -> Z -> list Z;
  blk_len d k : length (blk_data d k) = 512%nat;
  blk_bytes d k : Forall is_u8 (blk_data d k);
  blk_read_ok d k : blk_ready d = true -> 0 <= k < blk_count d ->
    exists d', blk_read d k = (Some (blk_data d k), d') /\ blk_ready d' = true /\ blk_count d' = blk_count d /\
      forall j, blk_data d' j = blk_data d j;
  blk_write_ok d k s : blk_ready d = true -> 0 <= k < blk_count d -> length s = 512%nat -> Forall is_u8 s ->
    exists d', blk_write d k s = (true, d') /\ blk_ready d' = true /\ blk_count d' = blk_count d /\
      forall j, blk_data d' j = if j =? k then s else blk_data d j
}.

Section disk_def.
Context {B : Type} `{BlockOps B}.
Implicit Types (d : B).

(** [while (done < len)]; [out] are the bytes stored so far. *)
Fixpoint disk_read_loop (fuel : nat) d (offset len done : Z) (out : list Z) : option (Z * list Z * B) :=
  if done <? len then
    match fuel with
    | O => None
    | S fuel' =>
        let off := offset +% done in
        let sector_idx := off / DEV_SECTOR_SIZE in
        let sector_off := off mod DEV_SECTOR_SIZE in
        let chunk := DEV_SECTOR_SIZE - sector_off in
        let chunk := if len - done <? chunk then len - done else chunk in
        match blk_read d sector_idx with
        | (None, d) => Some (-1, out, d)
        | (Some sector, d) =>
            disk_read_loop fuel' d offset len (done + chunk)
              (out ++ take (Z.to_nat chunk) (drop (Z.to_nat sector_off) sector))
        end
    end
  else Some (done, out, d).

(** Every round moves at least one byte. *)
Definition dev_disk_read d (offset buf len : Z) : option (Z * list Z * B) :=
  if (buf =? 0) || negb (blk_ready d) then Some (-1, [], d)
  else disk_read_loop (Z.to_nat len) d offset len 0 [].

(** [sector] is the buffer on the stack, kept from round to round. *)
Fixpoint disk_write_loop (fuel : nat) d (offset : Z) (bytes : list Z) (len done : Z) (sector : list Z)
    : option (Z * B) :=
  if done <? len then
    match fuel with
    | O => None
    | S fuel' =>
        let off := offset +% done in
        let sector_idx := off / DEV_SECTOR_SIZE in
        let sector_off := off mod DEV_SECTOR_SIZE in
        let chunk := DEV_SECTOR_SIZE - sector_off in
        let chunk := if len - done <? chunk then len - done else chunk in
        let '(loaded, d) :=
          if negb (sector_off =? 0) || negb (chunk =? DEV_SECTOR_SIZE) then blk_read d sector_idx
          else (Some sector, d) in
        match loaded with
        | None => Some (-1, d)
        | Some sector =>
            let sector := splice sector (Z.to_nat sector_off) (take (Z.to_nat chunk) (drop (Z.to_nat done) bytes)) in
            match blk_write d sector_idx sector with
            | (false, d) => Some (-1, d)
            | (true, d) => disk_write_loop fuel' d offset bytes len (done + chunk) sector
            end
        end
    end
  else Some (done, d).

(** [stack] is what the uninitialised buffer holds. *)
Definition dev_disk_write d (stack : list Z) (offset buf : Z) (bytes : list Z) : option (Z * B) :=
  let len := Z.of_nat (length bytes) in
  if (buf =? 0) || negb (blk_ready d) then Some (-1, d)
  else disk_write_loop (length bytes) d offset bytes len 0 stack.
End disk_def.

(** ** Keyboard and mouse *)

Definition KEY_EVENT_SIZE : Z := 2.
Definition MOUSE_EVENT_SIZE : Z := 4.

(** The result, the events stored and the queues left behind. *)
Definition dev_kbd_read (s : input_state) (buf len : Z) : Z * list key_event * input_state :=
  if buf =? 0 then (-1, [], s)
  else
    let '(evs, s) := brk (for_range_exit 0 (len / KEY_EVENT_SIZE) (fun _ '(evs, s) =>
      match input_read_key s with
      | None => inr (evs, s)
      | Some (e, s) => inl (evs ++ [e], s)
      end) ([], s)) in
    (Z.of_nat (length evs) * KEY_EVENT_SIZE, evs, s).

Definition dev_mouse_read (s : input_state) (buf len : Z) : Z * list mouse_event * input_state :=
  if buf =? 0 then (-1, [], s)
  else
    let '(evs, s) := brk (for_range_exit 0 (len / MOUSE_EVENT_SIZE) (fun _ '(evs, s) =>
      match input_read_mouse s with
      | None => inr (evs, s)
      | Some (e, s) => inl (evs ++ [e], s)
      end) ([], s)) in
    (Z.of_nat (length evs) * MOUSE_EVENT_SIZE, evs, s).

(** ** The /dev directory *)

Section devfs_init.
Context (oom : Z -> bool).

Definition NAME_dev : list Z := [100; 101; 118].
Definition NAME_disk : list Z := [100; 105; 115; 107].
Definition NAME_kbd : list Z := [107; 98; 100].
Definition NAME_mouse : list Z := [109; 111; 117; 115; 101].

(** One device node; [inr] is the early return when it cannot be made. *)
Definition add_device (f : fs) (dir : Z) (name : list Z) (ops : node_ops) : option (fs + fs) :=
  r ← vfs_find_child f dir name;
  if negb (r =? 0) then Some (inl f)
  else
    let '(node, f) := vfs_create_node oom f name VFS_NODE_DEV ops 0 in
    if node =? 0 then Some (inr f)
    else '(_, f) ← vfs_add_child f dir node; Some (inl f).

Definition devfs_init (f : fs) : option fs :=
  let root := vfs_root f in
  if root =? 0 then Some f
  else
    dev_dir ← vfs_find_child f root NAME_dev;
    '(dev_dir, f) ← (if dev_dir =? 0 then
                       '(_, f) ← vfs_mkdir oom f (SLASH :: NAME_dev);
                       d ← vfs_find_child f root NAME_dev;
                       Some (d, f)
                     else Some (dev_dir, f));
    if dev_dir =? 0 then Some f
    else
      n ← fs_nodes f !! dev_dir;
      if negb (bool_decide (vn_type n = VFS_NODE_DIR)) then Some f
      else
        r ← add_device f dev_dir NAME_disk OpsDisk;
        match r with
        | inr f => Some f
        | inl f =>
            r ← add_device f dev_dir NAME_kbd OpsKbd;
            match r with
            | inr f => Some f
            | inl f => r ← add_device f dev_dir NAME_mouse OpsMouse; Some (brk r)
            end
        end.
End devfs_init.

(** ** The disk as a byte array *)

(** Byte [i] of a disk with sectors [c]. *)
Definition disk_byte (c : Z -> list Z) (i : Z) : Z := nth (Z.to_nat (i mod 512)) (c (i / 512)) 0.

(** [n] bytes from [off] on. *)
Definition slice (c : Z -> list Z) (off : Z) (n : nat) : list Z := (fun k => disk_byte c (off + Z.of_nat k)) <$> seq 0 n.

Lemma slice_app c off n m : slice c off (n + m) = slice c off n ++ slice c (off + Z.of_nat n) m.
Proof.
  unfold slice. rewrite seq_app, fmap_app. f_equal.
  replace (seq (0 + n) m) with (Nat.add n <$> seq 0 m) by (rewrite fmap_add_seq; f_equal; lia). rewrite <-list_fmap_compose.
  apply list_fmap_ext. intros i k _. cbn. f_equal. lia.
Qed.

Lemma slice_ext c c' off n : (forall j, c' j = c j) -> slice c' off n = slice c off n.
Proof. intros Hc. apply list_fmap_ext. intros i k _. unfold disk_byte. by rewrite Hc. Qed.

Lemma slice_length c off n : length (slice c off n) = n.
Proof. unfold slice. by rewrite length_fmap, length_seq. Qed.

Lemma slice_sector c off n : 0 <= off -> off mod 512 + Z.of_nat n <= 512 -> length (c (off / 512)) = 512%nat ->
  slice c off n = take n (drop (Z.to_nat (off mod 512)) (c (off / 512))).
Proof.
  intros Ho Hn Hl. apply list_eq. intros k. unfold slice. rewrite list_lookup_fmap.
  destruct (decide (k < n)%nat) as [Hk|Hk].
  - rewrite lookup_seq_lt by done. rewrite lookup_take_lt by done. rewrite lookup_drop. cbn. unfold disk_byte.
    replace ((off + Z.of_nat k) / 512) with (off / 512) by (Z.div_mod_to_equations; lia).
    replace (Z.to_nat ((off + Z.of_nat k) mod 512)) with (Z.to_nat (off mod 512) + k)%nat by (Z.div_mod_to_equations; lia).
    destruct (lookup_lt_is_Some_2 (c (off / 512)) (Z.to_nat (off mod 512) + k)) as [x Ex]; [Z.div_mod_to_equations; lia|].
    by rewrite nth_lookup, Ex.
  - rewrite (lookup_ge_None_2 (seq 0 n)) by (rewrite length_seq; lia).
    rewrite (lookup_ge_None_2 (take n _)); [done|]. rewrite length_take. lia.
Qed.

(** The bytes of one round: the rest of the sector or of the request. *)
Definition round_len (offset len done : Z) : Z :=
  if len - done <? 512 - (offset + done) mod 512 then len - done else 512 - (offset + done) mod 512.

Lemma round_len_bounds offset len done : done < len ->
  0 < round_len offset len done <= len - done /\ (offset + done) mod 512 + round_len offset len done <= 512.
Proof.
  intros Hd. unfold round_len. pose proof (Z.mod_pos_bound (offset + done) 512). case_b; lia.
Qed.

Section disk.
Context {B : Type} `{BlockLaws B}.
Implicit Types (d : B).

Lemma sector_in_range d off n : 0 <= off -> 0 < n -> off + n <= 512 * blk_count d -> 0 <= off / 512 < blk_count d.
Proof. intros. Z.div_mod_to_equations; lia. Qed.

Lemma read_loop_ok offset len : 0 <= offset -> offset + len < 2 ^ 64 ->
  forall fuel d done out, blk_ready d = true -> 0 <= done <= len -> len - done <= Z.of_nat fuel ->
  offset + len <= 512 * blk_count d ->
  exists d', disk_read_loop fuel d offset len done out =
      Some (len, out ++ slice (blk_data d) (offset + done) (Z.to_nat (len - done)), d') /\
    blk_ready d' = true /\ blk_count d' = blk_count d /\ (forall j, blk_data d' j = blk_data d j).
Proof.
  intros Ho Hmax. induction fuel as [|fuel IH]; intros d done out Hr Hd Hf Hc; cbn [disk_read_loop].
  - assert (done = len) as -> by lia. rewrite Z.ltb_irrefl. exists d.
    replace (Z.to_nat (len - len)) with 0%nat by lia. cbn. by rewrite app_nil_r.
  - destruct (Z.ltb_spec done len) as [Hlt|Hge].
    2:{ assert (done = len) as -> by lia. exists d. replace (Z.to_nat (len - len)) with 0%nat by lia. cbn. by rewrite app_nil_r. }
    rewrite u64_small by (unfold is_u64; lia). unfold DEV_SECTOR_SIZE.
    fold (round_len offset len done). destruct (round_len_bounds offset len done Hlt) as [Hn1 Hn2].
    set (n := round_len offset len done) in *. clearbody n.
    destruct (blk_read_ok d ((offset + done) / 512) Hr) as (d1 & -> & Hr1 & Hc1 & Hd1);
      [apply (sector_in_range d _ n); lia|].
    destruct (IH d1 (done + n) (out ++ take (Z.to_nat n) (drop (Z.to_nat ((offset + done) mod 512)) (blk_data d ((offset + done) / 512)))) Hr1)
      as (d2 & E & Hr2 & Hc2 & Hd2); [lia|lia|lia|].
    exists d2. split; [|split; [done|split; [congruence|intros j; by rewrite Hd2]]].
    rewrite E, (slice_ext _ _ _ _ Hd1). f_equal. f_equal. f_equal. rewrite <-app_assoc. f_equal.
    rewrite <-slice_sector by (rewrite ?Z2Nat.id by lia; lia || apply blk_len).
    replace (Z.to_nat (len - done)) with (Z.to_nat n + Z.to_nat (len - (done + n)))%nat by lia.
    rewrite slice_app. f_equal. f_equal. lia.
Qed.

(** Reading the disk node inside the disk returns exactly the requested
    bytes, wherever the request starts and ends in its sectors, and leaves
    the disk as it is. *)
Theorem dev_disk_read_correct d offset buf len :
  blk_ready d = true -> buf <> 0 -> 0 <= offset -> 0 <= len -> offset + len < 2 ^ 64 ->
  offset + len <= 512 * blk_count d ->
  exists d', dev_disk_read d offset buf len = Some (len, slice (blk_data d) offset (Z.to_nat len), d') /\
    forall j, blk_data d' j = blk_data d j.
Proof.
  intros Hr Hb Ho Hl Hm Hc. unfold dev_disk_read. rewrite (proj2 (Z.eqb_neq _ _)) by done. rewrite Hr. cbn [orb negb].
  destruct (read_loop_ok offset len Ho Hm (Z.to_nat len) d 0 [] Hr) as (d' & E & _ & _ & Hd); [lia|lia|lia|].
  exists d'. split; [|done]. rewrite E. by rewrite Z.add_0_r, Z.sub_0_r.
Qed.

(** Sector contents with byte range [off, off + length b) replaced by [b]. *)
Definition patched (c c' : Z -> list Z) (off : Z) (b : list Z) : Prop :=
  forall i, 0 <= i -> disk_byte c' i =
    if in_range off (Z.of_nat (length b)) i then nth (Z.to_nat (i - off)) b 0 else disk_byte c i.

Lemma patched_sector c c' off b : 0 <= off -> off mod 512 + Z.of_nat (length b) <= 512 -> (0 < length b)%nat ->
  length (c (off / 512)) = 512%nat ->
  (forall j, c' j = if j =? off / 512 then splice (c (off / 512)) (Z.to_nat (off mod 512)) b else c j) -> patched c c' off b.
Proof.
  intros Ho Hn Hb Hl Hc i Hi. unfold disk_byte. rewrite Hc. destruct (Z.eqb_spec (i / 512) (off / 512)) as [E|E].
  - rewrite E. unfold splice. set (r := Z.to_nat (off mod 512)).
    assert (Hr : (r + length b <= 512)%nat) by (subst r; Z.div_mod_to_equations; lia).
    assert (Lt : length (take r (c (off / 512))) = r) by (rewrite length_take; lia).
    in_range_cases.
    + rewrite app_nth2 by (rewrite Lt; subst r; Z.div_mod_to_equations; lia). rewrite Lt.
      rewrite app_nth1 by (subst r; Z.div_mod_to_equations; lia). f_equal. subst r. Z.div_mod_to_equations; lia.
    + destruct (decide (i < off)) as [Hlt|Hge].
      * rewrite app_nth1 by (rewrite Lt; subst r; Z.div_mod_to_equations; lia).
        rewrite !nth_lookup, lookup_take_lt by (subst r; Z.div_mod_to_equations; lia). done.
      * rewrite app_nth2 by (rewrite Lt; subst r; Z.div_mod_to_equations; lia). rewrite Lt.
        rewrite app_nth2 by (subst r; Z.div_mod_to_equations; lia).
        rewrite !nth_lookup, lookup_drop. f_equal. f_equal. subst r. Z.div_mod_to_equations; lia.
  - in_range_cases; [|done]. exfalso. apply E. Z.div_mod_to_equations; lia.
Qed.

Lemma patched_app c1 c2 c3 off a b :
  patched c1 c2 off a -> patched c2 c3 (off + Z.of_nat (length a)) b -> patched c1 c3 off (a ++ b).
Proof.
  intros H1 H2 i Hi. rewrite H2, H1 by done. rewrite length_app. in_range_cases; try lia; try done.
  - rewrite app_nth2 by lia. f_equal. lia.
  - rewrite app_nth1 by lia. done.
Qed.

Lemma patched_nil c off : patched c c off [].
Proof. intros i Hi. cbn. in_range_cases; [lia|done]. Qed.

Lemma splice_len bytes off b : (off + length b <= length bytes)%nat -> length (splice bytes off b) = length bytes.
Proof. intros. unfold splice. rewrite !length_app, length_take, length_drop. lia. Qed.

Lemma splice_bytes bytes off b : Forall is_u8 bytes -> Forall is_u8 b -> Forall is_u8 (splice bytes off b).
Proof. intros. unfold splice. rewrite !Forall_app. eauto using Forall_take, Forall_drop. Qed.

(** One round of the write loop. *)
Lemma write_round d offset bytes done sector :
  let len := Z.of_nat (length bytes) in let off := offset + done in let n := round_len offset len done in
  blk_ready d = true -> 0 <= offset -> 0 <= done < len -> offset + len <= 512 * blk_count d -> length sector = 512%nat ->
  Forall is_u8 bytes -> Forall is_u8 sector ->
  let piece := take (Z.to_nat n) (drop (Z.to_nat done) bytes) in
  exists s0 d1 d2,
    (if negb (off mod 512 =? 0) || negb (n =? 512) then blk_read d (off / 512) else (Some sector, d)) = (Some s0, d1) /\
    blk_write d1 (off / 512) (splice s0 (Z.to_nat (off mod 512)) piece) = (true, d2) /\
    length (splice s0 (Z.to_nat (off mod 512)) piece) = 512%nat /\
    Forall is_u8 (splice s0 (Z.to_nat (off mod 512)) piece) /\
    blk_ready d2 = true /\ blk_count d2 = blk_count d /\ patched (blk_data d) (blk_data d2) off piece.
Proof.
  intros len off n Hr Ho Hd Hc Hl Hby Hsy piece.
  destruct (round_len_bounds offset len done ltac:(lia)) as [Hn1 Hn2]. fold n off in Hn1, Hn2.
  assert (Hk : 0 <= off / 512 < blk_count d) by (apply (sector_in_range d _ n); lia).
  assert (Lp : length piece = Z.to_nat n) by (unfold piece; rewrite length_take, length_drop; lia).
  assert (Hm : 0 <= off mod 512 < 512) by (apply Z.mod_pos_bound; lia).
  assert (Hcase : exists s0 d1,
    (if negb (off mod 512 =? 0) || negb (n =? 512) then blk_read d (off / 512) else (Some sector, d)) = (Some s0, d1) /\
    length s0 = 512%nat /\ Forall is_u8 s0 /\ blk_ready d1 = true /\ blk_count d1 = blk_count d /\ (forall j, blk_data d1 j = blk_data d j) /\
    splice s0 (Z.to_nat (off mod 512)) piece = splice (blk_data d (off / 512)) (Z.to_nat (off mod 512)) piece).
  { case_b.
    - destruct (blk_read_ok d (off / 512) Hr Hk) as (d1 & E1 & R1 & C1 & D1).
      exists (blk_data d (off / 512)), d1. split_and!; try done; [apply blk_len|apply blk_bytes].
    - apply orb_false_iff in E as [E1%negb_false_iff%Z.eqb_eq E2%negb_false_iff%Z.eqb_eq].
      exists sector, d. split_and!; try done. unfold splice. rewrite E1. cbn [Z.to_nat take app].
      rewrite !drop_ge by (rewrite ?blk_len; lia). done. }
  destruct Hcase as (s0 & d1 & E & L0 & Y0 & R1 & C1 & D1 & Es).
  assert (Ls : length (splice s0 (Z.to_nat (off mod 512)) piece) = 512%nat) by (rewrite splice_len; lia).
  assert (Ys : Forall is_u8 (splice s0 (Z.to_nat (off mod 512)) piece)).
  { apply splice_bytes; [done|]. unfold piece. by apply Forall_take, Forall_drop. }
  destruct (blk_write_ok d1 (off / 512) (splice s0 (Z.to_nat (off mod 512)) piece) R1) as (d2 & Ew & R2 & C2 & D2); [lia|done|done|].
  exists s0, d1, d2. split_and!; try done; [congruence|].
  apply patched_sector; [lia|lia|lia|apply blk_len|]. intros j. rewrite D2, Es, D1. done.
Qed.

Lemma write_loop_ok offset bytes : Forall is_u8 bytes -> 0 <= offset -> offset + Z.of_nat (length bytes) < 2 ^ 64 ->
  forall fuel d done sector, let len := Z.of_nat (length bytes) in
  blk_ready d = true -> 0 <= done <= len -> len - done <= Z.of_nat fuel ->
  offset + len <= 512 * blk_count d -> length sector = 512%nat -> Forall is_u8 sector ->
  exists d', disk_write_loop fuel d offset bytes len done sector = Some (len, d') /\
    blk_ready d' = true /\ blk_count d' = blk_count d /\
    patched (blk_data d) (blk_data d') (offset + done) (drop (Z.to_nat done) bytes).
Proof.
  intros Hby Ho Hmax. induction fuel as [|fuel IH]; intros d done sector len Hr Hd Hf Hc Hl Hsy; cbn [disk_write_loop].
  - assert (done = len) as -> by lia. rewrite Z.ltb_irrefl. exists d. split_and!; try done.
    rewrite drop_ge by lia. apply patched_nil.
  - destruct (Z.ltb_spec done len) as [Hlt|Hge].
    2:{ assert (done = len) as -> by lia. exists d. split_and!; try done. rewrite drop_ge by lia. apply patched_nil. }
    rewrite u64_small by (unfold is_u64; lia). unfold DEV_SECTOR_SIZE. fold (round_len offset len done).
    destruct (round_len_bounds offset len done Hlt) as [Hn1 Hn2].
    destruct (write_round d offset bytes done sector Hr Ho ltac:(lia) Hc Hl Hby Hsy) as (s0 & d1 & d2 & E1 & E2 & L2 & Y2 & R2 & C2 & P2).
    fold len in E1, E2, L2, Y2, P2. set (n := round_len offset len done) in *. clearbody n.
    rewrite E1, E2.
    destruct (IH d2 (done + n) (splice s0 (Z.to_nat ((offset + done) mod 512)) (take (Z.to_nat n) (drop (Z.to_nat done) bytes))) R2)
      as (d3 & E & R3 & C3 & P3); [lia|lia|rewrite C2; lia|done|done|].
    exists d3. split; [exact E|]. split; [done|]. split; [congruence|].
    rewrite <-(take_drop (Z.to_nat n) (drop (Z.to_nat done) bytes)).
    eapply patched_app; [exact P2|]. rewrite drop_drop, length_take, length_drop.
    replace (Z.to_nat done + Z.to_nat n)%nat with (Z.to_nat (done + n)) by lia.
    replace (offset + done + Z.of_nat (Z.to_nat n `min` (length bytes - Z.to_nat done))) with (offset + (done + n)) by lia. done.
Qed.

(** Writing to the disk node inside the disk replaces exactly the bytes
    of the request, also when it starts or ends inside a sector, whatever
    the sector buffer on the stack held; reading the range back returns the
    bytes written. *)
Lemma dev_disk_write_correct d stack offset buf bytes :
  let len := Z.of_nat (length bytes) in
  blk_ready d = true -> buf <> 0 -> 0 <= offset -> offset + len < 2 ^ 64 -> offset + len <= 512 * blk_count d ->
  length stack = 512%nat -> Forall is_u8 stack -> Forall is_u8 bytes ->
  exists d', dev_disk_write d stack offset buf bytes = Some (len, d') /\
    (forall i, 0 <= i -> disk_byte (blk_data d') i =
       if in_range offset len i then nth (Z.to_nat (i - offset)) bytes 0 else disk_byte (blk_data d) i) /\
    exists d'', dev_disk_read d' offset buf len = Some (len, bytes, d'').
Proof.
  intros len Hr Hb Ho Hm Hc Hs Hsy Hby. unfold dev_disk_write. rewrite (proj2 (Z.eqb_neq _ _)) by done. rewrite Hr. cbn [orb negb].
  destruct (write_loop_ok offset bytes Hby Ho Hm (length bytes) d 0 stack Hr) as (d' & E & R' & C' & P); [lia|lia|done|done|done|].
  rewrite Z.add_0_r, drop_0 in P. exists d'. split; [done|]. split; [done|].
  unfold dev_disk_read. rewrite (proj2 (Z.eqb_neq _ _)) by done. rewrite R'. cbn [orb negb].
  destruct (read_loop_ok offset len Ho Hm (Z.to_nat len) d' 0 [] R') as (d'' & E' & _); [lia|lia|lia|].
  exists d''. rewrite E'. f_equal. f_equal. f_equal. rewrite Z.add_0_r, Z.sub_0_r. cbn [app].
  apply list_eq. intros k. unfold slice. rewrite list_lookup_fmap.
  destruct (decide (k < length bytes)%nat) as [Hk|Hk].
  - rewrite lookup_seq_lt by (unfold len; lia). cbn. rewrite P by lia.
    rewrite (proj2 (in_range_true _ _ _)) by lia. replace (Z.to_nat (offset + Z.of_nat k - offset)) with k by lia.
    destruct (lookup_lt_is_Some_2 bytes k Hk) as [x Ex]. by rewrite nth_lookup, Ex.
  - rewrite !lookup_ge_None_2; [done|lia|rewrite length_seq; unfold len; lia].
Qed.
End disk.

(** ** A disk in memory *)

Record ram_disk := mk_ram { ram_sectors : list (list Z) }.

Definition pad_sector (s : list Z) : list Z := u8 <$> take 512 (s ++ replicate 512 0).

#[export] Instance ram_ops : BlockOps ram_disk := {
  blk_ready _ := true;
  blk_read d k := match ram_sectors d !! Z.to_nat k with Some s => (Some (pad_sector s), d) | None => (None, d) end;
  blk_write d k s := if (0 <=? k) && (k <? Z.of_nat (length (ram_sectors d)))
                     then (true, mk_ram (<[Z.to_nat k := s]> (ram_sectors d))) else (false, d)
}.

Lemma pad_length s : length (pad_sector s) = 512%nat.
Proof. unfold pad_sector. rewrite length_fmap, length_take, length_app, length_replicate. lia. Qed.

Lemma pad_full s : length s = 512%nat -> Forall is_u8 s -> pad_sector s = s.
Proof.
  intros Hs Hb. unfold pad_sector. rewrite take_app_le, take_ge by lia. clear Hs.
  induction Hb as [|x s Hx _ IH]; [done|]. rewrite fmap_cons, IH. f_equal. by apply u8_small.
Qed.

Lemma pad_bytes s : Forall is_u8 (pad_sector s).
Proof. unfold pad_sector. apply Forall_fmap, Forall_true. intros x. apply u8_range. Qed.

Definition ram_count (d : ram_disk) : Z := Z.of_nat (length (ram_sectors d)).
Definition ram_data (d : ram_disk) (k : Z) : list Z :=
  pad_sector (if k <? 0 then [] else default [] (ram_sectors d !! Z.to_nat k)).

#[export] Instance ram_laws : BlockLaws ram_disk.
Proof.
  refine (Build_BlockLaws _ _ ram_count ram_data _ _ _ _); unfold ram_count, ram_data.
  - intros d k. apply pad_length.
  - intros d k. apply pad_bytes.
  - intros d k _ Hk. exists d. cbn. rewrite (proj2 (Z.ltb_ge _ _)) by lia.
    destruct (lookup_lt_is_Some_2 (ram_sectors d) (Z.to_nat k)) as [x Ex]; [lia|]. by rewrite Ex.
  - intros d k s _ Hk Hs. cbn. rewrite (proj2 (Z.leb_le _ _)), (proj2 (Z.ltb_lt _ _)) by lia. cbn.
    eexists. split; [done|]. split; [done|]. cbn. split; [by rewrite length_insert|].
    intros j. destruct (Z.eqb_spec j k) as [->|Hj].
    + rewrite (proj2 (Z.ltb_ge _ _)) by lia. rewrite list_lookup_insert_eq by lia. cbn. by apply pad_full.
    + destruct (Z.ltb_spec j 0); [done|]. rewrite list_lookup_insert_ne by lia. done.
Defined.

Definition demo_disk : ram_disk := mk_ram (replicate 4 (replicate 512 7)).

Lemma dev_disk_read_correct_witness :
  exists d', dev_disk_read demo_disk 510 1 4 = Some (4, slice (blk_data demo_disk) 510 4, d').
Proof.
  destruct (dev_disk_read_correct demo_disk 510 1 4) as (d' & E & _); [reflexivity|lia..|vm_compute; discriminate|].
  exists d'. exact E.
Defined.

Lemma dev_disk_write_correct_witness :
  exists d' d'', dev_disk_write demo_disk (replicate 512 0) 510 1 [1; 2; 3; 4] = Some (4, d') /\
    dev_disk_read d' 510 1 4 = Some (4, [1; 2; 3; 4], d'').
Proof.
  destruct (dev_disk_write_correct demo_disk (replicate 512 0) 510 1 [1; 2; 3; 4]) as (d' & E & _ & d'' & E');
    [reflexivity|lia|lia|cbn; lia|vm_compute; discriminate|apply length_replicate
    |apply Forall_replicate; unfold is_u8; lia|repeat (apply Forall_cons; split; [unfold is_u8; lia|]); by apply Forall_nil|].
  exists d', d''. split; [exact E|exact E'].
Defined.
