(* ===== verification/Tarfs.v ===== *)
(** * The initial file system: a tar archive in memory (src/tarfs.c)

    The archive is a range of memory; headers are read in place.  Paths and
    names are lists of characters without the terminating NUL.  Loops over
    the archive have fuel for one round per 512-byte block, which is enough
    since every round advances by at least a block. *)

From stdpp Require Import prelude list gmap.
From Stdlib Require Import ZArith Lia.
From S2P Require Import Prelude Lib Vfs.
#[local] Open Scope Z_scope.
#[local] Open Scope cint_scope.

(** Offsets in tar_header_t. *)
Definition TAR_NAME : Z := 0.
Definition TAR_NAME_LEN : Z := 100.
Definition TAR_SIZE : Z := 124.
Definition TAR_SIZE_LEN : Z := 12.
Definition TAR_TYPEFLAG : Z := 156.
Definition TAR_PREFIX : Z := 345.
Definition TAR_PREFIX_LEN : Z := 155.

(** tarfs_file_t *)
Record tarfs_file := mk_tar_file { tf_data : Z; tf_size : Z }.

(** The characters of a field up to a NUL, at most [n]. *)
Fixpoint field (m : mem) (a : Z) (n : nat) : list Z :=
  match n with
  | O => []
  | S n' => if ld8 m a =? 0 then [] else ld8 m a :: field m (a + 1) n'
  end.

(** [c] is one of the octal digits. *)
Definition is_octal (c : Z) : bool := negb ((c <? 48) || (55 <? c)).

Fixpoint parse_octal_from (m : mem) (s : Z) (n : nat) (v : Z) : Z :=
  match n with
  | O => v
  | S n' =>
      let c := ld8 m s in
      if c =? 0 then v
      else if is_octal c then parse_octal_from m (s + 1) n' (Z.shiftl v 3 +% (c - 48))
      else parse_octal_from m (s + 1) n' v
  end.

Definition parse_octal (m : mem) (s n : Z) : Z := parse_octal_from m s (Z.to_nat n) 0.

(** Drop a leading "./". *)
Definition strip_dot_slash (p : list Z) : list Z :=
  match p with
  | c :: d :: p' => if (c =? DOT) && (d =? SLASH) then p' else p
  | _ => p
  end.

Definition normalize (path : list Z) (tmpn : Z) : list Z := take (Z.to_nat (tmpn - 1)) (strip_dot_slash path).

(** prefix, slash and name in a buffer of 256 characters. *)
Definition header_name (m : mem) (h : Z) : list Z :=
  let prefix := field m (h + TAR_PREFIX) (Z.to_nat TAR_PREFIX_LEN) in
  let name := field m (h + TAR_NAME) (Z.to_nat TAR_NAME_LEN) in
  let full := match prefix with [] => name | _ => prefix ++ SLASH :: name end in
  strip_dot_slash (take 255 full).

(** Distance to the next header. *)
Definition tar_advance (fsize : Z) : Z := 512 + align_up_u64 fsize 512.

Section tarfs_def.
Context (m : mem) (g_start g_end : Z).

Fixpoint find_from_tar (fuel : nat) (p : Z) (want : list Z) : option (option (Z * Z)) :=
  if p + 512 <=? g_end then
    match fuel with
    | O => None
    | S fuel' =>
        if ld8 m (p + TAR_NAME) =? 0 then Some None
        else
          let fsize := parse_octal m (p + TAR_SIZE) TAR_SIZE_LEN in
          if bool_decide (header_name m p = want) then Some (Some (p + 512, fsize))
          else find_from_tar fuel' (p + tar_advance fsize) want
    end
  else Some None.

Definition tar_fuel : nat := Z.to_nat ((g_end - g_start) / 512 + 1).

(** The data pointer and the size of the file; the outer [None] would be a
    loop that does not end. *)
Definition tarfs_find (path : list Z) : option (option (Z * Z)) :=
  if (g_start =? 0) || (g_end =? 0) then Some None
  else find_from_tar tar_fuel g_start (normalize path 128).

(** ** Files *)

Definition tarfs_read (f : fs) (files : gmap Z tarfs_file) (node offset buf len : Z) : option (Z * list Z) :=
  if node =? 0 then Some (-1, [])
  else
    n ← fs_nodes f !! node;
    if negb (bool_decide (vn_type n = VFS_NODE_FILE)) || (buf =? 0) then Some (-1, [])
    else if vn_data n =? 0 then Some (-1, [])
    else
      file ← files !! vn_data n;
      if tf_size file <=? offset then Some (0, [])
      else
        let avail := tf_size file - offset in
        let len := if avail <? len then avail else len in
        Some (i64 len, (fun k => ld8 m (tf_data file + offset + Z.of_nat k)) <$> seq 0 (Z.to_nat len)).

Definition tarfs_write : Z := -1.

(** ** Filling the tree *)

Context (oom : Z -> bool).

(** The descent of tarfs_add_entry; the string shrinks every round, so its
    length is enough fuel. *)
Fixpoint add_entry (fuel : nat) (f : fs) (files : gmap Z tarfs_file) (cur : Z) (p : list Z) (data size : Z)
    (is_dir : bool) : option (fs * gmap Z tarfs_file) :=
  match p with
  | [] => Some (f, files)
  | _ =>
      match fuel with
      | O => None
      | S fuel' =>
          let len := seg_len p in
          if VFS_NAME_MAX <? Z.of_nat len then Some (f, files)
          else
            let name := take len p in
            match drop len p with
            | _ :: rest =>                                   (* p[len] == '/' *)
                next ← vfs_find_child f cur name;
                if next =? 0 then
                  let '(node, f) := vfs_create_node oom f name VFS_NODE_DIR OpsTarDir 0 in
                  if node =? 0 then Some (f, files)
                  else
                    '(rc, f) ← vfs_add_child f cur node;
                    if negb (rc =? 0) then Some (f, files)
                    else add_entry fuel' f files node rest data size is_dir
                else add_entry fuel' f files next rest data size is_dir
            | [] =>
                r ← vfs_find_child f cur name;
                if negb (r =? 0) then Some (f, files)
                else if is_dir then
                  let '(node, f) := vfs_create_node oom f name VFS_NODE_DIR OpsTarDir 0 in
                  if node =? 0 then Some (f, files)
                  else '(_, f) ← vfs_add_child f cur node; Some (f, files)
                else
                  let '(file, f) := obj_alloc oom f in
                  if file =? 0 then Some (f, files)
                  else
                    let files := <[file := mk_tar_file data size]> files in
                    let '(node, f) := vfs_create_node oom f name VFS_NODE_FILE OpsTarFile file in
                    if node =? 0 then Some (f, delete file files)
                    else
                      n ← fs_nodes f !! node;
                      let f := put_node f node (nd_set_size n size) in
                      '(_, f) ← vfs_add_child f cur node;
                      Some (f, files)
            end
      end
  end.

Definition tarfs_add_entry (f : fs) (files : gmap Z tarfs_file) (root : Z) (path : list Z) (data size : Z)
    (is_dir : bool) : option (fs * gmap Z tarfs_file) :=
  if (root =? 0) || bool_decide (path = []) then Some (f, files)
  else add_entry (length path) f files root path data size is_dir.

(** The entry of a header: its path without a trailing slash, and whether it
    is a directory. *)
Definition header_entry (h : Z) : list Z * bool :=
  let tname := header_name m h in
  let slash := bool_decide (last tname = Some SLASH) in
  let is_dir := (ld8 m (h + TAR_TYPEFLAG) =? 53) || slash in
  let clean := take 255 tname in
  let clean := if bool_decide (last clean = Some SLASH) then removelast clean else clean in
  (clean, is_dir).

Fixpoint populate_from (fuel : nat) (f : fs) (files : gmap Z tarfs_file) (root p : Z)
    : option (fs * gmap Z tarfs_file) :=
  if p + 512 <=? g_end then
    match fuel with
    | O => None
    | S fuel' =>
        if ld8 m (p + TAR_NAME) =? 0 then Some (f, files)
        else
          let fsize := parse_octal m (p + TAR_SIZE) TAR_SIZE_LEN in
          let '(path, is_dir) := header_entry p in
          '(f, files) ← tarfs_add_entry f files root path (p + 512) fsize is_dir;
          populate_from fuel' f files root (p + tar_advance fsize)
    end
  else Some (f, files).

Definition tarfs_populate_vfs (f : fs) (files : gmap Z tarfs_file) (root : Z) : option (fs * gmap Z tarfs_file) :=
  if (g_start =? 0) || (g_end =? 0) || (root =? 0) then Some (f, files)
  else populate_from tar_fuel f files root g_start.
End tarfs_def.

(** ** Octal numbers *)

(** The [n] octal digits of [v], most significant first. *)
Fixpoint octal_digits (n : nat) (v : Z) : list Z :=
  match n with
  | O => []
  | S n' => octal_digits n' (v / 8) ++ [48 + v mod 8]
  end.

Lemma octal_digits_length n v : length (octal_digits n v) = n.
Proof. revert v. induction n as [|n IH]; intros v; cbn; [done|]. rewrite length_app, IH. cbn. lia. Qed.

Lemma octal_digits_range n v c : c ∈ octal_digits n v -> 48 <= c <= 55.
Proof.
  revert v. induction n as [|n IH]; intros v; cbn; [by intros ?%not_elem_of_nil|].
  intros [?|Hc]%elem_of_app; [by eapply IH|]. apply list_elem_of_singleton in Hc as ->.
  pose proof (Z.mod_pos_bound v 8). lia.
Qed.

(** The bytes at [a] are [l]. *)
Definition bytes_at (m : mem) (a : Z) (l : list Z) : Prop :=
  forall k c, l !! k = Some c -> ld8 m (a + Z.of_nat k) = c.

Lemma bytes_at_cons m a c l : bytes_at m a (c :: l) <-> ld8 m a = c /\ bytes_at m (a + 1) l.
Proof.
  split.
  - intros Hb. split; [by rewrite <-(Hb 0%nat c eq_refl), Z.add_0_r|].
    intros k x Hk. rewrite <-(Hb (S k) x Hk). f_equal. lia.
  - intros [H1 H2] [|k] x Hk; cbn in Hk; [injection Hk as <-; by rewrite Z.add_0_r|].
    rewrite <-(H2 k x Hk). f_equal. lia.
Qed.

Lemma parse_octal_app m a l n v : bytes_at m a l -> (forall c, c ∈ l -> 48 <= c <= 55) ->
  parse_octal_from m a (length l + n) v =
  parse_octal_from m (a + Z.of_nat (length l)) n (foldl (fun v c => Z.shiftl v 3 +% (c - 48)) v l).
Proof.
  revert a v. induction l as [|c l IH]; intros a v Hb Hr; cbn [length Nat.add foldl].
  - by rewrite Z.add_0_r.
  - apply bytes_at_cons in Hb as [Ec Hb]. cbn [parse_octal_from]. rewrite Ec.
    assert (Hc : 48 <= c <= 55) by (apply Hr; left). rewrite (proj2 (Z.eqb_neq _ _)) by lia.
    unfold is_octal. rewrite (proj2 (Z.ltb_ge c 48)), (proj2 (Z.ltb_ge 55 c)) by lia. cbn [orb negb].
    rewrite IH; [|done|intros; apply Hr; by right]. f_equal. lia.
Qed.

Lemma octal_value n : forall v, 0 <= v < 8 ^ Z.of_nat n -> (n <= 12)%nat ->
  foldl (fun v c => Z.shiftl v 3 +% (c - 48)) 0 (octal_digits n v) = v.
Proof.
  induction n as [|n IH]; intros v Hv Hn; cbn [octal_digits].
  - cbn in *. lia.
  - rewrite foldl_app. cbn [foldl]. rewrite Nat2Z.inj_succ, Z.pow_succ_r in Hv by lia.
    rewrite IH by (Z.div_mod_to_equations; lia || lia). rewrite Z.shiftl_mul_pow2 by lia. change (2 ^ 3) with 8.
    assert (8 ^ Z.of_nat n <= 8 ^ 12) by (apply Z.pow_le_mono_r; lia).
    rewrite u64_small by (unfold is_u64; change (8 ^ 12) with 68719476736 in *; Z.div_mod_to_equations; lia).
    Z.div_mod_to_equations; lia.
Qed.

Lemma parse_octal_bound m a n : forall v b, 0 <= v < 8 ^ b -> 0 <= b -> b + Z.of_nat n <= 20 ->
  0 <= parse_octal_from m a n v < 8 ^ (b + Z.of_nat n).
Proof.
  revert a. induction n as [|n IH]; intros a v b Hv Hb Hn; cbn [parse_octal_from].
  - by rewrite Z.add_0_r.
  - assert (Hle : 8 ^ b <= 8 ^ (b + Z.of_nat (S n))) by (apply Z.pow_le_mono_r; lia).
    case_b; [lia|]. case_b.
    + apply negb_true_iff, orb_false_iff in E0 as [E1%Z.ltb_ge E2%Z.ltb_ge].
      replace (b + Z.of_nat (S n)) with ((b + 1) + Z.of_nat n) by lia. apply IH; [|lia|lia].
      rewrite Z.shiftl_mul_pow2 by lia. change (2 ^ 3) with 8.
      assert (E8 : 8 ^ (b + 1) = 8 * 8 ^ b) by (rewrite Z.pow_add_r by lia; lia).
      assert (8 ^ b <= 8 ^ 19) by (apply Z.pow_le_mono_r; lia). change (8 ^ 19) with 144115188075855872 in *.
      rewrite u64_small by (unfold is_u64; lia). lia.
    + pose proof (IH (a + 1) v b Hv Hb ltac:(lia)) as Hi.
      assert (8 ^ (b + Z.of_nat n) <= 8 ^ (b + Z.of_nat (S n))) by (apply Z.pow_le_mono_r; lia). lia.
Qed.

(** ** Archives *)

(** The field of [n] bytes at [a] holds the string [s]: its characters, none
    of them NUL, and a NUL after them when they do not fill the field. *)
Record field_holds (m : mem) (a : Z) (n : nat) (s : list Z) : Prop := {
  fh_chars : Forall (fun c => 0 < c < 256) s;
  fh_fits : (length s <= n)%nat;
  fh_at : bytes_at m a s;
  fh_end : (length s < n)%nat -> ld8 m (a + Z.of_nat (length s)) = 0
}.

(** The name a ustar header gives its file: the name field alone, or the
    prefix field, a slash and the name field. *)
Definition ustar_name (prefix name : list Z) : list Z :=
  if decide (prefix = []) then name else prefix ++ [SLASH] ++ name.

(** The block at [h] is the header of the file [full] of [size] bytes, its
    name split somehow over the two fields, its size in eleven octal digits
    and a NUL. *)
Record header_of (m : mem) (h : Z) (full : list Z) (size : Z) : Prop := {
  ho_name : exists prefix name, full = ustar_name prefix name /\ name <> [] /\
    field_holds m (h + TAR_PREFIX) 155 prefix /\ field_holds m (h + TAR_NAME) 100 name;
  ho_size : 0 <= size < 8 ^ 11;
  ho_size_at : bytes_at m (h + TAR_SIZE) (octal_digits 11 size ++ [0])
}.

Definition blocks (size : Z) : Z := (size + 511) / 512 * 512.

(** From [p] on the memory holds an archive of the given files, ended by a
    zero block or the end of the range. *)
Inductive archive (m : mem) (g_end : Z) : Z -> list (list Z * list Z) -> Prop :=
| archive_end p : g_end < p + 512 \/ ld8 m (p + TAR_NAME) = 0 -> archive m g_end p []
| archive_file p name content l :
    p + 512 <= g_end ->
    header_of m p name (Z.of_nat (length content)) -> bytes_at m (p + 512) content ->
    archive m g_end (p + 512 + blocks (Z.of_nat (length content))) l ->
    archive m g_end p ((name, content) :: l).

Lemma field_name m a n s : field_holds m a n s -> field m a n = s.
Proof.
  revert a n. induction s as [|c s IH]; intros a n [Hc Hf Ha He]; destruct n as [|n]; cbn in Hf; try lia; [done| |].
  - cbn [field]. cbn in He. by rewrite Z.add_0_r in He; rewrite He by lia.
  - inversion_clear Hc as [|? ? Hc0 Hc']. apply bytes_at_cons in Ha as [E Ha]. cbn [field].
    rewrite E, (proj2 (Z.eqb_neq _ _)) by lia. f_equal. apply IH. constructor; [done|lia|done|].
    intros Hl. rewrite <- He by (cbn; lia). f_equal. cbn [length]. lia.
Qed.

Lemma header_name_ok m h full size : header_of m h full size -> header_name m h = strip_dot_slash (take 255 full).
Proof.
  intros [(prefix & name & -> & _ & Hp & Hn) _ _]. unfold header_name.
  change (Z.to_nat TAR_PREFIX_LEN) with 155%nat. change (Z.to_nat TAR_NAME_LEN) with 100%nat.
  rewrite (field_name _ _ _ _ Hp), (field_name _ _ _ _ Hn). unfold ustar_name. by destruct prefix.
Qed.

Lemma strip_length p : (length p <= length (strip_dot_slash p) + 2)%nat.
Proof. destruct p as [|c [|d p]]; cbn; [lia..|]. destruct ((c =? DOT) && (d =? SLASH)); cbn; lia. Qed.

(** A name cut by the buffer matches no path that fits its own. *)
Lemma strip_take_match full want : (length want < 128)%nat ->
  strip_dot_slash (take 255 full) = want <-> strip_dot_slash full = want.
Proof.
  intros Hw. destruct (decide (length full <= 255)%nat); [by rewrite take_ge|].
  pose proof (strip_length full). pose proof (strip_length (take 255 full)) as H2.
  rewrite length_take in H2. split; intros <-; lia.
Qed.

Lemma header_size_ok m h name size : header_of m h name size -> parse_octal m (h + TAR_SIZE) TAR_SIZE_LEN = size.
Proof.
  intros [_ Hs Ha]. unfold parse_octal. change (Z.to_nat TAR_SIZE_LEN) with (length (octal_digits 11 size) + 1)%nat.
  assert (Hb : bytes_at m (h + TAR_SIZE) (octal_digits 11 size)).
  { intros k c Hk. apply Ha. by apply lookup_app_l_Some. }
  rewrite parse_octal_app by (done || apply octal_digits_range). rewrite octal_value by (done || lia).
  cbn [parse_octal_from]. rewrite octal_digits_length.
  rewrite (Ha 11%nat 0); [done|]. by rewrite lookup_app_r by (rewrite octal_digits_length; lia).
Qed.

Lemma header_first m h full size : header_of m h full size -> ld8 m (h + TAR_NAME) <> 0.
Proof.
  intros [(prefix & name & _ & Hne & _ & [Hf _ Hn _]) _ _]. destruct name as [|c name]; [done|].
  inversion_clear Hf as [|? ? Hc _]. apply bytes_at_cons in Hn as [E _]. lia.
Qed.

Lemma tar_advance_ok size : 0 <= size < 8 ^ 12 -> tar_advance size = 512 + blocks size.
Proof.
  intros Hs. change (8 ^ 12) with 68719476736 in Hs. unfold tar_advance, blocks. f_equal.
  change 512 with (2 ^ 9). rewrite align_up_pow2 by lia. f_equal. f_equal. lia.
Qed.

Lemma blocks_nonneg size : 0 <= size -> 0 <= blocks size.
Proof. intros. unfold blocks. Z.div_mod_to_equations; lia. Qed.

(** The first file whose name, without "./", is [want]. *)
Definition first_file (want : list Z) (l : list (list Z * list Z)) : option (list Z) :=
  snd <$> (snd <$> list_find (fun f => strip_dot_slash (fst f) = want) l).

Lemma find_from_tar_ok m g_end want p l : (length want < 128)%nat -> archive m g_end p l -> forall fuel, g_end - p < 512 * Z.of_nat fuel ->
  match first_file want l with
  | Some content => exists a, find_from_tar m g_end fuel p want = Some (Some (a, Z.of_nat (length content))) /\ bytes_at m a content
  | None => find_from_tar m g_end fuel p want = Some None
  end.
Proof.
  intros Hw. induction 1 as [p He|p name content l Hin Hh Hb _ IH]; intros fuel Hf; destruct fuel as [|fuel]; cbn [find_from_tar].
  - change (first_file want []) with (@None (list Z)). rewrite (proj2 (Z.leb_gt _ _)) by lia. done.
  - change (first_file want []) with (@None (list Z)). destruct (Z.leb_spec (p + 512) g_end); [|done].
    destruct He as [?|E]; [lia|]. rewrite E. done.
  - lia.
  - rewrite (proj2 (Z.leb_le _ _)) by done. rewrite (proj2 (Z.eqb_neq _ _)) by (by eapply header_first).
    rewrite (header_name_ok _ _ _ _ Hh), (header_size_ok _ _ _ _ Hh).
    assert (Hs : 0 <= Z.of_nat (length content) < 8 ^ 11) by apply Hh.
    assert (8 ^ 11 <= 8 ^ 12) by (apply Z.pow_le_mono_r; lia).
    unfold first_file. cbn [list_find fst]. case_bool_decide as Hm; rewrite strip_take_match in Hm by done.
    + rewrite decide_True by done. cbn. eauto.
    + rewrite decide_False by done. pose proof (blocks_nonneg (Z.of_nat (length content)) ltac:(lia)).
      rewrite tar_advance_ok by lia. rewrite Z.add_assoc. specialize (IH fuel ltac:(lia)).
      unfold first_file in IH. destruct (list_find _ l) as [[i [nm ct]]|]; done.
Qed.

(** C30: looking a path of fewer than 128 characters up in an archive of
    files returns the first file with that name, "./" in front of either
    ignored: the address of its content, which is the file's bytes, and its
    length, read from the octal size field.  A header names its file by its
    name field, or by its prefix field, a slash and its name field.  A path
    of no file is not found, and the search ends. *)
Theorem tarfs_find_correct m g_start g_end path files :
  g_start <> 0 -> g_end <> 0 -> (length path < 128)%nat -> archive m g_end g_start files ->
  match first_file (strip_dot_slash path) files with
  | Some content => exists a, tarfs_find m g_start g_end path = Some (Some (a, Z.of_nat (length content))) /\ bytes_at m a content
  | None => tarfs_find m g_start g_end path = Some None
  end.
Proof.
  intros Hs He Hl Ha. unfold tarfs_find. rewrite !(proj2 (Z.eqb_neq _ _)) by done. cbn [orb].
  assert (En : normalize path 128 = strip_dot_slash path).
  { unfold normalize. apply take_ge. destruct path as [|c [|d path]]; cbn in *; [lia|lia|].
    destruct ((c =? DOT) && (d =? SLASH)); cbn; lia. }
  rewrite En. apply find_from_tar_ok; [|done|].
  { destruct path as [|c [|d path]]; cbn in *; [lia|lia|]. destruct ((c =? DOT) && (d =? SLASH)); cbn; lia. }
  unfold tar_fuel.
  destruct (decide (g_start <= g_end)).
  - rewrite Z2Nat.id by (Z.div_mod_to_equations; lia). Z.div_mod_to_equations; lia.
  - lia.
Qed.

(** An archive of two files: "./a" with two bytes, and "b" with one byte,
    whose header has the prefix "d". *)
Definition demo_tar : mem :=
  let m := mem_put (fun _ => 0) 4096 [46; 47; 97] in
  let m := mem_put (mem_put m 4220 (octal_digits 11 2)) 4608 [65; 66] in
  let m := mem_put (mem_put m 5120 [98]) 5244 (octal_digits 11 1) in
  mem_put (mem_put m 5465 [100]) 5632 [67].

Lemma bytes_at_nil m a : bytes_at m a [].
Proof. intros k c Hk. by rewrite lookup_nil in Hk. Qed.

Ltac read_bytes := repeat (apply bytes_at_cons; split; [vm_compute; reflexivity|]); apply bytes_at_nil.

Ltac read_field := constructor; [repeat constructor|cbn; lia|read_bytes|intros _; vm_compute; reflexivity].

Lemma demo_archive : archive demo_tar 6144 4096 [([46; 47; 97], [65; 66]); ([100; 47; 98], [67])].
Proof.
  constructor; [lia| |read_bytes|].
  { constructor; [|vm_compute; split; done|read_bytes].
    exists [], [46; 47; 97]. split_and!; [done|done|read_field|read_field]. }
  change (4096 + 512 + blocks (Z.of_nat (length [65; 66]))) with 5120.
  constructor; [lia| |read_bytes|constructor; left; vm_compute; done].
  constructor; [|vm_compute; split; done|read_bytes].
  exists [100], [98]. split_and!; [done|done|read_field|read_field].
Qed.

(** "a" is the first file, "d/b" the second, and "b" alone is no file. *)
Lemma tarfs_find_correct_witness :
  (exists a, tarfs_find demo_tar 4096 6144 [97] = Some (Some (a, 2)) /\ bytes_at demo_tar a [65; 66]) /\
  (exists a, tarfs_find demo_tar 4096 6144 [100; 47; 98] = Some (Some (a, 1)) /\ bytes_at demo_tar a [67]) /\
  tarfs_find demo_tar 4096 6144 [98] = Some None.
Proof.
  split; [|split].
  - exact (tarfs_find_correct demo_tar 4096 6144 [97] _ ltac:(lia) ltac:(lia) ltac:(cbn; lia) demo_archive).
  - exact (tarfs_find_correct demo_tar 4096 6144 [100; 47; 98] _ ltac:(lia) ltac:(lia) ltac:(cbn; lia) demo_archive).
  - exact (tarfs_find_correct demo_tar 4096 6144 [98] _ ltac:(lia) ltac:(lia) ltac:(cbn; lia) demo_archive).
Defined.
