(* ===== verification/Console.v ===== *)
(** * The console (src/console.c)

    A text screen of 25 rows over a scrollback ring of 537 lines, the
    serial line that gets a copy, and drawing into a linear frame buffer.
    [con_vga] is the text memory of the display adapter; [con_serial] are the
    bytes handed to the serial driver.

    ConsoleSpec.v proves that the ring shows a window of an unbounded
    sequence of lines. *)

From stdpp Require Import prelude list strings.
From Stdlib Require Import ZArith Lia Ascii String.
From S2P Require Import Prelude Lib.
#[local] Open Scope Z_scope.
#[local] Open Scope cint_scope.

Definition VGA_WIDTH : Z := 80.
Definition VGA_HEIGHT : Z := 25.
Definition SCROLLBACK_LINES : Z := 512.
Definition TOTAL_LINES : Z := SCROLLBACK_LINES + VGA_HEIGHT.

(** Without the type field, which is stored and never read. *)
Record console_fb_info := mk_fb {
  fb_base : Z; fb_width : Z; fb_height : Z; fb_pitch : Z; fb_bpp : Z
}.

Record console := mk_con {
  cursor_x : Z;
  cursor_y : Z;
  vga_color : Z;
  serial_enabled : bool;
  fb_info : option console_fb_info;           (* [None] when not enabled *)
  scrollback_buf : list (list Z);
  scrollback_first_line : Z;
  scrollback_first_slot : Z;
  scrollback_line_count : Z;
  cursor_line_index : Z;
  view_offset : Z;
  con_vga : list (list Z);
  con_serial : list Z
}.

(** Updates of the fields, in the groups the code changes together. *)
Definition set_cursor (c : console) (x line : Z) : console :=
  mk_con x (cursor_y c) (vga_color c) (serial_enabled c) (fb_info c) (scrollback_buf c) (scrollback_first_line c)
    (scrollback_first_slot c) (scrollback_line_count c) line (view_offset c) (con_vga c) (con_serial c).
Definition set_buf (c : console) (b : list (list Z)) : console :=
  mk_con (cursor_x c) (cursor_y c) (vga_color c) (serial_enabled c) (fb_info c) b (scrollback_first_line c)
    (scrollback_first_slot c) (scrollback_line_count c) (cursor_line_index c) (view_offset c) (con_vga c) (con_serial c).
Definition set_window (c : console) (first slot count : Z) : console :=
  mk_con (cursor_x c) (cursor_y c) (vga_color c) (serial_enabled c) (fb_info c) (scrollback_buf c) first slot count
    (cursor_line_index c) (view_offset c) (con_vga c) (con_serial c).
Definition set_view (c : console) (v : Z) : console :=
  mk_con (cursor_x c) (cursor_y c) (vga_color c) (serial_enabled c) (fb_info c) (scrollback_buf c) (scrollback_first_line c)
    (scrollback_first_slot c) (scrollback_line_count c) (cursor_line_index c) v (con_vga c) (con_serial c).
Definition set_screen (c : console) (cy : Z) (rows : list (list Z)) : console :=
  mk_con (cursor_x c) cy (vga_color c) (serial_enabled c) (fb_info c) (scrollback_buf c) (scrollback_first_line c)
    (scrollback_first_slot c) (scrollback_line_count c) (cursor_line_index c) (view_offset c) rows (con_serial c).
Definition set_modes (c : console) (color : Z) (ser : bool) (fb : option console_fb_info) : console :=
  mk_con (cursor_x c) (cursor_y c) color ser fb (scrollback_buf c) (scrollback_first_line c)
    (scrollback_first_slot c) (scrollback_line_count c) (cursor_line_index c) (view_offset c) (con_vga c) (con_serial c).
Definition set_serial (c : console) (out : list Z) : console :=
  mk_con (cursor_x c) (cursor_y c) (vga_color c) (serial_enabled c) (fb_info c) (scrollback_buf c) (scrollback_first_line c)
    (scrollback_first_slot c) (scrollback_line_count c) (cursor_line_index c) (view_offset c) (con_vga c) out.

(** [char] is signed: a character above 127 is widened with its sign. *)
Definition make_vga_entry (ch color : Z) : Z := Z.lor (u16 (i8 ch)) (u16 (Z.shiftl color 8)).

Definition line_slot_for_index (c : console) (line_index : Z) : Z :=
  let delta := (line_index -% scrollback_first_line c) mod TOTAL_LINES in
  (scrollback_first_slot c +% delta) mod TOTAL_LINES.

Definition blank_row (color : Z) : list Z := replicate 80 (make_vga_entry 32 color).

Definition clear_line_slot (c : console) (slot : Z) : console :=
  set_buf c (<[Z.to_nat slot := blank_row (vga_color c)]> (scrollback_buf c)).

(** The first line of the newest screenful. *)
Definition newest_start (c : console) : Z :=
  let n := if VGA_HEIGHT <? (cursor_line_index c +% 1) then (cursor_line_index c +% 1) -% VGA_HEIGHT else 0 in
  if n <? scrollback_first_line c then scrollback_first_line c else n.

Definition clamp_view_offset (c : console) : console :=
  let max_offset := newest_start c -% scrollback_first_line c in
  if max_offset <? view_offset c then set_view c max_offset else c.

Definition display_start_line (c : console) : Z * console :=
  let c := clamp_view_offset c in
  (newest_start c -% view_offset c, c).

Definition slot_row (c : console) (slot : Z) : list Z := nth (Z.to_nat slot) (scrollback_buf c) [].

Definition render_view (c : console) : console :=
  let '(start_line, c) := display_start_line c in
  let rows := (fun y => slot_row c (line_slot_for_index c (start_line +% Z.of_nat y))) <$> seq 0 25 in
  let cy := if start_line <=? cursor_line_index c then
              let rel := cursor_line_index c -% start_line in
              if rel <? VGA_HEIGHT then u8 rel else VGA_HEIGHT - 1
            else 0 in
  set_screen c cy rows.

Definition drop_oldest_line_if_needed (c : console) : console :=
  if scrollback_line_count c <=? TOTAL_LINES then c
  else clamp_view_offset
         (set_window c (scrollback_first_line c +% 1) ((scrollback_first_slot c +% 1) mod TOTAL_LINES)
            (scrollback_line_count c -% 1)).

(** The body of the loop adds one line, so the distance bounds the rounds. *)
Fixpoint add_lines (n : nat) (c : console) (line_index : Z) : console :=
  match n with
  | O => c
  | S n' =>
      if (scrollback_first_line c +% scrollback_line_count c) <=? line_index then
        let new_slot := line_slot_for_index c (scrollback_first_line c +% scrollback_line_count c) in
        let c := clear_line_slot c new_slot in
        let c := set_window c (scrollback_first_line c) (scrollback_first_slot c) (scrollback_line_count c +% 1) in
        add_lines n' (drop_oldest_line_if_needed c) line_index
      else c
  end.

Definition ensure_line_available (c : console) (line_index : Z) : console :=
  add_lines (Z.to_nat (line_index + 1 - (scrollback_first_line c +% scrollback_line_count c))) c line_index.

Definition start_new_line (c : console) : console :=
  let c := set_cursor c 0 (cursor_line_index c +% 1) in
  ensure_line_available c (cursor_line_index c).

Definition write_char_at_cursor (c : console) (ch : Z) : console :=
  let c := ensure_line_available c (cursor_line_index c) in
  let slot := line_slot_for_index c (cursor_line_index c) in
  set_buf c (<[Z.to_nat slot := <[Z.to_nat (cursor_x c) := make_vga_entry ch (vga_color c)]> (slot_row c slot)]>
               (scrollback_buf c)).

Definition console_set_color (c : console) (fg bg : Z) : console :=
  set_modes c (u8 (Z.lor (Z.shiftl bg 4) (Z.land fg 15))) (serial_enabled c) (fb_info c).
Definition console_get_color (c : console) : Z := vga_color c.
Definition console_set_serial_enabled (c : console) (enabled : Z) : console :=
  set_modes c (vga_color c) (negb (enabled =? 0)) (fb_info c).
Definition console_get_serial_enabled (c : console) : bool := serial_enabled c.

Definition console_set_framebuffer (c : console) (info : option console_fb_info) : console :=
  set_modes c (vga_color c) (serial_enabled c)
    (match info with
     | None => None
     | Some i => if (fb_base i =? 0) || (fb_width i =? 0) || (fb_height i =? 0) then None else Some i
     end).

Definition console_scroll_view (c : console) (lines : Z) : console :=
  if lines =? 0 then c
  else
    let max_offset := newest_start c -% scrollback_first_line c in
    let c :=
      if 0 <? lines then
        if max_offset <? (view_offset c +% lines) then set_view c max_offset else set_view c (view_offset c +% lines)
      else
        let delta := u64 (i32 (- lines)) in
        if view_offset c <? delta then set_view c 0 else set_view c (view_offset c -% delta) in
    render_view c.

Definition console_putc_vga (c : console) (ch : Z) : console :=
  if ch =? 10 then render_view (start_new_line c)
  else if ch =? 13 then render_view (set_cursor c 0 (cursor_line_index c))
  else if ch =? 9 then
    let c := set_cursor c (u8 (Z.land (cursor_x c + 4) 4294967292)) (cursor_line_index c) in
    render_view (if VGA_WIDTH <=? cursor_x c then start_new_line c else c)
  else
    let c := write_char_at_cursor c ch in
    let c := set_cursor c (u8 (cursor_x c + 1)) (cursor_line_index c) in
    render_view (if VGA_WIDTH <=? cursor_x c then start_new_line c else c).

Definition console_putc (c : console) (ch : Z) : console :=
  let c := if serial_enabled c then set_serial c (con_serial c ++ [ch]) else c in
  console_putc_vga c ch.

Definition console_write (c : console) (s : list Z) : console := fold_left console_putc s c.
Definition console_write_vga (c : console) (s : list Z) : console := fold_left console_putc_vga s c.

(** The calls the rest of the kernel makes while it runs. *)
Inductive con_event := ConPutc (c : Z) | ConScroll (lines : Z).

Definition con_step (c : console) (ev : con_event) : console :=
  match ev with
  | ConPutc ch => console_putc c ch
  | ConScroll lines => console_scroll_view c lines
  end.

Definition con_run (c : console) (evs : list con_event) : console := fold_left con_step evs c.

(** A string literal. *)
Definition text (s : string) : list Z := (fun c => Z.of_nat (nat_of_ascii c)) <$> list_ascii_of_string s.

Definition boot_text : list Z := text "TinyOS64 booting..." ++ [10].

(** The state before the message is written. *)
Definition console_clear (c : console) : console :=
  let c := for_range 0 TOTAL_LINES (fun i c => clear_line_slot c i) c in
  let c := set_view (set_window c 0 0 VGA_HEIGHT) 0 in
  render_view (set_screen (set_cursor c 0 0) 0 (con_vga c)).

Definition console_init (c : console) : console := console_write (console_clear c) boot_text.

(** ** Numbers *)

Definition hex_digit (n : Z) : Z := if n <? 10 then 48 + n else 55 + n.

Definition hex_n (v : Z) (nibbles : nat) : list Z :=
  (fun i => hex_digit (Z.land (Z.shiftr v (4 * Z.of_nat (nibbles - 1 - i))) 15)) <$> seq 0 nibbles.

Definition console_write_hex_n (c : console) (v : Z) (nibbles : nat) : console := console_write c (hex_n v nibbles).
Definition console_write_hex64 (c : console) (v : Z) : console := console_write c ([48; 120] ++ hex_n v 16).
Definition console_write_hex32 (c : console) (v : Z) : console := console_write c ([48; 120] ++ hex_n v 8).

Fixpoint dec_digits (n : nat) (v : Z) (acc : list Z) : list Z :=
  match n with
  | O => acc
  | S n' => if 0 <? v then dec_digits n' (v / 10) (48 + v mod 10 :: acc) else acc
  end.

(** The buffer of 32 digits, filled from the last one. *)
Definition dec_u64 (v : Z) : list Z := if v =? 0 then [48] else dec_digits 32 v [].

Definition console_write_dec_u64 (c : console) (v : Z) : console := console_write c (dec_u64 v).
Definition console_write_dec_u32 (c : console) (v : Z) : console := console_write_dec_u64 c v.

(** ** The frame buffer *)

Definition console_draw_pixel (c : console) (m : mem) (x y rgb : Z) : mem :=
  match fb_info c with
  | None => m
  | Some fb =>
      if (fb_width fb <=? x) || (fb_height fb <=? y) then m
      else
        let base := fb_base fb + u32 (fb_pitch fb * y) in
        if fb_bpp fb =? 32 then stn 4 m (base + u32 (x * 4)) rgb
        else if fb_bpp fb =? 24 then
          let p := base + u32 (x * 3) in
          st8 (st8 (st8 m p (Z.land rgb 255)) (p + 1) (Z.land (Z.shiftr rgb 8) 255)) (p + 2)
            (Z.land (Z.shiftr rgb 16) 255)
        else if fb_bpp fb =? 16 then
          let r := Z.land (Z.shiftr rgb 19) 31 in
          let g := Z.land (Z.shiftr rgb 10) 63 in
          let b := Z.land (Z.shiftr rgb 3) 31 in
          stn 2 m (base + u32 (x * 2)) (Z.lor (Z.lor (Z.shiftl r 11) (Z.shiftl g 5)) b)
        else m
  end.

Definition console_draw_rect (c : console) (m : mem) (x y w h rgb : Z) : mem :=
  match fb_info c with
  | None => m
  | Some _ =>
      for_range 0 h (fun yy m => for_range 0 w (fun xx m => console_draw_pixel c m (u32 (x + xx)) (u32 (y + yy)) rgb) m) m
  end.
