(* ===== verification/ConsoleSpec.v ===== *)
(** * The console shows a window of the whole text

    The specification is a screen with memory for every line ever written:
    rows of 80 cells, a cursor, a colour and how far the view is scrolled
    back.  [shows] relates it to the ring of 537 slots, and every operation
    keeps the relation. *)

From stdpp Require Import prelude list.
From Stdlib Require Import ZArith Lia.
From S2P Require Import Prelude Lib Console.
#[local] Open Scope Z_scope.
#[local] Open Scope cint_scope.

(** ** The specification *)

Record paper := mk_paper {
  p_lines : list (list Z);
  p_line : nat;
  p_col : nat;
  p_view : Z
}.

Section spec.
Context (color : Z).

Definition p_len (p : paper) : Z := Z.of_nat (length (p_lines p)).

(** A new line is added only when the cursor leaves the last one. *)
Definition p_newline (p : paper) : paper :=
  mk_paper (if decide (S (p_line p) < length (p_lines p))%nat then p_lines p else p_lines p ++ [blank_row color])
    (S (p_line p)) 0 (p_view p).

Definition p_wrap (p : paper) : paper := if decide (p_col p < 80)%nat then p else p_newline p.

Definition p_put (p : paper) (ch : Z) : paper :=
  mk_paper (alter <[p_col p := make_vga_entry ch color]> (p_line p) (p_lines p)) (p_line p) (p_col p) (p_view p).

Definition p_goto (p : paper) (col : nat) : paper := mk_paper (p_lines p) (p_line p) col (p_view p).

Definition p_putc (p : paper) (ch : Z) : paper :=
  if ch =? 10 then p_newline p
  else if ch =? 13 then p_goto p 0
  else if ch =? 9 then p_wrap (p_goto p (4 * (p_col p / 4) + 4))
  else p_wrap (p_goto (p_put p ch) (S (p_col p))).

(** The view goes back at most to the oldest of the last 537 lines. *)
Definition p_top (p : paper) : Z := p_len p - 25.
Definition p_oldest (p : paper) : Z := Z.max 0 (p_len p - 537).
Definition p_scroll (p : paper) (lines : Z) : paper :=
  mk_paper (p_lines p) (p_line p) (p_col p) (Z.max 0 (Z.min (p_top p - p_oldest p) (p_view p + lines))).

Definition p_step (p : paper) (ev : con_event) : paper :=
  match ev with ConPutc ch => p_putc p ch | ConScroll lines => p_scroll p lines end.

Definition p_blank : paper := mk_paper (replicate 25 (blank_row color)) 0 0 0.

(** The 25 rows on the screen. *)
Definition p_screen (p : paper) : list (list Z) := take 25 (drop (Z.to_nat (p_top p - p_view p)) (p_lines p)).

(** The row of the cursor: the last one while it is below the window. *)
Definition p_row (p : paper) : Z := Z.min 24 (Z.of_nat (p_line p) - (p_top p - p_view p)).

(** ** The relation *)

Record shows (c : console) (p : paper) : Prop := {
  sh_color : vga_color c = color;
  sh_line : cursor_line_index c = Z.of_nat (p_line p);
  sh_col : cursor_x c = Z.of_nat (p_col p);
  sh_len : p_len p = scrollback_first_line c + scrollback_line_count c;
  sh_first : scrollback_first_line c = p_oldest p;
  sh_slot : 0 <= scrollback_first_slot c < 537;
  sh_view : view_offset c = p_view p;
  sh_view_ok : 0 <= p_view p <= p_top p - p_oldest p;
  sh_small : p_len p < 2 ^ 62;
  sh_cursor : p_len p = Z.max 25 (Z.of_nat (p_line p) + 1);
  sh_buf : length (scrollback_buf c) = 537%nat;
  sh_rows : forall i row, p_oldest p <= Z.of_nat i -> p_lines p !! i = Some row ->
    scrollback_buf c !! Z.to_nat (line_slot_for_index c (Z.of_nat i)) = Some row
}.

(** ** Slots *)

Definition slot_of (c : console) (i : Z) : Z := (scrollback_first_slot c + (i - scrollback_first_line c)) mod 537.

Lemma line_slot_eq c i :
  0 <= scrollback_first_line c <= i -> i < 2 ^ 63 -> 0 <= scrollback_first_slot c < 537 ->
  line_slot_for_index c i = slot_of c i.
Proof.
  intros ???. unfold line_slot_for_index, slot_of, TOTAL_LINES, SCROLLBACK_LINES, VGA_HEIGHT.
  change (512 + 25) with 537. rewrite (u64_small (i - _)) by (unfold is_u64; lia).
  pose proof (Z.mod_pos_bound (i - scrollback_first_line c) 537 eq_refl).
  rewrite u64_small by (unfold is_u64; lia). by rewrite Zplus_mod_idemp_r.
Qed.

Lemma slot_of_range c i : 0 <= slot_of c i < 537.
Proof. apply Z.mod_pos_bound. lia. Qed.

Lemma slot_of_inj c i j :
  slot_of c i = slot_of c j -> -537 < i - j < 537 -> i = j.
Proof. unfold slot_of. intros ??. Z.div_mod_to_equations. lia. Qed.

Lemma newest_start_ok c p : shows c p -> newest_start c = p_top p.
Proof.
  intros []. unfold newest_start, p_top, p_oldest, VGA_HEIGHT in *.
  rewrite !(u64_small (cursor_line_index c + 1)) by (unfold is_u64; lia).
  destruct (Z.ltb_spec 25 (cursor_line_index c + 1)); [rewrite u64_small by (unfold is_u64; lia)|]; case_b; lia.
Qed.

Lemma clamp_id c p : shows c p -> clamp_view_offset c = c.
Proof.
  intros Hs. unfold clamp_view_offset. rewrite (newest_start_ok c p Hs).
  destruct Hs. unfold p_top, p_oldest in *. rewrite u64_small by (unfold is_u64; lia).
  case_b; [lia|done].
Qed.

(** ** Lines and characters *)

Lemma ensure_id c i :
  0 <= i < scrollback_first_line c + scrollback_line_count c ->
  scrollback_first_line c + scrollback_line_count c < 2 ^ 63 -> ensure_line_available c i = c.
Proof.
  intros ??. unfold ensure_line_available. rewrite u64_small by (unfold is_u64; lia).
  by replace (Z.to_nat _) with O by lia.
Qed.

Lemma shows_goto c p x n : shows c p -> x = Z.of_nat n -> shows (set_cursor c x (cursor_line_index c)) (p_goto p n).
Proof. intros [] ->. by constructor. Qed.

Lemma shows_put c p ch :
  shows c p -> (p_col p < 80)%nat -> shows (write_char_at_cursor c ch) (p_put p ch).
Proof.
  intros Hs Hcol. pose proof Hs as [].
  assert (Hl : (p_line p < length (p_lines p))%nat) by (unfold p_len in *; lia).
  unfold write_char_at_cursor. rewrite ensure_id by lia.
  destruct (lookup_lt_is_Some_2 _ _ Hl) as [row Hrow].
  assert (Hold : p_oldest p <= Z.of_nat (p_line p)) by (unfold p_oldest, p_len in *; lia).
  pose proof (sh_rows0 _ _ Hold Hrow) as Hsl. rewrite <- sh_line0 in Hsl.
  set (s := Z.to_nat (line_slot_for_index c (cursor_line_index c))) in *.
  assert (Hlen : p_len (p_put p ch) = p_len p) by (unfold p_len; simpl; by rewrite length_alter).
  constructor; unfold p_top, p_oldest in *; try rewrite !Hlen; simpl; try done.
  - by rewrite length_insert.
  - intros i row' Hi Hr. unfold slot_row. rewrite (nth_lookup_Some _ _ _ _ Hsl).
    change (line_slot_for_index _ (Z.of_nat i)) with (line_slot_for_index c (Z.of_nat i)).
    destruct (decide (i = p_line p)) as [->|Hne].
    + rewrite list_lookup_alter_eq, Hrow in Hr. injection Hr as <-. rewrite <- sh_line0. fold s.
      rewrite list_lookup_insert_eq by (apply lookup_lt_Some in Hsl; lia).
      rewrite sh_col0, sh_color0. f_equal. f_equal. lia.
    + rewrite list_lookup_alter_ne in Hr by done. rewrite list_lookup_insert_ne; [eauto|].
      subst s. intros He. apply Hne. apply lookup_lt_Some in Hr. unfold p_len in *.
      rewrite !line_slot_eq in He by lia.
      pose proof (slot_of_range c (Z.of_nat i)); pose proof (slot_of_range c (cursor_line_index c)).
      assert (Heq : slot_of c (cursor_line_index c) = slot_of c (Z.of_nat i)) by lia.
      apply slot_of_inj in Heq; lia.
Qed.

(** One more line when the cursor is past the last one: the ring forgets
    its oldest line when it is full. *)
Definition added (c : console) : console :=
  let c' := clear_line_slot c (slot_of c (scrollback_first_line c + scrollback_line_count c)) in
  if scrollback_line_count c <? 537
  then set_window c' (scrollback_first_line c) (scrollback_first_slot c) (scrollback_line_count c + 1)
  else set_window c' (scrollback_first_line c + 1) ((scrollback_first_slot c + 1) mod 537) 537.

Lemma ensure_adds c p :
  shows c p -> (length (p_lines p) = S (p_line p)) -> p_len p + 1 < 2 ^ 62 ->
  start_new_line c = set_cursor (added c) 0 (p_len p).
Proof.
  intros Hs Hl Hsm. pose proof Hs as []. unfold start_new_line.
  assert (Hc : cursor_line_index c +% 1 = p_len p).
  { rewrite u64_small; [unfold p_len; lia|]. unfold is_u64, p_len in *; lia. }
  rewrite Hc. unfold ensure_line_available; simpl.
  assert (p_oldest p <= p_len p /\ 0 <= p_oldest p) as [] by (unfold p_oldest; lia).
  rewrite (u64_small (scrollback_first_line c + scrollback_line_count c)) by (unfold is_u64; lia).
  rewrite <- sh_len0. replace (Z.to_nat _) with 1%nat by lia. simpl.
  rewrite (u64_small (scrollback_first_line c + scrollback_line_count c)) by (unfold is_u64; lia).
  rewrite <- sh_len0, Z.leb_refl. rewrite line_slot_eq by (simpl; lia).
  unfold drop_oldest_line_if_needed, added. rewrite <- sh_len0. simpl.
  unfold TOTAL_LINES, SCROLLBACK_LINES, VGA_HEIGHT.
  assert (scrollback_line_count c <= 537) by (unfold p_oldest in *; lia).
  rewrite (u64_small (scrollback_line_count c + 1)) by (unfold is_u64; unfold p_oldest in *; lia).
  case_b; (destruct (Z.ltb_spec (scrollback_line_count c) 537); [|try lia]); try lia; [done|].
  assert (scrollback_line_count c = 537) as Hn by lia. rewrite Hn.
  rewrite !u64_small by (unfold is_u64; lia). simpl.
  unfold clamp_view_offset, newest_start, set_window; simpl. unfold VGA_HEIGHT.
  rewrite (u64_small (p_len p + 1)) by (unfold is_u64; lia).
  destruct (Z.ltb_spec 25 (p_len p + 1)); [|lia].
  rewrite (u64_small (p_len p + 1 - 25)) by (unfold is_u64; lia).
  destruct (Z.ltb_spec (p_len p + 1 - 25) (scrollback_first_line c + 1)); [lia|].
  rewrite u64_small by (unfold is_u64; lia). unfold p_top in *. case_b; [lia|done].
Qed.

Lemma slot_of_added c i : slot_of (added c) i = slot_of c i.
Proof.
  unfold added, slot_of. case_b; simpl; [done|]. rewrite Zplus_mod_idemp_l. f_equal. lia.
Qed.

Lemma added_row c p i row :
  shows c p -> p_oldest p <= Z.of_nat i -> p_len p - 537 < Z.of_nat i ->
  (p_lines p ++ [blank_row color]) !! i = Some row ->
  scrollback_buf (added c) !! Z.to_nat (slot_of c (Z.of_nat i)) = Some row.
Proof.
  intros Hs Hi Hi' Hr. pose proof Hs as [].
  assert (scrollback_buf (added c) =
          <[Z.to_nat (slot_of c (p_len p)) := blank_row color]> (scrollback_buf c)) as ->.
  { unfold added. rewrite <- sh_len0, <- sh_color0. by case_b. }
  pose proof (slot_of_range c (Z.of_nat i)). pose proof (slot_of_range c (p_len p)).
  apply lookup_app_Some in Hr as [Hr|[Hge Hr]].
  - pose proof (lookup_lt_Some _ _ _ Hr). unfold p_len in *.
    rewrite list_lookup_insert_ne.
    + specialize (sh_rows0 _ _ Hi Hr). rewrite line_slot_eq in sh_rows0; [done|..|lia|done].
      unfold p_oldest, p_len in *. lia.
    + intros He. assert (Heq : slot_of c (Z.of_nat (length (p_lines p))) = slot_of c (Z.of_nat i)) by lia.
      apply slot_of_inj in Heq; lia.
  - apply list_lookup_singleton_Some in Hr as [Hz <-].
    replace (Z.of_nat i) with (p_len p) by (unfold p_len; lia).
    apply list_lookup_insert_eq. lia.
Qed.

Lemma shows_newline c p :
  shows c p -> p_len p + 1 < 2 ^ 62 -> shows (start_new_line c) (p_newline p).
Proof.
  intros Hs Hsm. pose proof Hs as [].
  destruct (decide (S (p_line p) < length (p_lines p))%nat) as [Hlt|Hge].
  - unfold start_new_line, p_newline. rewrite decide_True by done.
    unfold p_len in *. rewrite u64_small by (unfold is_u64; lia).
    rewrite ensure_id by (simpl; lia).
    constructor; simpl; try done; unfold p_len; simpl; lia.
  - assert (Hl : length (p_lines p) = S (p_line p)) by (unfold p_len in *; lia).
    rewrite (ensure_adds c p) by done. unfold p_newline. rewrite decide_False by done.
    set (p' := mk_paper _ _ _ _).
    assert (Hlen : p_len p' = p_len p + 1) by (unfold p_len; simpl; rewrite length_app; simpl; lia).
    assert (Hrange : 25 <= scrollback_line_count c <= 537) by (unfold p_oldest in *; lia).
    assert (Hfirst : scrollback_first_line (added c) = p_oldest p' /\
                     scrollback_first_line (added c) + scrollback_line_count (added c) = p_len p').
    { unfold p_oldest. rewrite Hlen. unfold added. unfold p_oldest in *. case_b; simpl; lia. }
    destruct Hfirst as [Hf Hn].
    assert (Hsl : 0 <= scrollback_first_slot (added c) < 537).
    { unfold added. case_b; simpl; [done|]. apply Z.mod_pos_bound. lia. }
    constructor; try rewrite Hlen; simpl; try done; try lia.
    + unfold added. by case_b.
    + unfold p_len in *. lia.
    + unfold added. by case_b.
    + unfold p_top, p_oldest in *. rewrite Hlen. simpl. lia.
    + unfold p_len in *. lia.
    + unfold added. case_b; simpl; by rewrite length_insert.
    + intros i row Hi Hr.
      assert (Hil : Z.of_nat i < p_len p').
      { apply lookup_lt_Some in Hr. unfold p_len. simpl. lia. }
      assert (0 <= p_oldest p') by (unfold p_oldest; lia).
      change (line_slot_for_index _ _) with (line_slot_for_index (added c) (Z.of_nat i)).
      rewrite line_slot_eq by lia. rewrite slot_of_added.
      apply (added_row c p); try done; unfold p_oldest, p_len in *; simpl in *; lia.
Qed.

Lemma shows_wrap c p :
  shows c p -> p_len p + 1 < 2 ^ 62 ->
  shows (if VGA_WIDTH <=? cursor_x c then start_new_line c else c) (p_wrap p).
Proof.
  intros Hs ?. unfold p_wrap. rewrite (sh_col _ _ Hs). unfold VGA_WIDTH.
  destruct (decide (p_col p < 80)%nat); case_b; try lia; [done|]. by apply shows_newline.
Qed.

(** ** The display *)

Definition displayed (c : console) (p : paper) : Prop :=
  shows c p /\ (p_col p < 80)%nat /\ con_vga c = p_screen p /\ cursor_y c = p_row p.

Lemma start_ok c p : shows c p -> display_start_line c = (p_top p - p_view p, c).
Proof.
  intros Hs. unfold display_start_line. rewrite (clamp_id c p Hs), (newest_start_ok c p Hs).
  destruct Hs. unfold p_top, p_oldest in *. rewrite u64_small by (unfold is_u64; lia). congruence.
Qed.

Lemma render_ok c p : shows c p -> (p_col p < 80)%nat -> displayed (render_view c) p.
Proof.
  intros Hs Hcol. unfold render_view. rewrite (start_ok c p Hs). pose proof Hs as [].
  split; [by constructor|]. split; [done|]. unfold p_screen, set_screen. cbn [con_vga].
  assert (Hb : 0 <= p_oldest p <= p_top p - p_view p /\ p_top p - p_view p + 25 <= p_len p).
  { unfold p_top, p_oldest in *. lia. }
  split; [|cbn [cursor_y]; unfold p_row, VGA_HEIGHT in *; unfold p_top in *].
  2: { case_b; [|lia]. rewrite u64_small by (unfold is_u64; lia).
       case_b; [rewrite u8_small by (unfold is_u8; lia)|]; lia. }
  apply list_eq. intros i. destruct (decide (i < 25)%nat) as [Hi|Hi].
  - rewrite list_lookup_fmap, lookup_seq_lt by done. simpl.
    rewrite lookup_take_lt, lookup_drop by done. set (k := (_ + i)%nat).
    rewrite u64_small by (unfold is_u64; lia).
    destruct (lookup_lt_is_Some_2 (p_lines p) k) as [row Hr]; [unfold p_len in *; lia|].
    replace (p_top p - p_view p + Z.of_nat i) with (Z.of_nat k) by lia.
    specialize (sh_rows0 k row). rewrite Hr. unfold slot_row.
    erewrite nth_lookup_Some; [done|]. apply sh_rows0; [lia|done].
  - rewrite !lookup_ge_None_2; [done| |].
    + rewrite length_take. lia.
    + rewrite length_fmap, length_seq. lia.
Qed.

(** ** Each operation *)

Lemma tab_col n : (n < 80)%nat -> u8 (Z.land (Z.of_nat n + 4) 4294967292) = Z.of_nat (4 * (n / 4) + 4).
Proof.
  intros Hn. assert (Hall : Forall (fun n => u8 (Z.land (Z.of_nat n + 4) 4294967292) = Z.of_nat (4 * (n / 4) + 4)) (seq 0 80)).
  { apply Forall_forall. rewrite <- Forall_forall. apply (bool_decide_unpack _). vm_compute. exact I. }
  rewrite Forall_forall in Hall. apply Hall. apply elem_of_seq. lia.
Qed.

Lemma p_wrap_col p : (p_col p <= 80)%nat -> (p_col (p_wrap p) < 80)%nat.
Proof. intros. unfold p_wrap. destruct (decide _); simpl; lia. Qed.

Lemma put_len p ch : p_len (p_put p ch) = p_len p.
Proof. unfold p_len. simpl. by rewrite length_alter. Qed.

Lemma putc_vga_ok c p ch :
  shows c p -> (p_col p < 80)%nat -> p_len p + 1 < 2 ^ 62 -> displayed (console_putc_vga c ch) (p_putc p ch).
Proof.
  intros Hs Hcol Hsm. unfold console_putc_vga, p_putc. rewrite (sh_col _ _ Hs).
  case_b; [apply render_ok; [by apply shows_newline|simpl; lia]|].
  case_b; [apply render_ok; [by apply shows_goto|simpl; lia]|].
  case_b.
  - rewrite tab_col by done.
    apply render_ok; [apply shows_wrap; [by apply shows_goto|done]|].
    apply p_wrap_col. pose proof (Nat.Div0.div_lt_upper_bound (p_col p) 4 20). cbn [p_col p_goto]. lia.
  - pose proof (shows_put c p ch Hs Hcol) as Hp.
    rewrite (sh_col _ _ Hp). rewrite u8_small by (unfold is_u8; cbn [p_col p_put]; lia).
    apply render_ok; [apply shows_wrap|apply p_wrap_col; simpl; lia].
    + apply shows_goto; [done|simpl; lia].
    + unfold p_goto, p_len. simpl. rewrite length_alter. done.
Qed.

Lemma scroll_ok c p lines :
  displayed c p -> -2147483648 < lines < 2147483648 -> displayed (console_scroll_view c lines) (p_scroll p lines).
Proof.
  intros [Hs [Hcol [Hv Hy]]] Hl. unfold console_scroll_view. pose proof Hs as [].
  destruct (Z.eqb_spec lines 0) as [->|Hne].
  { unfold p_scroll. rewrite Z.add_0_r, Z.min_r, Z.max_r by lia. by destruct p. }
  rewrite (newest_start_ok c p Hs).
  assert (Hb : 0 <= p_oldest p <= p_top p /\ p_top p < 2 ^ 62) by (unfold p_top, p_oldest in *; lia).
  rewrite sh_first0, (u64_small (_ - p_oldest p)) by (unfold is_u64; lia).
  assert (Hshow : forall v, v = p_view (p_scroll p lines) -> shows (set_view c v) (p_scroll p lines)).
  { intros v ->. constructor; simpl; try done. unfold p_top, p_oldest, p_len in *. simpl in *. lia. }
  apply render_ok; [|done].
  case_b.
  - rewrite u64_small by (unfold is_u64; lia). case_b; apply Hshow; simpl; lia.
  - rewrite i32_small, (u64_small (- lines)) by (unfold is_u64; lia).
    case_b; [apply Hshow; simpl; lia|]. rewrite u64_small by (unfold is_u64; lia). apply Hshow; simpl; lia.
Qed.

Lemma shows_serial c p out : shows c p -> shows (set_serial c out) p.
Proof. intros []. by constructor. Qed.

Definition ok_event (ev : con_event) : Prop :=
  match ev with ConPutc _ => True | ConScroll lines => -2147483648 < lines < 2147483648 end.

Lemma step_ok c p ev :
  displayed c p -> ok_event ev -> p_len p + 1 < 2 ^ 62 -> displayed (con_step c ev) (p_step p ev).
Proof.
  intros Hd Hok Hsm. destruct ev as [ch|lines]; simpl; [|by apply scroll_ok].
  destruct Hd as [Hs [Hcol _]]. unfold console_putc. apply putc_vga_ok; [|done..].
  case_b; [by apply shows_serial|done].
Qed.

Lemma newline_len p : p_len (p_newline p) <= p_len p + 1.
Proof. unfold p_newline, p_len. simpl. destruct (decide _); rewrite ?length_app; simpl; lia. Qed.

Lemma step_len p ev : p_len (p_step p ev) <= p_len p + 1.
Proof.
  assert (Hw : forall q, p_len (p_wrap q) <= p_len q + 1).
  { intros q. unfold p_wrap. destruct (decide _); [lia|apply newline_len]. }
  destruct ev as [ch|lines]; [|unfold p_len; simpl; lia]. simpl. unfold p_putc. repeat case_b.
  - apply newline_len.
  - unfold p_len; simpl; lia.
  - exact (Hw (p_goto p _)).
  - etrans; [apply Hw|]. unfold p_len; simpl. rewrite length_alter. lia.
Qed.

Lemma run_ok evs c p :
  displayed c p -> Forall ok_event evs -> p_len p + Z.of_nat (length evs) < 2 ^ 62 ->
  displayed (con_run c evs) (fold_left p_step evs p).
Proof.
  revert c p. induction evs as [|ev evs IH]; intros c p Hd Hok Hsm; simpl in *; [done|].
  apply Forall_cons in Hok as [? ?]. pose proof (step_len p ev).
  apply IH; [apply step_ok; [done|done|lia]|done|lia].
Qed.

(** ** Start-up *)

Lemma clear_loop c :
  length (scrollback_buf c) = 537%nat ->
  for_range 0 TOTAL_LINES (fun i c => clear_line_slot c i) c = set_buf c (replicate 537 (blank_row (vga_color c))).
Proof.
  intros Hl.
  enough (He : exists b, for_range 0 TOTAL_LINES (fun i c => clear_line_slot c i) c = set_buf c b /\
      length b = 537%nat /\ forall k, (Z.of_nat k < 537) -> b !! k = Some (blank_row (vga_color c))).
  { destruct He as [b [-> [Hb Hk]]]. f_equal. apply list_eq. intros k.
    destruct (decide (k < 537)%nat); [|rewrite !lookup_ge_None_2; rewrite ?length_replicate; try done; lia].
    rewrite Hk by lia. symmetry. by apply lookup_replicate_2. }
  apply (for_range_ind (fun i c' => exists b, c' = set_buf c b /\ length b = 537%nat /\
      forall k, (Z.of_nat k < i) -> b !! k = Some (blank_row (vga_color c)))).
  - unfold TOTAL_LINES, SCROLLBACK_LINES, VGA_HEIGHT. lia.
  - exists (scrollback_buf c). split; [by destruct c|]. split; [done|]. intros; lia.
  - intros i c' Hi [b [-> [Hb Hk]]]. unfold TOTAL_LINES, SCROLLBACK_LINES, VGA_HEIGHT in Hi.
    exists (<[Z.to_nat i := blank_row (vga_color c)]> b). split; [done|]. split; [by rewrite length_insert|].
    intros k Hki. destruct (decide (k = Z.to_nat i)) as [->|Hne].
    + apply list_lookup_insert_eq. lia.
    + rewrite list_lookup_insert_ne by done. apply Hk. lia.
Qed.

Lemma clear_ok c :
  length (scrollback_buf c) = 537%nat -> vga_color c = color -> displayed (console_clear c) p_blank.
Proof.
  intros Hl Hc. unfold console_clear. rewrite clear_loop, Hc by done.
  apply render_ok; [|simpl; lia]. unfold p_blank.
  remember (replicate 537 (blank_row color)) as b eqn:Hb. remember (replicate 25 (blank_row color)) as l eqn:Hll.
  assert (Hlb : length b = 537%nat) by (subst; apply length_replicate).
  assert (Hl25 : length l = 25%nat) by (subst; apply length_replicate).
  constructor; unfold p_top, p_oldest, p_len; simpl; rewrite ?Hl25; try done.
  intros i row Hi Hr. subst l. apply lookup_replicate in Hr as [-> ?].
  subst b. apply lookup_replicate_2. unfold line_slot_for_index.
  match goal with |- context [(?a mod TOTAL_LINES)%Z] => pose proof (Z.mod_pos_bound a 537 eq_refl) end.
  change TOTAL_LINES with 537 in *. lia.
Qed.

(** ** The serial copy *)

Definition line_of (c : console) : list Z * bool := (con_serial c, serial_enabled c).

Lemma line_clamp c : line_of (clamp_view_offset c) = line_of c.
Proof. unfold clamp_view_offset. by case_b. Qed.

Lemma line_render c : line_of (render_view c) = line_of c.
Proof. unfold render_view, display_start_line. rewrite <- (line_clamp c). done. Qed.

Lemma line_add n c i : line_of (add_lines n c i) = line_of c.
Proof.
  revert c. induction n as [|n IH]; intros c; simpl; [done|]. case_b; [|done]. rewrite IH.
  unfold drop_oldest_line_if_needed. case_b; [done|]. by rewrite line_clamp.
Qed.

Lemma line_newline c : line_of (start_new_line c) = line_of c.
Proof. unfold start_new_line, ensure_line_available. by rewrite line_add. Qed.

Lemma line_write c ch : line_of (write_char_at_cursor c ch) = line_of c.
Proof. exact (line_add _ c (cursor_line_index c)). Qed.

Lemma line_putc_vga c ch : line_of (console_putc_vga c ch) = line_of c.
Proof.
  unfold console_putc_vga. repeat case_b; rewrite line_render, ?line_newline; try done; apply line_write.
Qed.

Lemma line_step c ev :
  line_of (con_step c ev) =
  (con_serial c ++ (if serial_enabled c then match ev with ConPutc ch => [ch] | _ => [] end else []),
   serial_enabled c).
Proof.
  destruct ev as [ch|lines]; simpl.
  - unfold console_putc. rewrite line_putc_vga. case_b; simpl; unfold line_of; simpl; by rewrite ?app_nil_r, ?E.
  - assert (Hn : (if serial_enabled c then [] else []) = ([] : list Z)) by (by case_b). rewrite Hn, app_nil_r.
    unfold console_scroll_view. repeat case_b; rewrite ?line_render; done.
Qed.

Definition echo (evs : list con_event) : list Z := omap (fun ev => match ev with ConPutc ch => Some ch | _ => None end) evs.

Lemma line_run evs c :
  line_of (con_run c evs) = (con_serial c ++ (if serial_enabled c then echo evs else []), serial_enabled c).
Proof.
  revert c. induction evs as [|ev evs IH]; intros c; [by destruct c as [??? []]; unfold line_of; simpl; rewrite app_nil_r|].
  change (con_run c (ev :: evs)) with (con_run (con_step c ev) evs). rewrite IH.
  pose proof (line_step c ev) as Hl. injection Hl as -> ->.
  destruct (serial_enabled c); [|by rewrite !app_nil_r]. rewrite <- app_assoc. by destruct ev.
Qed.

Lemma write_run s c : console_write c s = con_run c (ConPutc <$> s).
Proof. revert c. induction s as [|ch s IH]; intros c; simpl; [reflexivity|]. apply IH. Qed.

Lemma init_run c : console_init c = con_run (console_clear c) (ConPutc <$> boot_text).
Proof. apply write_run. Qed.

Lemma line_reset c :
  line_of (let c := set_view (set_window c 0 0 VGA_HEIGHT) 0 in
           render_view (set_screen (set_cursor c 0 0) 0 (con_vga c))) = line_of c.
Proof. cbv zeta. rewrite line_render. reflexivity. Qed.

Lemma line_clear c : line_of (console_clear c) = line_of c.
Proof.
  assert (Hc : line_of (for_range 0 TOTAL_LINES (fun i c => clear_line_slot c i) c) = line_of c).
  { apply (for_range_ind (fun _ c' => line_of c' = line_of c)); [unfold TOTAL_LINES, SCROLLBACK_LINES, VGA_HEIGHT; lia|reflexivity|].
    intros i c' _ <-. reflexivity. }
  rewrite <- Hc. apply line_reset.
Qed.

End spec.

(** C10: After start-up and any sequence of characters and scroll requests the
    display holds exactly the 25 rows that the text written since start-up,
    broken at 80 columns and with tab stops every 4, has at the scrolled
    position; the cursor is on its row of it, and the serial line got every
    character in order.  The scrollback keeps 537 lines, so the view goes back
    at most 512 lines above the newest screenful; nothing in that window is
    lost when the ring wraps. *)
Theorem console_shows_text (c : console) (evs : list con_event) :
  length (scrollback_buf c) = 537%nat -> Forall ok_event evs -> Z.of_nat (length evs) < 2 ^ 61 ->
  let c' := con_run (console_init c) evs in
  let all := (ConPutc <$> boot_text) ++ evs in
  let p := fold_left (p_step (vga_color c)) all (p_blank (vga_color c)) in
  con_vga c' = p_screen p /\ length (con_vga c') = 25%nat /\
  cursor_y c' = p_row p /\ cursor_x c' = Z.of_nat (p_col p) /\ 0 <= cursor_y c' < 25 /\ 0 <= cursor_x c' < 80 /\
  0 <= p_view p <= 512 /\
  con_serial c' = con_serial c ++ (if serial_enabled c then echo all else []).
Proof.
  intros Hl Hok Hsm c' all p.
  assert (Hrun : c' = con_run (console_clear c) all) by (subst c' all; rewrite init_run; unfold con_run; by rewrite fold_left_app).
  assert (Hd : displayed (vga_color c) c' p).
  { rewrite Hrun. apply run_ok; [by apply clear_ok| |].
    - apply Forall_app. split; [|done]. apply Forall_fmap, Forall_true. done.
    - subst all. rewrite length_app. change (length (ConPutc <$> boot_text)) with 20%nat.
      change (p_len (p_blank _)) with 25. lia. }
  destruct Hd as [Hs [Hcol [Hv Hy]]]. pose proof Hs as []. split; [done|]. split.
  { rewrite Hv. unfold p_screen, p_top, p_oldest, p_len in *. rewrite length_take, length_drop. lia. }
  split; [done|]. split; [done|]. split.
  { rewrite Hy. unfold p_row, p_top, p_oldest in *. lia. }
  split; [lia|]. split; [unfold p_top, p_oldest in *; lia|].
  pose proof (line_run all (console_clear c)) as Hline. rewrite <- Hrun in Hline.
  pose proof (f_equal fst (line_clear c)) as Hcl1. pose proof (f_equal snd (line_clear c)) as Hcl2.
  apply (f_equal fst) in Hline. cbn [fst snd line_of] in Hcl1, Hcl2, Hline. by rewrite Hcl1, Hcl2 in Hline.
Qed.

(** A console as the loader leaves it. *)
Definition cold_console : console :=
  mk_con 0 0 15 true None (replicate 537 (replicate 80 0)) 0 0 25 0 0 [] [].

(** 600 lines of one letter each, then 100 lines back. *)
Definition long_output : list con_event :=
  concat ((fun i => [ConPutc (65 + Z.of_nat i mod 26); ConPutc 10]) <$> seq 0 600) ++ [ConScroll 100].

Lemma long_output_ok : Forall ok_event long_output.
Proof.
  unfold long_output. apply Forall_app. split; [|by repeat constructor].
  apply Forall_concat, Forall_fmap, Forall_true. intros i. repeat constructor.
Qed.

Lemma console_shows_text_witness :
  length long_output = 1201%nat /\
  scrollback_first_line (con_run (console_init cold_console) long_output) = 65 /\
  view_offset (con_run (console_init cold_console) long_output) = 100 /\
  con_vga (con_run (console_init cold_console) long_output) =
  p_screen (fold_left (p_step (vga_color cold_console)) ((ConPutc <$> boot_text) ++ long_output)
              (p_blank (vga_color cold_console))).
Proof.
  split; [vm_compute; reflexivity|]. split; [vm_compute; reflexivity|]. split; [vm_compute; reflexivity|].
  exact (proj1 (console_shows_text cold_console long_output eq_refl long_output_ok eq_refl)).
Defined.
