(* ===== verification/Irq.v ===== *)
(** * Hardware interrupts (src/arch/x86_64/pic.c, irq.c and src/disk.c)

    The two interrupt controllers, the table of handlers, and the stack of
    masks that lets a handler be interrupted by more urgent requests only.
    [irq_if] is the processor's interrupt flag; a handler is the identity
    of the function registered, 0 when there is none. *)

From stdpp Require Import prelude list strings.
From Stdlib Require Import ZArith Lia Sorted.
From S2P Require Import Prelude Io Console.
#[local] Open Scope Z_scope.
#[local] Open Scope cint_scope.

(** ** The controllers *)

Definition PIC1_CMD : Z := 32.
Definition PIC1_DATA : Z := 33.
Definition PIC2_CMD : Z := 160.
Definition PIC2_DATA : Z := 161.
Definition ICW1_INIT : Z := 16.
Definition ICW1_ICW4 : Z := 1.
Definition ICW4_8086 : Z := 1.

Section pic.
Context (dev : device).

Definition pic_send_eoi (irq : Z) : IO unit :=
  _ ← (if 8 <=? irq then outb PIC2_CMD 32 else mret tt); outb PIC1_CMD 32.

Definition pic_get_mask : IO Z :=
  master ← inb dev PIC1_DATA; slave ← inb dev PIC2_DATA; mret (u16 (Z.lor master (Z.shiftl slave 8))).

Definition pic_set_mask_all (mask : Z) : IO unit :=
  _ ← outb PIC1_DATA (u8 (Z.land mask 255)); outb PIC2_DATA (u8 (Z.land (Z.shiftr mask 8) 255)).

Definition pic_set_mask (irq_line masked : Z) : IO unit :=
  let '(port, irq_line) := if irq_line <? 8 then (PIC1_DATA, irq_line) else (PIC2_DATA, irq_line - 8) in
  value ← inb dev port;
  let bit := u32 (Z.shiftl 1 irq_line) in
  outb port (if negb (masked =? 0) then Z.lor value (u8 bit) else Z.land value (u8 (4294967295 - bit))).

Definition pic_init : IO unit :=
  a1 ← inb dev PIC1_DATA; a2 ← inb dev PIC2_DATA;
  _ ← outb PIC1_CMD (Z.lor ICW1_INIT ICW1_ICW4); _ ← io_wait;
  _ ← outb PIC2_CMD (Z.lor ICW1_INIT ICW1_ICW4); _ ← io_wait;
  _ ← outb PIC1_DATA 32; _ ← io_wait;
  _ ← outb PIC2_DATA 40; _ ← io_wait;
  _ ← outb PIC1_DATA 4; _ ← io_wait;
  _ ← outb PIC2_DATA 2; _ ← io_wait;
  _ ← outb PIC1_DATA ICW4_8086; _ ← io_wait;
  _ ← outb PIC2_DATA ICW4_8086; _ ← io_wait;
  _ ← outb PIC1_DATA a1; outb PIC2_DATA a2.
End pic.

(** ** Handlers and nesting *)

Definition IRQ_MAX : Z := 16.
Definition IRQ_NEST_LIMIT : Z := 8.

Record irq_state := mk_irq {
  irq_handlers : list Z;
  irq_names : list (list Z);
  irq_priorities : list Z;
  irq_mask_stack : list Z;
  irq_prio_stack : list Z;
  irq_nesting : Z;
  current_priority : Z;
  unhandled_logged : list Z;
  irq_if : bool;
  irq_con : list con_event
}.

Definition set_table (c : irq_state) (hs : list Z) (ns : list (list Z)) (ps : list Z) : irq_state :=
  mk_irq hs ns ps (irq_mask_stack c) (irq_prio_stack c) (irq_nesting c) (current_priority c) (unhandled_logged c)
    (irq_if c) (irq_con c).
Definition set_nest (c : irq_state) (ms ps : list Z) (n prio : Z) : irq_state :=
  mk_irq (irq_handlers c) (irq_names c) (irq_priorities c) ms ps n prio (unhandled_logged c) (irq_if c) (irq_con c).
Definition set_if (c : irq_state) (b : bool) : irq_state :=
  mk_irq (irq_handlers c) (irq_names c) (irq_priorities c) (irq_mask_stack c) (irq_prio_stack c) (irq_nesting c)
    (current_priority c) (unhandled_logged c) b (irq_con c).
Definition irq_say (c : irq_state) (cs : list Z) : irq_state :=
  mk_irq (irq_handlers c) (irq_names c) (irq_priorities c) (irq_mask_stack c) (irq_prio_stack c) (irq_nesting c)
    (current_priority c) (unhandled_logged c) (irq_if c) (irq_con c ++ (ConPutc <$> cs)).
Definition set_logged (c : irq_state) (l : list Z) : irq_state :=
  mk_irq (irq_handlers c) (irq_names c) (irq_priorities c) (irq_mask_stack c) (irq_prio_stack c) (irq_nesting c)
    (current_priority c) l (irq_if c) (irq_con c).

Definition cpu_cli (c : irq_state) : irq_state := set_if c false.
Definition cpu_sti (c : irq_state) : irq_state := set_if c true.

Definition irq_init (c : irq_state) : irq_state :=
  mk_irq (replicate 16 0) (replicate 16 (text "unassigned")) (Z.of_nat <$> seq 0 16)
    (replicate 8 0) (replicate 8 0) 0 255 (replicate 16 0) (irq_if c) (irq_con c).

Definition irq_register_handler (c : irq_state) (irq handler : Z) (name : option (list Z)) : irq_state :=
  if IRQ_MAX <=? irq then c
  else set_table c (<[Z.to_nat irq := handler]> (irq_handlers c))
         (match name with Some n => <[Z.to_nat irq := n]> (irq_names c) | None => irq_names c end) (irq_priorities c).

Definition irq_unregister_handler (c : irq_state) (irq : Z) : irq_state :=
  if IRQ_MAX <=? irq then c
  else set_table c (<[Z.to_nat irq := 0]> (irq_handlers c)) (<[Z.to_nat irq := text "unassigned"]> (irq_names c))
         (irq_priorities c).

Definition irq_set_priority (c : irq_state) (irq priority : Z) : irq_state :=
  if IRQ_MAX <=? irq then c
  else set_table c (irq_handlers c) (irq_names c) (<[Z.to_nat irq := priority]> (irq_priorities c)).

Definition prio_of (ps : list Z) (irq : Z) : Z := nth (Z.to_nat irq) ps 0.

Definition irq_get_priority (c : irq_state) (irq : Z) : Z :=
  if IRQ_MAX <=? irq then 255 else prio_of (irq_priorities c) irq.

Definition irq_get_name (c : irq_state) (irq : Z) : list Z :=
  if IRQ_MAX <=? irq then text "invalid" else nth (Z.to_nat irq) (irq_names c) [].

(** [for (i = 0; i < IRQ_MAX; i++) if (irq_priorities[i] >= prio) mask |= 1 << i;] *)
Definition mask_from (ps : list Z) (prio mask : Z) : Z :=
  for_range 0 IRQ_MAX (fun i m => if prio <=? prio_of ps i then Z.lor m (u16 (Z.shiftl 1 i)) else m) mask.

Section irq.
Context (dev : device).

Definition irq_enter (irq : Z) (c : irq_state) : IO irq_state :=
  if IRQ_MAX <=? irq then mret c
  else if IRQ_NEST_LIMIT <=? irq_nesting c then
    mret (irq_say c (text "[irq] nesting overflow, keeping interrupts masked" ++ [10]))
  else
    prev_mask ← pic_get_mask dev;
    let prio := prio_of (irq_priorities c) irq in
    let new_mask := mask_from (irq_priorities c) prio prev_mask in
    let n := Z.to_nat (irq_nesting c) in
    let c := set_nest c (<[n := prev_mask]> (irq_mask_stack c)) (<[n := current_priority c]> (irq_prio_stack c))
               (u8 (irq_nesting c + 1)) prio in
    _ ← pic_set_mask_all new_mask;
    mret (cpu_sti c).

Definition irq_exit (c : irq_state) : IO irq_state :=
  if irq_nesting c =? 0 then mret c
  else
    let c := cpu_cli c in
    let n := irq_nesting c - 1 in
    let c := set_nest c (irq_mask_stack c) (irq_prio_stack c) n (nth (Z.to_nat n) (irq_prio_stack c) 0) in
    _ ← pic_set_mask_all (nth (Z.to_nat n) (irq_mask_stack c) 0);
    mret (if 0 <? n then cpu_sti c else c).

(** The handler to call, if there is one. *)
Definition irq_dispatch (irq : Z) (c : irq_state) : option Z * irq_state :=
  if IRQ_MAX <=? irq then (None, c)
  else
    let handler := nth (Z.to_nat irq) (irq_handlers c) 0 in
    if negb (handler =? 0) then (Some handler, c)
    else if nth (Z.to_nat irq) (unhandled_logged c) 0 =? 0 then
      let c := irq_say c (text "[irq] unhandled IRQ " ++ dec_u64 irq ++ text " (" ++
                          nth (Z.to_nat irq) (irq_names c) [] ++ text ")" ++ [10]) in
      (None, set_logged c (<[Z.to_nat irq := 1]> (unhandled_logged c)))
    else (None, c).
End irq.

(** ** The disk interrupt (src/disk.c) *)

Definition DISK_IRQ_HANDLER : Z := 3.

Definition disk_irq_handler (irq : Z) (c : irq_state) : irq_state :=
  irq_say c (text "[disk] IRQ " ++ dec_u64 irq ++ text " signaled" ++ [10]).

Definition disk_init (c : irq_state) : irq_state :=
  irq_register_handler c 14 DISK_IRQ_HANDLER (Some (text "ata-primary")).

(** ** Nesting

    A configuration is the handler state, the port history and the requests
    being served, innermost first.  A request is taken when interrupts are
    enabled and its line is not masked; [Leave] is the end of
    interrupt_dispatch for the innermost one: end of interrupt, [irq_exit]
    and the return that restores the interrupted flags.  In between handlers
    use other ports. *)

Definition mask_is (h : io_hist) (m : Z) : Prop :=
  last_out h PIC1_DATA = Some (m mod 256) /\ last_out h PIC2_DATA = Some (m / 256) /\ is_u16 m.

(** A data port reads back the mask last written to it. *)
Definition pic_law (dev : device) : Prop :=
  forall h port v, port = PIC1_DATA \/ port = PIC2_DATA -> last_out h port = Some v -> dev h port = v.

Definition mask_port (ev : io_event) : bool :=
  match ev with EvOut p _ => (p =? PIC1_DATA) || (p =? PIC2_DATA) | _ => false end.

Definition irq_cfg : Type := irq_state * io_hist * list Z.

Inductive irq_step (dev : device) : irq_cfg -> irq_cfg -> Prop :=
| Take c h act irq m c' h' :
    irq_if c = true -> 0 <= irq < 16 -> mask_is h m -> Z.testbit m irq = false -> (length act < 8)%nat ->
    irq_enter dev irq (cpu_cli c) h = (c', h') ->
    irq_step dev (c, h, act) (c', h', irq :: act)
| Leave c h irq act c' h' :
    irq_exit (cpu_cli c) (snd (pic_send_eoi irq h)) = (c', h') ->
    irq_step dev (c, h, irq :: act) (cpu_sti c', h', act)
| Other c h act ev : mask_port ev = false -> irq_step dev (c, h, act) (c, ev :: h, act).

Section nesting.
Context (dev : device) (Hpic : pic_law dev) (ps : list Z) (m0 : Z).

Definition level_mask (act : list Z) : Z := foldr (fun i m => mask_from ps (prio_of ps i) m) m0 act.
Definition level_prio (act : list Z) : Z := match act with [] => 255 | i :: _ => prio_of ps i end.

Lemma mask_from_bits prio mask j :
  0 <= j -> Z.testbit (mask_from ps prio mask) j = Z.testbit mask j || ((j <? 16) && (prio <=? prio_of ps j)).
Proof.
  intros Hj. unfold mask_from.
  apply (for_range_ind (fun i m => Z.testbit m j = Z.testbit mask j || ((j <? i) && (prio <=? prio_of ps j)))).
  - unfold IRQ_MAX. lia.
  - rewrite (proj2 (Z.ltb_ge _ _)) by lia. by rewrite orb_false_r.
  - intros i m Hi Hm. unfold IRQ_MAX in Hi.
    assert (Hbit : u16 (Z.shiftl 1 i) = 2 ^ i).
    { rewrite Z.shiftl_1_l. apply Z.mod_small. split; [lia|].
      change 65536 with (2 ^ 16). apply Z.pow_lt_mono_r; lia. }
    case_b; rewrite ?Z.lor_spec, Hm, ?Hbit, ?Z.pow2_bits_eqb by lia.
    + destruct (Z.eqb_spec i j) as [->|Hij].
      * rewrite E, (proj2 (Z.ltb_lt j (j + 1))) by lia. simpl. by rewrite !orb_true_r.
      * rewrite orb_false_r. do 2 f_equal. apply eq_true_iff_eq. rewrite !Z.ltb_lt. lia.
    + destruct (Z.eqb_spec i j) as [->|Hij]; [by rewrite E, !andb_false_r|].
      do 2 f_equal. apply eq_true_iff_eq. rewrite !Z.ltb_lt. lia.
Qed.

Lemma u16_bits m : 0 <= m -> (forall j, 16 <= j -> Z.testbit m j = false) -> is_u16 m.
Proof.
  intros H0 Hb. split; [done|]. destruct (Z.eq_dec m 0) as [->|]; [lia|].
  change 65536 with (2 ^ 16). apply Z.log2_lt_pow2; [lia|].
  destruct (Z.lt_ge_cases (Z.log2 m) 16); [done|]. pose proof (Hb (Z.log2 m) ltac:(lia)) as Hf.
  rewrite Z.bit_log2 in Hf by lia. discriminate.
Qed.

Lemma mask_from_u16 prio mask : is_u16 mask -> is_u16 (mask_from ps prio mask).
Proof.
  intros Hm. apply u16_bits.
  - unfold mask_from. apply (for_range_ind (fun _ m => 0 <= m)); [unfold IRQ_MAX; lia|apply Hm|].
    intros i m _ H0. case_b; [|done]. apply Z.lor_nonneg. split; [done|]. apply Z.mod_pos_bound. lia.
  - intros j Hj. rewrite mask_from_bits by lia. rewrite (proj2 (Z.ltb_ge _ _)) by lia. simpl. rewrite orb_false_r.
    rewrite <- (Z.mod_small mask (2 ^ 16)) by apply Hm. apply Z.mod_pow2_bits_high. lia.
Qed.

Lemma level_mask_u16 act : is_u16 m0 -> is_u16 (level_mask act).
Proof. intros H0. induction act; simpl; [done|]. by apply mask_from_u16. Qed.

(** A line left unmasked is more urgent than everything being served. *)
Lemma level_mask_open act irq :
  0 <= irq < 16 -> Z.testbit (level_mask act) irq = false ->
  Forall (fun i => prio_of ps irq < prio_of ps i) act /\ Z.testbit m0 irq = false.
Proof.
  intros Hi. induction act as [|i act IH]; simpl; [done|]. rewrite mask_from_bits by lia.
  rewrite (proj2 (Z.ltb_lt _ _)) by lia. simpl. intros [Hr Hp]%orb_false_iff.
  destruct (IH Hr) as [Hf H0]. split; [|done]. constructor; [lia|done].
Qed.

(** ** Ports *)

Lemma get_mask_ok h m :
  mask_is h m -> exists h', pic_get_mask dev h = (m, h') /\ mask_is h' m.
Proof.
  intros (H1 & H2 & Hm). unfold is_u16 in Hm.
  assert (E1 : u8 (dev h PIC1_DATA) = m mod 256).
  { rewrite (Hpic h PIC1_DATA (m mod 256)) by auto. apply u8_small. unfold is_u8. apply Z.mod_pos_bound. lia. }
  set (h1 := EvIn PIC1_DATA (m mod 256) :: h).
  assert (E2 : u8 (dev h1 PIC2_DATA) = m / 256).
  { rewrite (Hpic h1 PIC2_DATA (m / 256)) by auto. apply u8_small. unfold is_u8. Z.div_mod_to_equations. lia. }
  exists (EvIn PIC2_DATA (m / 256) :: h1). split; [|done].
  unfold pic_get_mask. rewrite !io_bind_run. unfold inb. cbn [fst snd]. rewrite E1. fold h1. rewrite E2.
  unfold mret, io_ret. f_equal.
  rewrite Z.lor_comm, lor_add by (Z.div_mod_to_equations; lia). change (2 ^ 8) with 256.
  rewrite u16_small by (unfold is_u16; Z.div_mod_to_equations; lia). Z.div_mod_to_equations. lia.
Qed.

Lemma set_mask_ok h m : is_u16 m -> mask_is (snd (pic_set_mask_all m h)) m.
Proof.
  intros Hm. unfold is_u16 in Hm. unfold pic_set_mask_all. rewrite io_bind_run. simpl.
  assert (El : Z.land m 255 = m mod 256) by exact (land_ones_mod m 8 ltac:(lia)).
  assert (Eh : Z.land (Z.shiftr m 8) 255 = m / 256).
  { change 255 with (2 ^ 8 - 1). rewrite land_ones_mod, Z.shiftr_div_pow2 by lia. change (2 ^ 8) with 256.
    apply Z.mod_small. Z.div_mod_to_equations. lia. }
  rewrite El, Eh. pose proof (Z.mod_pos_bound m 256 eq_refl).
  assert (0 <= m / 256 < 256) by (Z.div_mod_to_equations; lia).
  unfold mask_is. simpl. rewrite !(u8_small (m mod 256)), !(u8_small (m / 256)) by (unfold is_u8; lia). done.
Qed.

Lemma mask_is_fun h m m' : mask_is h m -> mask_is h m' -> m = m'.
Proof.
  intros (A1 & A2 & _) (B1 & B2 & _). rewrite A1 in B1. rewrite A2 in B2. injection B1 as B1. injection B2 as B2.
  rewrite (Z.div_mod m 256), (Z.div_mod m' 256) by lia. congruence.
Qed.

Lemma mask_is_other ev h m : mask_port ev = false -> mask_is h m -> mask_is (ev :: h) m.
Proof.
  intros He (H1 & H2 & Hm). unfold mask_is. destruct ev as [|p v|]; simpl in *; [done| |done].
  apply orb_false_iff in He as [-> ->]. done.
Qed.

(** ** The invariant *)

Record irq_inv (cfg : irq_cfg) : Prop := {
  ii_prios : irq_priorities (fst (fst cfg)) = ps;
  ii_nest : irq_nesting (fst (fst cfg)) = Z.of_nat (length (snd cfg));
  ii_depth : (length (snd cfg) <= 8)%nat;
  ii_if : irq_if (fst (fst cfg)) = true;
  ii_prio : current_priority (fst (fst cfg)) = level_prio (snd cfg);
  ii_mask : mask_is (snd (fst cfg)) (level_mask (snd cfg));
  ii_stacks : length (irq_mask_stack (fst (fst cfg))) = 8%nat /\ length (irq_prio_stack (fst (fst cfg))) = 8%nat;
  ii_saved : forall pre act, snd cfg = pre ++ act -> (0 < length pre)%nat ->
    irq_mask_stack (fst (fst cfg)) !! length act = Some (level_mask act) /\
    irq_prio_stack (fst (fst cfg)) !! length act = Some (level_prio act);
  ii_sorted : StronglySorted (fun i j => prio_of ps i < prio_of ps j) (snd cfg)
}.

Lemma enter_inv c h act irq m c' h' :
  is_u16 m0 -> irq_inv (c, h, act) -> 0 <= irq < 16 -> mask_is h m -> Z.testbit m irq = false -> (length act < 8)%nat ->
  irq_enter dev irq (cpu_cli c) h = (c', h') -> irq_inv (c', h', irq :: act).
Proof.
  intros H0 [] Hi Hm Hb Hl. simpl in *. assert (m = level_mask act) as -> by (by eapply mask_is_fun).
  destruct (level_mask_open act irq Hi Hb) as [Hup _].
  unfold irq_enter. unfold IRQ_MAX, IRQ_NEST_LIMIT. simpl. rewrite (proj2 (Z.leb_gt 16 irq)) by lia.
  rewrite ii_nest0, (proj2 (Z.leb_gt 8 _)) by lia. rewrite io_bind_run.
  destruct (get_mask_ok h _ ii_mask0) as (h1 & -> & Hm1). cbn [fst snd]. rewrite io_bind_run.
  intros He. injection He as <- <-. rewrite ii_prios0.
  rewrite Nat2Z.id, u8_small by (unfold is_u8; lia).
  constructor; simpl; try done; try lia.
  - apply set_mask_ok. apply mask_from_u16. by apply level_mask_u16.
  - rewrite !length_insert. done.
  - intros pre act' Hp Hpl. destruct ii_stacks0 as [Hs1 Hs2].
    destruct pre as [|i pre]; [simpl in Hpl; lia|]. injection Hp as <- Hp.
    destruct pre as [|j pre].
    + simpl in Hp. subst act'. rewrite !list_lookup_insert_eq by lia. by rewrite ii_prio0.
    + assert (length act' < length act)%nat by (rewrite Hp, length_app; simpl; lia).
      rewrite !list_lookup_insert_ne by lia. apply (ii_saved0 (j :: pre)); [done|simpl; lia].
  - constructor; done.
Qed.

Lemma leave_inv c h irq act c' h' :
  is_u16 m0 -> irq_inv (c, h, irq :: act) -> irq_exit (cpu_cli c) (snd (pic_send_eoi irq h)) = (c', h') ->
  irq_inv (cpu_sti c', h', act).
Proof.
  intros H0 []. simpl in *. unfold irq_exit. simpl. rewrite ii_nest0.
  rewrite (proj2 (Z.eqb_neq _ _)) by lia. rewrite io_bind_run.
  replace (Z.of_nat (S (length act)) - 1) with (Z.of_nat (length act)) by lia.
  intros He. injection He as <- <-. rewrite Nat2Z.id.
  destruct (ii_saved0 [irq] act) as [Hs1 Hs2]; [done|simpl; lia|].
  rewrite (nth_lookup_Some _ _ _ _ Hs1), (nth_lookup_Some _ _ _ _ Hs2).
  apply StronglySorted_inv in ii_sorted0 as [Hs _].
  constructor; simpl; try done; try lia; try (by destruct (0 <? Z.of_nat (length act))).
  - apply set_mask_ok. by apply level_mask_u16.
  - intros pre act' Hp Hpl.
    destruct (0 <? Z.of_nat (length act)); simpl; apply (ii_saved0 (irq :: pre)); simpl; try lia; by rewrite Hp.
Qed.

Lemma step_inv cfg cfg' : is_u16 m0 -> irq_inv cfg -> irq_step dev cfg cfg' -> irq_inv cfg'.
Proof.
  intros H0 Hinv Hs. destruct Hs as [c h act irq m c' h'|c h irq act c' h'|c h act ev He].
  - by eapply enter_inv.
  - by eapply leave_inv.
  - destruct Hinv. constructor; try done. by apply mask_is_other.
Qed.

End nesting.

(** C7: However requests arrive and nest, down to the eight levels the stack
    has, a line that is open is strictly more urgent than every request being
    served and was open to begin with; so no request interrupts itself, and
    when the last handler returns the mask and the priority are what they were
    before the first. *)
Theorem irq_nesting_safe (dev : device) (c c' : irq_state) (h h' : io_hist) (act : list Z) (m0 : Z) :
  let prio := prio_of (irq_priorities c) in
  pic_law dev -> irq_nesting c = 0 -> current_priority c = 255 -> irq_if c = true ->
  length (irq_mask_stack c) = 8%nat -> length (irq_prio_stack c) = 8%nat -> mask_is h m0 ->
  rtc (irq_step dev) (c, h, []) (c', h', act) ->
  (forall irq m, 0 <= irq < 16 -> mask_is h' m -> Z.testbit m irq = false ->
     Forall (fun i => prio irq < prio i) act /\ Z.testbit m0 irq = false) /\
  NoDup act /\ irq_nesting c' = Z.of_nat (length act) /\
  (act = [] -> mask_is h' m0 /\ current_priority c' = 255).
Proof.
  intros prio Hp Hn Hc Hif Hs1 Hs2 Hm Hr.
  assert (Hinv : irq_inv (irq_priorities c) m0 (c', h', act)).
  { revert Hr. apply (rtc_ind_r (irq_inv (irq_priorities c) m0)).
    - constructor; simpl; try done; try lia; [|constructor].
      intros pre act' Hpa Hl. destruct pre; simpl in *; [lia|done].
    - intros x y _ Hxy Hx. eapply step_inv; [exact Hp|apply Hm|exact Hx|exact Hxy]. }
  destruct Hinv. simpl in *. split_and!.
  - intros irq m Hi Hmm Hb. rewrite (mask_is_fun h' m (level_mask (irq_priorities c) m0 act)) in Hb by done.
    by apply level_mask_open.
  - clear - ii_sorted0. induction ii_sorted0 as [|i l Hl IH Hf]; constructor; [|done].
    intros Hin. rewrite Forall_forall in Hf. specialize (Hf i Hin). simpl in Hf. lia.
  - done.
  - intros ->. done.
Qed.

Definition latch_dev : device := fun h port => default 0 (last_out h port).

Lemma latch_law : pic_law latch_dev.
Proof. intros h port v _ Hl. unfold latch_dev. by rewrite Hl. Qed.

Definition irq_up : irq_state := cpu_sti (irq_init (mk_irq [] [] [] [] [] 0 0 [] false [])).
Definition open_hist : io_hist := [EvOut PIC2_DATA 0; EvOut PIC1_DATA 0].

Lemma open_mask : mask_is open_hist 0.
Proof. repeat split; done. Qed.

(** The mouse is served, then the keyboard on top of it, then both end. *)
Definition run1 := irq_enter latch_dev 12 (cpu_cli irq_up) open_hist.
Definition run2 := irq_enter latch_dev 1 (cpu_cli (fst run1)) (snd run1).
Definition run3 := irq_exit (cpu_cli (fst run2)) (snd (pic_send_eoi 1 (snd run2))).
Definition run4 := irq_exit (cpu_cli (cpu_sti (fst run3))) (snd (pic_send_eoi 12 (snd run3))).

Lemma irq_run_steps :
  rtc (irq_step latch_dev) (irq_up, open_hist, []) (cpu_sti (fst run4), snd run4, []).
Proof.
  eapply rtc_l.
  { apply (Take latch_dev irq_up open_hist [] 12 0 (fst run1) (snd run1));
      [reflexivity|lia|exact open_mask|reflexivity|simpl; lia|rewrite <- surjective_pairing; unfold run1; reflexivity]. }
  eapply rtc_l.
  { apply (Take latch_dev (fst run1) (snd run1) [12] 1 61440 (fst run2) (snd run2));
      [vm_compute; reflexivity|lia|vm_compute; repeat split; discriminate|reflexivity|simpl; lia|rewrite <- surjective_pairing; unfold run2; reflexivity]. }
  eapply rtc_l; [apply (Leave latch_dev (fst run2) (snd run2) 1 [12] (fst run3) (snd run3)); rewrite <- surjective_pairing; unfold run3; reflexivity|].
  eapply rtc_l; [apply (Leave latch_dev (cpu_sti (fst run3)) (snd run3) 12 [] (fst run4) (snd run4)); rewrite <- surjective_pairing; unfold run4; reflexivity|].
  apply rtc_refl.
Qed.

Lemma irq_nesting_safe_witness :
  mask_is (snd run4) 0 /\ current_priority (cpu_sti (fst run4)) = 255.
Proof.
  destruct (irq_nesting_safe latch_dev irq_up (cpu_sti (fst run4)) open_hist (snd run4) [] 0 latch_law eq_refl eq_refl eq_refl
              eq_refl eq_refl open_mask irq_run_steps) as (_ & _ & _ & Hm).
  exact (Hm eq_refl).
Defined.

(** At the ninth level [irq_enter] saves nothing, but the [irq_exit] that
    follows still restores: line 8 is then open while its handler runs. *)
Definition enter_all (irqs : list Z) (s : irq_state * io_hist) : irq_state * io_hist :=
  fold_left (fun '(c, h) irq => irq_enter latch_dev irq (cpu_cli c) h) irqs s.

Lemma irq_overflow_unmasks :
  let '(c, h) := enter_all [15; 14; 13; 12; 11; 10; 9; 8] (irq_up, open_hist) in
  let '(c9, h9) := irq_enter latch_dev 7 (cpu_cli c) h in
  let '(c', h') := irq_exit (cpu_cli c9) (snd (pic_send_eoi 7 h9)) in
  irq_nesting c = 8 /\ irq_nesting c9 = 8 /\ Z.testbit (fst (pic_get_mask latch_dev h)) 8 = true /\
  irq_nesting c' = 7 /\ Z.testbit (fst (pic_get_mask latch_dev h')) 8 = false.
Proof. vm_compute. repeat split. Qed.
