(* ===== verification/Smp.v ===== *)
(** * Processors (src/arch/x86_64/cpu.c, mp.c, apic.c, smp.c and spinlock.h)

    The table of processors, the scan of the firmware's multiprocessor
    table that fills it, the registers of the local interrupt controller,
    the start of the other processors, and the lock they share. *)

From stdpp Require Import prelude list strings.
From Stdlib Require Import ZArith Lia.
From S2P Require Import Prelude Lib Console.
#[local] Open Scope Z_scope.
#[local] Open Scope cint_scope.

Definition MAX_CPUS : Z := 8.

(** ** The table of processors (cpu.c) *)

Record cpu_info := mk_cpu { ci_apic_id : Z; ci_present : bool; ci_online : bool }.
Definition cpu_none : cpu_info := mk_cpu 0 false false.

Record cpus := mk_cpus {
  g_cpus : list cpu_info;
  g_cpu_count : Z;
  g_online_count : Z;
  g_bsp_id : Z;
  g_apic_ready : bool
}.

Definition cpu_at (c : cpus) (i : Z) : cpu_info := nth (Z.to_nat i) (g_cpus c) cpu_none.

Definition cpu_set_apic_ready (c : cpus) (ready : bool) : cpus :=
  mk_cpus (g_cpus c) (g_cpu_count c) (g_online_count c) (g_bsp_id c) ready.

Definition cpu_init_bsp (c : cpus) (apic_id : Z) : cpus :=
  mk_cpus (<[0%nat := mk_cpu apic_id true true]> (replicate 8 cpu_none)) 1 1 0 (g_apic_ready c).

(** The first processor with this id. *)
Definition cpu_find (c : cpus) (apic_id : Z) : option Z :=
  find_up (Z.to_nat (g_cpu_count c)) 0 (fun i => ci_present (cpu_at c i) && (ci_apic_id (cpu_at c i) =? apic_id)).

Definition cpu_register (c : cpus) (apic_id : Z) (is_bsp : bool) : Z * cpus :=
  let with_bsp i c := if is_bsp then mk_cpus (g_cpus c) (g_cpu_count c) (g_online_count c) i (g_apic_ready c) else c in
  match cpu_find c apic_id with
  | Some i => (i, with_bsp i c)
  | None =>
      if MAX_CPUS <=? g_cpu_count c then (g_bsp_id c, c)
      else
        let idx := g_cpu_count c in
        (idx, with_bsp idx (mk_cpus (<[Z.to_nat idx := mk_cpu apic_id true false]> (g_cpus c)) (u32 (idx + 1))
                              (g_online_count c) (g_bsp_id c) (g_apic_ready c)))
  end.

Definition cpu_set_online (c : cpus) (cpu_id : Z) (online : bool) : cpus :=
  if g_cpu_count c <=? cpu_id then c
  else
    let i := cpu_at c cpu_id in
    if eqb (ci_online i) online then c
    else
      mk_cpus (<[Z.to_nat cpu_id := mk_cpu (ci_apic_id i) (ci_present i) online]> (g_cpus c)) (g_cpu_count c)
        (if online then u32 (g_online_count c + 1)
         else if 0 <? g_online_count c then g_online_count c - 1 else g_online_count c)
        (g_bsp_id c) (g_apic_ready c).

Definition cpu_count (c : cpus) : Z := if g_cpu_count c =? 0 then 1 else g_cpu_count c.
Definition cpu_online_count (c : cpus) : Z := if g_online_count c =? 0 then 1 else g_online_count c.
Definition cpu_apic_id (c : cpus) (cpu_id : Z) : Z :=
  if g_cpu_count c <=? cpu_id then ci_apic_id (cpu_at c (g_bsp_id c)) else ci_apic_id (cpu_at c cpu_id).
Definition cpu_index_for_apic (c : cpus) (apic_id : Z) : Z := default (g_bsp_id c) (cpu_find c apic_id).

(** [apic_id] is what the local controller reports. *)
Definition cpu_current_id (c : cpus) (apic_id : Z) : Z :=
  if g_apic_ready c then cpu_index_for_apic c apic_id else g_bsp_id c.

(** ** The firmware's table (mp.c) *)

Definition MP_FLOATING_SIGNATURE : Z := 1599098207.
Definition MP_CONFIG_SIGNATURE : Z := 1347240784.

Record mp_info := mk_mp { lapic_addr : Z; mp_cpu_count : Z; bsp_apic_id : Z; cpu_apic_ids : list Z }.

Section mp.
Context (m : mem).

Definition checksum_ok (data len : Z) : bool := for_range 0 len (fun i sum => u8 (sum + ld8 m (data + i))) 0 =? 0.

Definition mp_scan_range (start len : Z) : option Z :=
  (fun k => start + 16 * k) <$>
  find_up (Z.to_nat (len / 16)) 0 (fun k =>
    let mp := start + 16 * k in
    (ld32 m mp =? MP_FLOATING_SIGNATURE) && checksum_ok mp (ld8 m (mp + 8) * 16)).

Definition bda_read_u16 (offset : Z) : Z := ld16 m (1024 + offset).

Definition mp_find_floating : option Z :=
  let ebda := Z.shiftl (bda_read_u16 14) 4 in
  match (if negb (ebda =? 0) then mp_scan_range ebda 1024 else None) with
  | Some mp => Some mp
  | None =>
      let base := Z.shiftl (bda_read_u16 19) 10 -% 1024 in
      match (if negb (base =? 0) then mp_scan_range base 1024 else None) with
      | Some mp => Some mp
      | None => mp_scan_range 983040 65536
      end
  end.

(** One entry of the table: the state is the address and the information. *)
Definition mp_entry_step (_ : Z) (s : Z * mp_info) : (Z * mp_info) + mp_info :=
  let '(entry, info) := s in
  let type := ld8 m entry in
  if type =? 0 then
    let flags := ld8 m (entry + 3) in
    let id := ld8 m (entry + 1) in
    let info :=
      if Z.land flags 1 =? 0 then info
      else
        let info := if mp_cpu_count info <? MAX_CPUS
          then mk_mp (lapic_addr info) (u8 (mp_cpu_count info + 1)) (bsp_apic_id info)
                 (<[Z.to_nat (mp_cpu_count info) := id]> (cpu_apic_ids info))
          else info in
        if Z.land flags 2 =? 0 then info else mk_mp (lapic_addr info) (mp_cpu_count info) id (cpu_apic_ids info) in
    inl (entry + 20, info)
  else if (type =? 1) || (type =? 2) || (type =? 3) || (type =? 4) then inl (entry + 8, info)
  else inr info.

(** The result, the information and what is printed. *)
Definition mp_init : bool * mp_info * list Z :=
  let info := mk_mp 0 0 0 (replicate 8 0) in
  let fail info msg := (false, info, text msg ++ [10]) in
  match mp_find_floating with
  | None => fail info "[mp] no MP table found"
  | Some mp =>
      if ld32 m (mp + 4) =? 0 then fail info "[mp] no MP table found"
      else
        let cfg := ld32 m (mp + 4) in
        if negb (ld32 m cfg =? MP_CONFIG_SIGNATURE) || negb (checksum_ok cfg (ld16 m (cfg + 4)))
        then fail info "[mp] invalid MP config table"
        else
          let info := mk_mp (ld32 m (cfg + 36)) 0 0 (replicate 8 0) in
          match for_range_exit 0 (ld16 m (cfg + 34)) mp_entry_step (cfg + 44, info) with
          | inr info => fail info "[mp] unknown entry type"
          | inl (_, info) =>
              (0 <? mp_cpu_count info, info,
               text "[mp] CPUs detected=" ++ dec_u64 (mp_cpu_count info) ++ text " BSP APIC=" ++
               dec_u64 (bsp_apic_id info) ++ [10])
          end
  end.
End mp.

(** ** The local controller (apic.c)

    Registers are memory-mapped: [ap_log] are the writes so far, oldest
    first, and a read is answered by the controller, which sees them.
    [msr] is the base-address register. *)

Definition APIC_REG_ID : Z := 32.
Definition APIC_REG_EOI : Z := 176.
Definition APIC_REG_SVR : Z := 240.
Definition APIC_REG_DFR : Z := 224.
Definition APIC_REG_LDR : Z := 208.
Definition APIC_REG_LVT_LINT0 : Z := 848.
Definition APIC_REG_LVT_LINT1 : Z := 864.
Definition APIC_REG_ICR_LOW : Z := 768.
Definition APIC_REG_ICR_HIGH : Z := 784.
Definition APIC_ICR_DELIV_STATUS : Z := 4096.
Definition APIC_ICR_LEVEL_ASSERT : Z := 16384.
Definition APIC_ICR_TRIG_LEVEL : Z := 32768.
Definition APIC_ICR_DEST_ALL_EXCL : Z := 786432.
Definition APIC_SPURIOUS_VECTOR : Z := 240.
Definition APIC_RESCHED_VECTOR : Z := 241.

Record apic := mk_apic { g_apic : Z; ap_msr : Z; ap_log : list (Z * Z) }.

Section apic.
Context (lapic : list (Z * Z) -> Z -> Z).

Definition apic_write (a : apic) (reg val : Z) : apic := mk_apic (g_apic a) (ap_msr a) (ap_log a ++ [(reg, u32 val)]).
Definition apic_read (a : apic) (reg : Z) : Z := u32 (lapic (ap_log a) reg).

(** The status is read anew in each round; [None] is out of fuel. *)
Fixpoint apic_wait_icr (busy : nat) (a : apic) : option apic :=
  if Z.land (apic_read a APIC_REG_ICR_LOW) APIC_ICR_DELIV_STATUS =? 0 then Some a
  else match busy with O => None | S n => apic_wait_icr n a end.

Definition apic_init_common (a : apic) : apic :=
  let base := Z.lor (ap_msr a) 2048 in
  let a := mk_apic (Z.land base 4294963200) base (ap_log a) in
  let a := apic_write a APIC_REG_DFR 4294967295 in
  let a := apic_write a APIC_REG_LDR 16777216 in
  let a := apic_write a APIC_REG_LVT_LINT0 65536 in
  let a := apic_write a APIC_REG_LVT_LINT1 65536 in
  apic_write a APIC_REG_SVR (Z.lor APIC_SPURIOUS_VECTOR 256).

Definition apic_id (a : apic) : Z := if g_apic a =? 0 then 0 else Z.shiftr (apic_read a APIC_REG_ID) 24.

Definition apic_init_bsp (a : apic) (c : cpus) : apic * cpus * list Z :=
  let a := apic_init_common a in
  (a, cpu_set_apic_ready c true, text "[apic] BSP enabled, id=" ++ dec_u64 (apic_id a) ++ [10]).
Definition apic_init_ap (a : apic) (c : cpus) : apic * cpus := (apic_init_common a, cpu_set_apic_ready c true).

Definition apic_eoi (a : apic) : apic := if g_apic a =? 0 then a else apic_write a APIC_REG_EOI 0.

Definition apic_command (fuel : nat) (a : apic) (high low : Z) : option apic :=
  a ← apic_wait_icr fuel a;
  apic_wait_icr fuel (apic_write (apic_write a APIC_REG_ICR_HIGH high) APIC_REG_ICR_LOW low).

Definition apic_send_init (fuel : nat) (a : apic) (id : Z) : option apic :=
  apic_command fuel a (u32 (Z.shiftl id 24)) (Z.lor (Z.lor 50432 APIC_ICR_LEVEL_ASSERT) APIC_ICR_TRIG_LEVEL).
Definition apic_send_sipi (fuel : nat) (a : apic) (id vector : Z) : option apic :=
  apic_command fuel a (u32 (Z.shiftl id 24)) (Z.lor 1536 vector).
Definition apic_send_ipi_all (fuel : nat) (a : apic) (vector : Z) : option apic :=
  apic_command fuel a 0 (Z.lor vector APIC_ICR_DEST_ALL_EXCL).
End apic.

(** ** Ticks on the other processors (smp.c) *)

Definition smp_broadcast_tick (lapic : list (Z * Z) -> Z -> Z) (fuel : nat) (g_smp_enabled : bool) (a : apic) : option apic :=
  if g_smp_enabled then apic_send_ipi_all lapic fuel a APIC_RESCHED_VECTOR else Some a.

(** ** The lock (spinlock.h)

    The shared word and, for each processor, where it is.  The exchange is
    atomic; a release stores 0 whoever makes it, so only the processor that
    holds the lock is let run it. *)

Inductive at_lock := Idle | Spinning | Holding.
#[export] Instance at_lock_eq : EqDecision at_lock.
Proof. solve_decision. Defined.

Record lock_state := mk_lock { locked : Z; at_cpu : list at_lock }.

Definition spinlock_init : Z := 0.

(** [__sync_lock_test_and_set(&lock->locked, 1)]: the old value, 1 stored. *)
Definition test_and_set (v : Z) : Z * Z := (v, 1).

Inductive lock_step : lock_state -> lock_state -> Prop :=
| LockTry s i : at_cpu s !! i = Some Idle \/ at_cpu s !! i = Some Spinning ->
    let '(old, new) := test_and_set (locked s) in
    lock_step s (mk_lock new (<[i := if old =? 0 then Holding else Spinning]> (at_cpu s)))
| LockSpin s i : at_cpu s !! i = Some Spinning -> locked s <> 0 -> lock_step s s
| LockFree s i : at_cpu s !! i = Some Holding -> lock_step s (mk_lock 0 (<[i := Idle]> (at_cpu s))).

(** ** The table stays consistent *)

Inductive cpu_op := CpuRegister (apic_id : Z) (is_bsp : bool) | CpuOnline (id : Z) (online : bool) | CpuReady (b : bool).

Definition cpu_apply (c : cpus) (op : cpu_op) : cpus :=
  match op with
  | CpuRegister a b => snd (cpu_register c a b)
  | CpuOnline i b => cpu_set_online c i b
  | CpuReady b => cpu_set_apic_ready c b
  end.

Definition cpu_op_ok (op : cpu_op) : Prop := match op with CpuOnline i _ => 0 <= i | _ => True end.

Record cpus_wf (c : cpus) : Prop := {
  cw_len : length (g_cpus c) = 8%nat;
  cw_count : 1 <= g_cpu_count c <= 8;
  cw_present : forall i, 0 <= i < g_cpu_count c -> ci_present (cpu_at c i) = true;
  cw_ids : forall i j, 0 <= i < g_cpu_count c -> 0 <= j < g_cpu_count c ->
    ci_apic_id (cpu_at c i) = ci_apic_id (cpu_at c j) -> i = j;
  cw_online : g_online_count c = count_up (Z.to_nat (g_cpu_count c)) 0 (fun i => ci_online (cpu_at c i));
  cw_bsp : 0 <= g_bsp_id c < g_cpu_count c
}.

Lemma cpu_at_insert l n on b r i k v :
  (k < length l)%nat -> 0 <= i ->
  cpu_at (mk_cpus (<[k := v]> l) n on b r) i = if i =? Z.of_nat k then v else nth (Z.to_nat i) l cpu_none.
Proof.
  intros Hk Hi. unfold cpu_at. simpl. destruct (Z.eqb_spec i (Z.of_nat k)) as [->|Hne].
  - rewrite Nat2Z.id. apply nth_lookup_Some. by apply list_lookup_insert_eq.
  - rewrite !nth_lookup. by rewrite list_lookup_insert_ne by lia.
Qed.

Lemma cpu_find_ok c a :
  cpus_wf c ->
  match cpu_find c a with
  | Some i => 0 <= i < g_cpu_count c /\ ci_apic_id (cpu_at c i) = a
  | None => forall i, 0 <= i < g_cpu_count c -> ci_apic_id (cpu_at c i) <> a
  end.
Proof.
  intros []. unfold cpu_find. destruct (find_up _ _ _) as [i|] eqn:E.
  - apply find_up_Some in E as (Hr & [_ Hp%Z.eqb_eq]%andb_true_iff & _). split; [lia|done].
  - intros i Hi Ha. rewrite find_up_None in E. specialize (E i ltac:(lia)). simpl in E.
    rewrite cw_present0, Ha, Z.eqb_refl in E by done. discriminate.
Qed.

Lemma cpu_find_id c i : cpus_wf c -> 0 <= i < g_cpu_count c -> cpu_find c (ci_apic_id (cpu_at c i)) = Some i.
Proof.
  intros Hw Hi. pose proof (cpu_find_ok c (ci_apic_id (cpu_at c i)) Hw) as Hf.
  destruct (cpu_find _ _) as [j|]; [|exfalso; by eapply Hf].
  destruct Hf as [Hj He]. f_equal. by apply (cw_ids _ Hw).
Qed.

Lemma register_wf c a b : cpus_wf c -> cpus_wf (snd (cpu_register c a b)).
Proof.
  intros Hw. pose proof (cpu_find_ok c a Hw) as Hf. pose proof Hw as []. unfold cpu_register.
  destruct (cpu_find c a) as [i|]; simpl.
  - destruct b; [|done]. destruct Hf. by constructor.
  - unfold MAX_CPUS. case_b; [done|]. rewrite u32_small by (unfold is_u32; lia).
    set (n := g_cpu_count c) in *. set (l := <[Z.to_nat n := mk_cpu a true false]> (g_cpus c)).
    assert (Hat : forall on bs r i, 0 <= i ->
      cpu_at (mk_cpus l (n + 1) on bs r) i = if i =? n then mk_cpu a true false else cpu_at c i).
    { intros. unfold l. rewrite cpu_at_insert by lia. by rewrite Z2Nat.id by lia. }
    assert (Hnew : forall bs, 0 <= bs < n + 1 -> cpus_wf (mk_cpus l (n + 1) (g_online_count c) bs (g_apic_ready c))).
    { intros bs Hbs. constructor; simpl; try lia.
      - unfold l. by rewrite length_insert.
      - intros i Hi. rewrite Hat by lia. destruct (Z.eqb_spec i n); [done|]. apply cw_present0. lia.
      - intros i j Hi Hj. rewrite !Hat by lia.
        destruct (Z.eqb_spec i n), (Z.eqb_spec j n); simpl; intros He; subst; try done.
        + exfalso. apply (Hf j); [lia|done].
        + exfalso. apply (Hf i); [lia|done].
        + apply cw_ids0; [lia|lia|done].
      - rewrite cw_online0. replace (Z.to_nat (n + 1)) with (Z.to_nat n + 1)%nat by lia.
        rewrite count_up_split. cbn [count_up].
        rewrite (count_up_ext _ _ (fun i => ci_online (cpu_at (mk_cpus l (n + 1) (g_online_count c) bs (g_apic_ready c)) i))
                   (fun i => ci_online (cpu_at c i))).
        + rewrite Hat by lia. rewrite (proj2 (Z.eqb_eq _ _)) by lia. simpl. lia.
        + intros i Hi. rewrite Hat by lia. by rewrite (proj2 (Z.eqb_neq _ _)) by lia. }
    destruct b; simpl; apply Hnew; lia.
Qed.

Lemma online_wf c i b : cpus_wf c -> 0 <= i -> cpus_wf (cpu_set_online c i b).
Proof.
  intros Hw Hi. pose proof Hw as []. unfold cpu_set_online. case_b; [done|]. case_b; [done|].
  set (v := mk_cpu _ _ _). set (on := if b then _ else _). set (c' := mk_cpus _ _ _ _ _).
  assert (Hat : forall k, 0 <= k -> cpu_at c' k = if k =? i then v else cpu_at c k).
  { intros k Hk. unfold c'. rewrite cpu_at_insert by lia. by rewrite Z2Nat.id by lia. }
  assert (Hon : on = g_online_count c - Z.b2z (negb b) + Z.b2z b).
  { pose proof (count_up_bounds (Z.to_nat (g_cpu_count c)) 0 (fun i => ci_online (cpu_at c i))).
    unfold on. destruct b; [rewrite u32_small by (unfold is_u32; lia); simpl; lia|].
    assert (ci_online (cpu_at c i) = true) as Ho by (by destruct (ci_online (cpu_at c i))).
    pose proof (count_up_pos (Z.to_nat (g_cpu_count c)) 0 (fun i => ci_online (cpu_at c i)) i ltac:(lia) Ho).
    rewrite (proj2 (Z.ltb_lt _ _)) by lia. simpl. lia. }
  constructor; try done.
  - unfold c'. simpl. by rewrite length_insert.
  - intros k Hk. simpl in Hk. rewrite Hat by lia. destruct (Z.eqb_spec k i) as [->|]; [|auto].
    unfold v. simpl. apply cw_present0. lia.
  - assert (Hid : forall k, 0 <= k -> ci_apic_id (cpu_at c' k) = ci_apic_id (cpu_at c k)).
    { intros k Hk. rewrite Hat by lia. by destruct (Z.eqb_spec k i) as [->|]. }
    intros j k Hj Hk. simpl in Hj, Hk. rewrite !Hid by lia. by apply cw_ids0.
  - simpl. rewrite Hon, cw_online0.
    rewrite (count_up_ext _ _ (fun k => ci_online (cpu_at c' k)) (fun k => if k =? i then b else ci_online (cpu_at c k))).
    + rewrite (count_up_upd _ _ (fun k => ci_online (cpu_at c k)) (fun k => if k =? i then b else ci_online (cpu_at c k)) i).
      * rewrite Z.eqb_refl. destruct b, (ci_online (cpu_at c i)); simpl in *; try discriminate; lia.
      * lia.
      * intros k Hk. by rewrite (proj2 (Z.eqb_neq _ _)).
    + intros k Hk. rewrite Hat by lia. by destruct (Z.eqb_spec k i).
Qed.

Lemma init_bsp_wf c a : cpus_wf (cpu_init_bsp c a).
Proof.
  unfold cpu_init_bsp. constructor; simpl; try lia; try done.
  - intros i Hi. by replace i with 0 by lia.
Qed.

Lemma cpu_apply_wf c op : cpus_wf c -> cpu_op_ok op -> cpus_wf (cpu_apply c op).
Proof.
  intros Hw Hop. destruct op as [a b|i b|b]; simpl.
  - by apply register_wf.
  - by apply online_wf.
  - destruct Hw. by constructor.
Qed.

(** Whatever processors are registered, go on line or off, in any order,
    the table never holds more than eight or the same controller id twice,
    the number of processors on line is exact, and once the controllers are
    up every registered processor finds its own index. *)
Theorem cpu_table_correct (c0 : cpus) (bsp : Z) (ops : list cpu_op) :
  Forall cpu_op_ok ops ->
  let c := fold_left cpu_apply ops (cpu_init_bsp c0 bsp) in
  1 <= cpu_count c <= MAX_CPUS /\
  (forall i j, 0 <= i < cpu_count c -> 0 <= j < cpu_count c -> cpu_apic_id c i = cpu_apic_id c j -> i = j) /\
  g_online_count c = count_up (Z.to_nat (cpu_count c)) 0 (fun i => ci_online (cpu_at c i)) /\
  (g_apic_ready c = true -> forall i, 0 <= i < cpu_count c -> cpu_current_id c (cpu_apic_id c i) = i).
Proof.
  intros Hok c.
  assert (Hw : cpus_wf c).
  { subst c. revert Hok. generalize (init_bsp_wf c0 bsp). generalize (cpu_init_bsp c0 bsp).
    induction ops as [|op ops IH]; intros c Hc Hok; simpl; [done|].
    apply Forall_cons in Hok as [Ho Hok]. apply IH; [by apply cpu_apply_wf|done]. }
  pose proof Hw as [].
  assert (Hn : cpu_count c = g_cpu_count c) by (unfold cpu_count; rewrite (proj2 (Z.eqb_neq _ _)) by lia; done).
  assert (Ha : forall i, i < g_cpu_count c -> cpu_apic_id c i = ci_apic_id (cpu_at c i)).
  { intros i Hi. unfold cpu_apic_id. by rewrite (proj2 (Z.leb_gt _ _)) by lia. }
  rewrite Hn. unfold MAX_CPUS. split; [done|]. split; [|split; [done|]].
  - intros i j Hi Hj. rewrite !Ha by lia. by apply cw_ids0.
  - intros Hr i Hi. unfold cpu_current_id, cpu_index_for_apic. rewrite Hr, Ha by lia. by rewrite cpu_find_id.
Qed.

Lemma cpu_table_correct_witness :
  let ops := [CpuRegister 0 true; CpuRegister 2 false; CpuRegister 2 false; CpuOnline 1 true; CpuReady true] in
  let c := fold_left cpu_apply ops (cpu_init_bsp (mk_cpus [] 0 0 0 false) 0) in
  g_online_count c = 2 /\ cpu_current_id c 2 = 1.
Proof.
  set (ops := [_; _; _; _; _]).
  destruct (cpu_table_correct (mk_cpus [] 0 0 0 false) 0 ops) as (_ & _ & Hon & Hid);
    [repeat constructor; simpl; lia|].
  split; [exact Hon|]. exact (Hid eq_refl 1 ltac:(vm_compute; split; [discriminate|reflexivity])).
Defined.

(** ** The lock excludes *)

Definition holders (s : lock_state) (P : nat -> Prop) : Prop := forall i, at_cpu s !! i = Some Holding <-> P i.

Definition lock_inv (s : lock_state) : Prop :=
  (locked s = 0 /\ holders s (fun _ => False)) \/ (locked s = 1 /\ exists k, holders s (fun i => i = k)).

Lemma holders_insert s v i x P :
  holders s P -> is_Some (at_cpu s !! i) ->
  holders (mk_lock v (<[i := x]> (at_cpu s))) (fun j => if decide (j = i) then x = Holding else P j).
Proof.
  intros Hh Hi j. simpl. destruct (decide (j = i)) as [->|Hne].
  - rewrite list_lookup_insert_eq by (by apply lookup_lt_is_Some_1). split; congruence.
  - rewrite list_lookup_insert_ne by done. apply Hh.
Qed.

Lemma holders_iff s P Q : (forall i, P i <-> Q i) -> holders s P -> holders s Q.
Proof. intros Hpq Hh i. rewrite <- Hpq. exact (Hh i). Qed.

Lemma lock_step_inv s s' : lock_inv s -> lock_step s s' -> lock_inv s'.
Proof.
  intros Hinv Hs. destruct Hs as [s i Hi|s i Hi Hl|s i Hi]; [|done|].
  - assert (Hsome : is_Some (at_cpu s !! i)) by (destruct Hi as [-> | ->]; eauto).
    destruct Hinv as [[-> Hh]|[-> [k Hh]]]; right; split; try done.
    + exists i. eapply holders_iff; [|by apply (holders_insert s 1 i Holding)].
      intros j. simpl. destruct (decide (j = i)); tauto.
    + exists k. eapply holders_iff; [|by apply (holders_insert s 1 i Spinning)].
      intros j. simpl. destruct (decide (j = i)) as [->|]; [|done]. split; [done|].
      intros ->. pose proof (proj2 (Hh k) eq_refl). destruct Hi; congruence.
  - left. split; [done|]. destruct Hinv as [[_ Hh]|[_ [k Hh]]]; [by apply Hh in Hi|].
    assert (i = k) as -> by (by apply Hh).
    eapply holders_iff; [|by apply (holders_insert s 0 k Idle)].
    intros j. simpl. destruct (decide (j = k)); [split; done|tauto].
Qed.

(** C20: Any number of processors contending for a lock in any interleaving of
    their exchanges: at most one holds it, the word says whether one does, and
    when none does a processor that wants it can take it. *)
Theorem spinlock_mutex (n : nat) (s : lock_state) :
  rtc lock_step (mk_lock spinlock_init (replicate n Idle)) s ->
  (forall i j, at_cpu s !! i = Some Holding -> at_cpu s !! j = Some Holding -> i = j) /\
  (locked s <> 0 <-> exists i, at_cpu s !! i = Some Holding) /\
  (locked s = 0 -> forall i, at_cpu s !! i = Some Spinning ->
     exists s', lock_step s s' /\ at_cpu s' !! i = Some Holding).
Proof.
  intros Hr. assert (Hinv : lock_inv s).
  { revert Hr. apply (rtc_ind_r lock_inv); [|by intros; eapply lock_step_inv].
    left. split; [done|]. intros i. simpl. split; [|done]. intros [Hc _]%lookup_replicate. done. }
  split; [|split].
  - intros i j Hi Hj. destruct Hinv as [[_ Hh]|[_ [k Hh]]]; [by apply Hh in Hi|]. apply Hh in Hi, Hj. congruence.
  - destruct Hinv as [[-> Hh]|[-> [k Hh]]]; split; try done.
    + by intros [i ?%Hh].
    + intros _. exists k. by apply Hh.
  - intros Hl i Hi. pose proof (LockTry s i (or_intror Hi)) as Hstep. simpl in Hstep. rewrite Hl in Hstep. simpl in Hstep.
    eexists. split; [exact Hstep|]. simpl. apply list_lookup_insert_eq. by eapply lookup_lt_Some.
Qed.

Lemma spinlock_mutex_witness :
  exists s, rtc lock_step (mk_lock spinlock_init (replicate 2 Idle)) s /\ at_cpu s = [Holding; Spinning] /\
    forall i j, at_cpu s !! i = Some Holding -> at_cpu s !! j = Some Holding -> i = j.
Proof.
  assert (Hr : rtc lock_step (mk_lock spinlock_init (replicate 2 Idle)) (mk_lock 1 [Holding; Spinning])).
  { eapply rtc_l; [exact (LockTry (mk_lock 0 [Idle; Idle]) 0 (or_introl eq_refl))|].
    eapply rtc_l; [exact (LockTry (mk_lock 1 [Holding; Idle]) 1 (or_introl eq_refl))|]. apply rtc_refl. }
  exists (mk_lock 1 [Holding; Spinning]). split; [exact Hr|]. split; [reflexivity|].
  exact (proj1 (spinlock_mutex 2 (mk_lock 1 [Holding; Spinning]) Hr)).
Defined.

(** ** The table is read as written *)

Inductive mp_entry := EProc (id flags : Z) | EOther (type : Z).

Definition entry_size (e : mp_entry) : Z := match e with EProc _ _ => 20 | EOther _ => 8 end.

Section parse.
Context (m : mem).

(** The entries are in memory from [a] on. *)
Fixpoint entries_at (a : Z) (es : list mp_entry) : Prop :=
  match es with
  | [] => True
  | e :: es' =>
      match e with
      | EProc id flags => ld8 m a = 0 /\ ld8 m (a + 1) = id /\ ld8 m (a + 3) = flags
      | EOther type => ld8 m a = type /\ 1 <= type <= 4
      end /\ entries_at (a + entry_size e) es'
  end.

(** The processors that are enabled, and the last that is marked for boot. *)
Definition enabled (es : list mp_entry) : list Z :=
  omap (fun e => match e with EProc id f => if Z.testbit f 0 then Some id else None | _ => None end) es.
Definition boot_id (es : list mp_entry) : Z :=
  fold_left (fun b e => match e with EProc id f => if Z.testbit f 0 && Z.testbit f 1 then id else b | _ => b end) es 0.

Definition mp_read (lapic : Z) (es : list mp_entry) : mp_info :=
  let ids := take 8 (enabled es) in
  mk_mp lapic (Z.of_nat (length ids)) (boot_id es) (ids ++ replicate (8 - length ids) 0).

Lemma land_bit f k : 0 <= k -> (Z.land f (2 ^ k) =? 0) = negb (Z.testbit f k).
Proof.
  intros Hk. destruct (Z.testbit f k) eqn:Hb.
  - apply Z.eqb_neq. intros Hz. apply (f_equal (fun v => Z.testbit v k)) in Hz.
    rewrite Z.land_spec, Hb, Z.pow2_bits_true in Hz by done. by rewrite Z.bits_0 in Hz.
  - apply Z.eqb_eq. apply Z.bits_inj'. intros i Hi. rewrite Z.land_spec, Z.bits_0, Z.pow2_bits_eqb by done.
    destruct (Z.eqb_spec k i) as [<-|]; [by rewrite Hb|by rewrite andb_false_r].
Qed.

Lemma enabled_snoc es e :
  enabled (es ++ [e]) = enabled es ++ match e with EProc id f => if Z.testbit f 0 then [id] else [] | _ => [] end.
Proof.
  unfold enabled. rewrite omap_app. f_equal. destruct e as [id f|]; [|done].
  destruct (Z.testbit f 0) eqn:E; cbn -[Z.testbit]; by rewrite E.
Qed.

Lemma entry_step lapic done e a i :
  entries_at a [e] ->
  mp_entry_step m i (a, mp_read lapic done) = inl (a + entry_size e, mp_read lapic (done ++ [e])).
Proof.
  intros [He _]. unfold mp_read at 2. rewrite enabled_snoc. unfold boot_id at 1. rewrite fold_left_app.
  fold (boot_id done). unfold mp_entry_step. destruct e as [id f|t]; simpl entry_size.
  - destruct He as (-> & -> & ->). simpl (0 =? 0). cbv iota.
    rewrite (land_bit f 0 ltac:(lia) : (Z.land f 1 =? 0) = _), (land_bit f 1 ltac:(lia) : (Z.land f 2 =? 0) = _).
    cbn [fold_left].
    generalize (Z.testbit f 0) (Z.testbit f 1). intros [] b1; simpl negb; cbv iota; cbn [andb]; [|by rewrite app_nil_r].
    unfold mp_read; simpl. set (en := enabled done). rewrite length_take.
    assert (Hl : take 8 (en ++ [id]) = take 8 en ++ (if decide (length en < 8)%nat then [id] else [])).
    { destruct (decide (length en < 8)%nat).
      - rewrite !take_ge; [done|lia|rewrite length_app; simpl; lia].
      - rewrite take_app_le by lia. by rewrite app_nil_r. }
    rewrite Hl. destruct (decide (length en < 8)%nat) as [Hlt|Hge].
    + rewrite (proj2 (Z.ltb_lt _ _)) by (unfold MAX_CPUS; lia). rewrite length_app, length_take. simpl length.
      rewrite u8_small by (unfold is_u8; lia). rewrite (take_ge en) by lia.
      replace (8 - (8 `min` length en))%nat with (S (8 - (8 `min` length en + 1)))%nat by lia.
      assert (Hins : forall x : Z, <[Z.to_nat (Z.of_nat (8 `min` length en)) := id]> (en ++ replicate (S (8 - (8 `min` length en + 1))) x)
        = (en ++ [id]) ++ replicate (8 - (8 `min` length en + 1)) x).
      { intros x. replace (Z.to_nat (Z.of_nat (8 `min` length en))) with (length en + 0)%nat by lia.
        rewrite insert_app_r. simpl. by rewrite <- app_assoc. }
      rewrite Hins. replace (Z.of_nat (8 `min` length en) + 1) with (Z.of_nat (8 `min` length en + 1)) by lia.
      by destruct b1.
    + rewrite (proj2 (Z.ltb_ge _ _)) by (unfold MAX_CPUS; lia). rewrite !app_nil_r, length_take.
      by destruct b1.
  - destruct He as [-> Ht]. assert (t = 1 \/ t = 2 \/ t = 3 \/ t = 4) as [-> | [-> | [-> | ->]]] by lia; simpl; by rewrite app_nil_r.
Qed.

Lemma entries_loop lapic es a i done :
  entries_at a es ->
  exists a', for_exit (length es) i (mp_entry_step m) (a, mp_read lapic done) = inl (a', mp_read lapic (done ++ es)).
Proof.
  revert a i done. induction es as [|e es IH]; intros a i done He.
  - exists a. simpl. by rewrite app_nil_r.
  - destruct He as [He Hes]. cbn [length for_exit]. rewrite (entry_step lapic done e) by done.
    destruct (IH (a + entry_size e) (i + 1) (done ++ [e]) Hes) as [a' Ha']. exists a'.
    by rewrite Ha', <- app_assoc.
Qed.

(** When the firmware's table is found and its signature and checksum are
    right, the processors reported are the enabled ones of its entries in
    their order, at most eight of them, with the last one marked as the boot
    processor; the other kinds of entries are skipped at their own size. *)
Theorem mp_init_correct (mp : Z) (es : list mp_entry) :
  let cfg := ld32 m (mp + 4) in
  mp_find_floating m = Some mp -> cfg <> 0 -> ld32 m cfg = MP_CONFIG_SIGNATURE ->
  checksum_ok m cfg (ld16 m (cfg + 4)) = true -> ld16 m (cfg + 34) = Z.of_nat (length es) ->
  entries_at (cfg + 44) es ->
  exists msg, mp_init m = (negb (bool_decide (enabled es = [])), mp_read (ld32 m (cfg + 36)) es, msg).
Proof.
  intros cfg Hf Hc Hs Hk Hn He. unfold mp_init. rewrite Hf. fold cfg.
  rewrite (proj2 (Z.eqb_neq _ _)) by done. rewrite Hs, Hk, Z.eqb_refl. cbn [negb orb].
  unfold for_range_exit. rewrite Z.sub_0_r, Hn, Nat2Z.id.
  destruct (entries_loop (ld32 m (cfg + 36)) es (cfg + 44) 0 [] He) as [a' Ha'].
  change (mk_mp (ld32 m (cfg + 36)) 0 0 (replicate 8 0)) with (mp_read (ld32 m (cfg + 36)) []).
  rewrite Ha'. cbn [app]. eexists. do 2 f_equal. unfold mp_read. cbn [mp_cpu_count]. rewrite length_take.
  destruct (enabled es) as [|x l]; [done|]. rewrite bool_decide_eq_false_2 by done. apply Z.ltb_lt. cbn [length]. lia.
Qed.

End parse.

(** A table of three entries: the boot processor, a bus, a second processor. *)
Definition demo_table : list Z :=
  [80; 67; 77; 80; 92; 0; 4; 0] ++ replicate 26 0 ++ [3; 0] ++ [0; 0; 224; 254] ++ replicate 4 0 ++
  [0; 0; 20; 3] ++ replicate 16 0 ++ [1] ++ replicate 7 0 ++ [0; 1; 20; 1] ++ replicate 16 0.
Definition demo_mp_sum (l : list Z) : Z := fold_left (fun s x => u8 (s + x)) l 0.
Definition demo_mp_mem : mem :=
  mem_put (mem_put (fun _ => 0) 983040 ([95; 77; 80; 95] ++ [0; 32; 0; 0] ++ [1; 4; 128; 0; 0; 0; 0; 0]))
    8192 (<[7%nat := u8 (- demo_mp_sum demo_table)]> demo_table).

Lemma mp_init_correct_witness :
  exists msg, mp_init demo_mp_mem = (true, mk_mp 4276092928 2 0 [0; 1; 0; 0; 0; 0; 0; 0], msg).
Proof.
  destruct (mp_init_correct demo_mp_mem 983040 [EProc 0 3; EOther 1; EProc 1 1]) as [msg Hm];
    [vm_compute; reflexivity|vm_compute; discriminate|vm_compute; reflexivity..| |].
  - vm_compute. repeat split; discriminate.
  - exists msg. exact Hm.
Defined.
