(* ===== verification/Pci.v ===== *)
(** * PCI configuration space (src/pci.c)

    Configuration registers are reached through an address port and a data
    port.  The machine's configuration space is a parameter [conf], a
    function from bus, slot, function and register to a 32-bit word;
    [pci_host] states what the host bridge promises about the two ports. *)

From stdpp Require Import prelude list.
From Stdlib Require Import ZArith Lia.
From S2P Require Import Prelude Io.
#[local] Open Scope Z_scope.
#[local] Open Scope cint_scope.

Definition PCI_CONFIG_ADDR : Z := 3320.
Definition PCI_CONFIG_DATA : Z := 3324.

Record pci_dev := mk_pci_dev {
  pd_bus : Z; pd_slot : Z; pd_func : Z; pd_vendor_id : Z; pd_device_id : Z;
  pd_class_code : Z; pd_subclass : Z; pd_prog_if : Z; pd_header_type : Z
}.

Definition pci_make_addr (bus slot func offset : Z) : Z :=
  u32 (Z.lor (Z.lor (Z.lor (Z.lor 2147483648 (u32 (Z.shiftl bus 16))) (u32 (Z.shiftl slot 11)))
    (u32 (Z.shiftl func 8))) (Z.land offset 252)).

Section pci.
Context (dev : device).

Definition pci_read32 (bus slot func offset : Z) : IO Z :=
  _ ← outl PCI_CONFIG_ADDR (pci_make_addr bus slot func offset); inl_ dev PCI_CONFIG_DATA.

Definition pci_read16 (bus slot func offset : Z) : IO Z :=
  v ← pci_read32 bus slot func offset; mret (Z.land (Z.shiftr v (Z.land offset 2 * 8)) 65535).

Definition pci_read8 (bus slot func offset : Z) : IO Z :=
  v ← pci_read32 bus slot func offset; mret (Z.land (Z.shiftr v (Z.land offset 3 * 8)) 255).

Definition pci_write32 (bus slot func offset value : Z) : IO unit :=
  _ ← outl PCI_CONFIG_ADDR (pci_make_addr bus slot func offset); outl PCI_CONFIG_DATA value.

Definition pci_write16 (bus slot func offset value : Z) : IO unit :=
  old ← pci_read32 bus slot func offset;
  let shift := Z.land offset 2 * 8 in
  let mask := u32 (Z.shiftl 65535 shift) in
  let newv := Z.lor (Z.land old (4294967295 - mask)) (u32 (Z.shiftl value shift)) in
  pci_write32 bus slot func offset newv.

Definition pci_write8 (bus slot func offset value : Z) : IO unit :=
  old ← pci_read32 bus slot func offset;
  let shift := Z.land offset 3 * 8 in
  let mask := u32 (Z.shiftl 255 shift) in
  let newv := Z.lor (Z.land old (4294967295 - mask)) (u32 (Z.shiftl value shift)) in
  pci_write32 bus slot func offset newv.

(** The callback and its [user] argument: a step of a state of its own. *)
Section enumerate.
Context {T : Type} (cb : pci_dev -> T -> IO T).

Definition probe_func (bus slot func : Z) (s : T) : IO T :=
  vendor ← pci_read16 bus slot func 0;
  if vendor =? 65535 then mret s
  else
    device_id ← pci_read16 bus slot func 2;
    class_reg ← pci_read32 bus slot func 8;
    header_type ← pci_read8 bus slot func 14;
    cb (mk_pci_dev bus slot func vendor device_id (Z.land (Z.shiftr class_reg 24) 255)
          (Z.land (Z.shiftr class_reg 16) 255) (Z.land (Z.shiftr class_reg 8) 255) header_type) s.

Fixpoint io_for (n : nat) (i : Z) (body : Z -> T -> IO T) (s : T) : IO T :=
  match n with
  | O => mret s
  | S n' => s ← body i s; io_for n' (i + 1) body s
  end.

Definition probe_slot (bus slot : Z) (s : T) : IO T :=
  vendor ← pci_read16 bus slot 0 0;
  if vendor =? 65535 then mret s
  else
    header_type ← pci_read8 bus slot 0 14;
    let funcs := if Z.land header_type 128 =? 0 then 1%nat else 8%nat in
    io_for funcs 0 (fun func => probe_func bus slot func) s.

Definition pci_enumerate (s : T) : IO T :=
  io_for 256 0 (fun bus => io_for 32 0 (fun slot => probe_slot bus slot)) s.
End enumerate.
End pci.

(** ** What is found *)

Lemma io_ret_run {T} (x : T) h : fst ((mret x : IO T) h) = x.
Proof. reflexivity. Qed.

(** The host bridge answers a read of the data port with the register that
    the last address written selects. *)
Definition pci_host (dev : device) (conf : Z -> Z -> Z -> Z -> Z) : Prop :=
  forall h a, dev (EvOut PCI_CONFIG_ADDR a :: h) PCI_CONFIG_DATA =
    conf ((a / 65536) mod 256) ((a / 2048) mod 32) ((a / 256) mod 8) (a mod 256).

Lemma land_252 o : 0 <= o < 256 -> Z.land o 252 = 4 * (o / 4).
Proof.
  intros. change 252 with (Z.lxor 255 3).
  assert (Hl : Z.land o (Z.lxor 255 3) = Z.ldiff (Z.land o 255) 3).
  { apply Z.bits_inj'. intros i Hi. rewrite Z.ldiff_spec, !Z.land_spec, Z.lxor_spec.
    change 255 with (Z.ones 8). change 3 with (Z.ones 2). rewrite !Z.testbit_ones_nonneg by lia.
    destruct (Z.ltb_spec i 8), (Z.ltb_spec i 2); try lia; by destruct (Z.testbit o i). }
  rewrite Hl. change 255 with (2 ^ 8 - 1). rewrite land_ones_mod, Z.mod_small by lia.
  change 3 with (Z.ones 2). rewrite Z.ldiff_ones_r, Z.shiftl_mul_pow2, Z.shiftr_div_pow2 by lia. change (2 ^ 2) with 4. lia.
Qed.

Lemma pci_make_addr_eq b s f o :
  0 <= b < 256 -> 0 <= s < 32 -> 0 <= f < 8 -> 0 <= o < 256 ->
  pci_make_addr b s f o = 2147483648 + b * 65536 + s * 2048 + f * 256 + 4 * (o / 4).
Proof.
  intros. unfold pci_make_addr. rewrite land_252 by done.
  rewrite !Z.shiftl_mul_pow2 by lia.
  rewrite (u32_small (b * 2 ^ 16)), (u32_small (s * 2 ^ 11)), (u32_small (f * 2 ^ 8)) by (unfold is_u32; lia).
  rewrite <- !Z.lor_assoc.
  rewrite <- (Z.shiftl_mul_pow2 f 8), (lor_add f) by (Z.div_mod_to_equations; lia).
  rewrite <- (Z.shiftl_mul_pow2 s 11), (lor_add s) by (Z.div_mod_to_equations; lia).
  rewrite <- (Z.shiftl_mul_pow2 b 16), (lor_add b) by (Z.div_mod_to_equations; lia).
  change 2147483648 with (Z.shiftl 1 31) at 1. rewrite lor_add by (Z.div_mod_to_equations; lia).
  rewrite u32_small by (unfold is_u32; Z.div_mod_to_equations; lia). lia.
Qed.

Lemma pci_read32_ok dev conf b s f o h :
  pci_host dev conf -> 0 <= b < 256 -> 0 <= s < 32 -> 0 <= f < 8 -> 0 <= o < 256 ->
  fst (pci_read32 dev b s f o h) = u32 (conf b s f (4 * (o / 4))).
Proof.
  intros Hc ????. unfold pci_read32. rewrite io_bind_run. unfold inl_, outl. simpl. rewrite Hc.
  rewrite pci_make_addr_eq by done.
  rewrite (u32_small (2147483648 + _ + _ + _ + _)) by (unfold is_u32; Z.div_mod_to_equations; lia).
  do 2 f_equal; Z.div_mod_to_equations; lia.
Qed.

Section found.
Context (dev : device) (conf : Z -> Z -> Z -> Z -> Z) (Hc : pci_host dev conf).

Definition half (w i : Z) : Z := (w / 2 ^ (16 * i)) mod 65536.
Definition octet (w i : Z) : Z := (w / 2 ^ (8 * i)) mod 256.

(** The registers of a function, as the machine has them. *)
Definition vendor_of (b s f : Z) : Z := half (conf b s f 0) 0.
Definition describe (b s f : Z) : pci_dev :=
  mk_pci_dev b s f (vendor_of b s f) (half (conf b s f 0) 1) (octet (conf b s f 8) 3) (octet (conf b s f 8) 2)
    (octet (conf b s f 8) 1) (octet (conf b s f 12) 2).

Definition multi_function (b s : Z) : bool := Z.testbit (conf b s 0 12) 23.

(** A function is reachable when function 0 of its slot answers, it answers
    itself, and it is function 0 or the slot says it has more. *)
Definition reachable (b s f : Z) : bool :=
  negb (vendor_of b s 0 =? 65535) && negb (vendor_of b s f =? 65535) && ((f =? 0) || multi_function b s).

Definition all_functions : list (Z * Z * Z) :=
  concat ((fun b => concat ((fun s => (fun f => (b, s, f)) <$> seqZ 0 8) <$> seqZ 0 32)) <$> seqZ 0 256).

Definition present (l : list (Z * Z * Z)) : list pci_dev :=
  (fun '(b, s, f) => describe b s f) <$> List.filter (fun '(b, s, f) => reachable b s f) l.

Lemma word_half w k : 0 <= k < 2 -> Z.land (Z.shiftr (u32 w) (k * 16)) 65535 = half w k.
Proof.
  intros. unfold half. change 65535 with (2 ^ 16 - 1). rewrite land_ones_mod, Z.shiftr_div_pow2 by lia.
  assert (k = 0 \/ k = 1) as [-> | ->] by lia; simpl; unfold u32; Z.div_mod_to_equations; lia.
Qed.

Lemma word_octet w k : 0 <= k < 4 -> Z.land (Z.shiftr (u32 w) (k * 8)) 255 = octet w k.
Proof.
  intros. unfold octet. change 255 with (2 ^ 8 - 1). rewrite land_ones_mod, Z.shiftr_div_pow2 by lia.
  assert (k = 0 \/ k = 1 \/ k = 2 \/ k = 3) as [-> | [-> | [-> | ->]]] by lia; simpl; unfold u32; Z.div_mod_to_equations; lia.
Qed.

Lemma read16_ok b s f k h :
  0 <= b < 256 -> 0 <= s < 32 -> 0 <= f < 8 -> 0 <= k < 2 ->
  fst (pci_read16 dev b s f (2 * k) h) = half (conf b s f 0) k.
Proof.
  intros. unfold pci_read16. rewrite io_bind_run, io_ret_run,  (pci_read32_ok dev conf) by (done || lia).
  assert (k = 0 \/ k = 1) as [-> | ->] by lia; apply (word_half _ 0) || apply (word_half _ 1); lia.
Qed.

Lemma header_ok b s f h :
  0 <= b < 256 -> 0 <= s < 32 -> 0 <= f < 8 -> fst (pci_read8 dev b s f 14 h) = octet (conf b s f 12) 2.
Proof.
  intros. unfold pci_read8. rewrite io_bind_run, io_ret_run,  (pci_read32_ok dev conf) by (done || lia).
  apply (word_octet _ 2). lia.
Qed.

Section collect.
Let note (d : pci_dev) (l : list pci_dev) : IO (list pci_dev) := mret (l ++ [d]).

Lemma probe_func_ok b s f l h :
  0 <= b < 256 -> 0 <= s < 32 -> 0 <= f < 8 ->
  fst (probe_func dev note b s f l h) = l ++ (if vendor_of b s f =? 65535 then [] else [describe b s f]).
Proof.
  intros. unfold probe_func. rewrite io_bind_run, (read16_ok _ _ _ 0) by lia. fold (vendor_of b s f).
  case_b; [by rewrite app_nil_r|].
  rewrite io_bind_run, (read16_ok _ _ _ 1) by lia. rewrite io_bind_run, (pci_read32_ok dev conf) by (done || lia).
  rewrite io_bind_run, header_ok by lia. unfold note. rewrite io_ret_run. unfold describe. do 3 f_equal.
  - apply (word_octet _ 3); lia.
  - apply (word_octet _ 2); lia.
  - apply (word_octet _ 1); lia.
Qed.

Lemma io_for_collect n lo (body : Z -> list pci_dev -> IO (list pci_dev)) (g : Z -> list pci_dev) l h :
  (forall i l h, lo <= i < lo + Z.of_nat n -> fst (body i l h) = l ++ g i) ->
  fst (io_for n lo body l h) = l ++ concat (g <$> seqZ lo (Z.of_nat n)).
Proof.
  revert lo l h. induction n as [|n IH]; intros lo l h Hb; [by rewrite app_nil_r|].
  cbn [io_for]. rewrite io_bind_run, Hb by lia.
  rewrite IH by (intros; apply Hb; lia). rewrite (seqZ_cons lo) by lia.
  replace (Z.pred (Z.of_nat (Datatypes.S n))) with (Z.of_nat n) by lia.
  rewrite fmap_cons. cbn [concat]. rewrite app_assoc. unfold Z.succ. done.
Qed.

Lemma present_concat ls : present (concat ls) = concat (present <$> ls).
Proof.
  induction ls as [|l ls IH]; [done|]. cbn [concat]. rewrite fmap_cons. cbn [concat]. rewrite <- IH.
  unfold present. by rewrite List.filter_app, fmap_app.
Qed.

Lemma multi_bit b s : multi_function b s = negb (Z.land (octet (conf b s 0 12) 2) 128 =? 0).
Proof.
  unfold multi_function, octet. change 128 with (2 ^ 7). change 256 with (2 ^ 8).
  set (w := conf b s 0 12).
  assert (Hbit : Z.testbit w 23 = Z.testbit ((w / 2 ^ (8 * 2)) mod 2 ^ 8) 7).
  { rewrite Z.mod_pow2_bits_low by lia. rewrite <- Z.shiftr_div_pow2, Z.shiftr_spec by lia. done. }
  rewrite Hbit. set (x := _ mod _). rewrite Z.land_comm.
  destruct (Z.testbit x 7) eqn:Hx; symmetry.
  - apply negb_true_iff, Z.eqb_neq. intros Hz. apply (f_equal (fun v => Z.testbit v 7)) in Hz.
    rewrite Z.land_spec, Hx in Hz. discriminate Hz.
  - apply negb_false_iff, Z.eqb_eq. apply Z.bits_inj'. intros i Hi. rewrite Z.land_spec, Z.bits_0, Z.pow2_bits_eqb by lia.
    destruct (Z.eqb_spec 7 i) as [<-|]; [by rewrite Hx|done].
Qed.

Lemma probe_slot_ok b s l h :
  0 <= b < 256 -> 0 <= s < 32 ->
  fst (probe_slot dev note b s l h) = l ++ present ((fun f => (b, s, f)) <$> seqZ 0 8).
Proof.
  intros. unfold probe_slot. rewrite io_bind_run, (read16_ok _ _ _ 0) by lia. fold (vendor_of b s 0).
  unfold present. change (seqZ 0 8) with [0; 1; 2; 3; 4; 5; 6; 7]. unfold reachable.
  cbn [fmap list_fmap List.filter Z.eqb orb]. rewrite (multi_bit b s).
  destruct (vendor_of b s 0 =? 65535) eqn:Hv; [cbn; by rewrite app_nil_r|].
  rewrite io_bind_run, header_ok by lia.
  destruct (Z.land (octet (conf b s 0 12) 2) 128 =? 0);
    rewrite (io_for_collect _ _ _ (fun f => if vendor_of b s f =? 65535 then [] else [describe b s f]))
      by (intros; apply probe_func_ok; lia);
    [change (seqZ 0 (Z.of_nat 1)) with [0] | change (seqZ 0 (Z.of_nat 8)) with [0; 1; 2; 3; 4; 5; 6; 7]];
    cbn [fmap list_fmap concat app negb andb orb]; rewrite Hv; f_equal.
  - cbn. by rewrite !andb_false_r.
  - cbn. f_equal. repeat (case_b; cbn; try f_equal).
Qed.

Lemma enumerate_ok h : fst (pci_enumerate dev note [] h) = present all_functions.
Proof.
  unfold pci_enumerate, all_functions. rewrite present_concat.
  rewrite (io_for_collect _ _ _ (fun b => concat ((fun s => present ((fun f => (b, s, f)) <$> seqZ 0 8)) <$> seqZ 0 32))).
  - change (Z.of_nat 256) with 256. cbn [app]. apply (f_equal (@concat pci_dev)). rewrite <- list_fmap_compose. apply list_fmap_ext.
    intros i b _. unfold compose. rewrite present_concat. apply (f_equal (@concat pci_dev)). by rewrite <- list_fmap_compose.
  - intros b l h' Hb. rewrite (io_for_collect _ _ _ (fun s => present ((fun f => (b, s, f)) <$> seqZ 0 8))); [done|].
    intros s l' h'' Hs. apply probe_slot_ok; lia.
Qed.

End collect.
End found.

(** Enumeration calls back exactly once for every function of the machine
    that can be reached -- function 0 of its slot answers, and it is function 0
    or the slot is marked multi-function -- in bus, slot, function order, with
    the identification its configuration registers hold. *)
Theorem pci_enumerate_exact (dev : device) (conf : Z -> Z -> Z -> Z -> Z) (h : io_hist) :
  pci_host dev conf ->
  fst (pci_enumerate dev (fun d l => mret (l ++ [d])) [] h) =
  (fun '(b, s, f) => describe conf b s f) <$> List.filter (fun '(b, s, f) => reachable conf b s f) all_functions.
Proof. intros Hc. apply (enumerate_ok dev conf Hc). Qed.

(** A machine with a two-function device in slot 3 of bus 0. *)
Definition demo_conf (b s f r : Z) : Z :=
  if (b =? 0) && (s =? 3) && (f <? 2) then
    if r =? 0 then (if f =? 0 then 268507892 else 268573428) else if r =? 8 then 16777216 else if r =? 12 then 8388608 else 0
  else 4294967295.
Definition demo_host : device := fun h port =>
  match h with
  | EvOut p a :: _ => if (p =? PCI_CONFIG_ADDR) && (port =? PCI_CONFIG_DATA)
      then demo_conf ((a / 65536) mod 256) ((a / 2048) mod 32) ((a / 256) mod 8) (a mod 256) else 0
  | _ => 0
  end.

Lemma pci_enumerate_exact_witness :
  fst (pci_enumerate demo_host (fun d l => mret (l ++ [d])) [] []) =
  [mk_pci_dev 0 3 0 6900 4097 1 0 0 128; mk_pci_dev 0 3 1 6900 4098 1 0 0 128].
Proof.
  rewrite (pci_enumerate_exact demo_host demo_conf []); [vm_compute; reflexivity|].
  intros h a. reflexivity.
Defined.
