(* ===== verification/Virtio.v ===== *)
(** * The virtio block driver (src/virtio_blk.c)

    The driver owns a virtqueue in memory that the device also reads and
    writes.  [V] is the device: what it does to its own state and to memory
    between two polls of the driver is [vd_step], which sees the port
    accesses so far.  The driver's request header and status byte are in
    memory inside [g_dev], whose address is [g_dev_addr]. *)

From stdpp Require Import prelude list strings.
From Stdlib Require Import ZArith Lia String.
From S2P Require Import Prelude Lib Alloc Vmm Io Pci Console.
#[local] Open Scope Z_scope.
#[local] Open Scope cint_scope.

Definition VIRTIO_PCI_HOST_FEATURES : Z := 0.
Definition VIRTIO_PCI_GUEST_FEATURES : Z := 4.
Definition VIRTIO_PCI_QUEUE_ADDRESS : Z := 8.
Definition VIRTIO_PCI_QUEUE_SIZE : Z := 12.
Definition VIRTIO_PCI_QUEUE_SELECT : Z := 14.
Definition VIRTIO_PCI_QUEUE_NOTIFY : Z := 16.
Definition VIRTIO_PCI_STATUS : Z := 18.
Definition VIRTIO_PCI_DEVICE_SPECIFIC : Z := 20.

Definition VIRTIO_STATUS_ACK : Z := 1.
Definition VIRTIO_STATUS_DRIVER : Z := 2.
Definition VIRTIO_STATUS_DRIVEROK : Z := 4.
Definition VIRTIO_STATUS_FAILED : Z := 128.

Definition VIRTQ_DESC_F_NEXT : Z := 1.
Definition VIRTQ_DESC_F_WRITE : Z := 2.

Record virtio_blk := mk_vblk {
  io_base : Z; queue_num : Z;
  desc : Z; avail : Z; used : Z;
  queue_mem : Z; queue_mem_pages : Z;
  last_used_idx : Z
}.
Definition vblk_zero : virtio_blk := mk_vblk 0 0 0 0 0 0 0 0.

Class VirtioDevice (V : Type) := { vd_step : io_hist -> V -> mem -> V * mem }.

Section virtio.
Context {A : Type} `{PageOps A} {V : Type} `{VirtioDevice V}.
Context (dev : device) (g_dev_addr : Z).

Record vstate := mk_vstate {
  g_dev : virtio_blk;
  g_inited : bool;
  v_mac : mach A;
  v_io : io_hist;
  v_disk : V;
  v_con : list con_event
}.

Definition v_mem (s : vstate) : mem := m_mem (v_mac s).
Definition v_set_dev (d : virtio_blk) (s : vstate) : vstate :=
  mk_vstate d (g_inited s) (v_mac s) (v_io s) (v_disk s) (v_con s).
Definition v_set_inited (s : vstate) : vstate :=
  mk_vstate (g_dev s) true (v_mac s) (v_io s) (v_disk s) (v_con s).
Definition v_set_mac (m : mach A) (s : vstate) : vstate :=
  mk_vstate (g_dev s) (g_inited s) m (v_io s) (v_disk s) (v_con s).
Definition v_set_mem (m : mem) (s : vstate) : vstate := v_set_mac (set_mem (v_mac s) m) s.
Definition v_say (cs : list Z) (s : vstate) : vstate :=
  mk_vstate (g_dev s) (g_inited s) (v_mac s) (v_io s) (v_disk s) (v_con s ++ (ConPutc <$> cs)).
(** Run port accesses. *)
Definition v_run {T} (m : IO T) (s : vstate) : T * vstate :=
  let '(x, h) := m (v_io s) in (x, mk_vstate (g_dev s) (g_inited s) (v_mac s) h (v_disk s) (v_con s)).
Definition v_do (m : IO unit) (s : vstate) : vstate := snd (v_run m s).
(** The device runs. *)
Definition v_tick (s : vstate) : vstate :=
  let '(d, m) := vd_step (v_io s) (v_disk s) (v_mem s) in
  mk_vstate (g_dev s) (g_inited s) (set_mem (v_mac s) m) (v_io s) d (v_con s).

Definition in8 (base off : Z) : IO Z := inb dev (u16 (base + off)).
Definition in16 (base off : Z) : IO Z := inw dev (u16 (base + off)).
Definition in32 (base off : Z) : IO Z := inl_ dev (u16 (base + off)).
Definition out8 (base off v : Z) : IO unit := outb (u16 (base + off)) v.
Definition out16 (base off v : Z) : IO unit := outw (u16 (base + off)) v.
Definition out32 (base off v : Z) : IO unit := outl (u16 (base + off)) v.

(** [&d->req] and [&d->status], from the layout of [virtio_blk_t]. *)
Definition req_addr : Z := g_dev_addr + 50.
Definition status_addr : Z := g_dev_addr + 66.

(** The packed layout of the queue for a size. *)
Definition desc_size (qsz : Z) : Z := qsz * 16.
Definition used_offset (qsz : Z) : Z := align_up_u64 (desc_size qsz + (6 + qsz * 2)) 4096.
Definition queue_bytes (qsz : Z) : Z := align_up_u64 (used_offset qsz + (6 + qsz * 8)) 4096.

Definition setup_queue (s : vstate) : bool * vstate :=
  let base := io_base (g_dev s) in
  let s := v_do (out16 base VIRTIO_PCI_QUEUE_SELECT 0) s in
  let '(qsz, s) := v_run (in16 base VIRTIO_PCI_QUEUE_SIZE) s in
  if qsz =? 0 then (false, s)
  else
    let d := g_dev s in
    let s := v_set_dev (mk_vblk base qsz (desc d) (avail d) (used d) (queue_mem d) (queue_mem_pages d) (last_used_idx d)) s in
    let pages := queue_bytes qsz / PAGE_SIZE in
    let '(mem, pg) := pa_alloc (m_pages (v_mac s)) pages in
    let s := v_set_mac (set_pages (v_mac s) pg) s in
    if mem =? 0 then (false, s)
    else
      let s := v_set_mem (mem_fill (v_mem s) mem 0 (pages * PAGE_SIZE)) s in
      let s := v_set_dev (mk_vblk base qsz mem (mem + desc_size qsz) (mem + used_offset qsz) mem pages 0) s in
      let pfn := u32 (Z.shiftr mem 12) in
      (true, v_do (out32 base VIRTIO_PCI_QUEUE_ADDRESS pfn) s).

Definition virtio_blk_try_init_legacy (bus slot func : Z) (s : vstate) : bool * vstate :=
  let '(vendor, s) := v_run (pci_read16 dev bus slot func 0) s in
  let '(device, s) := v_run (pci_read16 dev bus slot func 2) s in
  if negb (vendor =? 6900) || negb (device =? 4097) then (false, s)
  else
    let '(cmd, s) := v_run (pci_read16 dev bus slot func 4) s in
    let s := v_do (pci_write16 dev bus slot func 4 (Z.lor cmd 5)) s in
    let '(bar0, s) := v_run (pci_read32 dev bus slot func 16) s in
    if Z.land bar0 1 =? 0 then (false, v_say (text "[virtio-blk] BAR0 is not I/O; legacy driver needs I/O" ++ [10]) s)
    else
      let iobase := u16 (Z.land bar0 4294967292) in
      (* the memset clears the request header and the status byte too *)
      let s := v_set_mem (mem_fill (v_mem s) req_addr 0 17) s in
      let s := v_set_dev (mk_vblk iobase 0 0 0 0 0 0 0) s in
      let s := v_do (_ ← out8 iobase VIRTIO_PCI_STATUS 0; io_wait) s in
      let s := v_do (out8 iobase VIRTIO_PCI_STATUS VIRTIO_STATUS_ACK) s in
      let s := v_do (out8 iobase VIRTIO_PCI_STATUS (Z.lor VIRTIO_STATUS_ACK VIRTIO_STATUS_DRIVER)) s in
      let '(_, s) := v_run (in32 iobase VIRTIO_PCI_HOST_FEATURES) s in
      let s := v_do (out32 iobase VIRTIO_PCI_GUEST_FEATURES 0) s in
      let '(ok, s) := setup_queue s in
      if negb ok then (false, v_do (out8 iobase VIRTIO_PCI_STATUS VIRTIO_STATUS_FAILED) (v_say (text "[virtio-blk] failed to setup queue" ++ [10]) s))
      else
        let '(st, s) := v_run (in8 iobase VIRTIO_PCI_STATUS) s in
        let s := v_do (out8 iobase VIRTIO_PCI_STATUS (u8 (Z.lor st VIRTIO_STATUS_DRIVEROK))) s in
        let s := v_set_inited s in
        let s := v_say (text "[virtio-blk] legacy device initialized at io=" ++ [48; 120] ++ hex_n iobase 16 ++ text " qsz=" ++ dec_u64 (queue_num (g_dev s)) ++ [10]) s in
        let '(cap_lo, s) := v_run (in32 iobase (VIRTIO_PCI_DEVICE_SPECIFIC + 0)) s in
        let '(cap_hi, s) := v_run (in32 iobase (VIRTIO_PCI_DEVICE_SPECIFIC + 4)) s in
        let cap := Z.lor (u64 (Z.shiftl cap_hi 32)) cap_lo in
        (true, v_say (text "[virtio-blk] capacity(sectors)=" ++ dec_u64 cap ++ [10]) s).

(** One descriptor, field by field. *)
Definition put_desc (m : mem) (table i addr len flags next : Z) : mem :=
  let a := table + 16 * i in
  stn 2 (stn 2 (st32 (st64 m a addr) (a + 8) len) (a + 12) flags) (a + 14) next.

(** Everything up to the notification; the two transfers differ in the
    request type and in who writes the data. *)
Definition post_request (d : virtio_blk) (m : mem) (type sector buf data_flags : Z) : mem :=
  let m := st64 (st32 (st32 m req_addr type) (req_addr + 4) 0) (req_addr + 8) sector in
  let m := st8 m status_addr 255 in
  let m := put_desc m (desc d) 0 req_addr 16 VIRTQ_DESC_F_NEXT 1 in
  let m := put_desc m (desc d) 1 buf 512 data_flags 2 in
  let m := put_desc m (desc d) 2 status_addr 1 VIRTQ_DESC_F_WRITE 0 in
  let idx := ld16 m (avail d + 2) in
  let m := stn 2 m (avail d + 4 + 2 * (idx mod queue_num d)) 0 in
  stn 2 m (avail d + 2) (u16 (idx + 1)).

(** [while (d->used->idx == d->last_used_idx) cpu_pause();] *)
Fixpoint wait_used (fuel : nat) (s : vstate) : option vstate :=
  if ld16 (v_mem s) (used (g_dev s) + 2) =? last_used_idx (g_dev s) then
    match fuel with
    | O => None
    | S fuel' => wait_used fuel' (v_tick s)
    end
  else Some s.

Definition transfer (fuel : nat) (type data_flags sector buf : Z) (s : vstate) : option (bool * vstate) :=
  if negb (g_inited s) then Some (false, s)
  else if queue_num (g_dev s) <? 3 then Some (false, s)
  else
    let s := v_set_mem (post_request (g_dev s) (v_mem s) type sector buf data_flags) s in
    let s := v_do (out16 (io_base (g_dev s)) VIRTIO_PCI_QUEUE_NOTIFY 0) s in
    s ← wait_used fuel s;
    let d := g_dev s in
    let s := v_set_dev (mk_vblk (io_base d) (queue_num d) (desc d) (avail d) (used d) (queue_mem d)
                          (queue_mem_pages d) (u16 (last_used_idx d + 1))) s in
    Some (ld8 (v_mem s) status_addr =? 0, s).

Definition virtio_blk_read_sector (fuel : nat) (sector out512 : Z) (s : vstate) : option (bool * vstate) :=
  transfer fuel 0 (Z.lor VIRTQ_DESC_F_NEXT VIRTQ_DESC_F_WRITE) sector out512 s.

Definition virtio_blk_write_sector (fuel : nat) (sector in512 : Z) (s : vstate) : option (bool * vstate) :=
  transfer fuel 1 VIRTQ_DESC_F_NEXT sector in512 s.

Definition virtio_blk_is_ready (s : vstate) : bool := g_inited s.
End virtio.
