(* ===== verification/VirtioSpec.v ===== *)
(** * What the virtio driver achieves

    [VirtioLaws] is the device's side of the legacy virtio block protocol:
    when it is notified of one new chain in the queue it was told about, it
    serves the request the chain describes within a number of polls, and
    writes only to the data buffer of a read, the status byte and the used
    ring.  Against these laws a transfer is proved to move the right sector,
    and the driver, with a buffer, to be a disk in the sense of Devfs.v. *)

From stdpp Require Import prelude list.
From Stdlib Require Import ZArith Lia.
From S2P Require Import Prelude Lib Alloc Pmm Vmm Io Pci Console Devfs Virtio.
#[local] Open Scope Z_scope.
#[local] Open Scope cint_scope.

Definition bytes_of (m : mem) (a : Z) (n : nat) : list Z := (fun i => ld8 m (a + Z.of_nat i)) <$> seq 0 n.

Lemma bytes_of_ext m1 m2 a n :
  (forall x, a <= x < a + Z.of_nat n -> ld8 m1 x = ld8 m2 x) -> bytes_of m1 a n = bytes_of m2 a n.
Proof.
  intros Hx. unfold bytes_of. apply list_fmap_ext. intros i k Hk. apply lookup_seq in Hk as [-> ?]. apply Hx. lia.
Qed.

(** The newest entry of the available ring of the queue at [q] heads a chain
    of three descriptors: header, data and status. *)
Definition request_at (m : mem) (q qsz type sector buf flags st : Z) : Prop :=
  let av := q + 16 * qsz in
  let idx := u16 (ld16 m (av + 2) - 1) in
  exists d0 d1 d2 hdr,
    d0 = q + 16 * ld16 m (av + 4 + 2 * (idx mod qsz)) /\
    ld64 m d0 = hdr /\ ld32 m (d0 + 8) = 16 /\ ld16 m (d0 + 12) = 1 /\
    ld32 m hdr = type /\ ld64 m (hdr + 8) = sector /\
    d1 = q + 16 * ld16 m (d0 + 14) /\
    ld64 m d1 = buf /\ ld32 m (d1 + 8) = 512 /\ ld16 m (d1 + 12) = flags /\
    d2 = q + 16 * ld16 m (d1 + 14) /\
    ld64 m d2 = st /\ ld32 m (d2 + 8) = 1 /\ ld16 m (d2 + 12) = 2.

Section laws.
Context {V : Type} `{VirtioDevice V}.

Fixpoint vd_steps (n : nat) (h : io_hist) (d : V) (m : mem) : V * mem :=
  match n with O => (d, m) | S n' => let '(d, m) := vd_step h d m in vd_steps n' h d m end.

Class VirtioLaws := {
  vd_sectors : V -> Z;
  vd_data : V -> Z -> list Z;
  vd_base : V -> Z;
  vd_qsize : V -> Z;
  vd_latency : nat;
  vd_data_len d k : length (vd_data d k) = 512%nat;
  vd_data_bytes d k : Forall is_u8 (vd_data d k);
  vd_serve pfn h d m type sector buf flags st :
    let base := vd_base d in
    let q := 4096 * pfn in
    let us := q + used_offset (vd_qsize d) in
    3 <= vd_qsize d < 65536 ->
    last_out h (base + 8) = Some pfn ->
    request_at m q (vd_qsize d) type sector buf flags st ->
    (type = 0 /\ flags = 3 \/ type = 1 /\ flags = 1) ->
    ld16 m (q + 16 * vd_qsize d + 2) = u16 (ld16 m (us + 2) + 1) ->
    (st < buf \/ buf + 512 <= st) ->
    (us + 6 + 8 * vd_qsize d <= buf \/ buf + 512 <= us) ->
    (st < us \/ us + 6 + 8 * vd_qsize d <= st) ->
    exists n d' m',
      (n <= vd_latency)%nat /\ vd_steps n (EvOut (base + 16) 0 :: h) d m = (d', m') /\
      (forall k, (k < n)%nat ->
         ld16 (snd (vd_steps k (EvOut (base + 16) 0 :: h) d m)) (us + 2) = ld16 m (us + 2)) /\
      ld16 m' (us + 2) = u16 (ld16 m (us + 2) + 1) /\
      (forall x, x <> st -> (x < us \/ us + 6 + 8 * vd_qsize d <= x) ->
         (type = 0 -> x < buf \/ buf + 512 <= x) -> ld8 m' x = ld8 m x) /\
      vd_sectors d' = vd_sectors d /\ vd_qsize d' = vd_qsize d /\ vd_base d' = vd_base d /\
      if (0 <=? sector) && (sector <? vd_sectors d) then
        ld8 m' st = 0 /\
        (type = 0 -> bytes_of m' buf 512 = vd_data d sector) /\
        (forall j, vd_data d' j = if (type =? 1) && (j =? sector) then bytes_of m buf 512 else vd_data d j)
      else
        ld8 m' st = 1 /\ forall j, vd_data d' j = vd_data d j
}.
End laws.
Arguments VirtioLaws V {_}.

(** ** The layout of the queue *)

Lemma align_page v : 0 <= v < 2 ^ 32 -> v <= align_up_u64 v 4096 < v + 4096.
Proof.
  intros. pose proof (align_up_pow2 v 12 ltac:(lia) ltac:(lia) ltac:(lia)) as He.
  change (2 ^ 12) with 4096 in He. rewrite He. Z.div_mod_to_equations. lia.
Qed.

Lemma used_offset_ok qsz : 0 <= qsz < 65536 -> 18 * qsz + 6 <= used_offset qsz < 18 * qsz + 6 + 4096.
Proof.
  intros. unfold used_offset, desc_size. pose proof (align_page (qsz * 16 + (6 + qsz * 2)) ltac:(lia)). lia.
Qed.

Lemma queue_bytes_ok qsz :
  0 <= qsz < 65536 -> used_offset qsz + 6 + 8 * qsz <= queue_bytes qsz < used_offset qsz + 6 + 8 * qsz + 4096.
Proof.
  intros Hq. pose proof (used_offset_ok qsz Hq). unfold queue_bytes.
  pose proof (align_page (used_offset qsz + (6 + qsz * 8)) ltac:(lia)). lia.
Qed.

Lemma queue_bytes_page qsz : 0 <= qsz < 65536 -> queue_bytes qsz / 4096 * 4096 = queue_bytes qsz.
Proof.
  intros Hq. pose proof (used_offset_ok qsz Hq). unfold queue_bytes.
  pose proof (align_up_pow2 (used_offset qsz + (6 + qsz * 8)) 12 ltac:(lia) ltac:(lia) ltac:(lia)) as He.
  change (2 ^ 12) with 4096 in He. rewrite He. by rewrite Z.div_mul by lia.
Qed.

(** Loads after the stores of a request. *)
Lemma ldn_st8_other k m a v b : b + Z.of_nat k <= a \/ a < b -> ldn k (st8 m a v) b = ldn k m b.
Proof. intros. apply ldn_ext. intros x Hx. rewrite ld8_st8. destruct (Z.eqb_spec x a); [lia|done]. Qed.

Lemma ld8_ldn1 m x : ld8 m x = ldn 1 m x.
Proof. change (ldn 1 m x) with (ld8 m x + 256 * 0). lia. Qed.

Ltac loads := repeat first
  [ rewrite ldn_stn_same
  | rewrite ldn_stn_other by lia
  | rewrite ldn_st8_other by lia ].

Section ready.
Context {A : Type} `{PageOps A} {V : Type} `{VirtioLaws V}.
Context (dev : device) (g_dev_addr : Z).
Abbreviation vstate := (vstate (A:=A) (V:=V)).

(** Apart: [n] bytes at [a] and [k] bytes at [b]. *)
Definition apart (a n b k : Z) : Prop := a + n <= b \/ b + k <= a.

(** The driver is idle: the queue is where the device was told, and both
    indices stand at the last request served. *)
Record vready (s : vstate) : Prop := {
  vr_init : g_inited s = true;
  vr_num : queue_num (g_dev s) = vd_qsize (v_disk s);
  vr_port : io_base (g_dev s) = vd_base (v_disk s);
  vr_size : 3 <= queue_num (g_dev s) < 65536;
  vr_base : 0 <= io_base (g_dev s) < 65000;
  vr_pfn : last_out (v_io s) (io_base (g_dev s) + 8) = Some (desc (g_dev s) / 4096);
  vr_page : desc (g_dev s) mod 4096 = 0;
  vr_desc : 0 <= desc (g_dev s);
  vr_avail : avail (g_dev s) = desc (g_dev s) + 16 * queue_num (g_dev s);
  vr_used : used (g_dev s) = desc (g_dev s) + used_offset (queue_num (g_dev s));
  vr_aidx : ld16 (v_mem s) (avail (g_dev s) + 2) = last_used_idx (g_dev s);
  vr_uidx : ld16 (v_mem s) (used (g_dev s) + 2) = last_used_idx (g_dev s);
  vr_gdev : 0 <= g_dev_addr < 2 ^ 63;
  vr_apart : apart g_dev_addr 72 (desc (g_dev s)) (queue_bytes (queue_num (g_dev s)))
}.

Lemma post_request_ok s type sector buf flags :
  vready s -> 0 <= type < 2 ^ 32 -> 0 <= sector < 2 ^ 64 -> 0 <= buf < 2 ^ 64 -> 0 <= flags < 65536 ->
  let d := g_dev s in
  let m := post_request g_dev_addr d (v_mem s) type sector buf flags in
  request_at m (desc d) (queue_num d) type sector buf flags (status_addr g_dev_addr) /\
  ld16 m (avail d + 2) = u16 (last_used_idx d + 1) /\
  ld16 m (used d + 2) = last_used_idx d /\
  forall x, (x < desc d \/ desc d + queue_bytes (queue_num d) <= x) ->
    (x < g_dev_addr + 50 \/ g_dev_addr + 67 <= x) -> ld8 m x = ld8 (v_mem s) x.
Proof.
  intros [] Ht Hsec Hbuf Hfl d m. unfold apart in *.
  fold d in vr_num0, vr_size0, vr_base0, vr_pfn0, vr_page0, vr_desc0, vr_avail0, vr_used0, vr_aidx0, vr_uidx0, vr_apart0.
  pose proof (used_offset_ok (queue_num d) ltac:(lia)). pose proof (queue_bytes_ok (queue_num d) ltac:(lia)).
  assert (Hli : 0 <= last_used_idx d < 65536) by (rewrite <- vr_aidx0; exact (ldn_range 2 (v_mem s) (avail d + 2))).
  pose proof (Z.mod_pos_bound (last_used_idx d) (queue_num d) ltac:(lia)) as Hr.
  assert (Hm : exists m1, m = stn 2 (stn 2 m1 (avail d + 4 + 2 * (last_used_idx d mod queue_num d)) 0) (avail d + 2)
                 (u16 (last_used_idx d + 1)) /\
      m1 = put_desc (put_desc (put_desc (st8 (st64 (st32 (st32 (v_mem s) (req_addr g_dev_addr) type)
             (req_addr g_dev_addr + 4) 0) (req_addr g_dev_addr + 8) sector) (status_addr g_dev_addr) 255)
             (desc d) 0 (req_addr g_dev_addr) 16 1 1) (desc d) 1 buf 512 flags 2) (desc d) 2 (status_addr g_dev_addr) 1 2 0).
  { eexists. split; [|reflexivity]. subst m. unfold post_request. cbv zeta.
    match goal with |- context [ld16 ?mm (avail d + 2)] => assert (Hi : ld16 mm (avail d + 2) = last_used_idx d) end.
    { unfold put_desc, req_addr, status_addr. loads. done. }
    rewrite Hi. reflexivity. }
  destruct Hm as [m1 [-> Hm1]]. set (r := last_used_idx d mod queue_num d) in *.
  assert (Ha : forall k b, (b + Z.of_nat k <= avail d \/ avail d + 4 + 2 * queue_num d <= b) ->
      ldn k (stn 2 (stn 2 m1 (avail d + 4 + 2 * r) 0) (avail d + 2) (u16 (last_used_idx d + 1))) b = ldn k m1 b).
  { intros k b Hb. loads. done. }
  assert (Hidx : ld16 (stn 2 (stn 2 m1 (avail d + 4 + 2 * r) 0) (avail d + 2) (u16 (last_used_idx d + 1)))
            (avail d + 2) = u16 (last_used_idx d + 1)).
  { loads. apply Zmod_mod. }
  split; [|split; [exact Hidx|]].
  - unfold request_at. rewrite <- vr_avail0, Hidx.
    assert (Hu : u16 (u16 (last_used_idx d + 1) - 1) = last_used_idx d) by (unfold u16; Z.div_mod_to_equations; lia).
    rewrite Hu. fold r.
    exists (desc d), (desc d + 16), (desc d + 32), (req_addr g_dev_addr).
    repeat split; try (rewrite Ha by (unfold req_addr; lia); rewrite Hm1; unfold put_desc, req_addr, status_addr;
      cbv zeta; rewrite ?Z.mul_0_r, ?Z.mul_1_r, ?Z.add_0_r; change (16 * 2) with 32; loads; change (256 ^ Z.of_nat 2) with 65536; change (256 ^ Z.of_nat 4) with 4294967296;
      change (256 ^ Z.of_nat 8) with 18446744073709551616; rewrite ?Z.mod_small by lia; lia).
    loads. change (0 mod 256 ^ Z.of_nat 2) with 0. lia.
  - split.
    + rewrite Ha by lia. rewrite Hm1. unfold put_desc, req_addr, status_addr. loads. done.
    + intros x Hx Hg. pose proof (Ha 1%nat x ltac:(lia)) as Hx1.
      assert (Hb : ldn 1 m1 x = ldn 1 (v_mem s) x).
      { rewrite Hm1. unfold put_desc, req_addr, status_addr. loads. done. }
      rewrite !ld8_ldn1. congruence.
Qed.
(** ** Waiting *)

Definition v_after (n : nat) (s : vstate) : vstate :=
  let '(d, m) := vd_steps n (v_io s) (v_disk s) (v_mem s) in
  mk_vstate (g_dev s) (g_inited s) (set_mem (v_mac s) m) (v_io s) d (v_con s).

Lemma wait_used_ok n fuel s :
  (n <= fuel)%nat ->
  (forall k, (k < n)%nat -> ld16 (snd (vd_steps k (v_io s) (v_disk s) (v_mem s))) (used (g_dev s) + 2) =
                            last_used_idx (g_dev s)) ->
  ld16 (snd (vd_steps n (v_io s) (v_disk s) (v_mem s))) (used (g_dev s) + 2) <> last_used_idx (g_dev s) ->
  wait_used fuel s = Some (v_after n s).
Proof.
  revert fuel s. induction n as [|n IH]; intros fuel s Hf Hk Hn.
  - assert (wait_used fuel s = Some s) as ->.
    { simpl in Hn. apply Z.eqb_neq in Hn. destruct fuel; simpl; by rewrite Hn. }
    unfold v_after. simpl. by destruct s as [? ? []].
  - destruct fuel as [|fuel]; [lia|]. cbn [wait_used].
    pose proof (Hk 0%nat ltac:(lia)) as H0k. simpl in H0k. rewrite (proj2 (Z.eqb_eq _ _) H0k).
    destruct (vd_step (v_io s) (v_disk s) (v_mem s)) as [d m] eqn:Hs.
    assert (v_tick s = mk_vstate (g_dev s) (g_inited s) (set_mem (v_mac s) m) (v_io s) d (v_con s)) as ->.
    { unfold v_tick. by rewrite Hs. }
    rewrite IH; [|lia|..].
    + unfold v_after; simpl. rewrite Hs. change (v_mem _) with m. by destruct (vd_steps n (v_io s) d m).
    + intros k Hkn. specialize (Hk (Datatypes.S k) ltac:(lia)). simpl in Hk. by rewrite Hs in Hk.
    + simpl in Hn. by rewrite Hs in Hn.
Qed.

(** ** Transfers *)

Definition buf_ok (s : vstate) (buf : Z) : Prop :=
  0 <= buf < 2 ^ 63 /\ apart buf 512 (desc (g_dev s)) (queue_bytes (queue_num (g_dev s))) /\
  apart buf 512 g_dev_addr 72.

(** Memory outside the queue and the driver's structure. *)
Definition foreign (s : vstate) (x : Z) : Prop :=
  (x < desc (g_dev s) \/ desc (g_dev s) + queue_bytes (queue_num (g_dev s)) <= x) /\
  (x < g_dev_addr \/ g_dev_addr + 72 <= x).

Lemma transfer_ok s fuel type flags sector buf :
  vready s -> buf_ok s buf -> (vd_latency <= fuel)%nat -> 0 <= sector < 2 ^ 64 ->
  type = 0 /\ flags = 3 \/ type = 1 /\ flags = 1 ->
  exists ok s', transfer g_dev_addr fuel type flags sector buf s = Some (ok, s') /\
    vready s' /\ buf_ok s' buf /\ vd_sectors (v_disk s') = vd_sectors (v_disk s) /\
    ok = ((0 <=? sector) && (sector <? vd_sectors (v_disk s))) /\
    (forall x, foreign s x -> (type = 0 -> x < buf \/ buf + 512 <= x) -> ld8 (v_mem s') x = ld8 (v_mem s) x) /\
    (ok = true -> type = 0 -> bytes_of (v_mem s') buf 512 = vd_data (v_disk s) sector) /\
    (forall j, vd_data (v_disk s') j =
       if ok && ((type =? 1) && (j =? sector)) then bytes_of (v_mem s) buf 512 else vd_data (v_disk s) j).
Proof.
  intros Hrdy [Hb64 [Hbq Hbg]] Hfuel Hsec Htf. pose proof Hrdy as [].
  destruct (post_request_ok s type sector buf flags Hrdy) as [Hreq [Hai [Hui Hfr]]]; [lia..|].
  pose proof (used_offset_ok (queue_num (g_dev s)) ltac:(lia)).
  pose proof (queue_bytes_ok (queue_num (g_dev s)) ltac:(lia)). unfold apart in *.
  set (m1 := post_request g_dev_addr (g_dev s) (v_mem s) type sector buf flags) in *.
  assert (Hq : 4096 * (desc (g_dev s) / 4096) = desc (g_dev s)) by (Z.div_mod_to_equations; lia).
  pose proof (vd_serve (desc (g_dev s) / 4096) (v_io s) (v_disk s) m1 type sector buf flags
    (status_addr g_dev_addr)) as Hsrv. cbv zeta in Hsrv. rewrite Hq, <- vr_num0, <- vr_port0, <- vr_used0, <- vr_avail0 in Hsrv.
  destruct Hsrv as [n [d' [m' [Hn [Hst [Hwait [Huidx [Hframe [Hsec' [Hqs [Hpo Hres]]]]]]]]]]];
    [lia|done|done|lia|by rewrite Hai, Hui|unfold status_addr; lia..|].
  rewrite Hui in Hwait, Huidx.
  assert (Hli : 0 <= last_used_idx (g_dev s) < 65536)
    by (rewrite <- vr_aidx0; exact (ldn_range 2 (v_mem s) (avail (g_dev s) + 2))).
  unfold transfer. rewrite vr_init0. cbn [negb]. rewrite (proj2 (Z.ltb_ge _ _)) by lia. fold m1.
  set (s1 := v_do _ _).
  assert (Hs1 : v_io s1 = EvOut (io_base (g_dev s) + 16) 0 :: v_io s).
  { subst s1. unfold v_do, v_run, out16, outw, VIRTIO_PCI_QUEUE_NOTIFY. simpl. unfold u16. by rewrite Z.mod_small by lia. }
  rewrite (wait_used_ok n fuel s1); [|lia| |].
  2: { intros k Hk. rewrite Hs1. exact (Hwait k Hk). }
  2: { rewrite Hs1. change (v_disk s1) with (v_disk s). change (v_mem s1) with m1. change (g_dev s1) with (g_dev s).
       rewrite Hst. cbn [snd]. rewrite Huidx. unfold u16. Z.div_mod_to_equations. lia. }
  simpl. assert (Haft : v_after n s1 = mk_vstate (g_dev s) true (set_mem (v_mac s) m') (v_io s1) d' (v_con s)).
  { unfold v_after. rewrite Hs1. change (v_disk s1) with (v_disk s). change (v_mem s1) with m1. rewrite Hst.
    by rewrite <- vr_init0. }
  rewrite Haft. eexists _, _. split; [reflexivity|]. change (v_mem (v_set_dev _ _)) with m'.
  assert (Hfm : forall x, foreign s x -> ld8 m1 x = ld8 (v_mem s) x) by (intros x [??]; apply Hfr; lia).
  assert (Hbuf : bytes_of m1 buf 512 = bytes_of (v_mem s) buf 512).
  { apply bytes_of_ext. intros x Hx. apply Hfm. unfold foreign. lia. }
  set (ok := (0 <=? sector) && (sector <? vd_sectors (v_disk s))) in *.
  assert (Hok : (ld8 m' (status_addr g_dev_addr) =? 0) = ok).
  { destruct ok; destruct Hres as [-> _]; done. }
  rewrite Hok. split; [|split; [done|]]; [|split; [done|split; [done|split; [|split]]]].
  - constructor; simpl; try done; unfold apart; try lia.
    + unfold u16, VIRTIO_PCI_QUEUE_NOTIFY. rewrite Z.mod_small by lia.
      by rewrite (proj2 (Z.eqb_neq _ _)) by lia.
    + change (v_mem (v_set_dev _ _)) with m'. rewrite <- Hai. apply ldn_ext. intros x Hx. apply Hframe; unfold status_addr; lia.
  - intros x [Hx1 Hx2] Hxb. rewrite Hframe by (unfold status_addr; lia || done). by apply Hfm.
  - intros Ho Ht0. destruct ok; [|done]. apply Hres. done.
  - intros j. destruct ok; simpl; [|apply Hres]. rewrite <- Hbuf. apply Hres.
Qed.

(** ** Start-up *)

Section init.
Context `{!PageLaws A}.

(** The driver's structure is not in a free page. *)
Definition kept (p : A) : Prop :=
  forall i, i * 4096 < g_dev_addr + 72 -> g_dev_addr < i * 4096 + 4096 -> pa_isfree p i = false.

Lemma setup_queue_ok (s s' : vstate) :
  let base := io_base (g_dev s) in
  0 <= base < 65000 -> (forall h, dev h (base + 12) = vd_qsize (v_disk s)) -> 0 <= vd_qsize (v_disk s) < 65536 ->
  pa_wf (m_pages (v_mac s)) -> kept (m_pages (v_mac s)) -> 0 <= g_dev_addr < 2 ^ 63 ->
  setup_queue dev s = (true, s') ->
  exists q, g_dev s' = mk_vblk base (vd_qsize (v_disk s)) q (q + 16 * vd_qsize (v_disk s))
      (q + used_offset (vd_qsize (v_disk s))) q (queue_bytes (vd_qsize (v_disk s)) / 4096) 0 /\
    v_disk s' = v_disk s /\ g_inited s' = g_inited s /\
    last_out (v_io s') (base + 8) = Some (q / 4096) /\ q mod 4096 = 0 /\ 0 <= q /\
    apart g_dev_addr 72 q (queue_bytes (vd_qsize (v_disk s))) /\
    (forall x, q <= x < q + queue_bytes (vd_qsize (v_disk s)) -> ld8 (v_mem s') x = 0).
Proof.
  intros base Hbase Hdev Hqs Hwf Hkept Hg. unfold setup_queue. fold base.
  unfold v_run at 1, in16, inw. rewrite (u16_small (base + VIRTIO_PCI_QUEUE_SIZE)) by (unfold is_u16, VIRTIO_PCI_QUEUE_SIZE; lia).
  change (VIRTIO_PCI_QUEUE_SIZE) with 12. rewrite Hdev. cbn [v_disk v_do v_run out16 outw snd].
  rewrite u16_small by done. set (qsz := vd_qsize (v_disk s)) in *.
  case_b; [discriminate|].
  destruct (pa_alloc _ _) as [mem pg] eqn:Hal. case_b; [discriminate|]. intros He. injection He as <-.
  pose proof (queue_bytes_page qsz Hqs) as Hpg. pose proof (used_offset_ok qsz Hqs). pose proof (queue_bytes_ok qsz Hqs).
  destruct (pa_alloc_ok (m_pages (v_mac s)) (queue_bytes qsz / PAGE_SIZE) mem pg) as [_ [_ [_ [p [Hp [Hp0 [Hpt [Hfree _]]]]]]]];
    [done|unfold PAGE_SIZE; lia|exact Hal|lia|].
  pose proof (pa_total_bound (m_pages (v_mac s)) Hwf). unfold PAGE_SIZE in *.
  exists mem. split; [unfold desc_size; simpl; f_equal; lia|]. split; [done|]. split; [done|].
  split; [|split; [subst; by rewrite Z.mod_mul|split; [lia|split]]].
  - simpl. unfold VIRTIO_PCI_QUEUE_ADDRESS. rewrite u16_small by (unfold is_u16; lia). rewrite Z.eqb_refl.
    rewrite Z.shiftr_div_pow2 by lia. change (2 ^ 12) with 4096. subst mem.
    rewrite Z.div_mul by lia. by rewrite !(u32_small p) by (unfold is_u32; lia).
  - unfold apart. destruct (Z.le_gt_cases (g_dev_addr + 72) mem); [by left|].
    destruct (Z.le_gt_cases (mem + queue_bytes qsz) g_dev_addr); [by right|]. exfalso.
    set (i := Z.max p (g_dev_addr / 4096)).
    assert (Hi : p <= i < p + queue_bytes qsz / 4096 /\ i * 4096 < g_dev_addr + 72 /\ g_dev_addr < i * 4096 + 4096)
      by (subst i; Z.div_mod_to_equations; lia).
    specialize (Hfree i ltac:(lia)). rewrite (Hkept i) in Hfree by lia. discriminate.
  - intros x Hx. change (ld8 (mem_fill (v_mem s) mem 0 (queue_bytes qsz / 4096 * 4096)) x = 0).
    rewrite ld8_fill, (proj2 (in_range_true _ _ _)) by lia. done.
Qed.

Lemma v_run_same {T} (m : IO T) (s s' : vstate) x :
  v_run m s = (x, s') -> g_dev s' = g_dev s /\ g_inited s' = g_inited s /\ v_mac s' = v_mac s /\ v_disk s' = v_disk s.
Proof. unfold v_run. destruct (m (v_io s)). intros He. by injection He as <- <-. Qed.

Lemma v_do_dev (m : IO unit) (s : vstate) : g_dev (v_do m s) = g_dev s.
Proof. unfold v_do, v_run. by destruct (m (v_io s)). Qed.
Lemma v_do_mac (m : IO unit) (s : vstate) : v_mac (v_do m s) = v_mac s.
Proof. unfold v_do, v_run. by destruct (m (v_io s)). Qed.
Lemma v_do_disk (m : IO unit) (s : vstate) : v_disk (v_do m s) = v_disk s.
Proof. unfold v_do, v_run. by destruct (m (v_io s)). Qed.

Lemma try_init_ready bus slot func (s s' : vstate) :
  virtio_blk_try_init_legacy dev g_dev_addr bus slot func s = (true, s') ->
  let base := io_base (g_dev s') in
  base = vd_base (v_disk s) -> 0 <= base < 65000 ->
  (forall h, dev h (base + 12) = vd_qsize (v_disk s)) -> 3 <= vd_qsize (v_disk s) < 65536 ->
  pa_wf (m_pages (v_mac s)) -> kept (m_pages (v_mac s)) -> 0 <= g_dev_addr < 2 ^ 63 ->
  vready s' /\ v_disk s' = v_disk s.
Proof.
  unfold virtio_blk_try_init_legacy.
  destruct (v_run (pci_read16 dev bus slot func 0) s) as [vendor s1] eqn:E1.
  destruct (v_run (pci_read16 dev bus slot func 2) s1) as [device s2] eqn:E2.
  case_b; [discriminate|].
  destruct (v_run (pci_read16 dev bus slot func 4) s2) as [cmd s3] eqn:E3.
  destruct (v_run (pci_read32 dev bus slot func 16) _) as [bar0 s4] eqn:E4.
  case_b; [discriminate|]. set (iobase := u16 _).
  destruct (v_run (in32 dev iobase VIRTIO_PCI_HOST_FEATURES) _) as [feat s5] eqn:E5.
  destruct (setup_queue dev _) as [ok s6] eqn:E6. destruct ok; [|discriminate].
  assert (Hd : v_disk s5 = v_disk s /\ v_mac s5 = set_mem (v_mac s) (mem_fill (v_mem s) (req_addr g_dev_addr) 0 17) /\
               io_base (g_dev s5) = iobase).
  { apply v_run_same in E1, E2, E3, E4, E5.
    rewrite !v_do_dev, !v_do_mac, !v_do_disk in E4. rewrite !v_do_dev, !v_do_mac, !v_do_disk in E5.
    unfold v_mem in *. cbn in E5. destruct E1 as (_ & _ & ? & ?), E2 as (_ & _ & ? & ?), E3 as (_ & _ & ? & ?),
      E4 as (_ & _ & ? & ?), E5 as (-> & _ & -> & ->). repeat split; congruence. }
  destruct Hd as (Hd1 & Hd2 & Hd3). intros He.
  assert (Hs' : g_dev s' = g_dev s6 /\ v_mac s' = v_mac s6 /\ v_disk s' = v_disk s6 /\ g_inited s' = true /\
    exists v1 v2 v3 v4 p1 p2 p3, v_io s' = EvIn p1 v1 :: EvIn p2 v2 :: EvOut (u16 (iobase + 18)) v3 :: EvIn p3 v4 :: v_io s6).
  { cbv [negb v_run in8 inb in32 inl_ v_do out8 outb snd v_set_inited v_say fst] in He.
    injection He as <-. repeat split. simpl. by eexists _, _, _, _, _, _, _. }
  destruct Hs' as (Hg' & Hm' & Hv' & Hi' & v1 & v2 & v3 & v4 & p1 & p2 & p3 & Hio').
  set (base := io_base (g_dev s')). intros Hport Hbase Hdev Hqs Hwf Hkept Hga.
  set (s5' := v_do (out32 iobase VIRTIO_PCI_GUEST_FEATURES 0) s5) in E6.
  assert (Hg5 : io_base (g_dev s5') = iobase /\ v_disk s5' = v_disk s /\ m_pages (v_mac s5') = m_pages (v_mac s)).
  { subst s5'. rewrite v_do_dev, v_do_disk, v_do_mac, Hd2. done. }
  destruct Hg5 as (Hb5 & Hv5 & Hp5).
  assert (Hib : base = iobase).
  { subst base. rewrite Hg'. clear - E6 Hb5. unfold setup_queue in E6.
    repeat (destruct (v_run _ _) as [? ?] eqn:?E in E6; apply v_run_same in E as (? & _)).
    repeat case_b_in E6; try discriminate.
    destruct (pa_alloc _ _) in E6. case_b_in E6; [discriminate|]. injection E6 as <-. rewrite v_do_dev. done. }
  destruct (setup_queue_ok s5' s6) as (q & Hgq & Hvq & _ & Hpfn & Hmod & Hq0 & Hap & Hzero);
    rewrite ?Hb5, ?Hv5, ?Hp5, <- ?Hib; try done; try lia.
  rewrite Hb5, <- Hib in Hgq, Hpfn. rewrite Hv5 in *. rewrite Hvq in Hv'.
  split; [|congruence].
  assert (Hqs' : 0 <= vd_qsize (v_disk s) < 65536) by lia.
  pose proof (used_offset_ok _ Hqs'). pose proof (queue_bytes_ok _ Hqs').
  assert (Hz : forall a, q <= a -> a + 2 <= q + queue_bytes (vd_qsize (v_disk s)) -> ld16 (v_mem s') a = 0).
  { intros a Ha1 Ha2. unfold v_mem. rewrite Hm'. fold (v_mem s6).
    change (ld16 (v_mem s6) a) with (ld8 (v_mem s6) a + 256 * (ld8 (v_mem s6) (a + 1) + 256 * 0)).
    rewrite !Hzero by lia. done. }
  constructor; rewrite ?Hg', ?Hgq, ?Hv'; simpl; try done; try lia.
  - rewrite Hio'. simpl. rewrite u16_small by (unfold is_u16; lia).
    by rewrite (proj2 (Z.eqb_neq _ _)) by lia.
  - apply Hz; lia.
  - apply Hz; lia.
Qed.

End init.

(** ** The driver as a disk

    The caller's 512-byte buffer is at [buf], as devfs.c has one on its stack. *)

Section disk.
Context (buf : Z).

Definition virtio_disk : Type := { s : vstate | vready s /\ buf_ok s buf }.

Definition run_transfer (type flags : Z) (k : Z) (s : vstate) : bool * vstate :=
  match transfer g_dev_addr vd_latency type flags (u64 k) buf s with Some r => r | None => (false, s) end.

Lemma run_transfer_ok type flags k s :
  vready s -> buf_ok s buf -> type = 0 /\ flags = 3 \/ type = 1 /\ flags = 1 ->
  let '(ok, s') := run_transfer type flags k s in
  vready s' /\ buf_ok s' buf /\ vd_sectors (v_disk s') = vd_sectors (v_disk s) /\
  ok = ((0 <=? u64 k) && (u64 k <? vd_sectors (v_disk s))) /\
  (ok = true -> type = 0 -> bytes_of (v_mem s') buf 512 = vd_data (v_disk s) (u64 k)) /\
  (forall j, vd_data (v_disk s') j =
     if ok && ((type =? 1) && (j =? u64 k)) then bytes_of (v_mem s) buf 512 else vd_data (v_disk s) j).
Proof.
  intros Hr Hb Ht. unfold run_transfer. pose proof (u64_range k) as Hk. unfold is_u64 in Hk.
  destruct (transfer_ok s vd_latency type flags (u64 k) buf Hr Hb) as (ok & s' & -> & ? & ? & ? & ? & _ & ? & ?); [done|lia|done|].
  done.
Qed.

Lemma read_ready k (d : virtio_disk) :
  vready (snd (run_transfer 0 3 k (`d))) /\ buf_ok (snd (run_transfer 0 3 k (`d))) buf.
Proof.
  destruct d as [s [Hr Hb]]. simpl. pose proof (run_transfer_ok 0 3 k s Hr Hb ltac:(lia)) as Ht.
  destruct (run_transfer 0 3 k s). simpl. tauto.
Qed.

(** The caller's bytes are in the buffer. *)
Definition with_buffer (bs : list Z) (s : vstate) : vstate := v_set_mem (mem_put (v_mem s) buf (take 512 bs)) s.

Lemma with_buffer_ok bs s :
  vready s -> buf_ok s buf -> vready (with_buffer bs s) /\ buf_ok (with_buffer bs s) buf.
Proof.
  intros Hr Hb. split; [|done]. destruct Hr, Hb as (Hb1 & Hb2 & Hb3). unfold apart in *.
  assert (Hqz : 0 <= queue_num (g_dev s) < 65536) by lia.
  pose proof (used_offset_ok _ Hqz). pose proof (queue_bytes_ok _ Hqz).
  assert (Hput : forall a, (a + 2 <= buf \/ buf + 512 <= a) ->
    ld16 (mem_put (v_mem s) buf (take 512 bs)) a = ld16 (v_mem s) a).
  { intros a Ha. apply ldn_ext. intros x Hx. unfold ld8, mem_put. rewrite length_take.
    in_range_cases; [lia|done]. }
  constructor; try done; simpl; change (v_mem (with_buffer bs s)) with (mem_put (v_mem s) buf (take 512 bs));
    rewrite Hput by lia; done.
Qed.

Lemma write_ready bs k (d : virtio_disk) :
  vready (snd (run_transfer 1 1 k (with_buffer bs (`d)))) /\ buf_ok (snd (run_transfer 1 1 k (with_buffer bs (`d)))) buf.
Proof.
  destruct d as [s [Hr Hb]]. simpl. destruct (with_buffer_ok bs s Hr Hb) as [Hr' Hb'].
  pose proof (run_transfer_ok 1 1 k _ Hr' Hb' ltac:(lia)) as Ht.
  destruct (run_transfer 1 1 k (with_buffer bs s)). simpl. tauto.
Qed.

#[local] Instance virtio_ops : BlockOps virtio_disk := {
  blk_ready d := virtio_blk_is_ready (`d);
  blk_read d k :=
    (if fst (run_transfer 0 3 k (`d)) then Some (bytes_of (v_mem (snd (run_transfer 0 3 k (`d)))) buf 512) else None,
     exist _ (snd (run_transfer 0 3 k (`d))) (read_ready k d));
  blk_write d k bs :=
    (fst (run_transfer 1 1 k (with_buffer bs (`d))),
     exist _ (snd (run_transfer 1 1 k (with_buffer bs (`d)))) (write_ready bs k d))
}.

Lemma bytes_of_put m bs : length bs = 512%nat -> Forall is_u8 bs -> bytes_of (mem_put m buf bs) buf 512 = bs.
Proof.
  intros Hl Hb. apply list_eq. intros i. unfold bytes_of. rewrite list_lookup_fmap.
  destruct (decide (i < 512)%nat) as [Hi|Hi].
  - rewrite lookup_seq_lt by done. simpl. unfold ld8, mem_put. rewrite Hl.
    rewrite (proj2 (in_range_true _ _ _)) by lia.
    replace (Z.to_nat (buf + Z.of_nat i - buf)) with i by lia.
    destruct (lookup_lt_is_Some_2 bs i) as [x Hx]; [lia|]. rewrite (nth_lookup_Some _ _ _ _ Hx), Hx. f_equal.
    apply u8_small. by apply (Forall_lookup_1 _ _ _ _ Hb Hx).
  - rewrite !lookup_ge_None_2; rewrite ?length_seq; try done; lia.
Qed.

Definition virtio_count (d : virtio_disk) : Z := Z.min (vd_sectors (v_disk (`d))) (2 ^ 64).

(** A transfer of a sector of the disk. *)
Lemma transferred type flags k s :
  vready s -> buf_ok s buf -> type = 0 /\ flags = 3 \/ type = 1 /\ flags = 1 ->
  0 <= k < Z.min (vd_sectors (v_disk s)) (2 ^ 64) ->
  let s' := snd (run_transfer type flags k s) in
  fst (run_transfer type flags k s) = true /\ vready s' /\ vd_sectors (v_disk s') = vd_sectors (v_disk s) /\
  (type = 0 -> bytes_of (v_mem s') buf 512 = vd_data (v_disk s) k) /\
  forall j, vd_data (v_disk s') j =
    if (type =? 1) && (j =? k) then bytes_of (v_mem s) buf 512 else vd_data (v_disk s) j.
Proof.
  intros Hr Hb Ht Hk. pose proof (run_transfer_ok type flags k s Hr Hb Ht) as H'.
  destruct (run_transfer type flags k s) as [ok s']. simpl. destruct H' as (Hr' & _ & Hs & Hok & Hrd & Hd).
  rewrite u64_small in Hok, Hrd, Hd by (unfold is_u64; lia).
  assert (ok = true) as -> by (rewrite Hok; apply andb_true_iff; split; lia).
  split_and!; try done. intros Ht0. by apply Hrd.
Qed.

#[local] Instance virtio_laws : BlockLaws virtio_disk.
Proof.
  refine (Build_BlockLaws _ _ virtio_count (fun d => vd_data (v_disk (`d))) _ _ _ _); unfold virtio_count.
  - intros d k. apply vd_data_len.
  - intros d k. apply vd_data_bytes.
  - intros [s [Hr Hb]] k Hi Hk. simpl in *.
    destruct (transferred 0 3 k s Hr Hb ltac:(lia) Hk) as (Hf & Hr' & Hs & Hrd & Hd).
    eexists. split; [rewrite Hf, Hrd by done; reflexivity|]. simpl.
    split; [by apply Hr'|]. split; [by rewrite Hs|]. intros j. by rewrite Hd.
  - intros [s [Hr Hb]] k bs Hi Hk Hl Hby. simpl in *. destruct (with_buffer_ok bs s Hr Hb) as [Hr1 Hb1].
    destruct (transferred 1 1 k _ Hr1 Hb1 ltac:(lia) Hk) as (Hf & Hr' & Hs & Hrd & Hd).
    eexists. split; [rewrite Hf; reflexivity|]. simpl.
    split; [by apply Hr'|]. split; [by rewrite Hs|]. intros j. rewrite Hd. simpl.
    case_b; [|done]. change (v_mem (with_buffer bs s)) with (mem_put (v_mem s) buf (take 512 bs)).
    rewrite take_ge by lia. by apply bytes_of_put.
Defined.
End disk.
End ready.

(** ** A simulated device *)

Record sim_disk := mk_sim { sim_base : Z; sim_qsz : Z; sim_ram : ram_disk }.

(** One pending chain is served in one step. *)
Definition sim_step (h : io_hist) (d : sim_disk) (m : mem) : sim_disk * mem :=
  match last_out h (sim_base d + 8) with
  | None => (d, m)
  | Some pfn =>
      let q := 4096 * pfn in
      let av := q + 16 * sim_qsz d in
      let us := q + used_offset (sim_qsz d) in
      if ld16 m (av + 2) =? ld16 m (us + 2) then (d, m)
      else
        let idx := u16 (ld16 m (av + 2) - 1) in
        let d0 := q + 16 * ld16 m (av + 4 + 2 * (idx mod sim_qsz d)) in
        let hdr := ld64 m d0 in
        let d1 := q + 16 * ld16 m (d0 + 14) in
        let d2 := q + 16 * ld16 m (d1 + 14) in
        let '(type, sector, buf, st) := (ld32 m hdr, ld64 m (hdr + 8), ld64 m d1, ld64 m d2) in
        let ok := (0 <=? sector) && (sector <? ram_count (sim_ram d)) in
        let ram := if ok && (type =? 1)
                   then mk_ram (<[Z.to_nat sector := bytes_of m buf 512]> (ram_sectors (sim_ram d))) else sim_ram d in
        let m' := if ok && (type =? 0) then mem_put m buf (ram_data (sim_ram d) sector) else m in
        (mk_sim (sim_base d) (sim_qsz d) ram,
         stn 2 (st8 m' st (if ok then 0 else 1)) (us + 2) (u16 (ld16 m (us + 2) + 1)))
  end.

#[export] Instance sim_device : VirtioDevice sim_disk := { vd_step := sim_step }.

Lemma ram_data_bytes d k : Forall is_u8 (ram_data d k).
Proof. apply pad_bytes. Qed.
Lemma ram_data_len d k : length (ram_data d k) = 512%nat.
Proof. apply pad_length. Qed.

Lemma ld8_put m a bs x : a <= x < a + Z.of_nat (length bs) -> ld8 (mem_put m a bs) x = u8 (nth (Z.to_nat (x - a)) bs 0).
Proof. intros. unfold ld8, mem_put. by rewrite (proj2 (in_range_true _ _ _)) by lia. Qed.

Lemma ld8_put_other m a bs x : x < a \/ a + Z.of_nat (length bs) <= x -> ld8 (mem_put m a bs) x = ld8 m x.
Proof. intros. unfold ld8, mem_put. by rewrite (proj2 (in_range_false _ _ _)) by lia. Qed.

Lemma bytes_of_length m a n : length (bytes_of m a n) = n.
Proof. unfold bytes_of. by rewrite length_fmap, length_seq. Qed.

Lemma bytes_of_bytes m a n : Forall is_u8 (bytes_of m a n).
Proof. unfold bytes_of. apply Forall_fmap, Forall_true. intros i. exact (ld8_range m (a + Z.of_nat i)). Qed.

(** The stores that complete a request. *)
Lemma complete_other m st v us w x :
  x <> st -> (x < us \/ us + 2 <= x) -> ld8 (stn 2 (st8 m st v) us w) x = ld8 m x.
Proof.
  intros. rewrite ld8_stn, (proj2 (in_range_false _ _ _)) by lia. rewrite ld8_st8.
  by rewrite (proj2 (Z.eqb_neq _ _)) by lia.
Qed.

Lemma ram_write_data r k bs j :
  0 <= k < ram_count r -> length bs = 512%nat -> Forall is_u8 bs ->
  ram_data (mk_ram (<[Z.to_nat k := bs]> (ram_sectors r))) j = if j =? k then bs else ram_data r j.
Proof.
  intros Hk Hl Hb. unfold ram_data, ram_count in *. simpl. destruct (Z.eqb_spec j k) as [->|Hj].
  - rewrite (proj2 (Z.ltb_ge _ _)) by lia. rewrite list_lookup_insert_eq by lia. simpl. by apply pad_full.
  - destruct (Z.ltb_spec j 0); [done|]. by rewrite list_lookup_insert_ne by lia.
Qed.

#[export] Instance sim_laws : VirtioLaws sim_disk.
Proof.
  refine {| vd_sectors := fun d => ram_count (sim_ram d); vd_data := fun d => ram_data (sim_ram d);
            vd_base := sim_base; vd_qsize := sim_qsz; vd_latency := 1 |}.
  - intros d k. apply pad_length.
  - intros d k. apply pad_bytes.
  - intros pfn h d m type sector buf flags st base q us Hqz Hpfn Hreq Htf Hidx Hsb Hub Hsu. fold base in Hpfn.
    destruct Hreq as (d0 & d1 & d2 & hdr & Hd0 & Hh & _ & _ & Hty & Hse & Hd1 & Hbu & _ & _ & Hd2 & Hst & _).
    fold q in Hd0, Hd1, Hd2. 
    set (ok := (0 <=? sector) && (sector <? ram_count (sim_ram d))).
    set (m1 := if ok && (type =? 0) then mem_put m buf (ram_data (sim_ram d) sector) else m).
    set (m' := stn 2 (st8 m1 st (if ok then 0 else 1)) (us + 2) (u16 (ld16 m (us + 2) + 1))).
    set (ram := if ok && (type =? 1) then mk_ram (<[Z.to_nat sector := bytes_of m buf 512]> (ram_sectors (sim_ram d))) else sim_ram d).
    assert (Hu : 0 <= ld16 m (us + 2) < 65536) by exact (ldn_range 2 m (us + 2)).
    assert (Hstep : vd_steps 1 (EvOut (base + 16) 0 :: h) d m = (mk_sim (sim_base d) (sim_qsz d) ram, m')).
    { simpl. unfold sim_step. simpl. rewrite (proj2 (Z.eqb_neq (base + 16) _)) by (unfold base; lia).
      change (sim_base d) with base. rewrite Hpfn. fold q us.
      assert (Hne : (ld16 m (q + 16 * sim_qsz d + 2) =? ld16 m (us + 2)) = false).
      { apply Z.eqb_neq. rewrite Hidx. unfold u16. Z.div_mod_to_equations. lia. }
      rewrite Hne, <- Hd0, <- Hd1, <- Hd2, Hh, Hty, Hse, Hbu, Hst. reflexivity. }
    exists 1%nat, (mk_sim (sim_base d) (sim_qsz d) ram), m'.
    split; [lia|]. split; [exact Hstep|]. split; [intros [|k] Hk; [done|lia]|].
    assert (H1 : forall x, (type = 0 -> x < buf \/ buf + 512 <= x) -> ld8 m1 x = ld8 m x).
    { intros x Hx. subst m1. destruct (Z.eqb_spec type 0); [|by rewrite andb_false_r].
      destruct ok; [|done]. apply ld8_put_other. rewrite ram_data_len. specialize (Hx ltac:(done)). lia. }
    split; [subst m'; rewrite ldn_stn_same; apply Zmod_mod|].
    split; [intros x Hx1 Hx2 Hx3; subst m'; rewrite complete_other by (simpl in *; lia); by apply H1|].
    assert (Hr : ram_count ram = ram_count (sim_ram d)).
    { subst ram. case_b; [|done]. unfold ram_count. simpl. by rewrite length_insert. }
    split; [exact Hr|]. split; [done|]. split; [done|].
    assert (Hs8 : ld8 m' st = if ok then 0 else 1).
    { subst m'. rewrite ld8_stn, (proj2 (in_range_false _ _ _)) by lia. rewrite ld8_st8, Z.eqb_refl. by destruct ok. }
    fold ok. destruct ok eqn:Hok.
    + apply andb_true_iff in Hok as [Hok1%Z.leb_le Hok2%Z.ltb_lt]. split; [done|]. split.
      * intros ->. transitivity (bytes_of m1 buf 512).
        { apply bytes_of_ext. intros x Hx. subst m'. rewrite complete_other by (simpl in *; lia). done. }
        apply bytes_of_put; [apply ram_data_len|apply ram_data_bytes].
      * intros j. simpl. subst ram. destruct (Z.eqb_spec type 1); simpl; [|done].
        apply ram_write_data; [done|apply bytes_of_length|apply bytes_of_bytes].
    + split; [done|]. done.
Defined.

(** ** The theorems *)

Section theorems.
Context {A : Type} `{PageLaws A} {V : Type} `{VirtioLaws V}.
Context (dev : device) (g_dev_addr : Z).

(** C11: With the device at its side of the protocol, reading a sector of the
    disk returns success with the sector in the caller's buffer, and writing
    one stores the buffer there and nowhere else; a sector past the end is
    reported as an error and changes nothing.  Memory other than the queue,
    the driver's structure and the read buffer is untouched, the wait loop
    ends, and the driver is idle again for the next request. *)
Theorem virtio_blk_transfer_correct (s : vstate (A:=A) (V:=V)) (fuel : nat) (sector buf : Z) :
  vready g_dev_addr s -> buf_ok g_dev_addr s buf -> (vd_latency <= fuel)%nat -> 0 <= sector < 2 ^ 64 ->
  let inside := sector <? vd_sectors (v_disk s) in
  (exists s', virtio_blk_read_sector g_dev_addr fuel sector buf s = Some (inside, s') /\ vready g_dev_addr s' /\
     (inside = true -> bytes_of (v_mem s') buf 512 = vd_data (v_disk s) sector) /\
     (forall j, vd_data (v_disk s') j = vd_data (v_disk s) j) /\
     forall x, foreign g_dev_addr s x -> x < buf \/ buf + 512 <= x -> ld8 (v_mem s') x = ld8 (v_mem s) x) /\
  (exists s', virtio_blk_write_sector g_dev_addr fuel sector buf s = Some (inside, s') /\ vready g_dev_addr s' /\
     (forall j, vd_data (v_disk s') j =
        if inside && (j =? sector) then bytes_of (v_mem s) buf 512 else vd_data (v_disk s) j) /\
     forall x, foreign g_dev_addr s x -> ld8 (v_mem s') x = ld8 (v_mem s) x).
Proof.
  intros Hr Hb Hf Hs inside.
  assert (Hin : (0 <=? sector) && (sector <? vd_sectors (v_disk s)) = inside).
  { rewrite (proj2 (Z.leb_le _ _)) by lia. done. }
  split.
  - destruct (transfer_ok g_dev_addr s fuel 0 3 sector buf Hr Hb Hf Hs ltac:(lia))
      as (ok & s' & E & Hr' & _ & _ & Hok & Hfr & Hrd & Hd). rewrite Hin in Hok. subst ok.
    exists s'. split; [exact E|]. split; [done|]. split; [by intros; apply Hrd|]. split.
    + intros j. rewrite Hd. by rewrite andb_false_r.
    + intros x Hx Hxb. by apply Hfr.
  - destruct (transfer_ok g_dev_addr s fuel 1 1 sector buf Hr Hb Hf Hs ltac:(lia))
      as (ok & s' & E & Hr' & _ & _ & Hok & Hfr & _ & Hd). rewrite Hin in Hok. subst ok.
    exists s'. split; [exact E|]. split; [done|]. split; [exact Hd|]. intros x Hx. apply Hfr; [done|lia].
Qed.

(** When initialisation reports success, the queue it set up is in pages
    of its own, zeroed, and at the address the device was told, so the driver
    is ready for its first request and the disk is as it was. *)
Theorem virtio_init_ready (bus slot func : Z) (s s' : vstate (A:=A) (V:=V)) :
  virtio_blk_try_init_legacy dev g_dev_addr bus slot func s = (true, s') ->
  let base := io_base (g_dev s') in
  base = vd_base (v_disk s) -> 0 <= base < 65000 ->
  (forall h, dev h (base + 12) = vd_qsize (v_disk s)) -> 3 <= vd_qsize (v_disk s) < 65536 ->
  pa_wf (m_pages (v_mac s)) -> kept g_dev_addr (m_pages (v_mac s)) -> 0 <= g_dev_addr < 2 ^ 63 ->
  vready g_dev_addr s' /\ v_disk s' = v_disk s.
Proof. intros E base. exact (try_init_ready dev g_dev_addr bus slot func s s' E). Qed.

(** C12: The disk node on the real driver: writing any byte range inside the
    disk through devfs and virtio replaces exactly those bytes, and reading
    the range back returns them, wherever it starts and ends in its sectors. *)
Theorem virtio_devfs_roundtrip (stack_buf : Z) (d : virtio_disk (A:=A) (V:=V) g_dev_addr stack_buf)
    (stack : list Z) (offset buf : Z) (bytes : list Z) :
  let len := Z.of_nat (length bytes) in
  let ops := virtio_ops (A:=A) (V:=V) g_dev_addr stack_buf in
  buf <> 0 -> 0 <= offset -> offset + len < 2 ^ 64 -> offset + len <= 512 * vd_sectors (v_disk (`d)) ->
  length stack = 512%nat -> Forall is_u8 stack -> Forall is_u8 bytes ->
  exists d', dev_disk_write d stack offset buf bytes = Some (len, d') /\
    (forall i, 0 <= i -> disk_byte (vd_data (v_disk (`d'))) i =
       if in_range offset len i then nth (Z.to_nat (i - offset)) bytes 0 else disk_byte (vd_data (v_disk (`d))) i) /\
    exists d'', dev_disk_read d' offset buf len = Some (len, bytes, d'').
Proof.
  intros len ops Hb Ho Hm Hc Hl Hs Hby.
  apply (dev_disk_write_correct (H0 := virtio_laws g_dev_addr stack_buf)); try done.
  - exact (vr_init _ _ (proj1 (proj2_sig d))).
  - simpl. unfold virtio_count. lia.
Qed.
End theorems.

(** ** A machine with one such disk *)

Definition sim_ports : device := fun h port =>
  if port =? 49164 then 4
  else if port =? PCI_CONFIG_DATA then
    match h with
    | EvOut _ a :: _ => if a mod 256 =? 0 then 268507892 else if a mod 256 =? 16 then 49153 else 0
    | _ => 0
    end
  else 0.

Definition sim_boot : vstate (A:=pmm) (V:=sim_disk) :=
  mk_vstate vblk_zero false (mk_mach (fun _ => 0) demo_pmm) [] (mk_sim 49152 4 (mk_ram (replicate 4 (replicate 512 7)))) [].

(** The state after initialisation, kept opaque. *)
Lemma sim_starts : { s : vstate (A:=pmm) (V:=sim_disk) |
  virtio_blk_try_init_legacy sim_ports 100 0 3 0 sim_boot = (true, s) /\
  io_base (g_dev s) = 49152 /\ desc (g_dev s) = 16384 /\ queue_bytes (queue_num (g_dev s)) = 8192 }.
Proof.
  destruct (virtio_blk_try_init_legacy sim_ports 100 0 3 0 sim_boot) as [ok s] eqn:E. exists s.
  assert (Hok : ok = true /\ io_base (g_dev s) = 49152 /\ desc (g_dev s) = 16384 /\
                queue_bytes (queue_num (g_dev s)) = 8192).
  { replace ok with (fst (virtio_blk_try_init_legacy sim_ports 100 0 3 0 sim_boot)) by (rewrite E; reflexivity).
    replace s with (snd (virtio_blk_try_init_legacy sim_ports 100 0 3 0 sim_boot)) by (rewrite E; reflexivity).
    vm_compute. repeat split. }
  destruct Hok as (-> & Hok). exact (conj eq_refl Hok).
Qed.
Definition sim_up : vstate (A:=pmm) (V:=sim_disk) := proj1_sig sim_starts.
Definition sim_init_eq : virtio_blk_try_init_legacy sim_ports 100 0 3 0 sim_boot = (true, sim_up) :=
  proj1 (proj2_sig sim_starts).
Definition sim_up_base : io_base (g_dev sim_up) = 49152 := proj1 (proj2 (proj2_sig sim_starts)).
Definition sim_up_desc : desc (g_dev sim_up) = 16384 := proj1 (proj2 (proj2 (proj2_sig sim_starts))).
Definition sim_up_size : queue_bytes (queue_num (g_dev sim_up)) = 8192 := proj2 (proj2 (proj2 (proj2_sig sim_starts))).

Lemma sim_ports_size h : sim_ports h (49152 + 12) = 4.
Proof. reflexivity. Qed.

Lemma sim_kept : kept 100 demo_pmm.
Proof.
  intros i Hi1 Hi2. assert (i = 0) as -> by lia. reflexivity.
Qed.

Lemma virtio_init_ready_witness : vready 100 sim_up.
Proof.
  apply (virtio_init_ready sim_ports 100 0 3 0 sim_boot sim_up sim_init_eq).
  - exact sim_up_base.
  - rewrite sim_up_base. lia.
  - rewrite sim_up_base. exact sim_ports_size.
  - simpl. lia.
  - exact (conj demo_pmm_inv (conj eq_refl eq_refl)).
  - exact sim_kept.
  - lia.
Defined.

Lemma sim_up_ready : vready 100 sim_up /\ v_disk sim_up = v_disk sim_boot.
Proof.
  apply (try_init_ready sim_ports 100 0 3 0 sim_boot sim_up sim_init_eq); rewrite ?sim_up_base;
    [reflexivity|lia|exact sim_ports_size|simpl; lia|exact (conj demo_pmm_inv (conj eq_refl eq_refl))|exact sim_kept|lia].
Qed.

Lemma sim_buf_ok : buf_ok 100 sim_up 30000.
Proof. unfold buf_ok, apart. rewrite sim_up_desc, sim_up_size. lia. Qed.

Lemma virtio_blk_transfer_correct_witness :
  exists s', virtio_blk_read_sector 100 5 2 30000 sim_up = Some (true, s') /\
    bytes_of (v_mem s') 30000 512 = replicate 512 7.
Proof.
  destruct (virtio_blk_transfer_correct 100 sim_up 5 2 30000 (proj1 sim_up_ready) sim_buf_ok) as [(s' & E & _ & Hd & _) _];
    [simpl; lia|lia|].
  rewrite (proj2 sim_up_ready) in E, Hd. exists s'. split; [exact E|]. rewrite (Hd eq_refl). vm_compute. reflexivity.
Defined.

Lemma virtio_devfs_roundtrip_witness :
  exists d' d'', dev_disk_write (H := virtio_ops 100 30000) (exist _ sim_up (conj (proj1 sim_up_ready) sim_buf_ok))
      (replicate 512 0) 510 1 [1; 2; 3; 4] = Some (4, d') /\
    dev_disk_read (H := virtio_ops 100 30000) d' 510 1 4 = Some (4, [1; 2; 3; 4], d'').
Proof.
  destruct (virtio_devfs_roundtrip 100 30000 (exist _ sim_up (conj (proj1 sim_up_ready) sim_buf_ok))
              (replicate 512 0) 510 1 [1; 2; 3; 4]) as (d' & E & _ & d'' & E').
  - lia.
  - lia.
  - cbn. lia.
  - cbn [proj1_sig]. rewrite (proj2 sim_up_ready). vm_compute. discriminate.
  - apply length_replicate.
  - apply Forall_replicate. unfold is_u8. lia.
  - repeat (apply Forall_cons; split; [unfold is_u8; lia|]). by apply Forall_nil.
  - exists d', d''. split; [exact E|exact E'].
Defined.
