(* ===== verification/Syscall.v ===== *)
(** * System calls (src/syscall.c)

    The state of the whole kernel as a system call sees it: scheduler,
    memory and file system ([sched]), the kernel heap's two list pointers,
    sockets, input queues, clocks, the disk and the console.  The console
    is the sequence of characters put and scroll commands given.

    A handler gets the address of the saved register frame and returns the
    frame to resume; arguments are read from it and the result goes to its
    rax.  User pointers are dereferenced through the page tables of the
    active address space.  The outer [option] is [None] when the kernel
    stops for good (a fault inside the handler halts it), when a loop has no
    fuel left, or when the handler is still waiting for keys. *)

From stdpp Require Import prelude list gmap.
From Stdlib Require Import ZArith Lia String Ascii.
From S2P Require Import Prelude Lib Alloc Pmm Vmm Kmalloc Ring Net Io Input Time Vfs Sched Elf Devfs Tarfs Console.
#[local] Open Scope Z_scope.
#[local] Open Scope cint_scope.

Definition SYS_write : Z := 1.
Definition SYS_exit : Z := 2.
Definition SYS_yield : Z := 3.
Definition SYS_brk : Z := 4.
Definition SYS_fork : Z := 5.
Definition SYS_execve : Z := 6.
Definition SYS_waitpid : Z := 7.
Definition SYS_gettimeofday : Z := 8.
Definition SYS_sleep : Z := 9.
Definition SYS_socket : Z := 10.
Definition SYS_bind : Z := 11.
Definition SYS_sendto : Z := 12.
Definition SYS_recvfrom : Z := 13.
Definition SYS_connect : Z := 14.
Definition SYS_listen : Z := 15.
Definition SYS_accept : Z := 16.
Definition SYS_close : Z := 17.
Definition SYS_open : Z := 18.
Definition SYS_read : Z := 19.
Definition SYS_lseek : Z := 20.
Definition SYS_getpid : Z := 21.
Definition SYS_uname : Z := 22.
Definition SYS_sysinfo : Z := 23.
Definition SYS_mmap : Z := 24.
Definition SYS_kill : Z := 25.
Definition SYS_readdir : Z := 26.
Definition SYS_netif_get : Z := 27.
Definition SYS_netif_set : Z := 28.
Definition SYS_route_get : Z := 29.
Definition SYS_route_add : Z := 30.
Definition SYS_net_socket_get : Z := 31.
Definition SYS_SEEK_SET : Z := 0.
Definition SYS_SEEK_CUR : Z := 1.
Definition SYS_SEEK_END : Z := 2.

(** ** Open files of a thread *)

(** The result -1 leaves the thread as it was. *)
Definition vfs_fd_allocate (t : thread) (file : Z) : Z * thread :=
  if file =? 0 then (-1, t)
  else
    match list_find (fun p => p = 0) (t_open_files t) with
    | Some (i, _) =>
        (Z.of_nat i + 3, t_set_open_file_count (t_open_file_count t + 1)
                           (t_set_open_files (<[i := file]> (t_open_files t)) t))
    | None => (-1, t)
    end.

Definition vfs_fd_get (t : option thread) (fd : Z) : Z :=
  match t with
  | None => 0
  | Some t =>
      if fd <? 3 then 0
      else
        let idx := fd - 3 in
        if THREAD_MAX_OPEN_FILES <=? idx then 0 else nth (Z.to_nat idx) (t_open_files t) 0
  end.

Definition vfs_fd_close (f : fs) (t : option thread) (fd : Z) : Z * fs * option thread :=
  match t with
  | None => (-1, f, t)
  | Some th =>
      if fd <? 3 then (-1, f, t)
      else
        let idx := fd - 3 in
        if (THREAD_MAX_OPEN_FILES <=? idx) || (nth (Z.to_nat idx) (t_open_files th) 0 =? 0) then (-1, f, t)
        else
          let f := vfs_close f (nth (Z.to_nat idx) (t_open_files th) 0) in
          let th := t_set_open_files (<[Z.to_nat idx := 0]> (t_open_files th)) th in
          let th := if 0 <? t_open_file_count th
                    then t_set_open_file_count (t_open_file_count th - 1) th else th in
          (0, f, Some th)
  end.

(** ** Anonymous mappings *)

Definition mmap_default_base (brk_end : Z) : Z := align_up_u64 brk_end PAGE_SIZE +% 16777216.

Section mmap.
Context {A : Type} `{PageOps A}.

Definition mmap_flags (prot : Z) : Z :=
  let flags := Z.lor VMM_FLAG_PRESENT VMM_FLAG_USER in
  let flags := if negb (Z.land prot 2 =? 0) then Z.lor flags VMM_FLAG_WRITABLE else flags in
  if Z.land prot 4 =? 0 then Z.lor flags VMM_FLAG_NOEXEC else flags.

(** The mapping loop; [inr] is left by [break] with the rounds done. *)
Definition mmap_grow (s : mach A) (cr3 base size flags : Z) : mach A + Z * mach A :=
  for_range_exit 0 (va_steps 0 size) (fun i s =>
    let mapped := i * PAGE_SIZE in
    let '(pa, s) := alloc_zero_page s in
    if pa =? 0 then inr (mapped, s)
    else
      match vmm_map_page s cr3 (base +% mapped) pa flags with
      | (true, s) => inl s
      | (false, s) => inr (mapped, pmm_free s pa 1)
      end) s.

Definition mmap_undo (s : mach A) (cr3 base mapped : Z) : mach A :=
  for_range 0 (va_steps 0 mapped) (fun i s =>
    let '(pa, s) := vmm_unmap_page s cr3 (base +% i * PAGE_SIZE) in
    if pa =? 0 then s else pmm_free s pa 1) s.

Definition mmap_map_anonymous (s : mach A) (t : option thread) (addr len prot : Z)
    : Z * mach A * option thread :=
  match t with
  | None => (u64 (-1), s, t)
  | Some th =>
      if negb (t_is_user th) || (len =? 0) then (u64 (-1), s, t)
      else
        let size := align_up_u64 len PAGE_SIZE in
        let base := if negb (addr =? 0) then align_down_u64 addr PAGE_SIZE
                    else align_up_u64 (t_mmap_base th) PAGE_SIZE in
        match mmap_grow s (t_cr3 th) base size (mmap_flags prot) with
        | inr (mapped, s) => (u64 (-1), mmap_undo s (t_cr3 th) base mapped, t)
        | inl s =>
            (base, s, Some (if addr =? 0 then t_set_mmap_base (base +% size) th else th))
        end
  end.
End mmap.

(** ** Keys *)

Definition keymap : list Z :=
  [0; 27; 49; 50; 51; 52; 53; 54; 55; 56; 57; 48; 45; 61; 8; 9;
   113; 119; 101; 114; 116; 121; 117; 105; 111; 112; 91; 93; 10; 0; 97; 115;
   100; 102; 103; 104; 106; 107; 108; 59; 39; 96; 0; 92; 122; 120; 99; 118;
   98; 110; 109; 44; 46; 47; 0; 42; 0; 32; 0; 0; 0; 0; 0; 0;
   0; 0; 0; 0; 0; 0; 0; 55; 56; 57; 45; 52; 53; 54; 43; 49; 50;
   51; 48; 46].

Definition keymap_shift : list Z :=
  [0; 27; 33; 64; 35; 36; 37; 94; 38; 42; 40; 41; 95; 43; 8; 9;
   81; 87; 69; 82; 84; 89; 85; 73; 79; 80; 123; 125; 10; 0; 65; 83;
   68; 70; 71; 72; 74; 75; 76; 58; 34; 126; 0; 124; 90; 88; 67; 86;
   66; 78; 77; 60; 62; 63; 0; 42; 0; 32; 0; 0; 0; 0; 0; 0;
   0; 0; 0; 0; 0; 0; 0; 55; 56; 57; 45; 52; 53; 54; 43; 49; 50;
   51; 48; 46].

(** The slots of the arrays after the last initialiser are zero. *)
Definition scancode_to_char (scancode : Z) (shift : bool) : Z :=
  if 128 <=? scancode then 0
  else nth (Z.to_nat scancode) (if shift then keymap_shift else keymap) 0.

(** ** The system state

    [y_out] logs the calls made to the console in their order; [con_run] of
    Console.v plays them. *)

Section syscall_def.
Context {B : Type} `{BlockOps B}.

Record sys := mk_sys {
  y_sched : sched pmm;
  y_heap : Z;
  y_last : Z;
  y_net : net;
  y_input : input_state;
  y_pit : pit;
  y_clock : clock;
  y_disk : B;
  y_tar : gmap Z tarfs_file;
  y_out : list con_event
}.

Definition y_set_sched (s : sched pmm) (y : sys) : sys :=
  mk_sys s (y_heap y) (y_last y) (y_net y) (y_input y) (y_pit y) (y_clock y) (y_disk y) (y_tar y) (y_out y).
Definition y_set_heap (h l : Z) (y : sys) : sys :=
  mk_sys (y_sched y) h l (y_net y) (y_input y) (y_pit y) (y_clock y) (y_disk y) (y_tar y) (y_out y).
Definition y_set_net (g : net) (y : sys) : sys :=
  mk_sys (y_sched y) (y_heap y) (y_last y) g (y_input y) (y_pit y) (y_clock y) (y_disk y) (y_tar y) (y_out y).
Definition y_set_input (i : input_state) (y : sys) : sys :=
  mk_sys (y_sched y) (y_heap y) (y_last y) (y_net y) i (y_pit y) (y_clock y) (y_disk y) (y_tar y) (y_out y).
Definition y_set_disk (d : B) (y : sys) : sys :=
  mk_sys (y_sched y) (y_heap y) (y_last y) (y_net y) (y_input y) (y_pit y) (y_clock y) d (y_tar y) (y_out y).
Definition y_log (evs : list con_event) (y : sys) : sys :=
  mk_sys (y_sched y) (y_heap y) (y_last y) (y_net y) (y_input y) (y_pit y) (y_clock y) (y_disk y) (y_tar y)
    (y_out y ++ evs).

Definition console_puts (cs : list Z) (y : sys) : sys := y_log (ConPutc <$> cs) y.

Definition y_mem (y : sys) : mem := s_mem (y_sched y).
Definition y_set_mem (m : mem) (y : sys) : sys := y_set_sched (s_set_mem m (y_sched y)) y.
Definition y_mach (y : sys) : mach pmm := v_mach (s_vmm (y_sched y)).
Definition y_vmm (y : sys) : vmm pmm := s_vmm (y_sched y).
Definition y_set_vmm (v : vmm pmm) (y : sys) : sys := y_set_sched (s_set_s_vmm v (y_sched y)) y.
Definition y_set_mach (s : mach pmm) (y : sys) : sys := y_set_vmm (set_mach (y_vmm y) s) y.
Definition y_fs (y : sys) : fs := s_fs (y_sched y).
Definition y_set_fs (f : fs) (y : sys) : sys := y_set_sched (s_set_s_fs f (y_sched y)) y.
Definition y_upd (i : nat) (t : thread) (y : sys) : sys := y_set_sched (upd i (fun _ => t) (y_sched y)) y.

(** ** Registers of the saved frame *)

Definition f_r10 (frame : Z) : Z := frame + 40.
Definition f_rsi (frame : Z) : Z := frame + 64.
Definition f_rdi (frame : Z) : Z := frame + 72.
Definition f_rdx (frame : Z) : Z := frame + 88.
Definition f_rip (frame : Z) : Z := frame + 136.
Definition f_cs (frame : Z) : Z := frame + 144.
Definition f_rsp (frame : Z) : Z := frame + 160.

Definition reg (y : sys) (a : Z) : Z := ld64 (y_mem y) a.
Definition set_reg (a v : Z) (y : sys) : sys := y_set_mem (st64 (y_mem y) a (u64 v)) y.

(** [frame->rax = v; return frame;] *)
Definition ret (frame v : Z) (y : sys) : option (Z * sys) :=
  Some (frame, y_set_sched (set_rax frame v (y_sched y)) y).

(** ** User memory *)

(** The physical address behind an address of the active space. *)
Definition user_pa (y : sys) (va : Z) : option Z :=
  fst <$> vmm_resolve (y_mach y) (cpu_cr3 (y_vmm y)) va.

(** What loads see, zero where they would fault; [user_ok] tells whether
    a range is free of faults. *)
Definition user_mem (y : sys) : mem :=
  fun va => match user_pa y va with Some pa => ld8 (y_mem y) pa | None => 0 end.
Definition user_ok (y : sys) (va n : Z) : bool :=
  forallb (fun k => bool_decide (is_Some (user_pa y (va +% Z.of_nat k)))) (seq 0 (Z.to_nat n)).
Definition user_bytes (y : sys) (va n : Z) : list Z :=
  (fun k => user_mem y (va +% Z.of_nat k)) <$> seq 0 (Z.to_nat n).
Definition user_get (y : sys) (va n : Z) : option (list Z) :=
  if user_ok y va n then Some (user_bytes y va n) else None.

Fixpoint user_put (va : Z) (bytes : list Z) (y : sys) : option sys :=
  match bytes with
  | [] => Some y
  | b :: bytes' =>
      pa ← user_pa y va;
      user_put (va +% 1) bytes' (y_set_mem (st8 (y_mem y) pa b) y)
  end.

(** A C string. *)
Fixpoint user_str (fuel : nat) (y : sys) (va : Z) : option (list Z) :=
  match fuel with
  | O => None
  | S fuel' =>
      pa ← user_pa y va;
      let c := ld8 (y_mem y) pa in
      if c =? 0 then Some [] else s ← user_str fuel' y (va +% 1); Some (c :: s)
  end.

(** Little-endian bytes of an [n]-byte field. *)
Definition le (n : nat) (v : Z) : list Z := (fun k => (v / 256 ^ Z.of_nat k) mod 256) <$> seq 0 n.
Definition user_ld (n : nat) (y : sys) (va : Z) : Z :=
  fold_right (fun b v => b + 256 * v) 0 (user_bytes y va (Z.of_nat n)).

(** ** Files *)

(** Which allocations of file objects fail, the contents of fresh memory,
    the unused bytes on the stack, and fuel for strings and for the kernel
    heap's block list. *)
Context (oom : Z -> bool) (junk : Z -> Z -> Z) (stack : list Z) (fuel : nat).

Definition key_bytes (e : key_event) : list Z := [ke_scancode e; ke_pressed e].
Definition mouse_bytes (e : mouse_event) : list Z := [u8 (me_dx e); u8 (me_dy e); u8 (me_wheel e); me_buttons e].

(** The functions behind the operation tables of src/tarfs.c and
    src/devfs.c, on the devices of [y]. *)
Definition dev_read (y : sys) (o : node_ops) (f : fs) (node offset buf len : Z) : option (Z * list Z) :=
  match o with
  | OpsTarFile => tarfs_read (y_mem y) f (y_tar y) node offset buf len
  | OpsDisk => '(n, bytes, _) ← dev_disk_read (y_disk y) offset buf len; Some (n, bytes)
  | OpsKbd => let '(n, evs, _) := dev_kbd_read (y_input y) buf len in Some (n, evs ≫= key_bytes)
  | OpsMouse => let '(n, evs, _) := dev_mouse_read (y_input y) buf len in Some (n, evs ≫= mouse_bytes)
  | _ => None
  end.

Definition dev_write (y : sys) (o : node_ops) (f : fs) (node offset buf : Z) (bytes : list Z) : option (Z * fs) :=
  match o with
  | OpsTarFile => Some (tarfs_write, f)
  | OpsDisk => '(n, _) ← dev_disk_write (y_disk y) stack offset buf bytes; Some (n, f)
  | _ => None
  end.

(** The device behind an open file, and what a read or write of it does to
    the devices. *)
Definition file_dev (f : fs) (file : Z) : option (node_ops * Z) :=
  fl ← fs_files f !! file;
  nd ← fs_nodes f !! vf_node fl;
  Some (vn_ops nd, vf_offset fl).

Definition dev_after_read (file buf len : Z) (y : sys) : sys :=
  match file_dev (y_fs y) file with
  | Some (OpsDisk, offset) =>
      match dev_disk_read (y_disk y) offset buf len with
      | Some (_, _, d) => y_set_disk d y
      | None => y
      end
  | Some (OpsKbd, _) => y_set_input (snd (dev_kbd_read (y_input y) buf len)) y
  | Some (OpsMouse, _) => y_set_input (snd (dev_mouse_read (y_input y) buf len)) y
  | _ => y
  end.

Definition dev_after_write (file buf : Z) (bytes : list Z) (y : sys) : sys :=
  match file_dev (y_fs y) file with
  | Some (OpsDisk, offset) =>
      match dev_disk_write (y_disk y) stack offset buf bytes with
      | Some (_, d) => y_set_disk d y
      | None => y
      end
  | _ => y
  end.

(** [vfs_read] on the system state; the bytes are still to be stored. *)
Definition file_read (file buf len : Z) (y : sys) : option (Z * list Z * sys) :=
  '(n, bytes, f) ← vfs_read (dev_read y) (y_fs y) file buf len;
  Some (n, bytes, y_set_fs f (dev_after_read file buf len y)).

Definition file_write (file buf : Z) (bytes : list Z) (y : sys) : option (Z * sys) :=
  '(n, f) ← vfs_write oom junk (dev_write y) (y_fs y) file buf bytes;
  Some (n, y_set_fs f (dev_after_write file buf bytes y)).

(** ** Reading keys from the console *)

(** The keys read one at a time, [arrivals] giving the scancodes the
    keyboard interrupt queues before each poll; [None] when the list ends
    before the call does. *)
Fixpoint stdin_read_chars (arrivals : list (list Z)) (buf len count : Z) (shift : bool) (y : sys)
    : option (Z * sys) :=
  if count <? len then
    match arrivals with
    | [] => None
    | codes :: arrivals' =>
        let y := y_set_input (fold_left queue_key codes (y_input y)) y in
        match input_read_key (y_input y) with
        | None => stdin_read_chars arrivals' buf len count shift y
        | Some (ev, i) =>
            let y := y_set_input i y in
            let sc := ke_scancode ev in
            let next := stdin_read_chars arrivals' buf len in
            if ke_pressed ev =? 0 then
              next count (if (sc =? 42) || (sc =? 54) then false else shift) y
            else if sc =? 73 then next count shift (y_log [ConScroll 25] y)
            else if sc =? 81 then next count shift (y_log [ConScroll (-25)] y)
            else if sc =? 72 then next count shift (y_log [ConScroll 1] y)
            else if sc =? 80 then next count shift (y_log [ConScroll (-1)] y)
            else if (sc =? 42) || (sc =? 54) then next count true y
            else
              let c := scancode_to_char sc shift in
              if c =? 0 then next count shift y
              else if c =? 8 then next (if 0 <? count then count - 1 else count) shift y
              else
                y ← user_put (buf +% count) [c] y;
                let y := console_puts [c] y in
                if c =? 10 then Some (count + 1, y) else next (count + 1) shift y
        end
    end
  else Some (count, y).

(** ** The calls *)

Context (cpu : nat) (frame : Z).

Definition cur_thread (y : sys) : option (nat * thread) :=
  i ← thread_current cpu (y_sched y);
  t ← g_threads (y_sched y) !! i;
  Some (i, t).

Definition cur_user (y : sys) : option (nat * thread) :=
  '(i, t) ← cur_thread y; if t_is_user t then Some (i, t) else None.

Definition now (y : sys) : Z := pit_ticks (y_pit y).

Definition sys_write (y : sys) : option (Z * sys) :=
  let fd := reg y (f_rdi frame) in
  let buf := reg y (f_rsi frame) in
  let len := reg y (f_rdx frame) in
  if negb (fd =? 1) && negb (fd =? 2) then
    let file := vfs_fd_get (snd <$> cur_thread y) (i32 fd) in
    if file =? 0 then ret frame (-1) y
    else
      fl ← fs_files (y_fs y) !! file;
      if Z.land (vf_flags fl) VFS_O_WRONLY =? 0 then ret frame (-1) y
      else
        '(n, y') ← file_write file buf (user_bytes y buf len) y;
        if (0 <? n) && negb (user_ok y buf len) then None else ret frame n y'
  else
    bytes ← user_get y buf len;
    ret frame len (console_puts bytes y).

Definition sys_read (arrivals : list (list Z)) (y : sys) : option (Z * sys) :=
  let fd := i32 (reg y (f_rdi frame)) in
  let buf := reg y (f_rsi frame) in
  let len := reg y (f_rdx frame) in
  if fd =? 0 then
    if (buf =? 0) || (len =? 0) then ret frame 0 y
    else
      '(n, y) ← stdin_read_chars arrivals buf len 0 false y;
      ret frame n y
  else
    let file := vfs_fd_get (snd <$> cur_thread y) fd in
    if file =? 0 then ret frame (-1) y
    else
      fl ← fs_files (y_fs y) !! file;
      if Z.land (vf_flags fl) VFS_O_RDONLY =? 0 then ret frame (-1) y
      else
        '(n, bytes, y) ← file_read file buf len y;
        y ← user_put buf bytes y;
        ret frame n y.

Definition sys_open (y : sys) : option (Z * sys) :=
  let path := reg y (f_rdi frame) in
  let flags := i32 (reg y (f_rsi frame)) in
  match cur_user y with
  | None => ret frame (-1) y
  | Some (i, _) =>
      if path =? 0 then ret frame (-1) y
      else
        let flags := if flags =? 0 then VFS_O_RDONLY else flags in
        p ← user_str fuel y path;
        '(file, f) ← vfs_open oom (y_fs y) p flags;
        let y := y_set_fs f y in
        if file =? 0 then ret frame (-1) y
        else
          t ← g_threads (y_sched y) !! i;
          let '(fd, t) := vfs_fd_allocate t file in
          if fd <? 0 then ret frame (-1) (y_set_fs (vfs_close (y_fs y) file) y)
          else ret frame fd (y_upd i t y)
  end.

Definition sys_close (y : sys) : option (Z * sys) :=
  let fd := i32 (reg y (f_rdi frame)) in
  if negb (vfs_fd_get (snd <$> cur_thread y) fd =? 0) then
    match cur_thread y with
    | Some (i, t) =>
        let '(r, f, t') := vfs_fd_close (y_fs y) (Some t) fd in
        let y := y_set_fs f y in
        ret frame r (match t' with Some t' => y_upd i t' y | None => y end)
    | None => ret frame (-1) y
    end
  else
    let '(r, g) := net_close (y_net y) fd in
    ret frame r (y_set_net g y).

Definition sys_lseek (y : sys) : option (Z * sys) :=
  let fd := i32 (reg y (f_rdi frame)) in
  let offset := i64 (reg y (f_rsi frame)) in
  let whence := i32 (reg y (f_rdx frame)) in
  let file := vfs_fd_get (snd <$> cur_thread y) fd in
  if file =? 0 then ret frame (-1) y
  else
    fl ← fs_files (y_fs y) !! file;
    let seek base :=
      let new_pos := i64 (base + offset) in
      if new_pos <? 0 then ret frame (-1) y
      else
        let f := set_files (y_fs y) (<[file := mk_file (vf_node fl) new_pos (vf_flags fl)]> (fs_files (y_fs y))) in
        ret frame new_pos (y_set_fs f y) in
    if whence =? SYS_SEEK_SET then seek 0
    else if whence =? SYS_SEEK_CUR then seek (i64 (vf_offset fl))
    else if whence =? SYS_SEEK_END then
      if vf_node fl =? 0 then seek 0
      else nd ← fs_nodes (y_fs y) !! vf_node fl; seek (i64 (vn_size nd))
    else ret frame (-1) y.

Fixpoint nth_sibling (n : nat) (f : fs) (child idx : Z) : option Z :=
  if negb (child =? 0) && (0 <? idx) then
    match n with
    | O => None
    | S n' => nd ← fs_nodes f !! child; nth_sibling n' f (vn_next nd) (idx - 1)
    end
  else Some child.

Definition sys_readdir (y : sys) : option (Z * sys) :=
  let fd := i32 (reg y (f_rdi frame)) in
  let buf := reg y (f_rsi frame) in
  let len := reg y (f_rdx frame) in
  let file := vfs_fd_get (snd <$> cur_thread y) fd in
  if file =? 0 then ret frame (-1) y
  else
    fl ← fs_files (y_fs y) !! file;
    if vf_node fl =? 0 then ret frame (-1) y
    else
      nd ← fs_nodes (y_fs y) !! vf_node fl;
      if negb (bool_decide (vn_type nd = VFS_NODE_DIR)) || (buf =? 0) || (len =? 0) then ret frame (-1) y
      else
        child ← nth_sibling (chain_fuel (y_fs y)) (y_fs y) (vn_children nd) (vf_offset fl);
        if child =? 0 then ret frame 0 y
        else
          cn ← fs_nodes (y_fs y) !! child;
          let name_len := Z.of_nat (List.length (vn_name cn)) in
          let name_len := if len <=? name_len then len - 1 else name_len in
          y ← user_put buf (take (Z.to_nat name_len) (vn_name cn) ++ [0]) y;
          let f := set_files (y_fs y)
            (<[file := mk_file (vf_node fl) (vf_offset fl +% 1) (vf_flags fl)]> (fs_files (y_fs y))) in
          ret frame name_len (y_set_fs f y).

(** *** Processes *)

Definition sched_ret (r : option (Z * sched pmm)) (y : sys) : option (Z * sys) :=
  '(next, s) ← r; Some (next, y_set_sched s y).

Context (thread_addr : nat -> Z).

Definition sys_fork (y : sys) : option (Z * sys) :=
  Some (frame, y_set_sched (scheduler_fork thread_addr oom cpu (now y) frame (y_sched y)) y).

Definition sys_waitpid (y : sys) : option (Z * sys) :=
  sched_ret (scheduler_waitpid cpu (now y) frame (i32 (reg y (f_rdi frame))) (reg y (f_rsi frame)) (y_sched y)) y.

Definition sys_exit (y : sys) : option (Z * sys) :=
  let code := i32 (reg y (f_rdi frame)) in
  let y := console_puts (text "[syscall] exit code=" ++ dec_u64 (u64 code) ++ [10]) y in
  sched_ret (scheduler_on_exit cpu frame code (y_sched y)) y.

Definition sys_yield (y : sys) : option (Z * sys) :=
  sched_ret (scheduler_yield cpu (now y) frame (y_sched y)) y.

Definition sys_getpid (y : sys) : option (Z * sys) :=
  ret frame (match cur_thread y with Some (_, t) => t_id t | None => -1 end) y.

Definition sys_kill (y : sys) : option (Z * sys) :=
  let pid := i32 (reg y (f_rdi frame)) in
  let sig := i32 (reg y (f_rsi frame)) in
  let self := match cur_thread y with Some (_, t) => (pid =? 0) || (pid =? i32 (t_id t)) | None => false end in
  if self then sched_ret (scheduler_on_exit cpu frame (i32 (- sig)) (y_sched y)) y
  else
    let '(r, s) := scheduler_kill cpu pid sig (y_sched y) in
    ret frame r (y_set_sched s y).

Definition denied (who : string) : list Z := text "[syscall] denied: " ++ text who ++ [10].

(** The yield that scheduler_sleep issues from inside the kernel is a
    nested call of the handler, which refuses it when the current thread is
    a user thread.  For a kernel thread the nested call switches away in the
    middle of this one, which is not modelled. *)
Definition sys_sleep (y : sys) : option (Z * sys) :=
  let ms := reg y (f_rdi frame) in
  let hz := pit_frequency_hz (y_pit y) in
  if hz =? 0 then ret frame (-1) y
  else
    let ticks := (ms *% hz +% 999) / 1000 in
    s ← scheduler_sleep cpu (now y) ticks (y_sched y);
    let y := y_set_sched s y in
    '(_, _) ← cur_user y;
    ret frame 0 (console_puts (denied "kernel-mode syscall from user thread") y).

(** *** Address spaces *)

Definition sys_brk (y : sys) : option (Z * sys) :=
  let new_end := reg y (f_rdi frame) in
  match cur_user y with
  | None => ret frame (-1) y
  | Some (i, t) =>
      if new_end =? 0 then ret frame (t_brk_end t) y
      else
        let bt := mk_brk_thread (t_is_user t) (t_cr3 t) (t_brk_start t) (t_brk_end t) in
        let '(ok, s, bt') := vmm_user_set_brk (y_mach y) (Some bt) new_end in
        let y := y_set_mach s y in
        match ok, bt' with
        | true, Some b => ret frame (bt_brk_end b) (y_upd i (t_set_brk_end (bt_brk_end b) t) y)
        | _, _ => ret frame (-1) y
        end
  end.

Definition sys_mmap (y : sys) : option (Z * sys) :=
  let addr := reg y (f_rdi frame) in
  let len := reg y (f_rsi frame) in
  let prot := i32 (reg y (f_rdx frame)) in
  match cur_user y with
  | None => ret frame (-1) y
  | Some (i, t) =>
      let '(base, s, t') := mmap_map_anonymous (y_mach y) (Some t) addr len prot in
      let y := y_set_mach s y in
      ret frame base (match t' with Some t' => y_upd i t' y | None => y end)
  end.

(** The kernel heap on the system state. *)
Definition y_kmalloc (size : Z) (y : sys) : option (Z * sys) :=
  '(p, h) ← kmalloc fuel (mk_kheap (y_mach y) (y_heap y) (y_last y)) size;
  Some (p, y_set_heap (g_heap h) (g_last h) (y_set_mach (k_mach h) y)).
Definition y_kfree (p : Z) (y : sys) : option sys :=
  h ← kfree fuel (mk_kheap (y_mach y) (y_heap y) (y_last y)) p;
  Some (y_set_heap (g_heap h) (g_last h) (y_set_mach (k_mach h) y)).
Definition y_kfree_opt (p : Z) (y : sys) : option sys := if p =? 0 then Some y else y_kfree p y.

(** Reading the program into a fresh buffer: [inl] is a failure. *)
Definition exec_read (file : Z) (y : sys) : option (sys + Z * Z * sys) :=
  fl ← fs_files (y_fs y) !! file;
  if vf_node fl =? 0 then Some (inl y) else
  nd ← fs_nodes (y_fs y) !! vf_node fl;
  let size := vn_size nd in
  let close y := y_set_fs (vfs_close (y_fs y) file) y in
  if size =? 0 then Some (inr (0, 0, close y))
  else
    '(data, y) ← y_kmalloc size y;
    if data =? 0 then Some (inl (close y))
    else
      '(n, bytes, y) ← file_read file data size y;
      let y := y_set_mem (mem_put (y_mem y) data bytes) y in
      if (n <? 0) || negb (n =? size) then y ← y_kfree data (close y); Some (inl y)
      else Some (inr (data, size, close y)).

Definition release_space (cr3 : Z) (y : sys) : sys := y_set_vmm (vmm_release_user_space (y_vmm y) cr3) y.

(** A new address space with the image in it: entry point, end of the
    image and the space's root. *)
Definition exec_load (data size : Z) (y : sys) : option (sys + Z * Z * Z * sys) :=
  let '(new_cr3, v) := vmm_create_user_space (y_vmm y) in
  let y := y_set_vmm v y in
  if new_cr3 =? 0 then y ← y_kfree_opt data y; Some (inl y)
  else
    '(r, s) ← elf64_load_image (y_mach y) data size new_cr3;
    let y := y_set_mach s y in
    y ← y_kfree_opt data y;
    match r with
    | None => Some (inl (release_space new_cr3 y))
    | Some (entry, brk) => Some (inr (entry, brk, new_cr3, y))
    end.

(** A zeroed stack at the top of the new space. *)
Definition exec_stack (new_cr3 : Z) (y : sys) : sys + Z * sys :=
  let s := y_mach y in
  let '(stack_phys, pg) := pa_alloc (m_pages s) USTACK_PAGES in
  let s := set_pages s pg in
  if stack_phys =? 0 then inl (release_space new_cr3 (y_set_mach s y))
  else
    let s := set_mem s (mem_fill (m_mem s) stack_phys 0 (USTACK_PAGES * PAGE_SIZE)) in
    let base := USER_STACK_TOP - USTACK_PAGES * PAGE_SIZE in
    match vmm_map_range s new_cr3 base stack_phys (USTACK_PAGES * PAGE_SIZE)
            (Z.lor (Z.lor VMM_FLAG_PRESENT VMM_FLAG_WRITABLE) VMM_FLAG_USER) with
    | (false, s) => inl (release_space new_cr3 (y_set_mach (pmm_free s stack_phys USTACK_PAGES) y))
    | (true, s) => inr (stack_phys, y_set_mach s y)
    end.

Definition exec_thread (new_cr3 stack_phys brk : Z) (t : thread) : thread :=
  t_set_mmap_base (mmap_default_base brk) (t_set_brk_end brk (t_set_brk_start brk
    (t_set_ustack_top USER_STACK_TOP (t_set_ustack_size (USTACK_PAGES * PAGE_SIZE)
    (t_set_ustack stack_phys (t_set_cr3 new_cr3 t)))))).

Definition exec_switch (i : nat) (t : thread) (new_cr3 stack_phys entry brk : Z) (y : sys) : option (Z * sys) :=
  let old_cr3 := t_cr3 t in
  let y := y_set_sched (upd i (exec_thread new_cr3 stack_phys brk) (y_sched y)) y in
  let v := y_vmm y in
  let y := y_set_vmm (mk_vmm (v_mach v) (g_kernel_cr3 v) (g_user_spaces v) new_cr3) y in
  let y := if negb (old_cr3 =? 0) && negb (old_cr3 =? vmm_kernel_cr3 (y_vmm y))
           then release_space old_cr3 y else y in
  ret frame 0 (set_reg (f_rsp frame) USER_STACK_TOP (set_reg (f_rip frame) entry y)).

Definition sys_execve (y : sys) : option (Z * sys) :=
  match cur_user y with
  | None => ret frame (-1) y
  | Some (i, t) =>
      let path := reg y (f_rdi frame) in
      '(file, f) ← (if path =? 0 then Some (0, y_fs y)
                    else p ← user_str fuel y path; vfs_open oom (y_fs y) p VFS_O_RDONLY);
      let y := y_set_fs f y in
      if file =? 0 then ret frame (-1) y
      else
        r ← exec_read file y;
        match r with
        | inl y => ret frame (-1) y
        | inr (data, size, y) =>
            r ← exec_load data size y;
            match r with
            | inl y => ret frame (-1) y
            | inr (entry, brk, new_cr3, y) =>
                match exec_stack new_cr3 y with
                | inl y => ret frame (-1) y
                | inr (stack_phys, y) => exec_switch i t new_cr3 stack_phys entry brk y
                end
            end
        end
  end.

(** *** Information *)

Definition sys_gettimeofday (y : sys) : option (Z * sys) :=
  let tv := reg y (f_rdi frame) in
  if tv =? 0 then ret frame (-1) y
  else
    let t := time_gettimeofday (y_clock y) (y_pit y) in
    y ← user_put tv (le 8 (tv_sec t) ++ le 8 (tv_usec t)) y;
    ret frame 0 y.

Definition UTSNAME_LEN : Z := 32.

(** A name in its zeroed field. *)
Definition uts_field (s : string) : list Z :=
  let n := take (Z.to_nat (UTSNAME_LEN - 1)) (text s) in n ++ replicate (Z.to_nat UTSNAME_LEN - List.length n) 0.

Definition sys_uname (y : sys) : option (Z * sys) :=
  let info := reg y (f_rdi frame) in
  if info =? 0 then ret frame (-1) y
  else
    y ← user_put info (uts_field "MyOS" ++ uts_field "myos-node" ++ uts_field "0.1" ++ uts_field "dev"
                         ++ uts_field "x86_64") y;
    ret frame 0 y.

(** sysinfo_t: seven 64-bit words and a 16-bit one, padded to 64 bytes. *)
Definition sys_sysinfo (y : sys) : option (Z * sys) :=
  let info := reg y (f_rdi frame) in
  if info =? 0 then ret frame (-1) y
  else
    let pages := m_pages (y_mach y) in
    let hz := pit_frequency_hz (y_pit y) in
    let uptime := if negb (hz =? 0) then pit_ticks (y_pit y) / hz else 0 in
    y ← user_put info (le 8 uptime ++ le 8 (pmm_total_memory_bytes pages) ++ le 8 (pmm_free_memory_bytes pages)
                         ++ replicate 32 0 ++ le 2 (u16 (scheduler_thread_count (y_sched y))) ++ replicate 6 0) y;
    ret frame 0 y.

(** *** Sockets *)

(** net_sockaddr_in_t at a user address; null is [None]. *)
Definition user_addr (y : sys) (a : Z) : option sockaddr_in :=
  if a =? 0 then None else Some (mk_addr (user_ld 4 y a) (user_ld 2 y (a +% 4))).

(** A socket address in memory; its two padding bytes are taken as zero. *)
Definition addr_bytes (a : sockaddr_in) : list Z := le 4 (sa_addr a) ++ le 2 (sa_port a) ++ [0; 0].

(** [*addr = value] when the pointer is not null. *)
Definition put_addr (a : Z) (v : option sockaddr_in) (y : sys) : option sys :=
  match v with
  | Some v => if a =? 0 then Some y else user_put a (addr_bytes v) y
  | None => Some y
  end.

Definition sys_socket (y : sys) : option (Z * sys) :=
  let owner := match cur_thread y with Some (_, t) => i32 (t_id t) | None => -1 end in
  let '(r, g) := net_socket (y_net y) (i32 (reg y (f_rdi frame))) (i32 (reg y (f_rsi frame))) owner in
  ret frame r (y_set_net g y).

Definition sys_bind (y : sys) : option (Z * sys) :=
  let '(r, g) := net_bind (y_net y) (i32 (reg y (f_rdi frame))) (user_addr y (reg y (f_rsi frame))) in
  ret frame r (y_set_net g y).

Definition sys_sendto (y : sys) : option (Z * sys) :=
  let buf := reg y (f_rsi frame) in
  let '(r, g) := net_sendto (y_net y) (user_mem y) (i32 (reg y (f_rdi frame))) buf (reg y (f_rdx frame))
                   (user_addr y (reg y (f_r10 frame))) in
  if (0 <? r) && negb (user_ok y buf r) then None else ret frame r (y_set_net g y).

Definition sys_recvfrom (y : sys) : option (Z * sys) :=
  let buf := reg y (f_rsi frame) in
  let addr := reg y (f_r10 frame) in
  let '(r, m, src, g) := net_recvfrom (y_net y) (user_mem y) (i32 (reg y (f_rdi frame))) buf (reg y (f_rdx frame)) in
  y ← user_put buf (read_bytes m buf r) (y_set_net g y);
  y ← put_addr addr src y;
  ret frame r y.

Definition sys_connect (y : sys) : option (Z * sys) :=
  let '(r, g) := net_connect (y_net y) (i32 (reg y (f_rdi frame))) (user_addr y (reg y (f_rsi frame))) in
  ret frame r (y_set_net g y).

Definition sys_listen (y : sys) : option (Z * sys) :=
  let '(r, g) := net_listen (y_net y) (i32 (reg y (f_rdi frame))) in
  ret frame r (y_set_net g y).

Definition sys_accept (y : sys) : option (Z * sys) :=
  let addr := reg y (f_rsi frame) in
  let '(r, src, g) := net_accept (y_net y) (i32 (reg y (f_rdi frame))) in
  y ← put_addr addr src (y_set_net g y);
  ret frame r y.

(** [-1] for a null pointer or an index out of the table. *)
Definition put_record (out : Z) (bytes : option (list Z)) (y : sys) : option (Z * sys) :=
  if out =? 0 then ret frame (-1) y
  else
    match bytes with
    | None => ret frame (-1) y
    | Some bs => y ← user_put out bs y; ret frame 0 y
    end.

Definition if_bytes (i : net_ifinfo) : list Z :=
  if_name i ++ if_mac i ++ [0; 0] ++ le 4 (if_addr i) ++ le 4 (if_netmask i)
  ++ [if_up i; if if_present i then 1 else 0; 0; 0].

Definition route_bytes (r : net_route) : list Z := le 4 (rt_dest r) ++ le 4 (rt_netmask r) ++ le 4 (rt_gateway r).

Definition state_code (s : net_state) : Z :=
  match s with
  | NET_STATE_FREE => 0 | NET_STATE_BOUND => 1 | NET_STATE_LISTEN => 2 | NET_STATE_CONNECTED => 3
  end.

Definition info_bytes (i : net_socket_info) : list Z :=
  le 4 (if in_in_use i then 1 else 0) ++ le 4 (in_type i) ++ le 4 (state_code (in_state i))
  ++ addr_bytes (in_local i) ++ addr_bytes (in_remote i) ++ le 4 (in_owner i).

Definition sys_netif_get (y : sys) : option (Z * sys) :=
  put_record (reg y (f_rsi frame)) (if_bytes <$> net_if_get (y_net y) (reg y (f_rdi frame))) y.

Definition sys_route_get (y : sys) : option (Z * sys) :=
  put_record (reg y (f_rsi frame)) (route_bytes <$> net_route_get (y_net y) (reg y (f_rdi frame))) y.

Definition sys_net_socket_get (y : sys) : option (Z * sys) :=
  put_record (reg y (f_rsi frame)) (info_bytes <$> net_socket_get (y_net y) (reg y (f_rdi frame))) y.

Definition user_ifreq (y : sys) (a : Z) : option net_ifreq :=
  if a =? 0 then None
  else Some (mk_ifreq (user_bytes y a 8) (user_ld 4 y (a +% 8)) (user_ld 4 y (a +% 12))
               (user_bytes y (a +% 16) 6) (user_ld 1 y (a +% 22)) (user_ld 4 y (a +% 24))).

Definition sys_netif_set (y : sys) : option (Z * sys) :=
  let '(r, g) := net_if_set (y_net y) (user_ifreq y (reg y (f_rdi frame))) in
  ret frame r (y_set_net g y).

Definition user_route (y : sys) (a : Z) : option net_route :=
  if a =? 0 then None
  else Some (mk_route (user_ld 4 y a) (user_ld 4 y (a +% 4)) (user_ld 4 y (a +% 8))).

Definition sys_route_add (y : sys) : option (Z * sys) :=
  let '(r, g) := net_route_add (y_net y) (user_route y (reg y (f_rdi frame))) in
  ret frame r (y_set_net g y).

(** ** The handler *)

Definition sys_unknown (num : Z) (y : sys) : option (Z * sys) :=
  ret frame (-1) (console_puts (text "[syscall] unknown syscall " ++ dec_u64 num ++ [10]) y).

Definition syscall_switch (arrivals : list (list Z)) (y : sys) : option (Z * sys) :=
  let num := reg y (frame_rax frame) in
  if num =? SYS_write then sys_write y
  else if num =? SYS_fork then sys_fork y
  else if num =? SYS_execve then sys_execve y
  else if num =? SYS_waitpid then sys_waitpid y
  else if num =? SYS_exit then sys_exit y
  else if num =? SYS_yield then sys_yield y
  else if num =? SYS_brk then sys_brk y
  else if num =? SYS_gettimeofday then sys_gettimeofday y
  else if num =? SYS_open then sys_open y
  else if num =? SYS_read then sys_read arrivals y
  else if num =? SYS_lseek then sys_lseek y
  else if num =? SYS_getpid then sys_getpid y
  else if num =? SYS_uname then sys_uname y
  else if num =? SYS_sysinfo then sys_sysinfo y
  else if num =? SYS_mmap then sys_mmap y
  else if num =? SYS_kill then sys_kill y
  else if num =? SYS_sleep then sys_sleep y
  else if num =? SYS_socket then sys_socket y
  else if num =? SYS_bind then sys_bind y
  else if num =? SYS_sendto then sys_sendto y
  else if num =? SYS_recvfrom then sys_recvfrom y
  else if num =? SYS_connect then sys_connect y
  else if num =? SYS_listen then sys_listen y
  else if num =? SYS_accept then sys_accept y
  else if num =? SYS_close then sys_close y
  else if num =? SYS_readdir then sys_readdir y
  else if num =? SYS_netif_get then sys_netif_get y
  else if num =? SYS_netif_set then sys_netif_set y
  else if num =? SYS_route_get then sys_route_get y
  else if num =? SYS_route_add then sys_route_add y
  else if num =? SYS_net_socket_get then sys_net_socket_get y
  else sys_unknown num y.

Definition syscall_handle (arrivals : list (list Z)) (y : sys) : option (Z * sys) :=
  let from_user := Z.land (reg y (f_cs frame)) 3 =? 3 in
  let is_user := match cur_thread y with Some (_, t) => t_is_user t | None => false end in
  if from_user && negb is_user then
    ret frame (-1) (console_puts (denied "user-mode syscall without user thread") y)
  else if negb from_user && is_user then
    ret frame (-1) (console_puts (denied "kernel-mode syscall from user thread") y)
  else syscall_switch arrivals y.
End syscall_def.

Arguments sys B : clear implicits.
