(* ===== verification/SyscallSpec.v ===== *)
(** * What the system calls promise (src/syscall.c)

    Anonymous mappings, descriptor tables, the line discipline of console
    reads, and the handler as a whole: whom it serves, what a refused call
    may touch, and that every call keeps the scheduler's invariant. *)

From stdpp Require Import prelude list gmap.
From Stdlib Require Import ZArith Lia String Ascii.
From S2P Require Import Prelude Lib Alloc Pmm Vmm VmmSpec Kmalloc Ring Net Io Input Time Vfs Sched SchedSpec SchedProc Elf ElfSpec Devfs Tarfs Console Syscall.
#[local] Open Scope Z_scope.
#[local] Open Scope cint_scope.

(** ** Anonymous mappings *)

Lemma mmap_flags_ok prot : flags_ok (mmap_flags prot).
Proof.
  unfold mmap_flags. destruct (negb _), (_ =? 0); (split; [split; vm_compute; congruence|reflexivity]).
Qed.

Section mmap.
Context {A : Type} `{PageLaws A}.
Implicit Types (s : mach A) (D : Z -> Prop) (fr fl : Z -> Z).

(** A round that finds its page taken or no room for a table gives the
    fresh page back. *)
Lemma mapped_round_fails s s1 s2 s3 cr3 flags D P fl fr fl1 fr1 va pa :
  mapped s s1 cr3 flags D P fl fr fl1 fr1 -> user_va va ->
  alloc_zero_page s1 = (pa, s2) -> pa <> 0 -> map_page_inner s2 cr3 va pa flags = (false, s3) ->
  let s4 := pmm_free s3 pa 1 in
  mapped s s4 cr3 flags D P fl fr fl1 fr1 /\
  forall v, user_va v -> xlate (m_mem s4) cr3 v = xlate (m_mem s1) cr3 v.
Proof.
  intros [Ho Hold Hfl Hap Hk Hn Hz] Hu Ea Hpa Em s4.
  pose proof (hw_pages _ _ _ _ _ Ho) as Hpg. pose proof (hw_space _ _ _ _ _ Ho) as Hwf.
  pose proof (alloc_zero_extends s1 pa s2 cr3 Hwf Hpg Ea) as X.
  destruct (alloc_foreign s1 pa s2 cr3 Hwf Hpg Ea Hpa) as [Hfor Hne].
  destruct (alloc_zero_page_ok s1 pa s2 Hpg Ea Hpa) as (_ & _ & (Ft & Ht0 & Htot & _) & _).
  destruct (map_page_fail s2 cr3 va pa flags s3 (ex_wf _ _ _ X) (ex_pages _ _ _ X) Hu Em) as [X' _].
  pose proof (extends_trans _ _ _ _ X X') as X2.
  destruct (free_foreign s3 cr3 pa (ex_wf _ _ _ X2) (ex_pages _ _ _ X2) Ft Ht0 (proj1 (ex_foreign _ _ _ X' _ Hfor)))
    as (P4 & T4 & W4 & K4 & _).
  fold s4 in P4, T4, W4, K4.
  assert (Hkeep : foreign_kept cr3 s1 s4).
  { intros x Hx. destruct (ex_foreign _ _ _ X2 x Hx) as [Hx3 E3]. split; [|exact E3]. apply K4; [done|]. by apply Hne. }
  assert (Hxl : forall v, user_va v -> xlate (m_mem s4) cr3 v = xlate (m_mem s1) cr3 v) by apply (ex_xlate _ _ _ X2).
  split; [|exact Hxl]. constructor; try done.
  - constructor; [done|done| |apply (hw_inj _ _ _ _ _ Ho)].
    intros v Hv. destruct (hw_page _ _ _ _ _ Ho v Hv) as (U & M & F & F0 & FT & Hx & HF).
    rewrite Hxl, T4, (ex_total _ _ _ X2) by done. repeat (split; [done|]). by apply Hkeep.
  - intros x Hx. destruct (Hk x Hx) as [Hx1 E1]. destruct (Hkeep x Hx1) as [Hx4 E4]. split; [done|congruence].
  - intros v x Hv Ex. destruct (hw_page _ _ _ _ _ Ho v (or_introl Hv)) as (_ & _ & Fv & F0 & _ & _ & (G1 & G2 & G3)).
    destruct (Hkeep x) as [_ ->]; [|by apply (Hz v)].
    split; [Z.div_mod_to_equations; lia|]. by rewrite Ex.
Qed.

(** [s1] after the first pages of a mapping, up to [va]. *)
Definition mapped_upto s cr3 flags D fl fr base va s1 : Prop :=
  exists fl1 fr1, mapped s s1 cr3 flags D (pages_in base va) fl fr fl1 fr1 /\
    outside_kept cr3 base va s s1 /\ forall v, pages_in base va v -> xlate (m_mem s) cr3 v = None.

Lemma outside_grow cr3 lo hi hi' s s' : hi <= hi' -> outside_kept cr3 lo hi s s' -> outside_kept cr3 lo hi' s s'.
Proof. intros Hle O va Hu Hout. apply O; [done|]. Z.div_mod_to_equations; lia. Qed.

Lemma mapped_upto_round s s1 s2 s3 cr3 flags D fl fr base va pa :
  mapped_upto s cr3 flags D fl fr base va s1 -> flags_ok flags -> user_va va ->
  base mod 4096 = 0 -> va mod 4096 = 0 -> base <= va ->
  alloc_zero_page s1 = (pa, s2) -> pa <> 0 -> map_page_inner s2 cr3 va pa flags = (true, s3) ->
  mapped_upto s cr3 flags D fl fr base (va + 4096) s3.
Proof.
  intros (fl1 & fr1 & Hm & Hout & Hn) Hf Hu Hb Hmod Hle Ea Hpa Em.
  destruct (mapped_round s s1 s2 s3 cr3 flags D fl fr fl1 fr1 base va pa Hm Hf Hu Hb Hmod Hle Ea Hpa Em)
    as (fl2 & fr2 & Hm2).
  pose proof (hw_pages _ _ _ _ _ (mp_owned _ _ _ _ _ _ _ _ _ _ Hm)) as Hpg.
  pose proof (hw_space _ _ _ _ _ (mp_owned _ _ _ _ _ _ _ _ _ _ Hm)) as Hwf.
  pose proof (alloc_zero_extends s1 pa s2 cr3 Hwf Hpg Ea) as X.
  destruct (map_page_ok s2 cr3 va pa flags s3 (ex_wf _ _ _ X) (ex_pages _ _ _ X) Hu Hf Em) as (_ & _ & Hx & [B1 B2] & _).
  rewrite (ex_xlate _ _ _ X va Hu) in Hx.
  exists fl2, fr2. split; [exact Hm2|]. split.
  - apply (outside_step cr3 base (va + 4096) s s1 s3 va (Some (leaf_entry pa flags)));
      [apply (outside_grow _ _ va); [lia|done]| |Z.div_mod_to_equations; lia].
    split; [exact B1|]. intros v Hv Hns. rewrite B2 by done. by apply (ex_xlate _ _ _ X).
  - intros v Hv. destruct (decide (v = va)) as [->|Hne].
    + rewrite <- (Hout va Hu); [exact Hx|lia].
    + apply Hn. destruct Hv as [Hv1 Hv2]. split; [done|]. Z.div_mod_to_equations; lia.
Qed.

Lemma mmap_grow_ok s cr3 base size flags D fl fr :
  owned fl s cr3 D fr -> flags_ok flags -> base mod 4096 = 0 -> size mod 4096 = 0 -> 0 <= base -> 0 <= size ->
  base + size <= 2 ^ 47 -> (forall va, base <= va < base + size -> user_va va) ->
  match mmap_grow s cr3 base size flags with
  | inl s' => mapped_upto s cr3 flags D fl fr base (base + size) s'
  | inr (done, s') =>
      done mod 4096 = 0 /\ 0 <= done < size /\ mapped_upto s cr3 flags D fl fr base (base + done) s' /\
      (xlate (m_mem s) cr3 (base + done) <> None \/ out_of_pages s')
  end.
Proof.
  intros Ho Hf Hb Hs Hb0 Hs0 Hmax Hu. unfold mmap_grow, for_range_exit.
  destruct (va_steps_mul 0 size eq_refl Hs Hs0) as [Es Hst]. set (n := va_steps 0 size) in *. rewrite Z.sub_0_r.
  match goal with |- context [for_exit _ _ ?b _] => set (body := b) end.
  pose proof (for_exit_ind (fun i s1 => mapped_upto s cr3 flags D fl fr base (base + i * 4096) s1)
    (fun '(d, s1) => d mod 4096 = 0 /\ 0 <= d < size /\ mapped_upto s cr3 flags D fl fr base (base + d) s1 /\
       (xlate (m_mem s) cr3 (base + d) <> None \/ out_of_pages s1))
    body (Z.to_nat n) 0 s) as Hind.
  replace (0 + Z.of_nat (Z.to_nat n)) with n in Hind by lia. cbv beta in Hind. rewrite Z.add_0_l in Es. rewrite <- Es in Hind.
  apply Hind; clear Hind.
  { exists fl, fr. rewrite Z.add_0_r. split; [by apply mapped_none|]. split; [done|]. intros v [? ?]. lia. }
  intros i s1 Hi Hm. unfold body, PAGE_SIZE, vmm_map_page.
  assert (Eva : base +% i * 4096 = base + i * 4096) by (apply u64_small; unfold is_u64; lia). rewrite Eva.
  assert (Hua : user_va (base + i * 4096)) by (apply Hu; lia).
  assert (Hmod : (base + i * 4096) mod 4096 = 0) by (rewrite Z.mod_add by lia; done).
  assert (Hd : i * 4096 mod 4096 = 0 /\ 0 <= i * 4096 < size) by (split; [apply Z.mod_mul; lia|lia]).
  destruct (alloc_zero_page s1) as [pa s2] eqn:Ea. destruct (Z.eqb_spec pa 0) as [->|Hpa].
  { destruct Hm as (fl1 & fr1 & Hm & Hm').
    pose proof (hw_pages _ _ _ _ _ (mp_owned _ _ _ _ _ _ _ _ _ _ Hm)) as Hpg.
    pose proof (alloc_zero_none s1 s2 Hpg Ea) as Hno. rewrite (alloc_zero_page_fail s1 s2 Hpg Ea) in Hno |- *.
    split; [apply Hd|]. split; [apply Hd|]. split; [by exists fl1, fr1|]. right. by left. }
  destruct (map_page_inner s2 cr3 (base + i * 4096) pa flags) as [[] s3] eqn:Em.
  - replace (base + (i + 1) * 4096) with (base + i * 4096 + 4096) by lia.
    eapply mapped_upto_round; [exact Hm|done|done|done|done|lia|exact Ea|done|exact Em].
  - destruct Hm as (fl1 & fr1 & Hm & Hout & Hn).
    destruct (mapped_round_fails _ _ _ _ _ _ _ _ _ _ _ _ _ _ Hm Hua Ea Hpa Em) as [Hm4 Hx4].
    split; [apply Hd|]. split; [apply Hd|]. split.
    { exists fl1, fr1. split; [exact Hm4|]. split; [|exact Hn]. intros v Hv Hne. rewrite Hx4 by done. by apply Hout. }
    pose proof (mp_owned _ _ _ _ _ _ _ _ _ _ Hm) as Ho1.
    pose proof (alloc_zero_extends s1 pa s2 cr3 (hw_space _ _ _ _ _ Ho1) (hw_pages _ _ _ _ _ Ho1) Ea) as X.
    destruct (map_page_fail s2 cr3 _ pa flags s3 (ex_wf _ _ _ X) (ex_pages _ _ _ X) Hua Em) as [_ [Hx|Hx]].
    + left. rewrite (ex_xlate _ _ _ X _ Hua), Hout in Hx by (done || lia). exact Hx.
    + right. right. by exists (m_pages s3), pa.
Qed.

(** Taking the pages back restores every translation. *)
Lemma mmap_undo_ok s s1 cr3 base done flags D fl fr :
  mapped_upto s cr3 flags D fl fr base (base + done) s1 -> flags_ok flags ->
  base mod 4096 = 0 -> done mod 4096 = 0 -> 0 <= base -> 0 <= done -> base + done <= 2 ^ 47 ->
  let s' := mmap_undo s1 cr3 base done in
  owned fl s' cr3 D fr /\ foreign_kept cr3 s s' /\
  forall va, user_va va -> xlate (m_mem s') cr3 va = xlate (m_mem s) cr3 va.
Proof.
  intros (fl1 & fr1 & Hm & Hout & Hnone) Hf Hb Hd Hb0 Hd0 Hmax. cbv zeta. unfold mmap_undo.
  destruct (va_steps_mul 0 done eq_refl Hd Hd0) as [Es Hst]. set (n := va_steps 0 done) in *.
  match goal with |- context [for_range _ _ ?b _] => set (body := b) end.
  pose proof (for_range_ind (fun i s2 =>
      owned fl1 s2 cr3 (fun v => pages_in (base + i * 4096) (base + done) v \/ D v) fr1 /\
      foreign_kept cr3 s s2 /\ outside_kept cr3 (base + i * 4096) (base + done) s s2) body 0 n s1 Hst) as Hind.
  cbv beta in Hind. rewrite Z.add_0_l in Es. rewrite <- Es in Hind. destruct Hind as (H1 & H2 & H3).
  - rewrite Z.add_0_r. split; [apply Hm|]. split; [apply Hm|done].
  - intros i s2 Hi (Ho & Hk & Hou). set (va := base + i * 4096) in *. unfold body, PAGE_SIZE.
    assert (base +% i * 4096 = va) as -> by (apply u64_small; unfold is_u64; lia).
    assert (Hmod : va mod 4096 = 0) by (unfold va; rewrite Z.mod_add by lia; done).
    assert (Hin : pages_in va (base + done) va) by (unfold pages_in; lia).
    assert (Hin0 : pages_in base (base + done) va) by (unfold pages_in in *; lia).
    assert (Hfl : flags_ok (fl1 va)) by (rewrite (mp_flags _ _ _ _ _ _ _ _ _ _ Hm) by done; done).
    destruct (owned_shrink_step fl1 s2 cr3 _ fr1 va Ho Hfl (or_introl Hin)) as (s3 & -> & Hne & Ho3 & Hk3 & _ & _ & HB).
    destruct (Z.eqb_spec (fr1 va) 0); [done|].
    split; [eapply heap_wf_proper; [|exact Ho3]|split].
    + intros v. cbn beta. pose proof (mp_apart _ _ _ _ _ _ _ _ _ _ Hm va Hin0) as Hap.
      split.
      * intros [Hv [Hp|Hp]]; [left|by right]. destruct Hp as [Hp1 Hp2]. split; [done|]. subst va. Z.div_mod_to_equations; lia.
      * intros [Hp|Hp]; [|split; [by intros ->|by right]]. destruct Hp as [Hp1 Hp2]. subst va. split; [lia|].
        left. split; [done|lia].
    + intros x Hx. destruct (Hk x Hx) as [Hx2 E2]. destruct (Hk3 x Hx2) as [Hx3 E3]; [|split; [done|congruence]].
      by apply (mp_new _ _ _ _ _ _ _ _ _ _ Hm).
    + destruct HB as [B1 B2]. intros v Hv Hout'. destruct (Z.eq_dec (va / 4096) (v / 4096)) as [Hs|Hs].
      * rewrite <- (xlate_same_page _ cr3 va v Hs), B1, <- (xlate_same_page _ cr3 va v Hs). symmetry. by apply Hnone.
      * rewrite B2 by done. apply Hou; [done|]. unfold same_page in Hs. subst va. Z.div_mod_to_equations; lia.
  - split; [|split; [exact H2|]].
    + destruct (mp_owned _ _ _ _ _ _ _ _ _ _ Hm) as [_ _ Hd1 _].
      assert (HD : owned fl1 (for_range 0 n body s1) cr3 D fr1).
      { eapply heap_wf_proper; [|exact H1]. intros v. unfold pages_in. cbn. split; [intros [[? ?]|]; [lia|done]|by right]. }
      pose proof (mp_old _ _ _ _ _ _ _ _ _ _ Hm) as Hold.
      destruct HD as [P W HD HI]. constructor; [done|done| |].
      * intros v Hv. destruct (Hold v Hv) as [<- <-]. by apply HD.
      * intros v v' Hv Hv'. destruct (Hold v Hv) as [_ <-], (Hold v' Hv') as [_ <-]. by apply HI.
    + intros va Hva. apply H3; [done|]. lia.
Qed.

(** The range a call asks for. *)
Definition mmap_range_base (th : thread) (addr : Z) : Z :=
  if addr =? 0 then page_up (t_mmap_base th) else addr / 4096 * 4096.

Definition mmap_in_user (th : thread) (addr len : Z) : Prop :=
  0 <= addr < 2 ^ 47 /\ 0 <= t_mmap_base th < 2 ^ 47 /\ 0 < len < 2 ^ 47 /\
  USER_REGION_BASE <= mmap_range_base th addr /\ mmap_range_base th addr + page_up len <= 2 ^ 47.

(** The protection a call asks for: bit 1 is write, bit 2 execute. *)
Lemma mmap_rights f prot :
  page_rights (leaf_entry f (mmap_flags prot)) (Z.testbit prot 1) (Z.testbit prot 2).
Proof.
  unfold mmap_flags. pose proof (bit_unset prot 1 ltac:(lia)) as E1. pose proof (bit_unset prot 2 ltac:(lia)) as E2.
  change (2 ^ 1) with 2 in E1. change (2 ^ 2) with 4 in E2. rewrite E1, E2, negb_involutive.
  pose proof (leaf_rights f (Z.testbit prot 1) (Z.testbit prot 2)) as R. by destruct (Z.testbit prot 2).
Qed.

(** C8: [mmap_map_anonymous], for a range that lies in the user region below
    2^47 (the call itself checks no bounds), either maps every page of the
    requested range or nothing.  On success the pages of the range were
    unmapped before and are now backed by zeroed frames of their own that
    belonged to nobody, open to the program, writable and executable exactly
    as [prot] asks; every other address is translated as before, and only a
    call without a fixed address moves the thread's mapping base past the
    range.  On failure the thread is unchanged and every user address is
    translated as before, and the reason is that a page of the range was
    mapped already or that the page allocator ran out before the pages
    mapped so far were given back.  Either way the pages the caller owned
    stay its own and memory outside the page tables keeps its contents. *)
Theorem mmap_map_anonymous_correct s th addr len prot D fl fr r s' t' :
  t_is_user th = true -> mmap_in_user th addr len -> owned fl s (t_cr3 th) D fr ->
  mmap_map_anonymous s (Some th) addr len prot = (r, s', t') ->
  let base := mmap_range_base th addr in
  let hi := base + page_up len in
  (r = base /\ t' = Some (if addr =? 0 then t_set_mmap_base hi th else th) /\
   (exists fl' fr', mapped s s' (t_cr3 th) (mmap_flags prot) D (pages_in base hi) fl fr fl' fr') /\
   outside_kept (t_cr3 th) base hi s s' /\
   (forall v, pages_in base hi v -> xlate (m_mem s) (t_cr3 th) v = None) /\
   (forall v, pages_in base hi v -> exists e, xlate (m_mem s') (t_cr3 th) v = Some e /\
      page_rights e (Z.testbit prot 1) (Z.testbit prot 2))) \/
  (r = 2 ^ 64 - 1 /\ t' = Some th /\ owned fl s' (t_cr3 th) D fr /\ foreign_kept (t_cr3 th) s s' /\
   (forall va, user_va va -> xlate (m_mem s') (t_cr3 th) va = xlate (m_mem s) (t_cr3 th) va) /\
   ((exists va, pages_in base hi va /\ xlate (m_mem s) (t_cr3 th) va <> None) \/
    exists s1 d, out_of_pages s1 /\ s' = mmap_undo s1 (t_cr3 th) base d)).
Proof.
  intros Hu (Ha & Hm & Hl & Hlo & Hhi) Ho. cbv zeta. unfold mmap_map_anonymous. rewrite Hu. cbn [negb orb].
  destruct (Z.eqb_spec len 0) as [|_]; [lia|].
  rewrite (page_up_align len) by lia.
  assert (Ebase : (if negb (addr =? 0) then align_down_u64 addr PAGE_SIZE
                   else align_up_u64 (t_mmap_base th) PAGE_SIZE) = mmap_range_base th addr).
  { unfold mmap_range_base. destruct (addr =? 0); cbn [negb]; [by rewrite page_up_align by lia|].
    change PAGE_SIZE with (2 ^ 12). rewrite align_down_pow2 by (unfold is_u64; lia). reflexivity. }
  rewrite Ebase.
  assert (Hmod : mmap_range_base th addr mod 4096 = 0).
  { unfold mmap_range_base. destruct (addr =? 0); [apply page_up_props|apply Z.mod_mul; lia]. }
  unfold USER_REGION_BASE in Hlo. destruct (page_up_props len) as [Hsz Hszb]. set (base := mmap_range_base th addr) in *.
  pose proof (mmap_grow_ok s (t_cr3 th) base (page_up len) (mmap_flags prot) D fl fr Ho (mmap_flags_ok prot) Hmod Hsz
    ltac:(lia) ltac:(lia) Hhi) as G.
  destruct (mmap_grow _ _ _ _ _) as [s1|[d s1]]; intros [= <- <- <-].
  - left. rewrite u64_small by (unfold is_u64; lia). split; [done|]. split; [done|].
    destruct G as (fl' & fr' & G1 & G2 & G3); [intros va Hva; apply user_va_range; unfold USER_REGION_BASE; lia|].
    split; [by exists fl', fr'|]. split; [done|]. split; [done|]. intros v Hv.
    destruct (hw_page _ _ _ _ _ (mp_owned _ _ _ _ _ _ _ _ _ _ G1) v (or_introl Hv)) as (_ & _ & _ & _ & _ & Hx & _).
    rewrite (mp_flags _ _ _ _ _ _ _ _ _ _ G1 v Hv) in Hx. eexists. split; [exact Hx|apply mmap_rights].
  - right. destruct G as (G1 & G2 & G3 & G4); [intros va Hva; apply user_va_range; unfold USER_REGION_BASE; lia|].
    split; [reflexivity|]. split; [done|].
    destruct (mmap_undo_ok s s1 (t_cr3 th) base d (mmap_flags prot) D fl fr G3 (mmap_flags_ok prot)) as (U1 & U2 & U3);
      try lia. split; [exact U1|]. split; [exact U2|]. split; [exact U3|].
    destruct G4 as [Hx|Hx]; [left; exists (base + d)|right; by exists s1, d]. split; [|exact Hx].
    split; [Z.div_mod_to_equations; lia|lia].
Qed.
End mmap.

Definition mmap_demo_thread : thread :=
  t_set_mmap_base (demo_va + 5) (t_set_cr3 demo_cr3 (t_set_is_user true thread_zero)).

Lemma mmap_demo_owned : owned (fun _ => 0) demo_mach demo_cr3 (fun _ => False) (fun _ => 0).
Proof. constructor; [exact demo_pages|exact demo_space|done|done]. Qed.

Lemma mmap_map_anonymous_correct_witness :
  exists s' t', mmap_map_anonymous demo_mach (Some mmap_demo_thread) 0 5000 2 = (demo_va + 4096, s', t') /\
    (exists t, t' = Some t /\ t_mmap_base t = demo_va + 12288) /\ owned (fun _ => 0) demo_mach demo_cr3 (fun _ => False) (fun _ => 0) /\
    exists fl' fr', mapped demo_mach s' demo_cr3 (mmap_flags 2) (fun _ => False)
      (pages_in (demo_va + 4096) (demo_va + 12288)) (fun _ => 0) (fun _ => 0) fl' fr'.
Proof.
  destruct (mmap_map_anonymous demo_mach (Some mmap_demo_thread) 0 5000 2) as [[r s'] t'] eqn:E.
  assert (Er : fst (fst (mmap_map_anonymous demo_mach (Some mmap_demo_thread) 0 5000 2)) = demo_va + 4096)
    by (vm_compute; reflexivity).
  rewrite E in Er. cbn [fst] in Er. subst r. exists s', t'. split; [reflexivity|].
  destruct (mmap_map_anonymous_correct demo_mach mmap_demo_thread 0 5000 2 (fun _ => False) (fun _ => 0) (fun _ => 0)
    _ s' t' eq_refl ltac:(unfold mmap_in_user; vm_compute; split_and!; congruence) mmap_demo_owned E)
    as [(_ & Et & Hm & _)|(Hr & _)]; [|vm_compute in Hr; discriminate].
  split; [eexists; split; [exact Et|reflexivity]|]. split; [exact mmap_demo_owned|]. exact Hm.
Defined.

(** ** Descriptor tables *)

(** Eight slots, and the counter tells how many are taken. *)
Record fd_wf (t : thread) : Prop := {
  fd_len : List.length (t_open_files t) = 8%nat;
  fd_count : t_open_file_count t = Z.of_nat (List.length (filter (fun p => p <> 0) (t_open_files t)))
}.

Lemma fd_get_slot t fd : List.length (t_open_files t) = 8%nat ->
  vfs_fd_get (Some t) fd = if (3 <=? fd) && (fd <? 11) then nth (Z.to_nat (fd - 3)) (t_open_files t) 0 else 0.
Proof.
  intros Hl. unfold vfs_fd_get, THREAD_MAX_OPEN_FILES.
  destruct (Z.ltb_spec fd 3), (Z.leb_spec 8 (fd - 3)), (Z.leb_spec 3 fd), (Z.ltb_spec fd 11); cbn; try lia; done.
Qed.

Lemma fd_get_insert t i p fd : List.length (t_open_files t) = 8%nat -> (i < 8)%nat ->
  vfs_fd_get (Some (t_set_open_files (<[i := p]> (t_open_files t)) t)) fd =
  if fd =? Z.of_nat i + 3 then p else vfs_fd_get (Some t) fd.
Proof.
  intros Hl Hi. rewrite !fd_get_slot by (cbn; rewrite ?length_insert; done). cbn [t_set_open_files t_open_files].
  destruct (Z.eqb_spec fd (Z.of_nat i + 3)) as [->|Hne].
  - replace (_ && _) with true by lia. replace (Z.to_nat _) with i by lia.
    rewrite nth_lookup, list_lookup_insert_eq by lia. done.
  - destruct (_ && _) eqn:E; [|done]. rewrite !nth_lookup, list_lookup_insert_ne by lia. done.
Qed.

Lemma count_insert (l : list Z) i old p : l !! i = Some old ->
  Z.of_nat (List.length (filter (fun q => q <> 0) (<[i := p]> l))) =
  Z.of_nat (List.length (filter (fun q => q <> 0) l)) + (if p =? 0 then 0 else 1) - (if old =? 0 then 0 else 1).
Proof.
  revert i. induction l as [|x l IH]; intros [|i] E; try done.
  - injection E as ->. change (<[0%nat := p]> (old :: l)) with (p :: l). rewrite !filter_cons.
    destruct (Z.eqb_spec p 0), (Z.eqb_spec old 0), (decide (p <> 0)), (decide (old <> 0)); cbn [List.length]; lia.
  - change (<[S i := p]> (x :: l)) with (x :: <[i := p]> l). rewrite !filter_cons. specialize (IH i E). destruct (decide (x <> 0)); cbn [List.length]; lia.
Qed.

(** The open files of a thread are a finite map from the descriptors 3
    to 10.  Allocation takes the lowest free descriptor, binds it and no
    other, and fails exactly when all are taken; closing unbinds one
    descriptor and frees its open file, and fails exactly on an unbound one;
    the counter stays the number of bound descriptors. *)
Theorem fd_table_correct t :
  fd_wf t ->
  (forall file, file <> 0 ->
     let '(fd, t') := vfs_fd_allocate t file in
     (fd = -1 /\ t' = t /\ forall k, 3 <= k < 11 -> vfs_fd_get (Some t) k <> 0) \/
     (3 <= fd < 11 /\ vfs_fd_get (Some t) fd = 0 /\ (forall k, 3 <= k < fd -> vfs_fd_get (Some t) k <> 0) /\
      fd_wf t' /\ forall k, vfs_fd_get (Some t') k = if k =? fd then file else vfs_fd_get (Some t) k)) /\
  (forall f fd,
     let '(r, f', t') := vfs_fd_close f (Some t) fd in
     let file := vfs_fd_get (Some t) fd in
     if file =? 0 then r = -1 /\ f' = f /\ t' = Some t
     else r = 0 /\ fs_files f' = delete file (fs_files f) /\
       exists th, t' = Some th /\ fd_wf th /\
         forall k, vfs_fd_get (Some th) k = if k =? fd then 0 else vfs_fd_get (Some t) k).
Proof.
  intros [Hl Hc]. split.
  - intros file Hfile. unfold vfs_fd_allocate. destruct (Z.eqb_spec file 0); [done|].
    destruct (list_find _ _) as [[i p]|] eqn:E.
    + apply list_find_Some in E as (Ei & -> & Hb). pose proof (lookup_lt_Some _ _ _ Ei) as Hlt. rewrite Hl in Hlt.
      right. split; [lia|]. split.
      { rewrite fd_get_slot by done. replace (_ && _) with true by lia. replace (Z.to_nat _) with i by lia.
        by rewrite nth_lookup, Ei. }
      split.
      { intros k Hk. rewrite fd_get_slot by done. replace (_ && _) with true by lia. rewrite nth_lookup.
        destruct (t_open_files t !! Z.to_nat (k - 3)) as [q|] eqn:Eq; [|apply lookup_ge_None in Eq; lia].
        cbn. apply (Hb _ _ Eq). lia. }
      split; [constructor; cbn|].
      * by rewrite length_insert.
      * rewrite (count_insert _ _ _ _ Ei), Hc. cbn. destruct (Z.eqb_spec file 0); [done|lia].
      * intros k. by rewrite <- fd_get_insert.
    + left. split; [done|]. split; [done|]. intros k Hk. rewrite fd_get_slot by done. replace (_ && _) with true by lia.
      rewrite nth_lookup. destruct (t_open_files t !! Z.to_nat (k - 3)) as [q|] eqn:Eq; [|apply lookup_ge_None in Eq; lia].
      cbn. rewrite list_find_None in E. apply list_elem_of_lookup_2 in Eq.
      rewrite Forall_forall in E. by apply E.
  - intros f fd. cbv zeta. unfold vfs_fd_close. rewrite fd_get_slot by done. unfold THREAD_MAX_OPEN_FILES.
    destruct (Z.ltb_spec fd 3); [by replace (_ && _) with false by lia|].
    destruct (Z.leb_spec 8 (fd - 3)); [by replace (_ && _) with false by lia|].
    replace (_ && _) with true by lia. cbn [orb]. rewrite !nth_lookup.
    destruct (t_open_files t !! Z.to_nat (fd - 3)) as [q|] eqn:Eq; [|apply lookup_ge_None in Eq; lia]. change (default 0 (Some q)) with q.
    destruct (Z.eqb_spec q 0) as [|Hq]; [done|]. split; [done|].
    split; [unfold vfs_close; by destruct (Z.eqb_spec q 0)|].
    eexists. split; [done|].
    assert (Hpos : 0 < t_open_file_count t).
    { rewrite Hc. pose proof (count_insert _ _ _ 0 Eq) as Hci. cbn in Hci. destruct (Z.eqb_spec q 0); [done|].
      lia. }
    cbn [t_open_file_count t_set_open_files]. destruct (Z.ltb_spec 0 (t_open_file_count t)); [|lia].
    split; [constructor; cbn|].
    + by rewrite length_insert.
    + rewrite (count_insert _ _ _ _ Eq), Hc. cbn. destruct (Z.eqb_spec q 0); [done|lia].
    + intros k. pose proof (fd_get_insert t (Z.to_nat (fd - 3)) 0 k Hl ltac:(lia)) as Hg.
      replace (Z.of_nat (Z.to_nat (fd - 3)) + 3) with fd in Hg by lia. exact Hg.
Qed.

Definition fd_demo : thread := t_set_open_file_count 2 (t_set_open_files [7; 0; 9; 0; 0; 0; 0; 0] thread_zero).

Lemma fd_table_correct_witness :
  fd_wf fd_demo /\ vfs_fd_get (Some (snd (vfs_fd_allocate fd_demo 5))) 4 = 5.
Proof.
  assert (Hw : fd_wf fd_demo) by (constructor; reflexivity).
  split; [exact Hw|]. destruct (fd_table_correct fd_demo Hw) as [Ha _]. specialize (Ha 5 ltac:(lia)).
  destruct (vfs_fd_allocate fd_demo 5) as [fd t'] eqn:E.
  assert (fd = 4) as -> by (vm_compute in E; congruence).
  destruct Ha as [(Hx & _)|(_ & _ & _ & _ & Hg)]; [discriminate|]. cbn [snd]. rewrite Hg. reflexivity.
Defined.

(** ** The handler and the scheduler *)

Section handler.
Context {B : Type} `{BlockOps B}.
Context (oom : Z -> bool) (junk : Z -> Z -> Z) (stack : list Z) (fuel : nat).
Context (cpu : nat) (frame : Z) (thread_addr : nat -> Z).
Implicit Types (y : sys B) (idle : gmap nat nat).

Definition ycore y : aview := core (y_sched y).

(** A call that leaves the view of the thread table alone. *)
Definition kept y (r : option (Z * sys B)) : Prop := forall f y', r = Some (f, y') -> ycore y' = ycore y.

Lemma kept_ret y v y1 : ycore y1 = ycore y -> kept y (ret frame v y1).
Proof. by intros E f y' [= <- <-]. Qed.

Lemma kept_none y : kept y None.
Proof. done. Qed.

Lemma kept_bind {X} y (e : option X) (k : X -> option (Z * sys B)) :
  (forall x, e = Some x -> kept y (k x)) -> kept y (e ≫= k).
Proof. intros Hk f y'. destruct e as [x|]; [|done]. by apply Hk. Qed.

Lemma user_put_core va bs : forall y y', user_put va bs y = Some y' -> ycore y' = ycore y.
Proof.
  revert va. induction bs as [|b bs IH]; intros va y y'; cbn; [by intros [= <-]|].
  intros (pa & _ & E)%bind_Some. by rewrite (IH _ _ _ E).
Qed.

Lemma put_addr_core a v y y' : put_addr a v y = Some y' -> ycore y' = ycore y.
Proof. unfold put_addr. destruct v; [|by intros [= <-]]. case_b; [by intros [= <-]|]. apply user_put_core. Qed.

Lemma dev_after_read_core file buf len y : ycore (dev_after_read file buf len y) = ycore y.
Proof. unfold dev_after_read. by repeat case_match. Qed.

Lemma dev_after_write_core file buf bs y : ycore (dev_after_write stack file buf bs y) = ycore y.
Proof. unfold dev_after_write. by repeat case_match. Qed.

Lemma file_read_core file buf len y n bs y' : file_read file buf len y = Some (n, bs, y') -> ycore y' = ycore y.
Proof.
  unfold file_read. intros ([[? ?] ?] & _ & [= <- <- <-])%bind_Some.
  transitivity (ycore (dev_after_read file buf len y)); [done|apply dev_after_read_core].
Qed.

Lemma file_write_core file buf bs y n y' : file_write oom junk stack file buf bs y = Some (n, y') -> ycore y' = ycore y.
Proof.
  unfold file_write. intros ([? ?] & _ & [= <- <-])%bind_Some.
  transitivity (ycore (dev_after_write stack file buf bs y)); [done|apply dev_after_write_core].
Qed.

Lemma stdin_core buf len arrivals : forall count shift y n y',
  stdin_read_chars arrivals buf len count shift y = Some (n, y') -> ycore y' = ycore y.
Proof.
  induction arrivals as [|codes arrivals IH]; intros count shift y n y'; cbn [stdin_read_chars].
  { case_b; [done|]. by intros [= <- <-]. }
  case_b; [|by intros [= <- <-]]. cbv zeta.
  destruct (input_read_key _) as [[ev i]|]; [|by intros ->%IH].
  repeat (case_b; [by intros ->%IH|]).
  intros (y1 & Hp%user_put_core & Hr)%bind_Some. case_b_in Hr.
  - injection Hr as <- <-. exact Hp.
  - by rewrite (IH _ _ _ _ _ Hr).
Qed.

Lemma upd_core i t t0 y : g_threads (y_sched y) !! i = Some t0 -> view t = view t0 -> ycore (y_upd i t y) = ycore y.
Proof.
  intros E Hv. unfold y_upd, ycore. cbn. rewrite (core_upd i _ (fun _ => view t)) by done.
  unfold a_alter. assert (El : a_ts (core (y_sched y)) !! i = Some (view t0)) by (apply core_lookup; eauto).
  destruct (core (y_sched y)) as [ts cur nid]. cbn in El |- *. f_equal.
  apply list_eq; intros j. destruct (decide (i = j)) as [->|].
  - rewrite list_lookup_alter_eq, El. cbn. by rewrite Hv.
  - by rewrite list_lookup_alter_ne.
Qed.

Lemma cur_thread_lookup y i t : cur_thread cpu y = Some (i, t) ->
  thread_current cpu (y_sched y) = Some i /\ g_threads (y_sched y) !! i = Some t.
Proof. unfold cur_thread. intros (j & E1 & (u & E2 & [= <- <-])%bind_Some)%bind_Some. done. Qed.

Lemma cur_user_lookup y i t : cur_user cpu y = Some (i, t) ->
  thread_current cpu (y_sched y) = Some i /\ g_threads (y_sched y) !! i = Some t /\ t_is_user t = true.
Proof.
  unfold cur_user. intros ([j u] & E1%cur_thread_lookup & E2)%bind_Some. destruct (t_is_user u) eqn:E; [|done].
  injection E2 as <- <-. by destruct E1.
Qed.

Lemma allocate_view t file fd t' : vfs_fd_allocate t file = (fd, t') -> view t' = view t.
Proof. unfold vfs_fd_allocate. case_b; [by intros [= <- <-]|]. case_match; [case_match|]; by intros [= <- <-]. Qed.

Lemma close_view f t fd r f' t' : vfs_fd_close f (Some t) fd = (r, f', t') -> exists th, t' = Some th /\ view th = view t.
Proof.
  unfold vfs_fd_close. case_b; [intros [= <- <- <-]; by exists t|]. case_b; [intros [= <- <- <-]; by exists t|].
  intros [= <- <- <-]. eexists. split; [done|]. by case_b.
Qed.

Ltac core_facts :=
  repeat match goal with
  | E : user_put _ _ _ = Some _ |- _ => apply user_put_core in E
  | E : put_addr _ _ _ = Some _ |- _ => apply put_addr_core in E
  | E : file_read _ _ _ _ = Some _ |- _ => apply file_read_core in E
  | E : file_write _ _ _ _ _ _ _ = Some _ |- _ => apply file_write_core in E
  | E : stdin_read_chars _ _ _ _ _ _ = Some _ |- _ => apply stdin_core in E
  end.

Ltac core_done :=
  core_facts; unfold ycore in *;
  repeat match goal with E : core (y_sched _) = _ |- core _ = _ => refine (eq_trans E _); clear E end; reflexivity.

Ltac kept_step :=
  match goal with
  | |- kept _ (ret _ _ _) => apply kept_ret
  | |- kept _ None => apply kept_none
  | |- kept _ (_ ≫= _) => apply kept_bind; intros ? ?; cbv beta
  | |- kept _ (let _ := _ in _) => cbv zeta
  | |- kept _ (if ?b then _ else _) => destruct b eqn:?
  | |- kept _ (match ?x with _ => _ end) => destruct x eqn:?
  end.

Ltac kept_auto := repeat kept_step; try reflexivity; try (core_done; fail).

Lemma sys_write_kept y : kept y (sys_write oom junk stack cpu frame y).
Proof. unfold sys_write. kept_auto. Qed.

Lemma sys_read_kept arrivals y : kept y (sys_read cpu frame arrivals y).
Proof. unfold sys_read. kept_auto. Qed.

(** Storing a thread record whose view did not change. *)
Ltac upd_done :=
  match goal with
  | E : g_threads (y_sched ?y1) !! ?i = Some ?t0 |- ycore (y_upd ?i ?t ?y1) = ycore _ =>
      transitivity (ycore y1); [apply (upd_core i t t0 y1 E)|reflexivity]
  end.

Lemma sys_open_kept y : kept y (sys_open oom fuel cpu frame y).
Proof. unfold sys_open. kept_auto. upd_done. by eapply allocate_view. Qed.

Lemma sys_close_kept y : kept y (sys_close cpu frame y).
Proof.
  unfold sys_close. kept_auto. match goal with E : cur_thread _ _ = Some _ |- _ => apply cur_thread_lookup in E as [_ E] end.
  match goal with E : vfs_fd_close _ _ _ = _ |- _ => apply close_view in E as (th & -> & Hv) end.
  match goal with E : g_threads _ !! ?i = Some ?t0 |- ycore (y_upd ?i ?t ?y1) = _ =>
    transitivity (ycore y1); [by apply (upd_core i t t0 y1)|reflexivity] end.
Qed.

Lemma sys_lseek_kept y : kept y (sys_lseek cpu frame y).
Proof. unfold sys_lseek. kept_auto. Qed.

Lemma sys_readdir_kept y : kept y (sys_readdir cpu frame y).
Proof. unfold sys_readdir. kept_auto. Qed.

Lemma sys_getpid_kept y : kept y (sys_getpid cpu frame y).
Proof. unfold sys_getpid. kept_auto. Qed.

Lemma sys_info_kept y :
  kept y (sys_gettimeofday frame y) /\ kept y (sys_uname frame y) /\ kept y (sys_sysinfo frame y).
Proof. unfold sys_gettimeofday, sys_uname, sys_sysinfo. split_and!; kept_auto. Qed.

Lemma sys_net_kept y :
  kept y (sys_socket cpu frame y) /\ kept y (sys_bind frame y) /\ kept y (sys_sendto frame y) /\
  kept y (sys_recvfrom frame y) /\ kept y (sys_connect frame y) /\ kept y (sys_listen frame y) /\
  kept y (sys_accept frame y) /\ kept y (sys_netif_get frame y) /\ kept y (sys_netif_set frame y) /\
  kept y (sys_route_get frame y) /\ kept y (sys_route_add frame y) /\ kept y (sys_net_socket_get frame y).
Proof.
  unfold sys_socket, sys_bind, sys_sendto, sys_recvfrom, sys_connect, sys_listen, sys_accept, sys_netif_get,
    sys_netif_set, sys_route_get, sys_route_add, sys_net_socket_get, put_record.
  split_and!; kept_auto.
Qed.

Lemma sys_brk_kept y : kept y (sys_brk cpu frame y).
Proof.
  unfold sys_brk. kept_auto. match goal with E : cur_user _ _ = Some _ |- _ => apply cur_user_lookup in E as (_ & E & _) end.
  match goal with E : g_threads _ !! ?i = Some ?t0 |- ycore (y_upd ?i ?t ?y1) = _ =>
    transitivity (ycore y1); [by apply (upd_core i t t0 y1)|reflexivity] end.
Qed.

Lemma mmap_view (s : mach pmm) t addr len prot r s' t' :
  mmap_map_anonymous s (Some t) addr len prot = (r, s', t') -> exists th, t' = Some th /\ view th = view t.
Proof.
  unfold mmap_map_anonymous. case_b; [intros [= <- <- <-]; by exists t|].
  destruct (mmap_grow _ _ _ _ _) as [s1|[d s1]]; injection 1 as _ _ <-; eexists; (split; [done|]); [by case_b|done].
Qed.

Lemma sys_mmap_kept y : kept y (sys_mmap cpu frame y).
Proof.
  unfold sys_mmap. kept_auto. match goal with E : cur_user _ _ = Some _ |- _ => apply cur_user_lookup in E as (_ & E & _) end.
  match goal with E : mmap_map_anonymous _ _ _ _ _ = _ |- _ => apply mmap_view in E as (th & -> & Hv) end.
  match goal with E : g_threads _ !! ?i = Some ?t0 |- ycore (y_upd ?i ?t ?y1) = _ =>
    transitivity (ycore y1); [by apply (upd_core i t t0 y1)|reflexivity] end.
Qed.

Lemma y_kmalloc_core n y r y' : y_kmalloc fuel n y = Some (r, y') -> ycore y' = ycore y.
Proof. unfold y_kmalloc. by intros ([? ?] & _ & [= <- <-])%bind_Some. Qed.

Lemma y_kfree_opt_core p y y' : y_kfree_opt fuel p y = Some y' -> ycore y' = ycore y.
Proof. unfold y_kfree_opt, y_kfree. case_b; [by intros [= <-]|]. by intros (? & _ & [= <-])%bind_Some. Qed.

Definition outcome {X} (r : sys B + X * sys B) : sys B := match r with inl y => y | inr (_, y) => y end.

Lemma exec_read_core file y r : exec_read fuel file y = Some r -> ycore (outcome r) = ycore y.
Proof.
  unfold exec_read. intros (fl & _ & Hr)%bind_Some. case_b_in Hr; [by injection Hr as <-|].
  apply bind_Some in Hr as (nd & _ & Hr). cbv zeta in Hr. case_b_in Hr; [by injection Hr as <-|].
  apply bind_Some in Hr as ([data y1] & Ek%y_kmalloc_core & Hr). case_b_in Hr; [by injection Hr as <-|].
  apply bind_Some in Hr as ([[n bs] y2] & Ef%file_read_core & Hr).
  assert (Ey : ycore y2 = ycore y) by congruence. case_b_in Hr.
  - apply bind_Some in Hr as (y3 & Eq & [= <-]). unfold y_kfree in Eq. apply bind_Some in Eq as (h & _ & [= <-]). exact Ey.
  - by injection Hr as <-.
Qed.

Lemma exec_load_core data size y r : exec_load fuel data size y = Some r -> ycore (outcome r) = ycore y.
Proof.
  unfold exec_load. destruct (vmm_create_user_space _) as [cr3 v]. cbv zeta. case_b.
  - by intros (y1 & E1%y_kfree_opt_core & [= <-])%bind_Some.
  - intros ([r1 s1] & _ & Hr)%bind_Some. cbv zeta in Hr. apply bind_Some in Hr as (y1 & E1%y_kfree_opt_core & Hr).
    destruct r1 as [[entry brk]|]; injection Hr as <-; exact E1.
Qed.

Lemma exec_stack_core cr3 y : ycore (outcome (exec_stack cr3 y)) = ycore y.
Proof.
  unfold exec_stack. cbv zeta. destruct (pa_alloc _ _) as [st pg]. case_b; [done|].
  by destruct (vmm_map_range _ _ _ _ _ _) as [[] ?].
Qed.

Lemma exec_switch_kept i t cr3 st entry brk y : kept y (exec_switch frame i t cr3 st entry brk y).
Proof.
  unfold exec_switch. cbv zeta. apply kept_ret. case_b.
  all: unfold ycore; cbn; apply (core_upd_same i (exec_thread cr3 st brk) (y_sched y)); done.
Qed.

Lemma kept_trans y y1 r : ycore y1 = ycore y -> kept y1 r -> kept y r.
Proof. intros E Hk f y' Er. rewrite <- E. by apply (Hk f). Qed.

Lemma sys_execve_kept y : kept y (sys_execve oom fuel cpu frame y).
Proof.
  unfold sys_execve. destruct (cur_user cpu y) as [[i t]|]; [|by apply kept_ret]. cbv zeta.
  apply kept_bind; intros [file f] _. apply (kept_trans y (y_set_fs f y)); [done|]. set (y0 := y_set_fs f y). clearbody y0.
  case_b; [by apply kept_ret|]. apply kept_bind; intros r1 E1%exec_read_core.
  destruct r1 as [y1|[[data size] y1]]; [by apply kept_ret|]. apply (kept_trans _ y1); [exact E1|].
  apply kept_bind; intros r2 E2%exec_load_core.
  destruct r2 as [y2|[[[entry brk] cr3] y2]]; [by apply kept_ret|]. apply (kept_trans _ y2); [exact E2|].
  pose proof (exec_stack_core cr3 y2) as E3. destruct (exec_stack cr3 y2) as [y3|[st y3]]; [by apply kept_ret|].
  apply (kept_trans _ y3); [exact E3|]. apply exec_switch_kept.
Qed.

Abbreviation handle := (syscall_handle oom junk stack fuel cpu frame thread_addr).

(** Calls that keep the scheduler's invariant. *)
Definition safe idle (r : option (Z * sys B)) : Prop := forall f y', r = Some (f, y') -> sok idle (y_sched y').

Lemma kept_safe idle y r : sok idle (y_sched y) -> kept y r -> safe idle r.
Proof. intros Hs Hk f y' E. unfold sok. by rewrite (Hk f y' E : core _ = core _). Qed.

Lemma sched_ret_safe idle y (r : option (Z * sched pmm)) :
  (exists f s', r = Some (f, s') /\ sok idle s') -> safe idle (sched_ret r y).
Proof. intros (f & s' & -> & Hs) f' y' [= <- <-]. exact Hs. Qed.

Section serve.
Context (idle : gmap nat nat) (y : sys B) (i : nat) (t : thread).
Hypothesis Hok : sok idle (y_sched y).
Hypothesis Hidle : is_Some (idle !! cpu).
Hypothesis Hids : ids_left (y_sched y).
Hypothesis Hcur : cur_thread cpu y = Some (i, t).
Hypothesis Huser : t_is_user t = true.

Lemma cpu_lt : (cpu < 8)%nat.
Proof. destruct Hidle as [b Hb]. by eapply idle_cpu_lt. Qed.

Lemma cur_on : current_on (core (y_sched y)) cpu i.
Proof.
  destruct (cur_thread_lookup y i t Hcur) as [E _]. rewrite thread_current_eq in E by apply cpu_lt.
  unfold current_on. cbn. destruct (g_current (y_sched y) !! cpu) as [c|]; [|done]. cbn in E. by rewrite E.
Qed.

Lemma not_boot : forall c' j, current_on (core (y_sched y)) cpu j -> idle !! c' <> Some j.
Proof.
  intros c' j Hj. assert (j = i) as -> by (pose proof cur_on; unfold current_on in *; congruence).
  destruct (cur_thread_lookup y i t Hcur) as [_ Et]. by eapply user_not_idle.
Qed.

Lemma serve_yield : safe idle (sys_yield cpu frame y).
Proof. destruct Hidle as [b Hb]. unfold sys_yield. apply sched_ret_safe. by eapply yield_ok. Qed.

Lemma serve_waitpid : safe idle (sys_waitpid cpu frame y).
Proof.
  destruct Hidle as [b Hb]. unfold sys_waitpid. apply sched_ret_safe. eapply waitpid_ok; [done|done|apply not_boot].
Qed.

Lemma serve_exit : safe idle (sys_exit cpu frame y).
Proof.
  destruct Hidle as [b Hb]. unfold sys_exit. apply sched_ret_safe. eapply on_exit_ok; [done|done|apply not_boot].
Qed.

Lemma serve_fork : safe idle (sys_fork oom cpu frame thread_addr y).
Proof. unfold sys_fork. intros f y' [= <- <-]. by apply fork_ok. Qed.

Lemma serve_kill : kill_safe (y_sched y) cpu (i32 (reg y (f_rdi frame))) -> safe idle (sys_kill cpu frame y).
Proof.
  intros Hk. destruct Hidle as [b Hb]. unfold sys_kill. rewrite Hcur. case_b.
  - apply sched_ret_safe. eapply on_exit_ok; [done|done|apply not_boot].
  - pose proof (kill_ok idle (y_sched y) cpu (i32 (reg y (f_rdi frame))) (i32 (reg y (f_rsi frame))) Hok cpu_lt Hk) as Hs.
    destruct (scheduler_kill _ _ _ _) as [r s1]. intros f y' [= <- <-]. exact Hs.
Qed.

Lemma serve_sleep : safe idle (sys_sleep cpu frame y).
Proof.
  unfold sys_sleep. cbv zeta. case_b; [by apply (kept_safe idle y); [|apply kept_ret]|].
  match goal with |- safe _ (scheduler_sleep _ ?n ?k _ ≫= _) =>
    destruct (sleep_ok idle (y_sched y) cpu i n k Hok cpu_lt cur_on (fun c' => not_boot c' i cur_on)) as (s1 & -> & Hs) end.
  cbn [mbind option_bind]. intros f y' ([j u] & _ & [= <- <-])%bind_Some. exact Hs.
Qed.
End serve.

(** A system call from user mode keeps the invariant of the thread
    table, whichever call it is, whatever its arguments and whether it
    succeeds: no thread becomes current on two processors, no free or zombie
    thread stays current, running threads stay the current ones and thread
    ids stay unique.  A kill is assumed not to hit a thread that another
    processor is running. *)
Lemma syscall_keeps_threads idle y arrivals f y' :
  sok idle (y_sched y) -> is_Some (idle !! cpu) -> ids_left (y_sched y) ->
  Z.land (reg y (f_cs frame)) 3 = 3 ->
  (reg y (frame_rax frame) = SYS_kill -> kill_safe (y_sched y) cpu (i32 (reg y (f_rdi frame)))) ->
  handle arrivals y = Some (f, y') -> sok idle (y_sched y').
Proof.
  intros Hok Hidle Hids Hcs Hkill. revert f y'. change (safe idle (handle arrivals y)). unfold syscall_handle. rewrite Hcs.
  change (3 =? 3) with true. cbn [andb negb].
  assert (Hk : forall r, kept y r -> safe idle r) by (intros r; by apply kept_safe).
  destruct (cur_thread cpu y) as [[i t]|] eqn:Ec; [|cbn [negb]; apply Hk; by apply kept_ret].
  destruct (t_is_user t) eqn:Eu; cbn [negb]; [|apply Hk; by apply kept_ret].
  unfold syscall_switch. cbv zeta.
  destruct (sys_info_kept y) as (I1 & I2 & I3).
  destruct (sys_net_kept y) as (N1 & N2 & N3 & N4 & N5 & N6 & N7 & N8 & N9 & N10 & N11 & N12).
  repeat match goal with |- safe _ (if ?n =? ?k then _ else _) => destruct (Z.eqb_spec n k) end;
    try (apply Hk; solve [apply sys_write_kept|apply sys_execve_kept|apply sys_brk_kept|apply sys_open_kept
      |apply sys_read_kept|apply sys_lseek_kept|apply sys_getpid_kept|apply sys_mmap_kept|apply sys_close_kept
      |apply sys_readdir_kept|by apply kept_ret|assumption]).
  - by apply serve_fork.
  - by eapply serve_waitpid.
  - by eapply serve_exit.
  - by eapply serve_yield.
  - eapply serve_kill; eauto.
  - by eapply serve_sleep.
Qed.

(** The one call the kernel makes itself, the yield of scheduler_sleep
    (scheduler.c:437): a kernel thread is switched away from, a user thread is
    refused. *)
Lemma kernel_yield_keeps_threads idle y arrivals f y' :
  sok idle (y_sched y) -> is_Some (idle !! cpu) ->
  Z.land (reg y (f_cs frame)) 3 <> 3 -> reg y (frame_rax frame) = SYS_yield ->
  handle arrivals y = Some (f, y') -> sok idle (y_sched y').
Proof.
  intros Hok Hidle Hcs Hn. revert f y'. change (safe idle (handle arrivals y)). unfold syscall_handle.
  rewrite (proj2 (Z.eqb_neq _ _) Hcs). cbn [andb negb]. case_b; [apply (kept_safe idle y); [done|by apply kept_ret]|].
  unfold syscall_switch. rewrite Hn. by apply serve_yield.
Qed.

(** The state after a refused call: -1 in rax of the frame, a line on the
    console, and nothing else. *)
Definition refused y (line : list Z) y' : Prop :=
  reg y' (frame_rax frame) = 2 ^ 64 - 1 /\
  (forall x, ~ (frame_rax frame <= x < frame_rax frame + 8) -> ld8 (y_mem y') x = ld8 (y_mem y) x) /\
  y_out y' = y_out y ++ (ConPutc <$> line) /\
  y' = y_log (ConPutc <$> line) (y_set_mem (y_mem y') y).

Lemma ret_refused y line : exists y', ret frame (-1) (console_puts line y) = Some (frame, y') /\ refused y line y'.
Proof.
  eexists. split; [reflexivity|]. unfold refused. cbn -[Z.pow]. split_and!; [|intros x Hx|done|reflexivity].
  - unfold reg, y_mem. cbn -[Z.pow]. unfold s_mem. cbn -[Z.pow]. rewrite ld64_st64_same; [reflexivity|]. apply u64_range.
  - unfold y_mem, s_mem. cbn. rewrite ld8_stn. in_range_cases; [lia|done].
Qed.

(** C34: who is served.  A call whose processor mode does not fit the
    current thread (user mode without a user thread, or kernel mode with
    one), and a call with a number the table does not have, returns -1 and
    changes nothing but the result register and the console. *)
Theorem syscall_refuses y arrivals :
  let from_user := Z.land (reg y (f_cs frame)) 3 =? 3 in
  let is_user := match cur_thread cpu y with Some (_, t) => t_is_user t | None => false end in
  (from_user <> is_user -> exists line y', handle arrivals y = Some (frame, y') /\ refused y line y') /\
  (reg y (frame_rax frame) = 0 \/ 31 < reg y (frame_rax frame) ->
     exists line y', handle arrivals y = Some (frame, y') /\ refused y line y').
Proof.
  intros from_user is_user. unfold syscall_handle. fold from_user is_user. clearbody from_user is_user. split.
  - intros Hne. destruct from_user, is_user; try done; cbn [andb negb]; eexists; apply ret_refused.
  - intros Hn. destruct from_user, is_user; cbn [andb negb]; try (eexists; apply ret_refused);
      unfold syscall_switch; cbv zeta;
      repeat match goal with |- context [?n =? ?k] => destruct (Z.eqb_spec n k) as [En|_];
        [exfalso; rewrite En in Hn; destruct Hn as [Hn|Hn]; vm_compute in Hn; discriminate|] end;
      eexists; apply ret_refused.
Qed.
End handler.

(** A user thread that runs on the small machine and exits. *)
Definition lab_sys : sys ram_disk :=
  mk_sys (s_set_mem (st64 (st64 (s_mem lab_u) (f_cs 2000) 27) (frame_rax 2000) SYS_exit) lab_u)
    0 0 net_init input_zero (mk_pit 6 100) (mk_clock 0 true) demo_disk ∅ [].

Lemma syscall_keeps_threads_witness :
  exists f y', syscall_handle lab_oom (fun _ _ => 0) [] 9 O 2000 lab_addr [] lab_sys = Some (f, y') /\
    sok {[ O := O ]} (y_sched lab_sys) /\ sok {[ O := O ]} (y_sched y').
Proof.
  assert (Hs : sok {[ O := O ]} (y_sched lab_sys)).
  { unfold sok, lab_sys. cbn [y_sched]. rewrite core_set_mem. exact (reach_ok lab_addr 32768 lab_oom _ _ lab_reach_u). }
  destruct (syscall_handle lab_oom (fun _ _ => 0) [] 9 O 2000 lab_addr [] lab_sys) as [[f y']|] eqn:E.
  - exists f, y'. split; [reflexivity|]. split; [exact Hs|].
    refine (syscall_keeps_threads lab_oom (fun _ _ => 0) [] 9 O 2000 lab_addr {[ O := O ]} lab_sys [] f y' Hs _ _ _ _ E).
    + exists O. reflexivity.
    + unfold ids_left. replace (g_next_id (y_sched lab_sys)) with 2 by (vm_compute; reflexivity). lia.
    + vm_compute. reflexivity.
    + intros Hk. vm_compute in Hk. discriminate Hk.
  - exfalso. assert (Hd : match syscall_handle lab_oom (fun _ _ => 0) [] 9 O 2000 lab_addr [] lab_sys with
      Some _ => true | None => false end = true) by (vm_compute; reflexivity).
    rewrite E in Hd. discriminate Hd.
Defined.
