(* ===== verification/SyscallIo.v ===== *)
(** * System calls that move data (src/syscall.c)

    User buffers through the page tables, the line discipline of reads from
    the console, and reads and writes of files. *)

From Stdlib Require Import String.
From stdpp Require Import prelude list gmap.
From Stdlib Require Import ZArith Lia.
From S2P Require Import Prelude Lib Alloc Pmm Vmm VmmSpec Ring Net Io Input Time Vfs VfsSpec Sched SchedSpec SchedProc Elf ElfSpec Devfs Tarfs Console Syscall SyscallSpec.
#[local] Open Scope string_scope.
#[local] Open Scope list_scope.
#[local] Open Scope Z_scope.
#[local] Open Scope cint_scope.

Section user_mem.
Context {B : Type} `{BlockOps B}.
Implicit Types (y : sys B) (D : Z -> Prop) (fr fl : Z -> Z).

Definition upage (va : Z) : Z := va / 4096 * 4096.

(** Where an owned user page keeps the byte at [va]. *)
Definition upa fr (va : Z) : Z := fr (upage va) + va mod 4096.

(** A user buffer of [n] bytes on pages the active space owns. *)
Record user_area fl y D fr (va n : Z) : Prop := {
  ua_owned : owned fl (y_mach y) (cpu_cr3 (y_vmm y)) D fr;
  ua_flags v : D v -> flags_ok (fl v);
  ua_range : USER_REGION_BASE <= va /\ va + n <= 2 ^ 47;
  ua_pages k : 0 <= k < n -> D (upage (va + k))
}.

Lemma ua_sub fl y D fr va n va' n' : user_area fl y D fr va n -> va <= va' -> va' + n' <= va + n ->
  user_area fl y D fr va' n'.
Proof.
  intros [Ho Hf [Hr1 Hr2] Hp] Hle Hle'. constructor; [done|done|lia|]. intros k Hk.
  replace (va' + k) with (va + (va' - va + k)) by lia. apply Hp. lia.
Qed.

Lemma user_pa_area fl y D fr va n k : user_area fl y D fr va n -> 0 <= k < n ->
  user_pa y (va + k) = Some (upa fr (va + k)).
Proof.
  intros [Ho Hf [Hr1 Hr2] Hp] Hk. specialize (Hp k Hk). unfold USER_REGION_BASE in Hr1. unfold user_pa, upa.
  replace (va + k) with (upage (va + k) + (va + k) mod 4096) at 1 by (unfold upage; Z.div_mod_to_equations; lia).
  rewrite (resolve_owned fl _ _ D fr (upage (va + k)) ((va + k) mod 4096) Ho (Hf _ Hp) Hp); [done|apply Z.mod_pos_bound; lia|].
  replace (upage (va + k) + (va + k) mod 4096) with (va + k) by (unfold upage; Z.div_mod_to_equations; lia).
  apply user_va_range. unfold USER_REGION_BASE. lia.
Qed.

Lemma upa_inj fl y D fr va n i j : user_area fl y D fr va n -> 0 <= i < n -> 0 <= j < n ->
  upa fr (va + i) = upa fr (va + j) -> i = j.
Proof.
  intros [Ho Hf _ Hp] Hi Hj E. pose proof (Hp i Hi) as Di. pose proof (Hp j Hj) as Dj.
  destruct (hw_page _ _ _ _ _ Ho _ Di) as (_ & _ & [Fi _] & _). destruct (hw_page _ _ _ _ _ Ho _ Dj) as (_ & _ & [Fj _] & _).
  unfold upa in E. destruct (frame_offset_inj _ _ _ _ Fi Fj E) as [E1 E2].
  pose proof (hw_inj _ _ _ _ _ Ho _ _ Di Dj E1) as E3. unfold upage in E3. Z.div_mod_to_equations; lia.
Qed.

(** A byte stored in the area keeps the page tables as they are. *)
Lemma area_store fl y D fr va n k b : user_area fl y D fr va n -> 0 <= k < n ->
  user_area fl (y_set_mem (st8 (y_mem y) (upa fr (va + k)) b) y) D fr va n.
Proof.
  intros Ha Hk. pose proof Ha as [Ho Hf Hr Hp]. constructor; [|done|done|done].
  apply (owned_write fl (y_mach y)); [done|]. intros x Hx0. change (m_mem (y_mach y)) with (y_mem y). rewrite ld8_st8.
  destruct (Z.eqb_spec x (upa fr (va + k))) as [->|]; [|by right]. left.
  destruct (hw_page _ _ _ _ _ Ho _ (Hp k Hk)) as (_ & _ & [Fv _] & F0 & _ & _ & HF).
  apply (foreign_page _ _ (fr (upage (va + k)))); [exact HF|exact Hx0|]. unfold upa. by apply frame_offset_page.
Qed.

(** The memory after storing [bs] at the start of an area. *)
Definition stored fr (va : Z) (bs : list Z) (m m' : mem) : Prop :=
  (forall k, 0 <= k < Z.of_nat (length bs) -> ld8 m' (upa fr (va + k)) = u8 (nth (Z.to_nat k) bs 0)) /\
  (forall x, (forall k, 0 <= k < Z.of_nat (length bs) -> x <> upa fr (va + k)) -> ld8 m' x = ld8 m x).

Lemma user_put_ok fl D fr n bs : forall y va, user_area fl y D fr va n -> Z.of_nat (length bs) <= n ->
  exists m', user_put va bs y = Some (y_set_mem m' y) /\ user_area fl (y_set_mem m' y) D fr va n /\
    stored fr va bs (y_mem y) m'.
Proof.
  revert n. induction bs as [|b bs IH]; intros n y va Ha Hn.
  - exists (y_mem y). split; [by destruct y as [[? ? ? ? ? [[? ?] ? ? ?] ? ?]]|].
    split; [|split; [intros k; cbn; lia|done]]. by destruct y as [[? ? ? ? ? [[? ?] ? ? ?] ? ?]].
  - cbn [length] in Hn. pose proof (user_pa_area fl y D fr va n 0 Ha ltac:(lia)) as Epa. rewrite Z.add_0_r in Epa.
    cbn [user_put]. rewrite Epa. cbn [mbind option_bind].
    pose proof (area_store fl y D fr va n 0 b Ha ltac:(lia)) as Ha1. rewrite Z.add_0_r in Ha1.
    set (y1 := y_set_mem (st8 (y_mem y) (upa fr va) b) y) in *.
    assert (Eva : va +% 1 = va + 1).
    { apply u64_small. destruct Ha as [_ _ [? ?] _]. unfold USER_REGION_BASE in *. unfold is_u64. lia. }
    destruct (IH (n - 1) y1 (va + 1) (ua_sub fl y1 D fr va n (va + 1) (n - 1) Ha1 ltac:(lia) ltac:(lia)) ltac:(lia)) as (m' & E & Ha2 & Hs1 & Hs2).
    rewrite Eva, E. exists m'. split; [reflexivity|].
    assert (Ha' : user_area fl (y_set_mem m' y) D fr va n).
    { destruct Ha2 as [O2 _ _ _], Ha1 as [_ F1 R1 P1]. constructor; [exact O2|exact F1|exact R1|exact P1]. }
    split; [exact Ha'|]. split.
    + intros k Hk. cbn [length] in Hk. destruct (Z.eq_dec k 0) as [->|Hne].
      * rewrite Z.add_0_r, Hs2.
        -- change (y_mem y1) with (st8 (y_mem y) (upa fr va) b). rewrite ld8_st8, Z.eqb_refl. done.
        -- intros j Hj Ec. replace va with (va + 0) in Ec at 1 by lia.
           replace (va + 1 + j) with (va + (1 + j)) in Ec by lia.
           apply (upa_inj fl y D fr va n) in Ec; [lia|done|lia|lia].
      * replace (va + k) with (va + 1 + (k - 1)) by lia. rewrite Hs1 by lia.
        replace (Z.to_nat k) with (S (Z.to_nat (k - 1))) by lia. done.
    + intros x Hx. rewrite Hs2.
      * change (y_mem y1) with (st8 (y_mem y) (upa fr va) b). rewrite ld8_st8.
        destruct (Z.eqb_spec x (upa fr va)) as [->|]; [|done]. exfalso. apply (Hx 0); [cbn [length]; lia|by rewrite Z.add_0_r].
      * intros k Hk. replace (va + 1 + k) with (va + (k + 1)) by lia. apply Hx. cbn [length]. lia.
Qed.

Lemma area_wrap fl y D fr va n k : user_area fl y D fr va n -> 0 <= k < n -> va +% k = va + k.
Proof. intros [_ _ [? ?] _] Hk. unfold USER_REGION_BASE in *. apply u64_small. unfold is_u64. lia. Qed.

Lemma user_bytes_area fl y D fr va n m : user_area fl y D fr va n -> m <= n ->
  user_ok y va m = true /\
  user_bytes y va m = (fun k => ld8 (y_mem y) (upa fr (va + Z.of_nat k))) <$> seq 0 (Z.to_nat m).
Proof.
  intros Ha Hm. split.
  - unfold user_ok. apply forallb_forall. intros k Hk%in_seq. apply bool_decide_eq_true.
    rewrite (area_wrap _ _ _ _ _ _ _ Ha) by lia. rewrite (user_pa_area _ _ _ _ _ _ _ Ha) by lia. done.
  - unfold user_bytes. apply list_fmap_ext. intros i k [-> Hk]%lookup_seq. cbn. unfold user_mem.
    rewrite (area_wrap _ _ _ _ _ _ _ Ha) by lia. rewrite (user_pa_area _ _ _ _ _ _ _ Ha) by lia. done.
Qed.

(** What was stored is read back. *)
Lemma stored_bytes fl y D fr va n bs m m' : user_area fl y D fr va n -> Z.of_nat (length bs) <= n ->
  y_mem y = m' -> stored fr va bs m m' -> Forall is_u8 bs -> user_bytes y va (Z.of_nat (length bs)) = bs.
Proof.
  intros Ha Hn Em [Hs _] Hb. destruct (user_bytes_area _ _ _ _ _ _ _ Ha Hn) as [_ ->].
  apply list_eq. intros i. rewrite list_lookup_fmap, Nat2Z.id. destruct (decide (i < length bs)%nat) as [Hi|Hi].
  - rewrite lookup_seq_lt by lia. cbn. rewrite Em, Hs by lia. rewrite Nat2Z.id.
    destruct (lookup_lt_is_Some_2 bs i Hi) as [x Ex]. rewrite nth_lookup, Ex. cbn. f_equal. apply u8_small.
    by eapply Forall_lookup_1.
  - rewrite lookup_seq_ge by lia. cbn. symmetry. apply lookup_ge_None. lia.
Qed.
End user_mem.

(** ** The line discipline *)

(** The keys of a US keyboard, row by row: the scan code of a row's first
    key, the characters of its keys and their characters with shift. *)
Definition us_rows : list (Z * list Z * list Z) := [
  (2, text "1234567890-=", text "!@#$%^&*()_+");
  (16, text "qwertyuiop[]", text "QWERTYUIOP{}");
  (30, text "asdfghjkl;'`", text "ASDFGHJKL:" ++ [34] ++ text "~");
  (43, text "\zxcvbnm,./", text "|ZXCVBNM<>?");
  (55, text "*", text "*"); (57, text " ", text " ");
  (71, text "789-456+1230.", text "789-456+1230.");
  (1, [27], [27]); (15, [9], [9]); (28, [10], [10])].

Definition on_row (sc : Z) (shift : bool) (row : Z * list Z * list Z) : option Z :=
  let '(first, plain, shifted) := row in
  if sc <? first then None else (if shift then shifted else plain) !! Z.to_nat (sc - first).

(** The character on a key, if it has one. *)
Definition us_char (sc : Z) (shift : bool) : option Z := head (omap (on_row sc shift) us_rows).

(** What a key means while a line is typed. *)
Inductive key_act := KNone | KShift (on : bool) | KScroll (lines : Z) | KBack | KChar (c : Z).

Definition is_shift (sc : Z) : bool := (sc =? 42) || (sc =? 54).

Definition key_meaning (shift : bool) (ev : key_event) : key_act :=
  let sc := ke_scancode ev in
  if ke_pressed ev =? 0 then if is_shift sc then KShift false else KNone
  else if sc =? 73 then KScroll 25
  else if sc =? 81 then KScroll (-25)
  else if sc =? 72 then KScroll 1
  else if sc =? 80 then KScroll (-1)
  else if is_shift sc then KShift true
  else if sc =? 14 then KBack
  else match us_char sc shift with Some c => KChar c | None => KNone end.

(** The code's two tables are that keyboard; its backspace is a character
    of its own. *)
Lemma scancode_us sc shift :
  scancode_to_char sc shift = if sc =? 14 then 8 else default 0 (us_char sc shift).
Proof.
  destruct (Z.ltb_spec sc 0) as [Hn|Hn]; [|destruct (Z.ltb_spec sc 128) as [Hl|Hl]].
  - unfold scancode_to_char. rewrite (proj2 (Z.leb_gt 128 sc)), (proj2 (Z.eqb_neq sc 14)) by lia.
    assert (E : us_char sc shift = None).
    { unfold us_char, us_rows. cbn [omap list_omap on_row]. by rewrite !(proj2 (Z.ltb_lt sc _)) by lia. }
    rewrite E. replace (Z.to_nat sc) with O by lia. by destruct shift.
  - assert (H : forallb (fun k => forallb (fun sh =>
        scancode_to_char (Z.of_nat k) sh =? if Z.of_nat k =? 14 then 8 else default 0 (us_char (Z.of_nat k) sh))
        [false; true]) (seq 0 128) = true) by (vm_compute; reflexivity).
    rewrite forallb_forall in H. specialize (H (Z.to_nat sc)). rewrite in_seq in H. specialize (H ltac:(lia)).
    rewrite forallb_forall in H. specialize (H shift ltac:(destruct shift; cbn; tauto)).
    rewrite Z2Nat.id in H by lia. by apply Z.eqb_eq.
  - unfold scancode_to_char. rewrite (proj2 (Z.leb_le 128 sc)), (proj2 (Z.eqb_neq sc 14)) by lia.
    assert (E : forall row, row ∈ us_rows -> on_row sc shift row = None).
    { assert (Hr : Forall (fun row => row.1.1 + Z.of_nat (length row.1.2) <= 128 /\
                                      row.1.1 + Z.of_nat (length row.2) <= 128) us_rows)
        by (repeat constructor; vm_compute; congruence).
      intros [[first plain] shifted] Hin. rewrite Forall_forall in Hr. specialize (Hr _ Hin). cbn in Hr.
      unfold on_row. case_b; [done|]. destruct shift; apply lookup_ge_None; lia. }
    assert (En : us_char sc shift = None); [|by rewrite En].
    unfold us_char. revert E. generalize us_rows. intros rows Hrows.
    induction rows as [|row rows IH]; [done|]. cbn [omap list_omap]. rewrite Hrows by left.
    apply IH. intros r Hr. apply Hrows. by right.
Qed.

Lemma us_char_range sc shift c : us_char sc shift = Some c -> c <> 0 /\ c <> 8 /\ is_u8 c.
Proof.
  assert (H : Forall (fun row => Forall (fun c => c <> 0 /\ c <> 8 /\ is_u8 c) row.1.2 /\
                                 Forall (fun c => c <> 0 /\ c <> 8 /\ is_u8 c) row.2) us_rows).
  { unfold is_u8. apply (bool_decide_unpack _). vm_compute. exact I. }
  unfold us_char. revert H. generalize us_rows. intros rows Hrows.
  induction Hrows as [|row rows [H1 H2] _ IH]; cbn [omap list_omap]; [done|].
  destruct (on_row sc shift row) as [c'|] eqn:E; [|exact IH]. cbn [head]. intros [= <-].
  destruct row as [[first plain] shifted]. unfold on_row in E. cbn [fst snd] in H1, H2.
  destruct (sc <? first); [done|]. destruct shift; [apply (Forall_lookup_1 _ _ _ _ H2 E)|apply (Forall_lookup_1 _ _ _ _ H1 E)].
Qed.

(** The line typed by a sequence of keys: it ends with a newline or when it
    is [len] long; backspace takes the last character back. *)
Fixpoint edit_line (len : nat) (evs : list key_event) (line : list Z) (shift : bool) : option (list Z) :=
  if (length line <? len)%nat then
    match evs with
    | [] => None
    | ev :: evs' =>
        match key_meaning shift ev with
        | KNone | KScroll _ => edit_line len evs' line shift
        | KShift on => edit_line len evs' line on
        | KBack => edit_line len evs' (removelast line) shift
        | KChar c => if c =? 10 then Some (line ++ [c]) else edit_line len evs' (line ++ [c]) shift
        end
    end
  else Some line.

(** The first character typed, whatever else is pressed before it. *)
Fixpoint first_char (evs : list key_event) (shift : bool) : option Z :=
  match evs with
  | [] => None
  | ev :: evs' =>
      match key_meaning shift ev with
      | KShift on => first_char evs' on
      | KChar c => Some c
      | KNone | KScroll _ | KBack => first_char evs' shift
      end
  end.

(** A read of one character returns the first character typed; there is
    nothing to take back yet, so a backspace is passed over and never
    returned. *)
Lemma edit_line_one evs : forall shift,
  edit_line 1 evs [] shift = (fun c => [c]) <$> first_char evs shift /\ first_char evs shift <> Some 8.
Proof.
  induction evs as [|ev evs IH]; intros shift; [done|]. cbn [edit_line first_char length].
  destruct (key_meaning shift ev) as [|on|n| |c] eqn:Ek; try apply IH.
  assert (Hc : c <> 8).
  { unfold key_meaning in Ek. repeat case_b_in Ek; try done. destruct (us_char _ _) as [c'|] eqn:Eu; [|done].
    injection Ek as <-. by apply (us_char_range _ _ _ Eu). }
  split; [|congruence]. cbn. destruct (c =? 10); [done|]. by destruct evs.
Qed.

(** The keys that polling the queue yields while keys arrive. *)
Fixpoint polled (arrivals : list (list Z)) (i : input_state) : list key_event :=
  match arrivals with
  | [] => []
  | codes :: arrivals' =>
      let i := fold_left queue_key codes i in
      match input_read_key i with
      | None => polled arrivals' i
      | Some (ev, i) => ev :: polled arrivals' i
      end
  end.

Section stdin.
Context {B : Type} `{BlockOps B}.
Implicit Types (y : sys B).

(** One poll of the loop, by the meaning of the key it finds. *)
Lemma stdin_poll codes arrivals buf len count shift y : count < len ->
  let y1 := y_set_input (fold_left queue_key codes (y_input y)) y in
  stdin_read_chars (codes :: arrivals) buf len count shift y =
  match input_read_key (y_input y1) with
  | None => stdin_read_chars arrivals buf len count shift y1
  | Some (ev, i) =>
      let y2 := y_set_input i y1 in
      match key_meaning shift ev with
      | KNone => stdin_read_chars arrivals buf len count shift y2
      | KShift on => stdin_read_chars arrivals buf len count on y2
      | KScroll n => stdin_read_chars arrivals buf len count shift (y_log [ConScroll n] y2)
      | KBack => stdin_read_chars arrivals buf len (if 0 <? count then count - 1 else count) shift y2
      | KChar c =>
          y3 ← user_put (buf +% count) [c] y2;
          if c =? 10 then Some (count + 1, console_puts [c] y3)
          else stdin_read_chars arrivals buf len (count + 1) shift (console_puts [c] y3)
      end
  end.
Proof.
  intros Hlt. cbn [stdin_read_chars]. rewrite (proj2 (Z.ltb_lt _ _)) by done. cbv zeta.
  destruct (input_read_key _) as [[ev i]|]; [|done]. unfold key_meaning, is_shift.
  destruct (ke_pressed ev =? 0); [by destruct (_ || _)|].
  do 4 (case_b; [done|]). case_b; [done|]. rewrite scancode_us. destruct (ke_scancode ev =? 14); [done|].
  destruct (us_char (ke_scancode ev) shift) as [c|] eqn:Ec; [|done]. cbn.
  destruct (us_char_range _ _ _ Ec) as (H0 & H8 & _).
  by rewrite (proj2 (Z.eqb_neq c 0)), (proj2 (Z.eqb_neq c 8)).
Qed.

(** The first bytes of a buffer. *)
Definition holds y fr (buf : Z) (l : list Z) : Prop :=
  forall k, (k < length l)%nat -> ld8 (y_mem y) (upa fr (buf + Z.of_nat k)) = nth k l 0.

Definition only_buffer y y' fr (buf len : Z) : Prop :=
  (forall x, (forall k, 0 <= k < len -> x <> upa fr (buf + k)) -> ld8 (y_mem y') x = ld8 (y_mem y) x) /\
  y_fs y' = y_fs y /\ g_threads (y_sched y') = g_threads (y_sched y) /\ y_net y' = y_net y.

Lemma only_buffer_trans y1 y2 y3 fr buf len :
  only_buffer y1 y2 fr buf len -> only_buffer y2 y3 fr buf len -> only_buffer y1 y3 fr buf len.
Proof.
  intros (A1 & A2 & A3 & A4) (B1 & B2 & B3 & B4). split_and!; try congruence. intros x Hx. rewrite B1, A1; done.
Qed.

(** Storing the next character of a line. *)
Lemma put_char fl D fr y buf len line c :
  user_area fl y D fr buf len -> Z.of_nat (length line) < len -> is_u8 c -> holds y fr buf line ->
  exists y', user_put (buf +% Z.of_nat (length line)) [c] y = Some y' /\
    user_area fl y' D fr buf len /\ holds y' fr buf (line ++ [c]) /\ only_buffer y y' fr buf len /\
    y_input y' = y_input y.
Proof.
  intros Ha Hlt Hc Hh. rewrite (area_wrap _ _ _ _ _ _ _ Ha) by lia. set (va := buf + Z.of_nat (length line)).
  assert (Hs : user_area fl y D fr va (len - Z.of_nat (length line))) by (apply (ua_sub _ _ _ _ _ _ _ _ Ha); lia).
  destruct (user_put_ok fl D fr _ [c] y va Hs) as (m' & E & Ha' & H1 & H2); [cbn; lia|].
  exists (y_set_mem m' y). split; [exact E|]. cbn [length] in H1, H2.
  assert (Hother : forall x, x <> upa fr va -> ld8 m' x = ld8 (y_mem y) x).
  { intros x Hx. apply H2. intros k Hk. replace k with 0 by lia. by rewrite Z.add_0_r. }
  split; [destruct Ha, Ha'; constructor; done|]. split; [|split; [|done]].
  - intros k Hk. rewrite length_app in Hk. cbn in Hk. change (y_mem (y_set_mem m' y)) with m'.
    destruct (Nat.eq_dec k (length line)) as [->|Hne].
    + rewrite app_nth2, Nat.sub_diag by lia. cbn. specialize (H1 0 ltac:(lia)). rewrite Z.add_0_r in H1. unfold va in H1.
      rewrite H1. cbn. by apply u8_small.
    + rewrite app_nth1 by lia. rewrite Hother; [apply Hh; lia|].
      intros Ec. apply (upa_inj fl y D fr buf len) in Ec; [lia|done|lia|lia].
  - split_and!; try done. intros x Hx. apply Hother. apply Hx. lia.
Qed.

Lemma holds_removelast y fr buf line : holds y fr buf line -> holds y fr buf (removelast line).
Proof.
  intros Hh. destruct line as [|c line] using rev_ind; [done|]. rewrite removelast_last. intros k Hk.
  rewrite Hh by (rewrite length_app; lia). by rewrite app_nth1.
Qed.

Lemma length_removelast {X} (l : list X) : length (removelast l) = (length l - 1)%nat.
Proof. induction l as [|x l _] using rev_ind; [done|]. rewrite removelast_last, length_app. cbn. lia. Qed.

Lemma stdin_ok fl D fr buf len : 0 <= len -> forall arrivals y line shift,
  user_area fl y D fr buf len -> Z.of_nat (length line) <= len -> holds y fr buf line ->
  match edit_line (Z.to_nat len) (polled arrivals (y_input y)) line shift with
  | None => stdin_read_chars arrivals buf len (Z.of_nat (length line)) shift y = None
  | Some l => exists y', stdin_read_chars arrivals buf len (Z.of_nat (length line)) shift y = Some (Z.of_nat (length l), y') /\
      user_area fl y' D fr buf len /\ (Z.of_nat (length l) <= len) /\ holds y' fr buf l /\ only_buffer y y' fr buf len
  end.
Proof.
  intros Hlen arrivals. induction arrivals as [|codes arrivals IH]; intros y line shift Ha Hl Hh.
  { cbn [polled edit_line stdin_read_chars].
    destruct (Nat.ltb_spec (length line) (Z.to_nat len)), (Z.ltb_spec (Z.of_nat (length line)) len); try lia; [done|].
    exists y. by split_and!. }
  destruct (Z.ltb_spec (Z.of_nat (length line)) len) as [Hlt|Hge].
  2:{ assert (E : edit_line (Z.to_nat len) (polled (codes :: arrivals) (y_input y)) line shift = Some line).
      { destruct (polled _ _); cbn [edit_line]; destruct (Nat.ltb_spec (length line) (Z.to_nat len)); done || lia. }
      rewrite E. exists y. cbn [stdin_read_chars]. rewrite (proj2 (Z.ltb_ge _ _)) by lia. by split_and!. }
  rewrite stdin_poll by done. cbn [polled]. cbv zeta. set (i1 := fold_left queue_key codes (y_input y)).
  set (y1 := y_set_input i1 y). assert (Ha1 : user_area fl y1 D fr buf len) by (destruct Ha; constructor; done).
  change (y_input y1) with i1. assert (Hkeep : only_buffer y y1 fr buf len) by done.
  destruct (input_read_key i1) as [[ev i2]|]; [|exact (IH y1 line shift Ha1 Hl Hh)].
  cbn [edit_line]. rewrite (proj2 (Nat.ltb_lt _ _)) by lia. set (y2 := y_set_input i2 y1).
  assert (Ha2 : user_area fl y2 D fr buf len) by (destruct Ha; constructor; done).
  destruct (key_meaning shift ev) as [|on|n| |c] eqn:Ek.
  - exact (IH y2 line shift Ha2 Hl Hh).
  - exact (IH y2 line on Ha2 Hl Hh).
  - apply (IH (y_log [ConScroll n] y2) line shift); [destruct Ha; constructor; done|done|done].
  - pose proof (IH y2 (removelast line) shift Ha2) as R. rewrite length_removelast in R.
    replace (if 0 <? Z.of_nat (length line) then Z.of_nat (length line) - 1 else Z.of_nat (length line))
      with (Z.of_nat (length line - 1)) by (case_b; lia).
    apply R; [lia|]. by apply holds_removelast.
  - assert (Hc : is_u8 c).
    { unfold key_meaning in Ek. repeat case_b_in Ek; try done. destruct (us_char _ _) as [c'|] eqn:Eu; [|done].
      injection Ek as <-. by apply (us_char_range _ _ _ Eu). }
    destruct (put_char fl D fr y2 buf len line c Ha2 Hlt Hc Hh) as (y3 & -> & Ha3 & Hh3 & Hk3 & Hi3).
    cbn [mbind option_bind].
    assert (El : Z.of_nat (length line) + 1 = Z.of_nat (length (line ++ [c]))) by (rewrite length_app; cbn; lia).
    rewrite El. case_b.
    + exists (console_puts [c] y3). split; [done|]. split; [destruct Ha3; constructor; done|]. split; [lia|]. split; [exact Hh3|exact Hk3].
    + pose proof (IH (console_puts [c] y3) (line ++ [c]) shift) as R.
      change (y_input (console_puts [c] y3)) with (y_input y3) in R. rewrite Hi3 in R. change (y_input y2) with i2 in R.
      specialize (R ltac:(destruct Ha3; constructor; done) ltac:(lia) Hh3).
      destruct (edit_line _ _ _ _) as [l|]; [|exact R]. destruct R as (y' & R1 & R2 & R3 & R4 & R5).
      exists y'. split; [exact R1|]. split; [exact R2|]. split; [exact R3|]. split; [exact R4|].
      eapply only_buffer_trans; [|exact R5]. exact Hk3.
Qed.

(** C13: a read from the console returns the line typed.  Whatever keys
    arrive and when, the call returns as soon as the keys polled make a line
    ([edit_line]: the characters on the keys of a US keyboard, [us_rows],
    with shift or without; backspace takes one back; the line ends by newline
    or by the buffer's size);
    it then returns the length of that line and the buffer holds it, and
    nothing but the buffer, the key queue and the console has changed.
    Until then it keeps waiting. *)
Theorem stdin_read_chars_correct fl D fr y buf len arrivals :
  0 <= len -> user_area fl y D fr buf len ->
  match edit_line (Z.to_nat len) (polled arrivals (y_input y)) [] false with
  | None => stdin_read_chars arrivals buf len 0 false y = None
  | Some l => exists y', stdin_read_chars arrivals buf len 0 false y = Some (Z.of_nat (length l), y') /\
      user_bytes y' buf (Z.of_nat (length l)) = l /\ only_buffer y y' fr buf len
  end.
Proof.
  intros Hlen Ha. pose proof (stdin_ok fl D fr buf len Hlen arrivals y [] false Ha Hlen) as R.
  specialize (R ltac:(intros k Hk; cbn in Hk; lia)). cbn [length Z.of_nat] in R.
  destruct (edit_line _ _ _ _) as [l|]; [|exact R]. destruct R as (y' & R1 & R2 & R3 & R4 & R5).
  exists y'. split; [exact R1|]. split; [|exact R5].
  destruct (user_bytes_area _ _ _ _ _ _ _ R2 R3) as [_ ->]. apply list_eq. intros i.
  rewrite list_lookup_fmap, Nat2Z.id. destruct (decide (i < length l)%nat) as [Hi|Hi].
  - rewrite lookup_seq_lt by lia. cbn. rewrite R4 by lia. destruct (lookup_lt_is_Some_2 l i Hi) as [x Ex].
    by rewrite nth_lookup, Ex.
  - rewrite lookup_seq_ge by lia. cbn. symmetry. apply lookup_ge_None. lia.
Qed.
End stdin.

(** ** Files *)

Section files.
Context {B : Type} `{BlockOps B}.
Context (oom : Z -> bool) (junk : Z -> Z -> Z) (stack : list Z) (cpu : nat) (frame : Z).
Implicit Types (y : sys B).

(** An open file of the memory file system behind descriptor [fd]. *)
Record open_mem y (fd file node off flags : Z) (n : vfs_node) (b : memfs_file) : Prop := {
  om_thread : exists i t, cur_thread cpu y = Some (i, t) /\ vfs_fd_get (Some t) fd = file;
  om_fd : 3 <= fd < 11;
  om_file : file <> 0;
  om_open : fs_files (y_fs y) !! file = Some (mk_file node off flags);
  om_ok : file_ok (y_fs y) node n b;
  om_ops : vn_ops n = OpsMemFile
}.

(** The file table and the running thread are the same: what the program
    does between two calls keeps both. *)
Definition same_files y y' : Prop := y_fs y' = y_fs y /\ cur_thread cpu y' = cur_thread cpu y.

Definition args y (a b c : Z) : Prop :=
  reg y (f_rdi frame) = a /\ reg y (f_rsi frame) = b /\ reg y (f_rdx frame) = c.

(** The result register lies outside a buffer. *)
Definition rax_apart fr (buf len : Z) : Prop :=
  forall k, 0 <= k < len -> ~ (frame_rax frame <= upa fr (buf + k) < frame_rax frame + 8).

Lemma same_open y y' fd file node off flags n b :
  same_files y y' -> open_mem y fd file node off flags n b -> open_mem y' fd file node off flags n b.
Proof. intros [Ef Ec] []. constructor; rewrite ?Ef, ?Ec; done. Qed.

Lemma ret_same v y y' : y_fs y' = y_fs y -> cur_thread cpu y' = cur_thread cpu y ->
  exists y1, ret frame v y' = Some (frame, y1) /\ same_files y y1 /\ reg y1 (frame_rax frame) = u64 v /\
    forall x, ~ (frame_rax frame <= x < frame_rax frame + 8) -> ld8 (y_mem y1) x = ld8 (y_mem y') x.
Proof.
  intros Ef Ec. eexists. split; [reflexivity|]. split; [split; [exact Ef|rewrite <- Ec; reflexivity]|]. split.
  - unfold reg, y_mem, s_mem. cbn. rewrite ld64_st64_same; [done|]. apply u64_range.
  - intros x Hx. unfold y_mem, s_mem. cbn. rewrite ld8_stn. in_range_cases; [lia|done].
Qed.

Lemma fd_file y fd file node off flags n b : open_mem y fd file node off flags n b ->
  i32 fd = fd /\ vfs_fd_get (snd <$> cur_thread cpu y) fd = file.
Proof. intros [(i & t & -> & Ef) Hfd _ _ _ _]. split; [apply i32_small; lia|exact Ef]. Qed.

Lemma no_dev y fd file node off flags n b : open_mem y fd file node off flags n b ->
  file_dev (y_fs y) file = Some (OpsMemFile, off).
Proof. intros [_ _ _ Ho [_ Hn _ _ _ _ _] Hops]. unfold file_dev. rewrite Ho. cbn. rewrite Hn. cbn. by rewrite Hops. Qed.

Lemma sys_write_ok y fd file node off flags n b buf len fl D fr :
  open_mem y fd file node off flags n b -> VfsSpec.fresh_ok (y_fs y) -> Z.land flags VFS_O_WRONLY <> 0 ->
  args y fd buf len -> 0 <= off <= mf_size b -> 0 <= len -> off + len <= 2 ^ 62 -> mf_cap b <= 2 ^ 62 ->
  user_area fl y D fr buf len ->
  exists rc y1, sys_write oom junk stack cpu frame y = Some (frame, y1) /\ reg y1 (frame_rax frame) = u64 rc /\
    if decide (refused_growth oom (y_fs y) b (off + len)) then rc = -1
    else rc = len /\ exists n' b', open_mem y1 fd file node (off + len) flags n' b' /\
      content b' = splice (content b) (Z.to_nat off) (user_bytes y buf len) /\
      forall buf2, buf2 <> 0 -> memfs_read (y_fs y1) node off buf2 len = Some (len, user_bytes y buf len).
Proof.
  intros Ho Hfr Hw (A1 & A2 & A3) Hoff Hlen Hmax Hcap Ha. pose proof Ho as [Hth Hfd Hnz Hop Hok Hops].
  destruct (fd_file _ _ _ _ _ _ _ _ Ho) as [Ei Ef].
  unfold sys_write. cbv zeta. rewrite A1, A2, A3, Ei, Ef.
  rewrite (proj2 (Z.eqb_neq fd 1)), (proj2 (Z.eqb_neq fd 2)) by lia. cbn [negb andb].
  rewrite (proj2 (Z.eqb_neq file 0)) by done. rewrite Hop. cbn [mbind option_bind vf_flags].
  rewrite (proj2 (Z.eqb_neq _ 0)) by done.
  destruct (user_bytes_area fl y D fr buf len len Ha ltac:(lia)) as [Euok _].
  set (bytes := user_bytes y buf len) in *.
  assert (Hlb : Z.of_nat (length bytes) = len) by (unfold bytes, user_bytes; rewrite length_fmap, length_seq; lia).
  assert (Hbuf : buf <> 0) by (destruct Ha as [_ _ [? ?] _]; unfold USER_REGION_BASE in *; lia).
  destruct (memfs_write_ok oom junk (y_fs y) node n b off buf bytes Hok Hfr Hoff Hbuf ltac:(lia) Hcap)
    as (rc & f1 & Ew & Eff & Hcase).
  unfold file_write, vfs_write, dev_after_write. rewrite (no_dev _ _ _ _ _ _ _ _ Ho), (proj2 (Z.eqb_neq file 0)), Hop by done.
  cbn [mbind option_bind vf_node vf_offset]. pose proof (fk_pos _ _ _ _ Hok).
  rewrite (proj2 (Z.eqb_neq node 0)), (fk_node _ _ _ _ Hok) by lia. cbn [mbind option_bind]. rewrite Hops. cbn [ops_write].
  rewrite Ew. cbn [mbind option_bind]. rewrite Euok, andb_false_r.
  set (f2 := advance f1 file (mk_file node off flags) rc).
  destruct (ret_same rc (y_set_fs f2 y) (y_set_fs f2 y) eq_refl eq_refl) as (y1 & Er & [Es1 Es2] & Erax & _).
  rewrite Er. exists rc, y1. split; [reflexivity|]. split; [exact Erax|].
  rewrite Hlb in Hcase. destruct (decide _); [by destruct Hcase|].
  destruct Hcase as (-> & n' & b' & Hok' & En' & Hc' & _ & Hrd & _).
  split; [done|]. exists n', b'. split; [|split; [exact Hc'|]].
  - assert (Hops' : vn_ops n' = OpsMemFile) by (rewrite En'; exact Hops).
    constructor; [|done|done| | |exact Hops'].
    + rewrite Es2. exact Hth.
    + rewrite Es1. change (y_fs (y_set_fs f2 y)) with f2. unfold f2, advance. destruct (Z.ltb_spec 0 len).
      * cbn [set_files fs_files vf_node vf_offset vf_flags].
        rewrite lookup_insert_eq, u64_small by (unfold is_u64; lia). done.
      * rewrite Eff, Hop. replace len with 0 by lia. by rewrite Z.add_0_r.
    + rewrite Es1. change (y_fs (y_set_fs f2 y)) with f2. unfold f2, advance. case_b; [|exact Hok'].
      destruct Hok'. by constructor.
  - intros buf2 Hb2. rewrite Es1. change (y_fs (y_set_fs f2 y)) with f2. unfold f2, advance.
    case_b; [|by apply Hrd]. exact (Hrd buf2 Hb2).
Qed.

Lemma sys_lseek_ok y fd file node off flags n b pos :
  open_mem y fd file node off flags n b -> args y fd pos SYS_SEEK_SET -> 0 <= pos < 2 ^ 63 ->
  exists y1, sys_lseek cpu frame y = Some (frame, y1) /\ reg y1 (frame_rax frame) = pos /\
    open_mem y1 fd file node pos flags n b /\ fs_nodes (y_fs y1) = fs_nodes (y_fs y) /\ fs_bodies (y_fs y1) = fs_bodies (y_fs y).
Proof.
  intros Ho (A1 & A2 & A3) Hpos. pose proof Ho as [Hth Hfd Hnz Hop Hok Hops].
  destruct (fd_file _ _ _ _ _ _ _ _ Ho) as [Ei Ef].
  unfold sys_lseek. cbv zeta. rewrite A1, A2, A3, Ei, Ef, (proj2 (Z.eqb_neq file 0)), Hop by done. cbn [mbind option_bind].
  change (i32 SYS_SEEK_SET =? SYS_SEEK_SET) with true. cbv iota.
  rewrite Z.add_0_l. assert (E2 : i64 (i64 pos) = pos) by (rewrite (i64_small pos) by lia; apply i64_small; lia). rewrite E2.
  rewrite (proj2 (Z.ltb_ge pos 0)) by lia. cbn [vf_node vf_flags].
  match goal with |- context [ret frame pos ?y'] => destruct (ret_same pos y' y' eq_refl eq_refl) as (y1 & -> & [Es1 Es2] & Erax & _) end.
  exists y1. split; [done|]. rewrite u64_small in Erax by (unfold is_u64; lia). split; [exact Erax|].
  split; [|rewrite Es1; done]. constructor; try done.
  - by rewrite Es2.
  - rewrite Es1. cbn. apply lookup_insert_eq.
  - rewrite Es1. destruct Hok. by constructor.
Qed.

Lemma sys_read_ok y fd file node off flags n b buf len bytes fl D fr :
  open_mem y fd file node off flags n b -> Z.land flags VFS_O_RDONLY <> 0 -> args y fd buf len ->
  memfs_read (y_fs y) node off buf len = Some (len, bytes) -> Z.of_nat (length bytes) = len -> Forall is_u8 bytes ->
  user_area fl y D fr buf len -> rax_apart fr buf len ->
  exists y1, sys_read cpu frame [] y = Some (frame, y1) /\ reg y1 (frame_rax frame) = u64 len /\ holds y1 fr buf bytes.
Proof.
  intros Ho Hr (A1 & A2 & A3) Erd Hlb Hu8 Ha Hap. pose proof Ho as [Hth Hfd Hnz Hop Hok Hops].
  destruct (fd_file _ _ _ _ _ _ _ _ Ho) as [Ei Ef].
  unfold sys_read. cbv zeta. rewrite A1, A2, A3, Ei, Ef, (proj2 (Z.eqb_neq fd 0)), (proj2 (Z.eqb_neq file 0)), Hop by (done || lia).
  cbn [mbind option_bind vf_flags]. rewrite (proj2 (Z.eqb_neq _ 0)) by done.
  unfold file_read, vfs_read, dev_after_read. rewrite (no_dev _ _ _ _ _ _ _ _ Ho), (proj2 (Z.eqb_neq file 0)), Hop by done.
  cbn [mbind option_bind vf_node vf_offset]. pose proof (fk_pos _ _ _ _ Hok).
  rewrite (proj2 (Z.eqb_neq node 0)), (fk_node _ _ _ _ Hok) by lia. cbn [mbind option_bind]. rewrite Hops. cbn [ops_read].
  rewrite Erd. cbn [mbind option_bind]. set (f2 := advance _ _ _ _). set (y2 := y_set_fs f2 y).
  assert (Ha2 : user_area fl y2 D fr buf len) by (destruct Ha; constructor; done).
  destruct (user_put_ok fl D fr len bytes y2 buf Ha2 ltac:(lia)) as (m' & -> & _ & Hs & _). cbn [mbind option_bind].
  destruct (ret_same len (y_set_mem m' y2) (y_set_mem m' y2) eq_refl eq_refl) as (y1 & -> & _ & Erax & Hkeep).
  exists y1. split; [done|]. split; [exact Erax|]. intros k Hk. rewrite Hkeep by (apply Hap; lia).
  change (y_mem (y_set_mem m' y2)) with m'. rewrite Hs by lia. rewrite Nat2Z.id.
  destruct (lookup_lt_is_Some_2 bytes k Hk) as [x Ex]. rewrite nth_lookup, Ex. cbn. apply u8_small. by eapply Forall_lookup_1.
Qed.

Lemma user_bytes_u8 y va n : Forall is_u8 (user_bytes y va n).
Proof.
  apply Forall_fmap, Forall_true. intros k. cbn. unfold user_mem. case_match; [apply ld8_range|vm_compute; split; congruence].
Qed.

(** C9: what a program writes to a file it reads back.  A write of [len]
    bytes through a descriptor of a memory file that is open for writing
    returns -1 exactly when the file's buffer has to grow for it and the
    kernel has no memory for the larger one; otherwise it stores the user's
    bytes at the file's offset and returns their number, and after a seek
    back to that offset a read through the same descriptor (open for reading
    too) returns the same number and leaves exactly those bytes in the
    buffer it is given, wherever that buffer is, as long as the program left
    file table and process alone in between. *)
Theorem sys_write_lseek_read y fd file node off flags n b buf len fl D fr :
  open_mem y fd file node off flags n b -> VfsSpec.fresh_ok (y_fs y) ->
  Z.land flags VFS_O_WRONLY <> 0 -> Z.land flags VFS_O_RDONLY <> 0 ->
  args y fd buf len -> 0 <= off <= mf_size b -> 0 <= len -> off + len <= 2 ^ 62 -> mf_cap b <= 2 ^ 62 ->
  user_area fl y D fr buf len ->
  exists rc y1, sys_write oom junk stack cpu frame y = Some (frame, y1) /\ reg y1 (frame_rax frame) = u64 rc /\
   if decide (refused_growth oom (y_fs y) b (off + len)) then rc = -1
   else rc = len /\ forall y2, same_files y1 y2 -> args y2 fd off SYS_SEEK_SET ->
      exists y3, sys_lseek cpu frame y2 = Some (frame, y3) /\ reg y3 (frame_rax frame) = off /\
        forall y4 buf' fl' D' fr', same_files y3 y4 -> args y4 fd buf' len ->
          user_area fl' y4 D' fr' buf' len -> rax_apart fr' buf' len ->
          exists y5, sys_read cpu frame [] y4 = Some (frame, y5) /\ reg y5 (frame_rax frame) = u64 len /\
            holds y5 fr' buf' (user_bytes y buf len).
Proof.
  intros Ho Hfr Hw Hr Har Hoff Hlen Hmax Hcap Ha.
  destruct (sys_write_ok y fd file node off flags n b buf len fl D fr Ho Hfr Hw Har Hoff Hlen Hmax Hcap Ha)
    as (rc & y1 & E1 & Erax1 & Hc). exists rc, y1. split; [exact E1|]. split; [exact Erax1|].
  destruct (decide _); [exact Hc|]. destruct Hc as (-> & n' & b' & Ho1 & _ & Hrd). split; [done|]. intros y2 Hs2 Har2.
  pose proof (same_open _ _ _ _ _ _ _ _ _ Hs2 Ho1) as Ho2.
  destruct (sys_lseek_ok y2 fd file node _ flags n' b' off Ho2 Har2 ltac:(lia)) as (y3 & E3 & Erax3 & Ho3 & Nn & Nb).
  exists y3. split; [exact E3|]. split; [exact Erax3|]. intros y4 buf' fl' D' fr' Hs4 Har4 Ha4 Hap4.
  pose proof (same_open _ _ _ _ _ _ _ _ _ Hs4 Ho3) as Ho4.
  eapply (sys_read_ok y4); [exact Ho4|exact Hr|exact Har4| | |apply user_bytes_u8|exact Ha4|exact Hap4].
  - assert (Hb' : buf' <> 0) by (destruct Ha4 as [_ _ [? ?] _]; unfold USER_REGION_BASE in *; lia).
    rewrite <- (Hrd buf' Hb'). destruct Hs4 as [-> _]. destruct Hs2 as [Ef2 _]. rewrite Ef2 in Nn, Nb.
    unfold memfs_read. by rewrite Nn, Nb.
  - unfold user_bytes. rewrite length_fmap, length_seq. lia.
Qed.
End files.

(** A machine with two user pages mapped, the active space of a small
    system. *)
Definition io_va : Z := demo_va + 4096.
Definition io_grow : mach pmm + Z * mach pmm := mmap_grow demo_mach demo_cr3 io_va 8192 (mmap_flags 2).
Definition io_mach : mach pmm := match io_grow with inl s => s | inr (_, s) => s end.
Definition io_sys : sys ram_disk :=
  mk_sys (s_set_s_vmm (mk_vmm io_mach 8192 [] demo_cr3) lab_u) 0 0 net_init input_zero (mk_pit 6 100)
    (mk_clock 0 true) demo_disk ∅ [].

Lemma io_area : exists fl D fr, user_area fl io_sys D fr io_va 8192.
Proof.
  pose proof (mmap_grow_ok demo_mach demo_cr3 io_va 8192 (mmap_flags 2) (fun _ => False) (fun _ => 0) (fun _ => 0)
    mmap_demo_owned (mmap_flags_ok 2) eq_refl eq_refl ltac:(vm_compute; discriminate) ltac:(lia) ltac:(vm_compute; discriminate)) as G.
  assert (E : exists s, mmap_grow demo_mach demo_cr3 io_va 8192 (mmap_flags 2) = inl s /\ io_mach = s).
  { unfold io_mach, io_grow. destruct (mmap_grow _ _ _ _ _) as [s|[d s]] eqn:E; [exists s; split; reflexivity|]. exfalso.
    assert (Hd : match mmap_grow demo_mach demo_cr3 io_va 8192 (mmap_flags 2) with inl _ => true | inr _ => false end = true)
      by (vm_compute; reflexivity).
    rewrite E in Hd. discriminate Hd. }
  destruct E as (s & E & Es). rewrite E in G. destruct G as (fl & fr & Hm & _).
  { intros va Hva. apply user_va_range. unfold io_va, demo_va, USER_REGION_BASE in *. lia. }
  exists fl, (fun v => pages_in io_va (io_va + 8192) v \/ False), fr. destruct Hm as [Ho _ Hf _ _ _ _].
  constructor.
  - change (owned fl io_mach demo_cr3 (fun v => pages_in io_va (io_va + 8192) v \/ False) fr). rewrite Es. exact Ho.
  - intros v [Hv|[]]. rewrite Hf by exact Hv. apply mmap_flags_ok.
  - split; vm_compute; discriminate.
  - intros k Hk. left. unfold upage. split; [apply Z.mod_mul; lia|]. unfold io_va, demo_va, USER_REGION_BASE.
    Z.div_mod_to_equations; lia.
Qed.

(** "h" with shift held, "i", backspace, "o", newline. *)
Definition demo_typing : list (list Z) := [[42; 35]; [170]; []; [23; 14]; []; [24; 28]; []].

Lemma stdin_read_chars_correct_witness :
  exists y', stdin_read_chars demo_typing io_va 100 0 false io_sys = Some (3, y') /\
    user_bytes y' io_va 3 = [72; 111; 10].
Proof.
  destruct io_area as (fl & D & fr & Ha).
  pose proof (stdin_read_chars_correct fl D fr io_sys io_va 100 demo_typing ltac:(lia)
    (ua_sub fl io_sys D fr io_va 8192 io_va 100 Ha ltac:(lia) ltac:(lia))) as R.
  change (edit_line (Z.to_nat 100) (polled demo_typing (y_input io_sys)) [] false)
    with (Some [72; 111; 10]) in R.
  destruct R as (y' & R1 & R2 & _). exists y'. split; [exact R1|exact R2].
Defined.

(** The same system with the file of [demo_fs] open for reading and writing
    as descriptor 3, about to write five bytes. *)
Definition file_fs : fs :=
  mk_fs (fs_nodes demo_fs) (fs_bodies demo_fs) (<[5 := mk_file 2 1 3]> ∅) 6 1 1.
Definition file_regs (m : mem) : mem :=
  st64 (st64 (st64 m (f_rdi 2000) 3) (f_rsi 2000) io_va) (f_rdx 2000) 5.
Definition file_sys : sys ram_disk :=
  y_set_mem (file_regs (y_mem io_sys))
    (y_set_sched (upd 1 (t_set_open_files (5 :: replicate 7 0)) (s_set_s_fs file_fs (y_sched io_sys))) io_sys).

Lemma file_regs_low m x : ~ (2000 <= x < 2200) -> ld8 (file_regs m) x = ld8 m x.
Proof. intros Hx. unfold file_regs, f_rdi, f_rsi, f_rdx. rewrite !ld8_stn. in_range_cases; lia || done. Qed.

Lemma file_area : exists fl D fr, user_area fl file_sys D fr io_va 8192.
Proof.
  destruct io_area as (fl & D & fr & [Ho Hf Hr Hp]). exists fl, D, fr. constructor; [|exact Hf|exact Hr|exact Hp].
  apply (owned_write fl (y_mach io_sys) demo_cr3 D fr (file_regs (y_mem io_sys)) Ho). intros x Hx.
  destruct (decide (2000 <= x < 2200)) as [Hin|Hin]; [left|right; by apply file_regs_low].
  assert (E0 : x / 4096 = 0) by (apply Z.div_small; lia). split; [exact Hx|]. rewrite E0. split; [vm_compute; reflexivity|].
  intros p a Hup Hw. destruct (sw_table _ _ (hw_space _ _ _ _ _ Ho) p a Hup Hw) as (_ & Ha & _). lia.
Qed.

Lemma file_open : open_mem O file_sys 3 5 2 1 3 (mk_node [97] VFS_NODE_FILE 2 3 OpsMemFile 1 0 0) (mk_mf [10; 20] 2 2).
Proof.
  constructor; [|lia|lia|vm_compute; reflexivity| |reflexivity].
  - eexists 1%nat, _. split; [vm_compute; reflexivity|vm_compute; reflexivity].
  - destruct demo_file. constructor; try done; vm_compute; reflexivity.
Qed.

Lemma sys_write_lseek_read_witness :
  exists y1, sys_write lab_oom (fun _ _ => 0) [] O 2000 file_sys = Some (2000, y1) /\
    reg y1 (frame_rax 2000) = 5 /\
    forall y2, same_files O y1 y2 -> args 2000 y2 3 1 SYS_SEEK_SET ->
      exists y3, sys_lseek O 2000 y2 = Some (2000, y3) /\ reg y3 (frame_rax 2000) = 1.
Proof.
  destruct file_area as (fl & D & fr & Ha).
  destruct (sys_write_lseek_read lab_oom (fun _ _ => 0) [] O 2000 file_sys 3 5 2 1 3 _ _ io_va 5 fl D fr file_open)
    as (rc & y1 & E & Er & Hc).
  - constructor; [cbn; lia|intros p n Hl|intros p n Hl].
    + destruct demo_fresh as [_ Hn _]. specialize (Hn p n Hl). cbn in *. lia.
    + destruct demo_fresh as [_ _ Hn]. specialize (Hn p n Hl). cbn in *. lia.
  - vm_compute. discriminate.
  - vm_compute. discriminate.
  - split_and!; vm_compute; reflexivity.
  - cbn. lia.
  - lia.
  - vm_compute. discriminate.
  - vm_compute. discriminate.
  - apply (ua_sub fl file_sys D fr io_va 8192 io_va 5 Ha); lia.
  - rewrite decide_False in Hc by (intros [_ Hx]; discriminate Hx). destruct Hc as [Hrc Hc]. rewrite Hrc in Er.
    exists y1. split; [exact E|]. split; [exact Er|]. intros y2 H1 H2.
    destruct (Hc y2 H1 H2) as (y3 & E3 & R3 & _). exists y3. split; [exact E3|exact R3].
Defined.
