(* ===== verification/Dispatch.v ===== *)
(** * Interrupt dispatch (src/arch/x86_64/interrupt_dispatch.c)

    Where every entry into the kernel goes: the check of the kernel stack's
    canary, hardware interrupts, the tick from another processor, system
    calls, the debugger's traps and exceptions.  The state is that of the
    system calls with the interrupt controllers and the port history.

    A handler runs to its end here; that others may nest inside it is the
    subject of Irq.v.  The debugger stub (src/gdb.c) is an argument,
    which Run.v supplies. *)

From stdpp Require Import prelude list strings gmap.
From Stdlib Require Import ZArith Lia.
From S2P Require Import Prelude Lib Alloc Pmm Vmm Ring Net Io Input Time Vfs Sched SchedSpec SchedProc Devfs Console Irq Smp Syscall SyscallSpec.
#[local] Open Scope Z_scope.
#[local] Open Scope cint_scope.

Definition exc_name (n : Z) : list Z :=
  if n =? 0 then text "#DE Divide Error" else if n =? 1 then text "#DB Debug" else if n =? 2 then text "NMI"
  else if n =? 3 then text "#BP Breakpoint" else if n =? 4 then text "#OF Overflow"
  else if n =? 5 then text "#BR Bound Range Exceeded" else if n =? 6 then text "#UD Invalid Opcode"
  else if n =? 7 then text "#NM Device Not Available" else if n =? 8 then text "#DF Double Fault"
  else if n =? 9 then text "Coprocessor Segment Overrun" else if n =? 10 then text "#TS Invalid TSS"
  else if n =? 11 then text "#NP Segment Not Present" else if n =? 12 then text "#SS Stack-Segment Fault"
  else if n =? 13 then text "#GP General Protection" else if n =? 14 then text "#PF Page Fault"
  else if n =? 15 then text "Reserved" else if n =? 16 then text "#MF x87 Floating-Point"
  else if n =? 17 then text "#AC Alignment Check" else if n =? 18 then text "#MC Machine Check"
  else if n =? 19 then text "#XM SIMD Floating-Point" else if n =? 20 then text "#VE Virtualization"
  else if n =? 21 then text "#CP Control Protection" else if n =? 28 then text "#HV Hypervisor Injection"
  else if n =? 29 then text "#VC VMM Communication" else if n =? 30 then text "#SX Security"
  else if (22 <=? n) && (n <=? 31) then text "Reserved" else text "Unknown".

(** [uint64_t] vector to [int] code. *)
Definition exc_exit_code (n : Z) : Z := if 31 <? n then -1 else 128 + n.

(** The rest of the frame. *)
Definition f_rbp (frame : Z) : Z := frame + 80.
Definition f_rcx (frame : Z) : Z := frame + 96.
Definition f_rbx (frame : Z) : Z := frame + 104.
Definition f_int_no (frame : Z) : Z := frame + 120.
Definition f_err_code (frame : Z) : Z := frame + 128.
Definition f_rflags (frame : Z) : Z := frame + 152.
Definition f_ss (frame : Z) : Z := frame + 168.

Definition hex64 (v : Z) : list Z := [48; 120] ++ hex_n v 16.

Section dispatch.
Context {B : Type} `{BlockOps B}.

Record isys := mk_isys {
  x_sys : sys B;
  x_irq : irq_state;
  x_io : io_hist;
  x_apic : apic;
  x_smp : bool                                (* g_smp_enabled *)
}.

Inductive outcome := Resume (frame : Z) (x : isys) | Halt (x : isys).

Definition x_set_sys (y : sys B) (x : isys) : isys := mk_isys y (x_irq x) (x_io x) (x_apic x) (x_smp x).
Definition x_set_irq (c : irq_state) (x : isys) : isys := mk_isys (x_sys x) c (x_io x) (x_apic x) (x_smp x).
Definition x_set_apic (a : apic) (x : isys) : isys := mk_isys (x_sys x) (x_irq x) (x_io x) a (x_smp x).
Definition x_run {T} (m : IO T) (x : isys) : T * isys :=
  let '(r, h) := m (x_io x) in (r, mk_isys (x_sys x) (x_irq x) h (x_apic x) (x_smp x)).
Definition x_say (cs : list Z) (x : isys) : isys := x_set_sys (console_puts cs (x_sys x)) x.

(** [isys] and the parameters of the handlers it calls. *)
Context (dev : device) (lapic : list (Z * Z) -> Z -> Z) (cr2 : Z).
Context (gdb_handle_exception : Z -> isys -> option Z * isys).
Context (oom : Z -> bool) (junk : Z -> Z -> Z) (stack : list Z) (fuel : nat) (cpu : nat) (thread_addr : nat -> Z).
Context (arrivals : list (list Z)).

Definition freg (x : isys) (a : Z) : Z := reg (x_sys x) a.

Definition dump_frame (frame : Z) (x : isys) : list Z :=
  let r f := hex64 (freg x (f frame)) in
  text " int=" ++ dec_u64 (freg x (f_int_no frame)) ++ text " err=" ++ r f_err_code ++ [10] ++
  text " RIP=" ++ r f_rip ++ text " CS=" ++ r f_cs ++ text " RFLAGS=" ++ r f_rflags ++ [10] ++
  text " RAX=" ++ r frame_rax ++ text " RBX=" ++ r f_rbx ++ text " RCX=" ++ r f_rcx ++ text " RDX=" ++ r f_rdx ++ [10] ++
  text " RSI=" ++ r f_rsi ++ text " RDI=" ++ r f_rdi ++ text " RBP=" ++ r f_rbp ++ [10] ++
  (if Z.land (freg x (f_cs frame)) 3 =? 3
   then text " RSP=" ++ r f_rsp ++ text " SS=" ++ r f_ss ++ [10] else []).

(** A name is printed up to its first zero. *)
Definition cstring (l : list Z) : list Z := take (default (length l) (list_find (fun c => c = 0) l ≫= fun p => Some (fst p))) l.

Definition log_current_thread (x : isys) : list Z :=
  match cur_thread cpu (x_sys x) with
  | None => []
  | Some (_, t) => text " thread=" ++ dec_u64 (t_id t) ++ text " (" ++ cstring (t_name t) ++ text ")"
  end.

Definition from_user (frame : Z) (x : isys) : bool := Z.land (freg x (f_cs frame)) 3 =? 3.

(** The scheduler's answer; [None] when it has nothing to run. *)
Definition x_sched (r : option (Z * sched pmm)) (x : isys) : option outcome :=
  '(f, s) ← r; Some (Resume f (x_set_sys (y_set_sched s (x_sys x)) x)).

(** What the registered functions do. *)
Definition run_handler (handler irq : Z) (x : isys) : isys :=
  let inp := y_input (x_sys x) in
  if handler =? 1 then
    let '(inp, x) := x_run (input_handle_irq1 dev inp) x in x_set_sys (y_set_input inp (x_sys x)) x
  else if handler =? 2 then
    let '((scroll, inp), x) := x_run (input_handle_irq12 dev inp) x in
    let x := match scroll with Some l => x_set_sys (y_log [ConScroll l] (x_sys x)) x | None => x end in
    x_set_sys (y_set_input inp (x_sys x)) x
  else if handler =? DISK_IRQ_HANDLER then x_set_irq (disk_irq_handler irq (x_irq x)) x
  else x.

Definition y_set_pit (p : pit) (y : sys B) : sys B :=
  mk_sys (y_sched y) (y_heap y) (y_last y) (y_net y) (y_input y) p (y_clock y) (y_disk y) (y_tar y) (y_out y).

Definition handle_irq (frame irq : Z) (x : isys) : option outcome :=
  let '(c, x) := x_run (irq_enter dev irq (cpu_cli (x_irq x))) x in
  let x := x_set_irq c x in
  x ← (if irq =? 0 then
         let x := x_set_sys (y_set_pit (pit_handle_irq0 (y_pit (x_sys x))) (x_sys x)) x in
         a ← smp_broadcast_tick lapic fuel (x_smp x) (x_apic x); Some (x_set_apic a x)
       else
         let '(h, c) := irq_dispatch irq (x_irq x) in
         let x := x_set_irq c x in
         Some (match h with Some handler => run_handler handler irq x | None => x end));
  let x := x_set_irq (cpu_cli (x_irq x)) x in
  let '(_, x) := x_run (pic_send_eoi irq) x in
  let leave x := let '(c, x) := x_run (irq_exit (x_irq x)) x in x_set_irq c x in
  if irq =? 0 then
    '(next, s) ← scheduler_on_tick cpu (now (x_sys x)) frame (y_sched (x_sys x));
    Some (Resume next (leave (x_set_sys (y_set_sched s (x_sys x)) x)))
  else Some (Resume frame (leave x)).

Definition handle_exception (frame n : Z) (x : isys) : option outcome :=
  let x := x_say ([10] ++ text "[EXCEPTION] " ++ exc_name n ++ log_current_thread x ++ [10]) x in
  let err := freg x (f_err_code frame) in
  let bit k := dec_u64 (Z.land (Z.shiftr err k) 1) in
  let x :=
    if n =? 14 then
      x_say (text " CR2=" ++ hex64 cr2 ++ text " err=" ++ hex64 err ++ text " [P=" ++ bit 0 ++ text " W=" ++ bit 1 ++
             text " U=" ++ bit 2 ++ text " RSVD=" ++ bit 3 ++ text " I=" ++ bit 4 ++ text "]" ++ [10]) x
    else if n =? 0 then x_say (text " divide-by-zero" ++ [10]) x
    else if n =? 6 then x_say (text " invalid opcode" ++ [10]) x
    else x in
  let x := x_say (dump_frame frame x) x in
  if from_user frame x then
    let x := x_say (text "[EXCEPTION] killing user thread" ++ log_current_thread x ++ [10]) x in
    x_sched (scheduler_on_exit cpu frame (exc_exit_code n) (y_sched (x_sys x))) x
  else Some (Halt (x_say (text "[PANIC] kernel exception, halting." ++ [10]) x)).

Definition dispatch_vector (frame : Z) (x : isys) : option outcome :=
  let n := freg x (f_int_no frame) in
  if (32 <=? n) && (n <=? 47) then handle_irq frame (n - 32) x
  else if n =? APIC_RESCHED_VECTOR then
    let x := x_set_apic (apic_eoi (x_apic x)) x in
    x_sched (scheduler_on_tick cpu (now (x_sys x)) frame (y_sched (x_sys x))) x
  else if n =? APIC_SPURIOUS_VECTOR then Some (Resume frame x)
  else if n =? 128 then
    '(f, y) ← syscall_handle oom junk stack fuel cpu frame thread_addr arrivals (x_sys x);
    Some (Resume f (x_set_sys y x))
  else
    let '(handled, x) := if (n =? 1) || (n =? 3) then gdb_handle_exception frame x else (None, x) in
    match handled with
    | Some out => Some (Resume out x)
    | None => handle_exception frame n x
    end.

(** The canary of the running thread's kernel stack, when it has one. *)
Definition canary_broken (x : isys) : option (Z * Z) :=
  match cur_thread cpu (x_sys x) with
  | Some (_, t) =>
      if negb (t_kstack t =? 0) && (8 <=? t_kstack_size t) then
        let actual := ld64 (y_mem (x_sys x)) (t_kstack t) in
        if actual =? t_kstack_canary t then None else Some (t_kstack_canary t, actual)
      else None
  | None => None
  end.

Definition interrupt_dispatch (frame : Z) (x : isys) : option outcome :=
  match canary_broken x with
  | Some (expected, actual) =>
      let x := x_say ([10] ++ text "[STACK] kernel stack overflow detected" ++ log_current_thread x ++ [10] ++
                      text " expected=" ++ hex64 expected ++ text " actual=" ++ hex64 actual ++ [10]) x in
      if from_user frame x then x_sched (scheduler_on_exit cpu frame (-1) (y_sched (x_sys x))) x
      else Some (Halt (x_say (text "[PANIC] kernel stack corruption, halting." ++ [10]) x))
  | None => dispatch_vector frame x
  end.
End dispatch.

(** ** An exiting thread becomes a zombie with its code *)

Definition zombie_with (s : sched pmm) (i : nat) (code : Z) : Prop :=
  exists t, g_threads s !! i = Some t /\ t_state t = THREAD_ZOMBIE /\ t_exit_code t = code.

Lemma zombie_other (f : thread -> thread) i j code s :
  zombie_with s i code -> i <> j -> zombie_with (upd j f s) i code.
Proof. intros (t & Et & Hz) Hne. exists t. split; [|done]. simpl. by rewrite list_lookup_alter_ne. Qed.

Lemma zombie_kept (f : thread -> thread) i j code s :
  zombie_with s i code -> (forall t, t_state (f t) = t_state t /\ t_exit_code (f t) = t_exit_code t) ->
  zombie_with (upd j f s) i code.
Proof.
  intros (t & Et & Hz & Hc) Hf. destruct (decide (i = j)) as [->|Hne]; [|by apply zombie_other; [exists t|]].
  exists (f t). simpl. rewrite list_lookup_alter_eq, Et. destruct (Hf t). split; [done|]. split; congruence.
Qed.

Lemma mark_zombie_code i code (s : sched pmm) :
  is_Some (g_threads s !! i) -> zombie_with (thread_mark_zombie i code s) i code.
Proof.
  intros [t Et]. unfold thread_mark_zombie. rewrite Et. set (s1 := upd i _ s).
  assert (H1 : zombie_with s1 i code).
  { exists (t_set_state THREAD_ZOMBIE (t_set_exit_code code t)). subst s1. simpl. by rewrite list_lookup_alter_eq, Et. }
  clearbody s1. destruct (t_parent t) as [p|]; [|done]. destruct (g_threads s1 !! p) as [pt|] eqn:Ep; [|done].
  set (s2 := if 0 <? t_children pt then _ else _).
  assert (H2 : zombie_with s2 i code) by (subst s2; case_b; [by apply zombie_kept|done]).
  clearbody s2. case_b; [|done]. apply andb_true_iff in E as [Hb%bool_decide_eq_true _].
  assert (Hne : i <> p) by (intros <-; destruct H1 as (t1 & Et1 & Hz & _); congruence).
  apply zombie_other; [|done]. case_b; [|done].
  destruct H2 as (t2 & Et2 & Hz2). exists t2. by rewrite user_st32_threads.
Qed.

Lemma do_switch_zombie cpu frame next prev code (s s' : sched pmm) f :
  g_current s !! cpu = Some (Some prev) -> next <> prev -> zombie_with s prev code ->
  do_switch cpu frame next s = Some (f, s') -> zombie_with s' prev code /\ g_current s' !! cpu = Some (Some next).
Proof.
  intros Hc Hne Hz. unfold do_switch. rewrite Hc. cbn [mbind option_bind].
  rewrite bool_decide_eq_false_2 by congruence. destruct Hz as (t & Et & Hst & Hcode). rewrite Et. cbn [mbind option_bind].
  rewrite bool_decide_eq_false_2 by congruence.
  set (s1 := upd next _ _). assert (Hz1 : zombie_with s1 prev code).
  { apply zombie_other; [|done]. by apply zombie_kept; [exists t|]. }
  intros Hd. apply bind_Some in Hd as (nt & _ & He). injection He as _ <-.
  assert (Hlt : (cpu < length (g_current s))%nat) by (by eapply lookup_lt_Some).
  split.
  - destruct Hz1 as (t1 & Et1 & Hz1). exists t1. split; [|done]. by repeat case_b.
  - transitivity ((<[cpu := Some next]> (g_current s)) !! cpu); [by repeat case_b|]. by apply list_lookup_insert_eq.
Qed.

Lemma user_st32_current va v (s : sched pmm) : g_current (user_st32 va v s) = g_current s.
Proof.
  unfold user_st32. apply (for_range_ind (fun _ s' => g_current s' = g_current s)); [lia|done|].
  intros k s' _ Hs. by destruct (vmm_resolve _ _ _) as [[]|].
Qed.

Lemma upd_current j f (s : sched pmm) : g_current (upd j f s) = g_current s.
Proof. reflexivity. Qed.

Lemma mark_zombie_current i code (s : sched pmm) : g_current (thread_mark_zombie i code s) = g_current s.
Proof.
  unfold thread_mark_zombie. destruct (g_threads s !! i) as [t|]; [|done].
  destruct (t_parent t) as [p|]; [|done]. destruct (g_threads _ !! p) as [pt|]; [|done].
  repeat case_b; rewrite ?upd_current, ?user_st32_current, ?upd_current; reflexivity.
Qed.

(** What the death of another thread leaves of a thread: everything but its
    place in the schedule and its record of children. *)
Definition spared (u u' : thread) : Prop :=
  t_id u' = t_id u /\ t_rsp u' = t_rsp u /\ t_cr3 u' = t_cr3 u /\ t_kstack u' = t_kstack u /\ t_is_user u' = t_is_user u /\
  t_cpu_id u' = t_cpu_id u /\ t_open_files u' = t_open_files u /\ t_exit_code u' = t_exit_code u.

(** Thread [i], which was [t], dies on processor [cpu] with [code], and the
    processor goes on at the frame [f]: that of another thread, which was
    ready there or is the parent that waited for [i].  Only the parent may
    learn of it, and otherwise no other thread changes. *)
Record only_dies (cpu i : nat) (t : thread) (f code : Z) (s s' : sched pmm) : Prop := {
  od_zombie : zombie_with s' i code;
  od_next : exists m mt, m <> i /\ g_current s' = <[cpu := Some m]> (g_current s) /\ g_threads s !! m = Some mt /\
    f = t_rsp mt /\ t_cpu_id mt = Z.of_nat cpu /\
    (t_state mt = THREAD_READY \/ (t_state mt = THREAD_BLOCKED /\ t_parent t = Some m)) /\
    t_state <$> g_threads s' !! m = Some THREAD_RUNNING /\
    forall j u, j <> i -> g_threads s !! j = Some u -> exists u', g_threads s' !! j = Some u' /\ spared u u' /\
      (j <> m -> u' = u \/ (t_parent t = Some j /\
         (t_state u' = t_state u \/ (t_state u = THREAD_BLOCKED /\ t_state u' = THREAD_READY))))
}.

Lemma mark_zombie_others i code (s : sched pmm) t j u :
  g_threads s !! i = Some t -> j <> i -> g_threads s !! j = Some u ->
  exists u', g_threads (thread_mark_zombie i code s) !! j = Some u' /\ spared u u' /\
    (u' = u \/ (t_parent t = Some j /\ (t_state u' = t_state u \/ (t_state u = THREAD_BLOCKED /\ t_state u' = THREAD_READY)))).
Proof.
  intros Et Hj Eu. unfold thread_mark_zombie. rewrite Et. set (s1 := upd i _ s).
  assert (E1 : g_threads s1 !! j = Some u) by (subst s1; simpl; by rewrite list_lookup_alter_ne).
  clearbody s1. destruct (t_parent t) as [p|] eqn:Hp; [|exists u; by split_and!; [..|left]].
  destruct (g_threads s1 !! p) as [pt|] eqn:Ep; [|exists u; by split_and!; [..|left]].
  destruct (decide (j = p)) as [->|Hjp].
  - rewrite E1 in Ep. injection Ep as <-. set (s2 := if 0 <? t_children u then _ else _).
    assert (E2 : exists u2, g_threads s2 !! p = Some u2 /\ spared u u2 /\ t_state u2 = t_state u).
    { subst s2. case_b; [|by exists u]. eexists. simpl. rewrite list_lookup_alter_eq, E1. by split. }
    clearbody s2. destruct E2 as (u2 & E2 & Hs & Hst). case_b; [|exists u2; split_and!; [done..|]; right; auto].
    apply andb_true_iff in E as [Hb%bool_decide_eq_true _].
    assert (E3 : g_threads (if negb (t_wait_status_ptr u =? 0) then user_st32 (t_wait_status_ptr u) code s2 else s2) !! p = Some u2)
      by (case_b; [by rewrite user_st32_threads|done]).
    eexists. split; [simpl; rewrite list_lookup_alter_eq, E3; reflexivity|]. split; [exact Hs|]. right. auto.
  - exists u. split; [|by split; [|left]]. set (s2 := if 0 <? t_children pt then _ else _).
    assert (E2 : g_threads s2 !! j = Some u) by (subst s2; case_b; [simpl; by rewrite list_lookup_alter_ne|done]).
    clearbody s2. case_b; [|done]. simpl. rewrite list_lookup_alter_ne by done. case_b; [by rewrite user_st32_threads|done].
Qed.

Lemma on_exit_zombie idle (s : sched pmm) c b p t frame code :
  sok idle s -> idle !! c = Some b -> g_current s !! c = Some (Some p) -> (forall c', idle !! c' <> Some p) ->
  g_threads s !! p = Some t ->
  exists f s', scheduler_on_exit c frame code s = Some (f, s') /\ sok idle s' /\ only_dies c p t f code s s'.
Proof.
  intros Hok Hb Hp Hi Et.
  destruct (on_exit_ok idle s c b frame code Hok Hb) as (f & s' & E & Hs'); [intros c' i Hc; unfold current_on in Hc; simpl in Hc; congruence|].
  exists f, s'. split; [done|]. split; [done|]. revert E. unfold scheduler_on_exit. rewrite Hp. cbn [mjoin option_join mbind option_bind].
  set (s1 := upd p (t_set_rsp frame) s). set (t1 := t_set_rsp frame t).
  assert (Et1 : g_threads s1 !! p = Some t1) by (subst s1 t1; simpl; by rewrite list_lookup_alter_eq, Et).
  assert (E1 : core s1 = core s) by (by apply core_upd_same).
  destruct (mark_zombie_ok (Some c) idle s1 p code) as (Hz2 & Hg & _); [unfold sok; by rewrite E1|done|..].
  { rewrite E1. intros c' Hc'. f_equal. exact (current_unique None idle (core s) c c' p Hok Hp Hc'). }
  { apply (current_live idle _ c); [unfold sok; by rewrite E1|]. by rewrite E1. }
  set (s2 := thread_mark_zombie p code s1) in *.
  assert (Hz : zombie_with s2 p code) by (apply mark_zombie_code; by exists t1).
  assert (Hc2 : current_on (core s2) c p) by (unfold current_on; cbn; by rewrite Hg).
  assert (Hoth : forall j u, j <> p -> g_threads s !! j = Some u -> exists u', g_threads s2 !! j = Some u' /\ spared u u' /\
    (u' = u \/ (t_parent t = Some j /\ (t_state u' = t_state u \/ (t_state u = THREAD_BLOCKED /\ t_state u' = THREAD_READY))))).
  { intros j u Hj Eu. apply (mark_zombie_others p code s1 t1 j u Et1 Hj). subst s1. simpl. by rewrite list_lookup_alter_ne. }
  destruct (pick_next_ok _ _ _ _ _ Hz2 Hb) as [(mt2 & Em2 & [Hr Hcpu] & _)|(_ & _ & Hcb & _)];
    [|exfalso; unfold current_on in *; apply (Hi c); congruence].
  set (m := pick_next c s2) in *. assert (Hmp : m <> p) by (intros ->; destruct Hz as (tz & Ez & Hz & _); congruence).
  rewrite bool_decide_false by done. destruct Hz as (tz & Ez & Hst & Hcode).
  destruct (do_switch_ok c frame p m tz mt2 s2 Hc2 (not_eq_sym Hmp) Ez Em2) as (s3 & Es & Ets & Ec & _). rewrite Es. intros [= <- <-].
  assert (Hlen : length (g_threads s2) = length (g_threads s)).
  { pose proof (awf_len _ _ _ Hz2) as L2. pose proof (awf_len _ _ _ Hok) as L. simpl in L, L2. rewrite !length_fmap in *. congruence. }
  destruct (lookup_lt_is_Some_2 (g_threads s) m) as [mt Em]; [rewrite <- Hlen; by eapply lookup_lt_Some|].
  destruct (Hoth m mt Hmp Em) as (mt' & Em' & Hsp & Hmst). rewrite Em2 in Em'. injection Em' as <-.
  constructor.
  - exists (save_context frame tz). rewrite Ets, list_lookup_alter_ne, list_lookup_alter_eq, Ez by done. split; [done|].
    unfold save_context. cbn. by rewrite bool_decide_false by congruence.
  - exists m, mt. split; [done|]. split; [by rewrite Ec, Hg|]. split; [done|]. split; [apply Hsp|].
    split; [destruct Hsp as (_ & _ & _ & _ & _ & Hcp & _); congruence|].
    split; [destruct Hmst as [<-|(Hpar & [Hmst|[Hmst _]])]; [by left|left; congruence|right; auto]|].
    split; [by rewrite Ets, list_lookup_alter_eq, list_lookup_alter_ne, Em2 by done|].
    intros j u Hj Eu. destruct (Hoth j u Hj Eu) as (u' & Eu' & Hsu & Hu). rewrite Ets.
    destruct (decide (j = m)) as [->|Hjm].
    + rewrite list_lookup_alter_eq, list_lookup_alter_ne, Em2 by done. rewrite Em2 in Eu'. injection Eu' as ->.
      eexists. split; [reflexivity|]. split; [exact Hsu|done].
    + rewrite !list_lookup_alter_ne by done. exists u'. by split_and!.
Qed.

(** ** What an interrupt leaves behind *)

Section spec.
Context {B : Type} `{BlockOps B}.
Context (dev : device) (lapic : list (Z * Z) -> Z -> Z) (cr2 : Z).
Context (gdb : Z -> isys (B:=B) -> option Z * isys (B:=B)).
Context (oom : Z -> bool) (junk : Z -> Z -> Z) (stack : list Z) (fuel : nat) (cpu : nat) (thread_addr : nat -> Z).
Context (arrivals : list (list Z)).
Context (idle : gmap nat nat).
Implicit Types (x : isys (B:=B)).

Abbreviation dispatch := (interrupt_dispatch dev lapic cr2 gdb oom junk stack fuel cpu thread_addr arrivals).

Definition threads_ok x : Prop := sok idle (y_sched (x_sys x)).
Definition after (o : outcome (B:=B)) : isys (B:=B) := match o with Resume _ x => x | Halt x => x end.

Lemma x_run_sys {T} (m : IO T) x : x_sys (snd (x_run m x)) = x_sys x.
Proof. unfold x_run. by destruct (m (x_io x)). Qed.

Lemma run_handler_sched handler irq x : y_sched (x_sys (run_handler dev handler irq x)) = y_sched (x_sys x).
Proof.
  unfold run_handler. case_b; [|case_b; [|by case_b]].
  - pose proof (x_run_sys (input_handle_irq1 dev (y_input (x_sys x))) x) as Hx.
    destruct (x_run _ x) as [inp x']. simpl in *. by rewrite Hx.
  - pose proof (x_run_sys (input_handle_irq12 dev (y_input (x_sys x))) x) as Hx.
    destruct (x_run _ x) as [[scroll inp] x']. simpl in *. by destruct scroll; simpl; rewrite Hx.
Qed.

Lemma handle_irq_ok frame irq x o :
  threads_ok x -> is_Some (idle !! cpu) -> handle_irq dev lapic fuel cpu frame irq x = Some o -> threads_ok (after o).
Proof.
  intros Hok [b Hb]. unfold handle_irq.
  pose proof (x_run_sys (irq_enter dev irq (cpu_cli (x_irq x))) x) as Hx.
  destruct (x_run _ x) as [c x1]. simpl in Hx. intros Hd.
  apply bind_Some in Hd as (x2 & E2 & Hd).
  assert (H2 : threads_ok x2).
  { revert E2. unfold threads_ok. case_b.
    - intros He. apply bind_Some in He as (a & _ & He). injection He as <-. simpl. by rewrite Hx.
    - destruct (irq_dispatch irq _) as [h c']. intros He. injection He as <-. destruct h; simpl; rewrite ?run_handler_sched; simpl; by rewrite Hx. }
  clear E2. revert Hd. set (x3 := x_set_irq _ x2). pose proof (x_run_sys (pic_send_eoi irq) x3) as Hx4.
  destruct (x_run _ x3) as [u x4]. simpl in Hx4. intros Hd.
  assert (Hleave : forall x, threads_ok x -> threads_ok (let '(c, x) := x_run (irq_exit (x_irq x)) x in x_set_irq c x)).
  { intros x' Hx'. pose proof (x_run_sys (irq_exit (x_irq x')) x') as He. destruct (x_run _ x') as [c' x'']. simpl in *.
    unfold threads_ok in *. simpl. by rewrite He. }
  assert (H4 : threads_ok x4) by (unfold threads_ok in *; by rewrite Hx4).
  case_b_in Hd.
  - apply bind_Some in Hd as ([next s] & Es & Hd). injection Hd as <-. apply (Hleave (x_set_sys (y_set_sched s (x_sys x4)) x4)).
    destruct (yield_ok idle (y_sched (x_sys x4)) cpu b (now (x_sys x4)) frame H4 Hb) as (f & s' & Es' & Hs').
    unfold scheduler_on_tick in Es. unfold scheduler_yield in Es'. rewrite Es in Es'. injection Es' as -> ->. done.
  - injection Hd as <-. by apply (Hleave x4).
Qed.

(** The processor's current thread is a user thread. *)
Definition user_running x : Prop := exists i t, cur_thread cpu (x_sys x) = Some (i, t) /\ t_is_user t = true.

Lemma user_current x i t :
  threads_ok x -> is_Some (idle !! cpu) -> cur_thread cpu (x_sys x) = Some (i, t) -> t_is_user t = true ->
  g_current (y_sched (x_sys x)) !! cpu = Some (Some i) /\ (forall c', idle !! c' <> Some i) /\
  g_threads (y_sched (x_sys x)) !! i = Some t.
Proof.
  intros Hok Hidle Hc Hu. pose proof (cur_on cpu idle (x_sys x) i t Hok Hidle Hc) as Hcur.
  destruct (cur_thread_lookup cpu (x_sys x) i t Hc) as [_ Et].
  split; [exact Hcur|]. split; [|done]. intros c'. by eapply user_not_idle.
Qed.

(** Printing changes neither threads nor memory. *)
Definition said x x' : Prop := y_sched (x_sys x') = y_sched (x_sys x).

Lemma said_user frame x x' : said x x' -> from_user frame x' = from_user frame x.
Proof. intros Hs. unfold from_user, freg, reg, y_mem. by rewrite Hs. Qed.

Lemma killed frame code x x' i t :
  said x x' -> threads_ok x -> is_Some (idle !! cpu) -> cur_thread cpu (x_sys x) = Some (i, t) -> t_is_user t = true ->
  exists f x'', x_sched (scheduler_on_exit cpu frame code (y_sched (x_sys x'))) x' = Some (Resume f x'') /\
    threads_ok x'' /\ only_dies cpu i t f code (y_sched (x_sys x)) (y_sched (x_sys x'')).
Proof.
  intros Hs Hok Hidle Hc Hu. destruct (user_current x i t Hok Hidle Hc Hu) as (Hcur & Hni & Et).
  destruct Hidle as [b Hb]. rewrite Hs.
  destruct (on_exit_zombie idle (y_sched (x_sys x)) cpu b i t frame code Hok Hb Hcur Hni Et) as (f & s' & E & Hok' & Hd).
  unfold x_sched. rewrite E. by eexists f, _.
Qed.

Lemma exception_user frame n x i t :
  threads_ok x -> is_Some (idle !! cpu) -> cur_thread cpu (x_sys x) = Some (i, t) -> t_is_user t = true ->
  from_user frame x = true ->
  exists f x', handle_exception cr2 cpu frame n x = Some (Resume f x') /\ threads_ok x' /\
    only_dies cpu i t f (exc_exit_code n) (y_sched (x_sys x)) (y_sched (x_sys x')).
Proof.
  intros Hok Hidle Hc Hu Hf. unfold handle_exception. set (x1 := x_say _ x).
  set (x2 := if n =? 14 then _ else _). assert (H2 : said x x2) by (subst x2; by repeat case_b).
  clearbody x2. set (x3 := x_say _ x2). assert (H3 : said x x3) by exact H2.
  rewrite (said_user frame x x3 H3), Hf. by apply (killed frame (exc_exit_code n) x _ i t).
Qed.

Lemma exception_kernel frame n x :
  from_user frame x = false ->
  exists x', handle_exception cr2 cpu frame n x = Some (Halt x') /\ said x x'.
Proof.
  intros Hf. unfold handle_exception. set (x1 := x_say _ x).
  set (x2 := if n =? 14 then _ else _). assert (H2 : said x x2) by (subst x2; by repeat case_b).
  clearbody x2. set (x3 := x_say _ x2). assert (H3 : said x x3) by exact H2.
  rewrite (said_user frame x x3 H3), Hf. by eexists.
Qed.

(** What is asked of the debugger stub: refusing a trap leaves everything as
    it is, and serving one does not touch the threads. *)
Definition gdb_law : Prop :=
  forall frame x, match gdb frame x with (None, x') => x' = x | (Some _, x') => threads_ok x -> threads_ok x' end.

(** Every entry into the kernel keeps the invariant of the thread table:
    hardware interrupts, ticks from other processors, system calls, traps and
    exceptions, whether the processor was in user mode or not; the kernel's
    own calls are the yield of scheduler_sleep. *)
Theorem dispatch_keeps_threads frame x o :
  threads_ok x -> is_Some (idle !! cpu) -> ids_left (y_sched (x_sys x)) -> gdb_law ->
  (from_user frame x = true -> user_running x) ->
  (freg x (f_int_no frame) = 128 ->
     if from_user frame x then freg x (frame_rax frame) = SYS_kill -> kill_safe (y_sched (x_sys x)) cpu (i32 (freg x (f_rdi frame)))
     else freg x (frame_rax frame) = SYS_yield) ->
  dispatch frame x = Some o -> threads_ok (after o).
Proof.
  intros Hok Hidle Hids Hgdb Hur Hsys. unfold interrupt_dispatch.
  destruct (canary_broken cpu x) as [[e a]|].
  { set (x1 := x_say _ x). rewrite (said_user frame x x1) by done. destruct (from_user frame x) eqn:Hf.
    - destruct (Hur eq_refl) as (i & t & Hc & Hu).
      destruct (killed frame (-1) x x1 i t) as (f & x2 & -> & Hx2 & _); try done. intros He. by injection He as <-.
    - intros He. by injection He as <-. }
  unfold dispatch_vector. case_b; [by apply handle_irq_ok|].
  case_b.
  { destruct Hidle as [b Hb]. destruct (yield_ok idle (y_sched (x_sys x)) cpu b (now (x_sys x)) frame Hok Hb) as (f & s' & Es & Hs').
    unfold scheduler_yield in Es. unfold scheduler_on_tick, x_sched. simpl. rewrite Es. intros He. by injection He as <-. }
  case_b; [intros He; by injection He as <-|]. case_b.
  { apply Z.eqb_eq in E2. specialize (Hsys E2). intros Hd. apply bind_Some in Hd as ([f y] & Ey & Hd).
    injection Hd as <-. destruct (from_user frame x) eqn:Hf; [apply Z.eqb_eq in Hf|apply Z.eqb_neq in Hf; by eapply kernel_yield_keeps_threads].
    rename Hsys into Hk.
    exact (syscall_keeps_threads oom junk stack fuel cpu frame thread_addr idle (x_sys x) arrivals f y Hok Hidle Hids Hf Hk Ey). }
  assert (Hex : handle_exception cr2 cpu frame (freg x (f_int_no frame)) x = Some o -> threads_ok (after o)).
  { destruct (from_user frame x) eqn:Hf.
    - destruct (Hur eq_refl) as (i & t & Hc & Hu).
      destruct (exception_user frame (freg x (f_int_no frame)) x i t) as (f & x' & -> & Hx' & _); try done. intros He. by injection He as <-.
    - destruct (exception_kernel frame (freg x (f_int_no frame)) x Hf) as (x' & -> & Hs). intros He. injection He as <-.
      unfold threads_ok. simpl. by rewrite Hs. }
  destruct ((_ =? 1) || _); [|exact Hex]. pose proof (Hgdb frame x) as Hg. destruct (gdb frame x) as [[out|] x']; [|by subst x'].
  intros He. injection He as <-. by apply Hg.
Qed.

(** C6: a fault in user mode costs only the thread that made it: the dispatch
    resumes the saved frame of another thread, one that was ready on this
    processor or the parent that waited for the culprit; the culprit is a
    zombie with code 128 plus the vector (-1 when its kernel stack was
    overrun); its parent may be woken, and no other thread changes except
    that the resumed one runs.  The same fault in kernel mode halts with the
    threads untouched.  Vectors 1 and 3 are faults when the debugger does not
    take them. *)
Theorem dispatch_contains_faults frame x i t :
  let n := freg x (f_int_no frame) in
  let code := match canary_broken cpu x with Some _ => -1 | None => 128 + n end in
  threads_ok x -> is_Some (idle !! cpu) -> cur_thread cpu (x_sys x) = Some (i, t) ->
  (canary_broken cpu x = None -> 0 <= n < 32 /\ (n = 1 \/ n = 3 -> gdb frame x = (None, x))) ->
  (from_user frame x = true -> t_is_user t = true ->
     exists f x', dispatch frame x = Some (Resume f x') /\ threads_ok x' /\
       only_dies cpu i t f code (y_sched (x_sys x)) (y_sched (x_sys x'))) /\
  (from_user frame x = false -> exists x', dispatch frame x = Some (Halt x') /\ said x x').
Proof.
  intros n code Hok Hidle Hc Hn. unfold interrupt_dispatch. subst code.
  destruct (canary_broken cpu x) as [[e a]|].
  - set (x1 := x_say _ x). rewrite (said_user frame x x1) by done. split.
    + intros -> Hu. by apply (killed frame (-1) x x1 i t).
    + intros ->. by eexists.
  - destruct (Hn eq_refl) as [Hr Hg]. unfold dispatch_vector. fold n. unfold APIC_RESCHED_VECTOR, APIC_SPURIOUS_VECTOR.
    rewrite (proj2 (Z.leb_gt 32 n)), !(proj2 (Z.eqb_neq n _)) by lia. cbn [andb].
    assert (Hgdb : (if (n =? 1) || (n =? 3) then gdb frame x else (None, x)) = (None, x)).
    { case_b; [|done]. apply Hg. apply orb_true_iff in E as [E%Z.eqb_eq|E%Z.eqb_eq]; auto. }
    rewrite Hgdb. split.
    + intros Hf Hu. replace (128 + n) with (exc_exit_code n).
      * by apply (exception_user frame n x i t).
      * unfold exc_exit_code. by rewrite (proj2 (Z.ltb_ge _ _)) by lia.
    + intros Hf. by apply exception_kernel.
Qed.

End spec.

(** ** The small machine: a page fault in its user thread *)

Definition lab_entry (n : Z) : isys (B:=ram_disk) :=
  mk_isys (y_set_sched (s_set_mem (st64 (st64 (s_mem lab_u) (f_cs 2000) 27) (f_int_no 2000) n) lab_u) lab_sys)
    irq_up open_hist (mk_apic 0 0 []) false.

Definition no_gdb (frame : Z) (x : isys (B:=ram_disk)) : option Z * isys (B:=ram_disk) := (None, x).

Lemma no_gdb_law : gdb_law no_gdb {[ O := O ]}.
Proof. intros frame x. reflexivity. Qed.

Lemma lab_entry_ok n : threads_ok {[ O := O ]} (lab_entry n).
Proof.
  unfold threads_ok, sok, lab_entry. cbn [x_sys y_sched y_set_sched]. rewrite core_set_mem.
  exact (reach_ok lab_addr 32768 lab_oom _ _ lab_reach_u).
Qed.

Lemma lab_cur n : exists t, cur_thread O (x_sys (lab_entry n)) = Some (1%nat, t) /\ t_is_user t = true.
Proof. eexists. split; vm_compute; reflexivity. Qed.

Lemma dispatch_contains_faults_witness :
  exists x', interrupt_dispatch (fun _ _ => 0) (fun _ _ => 0) 4096 no_gdb lab_oom (fun _ _ => 0) [] 9 O lab_addr [] 2000
      (lab_entry 14) = Some (Resume 1000 x') /\ zombie_with (y_sched (x_sys x')) 1 142.
Proof.
  destruct (lab_cur 14) as (t & Hc & Hu).
  destruct (dispatch_contains_faults (fun _ _ => 0) (fun _ _ => 0) 4096 no_gdb lab_oom (fun _ _ => 0) [] 9 O lab_addr []
              {[ O := O ]} 2000 (lab_entry 14) 1 t (lab_entry_ok 14)) as [Huser _].
  - exists O. reflexivity.
  - exact Hc.
  - intros _. assert (Hn : freg (lab_entry 14) (f_int_no 2000) = 14) by (vm_compute; reflexivity).
    rewrite Hn. split; [lia|]. intros _. reflexivity.
  - destruct Huser as (f & x' & E & _ & Hd); [vm_compute; reflexivity|exact Hu|].
    assert (Hcode : canary_broken O (lab_entry 14) = None /\ freg (lab_entry 14) (f_int_no 2000) = 14)
      by (split; vm_compute; reflexivity).
    destruct Hcode as (Hb & Hn). rewrite Hb, Hn in Hd. destruct Hd as [Hz _].
    assert (Hr : match interrupt_dispatch (fun _ _ => 0) (fun _ _ => 0) 4096 no_gdb lab_oom (fun _ _ => 0) [] 9 O lab_addr [] 2000
      (lab_entry 14) with Some (Resume f _) => f | _ => 0 end = 1000) by (vm_compute; reflexivity).
    rewrite E in Hr. subst f. exists x'. split; [exact E|exact Hz].
Defined.

(** A timer interrupt on the same machine. *)
Lemma dispatch_keeps_threads_witness :
  exists o, interrupt_dispatch (fun _ _ => 0) (fun _ _ => 0) 0 no_gdb lab_oom (fun _ _ => 0) [] 9 O lab_addr [] 2000
      (lab_entry 32) = Some o /\ threads_ok {[ O := O ]} (after o).
Proof.
  destruct (interrupt_dispatch (fun _ _ => 0) (fun _ _ => 0) 0 no_gdb lab_oom (fun _ _ => 0) [] 9 O lab_addr [] 2000
      (lab_entry 32)) as [o|] eqn:E.
  - exists o. split; [reflexivity|].
    refine (dispatch_keeps_threads (fun _ _ => 0) (fun _ _ => 0) 0 no_gdb lab_oom (fun _ _ => 0) [] 9 O lab_addr []
              {[ O := O ]} 2000 (lab_entry 32) o (lab_entry_ok 32) _ _ no_gdb_law _ _ E).
    + exists O. reflexivity.
    + unfold ids_left. replace (g_next_id (y_sched (x_sys (lab_entry 32)))) with 2 by (vm_compute; reflexivity). lia.
    + intros _. destruct (lab_cur 32) as (t & Hc & Hu). exists 1%nat, t. exact (conj Hc Hu).
    + intros Hn. vm_compute in Hn. discriminate Hn.
  - exfalso. assert (Hd : match interrupt_dispatch (fun _ _ => 0) (fun _ _ => 0) 0 no_gdb lab_oom (fun _ _ => 0) [] 9 O lab_addr []
      2000 (lab_entry 32) with Some _ => true | None => false end = true) by (vm_compute; reflexivity).
    rewrite E in Hd. discriminate Hd.
Defined.
