(* ===== verification/UserLib.v ===== *)
(** * The support library of user programs (user/lib.c)

    C strings are lists of bytes without the final zero ([deref] is what a
    pointer at the start of the rest reads); a [char] is its byte.  Output
    goes to a caller's buffer that is cut at its size.  The specification of
    formatted output is the relation [renders], which has no buffers, and
    numbers in it are numerals: digits with the right value and no
    superfluous zero. *)

From Stdlib Require Import String.
From stdpp Require Import prelude list.
From Stdlib Require Import ZArith Lia.
From S2P Require Import Prelude Console.
#[local] Open Scope string_scope.
#[local] Open Scope list_scope.
#[local] Open Scope Z_scope.
#[local] Open Scope cint_scope.

(** ** Strings *)

Definition deref (s : list Z) : Z := hd 0 s.

Definition ustrlen (s : list Z) : Z := Z.of_nat (List.length s).

Fixpoint ustrcmp (a b : list Z) : Z :=
  match a with
  | [] => 0 - deref b
  | x :: a' => if x =? deref b then ustrcmp a' (tl b) else x - deref b
  end.

Fixpoint ustrncmp (a b : list Z) (n : nat) : Z :=
  match n with
  | O => 0
  | S n' =>
      let ac := deref a in
      let bc := deref b in
      if negb (ac =? bc) then ac - bc
      else if ac =? 0 then 0 else ustrncmp (tl a) (tl b) n'
  end.

(** On arrays of at least [n] bytes. *)
Fixpoint umemcmp (a b : list Z) (n : nat) : Z :=
  match n with
  | O => 0
  | S n' => if negb (deref a =? deref b) then deref a - deref b else umemcmp (tl a) (tl b) n'
  end.

(** A byte of a C string. *)
Definition is_char (c : Z) : Prop := 0 < c < 256.

(** ** Formatted output *)

(** [buf[i] = v] *)
Definition set_at (buf : list Z) (i v : Z) : list Z := <[Z.to_nat i := v]> buf.

(** A buffer and the position after the last character put. *)
Record obuf := mk_obuf { ob_data : list Z; ob_idx : Z }.

Definition buf_putc (size c : Z) (o : obuf) : obuf :=
  mk_obuf (if ob_idx o +% 1 <? size then set_at (ob_data o) (ob_idx o) c else ob_data o) (ob_idx o +% 1).

Definition buf_puts (size : Z) (s : list Z) (o : obuf) : obuf := fold_left (fun o c => buf_putc size c o) s o.

Definition digit_char (upper : bool) (digit : Z) : Z :=
  if digit <? 10 then 48 + digit else (if upper then 65 else 97) + (digit - 10).

(** The digits in the order the loop finds them, at most [n]. *)
Fixpoint uint_tmp (n : nat) (v base : Z) (upper : bool) : list Z :=
  match n with
  | O => []
  | S n' => if v =? 0 then [] else digit_char upper (v mod base) :: uint_tmp n' (v / base) base upper
  end.

Definition uint_digits (n : nat) (v base : Z) (upper : bool) : list Z :=
  rev (if v =? 0 then [48] else uint_tmp n v base upper).

Definition format_uint (size v base : Z) (upper : bool) (o : obuf) : obuf :=
  buf_puts size (uint_digits 32 v base upper) o.

(** The variable arguments: 64-bit words and pointers to strings.  Taking
    an argument of the other sort, or one more than were passed, is
    undefined ([None]).  Narrower integers are passed extended. *)
Inductive va := VaWord (v : Z) | VaStr (s : option (list Z)).

Fixpoint vsnprintf_loop (size : Z) (fmt : list Z) (ap : list va) (o : obuf) : option obuf :=
  match fmt with
  | [] => Some o
  | c :: fmt' =>
      if negb (c =? 37) then vsnprintf_loop size fmt' ap (buf_putc size c o)
      else
        match fmt' with
        | [] => Some o
        | spec :: fmt'' =>
            if spec =? 115 then
              match ap with
              | VaStr s :: ap' => vsnprintf_loop size fmt'' ap' (buf_puts size (default (text "(null)") s) o)
              | _ => None
              end
            else if spec =? 99 then
              match ap with
              | VaWord v :: ap' => vsnprintf_loop size fmt'' ap' (buf_putc size (u8 v) o)
              | _ => None
              end
            else if (spec =? 100) || (spec =? 105) then
              match ap with
              | VaWord w :: ap' =>
                  let v := i64 w in
                  let '(v, o) := if v <? 0 then (i64 (- v), buf_putc size 45 o) else (v, o) in
                  vsnprintf_loop size fmt'' ap' (format_uint size (u64 v) 10 false o)
              | _ => None
              end
            else if spec =? 117 then
              match ap with
              | VaWord v :: ap' => vsnprintf_loop size fmt'' ap' (format_uint size v 10 false o)
              | _ => None
              end
            else if spec =? 120 then
              match ap with
              | VaWord v :: ap' => vsnprintf_loop size fmt'' ap' (format_uint size v 16 false o)
              | _ => None
              end
            else if spec =? 88 then
              match ap with
              | VaWord v :: ap' => vsnprintf_loop size fmt'' ap' (format_uint size v 16 true o)
              | _ => None
              end
            else if spec =? 112 then
              match ap with
              | VaWord v :: ap' =>
                  vsnprintf_loop size fmt'' ap' (format_uint size v 16 false (buf_putc size 120 (buf_putc size 48 o)))
              | _ => None
              end
            else if spec =? 37 then vsnprintf_loop size fmt'' ap (buf_putc size 37 o)
            else vsnprintf_loop size fmt'' ap (buf_putc size spec (buf_putc size 37 o))
        end
  end.

Definition vsnprintf_simple (buf : list Z) (size : Z) (fmt : list Z) (ap : list va) : option (Z * list Z) :=
  o ← vsnprintf_loop size fmt ap (mk_obuf buf 0);
  let term := if ob_idx o <? size then ob_idx o else size - 1 in
  Some (i32 (ob_idx o), if 0 <? size then set_at (ob_data o) term 0 else ob_data o).

(** [stack] is what the 1024 bytes of the buffer held before.  The result
    is the call of sys_write that ends the function, if it is reached. *)
Definition printf_text (stack : list Z) (fmt : list Z) (ap : list va) : option (Z * option (list Z)) :=
  '(len, buf) ← vsnprintf_simple stack 1024 fmt ap;
  if len <? 0 then Some (len, None)
  else
    let len := if 1023 <? len then 1023 else len in
    Some (len, Some (take (Z.to_nat len) buf)).

(** The texts [puts] hands to sys_write. *)
Definition puts_text (s : list Z) : list (list Z) :=
  (if negb (i32 (ustrlen s) =? 0) then [s] else []) ++ [[10]].

(** ** Numerals *)

Definition digit_value (c : Z) : option Z :=
  if (48 <=? c) && (c <=? 57) then Some (c - 48)
  else if (97 <=? c) && (c <=? 102) then Some (c - 87)
  else if (65 <=? c) && (c <=? 70) then Some (c - 55)
  else None.

(** The number [ds] denotes after digits of value [acc]. *)
Fixpoint value (base acc : Z) (ds : list Z) : option Z :=
  match ds with
  | [] => Some acc
  | c :: ds' => d ← digit_value c; if d <? base then value base (acc * base + d) ds' else None
  end.

Record numeral (base : Z) (upper : bool) (v : Z) (ds : list Z) : Prop := {
  num_nonempty : ds <> [];
  num_value : value base 0 ds = Some v;
  num_short : hd 0 ds = 48 -> ds = [48];
  num_case : Forall (fun c => if upper then c < 97 else ~ (65 <= c <= 90)) ds
}.

Lemma value_app base ds ds' : forall acc, value base acc (ds ++ ds') = v ← value base acc ds; value base v ds'.
Proof.
  induction ds as [|c ds IH]; intros acc; simpl; [done|].
  destruct (digit_value c); simpl; [|done]. case_match; [apply IH|done].
Qed.

Lemma digit_char_value upper d : 0 <= d < 16 -> digit_value (digit_char upper d) = Some d.
Proof.
  intros H. unfold digit_char. case_b; [|destruct upper]; unfold digit_value; repeat case_b; try lia; f_equal; lia.
Qed.

Lemma digit_char_case (upper : bool) d : 0 <= d < 16 ->
  if upper then digit_char upper d < 97 else ~ (65 <= digit_char upper d <= 90).
Proof. intros H. unfold digit_char. destruct upper; case_b; lia. Qed.

Lemma digit_char_zero upper d : 0 <= d < 16 -> digit_char upper d = 48 -> d = 0.
Proof. intros H. unfold digit_char. destruct upper; case_b; lia. Qed.

Section digits.
Context (base : Z) (upper : bool) (Hbase : 2 <= base <= 16).

Lemma uint_tmp_value n : forall v, 0 <= v < base ^ Z.of_nat n ->
  value base 0 (rev (uint_tmp n v base upper)) = Some v.
Proof.
  induction n as [|n IH]; intros v Hv; [simpl in *; f_equal; lia|].
  rewrite Nat2Z.inj_succ, Z.pow_succ_r in Hv by lia.
  cbn [uint_tmp]. case_b; [simpl; f_equal; lia|].
  cbn [rev]. rewrite value_app, IH; cycle 1.
  { split; [apply Z.div_pos; lia|apply Z.div_lt_upper_bound; lia]. }
  pose proof (Z.mod_pos_bound v base). pose proof (Z.div_mod v base).
  cbn [mbind option_bind value]. rewrite digit_char_value by lia. cbn [mbind option_bind].
  rewrite (proj2 (Z.ltb_lt _ _)) by lia. f_equal. lia.
Qed.

Lemma uint_tmp_head n : forall v, 0 < v < base ^ Z.of_nat n -> hd 0 (rev (uint_tmp n v base upper)) <> 48.
Proof.
  induction n as [|n IH]; intros v Hv; [simpl in *; lia|].
  rewrite Nat2Z.inj_succ, Z.pow_succ_r in Hv by lia.
  cbn [uint_tmp]. rewrite (proj2 (Z.eqb_neq _ _)) by lia. cbn [rev].
  pose proof (Z.mod_pos_bound v base). pose proof (Z.div_mod v base).
  destruct (decide (v / base = 0)) as [E|E].
  - rewrite E. assert (Hn : uint_tmp n 0 base upper = []) by (by destruct n). rewrite Hn. simpl.
    intros Hd%digit_char_zero; lia.
  - assert (Hq : 0 <= v / base) by (apply Z.div_pos; lia).
    assert (Hr : hd 0 (rev (uint_tmp n (v / base) base upper)) <> 48).
    { apply IH. split; [lia|apply Z.div_lt_upper_bound; lia]. }
    assert (Hne : uint_tmp n (v / base) base upper <> []).
    { destruct n as [|n']; [|simpl; by rewrite (proj2 (Z.eqb_neq _ _)) by lia].
      simpl in Hv. exfalso. apply E. apply Z.div_small. lia. }
    destruct (rev (uint_tmp n (v / base) base upper)) eqn:Er; [|exact Hr].
    exfalso. apply Hne. rewrite <- (rev_involutive (uint_tmp _ _ _ _)), Er. done.
Qed.

Lemma uint_tmp_case n : forall v,
  Forall (fun c => if upper then c < 97 else ~ (65 <= c <= 90)) (uint_tmp n v base upper).
Proof.
  induction n as [|n IH]; intros v; simpl; [constructor|]. destruct (v =? 0); [constructor|].
  constructor; [|apply IH]. apply digit_char_case. pose proof (Z.mod_pos_bound v base). lia.
Qed.

Lemma uint_digits_numeral n v : (0 < n)%nat -> 0 <= v < base ^ Z.of_nat n ->
  numeral base upper v (uint_digits n v base upper).
Proof.
  intros Hn Hv. unfold uint_digits. case_b.
  { apply Z.eqb_eq in E as ->. split; simpl; try done; [by rewrite (proj2 (Z.ltb_lt _ _)) by lia|].
    repeat constructor. destruct upper; lia. }
  apply Z.eqb_neq in E. split.
  - intros Hr. pose proof (uint_tmp_value n v Hv) as Hval. rewrite Hr in Hval. simpl in Hval. congruence.
  - by apply uint_tmp_value.
  - intros Hd. exfalso. revert Hd. apply uint_tmp_head. lia.
  - apply Forall_rev, uint_tmp_case.
Qed.
End digits.

Lemma format_numeral base upper v : 10 <= base <= 16 -> is_u64 v ->
  numeral base upper v (uint_digits 32 v base upper).
Proof.
  intros Hb Hv. apply uint_digits_numeral; [lia|lia|]. split; [unfold is_u64 in Hv; lia|].
  apply Z.lt_le_trans with (10 ^ 32); [unfold is_u64 in Hv; lia|]. apply Z.pow_le_mono_l; lia.
Qed.

(** ** Formatted output against its specification *)

(** What a conversion takes: a string, a word or nothing. *)
Definition takes (spec : Z) : option bool :=
  if spec =? 115 then Some true
  else if bool_decide (spec ∈ [99; 100; 105; 117; 120; 88; 112]) then Some false
  else None.

Inductive renders : list Z -> list va -> list Z -> Prop :=
| R_end ap : renders [] ap []
| R_lone ap : renders [37] ap []
| R_char c fmt ap out : c <> 37 -> renders fmt ap out -> renders (c :: fmt) ap (c :: out)
| R_str s fmt ap out : renders fmt ap out ->
    renders (37 :: 115 :: fmt) (VaStr s :: ap) (default (text "(null)") s ++ out)
| R_chr v fmt ap out : renders fmt ap out -> renders (37 :: 99 :: fmt) (VaWord v :: ap) (u8 v :: out)
| R_dec spec v ds fmt ap out : spec = 100 \/ spec = 105 -> numeral 10 false (Z.abs (i64 v)) ds ->
    renders fmt ap out ->
    renders (37 :: spec :: fmt) (VaWord v :: ap) ((if i64 v <? 0 then [45] else []) ++ ds ++ out)
| R_uns v ds fmt ap out : numeral 10 false v ds -> renders fmt ap out ->
    renders (37 :: 117 :: fmt) (VaWord v :: ap) (ds ++ out)
| R_hex (upper : bool) v ds fmt ap out : numeral 16 upper v ds -> renders fmt ap out ->
    renders (37 :: (if upper then 88 else 120) :: fmt) (VaWord v :: ap) (ds ++ out)
| R_ptr v ds fmt ap out : numeral 16 false v ds -> renders fmt ap out ->
    renders (37 :: 112 :: fmt) (VaWord v :: ap) ([48; 120] ++ ds ++ out)
| R_percent fmt ap out : renders fmt ap out -> renders (37 :: 37 :: fmt) ap (37 :: out)
| R_other spec fmt ap out : takes spec = None -> spec <> 37 -> renders fmt ap out ->
    renders (37 :: spec :: fmt) ap (37 :: spec :: out).

(** The arguments are of the sorts the format takes them. *)
Fixpoint args_ok (fmt : list Z) (ap : list va) : bool :=
  match fmt with
  | [] => true
  | c :: fmt' =>
      if negb (c =? 37) then args_ok fmt' ap
      else
        match fmt' with
        | [] => true
        | spec :: fmt'' =>
            match takes spec, ap with
            | None, _ => args_ok fmt'' ap
            | Some true, VaStr _ :: ap' => args_ok fmt'' ap'
            | Some false, VaWord v :: ap' => bool_decide (is_u64 v) && args_ok fmt'' ap'
            | _, _ => false
            end
        end
  end.

Section buffer.
Context (buf : list Z) (size : Z) (Hsize : 0 <= size <= Z.of_nat (length buf)).

(** The buffer with as much of [out] as leaves room for the final zero. *)
Definition kept_len (out : list Z) : nat := Nat.min (length out) (Z.to_nat (size - 1)).
Definition shown (out : list Z) : list Z := take (kept_len out) out ++ drop (kept_len out) buf.
Definition shown_obuf (out : list Z) : obuf := mk_obuf (shown out) (Z.of_nat (length out)).

Lemma buf_putc_shown out c : Z.of_nat (length out) < W64 - 1 ->
  buf_putc size c (shown_obuf out) = shown_obuf (out ++ [c]).
Proof.
  intros H. unfold buf_putc, shown_obuf, shown, kept_len. simpl.
  rewrite u64_small by (unfold is_u64, W64 in *; lia). rewrite length_app. simpl.
  f_equal; [|lia]. case_b.
  - replace (Nat.min (length out) (Z.to_nat (size - 1))) with (length out) by lia.
    replace (Nat.min (length out + 1) (Z.to_nat (size - 1))) with (length out + 1)%nat by lia.
    unfold set_at. rewrite Nat2Z.id, (firstn_all out), insert_app_r_alt by lia.
    rewrite Nat.sub_diag, (firstn_all2 (out ++ [c])) by (rewrite length_app; simpl; lia).
    rewrite <- app_assoc. f_equal. simpl.
    destruct (drop (length out) buf) as [|x l] eqn:Ed.
    { apply (f_equal length) in Ed. rewrite length_drop in Ed. simpl in Ed. lia. }
    simpl. f_equal. rewrite <- drop_drop, Ed. done.
  - replace (Nat.min (length out + 1) (Z.to_nat (size - 1))) with (Z.to_nat (size - 1)) by lia.
    replace (Nat.min (length out) (Z.to_nat (size - 1))) with (Z.to_nat (size - 1)) by lia.
    by rewrite take_app_le by lia.
Qed.

Lemma buf_puts_shown s : forall out, Z.of_nat (length (out ++ s)) < W64 ->
  buf_puts size s (shown_obuf out) = shown_obuf (out ++ s).
Proof.
  induction s as [|c s IH]; intros out H; [by rewrite app_nil_r|].
  rewrite length_app in H. simpl in H.
  unfold buf_puts. simpl. rewrite buf_putc_shown by lia.
  fold (buf_puts size s (shown_obuf (out ++ [c]))). rewrite IH; rewrite <- app_assoc; [done|].
  rewrite length_app. simpl. lia.
Qed.

(** From any position the loop adds [out]. *)
Definition runs (fmt : list Z) (ap : list va) (out : list Z) : Prop :=
  forall out0, Z.of_nat (length (out0 ++ out)) < W64 ->
    vsnprintf_loop size fmt ap (shown_obuf out0) = Some (shown_obuf (out0 ++ out)).

Lemma runs_end fmt ap : (forall o, vsnprintf_loop size fmt ap o = Some o) -> runs fmt ap [].
Proof. intros H out0 _. by rewrite H, app_nil_r. Qed.

Lemma runs_step fmt ap fmt' ap' pre out :
  (forall o, vsnprintf_loop size fmt' ap' o = vsnprintf_loop size fmt ap (buf_puts size pre o)) ->
  runs fmt ap out -> runs fmt' ap' (pre ++ out).
Proof.
  intros Hs Hr out0 H. rewrite app_assoc in H |- *. rewrite Hs, buf_puts_shown; [by apply Hr|].
  rewrite length_app in H. lia.
Qed.

(** The conversion of a signed number. *)
Lemma dec_step v fmt ap o : is_u64 v ->
  (let '(w, o') := if i64 v <? 0 then (i64 (- i64 v), buf_putc size 45 o) else (i64 v, o) in
   vsnprintf_loop size fmt ap (format_uint size (u64 w) 10 false o')) =
  vsnprintf_loop size fmt ap
    (buf_puts size ((if i64 v <? 0 then [45] else []) ++ uint_digits 32 (Z.abs (i64 v)) 10 false) o).
Proof.
  intros Hv. destruct (i64 v <? 0) eqn:E.
  - replace (u64 (i64 (- i64 v))) with (Z.abs (i64 v)) by (clear -E Hv; cint). done.
  - replace (u64 (i64 v)) with (Z.abs (i64 v)) by (clear -E Hv; cint). done.
Qed.

Lemma abs_u64 v : is_u64 (Z.abs (i64 v)).
Proof. cint. Qed.

(** One conversion that takes a word. *)
Lemma word_step spec v fmt ap : takes spec = Some false -> is_u64 v -> exists pre,
  (forall o, vsnprintf_loop size (37 :: spec :: fmt) (VaWord v :: ap) o = vsnprintf_loop size fmt ap (buf_puts size pre o)) /\
  forall out, renders fmt ap out -> renders (37 :: spec :: fmt) (VaWord v :: ap) (pre ++ out).
Proof.
  unfold takes. intros Ht Hv. destruct (spec =? 115); [done|].
  case_bool_decide as Hin; [clear Ht|done].
  assert (Hd : numeral 10 false v (uint_digits 32 v 10 false)) by (by apply format_numeral).
  assert (Hx : forall u, numeral 16 u v (uint_digits 32 v 16 u)) by (intros u; by apply format_numeral).
  assert (Ha : numeral 10 false (Z.abs (i64 v)) (uint_digits 32 (Z.abs (i64 v)) 10 false))
    by (apply format_numeral; [lia|apply abs_u64]).
  repeat (apply elem_of_cons in Hin as [->|Hin]); [..|by apply elem_of_nil in Hin].
  - exists [u8 v]. split; [done|]. intros out Hr. by apply R_chr.
  - eexists. split; [intros o; by apply dec_step|]. intros out Hr. rewrite <- app_assoc. apply R_dec; auto.
  - eexists. split; [intros o; by apply dec_step|]. intros out Hr. rewrite <- app_assoc. apply R_dec; auto.
  - exists (uint_digits 32 v 10 false). split; [done|]. intros out Hr. exact (R_uns v _ fmt ap out Hd Hr).
  - exists (uint_digits 32 v 16 false). split; [done|]. intros out Hr. exact (R_hex false v _ fmt ap out (Hx false) Hr).
  - exists (uint_digits 32 v 16 true). split; [done|]. intros out Hr. exact (R_hex true v _ fmt ap out (Hx true) Hr).
  - exists ([48; 120] ++ uint_digits 32 v 16 false). split; [done|].
    intros out Hr. rewrite <- app_assoc. exact (R_ptr v _ fmt ap out (Hx false) Hr).
Qed.

Lemma loop_renders fmt : forall ap, args_ok fmt ap = true -> exists out, renders fmt ap out /\ runs fmt ap out.
Proof.
  induction fmt as [fmt IH] using (induction_ltof1 _ (@length Z)). unfold ltof in IH.
  intros ap Ha. destruct fmt as [|c fmt]; [exists []; split; [constructor|by apply runs_end]|].
  simpl in Ha. destruct (decide (c = 37)) as [->|Hc]; cycle 1.
  { rewrite (proj2 (Z.eqb_neq _ _) Hc) in Ha. simpl in Ha.
    destruct (IH fmt) with (ap := ap) as (out & Hr & Hx); [simpl; lia|done|].
    exists ([c] ++ out). split; [by constructor|]. apply runs_step with fmt ap; [|done].
    intros o. simpl. by rewrite (proj2 (Z.eqb_neq _ _) Hc). }
  simpl in Ha. destruct fmt as [|spec fmt]; [exists []; split; [constructor|by apply runs_end]|].
  assert (IHs : forall ap, args_ok fmt ap = true -> exists out, renders fmt ap out /\ runs fmt ap out).
  { intros ap' Ha'. apply IH; [simpl; lia|done]. }
  destruct (takes spec) as [[]|] eqn:Ht.
  - destruct ap as [|[|s] ap]; try done. destruct (IHs ap Ha) as (out & Hr & Hx).
    unfold takes in Ht. destruct (Z.eqb_spec spec 115) as [->|]; [|by case_bool_decide].
    exists (default (text "(null)") s ++ out). split; [by constructor|]. apply runs_step with fmt ap; [intros o; reflexivity|exact Hx].
  - destruct ap as [|[v|] ap]; try done. apply andb_prop in Ha as [Hv%bool_decide_eq_true Ha].
    destruct (IHs ap Ha) as (out & Hr & Hx). destruct (word_step spec v fmt ap Ht Hv) as (pre & Hs & Hp).
    exists (pre ++ out). split; [by apply Hp|]. apply runs_step with fmt ap; [exact Hs|exact Hx].
  - destruct (IHs ap Ha) as (out & Hr & Hx). destruct (decide (spec = 37)) as [->|Hn].
    + exists ([37] ++ out). split; [by constructor|]. apply runs_step with fmt ap; [intros o; reflexivity|exact Hx].
    + exists ([37; spec] ++ out). split; [by constructor|]. apply runs_step with fmt ap; [|done].
      intros o. unfold takes in Ht. destruct (spec =? 115) eqn:E1; [done|]. case_bool_decide as Hin; [done|].
      cbn [vsnprintf_loop Z.eqb Pos.eqb negb]. rewrite E1.
      repeat (rewrite (proj2 (Z.eqb_neq spec _)) by (intros ->; first [done | apply Hin; repeat constructor])). done.
Qed.
End buffer.

Lemma vsnprintf_shown buf size fmt ap out : 0 < size <= Z.of_nat (length buf) -> Z.of_nat (length out) < 2147483648 ->
  runs buf size fmt ap out ->
  let k := kept_len size out in
  vsnprintf_simple buf size fmt ap = Some (Z.of_nat (length out), take k out ++ 0 :: drop (S k) buf).
Proof.
  intros Hs Hlen Hr k. unfold vsnprintf_simple.
  specialize (Hr []). rewrite app_nil_l in Hr. change (mk_obuf buf 0) with (shown_obuf buf size []). rewrite Hr by (unfold W64; lia). cbn [mbind option_bind ob_idx ob_data shown_obuf].
  rewrite (proj2 (Z.ltb_lt 0 size)) by lia. f_equal. f_equal; [cint|].
  set (i := if _ <? size then _ else _).
  assert (Hi : Z.to_nat i = k) by (unfold i, k, kept_len; case_b; lia).
  unfold set_at, shown. rewrite Hi. fold k.
  assert (Hk : length (take k out) = k) by (rewrite length_take; unfold k, kept_len; lia).
  rewrite insert_app_r_alt by lia. rewrite Hk, Nat.sub_diag. f_equal.
  destruct (drop k buf) as [|x l] eqn:Ed.
  { apply (f_equal length) in Ed. rewrite length_drop in Ed. simpl in Ed. unfold k, kept_len in Ed. lia. }
  simpl. f_equal. replace (S k) with (k + 1)%nat by lia. rewrite <- drop_drop, Ed. done.
Qed.

(** C25: formatted output of user programs: when the arguments fit the
    format, the text is the one the format denotes, with every number a
    numeral of its value; the buffer holds as much of it as leaves room for
    the final zero and the zero, nothing outside the first [size] bytes is
    written, and the result is the full length. *)
Theorem vsnprintf_simple_correct buf size fmt ap :
  args_ok fmt ap = true -> 0 < size <= Z.of_nat (length buf) ->
  exists out, renders fmt ap out /\
    (Z.of_nat (length out) < 2147483648 ->
     let k := Nat.min (length out) (Z.to_nat (size - 1)) in
     vsnprintf_simple buf size fmt ap = Some (Z.of_nat (length out), take k out ++ 0 :: drop (S k) buf)).
Proof.
  intros Ha Hs. destruct (loop_renders buf size ltac:(lia) fmt ap Ha) as (out & Hr & Hx).
  exists out. split; [done|]. intros Hlen. by apply vsnprintf_shown.
Qed.

Definition demo_fmt : list Z := text "pid %d at %p: %s%%".
Definition demo_args : list va := [VaWord (u64 (-42)); VaWord 0xB8000; VaStr None].

Lemma vsnprintf_simple_correct_witness : exists out, renders demo_fmt demo_args out /\
  (Z.of_nat (length out) < 2147483648 ->
   let k := Nat.min (length out) (Z.to_nat (8 - 1)) in
   vsnprintf_simple (replicate 9 7) 8 demo_fmt demo_args =
     Some (Z.of_nat (length out), take k out ++ 0 :: drop (S k) (replicate 9 7))) /\
  vsnprintf_simple (replicate 9 7) 8 demo_fmt demo_args = Some (27, text "pid -42" ++ [0; 7]).
Proof.
  destruct (vsnprintf_simple_correct (replicate 9 7) 8 demo_fmt demo_args) as (out & Hr & Hx).
  - vm_compute. reflexivity.
  - simpl. lia.
  - exists out. split; [exact Hr|]. split; [exact Hx|]. vm_compute. reflexivity.
Defined.

(** The text of [printf] is the text of the format, cut at 1023 bytes. *)
Theorem printf_correct stack fmt ap :
  args_ok fmt ap = true -> length stack = 1024%nat ->
  exists out, renders fmt ap out /\
    (Z.of_nat (length out) < 2147483648 ->
     printf_text stack fmt ap = Some (Z.min 1023 (Z.of_nat (length out)), Some (take 1023 out))).
Proof.
  intros Ha Hs. destruct (loop_renders stack 1024 ltac:(lia) fmt ap Ha) as (out & Hr & Hx).
  exists out. split; [done|]. intros Hlen. unfold printf_text.
  rewrite (vsnprintf_shown stack 1024 fmt ap out) by (try done; lia). cbn [mbind option_bind].
  rewrite (proj2 (Z.ltb_ge _ 0)) by lia. unfold kept_len. case_b; f_equal; f_equal; try lia; f_equal.
  - rewrite take_app_le by (rewrite length_take; lia). rewrite take_take. f_equal. lia.
  - rewrite Nat2Z.id, take_app_le by (rewrite length_take; lia).
    rewrite take_take. replace (Nat.min _ _) with (length out) by lia.
    by rewrite firstn_all, (firstn_all2 out) by lia.
Qed.

(** The conversions have no flags and no widths: the format the shell
    prints hardware addresses with prints itself. *)
Theorem printf_no_width stack args : length stack = 1024%nat ->
  printf_text stack (text "%02x:%02x:%02x:%02x:%02x:%02x") args =
    Some (29, Some (text "%02x:%02x:%02x:%02x:%02x:%02x")).
Proof.
  intros Hs. unfold printf_text.
  rewrite (vsnprintf_shown stack 1024 _ args (text "%02x:%02x:%02x:%02x:%02x:%02x")).
  - by vm_compute.
  - lia.
  - by vm_compute.
  - intros out0 Hout. rewrite <- (buf_puts_shown stack 1024) by lia. reflexivity.
Qed.

(** A format without conversions is printed as it is. *)
Lemma printf_plain stack fmt ap : length stack = 1024%nat -> Forall (fun c => c <> 37) fmt -> (length fmt < 1024)%nat ->
  printf_text stack fmt ap = Some (Z.of_nat (length fmt), Some fmt).
Proof.
  intros Hs Hf Hl. unfold printf_text.
  rewrite (vsnprintf_shown stack 1024 fmt ap fmt); [|lia|lia|].
  - cbn [mbind option_bind]. rewrite (proj2 (Z.ltb_ge _ 0)), (proj2 (Z.ltb_ge 1023 _)) by lia.
    unfold kept_len. rewrite Nat.min_l, firstn_all, Nat2Z.id, take_app_length by lia. done.
  - clear Hl. induction Hf as [|c fmt Hc Hf IH]; [by apply runs_end|].
    apply (runs_step stack 1024 ltac:(lia) fmt ap (c :: fmt) ap [c] fmt); [|exact IH].
    intros o. simpl. by rewrite (proj2 (Z.eqb_neq c 37) Hc).
Qed.
