(* ===== verification/UserMem.v ===== *)
(** * Copies of the user support library (user/lib.c)

    memcpy, memset, strcpy and strncpy on memory.  Copying a string puts the
    same string at the destination and leaves the rest of memory alone;
    strncpy fills exactly its [n] bytes and ends the string only when there is
    room. *)

From stdpp Require Import prelude list.
From Stdlib Require Import ZArith Lia.
From S2P Require Import Prelude Lib.
#[local] Open Scope Z_scope.
#[local] Open Scope cint_scope.

Definition umemcpy (m : mem) (dst src n : Z) : mem :=
  for_range 0 n (fun i m => st8 m (dst + i) (ld8 m (src + i))) m.
Definition umemset (m : mem) (dst v n : Z) : mem :=
  for_range 0 n (fun i m => st8 m (dst + i) (u8 v)) m.

(** Fuel for the scan of a string; [None] is "ran past the fuel". *)
Fixpoint ustrcpy (fuel : nat) (m : mem) (dst src : Z) : option mem :=
  match fuel with
  | O => None
  | S f =>
      if ld8 m src =? 0 then Some (st8 m dst 0)
      else ustrcpy f (st8 m dst (ld8 m src)) (dst + 1) (src + 1)
  end.

(** Both loops, [k] rounds before [i] reaches [n]. *)
Fixpoint ustrncpy_zero (k : nat) (m : mem) (dst i : Z) : mem :=
  match k with
  | O => m
  | S k' => ustrncpy_zero k' (st8 m (dst + i) 0) dst (i + 1)
  end.
Fixpoint ustrncpy_from (k : nat) (m : mem) (dst src i : Z) : mem :=
  match k with
  | O => m
  | S k' =>
      if ld8 m (src + i) =? 0 then ustrncpy_zero k m dst i
      else ustrncpy_from k' (st8 m (dst + i) (ld8 m (src + i))) dst src (i + 1)
  end.
Definition ustrncpy (m : mem) (dst src n : Z) : mem := ustrncpy_from (Z.to_nat n) m dst src 0.

Lemma cstr_other m m' a s :
  (forall x, a <= x <= a + Z.of_nat (length s) -> ld8 m' x = ld8 m x) -> cstr m a s -> cstr m' a s.
Proof.
  revert a. induction s as [|c s IH]; intros a Hx Hs; cbn [cstr length] in *; [by rewrite Hx by lia|].
  destruct Hs as (Hc & Hne & Hs). rewrite Hx by lia. split_and!; [done..|]. apply IH; [|done]. intros x Hr. apply Hx. lia.
Qed.

Lemma cstr_byte m a s c : cstr m a (c :: s) -> is_u8 c.
Proof. intros (<- & _). apply ld8_range. Qed.

(** strcpy returns on every string, and the string is then at the
    destination. *)
Theorem ustrcpy_correct s : forall fuel m dst src,
  cstr m src s -> (length s < fuel)%nat ->
  dst + Z.of_nat (length s) < src \/ src + Z.of_nat (length s) < dst ->
  exists m', ustrcpy fuel m dst src = Some m' /\ cstr m' dst s /\
    forall x, x < dst \/ dst + Z.of_nat (length s) < x -> ld8 m' x = ld8 m x.
Proof.
  induction s as [|c s IH]; intros fuel m dst src Hs Hf Hd; (destruct fuel as [|fuel]; cbn [length] in *; [lia|]); cbn [ustrcpy].
  - cbn [cstr] in Hs. rewrite Hs. simpl. eexists. split; [done|]. cbn [cstr]. split.
    + rewrite ld8_st8, Z.eqb_refl. done.
    + intros x Hx. rewrite ld8_st8. by rewrite (proj2 (Z.eqb_neq _ _)) by lia.
  - pose proof (cstr_byte _ _ _ _ Hs) as Hb. destruct Hs as (Hc & Hne & Hs). rewrite Hc, (proj2 (Z.eqb_neq _ _)) by done.
    destruct (IH fuel (st8 m dst c) (dst + 1) (src + 1)) as (m' & E & Hs' & Ho).
    + apply (cstr_other m); [|done]. intros x Hx. rewrite ld8_st8. by rewrite (proj2 (Z.eqb_neq _ _)) by lia.
    + lia.
    + lia.
    + exists m'. split; [done|]. cbn [cstr]. split.
      * rewrite Ho by lia. rewrite ld8_st8, Z.eqb_refl, u8_small by done. done.
      * intros x Hx. rewrite Ho by lia. rewrite ld8_st8. by rewrite (proj2 (Z.eqb_neq _ _)) by lia.
Qed.

Lemma ustrncpy_zero_ld k : forall m dst i x,
  ld8 (ustrncpy_zero k m dst i) x = if in_range (dst + i) (Z.of_nat k) x then 0 else ld8 m x.
Proof.
  induction k as [|k IH]; intros m dst i x; cbn [ustrncpy_zero].
  - in_range_cases; [lia|done].
  - rewrite IH, ld8_st8. destruct (Z.eqb_spec x (dst + i)) as [->|]; in_range_cases; done || lia.
Qed.

(** The [n] bytes of the destination: the string, then zeros. *)
Lemma ustrncpy_from_ok k : forall s m dst src i,
  cstr m (src + i) s -> dst + i + Z.of_nat k <= src + i \/ src + i + Z.of_nat (length s) < dst + i ->
  forall x, ld8 (ustrncpy_from k m dst src i) x =
    if in_range (dst + i) (Z.of_nat k) x then nth (Z.to_nat (x - (dst + i))) s 0 else ld8 m x.
Proof.
  induction k as [|k IH]; intros s m dst src i Hs Hd x; cbn [ustrncpy_from].
  - in_range_cases; [lia|done].
  - destruct s as [|c s].
    + cbn [cstr] in Hs. rewrite Hs. cbn [Z.eqb]. rewrite ustrncpy_zero_ld.
      in_range_cases; [|done..]. by destruct (Z.to_nat (x - (dst + i))).
    + pose proof (cstr_byte _ _ _ _ Hs) as Hb. destruct Hs as (Hc & Hne & Hs). cbn [length] in Hd.
      rewrite Hc, (proj2 (Z.eqb_neq _ _)) by done. rewrite (IH s).
      * rewrite ld8_st8. destruct (Z.eqb_spec x (dst + i)) as [->|]; in_range_cases; try lia; try done.
        -- replace (dst + i - (dst + i)) with 0 by lia. by rewrite u8_small.
        -- replace (Z.to_nat (x - (dst + i))) with (S (Z.to_nat (x - (dst + (i + 1))))) by lia. done.
      * apply (cstr_other m); [|by replace (src + (i + 1)) with (src + i + 1) by lia].
        intros y Hy. rewrite ld8_st8. by rewrite (proj2 (Z.eqb_neq _ _)) by lia.
      * lia.
Qed.

Lemma cstr_nonzero m a s j c : cstr m a s -> s !! j = Some c -> c <> 0.
Proof.
  revert a j. induction s as [|d s IH]; intros a j Hs Hj; [done|]. destruct Hs as (_ & Hd & Hs).
  destruct j as [|j]; cbn in Hj; [by injection Hj as <-|by eapply IH].
Qed.

Lemma cstr_of_bytes m a s :
  (forall j c, s !! j = Some c -> ld8 m (a + Z.of_nat j) = c /\ c <> 0) -> ld8 m (a + Z.of_nat (length s)) = 0 -> cstr m a s.
Proof.
  revert a. induction s as [|c s IH]; intros a Hc Hz; cbn [cstr length] in *; [by rewrite Z.add_0_r in Hz|].
  destruct (Hc O c eq_refl) as [H1 H2]. rewrite Z.add_0_r in H1. split_and!; [done..|]. apply IH.
  - intros j d Hj. replace (a + 1 + Z.of_nat j) with (a + Z.of_nat (S j)) by lia. by apply Hc.
  - by replace (a + 1 + Z.of_nat (length s)) with (a + Z.of_nat (S (length s))) by lia.
Qed.

Theorem ustrncpy_correct m dst src n s : 0 <= n ->
  cstr m src s -> dst + n <= src \/ src + Z.of_nat (length s) < dst ->
  let m' := ustrncpy m dst src n in
  (forall x, ld8 m' x = if in_range dst n x then nth (Z.to_nat (x - dst)) s 0 else ld8 m x) /\
  (Z.of_nat (length s) < n -> cstr m' dst s).
Proof.
  intros Hn Hs Hd m'. assert (Hm : forall x, ld8 m' x = if in_range dst n x then nth (Z.to_nat (x - dst)) s 0 else ld8 m x).
  { intros x. subst m'. unfold ustrncpy. rewrite (ustrncpy_from_ok _ s) by (rewrite ?Z.add_0_r; done || lia).
    by rewrite Z2Nat.id, Z.add_0_r. }
  split; [done|]. intros Hl. apply cstr_of_bytes.
  - intros j c Hj. pose proof (lookup_lt_Some _ _ _ Hj). rewrite Hm. in_range_cases; [|lia..].
    replace (dst + Z.of_nat j - dst) with (Z.of_nat j) by lia. rewrite Nat2Z.id. split; [by apply nth_lookup_Some|].
    by eapply cstr_nonzero.
  - rewrite Hm. in_range_cases; [|lia..]. apply nth_overflow. lia.
Qed.
