(* ===== verification/UserText.v ===== *)
(** * Text helpers of the shell (user/init.c)

    Names, sizes, addresses and masks as text: what the shell's commands
    parse and print.  A pointer that may be null is an [option]; arrays of
    characters are lists of their bytes, read as C strings by [cstring].
    The appending functions are those of the support library under other
    names.

    Parsing an address is characterised from both sides (exactly the
    dotted quads), printing and parsing are inverse, and so are netmasks and
    prefix lengths. *)

From Stdlib Require Import String.
From stdpp Require Import prelude list.
From Stdlib Require Import ZArith Lia.
From S2P Require Import Prelude Console UserLib Net.
#[local] Open Scope string_scope.
#[local] Open Scope list_scope.
#[local] Open Scope Z_scope.
#[local] Open Scope cint_scope.

(** The C string an array of characters holds. *)
Fixpoint cstring (l : list Z) : list Z :=
  match l with
  | [] => []
  | c :: l' => if c =? 0 then [] else c :: cstring l'
  end.

(** ** Strings *)

Fixpoint copy_chars (size i : Z) (src dst : list Z) : Z * list Z :=
  match src with
  | [] => (i, dst)
  | c :: src' => if i +% 1 <? size then copy_chars size (i + 1) src' (set_at dst i c) else (i, dst)
  end.

Definition str_copy (dst : list Z) (dst_size : Z) (src : option (list Z)) : list Z :=
  if dst_size =? 0 then dst
  else let '(i, dst) := copy_chars dst_size 0 (default [] src) dst in set_at dst i 0.

(** The result is the distance from the start of the string. *)
Fixpoint find_char_from (s : list Z) (c i : Z) : option Z :=
  match s with
  | [] => None
  | x :: s' => if x =? c then Some i else find_char_from s' c (i + 1)
  end.
Definition find_char (s : option (list Z)) (c : Z) : option Z := s ← s; find_char_from s c 0.

(** ** Identifiers of file systems *)

Definition hex_lower (d : Z) : Z := nth (Z.to_nat d) (text "0123456789abcdef") 0.

Definition format_uuid (out : list Z) (out_size : Z) (uuid : list Z) : list Z :=
  let body i (st : Z * list Z) : (Z * list Z) + (Z * list Z) :=
    let '(pos, out) := st in
    if pos + 2 <? out_size then
      let '(pos, out) :=
        if (i =? 4) || (i =? 6) || (i =? 8) || (i =? 10)
        then if pos + 1 <? out_size then (pos + 1, set_at out pos 45) else (pos, out)
        else (pos, out) in
      if pos + 2 <? out_size then
        let b := nth (Z.to_nat i) uuid 0 in
        inl (pos + 2, set_at (set_at out pos (hex_lower (Z.land (Z.shiftr b 4) 15))) (pos + 1) (hex_lower (Z.land b 15)))
      else inl (pos, out)
    else inr (pos, out) in
  let '(pos, out) := match for_range_exit 0 16 body (0, out) with inl st => st | inr st => st end in
  if 0 <? out_size then set_at out (if pos <? out_size then pos else out_size - 1) 0 else out.

(** The bytes and the next seed. *)
Definition generate_uuid (g_uuid_seed : Z) : list Z * Z :=
  for_range 0 16 (fun _ '(out, x) =>
    let x := u32 (x * 1664525 + 1013904223) in (out ++ [u8 (Z.shiftr x 24)], x)) ([], g_uuid_seed).

(** ** Sizes *)

Fixpoint size_unit (n : nat) (value unit : Z) : Z * Z :=
  match n with
  | O => (value, unit)
  | S n' => if 1024 <=? value then size_unit n' ((value +% 512) / 1024) (unit + 1) else (value, unit)
  end.

(** The units are single letters.  [tmp] has 16 bytes. *)
Definition format_size_h (out : list Z) (out_size bytes : Z) : list Z :=
  let '(value, unit) := size_unit 4 bytes 0 in
  if out_size =? 0 then out
  else
    let tmp := uint_digits 16 value 10 false in
    let len := ustrlen tmp in
    let tmp := if len + 1 <? out_size then tmp ++ [nth (Z.to_nat unit) (text "BKMGT") 0] else tmp in
    str_copy out out_size (Some (take 15 tmp)).

(** ** Parsing numbers and addresses *)

Definition is_digit (c : Z) : bool := (48 <=? c) && (c <=? 57).

(** The loop over digits that gives up above [limit]. *)
Fixpoint parse_dec (limit : Z) (p : list Z) (value : Z) : option (Z * list Z) :=
  match p with
  | [] => Some (value, [])
  | c :: p' =>
      if is_digit c then
        let value := u32 (value * 10 + (c - 48)) in
        if limit <? value then None else parse_dec limit p' value
      else Some (value, p)
  end.

(** The rounds of the loop, [k] of them after this one. *)
Fixpoint ipv4_parts (k : nat) (p : list Z) : option (list Z) :=
  if negb (is_digit (deref p)) then None
  else
    '(value, p) ← parse_dec 255 p 0;
    match k with
    | O => if negb (deref p =? 0) then None else Some [value]
    | S k' => if negb (deref p =? 46) then None else parts ← ipv4_parts k' (tl p); Some (value :: parts)
    end.

Definition parse_ipv4 (s : option (list Z)) : option Z :=
  s ← s;
  parts ← ipv4_parts 3 s;
  Some (Z.lor (Z.lor (Z.lor (u32 (Z.shiftl (nth 0 parts 0) 24)) (u32 (Z.shiftl (nth 1 parts 0) 16)))
    (u32 (Z.shiftl (nth 2 parts 0) 8))) (nth 3 parts 0)).

Definition hex_value (c : Z) : Z :=
  if (48 <=? c) && (c <=? 57) then c - 48
  else if (97 <=? c) && (c <=? 102) then c - 97 + 10
  else if (65 <=? c) && (c <=? 70) then c - 65 + 10
  else -1.

Fixpoint port_value (s : list Z) (value : Z) : option Z :=
  match s with
  | [] => Some value
  | c :: s' =>
      if negb (is_digit c) then None
      else
        let value := u32 (value * 10 + (c - 48)) in
        if 65535 <? value then None else port_value s' value
  end.

Definition parse_port (s : option (list Z)) : option Z :=
  s ← s;
  if negb (is_digit (deref s)) then None
  else value ← port_value s 0; if value =? 0 then None else Some (u16 value).

(** The reads after a digit pair that is cut short stay within the final
    zero and the byte after it, whose value does not matter. *)
Fixpoint mac_parts (k : nat) (p : list Z) : option (list Z) :=
  let hi := hex_value (deref p) in
  let lo := hex_value (deref (tl p)) in
  let p := tl (tl p) in
  if (hi <? 0) || (lo <? 0) then None
  else
    let b := u8 (Z.lor (Z.shiftl hi 4) lo) in
    match k with
    | O => if negb (deref p =? 0) then None else Some [b]
    | S k' => if negb (deref p =? 58) then None else parts ← mac_parts k' (tl p); Some (b :: parts)
    end.

Definition parse_mac (s : option (list Z)) : option (list Z) := s ← s; mac_parts 5 s.

(** ** Printing addresses *)

Definition append_char : Z -> Z -> obuf -> obuf := buf_putc.
Definition append_str (size : Z) (s : option (list Z)) (o : obuf) : obuf :=
  match s with Some s => buf_puts size s o | None => o end.
Definition append_uint_dec (size value : Z) (o : obuf) : obuf := buf_puts size (uint_digits 16 value 10 false) o.

(** The final zero. *)
Definition obuf_end (size : Z) (o : obuf) : list Z :=
  if 0 <? size then set_at (ob_data o) (if ob_idx o <? size then ob_idx o else size - 1) 0 else ob_data o.

Definition ip_octet (addr k : Z) : Z := Z.land (Z.shiftr addr k) 255.

Definition format_ipv4 (out : list Z) (out_size addr : Z) : list Z :=
  let o := mk_obuf out 0 in
  let o := append_uint_dec out_size (ip_octet addr 24) o in
  let o := append_char out_size 46 o in
  let o := append_uint_dec out_size (ip_octet addr 16) o in
  let o := append_char out_size 46 o in
  let o := append_uint_dec out_size (ip_octet addr 8) o in
  let o := append_char out_size 46 o in
  let o := append_uint_dec out_size (ip_octet addr 0) o in
  obuf_end out_size o.

(** [stack] is what the local array [ip] held before. *)
Definition format_sockaddr (stack out : list Z) (out_size : Z) (addr : option sockaddr_in) : list Z :=
  match addr with
  | None => if 0 <? out_size then set_at out 0 0 else out
  | Some addr =>
      let o := mk_obuf out 0 in
      let o := if sa_addr addr =? 0 then append_str out_size (Some (text "0.0.0.0")) o
               else append_str out_size (Some (cstring (format_ipv4 stack 20 (sa_addr addr)))) o in
      let o := append_char out_size 58 o in
      let o := if sa_port addr =? 0 then append_char out_size 42 o
               else append_uint_dec out_size (sa_port addr) o in
      obuf_end out_size o
  end.

Definition format_ipv4_reverse (out : list Z) (out_size addr : Z) : list Z :=
  let o := mk_obuf out 0 in
  let o := append_uint_dec out_size (ip_octet addr 0) o in
  let o := append_char out_size 46 o in
  let o := append_uint_dec out_size (ip_octet addr 8) o in
  let o := append_char out_size 46 o in
  let o := append_uint_dec out_size (ip_octet addr 16) o in
  let o := append_char out_size 46 o in
  let o := append_uint_dec out_size (ip_octet addr 24) o in
  let o := append_str out_size (Some (text ".in-addr.arpa.")) o in
  obuf_end out_size o.

(** ** Netmasks *)

(** The state is the prefix so far and whether a zero was seen. *)
Definition netmask_to_prefix (netmask : Z) : Z :=
  match for_range_exit 0 32 (fun j (st : Z * bool) =>
      let '(prefix, zero_found) := st in
      if Z.testbit netmask (31 - j) then
        if zero_found then inr (-1) else inl (prefix + 1, zero_found)
      else inl (prefix, true)) (0, false) with
  | inl (prefix, _) => prefix
  | inr r => r
  end.

Definition prefix_to_netmask (prefix : Z) : option Z :=
  if (prefix <? 0) || (32 <? prefix) then None
  else if prefix =? 0 then Some 0
  else Some (u32 (Z.shiftl 4294967295 (32 - prefix))).

Definition is_loopback (addr : Z) : bool := Z.land addr 4278190080 =? 2130706432.

(** ** Paths *)

Definition join_path (out : list Z) (out_size : Z) (base name : option (list Z)) : list Z :=
  if out_size =? 0 then out
  else
    let '(len, out) := copy_chars out_size 0 (default [] base) out in
    let '(len, out) := if (0 <? len) && negb (nth (Z.to_nat (len - 1)) out 0 =? 47) && (len + 1 <? out_size)
                       then (len + 1, set_at out len 47) else (len, out) in
    let '(len, out) := copy_chars out_size len (default [] name) out in
    set_at out (if len <? out_size then len else out_size - 1) 0.

(** ** Command lines *)

(** The words as positions in the line and the line with a zero put after
    each word.  Rounds of the outer loop: at most [max_args]. *)
Fixpoint skip_blanks (p : list Z) (pos : Z) : list Z * Z :=
  match p with
  | c :: p' => if c =? 32 then skip_blanks p' (pos + 1) else (p, pos)
  | [] => ([], pos)
  end.
Fixpoint skip_word (p : list Z) (pos : Z) : list Z * Z :=
  match p with
  | c :: p' => if negb (c =? 32) then skip_word p' (pos + 1) else (p, pos)
  | [] => ([], pos)
  end.

Fixpoint split_loop (n : nat) (p : list Z) (pos : Z) (line : list Z) (argv : list Z) : list Z * list Z :=
  match n with
  | O => (argv, line)
  | S n' =>
      match p with
      | [] => (argv, line)
      | _ =>
          let '(p, pos) := skip_blanks p pos in
          match p with
          | [] => (argv, line)
          | _ =>
              let argv := argv ++ [pos] in
              let '(p, pos) := skip_word p pos in
              match p with
              | [] => (argv, line)
              | _ :: p' => split_loop n' p' (pos + 1) (set_at line pos 0) argv
              end
          end
      end
  end.

(** [line] is the array with its final zero. *)
Definition split_args (line : list Z) (max_args : Z) : list Z * list Z :=
  split_loop (Z.to_nat max_args) (cstring line) 0 line [].

(** The strings the argument pointers lead to. *)
Definition arg_strings (r : list Z * list Z) : list (list Z) :=
  (fun pos => cstring (drop (Z.to_nat pos) (snd r))) <$> fst r.

(** ** Copying *)

Lemma set_at_app (pre : list Z) x l v : set_at (pre ++ x :: l) (Z.of_nat (length pre)) v = pre ++ v :: l.
Proof. unfold set_at. by rewrite Nat2Z.id, insert_app_r_alt, Nat.sub_diag by lia. Qed.

Lemma cstring_end s l : Forall is_char s -> cstring (s ++ 0 :: l) = s.
Proof.
  induction s as [|c s IH]; simpl; [done|]. intros [Hc Hs]%Forall_cons.
  unfold is_char in Hc. by rewrite (proj2 (Z.eqb_neq c 0)), IH by (lia || done).
Qed.

Lemma cstring_all s : Forall is_char s -> cstring s = s.
Proof.
  induction s as [|c s IH]; simpl; [done|]. intros [Hc Hs]%Forall_cons.
  unfold is_char in Hc. by rewrite (proj2 (Z.eqb_neq c 0)), IH by (lia || done).
Qed.

(** Copying stops at the end of the source or one before the end of the
    destination. *)
Lemma copy_chars_eq size src : forall pre rest, size < W64 ->
  Z.of_nat (length pre) < size <= Z.of_nat (length pre + length rest) ->
  let i := Z.of_nat (length pre) in
  let k := Nat.min (length src) (Z.to_nat (size - 1 - i)) in
  copy_chars size i src (pre ++ rest) = (i + Z.of_nat k, pre ++ take k src ++ drop k rest).
Proof.
  induction src as [|c src IH]; intros pre rest Hw Hs i k; [subst i k; simpl; f_equal; lia|].
  cbn [copy_chars].
  subst k i. unfold W64 in *. rewrite u64_small by (unfold is_u64; lia). case_b.
  - destruct rest as [|x rest]; [simpl in Hs; lia|]. rewrite set_at_app.
    replace (Z.of_nat (length pre) + 1) with (Z.of_nat (length (pre ++ [c]))) by (rewrite length_app; simpl; lia).
    replace (pre ++ c :: rest) with ((pre ++ [c]) ++ rest) by by rewrite <- app_assoc.
    rewrite IH by (rewrite ?length_app in *; simpl in *; lia).
    rewrite length_app. cbn [length].
    replace (Nat.min (S (length src)) (Z.to_nat (size - 1 - Z.of_nat (length pre)))) with
      (S (Nat.min (length src) (Z.to_nat (size - 1 - Z.of_nat (length pre + 1))))) by lia.
    f_equal; [lia|]. by rewrite <- (app_assoc pre [c]).
  - replace (Nat.min _ _) with O by lia. simpl. f_equal. lia.
Qed.

Lemma str_copy_eq dst size s : 0 < size <= Z.of_nat (length dst) -> size < W64 ->
  let k := Nat.min (length s) (Z.to_nat (size - 1)) in
  str_copy dst size (Some s) = take k s ++ 0 :: drop (S k) dst.
Proof.
  intros Hs Hw k. unfold str_copy. rewrite (proj2 (Z.eqb_neq size 0)) by lia. simpl.
  pose proof (copy_chars_eq size s [] dst Hw ltac:(simpl; lia)) as E.
  change (Z.of_nat (length [])) with 0 in E. cbn zeta in E. cbn [app] in E. rewrite E.
  replace (Nat.min _ (Z.to_nat (size - 1 - 0))) with k by (unfold k; f_equal; f_equal; lia).
  assert (Hk : (k < length dst)%nat) by (unfold k; lia).
  destruct (drop k dst) as [|x l] eqn:Ed.
  { apply (f_equal length) in Ed. rewrite length_drop in Ed. simpl in Ed. lia. }
  rewrite Z.add_0_l. replace (Z.of_nat k) with (Z.of_nat (length (take k s))) by (rewrite length_take; unfold k; lia).
  rewrite set_at_app. f_equal. f_equal. replace (S k) with (k + 1)%nat by lia. by rewrite <- drop_drop, Ed.
Qed.

Lemma str_copy_cstring dst size s : 0 < size <= Z.of_nat (length dst) -> size < W64 -> Forall is_char s ->
  cstring (str_copy dst size (Some s)) = take (Z.to_nat (size - 1)) s.
Proof.
  intros Hs Hw Hc. rewrite str_copy_eq by done. rewrite cstring_end by (by apply Forall_take).
  destruct (Nat.le_ge_cases (length s) (Z.to_nat (size - 1))).
  - by rewrite Nat.min_l, firstn_all, firstn_all2 by lia.
  - by rewrite Nat.min_r by lia.
Qed.

(** ** Numbers read digit by digit *)

Lemma is_digit_value c : is_digit c = true -> digit_value c = Some (c - 48) /\ 0 <= c - 48 < 10.
Proof. unfold is_digit, digit_value. intros H. rewrite H. split; [done|lia]. Qed.

Definition digits (ds : list Z) : Prop := Forall (fun c => is_digit c = true) ds.

Lemma value_le ds : forall acc v, digits ds -> 0 <= acc -> value 10 acc ds = Some v -> acc <= v.
Proof.
  induction ds as [|c ds IH]; simpl; intros acc v Hd Ha Hv; [by simplify_eq|].
  apply Forall_cons in Hd as [Hc Hd]. destruct (is_digit_value c Hc) as [E Hr]. rewrite E in Hv. simpl in Hv.
  rewrite (proj2 (Z.ltb_lt _ _)) in Hv by lia. apply IH in Hv; [lia|done|lia].
Qed.

(** The loop stops at the first character that is not a digit, with the
    number read if it is at most [limit]. *)
Lemma parse_dec_iff limit p : forall acc v rest, 0 <= acc <= limit -> limit <= 65535 ->
  parse_dec limit p acc = Some (v, rest) <->
  exists ds, p = ds ++ rest /\ digits ds /\ is_digit (deref rest) = false /\ value 10 acc ds = Some v /\ v <= limit.
Proof.
  induction p as [|c p IH]; intros acc v rest Ha Hl; cbn [parse_dec].
  - split.
    + intros [= <- <-]. exists []. repeat split; [constructor|lia].
    + intros (ds & Hp & _ & _ & Hv & _). symmetry in Hp. apply app_nil in Hp as [-> ->]. by simplify_eq/=.
  - destruct (is_digit c) eqn:Ec.
    + destruct (is_digit_value c Ec) as [E Hr]. rewrite u32_small by (unfold is_u32; lia). case_b.
      * split; [done|]. intros (ds & Hp & Hd & Hn & Hv & Hle).
        destruct ds as [|d ds]; [simplify_eq/=; congruence|]. injection Hp as -> ->. simpl in Hv.
        rewrite E in Hv. simpl in Hv. rewrite (proj2 (Z.ltb_lt _ _)) in Hv by lia.
        apply Forall_cons in Hd as [_ Hd]. apply value_le in Hv; [lia|done|lia].
      * rewrite IH by lia. split; intros (ds & Hp & Hd & Hn & Hv & Hle).
        -- exists (c :: ds). rewrite Hp. repeat split; try done; [by constructor|]. simpl. rewrite E. simpl.
           by rewrite (proj2 (Z.ltb_lt _ _)) by lia.
        -- destruct ds as [|d ds]; [simplify_eq/=; congruence|]. injection Hp as -> ->. exists ds.
           apply Forall_cons in Hd as [_ Hd]. simpl in Hv. rewrite E in Hv. simpl in Hv.
           by rewrite (proj2 (Z.ltb_lt _ _)) in Hv by lia.
    + split.
      * intros [= <- <-]. exists []. repeat split; [constructor|done|lia].
      * intros (ds & Hp & Hd & Hn & Hv & _). destruct ds as [|d ds]; [by simplify_eq/=|].
        injection Hp as -> ->. apply Forall_cons in Hd as [Hd _]. congruence.
Qed.

(** ** Dotted quads *)

Record octet_text (ds : list Z) (v : Z) : Prop := {
  oct_some : ds <> [];
  oct_digits : digits ds;
  oct_value : value 10 0 ds = Some v;
  oct_max : v <= 255
}.

(** Octets with dots between them. *)
Fixpoint dotted (dss : list (list Z)) : list Z :=
  match dss with
  | [] => []
  | [ds] => ds
  | ds :: dss' => ds ++ 46 :: dotted dss'
  end.

Lemma octet_head ds v rest : octet_text ds v -> is_digit (deref (ds ++ rest)) = true.
Proof. intros [Hn Hd _ _]. destruct ds; [done|]. by apply Forall_cons in Hd as [Hd _]. Qed.

Lemma octet_parse p v rest : is_digit (deref p) = true ->
  parse_dec 255 p 0 = Some (v, rest) <->
  exists ds, p = ds ++ rest /\ octet_text ds v /\ is_digit (deref rest) = false.
Proof.
  intros Hp. rewrite parse_dec_iff by lia. split.
  - intros (ds & -> & Hd & Hn & Hv & Hle). exists ds. repeat split; try done. intros ->. simpl in Hp. congruence.
  - intros (ds & -> & [Hne Hd Hv Hle] & Hn). by exists ds.
Qed.

(** What follows an ip_octet. *)
Definition dot_tail (dss : list (list Z)) : list Z := match dss with [] => [] | _ => 46 :: dotted dss end.

Lemma dotted_cons ds dss : dotted (ds :: dss) = ds ++ dot_tail dss.
Proof. destruct dss; simpl; [by rewrite app_nil_r|done]. Qed.

Lemma parse_dotted ds v dss : octet_text ds v -> parse_dec 255 (dotted (ds :: dss)) 0 = Some (v, dot_tail dss).
Proof.
  intros Ho. rewrite dotted_cons. apply octet_parse; [by eapply octet_head|]. exists ds. repeat split; try apply Ho.
  by destruct dss.
Qed.

Lemma ipv4_parts_eq k p : ipv4_parts k p =
  if negb (is_digit (deref p)) then None
  else
    '(value, p) ← parse_dec 255 p 0;
    match k with
    | O => if negb (deref p =? 0) then None else Some [value]
    | S k' => if negb (deref p =? 46) then None else parts ← ipv4_parts k' (tl p); Some (value :: parts)
    end.
Proof. by destruct k. Qed.

Lemma ipv4_parts_dotted dss : forall k parts, length dss = S k -> Forall2 octet_text dss parts ->
  ipv4_parts k (dotted dss) = Some parts.
Proof.
  induction dss as [|ds dss IH]; intros k parts Hl HF; [done|].
  apply Forall2_cons_inv_l in HF as (v & parts' & Ho & HF & ->).
  rewrite ipv4_parts_eq, (parse_dotted ds v dss Ho).
  rewrite dotted_cons, (octet_head ds v _ Ho). destruct k as [|k].
  - destruct dss; [|done]. by apply Forall2_nil_inv_l in HF as ->.
  - destruct dss as [|ds' dss]; [done|]. cbn [dot_tail deref hd tl negb Z.eqb Pos.eqb mbind option_bind].
    rewrite (IH k parts'); [done|by simplify_eq/=|done].
Qed.

Lemma ipv4_parts_sound k : forall p parts, Forall is_char p -> ipv4_parts k p = Some parts ->
  exists dss, length dss = S k /\ Forall2 octet_text dss parts /\ p = dotted dss.
Proof.
  induction k as [|k IH]; intros p parts Hp; rewrite ipv4_parts_eq;
    (destruct (is_digit (deref p)) eqn:Ed; [|done]); simpl;
    (destruct (parse_dec 255 p 0) as [[v rest]|] eqn:E; [|done]); simpl;
    apply octet_parse in E as (ds & -> & Ho & Hn); [|done| |done];
    apply Forall_app in Hp as [_ Hr]; destruct rest as [|c rest]; simpl.
  - intros [= <-]. exists [ds]. simpl. rewrite app_nil_r. split; [done|]. split; [|done]. by apply Forall2_cons.
  - apply Forall_cons in Hr as [Hc _]. unfold is_char in Hc. by rewrite (proj2 (Z.eqb_neq c 0)) by lia.
  - done.
  - apply Forall_cons in Hr as [_ Hr]. destruct (Z.eqb_spec c 46) as [->|]; [|done]. simpl.
    destruct (ipv4_parts k rest) as [ps|] eqn:Ep; [|done]. intros [= <-].
    destruct (IH rest ps Hr Ep) as (dss & Hl & HF & ->). exists (ds :: dss). simpl.
    split; [lia|]. split; [by constructor|]. by destruct dss.
Qed.

Definition quad (a b c d : Z) : Z := a * 16777216 + b * 65536 + c * 256 + d.

Lemma octet_range ds v : octet_text ds v -> 0 <= v <= 255.
Proof. intros [_ Hd Hv Hm]. split; [by eapply (value_le ds 0)|done]. Qed.

Lemma quad_bits a b c d : 0 <= a <= 255 -> 0 <= b <= 255 -> 0 <= c <= 255 -> 0 <= d <= 255 ->
  Z.lor (Z.lor (Z.lor (u32 (Z.shiftl a 24)) (u32 (Z.shiftl b 16))) (u32 (Z.shiftl c 8))) d = quad a b c d.
Proof.
  intros Ha Hb Hc Hd. rewrite !u32_small by (unfold is_u32; rewrite Z.shiftl_mul_pow2 by lia; lia).
  rewrite <- !Z.lor_assoc. rewrite (lor_add c d 8) by lia.
  rewrite (lor_add b _ 16) by lia. rewrite (lor_add a _ 24) by lia. unfold quad. lia.
Qed.

Lemma dotted_parse d0 d1 d2 d3 a b c d : octet_text d0 a -> octet_text d1 b -> octet_text d2 c -> octet_text d3 d ->
  parse_ipv4 (Some (dotted [d0; d1; d2; d3])) = Some (quad a b c d).
Proof.
  intros H0 H1 H2 H3. unfold parse_ipv4. cbn [mbind option_bind].
  rewrite (ipv4_parts_dotted _ 3 [a; b; c; d]) by (done || by repeat (apply Forall2_cons; split)). cbn [mbind option_bind nth].
  f_equal. apply quad_bits; by eapply octet_range.
Qed.

Lemma parse_sound s a : Forall is_char s -> parse_ipv4 (Some s) = Some a ->
  exists d0 d1 d2 d3 a0 a1 a2 a3, octet_text d0 a0 /\ octet_text d1 a1 /\ octet_text d2 a2 /\ octet_text d3 a3 /\
    s = dotted [d0; d1; d2; d3] /\ a = quad a0 a1 a2 a3.
Proof.
  intros Hs. unfold parse_ipv4. cbn [mbind option_bind].
  destruct (ipv4_parts 3 s) as [parts|] eqn:E; [|done]. simpl. intros [= <-].
  destruct (ipv4_parts_sound 3 s parts Hs E) as (dss & Hl & HF & ->).
  destruct dss as [|d0 [|d1 [|d2 [|d3 [|]]]]]; try done.
  apply Forall2_cons_inv_l in HF as (a0 & ? & H0 & HF & ->). apply Forall2_cons_inv_l in HF as (a1 & ? & H1 & HF & ->).
  apply Forall2_cons_inv_l in HF as (a2 & ? & H2 & HF & ->). apply Forall2_cons_inv_l in HF as (a3 & ? & H3 & HF & ->).
  exists d0, d1, d2, d3, a0, a1, a2, a3. repeat (split; [done|]). apply quad_bits; by eapply octet_range.
Qed.

(** ** Printed addresses *)

Definition octet_dec (addr k : Z) : list Z := uint_digits 16 (ip_octet addr k) 10 false.
Definition ipv4_text (addr : Z) : list Z :=
  dotted [octet_dec addr 24; octet_dec addr 16; octet_dec addr 8; octet_dec addr 0].

Lemma octet_digits v : 0 <= v <= 255 ->
  octet_text (uint_digits 16 v 10 false) v /\ (length (uint_digits 16 v 10 false) <= 3)%nat.
Proof.
  intros Hv.
  assert (H : forallb (fun n => let v := Z.of_nat n in let ds := uint_digits 16 v 10 false in
    bool_decide (ds <> []) && forallb is_digit ds && bool_decide (value 10 0 ds = Some v) && (length ds <=? 3)%nat)
    (seq 0 256) = true) by (vm_compute; reflexivity).
  rewrite forallb_forall in H. specialize (H (Z.to_nat v)). rewrite in_seq in H. specialize (H ltac:(lia)).
  rewrite Z2Nat.id in H by lia. cbn zeta in H. rewrite !andb_true_iff in H. destruct H as (((Hn & Hd) & Hval) & Hlen).
  apply bool_decide_eq_true in Hn, Hval. apply Nat.leb_le in Hlen. rewrite forallb_forall in Hd.
  split; [|done]. split; try done; [|lia]. apply Forall_forall. intros c Hc. apply Hd. by apply list_elem_of_In.
Qed.

Lemma octet_mod addr k : ip_octet addr k = Z.shiftr addr k mod 256.
Proof. unfold ip_octet. change 255 with (Z.ones 8). by rewrite Z.land_ones by lia. Qed.

Lemma octet_le addr k : 0 <= ip_octet addr k <= 255.
Proof. rewrite octet_mod. pose proof (Z.mod_pos_bound (Z.shiftr addr k) 256). lia. Qed.

Lemma octets_quad addr : is_u32 addr ->
  quad (ip_octet addr 24) (ip_octet addr 16) (ip_octet addr 8) (ip_octet addr 0) = addr.
Proof.
  intros H. unfold quad. rewrite !octet_mod.
  rewrite !Z.shiftr_div_pow2 by lia. unfold is_u32 in H.
  change (2 ^ 24) with 16777216. change (2 ^ 16) with 65536. change (2 ^ 8) with 256. change (2 ^ 0) with 1.
  Z.div_mod_to_equations. lia.
Qed.

Lemma ipv4_text_ok addr : is_u32 addr ->
  parse_ipv4 (Some (ipv4_text addr)) = Some addr /\ (length (ipv4_text addr) <= 15)%nat /\ Forall is_char (ipv4_text addr).
Proof.
  intros H.
  assert (Ho : forall k, octet_text (octet_dec addr k) (ip_octet addr k) /\ (length (octet_dec addr k) <= 3)%nat)
    by (intros k; apply octet_digits, octet_le).
  unfold ipv4_text. split; [|split].
  - rewrite <- (octets_quad addr H) at 5. apply dotted_parse; apply Ho.
  - cbn [dotted]. rewrite !length_app; cbn [length]; rewrite !length_app; cbn [length]; rewrite !length_app; cbn [length].
    pose proof (proj2 (Ho 24)); pose proof (proj2 (Ho 16)); pose proof (proj2 (Ho 8)); pose proof (proj2 (Ho 0)). lia.
  - assert (Hd : forall k, Forall is_char (octet_dec addr k)).
    { intros k. eapply Forall_impl; [apply (oct_digits _ _ (proj1 (Ho k)))|].
      intros c Hc. unfold is_digit, is_char in *. lia. }
    assert (Hdot : is_char 46) by (unfold is_char; lia).
    cbn [dotted]. repeat (apply Forall_app; split; [apply Hd|]; constructor; [exact Hdot|]). apply Hd.
Qed.

Lemma buf_puts_app size s s' o : buf_puts size (s ++ s') o = buf_puts size s' (buf_puts size s o).
Proof. apply fold_left_app. Qed.

Lemma buf_puts_cons size c s o : buf_puts size (c :: s) o = buf_puts size s (append_char size c o).
Proof. done. Qed.

(** What the buffer functions leave in a buffer that is large enough. *)
Lemma obuf_end_text out size s : 0 < size <= Z.of_nat (length out) -> Z.of_nat (length s) < size -> Forall is_char s ->
  cstring (obuf_end size (shown_obuf out size s)) = s.
Proof.
  intros Hs Hl Hc. unfold obuf_end, shown_obuf, shown, kept_len. cbn [ob_data ob_idx].
  rewrite (proj2 (Z.ltb_lt 0 size)), (proj2 (Z.ltb_lt _ size)) by lia.
  rewrite Nat.min_l, firstn_all by lia.
  destruct (drop (length s) out) as [|x l] eqn:Ed.
  { apply (f_equal length) in Ed. rewrite length_drop in Ed. simpl in Ed. lia. }
  rewrite set_at_app. by apply cstring_end.
Qed.

Lemma format_ipv4_text out size addr : 16 <= size <= Z.of_nat (length out) -> is_u32 addr ->
  cstring (format_ipv4 out size addr) = ipv4_text addr.
Proof.
  intros Hs H. destruct (ipv4_text_ok addr H) as (_ & Hl & Hc).
  rewrite <- (obuf_end_text out size (ipv4_text addr)) by (done || lia).
  assert (E : buf_puts size (ipv4_text addr) (mk_obuf out 0) = shown_obuf out size (ipv4_text addr)).
  { apply (buf_puts_shown out size ltac:(lia) (ipv4_text addr) []). rewrite app_nil_l. unfold W64. lia. }
  rewrite <- E. unfold format_ipv4, ipv4_text. cbn [dotted].
  by rewrite !buf_puts_app, !buf_puts_cons, !buf_puts_app, !buf_puts_cons, !buf_puts_app, !buf_puts_cons.
Qed.

(** Internet addresses as text: [parse_ipv4] accepts exactly four decimal
    numbers of at most 255 with dots between them and gives the address
    with those octets, and it reads back every address [format_ipv4]
    prints. *)
Theorem ipv4_text_roundtrip s a out size :
  Forall is_char s -> is_u32 a -> 16 <= size <= Z.of_nat (length out) ->
  (parse_ipv4 (Some s) = Some a <->
   exists d0 d1 d2 d3 a0 a1 a2 a3, octet_text d0 a0 /\ octet_text d1 a1 /\ octet_text d2 a2 /\ octet_text d3 a3 /\
     s = dotted [d0; d1; d2; d3] /\ a = quad a0 a1 a2 a3) /\
  parse_ipv4 (Some (cstring (format_ipv4 out size a))) = Some a.
Proof.
  intros Hs Ha Hsize. split; [split|].
  - by apply parse_sound.
  - intros (d0 & d1 & d2 & d3 & a0 & a1 & a2 & a3 & H0 & H1 & H2 & H3 & -> & ->). by apply dotted_parse.
  - rewrite format_ipv4_text by done. by apply ipv4_text_ok.
Qed.

Lemma ipv4_text_roundtrip_witness :
  (parse_ipv4 (Some (text "127.0.0.01")) = Some 2130706433 <->
   exists d0 d1 d2 d3 a0 a1 a2 a3, octet_text d0 a0 /\ octet_text d1 a1 /\ octet_text d2 a2 /\ octet_text d3 a3 /\
     text "127.0.0.01" = dotted [d0; d1; d2; d3] /\ 2130706433 = quad a0 a1 a2 a3) /\
  parse_ipv4 (Some (cstring (format_ipv4 (replicate 20 7) 20 2130706433))) = Some 2130706433.
Proof.
  apply (ipv4_text_roundtrip (text "127.0.0.01") 2130706433 (replicate 20 7) 20).
  - repeat constructor.
  - split; reflexivity || discriminate.
  - split; discriminate.
Defined.

(** ** Netmasks and prefix lengths *)

(** The [p] highest bits of 32 and no others. *)
Definition mask_bits (m p : Z) : Prop := forall j, 0 <= j < 32 -> Z.testbit m (31 - j) = (j <? p).

Lemma mask_bits_fun m p q : 0 <= p <= 32 -> 0 <= q <= 32 -> mask_bits m p -> mask_bits m q -> p = q.
Proof.
  intros Hp Hq Hbp Hbq. destruct (Z.lt_trichotomy p q) as [Hlt|[|Hlt]]; [exfalso|done|exfalso].
  - specialize (Hbp p ltac:(lia)). specialize (Hbq p ltac:(lia)). rewrite Hbp in Hbq. lia.
  - specialize (Hbp q ltac:(lia)). specialize (Hbq q ltac:(lia)). rewrite Hbp in Hbq. lia.
Qed.

(** The count is that of the mask's leading bits, and -1 exactly when the
    mask has a gap. *)
Lemma netmask_loop m : let p := netmask_to_prefix m in
  (p = -1 /\ forall q, ~ mask_bits m q) \/ (0 <= p <= 32 /\ mask_bits m p).
Proof.
  unfold netmask_to_prefix, for_range_exit. set (body := fun (j : Z) (st : Z * bool) => _).
  pose proof (for_exit_ind
    (fun j st => 0 <= st.1 <= j /\ st.2 = negb (st.1 =? j) /\
       forall i, 0 <= i < j -> Z.testbit m (31 - i) = (i <? st.1))
    (fun r => r = -1 /\ forall q, ~ mask_bits m q) body (Z.to_nat (32 - 0)) 0 (0, false)) as H.
  specialize (H ltac:(simpl; repeat split; lia)). lapply H; clear H; [intros H|]; cycle 1.
  { intros i [q b] Hi (Hq & Hb & Hbits). simpl in Hq, Hb, Hbits. unfold body.
    destruct (Z.testbit m (31 - i)) eqn:E.
    - destruct b.
      + split; [done|]. intros q' Hm. symmetry in Hb. apply negb_true_iff, Z.eqb_neq in Hb.
        specialize (Hbits q ltac:(lia)). rewrite (Hm q ltac:(lia)) in Hbits. rewrite (Hm i ltac:(lia)) in E. lia.
      + symmetry in Hb. apply negb_false_iff, Z.eqb_eq in Hb as ->. simpl.
        repeat split; try lia. intros i' Hi'. destruct (decide (i' = i)) as [->|]; [rewrite E; lia|].
        rewrite Hbits by lia. lia.
    - simpl. repeat split; try lia. intros i' Hi'. destruct (decide (i' = i)) as [->|]; [rewrite E; lia|].
      apply Hbits. lia. }
  destruct (for_exit _ _ body _) as [[p z]|r]; [right|by left].
  destruct H as (Hp & _ & Hb). simpl in Hp, Hb. split; [lia|]. exact Hb.
Qed.

Lemma mask_bits_inj m m' p : is_u32 m -> is_u32 m' -> mask_bits m p -> mask_bits m' p -> m = m'.
Proof.
  intros Hm Hm' Hb Hb'. apply Z.bits_inj'. intros n Hn. destruct (decide (n < 32)) as [Hlt|].
  - specialize (Hb (31 - n) ltac:(lia)). specialize (Hb' (31 - n) ltac:(lia)).
    replace (31 - (31 - n)) with n in * by lia. congruence.
  - assert (H : forall x, is_u32 x -> Z.testbit x n = false).
    { intros x Hx. rewrite <- (Z.mod_small x (2 ^ 32)) by (unfold is_u32 in Hx; lia).
      apply Z.mod_pow2_bits_high. lia. }
    by rewrite !H.
Qed.

(** Of the 33 prefix lengths. *)
Lemma prefix_back p m : 0 <= p <= 32 -> prefix_to_netmask p = Some m -> netmask_to_prefix m = p /\ is_u32 m.
Proof.
  intros Hp Hm.
  assert (H : forallb (fun n => match prefix_to_netmask (Z.of_nat n) with
      | Some m => (netmask_to_prefix m =? Z.of_nat n) && (0 <=? m) && (m <? 4294967296) | None => false end)
    (seq 0 33) = true) by (vm_compute; reflexivity).
  rewrite forallb_forall in H. specialize (H (Z.to_nat p)). rewrite in_seq in H. specialize (H ltac:(lia)).
  rewrite Z2Nat.id, Hm in H by lia. unfold is_u32. lia.
Qed.

Lemma prefix_some p : 0 <= p <= 32 -> is_Some (prefix_to_netmask p).
Proof.
  intros H. unfold prefix_to_netmask. replace ((p <? 0) || (32 <? p)) with false by lia. case_b; eauto.
Qed.

(** The two conversions between netmasks and prefix lengths are inverse
    to each other, and the masks with no prefix length are exactly those
    for which the other returns -1. *)
Theorem netmask_prefix_roundtrip m p : is_u32 m ->
  (prefix_to_netmask p = Some m <-> 0 <= p /\ netmask_to_prefix m = p) /\
  (netmask_to_prefix m = -1 <-> forall q, prefix_to_netmask q <> Some m).
Proof.
  intros Hm.
  assert (Hrange : forall q, is_Some (prefix_to_netmask q) -> 0 <= q <= 32).
  { intros q [x Hx]. unfold prefix_to_netmask in Hx. destruct ((q <? 0) || (32 <? q)) eqn:E; [done|lia]. }
  assert (Hiff : forall q, prefix_to_netmask q = Some m <-> 0 <= q /\ netmask_to_prefix m = q).
  { intros q. split.
    - intros Hq. pose proof (Hrange q (mk_is_Some _ _ Hq)). destruct (prefix_back q m); done || lia.
    - intros [Hq Hn]. destruct (netmask_loop m) as [[? _]|[Hr Hb]]; [lia|]. rewrite Hn in Hr, Hb.
      destruct (prefix_some q Hr) as [m' Hm']. destruct (prefix_back q m' Hr Hm') as [Hn' Hu].
      destruct (netmask_loop m') as [[? _]|[_ Hb']]; [lia|]. rewrite Hn' in Hb'.
      by rewrite (mask_bits_inj m m' q). }
  split; [apply Hiff|]. split.
  - intros Hn q [Hq Hq']%Hiff. lia.
  - intros Hq. destruct (netmask_loop m) as [[? _]|[Hr _]]; [done|]. exfalso.
    apply (Hq (netmask_to_prefix m)). apply Hiff. lia.
Qed.

Lemma netmask_prefix_roundtrip_witness :
  ((prefix_to_netmask 24 = Some 4294967040 <-> 0 <= 24 /\ netmask_to_prefix 4294967040 = 24) /\
   (netmask_to_prefix 4294967040 = -1 <-> forall q, prefix_to_netmask q <> Some 4294967040)) /\
  netmask_to_prefix 4294967040 = 24 /\ netmask_to_prefix 4278255360 = -1.
Proof.
  split; [|split; vm_compute; reflexivity].
  apply (netmask_prefix_roundtrip 4294967040 24). split; reflexivity || discriminate.
Defined.

(** ** Command lines *)

(** The maximal runs of characters other than blanks. *)
Fixpoint words (s : list Z) : list (list Z) :=
  match s with
  | [] => []
  | c :: s' =>
      if c =? 32 then words s'
      else
        match s' with
        | d :: _ => if d =? 32 then [c] :: words s'
                    else match words s' with w :: ws => (c :: w) :: ws | [] => [[c]] end
        | [] => [[c]]
        end
  end.

(** A word: not empty and free of blanks. *)
Definition is_word (w : list Z) : Prop := w <> [] /\ Forall (fun c => c <> 32) w.

Lemma words_blanks n r : words (replicate n 32 ++ r) = words r.
Proof. induction n; [done|]. simpl. done. Qed.

Lemma words_word w r : is_word w -> (r = [] \/ hd 0 r = 32) -> words (w ++ r) = w :: words r.
Proof.
  intros [Hn Hw] Hr. induction w as [|c w IH]; [done|]. apply Forall_cons in Hw as [Hc Hw]. simpl.
  rewrite (proj2 (Z.eqb_neq c 32) Hc). destruct w as [|d w].
  - simpl. destruct r as [|x r]; [done|]. destruct Hr as [|Hx]; [done|]. simpl in Hx. by rewrite Hx.
  - pose proof Hw as Hw'. apply Forall_cons in Hw' as [Hd _]. rewrite <- app_comm_cons.
    rewrite (proj2 (Z.eqb_neq d 32) Hd), app_comm_cons, IH by done. done.
Qed.

Lemma skip_blanks_eq p : forall pos, exists n r, p = replicate n 32 ++ r /\ (r = [] \/ hd 0 r <> 32) /\
  skip_blanks p pos = (r, pos + Z.of_nat n).
Proof.
  induction p as [|c p IH]; intros pos; simpl.
  { exists O, []. split; [done|]. split; [by left|]. f_equal. lia. }
  destruct (Z.eqb_spec c 32) as [->|Hc].
  - destruct (IH (pos + 1)) as (n & r & -> & Hr & E). exists (S n), r. split; [done|]. split; [done|]. rewrite E. f_equal. lia.
  - exists O, (c :: p). split; [done|]. split; [by right|]. f_equal. lia.
Qed.

Lemma skip_word_eq p : forall pos, exists w r, p = w ++ r /\ Forall (fun c => c <> 32) w /\
  (r = [] \/ hd 0 r = 32) /\ skip_word p pos = (r, pos + Z.of_nat (length w)).
Proof.
  induction p as [|c p IH]; intros pos; simpl.
  { exists [], []. split; [done|]. split; [constructor|]. split; [by left|]. simpl. f_equal. lia. }
  destruct (Z.eqb_spec c 32) as [->|Hc]; simpl.
  - exists [], (32 :: p). split; [done|]. split; [constructor|]. split; [by right|]. simpl. f_equal. lia.
  - destruct (IH (pos + 1)) as (w & r & -> & Hw & Hr & E). exists (c :: w), r. split; [done|]. split; [by constructor|].
    split; [done|]. rewrite E. simpl. f_equal. lia.
Qed.

(** A finished word: its zero lies in the part of the line already passed. *)
Definition ended (pre : list Z) (q : Z) (w : list Z) : Prop :=
  0 <= q <= Z.of_nat (length pre) /\ Forall is_char w /\ exists r, drop (Z.to_nat q) pre = w ++ 0 :: r.

Lemma ended_app pre q w x : ended pre q w -> ended (pre ++ x) q w.
Proof.
  intros (Hq & Hw & r & Hr). split; [rewrite length_app; lia|]. split; [done|]. exists (r ++ x).
  rewrite drop_app_le by lia. by rewrite Hr, <- app_assoc.
Qed.

Lemma ended_string pre q w x : ended pre q w -> cstring (drop (Z.to_nat q) (pre ++ x)) = w.
Proof. intros H%(ended_app _ _ _ x). destruct H as (_ & Hw & r & ->). by apply cstring_end. Qed.

Lemma ended_new pre w r : Forall is_char w -> ended (pre ++ w ++ 0 :: r) (Z.of_nat (length pre)) w.
Proof.
  intros Hw. split; [rewrite length_app; lia|]. split; [done|]. exists r.
  by rewrite Nat2Z.id, drop_app_length.
Qed.

Lemma ended_strings pre x argv ws : Forall2 (ended pre) argv ws -> arg_strings (argv, pre ++ x) = ws.
Proof. intros H. unfold arg_strings. simpl. induction H; simpl; [done|]. f_equal; [by apply ended_string|done]. Qed.

Lemma split_loop_words n : forall p pre tail argv ws, Forall is_char p -> Forall2 (ended pre) argv ws ->
  arg_strings (split_loop n p (Z.of_nat (length pre)) (pre ++ p ++ 0 :: tail) argv) = ws ++ take n (words p).
Proof.
  induction n as [|n IH]; intros p pre tail argv ws Hp Ha; cbn [split_loop].
  { rewrite app_nil_r. by apply ended_strings. }
  destruct p as [|c0 p0]; [rewrite app_nil_r; by apply ended_strings|].
  set (p := c0 :: p0) in *. clearbody p. clear c0 p0.
  destruct (skip_blanks_eq p (Z.of_nat (length pre))) as (k & r & -> & Hr & ->).
  rewrite words_blanks. apply Forall_app in Hp as [Hk Hp].
  destruct r as [|c r]; [cbn [words take]; rewrite (app_nil_r ws); by apply ended_strings|].
  set (r1 := c :: r) in *.
  destruct (skip_word_eq r1 (Z.of_nat (length pre) + Z.of_nat k)) as (w & r2 & Er & Hw & Hr2 & ->).
  assert (Hword : is_word w).
  { split; [|done]. intros ->. simpl in Er. subst r2. destruct Hr as [|Hr]; [done|]. destruct Hr2 as [|]; done. }
  rewrite Er, words_word by done. clearbody r1. subst r1.
  apply Forall_app in Hp as [Hpw Hp2].
  replace (pre ++ (replicate k 32 ++ w ++ r2) ++ 0 :: tail) with ((pre ++ replicate k 32) ++ w ++ r2 ++ 0 :: tail)
    by (by rewrite <- !app_assoc).
  replace (Z.of_nat (length pre) + Z.of_nat k) with (Z.of_nat (length (pre ++ replicate k 32)))
    by (rewrite length_app, length_replicate; lia).
  assert (Ha' : Forall2 (ended (pre ++ replicate k 32)) argv ws)
    by (eapply Forall2_impl; [exact Ha|]; intros q w'; apply ended_app).
  set (pre' := pre ++ replicate k 32) in *. clearbody pre'.
  assert (Hend : forall t, Forall2 (ended (pre' ++ w ++ 0 :: t)) (argv ++ [Z.of_nat (length pre')]) (ws ++ [w])).
  { intros t. apply Forall2_app.
    - eapply Forall2_impl; [exact Ha'|]. intros q w'. apply ended_app.
    - apply Forall2_cons. split; [by apply ended_new|done]. }
  destruct r2 as [|b r2].
  - simpl. rewrite take_nil. specialize (Hend tail). rewrite <- (app_nil_r (pre' ++ w ++ 0 :: tail)).
    by apply ended_strings.
  - destruct Hr2 as [|Hb]; [done|]. simpl in Hb. subst b. simpl words. cbn [take].
    replace (pre' ++ w ++ (32 :: r2) ++ 0 :: tail) with ((pre' ++ w) ++ 32 :: r2 ++ 0 :: tail)
      by (by rewrite <- app_assoc).
    replace (Z.of_nat (length pre') + Z.of_nat (length w)) with (Z.of_nat (length (pre' ++ w)))
      by (rewrite length_app; lia).
    rewrite set_at_app.
    replace (Z.of_nat (length (pre' ++ w)) + 1) with (Z.of_nat (length ((pre' ++ w) ++ [0])))
      by (rewrite (length_app _ [0]); simpl; lia).
    replace ((pre' ++ w) ++ 0 :: r2 ++ 0 :: tail) with (((pre' ++ w) ++ [0]) ++ r2 ++ 0 :: tail)
      by (by rewrite <- (app_assoc _ [0])).
    apply Forall_cons in Hp2 as [_ Hp2].
    rewrite (IH r2 _ tail _ (ws ++ [w])); [by rewrite <- app_assoc|done|].
    specialize (Hend []). by rewrite <- app_assoc.
Qed.

Lemma split_args_strings line tail max_args : Forall is_char line ->
  arg_strings (split_args (line ++ 0 :: tail) max_args) = take (Z.to_nat max_args) (words line).
Proof.
  intros H. unfold split_args. rewrite cstring_end by done.
  apply (split_loop_words (Z.to_nat max_args) line [] tail [] []); [done|constructor].
Qed.

(** The shell's command line: the arguments are the words of the line,
    as many as there are slots for, each a string of its own inside the
    line. *)
Theorem split_args_words line tail max_args : Forall is_char line ->
  arg_strings (split_args (line ++ 0 :: tail) max_args) = take (Z.to_nat max_args) (words line).
Proof. apply split_args_strings. Qed.

Lemma split_args_words_witness :
  arg_strings (split_args (text "  echo  a b" ++ [0; 7; 7]) 2) = [text "echo"; text "a"].
Proof.
  rewrite (split_args_words (text "  echo  a b") [7; 7] 2) by (repeat constructor).
  vm_compute. reflexivity.
Defined.
