(* ===== verification/Log.v ===== *)
(** * The kernel log (src/log.c)

    Messages with a level, formatted and sent character by character to the
    screen, the serial line or both.  The serial line is the one the console
    copies to ([con_serial]).  The format is read by a machine with three
    states; a format that ends inside a conversion makes the code read past
    its end, which is [None]. *)

From Stdlib Require Import String.
From stdpp Require Import prelude list.
From Stdlib Require Import ZArith Lia.
From S2P Require Import Prelude Console ConsoleSpec UserLib.
#[local] Open Scope string_scope.
#[local] Open Scope list_scope.
#[local] Open Scope Z_scope.
#[local] Open Scope cint_scope.

Definition LOG_LEVEL_INFO : Z := 0.
Definition LOG_LEVEL_WARN : Z := 1.
Definition LOG_LEVEL_ERROR : Z := 2.
Definition LOG_TARGET_CONSOLE : Z := 1.
Definition LOG_TARGET_SERIAL : Z := 2.

Record klog := mk_klog { lg_level : Z; lg_targets : Z; lg_con : console }.

Definition lg_set_con (c : console) (l : klog) : klog := mk_klog (lg_level l) (lg_targets l) c.

Definition log_init (level targets : Z) (l : klog) : klog := mk_klog level targets (lg_con l).
Definition log_set_level (level : Z) (l : klog) : klog := mk_klog level (lg_targets l) (lg_con l).
Definition log_set_targets (targets : Z) (l : klog) : klog := mk_klog (lg_level l) targets (lg_con l).
Definition log_get_level (l : klog) : Z := lg_level l.
Definition log_get_targets (l : klog) : Z := lg_targets l.

Definition log_putc (l : klog) (c : Z) : klog :=
  let l := if negb (Z.land (lg_targets l) LOG_TARGET_CONSOLE =? 0) then lg_set_con (console_putc_vga (lg_con l) c) l else l in
  if negb (Z.land (lg_targets l) LOG_TARGET_SERIAL =? 0)
  then lg_set_con (set_serial (lg_con l) (con_serial (lg_con l) ++ [c])) l else l.

Definition log_write (s : list Z) (l : klog) : klog := fold_left log_putc s l.

Definition log_write_u64 (v base : Z) (uppercase : bool) (l : klog) : klog :=
  if v =? 0 then log_putc l 48 else log_write (rev (uint_tmp 32 v base uppercase)) l.

Definition log_write_i64 (v : Z) (l : klog) : klog :=
  if v <? 0 then log_write_u64 (u64 (- v)) 10 false (log_putc l 45) else log_write_u64 (u64 v) 10 false l.

Definition log_prefix (level : Z) (l : klog) : klog :=
  log_write (if level =? LOG_LEVEL_INFO then text "[info] " else if level =? LOG_LEVEL_WARN then text "[warn] "
             else if level =? LOG_LEVEL_ERROR then text "[error] " else text "[log] ") l.

(** Plain text, just behind a [%], or in a conversion after some [l]s. *)
Inductive log_mode := LPlain | LPercent | LConv (long_count : Z).

(** The number an argument denotes: 64 bits behind an [l], else 32. *)
Definition arg_signed (long_count w : Z) : Z := if 1 <=? long_count then i64 w else i32 w.
Definition arg_unsigned (long_count w : Z) : Z := if 1 <=? long_count then u64 w else u32 w.

(** One conversion character. *)
Definition log_conv (long_count c : Z) (args : list va) (l : klog) : option (list va * klog) :=
  if c =? 115 then match args with VaStr s :: args => Some (args, log_write (default (text "(null)") s) l) | _ => None end
  else if c =? 99 then match args with VaWord w :: args => Some (args, log_putc l (u8 w)) | _ => None end
  else if (c =? 100) || (c =? 105) then
    match args with VaWord w :: args => Some (args, log_write_i64 (arg_signed long_count w) l) | _ => None end
  else if c =? 117 then
    match args with VaWord w :: args => Some (args, log_write_u64 (arg_unsigned long_count w) 10 false l) | _ => None end
  else if (c =? 120) || (c =? 88) then
    match args with VaWord w :: args => Some (args, log_write_u64 (arg_unsigned long_count w) 16 (c =? 88) l) | _ => None end
  else if c =? 112 then
    match args with VaWord w :: args => Some (args, log_write_u64 w 16 false (log_write (text "0x") l)) | _ => None end
  else Some (args, log_putc (log_putc l 37) c).

Fixpoint log_loop (mode : log_mode) (fmt : list Z) (args : list va) (l : klog) : option klog :=
  match fmt with
  | [] => match mode with LPlain => Some l | _ => None end
  | c :: fmt' =>
      let conv k :=
        if c =? 108 then log_loop (LConv (k + 1)) fmt' args l
        else '(args, l) ← log_conv k c args l; log_loop LPlain fmt' args l in
      match mode with
      | LPlain => if negb (c =? 37) then log_loop LPlain fmt' args (log_putc l c) else log_loop LPercent fmt' args l
      | LPercent => if c =? 37 then log_loop LPlain fmt' args (log_putc l 37) else conv 0
      | LConv k => conv k
      end
  end.

Definition log_vprintf (level : Z) (fmt : list Z) (args : list va) (l : klog) : option klog :=
  if level <? lg_level l then Some l else log_loop LPlain fmt args (log_prefix level l).

Definition log_info (fmt : list Z) (args : list va) (l : klog) : option klog := log_vprintf LOG_LEVEL_INFO fmt args l.
Definition log_warn (fmt : list Z) (args : list va) (l : klog) : option klog := log_vprintf LOG_LEVEL_WARN fmt args l.
Definition log_error (fmt : list Z) (args : list va) (l : klog) : option klog := log_vprintf LOG_LEVEL_ERROR fmt args l.
Definition log_printf (level : Z) (fmt : list Z) (args : list va) (l : klog) : option klog := log_vprintf level fmt args l.

(** ** The same text on every target

    [log_text] is the text alone; logging sends it to the targets. *)

Definition text_conv (long_count c : Z) (args : list va) : option (list va * list Z) :=
  if c =? 115 then match args with VaStr s :: args => Some (args, default (text "(null)") s) | _ => None end
  else if c =? 99 then match args with VaWord w :: args => Some (args, [u8 w]) | _ => None end
  else if (c =? 100) || (c =? 105) then
    match args with
    | VaWord w :: args =>
        let v := arg_signed long_count w in
        Some (args, (if v <? 0 then [45] else []) ++ uint_digits 32 (Z.abs v) 10 false)
    | _ => None
    end
  else if c =? 117 then
    match args with VaWord w :: args => Some (args, uint_digits 32 (arg_unsigned long_count w) 10 false) | _ => None end
  else if (c =? 120) || (c =? 88) then
    match args with VaWord w :: args => Some (args, uint_digits 32 (arg_unsigned long_count w) 16 (c =? 88)) | _ => None end
  else if c =? 112 then
    match args with VaWord w :: args => Some (args, text "0x" ++ uint_digits 32 w 16 false) | _ => None end
  else Some (args, [37; c]).

Lemma log_write_app s s' l : log_write (s ++ s') l = log_write s' (log_write s l).
Proof. apply fold_left_app. Qed.

Lemma log_write_u64_text v base up l : log_write_u64 v base up l = log_write (uint_digits 32 v base up) l.
Proof. unfold log_write_u64, uint_digits. by case_b. Qed.

Lemma log_conv_text k c args l :
  log_conv k c args l = '(args, s) ← text_conv k c args; Some (args, log_write s l).
Proof.
  unfold log_conv, text_conv. repeat case_b; try (destruct args as [|[w|s] args]; try done); simpl;
    rewrite ?log_write_u64_text; try done.
  unfold log_write_i64. set (v := arg_signed k w). assert (Hv : -9223372036854775808 <= v < 9223372036854775808).
  { unfold v, arg_signed. case_b; cint. }
  destruct (v <? 0) eqn:Ev; rewrite log_write_u64_text.
  - simpl. do 4 f_equal. unfold u64. rewrite Z.mod_small; lia.
  - simpl. do 4 f_equal. unfold u64. rewrite Z.mod_small; lia.
Qed.

Fixpoint log_text (mode : log_mode) (fmt : list Z) (args : list va) : option (list Z) :=
  match fmt with
  | [] => match mode with LPlain => Some [] | _ => None end
  | c :: fmt' =>
      let conv k :=
        if c =? 108 then log_text (LConv (k + 1)) fmt' args
        else '(args, s) ← text_conv k c args; r ← log_text LPlain fmt' args; Some (s ++ r) in
      match mode with
      | LPlain => if negb (c =? 37) then r ← log_text LPlain fmt' args; Some (c :: r) else log_text LPercent fmt' args
      | LPercent => if c =? 37 then r ← log_text LPlain fmt' args; Some (37 :: r) else conv 0
      | LConv k => conv k
      end
  end.

Lemma log_loop_text fmt : forall mode args l, log_loop mode fmt args l = s ← log_text mode fmt args; Some (log_write s l).
Proof.
  induction fmt as [|c fmt IH]; intros mode args l; [by destruct mode|].
  assert (Hconv : forall k,
    (if c =? 108 then log_loop (LConv (k + 1)) fmt args l
     else '(args, l) ← log_conv k c args l; log_loop LPlain fmt args l) =
    s ← (if c =? 108 then log_text (LConv (k + 1)) fmt args
         else '(args, s) ← text_conv k c args; r ← log_text LPlain fmt args; Some (s ++ r)); Some (log_write s l)).
  { intros k. case_b; [apply IH|]. rewrite log_conv_text.
    destruct (text_conv k c args) as [[args' s]|]; simpl; [|done]. rewrite IH.
    destruct (log_text LPlain fmt args'); simpl; [|done]. by rewrite log_write_app. }
  destruct mode as [| |k]; cbn [log_loop log_text].
  - case_b; rewrite IH; [|done]. by destruct (log_text LPlain fmt args).
  - case_b; [|apply Hconv]. rewrite IH. by destruct (log_text LPlain fmt args).
  - apply Hconv.
Qed.

Definition level_prefix (level : Z) : list Z :=
  if level =? LOG_LEVEL_INFO then text "[info] " else if level =? LOG_LEVEL_WARN then text "[warn] "
  else if level =? LOG_LEVEL_ERROR then text "[error] " else text "[log] ".

Lemma log_putc_serial l c :
  con_serial (lg_con (log_putc l c)) =
    con_serial (lg_con l) ++ (if negb (Z.land (lg_targets l) LOG_TARGET_SERIAL =? 0) then [c] else []) /\
  lg_targets (log_putc l c) = lg_targets l /\
  (Z.land (lg_targets l) LOG_TARGET_SERIAL = 0 -> Z.land (lg_targets l) LOG_TARGET_CONSOLE <> 0 ->
   lg_con (log_putc l c) = console_putc_vga (lg_con l) c).
Proof.
  unfold log_putc.
  assert (Hl : con_serial (console_putc_vga (lg_con l) c) = con_serial (lg_con l))
    by (pose proof (line_putc_vga (lg_con l) c) as E; by injection E).
  destruct (Z.eqb_spec (Z.land (lg_targets l) LOG_TARGET_CONSOLE) 0) as [E1|E1]; simpl;
    destruct (Z.eqb_spec (Z.land (lg_targets l) LOG_TARGET_SERIAL) 0) as [E2|E2]; simpl;
    rewrite ?app_nil_r, ?Hl; repeat split; intros; done || lia.
Qed.

Lemma log_write_serial s : forall l,
  con_serial (lg_con (log_write s l)) =
    con_serial (lg_con l) ++ (if negb (Z.land (lg_targets l) LOG_TARGET_SERIAL =? 0) then s else []) /\
  (Z.land (lg_targets l) LOG_TARGET_SERIAL = 0 -> Z.land (lg_targets l) LOG_TARGET_CONSOLE <> 0 ->
   lg_con (log_write s l) = console_write_vga (lg_con l) s).
Proof.
  induction s as [|c s IH]; intros l; [split; [by case_b; rewrite app_nil_r|done]|].
  destruct (log_putc_serial l c) as (Hs & Ht & Hc). unfold log_write. simpl. fold (log_write s (log_putc l c)).
  destruct (IH (log_putc l c)) as [IHs IHc]. rewrite Ht in IHs, IHc. split.
  - rewrite IHs, Hs. case_b; by rewrite <- ?app_assoc, ?app_nil_r.
  - intros H1 H2. rewrite IHc by done. by rewrite Hc.
Qed.

(** A message below the level leaves no trace.  Otherwise its text, the
    prefix of its level and the formatted message, goes to the serial line
    exactly when that is a target, and to the screen. *)
Theorem log_vprintf_correct level fmt args l :
  (level < lg_level l -> log_vprintf level fmt args l = Some l) /\
  (lg_level l <= level -> forall body, log_text LPlain fmt args = Some body ->
   exists l', log_vprintf level fmt args l = Some l' /\
     con_serial (lg_con l') = con_serial (lg_con l) ++
       (if negb (Z.land (lg_targets l) LOG_TARGET_SERIAL =? 0) then level_prefix level ++ body else []) /\
     (lg_targets l = LOG_TARGET_CONSOLE -> lg_con l' = console_write_vga (lg_con l) (level_prefix level ++ body))).
Proof.
  unfold log_vprintf. split; intros Hl.
  { by rewrite (proj2 (Z.ltb_lt _ _)). }
  intros body Hb. rewrite (proj2 (Z.ltb_ge _ _)) by done. rewrite log_loop_text, Hb. simpl.
  eexists. split; [done|].
  change (log_prefix level l) with (log_write (level_prefix level) l). rewrite <- log_write_app.
  destruct (log_write_serial (level_prefix level ++ body) l) as [Hs Hc]. split; [done|].
  intros Ht. apply Hc; rewrite Ht; done.
Qed.

(** The log has no widths either: the message about a virtio device prints
    [%08x] as it stands and the identification where the bus belongs. *)
Theorem log_no_width dev bus slot func : is_u64 dev -> is_u64 bus -> is_u64 slot ->
  log_text LPlain (text "virtio dev 0x%08x at %llu:%llu.%llu") [VaWord dev; VaWord bus; VaWord slot; VaWord func] =
  Some (text "virtio dev 0x%08x at " ++ uint_digits 32 dev 10 false ++ text ":" ++ uint_digits 32 bus 10 false ++
        text "." ++ uint_digits 32 slot 10 false).
Proof.
  intros Hd Hb Hs.
  rewrite <- (u64_small dev Hd) at 2. rewrite <- (u64_small bus Hb) at 2. rewrite <- (u64_small slot Hs) at 2.
  rewrite <- (app_nil_r (uint_digits 32 (u64 slot) 10 false)). reflexivity.
Qed.
