(* ===== verification/GdbSpec.v ===== *)
(** * What the debugger stub promises (src/gdb.c)

    Packets and memory contents survive the line, sessions give the line
    back as they found it, and breakpoints do not change the program: the
    bytes under them, [program], are the same after any sequence of setting,
    clearing, hitting and re-inserting breakpoints. *)

From Stdlib Require Import String.
From stdpp Require Import prelude list.
From Stdlib Require Import ZArith Lia.
From S2P Require Import Prelude Lib Console UserLib UserText Log Gdb.
#[local] Open Scope string_scope.
#[local] Open Scope list_scope.
#[local] Open Scope Z_scope.
#[local] Open Scope cint_scope.

(** ** Packets *)

Lemma hex_back v : 0 <= v < 16 -> hex_to_int (int_to_hex v) = v /\ is_u8 (int_to_hex v) /\ int_to_hex v <> 35.
Proof.
  intros H.
  assert (G : forallb (fun n => let c := int_to_hex (Z.of_nat n) in
      (hex_to_int c =? Z.of_nat n) && (0 <=? c) && (c <? 256) && negb (c =? 35)) (seq 0 16) = true)
    by (vm_compute; reflexivity).
  rewrite forallb_forall in G. specialize (G (Z.to_nat v)). rewrite in_seq in G. specialize (G ltac:(lia)).
  rewrite Z2Nat.id in G by lia. cbn zeta in G. unfold is_u8. lia.
Qed.

Lemma nibbles v : is_u8 v ->
  0 <= Z.land (Z.shiftr v 4) 15 < 16 /\ 0 <= Z.land v 15 < 16 /\
  Z.lor (Z.shiftl (Z.land (Z.shiftr v 4) 15) 4) (Z.land v 15) = v.
Proof.
  intros H. change 15 with (Z.ones 4). rewrite !Z.land_ones by lia. rewrite Z.shiftr_div_pow2 by lia.
  change (2 ^ 4) with 16. unfold is_u8 in H.
  split; [apply Z.mod_pos_bound; lia|]. split; [apply Z.mod_pos_bound; lia|].
  rewrite (lor_add _ _ 4) by (lia || apply Z.mod_pos_bound; lia). change (2 ^ 4) with 16.
  Z.div_mod_to_equations. lia.
Qed.

(** Two hexadecimal digits read back. *)
Lemma hex_pair v : is_u8 v ->
  Z.lor (Z.shiftl (hex_to_int (int_to_hex (Z.land (Z.shiftr v 4) 15))) 4) (hex_to_int (int_to_hex (Z.land v 15))) = v /\
  0 <= hex_to_int (int_to_hex (Z.land (Z.shiftr v 4) 15)) /\ 0 <= hex_to_int (int_to_hex (Z.land v 15)).
Proof.
  intros H. destruct (nibbles v H) as (H1 & H2 & H3).
  destruct (hex_back _ H1) as (-> & _), (hex_back _ H2) as (-> & _). lia.
Qed.

Lemma checksum_u8 data : is_u8 (checksum data).
Proof.
  unfold checksum. assert (G : forall c, is_u8 c -> is_u8 (fold_left (fun csum c => u8 (csum + c)) data c)).
  { induction data as [|x data IH]; intros c Hc; [done|]. apply IH. cint. }
  apply G. cint.
Qed.

Lemma packet_start_noise noise rx : Forall (fun c => c <> 3 /\ c <> 36) noise ->
  packet_start (noise ++ 36 :: rx) = Some (true, rx).
Proof.
  induction 1 as [|c noise [H1 H2] _ IH]; [done|]. simpl.
  by rewrite (proj2 (Z.eqb_neq c 3)), (proj2 (Z.eqb_neq c 36)).
Qed.

Lemma packet_body_data max data rest : forall buf csum, Forall (fun c => c <> 35) data ->
  ustrlen buf + ustrlen data < max ->
  packet_body max (data ++ 35 :: rest) buf csum =
    Some (buf ++ data, fold_left (fun csum c => u8 (csum + c)) data csum, rest).
Proof.
  induction data as [|c data IH]; intros buf csum Hd Hm; simpl; [by rewrite app_nil_r|].
  apply Forall_cons in Hd as [Hc Hd]. rewrite (proj2 (Z.eqb_neq c 35) Hc).
  unfold ustrlen in *. simpl in Hm. rewrite (proj2 (Z.ltb_lt _ _)) by lia.
  rewrite IH; [by rewrite <- app_assoc|done|]. rewrite length_app. simpl. lia.
Qed.

(** The debugger's line: a packet that was sent is received as it was,
    whatever stood on the line before it, and acknowledged; with checksum
    digits of any other value it is refused and not taken for a command. *)
Theorem gdb_packet_roundtrip (g : gdb) (noise data rest : list Z) (sum : Z) :
  Forall (fun c => c <> 3 /\ c <> 36) noise -> Forall (fun c => c <> 35) data -> ustrlen data < 511 -> is_u8 sum ->
  (gd_rx g = noise ++ packet_bytes data ++ rest ->
   gdb_read_packet GDB_MAX_PACKET g = Some (data, gd_send [43] (gd_set_rx rest g))) /\
  (gd_rx g = noise ++ [36] ++ data ++ [35] ++ hex_byte sum ++ rest -> sum <> checksum data ->
   gdb_read_packet GDB_MAX_PACKET g = Some ([], gd_send [45] (gd_set_rx rest g))).
Proof.
  intros Hn Hd Hl Hs.
  assert (Hread : forall v, is_u8 v -> gd_rx g = noise ++ 36 :: data ++ 35 :: hex_byte v ++ rest ->
    gdb_read_packet GDB_MAX_PACKET g =
      if negb (v =? checksum data) then Some ([], gd_send [45] (gd_set_rx rest g))
      else Some (data, gd_send [43] (gd_set_rx rest g))).
  { intros v Hv E. unfold gdb_read_packet. rewrite E, packet_start_noise by done. cbn [mbind option_bind negb].
    rewrite (packet_body_data GDB_MAX_PACKET data) by (done || (unfold GDB_MAX_PACKET, ustrlen in *; simpl; lia)).
    cbn [mbind option_bind hex_byte app]. destruct (hex_pair v Hv) as [-> _].
    unfold checksum. replace (u8 v) with v by (clear -Hv; cint). done. }
  split; intros E.
  - rewrite (Hread (checksum data) (checksum_u8 data)); [by rewrite Z.eqb_refl|].
    rewrite E. unfold packet_bytes, hex_byte. simpl. by rewrite <- app_assoc.
  - intros Hne. rewrite (Hread sum Hs); [by rewrite (proj2 (Z.eqb_neq _ _) Hne)|]. exact E.
Qed.

(** ** Memory over the line *)

Lemma write_read_memory bs : forall m addr n, Forall is_u8 bs -> is_u64 addr -> addr + ustrlen bs <= W64 -> ustrlen bs <= n ->
  mem_eq (gdb_write_memory m addr (concat (hex_byte <$> bs)) n) (mem_put m addr bs).
Proof.
  induction bs as [|b bs IH]; intros m addr n Hb Ha Hw Hn; unfold ustrlen in *; simpl length in *.
  - intros x. unfold mem_put, ld8. cbn beta. simpl length. replace (in_range addr (Z.of_nat 0) x) with false; [done|].
    symmetry. apply in_range_false. lia.
  - apply Forall_cons in Hb as [Hb Hbs]. destruct (hex_pair b Hb) as (E & H1 & H2).
    cbn [fmap list_fmap concat hex_byte app gdb_write_memory].
    replace ((n <=? 0) || _ || _) with false by lia. rewrite E.
    destruct bs as [|b' bs].
    + intros x. simpl. unfold mem_put. rewrite ld8_st8. unfold ld8. simpl length.
      destruct (Z.eqb_spec x addr) as [->|Hx].
      * replace (in_range addr (Z.of_nat 1) addr) with true by (symmetry; apply in_range_true; lia). by rewrite Z.sub_diag.
      * replace (in_range addr (Z.of_nat 1) x) with false by (symmetry; apply in_range_false; lia). done.
    + simpl length in *. rewrite (u64_small (addr + 1)) by (unfold is_u64, W64 in *; lia).
      intros x. rewrite IH; [|done|unfold is_u64, W64 in *; lia|lia|lia].
      unfold mem_put, ld8. simpl length. destruct (in_range (addr + 1) _ x) eqn:E1; destruct (in_range addr _ x) eqn:E2;
        rewrite ?in_range_true, ?in_range_false in *; try lia.
      * f_equal. replace (Z.to_nat (x - addr)) with (S (Z.to_nat (x - (addr + 1)))) by lia. done.
      * assert (x = addr) as -> by lia. unfold st8. rewrite Z.eqb_refl, Z.sub_diag. simpl. clear -Hb. cint.
      * unfold st8. by rewrite (proj2 (Z.eqb_neq x addr)) by lia.
Qed.

(** What the host writes to memory it reads back. *)
Theorem gdb_memory_roundtrip m addr bs n : Forall is_u8 bs -> is_u64 addr -> addr + ustrlen bs <= W64 -> ustrlen bs <= n ->
  gdb_read_memory (gdb_write_memory m addr (concat (hex_byte <$> bs)) n) addr (ustrlen bs) = concat (hex_byte <$> bs).
Proof.
  intros Hb Ha Hw Hn. unfold gdb_read_memory, ustrlen. rewrite Nat2Z.id. f_equal. apply list_eq. intros i.
  rewrite !list_lookup_fmap. destruct (decide (i < length bs)%nat) as [Hi|Hi].
  - rewrite lookup_seq_lt by lia. destruct (lookup_lt_is_Some_2 bs i Hi) as [b Eb]. rewrite Eb. simpl. f_equal. f_equal.
    unfold ustrlen in *. rewrite u64_small by (unfold is_u64, W64 in *; lia).
    rewrite (write_read_memory bs) by (done || unfold ustrlen; lia).
    unfold ld8, mem_put. replace (in_range addr _ _) with true by (symmetry; apply in_range_true; lia).
    replace (Z.to_nat (addr + Z.of_nat i - addr)) with i by lia. rewrite (nth_lookup_Some _ _ _ _ Eb).
    rewrite Forall_lookup in Hb. specialize (Hb i b Eb). clear -Hb. cint.
  - rewrite lookup_seq_ge, lookup_ge_None_2 by lia. done.
Qed.

(** ** Breakpoints *)

(** The byte the program has at an address: the saved one under a
    breakpoint, else the one in memory. *)
Definition bp_here (g : gdb) (a : Z) (v : Z) : Prop :=
  exists i b, breakpoints g !! i = Some b /\ bp_at a b /\ bp_saved b = v.
Definition program (g : gdb) (a : Z) : Z :=
  match gdb_find_breakpoint a g with Some (_, b) => bp_saved b | None => ld8 (gd_mem g) a end.

Record bp_inv (g : gdb) : Prop := {
  bi_distinct : forall i j b b', breakpoints g !! i = Some b -> breakpoints g !! j = Some b' ->
    bp_used b = true -> bp_used b' = true -> bp_addr b = bp_addr b' -> i = j;
  bi_saved : forall i b, breakpoints g !! i = Some b -> bp_used b = true -> is_u8 (bp_saved b);
  bi_mem : forall i b, breakpoints g !! i = Some b -> bp_used b = true ->
    ld8 (gd_mem g) (bp_addr b) = 204 \/ ld8 (gd_mem g) (bp_addr b) = bp_saved b
}.

Lemma find_bp_some g a i b : gdb_find_breakpoint a g = Some (i, b) -> breakpoints g !! i = Some b /\ bp_at a b.
Proof. intros E. apply list_find_Some in E. tauto. Qed.

Lemma find_bp_none g a i b : gdb_find_breakpoint a g = None -> breakpoints g !! i = Some b -> ~ bp_at a b.
Proof.
  intros E Hi Hb. apply list_find_None in E. rewrite Forall_forall in E. apply (E b); [by eapply list_elem_of_lookup_2|done].
Qed.

Lemma find_bp_unique g a i b : bp_inv g -> breakpoints g !! i = Some b -> bp_at a b -> gdb_find_breakpoint a g = Some (i, b).
Proof.
  intros Hi Hb [Hu Ha]. destruct (gdb_find_breakpoint a g) as [[j b']|] eqn:E.
  - apply find_bp_some in E as [Hj [Hu' Ha']]. assert (i = j) as -> by (eapply (bi_distinct g); try done; congruence). congruence.
  - exfalso. by eapply find_bp_none.
Qed.

(** A breakpoint's byte, or the memory where there is none. *)
Lemma program_bp g a i b : bp_inv g -> breakpoints g !! i = Some b -> bp_at a b -> program g a = bp_saved b.
Proof. intros Hg Hb Ha. unfold program. by rewrite (find_bp_unique g a i b). Qed.
Lemma program_free g a : (forall i b, breakpoints g !! i = Some b -> ~ bp_at a b) -> program g a = ld8 (gd_mem g) a.
Proof.
  intros H. unfold program. destruct (gdb_find_breakpoint a g) as [[i b]|] eqn:E; [|done].
  apply find_bp_some in E as [Hi Hb]. by destruct (H i b Hi).
Qed.

(** Two states with the same program and a sound second one. *)
Definition same_program (except : Z -> Prop) (g g' : gdb) : Prop :=
  bp_inv g' /\ forall a, ~ except a -> program g' a = program g a.

(** Replacing one entry of the table together with the byte at its address. *)
Section replace_entry.
Context (g : gdb) (i : nat) (old new : gdb_breakpoint) (v : Z).
Context (Hg : bp_inv g) (Hi : breakpoints g !! i = Some old).
Let addr := bp_addr new.
Let g' := gd_set_mem (st8 (gd_mem g) addr v) (gd_set_bps (<[i := new]> (breakpoints g)) g).
Context (Hold : bp_used old = true -> bp_addr old = addr).
Context (Hother : forall j b, breakpoints g !! j = Some b -> bp_at addr b -> j = i).

Lemma replace_lookup j b : breakpoints g' !! j = Some b -> (j = i /\ b = new) \/ (j <> i /\ breakpoints g !! j = Some b).
Proof.
  simpl. intros H. apply list_lookup_insert_Some in H as [(<- & <- & _)|[Hn H]]; [by left|]. right. split; [done|exact H].
Qed.

Lemma replace_other j b : j <> i -> breakpoints g !! j = Some b -> bp_used b = true -> bp_addr b <> addr.
Proof. intros Hn Hj Hu E. apply Hn. by eapply Hother; [exact Hj|]. Qed.

Lemma replace_inv : is_u8 v -> (bp_used new = true -> is_u8 (bp_saved new) /\ (v = 204 \/ v = bp_saved new)) -> bp_inv g'.
Proof.
  intros Hv Hnew. split.
  - intros j k b b' Hj Hk Hu Hu' E. apply replace_lookup in Hj, Hk.
    destruct Hj as [[-> ->]|[Hnj Hj]], Hk as [[-> ->]|[Hnk Hk]]; [done| | |by eapply (bi_distinct g)].
    + by destruct (replace_other k b' Hnk Hk Hu').
    + by destruct (replace_other j b Hnj Hj Hu).
  - intros j b Hj Hu. apply replace_lookup in Hj as [[-> ->]|[Hn Hj]]; [by apply Hnew|by eapply (bi_saved g)].
  - intros j b Hj Hu. simpl. rewrite ld8_st8. apply replace_lookup in Hj as [[-> ->]|[Hn Hj]].
    + fold addr. rewrite Z.eqb_refl. replace (u8 v) with v by (clear -Hv; cint). by apply Hnew.
    + rewrite (proj2 (Z.eqb_neq _ _) (replace_other j b Hn Hj Hu)). by eapply (bi_mem g).
Qed.

Lemma replace_program a : is_u8 v -> bp_inv g' ->
  program g' a = if a =? addr then (if bp_used new then bp_saved new else v) else program g a.
Proof.
  intros Hv Hg'.
  assert (Hilt : (i < length (breakpoints g))%nat) by (by eapply lookup_lt_Some).
  destruct (Z.eqb_spec a addr) as [->|Ha].
  - destruct (bp_used new) eqn:Hu.
    + apply (program_bp g' addr i new Hg'); [by apply list_lookup_insert_eq|done].
    + rewrite program_free.
      * simpl. rewrite ld8_st8, Z.eqb_refl. clear -Hv. cint.
      * intros j b Hj [Hub Eb]. apply replace_lookup in Hj as [[-> ->]|[Hn Hj]]; [congruence|].
        by destruct (replace_other j b Hn Hj Hub).
  - destruct (gdb_find_breakpoint a g) as [[j b]|] eqn:E.
    + apply find_bp_some in E as [Hj Hb]. rewrite (program_bp g a j b Hg Hj Hb).
      assert (Hn : j <> i). { intros ->. rewrite Hi in Hj. injection Hj as <-. destruct Hb as [Hu Eb]. apply Ha. rewrite <- Eb. by apply Hold. }
      apply (program_bp g' a j b Hg'); [|done]. simpl. by rewrite list_lookup_insert_ne.
    + rewrite !program_free.
      * simpl. by rewrite ld8_st8, (proj2 (Z.eqb_neq a addr) Ha).
      * intros j b Hj. by eapply find_bp_none.
      * intros j b Hj [Hub Eb]. apply replace_lookup in Hj as [[-> ->]|[Hn Hj]]; [by destruct Ha|].
        by eapply (find_bp_none g a j b).
Qed.
End replace_entry.

Lemma add_same_program g addr : bp_inv g -> same_program (fun _ => False) g (snd (gdb_add_breakpoint addr g)).
Proof.
  intros Hg. unfold gdb_add_breakpoint. destruct (gdb_find_breakpoint addr g) as [[]|] eqn:E; [by split|].
  destruct (list_find _ (breakpoints g)) as [[i old]|] eqn:Ef; [|by split].
  apply list_find_Some in Ef as (Hi & Hu & _). cbn [snd].
  set (new := mk_bp addr (ld8 (gd_mem g) addr) true).
  assert (Hold : bp_used old = true -> bp_addr old = bp_addr new) by congruence.
  assert (Hother : forall j b, breakpoints g !! j = Some b -> bp_at (bp_addr new) b -> j = i).
  { intros j b Hj Hb. exfalso. by eapply (find_bp_none g addr). }
  assert (Hinv : bp_inv (gd_set_mem (st8 (gd_mem g) (bp_addr new) 204) (gd_set_bps (<[i := new]> (breakpoints g)) g))).
  { apply (replace_inv g i new 204 Hg Hother); [cint|]. intros _. split; [apply ld8_range|by left]. }
  split; [exact Hinv|]. intros a _.
  etransitivity; [exact (replace_program g i old new 204 Hg Hi Hold Hother a ltac:(cint) Hinv)|].
  cbn [bp_used bp_saved bp_addr new].
  destruct (Z.eqb_spec a addr) as [->|]; [|done]. symmetry. apply program_free. intros j b Hj. by eapply find_bp_none.
Qed.

Lemma remove_same_program g addr : bp_inv g -> same_program (fun _ => False) g (snd (gdb_remove_breakpoint addr g)).
Proof.
  intros Hg. unfold gdb_remove_breakpoint. destruct (gdb_find_breakpoint addr g) as [[i old]|] eqn:E; [|by split].
  destruct (find_bp_some _ _ _ _ E) as [Hi Hb]. pose proof Hb as [Hu Ha]. cbn [snd]. subst addr.
  assert (Hs : is_u8 (bp_saved old)) by (by eapply (bi_saved g)).
  assert (Hother : forall j b, breakpoints g !! j = Some b -> bp_at (bp_addr (bp_off old)) b -> j = i).
  { intros j b Hj [Hub Eb]. by eapply (bi_distinct g). }
  assert (Hinv : bp_inv (gd_set_mem (st8 (gd_mem g) (bp_addr (bp_off old)) (bp_saved old)) (gd_set_bps (<[i := bp_off old]> (breakpoints g)) g))).
  { apply (replace_inv g i (bp_off old) (bp_saved old) Hg Hother); [done|]. done. }
  split; [exact Hinv|]. intros a _.
  etransitivity; [exact (replace_program g i old (bp_off old) (bp_saved old) Hg Hi (fun _ => eq_refl) Hother a Hs Hinv)|].
  cbn [bp_used bp_off bp_addr].
  destruct (Z.eqb_spec a (bp_addr old)) as [->|]; [|done]. symmetry. by eapply program_bp.
Qed.

(** A store that leaves the table alone: at a breakpoint it may only put
    0xCC or the saved byte. *)
Lemma store_same_program (P : Z -> Prop) g m : bp_inv g ->
  (forall a, ~ P a -> ld8 m a = ld8 (gd_mem g) a \/
     exists i b, breakpoints g !! i = Some b /\ bp_at a b /\ (ld8 m a = 204 \/ ld8 m a = bp_saved b)) ->
  (forall i b, breakpoints g !! i = Some b -> bp_used b = true -> ~ P (bp_addr b)) ->
  same_program P g (gd_set_mem m g).
Proof.
  intros Hg Hm HP.
  assert (Hinv : bp_inv (gd_set_mem m g)).
  { split; [apply (bi_distinct g Hg)|apply (bi_saved g Hg)|]. intros i b Hi Hu.
    destruct (Hm (bp_addr b) (HP i b Hi Hu)) as [E|(j & b' & Hj & [Hu' E'] & Hv)].
    - cbn [gd_mem gd_set_mem]. rewrite E. by eapply (bi_mem g).
    - assert (j = i) as -> by (by eapply (bi_distinct g)). assert (b' = b) as -> by (simpl in Hi; congruence). done. }
  split; [done|]. intros a Ha. destruct (gdb_find_breakpoint a g) as [[i b]|] eqn:E.
  - apply find_bp_some in E as [Hi Hb]. rewrite (program_bp g a i b Hg Hi Hb). by apply (program_bp (gd_set_mem m g) a i b Hinv).
  - rewrite !program_free by (intros j b Hj; by eapply find_bp_none). simpl.
    destruct (Hm a Ha) as [|(i & b & Hi & Hb & _)]; [done|]. exfalso. by eapply (find_bp_none g a).
Qed.

(** The eight bytes of a register in the frame. *)
Definition in_slot (a x : Z) : Prop := a <= x < a + 8.

(** No breakpoint is set inside the saved frame. *)
Definition frame_free (frame : Z) (g : gdb) : Prop :=
  forall i b, breakpoints g !! i = Some b -> bp_used b = true -> ~ (frame <= bp_addr b < frame + 176).

Lemma hit_same_program g frame : bp_inv g -> frame_free frame g -> same_program (in_slot (fr_rip frame)) g (gdb_hit frame g).
Proof.
  intros Hg Hf. unfold gdb_hit. set (addr := _ -% 1).
  destruct (gdb_find_breakpoint addr g) as [[i b]|] eqn:E; [|by split].
  destruct (find_bp_some _ _ _ _ E) as [Hi Hb].
  assert (Hs : is_u8 (bp_saved b)) by (destruct Hb; by eapply (bi_saved g)).
  pose proof (store_same_program (in_slot (fr_rip frame)) g
    (st64 (st8 (gd_mem g) addr (bp_saved b)) (fr_rip frame) addr) Hg) as H.
  destruct H as [[H1 H2 H3] Hp].
  - intros a Ha. rewrite ld8_stn. replace (in_range _ _ _) with false; cycle 1.
    { symmetry. apply in_range_false. unfold in_slot in Ha. lia. }
    rewrite ld8_st8. destruct (Z.eqb_spec a addr) as [->|]; [|by left].
    right. exists i, b. split; [done|]. split; [done|]. right. clear -Hs. cint.
  - intros j b' Hj Hu Hin. apply (Hf j b' Hj Hu). unfold in_slot, fr_rip in Hin. lia.
  - split; [by split|exact Hp].
Qed.

Lemma restore_same_program g : bp_inv g -> same_program (fun _ => False) g (gdb_restore_pending_breakpoint g).
Proof.
  intros Hg. unfold gdb_restore_pending_breakpoint. destruct (pending_reinsert g); simpl; [|by split].
  destruct (gdb_find_breakpoint (pending_addr g) g) as [[i b]|] eqn:E.
  - destruct (find_bp_some _ _ _ _ E) as [Hi Hb].
    destruct (store_same_program (fun _ => False) g (st8 (gd_mem g) (bp_addr b) 204) Hg) as [[H1 H2 H3] Hp].
    + intros a _. rewrite ld8_st8. destruct (Z.eqb_spec a (bp_addr b)) as [->|]; [|by left].
      right. exists i, b. split; [done|]. split; [by destruct Hb|]. left. reflexivity.
    + intros j b' _ _ [].
    + split; [by split|exact Hp].
  - split; [by destruct Hg as [H1 H2 H3]; split|]. done.
Qed.

(** ** Whole commands *)

Definition in_frame (frame x : Z) : Prop := frame <= x < frame + 176.

Lemma same_program_mono (P Q : Z -> Prop) g g' : (forall a, P a -> Q a) -> same_program P g g' -> same_program Q g g'.
Proof. intros H [Hi Hp]. split; [done|]. intros a Ha. apply Hp. auto. Qed.

Lemma same_program_refl P g : bp_inv g -> same_program P g g.
Proof. by split. Qed.

Lemma same_program_trans P g1 g2 g3 : same_program P g1 g2 -> same_program P g2 g3 -> same_program P g1 g3.
Proof. intros [_ H1] [Hi H2]. split; [done|]. intros a Ha. by rewrite H2, H1. Qed.

(** Sending changes neither the table nor memory. *)
Lemma send_same_program P g g' bytes : same_program P g g' -> same_program P g (gd_send bytes g').
Proof. intros [[H1 H2 H3] Hp]. split; [by split|exact Hp]. Qed.

Lemma cmd_Z_same_program P add p g : bp_inv g -> same_program P g (cmd_Z add p g).
Proof.
  intros Hg. unfold cmd_Z. destruct (parse_pair p) as [[[type addr] ?]|]; [|by apply send_same_program].
  destruct (type =? 0); [|by apply send_same_program].
  assert (H : same_program P g (snd (if add then gdb_add_breakpoint addr g else gdb_remove_breakpoint addr g))).
  { apply same_program_mono with (fun _ => False); [done|].
    destruct add; [by apply add_same_program|by apply remove_same_program]. }
  destruct (if add then _ else _) as [ok g']. by apply send_same_program.
Qed.

Lemma frame_store g frame off v : bp_inv g -> frame_free frame g -> 0 <= off <= 168 ->
  same_program (in_frame frame) g (gd_set_mem (st64 (gd_mem g) (frame + off) v) g).
Proof.
  intros Hg Hf Ho. apply store_same_program; [done| |done].
  intros a Ha. left. rewrite ld8_stn. replace (in_range _ _ _) with false; [done|].
  symmetry. apply in_range_false. unfold in_frame in Ha. lia.
Qed.

Lemma command_same_program cmd frame g : bp_inv g -> frame_free frame g -> deref cmd <> 77 ->
  same_program (in_frame frame) g (snd (gdb_handle_command cmd frame g)).
Proof.
  intros Hg Hf HM. unfold gdb_handle_command.
  assert (H0 : same_program (in_frame frame) g g) by (by apply same_program_refl).
  destruct (deref cmd =? 63); [by apply send_same_program|].
  destruct (deref cmd =? 103); [by apply send_same_program|].
  destruct (deref cmd =? 109).
  { unfold cmd_m. simpl. destruct (parse_pair _) as [[[]]|]; [case_b|]; by apply send_same_program. }
  rewrite (proj2 (Z.eqb_neq _ 77) HM).
  destruct ((deref cmd =? 90) || (deref cmd =? 122)); [by apply cmd_Z_same_program|].
  destruct (deref cmd =? 72); [by apply send_same_program|].
  destruct (deref cmd =? 113); [by apply send_same_program|].
  destruct (deref cmd =? 118); [by apply send_same_program|].
  destruct (deref cmd =? 68); [by apply send_same_program|].
  destruct ((deref cmd =? 99) || (deref cmd =? 115)); [|by apply send_same_program].
  simpl. destruct (gdb_parse_hex (tl cmd)) as [[addr ?]|]; [|done]. by apply frame_store; [| |lia].
Qed.

(** One thing the stub does between a trap and the program going on. *)
Inductive gdb_step (frame : Z) (g : gdb) : gdb -> Prop :=
| step_command cmd : deref cmd <> 77 -> gdb_step frame g (snd (gdb_handle_command cmd frame g))
| step_hit : gdb_step frame g (gdb_hit frame g)
| step_restore : gdb_step frame g (gdb_restore_pending_breakpoint g)
| step_flags v : gdb_step frame g (gd_set_mem (st64 (gd_mem g) (fr_rflags frame) v) g).

(** Steps with no breakpoint inside the saved frame. *)
Inductive gdb_steps (frame : Z) (g : gdb) : gdb -> Prop :=
| steps_none : gdb_steps frame g g
| steps_more g1 g2 : gdb_steps frame g g1 -> frame_free frame g1 -> gdb_step frame g1 g2 -> gdb_steps frame g g2.

Lemma steps_same_program frame g g' : bp_inv g -> gdb_steps frame g g' -> same_program (in_frame frame) g g'.
Proof.
  intros Hg. induction 1 as [|g1 g2 _ IH Hf Hstep]; [by apply same_program_refl|].
  apply (same_program_trans _ _ _ _ IH). destruct IH as [Hg1 _]. destruct Hstep.
  - by apply command_same_program.
  - apply same_program_mono with (in_slot (fr_rip frame)); [|by apply hit_same_program].
    intros a. unfold in_slot, in_frame, fr_rip. lia.
  - apply same_program_mono with (fun _ => False); [done|by apply restore_same_program].
  - by apply (frame_store g1 frame 152); [| |lia].
Qed.

(** C29: breakpoints are transparent: whatever sequence of commands (other than
    the one that writes memory), hits and re-insertions the stub goes
    through, the program under the breakpoints keeps its bytes outside the
    saved registers, and when no breakpoint is left the memory itself is the
    program again. *)
Theorem gdb_breakpoints_transparent (frame : Z) (g g' : gdb) : bp_inv g -> gdb_steps frame g g' ->
  bp_inv g' /\
  (forall a, ~ in_frame frame a -> program g' a = program g a) /\
  (Forall (fun b => bp_used b = false) (breakpoints g') ->
   forall a, ~ in_frame frame a -> ld8 (gd_mem g') a = program g a).
Proof.
  intros Hg Hs. destruct (steps_same_program frame g g' Hg Hs) as [Hg' Hp]. split; [done|]. split; [done|].
  intros Hnone a Ha. rewrite <- (Hp a Ha). symmetry. apply program_free. intros i b Hi [Hu _].
  rewrite Forall_lookup in Hnone. rewrite (Hnone i b Hi) in Hu. discriminate.
Qed.

(** ** A run *)

(** 0x90 everywhere, no breakpoints, the given bytes on the line. *)
Definition demo_gdb (rx : list Z) : gdb :=
  mk_gdb true false 0 false (replicate 32 (mk_bp 0 0 false)) false 0 false
    (mk_klog 0 0 (mk_con 0 0 7 false None [] 0 0 25 0 0 [] [])) (fun _ => 144) rx.

Lemma demo_gdb_inv : bp_inv (demo_gdb []).
Proof.
  assert (H : forall i b, breakpoints (demo_gdb []) !! i = Some b -> bp_used b = false).
  { intros i b Hi. apply lookup_replicate in Hi as [-> _]. done. }
  split.
  - intros i j b b' Hi Hj Hu. rewrite (H i b Hi) in Hu. discriminate.
  - intros i b Hi Hu. rewrite (H i b Hi) in Hu. discriminate.
  - intros i b Hi Hu. rewrite (H i b Hi) in Hu. discriminate.
Qed.

Definition demo_set : gdb := snd (gdb_handle_command (text "Z0,100,1") 4096 (demo_gdb [])).
Definition demo_cleared : gdb := snd (gdb_handle_command (text "z0,100,1") 4096 demo_set).

Lemma demo_frame_free : frame_free 4096 (demo_gdb []) /\ frame_free 4096 demo_set.
Proof.
  split; intros i b Hi Hu.
  - apply lookup_replicate in Hi as [-> _]. discriminate.
  - assert (H : forallb (fun b => negb (bp_used b) || (bp_addr b =? 256)) (breakpoints demo_set) = true)
      by (vm_compute; reflexivity).
    rewrite forallb_forall in H. pose proof (H b (proj1 (list_elem_of_In _ _) (list_elem_of_lookup_2 _ _ _ Hi))) as E.
    cbn beta in E. rewrite Hu in E. cbn [negb orb] in E. apply Z.eqb_eq in E. lia.
Qed.

Lemma gdb_breakpoints_transparent_witness :
  bp_inv demo_cleared /\ ld8 (gd_mem demo_set) 256 = 204 /\ ld8 (gd_mem demo_cleared) 256 = 144 /\
  forall a, ~ in_frame 4096 a -> program demo_cleared a = program (demo_gdb []) a.
Proof.
  destruct (gdb_breakpoints_transparent 4096 (demo_gdb []) demo_cleared) as (H1 & H2 & _).
  - exact demo_gdb_inv.
  - apply steps_more with demo_set; [|exact (proj2 demo_frame_free)|apply step_command; discriminate].
    apply steps_more with (demo_gdb []); [apply steps_none|exact (proj1 demo_frame_free)|apply step_command; discriminate].
  - split; [exact H1|]. split; [vm_compute; reflexivity|]. split; [vm_compute; reflexivity|exact H2].
Defined.

Lemma gdb_packet_roundtrip_witness :
  gdb_read_packet GDB_MAX_PACKET (demo_gdb ([43] ++ packet_bytes (text "m100,4") ++ [9])) =
    Some (text "m100,4", gd_send [43] (gd_set_rx [9] (demo_gdb ([43] ++ packet_bytes (text "m100,4") ++ [9])))).
Proof.
  apply (gdb_packet_roundtrip _ [43] (text "m100,4") [9] 0).
  - repeat constructor; discriminate.
  - repeat constructor; discriminate.
  - reflexivity.
  - split; reflexivity || discriminate.
  - reflexivity.
Defined.

(** ** Two breakpoints side by side *)

(** The processor traps: vector and instruction pointer are in the frame. *)
Definition trap (int_no rip : Z) (g : gdb) : gdb :=
  gd_set_mem (st64 (st64 (gd_mem g) (fr_int_no 4096) int_no) (fr_rip 4096) rip) g.

(** Breakpoints on the two instructions at 0x100 and 0x101; the host steps
    from the first one, goes on, and goes on from the second one. *)
Definition adjacent_run : option gdb :=
  let g := demo_gdb (packet_bytes (text "s") ++ packet_bytes (text "c") ++ packet_bytes (text "c")) in
  let g := snd (gdb_add_breakpoint 257 (snd (gdb_add_breakpoint 256 g))) in
  '(_, g) ← gdb_handle_exception 2 4096 (trap 3 257 g);      (* hit 0x100: s *)
  '(_, g) ← gdb_handle_exception 2 4096 (trap 1 257 g);      (* stepped: c *)
  '(_, g) ← gdb_handle_exception 2 4096 (trap 3 258 g);      (* hit 0x101: c *)
  '(_, g) ← gdb_handle_exception 2 4096 (trap 1 258 g);      (* stepped over it *)
  Some g.

(** The first breakpoint is still in the table, nothing is left to be
    re-inserted, and the program's own byte is at its address: it is lost. *)
Theorem gdb_adjacent_breakpoint_lost :
  (fun g => (bool_decide (is_Some (gdb_find_breakpoint 256 g)), pending_reinsert g, ld8 (gd_mem g) 256, ld8 (gd_mem g) 257))
    <$> adjacent_run = Some (true, false, 144, 204).
Proof. vm_compute. reflexivity. Qed.

(** A session leaves the log's targets and the console's serial copy as they
    were, and while it lasts neither writes to the line. *)
Theorem gdb_session_restores g : gdb_active g = false ->
  let g1 := gdb_enter_session g in
  let g2 := gdb_leave_session g1 in
  lg_targets (gd_log g1) = LOG_TARGET_CONSOLE /\ serial_enabled (gd_con g1) = false /\
  lg_targets (gd_log g2) = lg_targets (gd_log g) /\ serial_enabled (gd_con g2) = serial_enabled (gd_con g) /\
  gdb_active g2 = false.
Proof.
  intros H. unfold gdb_enter_session. rewrite H. simpl. repeat split.
  unfold console_get_serial_enabled. simpl. by destruct (serial_enabled (gd_con g)).
Qed.
