(* ===== verification/Desc.v ===== *)
(** * Descriptor tables (src/arch/x86_64/gdt.c, idt.c)

    The tables the processor reads on every entry into the kernel.  What a
    descriptor means to the processor is stated by the decoding functions
    ([gate_target], [gate_dpl], [tss_base], [seg_dpl] and so on), which are
    written from the processor's layout and not from the code.  Addresses of
    the static arrays and of the interrupt stubs, which the linker chooses,
    are parameters; loading the tables into the processor and the messages
    about it are not modelled. *)

From stdpp Require Import prelude list.
From Stdlib Require Import ZArith Lia.
From S2P Require Import Prelude Sched Gdb Smp.
#[local] Open Scope Z_scope.
#[local] Open Scope cint_scope.

Definition GDT_SEL_TSS : Z := 40.

(** ** Interrupt gates *)

Record idt_entry := mk_gate {
  offset_low : Z; selector : Z; gate_ist : Z; type_attr : Z; offset_mid : Z; offset_high : Z; gate_zero : Z
}.
Definition zero_gate : idt_entry := mk_gate 0 0 0 0 0 0 0.

Definition idt_set_gate (vec isr attr ist_index : Z) (idt : list idt_entry) : list idt_entry :=
  <[Z.to_nat vec := mk_gate (u16 (Z.land isr 65535)) GDT_SEL_KCODE (u8 (Z.land ist_index 7)) attr
      (u16 (Z.land (Z.shiftr isr 16) 65535)) (u32 (Z.land (Z.shiftr isr 32) 4294967295)) 0]> idt.

(** [stubs] is isr_stub_table. *)
Definition idt_init (stubs : list Z) : list idt_entry :=
  let stub i := nth (Z.to_nat i) stubs 0 in
  let idt := replicate 256 zero_gate in
  let idt := for_range 0 256 (fun i idt => idt_set_gate (u8 i) (stub i) 142 0 idt) idt in
  let idt := for_range 0 32 (fun i idt => idt_set_gate i (stub i) 142 (if i =? 8 then 1 else 0) idt) idt in
  idt_set_gate 128 (stub 128) 238 0 idt.

(** What the processor makes of a gate. *)
Definition gate_target (e : idt_entry) : Z := offset_low e + offset_mid e * 65536 + offset_high e * 4294967296.
Definition gate_present (e : idt_entry) : bool := Z.testbit (type_attr e) 7.
Definition gate_dpl (e : idt_entry) : Z := (type_attr e / 32) mod 4.
Definition gate_type (e : idt_entry) : Z := type_attr e mod 16.
Definition INTERRUPT_GATE : Z := 14.

(** ** Segments *)

(** The fields the kernel sets; the others of tss_t are zero throughout. *)
Record tss := mk_tss { tss_rsp0 : Z; tss_ist1 : Z; tss_iomap_base : Z }.
Definition zero_tss : tss := mk_tss 0 0 0.
Definition TSS_SIZE : Z := 104.

(** The tables of all processors. *)
Record descs := mk_descs { gdt_tables : list (list Z); tss_tables : list tss }.

Definition set_tss_descriptor (gdt : list Z) (base limit : Z) : list Z :=
  let low := Z.land limit 65535 in
  let low := Z.lor low (Z.shiftl (Z.land base 65535) 16) in
  let low := Z.lor low (Z.shiftl (Z.land (Z.shiftr base 16) 255) 32) in
  let low := Z.lor low (Z.shiftl 137 40) in
  let low := Z.lor low (Z.shiftl (Z.land (Z.shiftr limit 16) 15) 48) in
  let low := Z.lor low (Z.shiftl (Z.land (Z.shiftr base 24) 255) 56) in
  let high := Z.land (Z.shiftr base 32) 4294967295 in
  <[6%nat := high]> (<[5%nat := low]> gdt).

Definition clip_cpu (cpu_id : Z) : nat := Z.to_nat (if MAX_CPUS <=? cpu_id then 0 else cpu_id).

(** [cpu_id] is the result of cpu_current_id. *)
Definition tss_set_rsp0 (cpu_id rsp0 : Z) (d : descs) : descs :=
  mk_descs (gdt_tables d)
    (alter (fun t => mk_tss rsp0 (tss_ist1 t) (tss_iomap_base t)) (clip_cpu cpu_id) (tss_tables d)).

(** [tss_addr] and [df_stack] are the addresses of the processor's entries in
    tss_tables and df_stacks. *)
Definition gdt_init_cpu (tss_addr df_stack : nat -> Z) (cpu_id : Z) (d : descs) : descs :=
  let cpu := clip_cpu cpu_id in
  let gdt := replicate 7 0 in
  let gdt := <[1%nat := 0x00AF9A000000FFFF]> gdt in
  let gdt := <[2%nat := 0x00CF92000000FFFF]> gdt in
  let gdt := <[3%nat := 0x00AFFA000000FFFF]> gdt in
  let gdt := <[4%nat := 0x00CFF2000000FFFF]> gdt in
  let t := mk_tss 0 (df_stack cpu +% 4096) TSS_SIZE in
  let gdt := set_tss_descriptor gdt (tss_addr cpu) (TSS_SIZE - 1) in
  mk_descs (<[cpu := gdt]> (gdt_tables d)) (<[cpu := t]> (tss_tables d)).

Definition gdt_init (tss_addr df_stack : nat -> Z) (d : descs) : descs := gdt_init_cpu tss_addr df_stack 0 d.

(** What the processor makes of a segment and of the task descriptor. *)
Definition seg_present (d : Z) : bool := Z.testbit d 47.
Definition seg_dpl (d : Z) : Z := (d / 2 ^ 45) mod 4.
Definition seg_code (d : Z) : bool := Z.testbit d 43 && Z.testbit d 44.
Definition seg_data (d : Z) : bool := negb (Z.testbit d 43) && Z.testbit d 44.
Definition seg_long (d : Z) : bool := Z.testbit d 53.
Definition tss_base (low high : Z) : Z := (low / 2 ^ 16) mod 2 ^ 24 + (low / 2 ^ 56) mod 2 ^ 8 * 2 ^ 24 + high mod 2 ^ 32 * 2 ^ 32.
Definition tss_limit (low : Z) : Z := low mod 2 ^ 16 + (low / 2 ^ 48) mod 16 * 2 ^ 16.
Definition tss_kind (low : Z) : Z := (low / 2 ^ 40) mod 256.

(** The descriptor a selector names, and the level it asks for. *)
Definition sel_desc (gdt : list Z) (sel : Z) : Z := nth (Z.to_nat (sel / 8)) gdt 0.
Definition sel_rpl (sel : Z) : Z := sel mod 4.

(** ** Gates *)

Lemma for_range_ext {S : Type} (f g : Z -> S -> S) lo hi s :
  (forall i s, lo <= i < hi -> f i s = g i s) -> for_range lo hi f s = for_range lo hi g s.
Proof.
  unfold for_range. intros H.
  assert (G : forall n lo' s, lo <= lo' -> lo' + Z.of_nat n <= Z.max lo hi -> for_up n lo' f s = for_up n lo' g s).
  { induction n as [|n IH]; intros lo' s' Hlo Hn; [done|]. cbn [for_up]. rewrite H by lia. apply IH; lia. }
  apply G; lia.
Qed.

Definition gate_for (isr attr ist : Z) (e : idt_entry) : Prop :=
  gate_target e = isr /\ selector e = GDT_SEL_KCODE /\ type_attr e = attr /\ gate_ist e = ist.

Lemma gate_made isr attr ist : is_u64 isr -> 0 <= ist < 8 ->
  gate_for isr attr ist (mk_gate (u16 (Z.land isr 65535)) GDT_SEL_KCODE (u8 (Z.land ist 7)) attr
    (u16 (Z.land (Z.shiftr isr 16) 65535)) (u32 (Z.land (Z.shiftr isr 32) 4294967295)) 0).
Proof.
  intros Hi Hs. unfold gate_for, gate_target. simpl.
  change 65535 with (Z.ones 16). change 4294967295 with (Z.ones 32). change 7 with (Z.ones 3).
  rewrite !Z.land_ones by lia. rewrite !Z.shiftr_div_pow2 by lia.
  change (2 ^ 16) with 65536. change (2 ^ 32) with 4294967296. change (2 ^ 3) with 8.
  repeat split; cint.
Qed.

Section gates.
Context (stubs : list Z) (Hlen : length stubs = 256%nat) (Hu : Forall is_u64 stubs).

Lemma stub_u64 i : is_u64 (nth i stubs 0).
Proof. destruct (nth_in_or_default i stubs 0) as [H| ->]; [|cint]. rewrite Forall_forall in Hu. apply Hu. by apply list_elem_of_In. Qed.

(** Gates [v] below [n] are made with [attr] and [ist], the others are as in [old]. *)
Definition gates_upto (attr : nat -> Z) (ist : nat -> Z) (old : list idt_entry) (n : Z) (idt : list idt_entry) : Prop :=
  length idt = 256%nat /\
  forall v, (v < 256)%nat ->
    if Z.of_nat v <? n then exists e, idt !! v = Some e /\ gate_for (nth v stubs 0) (attr v) (ist v) e
    else idt !! v = old !! v.

Lemma gates_step attr ist old n idt : 0 <= n < 256 -> 0 <= ist (Z.to_nat n) < 8 ->
  gates_upto attr ist old n idt ->
  gates_upto attr ist old (n + 1)
    (idt_set_gate n (nth (Z.to_nat n) stubs 0) (attr (Z.to_nat n)) (ist (Z.to_nat n)) idt).
Proof.
  intros Hn Hs [Hl Hg]. unfold idt_set_gate. split; [by rewrite length_insert|]. intros v Hv.
  destruct (decide (v = Z.to_nat n)) as [->|Hne].
  - rewrite (proj2 (Z.ltb_lt _ _)) by lia. eexists. split; [by apply list_lookup_insert_eq; lia|].
    by apply gate_made; [apply stub_u64|].
  - rewrite list_lookup_insert_ne by done. specialize (Hg v Hv).
    replace (Z.of_nat v <? n + 1) with (Z.of_nat v <? n) by (apply eq_true_iff_eq; rewrite !Z.ltb_lt; lia). done.
Qed.

Lemma gates_loop attr ist old n : 0 <= n <= 256 -> (forall v, 0 <= ist v < 8) -> length old = 256%nat ->
  gates_upto attr ist old n
    (for_range 0 n (fun i idt => idt_set_gate i (nth (Z.to_nat i) stubs 0) (attr (Z.to_nat i)) (ist (Z.to_nat i)) idt) old).
Proof.
  intros Hn Hs Hl. apply (for_range_ind (gates_upto attr ist old)); [lia| |].
  - split; [done|]. intros v Hv. by rewrite (proj2 (Z.ltb_ge _ _)) by lia.
  - intros i idt Hi Hg. by apply gates_step; [lia| |].
Qed.

(** The gate of every vector. *)
Lemma idt_init_gate v : (v < 256)%nat ->
  exists e, idt_init stubs !! v = Some e /\
    gate_for (nth v stubs 0) (if decide (v = 128%nat) then 238 else 142) (if decide (v = 8%nat) then 1 else 0) e.
Proof.
  intros Hv. unfold idt_init.
  set (i1 := for_range 0 256 _ _). set (i2 := for_range 0 32 _ i1).
  assert (H1 : gates_upto (fun _ => 142) (fun _ => 0) (replicate 256 zero_gate) 256 i1).
  { replace i1 with (for_range 0 256 (fun i idt => idt_set_gate i (nth (Z.to_nat i) stubs 0) 142 0 idt) (replicate 256 zero_gate))
      by (apply for_range_ext; intros i idt Hi; unfold u8; by rewrite Z.mod_small by lia).
    apply (gates_loop (fun _ => 142) (fun _ => 0)); [lia|intros; lia|apply length_replicate]. }
  assert (H2 : gates_upto (fun _ => 142) (fun v => if decide (v = 8%nat) then 1 else 0) i1 32 i2).
  { replace i2 with (for_range 0 32 (fun i idt => idt_set_gate i (nth (Z.to_nat i) stubs 0) 142
        (if decide (Z.to_nat i = 8%nat) then 1 else 0) idt) i1).
    - apply (gates_loop (fun _ => 142) (fun v => if decide (v = 8%nat) then 1 else 0)); [lia|intros w; case_decide; lia|apply H1].
    - apply for_range_ext. intros i idt Hi. f_equal. case_decide; case_b; lia. }
  clearbody i1 i2. destruct H1 as [Hl1 H1], H2 as [Hl2 H2]. specialize (H1 v Hv). specialize (H2 v Hv).
  rewrite (proj2 (Z.ltb_lt _ 256)) in H1 by lia. unfold idt_set_gate.
  destruct (decide (v = 128%nat)) as [->|Hne].
  - eexists. split; [by apply list_lookup_insert_eq; lia|]. apply gate_made; [apply stub_u64|lia].
  - rewrite list_lookup_insert_ne by (simpl; lia). destruct (Z.of_nat v <? 32) eqn:E; [exact H2|].
    rewrite H2. destruct H1 as (e & He & Hg). exists e. split; [done|]. rewrite decide_False by lia. done.
Qed.
End gates.

(** C26: the interrupt table: the gate of every vector leads through the kernel
    code segment to that vector's stub with interrupts off, only 0x80 may
    be used by user programs (level 3, the others level 0), and the double
    fault uses stack 1 of the task segment where every other vector stays on
    its stack. *)
Theorem idt_init_correct (stubs : list Z) (v : nat) :
  length stubs = 256%nat -> Forall is_u64 stubs -> (v < 256)%nat ->
  exists e, idt_init stubs !! v = Some e /\
    gate_target e = nth v stubs 0 /\ selector e = GDT_SEL_KCODE /\ gate_present e = true /\
    gate_type e = INTERRUPT_GATE /\ gate_dpl e = (if decide (v = 128%nat) then 3 else 0) /\
    gate_ist e = (if decide (v = 8%nat) then 1 else 0).
Proof.
  intros Hl Hu Hv. destruct (idt_init_gate stubs Hl Hu v Hv) as (e & He & Ht & Hs & Ha & Hi).
  exists e. split; [done|]. split; [done|]. split; [done|]. unfold gate_present, gate_type, gate_dpl.
  rewrite Ha, Hi. case_decide; case_decide; subst; repeat split; intros; try done; lia.
Qed.

Definition demo_stubs : list Z := (fun i => 1048576 + 16 * Z.of_nat i) <$> seq 0 256.

Lemma idt_init_correct_witness :
  (exists e, idt_init demo_stubs !! 128%nat = Some e /\ gate_target e = 1050624 /\ gate_dpl e = 3 /\ gate_ist e = 0) /\
  (exists e, idt_init demo_stubs !! 14%nat = Some e /\ gate_target e = 1048800 /\ gate_dpl e = 0 /\ gate_ist e = 0).
Proof.
  assert (Hu : Forall is_u64 demo_stubs) by (apply Forall_fmap, Forall_seq; intros j Hj; unfold is_u64; simpl; lia).
  split.
  - destruct (idt_init_correct demo_stubs 128 eq_refl Hu ltac:(lia)) as (e & H1 & H2 & _ & _ & _ & H3 & H4).
    exists e. split; [exact H1|]. split; [rewrite H2; reflexivity|exact (conj H3 H4)].
  - destruct (idt_init_correct demo_stubs 14 eq_refl Hu ltac:(lia)) as (e & H1 & H2 & _ & _ & _ & H3 & H4).
    exists e. split; [exact H1|]. split; [rewrite H2; reflexivity|exact (conj H3 H4)].
Defined.

(** ** Segments *)

Lemma or_above lo hi k : 0 <= k -> 0 <= lo < 2 ^ k -> Z.lor lo (Z.shiftl hi k) = lo + hi * 2 ^ k.
Proof. intros Hk Hl. rewrite Z.lor_comm, lor_add by done. lia. Qed.

Lemma tss_descriptor_decodes gdt base limit : length gdt = 7%nat -> is_u64 base -> 0 <= limit < 2 ^ 20 ->
  let gdt' := set_tss_descriptor gdt base limit in
  tss_base (nth 5 gdt' 0) (nth 6 gdt' 0) = base /\ tss_limit (nth 5 gdt' 0) = limit /\ tss_kind (nth 5 gdt' 0) = 137.
Proof.
  intros Hg Hb Hl gdt'. do 7 (destruct gdt as [|? gdt]; [done|]). destruct gdt; [|done].
  subst gdt'. unfold set_tss_descriptor. cbn [insert list_insert nth].
  change 65535 with (Z.ones 16). change 255 with (Z.ones 8). change 15 with (Z.ones 4). change 4294967295 with (Z.ones 32).
  rewrite !Z.land_ones by lia. rewrite !Z.shiftr_div_pow2 by lia.
  pose proof (Z.mod_pos_bound limit (2 ^ 16)). pose proof (Z.mod_pos_bound base (2 ^ 16)).
  pose proof (Z.mod_pos_bound (base / 2 ^ 16) (2 ^ 8)). pose proof (Z.mod_pos_bound (limit / 2 ^ 16) (2 ^ 4)).
  pose proof (Z.mod_pos_bound (base / 2 ^ 24) (2 ^ 8)).
  rewrite (or_above _ _ 16) by lia. rewrite (or_above _ _ 32) by lia. rewrite (or_above _ 137 40) by lia.
  rewrite (or_above _ _ 48) by lia. rewrite (or_above _ _ 56) by lia.
  unfold tss_base, tss_limit, tss_kind, is_u64 in *.
  change (2 ^ 16) with 65536 in *. change (2 ^ 32) with 4294967296 in *. change (2 ^ 40) with 1099511627776 in *.
  change (2 ^ 48) with 281474976710656 in *. change (2 ^ 56) with 72057594037927936 in *. change (2 ^ 24) with 16777216 in *.
  change (2 ^ 8) with 256 in *. change (2 ^ 4) with 16 in *. change (2 ^ 20) with 1048576 in *.
  split; [|split]; Z.div_mod_to_equations; lia.
Qed.

(** Kernel code and data at level 0, user code and data at level 3, and the
    task segment at [base]. *)
Definition gdt_good (base : Z) (gdt : list Z) : Prop :=
  (let k := sel_desc gdt GDT_SEL_KCODE in seg_present k && seg_code k && seg_long k = true /\ seg_dpl k = 0) /\
  (let k := sel_desc gdt GDT_SEL_KDATA in seg_present k && seg_data k = true /\ seg_dpl k = 0) /\
  (let u := sel_desc gdt GDT_SEL_UCODE in seg_present u && seg_code u && seg_long u = true /\ seg_dpl u = 3 /\
     sel_rpl GDT_SEL_UCODE = 3) /\
  (let u := sel_desc gdt GDT_SEL_UDATA in seg_present u && seg_data u = true /\ seg_dpl u = 3 /\ sel_rpl GDT_SEL_UDATA = 3) /\
  (let t := sel_desc gdt GDT_SEL_TSS in
   tss_base t (sel_desc gdt (GDT_SEL_TSS + 8)) = base /\ tss_limit t = TSS_SIZE - 1 /\ tss_kind t = 137).

(** The segments of a processor, a task segment that is this processor's own
    with the top of its double-fault stack; the tables of other processors
    are left alone. *)
Theorem gdt_init_cpu_correct tss_addr df_stack cpu d :
  0 <= cpu < 8 -> length (gdt_tables d) = 8%nat -> length (tss_tables d) = 8%nat ->
  is_u64 (tss_addr (Z.to_nat cpu)) ->
  let d' := gdt_init_cpu tss_addr df_stack cpu d in
  (exists gdt, gdt_tables d' !! Z.to_nat cpu = Some gdt /\ gdt_good (tss_addr (Z.to_nat cpu)) gdt) /\
  tss_ist1 <$> tss_tables d' !! Z.to_nat cpu = Some (df_stack (Z.to_nat cpu) +% 4096) /\
  forall c, c <> Z.to_nat cpu -> gdt_tables d' !! c = gdt_tables d !! c /\ tss_tables d' !! c = tss_tables d !! c.
Proof.
  intros Hc Hg Ht Ha. unfold gdt_init_cpu, clip_cpu, MAX_CPUS. rewrite (proj2 (Z.leb_gt _ _)) by lia. cbn [gdt_tables tss_tables].
  split; [|split; [by rewrite list_lookup_insert_eq by lia|intros c Hne; by rewrite !list_lookup_insert_ne]].
  eexists. split; [apply list_lookup_insert_eq; lia|].
  set (base := tss_addr (Z.to_nat cpu)) in *.
  set (gdt0 := <[4%nat := _]> _).
  destruct (tss_descriptor_decodes gdt0 base (TSS_SIZE - 1)) as (H1 & H2 & H3); [done|done|unfold TSS_SIZE; lia|].
  assert (Hseg : forall n, (n < 5)%nat -> nth n (set_tss_descriptor gdt0 base (TSS_SIZE - 1)) 0 = nth n gdt0 0).
  { intros n Hn. unfold set_tss_descriptor. rewrite !nth_lookup, !list_lookup_insert_ne by lia. done. }
  unfold gdt_good, sel_desc. change (Z.to_nat (GDT_SEL_TSS / 8)) with 5%nat. change (Z.to_nat ((GDT_SEL_TSS + 8) / 8)) with 6%nat.
  rewrite !Hseg by (vm_compute; lia).
  split; [vm_compute; auto|]. split; [vm_compute; auto|]. split; [vm_compute; auto|]. split; [vm_compute; auto|].
  done.
Qed.

(** Switching the kernel stack of one processor. *)
Theorem tss_set_rsp0_own cpu rsp0 d c : 0 <= cpu < 8 ->
  tss_rsp0 <$> tss_tables (tss_set_rsp0 cpu rsp0 d) !! c =
    if decide (c = Z.to_nat cpu) then (fun _ => rsp0) <$> tss_tables d !! c else tss_rsp0 <$> tss_tables d !! c.
Proof.
  intros Hc. unfold tss_set_rsp0, clip_cpu, MAX_CPUS. rewrite (proj2 (Z.leb_gt _ _)) by lia. simpl.
  case_decide as E; [subst c; rewrite list_lookup_alter_eq|by rewrite list_lookup_alter_ne].
  by destruct (tss_tables d !! Z.to_nat cpu).
Qed.
