(* ===== verification/SmpInit.v ===== *)
(** * Start of the other processors (src/arch/x86_64/smp.c)

    The first processor prepares a record for the trampoline, sends the
    start-up interrupts and waits for the new processor to report; the new
    one reads the record and brings itself up in [scheduler_ap_main].  The
    two sides run at the same time, so the model is a machine whose steps
    are the calls of either side, taken in any order ([smp_event]).

    The trampoline (ap_trampoline.S) is assembly: what is modelled of it is
    that it loads the stack, the argument, the entry and the address space
    from the record at [record_addr], where its instructions refer to it.  A
    processor that finds another address space or another entry there is
    lost: what it does with them (the record as linked gives it address space
    0, so its next instruction fetch faults without handlers, which on most
    machines ends in a reset) is not modelled, and it is taken to touch
    nothing.

    The 32- and 64-bit code refers to the record by the address it was linked
    at, while smp_init fills in the one in the copy at 0x7000.  Sections
    linked and ends and the theorems smp_init_alone and smp_init_ends are
    about this program.  Section start and the theorems at the end of section
    whole are about the protocol as it was meant, with a trampoline that
    finds its record; they show what else would have to hold. *)

From stdpp Require Import prelude list strings gmap.
From Stdlib Require Import ZArith Lia.
From S2P Require Import Prelude Lib Alloc Pmm Vmm Vfs Sched SchedSpec Console Smp Gdb Desc.
#[local] Open Scope Z_scope.
#[local] Open Scope cint_scope.

Definition AP_TRAMPOLINE_ADDR : Z := 28672.
Definition AP_TRAMPOLINE_VECTOR : Z := 7.
Definition AP_BOOT_STACK_SIZE : Z := 16384.
Definition AP_TIMEOUT : Z := 2000000.

(** ap_bootstrap_t. *)
Definition ab_stack_top (boot : Z) : Z := boot.
Definition ab_cpu_id (boot : Z) : Z := boot + 8.
Definition ab_entry (boot : Z) : Z := boot + 16.
Definition ab_cr3 (boot : Z) : Z := boot + 24.

(** Where the first processor is in the loop of smp_init. *)
Inductive bsp_pc : Set :=
| BPrepare (cpu : nat) | BInit (cpu : nat) | BSipi1 (cpu : nat) | BSipi2 (cpu : nat)
| BWait (cpu : nat) (timeout : Z) | BCheck (cpu : nat) | BDone.

(** Where another processor is: waiting for the start-up interrupt, in the
    trampoline, before the given call of scheduler_ap_main with its argument
    and stack, or lost. *)
Inductive main_pc := MOnline | MTables | MApic | MRegister | MReport | MIdle.
Inductive ap_pc := ApWait | ApStart | ApMain (at_ : main_pc) (cpu_id stack_top : Z) | ApLost.

#[export] Instance bsp_pc_eq : EqDecision bsp_pc.
Proof. solve_decision. Defined.

Inductive smp_event := EvBsp | EvAp (apic_id : Z).

Section smp.
Context {A : Type} `{PageOps A}.

Record smp := mk_smp {
  sp_sched : sched A;
  sp_cpus : cpus;
  sp_descs : descs;
  sp_apic : apic;                   (* the first processor's controller *)
  sp_apics : gmap Z apic;           (* the others' *)
  sp_online : list Z;               (* g_ap_online *)
  sp_bsp : bsp_pc;
  sp_aps : gmap Z ap_pc;
  sp_out : list Z
}.

Definition sp_set_sched v s := mk_smp v (sp_cpus s) (sp_descs s) (sp_apic s) (sp_apics s) (sp_online s) (sp_bsp s) (sp_aps s) (sp_out s).
Definition sp_set_cpus v s := mk_smp (sp_sched s) v (sp_descs s) (sp_apic s) (sp_apics s) (sp_online s) (sp_bsp s) (sp_aps s) (sp_out s).
Definition sp_set_descs v s := mk_smp (sp_sched s) (sp_cpus s) v (sp_apic s) (sp_apics s) (sp_online s) (sp_bsp s) (sp_aps s) (sp_out s).
Definition sp_set_apic v s := mk_smp (sp_sched s) (sp_cpus s) (sp_descs s) v (sp_apics s) (sp_online s) (sp_bsp s) (sp_aps s) (sp_out s).
Definition sp_set_apics v s := mk_smp (sp_sched s) (sp_cpus s) (sp_descs s) (sp_apic s) v (sp_online s) (sp_bsp s) (sp_aps s) (sp_out s).
Definition sp_set_online v s := mk_smp (sp_sched s) (sp_cpus s) (sp_descs s) (sp_apic s) (sp_apics s) v (sp_bsp s) (sp_aps s) (sp_out s).
Definition sp_set_bsp v s := mk_smp (sp_sched s) (sp_cpus s) (sp_descs s) (sp_apic s) (sp_apics s) (sp_online s) v (sp_aps s) (sp_out s).
Definition sp_set_aps v s := mk_smp (sp_sched s) (sp_cpus s) (sp_descs s) (sp_apic s) (sp_apics s) (sp_online s) (sp_bsp s) v (sp_out s).
Definition sp_say (cs : list Z) s := mk_smp (sp_sched s) (sp_cpus s) (sp_descs s) (sp_apic s) (sp_apics s) (sp_online s) (sp_bsp s) (sp_aps s) (sp_out s ++ cs).

(** The controllers, and what the linker and the boot fix. *)
Context (lapic : Z -> list (Z * Z) -> Z -> Z) (ap_reset : Z -> apic) (bsp : Z) (fuel : nat).
Context (thread_addr : nat -> Z) (tss_addr df_stack ap_boot_stacks : nat -> Z) (now : Z).
Context (tramp_start tramp_size data_offset record_addr ap_main_addr : Z).

(** ** The first processor *)

Definition ap_trampoline_prepare (cpu : nat) (s : sched A) : sched A :=
  let m := memcpy (s_mem s) AP_TRAMPOLINE_ADDR tramp_start tramp_size in
  let boot := AP_TRAMPOLINE_ADDR + data_offset in
  let m := st64 m (ab_stack_top boot) (ap_boot_stacks cpu + AP_BOOT_STACK_SIZE) in
  let m := st64 m (ab_cpu_id boot) (Z.of_nat cpu) in
  let m := st64 m (ab_entry boot) ap_main_addr in
  let m := st64 m (ab_cr3 boot) (vmm_kernel_cr3 (s_vmm s)) in
  s_set_mem m s.

(** What the interrupts do to the processor they are sent to. *)
Definition take_init (id : Z) (s : smp) : smp := sp_set_aps (<[id := ApWait]> (sp_aps s)) s.
Definition take_sipi (id : Z) (s : smp) : smp :=
  match sp_aps s !! id with
  | Some ApWait => sp_set_aps (<[id := ApStart]> (sp_aps s)) s
  | _ => s
  end.

Definition online (cpu : nat) (s : smp) : bool := negb (nth cpu (sp_online s) 0 =? 0).
Definition bsp_next (cpu : nat) (s : smp) : smp :=
  sp_set_bsp (if Z.of_nat (S cpu) <? cpu_count (sp_cpus s) then BPrepare (S cpu) else BDone) s.

(** A send that finds the controller busy for ever leaves the processor where
    it is. *)
Definition bsp_send (send : apic -> option apic) (effect : smp -> smp) (pc : bsp_pc) (s : smp) : smp :=
  match send (sp_apic s) with
  | Some a => sp_set_bsp pc (effect (sp_set_apic a s))
  | None => s
  end.

Definition bsp_step (s : smp) : smp :=
  match sp_bsp s with
  | BPrepare cpu => sp_set_bsp (BInit cpu) (sp_set_sched (ap_trampoline_prepare cpu (sp_sched s)) s)
  | BInit cpu =>
      let id := cpu_apic_id (sp_cpus s) (Z.of_nat cpu) in
      bsp_send (fun a => apic_send_init (lapic bsp) fuel a id) (take_init id) (BSipi1 cpu) s
  | BSipi1 cpu =>
      let id := cpu_apic_id (sp_cpus s) (Z.of_nat cpu) in
      bsp_send (fun a => apic_send_sipi (lapic bsp) fuel a id AP_TRAMPOLINE_VECTOR) (take_sipi id) (BSipi2 cpu) s
  | BSipi2 cpu =>
      let id := cpu_apic_id (sp_cpus s) (Z.of_nat cpu) in
      bsp_send (fun a => apic_send_sipi (lapic bsp) fuel a id AP_TRAMPOLINE_VECTOR) (take_sipi id) (BWait cpu AP_TIMEOUT) s
  | BWait cpu timeout =>
      if online cpu s then sp_set_bsp (BCheck cpu) s
      else if timeout =? 0 then sp_set_bsp (BCheck cpu) s
      else sp_set_bsp (BWait cpu (timeout - 1)) s
  | BCheck cpu =>
      let id := cpu_apic_id (sp_cpus s) (Z.of_nat cpu) in
      let s := if online cpu s then s else sp_say (text "[smp] AP did not start, apic=" ++ dec_u64 id ++ [10]) s in
      bsp_next cpu s
  | BDone => s
  end.

(** ** Another processor *)

Definition ap_goto (id : Z) (pc : ap_pc) (s : smp) : smp := sp_set_aps (<[id := pc]> (sp_aps s)) s.

(** The trampoline; 32 bits of the address space are loaded. *)
Definition ap_trampoline (id : Z) (s : smp) : smp :=
  let m := s_mem (sp_sched s) in
  if (ld64 m (ab_entry record_addr) =? ap_main_addr) && (u32 (ld64 m (ab_cr3 record_addr)) =? vmm_kernel_cr3 (s_vmm (sp_sched s)))
  then ap_goto id (ApMain MOnline (ld64 m (ab_cpu_id record_addr)) (ld64 m (ab_stack_top record_addr))) s
  else ap_goto id ApLost s.

(** apic_init_ap sets the address of the registers for everyone. *)
Definition ap_apic_init (id : Z) (s : smp) : smp :=
  let '(a, c) := apic_init_ap (default (ap_reset id) (sp_apics s !! id)) (sp_cpus s) in
  sp_set_cpus c (sp_set_apic (mk_apic (g_apic a) (ap_msr (sp_apic s)) (ap_log (sp_apic s))) (sp_set_apics (<[id := a]> (sp_apics s)) s)).

(** The index of the processor that runs. *)
Definition ap_current (id : Z) (s : smp) : Z :=
  cpu_current_id (sp_cpus s) (apic_id (lapic id) (default (ap_reset id) (sp_apics s !! id))).

Definition ap_register (id cpu_id : Z) (s : smp) : smp :=
  let base := ap_boot_stacks (Z.to_nat cpu_id) in
  let me := ap_current id s in
  let '(slot, _) := thread_alloc_slot (sp_sched s) in
  let s' := sp_set_sched (scheduler_register_cpu_bootstrap thread_addr (Z.to_nat me) now (Z.to_nat (u32 cpu_id)) base AP_BOOT_STACK_SIZE
              (sp_sched s)) s in
  match slot with
  | Some _ => sp_set_descs (tss_set_rsp0 me (base + AP_BOOT_STACK_SIZE) (sp_descs s)) s'
  | None => s'
  end.

Definition ap_report (cpu_id : Z) (s : smp) : smp :=
  sp_say (text "[smp] AP online cpu=" ++ dec_u64 cpu_id ++ [10]) (sp_set_online (<[Z.to_nat cpu_id := 1]> (sp_online s)) s).

(** One call of scheduler_ap_main; idt_init, which follows gdt_init_cpu,
    writes the shared table once more with what it holds. *)
Definition scheduler_ap_main (id : Z) (at_ : main_pc) (cpu_id sp : Z) (s : smp) : smp :=
  match at_ with
  | MOnline => ap_goto id (ApMain MTables cpu_id sp) (sp_set_cpus (cpu_set_online (sp_cpus s) (u32 cpu_id) true) s)
  | MTables => ap_goto id (ApMain MApic cpu_id sp) (sp_set_descs (gdt_init_cpu tss_addr df_stack (u32 cpu_id) (sp_descs s)) s)
  | MApic => ap_goto id (ApMain MRegister cpu_id sp) (ap_apic_init id s)
  | MRegister => ap_goto id (ApMain MReport cpu_id sp) (ap_register id cpu_id s)
  | MReport => ap_goto id (ApMain MIdle cpu_id sp) (ap_report cpu_id s)
  | MIdle => s
  end.

Definition ap_step (id : Z) (s : smp) : smp :=
  match sp_aps s !! id with
  | Some ApStart => ap_trampoline id s
  | Some (ApMain at_ cpu_id sp) => scheduler_ap_main id at_ cpu_id sp s
  | _ => s
  end.

Definition smp_step (s : smp) (e : smp_event) : smp :=
  match e with EvBsp => bsp_step s | EvAp id => ap_step id s end.
Definition smp_run (evs : list smp_event) (s : smp) : smp := fold_left smp_step evs s.

(** ** Before and after the loop *)

(** The tables of processors; the last component is whether the firmware
    described them. *)
Definition smp_detect (m : mem) (a : apic) (c : cpus) : apic * cpus * list Z * bool :=
  let '(a, c, o1) := apic_init_bsp (lapic bsp) a c in
  let '(ok, info, o2) := mp_init m in
  if negb ok then (a, cpu_init_bsp c (apic_id (lapic bsp) a), o1 ++ o2 ++ text "[smp] fallback to single CPU" ++ [10], false)
  else
    let c := cpu_init_bsp c (bsp_apic_id info) in
    let c := for_range 0 (mp_cpu_count info) (fun i c =>
      let id := nth (Z.to_nat i) (cpu_apic_ids info) 0 in snd (cpu_register c id (id =? bsp_apic_id info))) c in
    (a, c, o1 ++ o2 ++ text "[smp] starting APs, count=" ++ dec_u64 (cpu_count c) ++ [10], true).

Definition smp_begin (s : smp) : smp :=
  let n := cpu_count (sp_cpus s) in
  let on := for_range 0 n (fun c l => <[Z.to_nat c := if c =? 0 then 1 else 0]> l) (sp_online s) in
  sp_set_bsp (if 1 <? n then BPrepare 1 else BDone) (sp_set_online on s).

(** [evs] is what happens until the loop is left; the flag is g_smp_enabled
    and the number g_cpu_count of smp.c. *)
Definition smp_init (evs : list smp_event) (s : smp) : Z * bool * smp :=
  let '(a, c, out, ok) := smp_detect (s_mem (sp_sched s)) (sp_apic s) (sp_cpus s) in
  let s := sp_say out (sp_set_cpus c (sp_set_apic a s)) in
  if ok then
    let s' := smp_run evs (smp_begin s) in
    (cpu_count c, 1 <? cpu_count c, sp_say (text "[smp] online CPUs=" ++ dec_u64 (cpu_online_count (sp_cpus s')) ++ [10]) s')
  else (1, false, s).
End smp.

Arguments smp A : clear implicits.

(** ** A free slot for each processor in turn *)

Section slots.
Context {A : Type} `{PageOps A}.
Context (thread_addr : nat -> Z).
Implicit Types (s : sched A).

(** The first [m] slots are taken and no others. *)
Definition slots_used (m : nat) s : Prop :=
  forall i t, g_threads s !! i = Some t -> (t_state t = THREAD_UNUSED <-> (m <= i)%nat).

Lemma alloc_slot_first m s : slots_used m s -> (m < length (g_threads s))%nat -> fst (thread_alloc_slot s) = Some m.
Proof.
  intros Hu Hm. destruct (lookup_lt_is_Some_2 _ _ Hm) as [t Et]. unfold thread_alloc_slot.
  assert (Ef : list_find (fun t => t_state t = THREAD_UNUSED) (g_threads s) = Some (m, t)); [|by rewrite Ef].
  apply list_find_Some. split_and!; [done|by apply (Hu m t Et)|].
  intros j u Eu Hj Hs. apply (Hu j u Eu) in Hs. lia.
Qed.

Lemma canary_init_threads cpu now i s :
  length (g_threads (thread_kstack_canary_init thread_addr cpu now i s)) = length (g_threads s) /\
  forall j t, g_threads (thread_kstack_canary_init thread_addr cpu now i s) !! j = Some t ->
    exists u, g_threads s !! j = Some u /\ t_state t = t_state u.
Proof.
  unfold thread_kstack_canary_init. destruct (g_threads s !! i) as [ti|] eqn:Ei; [|split; [done|by eauto]].
  case_b; [split; [done|by eauto]|]. simpl. rewrite length_alter. split; [done|].
  intros j t Et. destruct (decide (j = i)) as [->|Hne].
  - rewrite list_lookup_alter_eq, Ei in Et. injection Et as <-. by exists ti.
  - rewrite list_lookup_alter_ne in Et by done. by exists t.
Qed.

(** What registering a processor does when the next slot is [m]. *)
Lemma register_slot m s cpu now k base size :
  slots_used m s -> (m < length (g_threads s))%nat -> (k < 8)%nat ->
  let s' := scheduler_register_cpu_bootstrap thread_addr cpu now k base size s in
  slots_used (S m) s' /\ length (g_threads s') = length (g_threads s) /\ g_current s' = <[k := Some m]> (g_current s) /\
  g_next_id s' = g_next_id s +% 1 /\ vmm_kernel_cr3 (s_vmm s') = vmm_kernel_cr3 (s_vmm s) /\
  forall a, a + 8 <= base \/ base + 8 <= a -> ld64 (s_mem s') a = ld64 (s_mem s) a.
Proof.
  intros Hu Hm Hk. pose proof (alloc_slot_first m s Hu Hm) as Hslot.
  destruct (lookup_lt_is_Some_2 _ _ Hm) as [t0 Et0].
  unfold scheduler_register_cpu_bootstrap. rewrite (proj2 (Z.leb_gt _ _)) by (unfold Sched.MAX_CPUS; lia).
  unfold thread_alloc_slot in *. destruct (list_find _ _) as [[j u]|] eqn:Ef; [|done]. simpl in Hslot. injection Hslot as ->.
  cbv zeta. set (t1 := mk_thread _ _ _ _ _ _ _ _ _ _ _ _ _ _ _ _ _ _ _ _ _ _ _ _ _).
  set (s1 := s_set_g_next_id _ _). set (s2 := upd m _ s1).
  assert (E2 : exists t2, g_threads s2 !! m = Some t2 /\ t_state t2 = THREAD_RUNNING /\ t_kstack t2 = base).
  { eexists. split; [simpl; rewrite list_lookup_alter_eq, list_lookup_insert_eq by done; reflexivity|done]. }
  assert (L2 : length (g_threads s2) = length (g_threads s)) by (simpl; by rewrite length_alter, length_insert).
  assert (O2 : forall i t, i <> m -> g_threads s2 !! i = Some t -> g_threads s !! i = Some t).
  { intros i t Hi. simpl. by rewrite list_lookup_alter_ne, list_lookup_insert_ne. }
  destruct (canary_init_threads cpu now m s2) as [L3 T3].
  assert (M3 : forall a, a + 8 <= base \/ base + 8 <= a ->
    ld64 (s_mem (thread_kstack_canary_init thread_addr cpu now m s2)) a = ld64 (s_mem s) a).
  { intros a Ha. unfold thread_kstack_canary_init. destruct E2 as (t2 & Et2 & _ & Hb). rewrite Et2. case_b; [done|].
    simpl. rewrite Hb. apply ldn_stn_other. lia. }
  assert (R3 : g_current (thread_kstack_canary_init thread_addr cpu now m s2) = g_current s /\
    g_next_id (thread_kstack_canary_init thread_addr cpu now m s2) = g_next_id s +% 1 /\
    vmm_kernel_cr3 (s_vmm (thread_kstack_canary_init thread_addr cpu now m s2)) = vmm_kernel_cr3 (s_vmm s)).
  { unfold thread_kstack_canary_init. destruct (g_threads s2 !! m); [|done]. by case_b. }
  set (s3 := thread_kstack_canary_init thread_addr cpu now m s2) in *. clearbody s3.
  split; [|split; [simpl; rewrite length_alter; lia|split; [simpl; by rewrite (proj1 R3)|split; [apply R3|split; [apply R3|exact M3]]]]].
  intros i t. simpl. intros Et.
  assert (exists t3, g_threads s3 !! i = Some t3 /\ t_state t = t_state t3) as (t3 & Et3 & ->).
  { destruct (decide (i = m)) as [->|Hne].
    - rewrite list_lookup_alter_eq in Et. destruct (g_threads s3 !! m) as [t3|]; [|done]. injection Et as <-. by exists t3.
    - rewrite list_lookup_alter_ne in Et by done. by exists t. }
  apply T3 in Et3 as (t2 & Et2 & ->). destruct (decide (i = m)) as [->|Hne].
  - destruct E2 as (t2' & Et2' & Hr & _). rewrite Et2 in Et2'. injection Et2' as <-. rewrite Hr. split; [done|lia].
  - rewrite (Hu i t2) by (by apply O2). lia.
Qed.
End slots.

(** ** What holds while the processors come up *)

(** How far a processor is: the calls of scheduler_ap_main it has made. *)
Definition level (p : option ap_pc) : nat :=
  match p with
  | Some (ApMain MTables _ _) => 1
  | Some (ApMain MApic _ _) => 2
  | Some (ApMain MRegister _ _) => 3
  | Some (ApMain MReport _ _) => 4
  | Some (ApMain MIdle _ _) => 5
  | _ => 0
  end.

Fixpoint idle_upto (m : nat) : gmap nat nat :=
  match m with O => ∅ | S m' => <[m' := m']> (idle_upto m') end.

Lemma idle_upto_lookup m c : idle_upto m !! c = if decide (c < m)%nat then Some c else None.
Proof.
  induction m as [|m IH]; simpl; [by rewrite lookup_empty|].
  destruct (decide (c = m)) as [->|Hne]; [rewrite lookup_insert_eq; by rewrite decide_True by lia|].
  rewrite lookup_insert_ne by done. rewrite IH. repeat case_decide; try done; lia.
Qed.

Section start.
Context {A : Type} `{PageOps A}.
Context (lapic : Z -> list (Z * Z) -> Z -> Z) (ap_reset : Z -> apic) (bsp : Z) (fuel : nat).
Context (thread_addr : nat -> Z) (tss_addr df_stack ap_boot_stacks : nat -> Z) (now : Z).
Context (tramp_start tramp_size data_offset record_addr ap_main_addr : Z).
(** The number of processors and their controllers' ids. *)
Context (n : nat) (idof : nat -> Z).
Implicit Types (s : smp A) (sc : sched A) (lv : nat -> nat).

Abbreviation step := (smp_step lapic ap_reset bsp fuel thread_addr tss_addr df_stack ap_boot_stacks now
  tramp_start tramp_size data_offset record_addr ap_main_addr).
Abbreviation run := (smp_run lapic ap_reset bsp fuel thread_addr tss_addr df_stack ap_boot_stacks now
  tramp_start tramp_size data_offset record_addr ap_main_addr).
Abbreviation prepare := (ap_trampoline_prepare ap_boot_stacks tramp_start tramp_size data_offset ap_main_addr).
Abbreviation stack_top c := (ap_boot_stacks c + AP_BOOT_STACK_SIZE).

(** What the start as it was meant relies on: the trampoline reads the record
    where it was put, the boot stacks are elsewhere, and each controller knows
    its id.  The trampoline as linked does not ([link_layout]). *)
Record machine_ok : Prop := {
  mo_record : record_addr = AP_TRAMPOLINE_ADDR + data_offset;
  mo_entry : is_u64 ap_main_addr;
  mo_stacks c : (1 <= c < 8)%nat -> is_u64 (stack_top c) /\
    (ap_boot_stacks c + 8 <= record_addr \/ record_addr + 32 <= ap_boot_stacks c);
  mo_tss c : (c < 8)%nat -> is_u64 (tss_addr c);
  mo_ids c log : (c < n)%nat -> Z.shiftr (u32 (lapic (idof c) log APIC_REG_ID)) 24 = idof c;
  mo_regs id : g_apic (apic_init_common (ap_reset id)) <> 0
}.
Context (Hmo : machine_ok).

Record facts lv (cp : cpus) (d : descs) (ap : gmap Z apic) (on : list Z) sc : Prop := {
  fa_cpus : cpus_wf cp;
  fa_ready : g_apic_ready cp = true;
  fa_count : g_cpu_count cp = Z.of_nat n;
  fa_ids c : (c < n)%nat -> ci_apic_id (cpu_at cp (Z.of_nat c)) = idof c;
  fa_first : ci_online (cpu_at cp 0) = true;
  fa_online c : (1 <= c < n)%nat -> ci_online (cpu_at cp (Z.of_nat c)) = bool_decide (1 <= lv c)%nat;
  fa_dlen : length (gdt_tables d) = 8%nat /\ length (tss_tables d) = 8%nat;
  fa_gdt c : (1 <= c < n)%nat -> (2 <= lv c)%nat -> exists gdt, gdt_tables d !! c = Some gdt /\ gdt_good (tss_addr c) gdt;
  fa_apics c : (1 <= c < n)%nat ->
    if decide (3 <= lv c)%nat then exists a, ap !! idof c = Some a /\ g_apic a <> 0 else ap !! idof c = None;
  fa_tss c : (1 <= c < n)%nat -> (4 <= lv c)%nat -> Desc.tss_rsp0 <$> tss_tables d !! c = Some (stack_top c);
  fa_flags c : (1 <= c < n)%nat -> on !! c = Some (if decide (5 <= lv c)%nat then 1 else 0);
  fa_sched : exists m, (1 <= m <= n)%nat /\ slots_used m sc /\ sok (idle_upto m) sc /\
    1 <= g_next_id sc /\ g_next_id sc + 16 - Z.of_nat m < 18446744073709551615 /\
    (forall c, (c < 8)%nat -> g_current sc !! c = Some (if decide (c < m)%nat then Some c else None)) /\
    (forall c, (1 <= c < n)%nat -> (c < m)%nat <-> (4 <= lv c)%nat)
}.

Definition lv_set (c k : nat) lv : nat -> nat := fun c' => if decide (c' = c) then k else lv c'.

Lemma lv_set_eq c k lv : lv_set c k lv c = k.
Proof. unfold lv_set. by rewrite decide_True. Qed.
Lemma lv_set_ne c k lv c' : c' <> c -> lv_set c k lv c' = lv c'.
Proof. intros. unfold lv_set. by rewrite decide_False. Qed.

Lemma facts_ext lv lv' cp d ap on sc :
  (forall c, (1 <= c < n)%nat -> lv' c = lv c) -> facts lv cp d ap on sc -> facts lv' cp d ap on sc.
Proof.
  intros He []. constructor; try done; try (intros c Hc; rewrite He by done;
    first [by apply fa_online0|by apply fa_gdt0|by apply fa_apics0|by apply fa_tss0|by apply fa_flags0]).
  destruct fa_sched0 as (m & ? & ? & ? & ? & ? & ? & Hm). exists m. split_and!; try done; try lia. intros c Hc. rewrite He by done. by apply Hm.
Qed.

Lemma n_le lv cp d ap on sc : facts lv cp d ap on sc -> (n <= 8)%nat.
Proof. intros []. destruct fa_cpus0. lia. Qed.

(** Each call of scheduler_ap_main on processor [c]. *)
Section calls.
Context (lv : nat -> nat) (cp : cpus) (d : descs) (ap : gmap Z apic) (on : list Z) (sc : sched A) (c : nat).
Context (Hf : facts lv cp d ap on sc) (Hc : (1 <= c < n)%nat).

(** A change of the level that crosses no boundary of the other facts. *)
Ltac other_levels :=
  let c' := fresh "c'" in let Hc' := fresh "Hc'" in
  intros c' Hc'; destruct (decide (c' = c)) as [->|?]; [rewrite lv_set_eq|rewrite lv_set_ne by done].

(** The fact [F] where it speaks of other processors or of a level on the
    same side. *)
Ltac keep F Hl := other_levels; [try (specialize (F c Hc); rewrite Hl in F); first [done|lia|intros _; apply F; lia]|by apply F].
Ltac keep_sched F := let m := fresh "m" in let Hm := fresh "Hm" in
  destruct F as (m & ? & ? & ? & ? & ? & ? & Hm); exists m; split_and!; try done; try lia;
  other_levels; [rewrite Hm by done; lia|by apply Hm].

Lemma facts_online : lv c = 0%nat -> facts (lv_set c 1 lv) (cpu_set_online cp (Z.of_nat c) true) d ap on sc.
Proof.
  intros Hl. pose proof Hf as [].
  assert (Hat : forall k, 0 <= k -> cpu_at (cpu_set_online cp (Z.of_nat c) true) k =
    if k =? Z.of_nat c then mk_cpu (ci_apic_id (cpu_at cp k)) (ci_present (cpu_at cp k)) true else cpu_at cp k).
  { intros k Hk. unfold cpu_set_online. rewrite (proj2 (Z.leb_gt _ _)) by lia. rewrite fa_online0 by done. rewrite Hl.
    rewrite bool_decide_eq_false_2 by lia. simpl. rewrite cpu_at_insert by (destruct fa_cpus0; lia). rewrite Z2Nat.id by lia.
    by destruct (Z.eqb_spec k (Z.of_nat c)) as [->|]. }
  constructor; try done.
  - apply online_wf; [done|lia].
  - unfold cpu_set_online. by repeat case_b.
  - unfold cpu_set_online. by repeat case_b.
  - intros c' Hc'. rewrite Hat by lia. case_b; simpl; by apply fa_ids0.
  - rewrite Hat by lia. by case_b.
  - intros c' Hc'. rewrite Hat by lia. destruct (decide (c' = c)) as [->|Hne].
    + rewrite Z.eqb_refl, lv_set_eq. done.
    + rewrite lv_set_ne by done. rewrite (proj2 (Z.eqb_neq _ _)) by lia. by apply fa_online0.
  - other_levels; [lia|by apply fa_gdt0].
  - keep fa_apics0 Hl.
  - other_levels; [lia|by apply fa_tss0].
  - keep fa_flags0 Hl.
  - keep_sched fa_sched0.
Qed.

Lemma facts_tables : lv c = 1%nat ->
  facts (lv_set c 2 lv) cp (gdt_init_cpu tss_addr df_stack (Z.of_nat c) d) ap on sc.
Proof.
  intros Hl. pose proof (n_le _ _ _ _ _ _ Hf). pose proof Hf as [].
  destruct (gdt_init_cpu_correct tss_addr df_stack (Z.of_nat c) d) as ((gdt & Eg & Hg) & _ & Ho); [lia|apply fa_dlen0..|apply (mo_tss Hmo); lia|].
  rewrite Nat2Z.id in *. constructor; try done.
  - keep fa_online0 Hl.
  - simpl. by rewrite !length_insert.
  - other_levels; intros Hl'; [by exists gdt|]. destruct (Ho c' ltac:(done)) as [-> _]. by apply fa_gdt0.
  - keep fa_apics0 Hl.
  - other_levels; [lia|]. destruct (Ho c' ltac:(done)) as [_ ->]. by apply fa_tss0.
  - keep fa_flags0 Hl.
  - keep_sched fa_sched0.
Qed.

Lemma facts_apic : lv c = 2%nat ->
  facts (lv_set c 3 lv) (cpu_set_apic_ready cp true) d (<[idof c := apic_init_common (ap_reset (idof c))]> ap) on sc.
Proof.
  intros Hl. pose proof Hf as [].
  assert (Hne : forall c', (1 <= c' < n)%nat -> c' <> c -> idof c' <> idof c).
  { intros c' Hc' Hcc Hid. rewrite <- !fa_ids0 in Hid by lia. apply (cw_ids _ fa_cpus0) in Hid; lia. }
  constructor; try done.
  - destruct fa_cpus0. by constructor.
  - keep fa_online0 Hl.
  - keep fa_gdt0 Hl.
  - other_levels.
    + simpl. exists (apic_init_common (ap_reset (idof c))). split; [by rewrite lookup_insert_eq|apply Hmo].
    + rewrite lookup_insert_ne by (apply not_eq_sym, Hne; done). by apply fa_apics0.
  - other_levels; [lia|by apply fa_tss0].
  - keep fa_flags0 Hl.
  - keep_sched fa_sched0.
Qed.

Lemma facts_report : lv c = 4%nat -> facts (lv_set c 5 lv) cp d ap (<[c := 1]> on) sc.
Proof.
  intros Hl. pose proof Hf as []. constructor; try done.
  - keep fa_online0 Hl.
  - keep fa_gdt0 Hl.
  - keep fa_apics0 Hl.
  - keep fa_tss0 Hl.
  - other_levels.
    + simpl. apply list_lookup_insert_eq. eapply lookup_lt_Some. by apply fa_flags0.
    + rewrite list_lookup_insert_ne by done. by apply fa_flags0.
  - keep_sched fa_sched0.
Qed.

(** The processor finds its own index. *)
Lemma facts_current a : ap !! idof c = Some a -> g_apic a <> 0 ->
  cpu_current_id cp (Smp.apic_id (lapic (idof c)) a) = Z.of_nat c.
Proof.
  intros Ea Ha. pose proof Hf as []. unfold Smp.apic_id, apic_read. rewrite (proj2 (Z.eqb_neq _ _)) by done.
  rewrite (mo_ids Hmo) by lia. unfold cpu_current_id, cpu_index_for_apic. rewrite fa_ready0, <- (fa_ids0 c) by lia.
  by rewrite cpu_find_id by (done || lia).
Qed.

Lemma facts_register : lv c = 3%nat -> (forall c', (1 <= c' < c)%nat -> (4 <= lv c')%nat) ->
  let sc' := scheduler_register_cpu_bootstrap thread_addr c now c (ap_boot_stacks c) AP_BOOT_STACK_SIZE sc in
  facts (lv_set c 4 lv) cp (tss_set_rsp0 (Z.of_nat c) (stack_top c) d) ap on sc' /\
  fst (thread_alloc_slot sc) = Some c /\ vmm_kernel_cr3 (s_vmm sc') = vmm_kernel_cr3 (s_vmm sc) /\
  forall a, a + 8 <= ap_boot_stacks c \/ ap_boot_stacks c + 8 <= a -> ld64 (s_mem sc') a = ld64 (s_mem sc) a.
Proof.
  intros Hl Hprev sc'. pose proof (n_le _ _ _ _ _ _ Hf) as Hn8. pose proof Hf as [].
  destruct fa_sched0 as (m & Hmn & Hu & Hok & Hn1 & Hn2 & Hcur & Hm).
  assert (m = c) as ->.
  { apply Nat.le_antisymm; apply Nat.nlt_ge; intros Hlt; [apply Hm in Hlt; lia|].
    assert ((m < m)%nat); [|lia]. apply Hm; [lia|]. apply Hprev. lia. }
  assert (Hlen : length (g_threads sc) = 64%nat).
  { pose proof (awf_len _ _ _ Hok) as Hlen. simpl in Hlen. by rewrite length_fmap in Hlen. }
  destruct (register_slot thread_addr c sc c now c (ap_boot_stacks c) AP_BOOT_STACK_SIZE) as (Hu' & _ & Hc' & Hid & Hk & Hmem); [done|lia|lia|].
  fold sc' in Hu', Hc', Hid, Hk, Hmem.
  assert (Hslot : fst (thread_alloc_slot sc) = Some c) by (apply alloc_slot_first; [done|lia]).
  pose proof (register_ok thread_addr (idle_upto c) sc c now c (ap_boot_stacks c) AP_BOOT_STACK_SIZE Hok) as Hr.
  assert (Hb : boot_cpu c = c) by (unfold boot_cpu, Sched.MAX_CPUS; by rewrite (proj2 (Z.leb_gt _ _)) by lia).
  rewrite Hb, Hslot in Hr. fold sc' in Hr. specialize (Hr ltac:(unfold ids_left; lia)).
  rewrite Hcur, decide_False in Hr by lia. specialize (Hr eq_refl).
  split; [|done]. constructor; try done.
  - keep fa_online0 Hl.
  - simpl. by rewrite length_alter.
  - keep fa_gdt0 Hl.
  - keep fa_apics0 Hl.
  - intros c' Hc'' Hl'. rewrite tss_set_rsp0_own by lia. rewrite Nat2Z.id. destruct (decide (c' = c)) as [->|Hne].
    + destruct (lookup_lt_is_Some_2 (tss_tables d) c) as [t Et]; [lia|]. by rewrite Et.
    + rewrite lv_set_ne in Hl' by done. by apply fa_tss0.
  - keep fa_flags0 Hl.
  - exists (S c). split_and!; try lia; try done.
    + rewrite Hid. unfold u64. cint.
    + rewrite Hid. cint.
    + intros c' Hc''. rewrite Hc'. destruct (decide (c' = c)) as [->|Hne].
      * rewrite list_lookup_insert_eq by (eapply lookup_lt_Some; by apply Hcur). by rewrite decide_True by lia.
      * rewrite list_lookup_insert_ne by done. rewrite Hcur by done. repeat case_decide; done || lia.
    + other_levels; [lia|]. rewrite <- Hm by done. lia.
Qed.
End calls.

(** *** Where everyone is *)

Definition own (c : nat) (at_ : main_pc) : ap_pc := ApMain at_ (Z.of_nat c) (stack_top c).
Definition lev s : nat -> nat := fun c => level (sp_aps s !! idof c).

Definition record_ok sc (c : nat) : Prop :=
  ld64 (s_mem sc) (ab_stack_top record_addr) = stack_top c /\ ld64 (s_mem sc) (ab_cpu_id record_addr) = Z.of_nat c /\
  ld64 (s_mem sc) (ab_entry record_addr) = ap_main_addr /\
  u32 (ld64 (s_mem sc) (ab_cr3 record_addr)) = vmm_kernel_cr3 (s_vmm sc).

(** The processor being started. *)
Definition cur (pc : bsp_pc) : nat :=
  match pc with
  | BPrepare c | BInit c | BSipi1 c | BSipi2 c | BWait c _ | BCheck c => c
  | BDone => n
  end.

(** Where it may be, given the first processor's place. *)
Definition at_cur (pc : bsp_pc) (p : option ap_pc) sc : Prop :=
  match pc with
  | BPrepare c => p = None
  | BInit c => p = None /\ record_ok sc c
  | BSipi1 c => p = Some ApWait /\ record_ok sc c
  | BSipi2 c | BWait c _ => (p = Some ApStart \/ exists at_, p = Some (own c at_)) /\ record_ok sc c
  | BCheck c => p = Some (own c MIdle)
  | BDone => True
  end.

Record pos (pc : bsp_pc) (aps : gmap Z ap_pc) sc : Prop := {
  po_cr3 : is_u32 (vmm_kernel_cr3 (s_vmm sc));
  po_cur : (1 <= cur pc <= n)%nat /\ (pc <> BDone -> (cur pc < n)%nat);
  po_before c : (1 <= c < cur pc)%nat -> aps !! idof c = Some (own c MIdle);
  po_after c : (cur pc < c < n)%nat -> aps !! idof c = None;
  po_at : at_cur pc (aps !! idof (cur pc)) sc;
  po_dom a p : aps !! a = Some p -> exists c, (1 <= c < n)%nat /\ a = idof c
}.

Definition inv s : Prop :=
  pos (sp_bsp s) (sp_aps s) (sp_sched s) /\
  facts (lev s) (sp_cpus s) (sp_descs s) (sp_apics s) (sp_online s) (sp_sched s).

Lemma prepare_record c sc : (1 <= c < 8)%nat -> is_u32 (vmm_kernel_cr3 (s_vmm sc)) -> record_ok (prepare c sc) c.
Proof.
  intros Hc Hk. destruct (mo_stacks Hmo c Hc) as [Hs _]. pose proof (mo_entry Hmo) as He.
  unfold record_ok, ap_trampoline_prepare. rewrite (mo_record Hmo). cbn [s_mem s_vmm s_set_mem s_set_s_vmm v_mach set_mach m_mem set_mem].
  unfold ab_stack_top, ab_cpu_id, ab_entry, ab_cr3. set (m0 := memcpy _ _ _ _). set (b := AP_TRAMPOLINE_ADDR + data_offset).
  assert (Hc64 : is_u64 (Z.of_nat c)) by (unfold is_u64; lia).
  assert (Hk64 : is_u64 (vmm_kernel_cr3 (s_vmm sc))) by (unfold is_u32, is_u64 in *; lia).
  split; [|split; [|split]].
  - rewrite !(ld64_st64 _ _ _ b) by (done || lia). repeat case_b; first [done|lia].
  - rewrite !(ld64_st64 _ _ _ (b + 8)) by (done || lia). repeat case_b; first [done|lia].
  - rewrite !(ld64_st64 _ _ _ (b + 16)) by (done || lia). repeat case_b; first [done|lia].
  - rewrite ld64_st64_same by done. by apply u32_small.
Qed.

Lemma facts_idof lv cp d ap on sc c c' :
  facts lv cp d ap on sc -> (c < n)%nat -> (c' < n)%nat -> idof c = idof c' -> c = c'.
Proof. intros [] Hc Hc' Hid. rewrite <- !fa_ids0 in Hid by lia. apply (cw_ids _ fa_cpus0) in Hid; lia. Qed.

Lemma facts_apic_id lv cp d ap on sc c : facts lv cp d ap on sc -> (c < n)%nat -> cpu_apic_id cp (Z.of_nat c) = idof c.
Proof. intros [] Hc. unfold cpu_apic_id. rewrite (proj2 (Z.leb_gt _ _)) by lia. by apply fa_ids0. Qed.

Lemma facts_mem lv cp d ap on sc m : facts lv cp d ap on sc -> facts lv cp d ap on (s_set_mem m sc).
Proof.
  intros []. by constructor.
Qed.

(** A processor moves on. *)
Lemma lev_goto s id p c : (id = idof c) -> (c < n)%nat ->
  (forall c', (c' < n)%nat -> idof c' = idof c -> c' = c) ->
  forall c', (1 <= c' < n)%nat -> level (<[id := p]> (sp_aps s) !! idof c') = lv_set c (level (Some p)) (lev s) c'.
Proof.
  intros -> Hc Hinj c' Hc'. destruct (decide (c' = c)) as [->|Hne].
  - by rewrite lookup_insert_eq, lv_set_eq.
  - rewrite lookup_insert_ne, lv_set_ne by (done || (intros E; symmetry in E; apply Hinj in E; lia)). done.
Qed.

(** The first processor moves on without touching what [facts] speaks of. *)
Lemma inv_bsp s pc' aps' sc' a o :
  inv s -> pos pc' aps' sc' -> facts (lev s) (sp_cpus s) (sp_descs s) (sp_apics s) (sp_online s) sc' ->
  (forall c, (1 <= c < n)%nat -> level (aps' !! idof c) = lev s c) ->
  inv (mk_smp sc' (sp_cpus s) (sp_descs s) a (sp_apics s) (sp_online s) pc' aps' o).
Proof. intros [_ _] Hp Hf Hl. split; [done|]. by apply (facts_ext (lev s)). Qed.

(** No wait has run out while its processor was still on its way. *)
Definition prompt_step s (e : smp_event) : bool :=
  match e, sp_bsp s with
  | EvBsp, BWait c t => negb (t =? 0) || online c s
  | _, _ => true
  end.
Fixpoint prompt (evs : list smp_event) s : bool :=
  match evs with
  | [] => true
  | e :: evs' => prompt_step s e && prompt evs' (step s e)
  end.

(** Only the processor being started moves. *)
Lemma pos_move pc pc' aps p sc sc' c :
  pos pc aps sc -> cur pc = c -> cur pc' = c -> (c < n)%nat -> pc' <> BDone ->
  (forall c', (c' < n)%nat -> idof c' = idof c -> c' = c) ->
  vmm_kernel_cr3 (s_vmm sc') = vmm_kernel_cr3 (s_vmm sc) -> at_cur pc' (Some p) sc' ->
  pos pc' (<[idof c := p]> aps) sc'.
Proof.
  intros [] <- Hc' Hn Hd Hinj Hk Hat. constructor; rewrite ?Hc', ?Hk; try done.
  - split; [lia|done].
  - intros c Hc. rewrite lookup_insert_ne by (intros E; symmetry in E; apply Hinj in E; lia). by apply po_before0.
  - intros c Hc. rewrite lookup_insert_ne by (intros E; symmetry in E; apply Hinj in E; lia). by apply po_after0.
  - by rewrite lookup_insert_eq.
  - intros a q [[<- _]|[_ Ha]]%lookup_insert_Some; [exists (cur pc); split; [lia|done]|by eapply po_dom0].
Qed.

(** Only the first processor moves. *)
Lemma pos_stay pc pc' aps sc sc' c :
  pos pc aps sc -> cur pc = c -> cur pc' = c -> (c < n)%nat -> pc' <> BDone ->
  vmm_kernel_cr3 (s_vmm sc') = vmm_kernel_cr3 (s_vmm sc) -> at_cur pc' (aps !! idof c) sc' -> pos pc' aps sc'.
Proof.
  intros [] <- Hc' Hn Hd Hk Hat. constructor; rewrite ?Hc', ?Hk; try done. split; [lia|done].
Qed.

Lemma pos_next pc c aps sc :
  pos pc aps sc -> cur pc = c -> (c < n)%nat -> aps !! idof c = Some (own c MIdle) ->
  pos (if Z.of_nat (S c) <? Z.of_nat n then BPrepare (S c) else BDone) aps sc.
Proof.
  intros [] Hc Hn Hat. subst c. case_b; [apply Z.ltb_lt in E|apply Z.ltb_ge in E].
  - constructor; simpl; try done.
    + split; [lia|intros _; lia].
    + intros c' Hc'. destruct (decide (c' = cur pc)) as [->|]; [done|]. apply po_before0. lia.
    + intros c' Hc'. apply po_after0. lia.
    + apply po_after0. lia.
  - constructor; simpl; try done.
    + split; [lia|done].
    + intros c' Hc'. destruct (decide (c' = cur pc)) as [->|]; [done|]. apply po_before0. lia.
    + lia.
Qed.

Lemma bsp_inv s : inv s -> prompt_step s EvBsp = true -> inv (step s EvBsp).
Proof.
  intros Hinv Hprompt. pose proof Hinv as [Hp Hf]. unfold prompt_step in Hprompt. simpl. unfold bsp_step.
  pose proof (fun c => facts_apic_id _ _ _ _ _ _ c Hf) as Hid.
  pose proof (fun c c' => facts_idof _ _ _ _ _ _ c c' Hf) as Hinj.
  assert (Hn8 : (n <= 8)%nat) by (exact (n_le _ _ _ _ _ _ Hf)).
  destruct (sp_bsp s) as [c|c|c|c|c t|c|] eqn:Epc; pose proof Hp as []; cbn [cur at_cur] in *;
    try (destruct po_cur0 as [Hc1 Hcn]; specialize (Hcn ltac:(done))).
  - (* prepare *)
    apply (inv_bsp s); [done| |by apply facts_mem|done]. apply (pos_stay (BPrepare c) _ _ (sp_sched s) _ c); try done.
    split; [done|]. apply prepare_record; [lia|done].
  - (* init *)
    destruct po_at0 as [Hnone Hrec]. rewrite Hid by done. unfold bsp_send. destruct (apic_send_init _ _ _ _) as [a|]; [|done].
    apply (inv_bsp s); [done|by apply (pos_move (BInit c) _ _ _ (sp_sched s) _ c); auto|done|].
    intros c' Hc'. simpl. rewrite (lev_goto s _ ApWait c) by auto. unfold lv_set. case_decide; [|done]. subst c'. unfold lev. by rewrite Hnone.
  - (* first start-up interrupt *)
    destruct po_at0 as [Hwait Hrec]. rewrite Hid by done. unfold bsp_send. destruct (apic_send_sipi _ _ _ _ _) as [a|]; [|done].
    unfold take_sipi. simpl. rewrite Hwait. apply (inv_bsp s); [done| |done|].
    + apply (pos_move (BSipi1 c) _ _ _ (sp_sched s) _ c); auto. split; [by left|done].
    + intros c' Hc'. simpl. rewrite (lev_goto s _ ApStart c) by auto. unfold lv_set. case_decide; [|done]. subst c'. unfold lev. by rewrite Hwait.
  - (* second *)
    rewrite Hid by done. unfold bsp_send. destruct (apic_send_sipi _ _ _ _ _) as [a|]; [|done].
    unfold take_sipi. simpl. destruct po_at0 as [Hat Hrec].
    replace (match sp_aps s !! idof c with Some ApWait => _ | _ => _ end) with (sp_set_apic a s) by (by destruct Hat as [-> |[? ->]]).
    apply (inv_bsp s); [done| |done|done]. by apply (pos_stay (BSipi2 c) _ _ (sp_sched s) _ c).
  - (* wait *)
    pose proof (fa_flags _ _ _ _ _ _ Hf c ltac:(lia)) as Hfl. unfold online in *. rewrite (nth_lookup_Some _ _ _ _ Hfl) in *.
    case_b.
    + apply (inv_bsp s); [done| |done|done]. apply (pos_stay (BWait c t) _ _ (sp_sched s) _ c); try done.
      simpl. case_decide as Hlev; [|done]. unfold lev in Hlev. destruct po_at0 as [[Hst|[at_ Hat]] _].
      * rewrite Hst in Hlev. simpl in Hlev. lia.
      * rewrite Hat in Hlev |- *. by destruct at_; simpl in Hlev; try lia.
    + case_b; [apply Z.eqb_eq in E0 as ->; done|].
      apply (inv_bsp s); [done| |done|done]. by apply (pos_stay (BWait c t) _ _ (sp_sched s) _ c).
  - (* check *)
    pose proof (fa_flags _ _ _ _ _ _ Hf c ltac:(lia)) as Hfl. unfold online. rewrite (nth_lookup_Some _ _ _ _ Hfl).
    rewrite decide_True by (unfold lev; by rewrite po_at0). simpl. unfold bsp_next.
    assert (Hcount : cpu_count (sp_cpus s) = Z.of_nat n).
    { unfold cpu_count. rewrite (fa_count _ _ _ _ _ _ Hf). by rewrite (proj2 (Z.eqb_neq _ _)) by lia. }
    rewrite Hcount. apply (inv_bsp s); [done| |done|done]. by apply (pos_next (BCheck c) c).
  - done.
Qed.

(** One call of scheduler_ap_main by the processor being started, in the
    state with the new position and with the new facts. *)
Lemma inv_ap s pc c p at_ cp d a ap on sc o :
  inv s -> sp_bsp s = pc -> cur pc = c -> (c < n)%nat -> sp_aps s !! idof c = Some p ->
  (match pc with BSipi2 _ | BWait _ _ => True | _ => False end) ->
  facts (lv_set c (level (Some (own c at_))) (lev s)) cp d ap on sc ->
  vmm_kernel_cr3 (s_vmm sc) = vmm_kernel_cr3 (s_vmm (sp_sched s)) ->
  (record_ok (sp_sched s) c -> record_ok sc c) ->
  inv (mk_smp sc cp d a ap on pc (<[idof c := own c at_]> (sp_aps s)) o).
Proof.
  intros [Hp Hf] Hpc Hc Hcn Hat Hw Hf' Hk Hrec. rewrite Hpc in Hp.
  assert (Hinj : forall c', (c' < n)%nat -> idof c' = idof c -> c' = c) by (intros c' Hc'; by apply (facts_idof _ _ _ _ _ _ c' c Hf)).
  split; simpl.
  - apply (pos_move pc _ _ _ (sp_sched s) _ c); try done; [by destruct pc|]. subst c.
    destruct Hp as [_ _ _ _ Hp _]. destruct pc; try done; simpl in *; (split; [right; by exists at_|apply Hrec, Hp]).
  - apply (facts_ext (lv_set c (level (Some (own c at_))) (lev s))); [|done]. intros c' Hc'. by apply lev_goto.
Qed.

Lemma ap_inv s id : inv s -> inv (step s (EvAp id)).
Proof.
  intros Hinv. simpl. unfold ap_step. destruct (sp_aps s !! id) as [p|] eqn:Ea; [|done].
  pose proof Hinv as [Hp Hf]. pose proof (n_le _ _ _ _ _ _ Hf) as Hn8. destruct (po_dom _ _ _ Hp id p Ea) as (c & Hc & ->).
  (* other processors do not move *)
  destruct (decide (c = cur (sp_bsp s))) as [Hcur|Hne].
  2:{ destruct (decide (c < cur (sp_bsp s))%nat) as [Hlt|Hge].
      - rewrite (po_before _ _ _ Hp c) in Ea by lia. by injection Ea as <-.
      - by rewrite (po_after _ _ _ Hp c) in Ea by lia. }
  pose proof (po_at _ _ _ Hp) as Hat. rewrite <- Hcur, Ea in Hat.
  assert (Hw : p = ApWait \/ p = own c MIdle \/ (record_ok (sp_sched s) c /\ (p = ApStart \/ exists at_, p = own c at_) /\
    match sp_bsp s with BSipi2 _ | BWait _ _ => True | _ => False end)).
  { destruct (sp_bsp s) as [k|k|k|k|k t|k|]; simpl in Hat, Hcur; [done|by destruct Hat|left; destruct Hat; congruence| | |auto|lia].
    all: try (right; left; congruence).
    all: subst k; right; right; destruct Hat as [[E|[at_ E]] Hr]; injection E as ->; eauto. }
  destruct Hw as [-> |[-> |(Hrec & Hst & Hpc)]]; [done|done|].
  assert (Hcn : (c < n)%nat) by lia.
  set (pc := sp_bsp s) in *. assert (Epc : sp_bsp s = pc) by done. clearbody pc. symmetry in Hcur.
  destruct Hst as [-> |[at_ ->]].
  - (* the trampoline *)
    unfold ap_trampoline. destruct Hrec as (H1 & H2 & H3 & H4). rewrite H1, H2, H3, H4, !Z.eqb_refl. simpl.
    unfold ap_goto, sp_set_aps. rewrite Epc.
    apply (inv_ap s pc c ApStart MOnline); try done. apply (facts_ext (lev s)); [|done].
    intros c' Hc'. unfold lv_set. case_decide; [|done]. subst c'. unfold lev. by rewrite Ea.
  - assert (Hl : lev s c = level (Some (own c at_))) by (unfold lev; by rewrite Ea).
    assert (Hu : u32 (Z.of_nat c) = Z.of_nat c) by (apply u32_small; unfold is_u32; lia).
    destruct at_; cbn [own scheduler_ap_main]; rewrite ?Hu; unfold ap_goto, sp_set_aps; simpl in Hl.
    + simpl. rewrite Epc. apply (inv_ap s pc c (own c MOnline) MTables); try done. by apply facts_online.
    + simpl. rewrite Epc. apply (inv_ap s pc c (own c MTables) MApic); try done. by apply facts_tables.
    + unfold ap_apic_init, apic_init_ap. pose proof (fa_apics _ _ _ _ _ _ Hf c Hc) as Hap. rewrite Hl in Hap. simpl in Hap. rewrite Hap. simpl.
      rewrite Epc. apply (inv_ap s pc c (own c MApic) MRegister); try done. by apply facts_apic.
    + pose proof (fa_apics _ _ _ _ _ _ Hf c Hc) as Hap. rewrite Hl in Hap. destruct Hap as (a & Eap & Ha).
      assert (Hme : ap_current lapic ap_reset (idof c) s = Z.of_nat c).
      { unfold ap_current. rewrite Eap. by eapply (facts_current _ _ _ _ _ _ c Hf). }
      destruct (facts_register _ _ _ _ _ _ c Hf Hc Hl) as (Hf' & Hslot & Hk & Hm).
      { intros c' Hc'. unfold lev. rewrite (po_before _ _ _ Hp c') by lia. simpl. lia. }
      unfold ap_register. rewrite Hme, Hu, !Nat2Z.id. destruct (thread_alloc_slot (sp_sched s)) as [slot s1]. simpl in Hslot. subst slot.
      simpl. rewrite Epc. apply (inv_ap s pc c (own c MRegister) MReport); try done.
      intros (H1 & H2 & H3 & H4). destruct (mo_stacks Hmo c ltac:(lia)) as [_ Hdis].
      unfold record_ok. rewrite Hk, !Hm; [done|unfold ab_cr3, ab_entry, ab_cpu_id, ab_stack_top; lia..].
    + simpl. rewrite Nat2Z.id, Epc. apply (inv_ap s pc c (own c MReport) MIdle); try done. by apply facts_report.
    + done.
Qed.

Lemma run_inv evs s : inv s -> prompt evs s = true -> inv (run evs s).
Proof.
  revert s. induction evs as [|e evs IH]; intros s Hi Hpr; [done|]. simpl in *. apply andb_true_iff in Hpr as [He Hpr].
  apply IH; [|done]. destruct e as [|id]; [by apply bsp_inv|by apply ap_inv].
Qed.

(** *** All are up *)

Lemma inv_identity s id at_ k sp : inv s -> sp_aps s !! id = Some (ApMain at_ k sp) ->
  exists c, (1 <= c < n)%nat /\ id = idof c /\ k = Z.of_nat c /\ sp = stack_top c.
Proof.
  intros [Hp Hf] Ea. destruct (po_dom _ _ _ Hp id _ Ea) as (c & Hc & ->). exists c. split; [done|]. split; [done|].
  destruct (decide (c = cur (sp_bsp s))) as [Hcur|Hne].
  - pose proof (po_at _ _ _ Hp) as Hat. rewrite <- Hcur, Ea in Hat.
    destruct (sp_bsp s) as [j|j|j|j|j t|j|]; simpl in Hat, Hcur; try subst j; try done; try (by destruct Hat).
    + destruct Hat as [[E|[at' E]] _]; [done|]. by injection E as -> -> ->.
    + destruct Hat as [[E|[at' E]] _]; [done|]. by injection E as -> -> ->.
    + by injection Hat as -> -> ->.
    + lia.
  - destruct (decide (c < cur (sp_bsp s))%nat).
    + rewrite (po_before _ _ _ Hp c) in Ea by lia. by injection Ea as <- <- <-.
    + by rewrite (po_after _ _ _ Hp c) in Ea by lia.
Qed.

Lemma count_up_true k lo : count_up k lo (fun _ => true) = Z.of_nat k.
Proof. revert lo. induction k as [|k IH]; intros lo; [done|]. cbn [count_up Z.b2z]. rewrite IH. lia. Qed.

Lemma inv_done s : inv s -> sp_bsp s = BDone ->
  cpu_online_count (sp_cpus s) = Z.of_nat n /\ sok (idle_upto n) (sp_sched s) /\
  forall c, (1 <= c < n)%nat ->
    cpu_current_id (sp_cpus s) (idof c) = Z.of_nat c /\ g_current (sp_sched s) !! c = Some (Some c) /\
    (exists gdt, gdt_tables (sp_descs s) !! c = Some gdt /\ gdt_good (tss_addr c) gdt) /\
    Desc.tss_rsp0 <$> tss_tables (sp_descs s) !! c = Some (stack_top c).
Proof.
  intros [Hp Hf] Hd. rewrite Hd in Hp. pose proof (n_le _ _ _ _ _ _ Hf) as Hn8. pose proof Hf as [].
  assert (Hlev : forall c, (1 <= c < n)%nat -> lev s c = 5%nat).
  { intros c Hc. unfold lev. by rewrite (po_before _ _ _ Hp c) by done. }
  assert (Hn1 : (1 <= n)%nat) by (destruct fa_cpus0; lia). split; [|split].
  - unfold cpu_online_count. pose proof (cw_online _ fa_cpus0) as Ho.
    rewrite (count_up_ext _ _ _ (fun _ => true)) in Ho.
    + rewrite count_up_true in Ho. rewrite Ho, fa_count0, Nat2Z.id. by rewrite (proj2 (Z.eqb_neq _ _)) by lia.
    + intros i Hi. rewrite fa_count0, Nat2Z.id in Hi. destruct (decide (i = 0)) as [->|Hi0]; [done|].
      replace i with (Z.of_nat (Z.to_nat i)) by lia. rewrite fa_online0 by lia. rewrite Hlev by lia. done.
  - destruct fa_sched0 as (m & Hm & _ & Hok & _ & _ & _ & Hl). replace n with m; [done|].
    destruct (decide (m < n)%nat); [|lia]. assert (m < m)%nat; [|lia]. apply Hl; [lia|]. rewrite Hlev by lia. lia.
  - intros c Hc. destruct fa_sched0 as (m & Hm & _ & _ & _ & _ & Hcur & Hl).
    assert (c < m)%nat by (apply Hl; [done|]; rewrite Hlev by done; lia).
    split_and!.
    + unfold cpu_current_id, cpu_index_for_apic. rewrite fa_ready0, <- fa_ids0 by lia. by rewrite cpu_find_id by (done || lia).
    + rewrite Hcur by lia. by rewrite decide_True.
    + apply fa_gdt0; [done|]. rewrite Hlev by done. lia.
    + apply fa_tss0; [done|]. rewrite Hlev by done. lia.
Qed.

(** Identifiers for the first threads are left. *)
Lemma inv_ids s : inv s -> (n <= 8)%nat /\ (1 <= n)%nat /\ 1 <= g_next_id (sp_sched s) < 18446744073709551615 - 8.
Proof.
  intros [_ Hf]. pose proof (n_le _ _ _ _ _ _ Hf). pose proof Hf as []. destruct fa_sched0 as (m & Hm & _ & _ & Hi & Hi' & _).
  split_and!; lia.
Qed.

(** *** The start can always be finished *)

(** The first processor's controller is not busy when it is asked. *)
Context (Hfree : forall log, Z.land (u32 (lapic bsp log APIC_REG_ICR_LOW)) APIC_ICR_DELIV_STATUS = 0).

Lemma wait_icr_free a : apic_wait_icr (lapic bsp) fuel a = Some a.
Proof. destruct fuel; simpl; unfold apic_read; by rewrite Hfree. Qed.
Lemma send_init_free a id : is_Some (apic_send_init (lapic bsp) fuel a id).
Proof. unfold apic_send_init, apic_command. rewrite wait_icr_free. simpl. rewrite wait_icr_free. by eexists. Qed.
Lemma send_sipi_free a id v : is_Some (apic_send_sipi (lapic bsp) fuel a id v).
Proof. unfold apic_send_sipi, apic_command. rewrite wait_icr_free. simpl. rewrite wait_icr_free. by eexists. Qed.

(** The steps the processor being started has still to make. *)
Definition ap_left (p : ap_pc) : nat :=
  match p with ApStart => 6 | ApMain at_ _ _ => 5 - level (Some (ApMain at_ 0 0)) | _ => 0 end.

Lemma ap_advances s c p :
  inv s -> cur (sp_bsp s) = c -> (c < n)%nat -> sp_aps s !! idof c = Some p ->
  (match sp_bsp s with BSipi2 _ | BWait _ _ => True | _ => False end) ->
  exists p', sp_aps (step s (EvAp (idof c))) !! idof c = Some p' /\ sp_bsp (step s (EvAp (idof c))) = sp_bsp s /\
    ap_left p' = pred (ap_left p).
Proof.
  intros [Hp Hf] Hc Hcn Ea Hw. pose proof (po_at _ _ _ Hp) as Hat. rewrite Hc, Ea in Hat.
  assert (Hst : (p = ApStart \/ exists at_, p = own c at_) /\ record_ok (sp_sched s) c).
  { destruct (sp_bsp s) as [j|j|j|j|j t|j|]; try done; simpl in Hat, Hc; subst j;
      (destruct Hat as [[E|[at_ E]] Hr]; injection E as ->; eauto). }
  simpl. unfold ap_step. rewrite Ea. destruct Hst as [[-> |[at_ ->]] (H1 & H2 & H3 & H4)].
  - unfold ap_trampoline. rewrite H1, H2, H3, H4, !Z.eqb_refl. simpl. eexists. by rewrite lookup_insert_eq.
  - destruct at_; cbn [own scheduler_ap_main]; unfold ap_goto, ap_apic_init, apic_init_ap, ap_register;
      repeat match goal with |- context [let '(_, _) := ?x in _] => destruct x as [[]] end; simpl;
      eexists; by rewrite ?lookup_insert_eq.
Qed.

Lemma run_app evs1 evs2 s : run (evs1 ++ evs2) s = run evs2 (run evs1 s).
Proof. apply fold_left_app. Qed.
Lemma prompt_app evs1 evs2 s :
  prompt (evs1 ++ evs2) s = prompt evs1 s && prompt evs2 (run evs1 s).
Proof. revert s. induction evs1 as [|e evs1 IH]; intros s; [done|]. simpl. by rewrite IH, andb_assoc. Qed.

(** Left alone, the processor being started reports. *)
Lemma ap_reports k : forall s c p,
  inv s -> cur (sp_bsp s) = c -> (c < n)%nat -> sp_aps s !! idof c = Some p -> (ap_left p <= k)%nat ->
  (match sp_bsp s with BSipi2 _ | BWait _ _ => True | _ => False end) ->
  let evs := replicate k (EvAp (idof c)) in
  prompt evs s = true /\ inv (run evs s) /\ sp_bsp (run evs s) = sp_bsp s /\
  exists p', sp_aps (run evs s) !! idof c = Some p' /\ ap_left p' = O.
Proof.
  induction k as [|k IH]; intros s c p Hi Hc Hcn Ea Hk Hw evs; subst evs; simpl.
  - split_and!; try done. exists p. split; [done|lia].
  - destruct (ap_advances s c p Hi Hc Hcn Ea Hw) as (p' & Ea' & Hb & Hl). pose proof (ap_inv s (idof c) Hi) as Hi'.
    destruct (IH (step s (EvAp (idof c))) c p') as (Hpr & Hi2 & Hb2 & Hp2); try done; [by rewrite Hb|lia|by rewrite Hb|].
    split; [done|]. split; [done|]. split; [exact (eq_trans Hb2 Hb)|exact Hp2].
Qed.

(** What is left for the first processor. *)
Definition bsp_left (pc : bsp_pc) : nat :=
  (n - cur pc) * 6 - match pc with BPrepare _ | BDone => 0 | BInit _ => 1 | BSipi1 _ => 2 | BSipi2 _ => 3 | BWait _ _ => 4 | BCheck _ => 5 end.

Lemma bsp_advances s : inv s -> sp_bsp s <> BDone ->
  (match sp_bsp s with BWait c _ => online c s = true | _ => True end) ->
  (bsp_left (sp_bsp (step s EvBsp)) < bsp_left (sp_bsp s))%nat.
Proof.
  intros [Hp Hf] Hd Hon. destruct (po_cur _ _ _ Hp) as [Hc1 Hcn]. specialize (Hcn Hd). simpl. unfold bsp_step, bsp_send, bsp_left.
  destruct (sp_bsp s) as [c|c|c|c|c t|c|]; simpl in *; try done; try lia.
  - destruct (send_init_free (sp_apic s) (cpu_apic_id (sp_cpus s) (Z.of_nat c))) as [a ->]. simpl. lia.
  - destruct (send_sipi_free (sp_apic s) (cpu_apic_id (sp_cpus s) (Z.of_nat c)) AP_TRAMPOLINE_VECTOR) as [a ->]. simpl. lia.
  - destruct (send_sipi_free (sp_apic s) (cpu_apic_id (sp_cpus s) (Z.of_nat c)) AP_TRAMPOLINE_VECTOR) as [a ->]. simpl. lia.
  - rewrite Hon. simpl. lia.
  - case_b; simpl; lia.
Qed.

(** The flag of a processor that has made all its calls. *)
Lemma reported_online s c p : inv s -> (1 <= c < n)%nat -> sp_aps s !! idof c = Some p -> ap_left p = O ->
  (exists at_, p = own c at_) -> online c s = true.
Proof.
  intros [_ Hf] Hc Ea Hl [at_ ->]. unfold online. rewrite (nth_lookup_Some _ _ _ _ (fa_flags _ _ _ _ _ _ Hf c Hc)).
  unfold lev. rewrite Ea. by destruct at_.
Qed.

Lemma can_finish k : forall s, inv s -> (bsp_left (sp_bsp s) <= k)%nat ->
  exists evs, prompt evs s = true /\ sp_bsp (run evs s) = BDone.
Proof.
  induction k as [|k IH]; intros s Hi Hk.
  - exists []. split; [done|]. simpl. pose proof Hi as [Hp _]. destruct (po_cur _ _ _ Hp) as [Hc1 Hcn].
    destruct (decide (sp_bsp s = BDone)) as [->|Hd]; [done|]. specialize (Hcn Hd). unfold bsp_left in Hk. destruct (sp_bsp s); simpl in *; lia.
  - destruct (decide (sp_bsp s = BDone)) as [Hd|Hd]; [by exists []|].
    assert (Hbsp : forall s', inv s' -> sp_bsp s' = sp_bsp s -> (match sp_bsp s' with BWait c _ => online c s' = true | _ => True end) ->
      exists evs, prompt evs s' = true /\ sp_bsp (run evs s') = BDone).
    { intros s' Hi' Hb Hon. assert (Hps : prompt_step s' EvBsp = true).
      { unfold prompt_step. destruct (sp_bsp s'); try done. by rewrite Hon, orb_true_r. }
      destruct (IH (step s' EvBsp)) as (evs & Hpr & Hend); [by apply bsp_inv| |].
      - pose proof (bsp_advances s' Hi') as Hlt. rewrite Hb in Hlt. specialize (Hlt Hd). rewrite <- Hb in Hlt at 1. specialize (Hlt Hon). lia.
      - exists (EvBsp :: evs). split; [cbn [prompt]; by rewrite Hps|exact Hend]. }
    destruct (sp_bsp s) as [c|c|c|c|c t|c|] eqn:Epc; try (apply (Hbsp s); [done|done|by rewrite Epc]).
    pose proof Hi as [Hp _]. rewrite Epc in Hp. destruct (po_cur _ _ _ Hp) as [Hc1 Hcn]. specialize (Hcn ltac:(done)). simpl in Hc1, Hcn.
    assert (exists p, sp_aps s !! idof c = Some p /\ (ap_left p <= 6)%nat) as (p & Ea & Hl).
    { destruct (po_at _ _ _ Hp) as [[E|[at_ E]] _]; simpl in E; rewrite E; eexists; (split; [done|]); [done|by destruct at_; simpl; lia]. }
    destruct (ap_reports 6 s c p) as (Hpr & Hi' & Hb & p' & Ea' & Hl'); try done; [by rewrite Epc|by rewrite Epc|].
    set (s' := run (replicate 6 (EvAp (idof c))) s) in *.
    destruct (Hbsp s') as (evs & Hpr2 & Hend); [done|by rewrite Hb, Epc| |].
    + rewrite Hb, Epc. apply (reported_online s' c p'); try done; [lia|]. destruct Hi' as [Hp' _]. rewrite Hb, Epc in Hp'.
      destruct (po_at _ _ _ Hp') as [[E|[at_ E]] _]; simpl in E; rewrite Ea' in E; injection E as ->; [done|by exists at_].
    + exists (replicate 6 (EvAp (idof c)) ++ evs). rewrite prompt_app, run_app. fold s'. by rewrite Hpr, Hpr2.
Qed.

(** *** A processor that is late *)

Lemma wait_out k s c : sp_bsp s = BWait c (Z.of_nat k) -> online c s = false ->
  run (replicate (S k) EvBsp) s = sp_set_bsp (BCheck c) s.
Proof.
  revert s. induction k as [|k IH]; intros s Hb Ho; cbn [replicate].
  - cbn [smp_run fold_left smp_step]. unfold bsp_step. by rewrite Hb, Ho.
  - transitivity (run (replicate (S k) EvBsp) (sp_set_bsp (BWait c (Z.of_nat k)) s)); [|by rewrite IH].
    cbn [replicate smp_run fold_left smp_step]. unfold bsp_step at 2. rewrite Hb, Ho. rewrite (proj2 (Z.eqb_neq _ _)) by lia.
    by replace (Z.of_nat (S k) - 1) with (Z.of_nat k) by lia.
Qed.

(** Once the wait has run out the record is the next processor's, and the
    late one takes it: two processors run with one index on one stack. *)
Lemma late_takes_next s c k :
  inv s -> sp_bsp s = BWait c (Z.of_nat k) -> (S c < n)%nat -> sp_aps s !! idof c = Some ApStart ->
  exists evs, sp_aps (run evs s) !! idof c = Some (own (S c) MOnline) /\
    sp_aps (run evs s) !! idof (S c) = Some (own (S c) MOnline) /\ idof c <> idof (S c).
Proof.
  intros Hi Hb Hc Ea. pose proof Hi as [Hp Hf]. rewrite Hb in Hp. destruct (po_cur _ _ _ Hp) as [Hc1 _]. simpl in Hc1.
  pose proof (n_le _ _ _ _ _ _ Hf) as Hn8.
  assert (Hne : idof c <> idof (S c)) by (intros E; apply (facts_idof _ _ _ _ _ _ _ _ Hf) in E; lia).
  assert (Ho : online c s = false).
  { unfold online. rewrite (nth_lookup_Some _ _ _ _ (fa_flags _ _ _ _ _ _ Hf c ltac:(lia))). unfold lev. by rewrite Ea. }
  assert (Hcount : cpu_count (sp_cpus s) = Z.of_nat n).
  { unfold cpu_count. rewrite (fa_count _ _ _ _ _ _ Hf). by rewrite (proj2 (Z.eqb_neq _ _)) by lia. }
  pose proof (facts_apic_id _ _ _ _ _ _ (S c) Hf Hc) as Hid.
  destruct (prepare_record (S c) (sp_sched s)) as (H1 & H2 & H3 & H4); [lia|by destruct Hp|].
  exists (replicate (S k) EvBsp ++ [EvBsp; EvBsp; EvAp (idof c); EvBsp; EvBsp; EvAp (idof (S c))]).
  rewrite run_app, (wait_out k s c Hb Ho). cbn [smp_run fold_left].
  set (s1 := step (sp_set_bsp (BCheck c) s) EvBsp).
  assert (E1 : sp_bsp s1 = BPrepare (S c) /\ sp_aps s1 = sp_aps s /\ sp_sched s1 = sp_sched s /\ sp_cpus s1 = sp_cpus s).
  { subst s1. simpl. unfold bsp_step, bsp_next. simpl. change (online c (sp_set_bsp (BCheck c) s)) with (online c s). rewrite Ho. simpl.
    by rewrite Hcount, (proj2 (Z.ltb_lt _ _)) by lia. }
  clearbody s1. destruct E1 as (Eb1 & Ea1 & Es1 & Ec1). set (s2 := step s1 EvBsp).
  assert (E2 : sp_bsp s2 = BInit (S c) /\ sp_aps s2 = sp_aps s /\ sp_sched s2 = prepare (S c) (sp_sched s) /\ sp_cpus s2 = sp_cpus s).
  { subst s2. simpl. unfold bsp_step. rewrite Eb1. simpl. by rewrite Es1. }
  clearbody s2. destruct E2 as (Eb2 & Ea2 & Es2 & Ec2). set (s3 := step s2 (EvAp (idof c))).
  assert (E3 : sp_bsp s3 = BInit (S c) /\ sp_aps s3 !! idof c = Some (own (S c) MOnline) /\ sp_sched s3 = sp_sched s2 /\ sp_cpus s3 = sp_cpus s).
  { subst s3. simpl. unfold ap_step. rewrite Ea2, Ea. unfold ap_trampoline. rewrite Es2, H1, H2, H3, H4, !Z.eqb_refl. simpl.
    rewrite lookup_insert_eq. by rewrite Es2. }
  clearbody s3. destruct E3 as (Eb3 & Ea3 & Es3 & Ec3). set (s4 := step s3 EvBsp).
  assert (E4 : sp_bsp s4 = BSipi1 (S c) /\ sp_aps s4 = <[idof (S c) := ApWait]> (sp_aps s3) /\ sp_sched s4 = sp_sched s2 /\ sp_cpus s4 = sp_cpus s).
  { subst s4. simpl. unfold bsp_step, bsp_send. rewrite Eb3, Ec3, Hid. destruct (send_init_free (sp_apic s3) (idof (S c))) as [a ->]. simpl. done. }
  clearbody s4. destruct E4 as (Eb4 & Ea4 & Es4 & Ec4). set (s5 := step s4 EvBsp).
  assert (E5 : sp_aps s5 = <[idof (S c) := ApStart]> (sp_aps s4) /\ sp_sched s5 = sp_sched s2).
  { subst s5. simpl. unfold bsp_step, bsp_send. rewrite Eb4, Ec4, Hid.
    destruct (send_sipi_free (sp_apic s4) (idof (S c)) AP_TRAMPOLINE_VECTOR) as [a ->].
    unfold take_sipi. simpl. rewrite Ea4, lookup_insert_eq. done. }
  clearbody s5. destruct E5 as (Ea5 & Es5). simpl. unfold ap_step. rewrite Ea5, lookup_insert_eq.
  unfold ap_trampoline. rewrite Es5, Es2, H1, H2, H3, H4, !Z.eqb_refl. simpl. rewrite Ea5, Ea4, !lookup_insert_eq.
  split; [|done]. rewrite !lookup_insert_ne by done. done.
Qed.
End start.

(** ** The table before the start *)

Record cpus_fresh (c : cpus) : Prop := {
  cf_wf : cpus_wf c;
  cf_ready : g_apic_ready c = true;
  cf_first : ci_online (cpu_at c 0) = true;
  cf_rest i : 1 <= i -> ci_online (cpu_at c i) = false
}.

Lemma register_fresh c a b : cpus_fresh c -> cpus_fresh (snd (cpu_register c a b)).
Proof.
  intros []. pose proof (register_wf c a b cf_wf0) as Hw. constructor; [done| | |]; clear Hw; unfold cpu_register;
    (destruct (cpu_find c a); [by destruct b|]); (case_b; [done|]); (pose proof cf_wf0 as []).
  - by destruct b.
  - assert (Hat := cpu_at_insert (g_cpus c) (u32 (g_cpu_count c + 1)) (g_online_count c) (g_bsp_id c) (g_apic_ready c) 0
      (Z.to_nat (g_cpu_count c)) (mk_cpu a true false)).
    unfold MAX_CPUS in E. apply Z.leb_gt in E. specialize (Hat ltac:(lia) ltac:(lia)). rewrite (proj2 (Z.eqb_neq _ _)) in Hat by lia.
    transitivity (ci_online (cpu_at c 0)); [|done]. unfold cpu_at in *. destruct b; simpl in *; by rewrite Hat.
  - intros i Hi. assert (Hat := cpu_at_insert (g_cpus c) (u32 (g_cpu_count c + 1)) (g_online_count c) (g_bsp_id c) (g_apic_ready c) i
      (Z.to_nat (g_cpu_count c)) (mk_cpu a true false)).
    unfold MAX_CPUS in E. apply Z.leb_gt in E. specialize (Hat ltac:(lia) ltac:(lia)).
    transitivity (ci_online (if i =? Z.of_nat (Z.to_nat (g_cpu_count c)) then mk_cpu a true false else nth (Z.to_nat i) (g_cpus c) cpu_none)).
    + unfold cpu_at in *. destruct b; simpl in *; by rewrite Hat.
    + case_b; [done|by apply cf_rest0].
Qed.

Lemma detect_fresh lapic bsp m a c a' c' out ok : smp_detect lapic bsp m a c = (a', c', out, ok) -> cpus_fresh c'.
Proof.
  assert (Hinit : forall c id, g_apic_ready c = true -> cpus_fresh (cpu_init_bsp c id)).
  { intros c1 id Hr. constructor; [apply init_bsp_wf|done|done|]. intros i Hi. unfold cpu_at, cpu_init_bsp. simpl.
    replace (Z.to_nat i) with (S (Z.to_nat (i - 1))) by lia. simpl. generalize (Z.to_nat (i - 1)). intros k.
    do 7 (destruct k as [|k]; [done|]). by destruct k. }
  unfold smp_detect, apic_init_bsp. destruct (mp_init m) as [[ok1 info] o2]. destruct ok1; simpl; intros E; injection E as <- <- <- <-.
  - destruct (decide (0 <= mp_cpu_count info)) as [Hp|Hneg].
    + apply (for_range_ind (fun _ c => cpus_fresh c)); [done|by apply Hinit|]. intros i c1 _. by apply register_fresh.
    + unfold for_range. replace (Z.to_nat (mp_cpu_count info - 0)) with O by lia. by apply Hinit.
  - by apply Hinit.
Qed.

(** ** The trampoline as it is linked

    The 32- and 64-bit code of the trampoline loads the record from the
    address [ap_trampoline_data] was linked at (ap_trampoline.S:54, 81-83),
    inside the kernel image, which linker.ld puts above 1 MB; smp_init writes
    the record into the copy at 0x7000 and leaves the linked one, four zero
    words, alone. *)

Section linked.
Context {A : Type} `{PageOps A}.
Context (lapic : Z -> list (Z * Z) -> Z -> Z) (ap_reset : Z -> apic) (bsp : Z) (fuel : nat).
Context (thread_addr : nat -> Z) (tss_addr df_stack ap_boot_stacks : nat -> Z) (now : Z).
Context (tramp_start tramp_size data_offset record_addr ap_main_addr : Z).
Implicit Types (s : smp A).

Abbreviation step := (smp_step lapic ap_reset bsp fuel thread_addr tss_addr df_stack ap_boot_stacks now
  tramp_start tramp_size data_offset record_addr ap_main_addr).
Abbreviation run := (smp_run lapic ap_reset bsp fuel thread_addr tss_addr df_stack ap_boot_stacks now
  tramp_start tramp_size data_offset record_addr ap_main_addr).
Abbreviation init := (smp_init lapic ap_reset bsp fuel thread_addr tss_addr df_stack ap_boot_stacks now
  tramp_start tramp_size data_offset record_addr ap_main_addr).

(** The record as linked, above the copy, with the words the assembler put
    there; scheduler_ap_main is somewhere. *)
Record link_layout (m : mem) : Prop := {
  ll_record : record_addr = tramp_start + data_offset;
  ll_above : AP_TRAMPOLINE_ADDR + tramp_size <= tramp_start;
  ll_inside : 0 <= data_offset /\ data_offset + 32 <= tramp_size;
  ll_zero : ld64 m (ab_entry record_addr) = 0;
  ll_main : ap_main_addr <> 0
}.

Definition in_copy (x : Z) : Prop := AP_TRAMPOLINE_ADDR <= x < AP_TRAMPOLINE_ADDR + tramp_size.
Definition mem_kept (m m' : mem) : Prop := forall x, ~ in_copy x -> ld8 m' x = ld8 m x.

Lemma prepare_kept m0 cpu (sc : sched A) : link_layout m0 ->
  mem_kept (s_mem sc) (s_mem (ap_trampoline_prepare ap_boot_stacks tramp_start tramp_size data_offset ap_main_addr cpu sc)).
Proof.
  intros [Hr Ha [Ho Hs] _ _] x Hx. unfold ap_trampoline_prepare, in_copy in *.
  cbn [s_mem s_vmm s_set_mem s_set_s_vmm v_mach set_mach m_mem set_mem].
  unfold ab_entry, ab_cr3, ab_cpu_id, ab_stack_top. rewrite !ld8_stn.
  rewrite (memcpy_eq_copy _ _ _ _), ld8_copy by lia. in_range_cases; first [lia|done].
Qed.

(** A processor that has not found its way into the kernel. *)
Definition outside (p : ap_pc) : Prop := p = ApWait \/ p = ApStart \/ p = ApLost.

(** What is printed about a processor that did not report. *)
Definition absent (c : cpus) (i : nat) : list Z :=
  text "[smp] AP did not start, apic=" ++ dec_u64 (cpu_apic_id c (Z.of_nat i)) ++ [10].

Definition bsp_at (n : nat) (pc : bsp_pc) : nat :=
  match pc with
  | BPrepare c | BInit c | BSipi1 c | BSipi2 c | BWait c _ | BCheck c => c
  | BDone => n
  end.

(** [s] is [s0] but for the copy of the trampoline, the first processor's
    place, its interrupt commands and what it printed. *)
Record alone (n : nat) s0 s : Prop := {
  al_aps id p : sp_aps s !! id = Some p -> outside p;
  al_sched : sp_sched s = s_set_mem (s_mem (sp_sched s)) (sp_sched s0);
  al_mem : mem_kept (s_mem (sp_sched s0)) (s_mem (sp_sched s));
  al_cpus : sp_cpus s = sp_cpus s0;
  al_descs : sp_descs s = sp_descs s0;
  al_online : sp_online s = sp_online s0;
  al_at : (1 <= bsp_at n (sp_bsp s) <= n)%nat /\ (sp_bsp s <> BDone -> (bsp_at n (sp_bsp s) < n)%nat);
  al_out : sp_out s = sp_out s0 ++ concat (absent (sp_cpus s0) <$> seq 1 (bsp_at n (sp_bsp s) - 1))
}.

Context (n : nat) (s0 : smp A).
Context (Hll : link_layout (s_mem (sp_sched s0))).
Context (Hcount : cpu_count (sp_cpus s0) = Z.of_nat n).
Context (Hoff : forall c, (1 <= c < n)%nat -> online c s0 = false).

Lemma set_mem_again (m m' : mem) (sc : sched A) : s_set_mem m (s_set_mem m' sc) = s_set_mem m sc.
Proof. by destruct sc as [? ? ? ? ? [[? ?] ? ? ?] ? ?]. Qed.

Lemma alone_ap s id : alone n s0 s -> alone n s0 (step s (EvAp id)).
Proof.
  intros Hal. simpl. unfold ap_step. destruct (sp_aps s !! id) as [p|] eqn:Ea; [|done].
  destruct (al_aps _ _ _ Hal id p Ea) as [->|[->| ->]]; [done| |done].
  assert (Hz : ld64 (s_mem (sp_sched s)) (ab_entry record_addr) = 0).
  { rewrite <- (ll_zero _ Hll). apply ldn_ext. intros x Hx. apply (al_mem _ _ _ Hal). unfold in_copy, ab_entry in *.
    destruct Hll. cbn in Hx. lia. }
  unfold ap_trampoline. rewrite Hz, (proj2 (Z.eqb_neq 0 _)) by (apply not_eq_sym, Hll). cbn [andb].
  destruct Hal. constructor; try done. cbn. intros k q [[<- <-]|[_ Hk]]%lookup_insert_Some; [by right; right|by eapply al_aps0].
Qed.

Lemma alone_send s send effect pc : alone n s0 s -> bsp_at n pc = bsp_at n (sp_bsp s) -> pc <> BDone -> sp_bsp s <> BDone ->
  (forall a, exists aps, effect (sp_set_apic a s) = sp_set_aps aps (sp_set_apic a s) /\ forall k q, aps !! k = Some q -> outside q) ->
  alone n s0 (bsp_send send effect pc s).
Proof.
  intros Hal Hat Hpc Hd He. unfold bsp_send. destruct (send (sp_apic s)) as [a|]; [|done].
  destruct (He a) as (aps & -> & Haps). destruct Hal. constructor; cbn; rewrite ?Hat; try done.
  split; [apply al_at0|]. intros _. by apply al_at0.
Qed.

Lemma take_sipi_outside id a s : alone n s0 s -> exists aps,
  take_sipi id (sp_set_apic a s) = sp_set_aps aps (sp_set_apic a s) /\ forall k q, aps !! k = Some q -> outside q.
Proof.
  intros Hal. pose proof (al_aps _ _ _ Hal) as Ha. unfold take_sipi. cbn.
  destruct (sp_aps s !! id) as [[]|]; eexists; (split; [reflexivity|]); try exact Ha.
  intros k q [[<- <-]|[_ Hk]]%lookup_insert_Some; [by right; left|by eapply Ha].
Qed.

Lemma alone_bsp s : alone n s0 s -> alone n s0 (step s EvBsp).
Proof.
  intros Hal. pose proof (al_at _ _ _ Hal) as [Hat Hlt]. simpl. unfold bsp_step.
  assert (Hon : forall c, (1 <= c < n)%nat -> online c s = false).
  { intros c Hc. unfold online. rewrite (al_online _ _ _ Hal). by apply Hoff. }
  destruct (sp_bsp s) as [c|c|c|c|c t|c|] eqn:Eb; [..|done]; specialize (Hlt ltac:(done)); cbn [bsp_at] in Hat, Hlt.
  - pose proof (prepare_kept _ c (sp_sched s) Hll) as Hk. destruct Hal. rewrite Eb in *. constructor; cbn [sp_set_bsp sp_set_sched sp_sched sp_cpus sp_descs sp_online sp_bsp sp_aps sp_out bsp_at] in *; try done.
    + assert (Hp : forall sc : sched A, let sc' := ap_trampoline_prepare ap_boot_stacks tramp_start tramp_size data_offset ap_main_addr c sc in
        sc' = s_set_mem (s_mem sc') sc) by (intros sc; by destruct sc as [? ? ? ? ? [[? ?] ? ? ?] ? ?]).
      specialize (Hp (sp_sched s)). cbv zeta in Hp. set (m := s_mem (ap_trampoline_prepare _ _ _ _ _ _ _)) in *.
      rewrite Hp, al_sched0. apply set_mem_again.
    + intros x Hx. rewrite (Hk x Hx). by apply al_mem0.
  - apply alone_send; try done; try (by rewrite Eb). intros a. eexists. split; [reflexivity|]. cbn.
    intros k q [[<- <-]|[_ Hq]]%lookup_insert_Some; [by left|by eapply (al_aps _ _ _ Hal)].
  - apply alone_send; try done; try (by rewrite Eb). intros a. by apply take_sipi_outside.
  - apply alone_send; try done; try (by rewrite Eb). intros a. by apply take_sipi_outside.
  - rewrite Hon by lia. destruct Hal. rewrite Eb in *. case_b; by constructor.
  - rewrite Hon by lia. unfold bsp_next. cbn [sp_say sp_cpus]. rewrite (al_cpus _ _ _ Hal), Hcount.
    assert (Hnext : bsp_at n (if Z.of_nat (S c) <? Z.of_nat n then BPrepare (S c) else BDone) = S c).
    { case_b; cbn; [done|]. apply Z.ltb_ge in E. lia. }
    destruct Hal. rewrite Eb in *. constructor; cbn [sp_set_bsp sp_say sp_sched sp_cpus sp_descs sp_online sp_bsp sp_aps sp_out] in *; try done; rewrite Hnext.
    + split; [lia|]. case_b; [|done]. intros _. apply Z.ltb_lt in E. lia.
    + rewrite al_out0, <- app_assoc. f_equal. cbn [bsp_at]. replace (S c - 1)%nat with (S (c - 1)) by lia.
      rewrite seq_S, fmap_app, concat_app. f_equal. replace (1 + (c - 1))%nat with c by lia.
      symmetry. exact (app_nil_r (absent (sp_cpus s0) c)).
Qed.

Lemma alone_run evs s : alone n s0 s -> alone n s0 (run evs s).
Proof.
  revert s. induction evs as [|e evs IH]; intros s Hal; [done|]. apply IH. destruct e; [by apply alone_bsp|by apply alone_ap].
Qed.
End linked.

(** ** The first processor gets through

    Whatever the trampoline does, the loop of smp_init makes a bounded number
    of steps per processor: four before the wait, the wait of 2000000 rounds
    and its last test, and the report. *)

Section ends.
Context {A : Type} `{PageOps A}.
Context (lapic : Z -> list (Z * Z) -> Z -> Z) (ap_reset : Z -> apic) (bsp : Z) (fuel : nat).
Context (thread_addr : nat -> Z) (tss_addr df_stack ap_boot_stacks : nat -> Z) (now : Z).
Context (tramp_start tramp_size data_offset record_addr ap_main_addr : Z).
Implicit Types (s : smp A).

Abbreviation step := (smp_step lapic ap_reset bsp fuel thread_addr tss_addr df_stack ap_boot_stacks now
  tramp_start tramp_size data_offset record_addr ap_main_addr).
Abbreviation run := (smp_run lapic ap_reset bsp fuel thread_addr tss_addr df_stack ap_boot_stacks now
  tramp_start tramp_size data_offset record_addr ap_main_addr).

Definition steps_per_ap : Z := 2000006.

(** The first processor's own steps. *)
Fixpoint bsp_steps (evs : list smp_event) : Z :=
  match evs with [] => 0 | EvBsp :: evs' => 1 + bsp_steps evs' | EvAp _ :: evs' => bsp_steps evs' end.

Lemma bsp_steps_replicate k : bsp_steps (replicate k EvBsp) = Z.of_nat k.
Proof. induction k as [|k IH]; [done|]. cbn [replicate bsp_steps]. rewrite IH. lia. Qed.

Context (n : nat).

(** The steps left from a place in the loop. *)
Definition work (pc : bsp_pc) : Z :=
  (Z.of_nat n - Z.of_nat (bsp_at n pc)) * steps_per_ap -
  match pc with
  | BPrepare _ | BDone => 0 | BInit _ => 1 | BSipi1 _ => 2 | BSipi2 _ => 3
  | BWait _ t => 4 + (AP_TIMEOUT - t) | BCheck _ => steps_per_ap - 1
  end.

Record looping s : Prop := {
  lo_count : cpu_count (sp_cpus s) = Z.of_nat n;
  lo_at : sp_bsp s <> BDone -> (bsp_at n (sp_bsp s) < n)%nat;
  lo_wait c t : sp_bsp s = BWait c t -> 0 <= t <= AP_TIMEOUT
}.

Lemma work_pos s : looping s -> sp_bsp s <> BDone -> 0 < work (sp_bsp s).
Proof.
  intros [_ Ha Hw] Hd. specialize (Ha Hd). unfold work, steps_per_ap, AP_TIMEOUT in *.
  destruct (sp_bsp s) as [c|c|c|c|c t|c|]; cbn [bsp_at] in *; try (specialize (Hw c t eq_refl)); try done; lia.
Qed.

(** The other processors leave the loop alone. *)
Lemma ap_keeps s id : sp_bsp (step s (EvAp id)) = sp_bsp s /\ cpu_count (sp_cpus (step s (EvAp id))) = cpu_count (sp_cpus s).
Proof.
  simpl. unfold ap_step. destruct (sp_aps s !! id) as [[| |at_ cpu_id sp|]|]; try done.
  - unfold ap_trampoline. by case_b.
  - destruct at_; cbn [scheduler_ap_main]; unfold ap_goto, ap_apic_init, apic_init_ap, ap_register, cpu_set_online;
      repeat match goal with |- context [let '(_, _) := ?x in _] => destruct x as [[]] end; repeat case_b; done.
Qed.

Context (Hfree : forall log, Z.land (u32 (lapic bsp log APIC_REG_ICR_LOW)) APIC_ICR_DELIV_STATUS = 0).

Lemma bsp_works s : looping s -> sp_bsp s <> BDone ->
  looping (step s EvBsp) /\ work (sp_bsp (step s EvBsp)) <= work (sp_bsp s) - 1.
Proof.
  intros [Hc Ha Hw] Hd. specialize (Ha Hd). simpl. unfold bsp_step, bsp_send.
  assert (HI : forall a id, is_Some (apic_send_init (lapic bsp) fuel a id)) by (intros; by apply send_init_free).
  assert (HS : forall a id v, is_Some (apic_send_sipi (lapic bsp) fuel a id v)) by (intros; by apply send_sipi_free).
  assert (Htake : forall id s', sp_cpus (take_sipi id s') = sp_cpus s').
  { intros id s'. unfold take_sipi. by destruct (sp_aps s' !! id) as [[]|]. }
  destruct (sp_bsp s) as [c|c|c|c|c t|c|] eqn:Eb; [| | | | | |done]; cbn [bsp_at] in Ha.
  - split; [constructor; done|]. unfold work. cbn. lia.
  - destruct (HI (sp_apic s) (cpu_apic_id (sp_cpus s) (Z.of_nat c))) as [a ->]. split; [constructor; done|]. unfold work. cbn. lia.
  - destruct (HS (sp_apic s) (cpu_apic_id (sp_cpus s) (Z.of_nat c)) AP_TRAMPOLINE_VECTOR) as [a ->].
    split; [constructor; cbn; rewrite ?Htake; done|]. unfold work. cbn. lia.
  - destruct (HS (sp_apic s) (cpu_apic_id (sp_cpus s) (Z.of_nat c)) AP_TRAMPOLINE_VECTOR) as [a ->].
    split; [constructor; cbn; rewrite ?Htake; try done; intros c' t' [= _ <-]; unfold AP_TIMEOUT; lia|].
    unfold work, AP_TIMEOUT. cbn. lia.
  - specialize (Hw c t eq_refl). unfold work, steps_per_ap, AP_TIMEOUT in *. case_b; [|case_b].
    + split; [constructor; done|]. cbn. lia.
    + split; [constructor; done|]. cbn. lia.
    + apply Z.eqb_neq in E0. split; [constructor; try done; intros c' t' [= _ <-]; unfold AP_TIMEOUT; lia|]. cbn. lia.
  - set (s1 := if online c s then s else _). assert (H1 : sp_cpus s1 = sp_cpus s) by (subst s1; by case_b).
    unfold bsp_next. rewrite H1, Hc. unfold work, steps_per_ap. destruct (Z.ltb_spec (Z.of_nat (S c)) (Z.of_nat n)).
    + split; [|cbn; lia]. constructor; cbn; [by rewrite H1|intros _; lia|done].
    + split; [|cbn; lia]. constructor; cbn; [by rewrite H1|done|done].
Qed.

Lemma loop_ends evs : forall s, looping s -> work (sp_bsp s) <= bsp_steps evs -> sp_bsp (run evs s) = BDone.
Proof.
  induction evs as [|e evs IH]; intros s Hl Hk.
  - cbn in *. destruct (decide (sp_bsp s = BDone)) as [|Hd]; [done|]. pose proof (work_pos s Hl Hd). lia.
  - change (run (e :: evs) s) with (run evs (step s e)). destruct e as [|id]; cbn [bsp_steps] in Hk.
    + destruct (decide (sp_bsp s = BDone)) as [Hd|Hd].
      * assert (E : step s EvBsp = s) by (simpl; unfold bsp_step; by rewrite Hd). rewrite E. apply IH; [done|].
        rewrite Hd in Hk |- *. clear -evs. unfold work. cbn [bsp_at].
        assert (0 <= bsp_steps evs) by (induction evs as [|[] evs]; cbn; lia). lia.
      * destruct (bsp_works s Hl Hd) as [Hl' Hw]. apply IH; [done|lia].
    + destruct (ap_keeps s id) as [Eb Ec]. apply IH; [|by rewrite Eb]. destruct Hl as [H1 H2 H3].
      constructor; [by rewrite Ec|by rewrite Eb|by rewrite Eb].
Qed.
End ends.

(** ** The whole start *)

(** The state when smp_init is called: only the first processor runs. *)
Record only_first {A} `{PageOps A} (s : smp A) : Prop := {
  of_descs : length (gdt_tables (sp_descs s)) = 8%nat /\ length (tss_tables (sp_descs s)) = 8%nat;
  of_online : length (sp_online s) = 8%nat;
  of_aps : sp_aps s = ∅ /\ sp_apics s = ∅;
  of_sched : sok {[ O := O ]} (sp_sched s);
  of_slots : slots_used 1 (sp_sched s);
  of_boot : g_current (sp_sched s) !! 0%nat = Some (Some O);
  of_current c : (1 <= c < 8)%nat -> g_current (sp_sched s) !! c = Some None;
  of_ids : 1 <= g_next_id (sp_sched s) /\ g_next_id (sp_sched s) + 15 < 18446744073709551615;
  of_cr3 : is_u32 (vmm_kernel_cr3 (s_vmm (sp_sched s)))
}.

Section whole.
Context {A : Type} `{PageOps A}.
Context (lapic : Z -> list (Z * Z) -> Z -> Z) (ap_reset : Z -> apic) (bsp : Z) (fuel : nat).
Context (thread_addr : nat -> Z) (tss_addr df_stack ap_boot_stacks : nat -> Z) (now : Z).
Context (tramp_start tramp_size data_offset record_addr ap_main_addr : Z).

Lemma begin_online n l : (1 <= n <= 8)%nat -> length l = 8%nat ->
  forall c, (1 <= c < n)%nat ->
    for_range 0 (Z.of_nat n) (fun c l => <[Z.to_nat c := if c =? 0 then 1 else 0]> l) l !! c = Some 0.
Proof.
  intros Hn Hl c Hc.
  assert (Hg : length (for_range 0 (Z.of_nat n) (fun c l => <[Z.to_nat c := if c =? 0 then 1 else 0]> l) l) = 8%nat /\
    (Z.of_nat c < Z.of_nat n -> for_range 0 (Z.of_nat n) (fun c l => <[Z.to_nat c := if c =? 0 then 1 else 0]> l) l !! c = Some 0)).
  { apply (for_range_ind (fun i l => length l = 8%nat /\ (Z.of_nat c < i -> l !! c = Some 0))); [lia|split; [done|lia]|].
    intros i l' Hi [Hl' Hc']. rewrite length_insert. split; [done|]. intros Hlt. destruct (decide (c = Z.to_nat i)) as [->|Hne].
    - rewrite list_lookup_insert_eq by lia. by rewrite (proj2 (Z.eqb_neq _ _)) by lia.
    - rewrite list_lookup_insert_ne by done. apply Hc'. lia. }
  apply Hg. lia.
Qed.

Lemma begin_inv s c : only_first s -> cpus_fresh c -> sp_cpus s = c ->
  inv tss_addr ap_boot_stacks record_addr ap_main_addr (Z.to_nat (g_cpu_count c)) (fun k => cpu_apic_id c (Z.of_nat k)) (smp_begin s).
Proof.
  intros [] [] Hsc. pose proof cf_wf0 as []. set (n := Z.to_nat (g_cpu_count c)).
  assert (Hn : (1 <= n <= 8)%nat) by lia. assert (Hgn : g_cpu_count c = Z.of_nat n) by lia.
  assert (Hcount : cpu_count c = Z.of_nat n) by (unfold cpu_count; rewrite Hgn; by rewrite (proj2 (Z.eqb_neq _ _)) by lia).
  unfold smp_begin. rewrite Hsc, Hcount. destruct of_aps0 as [Haps Hapics]. split; simpl.
  - rewrite Haps. case_b; [apply Z.ltb_lt in E|apply Z.ltb_ge in E]; constructor; simpl; try done; try lia; by split; [lia|].
  - rewrite Hsc, Hapics. apply facts_ext with (lv := fun _ => O).
    { intros k Hk. unfold lev. simpl. rewrite Haps. by rewrite lookup_empty. }
    constructor; try done; try (intros k Hk; simpl; lia).
    + intros k Hk. unfold cpu_apic_id. by rewrite (proj2 (Z.leb_gt _ _)) by lia.
    + intros k Hk. simpl. rewrite cf_rest0 by lia. done.
    + intros k Hk. simpl. by apply begin_online.
    + exists 1%nat. split_and!; try done; try lia.
      * intros k Hk. destruct (decide (k < 1)%nat) as [Hk1|Hk1].
        -- replace k with O by lia. exact of_boot0.
        -- apply of_current0. lia.
Qed.

Abbreviation init := (smp_init lapic ap_reset bsp fuel thread_addr tss_addr df_stack ap_boot_stacks now
  tramp_start tramp_size data_offset record_addr ap_main_addr).
Abbreviation run := (smp_run lapic ap_reset bsp fuel thread_addr tss_addr df_stack ap_boot_stacks now
  tramp_start tramp_size data_offset record_addr ap_main_addr).
Abbreviation prompt_run := (prompt lapic ap_reset bsp fuel thread_addr tss_addr df_stack ap_boot_stacks now
  tramp_start tramp_size data_offset record_addr ap_main_addr).

(** The loop starts from a state in which the first processor is alone. *)
Lemma begin_alone s c : only_first s -> cpus_fresh c -> sp_cpus s = c ->
  let n := Z.to_nat (g_cpu_count c) in
  cpu_count c = Z.of_nat n /\ (forall k, (1 <= k < n)%nat -> online k (smp_begin s) = false) /\
  alone tramp_size n (smp_begin s) (smp_begin s).
Proof.
  intros [] [] Hsc n. pose proof cf_wf0 as []. assert (Hn : (1 <= n <= 8)%nat) by lia.
  assert (Hcount : cpu_count c = Z.of_nat n) by (unfold cpu_count; rewrite (proj2 (Z.eqb_neq _ _)) by lia; lia).
  split; [done|]. split.
  - intros k Hk. unfold online, smp_begin. rewrite Hsc, Hcount. cbn [sp_set_bsp sp_set_online sp_online].
    by rewrite (nth_lookup_Some _ _ _ _ (begin_online n (sp_online s) Hn of_online0 k Hk)).
  - destruct of_aps0 as [Haps _]. assert (Hat : bsp_at n (sp_bsp (smp_begin s)) = 1%nat).
    { unfold smp_begin. rewrite Hsc, Hcount. cbn. case_b; cbn; [done|]. apply Z.ltb_ge in E. lia. }
    constructor; try done; rewrite ?Hat.
    + cbn. rewrite Haps. intros id p Hp. by rewrite lookup_empty in Hp.
    + cbn. by destruct (sp_sched s) as [? ? ? ? ? [[? ?] ? ? ?] ? ?].
    + split; [lia|]. unfold smp_begin. rewrite Hsc, Hcount. cbn. case_b; [|done]. apply Z.ltb_lt in E. lia.
    + cbn [Nat.sub seq fmap list_fmap concat]. by rewrite app_nil_r.
Qed.

(** Only the first processor of a fresh table is on line. *)
Lemma fresh_online c : cpus_fresh c -> cpu_online_count c = 1.
Proof.
  intros []. pose proof cf_wf0 as []. unfold cpu_online_count. rewrite cw_online.
  destruct (Z.to_nat (g_cpu_count c)) as [|k]; [done|]. cbn [count_up]. rewrite cf_first0.
  assert (Hz : forall k lo, 1 <= lo -> count_up k lo (fun i => ci_online (cpu_at c i)) = 0).
  { induction k0 as [|k0 IH]; intros lo Hlo; [done|]. cbn [count_up]. rewrite cf_rest0, IH by lia. done. }
  by rewrite Hz by lia.
Qed.

(** What smp_init leaves of the state it was given: all of it but the copy of
    the trampoline, the processors' table and the console. *)
Record first_only (s s' : smp A) : Prop := {
  fo_aps id p : sp_aps s' !! id = Some p -> outside p;
  fo_sched : sp_sched s' = s_set_mem (s_mem (sp_sched s')) (sp_sched s);
  fo_mem : mem_kept tramp_size (s_mem (sp_sched s)) (s_mem (sp_sched s'));
  fo_descs : sp_descs s' = sp_descs s;
  fo_online : cpu_online_count (sp_cpus s') = 1
}.

Lemma run_alone evs (s : smp A) a c out ok :
  only_first s ->
  smp_detect lapic bsp (s_mem (sp_sched s)) (sp_apic s) (sp_cpus s) = (a, c, out, ok) ->
  link_layout tramp_start tramp_size data_offset record_addr ap_main_addr (s_mem (sp_sched s)) ->
  let s0 := smp_begin (sp_say out (sp_set_cpus c (sp_set_apic a s))) in
  let n := Z.to_nat (g_cpu_count c) in
  cpu_count c = Z.of_nat n /\ alone tramp_size n s0 (run evs s0).
Proof.
  intros Hof Hdet Hll s0 n.
  assert (H0 : only_first (sp_say out (sp_set_cpus c (sp_set_apic a s)))) by (destruct Hof; by constructor).
  destruct (begin_alone _ c H0 (detect_fresh _ _ _ _ _ _ _ _ _ Hdet) eq_refl) as (Hcount & Hoff & Hal).
  split; [exact Hcount|]. by apply (alone_run _ _ _ _ _ _ _ _ _ _ _ _ _ _ _ s0).
Qed.

Lemma init_first evs (s : smp A) :
  only_first s -> link_layout tramp_start tramp_size data_offset record_addr ap_main_addr (s_mem (sp_sched s)) ->
  first_only s (snd (init evs s)).
Proof.
  intros Hof Hll. destruct (smp_detect lapic bsp (s_mem (sp_sched s)) (sp_apic s) (sp_cpus s)) as [[[a c] out] ok] eqn:Hdet.
  pose proof (fresh_online c (detect_fresh _ _ _ _ _ _ _ _ _ Hdet)) as Hon. unfold smp_init. rewrite Hdet. destruct ok.
  - destruct (run_alone evs s a c out true Hof Hdet Hll) as [_ []]. constructor; cbn [snd sp_say sp_aps sp_sched sp_descs sp_cpus]; try done.
    by rewrite al_cpus0.
  - destruct Hof as [? ? [Haps _] _ _ _ _ _ _]. constructor; try done.
    + intros id p Hp. cbn in Hp. by rewrite Haps, lookup_empty in Hp.
    + cbn. by destruct (sp_sched s) as [? ? ? ? ? [[? ?] ? ? ?] ? ?].
Qed.


(** C24: the first processor gets through.  Wherever the record is and
    whatever the other processors do, when the controller accepts commands
    smp_init leaves its loop after at most 2000006 steps of its own for each
    other processor the firmware lists: the preparation, three commands, the
    2000000 rounds of the wait with its last test, and the report. *)
Theorem smp_init_ends evs (s : smp A) a c out :
  smp_detect lapic bsp (s_mem (sp_sched s)) (sp_apic s) (sp_cpus s) = (a, c, out, true) ->
  (forall log, Z.land (u32 (lapic bsp log APIC_REG_ICR_LOW)) APIC_ICR_DELIV_STATUS = 0) ->
  (g_cpu_count c - 1) * steps_per_ap <= bsp_steps evs ->
  sp_bsp (snd (init evs s)) = BDone.
Proof.
  intros Hdet Hfree Hsteps. unfold smp_init. rewrite Hdet. cbn [snd sp_say sp_bsp].
  pose proof (detect_fresh _ _ _ _ _ _ _ _ _ Hdet) as [[] _ _ _]. set (s0 := sp_say out _). set (n := Z.to_nat (g_cpu_count c)).
  assert (Hcount : cpu_count c = Z.of_nat n) by (unfold cpu_count; rewrite (proj2 (Z.eqb_neq _ _)) by lia; lia).
  assert (Hb : sp_bsp (smp_begin s0) = if 1 <? Z.of_nat n then BPrepare 1 else BDone).
  { unfold smp_begin. cbn. by rewrite Hcount. }
  apply (loop_ends _ _ _ _ _ _ _ _ _ _ _ _ _ _ n Hfree).
  - constructor; [exact Hcount| |]; rewrite Hb; case_b; try done. cbn [bsp_at]. intros _. apply Z.ltb_lt in E. lia.
  - rewrite Hb. unfold work, steps_per_ap in *. case_b; cbn [bsp_at]; lia.
Qed.

(** Whether or not processors were found, the threads are in order when
    smp_init returns. *)
Lemma smp_init_threads evs (s : smp A) :
  only_first s -> link_layout tramp_start tramp_size data_offset record_addr ap_main_addr (s_mem (sp_sched s)) ->
  let s' := snd (init evs s) in
  sok (idle_upto 1) (sp_sched s') /\ 1 <= g_next_id (sp_sched s') < 18446744073709551615 - 8.
Proof.
  intros Hof Hll. cbv zeta. rewrite (fo_sched _ _ (init_first evs s Hof Hll)). destruct Hof. split; [exact of_sched0|]. cbn. lia.
Qed.

(** ** The protocol with a trampoline that finds its record

    How the start was meant to go: the same steps with the record where
    smp_init writes it ([machine_ok]).  This is not the linked program. *)

(** The processors the firmware lists come up as themselves.  In whatever
    order the first processor and the others take their steps, as long as
    no wait runs out, a processor in the kernel has the index of its own
    controller and runs on its own stack; and when the loop is left all of
    them are on line, each finds its index, runs its bootstrap thread, has its
    own segments and task segment, and the threads are in order. *)
Theorem smp_init_correct evs (s : smp A) a c out :
  only_first s ->
  smp_detect lapic bsp (s_mem (sp_sched s)) (sp_apic s) (sp_cpus s) = (a, c, out, true) ->
  machine_ok lapic ap_reset tss_addr ap_boot_stacks data_offset record_addr ap_main_addr (Z.to_nat (g_cpu_count c))
    (fun k => cpu_apic_id c (Z.of_nat k)) ->
  prompt_run evs (smp_begin (sp_say out (sp_set_cpus c (sp_set_apic a s)))) = true ->
  let '(count, enabled, s') := init evs s in
  let n := Z.to_nat count in
  count = cpu_count c /\ enabled = (1 <? count) /\
  (forall id at_ k sp, sp_aps s' !! id = Some (ApMain at_ k sp) -> exists i, (1 <= i < n)%nat /\
     id = cpu_apic_id c (Z.of_nat i) /\ k = Z.of_nat i /\ sp = ap_boot_stacks i + AP_BOOT_STACK_SIZE) /\
  (sp_bsp s' = BDone -> cpu_online_count (sp_cpus s') = count /\ sok (idle_upto n) (sp_sched s') /\
     forall i, (1 <= i < n)%nat ->
       cpu_current_id (sp_cpus s') (cpu_apic_id c (Z.of_nat i)) = Z.of_nat i /\ g_current (sp_sched s') !! i = Some (Some i) /\
       (exists gdt, gdt_tables (sp_descs s') !! i = Some gdt /\ gdt_good (tss_addr i) gdt) /\
       Desc.tss_rsp0 <$> tss_tables (sp_descs s') !! i = Some (ap_boot_stacks i + AP_BOOT_STACK_SIZE)).
Proof.
  intros Hof Hdet Hmo Hpr. unfold smp_init. rewrite Hdet. cbv zeta.
  pose proof (detect_fresh _ _ _ _ _ _ _ _ _ Hdet) as Hfr. pose proof Hfr as [[]].
  assert (Hcount : cpu_count c = g_cpu_count c) by (unfold cpu_count; by rewrite (proj2 (Z.eqb_neq _ _)) by lia).
  set (s0 := sp_say out _) in *. assert (H0 : only_first s0) by (destruct Hof; by constructor).
  pose proof (begin_inv s0 c H0 Hfr eq_refl) as Hinv.
  pose proof (run_inv _ _ _ _ _ _ _ _ _ _ _ _ _ _ _ _ Hmo evs _ Hinv Hpr) as Hi.
  rewrite Hcount. split; [done|]. split; [done|]. cbn [sp_aps sp_bsp sp_cpus sp_sched sp_descs sp_say]. split.
  - intros id at_ k sp Ea. exact (inv_identity _ _ _ _ _ _ _ _ _ _ _ Hi Ea).
  - intros Hd. destruct (inv_done _ _ _ _ _ _ _ Hi Hd) as (Ho & Hok & Hall).
    split; [rewrite Ho; lia|]. split; [done|]. exact Hall.
Qed.

(** The start never gets stuck: after any steps in which no wait ran out
    the processors can take further ones that bring the first processor out
    of the loop, with all of them up, when its controller accepts
    commands. *)
Theorem smp_init_can_finish evs (s : smp A) a c out :
  only_first s ->
  smp_detect lapic bsp (s_mem (sp_sched s)) (sp_apic s) (sp_cpus s) = (a, c, out, true) ->
  machine_ok lapic ap_reset tss_addr ap_boot_stacks data_offset record_addr ap_main_addr (Z.to_nat (g_cpu_count c))
    (fun k => cpu_apic_id c (Z.of_nat k)) ->
  (forall log, Z.land (u32 (lapic bsp log APIC_REG_ICR_LOW)) APIC_ICR_DELIV_STATUS = 0) ->
  prompt_run evs (smp_begin (sp_say out (sp_set_cpus c (sp_set_apic a s)))) = true ->
  exists evs', prompt_run (evs ++ evs') (smp_begin (sp_say out (sp_set_cpus c (sp_set_apic a s)))) = true /\
    sp_bsp (snd (init (evs ++ evs') s)) = BDone.
Proof.
  intros Hof Hdet Hmo Hfree Hpr. pose proof (detect_fresh _ _ _ _ _ _ _ _ _ Hdet) as Hfr.
  set (s0 := sp_say out _) in *. assert (H0 : only_first s0) by (destruct Hof; by constructor).
  pose proof (begin_inv s0 c H0 Hfr eq_refl) as Hinv.
  pose proof (run_inv _ _ _ _ _ _ _ _ _ _ _ _ _ _ _ _ Hmo evs _ Hinv Hpr) as Hi.
  destruct (can_finish lapic ap_reset bsp fuel thread_addr tss_addr df_stack ap_boot_stacks now tramp_start tramp_size
    data_offset record_addr ap_main_addr _ _ Hmo Hfree _ _ Hi (Nat.le_refl _)) as (evs' & Hpr' & Hend).
  exists evs'. split; [by rewrite prompt_app, Hpr|]. unfold smp_init. rewrite Hdet. simpl. fold s0. by rewrite run_app.
Qed.

(** A wait that runs out while its processor is in the trampoline: the record
    is rewritten for the next one and both take it. *)
Theorem smp_late_shares evs (s : smp A) a c out i k :
  only_first s ->
  smp_detect lapic bsp (s_mem (sp_sched s)) (sp_apic s) (sp_cpus s) = (a, c, out, true) ->
  machine_ok lapic ap_reset tss_addr ap_boot_stacks data_offset record_addr ap_main_addr (Z.to_nat (g_cpu_count c))
    (fun k => cpu_apic_id c (Z.of_nat k)) ->
  (forall log, Z.land (u32 (lapic bsp log APIC_REG_ICR_LOW)) APIC_ICR_DELIV_STATUS = 0) ->
  let s0 := smp_begin (sp_say out (sp_set_cpus c (sp_set_apic a s))) in
  let s1 := smp_run lapic ap_reset bsp fuel thread_addr tss_addr df_stack ap_boot_stacks now
              tramp_start tramp_size data_offset record_addr ap_main_addr evs s0 in
  prompt_run evs s0 = true -> sp_bsp s1 = BWait i (Z.of_nat k) -> Z.of_nat (S i) < g_cpu_count c ->
  sp_aps s1 !! cpu_apic_id c (Z.of_nat i) = Some ApStart ->
  exists evs', let s2 := snd (init (evs ++ evs') s) in
    let next := ApMain MOnline (Z.of_nat (S i)) (ap_boot_stacks (S i) + AP_BOOT_STACK_SIZE) in
    sp_aps s2 !! cpu_apic_id c (Z.of_nat i) = Some next /\ sp_aps s2 !! cpu_apic_id c (Z.of_nat (S i)) = Some next /\
    cpu_apic_id c (Z.of_nat i) <> cpu_apic_id c (Z.of_nat (S i)).
Proof.
  intros Hof Hdet Hmo Hfree s0 s1 Hpr Hb Hlt Ea. pose proof (detect_fresh _ _ _ _ _ _ _ _ _ Hdet) as Hfr.
  assert (H0 : only_first (sp_say out (sp_set_cpus c (sp_set_apic a s)))) by (destruct Hof; by constructor).
  pose proof (begin_inv _ c H0 Hfr eq_refl) as Hinv.
  pose proof (run_inv _ _ _ _ _ _ _ _ _ _ _ _ _ _ _ _ Hmo evs _ Hinv Hpr) as Hi.
  destruct (late_takes_next lapic ap_reset bsp fuel thread_addr tss_addr df_stack ap_boot_stacks now tramp_start tramp_size
    data_offset record_addr ap_main_addr _ _ Hmo Hfree s1 i k Hi Hb) as (evs' & E1 & E2 & E3); [lia|done|].
  exists evs'. unfold smp_init. rewrite Hdet. simpl. rewrite run_app. by split_and!.
Qed.

End whole.

(** ** After scheduler_init *)

Lemma init_slots {A} `{PageOps A} thread_addr bottom top now (s0 : sched A) :
  slots_used 1 (scheduler_init thread_addr bottom top now s0) /\
  g_current (scheduler_init thread_addr bottom top now s0) = Some O :: replicate 7 None /\
  g_next_id (scheduler_init thread_addr bottom top now s0) = g_next_id s0.
Proof.
  pose proof (init_core thread_addr bottom top now s0) as Hc. set (s := scheduler_init thread_addr bottom top now s0) in *. clearbody s.
  pose proof (f_equal a_ts Hc) as Hts. cbn [a_ts core] in Hts. split; [|split; [exact (f_equal a_cur Hc)|exact (f_equal a_nid Hc)]].
  intros i t Et. assert (Ev : (view <$> g_threads s) !! i = Some (view t)) by (by rewrite list_lookup_fmap, Et).
  rewrite Hts in Ev. apply (f_equal (fmap v_st)) in Ev. cbn [view fmap option_fmap option_map v_st] in Ev. destruct i as [|i].
  - simpl in Ev. injection Ev as <-. split; [done|lia].
  - cbn [lookup list_lookup] in Ev. destruct (replicate 63 _ !! i) as [v|] eqn:Er; [|done]. apply lookup_replicate in Er as [-> _].
    injection Ev as <-. split; [lia|done].
Qed.

(** ** Two processors *)

Definition demo_lapic (id : Z) (_ : list (Z * Z)) (r : Z) : Z := if r =? APIC_REG_ID then Z.shiftl id 24 else 0.
Definition demo_stacks (c : nat) : Z := 131072 + 16384 * Z.of_nat c.
Definition demo_tss (c : nat) : Z := 1048576 + 128 * Z.of_nat c.
Definition demo_smp : smp pmm :=
  mk_smp (s_set_mem demo_mp_mem lab_boot) (mk_cpus [] 0 0 0 false) (mk_descs (replicate 8 []) (replicate 8 zero_tss))
    (mk_apic 0 4276092928 []) ∅ (replicate 8 0) BDone ∅ [].
(** The steps of a start that works. *)
Definition demo_events : list smp_event :=
  [EvBsp; EvBsp; EvBsp; EvAp 1; EvBsp; EvAp 1; EvBsp; EvAp 1; EvAp 1; EvAp 1; EvAp 1; EvBsp; EvBsp].

Lemma demo_only_first : only_first demo_smp.
Proof.
  destruct (init_slots lab_addr 262144 278528 0 lab0) as (Hs & Hc & Hi).
  constructor; try done.
  - apply (init_ok lab_addr 262144 278528 0 lab0). cbn. lia.
  - simpl. change (g_current (scheduler_init lab_addr 262144 278528 0 lab0)) with (Some O :: replicate 7 (@None nat)).
    intros c Hk. do 8 (destruct c as [|c]; [first [lia|done]|]). lia.
Qed.

Lemma demo_machine c : g_cpu_count c = 2 -> cpu_apic_id c 0 = 0 -> cpu_apic_id c 1 = 1 ->
  machine_ok demo_lapic (fun _ => mk_apic 0 4276092928 []) demo_tss demo_stacks 32 28704 1052672 (Z.to_nat (g_cpu_count c))
    (fun k => cpu_apic_id c (Z.of_nat k)).
Proof.
  intros -> H0 H1. constructor; try done.
  - intros k Hk. unfold demo_stacks, AP_BOOT_STACK_SIZE, is_u64. lia.
  - intros k Hk. unfold demo_tss, is_u64. lia.
  - intros k log Hk. assert (k = 0 \/ k = 1)%nat as [-> | ->] by lia.
    + change (Z.of_nat 0) with 0. rewrite H0. reflexivity.
    + change (Z.of_nat 1) with 1. rewrite H1. reflexivity.
Qed.

Lemma demo_detect : exists a c out,
  smp_detect demo_lapic 0 (s_mem (sp_sched demo_smp)) (sp_apic demo_smp) (sp_cpus demo_smp) = (a, c, out, true) /\
  g_cpu_count c = 2 /\ cpu_apic_id c 0 = 0 /\ cpu_apic_id c 1 = 1.
Proof. do 3 eexists. split; [vm_compute; reflexivity|]. split_and!; vm_compute; reflexivity. Qed.


Abbreviation demo_linked := (smp_init demo_lapic (fun _ => mk_apic 0 4276092928 []) 0 O lab_addr demo_tss demo_tss demo_stacks 0
  1048576 64 32 1048608 1052672).



(** The same, left to itself: the first processor comes out of its loop. *)
Lemma smp_init_ends_witness :
  exists evs, bsp_steps evs = steps_per_ap /\ sp_bsp (snd (demo_linked evs demo_smp)) = BDone.
Proof.
  destruct demo_detect as (a & c & out & Ed & Hc & _). exists (replicate (Z.to_nat steps_per_ap) EvBsp).
  assert (Hs : bsp_steps (replicate (Z.to_nat steps_per_ap) EvBsp) = steps_per_ap)
    by (rewrite bsp_steps_replicate; unfold steps_per_ap; lia).
  split; [exact Hs|]. revert Hs. generalize (replicate (Z.to_nat steps_per_ap) EvBsp). intros evs Hs.
  apply (smp_init_ends demo_lapic (fun _ => mk_apic 0 4276092928 []) 0 O lab_addr demo_tss demo_tss demo_stacks 0
    1048576 64 32 1048608 1052672 _ demo_smp a c out Ed).
  - intros log. reflexivity.
  - rewrite Hc, Hs. lia.
Defined.

(** *** With a trampoline that finds its record *)

Abbreviation demo_init := (smp_init demo_lapic (fun _ => mk_apic 0 4276092928 []) 0 O lab_addr demo_tss demo_tss demo_stacks 0
  1048576 64 32 28704 1052672).

Lemma demo_prompt a c out :
  smp_detect demo_lapic 0 (s_mem (sp_sched demo_smp)) (sp_apic demo_smp) (sp_cpus demo_smp) = (a, c, out, true) ->
  prompt demo_lapic (fun _ => mk_apic 0 4276092928 []) 0 O lab_addr demo_tss demo_tss demo_stacks 0 1048576 64 32 28704 1052672
    demo_events (smp_begin (sp_say out (sp_set_cpus c (sp_set_apic a demo_smp)))) = true.
Proof. intros Ed. vm_compute in Ed. injection Ed as <- <- <-. vm_compute. reflexivity. Qed.

Lemma smp_init_correct_witness :
  sp_bsp (snd (demo_init demo_events demo_smp)) = BDone /\
  cpu_online_count (sp_cpus (snd (demo_init demo_events demo_smp))) = 2 /\
  g_current (sp_sched (snd (demo_init demo_events demo_smp))) !! 1%nat = Some (Some 1%nat).
Proof.
  destruct demo_detect as (a & c & out & Ed & Hc & H0 & H1).
  assert (Hw := smp_init_correct demo_lapic (fun _ => mk_apic 0 4276092928 []) 0 O lab_addr demo_tss demo_tss demo_stacks 0
    1048576 64 32 28704 1052672 demo_events demo_smp a c out demo_only_first Ed (demo_machine c Hc H0 H1) (demo_prompt a c out Ed)).
  assert (Hd : sp_bsp (snd (demo_init demo_events demo_smp)) = BDone) by (vm_compute; reflexivity).
  assert (Hn : fst (fst (demo_init demo_events demo_smp)) = 2) by (vm_compute; reflexivity).
  split; [exact Hd|]. revert Hw Hd Hn. generalize (demo_init demo_events demo_smp). intros [[count en] s'] Hw Hd Hn.
  cbn [fst snd] in *. subst count. destruct Hw as (_ & _ & _ & Hdone). destruct (Hdone Hd) as (Ho & _ & Hall).
  split; [exact Ho|]. apply (Hall 1%nat). lia.
Defined.

(** From the moment both wait for each other. *)
Lemma smp_init_can_finish_witness :
  exists evs', sp_bsp (snd (demo_init (take 5 demo_events ++ evs') demo_smp)) = BDone.
Proof.
  destruct demo_detect as (a & c & out & Ed & Hc & H0 & H1).
  destruct (smp_init_can_finish demo_lapic (fun _ => mk_apic 0 4276092928 []) 0 O lab_addr demo_tss demo_tss demo_stacks 0
    1048576 64 32 28704 1052672 (take 5 demo_events) demo_smp a c out demo_only_first Ed (demo_machine c Hc H0 H1)) as (evs' & _ & Hend).
  - intros log. vm_compute. reflexivity.
  - clear - Ed. vm_compute in Ed. injection Ed as <- <- <-. vm_compute. reflexivity.
  - exists evs'. exact Hend.
Defined.
