(* ===== verification/Stubs.v ===== *)
(** * System calls from user programs (user/syscall.h, interrupts.S)

    The inline functions with which a program calls the kernel, down to the
    registers they load before the interrupt instruction, and the frame the
    entry stub of the kernel makes of those registers on the thread's kernel
    stack.  The dispatcher of Dispatch.v runs on that frame, and the return
    stub loads the registers of the frame it answers.

    The theorems connect the two ends: a call of a program reaches the
    handler of the same name with the arguments in the registers where that
    handler looks, and what the handler answers is what the program gets. *)

From stdpp Require Import prelude list strings gmap.
From Stdlib Require Import ZArith Lia.
From S2P Require Import Prelude Lib Alloc Pmm Vmm Ring Net Io Input Time Vfs Sched SchedSpec SchedProc Devfs Console Irq Smp Syscall SyscallSpec Dispatch.
#[local] Open Scope Z_scope.
#[local] Open Scope cint_scope.

(** ** Registers *)

Record regs := mk_regs {
  r15 : Z; r14 : Z; r13 : Z; r12 : Z; r11 : Z; r10 : Z; r9 : Z; r8 : Z;
  rsi : Z; rdi : Z; rbp : Z; rdx : Z; rcx : Z; rbx : Z; rax : Z;
  rip : Z; rflags : Z; rsp : Z
}.

(** The registers a call loads; the others are the program's. *)
Definition load_args (num a1 a2 a3 a4 a5 a6 : Z) (r : regs) : regs :=
  mk_regs (r15 r) (r14 r) (r13 r) (r12 r) (r11 r) a4 a6 a5 a2 a1 (rbp r) a3 (rcx r) (rbx r) num (rip r) (rflags r) (rsp r).

Definition sys_call3 (num a1 a2 a3 : Z) (r : regs) : regs :=
  load_args (u64 num) (u64 a1) (u64 a2) (u64 a3) (r10 r) (r8 r) (r9 r) r.
Definition sys_call6 (num a1 a2 a3 a4 a5 a6 : Z) (r : regs) : regs :=
  load_args (u64 num) (u64 a1) (u64 a2) (u64 a3) (u64 a4) (u64 a5) (u64 a6) r.
Definition sys_call1 (num a1 : Z) (r : regs) : regs :=
  load_args (u64 num) (u64 a1) (rsi r) (rdx r) (r10 r) (r8 r) (r9 r) r.

(** ** The stubs

    Pointers and integers as passed; [prot] of mmap is an int, which the
    conversion to int64_t extends. *)

Definition NUM_write : Z := 1.
Definition NUM_exit : Z := 2.
Definition NUM_yield : Z := 3.
Definition NUM_brk : Z := 4.
Definition NUM_fork : Z := 5.
Definition NUM_execve : Z := 6.
Definition NUM_waitpid : Z := 7.
Definition NUM_gettimeofday : Z := 8.
Definition NUM_sleep : Z := 9.
Definition NUM_close : Z := 17.
Definition NUM_open : Z := 18.
Definition NUM_read : Z := 19.
Definition NUM_lseek : Z := 20.
Definition NUM_getpid : Z := 21.
Definition NUM_uname : Z := 22.
Definition NUM_sysinfo : Z := 23.
Definition NUM_mmap : Z := 24.
Definition NUM_kill : Z := 25.
Definition NUM_readdir : Z := 26.
Definition NUM_netif_get : Z := 27.
Definition NUM_netif_set : Z := 28.
Definition NUM_route_get : Z := 29.
Definition NUM_route_add : Z := 30.
Definition NUM_net_socket_get : Z := 31.

Definition u_sys_yield : regs -> regs := sys_call3 NUM_yield 0 0 0.
Definition u_sys_write (fd buf len : Z) : regs -> regs := sys_call3 NUM_write fd buf len.
Definition u_sys_brk (end_ : Z) : regs -> regs := sys_call1 NUM_brk end_.
Definition u_sys_fork : regs -> regs := sys_call1 NUM_fork 0.
Definition u_sys_execve (path : Z) : regs -> regs := sys_call3 NUM_execve path 0 0.
Definition u_sys_waitpid (pid status : Z) : regs -> regs := sys_call3 NUM_waitpid pid status 0.
Definition u_sys_open (path flags : Z) : regs -> regs := sys_call3 NUM_open path flags 0.
Definition u_sys_read (fd buf len : Z) : regs -> regs := sys_call3 NUM_read fd buf len.
Definition u_sys_close (fd : Z) : regs -> regs := sys_call1 NUM_close fd.
Definition u_sys_readdir (fd buf len : Z) : regs -> regs := sys_call3 NUM_readdir fd buf len.
Definition u_sys_lseek (fd offset whence : Z) : regs -> regs := sys_call3 NUM_lseek fd offset whence.
Definition u_sys_getpid : regs -> regs := sys_call1 NUM_getpid 0.
Definition u_sys_uname (info : Z) : regs -> regs := sys_call1 NUM_uname info.
Definition u_sys_sysinfo (info : Z) : regs -> regs := sys_call1 NUM_sysinfo info.
Definition u_sys_gettimeofday (tv : Z) : regs -> regs := sys_call1 NUM_gettimeofday tv.
Definition u_sys_sleep (ms : Z) : regs -> regs := sys_call1 NUM_sleep ms.
Definition u_sys_mmap (addr len prot : Z) : regs -> regs := sys_call6 NUM_mmap addr len (i32 prot) 0 0 0.
Definition u_sys_kill (pid sig : Z) : regs -> regs := sys_call3 NUM_kill pid sig 0.
Definition u_sys_netif_get (index info : Z) : regs -> regs := sys_call3 NUM_netif_get index info 0.
Definition u_sys_netif_set (req : Z) : regs -> regs := sys_call3 NUM_netif_set req 0 0.
Definition u_sys_route_get (index route : Z) : regs -> regs := sys_call3 NUM_route_get index route 0.
Definition u_sys_route_add (route : Z) : regs -> regs := sys_call3 NUM_route_add route 0 0.
Definition u_sys_net_socket_get (index info : Z) : regs -> regs := sys_call3 NUM_net_socket_get index info 0.
Definition u_sys_exit (code : Z) : regs -> regs := sys_call1 NUM_exit code.

(** ** Entry and return (interrupts.S)

    The words of a frame from its address up, as the processor and the stub
    of vector [vec] push them on an entry from user mode. *)

Definition frame_words (vec : Z) (r : regs) : list Z :=
  [r15 r; r14 r; r13 r; r12 r; r11 r; r10 r; r9 r; r8 r; rsi r; rdi r; rbp r; rdx r; rcx r; rbx r; rax r;
   vec; 0; rip r; GDT_SEL_UCODE; rflags r; rsp r; GDT_SEL_UDATA].

Fixpoint st_words (m : mem) (a : Z) (ws : list Z) : mem :=
  match ws with
  | [] => m
  | w :: ws' => st_words (st64 m a w) (a + 8) ws'
  end.

Definition isr_return (m : mem) (f : Z) : regs :=
  let w k := ld64 m (f + 8 * k) in
  mk_regs (w 0) (w 1) (w 2) (w 3) (w 4) (w 5) (w 6) (w 7) (w 8) (w 9) (w 10) (w 11) (w 12) (w 13) (w 14)
    (w 17) (w 19) (w 20).

Definition regs_u64 (r : regs) : Prop := Forall is_u64 (frame_words 0 r).

Section entry.
Context {B : Type} `{BlockOps B}.
Context (dev : device) (lapic : list (Z * Z) -> Z -> Z) (cr2 : Z).
Context (gdb_handle_exception : Z -> isys (B:=B) -> option Z * isys (B:=B)).
Context (oom : Z -> bool) (junk : Z -> Z -> Z) (stack : list Z) (fuel : nat) (cpu : nat) (thread_addr : nat -> Z).
Context (arrivals : list (list Z)).

(** The processor takes the stack of the task segment, aligned. *)
Definition entry_frame (x : isys (B:=B)) : Z :=
  Z.land (nth cpu (tss_rsp0 (y_sched (x_sys x))) 0) (-16) - FRAME_SIZE.

Definition isr_entry (vec : Z) (r : regs) (x : isys (B:=B)) : isys :=
  x_set_sys (y_set_mem (st_words (y_mem (x_sys x)) (entry_frame x) (frame_words vec r)) (x_sys x)) x.

(** [int vec] in user mode: the registers the processor goes on with and
    the frame they came from; [None] when it does not go on. *)
Definition user_int (vec : Z) (r : regs) (x : isys (B:=B)) : option (regs * Z * isys) :=
  match interrupt_dispatch dev lapic cr2 gdb_handle_exception oom junk stack fuel cpu thread_addr arrivals
          (entry_frame x) (isr_entry vec r x) with
  | Some (Resume f x') => Some (isr_return (y_mem (x_sys x')) f, f, x')
  | _ => None
  end.

(** ** The calls of a program *)

Inductive user_call :=
| U_yield | U_write (fd buf len : Z) | U_brk (end_ : Z) | U_fork | U_execve (path : Z) | U_waitpid (pid status : Z)
| U_open (path flags : Z) | U_read (fd buf len : Z) | U_close (fd : Z) | U_readdir (fd buf len : Z)
| U_lseek (fd offset whence : Z) | U_getpid | U_uname (info : Z) | U_sysinfo (info : Z) | U_gettimeofday (tv : Z)
| U_sleep (ms : Z) | U_mmap (addr len prot : Z) | U_kill (pid sig : Z) | U_netif_get (index info : Z) | U_netif_set (req : Z)
| U_route_get (index route : Z) | U_route_add (route : Z) | U_net_socket_get (index info : Z) | U_exit (code : Z).

Definition stub (c : user_call) : regs -> regs :=
  match c with
  | U_yield => u_sys_yield | U_write fd buf len => u_sys_write fd buf len | U_brk e => u_sys_brk e
  | U_fork => u_sys_fork | U_execve path => u_sys_execve path | U_waitpid pid status => u_sys_waitpid pid status
  | U_open path flags => u_sys_open path flags | U_read fd buf len => u_sys_read fd buf len | U_close fd => u_sys_close fd
  | U_readdir fd buf len => u_sys_readdir fd buf len | U_lseek fd offset whence => u_sys_lseek fd offset whence
  | U_getpid => u_sys_getpid | U_uname info => u_sys_uname info | U_sysinfo info => u_sys_sysinfo info
  | U_gettimeofday tv => u_sys_gettimeofday tv | U_sleep ms => u_sys_sleep ms | U_mmap addr len prot => u_sys_mmap addr len prot
  | U_kill pid sig => u_sys_kill pid sig | U_netif_get index info => u_sys_netif_get index info
  | U_netif_set req => u_sys_netif_set req | U_route_get index route => u_sys_route_get index route
  | U_route_add route => u_sys_route_add route | U_net_socket_get index info => u_sys_net_socket_get index info
  | U_exit code => u_sys_exit code
  end.

(** The function of src/syscall.c that bears the name of the call. *)
Definition handler_of (c : user_call) (frame : Z) : sys B -> option (Z * sys B) :=
  match c with
  | U_yield => sys_yield cpu frame | U_write _ _ _ => sys_write oom junk stack cpu frame | U_brk _ => sys_brk cpu frame
  | U_fork => sys_fork oom cpu frame thread_addr | U_execve _ => sys_execve oom fuel cpu frame
  | U_waitpid _ _ => sys_waitpid cpu frame | U_open _ _ => sys_open oom fuel cpu frame
  | U_read _ _ _ => sys_read cpu frame arrivals | U_close _ => sys_close cpu frame
  | U_readdir _ _ _ => sys_readdir cpu frame | U_lseek _ _ _ => sys_lseek cpu frame | U_getpid => sys_getpid cpu frame
  | U_uname _ => sys_uname frame | U_sysinfo _ => sys_sysinfo frame | U_gettimeofday _ => sys_gettimeofday frame
  | U_sleep _ => sys_sleep cpu frame | U_mmap _ _ _ => sys_mmap cpu frame | U_kill _ _ => sys_kill cpu frame
  | U_netif_get _ _ => sys_netif_get frame | U_netif_set _ => sys_netif_set frame | U_route_get _ _ => sys_route_get frame
  | U_route_add _ => sys_route_add frame | U_net_socket_get _ _ => sys_net_socket_get frame | U_exit _ => sys_exit cpu frame
  end.

(** The arguments of a call in their order. *)
Definition call_args (c : user_call) : list Z :=
  match c with
  | U_yield | U_fork | U_getpid => []
  | U_brk a | U_execve a | U_close a | U_uname a | U_sysinfo a | U_gettimeofday a | U_sleep a | U_netif_set a
  | U_route_add a | U_exit a => [a]
  | U_waitpid a b | U_open a b | U_kill a b | U_netif_get a b | U_route_get a b | U_net_socket_get a b => [a; b]
  | U_write a b c | U_read a b c | U_readdir a b c | U_lseek a b c => [a; b; c]
  | U_mmap a b c => [a; b; i32 c]
  end.
End entry.

(** ** The frame in memory *)

Lemma st_words_other ws m a b : b + 8 <= a \/ a + 8 * Z.of_nat (length ws) <= b -> ld64 (st_words m a ws) b = ld64 m b.
Proof.
  revert m a. induction ws as [|w ws IH]; intros m a Hb; [done|]. simpl in *. rewrite IH by lia. apply ldn_stn_other. lia.
Qed.

Lemma st_words_nth ws m a k w : Forall is_u64 ws -> ws !! k = Some w -> ld64 (st_words m a ws) (a + 8 * Z.of_nat k) = w.
Proof.
  revert m a k. induction ws as [|v ws IH]; intros m a k Hu Hk; [done|]. apply Forall_cons in Hu as [Hv Hu].
  destruct k as [|k]; cbn [st_words lookup list_lookup] in *.
  - injection Hk as ->. replace (a + 8 * Z.of_nat 0) with a by lia. rewrite st_words_other by lia. by apply ld64_st64_same.
  - replace (a + 8 * Z.of_nat (S k)) with ((a + 8) + 8 * Z.of_nat k) by lia. by apply IH.
Qed.

Lemma frame_word m f vec r k w : regs_u64 r -> is_u64 vec -> frame_words vec r !! k = Some w ->
  ld64 (st_words m f (frame_words vec r)) (f + 8 * Z.of_nat k) = w.
Proof.
  intros Hr Hv. apply st_words_nth. unfold regs_u64, frame_words in *. rewrite !Forall_cons in *. tauto.
Qed.

(** What is loaded when a call answers [v]. *)
Definition with_rax (v : Z) (r : regs) : regs :=
  mk_regs (r15 r) (r14 r) (r13 r) (r12 r) (r11 r) (r10 r) (r9 r) (r8 r) (rsi r) (rdi r) (rbp r) (rdx r) (rcx r) (rbx r) v
    (rip r) (rflags r) (rsp r).

Lemma isr_return_rax m f vec r v : regs_u64 r -> is_u64 vec -> is_u64 v ->
  isr_return (st64 (st_words m f (frame_words vec r)) (frame_rax f) v) f = with_rax v r.
Proof.
  intros Hr Hv Hw. unfold isr_return, with_rax, frame_rax.
  replace (f + 112) with (f + 8 * 14) by lia.
  f_equal; try by apply ld64_st64_same.
  all: rewrite ldn_stn_other by lia.
  all: match goal with |- ldn _ (st_words ?m ?f (frame_words ?vec ?r)) (_ + 8 * ?k) = _ => by apply (frame_word m f vec r (Z.to_nat k)) end.
Qed.

Lemma eq_True_u64 v : is_u64 (u64 v) <-> True.
Proof. split; [done|intros _; apply u64_range]. Qed.

Lemma args_u64 c r : regs_u64 r -> regs_u64 (stub c r).
Proof.
  intros Hr. unfold regs_u64, frame_words in *. rewrite !Forall_cons in *.
  destruct c; simpl; repeat match goal with |- context [is_u64 (u64 ?v)] => rewrite (eq_True_u64 v) end; tauto.
Qed.

(** ** A call reaches its handler *)

Section calls.
Context {B : Type} `{BlockOps B}.
Context (dev : device) (lapic : list (Z * Z) -> Z -> Z) (cr2 : Z).
Context (gdb : Z -> isys (B:=B) -> option Z * isys (B:=B)).
Context (oom : Z -> bool) (junk : Z -> Z -> Z) (stack : list Z) (fuel : nat) (cpu : nat) (thread_addr : nat -> Z).
Context (arrivals : list (list Z)).
Implicit Types (x : isys (B:=B)).

Abbreviation int80 := (user_int dev lapic cr2 gdb oom junk stack fuel cpu thread_addr arrivals 128).
Abbreviation handler := (handler_of oom junk stack fuel cpu thread_addr arrivals).

(** A user thread runs on the processor, with the task segment at the top
    of its kernel stack and the canary at the bottom intact. *)
Record in_program x (i : nat) (t : thread) : Prop := {
  ip_cur : cur_thread cpu (x_sys x) = Some (i, t);
  ip_user : t_is_user t = true;
  ip_size : FRAME_SIZE + 8 <= t_kstack_size t;
  ip_align : (t_kstack t + t_kstack_size t) mod 16 = 0;
  ip_top : tss_rsp0 (y_sched (x_sys x)) !! cpu = Some (t_kstack t + t_kstack_size t);
  ip_canary : ld64 (y_mem (x_sys x)) (t_kstack t) = t_kstack_canary t
}.

Lemma entry_frame_top x i t : in_program x i t -> entry_frame cpu x = t_kstack t + t_kstack_size t - FRAME_SIZE.
Proof.
  intros []. unfold entry_frame. rewrite (nth_lookup_Some _ _ _ _ ip_top0).
  change (-16) with (Z.lnot (Z.ones 4)). rewrite <- Z.ldiff_land, Z.ldiff_ones_r, Z.shiftl_mul_pow2, Z.shiftr_div_pow2 by lia.
  change (2 ^ 4) with 16. Z.div_mod_to_equations. lia.
Qed.

Lemma isr_entry_reg vec r x k w : regs_u64 r -> is_u64 vec -> frame_words vec r !! k = Some w ->
  reg (x_sys (isr_entry cpu vec r x)) (entry_frame cpu x + 8 * Z.of_nat k) = w.
Proof. intros. by apply frame_word. Qed.

Lemma isr_entry_thread vec r x : cur_thread cpu (x_sys (isr_entry cpu vec r x)) = cur_thread cpu (x_sys x).
Proof. reflexivity. Qed.

Lemma entry_canary vec r x i t : in_program x i t -> canary_broken cpu (isr_entry cpu vec r x) = None.
Proof.
  intros Hp. pose proof (entry_frame_top _ _ _ Hp) as Hf. destruct Hp. unfold canary_broken. rewrite isr_entry_thread, ip_cur0.
  case_b; [|done]. change (y_mem (x_sys (isr_entry cpu vec r x))) with (st_words (y_mem (x_sys x)) (entry_frame cpu x) (frame_words vec r)).
  rewrite st_words_other by (unfold FRAME_SIZE in *; simpl; lia). by rewrite ip_canary0, Z.eqb_refl.
Qed.

(** The call is the handler on the entered state. *)
Definition call_result x (o : option (Z * sys B)) : option (regs * Z * isys (B:=B)) :=
  '(f, y) ← o; Some (isr_return (y_mem y) f, f, x_set_sys y x).

Lemma switch_reaches c r x : regs_u64 r ->
  syscall_switch oom junk stack fuel cpu (entry_frame cpu x) thread_addr arrivals (x_sys (isr_entry cpu 128 (stub c r) x))
  = handler c (entry_frame cpu x) (x_sys (isr_entry cpu 128 (stub c r) x)).
Proof.
  intros Hr. unfold syscall_switch.
  replace (reg _ (frame_rax (entry_frame cpu x))) with (rax (stub c r)); [by destruct c|].
  symmetry. apply (isr_entry_reg 128 (stub c r) x 14); [by apply args_u64|cint|done].
Qed.

Lemma call_reached c r x i t :
  regs_u64 r -> in_program x i t ->
  let y := x_sys (isr_entry cpu 128 (stub c r) x) in
  let frame := entry_frame cpu x in
  int80 (stub c r) x = call_result x (handler c frame y) /\
  (u64 <$> call_args c) `prefix_of` [reg y (f_rdi frame); reg y (f_rsi frame); reg y (f_rdx frame)].
Proof.
  intros Hr Hp y frame.
  assert (Hreg : forall k w, frame_words 128 (stub c r) !! k = Some w -> reg y (frame + 8 * Z.of_nat k) = w).
  { intros k w. apply isr_entry_reg; [by apply args_u64|cint]. }
  split.
  - unfold user_int, interrupt_dispatch. rewrite (entry_canary 128 (stub c r) x i t Hp). fold frame.
    unfold dispatch_vector.
    replace (freg _ (f_int_no frame)) with 128 by (symmetry; apply (Hreg 15%nat); done). cbn [Z.leb Z.eqb Z.compare andb].
    unfold syscall_handle. fold y.
    replace (reg y (f_cs frame)) with GDT_SEL_UCODE by (symmetry; apply (Hreg 18%nat); done).
    rewrite (isr_entry_thread 128 (stub c r) x : cur_thread cpu y = _), (ip_cur _ _ _ Hp), (ip_user _ _ _ Hp). cbn [Z.land negb andb Z.eqb].
    subst y frame. rewrite switch_reaches by done. unfold call_result.
    by destruct (handler c _ _) as [[f y']|].
  - replace (reg y (f_rdi frame)) with (rdi (stub c r)) by (symmetry; apply (Hreg 9%nat); done).
    replace (reg y (f_rsi frame)) with (rsi (stub c r)) by (symmetry; apply (Hreg 8%nat); done).
    replace (reg y (f_rdx frame)) with (rdx (stub c r)) by (symmetry; apply (Hreg 11%nat); done).
    destruct c; simpl; eexists; reflexivity.
Qed.

(** A handler that ends with [ret]. *)
Lemma call_ret c r x i t v y' :
  regs_u64 r -> in_program x i t ->
  let y := x_sys (isr_entry cpu 128 (stub c r) x) in
  handler c (entry_frame cpu x) y = ret (entry_frame cpu x) v y' -> y_mem y' = y_mem y ->
  exists x', int80 (stub c r) x = Some (with_rax (u64 v) (stub c r), entry_frame cpu x, x') /\
    x' = x_set_sys (y_set_mem (st64 (y_mem y) (frame_rax (entry_frame cpu x)) (u64 v)) y') x.
Proof.
  intros Hr Hp y Hh Hm. destruct (call_reached c r x i t Hr Hp) as [-> _]. fold y. rewrite Hh. unfold ret, call_result.
  cbn [mbind option_bind]. eexists. split; [|unfold set_rax; by rewrite <- Hm].
  do 3 f_equal. unfold set_rax. change (y_mem (y_set_sched (s_set_mem ?m _) y')) with m.
  change (s_mem (y_sched y')) with (y_mem y'). rewrite Hm.
  apply isr_return_rax; [by apply args_u64|cint|apply u64_range].
Qed.

(** C22: a system call made by a program, from the inline function it calls to
    the kernel and back: the interrupt is dispatched to the function of
    syscall.c of the same name, which finds the arguments in the order they
    were passed in rdi, rsi and rdx of the frame, and the program goes on
    with the registers of the frame that function answers; a function that
    answers a value and stores nothing in memory gives the program that
    value in rax with every other register as the program left it. *)
Theorem stub_reaches_handler c r x i t :
  regs_u64 r -> in_program x i t ->
  let y := x_sys (isr_entry cpu 128 (stub c r) x) in
  let frame := entry_frame cpu x in
  int80 (stub c r) x = call_result x (handler c frame y) /\
  (u64 <$> call_args c) `prefix_of` [reg y (f_rdi frame); reg y (f_rsi frame); reg y (f_rdx frame)] /\
  (forall v y', handler c frame y = ret frame v y' -> y_mem y' = y_mem y ->
     exists x', int80 (stub c r) x = Some (with_rax (u64 v) (stub c r), frame, x')).
Proof.
  intros Hr Hp y frame. destruct (call_reached c r x i t Hr Hp) as [Hc Ha]. split; [exact Hc|]. split; [exact Ha|].
  intros v y' Hh Hm. destruct (call_ret c r x i t v y' Hr Hp Hh Hm) as (x' & E & _). by exists x'.
Qed.

(** Printing: the bytes behind the buffer go to the console in order, the
    call returns their number and the program's other registers are as it
    left them. *)
Theorem stub_write_prints fd buf len bytes r x i t :
  regs_u64 r -> in_program x i t -> fd = 1 \/ fd = 2 -> is_u64 buf -> is_u64 len ->
  user_get (x_sys (isr_entry cpu 128 (stub (U_write fd buf len) r) x)) buf len = Some bytes ->
  exists x', int80 (u_sys_write fd buf len r) x = Some (with_rax len (u_sys_write fd buf len r), entry_frame cpu x, x') /\
    y_out (x_sys x') = y_out (x_sys x) ++ (ConPutc <$> bytes) /\
    g_threads (y_sched (x_sys x')) = g_threads (y_sched (x_sys x)).
Proof.
  intros Hr Hp Hfd Hb Hl Hu. set (c := U_write fd buf len) in *. change (u_sys_write fd buf len r) with (stub c r).
  destruct (call_reached c r x i t Hr Hp) as [_ [rest Ha]].
  set (y := x_sys (isr_entry cpu 128 (stub c r) x)) in *. cbn [call_args c fmap list_fmap app] in Ha. injection Ha as Hdi Hsi Hdx _.
  destruct (call_ret c r x i t len (console_puts bytes y) Hr Hp) as (x' & E & Hx').
  - change (handler_of _ _ _ _ _ _ _ c) with (sys_write oom junk stack cpu (B:=B)). unfold sys_write.
    fold y. rewrite Hdi, Hsi, Hdx, (u64_small buf), (u64_small len) by done.
    destruct Hfd as [-> | ->]; cbn [u64 Z.eqb negb andb]; by rewrite Hu.
  - done.
  - rewrite (u64_small len Hl) in E. exists x'. split; [exact E|]. by rewrite Hx'.
Qed.

(** Who am I: the id of the calling thread, and nothing else changes but the
    call's own frame. *)
Theorem stub_getpid r x i t :
  regs_u64 r -> in_program x i t ->
  exists x', int80 (u_sys_getpid r) x = Some (with_rax (u64 (t_id t)) (u_sys_getpid r), entry_frame cpu x, x') /\
    y_out (x_sys x') = y_out (x_sys x) /\ g_threads (y_sched (x_sys x')) = g_threads (y_sched (x_sys x)).
Proof.
  intros Hr Hp. destruct (call_ret U_getpid r x i t (t_id t) (x_sys (isr_entry cpu 128 (stub U_getpid r) x)) Hr Hp) as (x' & E & Hx').
  - cbn [handler_of]. unfold sys_getpid. by rewrite isr_entry_thread, (ip_cur _ _ _ Hp).
  - done.
  - exists x'. split; [exact E|]. by rewrite Hx'.
Qed.
End calls.

(** ** The small machine: its user thread asks who it is *)

Definition lab_prog : isys (B:=ram_disk) := mk_isys (y_set_sched lab_u lab_sys) irq_up open_hist (mk_apic 0 0 []) false.
Definition lab_regs : regs := mk_regs 15 14 13 12 11 10 9 8 7 6 5 4 3 2 1 4194304 514 65536.

Lemma lab_prog_in : exists t, in_program O lab_prog 1 t.
Proof. destruct (lab_cur 0) as (t & Hc & Hu). exists t. vm_compute in Hc. injection Hc as <-. constructor; vm_compute; congruence. Qed.

Lemma lab_regs_u64 : regs_u64 lab_regs.
Proof. unfold regs_u64. repeat constructor; vm_compute; congruence. Qed.

Lemma stub_reaches_handler_witness :
  let c := U_lseek 3 (-1) 2 in
  let y := x_sys (isr_entry O 128 (stub c lab_regs) lab_prog) in
  let frame := entry_frame O lab_prog in
  user_int (fun _ _ => 0) (fun _ _ => 0) 0 no_gdb lab_oom (fun _ _ => 0) [] 9 O lab_addr [] 128 (stub c lab_regs) lab_prog
    = call_result lab_prog (handler_of lab_oom (fun _ _ => 0) [] 9 O lab_addr [] c frame y) /\
  (u64 <$> call_args c) `prefix_of` [reg y (f_rdi frame); reg y (f_rsi frame); reg y (f_rdx frame)].
Proof.
  intros c y frame. destruct lab_prog_in as [t Ht].
  assert (Hw := stub_reaches_handler (fun _ _ => 0) (fun _ _ => 0) 0 no_gdb lab_oom (fun _ _ => 0) [] 9 O lab_addr []
           c lab_regs lab_prog 1 t lab_regs_u64 Ht).
  exact (conj (proj1 Hw) (proj1 (proj2 Hw))).
Defined.
