(* ===== verification/Boot.v ===== *)
(** * Kernel start-up (src/kernel.c)

    [kernel_main] brings the parts up in their order on the composed state
    of the kernel: that of the interrupt dispatcher (Dispatch.v) with the
    tables of processors and descriptors, the log and the block driver.  A
    step is the initialisation function of its part; what the linker and the
    machine fix is the record [boot_env].  Messages that the models of the
    parts leave out are not printed here either.

    The theorem at the end joins the parts: what start-up leaves behind is a
    state in which the invariant of the scheduler holds, which every later
    entry into the kernel keeps. *)

From Stdlib Require Import String.
From stdpp Require Import prelude list gmap.
From Stdlib Require Import ZArith Lia.
From S2P Require Import Prelude Lib Alloc Pmm Vmm Kmalloc Ring Net Io Input Time Vfs Sched SchedSpec SchedProc Elf ElfSpec Devfs Tarfs Console Irq Smp Pci Virtio VirtioSpec Syscall SyscallSpec Dispatch UserLib Log Gdb Desc SmpInit.
#[local] Open Scope string_scope.
#[local] Open Scope list_scope.
#[local] Open Scope Z_scope.
#[local] Open Scope cint_scope.

Definition MB2_BOOTLOADER_MAGIC : Z := 920085129.
Definition MB2_TAG_FRAMEBUFFER : Z := 8.

(** Addresses the linker chooses, the machine's devices, which allocations of
    file objects fail, and fuel for the loops without a bound. *)
Record boot_env := mk_env {
  be_dev : device;
  be_lapic : Z -> list (Z * Z) -> Z -> Z;
  be_ap_reset : Z -> apic;
  be_bsp : Z;
  be_thread_addr : nat -> Z;
  be_tss_addr : nat -> Z;
  be_df_stacks : nat -> Z;
  be_ap_stacks : nat -> Z;
  be_tramp_start : Z; be_tramp_size : Z; be_tramp_data : Z; be_tramp_record : Z; be_ap_main : Z;
  be_kernel_start : Z; be_kernel_end : Z;
  be_stack_bottom : Z; be_stack_top : Z;
  be_tar_start : Z; be_tar_end : Z;
  be_isr_stubs : list Z;
  be_klogger : Z; be_thread_trampoline : Z;
  be_virtio_dev : Z; be_sector0 : Z;
  be_oom : Z -> bool;
  be_fuel : nat
}.

(** A line of text. *)
Definition line (s : string) : list Z := text s ++ [10].

(** ** net_pci_probe (src/net.c) and scheduler_dump (src/scheduler.c) *)

Definition hex32 (v : Z) : list Z := [48; 120] ++ hex_n v 8.

Definition net_pci_probe (d : pci_dev) : list Z :=
  if negb (pd_class_code d =? 2) then []
  else
    text "[net] PCI network dev " ++ hex32 (pd_vendor_id d) ++ text ":" ++ hex32 (pd_device_id d) ++ text " at " ++
    dec_u64 (pd_bus d) ++ text ":" ++ dec_u64 (pd_slot d) ++ text "." ++ dec_u64 (pd_func d) ++ [10] ++
    (if (pd_vendor_id d =? 32902) && ((pd_device_id d =? 4110) || (pd_device_id d =? 4307))
     then line "[net] e1000 detected (driver stub active)" else []).

Definition state_name (st : thread_state) : list Z :=
  match st with
  | THREAD_READY => text "READY" | THREAD_RUNNING => text "RUNNING" | THREAD_SLEEPING => text "SLEEP"
  | THREAD_BLOCKED => text "BLOCK" | THREAD_ZOMBIE => text "ZOMBIE" | THREAD_UNUSED => text "UNUSED"
  end.

Definition dump_thread (t : thread) : list Z :=
  match t_state t with
  | THREAD_UNUSED => []
  | st => text "  id=" ++ dec_u64 (t_id t) ++ text " name=" ++ cstring (t_name t) ++ text " state=" ++ state_name st ++
          text " user=" ++ dec_u64 (if t_is_user t then 1 else 0) ++ text " prio=" ++ dec_u64 (u64 (t_priority t)) ++ [10]
  end.
Definition scheduler_dump {A} (s : sched A) : list Z := line "[sched] threads:" ++ (g_threads s ≫= dump_thread).

Section boot.
Context {B : Type} `{BlockOps B} {V : Type} `{VirtioDevice V}.

Record kernel := mk_kernel {
  k_x : isys (B:=B);
  k_cpus : cpus;
  k_descs : descs;
  k_idt : list idt_entry;
  k_log : klog;
  k_gdb : bool;                       (* gdb_enabled *)
  k_count : Z;                        (* g_cpu_count of smp.c *)
  k_blk : virtio_blk;
  k_blk_ready : bool;
  k_vdisk : V
}.

Definition k_set_x v k := mk_kernel v (k_cpus k) (k_descs k) (k_idt k) (k_log k) (k_gdb k) (k_count k) (k_blk k) (k_blk_ready k) (k_vdisk k).
Definition k_set_descs v k := mk_kernel (k_x k) (k_cpus k) v (k_idt k) (k_log k) (k_gdb k) (k_count k) (k_blk k) (k_blk_ready k) (k_vdisk k).
Definition k_set_idt v k := mk_kernel (k_x k) (k_cpus k) (k_descs k) v (k_log k) (k_gdb k) (k_count k) (k_blk k) (k_blk_ready k) (k_vdisk k).
Definition k_set_log v k := mk_kernel (k_x k) (k_cpus k) (k_descs k) (k_idt k) v (k_gdb k) (k_count k) (k_blk k) (k_blk_ready k) (k_vdisk k).
Definition k_set_gdb v k := mk_kernel (k_x k) (k_cpus k) (k_descs k) (k_idt k) (k_log k) v (k_count k) (k_blk k) (k_blk_ready k) (k_vdisk k).

Definition k_sys (k : kernel) : sys B := x_sys (k_x k).
Definition k_set_sys (y : sys B) (k : kernel) : kernel := k_set_x (x_set_sys y (k_x k)) k.
Definition k_sched (k : kernel) : sched pmm := y_sched (k_sys k).
Definition k_set_sched (s : sched pmm) (k : kernel) : kernel := k_set_sys (y_set_sched s (k_sys k)) k.
Definition k_mem (k : kernel) : mem := s_mem (k_sched k).

(** Port accesses. *)
Definition k_io {T} (m : IO T) (k : kernel) : T * kernel :=
  let '(r, x) := x_run m (k_x k) in (r, k_set_x x k).
Definition k_do (m : IO unit) (k : kernel) : kernel := snd (k_io m k).

Definition k_say (cs : list Z) (k : kernel) : kernel :=
  k_set_log (lg_set_con (console_write (lg_con (k_log k)) cs) (k_log k)) k.
Definition k_logf (level : Z) (fmt : list Z) (args : list va) (k : kernel) : option kernel :=
  l ← log_printf level fmt args (k_log k); Some (k_set_log l k).
Definition k_info (fmt : list Z) (args : list va) : kernel -> option kernel := k_logf LOG_LEVEL_INFO fmt args.
Definition k_error (s : string) : kernel -> option kernel := k_logf LOG_LEVEL_ERROR (line s) [].

Context (e : boot_env).

(** ** Console, log and memory *)

Definition boot_console (k : kernel) : kernel :=
  let '(_, k) := k_io serial_init k in
  let k := k_set_log (lg_set_con (console_init (lg_con (k_log k))) (k_log k)) k in
  let k := k_set_log (log_init LOG_LEVEL_INFO (Z.lor LOG_TARGET_CONSOLE LOG_TARGET_SERIAL) (k_log k)) k in
  let '(_, k) := k_io serial_init k in
  k_set_gdb true k.

Definition fb_of_tag (m : mem) (tag : Z) : console_fb_info :=
  mk_fb (ld64 m (tag + 8)) (ld32 m (tag + 20)) (ld32 m (tag + 24)) (ld32 m (tag + 16)) (ld8 m (tag + 28)).

Definition boot_framebuffer (mb2 : Z) (k : kernel) : option kernel :=
  found ← mb2_find_tag (be_fuel e) (k_mem k) MB2_TAG_FRAMEBUFFER (mb2 + 8);
  match found with
  | None => Some k
  | Some tag =>
      let c := console_set_framebuffer (lg_con (k_log k)) (Some (fb_of_tag (k_mem k) tag)) in
      k_info (line "framebuffer enabled") [] (k_set_log (lg_set_con c (k_log k)) k)
  end.

(** pmm_init, vmm_init, kmalloc_init and the root of the file system. *)
Definition boot_memory (mb2 : Z) (k : kernel) : option kernel :=
  let y := k_sys k in
  p ← pmm_init (be_fuel e) (k_mem k) (be_kernel_start e) (be_kernel_end e) mb2 (m_pages (y_mach y));
  let y := y_set_mach (set_pages (y_mach y) p) y in
  let y := y_set_vmm (vmm_init (y_vmm y)) y in
  let h := kmalloc_init (mk_kheap (y_mach y) (y_heap y) (y_last y)) in
  let y := y_set_heap (g_heap h) (g_last h) (y_set_mach (k_mach h) y) in
  let '(root, f) := memfs_create_root (be_oom e) (y_fs y) in
  Some (k_set_sys (y_set_fs (vfs_init f root) y) k).

(** ** Tables, interrupts and clocks *)

Definition boot_tables (k : kernel) : kernel :=
  k_set_idt (idt_init (be_isr_stubs e)) (k_set_descs (gdt_init (be_tss_addr e) (be_df_stacks e) (k_descs k)) k).

Definition y_set_clock (c : clock) (y : sys B) : sys B :=
  mk_sys (y_sched y) (y_heap y) (y_last y) (y_net y) (y_input y) (y_pit y) c (y_disk y) (y_tar y) (y_out y).

(** All lines masked, then those the kernel serves opened. *)
Definition boot_masks : IO unit :=
  _ ← io_for 16 0 (fun i (_ : unit) => pic_set_mask (be_dev e) i 1) tt;
  _ ← pic_set_mask (be_dev e) 0 0; _ ← pic_set_mask (be_dev e) 1 0; _ ← pic_set_mask (be_dev e) 2 0;
  _ ← pic_set_mask (be_dev e) 12 0; pic_set_mask (be_dev e) 14 0.

Definition boot_irqs (k : kernel) : option kernel :=
  let k := k_do (pic_init (be_dev e)) k in
  let k := k_set_x (x_set_irq (irq_init (x_irq (k_x k))) (k_x k)) k in
  let '(p, k) := k_io (pit_init 100) k in
  let k := k_set_sys (y_set_pit p (k_sys k)) k in
  let '(c, k) := k_io (time_init (be_dev e) (be_fuel e)) k in
  c ← c;
  let k := k_set_sys (y_set_clock c (k_sys k)) k in
  Some (k_do boot_masks k).

(** ** Threads and processors *)

Definition k_now (k : kernel) : Z := now (k_sys k).

(** scheduler_init also sets the stack of the task segment. *)
Definition boot_sched (k : kernel) : kernel :=
  let s := scheduler_init (be_thread_addr e) (be_stack_bottom e) (be_stack_top e) (k_now k) (k_sched k) in
  let me := cpu_current_id (k_cpus k) (apic_id (be_lapic e (be_bsp e)) (x_apic (k_x k))) in
  k_set_descs (tss_set_rsp0 me (be_stack_top e) (k_descs k)) (k_set_sched s k).

Definition smp_of (k : kernel) : smp pmm :=
  mk_smp (k_sched k) (k_cpus k) (k_descs k) (x_apic (k_x k)) ∅ (replicate 8 0) BDone ∅ [].

(** Start-up goes on when the loop of smp_init is left. *)
Definition boot_smp (evs : list smp_event) (k : kernel) : option kernel :=
  let '(count, enabled, s) :=
    smp_init (be_lapic e) (be_ap_reset e) (be_bsp e) (be_fuel e) (be_thread_addr e) (be_tss_addr e) (be_df_stacks e)
      (be_ap_stacks e) (k_now k) (be_tramp_start e) (be_tramp_size e) (be_tramp_data e) (be_tramp_record e) (be_ap_main e)
      evs (smp_of k) in
  match sp_bsp s with
  | BDone =>
      let x := k_x (k_set_sched (sp_sched s) k) in
      let x := mk_isys (x_sys x) (x_irq x) (x_io x) (sp_apic s) enabled in
      Some (k_say (sp_out s) (mk_kernel x (sp_cpus s) (sp_descs s) (k_idt k) (k_log k) (k_gdb k) count (k_blk k) (k_blk_ready k) (k_vdisk k)))
  | _ => None
  end.

(** ** Devices and files *)

(** The handlers 1 and 2 of Dispatch.v are those of the keyboard and the
    mouse. *)
Definition boot_devices (k : kernel) : kernel :=
  let '(inp, k) := k_io (input_init (be_dev e) (y_input (k_sys k))) k in
  let k := k_set_sys (y_set_input inp (k_sys k)) k in
  let c := irq_register_handler (x_irq (k_x k)) 1 1 (Some (text "ps2-keyboard")) in
  let c := irq_register_handler c 12 2 (Some (text "ps2-mouse")) in
  let c := disk_init c in
  let k := k_set_x (x_set_irq c (k_x k)) k in
  k_set_sys (y_set_net net_init (k_sys k)) k.

Definition y_set_tar (t : gmap Z tarfs_file) (y : sys B) : sys B :=
  mk_sys (y_sched y) (y_heap y) (y_last y) (y_net y) (y_input y) (y_pit y) (y_clock y) (y_disk y) t (y_out y).

Definition boot_files (k : kernel) : option kernel :=
  let y := k_sys k in
  '(f, files) ← tarfs_populate_vfs (y_mem y) (be_tar_start e) (be_tar_end e) (be_oom e) (y_fs y) (y_tar y) (vfs_root (y_fs y));
  '(_, f) ← vfs_mkdir (be_oom e) f (text "/rw");
  f ← devfs_init (be_oom e) f;
  Some (k_set_sys (y_set_tar files (y_set_fs f y)) k).

(** ** The first program *)

(** The image in a buffer of the heap, address 0 and length 0 when it could
    not be read. *)
Definition init_read (file size : Z) (k : kernel) : option (Z * Z * kernel) :=
  '(data, y) ← (if 0 <? size then y_kmalloc (be_fuel e) size (k_sys k) else Some (0, k_sys k));
  let k := k_set_sys y k in
  if (data =? 0) && (0 <? size) then k ← k_error "failed to allocate init buffer" k; Some (data, size, k)
  else if 0 <? size then
    '(n, bytes, y) ← file_read file data size (k_sys k);
    let k := k_set_sys (y_set_mem (mem_put (y_mem y) data bytes) y) k in
    if (n <? 0) || negb (u64 n =? size) then
      k ← k_error "failed to read init.elf" k;
      y ← y_kfree (be_fuel e) data (k_sys k);
      Some (0, 0, k_set_sys y k)
    else Some (data, size, k)
  else Some (data, size, k).

(** The thread, when there is an image and it can be loaded. *)
Definition init_start (data size : Z) (k : kernel) : option kernel :=
  let '(init_cr3, v) := vmm_create_user_space (y_vmm (k_sys k)) in
  let k := k_set_sys (y_set_vmm v (k_sys k)) k in
  '(r, k) ← (if negb (data =? 0) && negb (init_cr3 =? 0) then
               '(r, s) ← elf64_load_image (y_mach (k_sys k)) data size init_cr3;
               Some (r, k_set_sys (y_set_mach s (k_sys k)) k)
             else Some (None, k));
  match r with
  | Some (entry, brk) =>
      let '(_, s) := thread_create_user (be_thread_addr e) O (k_now k) (cpu_online_count (k_cpus k)) (text "init") entry brk init_cr3
                       (k_sched k) in
      Some (k_set_sched s k)
  | None => k_error "failed to load init.elf" k
  end.

Definition boot_init (k : kernel) : option kernel :=
  '(file, f) ← vfs_open (be_oom e) (y_fs (k_sys k)) (text "/init.elf") VFS_O_RDONLY;
  let k := k_set_sys (y_set_fs f (k_sys k)) k in
  let node := match fs_files f !! file with Some fl => vf_node fl | None => 0 end in
  if (file =? 0) || (node =? 0) then k_error "init.elf not found in initramfs" k
  else
    nd ← fs_nodes f !! node;
    '(data, size, k) ← init_read file (vn_size nd) k;
    k ← init_start data size k;
    y ← (if negb (data =? 0) then y_kfree (be_fuel e) data (k_sys k) else Some (k_sys k));
    Some (k_set_sys (y_set_fs (vfs_close (y_fs y) file) y) k).

(** ** The logger thread *)

Definition boot_klogger (k : kernel) : kernel :=
  let '(_, s) := thread_create_kernel (be_thread_addr e) (be_thread_trampoline e) O (k_now k) (cpu_online_count (k_cpus k))
                   (text "klogger") (be_klogger e) 0 (k_sched k) in
  k_set_sched s k.

(** A round of it: it sleeps, and when it runs again it reports. *)
Definition klogger_sleep (cpu : nat) (k : kernel) : option kernel :=
  s ← scheduler_sleep cpu (k_now k) 100 (k_sched k); Some (k_set_sched s k).
Definition klogger_report (k : kernel) : option kernel :=
  k_info (line "ticks=%llu free_mem=%llu KiB")
    [VaWord (pit_ticks (y_pit (k_sys k))); VaWord (pmm_free_memory_bytes (m_pages (y_mach (k_sys k))) / 1024)] k.

(** ** PCI devices and the disk *)

(** What is printed through the driver's state. *)
Definition played (evs : list con_event) (l : klog) : klog := lg_set_con (con_run (lg_con l) evs) l.

Definition pci_cb (d : pci_dev) (s : vstate (A:=pmm) (V:=V) * klog) : IO (vstate (A:=pmm) (V:=V) * klog) := fun h =>
  let '(v, l) := s in
  let l := lg_set_con (console_write (lg_con l) (net_pci_probe d)) l in
  if pd_vendor_id d =? 6900 then
    let l := default l (log_info (line "virtio dev 0x%08x at %llu:%llu.%llu")
               [VaWord (pd_device_id d); VaWord (pd_bus d); VaWord (pd_slot d); VaWord (pd_func d)] l) in
    let '(_, v) := virtio_blk_try_init_legacy (be_dev e) (be_virtio_dev e) (pd_bus d) (pd_slot d) (pd_func d)
                     (mk_vstate (g_dev v) (g_inited v) (v_mac v) h (v_disk v) []) in
    ((v, played (v_con v) l), v_io v)
  else ((v, l), h).

Definition vstate_of (k : kernel) : vstate (A:=pmm) (V:=V) :=
  mk_vstate (k_blk k) (k_blk_ready k) (y_mach (k_sys k)) (x_io (k_x k)) (k_vdisk k) [].
Definition k_set_vstate (v : vstate (A:=pmm) (V:=V)) (l : klog) (h : io_hist) (k : kernel) : kernel :=
  let x := k_x k in
  let x := mk_isys (y_set_mach (v_mac v) (x_sys x)) (x_irq x) h (x_apic x) (x_smp x) in
  mk_kernel x (k_cpus k) (k_descs k) (k_idt k) l (k_gdb k) (k_count k) (g_dev v) (g_inited v) (v_disk v).

Definition boot_pci (k : kernel) : kernel :=
  let '((v, l), h) := pci_enumerate (be_dev e) pci_cb (vstate_of k, k_log k) (x_io (k_x k)) in
  k_set_vstate v l h k.

Definition hex_upper (d : Z) : Z := if d <? 10 then 48 + d else 55 + d.
Definition dump_byte (b : Z) : list Z := [hex_upper (Z.shiftr b 4); hex_upper (Z.land b 15); 32].

Definition boot_sector0 (k : kernel) : option kernel :=
  let k := k_set_sys (y_set_mem (mem_fill (k_mem k) (be_sector0 e) 0 512) (k_sys k)) k in
  '(ok, v) ← virtio_blk_read_sector (be_virtio_dev e) (be_fuel e) 0 (be_sector0 e) (vstate_of k);
  let k := k_set_vstate v (k_log k) (v_io v) k in
  if (ok : bool) then
    k ← k_info (text "virtio-blk sector0[0..31]: ") [] k;
    let bytes := (fun i => ld8 (k_mem k) (be_sector0 e + Z.of_nat i)) <$> seq 0 32 in
    Some (k_say ((bytes ≫= dump_byte) ++ [10]) k)
  else k_logf LOG_LEVEL_WARN (line "virtio-blk read sector0 skipped/failed") [] k.

(** ** kernel_main *)

(** What is left when interrupts are enabled, or where the code stops. *)
Inductive boot_end := BootHalted (k : kernel) | BootIdle (k : kernel).

(** Up to the scheduler. *)
Definition boot_early (mb2 : Z) (k : kernel) : option kernel :=
  k ← boot_framebuffer mb2 k;
  k ← boot_memory mb2 k;
  k ← boot_irqs (boot_tables k);
  Some (boot_sched k).

(** From the other processors on. *)
Definition boot_late (evs : list smp_event) (k : kernel) : option kernel :=
  k ← boot_smp evs k;
  k ← boot_files (boot_devices k);
  k ← boot_init k;
  k ← boot_sector0 (boot_pci (boot_klogger k));
  let k := k_say (scheduler_dump (k_sched k)) k in
  k ← k_info (line "enabling interrupts") [] k;
  let k := k_set_x (x_set_irq (cpu_sti (x_irq (k_x k))) (k_x k)) k in
  k_info (line "idle loop") [] k.

Definition kernel_main (mb2_magic mb2 : Z) (evs : list smp_event) (k : kernel) : option boot_end :=
  let k := boot_console k in
  k ← k_info (line "mb2_magic=0x%llx mb2=0x%llx") [VaWord mb2_magic; VaWord mb2] k;
  if negb (u32 mb2_magic =? MB2_BOOTLOADER_MAGIC) then
    k ← k_error "bad multiboot2 magic" k; Some (BootHalted k)
  else
    k ← boot_early mb2 k;
    k ← boot_late evs k;
    Some (BootIdle k).
End boot.

(** ** The interrupt lines *)

Section lines.
Context (dev : device) (Hpic : pic_law dev).

Definition data_port (j : Z) : Z := if j <? 8 then PIC1_DATA else PIC2_DATA.
(** The bit of line [j] in the mask last written. *)
Definition line_is (h : io_hist) (j : Z) (b : bool) : Prop :=
  exists v, last_out h (data_port j) = Some v /\ is_u8 v /\ Z.testbit v (j mod 8) = b.

Lemma mask_bits i j : 0 <= i < 8 -> 0 <= j < 8 ->
  Z.testbit (u8 (u32 (Z.shiftl 1 i))) j = (i =? j) /\ Z.testbit (u8 (4294967295 - u32 (Z.shiftl 1 i))) j = negb (i =? j).
Proof.
  intros Hi Hj. assert (Hall : forallb (fun i => forallb (fun j =>
    Bool.eqb (Z.testbit (u8 (u32 (Z.shiftl 1 i))) j) (i =? j) &&
    Bool.eqb (Z.testbit (u8 (4294967295 - u32 (Z.shiftl 1 i))) j) (negb (i =? j))) (seqZ 0 8)) (seqZ 0 8) = true) by (vm_compute; reflexivity).
  rewrite forallb_forall in Hall. specialize (Hall i ltac:(apply list_elem_of_In, elem_of_seqZ; lia)).
  rewrite forallb_forall in Hall. specialize (Hall j ltac:(apply list_elem_of_In, elem_of_seqZ; lia)).
  apply andb_true_iff in Hall as [H1%eqb_prop H2%eqb_prop]. done.
Qed.

Lemma u8_testbit v j : 0 <= j < 8 -> Z.testbit (u8 v) j = Z.testbit v j.
Proof. intros. unfold u8. change 256 with (2 ^ 8). by rewrite Z.mod_pow2_bits_low by lia. Qed.

(** Only the named line changes. *)
Lemma set_mask_line i masked h : 0 <= i < 16 ->
  let h' := snd (pic_set_mask dev i masked h) in
  line_is h' i (negb (masked =? 0)) /\ forall j b, 0 <= j < 16 -> j <> i -> line_is h j b -> line_is h' j b.
Proof.
  intros Hi h'. subst h'. unfold pic_set_mask.
  replace (if i <? 8 then (PIC1_DATA, i) else (PIC2_DATA, i - 8)) with (data_port i, i mod 8).
  2:{ unfold data_port. case_b; [apply Z.ltb_lt in E|apply Z.ltb_ge in E]; f_equal; Z.div_mod_to_equations; lia. }
  pose proof (Z.mod_pos_bound i 8 eq_refl) as Hi8. rewrite io_bind_run. unfold inb, outb. cbn [fst snd].
  set (v := u8 (dev h (data_port i))). set (w := if negb (masked =? 0) then _ else _).
  assert (Hw : forall j, 0 <= j < 8 -> Z.testbit (u8 w) j = if i mod 8 =? j then negb (masked =? 0) else Z.testbit v j).
  { intros j Hj. rewrite u8_testbit by done. destruct (mask_bits (i mod 8) j) as [H1 H2]; [done..|]. subst w.
    destruct (negb (masked =? 0)); rewrite ?Z.lor_spec, ?Z.land_spec, ?H1, ?H2; destruct (i mod 8 =? j), (Z.testbit v j); done. }
  split.
  - exists (u8 w). split; [|split; [apply u8_range|]].
    + cbn [last_out]. by rewrite Z.eqb_refl.
    + rewrite Hw by done. by rewrite Z.eqb_refl.
  - intros j b Hj Hne (x & Hx & Hx8 & Hb). cbn [last_out]. unfold line_is. cbn [last_out].
    destruct (Z.eqb_spec (data_port i) (data_port j)) as [Hp|Hp]; [|by exists x].
    exists (u8 w). split; [done|]. split; [apply u8_range|]. rewrite Hw by (apply Z.mod_pos_bound; lia).
    assert (Hm : i mod 8 <> j mod 8).
    { unfold data_port in Hp. destruct (Z.ltb_spec i 8), (Z.ltb_spec j 8); try discriminate Hp; Z.div_mod_to_equations; lia. }
    rewrite (proj2 (Z.eqb_neq _ _)) by done. subst v. rewrite Hp.
    rewrite (Hpic h (data_port j) x) by (done || (unfold data_port; case_b; auto)). by rewrite u8_small.
Qed.

Lemma mask_lines n : forall lo h, 0 <= lo -> lo + Z.of_nat n <= 16 ->
  let h' := snd (io_for n lo (fun i (_ : unit) => pic_set_mask dev i 1) tt h) in
  (forall j, lo <= j < lo + Z.of_nat n -> line_is h' j true) /\
  forall j b, 0 <= j < lo -> line_is h j b -> line_is h' j b.
Proof.
  induction n as [|n IH]; intros lo h Hlo Hn h'; subst h'; [split; [lia|done]|].
  cbn [io_for]. rewrite io_bind_run. destruct (pic_set_mask dev lo 1 h) as [[] h1] eqn:E1.
  destruct (set_mask_line lo 1 h ltac:(lia)) as [Hl Ho]. rewrite E1 in *. cbn [fst snd] in *.
  destruct (IH (lo + 1) h1 ltac:(lia) ltac:(lia)) as [IH1 IH2]. split.
  - intros j Hj. destruct (decide (j = lo)) as [->|]; [apply IH2; [lia|done]|apply IH1; lia].
  - intros j b Hj Hb. apply IH2; [lia|]. apply Ho; [lia|lia|done].
Qed.

(** A byte by its bits. *)
Lemma byte_bits v w : is_u8 v -> is_u8 w -> (forall j, 0 <= j < 8 -> Z.testbit v j = Z.testbit w j) -> v = w.
Proof.
  intros Hv Hw Hb. apply Z.bits_inj_iff'. intros j Hj. destruct (decide (j < 8)); [by apply Hb|].
  unfold is_u8 in *. rewrite !(Z.bits_above_log2 _ j); try done; try lia; destruct (decide (v = 0)) as [->|], (decide (w = 0)) as [->|];
    try (simpl; lia); apply Z.log2_lt_pow2; try lia; apply Z.lt_le_trans with (2 ^ 8); try lia; apply Z.pow_le_mono_r; lia.
Qed.

(** After the start-up's masking lines 0, 1, 2, 12 and 14 are open and no
    others, whatever the controllers held before. *)
Lemma boot_masks_lines e h : be_dev e = dev ->
  let h' := snd (boot_masks e h) in
  forall j, 0 <= j < 16 -> line_is h' j (negb (bool_decide (j ∈ [0; 1; 2; 12; 14]))).
Proof.
  intros He h'. subst h'. unfold boot_masks. rewrite He, io_bind_run.
  destruct (mask_lines 16 0 h ltac:(lia) ltac:(lia)) as [Hall _].
  set (h0 := snd (io_for _ _ _ _ _)) in *. clearbody h0. rewrite !io_bind_run.
  assert (Hstep : forall i h P, 0 <= i < 16 -> (forall j, 0 <= j < 16 -> line_is h j (P j)) ->
    forall j, 0 <= j < 16 -> line_is (snd (pic_set_mask dev i 0 h)) j (P j && negb (j =? i))).
  { intros i h1 P Hi HP j Hj. destruct (set_mask_line i 0 h1 Hi) as [Hl Ho]. destruct (Z.eqb_spec j i) as [->|Hne].
    - by rewrite andb_false_r.
    - rewrite andb_true_r. by apply Ho; [..|apply HP]. }
  intros j Hj. replace (negb (bool_decide (j ∈ [0; 1; 2; 12; 14])))
    with (true && negb (j =? 0) && negb (j =? 1) && negb (j =? 2) && negb (j =? 12) && negb (j =? 14)).
  - pose proof (Hstep 0 h0 (fun _ => true) ltac:(lia) ltac:(intros k Hk; apply Hall; lia)) as H1.
    pose proof (Hstep 1 _ _ ltac:(lia) H1) as H2. pose proof (Hstep 2 _ _ ltac:(lia) H2) as H3.
    pose proof (Hstep 12 _ _ ltac:(lia) H3) as H4. exact (Hstep 14 _ _ ltac:(lia) H4 j Hj).
  - destruct (bool_decide_reflect (j ∈ [0; 1; 2; 12; 14])) as [Hin|Hout].
    + rewrite !elem_of_cons in Hin. by repeat destruct Hin as [-> | Hin]; [..|apply not_elem_of_nil in Hin].
    + rewrite !not_elem_of_cons in Hout. destruct Hout as (? & ? & ? & ? & ? & _). by rewrite !(proj2 (Z.eqb_neq _ _)) by done.
Qed.

Lemma line_mask h m1 m2 : is_u8 m1 -> is_u8 m2 ->
  (forall j, 0 <= j < 8 -> line_is h j (Z.testbit m1 j) /\ line_is h (8 + j) (Z.testbit m2 j)) -> mask_is h (m1 + 256 * m2).
Proof.
  intros H1 H2 Hl. destruct (Hl 0 ltac:(lia)) as [(v & Hv & Hv8 & _) (w & Hw & Hw8 & _)].
  change (data_port 0) with PIC1_DATA in Hv. change (data_port (8 + 0)) with PIC2_DATA in Hw.
  assert (v = m1) as ->.
  { apply byte_bits; [done..|]. intros j Hj. destruct (Hl j Hj) as [(x & Hx & _ & <-) _].
    unfold data_port in Hx. rewrite (proj2 (Z.ltb_lt _ _)) in Hx by lia. rewrite Hv in Hx. injection Hx as ->. by rewrite Z.mod_small by lia. }
  assert (w = m2) as ->.
  { apply byte_bits; [done..|]. intros j Hj. destruct (Hl j Hj) as [_ (x & Hx & _ & <-)].
    unfold data_port in Hx. rewrite (proj2 (Z.ltb_ge _ _)) in Hx by lia. rewrite Hw in Hx. injection Hx as ->.
    f_equal. Z.div_mod_to_equations. lia. }
  unfold mask_is, is_u8, is_u16 in *. rewrite Hv, Hw. split_and!; try lia; f_equal; Z.div_mod_to_equations; lia.
Qed.

Theorem boot_masks_correct e h : be_dev e = dev -> mask_is (snd (boot_masks e h)) 45048.
Proof.
  intros He. change 45048 with (248 + 256 * 175). apply line_mask; [unfold is_u8; lia..|].
  pose proof (boot_masks_lines e h He) as Hl. cbv zeta in Hl. set (h' := snd _) in *. clearbody h'.
  intros j Hj. split.
  - replace (Z.testbit 248 j) with (negb (bool_decide (j ∈ [0; 1; 2; 12; 14]))); [apply Hl; lia|].
    assert (j ∈ seqZ 0 8) as Hin by (apply elem_of_seqZ; lia). revert j Hj Hin. change (seqZ 0 8) with [0;1;2;3;4;5;6;7].
    intros j _ Hin. rewrite !elem_of_cons in Hin. by repeat destruct Hin as [-> | Hin]; [..|apply not_elem_of_nil in Hin].
  - replace (Z.testbit 175 j) with (negb (bool_decide (8 + j ∈ [0; 1; 2; 12; 14]))); [apply Hl; lia|].
    assert (j ∈ seqZ 0 8) as Hin by (apply elem_of_seqZ; lia). revert j Hj Hin. change (seqZ 0 8) with [0;1;2;3;4;5;6;7].
    intros j _ Hin. rewrite !elem_of_cons in Hin. by repeat destruct Hin as [-> | Hin]; [..|apply not_elem_of_nil in Hin].
Qed.
End lines.

(** ** The kernel's page table *)

Lemma range_total start end_ (body : Z -> pmm -> pmm + pmm) p : start < end_ ->
  (forall i q, pmm_total_pages_cnt (brk (body i q)) = pmm_total_pages_cnt q) ->
  pmm_total_pages_cnt (brk (for_range_exit 0 (page_steps start end_) body p)) = pmm_total_pages_cnt p.
Proof.
  intros Hle Hb. apply (brk_ind (fun _ q => pmm_total_pages_cnt q = pmm_total_pages_cnt p)); [|done| |done].
  - unfold page_steps, PAGE_SIZE. Z.div_mod_to_equations. lia.
  - intros i q _ Hq. specialize (Hb i q). by destruct (body i q); cbn [brk] in Hb; rewrite Hb.
Qed.

Lemma cap_lt start end_ : start < end_ -> start < MAX_PHYS_BYTES ->
  start < (if MAX_PHYS_BYTES <? end_ then MAX_PHYS_BYTES else end_).
Proof. intros. by case_b. Qed.

Lemma free_range_total p addr size : pmm_total_pages_cnt (pmm_free_range p addr size) = pmm_total_pages_cnt p.
Proof.
  unfold pmm_free_range. case_b; [done|apply Z.leb_gt in E]. case_b; [done|apply Z.leb_gt in E0].
  apply range_total; [by apply cap_lt|]. intros i q. case_b; [done|]. cbn [brk]. case_b; [done|]. by case_b.
Qed.
Lemma reserve_range_total p addr size : pmm_total_pages_cnt (pmm_reserve_range p addr size) = pmm_total_pages_cnt p.
Proof.
  unfold pmm_reserve_range. case_b; [done|apply Z.leb_gt in E]. case_b; [done|apply Z.leb_gt in E0].
  apply range_total; [by apply cap_lt|]. intros i q. case_b; [done|]. cbn [brk]. case_b; [|done]. by case_b.
Qed.

Lemma pmm_init_total fuel m kstart kend mb2 p p' : pmm_init fuel m kstart kend mb2 p = Some p' -> pmm_total_pages_cnt p' = MAX_PAGES.
Proof.
  assert (Hfree : forall fuel end_ es pos q q', mb2_free_entries fuel m end_ es pos q = Some q' -> pmm_total_pages_cnt q' = pmm_total_pages_cnt q).
  { induction fuel0 as [|f IH]; intros end_ es pos q q' Hq; cbn [mb2_free_entries] in Hq; (case_b_in Hq; [by injection Hq as <-|]); [done|].
    apply IH in Hq. rewrite Hq. case_b; [apply free_range_total|done]. }
  unfold pmm_init. destruct (mb2_find_tag _ _ _ _) as [[mmap|]|]; [|by intros [= <-]|done].
  destruct (mb2_free_entries _ _ _ _ _ _) as [q|] eqn:E; [|done]. apply Hfree in E. cbn in E.
  intros [= <-]. cbn. by rewrite !reserve_range_total, E.
Qed.

Lemma page_u32 p n pa p' : 0 <= pmm_total_pages_cnt p <= MAX_PAGES -> 0 < n -> pmm_alloc_pages p n = (pa, p') -> is_u32 pa.
Proof.
  intros Ht Hn. unfold pmm_alloc_pages, MAX_PAGES in *. case_b; [intros [= <- _]; unfold is_u32; lia|].
  case_b; [intros [= <- _]; unfold is_u32; lia|]. pose proof (scan_ok p n Hn ltac:(lia)) as Hs.
  destruct (for_range_exit _ _ _ _) as [?|start]; intros [= <- _]; [unfold is_u32; lia|]. destruct Hs as (? & ? & _).
  unfold PAGE_SIZE. rewrite u64_small; unfold is_u64, is_u32; lia.
Qed.

Lemma vmm_init_u32 (v : vmm pmm) : 0 <= pmm_total_pages_cnt (m_pages (v_mach v)) <= MAX_PAGES ->
  is_u32 (vmm_kernel_cr3 v) -> is_u32 (vmm_kernel_cr3 (vmm_init v)).
Proof.
  intros Ht Hv. unfold vmm_init, alloc_zero_page. cbn [set_spaces v_mach].
  destruct (pa_alloc _ 1) as [pa pg] eqn:E. apply (page_u32 _ 1 _ _ Ht) in E; [|lia].
  destruct (Z.eqb_spec pa 0) as [->|Hne]; [done|]. by rewrite (proj2 (Z.eqb_neq _ _)).
Qed.

(** ** What start-up leaves *)

Section up.
Context {B : Type} `{BlockOps B} {V : Type} `{VirtioDevice V}.
Context (e : boot_env).
Implicit Types (k : kernel (B:=B) (V:=V)).

(** What the steps between the creations of threads leave alone. *)
Definition same k k' : Prop :=
  core (k_sched k') = core (k_sched k) /\ x_irq (k_x k') = x_irq (k_x k) /\ k_cpus k' = k_cpus k /\ k_idt k' = k_idt k.

Lemma same_refl k : same k k.
Proof. done. Qed.
Lemma same_trans k1 k2 k3 : same k1 k2 -> same k2 k3 -> same k1 k3.
Proof. intros (? & ? & ? & ?) (? & ? & ? & ?). split_and!; congruence. Qed.

Lemma same_sys k y : core (y_sched y) = core (k_sched k) -> same k (k_set_sys y k).
Proof. by intros. Qed.
Lemma same_logf level fmt args k k' : k_logf level fmt args k = Some k' -> same k k'.
Proof. by intros (l & _ & [= <-])%bind_Some. Qed.
Lemma same_say cs k : same k (k_say cs k).
Proof. done. Qed.
Lemma same_vstate v l h k : same k (k_set_vstate v l h k).
Proof. done. Qed.

Lemma same_files k k' : boot_files e k = Some k' -> same k k'.
Proof.
  unfold boot_files. intros ([f files] & _ & ([? f1] & _ & (f2 & _ & [= <-])%bind_Some)%bind_Some)%bind_Some. done.
Qed.

Lemma same_init_read file size k r : init_read e file size k = Some r -> same k (snd r).
Proof.
  unfold init_read. intros ([data y] & Ey & Hr)%bind_Some.
  assert (Hy : same k (k_set_sys y k)).
  { apply same_sys. case_b_in Ey; [by apply y_kmalloc_core in Ey|by injection Ey as _ <-]. }
  clear Ey. set (k1 := k_set_sys y k) in *. clearbody k1. case_b_in Hr; [|case_b_in Hr].
  - apply bind_Some in Hr as (k2 & E2%same_logf & [= <-]). by eapply same_trans.
  - apply bind_Some in Hr as ([[n bytes] y2] & Ef%file_read_core & Hr).
    set (k2 := k_set_sys _ k1) in Hr. assert (H2 : same k1 k2) by (by apply same_sys). clearbody k2.
    case_b_in Hr; [|injection Hr as <-; by eapply same_trans].
    apply bind_Some in Hr as (k3 & E3%same_logf & (y3 & Ey & [= <-])%bind_Some).
    unfold y_kfree in Ey. apply bind_Some in Ey as (h & _ & [= <-]).
    eapply same_trans; [exact Hy|]. eapply same_trans; [exact H2|]. by eapply same_trans; [exact E3|].
  - by injection Hr as <-.
Qed.

Lemma same_sector0 k k' : boot_sector0 e k = Some k' -> same k k'.
Proof.
  unfold boot_sector0. intros ([ok v] & _ & Hr)%bind_Some. set (k1 := k_set_vstate _ _ _ _) in Hr.
  assert (H1 : same k k1) by done. clearbody k1. destruct ok.
  - apply bind_Some in Hr as (k2 & E2%same_logf & [= <-]). by eapply same_trans; [exact H1|eapply same_trans; [exact E2|]].
  - apply same_logf in Hr. by eapply same_trans.
Qed.

(** A thread takes one identifier at most. *)
Lemma nid_upd i f (s : sched pmm) : a_nid (core (upd i f s)) = a_nid (core s).
Proof. done. Qed.

Ltac nid := repeat (rewrite nid_upd || (progress autorewrite with sched_core)).
Ltac nid_of E := let E' := fresh E in pose proof E as E'; first [apply pick_cpu_core in E'|apply alloc_pages_core in E'];
  apply (f_equal a_nid) in E'; repeat (rewrite nid_upd in E' || (progress autorewrite with sched_core in E')).

Lemma create_user_next thread_addr c now online name rip brk cr3 (s : sched pmm) idle :
  sok idle s -> ids_left s ->
  let s' := snd (thread_create_user thread_addr c now online name rip brk cr3 s) in
  g_next_id s <= g_next_id s' <= g_next_id s + 1.
Proof.
  intros Ha Hn. unfold thread_create_user.
  destruct (thread_alloc_slot s) as [[i|] s1] eqn:E1; [|rewrite (alloc_slot_none _ _ E1); simpl; lia].
  destruct (alloc_slot_ok idle s i s1 Ha Hn E1) as [_ Hi]. cbv zeta. change (g_next_id ?x) with (a_nid (core x)) in *.
  destruct (scheduler_pick_cpu _ _) as [cp s2] eqn:Epick. nid_of Epick.
  case_b; cbn [snd]; [nid; lia|].
  destruct (alloc_pages KSTACK_PAGES _) as [ks s3] eqn:Eks. nid_of Eks.
  case_b; cbn [snd]; [nid; lia|].
  destruct (alloc_pages USTACK_PAGES _) as [us s4] eqn:Eus. nid_of Eus.
  case_b; cbn [snd]; [nid; lia|].
  destruct (vmm_map_range _ _ _ _ _ _) as [ok mc]. case_b; cbn [snd]; nid; lia.
Qed.

Lemma create_kernel_next thread_addr tramp c now online name fn arg (s : sched pmm) idle :
  sok idle s -> ids_left s ->
  let s' := snd (thread_create_kernel thread_addr tramp c now online name fn arg s) in
  g_next_id s <= g_next_id s' <= g_next_id s + 1.
Proof.
  intros Ha Hn. unfold thread_create_kernel.
  destruct (thread_alloc_slot s) as [[i|] s1] eqn:E1; [|rewrite (alloc_slot_none _ _ E1); simpl; lia].
  destruct (alloc_slot_ok idle s i s1 Ha Hn E1) as [_ Hi]. cbv zeta. change (g_next_id ?x) with (a_nid (core x)) in *.
  destruct (scheduler_pick_cpu _ _) as [cp s2] eqn:Epick. nid_of Epick.
  destruct (alloc_pages _ _) as [ks s3] eqn:Eks. nid_of Eks.
  case_b; cbn [snd]; nid; lia.
Qed.

(** The threads are in order and identifiers are left for [m] more. *)
Definition ready (m : Z) idle k : Prop :=
  sok idle (k_sched k) /\ 1 <= g_next_id (k_sched k) < 18446744073709551615 - m.

Lemma ready_same m idle k k' : same k k' -> ready m idle k -> ready m idle k'.
Proof. intros (Hc & _) [Hs Hi]. split; [unfold sok in *; by rewrite Hc|]. by rewrite (f_equal a_nid Hc : g_next_id _ = _). Qed.

Lemma ready_init data size idle m k k' : 0 <= m ->
  init_start e data size k = Some k' -> ready (m + 1) idle k -> ready m idle k' /\ x_irq (k_x k') = x_irq (k_x k) /\
  k_cpus k' = k_cpus k /\ k_idt k' = k_idt k.
Proof.
  intros Hm. unfold init_start. destruct (vmm_create_user_space _) as [cr3 v]. cbv zeta. set (k1 := k_set_sys _ k).
  assert (H1 : same k k1) by done. clearbody k1. intros ([r k2] & E2 & Hr)%bind_Some Hk.
  assert (H2 : same k1 k2).
  { case_b_in E2; [|by injection E2 as _ <-]. by apply bind_Some in E2 as ([? ?] & _ & [= _ <-]). }
  pose proof (same_trans _ _ _ H1 H2) as H3. apply (ready_same _ _ _ _ H3) in Hk. clear E2 H1 H2. destruct H3 as (_ & Hi & Hc & Ht).
  destruct r as [[entry brk]|].
  - destruct (thread_create_user _ _ _ _ _ _ _ _ _) as [i s] eqn:Ec. injection Hr as <-.
    destruct Hk as [Hs Hn]. assert (Hl : ids_left (k_sched k2)) by (unfold ids_left; lia).
    pose proof (create_user_ok (be_thread_addr e) idle (k_sched k2) O (k_now k2) (cpu_online_count (k_cpus k2)) (text "init") entry brk cr3 Hs Hl) as Hok.
    pose proof (create_user_next (be_thread_addr e) O (k_now k2) (cpu_online_count (k_cpus k2)) (text "init") entry brk cr3 _ _ Hs Hl) as Hnx.
    rewrite Ec in Hok, Hnx. cbn [snd] in Hok, Hnx. split; [|done]. split; [exact Hok|]. change (k_sched (k_set_sched s k2)) with s. lia.
  - apply same_logf in Hr. pose proof Hr as (_ & Hi' & Hc' & Ht'). split; [|split_and!; congruence].
    apply (ready_same _ _ _ _ Hr). destruct Hk. split; [done|lia].
Qed.

Lemma ready_boot_init idle m k k' : 0 <= m -> boot_init e k = Some k' -> ready (m + 1) idle k ->
  ready m idle k' /\ x_irq (k_x k') = x_irq (k_x k) /\ k_cpus k' = k_cpus k /\ k_idt k' = k_idt k.
Proof.
  intros Hm. unfold boot_init. intros ([file f] & _ & Hr)%bind_Some Hk. set (k1 := k_set_sys _ k) in Hr.
  assert (H1 : same k k1) by done. clearbody k1. case_b_in Hr.
  - apply same_logf in Hr. pose proof (same_trans _ _ _ H1 Hr) as Hs. pose proof Hs as (_ & ? & ? & ?).
    split; [|done]. apply (ready_same _ _ _ _ Hs). destruct Hk. split; [done|lia].
  - apply bind_Some in Hr as (nd & _ & ([[data size] k2] & E2%same_init_read & (k3 & E3 & (y & Ey & [= <-])%bind_Some)%bind_Some)%bind_Some).
    pose proof (same_trans _ _ _ H1 E2) as Hs. cbn [snd] in Hs.
    destruct (ready_init data size idle m k2 k3 Hm E3) as (H3 & Hi & Hc & Ht); [by eapply ready_same|].
    destruct Hs as (_ & Hi' & Hc' & Ht'). split; [|cbn; split_and!; congruence].
    apply (ready_same _ _ k3); [|done]. apply same_sys. case_b_in Ey; [|by injection Ey as <-].
    unfold y_kfree in Ey. by apply bind_Some in Ey as (h & _ & [= <-]).
Qed.

Lemma ready_klogger idle m k : 0 <= m -> ready (m + 1) idle k -> ready m idle (boot_klogger e k) /\
  x_irq (k_x (boot_klogger e k)) = x_irq (k_x k) /\ k_cpus (boot_klogger e k) = k_cpus k /\ k_idt (boot_klogger e k) = k_idt k.
Proof.
  intros Hm [Hs Hn]. unfold boot_klogger. assert (Hl : ids_left (k_sched k)) by (unfold ids_left; lia).
  pose proof (create_kernel_ok (be_thread_addr e) (be_thread_trampoline e) idle (k_sched k) O (k_now k) (cpu_online_count (k_cpus k))
    (text "klogger") (be_klogger e) 0 Hs Hl) as Hok.
  pose proof (create_kernel_next (be_thread_addr e) (be_thread_trampoline e) O (k_now k) (cpu_online_count (k_cpus k))
    (text "klogger") (be_klogger e) 0 _ _ Hs Hl) as Hnx.
  destruct (thread_create_kernel _ _ _ _ _ _ _ _ _) as [i s]. cbn [snd] in Hok, Hnx. split; [|done]. split; [exact Hok|].
  change (k_sched (k_set_sched s k)) with s. lia.
Qed.

Lemma same_pci k : same k (boot_pci e k).
Proof. unfold boot_pci. by destruct (pci_enumerate _ _ _ _) as [[v l] h]. Qed.

(** The handlers of the keyboard, the mouse and the disk. *)
Definition handlers_in (c : irq_state) : Prop :=
  irq_handlers c !! 1%nat = Some 1 /\ irq_handlers c !! 12%nat = Some 2 /\ irq_handlers c !! 14%nat = Some DISK_IRQ_HANDLER.

Lemma devices_up k : length (irq_handlers (x_irq (k_x k))) = 16%nat ->
  core (k_sched (boot_devices e k)) = core (k_sched k) /\ handlers_in (x_irq (k_x (boot_devices e k))) /\
  k_idt (boot_devices e k) = k_idt k.
Proof.
  intros Hlen. unfold boot_devices, k_io, x_run. destruct (input_init _ _ _) as [inp h]. split; [done|]. split; [|done].
  cbn. set (l := irq_handlers _) in *. clearbody l. do 16 (destruct l as [|? l]; [done|]). done.
Qed.

(** The trampoline in memory as the linker put it, above its copy. *)
Definition linked_kernel k : Prop :=
  link_layout (be_tramp_start e) (be_tramp_size e) (be_tramp_data e) (be_tramp_record e) (be_ap_main e) (k_mem k).

Lemma smp_up evs k k' :
  only_first (smp_of k) -> linked_kernel k -> boot_smp e evs k = Some k' ->
  x_irq (k_x k') = x_irq (k_x k) /\ k_idt k' = k_idt k /\ ready 8 (idle_upto 1) k'.
Proof.
  intros Hof Hll. unfold boot_smp.
  pose proof (smp_init_threads (be_lapic e) (be_ap_reset e) (be_bsp e) (be_fuel e) (be_thread_addr e) (be_tss_addr e) (be_df_stacks e)
    (be_ap_stacks e) (k_now k) _ _ _ _ _ evs (smp_of k) Hof Hll) as Hs. cbv zeta in Hs.
  destruct (smp_init _ _ _ _ _ _ _ _ _ _ _ _ _ _ _ _) as [[count enabled] s]. cbn [snd] in Hs.
  destruct (sp_bsp s); try done. intros [= <-]. split; [done|]. split; [done|]. exact Hs.
Qed.

(** What start-up must leave for the rest of the kernel. *)
Record started (n : nat) k : Prop := {
  st_cpus : (1 <= n <= 8)%nat;
  st_threads : threads_ok (idle_upto n) (k_x k);
  st_ids : ids_left (k_sched k);
  st_handlers : handlers_in (x_irq (k_x k));
  st_if : irq_if (x_irq (k_x k)) = true
}.

(** Up to the memory. *)
Definition fresh k : Prop :=
  length (gdt_tables (k_descs k)) = 8%nat /\ length (tss_tables (k_descs k)) = 8%nat /\
  1 <= g_next_id (k_sched k) < 18446744073709551615 - 15 /\ is_u32 (vmm_kernel_cr3 (s_vmm (k_sched k))).

Lemma fresh_framebuffer mb2 k k' : boot_framebuffer e mb2 k = Some k' -> fresh k -> fresh k'.
Proof.
  unfold boot_framebuffer. intros ([tag|] & _ & Hr)%bind_Some Hk; [|by injection Hr as <-].
  by apply bind_Some in Hr as (l & _ & [= <-]).
Qed.

Lemma fresh_memory mb2 k k' : boot_memory e mb2 k = Some k' -> fresh k -> fresh k'.
Proof.
  unfold boot_memory. intros (p & Ep%pmm_init_total & Hr)%bind_Some (H1 & H2 & H3 & H4).
  destruct (memfs_create_root _ _) as [root f]. injection Hr as <-. split; [done|]. split; [done|]. split; [done|].
  apply vmm_init_u32; [|done]. simpl. rewrite Ep. unfold MAX_PAGES. lia.
Qed.

Lemma k_io_kept {T} (m : IO T) k r k' : k_io m k = (r, k') ->
  k_sys k' = k_sys k /\ x_irq (k_x k') = x_irq (k_x k) /\ k_descs k' = k_descs k /\ k_idt k' = k_idt k.
Proof. unfold k_io, x_run. destruct (m (x_io (k_x k))). by intros [= <- <-]. Qed.

Lemma k_do_kept (m : IO unit) k : k_sys (k_do m k) = k_sys k /\ x_irq (k_x (k_do m k)) = x_irq (k_x k) /\
  k_descs (k_do m k) = k_descs k /\ k_idt (k_do m k) = k_idt k /\ x_io (k_x (k_do m k)) = snd (m (x_io (k_x k))).
Proof. unfold k_do, k_io, x_run. by destruct (m (x_io (k_x k))). Qed.

Lemma irqs_up k k' : pic_law (be_dev e) -> boot_irqs e k = Some k' ->
  core (k_sched k') = core (k_sched k) /\ s_vmm (k_sched k') = s_vmm (k_sched k) /\ k_descs k' = k_descs k /\ k_idt k' = k_idt k /\
  length (irq_handlers (x_irq (k_x k'))) = 16%nat /\ mask_is (x_io (k_x k')) 45048.
Proof.
  intros Hpic Hr. unfold boot_irqs in Hr. set (k1 := k_set_x _ (k_do _ _)) in Hr.
  assert (H1 : k_sched k1 = k_sched k /\ length (irq_handlers (x_irq (k_x k1))) = 16%nat /\ k_descs k1 = k_descs k /\ k_idt k1 = k_idt k).
  { subst k1. generalize (pic_init (be_dev e)). intros m. destruct (k_do_kept m k) as (Hs & _ & Hd & Ht & _).
    unfold k_sched, k_sys in *. cbn [k_x k_set_x x_set_irq x_sys k_descs k_idt x_irq]. by rewrite Hs. }
  clearbody k1. destruct (k_io (pit_init 100) k1) as [pt k2] eqn:E2. apply k_io_kept in E2 as (Hs2 & Hi2 & Hd2 & Ht2).
  set (k3 := k_set_sys _ k2) in Hr. destruct (k_io _ k3) as [ck k4] eqn:E4. apply k_io_kept in E4 as (Hs4 & Hi4 & Hd4 & Ht4).
  apply bind_Some in Hr as (c & _ & Hr). apply (inj Some) in Hr. pose proof (boot_masks_correct _ Hpic e) as Hm. subst k'.
  revert Hm. generalize (boot_masks e). intros m Hm. set (k5 := k_set_sys _ k4).
  destruct (k_do_kept m k5) as (Hs6 & Hi6 & Hd6 & Ht6 & Hh). rewrite Hh, Hi6, Hd6, Ht6. unfold k_sched in *. rewrite Hs6.
  destruct H1 as (Hs1 & Hl1 & Hd1 & Ht1). cbn. rewrite Hs4. cbn. rewrite Hs2, Hs1. split_and!; try done.
  - rewrite Hd4. cbn. congruence.
  - rewrite Ht4. cbn. congruence.
  - rewrite Hi4. cbn. by rewrite Hi2.
  - by apply Hm.
Qed.

Lemma init_cr3 thread_addr bottom top now (s : sched pmm) :
  vmm_kernel_cr3 (s_vmm (scheduler_init thread_addr bottom top now s)) = vmm_kernel_cr3 (s_vmm s).
Proof. unfold scheduler_init, thread_kstack_canary_init. cbn [g_threads lookup list_lookup]. by case_b. Qed.

Lemma early_first mb2 k k1 : fresh k -> pic_law (be_dev e) -> boot_early e mb2 k = Some k1 ->
  only_first (smp_of k1) /\ length (irq_handlers (x_irq (k_x k1))) = 16%nat /\ k_idt k1 = idt_init (be_isr_stubs e) /\
  mask_is (x_io (k_x k1)) 45048.
Proof.
  intros Hf Hpic. unfold boot_early. intros (ka & Ea & (kb & Eb & (kc & Ec & Hr)%bind_Some)%bind_Some)%bind_Some.
  apply (inj Some) in Hr. subst k1. apply (fresh_framebuffer _ _ _ Ea), (fresh_memory _ _ _ Eb) in Hf as (H1 & H2 & H3 & H4).
  apply irqs_up in Ec as (Hc & Hv & Hd & Ht & Hl & Hm); [|exact Hpic].
  split; [|split; [exact Hl|split; [exact Ht|exact Hm]]].
  destruct (init_slots (be_thread_addr e) (be_stack_bottom e) (be_stack_top e) (k_now kc) (k_sched kc)) as (Hs & Hcur & Hi).
  assert (Hn : g_next_id (k_sched kc) = g_next_id (k_sched kb)) by exact (f_equal a_nid Hc).
  pose proof (init_ok (be_thread_addr e) (be_stack_bottom e) (be_stack_top e) (k_now kc) (k_sched kc)) as Hok.
  pose proof (init_cr3 (be_thread_addr e) (be_stack_bottom e) (be_stack_top e) (k_now kc) (k_sched kc)) as Hv'.
  unfold boot_sched. set (s := scheduler_init _ _ _ _ _) in *. set (me := cpu_current_id _ _). clearbody s me.
  constructor; cbn [smp_of sp_descs sp_online sp_aps sp_apics sp_sched k_descs k_set_descs k_sched k_sys k_x k_set_sched k_set_sys k_set_x
    x_sys x_set_sys y_sched y_set_sched].
  - cbn [tss_set_rsp0 gdt_tables tss_tables]. rewrite length_alter, Hd. cbn [k_descs boot_tables k_set_idt k_set_descs].
    unfold gdt_init, gdt_init_cpu. cbn [gdt_tables tss_tables]. rewrite !length_insert. split; assumption.
  - apply length_replicate.
  - split; reflexivity.
  - apply Hok. lia.
  - exact Hs.
  - by rewrite Hcur.
  - intros c Hk. rewrite Hcur. do 8 (destruct c as [|c]; [first [lia|done]|]). lia.
  - rewrite Hi, Hn. lia.
  - rewrite Hv', Hv. exact H4.
Qed.

(** When the part of start-up after the scheduler's own initialisation reaches
    the idle loop, with or without an archive, a program that can be loaded,
    memory and a disk, it leaves the threads in the order the scheduler keeps,
    the first processor alone and on its idle thread, identifiers left, the
    handlers of the keyboard, the mouse and the disk in place and interrupts
    enabled. *)
Theorem boot_late_starts evs k k' :
  only_first (smp_of k) -> length (irq_handlers (x_irq (k_x k))) = 16%nat -> linked_kernel k ->
  boot_late e evs k = Some k' -> started 1 k'.
Proof.
  intros Hof Hlen Hw (k1 & E1 & (k2 & E2%same_files & (k3 & E3 & (k4 & E4%same_sector0 & (k5 & E5%same_logf & E6%same_logf)%bind_Some)
    %bind_Some)%bind_Some)%bind_Some)%bind_Some.
  destruct (smp_up _ _ _ Hof Hw E1) as (Hi1 & _ & H1).
  destruct (devices_up k1) as (Hcore & Hh & _); [by rewrite Hi1|].
  assert (H1' : ready 8 (idle_upto 1) (boot_devices e k1)).
  { destruct H1 as [Hs Hi]. split; [unfold sok; by rewrite Hcore|]. by rewrite (f_equal a_nid Hcore : g_next_id _ = _). }
  apply (ready_same _ _ _ _ E2) in H1'. destruct E2 as (_ & Hi2 & _).
  destruct (ready_boot_init (idle_upto 1) 7 k2 k3 ltac:(lia) E3 H1') as (H3 & Hi3 & _).
  destruct (ready_klogger (idle_upto 1) 6 k3 ltac:(lia) H3) as (H4 & Hi4 & _).
  apply (ready_same _ _ _ _ (same_pci _)), (ready_same _ _ _ _ E4), (ready_same _ _ _ _ (same_say _ _)), (ready_same _ _ _ _ E5) in H4.
  destruct E4 as (_ & Hi5 & _), E5 as (_ & Hi6 & _), (same_pci (boot_klogger e k3)) as (_ & Hi7 & _).
  pose proof (ready_same _ _ _ _ E6 H4) as [Hs Hid]. destruct E6 as (_ & Hi8 & _). cbn in Hi5, Hi6, Hi8.
  assert (Hx : x_irq (k_x k') = cpu_sti (x_irq (k_x (boot_devices e k1)))) by (rewrite Hi8; f_equal; congruence).
  constructor; [lia|exact Hs|unfold ids_left; lia|by rewrite Hx|by rewrite Hx].
Qed.

(** The whole of kernel_main: it halts where the loader's magic is wrong,
    and otherwise the idle loop is reached in a state in which the kernel can
    go on. *)
Theorem kernel_main_starts mb2_magic mb2 evs k k' :
  fresh k -> pic_law (be_dev e) ->
  (forall k0 k1, k_info (line "mb2_magic=0x%llx mb2=0x%llx") [VaWord mb2_magic; VaWord mb2] (boot_console k) = Some k0 ->
     boot_early e mb2 k0 = Some k1 -> linked_kernel k1) ->
  kernel_main e mb2_magic mb2 evs k = Some (BootIdle k') ->
  u32 mb2_magic = MB2_BOOTLOADER_MAGIC /\ started 1 k'.
Proof.
  intros Hf Hpic Hw. unfold kernel_main. intros (k0 & E0 & Hr)%bind_Some.
  assert (Hf0 : fresh k0).
  { unfold boot_console in E0. destruct (k_io serial_init k) as [? ka] eqn:Ea. apply k_io_kept in Ea as (Hs & _ & Hd & _).
    destruct (k_io serial_init _) as [? kb] eqn:Eb in E0. apply k_io_kept in Eb as (Hs' & _ & Hd' & _).
    apply bind_Some in E0 as (l & _ & E0). apply (inj Some) in E0. subst k0. destruct Hf as (H1 & H2 & H3 & H4).
    unfold fresh, k_sched, k_sys in *. cbn in *. rewrite Hs', Hd'. cbn. rewrite Hs, Hd. done. }
  case_b_in Hr; [by apply bind_Some in Hr as (? & _ & ?)|].
  apply negb_false_iff, Z.eqb_eq in E. split; [done|]. apply bind_Some in Hr as (k1 & E1 & (k2 & E2 & [= <-])%bind_Some).
  destruct (early_first _ _ _ Hf0 Hpic E1) as (Hof & Hlen & _). exact (boot_late_starts evs k1 k2 Hof Hlen (Hw _ _ E0 E1) E2).
Qed.
End up.

(** ** An archive with a program, no table of processors, no disk *)

Definition demo_ports : device := fun h port => if port =? PCI_CONFIG_DATA then 4294967295 else if port =? 100 then 1 else 0.
Definition demo_env : boot_env :=
  mk_env demo_ports demo_lapic (fun _ => mk_apic 0 4276092928 []) 0 lab_addr demo_tss demo_tss demo_stacks
    1048576 64 32 1048608 1052672 1048576 1114112 262144 278528 1060864 1062400 demo_stubs 1056768 32768 90112 94208 lab_oom 64.
Definition demo_boot_mem : mem :=
  mem_put (mem_put (mem_put (fun _ => 0) 1060864 (text "./init.elf")) 1060988 (octal_digits 11 123)) 1061376 (elf_bytes 0).
Definition demo_kernel_heap : kheap pmm := kmalloc_init (mk_kheap (mk_mach demo_boot_mem lab_pmm) 0 0).
Definition demo_before : sched pmm :=
  let '(root, f) := memfs_create_root lab_oom lab_fs in
  mk_sched [] [] 1 0 0 (mk_vmm (k_mach demo_kernel_heap) 4096 (replicate VMM_MAX_USER_SPACES (mk_space 0 0)) 4096) (vfs_init f root)
    (replicate 8 0).
Definition demo_kernel : kernel (B:=ram_disk) (V:=sim_disk) :=
  mk_kernel
    (mk_isys (mk_sys (scheduler_init lab_addr 262144 278528 0 demo_before) (g_heap demo_kernel_heap) (g_last demo_kernel_heap)
                net_init input_zero (mk_pit 0 100) (mk_clock 0 true) demo_disk ∅ [])
       (irq_init (mk_irq [] [] [] [] [] 0 0 [] false [])) [] (mk_apic 0 4276092928 []) false)
    (mk_cpus [] 0 0 0 false) (mk_descs (replicate 8 []) (replicate 8 zero_tss)) []
    (mk_klog LOG_LEVEL_INFO 3 (mk_con 0 0 7 true None [] 0 0 0 0 0 [] [])) true 0 vblk_zero false (mk_sim 0 0 demo_disk).

Lemma demo_first : only_first (smp_of demo_kernel).
Proof.
  destruct (init_slots lab_addr 262144 278528 0 demo_before) as (Hs & Hc & Hi).
  pose proof (init_ok lab_addr 262144 278528 0 demo_before) as Hok. pose proof (init_cr3 lab_addr 262144 278528 0 demo_before) as Hv.
  assert (Hn : g_next_id demo_before = 1) by reflexivity. assert (Hk : vmm_kernel_cr3 (s_vmm demo_before) = 4096) by reflexivity.
  rewrite Hn in Hi, Hok. rewrite Hk in Hv. unfold demo_kernel, smp_of.
  set (s := scheduler_init lab_addr 262144 278528 0 demo_before) in *. clearbody s.
  constructor; cbn [k_sched k_sys k_x x_sys y_sched sp_sched sp_descs sp_online sp_aps sp_apics k_descs].
  - split; reflexivity.
  - reflexivity.
  - split; reflexivity.
  - apply Hok. lia.
  - exact Hs.
  - rewrite Hc. reflexivity.
  - intros c Hlt. rewrite Hc. do 8 (destruct c as [|c]; [first [lia|reflexivity]|]). lia.
  - rewrite Hi. lia.
  - rewrite Hv. unfold is_u32. lia.
Qed.

Lemma demo_world : linked_kernel demo_env demo_kernel.
Proof.
  constructor; cbn [demo_env be_tramp_start be_tramp_size be_tramp_data be_tramp_record be_ap_main]; unfold AP_TRAMPOLINE_ADDR;
    try lia. vm_compute. reflexivity.
Qed.

(** The program and the logger are there, ready to run. *)
Lemma boot_late_starts_witness :
  exists k', boot_late demo_env [] demo_kernel = Some k' /\ started 1 k' /\
    (t_state <$> g_threads (k_sched k') !! 1%nat, t_state <$> g_threads (k_sched k') !! 2%nat) = (Some THREAD_READY, Some THREAD_READY).
Proof.
  destruct (boot_late demo_env [] demo_kernel) as [k'|] eqn:E.
  - pose proof (boot_late_starts demo_env [] demo_kernel k' demo_first eq_refl demo_world E) as Hn.
    exists k'. split; [reflexivity|]. split; [exact Hn|]. apply (f_equal (fun r => match r with
      | Some k => (t_state <$> g_threads (k_sched k) !! 1%nat, t_state <$> g_threads (k_sched k) !! 2%nat)
      | None => (None, None) end)) in E. cbv beta iota in E. rewrite <- E. vm_compute. reflexivity.
  - exfalso. apply (f_equal (fun r => match r with Some _ => true | None => false end)) in E. vm_compute in E. discriminate E.
Defined.
