(* ===== verification/Run.v ===== *)
(** * The running kernel

    After start-up the kernel runs when it is entered: an interrupt, a trap
    or a system call on a processor that was started; and in its threads, of
    which the logger changes the thread table when it goes to sleep.  A step
    is one entry through interrupt_dispatch, with the debugger's state
    (src/gdb.c) kept from one entry to the next, or one scheduler_sleep of a
    kernel thread.  Between them programs, kernel threads and the hardware
    write memory as they like: registers are saved in the frame, programs
    change their pages.

    The theorem joins start-up, dispatcher, system calls, scheduler and
    debugger: from the state start-up leaves, no sequence of steps takes the
    threads out of order. *)

From stdpp Require Import prelude list gmap.
From Stdlib Require Import ZArith Lia.
From S2P Require Import Prelude Lib Alloc Pmm Net Io Input Time Sched SchedSpec Devfs Irq Smp Virtio VirtioSpec Syscall SyscallSpec Dispatch Gdb SmpInit Boot.
#[local] Open Scope Z_scope.

(** An entry: who, with which frame, the faulting address, memory as it is
    then, keys that arrive while the call waits, bytes from the debugger, and
    what the parts below leave open (failing allocations, heap contents). *)
Record entry := mk_entry {
  en_cpu : nat; en_frame : Z; en_cr2 : Z; en_mem : mem;
  en_arrivals : list (list Z); en_rx : list Z;
  en_oom : Z -> bool; en_junk : Z -> Z -> Z; en_stack : list Z
}.

Section run.
Context {B : Type} `{BlockOps B}.
Context (dev : device) (lapic : nat -> list (Z * Z) -> Z -> Z) (thread_addr : nat -> Z) (fuel : nat).
Implicit Types (x : isys (B:=B)) (g : gdb).

Definition x_set_mem (m : mem) x : isys (B:=B) := x_set_sys (y_set_mem m (x_sys x)) x.

(** The debugger stub as the dispatcher calls it, with the result it gave. *)
Definition gdb_answer (r : option (bool * gdb)) (frame : Z) x : option Z * isys (B:=B) :=
  match r with
  | Some (true, g') => (Some frame, x_set_mem (gd_mem g') x)
  | _ => (None, x)
  end.

(** Whether the dispatcher gets as far as the stub. *)
Definition traps (cpu : nat) (frame : Z) x : bool :=
  match canary_broken cpu x with
  | Some _ => false
  | None => (freg x (f_int_no frame) =? 1) || (freg x (f_int_no frame) =? 3)
  end.

(** [None] when a loop of the kernel does not end, such as a session the
    debugger does not leave. *)
Definition enter (e : entry) (st : isys (B:=B) * gdb) : option (outcome (B:=B) * gdb) :=
  let '(x, g) := st in
  let x := x_set_mem (en_mem e) x in
  r ← (if traps (en_cpu e) (en_frame e) x
       then r ← gdb_handle_exception fuel (en_frame e) (gd_set_rx (gd_rx g ++ en_rx e) (gd_set_mem (en_mem e) g)); Some (Some r)
       else Some None);
  o ← interrupt_dispatch dev (lapic (en_cpu e)) (en_cr2 e) (gdb_answer r) (en_oom e) (en_junk e) (en_stack e) fuel (en_cpu e)
        thread_addr (en_arrivals e) (en_frame e) x;
  Some (o, match r with Some (_, g') => g' | None => g end).

Context (idle : gmap nat nat).

(** What an entry may be: the processor is one that was started; thread
    identifiers are left (they are 64-bit numbers that are never used again);
    a frame saved in user mode belongs to a user thread that was running
    there; and a call made in kernel mode is the yield of scheduler_sleep,
    the only one there is. *)
Definition entry_ok (e : entry) x : Prop :=
  let x := x_set_mem (en_mem e) x in
  is_Some (idle !! en_cpu e) /\ ids_left (y_sched (x_sys x)) /\
  (from_user (en_frame e) x = true -> user_running (en_cpu e) x) /\
  (freg x (f_int_no (en_frame e)) = 128 -> from_user (en_frame e) x = false -> freg x (frame_rax (en_frame e)) = SYS_yield).

Inductive kstep : isys (B:=B) * gdb -> isys (B:=B) * gdb -> Prop :=
| KEnter e x g frame x' g' :
    entry_ok e x -> enter e (x, g) = Some (Resume frame x', g') -> kstep (x, g) (x', g')
| KSleep c p ticks x g s' :
    is_Some (idle !! c) -> g_current (y_sched (x_sys x)) !! c = Some (Some p) -> (forall c', idle !! c' <> Some p) ->
    scheduler_sleep c (now (x_sys x)) ticks (y_sched (x_sys x)) = Some s' ->
    kstep (x, g) (x_set_sys (y_set_sched s' (x_sys x)) x, g).

Lemma gdb_answer_law r : gdb_law (gdb_answer r) idle.
Proof. intros frame x. unfold gdb_answer. by destruct r as [[[] g']|]. Qed.

Context (Hone : forall c c', is_Some (idle !! c) -> is_Some (idle !! c') -> c = c').

(** With one processor up no kill hits a thread that runs elsewhere. *)
Lemma one_kill_safe x c pid : threads_ok idle x -> is_Some (idle !! c) -> kill_safe (y_sched (x_sys x)) c pid.
Proof. intros Hok Hc i c' _ Hcur. exact (Hone _ _ (awf_on _ _ _ Hok c' i Hcur) Hc). Qed.

Lemma enter_ok e x g o g' : threads_ok idle x -> entry_ok e x -> enter e (x, g) = Some (o, g') -> threads_ok idle (after o).
Proof.
  intros Hok (Hc & Hi & Hu & Hs). unfold enter. intros (r & _ & (o' & Ho & [= <- _])%bind_Some)%bind_Some.
  eapply dispatch_keeps_threads; [..|exact Ho]; [exact Hok|done|done|apply gdb_answer_law|done|].
  intros Hn. specialize (Hs Hn). destruct (from_user _ _); [intros _; by apply one_kill_safe|by apply Hs].
Qed.

Lemma entries_ok st st' : rtc kstep st st' -> threads_ok idle (fst st) -> threads_ok idle (fst st').
Proof.
  induction 1 as [|st1 st2 st3 Hst _ IH]; [done|]. intros Hok. apply IH. destruct Hst as [e x g frame x' g' He Hen|c p ticks x g s' Hc Hp Hi Hs].
  - exact (enter_ok e x g (Resume frame x') g' Hok He Hen).
  - destruct Hc as [b Hb]. destruct (sleep_ok idle _ c p (now (x_sys x)) ticks Hok (idle_cpu_lt _ _ _ _ Hok Hb) Hp Hi) as (s2 & E & Hs2).
    pose proof (eq_trans (eq_sym E) Hs) as Eq. injection Eq as <-. exact Hs2.
Qed.
End run.

(** ** One processor *)

Lemma only_zero c c' : is_Some (idle_upto 1 !! c) -> is_Some (idle_upto 1 !! c') -> c = c'.
Proof.
  intros [b Hb] [b' Hb']. rewrite idle_upto_lookup in Hb, Hb'. destruct (decide (c < 1)%nat), (decide (c' < 1)%nat); try done. lia.
Qed.

(** What being in order is on one processor, on the thread table itself. *)
Record in_order (s : sched pmm) : Prop := {
  io_current : exists p t, g_current s !! O = Some (Some p) /\ g_threads s !! p = Some t /\
    t_state t <> THREAD_UNUSED /\ t_state t <> THREAD_ZOMBIE;
  io_others c p : g_current s !! c = Some (Some p) -> c = O;
  io_running i t : g_threads s !! i = Some t -> t_state t = THREAD_RUNNING -> g_current s !! O = Some (Some i);
  io_ids i j t u : g_threads s !! i = Some t -> g_threads s !! j = Some u ->
    t_state t <> THREAD_UNUSED -> t_state u <> THREAD_UNUSED -> t_id t = t_id u -> i = j;
  io_idle : exists t, g_threads s !! O = Some t /\ (t_state t = THREAD_READY \/ t_state t = THREAD_RUNNING)
}.

Lemma in_order_one s : sok (idle_upto 1) s -> in_order s.
Proof.
  intros Hok. assert (H0 : idle_upto 1 !! O = Some O) by reflexivity.
  assert (Hc : forall c p, g_current s !! c = Some (Some p) -> c = O).
  { intros c p Hp. apply (only_zero c O); [exact (awf_on _ _ _ Hok c p Hp)|by eexists]. }
  destruct (awf_idle _ _ _ Hok O O H0) as [(v & (t & Et & ->)%core_lookup & _ & _ & Hst) [p Hp]]. constructor.
  - destruct (awf_current _ _ _ Hok O p Hp) as (w & (u & Eu & ->)%core_lookup & _ & Hu & Hz). exists p, u.
    split_and!; try done. intros Hd. by specialize (Hz Hd).
  - exact Hc.
  - intros i u Eu Hr. destruct (awf_running _ _ _ Hok i (view u)) as (c & _ & Hcur); [apply core_lookup; eauto|done|].
    pose proof (Hc c i Hcur). by subst c.
  - intros i j u w Eu Ew Hu Hw Hid. by eapply (awf_ids _ _ _ Hok i j (view u) (view w)); [apply core_lookup; eauto|apply core_lookup; eauto|..].
  - by exists t.
Qed.

(** C5: the running kernel.  When start-up reaches its idle loop, from the
    scheduler's initialisation on and with the trampoline where the linker
    puts it, the first processor is the one that runs, on its idle thread,
    with the handlers in place and interrupts enabled; and from then on, in
    whatever order interrupts, traps and system calls with any arguments
    enter the kernel and its threads go to sleep, with whatever memory
    programs, devices and the debugger leave between them, the threads stay
    in order: the processor runs one thread that is neither free nor dead,
    no other thread is marked running, thread identifiers are unique and the
    idle thread can run.  What an entry may be is [entry_ok]; an entry after
    which the kernel halts or does not return has no successor. *)
Theorem kernel_run_safe {B} `{BlockOps B} {V} `{VirtioDevice V} (be : boot_env) fuel evs (k k' : kernel (B:=B) (V:=V)) :
  only_first (smp_of k) -> length (irq_handlers (x_irq (k_x k))) = 16%nat -> linked_kernel be k ->
  boot_late be evs k = Some k' ->
  started 1 k' /\ forall g x' g',
    rtc (kstep (be_dev be) (fun c => be_lapic be (cpu_apic_id (k_cpus k') (Z.of_nat c))) (be_thread_addr be) fuel (idle_upto 1))
      (k_x k', g) (x', g') ->
    in_order (y_sched (x_sys x')).
Proof.
  intros Hf Hl Hw Hb. pose proof (boot_late_starts be evs k k' Hf Hl Hw Hb) as Hn. split; [exact Hn|].
  intros g x' g' Hr. apply in_order_one. exact (entries_ok _ _ _ _ _ only_zero _ _ Hr (st_threads _ _ Hn)).
Qed.

(** The booted machine of Boot.v and its first tick: the first processor
    leaves its idle thread for the program. *)
Definition demo_tick (m : mem) : entry :=
  mk_entry O 2000 0 (st64 (st64 m (f_int_no 2000) 32) (f_cs 2000) 8) [] [] lab_oom (fun _ _ => 0) [].
Definition demo_debugger : gdb :=
  mk_gdb true false 0 false [] false 0 false (k_log demo_kernel) (fun _ => 0) [].
Abbreviation demo_booted := (boot_late demo_env [] demo_kernel).
Definition demo_next (k : kernel (B:=ram_disk) (V:=sim_disk)) : option (outcome (B:=ram_disk) * gdb) :=
  enter (be_dev demo_env) (fun c => be_lapic demo_env (cpu_apic_id (k_cpus k) (Z.of_nat c))) (be_thread_addr demo_env) 64
    (demo_tick (k_mem k)) (k_x k, demo_debugger).

Lemma demo_entry_ok n (k : kernel (B:=ram_disk) (V:=sim_disk)) : started n k -> entry_ok (idle_upto n) (demo_tick (k_mem k)) (k_x k).
Proof.
  intros []. split_and!.
  - exists O. rewrite idle_upto_lookup. by rewrite decide_True by (simpl; lia).
  - exact st_ids.
  - intros Hu. exfalso. revert Hu. unfold from_user. change ((Z.land (ld64 (en_mem (demo_tick (k_mem k))) (f_cs 2000)) 3 =? 3) = true -> False).
    cbn [demo_tick en_mem]. rewrite ld64_st64_same by (unfold is_u64; lia). discriminate.
  - intros Hn. exfalso. revert Hn. change (ld64 (en_mem (demo_tick (k_mem k))) (f_int_no 2000) = 128 -> False).
    cbn [demo_tick en_mem]. rewrite ld64_st64 by (unfold is_u64, f_int_no, f_cs; lia).
    change (f_int_no 2000 =? f_cs 2000) with false. cbv iota. rewrite ld64_st64_same by (unfold is_u64; lia). discriminate.
Qed.

Lemma demo_runs : match demo_booted with
  | Some k => match demo_next k with Some (Resume _ x, _) => g_current (y_sched (x_sys x)) !! O | _ => None end
  | None => None end = Some (Some 1%nat).
Proof. vm_compute. reflexivity. Qed.

Lemma kernel_run_safe_witness :
  exists k' x' g', boot_late demo_env [] demo_kernel = Some k' /\ started 1 k' /\
    demo_next k' = Some (Resume 57168 x', g') /\ in_order (y_sched (x_sys x')) /\
    g_current (y_sched (x_sys x')) !! O = Some (Some 1%nat).
Proof.
  assert (Hframe : match demo_booted with
    | Some k => match demo_next k with Some (Resume f _, _) => f | _ => 0 end | None => 0 end = 57168) by (vm_compute; reflexivity).
  pose proof demo_runs as Hr.
  destruct (boot_late demo_env [] demo_kernel) as [k'|] eqn:E; [|discriminate Hr].
  destruct (kernel_run_safe demo_env 64 [] demo_kernel k' demo_first eq_refl demo_world E) as (Hn & Hrun).
  destruct (demo_next k') as [[[f x'|x'] g']|] eqn:En; [|discriminate Hr|discriminate Hr].
  subst f. exists k', x', g'. split; [reflexivity|]. split; [exact Hn|]. split; [exact En|]. split; [|exact Hr].
  apply (Hrun demo_debugger x' g'). apply rtc_once. unfold demo_next in En. exact (KEnter _ _ _ _ _ _ _ _ _ _ _ (demo_entry_ok 1 k' Hn) En).
Defined.
