(* ===== verification/Shell.v ===== *)
(** * The shell: system calls and the network commands (user/init.c)

    The shell is a program over the system-call interface: [SysOps] gives the
    calls of user/syscall.h the shell makes, on strings and byte arrays
    instead of addresses, over a state of the system behind it.  A call that
    never comes back (a read that waits for ever, a stopped machine) is
    [None].  A program that ends itself does so with a value of [proc_end].

    Loops over numbered kernel tables end at the first number the kernel
    refuses; they have fuel.  Printing goes through [printf] of the support
    library; [junk] is what local arrays hold before they are written.
    Integers narrower than 64 bits are passed to it extended with zeros. *)

From Stdlib Require Import String.
From stdpp Require Import prelude list.
From Stdlib Require Import ZArith Lia.
From S2P Require Import Prelude Console UserLib Net Time UserText.
#[local] Open Scope string_scope.
#[local] Open Scope list_scope.
#[local] Open Scope Z_scope.
#[local] Open Scope cint_scope.

(** ** The system *)

Class SysOps (K : Type) := {
  os_write : Z -> list Z -> K -> option (Z * K);            (* fd, bytes *)
  os_open : list Z -> Z -> K -> option (Z * K);              (* path, flags *)
  os_read : Z -> Z -> K -> option (Z * list Z * K);          (* fd, len; count and bytes stored *)
  os_close : Z -> K -> option (Z * K);
  os_lseek : Z -> Z -> Z -> K -> option (Z * K);
  os_readdir : Z -> Z -> K -> option (Z * list Z * K);
  os_fork : K -> option (Z * K);
  os_execve : list Z -> K -> option (option Z * K);          (* [None]: another program runs *)
  os_waitpid : Z -> K -> option (Z * K);
  os_gettimeofday : K -> option (option time_val * K);
  os_sleep : Z -> K -> option (Z * K);
  os_netif_get : Z -> K -> option net_ifinfo;                (* [None]: negative result *)
  os_netif_set : net_ifreq -> K -> option (Z * K);
  os_route_get : Z -> K -> option net_route;
  os_route_add : net_route -> K -> option (Z * K);
  os_net_socket_get : Z -> K -> option net_socket_info
}.

Inductive proc_end := Exited (code : Z) | Replaced (path : list Z).

(** ** The shell's state *)

Record mount_entry := mk_mount {
  mt_device : list Z;       (* 64 bytes *)
  mt_target : list Z;       (* 64 bytes *)
  mt_fstype : list Z;       (* 8 bytes *)
  mt_block_size : Z;
  mt_total_blocks : Z;
  mt_active : bool
}.

Definition FS_MAGIC : list Z := text "MYOSFS1".
Definition FS_MAGIC_LEN : Z := 7.
Definition FS_BLOCK_SIZE : Z := 4096.
Definition FS_DISK_BYTES : Z := 16 * 1024 * 1024.
Definition FS_TOTAL_BLOCKS : Z := FS_DISK_BYTES / FS_BLOCK_SIZE.
Definition MAX_MOUNTS : Z := 8.
Definition O_RDONLY : Z := 1.
Definition O_WRONLY : Z := 2.
Definition O_RDWR : Z := 3.
Definition O_CREAT : Z := 4.

Section shell.
Context {K : Type} `{SysOps K}.

Record shell := mk_shell {
  sh_mounts : list mount_entry;
  sh_uuid_seed : Z;
  sh_network_manager_running : bool;
  sh_os : K
}.

Definition sh_set_mounts (l : list mount_entry) (s : shell) : shell :=
  mk_shell l (sh_uuid_seed s) (sh_network_manager_running s) (sh_os s).
Definition sh_set_seed (x : Z) (s : shell) : shell :=
  mk_shell (sh_mounts s) x (sh_network_manager_running s) (sh_os s).
Definition sh_set_running (b : bool) (s : shell) : shell := mk_shell (sh_mounts s) (sh_uuid_seed s) b (sh_os s).
Definition sh_set_os (k : K) (s : shell) : shell :=
  mk_shell (sh_mounts s) (sh_uuid_seed s) (sh_network_manager_running s) k.

Definition M (A : Type) : Type := shell -> option ((A + proc_end) * shell).

#[export] Instance M_ret : MRet M := fun A a s => Some (inl a, s).
#[export] Instance M_bind : MBind M := fun A B f m s =>
  match m s with
  | Some (inl a, s) => f a s
  | Some (inr e, s) => Some (inr e, s)
  | None => None
  end.

Definition stuck {A} : M A := fun _ => None.
Definition finish {A} (e : proc_end) : M A := fun s => Some (inr e, s).
Definition gets {A} (f : shell -> A) : M A := fun s => Some (inl (f s), s).
Definition modify (f : shell -> shell) : M unit := fun s => Some (inl tt, f s).

(** A call of the system. *)
Definition call {A} (f : K -> option (A * K)) : M A := fun s =>
  match f (sh_os s) with Some (a, k) => Some (inl a, sh_set_os k s) | None => None end.

Definition do_write (fd : Z) (bytes : list Z) : M Z := call (os_write fd bytes).
Definition do_open (path : list Z) (flags : Z) : M Z := call (os_open path flags).
Definition do_close (fd : Z) : M Z := call (os_close fd).
Definition do_lseek (fd offset whence : Z) : M Z := call (os_lseek fd offset whence).

(** What a call stores into the buffer it was given. *)
Definition overlay (bytes buf : list Z) : list Z := bytes ++ drop (length bytes) buf.

Definition do_read (fd : Z) (buf : list Z) : M (Z * list Z) :=
  '(n, bytes) ← call (fun k => '(n, bytes, k) ← os_read fd (ustrlen buf) k; Some (n, bytes, k));
  mret (n, overlay bytes buf).
Definition do_readdir (fd : Z) (buf : list Z) : M (Z * list Z) :=
  '(n, bytes) ← call (fun k => '(n, bytes, k) ← os_readdir fd (ustrlen buf) k; Some (n, bytes, k));
  mret (n, overlay bytes buf).

Context (junk : list Z) (fuel : nat).

(** An uninitialised local array. *)
Definition local (n : nat) : list Z := take n junk.

Definition printf_fmt (fmt : list Z) (ap : list va) : M Z :=
  match printf_text (local 1024) fmt ap with
  | None => stuck
  | Some (len, None) => mret len
  | Some (_, Some bytes) => r ← do_write 1 bytes; mret (i32 r)
  end.
Definition printf (fmt : string) (ap : list va) : M Z := printf_fmt (text fmt) ap.

Fixpoint write_all (fd : Z) (l : list (list Z)) : M unit :=
  match l with [] => mret tt | b :: l' => _ ← do_write fd b; write_all fd l' end.

Definition puts (s : list Z) : M unit := write_all 1 (puts_text s).

Definition print (fmt : string) : M unit := _ ← printf fmt []; mret tt.
Definition print1 (fmt : string) (a : va) : M unit := _ ← printf fmt [a]; mret tt.
Definition print2 (fmt : string) (a b : va) : M unit := _ ← printf fmt [a; b]; mret tt.
Definition say (s : string) : M unit := puts (text s).

Definition str (s : list Z) : va := VaStr (Some s).
Definition lit (s : string) : va := VaStr (Some (text s)).
Definition streq (a : list Z) (b : string) : bool := ustrcmp a (text b) =? 0.

(** ** Kernel tables

    [for (int idx = 0; ; idx++) { if (get(idx, &x) < 0) break; ... }]: the
    body continues ([inl]) or returns from the function ([inr]). *)
Fixpoint scan {X S R} (n : nat) (get : Z -> K -> option X) (idx : Z) (body : Z -> X -> S -> M (S + R)) (st : S)
    : M (S + R) :=
  match n with
  | O => stuck
  | Datatypes.S n' =>
      r ← gets (fun s => get idx (sh_os s));
      match r with
      | None => mret (inl st)
      | Some x =>
          r ← body idx x st;
          match r with
          | inl st => scan n' get (idx + 1) body st
          | inr r => mret (inr r)
          end
      end
  end.

(** A scan whose body makes no calls. *)
Definition scan_pure {X S R} (get : Z -> K -> option X) (body : X -> S -> S + R) (st : S) : M (S + R) :=
  scan fuel get 0 (fun _ x st => mret (body x st)) st.

Definition found {R} (r : unit + R) : option R := match r with inl _ => None | inr x => Some x end.

Definition if_cname (i : net_ifinfo) : list Z := cstring (if_name i).

Definition find_default_gateway : M (option Z) :=
  r ← scan_pure os_route_get (fun rt _ =>
    if (rt_dest rt =? 0) && (rt_netmask rt =? 0) then inr (rt_gateway rt) else inl tt) tt;
  mret (found r).

(** One round of the search: the best prefix so far and its route. *)
Definition better_route (dest : Z) (route : net_route) (st : Z * net_route) : Z * net_route :=
  let '(best_prefix, best) := st in
  if rt_netmask route =? 0 then
    if best_prefix <? 0 then (0, route) else (best_prefix, best)
  else if Z.land dest (rt_netmask route) =? rt_dest route then
    let prefix := netmask_to_prefix (rt_netmask route) in
    let prefix := if prefix <? 0 then 0 else prefix in
    if best_prefix <? prefix then (prefix, route) else (best_prefix, best)
  else (best_prefix, best).

Definition find_best_route (dest : Z) : M (option (net_route * Z)) :=
  r ← scan_pure (R := Empty_set) os_route_get (fun route st => inl (better_route dest route st)) (-1, mk_route 0 0 0);
  match (r : (Z * net_route) + Empty_set) with
  | inl (best_prefix, best) => mret (if best_prefix <? 0 then None else Some (best, best_prefix))
  | inr e => match e with end
  end.

Definition find_up_interface_for_dest (dest : Z) : M (option net_ifinfo) :=
  r ← scan_pure os_netif_get (fun info _ =>
    if if_up info =? 0 then inl tt
    else if Z.land dest (if_netmask info) =? Z.land (if_addr info) (if_netmask info) then inr info else inl tt) tt;
  mret (found r).

Definition any_interface_up : M bool :=
  r ← scan_pure os_netif_get (fun info _ => if if_up info =? 0 then inl tt else inr tt) tt;
  mret (bool_decide (is_Some (found r))).

Definition find_interface_by_name (name : option (list Z)) : M (option net_ifinfo) :=
  match name with
  | None => mret None
  | Some name =>
      r ← scan_pure os_netif_get (fun info _ =>
        if negb (if_present info) then inl tt
        else if ustrcmp (if_cname info) name =? 0 then inr info else inl tt) tt;
      mret (found r)
  end.

Definition resolve_host (host : option (list Z)) : M (option Z) :=
  match host with
  | None => mret None
  | Some h =>
      match parse_ipv4 host with
      | Some a => mret (Some a)
      | None =>
          if streq h "localhost" || streq h "loopback" then mret (Some 2130706433)
          else if streq h "gateway" || streq h "router" then find_default_gateway
          else
            r ← scan_pure os_netif_get (fun info _ =>
              if ustrcmp (if_cname info) h =? 0 then inr (if_addr info) else inl tt) tt;
            mret (found r)
      end
  end.

(** The name a lookup found: a string literal, or the name field of a
    record that lived in the function's own frame, which is gone when the
    caller reads it. *)
Inductive name_ptr := NameLiteral (s : list Z) | NameDangling.

Definition reverse_lookup (addr : Z) : M (option name_ptr) :=
  if is_loopback addr then mret (Some (NameLiteral (text "localhost")))
  else
    gw ← find_default_gateway;
    if bool_decide (gw = Some addr) then mret (Some (NameLiteral (text "gateway")))
    else
      r ← scan_pure os_netif_get (fun info _ => if if_addr info =? addr then inr NameDangling else inl tt) tt;
      mret (found r).

(** Reading the string behind the pointer. *)
Definition name_string (p : name_ptr) : M (list Z) :=
  match p with NameLiteral s => mret s | NameDangling => stuck end.

Definition now_ms : M Z :=
  tv ← call os_gettimeofday;
  mret (match tv with Some tv => tv_sec tv *% 1000 +% tv_usec tv / 1000 | None => 0 end).

(** ** Printing *)

Definition print_ipv4 (addr : Z) : M unit :=
  _ ← printf "%u.%u.%u.%u" [VaWord (ip_octet addr 24); VaWord (ip_octet addr 16); VaWord (ip_octet addr 8); VaWord (ip_octet addr 0)];
  mret tt.

Definition print_mac (mac : list Z) : M unit :=
  _ ← printf "%02x:%02x:%02x:%02x:%02x:%02x" (VaWord <$> take 6 mac); mret tt.

Definition up_down (i : net_ifinfo) : va := lit (if if_up i =? 0 then "DOWN" else "UP").

(** A body that always continues. *)
Definition next (m : M unit) : M (unit + Empty_set) := _ ← m; mret (inl tt).
Definition finished (m : M (unit + Empty_set)) : M unit := _ ← m; mret tt.

(** [name && strcmp(info.name, name) != 0] *)
Definition other_name (name : option (list Z)) (i : net_ifinfo) : bool :=
  match name with Some n => negb (ustrcmp (if_cname i) n =? 0) | None => false end.

(** ** Interfaces *)

Definition cmd_ifconfig_show (name : option (list Z)) : M unit :=
  finished (scan fuel os_netif_get 0 (fun _ info _ => next (
    if other_name name info then mret tt
    else
      print1 "%s  " (str (if_cname info));;
      print "inet ";;
      print_ipv4 (if_addr info);;
      print "  netmask ";;
      print_ipv4 (if_netmask info);;
      print "  mac ";;
      print_mac (if_mac info);;
      print1 "  %s
" (up_down info))) tt).

(** A cleared request with its name. *)
Definition new_req (name : list Z) : net_ifreq :=
  mk_ifreq (str_copy (replicate 8 0) 8 (Some name)) 0 0 (replicate 6 0) 0 0.

Definition do_netif_set (rq : net_ifreq) (failed : string) : M unit :=
  r ← call (os_netif_set rq);
  if r <? 0 then say failed else mret tt.

Definition cmd_ifconfig_set (name ip netmask mac : option (list Z)) : M unit :=
  match name, ip, netmask with
  | Some name, Some _, Some _ =>
      let rq := new_req name in
      match parse_ipv4 ip with
      | None => say "ifconfig: invalid IP address"
      | Some a =>
          match parse_ipv4 netmask with
          | None => say "ifconfig: invalid netmask"
          | Some nm =>
              let flags := Z.lor NET_IF_SET_ADDR NET_IF_SET_NETMASK in
              match mac with
              | None =>
                  do_netif_set (mk_ifreq (rq_name rq) a nm (rq_mac rq) 0 flags)
                    "ifconfig: failed to configure interface"
              | Some _ =>
                  match parse_mac mac with
                  | None => say "ifconfig: invalid MAC address"
                  | Some m =>
                      do_netif_set (mk_ifreq (rq_name rq) a nm m 0 (Z.lor flags NET_IF_SET_MAC))
                        "ifconfig: failed to configure interface"
                  end
              end
          end
      end
  | _, _, _ => say "ifconfig: missing arguments"
  end.

Definition cmd_ip_addr_show (name : option (list Z)) : M unit :=
  finished (scan fuel os_netif_get 0 (fun idx info _ => next (
    if other_name name info then mret tt
    else
      _ ← printf "%d: %s: <%s>
" [VaWord (idx + 1); str (if_cname info); up_down info];
      print "    link/ether ";;
      print_mac (if_mac info);;
      print "
";;
      print "    inet ";;
      print_ipv4 (if_addr info);;
      let prefix := netmask_to_prefix (if_netmask info) in
      (if 0 <=? prefix then print1 "/%d" (VaWord prefix) else mret tt);;
      print "
")) tt).

(** The two numbers of [addr/prefix], or what is wrong with them. *)
Definition parse_cidr (cidr : list Z) : (Z * Z) + string :=
  match find_char (Some cidr) 47 with
  | None => inr "ip addr add: expected CIDR"
  | Some len =>
      if 32 <=? len then inr "ip addr add: invalid CIDR"
      else
        match parse_ipv4 (Some (take (Z.to_nat len) cidr)) with
        | None => inr "ip addr add: invalid address"
        | Some addr =>
            let p := drop (Z.to_nat len + 1) cidr in
            if negb (is_digit (deref p)) then inr "ip addr add: invalid prefix"
            else
              match parse_dec 32 p 0 with
              | None => inr "ip addr add: invalid prefix"
              | Some (prefix, p) =>
                  if negb (deref p =? 0) then inr "ip addr add: invalid prefix"
                  else
                    match prefix_to_netmask prefix with
                    | None => inr "ip addr add: invalid prefix"
                    | Some netmask => inl (addr, netmask)
                    end
              end
        end
  end.

Definition cmd_ip_addr_add (cidr name : option (list Z)) : M unit :=
  match cidr, name with
  | Some cidr, Some name =>
      match parse_cidr cidr with
      | inr wrong => say wrong
      | inl (addr, netmask) =>
          let rq := new_req name in
          do_netif_set (mk_ifreq (rq_name rq) addr netmask (rq_mac rq) 0 (Z.lor NET_IF_SET_ADDR NET_IF_SET_NETMASK))
            "ip addr add: failed to configure interface"
      end
  | _, _ => say "ip addr add: missing arguments"
  end.

Definition cmd_ip_link_set (name state : option (list Z)) : M unit :=
  match name, state with
  | Some name, Some state =>
      let rq := new_req name in
      let set up := do_netif_set (mk_ifreq (rq_name rq) 0 0 (rq_mac rq) up NET_IF_SET_UP)
                      "ip link set: failed to update interface" in
      if streq state "up" then set 1
      else if streq state "down" then set 0
      else say "ip link set: expected up or down"
  | _, _ => say "ip link set: missing arguments"
  end.

Definition cmd_ip_route_show : M unit :=
  finished (scan fuel os_route_get 0 (fun _ route _ => next (
    if (rt_dest route =? 0) && (rt_netmask route =? 0) then
      print "default via ";;
      print_ipv4 (rt_gateway route);;
      print "
"
    else
      print_ipv4 (rt_dest route);;
      let prefix := netmask_to_prefix (rt_netmask route) in
      (if 0 <=? prefix then print1 "/%d" (VaWord prefix)
       else print " netmask ";; print_ipv4 (rt_netmask route));;
      (if negb (rt_gateway route =? 0) then print " via ";; print_ipv4 (rt_gateway route) else mret tt);;
      print "
")) tt).

(** The number of interfaces the kernel accepted the request for. *)
Definition set_all_interfaces_up (up : bool) : M Z :=
  r ← scan (R := Empty_set) fuel os_netif_get 0 (fun _ info updated =>
    if negb (if_present info) then mret (inl updated)
    else
      let rq := new_req (if_cname info) in
      r ← call (os_netif_set (mk_ifreq (rq_name rq) 0 0 (rq_mac rq) (if up then 1 else 0) NET_IF_SET_UP));
      mret (inl (if 0 <=? r then updated + 1 else updated))) 0;
  match (r : Z + Empty_set) with inl n => mret n | inr e => match e with end end.

Definition cmd_tcpdump (ifname port_str : option (list Z)) : M unit :=
  match ifname, port_str with
  | Some name, Some _ =>
      match parse_port port_str with
      | None => say "tcpdump: invalid port"
      | Some port =>
          r ← find_interface_by_name ifname;
          match r with
          | None => print1 "tcpdump: unknown interface %s
" (str name)
          | Some info =>
              print1 "tcpdump: listening on %s, link-type EN10MB (simulated), capture size 65535 bytes
" (str name);;
              print1 "tcpdump: filter: port %u
" (VaWord port);;
              print2 "tcpdump: interface %s is %s, address " (str name) (up_down info);;
              print_ipv4 (if_addr info);;
              print ", netmask ";;
              print_ipv4 (if_netmask info);;
              print ", mac ";;
              print_mac (if_mac info);;
              print "
";;
              say "tcpdump: (simulated) no packets captured"
          end
      end
  | _, _ => say "tcpdump: usage: tcpdump -i <ifname> port <port>"
  end.

Definition systemctl_usage : M unit := say "systemctl: usage: systemctl start|stop NetworkManager".

Definition cmd_systemctl (action service : option (list Z)) : M unit :=
  match action, service with
  | Some action, Some service =>
      if negb (streq service "NetworkManager") then print1 "systemctl: unknown service %s
" (str service)
      else if streq action "start" then
        running ← gets sh_network_manager_running;
        if (running : bool) then say "systemctl: NetworkManager already running"
        else
          updated ← set_all_interfaces_up true;
          modify (sh_set_running true);;
          print1 "systemctl: Started NetworkManager (interfaces up: %d)
" (VaWord updated)
      else if streq action "stop" then
        running ← gets sh_network_manager_running;
        if negb running then say "systemctl: NetworkManager already stopped"
        else
          updated ← set_all_interfaces_up false;
          modify (sh_set_running false);;
          print1 "systemctl: Stopped NetworkManager (interfaces down: %d)
" (VaWord updated)
      else systemctl_usage
  | _, _ => systemctl_usage
  end.

Definition cmd_route_add_default (gateway : option (list Z)) : M unit :=
  match gateway with
  | None => say "route add: missing gateway"
  | Some _ =>
      match parse_ipv4 gateway with
      | None => say "route add: invalid gateway"
      | Some gw =>
          r ← call (os_route_add (mk_route 0 0 gw));
          if r <? 0 then say "route add: failed to add default gateway" else mret tt
      end
  end.

(** ** Reachability *)

Definition ping_reachable (addr : Z) : M bool :=
  route ← find_best_route addr;
  if is_loopback addr then
    i ← find_up_interface_for_dest addr; mret (bool_decide (is_Some i))
  else
    match route with
    | None => mret false
    | Some (route, _) =>
        if rt_gateway route =? 0 then i ← find_up_interface_for_dest addr; mret (bool_decide (is_Some i))
        else any_interface_up
    end.

Fixpoint ping_rounds (n : nat) (seq addr : Z) : M unit :=
  match n with
  | O => mret tt
  | S n' =>
      start ← now_ms;
      _ ← call (os_sleep 10);
      stop ← now_ms;
      let rtt := if start <=? stop then stop - start else 0 in
      print "64 bytes from ";;
      print_ipv4 addr;;
      print2 ": icmp_seq=%d ttl=64 time=%u ms
" (VaWord seq) (VaWord (u32 rtt));;
      ping_rounds n' (seq + 1) addr
  end.

Definition cmd_ping (host : option (list Z)) : M unit :=
  match host with
  | None => say "ping: missing host"
  | Some h =>
      a ← resolve_host host;
      match a with
      | None => print1 "ping: unknown host %s
" (str h)
      | Some addr =>
          reachable ← ping_reachable addr;
          print1 "PING %s (" (str h);;
          print_ipv4 addr;;
          say "): 56 data bytes";;
          if negb reachable then say "ping: Network unreachable" else ping_rounds 4 1 addr
      end
  end.

Definition cmd_traceroute (host : option (list Z)) : M unit :=
  match host with
  | None => say "traceroute: missing host"
  | Some h =>
      a ← resolve_host host;
      match a with
      | None => print1 "traceroute: unknown host %s
" (str h)
      | Some addr =>
          r ← find_best_route addr;
          let has_route := bool_decide (is_Some r) in
          let route := match r with Some (route, _) => route | None => mk_route 0 0 0 end in
          if negb has_route && negb (is_loopback addr) then say "traceroute: no route to host"
          else
            print1 "traceroute to %s (" (str h);;
            print_ipv4 addr;;
            say "), 30 hops max";;
            if is_loopback addr || (has_route && (rt_gateway route =? 0)) then
              print1 " %d  " (VaWord 1);;
              print_ipv4 addr;;
              say "  1 ms"
            else
              print1 " %d  " (VaWord 1);;
              print_ipv4 (rt_gateway route);;
              say "  1 ms";;
              print1 " %d  " (VaWord 2);;
              print_ipv4 addr;;
              say "  2 ms"
      end
  end.

(** ** Names *)

Definition name_server : M Z := gw ← find_default_gateway; mret (default 2130706433 gw).

Definition cmd_nslookup (host : option (list Z)) : M unit :=
  match host with
  | None => say "nslookup: usage: nslookup <name>"
  | Some h =>
      server ← name_server;
      print "Server: ";;
      print_ipv4 server;;
      say "";;
      print "Address: ";;
      print_ipv4 server;;
      say "";;
      match parse_ipv4 host with
      | Some addr =>
          r ← reverse_lookup addr;
          match r with
          | None => print1 "nslookup: %s: NXDOMAIN
" (str h)
          | Some p =>
              name ← name_string p;
              print1 "Name: %s
" (str name);;
              print "Address: ";;
              print_ipv4 addr;;
              say ""
          end
      | None =>
          a ← resolve_host host;
          match a with
          | None => print1 "nslookup: %s: NXDOMAIN
" (str h)
          | Some addr =>
              print1 "Name: %s
" (str h);;
              print "Address: ";;
              print_ipv4 addr;;
              say ""
          end
      end
  end.

Definition cmd_dig (host : option (list Z)) : M unit :=
  match host with
  | None => say "dig: usage: dig <name>"
  | Some h =>
      server ← name_server;
      start ← now_ms;
      let reverse := parse_ipv4 host in
      ptr_name ← match reverse with Some addr => reverse_lookup addr | None => mret None end;
      stop ← now_ms;
      let elapsed := if start <=? stop then u32 (stop - start) else 0 in
      print1 "; <<>> MyOS DiG <<>> %s
" (str h);;
      say ";; QUESTION SECTION:";;
      match reverse with
      | Some addr => print1 ";%s IN PTR
" (str (cstring (format_ipv4_reverse (local 64) 64 addr)))
      | None => print1 ";%s. IN A
" (str h)
      end;;
      say ";; ANSWER SECTION:";;
      match reverse with
      | Some addr =>
          match ptr_name with
          | None => say ";; (no answer)"
          | Some p =>
              name ← name_string p;
              print2 "%s 60 IN PTR %s.
" (str (cstring (format_ipv4_reverse (local 64) 64 addr))) (str name)
          end
      | None =>
          a ← resolve_host host;
          match a with
          | Some addr =>
              print1 "%s. 60 IN A " (str h);;
              print_ipv4 addr;;
              say ""
          | None => say ";; (no answer)"
          end
      end;;
      print1 ";; Query time: %u msec
" (VaWord elapsed);;
      print ";; SERVER: ";;
      print_ipv4 server;;
      say "#53"
  end.
End shell.
