(* ===== verification/ShellMain.v ===== *)
(** * The shell: sockets, files, mounts and the command loop (user/init.c)

    The listing of sockets, the commands on files and devices, the table of
    mounts, and the loop that reads a line, splits it into words and runs
    the command the first word names.  The superblock is its 508 bytes. *)

From Stdlib Require Import String.
From stdpp Require Import prelude list.
From Stdlib Require Import ZArith Lia.
From S2P Require Import Prelude Console UserLib Net Time UserText Shell.
#[local] Open Scope string_scope.
#[local] Open Scope list_scope.
#[local] Open Scope Z_scope.
#[local] Open Scope cint_scope.

(** ** Sockets *)

Definition socket_proto_name (type : Z) : list Z := text (if type =? NET_SOCK_STREAM then "tcp" else "udp").

Definition socket_state_name (info : option net_socket_info) : list Z :=
  match info with
  | None => text "UNKNOWN"
  | Some i =>
      if in_type i =? NET_SOCK_DGRAM then text "UNCONN"
      else
        match in_state i with
        | NET_STATE_LISTEN => text "LISTEN"
        | NET_STATE_CONNECTED => text "ESTABLISHED"
        | NET_STATE_BOUND => text "CLOSE"
        | NET_STATE_FREE => text "UNKNOWN"
        end
  end.

Definition socket_is_listening (info : option net_socket_info) : bool :=
  match info with
  | None => false
  | Some i =>
      if in_type i =? NET_SOCK_STREAM then bool_decide (in_state i = NET_STATE_LISTEN)
      else bool_decide (in_state i = NET_STATE_BOUND)
  end.

Inductive socket_view := SOCKET_VIEW_NETSTAT | SOCKET_VIEW_SS.

(** The flags of the two listing commands. *)
Record sock_flags := mk_flags {
  want_tcp : bool; want_udp : bool; show_listen : bool; show_all : bool; show_proc : bool; summary : bool
}.

(** One letter of an option; [ss] also knows [s]. *)
Definition flag_letter (with_summary : bool) (c : Z) (f : sock_flags) : sock_flags :=
  let '(mk_flags t u l a p s) := f in
  if c =? 116 then mk_flags true u l a p s
  else if c =? 117 then mk_flags t true l a p s
  else if c =? 108 then mk_flags t u true a p s
  else if c =? 97 then mk_flags t u l true p s
  else if c =? 112 then mk_flags t u l a true s
  else if with_summary && (c =? 115) then mk_flags t u l a p true
  else f.

Definition flag_args (with_summary : bool) (args : list (list Z)) : sock_flags :=
  fold_left (fun f arg =>
    if negb (deref arg =? 45) then f else fold_left (fun f c => flag_letter with_summary c f) (tl arg) f)
    args (mk_flags false false false false false false).

(** ** Superblocks *)

Definition SB_SIZE : nat := 508.
Definition le32 (v : Z) : list Z := [u8 v; u8 (Z.shiftr v 8); u8 (Z.shiftr v 16); u8 (Z.shiftr v 24)].
Definition un_le32 (l : list Z) : Z :=
  nth 0 l 0 + nth 1 l 0 * 256 + nth 2 l 0 * 65536 + nth 3 l 0 * 16777216.

Definition sb_magic (sb : list Z) : list Z := take 8 sb.
Definition sb_fstype (sb : list Z) : list Z := take 8 (drop 8 sb).
Definition sb_block_size (sb : list Z) : Z := un_le32 (drop 16 sb).
Definition sb_total_blocks (sb : list Z) : Z := un_le32 (drop 20 sb).
Definition sb_uuid (sb : list Z) : list Z := take 16 (drop 24 sb).

(** The superblock write_superblock fills in. *)
Definition new_superblock (fstype uuid : list Z) : list Z :=
  (FS_MAGIC ++ [0]) ++ str_copy (replicate 8 0) 8 (Some fstype) ++ le32 FS_BLOCK_SIZE ++ le32 FS_TOTAL_BLOCKS
    ++ uuid ++ replicate 468 0.

(** ** Options of commands *)

Fixpoint mkfs_opts (args : list (list Z)) (fstype device : option (list Z)) : option (list Z) * option (list Z) :=
  match args with
  | [] => (fstype, device)
  | a :: args' =>
      let other := mkfs_opts args' fstype (match device with None => Some a | _ => device end) in
      match args' with
      | t :: args'' => if streq a "-t" then mkfs_opts args'' (Some t) device else other
      | [] => other
      end
  end.

Fixpoint mount_opts (args : list (list Z)) (fstype device target : option (list Z))
    : option (list Z) * option (list Z) * option (list Z) :=
  match args with
  | [] => (fstype, device, target)
  | a :: args' =>
      let other := match device, target with
                   | None, _ => mount_opts args' fstype (Some a) target
                   | Some _, None => mount_opts args' fstype device (Some a)
                   | Some _, Some _ => mount_opts args' fstype device target
                   end in
      match args' with
      | t :: args'' => if streq a "-t" then mount_opts args'' (Some t) device target else other
      | [] => other
      end
  end.

(** Whether an argument was not understood, which also forgets the
    interface. *)
Fixpoint tcpdump_opts (args : list (list Z)) (ifname port : option (list Z)) : bool * option (list Z) * option (list Z) :=
  match args with
  | [] => (false, ifname, port)
  | a :: args' =>
      match args' with
      | v :: args'' =>
          if streq a "-i" then tcpdump_opts args'' (Some v) port
          else if streq a "port" then tcpdump_opts args'' ifname (Some v)
          else (true, None, port)
      | [] => (true, None, port)
      end
  end.

Definition mount_target_is (target : list Z) (m : mount_entry) : Prop :=
  mt_active m = true /\ ustrcmp (cstring (mt_target m)) target = 0.
#[export] Instance mount_target_is_dec target m : Decision (mount_target_is target m).
Proof. unfold mount_target_is. apply _. Defined.

(** The first entry with this target, and the first free one. *)
Definition mount_find_target (mounts : list mount_entry) (target : option (list Z)) : option nat :=
  target ← target; fst <$> list_find (mount_target_is target) mounts.
Definition mount_alloc (mounts : list mount_entry) : option nat :=
  fst <$> list_find (fun m => mt_active m = false) mounts.

Definition cmd_mkfs_fstype (cmd : option (list Z)) : option (list Z) :=
  cmd ← cmd; if negb (ustrncmp cmd (text "mkfs.") 5 =? 0) then None else Some (drop 5 cmd).

(** *** The table of mounts under [mount] and [umount] *)

Definition mount_set (entry : mount_entry) (device target fstype : list Z) (block_size blocks : Z) : mount_entry :=
  mk_mount (str_copy (mt_device entry) 64 (Some device)) (str_copy (mt_target entry) 64 (Some target))
    (str_copy (mt_fstype entry) 8 (Some fstype)) block_size blocks true.

(** The slot used and the new table; [None] when the table is full. *)
Definition mount_table_add (mounts : list mount_entry) (device target fstype : list Z) (block_size blocks : Z)
    : option (mount_entry * list mount_entry) :=
  i ← match mount_find_target mounts (Some target) with Some i => Some i | None => mount_alloc mounts end;
  entry ← mounts !! i;
  let entry := mount_set entry device target fstype block_size blocks in
  Some (entry, <[i := entry]> mounts).

Definition mount_off (m : mount_entry) : mount_entry :=
  mk_mount (mt_device m) (mt_target m) (mt_fstype m) (mt_block_size m) (mt_total_blocks m) false.

Definition mount_table_del (mounts : list mount_entry) (target : list Z) : option (list mount_entry) :=
  i ← mount_find_target mounts (Some target);
  Some (alter mount_off i mounts).

Definition zero_mount : mount_entry := mk_mount (replicate 64 0) (replicate 64 0) (replicate 8 0) 0 0 false.

(** What [main] starts with. *)
Definition first_mounts : list mount_entry :=
  mk_mount (str_copy (replicate 64 0) 64 (Some (text "memfs"))) (str_copy (replicate 64 0) 64 (Some (text "/")))
    (str_copy (replicate 8 0) 8 (Some (text "memfs"))) FS_BLOCK_SIZE 256 true
  :: replicate 7 zero_mount.

Section main.
Context {K : Type} `{SysOps K} (junk : list Z) (fuel : nat).

#[local] Notation M := (M (K := K)).
#[local] Notation printf := (printf (K := K) junk).
#[local] Notation print := (print (K := K) junk).
#[local] Notation print1 := (print1 (K := K) junk).
#[local] Notation print2 := (print2 (K := K) junk).

(** ** Listing sockets *)

(** [show_proc && info.owner_pid >= 0 ? ... : "-"], the end of a line. *)
Definition print_owner (f : sock_flags) (info : net_socket_info) (fmt : string) : M unit :=
  if show_proc f && (0 <=? in_owner info) then print1 fmt (VaWord (in_owner info))
  else if show_proc f then say "-"
  else say "".

Definition socket_skipped (f : sock_flags) (info : net_socket_info) : bool :=
  negb (in_in_use info)
  || ((in_type info =? NET_SOCK_STREAM) && negb (want_tcp f))
  || ((in_type info =? NET_SOCK_DGRAM) && negb (want_udp f))
  || (show_listen f && negb (socket_is_listening (Some info)))
  || (negb (show_all f) && negb (show_listen f)).

(** Both protocols and all states when none is asked for. *)
Definition flag_defaults (f : sock_flags) : sock_flags :=
  let tcp_udp := negb (want_tcp f) && negb (want_udp f) in
  mk_flags (tcp_udp || want_tcp f) (tcp_udp || want_udp f) (show_listen f)
    ((negb (show_listen f) && negb (show_all f)) || show_all f) (show_proc f) (summary f).

Definition cmd_socket_list (f : sock_flags) (view : socket_view) : M unit :=
  let f := flag_defaults f in
  match view with
  | SOCKET_VIEW_SS => say "Netid  State        Local Address:Port     Peer Address:Port      Process"
  | SOCKET_VIEW_NETSTAT => say "Proto Local Address           Foreign Address         State       PID/Program name"
  end;;
  finished (scan fuel os_net_socket_get 0 (fun _ info _ => next (
    if socket_skipped f info then mret tt
    else
      let local_addr := str (cstring (format_sockaddr (local junk 20) (local junk 32) 32 (Some (in_local info)))) in
      let remote_addr := str (cstring (format_sockaddr (local junk 20) (local junk 32) 32 (Some (in_remote info)))) in
      let proto := str (socket_proto_name (in_type info)) in
      let state := str (socket_state_name (Some info)) in
      match view with
      | SOCKET_VIEW_SS =>
          _ ← printf "%-6s %-12s %-22s %-22s " [proto; state; local_addr; remote_addr];
          print_owner f info "pid=%d,cmd=myos
"
      | SOCKET_VIEW_NETSTAT =>
          _ ← printf "%-5s %-22s %-22s %-11s " [proto; local_addr; remote_addr; state];
          print_owner f info "%d/myos
"
      end)) tt).

Definition cmd_netstat (args : list (list Z)) : M unit := cmd_socket_list (flag_args false args) SOCKET_VIEW_NETSTAT.

(** Counters: all, tcp, udp, listening, established. *)
Definition ss_count (info : net_socket_info) (c : Z * Z * Z * Z * Z) : Z * Z * Z * Z * Z :=
  let '(total, tcp, udp, listening, established) := c in
  let one (b : bool) := if b then 1 else 0 in
  if negb (in_in_use info) then c
  else
    (total + 1, tcp + one (in_type info =? NET_SOCK_STREAM), udp + one (in_type info =? NET_SOCK_DGRAM),
     listening + one (socket_is_listening (Some info)),
     established + one (bool_decide (in_state info = NET_STATE_CONNECTED))).

Definition cmd_ss_summary : M unit :=
  r ← scan_pure fuel (R := Empty_set) os_net_socket_get (fun info c => inl (ss_count info c)) (0, 0, 0, 0, 0);
  match (r : (Z * Z * Z * Z * Z) + Empty_set) with
  | inl (total, tcp, udp, listening, established) =>
      print1 "Total: %d
" (VaWord total);;
      _ ← printf "TCP: %d (established %d, listen %d)
" [VaWord tcp; VaWord established; VaWord listening];
      print1 "UDP: %d
" (VaWord udp)
  | inr e => match e with end
  end.

Definition cmd_ss (args : list (list Z)) : M unit :=
  let f := flag_args true args in
  if summary f then cmd_ss_summary else cmd_socket_list f SOCKET_VIEW_SS.

(** ** Devices and superblocks *)

(** The descriptor or -1; the path used is only stored. *)
Definition open_device (path : option (list Z)) (flags : Z) : M Z :=
  let target := default (text "/dev/disk") path in
  fd ← do_open target flags;
  let fd := i32 fd in
  if 0 <=? fd then mret fd
  else if negb (streq target "/dev/disk") then
    fd ← do_open (text "/dev/disk") flags;
    let fd := i32 fd in
    mret (if 0 <=? fd then fd else -1)
  else mret (-1).

(** [None] is the result -1. *)
Definition read_superblock (path : option (list Z)) : M (option (list Z)) :=
  fd ← open_device path O_RDONLY;
  if fd <? 0 then mret None
  else
    _ ← do_lseek fd 0 0;
    '(n, sb) ← do_read fd (local junk SB_SIZE);
    _ ← do_close fd;
    mret (if n <? FS_MAGIC_LEN then None
          else if negb (umemcmp (sb_magic sb) FS_MAGIC 7 =? 0) then None
          else Some sb).

Definition write_superblock (path fstype : option (list Z)) : M Z :=
  seed ← gets sh_uuid_seed;
  let '(uuid, seed) := generate_uuid seed in
  modify (sh_set_seed seed);;
  let sb := new_superblock (default (text "unknown") fstype) uuid in
  fd ← open_device path O_RDWR;
  if fd <? 0 then mret (-1)
  else
    _ ← do_lseek fd 0 0;
    n ← do_write fd sb;
    _ ← do_close fd;
    mret (if n =? 508 then 0 else -1).

Definition cmd_mkfs (cmd device type_override : option (list Z)) : M unit :=
  let fstype := match type_override with Some t => Some t | None => cmd_mkfs_fstype cmd end in
  let fstype := match fstype with Some (c :: t) => c :: t | _ => text "myosfs" end in
  r ← write_superblock device (Some fstype);
  print2 "mkfs.%s: formatted %s
" (str fstype) (str (if r =? 0 then default (text "/dev/disk") device else text "/dev/disk")).

(** ** Mounts *)

Definition cmd_mount (fstype device target : option (list Z)) : M unit :=
  match target with
  | None => say "mount: missing target"
  | Some target =>
      let used_device := default (text "none") device in
      sb ← match fstype with None => read_superblock device | Some _ => mret None end;
      let detected := str_copy (text "unknown" ++ [0]) 8 (Some (match sb with Some sb => cstring (sb_fstype sb) | None => text "unknown" end)) in
      let blocks := match sb with
                    | Some sb => if negb (sb_total_blocks sb =? 0) then sb_total_blocks sb else FS_TOTAL_BLOCKS
                    | None => FS_TOTAL_BLOCKS
                    end in
      let block_size := match sb with
                        | Some sb => if negb (sb_block_size sb =? 0) then sb_block_size sb else FS_BLOCK_SIZE
                        | None => FS_BLOCK_SIZE
                        end in
      let use_type := match fstype with Some t => t | None => cstring detected end in
      mounts ← gets sh_mounts;
      match mount_table_add mounts used_device target use_type block_size blocks with
      | None => say "mount: mount table full"
      | Some (entry, mounts) =>
          modify (sh_set_mounts mounts);;
          _ ← printf "mounted %s on %s type %s
" [str (cstring (mt_device entry)); str (cstring (mt_target entry)); str (cstring (mt_fstype entry))];
          mret tt
      end
  end.

Definition cmd_umount (target : option (list Z)) : M unit :=
  match target with
  | None => say "umount: missing target"
  | Some target =>
      mounts ← gets sh_mounts;
      match mount_table_del mounts target with
      | None => print1 "umount: %s not mounted
" (str target)
      | Some mounts =>
          modify (sh_set_mounts mounts);;
          print1 "unmounted %s
" (str target)
      end
  end.

Fixpoint df_lines (mounts : list mount_entry) : M unit :=
  match mounts with
  | [] => mret tt
  | m :: mounts' =>
      (if negb (mt_active m) then mret tt
       else
         let total := (mt_block_size m *% mt_total_blocks m) / 1024 in
         _ ← printf "%-13s %-4s %9u %4u %9u %s
" [str (cstring (mt_device m)); str (cstring (mt_fstype m)); VaWord (u32 total); VaWord 0; VaWord (u32 total);
           str (cstring (mt_target m))];
         mret tt);;
      df_lines mounts'
  end.

Definition cmd_df : M unit :=
  say "Filesystem     Type 1K-blocks Used Available Mounted on";;
  mounts ← gets sh_mounts;
  df_lines mounts.

(** ** Files *)

Definition is_dir_path (path : option (list Z)) : M bool :=
  match path with
  | None => mret false
  | Some path =>
      fd ← do_open path O_RDONLY;
      let fd := i32 fd in
      if fd <? 0 then mret false
      else
        '(n, _) ← do_readdir fd (local junk 2);
        _ ← do_close fd;
        mret (0 <=? n)
  end.

Definition file_size (path : option (list Z)) : M Z :=
  match path with
  | None => mret 0
  | Some path =>
      fd ← do_open path O_RDONLY;
      let fd := i32 fd in
      if fd <? 0 then mret 0
      else
        size ← do_lseek fd 0 2;
        _ ← do_close fd;
        mret (if size <? 0 then 0 else size)
  end.

(** The entries of an open directory, one after the other. *)
Fixpoint du_entries (n : nat) (du : list Z -> M Z) (path : list Z) (fd total : Z) : M Z :=
  match n with
  | O => stuck
  | S n' =>
      '(r, name) ← do_readdir fd (local junk 256);
      if r <=? 0 then mret total
      else
        let name := cstring name in
        if streq name "." || streq name ".." then du_entries n' du path fd total
        else
          sub ← du (cstring (join_path (local junk 512) 512 (Some path) (Some name)));
          du_entries n' du path fd (total +% sub)
  end.

Fixpoint du_path (depth : nat) (path : list Z) : M Z :=
  match depth with
  | O => stuck
  | S depth' =>
      dir ← is_dir_path (Some path);
      if negb dir then
        if ustrncmp path (text "/dev/disk") 9 =? 0 then mret FS_DISK_BYTES else file_size (Some path)
      else
        fd ← do_open path O_RDONLY;
        let fd := i32 fd in
        if fd <? 0 then mret 0
        else
          total ← du_entries fuel (du_path depth') path fd 0;
          _ ← do_close fd;
          mret total
  end.

Definition cmd_du (path : option (list Z)) : M unit :=
  let target := default (text "/") path in
  total ← du_path fuel target;
  _ ← printf_fmt junk (text "%s" ++ [9] ++ text "%s" ++ [10])
        [str (cstring (format_size_h (local junk 16) 16 total)); str target];
  mret tt.

(** The file system's name in a superblock is printed up to the first zero
    byte, wherever that is. *)
Definition sb_type_string (sb : list Z) : M (list Z) :=
  if bool_decide (0 ∈ drop 8 sb) then mret (cstring (drop 8 sb)) else stuck.

Definition cmd_fsck (device : option (list Z)) : M unit :=
  r ← read_superblock device;
  match r with
  | Some sb => t ← sb_type_string sb; print1 "fsck.%s: clean
" (str t)
  | None => say "fsck: no filesystem signature found, nothing to fix"
  end.

Definition cmd_lsblk : M unit := say "NAME   SIZE TYPE MOUNTPOINT";; say "disk  16M disk /".

Definition quoted (s : list Z) : list Z := [34] ++ s ++ [34].

Definition cmd_blkid (device : option (list Z)) : M unit :=
  r ← read_superblock device;
  let name := str (default (text "/dev/disk") device) in
  match r with
  | Some sb =>
      t ← sb_type_string sb;
      _ ← printf_fmt junk (text "%s: UUID=" ++ quoted (text "%s") ++ text " TYPE=" ++ quoted (text "%s") ++ [10])
            [name; str (cstring (format_uuid (local junk 40) 40 (sb_uuid sb))); str t];
      mret tt
  | None => _ ← printf_fmt junk (text "%s: TYPE=" ++ quoted (text "unknown") ++ [10]) [name]; mret tt
  end.

Definition cmd_stat (path : option (list Z)) : M unit :=
  let target := default (text "/") path in
  is_dir ← is_dir_path (Some target);
  '(type, size) ←
    (if ustrncmp target (text "/dev/") 5 =? 0 then
       mret ("device", if streq target "/dev/disk" then FS_DISK_BYTES else 0)
     else if (is_dir : bool) then mret ("directory", 0)
     else size ← file_size (Some target); mret ("file", size));
  print1 "  File: %s
" (str target);;
  print1 "  Size: %u
" (VaWord (u32 size));;
  print1 "  Type: %s
" (lit type);;
  say "Access: 0644 (simulated)";;
  say "Modify: 1970-01-01 00:00:00 (simulated)".

Fixpoint ls_entries (n : nat) (fd : Z) : M unit :=
  match n with
  | O => stuck
  | S n' =>
      '(r, name) ← do_readdir fd (local junk 256);
      if r <=? 0 then mret tt
      else print1 "%s
" (str (cstring name));; ls_entries n' fd
  end.

Definition cmd_ls (path : option (list Z)) : M unit :=
  let target := default (text "/") path in
  fd ← do_open target O_RDONLY;
  let fd := i32 fd in
  if fd <? 0 then print1 "ls: cannot open %s
" (str target)
  else ls_entries fuel fd;; _ ← do_close fd; mret tt.

Fixpoint cat_blocks (n : nat) (fd : Z) : M unit :=
  match n with
  | O => stuck
  | S n' =>
      '(r, buf) ← do_read fd (local junk 256);
      if r <=? 0 then mret tt
      else _ ← do_write 1 (take (Z.to_nat r) buf); cat_blocks n' fd
  end.

Definition cmd_cat (path : option (list Z)) : M unit :=
  match path with
  | None => print "cat: missing file
"
  | Some path =>
      fd ← do_open path O_RDONLY;
      let fd := i32 fd in
      if fd <? 0 then print1 "cat: cannot open %s
" (str path)
      else cat_blocks fuel fd;; _ ← do_close fd; mret tt
  end.

Definition cmd_touch (path : option (list Z)) : M unit :=
  match path with
  | None => print "touch: missing file
"
  | Some path =>
      fd ← do_open path (Z.lor O_CREAT O_WRONLY);
      let fd := i32 fd in
      if fd <? 0 then print1 "touch: cannot create %s
" (str path)
      else _ ← do_close fd; mret tt
  end.

(** Splits the arguments at the first [>] that has a word after it; nothing
    is redirected when the first [>] is the last word. *)
Fixpoint echo_redirect (args : list (list Z)) : list (list Z) * option (list Z) :=
  match args with
  | [] => ([], None)
  | a :: args' =>
      if streq a ">" then
        match args' with
        | path :: _ => ([], Some path)
        | [] => (args, None)
        end
      else let '(shown, r) := echo_redirect args' in (a :: shown, r)
  end.

(** The pieces written: the words with blanks between them. *)
Fixpoint echo_pieces (shown : list (list Z)) : list (list Z) :=
  match shown with
  | [] => []
  | [a] => [a]
  | a :: shown' => a :: [32] :: echo_pieces shown'
  end.

(** [args] without the command's name. *)
Definition cmd_echo (args : list (list Z)) : M unit :=
  let '(shown, redirect_path) := echo_redirect args in
  match redirect_path with
  | None => write_all 1 (echo_pieces shown ++ [[10]])
  | Some path =>
      fd ← do_open path (Z.lor O_CREAT O_WRONLY);
      let fd := i32 fd in
      if fd <? 0 then print1 "echo: cannot create %s
" (str path)
      else write_all fd (echo_pieces shown ++ [[10]]);; _ ← do_close fd; mret tt
  end.

(** The child of a fork gets 0 and goes on as another process. *)
Definition run_external (path : list Z) : M unit :=
  pid ← call os_fork;
  if pid =? 0 then
    r ← call (os_execve path);
    match r with
    | None => finish (Replaced path)
    | Some r =>
        if r <? 0 then
          print1 "exec: failed to run %s
" (str path);; finish (Exited 1)
        else finish (Exited 0)
    end
  else if 0 <? pid then _ ← call (os_waitpid pid); mret tt
  else print "fork failed
".

(** ** The command loop *)

(** Characters until the end of the line; backspace takes one back. *)
Fixpoint read_line_loop (n : nat) (max_len pos : Z) (buf : list Z) : M (Z * list Z) :=
  match n with
  | O => stuck
  | S n' =>
      if pos <? max_len - 1 then
        '(r, c) ← do_read 0 [0];
        let c := nth 0 c 0 in
        if r <=? 0 then read_line_loop n' max_len pos buf
        else if (c =? 13) || (c =? 10) then mret (pos, buf)
        else if c =? 8 then read_line_loop n' max_len (if 0 <? pos then pos - 1 else pos) buf
        else read_line_loop n' max_len (pos + 1) (set_at buf pos c)
      else mret (pos, buf)
  end.

Definition read_line (buf : list Z) (max_len : Z) : M (Z * list Z) :=
  '(pos, buf) ← read_line_loop fuel max_len 0 buf;
  mret (pos, set_at buf pos 0).

Definition help_text : string :=
  "Built-ins: help ls cat touch echo exit mkfs mount umount df du fsck lsblk blkid stat ifconfig ip route ping traceroute tracepath nslookup dig netstat ss tcpdump systemctl".

Definition run_ip (argv : list (list Z)) : M unit :=
  let arg i := nth i argv [] in
  let argc := length argv in
  let has i s := streq (arg i) s in
  if (2 <=? argc)%nat && has 1%nat "addr" then
    if (argc =? 2)%nat || ((3 <=? argc)%nat && has 2%nat "show") then cmd_ip_addr_show junk fuel (argv !! 3%nat)
    else if (6 <=? argc)%nat && has 2%nat "add" && has 4%nat "dev" then cmd_ip_addr_add (argv !! 3%nat) (argv !! 5%nat)
    else say "ip addr: usage: ip addr show [ifname] | ip addr add <addr>/<prefix> dev <ifname>"
  else if (2 <=? argc)%nat && has 1%nat "link" then
    if (5 <=? argc)%nat && has 2%nat "set" then cmd_ip_link_set (argv !! 3%nat) (argv !! 4%nat)
    else say "ip link: usage: ip link set <ifname> up|down"
  else if (2 <=? argc)%nat && has 1%nat "route" then
    if (argc =? 2)%nat || ((3 <=? argc)%nat && has 2%nat "show") then cmd_ip_route_show junk fuel
    else say "ip route: usage: ip route [show]"
  else say "ip: usage: ip addr|link|route".

Definition run_tcpdump (args : list (list Z)) : M unit :=
  let usage := say "tcpdump: usage: tcpdump -i <ifname> port <port>" in
  let '(bad, ifname, port) := tcpdump_opts args None None in
  (if (bad : bool) then usage else mret tt);;
  match ifname, port with
  | Some _, Some _ => cmd_tcpdump junk fuel ifname port
  | None, None => mret tt
  | _, _ => usage
  end.

(** One command; the result tells whether the loop goes on. *)
Definition run_command (argv : list (list Z)) : M bool :=
  let name := nth 0 argv [] in
  let args := tl argv in
  let first := argv !! 1%nat in
  let named s := streq name s in
  let go (m : M unit) : M bool := m;; mret true in
  if named "help" then go (say help_text)
  else if named "ls" then go (cmd_ls (Some (default (text "/") first)))
  else if named "cat" then go (cmd_cat first)
  else if named "touch" then go (cmd_touch first)
  else if named "echo" then go (cmd_echo args)
  else if ustrncmp name (text "mkfs.") 5 =? 0 then
    go (cmd_mkfs (Some name) (Some (default (text "/dev/disk") first)) None)
  else if named "mkfs" then
    let '(fstype, device) := mkfs_opts args None None in
    go (cmd_mkfs (Some (text "mkfs")) (Some (default (text "/dev/disk") device)) fstype)
  else if named "mount" then
    let '(fstype, device, target) := mount_opts args None None None in
    let '(device, target) := match target, device with None, Some d => (None, Some d) | _, _ => (device, target) end in
    go (cmd_mount fstype device target)
  else if named "umount" then go (cmd_umount first)
  else if named "df" then go cmd_df
  else if named "du" then go (cmd_du (Some (default (text "/") first)))
  else if ustrncmp name (text "fsck") 4 =? 0 then go (cmd_fsck (Some (default (text "/dev/disk") first)))
  else if named "lsblk" then go cmd_lsblk
  else if named "blkid" then go (cmd_blkid (Some (default (text "/dev/disk") first)))
  else if named "stat" then go (cmd_stat (Some (default (text "/") first)))
  else if named "ifconfig" then
    go (match argv with
        | [_] => cmd_ifconfig_show junk fuel None
        | [_; n] => cmd_ifconfig_show junk fuel (Some n)
        | _ => cmd_ifconfig_set first (argv !! 2%nat) (argv !! 3%nat) (argv !! 4%nat)
        end)
  else if named "ip" then go (run_ip argv)
  else if named "route" then
    go (match argv with
        | [_; add; def; gw; addr] =>
            if streq add "add" && streq def "default" && streq gw "gw" then cmd_route_add_default (Some addr)
            else say "route: usage: route add default gw <gateway>"
        | _ => say "route: usage: route add default gw <gateway>"
        end)
  else if named "ping" then go (cmd_ping junk fuel first)
  else if named "traceroute" || named "tracepath" then go (cmd_traceroute junk fuel first)
  else if named "nslookup" then go (cmd_nslookup junk fuel first)
  else if named "dig" then go (cmd_dig junk fuel first)
  else if named "netstat" then go (cmd_netstat args)
  else if named "ss" then go (cmd_ss args)
  else if named "tcpdump" then go (run_tcpdump args)
  else if named "systemctl" then
    go (if (3 <=? length argv)%nat then cmd_systemctl junk fuel first (argv !! 2%nat) else systemctl_usage)
  else if named "exit" then mret false
  else go (run_external name).

Definition shell_round (line : list Z) : M (bool * list Z) :=
  print "myos> ";;
  '(len, line) ← read_line line 256;
  if len =? 0 then mret (true, line)
  else
    let '(argv, line) := split_args line 8 in
    if (length argv =? 0)%nat then mret (true, line)
    else
      more ← run_command (arg_strings (argv, line));
      mret (more, line).

Fixpoint shell_loop (n : nat) (line : list Z) : M unit :=
  match n with
  | O => stuck
  | S n' =>
      '(more, line) ← shell_round line;
      if (more : bool) then shell_loop n' line else mret tt
  end.

Definition shell_main : M unit :=
  say "MyOS user shell. Type 'help' for commands.";;
  modify (sh_set_mounts first_mounts);;
  shell_loop fuel (local junk 256);;
  finish (Exited 0).
End main.
