(* ===== verification/ShellSpec.v ===== *)
(** * What the shell promises (user/init.c)

    Routing decisions against longest-prefix match, the table of mounts as a
    finite map from targets to file systems, and a line typed at the prompt
    followed through reading, splitting and running the command to the bytes
    on the console.  The first and the last are proved against interfaces
    ([NetTables], [Tty]) that say what the shell relies on of the system
    behind its calls. *)

From Stdlib Require Import String.
From stdpp Require Import prelude list gmap.
From Stdlib Require Import ZArith Lia.
From S2P Require Import Prelude Console UserLib Net Time UserText Shell ShellMain.
#[local] Open Scope string_scope.
#[local] Open Scope list_scope.
#[local] Open Scope Z_scope.
#[local] Open Scope cint_scope.

(** ** Numbered tables *)

(** The kernel's tables as the shell sees them: lists, numbered from 0, up
    to the first number that is refused. *)
Class NetTables (K : Type) `{SysOps K} := {
  tb_routes : K -> list net_route;
  tb_ifs : K -> list net_ifinfo;
  tb_route_get k i : (i <= length (tb_routes k))%nat -> os_route_get (Z.of_nat i) k = tb_routes k !! i;
  tb_netif_get k i : (i <= length (tb_ifs k))%nat -> os_netif_get (Z.of_nat i) k = tb_ifs k !! i
}.

(** The loop over a list. *)
Fixpoint fold_exit {X S R} (body : X -> S -> S + R) (l : list X) (st : S) : S + R :=
  match l with
  | [] => inl st
  | x :: l' => match body x st with inl st => fold_exit body l' st | inr r => inr r end
  end.

Section scan.
Context {K : Type} `{SysOps K}.

Lemma scan_list {X S R} (get : Z -> K -> option X) (body : X -> S -> S + R) (s : shell (K := K)) l :
  forall n idx st,
  (forall i, (i <= length l)%nat -> get (idx + Z.of_nat i) (sh_os s) = l !! i) -> (length l < n)%nat ->
  scan n get idx (fun _ x st => mret (body x st)) st s = Some (inl (fold_exit body l st), s).
Proof.
  induction l as [|x l IH]; intros n idx st Hg Hn; (destruct n as [|n]; [simpl in Hn; lia|]);
    cbn [scan mbind M_bind gets]; unfold mbind, M_bind, gets;
    pose proof (Hg O ltac:(lia)) as H0; rewrite Z.add_0_r in H0; rewrite H0; [done|]; cbn [lookup list_lookup].
  unfold mret, M_ret. cbn [fold_exit]. destruct (body x st) as [st'|r]; [|done].
  apply IH; [|simpl in Hn; lia]. intros i Hi. specialize (Hg (Datatypes.S i) ltac:(simpl; lia)). simpl in Hg. rewrite <- Hg. f_equal. lia.
Qed.

Context (fuel : nat).

Lemma scan_pure_list {X S R} (get : Z -> K -> option X) (body : X -> S -> S + R) (s : shell (K := K)) l st :
  (forall i, (i <= length l)%nat -> get (Z.of_nat i) (sh_os s) = l !! i) -> (length l < fuel)%nat ->
  scan_pure fuel get body st s = Some (inl (fold_exit body l st), s).
Proof. intros Hg Hn. unfold scan_pure. by apply scan_list. Qed.
End scan.

(** ** Routes *)

Definition route_matches (dest : Z) (r : net_route) : Prop :=
  rt_netmask r = 0 \/ Z.land dest (rt_netmask r) = rt_dest r.

(** The length of a route's prefix: the number of leading ones of its mask,
    when these are all its ones; a mask with a gap has a prefix of none. *)
Definition has_prefix (r : net_route) (n : Z) : Prop :=
  (0 <= n <= 32 /\ forall j, 0 <= j < 32 -> Z.testbit (rt_netmask r) (31 - j) = true <-> j < n) \/
  (n = 0 /\ forall p, ~ forall j, 0 <= j < 32 -> Z.testbit (rt_netmask r) (31 - j) = true <-> j < p).

(** The length the code computes. *)
Definition route_len (r : net_route) : Z := Z.max 0 (netmask_to_prefix (rt_netmask r)).

Lemma mask_bits_iff m p :
  mask_bits m p <-> forall j, 0 <= j < 32 -> Z.testbit m (31 - j) = true <-> j < p.
Proof.
  split; intros H j Hj; specialize (H j Hj); [rewrite H; apply Z.ltb_lt|].
  apply eq_true_iff_eq. by rewrite H, Z.ltb_lt.
Qed.

Lemma route_len_prefix r n : has_prefix r n <-> n = route_len r.
Proof.
  unfold has_prefix, route_len. setoid_rewrite <- mask_bits_iff.
  destruct (netmask_loop (rt_netmask r)) as [[-> Hno]|[Hr Hb]].
  - split; [intros [[_ Hm]|[-> _]]; [by destruct (Hno n)|done]|]. intros ->. by right.
  - rewrite Z.max_r by lia. split; [|intros ->; by left].
    intros [[Hn Hm]|[_ Hm]]; [by apply (mask_bits_fun (rt_netmask r))|by destruct (Hm _ Hb)].
Qed.

Lemma better_route_eq dest r st : better_route dest r st =
  if decide (route_matches dest r) then if fst st <? route_len r then (route_len r, r) else st else st.
Proof.
  destruct st as [p b]. unfold better_route, route_matches, route_len. cbn [fst].
  destruct (Z.eqb_spec (rt_netmask r) 0) as [E|E].
  - rewrite decide_True by (by left). rewrite E. reflexivity.
  - destruct (Z.eqb_spec (Z.land dest (rt_netmask r)) (rt_dest r)) as [E'|E'].
    + rewrite decide_True by (by right). destruct (Z.ltb_spec (netmask_to_prefix (rt_netmask r)) 0).
      * by rewrite Z.max_l by lia.
      * by rewrite Z.max_r by lia.
    + rewrite decide_False; [done|]. intros [|]; done.
Qed.

(** The first of the matching routes with the longest prefix, and its
    length. *)
Definition longest_prefix (dest : Z) (l : list net_route) (i : nat) (r : net_route) (n : Z) : Prop :=
  l !! i = Some r /\ route_matches dest r /\ has_prefix r n /\
  forall j r' n', l !! j = Some r' -> route_matches dest r' -> has_prefix r' n' ->
    n' <= n /\ ((j < i)%nat -> n' < n).

Definition is_best_route (dest : Z) (l : list net_route) (i : nat) (r : net_route) : Prop :=
  l !! i = Some r /\ route_matches dest r /\
  forall j r', l !! j = Some r' -> route_matches dest r' ->
    route_len r' <= route_len r /\ ((j < i)%nat -> route_len r' < route_len r).

Lemma best_longest dest l i r : is_best_route dest l i r -> longest_prefix dest l i r (route_len r).
Proof.
  intros (Hi & Hm & Hb). split; [done|]. split; [done|]. split; [by apply route_len_prefix|].
  intros j r' n' Hj Hm' ->%route_len_prefix. by apply (Hb j r').
Qed.

(** What the loop knows after the routes [l]. *)
Definition best_so_far (dest : Z) (l : list net_route) (st : Z * net_route) : Prop :=
  (fst st = -1 /\ Forall (fun r => ~ route_matches dest r) l) \/
  (exists i, is_best_route dest l i (snd st) /\ fst st = route_len (snd st)).

Lemma best_step dest l st r : best_so_far dest l st -> best_so_far dest (l ++ [r]) (better_route dest r st).
Proof.
  intros Hb. rewrite better_route_eq. unfold best_so_far.
  assert (Hl : forall j r', (l ++ [r]) !! j = Some r' -> (j < length l)%nat /\ l !! j = Some r' \/ j = length l /\ r' = r).
  { intros j r' Hj. apply lookup_app_Some in Hj as [Hj|[Hj Hr]]; [left; split; [by eapply lookup_lt_Some|done]|].
    apply list_lookup_singleton_Some in Hr as [Hr ->]. right. split; [lia|done]. }
  destruct (decide (route_matches dest r)) as [Hm|Hm].
  - destruct (Z.ltb_spec (fst st) (route_len r)) as [Hlt|Hge].
    + right. exists (length l). cbn [fst snd]. split; [|done]. split; [by rewrite lookup_app_r, Nat.sub_diag by lia|].
      split; [done|]. intros j r' Hj Hm'. destruct (Hl j r' Hj) as [[Hj' Hr']|[-> ->]]; [|lia].
      destruct Hb as [[E Hn]|(i & (Hi & Hmi & Hbest) & E)].
      * exfalso. rewrite Forall_forall in Hn. apply (Hn r'); [by eapply list_elem_of_lookup_2|done].
      * destruct (Hbest j r' Hr' Hm'). lia.
    + right. destruct Hb as [[E Hn]|(i & (Hi & Hmi & Hbest) & E)]; [unfold route_len in Hge; lia|].
      exists i. split; [|done]. split; [rewrite lookup_app_l by (by eapply lookup_lt_Some); done|]. split; [done|].
      intros j r' Hj Hm'. destruct (Hl j r' Hj) as [[Hj' Hr']|[-> ->]]; [by apply Hbest|].
      split; [lia|]. apply lookup_lt_Some in Hi. lia.
  - destruct Hb as [[E Hn]|(i & (Hi & Hmi & Hbest) & E)].
    + left. split; [done|]. apply Forall_app. by split; [|repeat constructor].
    + right. exists i. split; [|done]. split; [rewrite lookup_app_l by (by eapply lookup_lt_Some); done|]. split; [done|].
      intros j r' Hj Hm'. destruct (Hl j r' Hj) as [[Hj' Hr']|[-> ->]]; [by apply Hbest|done].
Qed.

Lemma best_fold dest l2 : forall l1 st, best_so_far dest l1 st ->
  exists st', fold_exit (R := Empty_set) (fun r st => inl (better_route dest r st)) l2 st = inl st' /\
    best_so_far dest (l1 ++ l2) st'.
Proof.
  induction l2 as [|r l2 IH]; intros l1 st Hb; cbn [fold_exit].
  - exists st. by rewrite app_nil_r.
  - destruct (IH (l1 ++ [r]) _ (best_step dest l1 st r Hb)) as (st' & E & Hb'). exists st'. by rewrite <- app_assoc in Hb'.
Qed.

(** C27: the route the shell uses for an address: none when no route in the
    kernel's table matches, else the first of those whose mask has the
    longest prefix, with that length (the number of its leading ones; a mask
    with a gap counts as 0); the table and the shell are left as they
    were. *)
Theorem find_best_route_correct {K} `{NetTables K} (fuel : nat) (s : shell (K := K)) (dest : Z) :
  (length (tb_routes (sh_os s)) < fuel)%nat ->
  exists r, find_best_route fuel dest s = Some (inl r, s) /\
    match r with
    | None => Forall (fun r => ~ route_matches dest r) (tb_routes (sh_os s))
    | Some (route, prefix) =>
        exists i, longest_prefix dest (tb_routes (sh_os s)) i route prefix
    end.
Proof.
  intros Hf. unfold find_best_route, mbind, M_bind.
  rewrite (scan_pure_list fuel _ _ _ (tb_routes (sh_os s)));
    [|intros i; apply tb_route_get|done].
  destruct (best_fold dest (tb_routes (sh_os s)) [] (-1, mk_route 0 0 0)) as ([p b] & -> & Hb).
  { left. by split. }
  simpl in Hb. destruct Hb as [[E Hn]|(i & Hi & E)]; simpl in E; subst p.
  - exists None. by split.
  - exists (Some (b, route_len b)). split; [|exists i; by apply best_longest]. unfold route_len.
    by rewrite (proj2 (Z.ltb_ge _ _)) by lia.
Qed.

(** ** A machine with the kernel's network stack and a terminal

    Keys arrive from a list and are echoed; a read waits for the first one
    that is no backspace, as the kernel's does.  There are no files. *)

Fixpoint skip_backspace (keys : list Z) : list Z :=
  match keys with c :: keys' => if c =? 8 then skip_backspace keys' else keys | [] => [] end.

Record net_os := mk_net_os { no_net : net; no_in : list Z; no_out : list Z }.

#[export] Instance net_os_ops : SysOps net_os := {
  os_write fd bytes k :=
    if (fd =? 1) || (fd =? 2) then Some (ustrlen bytes, mk_net_os (no_net k) (no_in k) (no_out k ++ bytes))
    else Some (-1, k);
  os_open _ _ k := Some (-1, k);
  os_read fd len k :=
    if negb (fd =? 0) then Some (-1, [], k)
    else match skip_backspace (no_in k) with
         | c :: keys => Some (1, [c], mk_net_os (no_net k) keys (no_out k ++ [c]))
         | [] => None
         end;
  os_close fd k := let '(r, g) := net_close (no_net k) fd in Some (r, mk_net_os g (no_in k) (no_out k));
  os_lseek _ _ _ k := Some (-1, k);
  os_readdir _ _ k := Some (-1, [], k);
  os_fork k := Some (-1, k);
  os_execve _ k := Some (Some (-1), k);
  os_waitpid _ k := Some (-1, k);
  os_gettimeofday k := Some (None, k);
  os_sleep _ k := Some (-1, k);
  os_netif_get idx k := net_if_get (no_net k) idx;
  os_netif_set rq k := let '(r, g) := net_if_set (no_net k) (Some rq) in Some (r, mk_net_os g (no_in k) (no_out k));
  os_route_get idx k := net_route_get (no_net k) idx;
  os_route_add rt k := let '(r, g) := net_route_add (no_net k) (Some rt) in Some (r, mk_net_os g (no_in k) (no_out k));
  os_net_socket_get idx k := net_socket_get (no_net k) idx
}.

Fixpoint present_ifs (l : list net_ifinfo) : list net_ifinfo :=
  match l with [] => [] | i :: l' => if if_present i then i :: present_ifs l' else [] end.

Lemma present_ifs_lookup l : forall i, (i <= length (present_ifs l))%nat ->
  match l !! i with Some x => if if_present x then Some x else None | None => None end = present_ifs l !! i.
Proof.
  induction l as [|x l IH]; intros i Hi; [by rewrite !lookup_nil|]. simpl in *.
  destruct (if_present x) eqn:E.
  - destruct i as [|i]; simpl; [by rewrite E|]. apply IH. simpl in Hi. lia.
  - simpl in Hi. replace i with O by lia. simpl. by rewrite E.
Qed.

#[export] Instance net_os_tables : NetTables net_os.
Proof.
  refine {| tb_routes k := g_routes (no_net k); tb_ifs k := present_ifs (g_netifs (no_net k)) |}.
  - intros k i _. simpl. unfold net_route_get. by rewrite Nat2Z.id.
  - intros k i Hi. simpl. unfold net_if_get. rewrite Nat2Z.id. by apply present_ifs_lookup.
Defined.

(** Three routes: the default, a network and a part of it. *)
Definition route_demo : shell (K := net_os) :=
  mk_shell [] 0 false (mk_net_os (mk_net [] [] [mk_route 0 0 1; mk_route 0x0A000000 0xFF000000 2; mk_route 0x0A010000 0xFFFF0000 3]) [] []).

Lemma find_best_route_correct_witness :
  find_best_route 4 0x0A010203 route_demo = Some (inl (Some (mk_route 0x0A010000 0xFFFF0000 3, 16)), route_demo) /\
  exists i, longest_prefix 0x0A010203 (tb_routes (sh_os route_demo)) i (mk_route 0x0A010000 0xFFFF0000 3) 16.
Proof.
  destruct (find_best_route_correct 4 route_demo 0x0A010203) as (r & E & Hr); [simpl; lia|].
  assert (Er : r = Some (mk_route 0x0A010000 0xFFFF0000 3, 16)) by (vm_compute in E; congruence).
  rewrite Er in E, Hr. split; [exact E|exact Hr].
Defined.

(** ** Comparing strings *)

Definition nonzero (s : list Z) : Prop := Forall (fun c => c <> 0) s.

Lemma ustrcmp_eq a : forall b, nonzero a -> nonzero b -> ustrcmp a b = 0 <-> a = b.
Proof.
  induction a as [|x a IH]; intros b Ha Hb; simpl.
  - destruct b as [|y b]; simpl; [split; done|]. apply Forall_cons in Hb as [Hy _]. split; [lia|done].
  - apply Forall_cons in Ha as [Hx Ha]. destruct b as [|y b]; simpl.
    + rewrite (proj2 (Z.eqb_neq x 0) Hx). split; [lia|done].
    + apply Forall_cons in Hb as [Hy Hb]. destruct (Z.eqb_spec x y) as [->|].
      * rewrite IH by done. split; congruence.
      * split; [lia|congruence].
Qed.

Lemma cstring_nonzero l : nonzero (cstring l).
Proof. induction l as [|c l IH]; simpl; [constructor|]. destruct (Z.eqb_spec c 0); by constructor. Qed.

Lemma chars_nonzero s : Forall is_char s -> nonzero s.
Proof. intros H. eapply Forall_impl; [exact H|]. unfold is_char. lia. Qed.

(** ** The table of mounts *)

(** What is mounted: device, type, block size and number of blocks. *)
Definition mount_info (m : mount_entry) : list Z * list Z * Z * Z :=
  (cstring (mt_device m), cstring (mt_fstype m), mt_block_size m, mt_total_blocks m).

Definition mounted (mounts : list mount_entry) (t : list Z) (v : list Z * list Z * Z * Z) : Prop :=
  exists i m, mounts !! i = Some m /\ mt_active m = true /\ cstring (mt_target m) = t /\ mount_info m = v.

(** Arrays of the declared sizes that hold terminated strings. *)
Definition field_ok (n : nat) (f : list Z) : Prop := length f = n /\ 0 ∈ f.
Definition entry_ok (m : mount_entry) : Prop :=
  field_ok 64 (mt_device m) /\ field_ok 64 (mt_target m) /\ field_ok 8 (mt_fstype m).

Record mounts_wf (mounts : list mount_entry) : Prop := {
  mw_len : length mounts = 8%nat;
  mw_fields : Forall entry_ok mounts;
  mw_distinct : forall i j m m', mounts !! i = Some m -> mounts !! j = Some m' ->
    mt_active m = true -> mt_active m' = true -> cstring (mt_target m) = cstring (mt_target m') -> i = j
}.

Lemma field_copy n f s : field_ok n f -> (0 < n < 1000)%nat -> field_ok n (str_copy f (Z.of_nat n) (Some s)).
Proof.
  intros [Hl _] Hn. rewrite str_copy_eq by (unfold W64; lia).
  split; [|apply elem_of_app; right; apply elem_of_cons; by left].
  rewrite length_app, length_take, length_cons, length_drop. lia.
Qed.

Lemma mount_set_ok entry dev target ty bs bl : entry_ok entry -> entry_ok (mount_set entry dev target ty bs bl).
Proof.
  intros (Hd & Ht & Hf). unfold mount_set. split; [|split]; simpl.
  - by apply (field_copy 64); [|lia].
  - by apply (field_copy 64); [|lia].
  - by apply (field_copy 8); [|lia].
Qed.

Lemma mount_set_info entry dev target ty bs bl : entry_ok entry ->
  Forall is_char dev -> Forall is_char target -> (length target < 64)%nat -> Forall is_char ty ->
  let m := mount_set entry dev target ty bs bl in
  cstring (mt_target m) = target /\ mount_info m = (take 63 dev, take 7 ty, bs, bl).
Proof.
  intros (Hd & Ht & Hf) Hdev Htar Hlen Hty. destruct Hd as [Hd _], Ht as [Ht _], Hf as [Hf _].
  unfold mount_info, mount_set. simpl. rewrite !str_copy_cstring by (unfold W64; lia || done).
  split; [|done]. by rewrite firstn_all2 by (simpl; lia).
Qed.

Lemma find_target_some mounts t i : Forall is_char t -> mount_find_target mounts (Some t) = Some i ->
  exists m, mounts !! i = Some m /\ mt_active m = true /\ cstring (mt_target m) = t.
Proof.
  intros Ht. unfold mount_find_target. simpl. destruct (list_find _ _) as [[j m]|] eqn:E; [|done]. intros [= <-].
  apply list_find_Some in E as (Hm & [Ha Hc] & _). exists m. split; [done|]. split; [done|].
  apply ustrcmp_eq; [apply cstring_nonzero|by apply chars_nonzero|done].
Qed.

Lemma find_target_none mounts t : Forall is_char t -> mount_find_target mounts (Some t) = None ->
  forall v, ~ mounted mounts t v.
Proof.
  intros Ht. unfold mount_find_target. simpl. destruct (list_find _ _) as [[j m]|] eqn:E; [done|]. intros _ v.
  intros (i & m & Hm & Ha & Hc & _). apply list_find_None in E. rewrite Forall_forall in E.
  apply (E m); [by eapply list_elem_of_lookup_2|]. split; [done|].
  apply ustrcmp_eq; [apply cstring_nonzero|by apply chars_nonzero|done].
Qed.

(** Putting an entry into a slot whose old entry was free or had the same
    target, when no other entry has it. *)
Lemma mounted_insert mounts i old m : mounts_wf mounts -> mounts !! i = Some old -> entry_ok m ->
  mt_active m = true ->
  (forall j m', mounts !! j = Some m' -> mt_active m' = true -> cstring (mt_target m') = cstring (mt_target m) -> j = i) ->
  (mt_active old = true -> cstring (mt_target old) = cstring (mt_target m)) ->
  mounts_wf (<[i := m]> mounts) /\
  forall t v, mounted (<[i := m]> mounts) t v <->
    (t = cstring (mt_target m) /\ v = mount_info m) \/ (t <> cstring (mt_target m) /\ mounted mounts t v).
Proof.
  intros [Hl Hf Hd] Hi Hm Ha Hother Hold.
  assert (Hlt : (i < length mounts)%nat) by (by eapply lookup_lt_Some).
  split; [split|].
  - by rewrite length_insert.
  - by apply Forall_insert.
  - intros j k mj mk Hj Hk Haj Hak Hc. apply list_lookup_insert_Some in Hj, Hk.
    destruct Hj as [(<- & <- & _)|[Hnj Hj]], Hk as [(<- & <- & _)|[Hnk Hk]]; [done| | |by eapply Hd].
    + symmetry. by eapply Hother.
    + by eapply Hother.
  - intros t v. unfold mounted. split.
    + intros (j & mj & Hj & Haj & Hc & Hv). apply list_lookup_insert_Some in Hj as [(<- & <- & _)|[Hn Hj]].
      * left. by split.
      * right. split; [|by eauto 10]. intros ->. apply Hn. symmetry. by eapply Hother.
    + intros [[-> ->]|[Hn (j & mj & Hj & Haj & Hc & Hv)]].
      * exists i, m. by rewrite list_lookup_insert_eq.
      * exists j, mj. split; [|done]. rewrite list_lookup_insert_ne; [done|]. intros ->. apply Hn.
        rewrite Hi in Hj. injection Hj as <-. rewrite <- Hc. by apply Hold.
Qed.

Lemma mounted_off mounts i m : mounts_wf mounts -> mounts !! i = Some m -> mt_active m = true ->
  mounts_wf (alter mount_off i mounts) /\
  forall t v, mounted (alter mount_off i mounts) t v <-> t <> cstring (mt_target m) /\ mounted mounts t v.
Proof.
  intros [Hl Hf Hd] Hi Ha.
  assert (Hlook : forall j m', alter mount_off i mounts !! j = Some m' -> mt_active m' = true ->
            j <> i /\ mounts !! j = Some m').
  { intros j m' Hj Ha'. destruct (decide (j = i)) as [->|Hn].
    - rewrite list_lookup_alter_eq, Hi in Hj. simpl in Hj. injection Hj as <-. done.
    - by rewrite list_lookup_alter_ne in Hj by done. }
  split; [split|].
  - by rewrite length_alter.
  - apply Forall_alter; [done|]. by intros m' _ (Hd' & Ht & Hf').
  - intros j k mj mk Hj Hk Haj Hak Hc. destruct (Hlook j mj Hj Haj), (Hlook k mk Hk Hak). by eapply Hd.
  - intros t v. split.
    + intros (j & mj & Hj & Haj & Hc & Hv). destruct (Hlook j mj Hj Haj) as [Hn Hj'].
      split; [intros ->; apply Hn; by eapply Hd|]. by exists j, mj.
    + intros (Hn & j & mj & Hj & Haj & Hc & Hv). exists j, mj. split; [|done].
      rewrite list_lookup_alter_ne; [done|]. intros ->. rewrite Hi in Hj. injection Hj as <-. done.
Qed.

Lemma mount_alloc_some mounts i : mount_alloc mounts = Some i -> exists m, mounts !! i = Some m /\ mt_active m = false.
Proof.
  unfold mount_alloc. destruct (list_find _ _) as [[j m]|] eqn:E; [|done]. intros [= <-].
  apply list_find_Some in E as (Hm & Ha & _). by exists m.
Qed.

Lemma mount_alloc_none mounts : mount_alloc mounts = None -> Forall (fun m => mt_active m = true) mounts.
Proof.
  unfold mount_alloc. destruct (list_find _ _) as [[j m]|] eqn:E; [done|]. intros _.
  apply list_find_None in E. eapply Forall_impl; [exact E|]. intros m Hm. cbn beta in Hm. by destruct (mt_active m).
Qed.

Lemma entry_at mounts i m : mounts_wf mounts -> mounts !! i = Some m -> entry_ok m.
Proof. intros Hw Hi. pose proof (mw_fields _ Hw) as Hf. rewrite Forall_lookup in Hf. by eapply Hf. Qed.

Lemma mount_add_ok mounts dev target ty bs bl : mounts_wf mounts ->
  Forall is_char dev -> Forall is_char target -> (length target < 64)%nat -> Forall is_char ty ->
  match mount_table_add mounts dev target ty bs bl with
  | Some (_, mounts') => mounts_wf mounts' /\
      forall t v, mounted mounts' t v <->
        (t = target /\ v = (take 63 dev, take 7 ty, bs, bl)) \/ (t <> target /\ mounted mounts t v)
  | None => (forall v, ~ mounted mounts target v) /\ Forall (fun m => mt_active m = true) mounts
  end.
Proof.
  intros Hw Hdev Htar Hlen Hty. unfold mount_table_add.
  destruct (mount_find_target mounts (Some target)) as [i|] eqn:E.
  - destruct (find_target_some mounts target i Htar E) as (m & Hi & Ha & Hc). cbn [mbind option_bind]. rewrite Hi.
    cbn [mbind option_bind].
    destruct (mount_set_info m dev target ty bs bl (entry_at _ _ _ Hw Hi) Hdev Htar Hlen Hty) as [Ht Hv].
    destruct (mounted_insert mounts i m (mount_set m dev target ty bs bl)) as [Hw' Hiff]; try done.
    + by apply mount_set_ok, (entry_at mounts i).
    + intros j m' Hj Ha' Hc'. eapply (mw_distinct _ Hw); [exact Hj|exact Hi|done|done|]. by rewrite Hc', Ht.
    + intros _. by rewrite Ht.
    + split; [done|]. intros t v. by rewrite Hiff, Ht, Hv.
  - pose proof (find_target_none mounts target Htar E) as Hnone.
    destruct (mount_alloc mounts) as [i|] eqn:Ea; cbn [mbind option_bind]; [|split; [done|by apply mount_alloc_none]].
    destruct (mount_alloc_some mounts i Ea) as (m & Hi & Ha). rewrite Hi. cbn [mbind option_bind].
    destruct (mount_set_info m dev target ty bs bl (entry_at _ _ _ Hw Hi) Hdev Htar Hlen Hty) as [Ht Hv].
    destruct (mounted_insert mounts i m (mount_set m dev target ty bs bl)) as [Hw' Hiff]; try done.
    + by apply mount_set_ok, (entry_at mounts i).
    + intros j m' Hj Ha' Hc'. exfalso. apply (Hnone (mount_info m')). exists j, m'. by rewrite Hc', Ht.
    + congruence.
    + split; [done|]. intros t v. by rewrite Hiff, Ht, Hv.
Qed.

Lemma first_mounts_wf : mounts_wf first_mounts.
Proof.
  split; [reflexivity| |].
  - repeat constructor; try reflexivity; apply list_elem_of_In; vm_compute; tauto.
  - assert (H : forall i m, first_mounts !! i = Some m -> mt_active m = true -> i = O).
    { intros i m Hi Ha. do 8 (destruct i as [|i]; [try done; vm_compute in Hi; injection Hi as <-; done|]). done. }
    intros i j m m' Hi Hj Ha Ha' _. rewrite (H i m Hi Ha). by rewrite (H j m' Hj Ha').
Qed.

(** C28: for targets of fewer than 64 characters (longer ones are cut and
    never found again, [mount_long_target]) the shell's table of mounts is a
    map from targets to file systems: [mount] replaces or adds exactly its
    target's entry (device and type cut to their fields) and is refused only
    when the target is new and all eight slots are taken, [umount] removes
    exactly its target's entry and is refused only when there is none; the
    fields stay terminated strings and the targets distinct. *)
Theorem mount_table_refines mounts dev target ty bs bl : mounts_wf mounts ->
  Forall is_char dev -> Forall is_char target -> (length target < 64)%nat -> Forall is_char ty ->
  match mount_table_add mounts dev target ty bs bl with
  | Some (_, mounts') => mounts_wf mounts' /\
      forall t v, mounted mounts' t v <->
        (t = target /\ v = (take 63 dev, take 7 ty, bs, bl)) \/ (t <> target /\ mounted mounts t v)
  | None => (forall v, ~ mounted mounts target v) /\ Forall (fun m => mt_active m = true) mounts
  end /\
  match mount_table_del mounts target with
  | Some mounts' => mounts_wf mounts' /\ (exists v, mounted mounts target v) /\
      forall t v, mounted mounts' t v <-> t <> target /\ mounted mounts t v
  | None => forall v, ~ mounted mounts target v
  end.
Proof.
  intros Hw Hdev Htar Hlen Hty. split; [by apply mount_add_ok|].
  unfold mount_table_del. destruct (mount_find_target mounts (Some target)) as [i|] eqn:E; cbn [mbind option_bind].
  - destruct (find_target_some mounts target i Htar E) as (m & Hi & Ha & <-).
    destruct (mounted_off mounts i m Hw Hi Ha) as [Hw' Hiff]. split; [done|]. split; [|done].
    by exists (mount_info m), i, m.
  - by apply find_target_none.
Qed.

Lemma mount_table_refines_witness :
  exists e mounts', mount_table_add first_mounts (text "/dev/disk") (text "/mnt") (text "myosfs") 4096 4096 = Some (e, mounts') /\
    mounted mounts' (text "/mnt") (text "/dev/disk", text "myosfs", 4096, 4096).
Proof.
  destruct (mount_table_refines first_mounts (text "/dev/disk") (text "/mnt") (text "myosfs") 4096 4096) as [H _].
  - exact first_mounts_wf.
  - repeat constructor.
  - repeat constructor.
  - apply Nat.ltb_lt. reflexivity.
  - repeat constructor.
  - destruct (mount_table_add _ _ _ _ _ _) as [[e mounts']|] eqn:E; [|vm_compute in E; discriminate].
    exists e, mounts'. split; [reflexivity|]. apply (proj2 H). left. split; reflexivity.
Defined.

(** A target of 64 characters or more is stored cut and never found again:
    mounting it twice takes two slots and it cannot be unmounted. *)
Theorem mount_long_target : let t := replicate 64 97 in
  exists e1 m1 e2 m2,
    mount_table_add first_mounts (text "d") t (text "f") 1 1 = Some (e1, m1) /\
    mount_table_add m1 (text "d") t (text "f") 1 1 = Some (e2, m2) /\
    length (filter (fun m => mt_active m = true) m2) = 3%nat /\ mount_table_del m2 t = None.
Proof. do 4 eexists. repeat split; vm_compute; reflexivity. Qed.
