(* ===== verification/ShellRun.v ===== *)
(** * A line at the prompt (user/init.c)

    From the keys typed to the bytes on the console: the prompt, reading
    and editing the line, splitting it and running the command, against the
    interface [Tty] of a terminal.  Effects compose by [io]: the value a
    computation returns, the keys it consumes and the bytes it writes. *)

From Stdlib Require Import String.
From stdpp Require Import prelude list.
From Stdlib Require Import ZArith Lia.
From S2P Require Import Prelude Console UserLib Net UserText Shell ShellMain ShellSpec.
#[local] Open Scope string_scope.
#[local] Open Scope list_scope.
#[local] Open Scope Z_scope.
#[local] Open Scope cint_scope.

(** A terminal: characters typed and not read yet, bytes written.  Reading
    one character returns the next one that is no backspace and echoes it;
    backspaces are passed over, since the kernel has nothing to take back
    when a read begins ([stdin_read_chars], proved as [edit_line_one]). *)
Class Tty (K : Type) `{SysOps K} := {
  tty_in : K -> list Z;
  tty_out : K -> list Z;
  tty_write k bytes : exists k', os_write 1 bytes k = Some (ustrlen bytes, k') /\
    tty_in k' = tty_in k /\ tty_out k' = tty_out k ++ bytes;
  tty_read k c keys : tty_in k = c :: keys -> c <> 8 -> exists k', os_read 0 1 k = Some (1, [c], k') /\
    tty_in k' = keys /\ tty_out k' = tty_out k ++ [c];
  tty_skip k keys : tty_in k = 8 :: keys -> exists k', os_read 0 1 k = os_read 0 1 k' /\
    tty_in k' = keys /\ tty_out k' = tty_out k
}.

#[export] Instance net_os_tty : Tty net_os.
Proof.
  refine {| tty_in := no_in; tty_out := no_out |}.
  - intros k bytes. by eexists.
  - intros k c keys E Hc. simpl. rewrite E. simpl. rewrite (proj2 (Z.eqb_neq c 8) Hc). by eexists.
  - intros k keys E. exists (mk_net_os (no_net k) keys (no_out k)). simpl. by rewrite E.
Defined.

Section run.
Context {K : Type} `{Tty K} (junk : list Z) (fuel : nat).
Context (Hjunk : (1024 <= length junk)%nat).
Implicit Types (s : shell (K := K)).

(** [m] returns [a], takes [keys], writes [out] and leaves the shell's own
    variables alone. *)
Definition io {A} (m : M (K := K) A) (a : A) (keys out : list Z) : Prop :=
  forall s rest, tty_in (sh_os s) = keys ++ rest ->
    exists k', m s = Some (inl a, sh_set_os k' s) /\ tty_in k' = rest /\ tty_out k' = tty_out (sh_os s) ++ out.

Lemma io_ret {A} (a : A) : io (mret a) a [] [].
Proof. intros s rest Hin. exists (sh_os s). rewrite app_nil_r. split; [by destruct s|done]. Qed.

Lemma io_bind {A B} (m : M A) (f : A -> M B) a b k1 o1 k2 o2 :
  io m a k1 o1 -> io (f a) b k2 o2 -> io (m ≫= f) b (k1 ++ k2) (o1 ++ o2).
Proof.
  intros Hm Hf s rest Hin. rewrite <- app_assoc in Hin. destruct (Hm s _ Hin) as (k' & E & Hi & Ho).
  destruct (Hf (sh_set_os k' s) rest Hi) as (k'' & E' & Hi' & Ho').
  exists k''. unfold mbind, M_bind. rewrite E, E'. split; [done|]. split; [done|].
  rewrite Ho'. simpl. by rewrite Ho, <- app_assoc.
Qed.

Lemma io_then {A B} (m : M A) (f : A -> M B) a b o1 k2 o2 :
  io m a [] o1 -> io (f a) b k2 o2 -> io (m ≫= f) b k2 (o1 ++ o2).
Proof. intros Hm Hf. by apply (io_bind m f a b [] o1 k2 o2). Qed.

Lemma io_end {A B} (m : M A) (f : A -> M B) a b k o :
  io m a k o -> io (f a) b [] [] -> io (m ≫= f) b k o.
Proof. intros Hm Hf. rewrite <- (app_nil_r k), <- (app_nil_r o). by eapply io_bind. Qed.

Lemma io_last {A B} (m : M A) (f : A -> M B) a b k o o' :
  io m a k o -> io (f a) b [] o' -> io (m ≫= f) b k (o ++ o').
Proof. intros Hm Hf. rewrite <- (app_nil_r k). by eapply io_bind. Qed.

Lemma io_write bytes : io (do_write 1 bytes) (ustrlen bytes) [] bytes.
Proof.
  intros s rest Hin. destruct (tty_write (sh_os s) bytes) as (k' & E & Hi & Ho).
  exists k'. unfold do_write, call. rewrite E. split; [done|]. by rewrite Hi.
Qed.

Lemma io_write_all l : io (write_all 1 l) tt [] (concat l).
Proof.
  induction l as [|b l IH]; [apply io_ret|]. apply (io_then _ _ (ustrlen b)); [apply io_write|exact IH].
Qed.

Lemma io_print fmt : Forall (fun c => c <> 37) (text fmt) -> (length (text fmt) < 1024)%nat ->
  io (print junk fmt) tt [] (text fmt).
Proof.
  intros Hf Hl. unfold print, printf, printf_fmt.
  rewrite (printf_plain (local junk 1024) (text fmt) []) by (done || (unfold local; rewrite length_take; lia)).
  eapply io_end; [|apply io_ret]. eapply io_end; [apply io_write|apply io_ret].
Qed.

Lemma io_key c : c <> 8 -> io (do_read 0 [0]) (1, [c]) [c] [c].
Proof.
  intros Hc s rest Hin. destruct (tty_read (sh_os s) c rest Hin Hc) as (k' & E & Hi & Ho).
  exists k'. unfold do_read, mbind, M_bind, call. cbn [ustrlen length]. change (ustrlen [0]) with 1. rewrite E.
  by split.
Qed.

(** ** Reading a line *)

(** What a sequence of typed characters becomes. *)
Definition typed (keys : list Z) : list Z := filter (fun c => c <> 8) keys.

Lemma take_set_at buf n c : (n < length buf)%nat -> take (S n) (set_at buf (Z.of_nat n) c) = take n buf ++ [c].
Proof.
  intros Hn. unfold set_at. rewrite Nat2Z.id, (take_S_r _ _ c) by (by rewrite list_lookup_insert_eq).
  by rewrite take_insert_ge by lia.
Qed.

(** A backspace is not seen. *)
Lemma read_skip n pos buf r keys out : pos < 255 ->
  io (read_line_loop n 256 pos buf) r keys out -> io (read_line_loop n 256 pos buf) r (8 :: keys) out.
Proof.
  intros Hp Hio s rest Hin. destruct (tty_skip (sh_os s) (keys ++ rest) Hin) as (k' & Er & Hi & Ho).
  destruct (Hio (sh_set_os k' s) rest Hi) as (k'' & E & Hi' & Ho'). exists k''. rewrite <- Ho.
  split; [|by split]. change (sh_set_os k'' s) with (sh_set_os k'' (sh_set_os k' s)). rewrite <- E. destruct n as [|n]; [done|]. cbn [read_line_loop].
  rewrite (proj2 (Z.ltb_lt _ _)) by lia. unfold do_read, mbind, M_bind, call. cbn [sh_os sh_set_os].
  change (ustrlen [0]) with 1. rewrite Er. destruct (os_read 0 1 k') as [[[x y] z]|]; done.
Qed.

(** One character that does not end the line. *)
Lemma read_step n (line buf : list Z) c r keys out : (length line < 255)%nat -> c <> 10 -> c <> 13 -> c <> 8 ->
  io (read_line_loop n 256 (Z.of_nat (length line) + 1) (set_at buf (Z.of_nat (length line)) c)) r keys out ->
  io (read_line_loop (S n) 256 (Z.of_nat (length line)) buf) r (c :: keys) (c :: out).
Proof.
  intros Hl H10 H13 H8 Hr. cbn [read_line_loop]. rewrite (proj2 (Z.ltb_lt _ _)) by lia.
  change (c :: keys) with ([c] ++ keys). change (c :: out) with ([c] ++ out).
  eapply io_bind; [by apply io_key|]. cbn [nth].
  rewrite (proj2 (Z.leb_gt 1 0)), (proj2 (Z.eqb_neq c 13)), (proj2 (Z.eqb_neq c 10)), (proj2 (Z.eqb_neq c 8)) by lia.
  exact Hr.
Qed.

Lemma line_loop_ok keys : forall n line buf, (length keys < n)%nat -> (length line + length (typed keys) < 255)%nat ->
  length buf = 256%nat -> take (length line) buf = line -> Forall (fun c => c <> 10 /\ c <> 13) keys ->
  let line' := line ++ typed keys in
  exists buf', length buf' = 256%nat /\ take (length line') buf' = line' /\
    io (read_line_loop n 256 (Z.of_nat (length line)) buf) (Z.of_nat (length line'), buf')
      (keys ++ [10]) (typed keys ++ [10]).
Proof.
  induction keys as [|c keys IH]; intros n line buf Hn Hfit Hbuf Hline Hk line'; (destruct n as [|n]; [simpl in Hn; lia|]).
  - subst line'. rewrite app_nil_r. exists buf. split; [done|]. split; [done|]. cbn [read_line_loop app].
    rewrite (proj2 (Z.ltb_lt _ _)) by (cbn in Hfit; lia). change (typed [] ++ [10]) with ([10] ++ [] : list Z).
    rewrite <- (app_nil_r [10]) at 1. eapply io_bind; [by apply io_key|apply io_ret].
  - apply Forall_cons in Hk as [[H10 H13] Hk]. subst line'. unfold typed in *. rewrite filter_cons in *.
    destruct (decide (c <> 8)) as [H8|H8].
    + destruct (IH n (line ++ [c]) (set_at buf (Z.of_nat (length line)) c)) as (buf' & Hb' & Ht' & Hio); try done.
      * simpl in Hn. lia.
      * rewrite length_app. cbn in *. lia.
      * unfold set_at. by rewrite length_insert.
      * rewrite length_app, Nat.add_1_r, take_set_at by (cbn in Hfit; lia). by rewrite Hline.
      * rewrite <- app_assoc in Ht', Hio. exists buf'. split; [done|]. split; [done|].
        apply (read_step n line buf c); try done; [cbn in Hfit; lia|].
        rewrite length_app in Hio. cbn [length] in Hio. rewrite Nat2Z.inj_add in Hio. exact Hio.
    + assert (c = 8) as -> by (destruct (decide (c = 8)); [done|by destruct H8]).
      destruct (IH (S n) line buf) as (buf' & Hb' & Ht' & Hio); try done; [simpl in Hn; lia|].
      exists buf'. split; [done|]. split; [done|]. apply read_skip; [lia|exact Hio].
Qed.

Lemma read_line_ok keys buf : (length keys < fuel)%nat -> (length (typed keys) < 255)%nat -> length buf = 256%nat ->
  Forall (fun c => c <> 10 /\ c <> 13) keys ->
  exists tail, io (read_line fuel buf 256) (Z.of_nat (length (typed keys)), typed keys ++ 0 :: tail)
    (keys ++ [10]) (typed keys ++ [10]).
Proof.
  intros Hn Hfit Hb Hk.
  destruct (line_loop_ok keys fuel [] buf Hn Hfit Hb eq_refl Hk) as (buf' & Hb' & Ht & Hio).
  cbn [app length] in Ht, Hio. exists (drop (S (length (typed keys))) buf').
  unfold read_line. eapply io_end; [exact Hio|]. cbn beta iota.
  replace (set_at buf' (Z.of_nat (length (typed keys))) 0) with (typed keys ++ 0 :: drop (S (length (typed keys))) buf');
    [apply io_ret|].
  rewrite <- (take_drop (length (typed keys)) buf') at 2. rewrite Ht.
  destruct (drop (length (typed keys)) buf') as [|x l] eqn:Ed.
  { apply (f_equal length) in Ed. rewrite length_drop in Ed. simpl in Ed. lia. }
  rewrite set_at_app. f_equal. f_equal. replace (S (length (typed keys))) with (length (typed keys) + 1)%nat by lia.
  by rewrite <- drop_drop, Ed.
Qed.

(** ** The echo command *)

(** Words with one blank between them. *)
Fixpoint unwords (ws : list (list Z)) : list Z :=
  match ws with
  | [] => []
  | [w] => w
  | w :: ws' => w ++ 32 :: unwords ws'
  end.

Lemma echo_pieces_unwords ws : concat (echo_pieces ws ++ [[10]]) = unwords ws ++ [10].
Proof.
  rewrite concat_app. f_equal. induction ws as [|w ws IH]; [done|]. destruct ws as [|w' ws]; [apply app_nil_r|].
  change (echo_pieces (w :: w' :: ws)) with (w :: [32] :: echo_pieces (w' :: ws)).
  change (unwords (w :: w' :: ws)) with (w ++ 32 :: unwords (w' :: ws)). cbn [concat app]. by rewrite IH.
Qed.

Lemma echo_plain args : Forall (fun a => streq a ">" = false) args -> echo_redirect args = (args, None).
Proof. induction 1 as [|a args Ha _ IH]; [done|]. simpl. by rewrite Ha, IH. Qed.

Lemma io_run_echo args : Forall (fun a => streq a ">" = false) args ->
  io (run_command junk fuel (text "echo" :: args)) true [] (unwords args ++ [10]).
Proof.
  intros Ha. unfold run_command. cbn [nth tl].
  change (streq (text "echo") "help") with false. change (streq (text "echo") "ls") with false.
  change (streq (text "echo") "cat") with false. change (streq (text "echo") "touch") with false.
  change (streq (text "echo") "echo") with true. cbn iota.
  unfold cmd_echo. rewrite echo_plain by done. eapply io_end; [|apply io_ret]. rewrite <- echo_pieces_unwords. apply io_write_all.
Qed.

(** C21: a line of at most 254 characters typed at the prompt: the shell
    shows its prompt, takes the keys up to the end of the line, splits the
    line into words and runs the command; for [echo] with at most seven
    words and no redirection the words after it appear on the console with
    one blank between them, and the shell goes on.  Backspaces typed have no
    effect at all: the terminal keeps them from the shell, so that both the
    line and its echo are the other characters. *)
Theorem shell_round_echo keys buf args :
  (length keys < fuel)%nat -> (length (typed keys) < 255)%nat -> length buf = 256%nat ->
  Forall is_char keys -> Forall (fun c => c <> 10 /\ c <> 13) keys ->
  words (typed keys) = text "echo" :: args -> (length args <= 7)%nat ->
  Forall (fun a => streq a ">" = false) args ->
  exists line, io (shell_round junk fuel buf) (true, line) (keys ++ [10])
    (text "myos> " ++ (typed keys ++ [10]) ++ unwords args ++ [10]).
Proof.
  intros Hn Hfit Hb Hc Hk Hw Hargs Hplain.
  destruct (read_line_ok keys buf Hn Hfit Hb Hk) as (tail & Hio).
  assert (Hch : Forall is_char (typed keys)).
  { apply Forall_forall. intros c [_ Hin]%list_elem_of_filter. by eapply Forall_forall. }
  destruct (split_args (typed keys ++ 0 :: tail) 8) as [argv line] eqn:Es.
  exists line. unfold shell_round.
  apply (io_then _ _ tt); [apply io_print; [repeat constructor; discriminate|simpl; lia]|].
  eapply io_last; [exact Hio|]. cbn beta iota.
  assert (Ha : arg_strings (argv, line) = text "echo" :: args).
  { rewrite <- Es, split_args_strings, Hw by done. rewrite firstn_all2; [done|simpl; lia]. }
  assert (Hne : length (typed keys) <> O) by (destruct (typed keys); [discriminate Hw|done]).
  rewrite (proj2 (Z.eqb_neq _ 0)) by lia. rewrite Es.
  replace (length argv =? 0)%nat with false by (destruct argv; [discriminate Ha|done]).
  rewrite Ha. eapply io_end; [by apply io_run_echo|apply io_ret].
Qed.
End run.

(** "echo  hex", a backspace and "y you". *)
Definition demo_keys : list Z := text "echo  hex" ++ [8] ++ text "y you".

Lemma shell_round_echo_witness :
  exists line, io (shell_round (replicate 1024 7) 30 (replicate 256 9)) (true, line) (demo_keys ++ [10])
    (text "myos> " ++ (text "echo  hexy you" ++ [10]) ++ text "hexy you" ++ [10]).
Proof.
  apply (shell_round_echo (K := net_os) (replicate 1024 7) 30) with (keys := demo_keys) (args := [text "hexy"; text "you"]).
  - apply Nat.leb_le. reflexivity.
  - apply Nat.ltb_lt. reflexivity.
  - apply Nat.ltb_lt. reflexivity.
  - reflexivity.
  - repeat constructor.
  - repeat constructor; discriminate.
  - reflexivity.
  - simpl. lia.
  - repeat constructor.
Defined.
